(* ===== verification/_CoqProject ===== *)
-Q . S2P
Prelude.v
Task.v
UMem.v
Rlimit.v
MemLimit.v
Creds.v
Priority.v
Pgrp.v
Uts.v
Rusage.v
PrctlMm.v
ProcTree.v
Prctl.v
Sysinfo.v
Luis.v
Seek.v
ReadWrite.v
FileCopy.v
KernelRw.v
Ledger.v
Stacks.v
Open.v
OpenFile.v
FileAttr.v
ForkMm.v
Fork.v
Clone.v
Vfork.v
Unshare.v
Release.v
Pidfd.v
System.v
Modules.v
BootConf.v
BootArgs.v
Initcall.v
Boot.v
Areas.v
ForkInit.v
Wide.v
Entry.v
Protos.v
Client.v
Programs.v
