(* ===== verification/Prelude.v ===== *)
(** * Verification of the SO2 kernel extensions and the kernel code they live in

    The repository is a Linux 6.8 kernel tree reduced to the files its author
    changed (src/Kernel), five loadable modules (src/Modulos) and user-space
    test programs (src/Pruebas, src/fase3_pruebas).  The author added system
    calls: a memory limiter (kernel/fase3/syscall3.c), a memory snapshot, call
    counters, I/O statistics and [tamalloc] (kernel/sys.c), and the counters
    themselves in fs/read_write.c, fs/open.c and kernel/fork.c.  They run
    inside, and depend on, the rest of those files, so that code is modelled
    too.

    ** How the code is modelled

    Integers are [Z] in the range of their C type with every conversion that
    can wrap written out ([u32], [u64], [s32], [s64], [shl64] below).  A system
    call is a function in the monad [sys S A]: it threads the state of its
    component and may leave early with a return value, keeping the state
    reached so far, as a C function with [return -EINVAL;] in its middle does.
    The reading and writing calls, which pass results through several layers
    that inspect them, thread their state explicitly.  User memory is either a
    map from addresses to the objects stored there ([copy_to_user], [put_user])
    or, where layout matters, byte-addressed (UMem).  Which user addresses
    fault is a parameter ([UAccess]); so is all code outside the repository
    (capabilities, security modules, the scheduler, memory management, file
    drivers): one type class per component, its documented contract as a
    second class of laws when a theorem needs one.  Every theorem holds for
    all instances, and the [Demo] module of each file gives one concrete
    instance and runs the theorem there.  Locks are not modelled: a system
    call is one atomic step, except where the code itself depends on
    interleaving: the lockless sampling of [getrusage] (Rusage), the unlocked
    call counters, where loading and storing back are two steps (System), the
    hand-over after vfork, where the test before the lock and the test under
    it are two steps (Vfork), the caches of kernel stacks (Stacks), the objects
    of memory areas (Areas), deferred release (Release) and the first threads
    (Boot).  Code that acquires and gives back references and objects is run against a [ledger]
    (Ledger), which says what is held, resource by resource.

    ** Files, in dependency order

    - Prelude: machine integers, flags, the monad with its inversion tactic
      ([sys_inv]), relations that every step of a body respects ([keeps]),
      programs as lists of calls ([run_all]) and counters over them.
    - Task: credentials, capabilities, user namespaces.
    - UMem: byte-addressed user memory and C strings.
    - Rlimit: sys.c 1500-1783, [do_prlimit] and the limit system calls, also
      the 32-bit ones.
    - MemLimit: all of kernel/fase3/syscall3.c.  The intrusive list and the
      allocator are an interface with laws; the limiter is proved against it
      to be a finite map from pids to limits (a refinement that fixes every
      return value and everything copied to the caller), and, through
      Rlimit's [do_prlimit], to have every registered limit in force.
    - Creds: sys.c 416-1053, the set*id and get*id calls.
    - Priority: sys.c 217-396, [setpriority] and [getpriority].
    - Pgrp: sys.c 1003-1029 and 1118-1306, process groups and sessions.
    - Uts: sys.c 1308-1497, system names, byte by byte.
    - Rusage: sys.c 1055-1104 and 1785-1946, [times], [getrusage], [umask].
    - PrctlMm: sys.c 1948-2320, PR_SET_MM.
    - ProcTree: [walk_process_tree] of fork.c 3211-3241 and its visitor in
      sys.c 2334-2350.
    - Prctl: sys.c 2322-2810, every option of [prctl].
    - Sysinfo: sys.c 2812-2902 and 3100-3163, [getcpu] and [sysinfo].
    - Luis: sys.c 2904-3095, the system calls of phases 1 and 2.
    - Seek: read_write.c 43-388, files, the seek implementations,
      [rw_verify_area].
    - ReadWrite: read_write.c 28-32, 391-406, 462-508, 576-1140, the reading
      and writing system calls with their call counters.
    - FileCopy: read_write.c 1230-1745, [sendfile], [copy_file_range] and the
      generic checks before a write.
    - KernelRw: read_write.c 408-461, 509-575, 789-911, 1141-1228, the entry
      points for the rest of the kernel and the 32-bit vectored calls.
    - Ledger: what is held, with a tactic for balances.
    - Stacks: fork.c 182-341 and 535-580, kernel stacks, their caches and
      their accounting, up to [free_task], as interleaved steps.
    - Open: open.c 1188-1591, open flags, the open and close system calls.
    - OpenFile: open.c 876-1186 and 1592-1647, [do_dentry_open] and the ways
      to it.
    - FileAttr: open.c 42-875, truncate, fallocate, access, chdir, chroot,
      chmod and chown.
    - ForkMm: fork.c 481-504 and 614-1700, address spaces: duplication,
      reference counts, executable files.
    - Fork: fork.c 1100-2794, [copy_process] with every label of its unwinding.
    - Clone: fork.c 2813-3210, [kernel_clone] and every system call and
      in-kernel caller that leads there, with [fork_call_counter].
    - Vfork: fork.c 1573-1660, the concurrent hand-over of a borrowed address
      space.
    - Unshare: fork.c 3304-3551 and 1000-1018, [unshare] and the limit on
      threads.
    - Release: fork.c 583-612, 845-992, 1363-1393 and 2189-2203, the last
      references to tasks, signal structures and address spaces, with the work
      left to RCU and the work queue; [LazyTlb], the CPUs that still sit on an
      address space.
    - Pidfd: fork.c 1991-2187, files for processes.
    - System: the counters of open.c, read_write.c and fork.c together with
      the system call of sys.c that reports them, first as sequences of calls,
      then as threads that load, add one and store without a lock.
    - Modules: the five modules of src/Modulos, one [Module] each.
    - BootConf: main.c 262-480 and 609-672, the boot configuration behind the
      initial RAM disk and the buffers of the command lines.
    - BootArgs: main.c 136-262, 487-605, 733-770, 799-872 and 1393-1413, boot
      options and the arguments and environment of init.
    - Initcall: main.c 1099-1594, the functions the linker collects, level by
      level, and the way of the init thread to user space.
    - Boot: main.c 674-731 and 874-1089, [start_kernel] on top of the three
      files before, and [Threads], the threads [rest_init] starts, whose
      pids and whose creation, which may fail, are parameters.
    - Areas: fork.c 433-533, the objects behind memory areas (locks, shared
      names, NUMA states), with page faults in RCU read sections and RCU
      callbacks as interleaved steps.
    - ForkInit: fork.c 344-372, 1019-1079 and 3242-3295, the caches and limits
      made at boot, plain kernel stacks, and the small functions that count,
      check and initialise.
    - Wide: the calls with 64-bit offsets (open.c 218-246 and 359-373,
      read_write.c 686-733) for 64-bit and 32-bit programs, and the inline
      functions of Include/syscalls.h.
    - Entry: Include/syscalls.h 106-270, the macros that define system calls:
      the stub that turns registers into arguments.
    - Protos: every prototype of Include/syscalls.h with the configuration it
      is visible in, the argument list of every [SYSCALL_DEFINE] and the rows
      of syscall_64.tbl, as data, and [serve],
      the way from a number to a body.
    - Client: Pruebas/SyscallsP3/ejemplo_test.c, the administration program of
      the limiter, on top of [serve] and MemLimit.
    - Programs: the other programs of Pruebas, with the layout of the
      structures they share with the kernel.

    ** What the theorems show

    - Refinement and invariants of the limiter ([limiter_refines_map],
      [registered_limits_in_force]) and its behaviour in the error cases,
      among them three defects: a failed registration leaves the limit set,
      removing a limit sets another one, and an exited process cannot be
      removed.
    - Privilege: limits are not raised, ids not gained and locks not undone by
      any program of unprivileged calls ([hard_limits_only_shrink],
      [unprivileged_ids_confined], [setuid_drops_for_good],
      [prctl_cannot_unlock]).
    - State invariants over arbitrary programs of calls: limits well formed,
      groups within one session (also under forks), names terminated,
      address-space layouts valid, requests to file drivers within bounds
      ([drivers_get_valid_requests], [copy_requests_sound],
      [attr_requests_sound]).
    - Resources: whatever fails, and wherever, everything taken is given back
      ([copy_process_failure_clean], [dup_mm_all_or_nothing],
      [dentry_open_balanced], [attr_calls_hold_nothing],
      [unshare_balanced] with the one place where the code leaks).
    - What a success yields: a forked child with exactly the parts the flags
      ask for ([copy_process_child]), one new descriptor
      ([open_takes_one_descriptor]), both offsets moved by what was copied
      ([copy_file_range_moves_offsets]).
    - Equivalence with a reference: the stackless tree walk with the recursive
      one ([walk_process_tree_is_dfs], also its termination), the wrapping
      seek computation with unbounded arithmetic ([generic_llseek_is_exact]),
      clone3 with clone, the in-kernel transfers with the system calls
      ([kernel_io_agrees]), the calls of 32-bit programs with those of 64-bit
      ones ([halves_agree], with two calls that differ).
    - From user space to the kernel and back: whatever registers hold, a body
      gets values of the types it declares ([stub_sanitizes_arguments]);
      definitions agree with the prototypes their configuration declares
      ([definitions_match_prototypes]) and are reached by their numbers
      ([table_reaches_definitions]); a session of the administration program
      is a run of the finite map the limiter refines ([session_refines_map]),
      and reads only what the kernel wrote ([client_reads_in_bounds]); the
      statistics programs print what the kernel reported
      ([syscall3_shows_active], [syscall2_shows_counters]), but syscall1.c
      does not ([syscall1_misreads]), and the menu repeats its last action for
      ever when its input ends ([end_of_input_repeats_update]).
    - Concurrency, for every interleaving: [vfork_no_dangling] (no step uses a
      completion that is gone) and [vfork_parent_resumes] (the parent returns
      on every fair schedule); [stacks_owned_once] and
      [stack_accounting_exact] (no kernel stack is shared or charged twice,
      and none is lost unless its last reference was put before the task was
      dead)
      and [stack_alloc_wait_free]; [release_exact] (nothing is used
      after it is freed, and everything without a reference is freed);
      [areas_released_exactly] (the same for areas that page faults use);
      [rest_init_ordered] (init runs only when kthreadd can serve it, unless
      kthreadd could not be started).
    - Booting: a boot configuration is found again as it was appended
      ([bootconfig_roundtrip]) and printed in full ([xbc_make_cmdline_exact]);
      the options reach init within the bounds of its arrays
      ([init_vectors_safe], [options_after_init], with the slot that
      [init_keeps_stale_argument] shows is forgotten); the collected functions
      run once and in order ([initcalls_run_in_order]) and init is the first
      candidate that works ([first_working_init]); [start_kernel_sound] and
      [boot_reaches_init] put these together, from the command line to the
      arguments of the first program.
    - Bounds: what is made at boot exposes only bytes inside its objects, and
      the first limits are half the number of threads
      ([boot_caches_and_limits]); no shift of [sysinfo] overflows, compat conversions round
      trip or round down, percentages stay percentages.
    - The author's system calls: [tamalloc] maps or leaves alone,
      [track_reports_calls] says what the reported numbers count (calls that
      overlap may be lost, [increments_get_lost]), the
      statistics report the right processes; with the places where
      uninitialised kernel stack reaches user space.

    ** Bounds and fuel

    [walk_process_tree] runs with fuel; two iterations per process and one
    more are proved enough.  The halving loop of [do_sysinfo] gets 33 steps
    for a 32-bit unit and the doubling loop of the compat version 12 for a unit
    of at least 1.  A path lookup is retried once, which the LOOKUP_REVAL flag
    of the second attempt enforces in the code too; the delegation retry of
    chmod and chown gets one round per outstanding delegation and one more,
    and [retries_end] proves that enough.  [strlen_at] and the loop over the
    blacklist get the length of the string.  The menu of the administration
    program runs for a number of turns; one per typed choice is proved enough
    to reach its end.  The theorems about these loops
    state the result, not only what happens if one comes out.  All other
    recursion is structural.

    ** Not modelled

    What the subsystems [start_kernel] calls do; of fork.c the
    initialisers of locks, lists and RCU fields; variants of code
    for configurations that x86-64 does not have; locking other than as
    described above, printk, trace points, fsnotify and audit side effects; the files
    modpost generates, Include/uts.h, and waiter_program.c, which only sleeps;
    what x86 puts between the entry of the kernel and the stubs of
    Include/syscalls.h, and the prototypes of the 32-bit entries, which are not
    in the repository. *)
From stdpp Require Export base tactics list gmap strings.
From Stdlib Require Export ZArith Lia ZifyBool.

#[global] Open Scope Z_scope.

(** ** Error codes (positive, as in errno.h; the code returns them negated) *)
Abbreviation EPERM := 1 (only parsing).
Abbreviation ENOENT := 2 (only parsing).
Abbreviation ESRCH := 3 (only parsing).
Abbreviation EINTR := 4 (only parsing).
Abbreviation ENXIO := 6 (only parsing).
Abbreviation EBADF := 9 (only parsing).
Abbreviation E2BIG := 7 (only parsing).
Abbreviation EAGAIN := 11 (only parsing).
Abbreviation ENOMEM := 12 (only parsing).
Abbreviation EACCES := 13 (only parsing).
Abbreviation EFAULT := 14 (only parsing).
Abbreviation EEXIST := 17 (only parsing).
Abbreviation EXDEV := 18 (only parsing).
Abbreviation ENODEV := 19 (only parsing).
Abbreviation ENOTDIR := 20 (only parsing).
Abbreviation EISDIR := 21 (only parsing).
Abbreviation EINVAL := 22 (only parsing).
Abbreviation EBUSY := 16 (only parsing).
Abbreviation ETXTBSY := 26 (only parsing).
Abbreviation EFBIG := 27 (only parsing).
Abbreviation ESPIPE := 29 (only parsing).
Abbreviation EROFS := 30 (only parsing).
Abbreviation ENOSYS := 38 (only parsing).
Abbreviation EOVERFLOW := 75 (only parsing).
Abbreviation EOPNOTSUPP := 95 (only parsing).

(** ** Machine integers

    A C integer is a [Z] in the range of its type; the functions below are the
    conversions the compiler inserts (modulo [2^w], two's complement for the
    signed types). *)
Abbreviation u16_mod := 65536 (only parsing).
Abbreviation u32_mod := 4294967296 (only parsing).
Abbreviation u64_mod := 18446744073709551616 (only parsing).

Definition u16 (x : Z) : Z := x mod u16_mod.
Definition u32 (x : Z) : Z := x mod u32_mod.
Definition u64 (x : Z) : Z := x mod u64_mod.
Definition s32 (x : Z) : Z := (x + 2147483648) mod u32_mod - 2147483648.
Definition s64 (x : Z) : Z := (x + 9223372036854775808) mod u64_mod - 9223372036854775808.

Definition is_u32 (x : Z) : Prop := 0 <= x < u32_mod.
Definition is_u64 (x : Z) : Prop := 0 <= x < u64_mod.
Definition is_s32 (x : Z) : Prop := -2147483648 <= x < 2147483648.
Definition is_s64 (x : Z) : Prop :=
  -9223372036854775808 <= x < 9223372036854775808.

Abbreviation U32_MAX := 4294967295 (only parsing).
Abbreviation U64_MAX := 18446744073709551615 (only parsing).
Abbreviation S32_MAX := 2147483647 (only parsing).
Abbreviation S64_MAX := 9223372036854775807 (only parsing).

(** C's [lhs << k] on a 64-bit unsigned operand. *)
Definition shl64 (x k : Z) : Z := u64 (Z.shiftl x k).

(** [flags & bit] used as a condition. *)
Definition has (flags bit : Z) : bool := negb (Z.land flags bit =? 0).

Lemma u64_small x : is_u64 x -> u64 x = x.
Proof. intros. apply Z.mod_small. done. Qed.
Lemma u32_small x : is_u32 x -> u32 x = x.
Proof. intros. apply Z.mod_small. done. Qed.
Lemma s64_small x : is_s64 x -> s64 x = x.
Proof. unfold s64, is_s64. intros. rewrite Z.mod_small; lia. Qed.
Lemma s32_small x : is_s32 x -> s32 x = x.
Proof. unfold s32, is_s32. intros. rewrite Z.mod_small; lia. Qed.
Lemma u64_range x : is_u64 (u64 x).
Proof. apply Z.mod_pos_bound. lia. Qed.
Lemma u32_range x : is_u32 (u32 x).
Proof. apply Z.mod_pos_bound. lia. Qed.
Lemma u64_idem x : u64 (u64 x) = u64 x.
Proof. apply u64_small, u64_range. Qed.
Lemma s64_add_l x y : s64 (s64 x + y) = s64 (x + y).
Proof.
  unfold s64. f_equal. rewrite <- (Zplus_mod_idemp_l (x + y)).
  replace ((x + 9223372036854775808) mod u64_mod - 9223372036854775808 + y + 9223372036854775808)
    with ((x + 9223372036854775808) mod u64_mod + y) by lia.
  rewrite Zplus_mod_idemp_l. rewrite Zplus_mod_idemp_l. f_equal. lia.
Qed.
Lemma s64_idem x : s64 (s64 x) = s64 x.
Proof. pose proof (s64_add_l x 0) as H. by rewrite !Z.add_0_r in H. Qed.
Lemma shl64_mul x k : 0 <= k -> shl64 x k = u64 (x * 2 ^ k).
Proof. intros. unfold shl64. by rewrite Z.shiftl_mul_pow2. Qed.
Lemma shl64_small x k : 0 <= k -> is_u64 (x * 2 ^ k) -> shl64 x k = x * 2 ^ k.
Proof. intros. rewrite shl64_mul; [|done]. by apply u64_small. Qed.

Lemma s64_range x : is_s64 (s64 x).
Proof. unfold is_s64, s64. pose proof (Z.mod_pos_bound (x + 9223372036854775808) u64_mod). lia. Qed.

(** Setting and clearing a flag, as seen through [has]. *)
Lemma has_lor_same flags bit : bit <> 0 -> has (Z.lor flags bit) bit = true.
Proof.
  intros H. unfold has. rewrite Z.land_comm, Z.land_lor_distr_r, Z.land_diag.
  destruct (Z.eqb_spec (Z.lor (Z.land bit flags) bit) 0) as [E|]; [|done].
  by apply Z.lor_eq_0_iff in E as [_ ?].
Qed.
Lemma has_ldiff_same flags bit : has (Z.ldiff flags bit) bit = false.
Proof.
  unfold has. replace (Z.land (Z.ldiff flags bit) bit) with 0; [done|].
  apply Z.bits_inj'. intros n _.
  rewrite Z.bits_0, Z.land_spec, Z.ldiff_spec.
  by destruct (Z.testbit flags n), (Z.testbit bit n).
Qed.
Lemma has_lor_other flags b b' :
  Z.land b b' = 0 -> has (Z.lor flags b) b' = has flags b'.
Proof.
  intros H. unfold has. by rewrite (Z.land_comm (Z.lor _ _)),
    Z.land_lor_distr_r, (Z.land_comm b' b), H, Z.lor_0_r, Z.land_comm.
Qed.
Lemma has_ldiff_other flags b b' :
  Z.land b b' = 0 -> has (Z.ldiff flags b) b' = has flags b'.
Proof.
  intros H. unfold has. do 2 f_equal. apply Z.bits_inj'. intros n Hn.
  apply (f_equal (fun z => Z.testbit z n)) in H.
  rewrite Z.land_spec, Z.bits_0 in H. rewrite !Z.land_spec, Z.ldiff_spec.
  by destruct (Z.testbit flags n), (Z.testbit b n), (Z.testbit b' n).
Qed.

(** ** Sets of flags

    [a .| b] joins flags; [outside flags mask] is the condition
    [flags & ~mask].  [flag_bits] turns every test against constant flags into
    [Z.testbit] of the variables, which [bits_split] then decides. *)
Declare Scope flags_scope.
Notation "a .| b" := (Z.lor a b) (at level 45, left associativity) : flags_scope.
#[global] Open Scope flags_scope.
Definition outside (flags mask : Z) : bool := negb (Z.ldiff flags mask =? 0).
(** [(flags & mask) == mask] *)
Definition has_all (flags mask : Z) : bool := Z.land flags mask =? mask.

Lemma has_bit x c : 0 < c -> 2 ^ Z.log2 c = c -> has x c = Z.testbit x (Z.log2 c).
Proof.
  intros Hc Hp. pose proof (Z.log2_nonneg c). unfold has.
  destruct (Z.testbit x (Z.log2 c)) eqn:E.
  - destruct (Z.eqb_spec (Z.land x c) 0) as [H0|]; [|done].
    apply (f_equal (fun z => Z.testbit z (Z.log2 c))) in H0.
    by rewrite Z.land_spec, E, Z.bits_0, Z.bit_log2 in H0 by done.
  - destruct (Z.eqb_spec (Z.land x c) 0) as [|H0]; [done|]. exfalso. apply H0.
    apply Z.bits_inj'. intros n Hn. rewrite Z.bits_0, Z.land_spec, <- Hp, Z.pow2_bits_eqb by done.
    destruct (Z.eqb_spec (Z.log2 c) n) as [<-|]; [by rewrite E|apply andb_false_r].
Qed.
Lemma has_lor x a b : has x (a .| b) = has x a || has x b.
Proof.
  unfold has. rewrite Z.land_lor_distr_r.
  destruct (Z.eqb_spec (Z.land x a .| Z.land x b) 0) as [E|E].
  - by apply Z.lor_eq_0_iff in E as [-> ->].
  - destruct (Z.eqb_spec (Z.land x a) 0) as [Ha|]; [|done].
    destruct (Z.eqb_spec (Z.land x b) 0) as [Hb|]; [|done]. by rewrite Ha, Hb in E.
Qed.
Lemma has_all_lor x a b : has_all x (a .| b) = has_all x a && has_all x b.
Proof.
  unfold has_all. apply eq_true_iff_eq. rewrite andb_true_iff, !Z.eqb_eq. split.
  - intros H. split; apply Z.bits_inj'; intros n Hn;
      apply (f_equal (fun z => Z.testbit z n)) in H; rewrite !Z.land_spec, ?Z.lor_spec in *;
      by destruct (Z.testbit x n), (Z.testbit a n), (Z.testbit b n).
  - intros [Ha Hb]. by rewrite Z.land_lor_distr_r, Ha, Hb.
Qed.
Lemma has_all_bit x c : 0 < c -> 2 ^ Z.log2 c = c -> has_all x c = Z.testbit x (Z.log2 c).
Proof.
  intros Hc Hp. rewrite <- has_bit by done. unfold has, has_all.
  destruct (Z.eqb_spec (Z.land x c) 0) as [->|H0]; [apply Z.eqb_neq; lia|].
  apply Z.eqb_eq, Z.bits_inj'. intros n Hn. rewrite Z.land_spec.
  destruct (Z.testbit c n) eqn:E; [|apply andb_false_r]. rewrite andb_true_r.
  rewrite <- Hp, Z.pow2_bits_eqb in E by apply Z.log2_nonneg. apply Z.eqb_eq in E. subst n.
  rewrite <- has_bit by done. unfold has. by destruct (Z.eqb_spec (Z.land x c) 0).
Qed.
Lemma outside_spec x m : outside x m = false <-> Z.land x m = x.
Proof.
  unfold outside. rewrite negb_false_iff, Z.eqb_eq. split; intros H; apply Z.bits_inj'; intros n Hn;
    apply (f_equal (fun z => Z.testbit z n)) in H; rewrite ?Z.land_spec, ?Z.ldiff_spec, ?Z.bits_0 in *;
    by destruct (Z.testbit x n), (Z.testbit m n).
Qed.
(** Flags that were masked stay within a wider mask. *)
Lemma outside_ldiff x s m : outside x m = false -> outside (Z.ldiff x s) m = false.
Proof.
  rewrite !outside_spec. intros H. apply Z.bits_inj'. intros n Hn.
  apply (f_equal (fun z => Z.testbit z n)) in H. rewrite !Z.land_spec, ?Z.ldiff_spec in *.
  by destruct (Z.testbit x n), (Z.testbit s n), (Z.testbit m n).
Qed.
Lemma outside_land x m m' : Z.land m m' = m -> outside (Z.land x m) m' = false.
Proof. intros H. apply outside_spec. by rewrite <- Z.land_assoc, H. Qed.
Lemma outside_land_keep x m m' : outside x m' = false -> outside (Z.land x m) m' = false.
Proof. rewrite !outside_spec. intros H. by rewrite <- Z.land_assoc, (Z.land_comm m), Z.land_assoc, H. Qed.

#[global] Arguments Z.testbit : simpl never.

(** [if (cond) x |= bit;] *)
Definition set_if (cond : bool) (bit x : Z) : Z := if cond then x .| bit else x.
Lemma testbit_set_if c bit x k :
  Z.testbit (set_if c bit x) k = (c && Z.testbit bit k) || Z.testbit x k.
Proof. destruct c; [|done]. simpl. rewrite Z.lor_spec. apply orb_comm. Qed.
Lemma testbit_if (c : bool) x y k :
  Z.testbit (if c then x else y) k = if c then Z.testbit x k else Z.testbit y k.
Proof. by destruct c. Qed.
Lemma outside_set_if c bit x m :
  outside x m = false -> Z.land bit m = bit -> outside (set_if c bit x) m = false.
Proof.
  intros Hx Hb. destruct c; [|done]. apply outside_spec in Hx. apply outside_spec. simpl.
  by rewrite Z.land_comm, Z.land_lor_distr_r, !(Z.land_comm m), Hx, Hb.
Qed.

Ltac is_zconst c := lazymatch c with Z0 => idtac | Zpos _ => idtac | Zneg _ => idtac end.
Ltac bit_const :=
  match goal with
  | |- context [Z.testbit ?c ?k] => is_zconst c; let b := eval vm_compute in (Z.testbit c k) in
      change (Z.testbit c k) with b
  | H : context [Z.testbit ?c ?k] |- _ => is_zconst c; let b := eval vm_compute in (Z.testbit c k) in
      change (Z.testbit c k) with b in H
  end.
Ltac flag_bits :=
  rewrite ?has_lor, ?has_all_lor in *;
  repeat match goal with
  | |- context [has ?x ?c] => is_zconst c; let k := eval vm_compute in (Z.log2 c) in
      replace (has x c) with (Z.testbit x k) by (symmetry; exact (has_bit x c eq_refl eq_refl))
  | H : context [has ?x ?c] |- _ => is_zconst c; let k := eval vm_compute in (Z.log2 c) in
      replace (has x c) with (Z.testbit x k) in H by (symmetry; exact (has_bit x c eq_refl eq_refl))
  | |- context [has_all ?x ?c] => is_zconst c; let k := eval vm_compute in (Z.log2 c) in
      replace (has_all x c) with (Z.testbit x k) by (symmetry; exact (has_all_bit x c eq_refl eq_refl))
  | H : context [has_all ?x ?c] |- _ => is_zconst c; let k := eval vm_compute in (Z.log2 c) in
      replace (has_all x c) with (Z.testbit x k) in H by (symmetry; exact (has_all_bit x c eq_refl eq_refl))
  end;
  repeat (progress rewrite ?Z.land_spec, ?Z.lor_spec, ?Z.ldiff_spec, ?testbit_set_if, ?testbit_if in * );
  repeat bit_const;
  rewrite ?andb_true_r, ?andb_false_r, ?orb_false_r, ?orb_true_r, ?andb_true_l, ?andb_false_l in *.
Ltac bits_split :=
  repeat match goal with
  | |- context [Z.testbit ?x ?k] => destruct (Z.testbit x k)
  end.

(** ** System-call bodies

    A body threads the state of its component and may leave early with a
    return value, as a C function does with [return -EINVAL;] in the middle:
    [Exit code] is that early return, and the state reached so far is kept. *)
Inductive outcome (A : Type) : Type :=
| Val (a : A)
| Exit (code : Z).
Arguments Val {A} a.
Arguments Exit {A} code.

Definition sys (S A : Type) : Type := S -> outcome A * S.

Section monad.
Context {S A B : Type}.
Definition sret (a : A) : sys S A := fun s => (Val a, s).
Definition sexit (code : Z) : sys S A := fun s => (Exit code, s).
Definition sbind (m : sys S A) (k : A -> sys S B) : sys S B := fun s =>
    match m s with
    | (Val a, s') => k a s'
    | (Exit code, s') => (Exit code, s')
    end.
Definition sgets (f : S -> A) : sys S A := fun s => (Val (f s), s).
End monad.
Definition smodify {S} (f : S -> S) : sys S unit := fun s => (Val tt, f s).

(** [if (bad) return code;] *)
Definition fail_if {S} (bad : bool) (code : Z) : sys S unit := fun s =>
  if bad then (Exit code, s) else (Val tt, s).

(** [x = lookup(..); if (!x) return code;] *)
Definition some_or {S A} (o : option A) (code : Z) : sys S A := fun s =>
  match o with Some a => (Val a, s) | None => (Exit code, s) end.

(** The value the system call returns and the state it leaves. *)
Definition run {S} (m : sys S Z) (s : S) : Z * S :=
  match m s with
  | (Val v, s') => (v, s')
  | (Exit code, s') => (code, s')
  end.

Declare Scope sys_scope.
Delimit Scope sys_scope with sys.
Notation "'let*' x ':=' m 'in' k" := (sbind m (fun x => k))
  (at level 10, x name, m at level 100, k at level 200) : sys_scope.
Notation "'do*' m 'in' k" := (sbind m (fun _ => k))
  (at level 10, m at level 100, k at level 200) : sys_scope.
#[global] Open Scope sys_scope.

Create HintDb sys_unfold.
#[global] Hint Unfold sret sexit sbind sgets smodify fail_if some_or run : sys_unfold.

(** Symbolic execution of a body: unfold the combinators, split on every
    condition in the goal and the hypotheses, and solve what became trivial. *)
Ltac sys_unfold := repeat (autounfold with sys_unfold in *; cbn in *).
Ltac sys_cases :=
  sys_unfold;
  repeat (case_match; simplify_eq/=); try done.

(** Inversion of a run, one step of the body at a time; unlike [sys_cases] it
    leaves the conditions inside values alone. *)
Lemma bind_inv {S A B} (m : sys S A) (k : A -> sys S B) s o s' :
  sbind m k s = (o, s') ->
  (exists e, m s = (Exit e, s') /\ o = Exit e) \/ (exists a s1, m s = (Val a, s1) /\ k a s1 = (o, s')).
Proof. unfold sbind. destruct (m s) as [[a|e] s1] eqn:E; [eauto|]. intros [= <- <-]. eauto. Qed.
Lemma bind_fail_if_inv {S B} b e (k : unit -> sys S B) s o s' :
  sbind (fail_if b e) k s = (o, s') ->
  (b = true /\ o = Exit e /\ s' = s) \/ (b = false /\ k tt s = (o, s')).
Proof. unfold sbind, fail_if. destruct b; [intros [= <- <-]|]; auto. Qed.
Lemma bind_some_or_inv {S A B} (x : option A) e (k : A -> sys S B) s o s' :
  sbind (some_or x e) k s = (o, s') ->
  (x = None /\ o = Exit e /\ s' = s) \/ (exists a, x = Some a /\ k a s = (o, s')).
Proof. unfold sbind, some_or. destruct x; [eauto|intros [= <- <-]; auto]. Qed.
Lemma run_inv {S} (m : sys S Z) s r s' :
  run m s = (r, s') -> m s = (Val r, s') \/ m s = (Exit r, s').
Proof. unfold run. destruct (m s) as [[a|e] s1]; intros [= <- <-]; auto. Qed.

Lemma sbind_assoc {S A B C} (m : sys S A) (k1 : A -> sys S B) (k2 : B -> sys S C) s :
  sbind (sbind m k1) k2 s = sbind m (fun a => sbind (k1 a) k2) s.
Proof. unfold sbind. by destruct (m s) as [[a|e] s1]. Qed.

Ltac sys_end E :=
  unfold sret, sexit in E; first [discriminate E | injection E as <- <- | injection E as <-].
Ltac sys_inv E :=
  repeat (cbv beta zeta in E;
  lazymatch type of E with
  | sbind (sgets ?f) ?k ?s = ?o => change (k (f s) s = o) in E
  | sbind (sret ?a) ?k ?s = ?o => change (k a s = o) in E
  | sbind (sbind _ _) _ _ = _ => rewrite sbind_assoc in E
  | sbind (sexit ?e) ?k ?s = ?o => change ((Exit e, s) = o) in E; sys_end E
  | sbind (smodify ?f) ?k ?s = ?o => change (k tt (f s) = o) in E
  | sbind (fail_if _ _) _ _ = _ =>
      apply bind_fail_if_inv in E as [(? & E & ->)|(? & E)];
      [first [discriminate E | injection E as -> | subst]|]
  | sbind (some_or _ _) _ _ = _ =>
      let a := fresh "a" in
      apply bind_some_or_inv in E as [(? & E & ->)|(a & ? & E)];
      [first [discriminate E | injection E as -> | subst]|]
  | sbind (if ?b then _ else _) _ _ = _ => destruct b eqn:?
  | (if ?b then _ else _) _ = _ => destruct b eqn:?
  | sbind (match ?p with (_, _) => _ end) _ _ = _ => destruct p as [? ?] eqn:?
  | (match ?p with (_, _) => _ end) _ = _ => destruct p as [? ?] eqn:?
  | sret _ _ = (_, _) => sys_end E
  | sexit _ _ = (_, _) => sys_end E
  end); try (cbv beta zeta in E).

(** ** User memory

    The kernel writes whole objects at user addresses.  A copy that faults
    part-way leaves no well-formed object at its destination, so it removes
    the one that was there.  Which addresses fault is a parameter. *)
Class UAccess := {
  access_ok : Z -> Z -> bool;         (** [access_ok(ptr, size)] *)
  uncopied : Z -> Z -> Z;             (** bytes [copy_*_user(ptr, size)] could not copy *)
}.

Section uaccess.
Context `{UAccess} {V : Type}.
Definition copy_to_user (m : gmap Z V) (dst : Z) (v : V) (size : Z) : Z * gmap Z V :=
    let rest := uncopied dst size in
    (rest, if rest =? 0 then <[dst := v]> m else delete dst m).
  (** [put_user] returns [0] or [-EFAULT]. *)
Definition put_user (m : gmap Z V) (v : V) (dst size : Z) : Z * gmap Z V :=
    let '(rest, m') := copy_to_user m dst v size in
    (if rest =? 0 then 0 else - EFAULT, m').
End uaccess.

(** ** Lists and options shared by the components *)
Lemma filter_none {A} (P : A -> Prop) `{!forall x, Decision (P x)} (l : list A) :
  (forall x, x ∈ l -> ~ P x) -> filter P l = [].
Proof.
  induction l as [|x l IH]; intros Hl; [done|].
  rewrite filter_cons_False by (apply Hl; set_solver).
  apply IH. intros y Hy. apply Hl. set_solver.
Qed.
Lemma filter_all {A} (P : A -> Prop) `{!forall x, Decision (P x)} (l : list A) :
  (forall x, x ∈ l -> P x) -> filter P l = l.
Proof.
  induction l as [|x l IH]; intros Hl; [done|].
  rewrite filter_cons_True by (apply Hl; set_solver).
  f_equal. apply IH. intros y Hy. apply Hl. set_solver.
Qed.

(** ** Relations every step of a body respects

    [keeps R m]: whatever [m] does, the state before and the state after are
    related by [R].  For a preorder [R] it is compositional, so the fact for
    a whole system call follows from the facts for its primitive steps; an
    invariant [I] is the case [R s s' := I s -> I s']. *)
Definition keeps {S A} (R : S -> S -> Prop) (m : sys S A) : Prop :=
  forall s o s', m s = (o, s') -> R s s'.
Definition inv_rel {S} (I : S -> Prop) (s s' : S) : Prop := I s -> I s'.
#[global] Instance inv_rel_preorder {S} (I : S -> Prop) : PreOrder (inv_rel I).
Proof. split; unfold inv_rel; intros ?; [done|naive_solver]. Qed.

Section keeps.
Context {S : Type} (R : S -> S -> Prop) `{!PreOrder R}.
Lemma keeps_ret {A} (a : A) : keeps R (sret a).
Proof. intros s o s' [= <- <-]. reflexivity. Qed.
Lemma keeps_exit {A} e : keeps R (@sexit S A e).
Proof. intros s o s' [= <- <-]. reflexivity. Qed.
Lemma keeps_gets {A} (f : S -> A) : keeps R (sgets f).
Proof. intros s o s' [= <- <-]. reflexivity. Qed.
Lemma keeps_fail_if b e : keeps R (fail_if b e).
Proof. intros s o s'. unfold fail_if. destruct b; intros [= <- <-]; reflexivity. Qed.
Lemma keeps_some_or {A} (x : option A) e : keeps R (some_or x e).
Proof. intros s o s'. unfold some_or. destruct x; intros [= <- <-]; reflexivity. Qed.
Lemma keeps_modify f : (forall s, R s (f s)) -> keeps R (smodify f).
Proof. intros Hf s o s' [= <- <-]. done. Qed.
Lemma keeps_bind {A B} (m : sys S A) (k : A -> sys S B) :
    keeps R m -> (forall a, keeps R (k a)) -> keeps R (sbind m k).
Proof.
    intros Hm Hk s o s'. unfold sbind.
    destruct (m s) as [[a|e] s1] eqn:E; intros Hs.
    - transitivity s1; [by eapply Hm|by eapply Hk].
    - injection Hs as <- <-. by eapply Hm.
  Qed.
Lemma keeps_run (m : sys S Z) s r s' : keeps R m -> run m s = (r, s') -> R s s'.
Proof.
    intros Hm. unfold run. destruct (m s) as [[a|e] s1] eqn:E; intros [= <- <-]; by eapply Hm.
  Qed.
End keeps.

Create HintDb keeps.
#[export] Hint Resolve keeps_ret keeps_exit keeps_gets keeps_fail_if keeps_some_or
  keeps_modify keeps_bind : keeps.
#[export] Hint Extern 5 (keeps _ (match ?x with _ => _ end)) => destruct x : keeps.
#[export] Hint Extern 5 (keeps _ (if ?b then _ else _)) => destruct b : keeps.

(** Running a list of calls one after the other. *)
Fixpoint run_all {S C} (exec : C -> sys S Z) (cs : list C) (s : S) : S :=
  match cs with
  | [] => s
  | c :: cs' => run_all exec cs' (run (exec c) s).2
  end.

Lemma keeps_run_all {S C} (R : S -> S -> Prop) `{!PreOrder R} (exec : C -> sys S Z) cs s :
  (forall c, keeps R (exec c)) -> R s (run_all exec cs s).
Proof.
  intros Hk. revert s. induction cs as [|c cs IH]; intros s; cbn; [reflexivity|].
  transitivity (run (exec c) s).2; [|done].
  destruct (run (exec c) s) as [r s'] eqn:E. by eapply keeps_run.
Qed.

(** A global [long] that some of the calls increment. *)
Definition calls_where {C} (p : C -> bool) (cs : list C) : Z := Z.of_nat (length (List.filter p cs)).
Lemma counter_counts {S C} (exec : C -> sys S Z) (cnt : S -> Z) (counted : C -> bool) :
  (forall c s, cnt (run (exec c) s).2 = if counted c then s64 (cnt s + 1) else cnt s) ->
  forall cs s, is_s64 (cnt s) -> cnt (run_all exec cs s) = s64 (cnt s + calls_where counted cs).
Proof.
  intros Hc cs. unfold calls_where. induction cs as [|c cs IH]; intros s Hs; cbn [run_all List.filter].
  - simpl. by rewrite Z.add_0_r, s64_small.
  - rewrite IH by (rewrite Hc; destruct (counted c); [apply s64_range|done]). rewrite Hc.
    destruct (counted c); [|done]. rewrite s64_add_l. f_equal. simpl length. lia.
Qed.

(** User memory in which every access succeeds, for concrete runs. *)
Definition uaccess_ok : UAccess := {| access_ok _ _ := true; uncopied _ _ := 0 |}.
