(* ===== verification/Task.v ===== *)
(** * Credentials and the interfaces of the code around [kernel/sys.c]

    [cred] is the part of [struct cred] the system calls of sys.c read and
    write.  The classes below state what those calls ask of code outside the
    repository: capability checks, Linux Security Module hooks and user
    namespaces.  Every theorem is proved for all their instances. *)
From S2P Require Import Prelude.

(** [kuid_t] and [kgid_t] are one-field structs around a 32-bit id; [uid_eq]
    and [gid_eq] compare the field.  [user] and [ucounts] are the objects the
    pointers designate, named by a number. *)
Record cred := Cred {
  uid : Z; gid : Z; suid : Z; sgid : Z; euid : Z; egid : Z; fsuid : Z; fsgid : Z;
  user : Z; user_ns : Z; ucounts : Z;
}.

#[global] Instance cred_eq_dec : EqDecision cred.
Proof. solve_decision. Defined.

(** Capabilities of the calling task: in the initial namespace, in a
    namespace, and in a namespace for a set*id call. *)
Class Caps := {
  capable : Z -> bool;
  ns_capable : Z -> Z -> bool;
}.

(** Id mappings of user namespaces (user_namespace.c). *)
Class UserNs := {
  make_kuid : Z -> Z -> Z;
  make_kgid : Z -> Z -> Z;
  from_kuid_munged : Z -> Z -> Z;
  from_kgid_munged : Z -> Z -> Z;
  uid_valid : Z -> bool;
  gid_valid : Z -> bool;
}.

(** The numbers of capability.h the code names. *)
Abbreviation CAP_SETGID := 6 (only parsing).
Abbreviation CAP_SETUID := 7 (only parsing).
Abbreviation CAP_SYS_ADMIN := 21 (only parsing).
Abbreviation CAP_SYS_NICE := 23 (only parsing).
Abbreviation CAP_SYS_RESOURCE := 24 (only parsing).

(** [(uid_t) -1], the argument that means leave this id alone. *)
Abbreviation NO_ID := U32_MAX (only parsing).

(** A root caller and an ordinary one, for concrete runs. *)
Definition root_caps : Caps := {| capable _ := true; ns_capable _ _ := true |}.
Definition user_caps : Caps := {| capable _ := false; ns_capable _ _ := false |}.
Definition ids (u : Z) : cred := Cred u u u u u u u u u 0 u.
(** The identity mapping of the initial namespace. *)
Definition init_userns : UserNs := {|
  make_kuid _ u := u; make_kgid _ g := g;
  from_kuid_munged _ k := k; from_kgid_munged _ k := k;
  uid_valid k := negb (k =? NO_ID); gid_valid k := negb (k =? NO_ID);
|}.
