(* ===== verification/UMem.v ===== *)
(** * User memory, byte by byte

    Used by the components that exchange byte buffers with user space.
    [copy_to_user] and [copy_from_user] transfer a prefix and return the
    number of bytes they could not transfer. *)
From S2P Require Import Prelude.

(** Address to byte; an address that was never written reads as 0. *)
Abbreviation umem := (gmap Z Z).

Definition ubyte (m : umem) (a : Z) : Z := default 0 (m !! a).

Fixpoint read_bytes (m : umem) (a : Z) (n : nat) : list Z :=
  match n with
  | O => []
  | S n' => ubyte m a :: read_bytes m (a + 1) n'
  end.

Fixpoint write_bytes (m : umem) (a : Z) (l : list Z) : umem :=
  match l with
  | [] => m
  | b :: l' => <[a := b]> (write_bytes m (a + 1) l')
  end.

Section copies.
Context {ua : UAccess}.
(** [copy_to_user(dst, l, length l)]: bytes not copied, and memory after. *)
Definition put_bytes (m : umem) (dst : Z) (l : list Z) : Z * umem :=
  let n := Z.of_nat (length l) in
  let rest := uncopied dst n in
  (rest, write_bytes m dst (take (Z.to_nat (n - rest)) l)).
(** [copy_from_user(buf, src, n)]: bytes not copied, and the bytes read. *)
Definition get_bytes (m : umem) (src n : Z) : Z * list Z :=
  let rest := uncopied src n in
  (rest, read_bytes m src (Z.to_nat (n - rest))).
End copies.

(** ** Lemmas *)
Lemma length_read_bytes m a n : length (read_bytes m a n) = n.
Proof. revert a. induction n; simpl; auto. Qed.

Lemma ubyte_write_out m a l x :
  x < a \/ a + Z.of_nat (length l) <= x -> ubyte (write_bytes m a l) x = ubyte m x.
Proof.
  unfold ubyte. revert a. induction l as [|b l IH]; intros a Hx; simpl in *; [done|].
  rewrite lookup_insert_ne by lia. apply IH. lia.
Qed.
Lemma ubyte_write_in m a l i b :
  l !! i = Some b -> ubyte (write_bytes m a l) (a + Z.of_nat i) = b.
Proof.
  unfold ubyte. revert a i. induction l as [|c l IH]; intros a [|i]; simpl; intros Hi; simplify_eq/=.
  - rewrite Z.add_0_r. by rewrite lookup_insert_eq.
  - rewrite lookup_insert_ne by lia.
    replace (a + Z.of_nat (S i)) with (a + 1 + Z.of_nat i) by lia. by apply IH.
Qed.

Lemma read_write_out m a l x n :
  x + Z.of_nat n <= a \/ a + Z.of_nat (length l) <= x ->
  read_bytes (write_bytes m a l) x n = read_bytes m x n.
Proof.
  revert x. induction n as [|n IH]; intros x Hx; simpl; [done|].
  f_equal; [apply ubyte_write_out; lia|]. apply IH. lia.
Qed.
Lemma read_write_same m a l : read_bytes (write_bytes m a l) a (length l) = l.
Proof.
  revert a. induction l as [|b l IH]; intros a; simpl; [done|]. f_equal.
  - unfold ubyte. by rewrite lookup_insert_eq.
  - etransitivity; [|apply (IH (a + 1))].
    apply (read_write_out (write_bytes m (a + 1) l) a [b]). simpl. lia.
Qed.
Lemma read_bytes_app m a n k :
  read_bytes m a (n + k) = read_bytes m a n ++ read_bytes m (a + Z.of_nat n) k.
Proof.
  revert a. induction n as [|n IH]; intros a; simpl; [by rewrite Z.add_0_r|].
  f_equal. rewrite IH. do 2 f_equal. lia.
Qed.
(** Reading a field of a structure that was written whole. *)
Lemma read_write_field m a l1 l2 l3 :
  read_bytes (write_bytes m a (l1 ++ l2 ++ l3)) (a + Z.of_nat (length l1)) (length l2) = l2.
Proof.
  pose proof (read_write_same m a (l1 ++ l2 ++ l3)) as H.
  rewrite !length_app, read_bytes_app, read_bytes_app in H.
  apply app_inj_1 in H as [_ H]; [|by rewrite length_read_bytes].
  by apply app_inj_1 in H as [H _]; [|by rewrite length_read_bytes].
Qed.
Lemma write_bytes_prefix m a l1 l2 :
  read_bytes (write_bytes m a (l1 ++ l2)) a (length l1) = l1.
Proof.
  pose proof (read_write_field m a [] l1 l2) as H. simpl in H. by rewrite Z.add_0_r in H.
Qed.

Lemma read_write_over m a l n :
  (length l <= n)%nat ->
  read_bytes (write_bytes m a l) a n = l ++ drop (length l) (read_bytes m a n).
Proof.
  intros Hn. replace n with (length l + (n - length l))%nat by lia.
  rewrite !read_bytes_app, read_write_same. f_equal.
  rewrite drop_app_length' by (by rewrite length_read_bytes). apply read_write_out. lia.
Qed.
Lemma put_bytes_ok `{UAccess} m dst l m' : put_bytes m dst l = (0, m') -> m' = write_bytes m dst l.
Proof.
  unfold put_bytes. intros [= E <-]. rewrite E, Z.sub_0_r, Nat2Z.id. by rewrite take_ge by lia.
Qed.
Lemma get_bytes_ok `{UAccess} m src n l : get_bytes m src n = (0, l) -> l = read_bytes m src (Z.to_nat n).
Proof. unfold get_bytes. intros [= E <-]. by rewrite E, Z.sub_0_r. Qed.

(** C strings: the bytes before the first NUL. *)
Fixpoint strlen (l : list Z) : nat :=
  match l with
  | [] => O
  | b :: l' => if b =? 0 then O else S (strlen l')
  end.
Definition cstr (l : list Z) : list Z := take (strlen l) l.

Lemma strlen_le l : (strlen l <= length l)%nat.
Proof. induction l as [|b l IH]; simpl; [lia|]. destruct (b =? 0); lia. Qed.
Lemma strlen_nul l i : l !! i = Some 0 -> (strlen l <= i)%nat.
Proof.
  revert i. induction l as [|b l IH]; intros [|i]; simpl; intros Hi; simplify_eq/=; [lia|].
  specialize (IH i Hi). destruct (b =? 0); lia.
Qed.
Lemma strlen_app_nul l l' : Forall (fun b => b <> 0) l -> strlen (l ++ 0 :: l') = length l.
Proof.
  induction 1 as [|b l Hb _ IH]; simpl; [done|]. destruct (Z.eqb_spec b 0); [done|]. by rewrite IH.
Qed.

(** The bytes of a string literal. *)
Definition bytes_of (s : string) : list Z :=
  (fun c => Z.of_N (Ascii.N_of_ascii c)) <$> String.list_ascii_of_string s.
