(* ===== verification/Rlimit.v ===== *)
(** * Resource limits: [do_prlimit] and the system calls built on it

    sys.c 1499-1783.  A thread group shares one [signal_struct], so the limits
    live in [signals], keyed by the object [tsk->signal] designates; [tasks]
    is the table [find_task_by_vpid] searches.  [uspace] holds the pair of
    limits at each user address. *)
From S2P Require Import Prelude Task.

Record rlimit := Rlimit { rlim_cur : Z; rlim_max : Z }.
#[global] Instance rlimit_eq_dec : EqDecision rlimit.
Proof. solve_decision. Defined.

Abbreviation RLIM_NLIMITS := 16 (only parsing).
Abbreviation RLIMIT_CPU := 0 (only parsing).
Abbreviation RLIMIT_NOFILE := 7 (only parsing).
Abbreviation RLIMIT_AS := 9 (only parsing).
Abbreviation RLIM_INFINITY := U64_MAX (only parsing).
Abbreviation RLIM64_INFINITY := U64_MAX (only parsing).
Abbreviation COMPAT_RLIM_INFINITY := U32_MAX (only parsing).
Abbreviation LSM_PRLIMIT_READ := 1 (only parsing).
Abbreviation LSM_PRLIMIT_WRITE := 2 (only parsing).

Record task_struct := Task {
  t_pid : Z;                (** the key of the task in [tasks] *)
  t_signal : Z;             (** [tsk->signal] *)
  t_group_leader : Z;
  t_cred : cred;
  t_mm : option Z;          (** [mm->total_vm] in pages; [None] for a kernel thread *)
}.

Record kstate := KState {
  tasks : gmap Z task_struct;
  signals : gmap Z (list rlimit);
  cpu_timers : list (Z * Z);      (** calls of [update_rlimit_cpu(leader, cur)], latest first *)
  uspace : gmap Z rlimit;
}.

Definition read_rlim (st : kstate) (sig resource : Z) : rlimit :=
  default (Rlimit 0 0) (signals st !! sig ≫= (.!! Z.to_nat resource)).

Definition write_rlim (sig resource : Z) (r : rlimit) (st : kstate) : kstate :=
  KState (tasks st) (alter <[Z.to_nat resource := r]> sig (signals st))
         (cpu_timers st) (uspace st).

Definition arm_cpu_timer (leader cur : Z) (st : kstate) : kstate :=
  KState (tasks st) (signals st) ((leader, cur) :: cpu_timers st) (uspace st).

Definition set_uspace (m : gmap Z rlimit) (st : kstate) : kstate :=
  KState (tasks st) (signals st) (cpu_timers st) m.

(** What the limit code asks of its surroundings. *)
Class RlimitEnv := {
  security_task_setrlimit : task_struct -> Z -> rlimit -> Z;
  security_task_prlimit : cred -> cred -> Z -> Z;
  sysctl_nr_open : Z;
  posix_timers : bool;                  (** [IS_ENABLED(CONFIG_POSIX_TIMERS)] *)
}.

Section rlimit.
Context {caps : Caps} {renv : RlimitEnv} {ua : UAccess}.

(** The permission part of [do_prlimit], under [task_lock]. *)
Definition prlimit_check (tsk : task_struct) (resource : Z) (rlim : rlimit)
    (new_rlim : option rlimit) : Z :=
  match new_rlim with
  | None => 0
  | Some n =>
      if (rlim_max rlim <? rlim_max n) && negb (capable CAP_SYS_RESOURCE)
      then - EPERM
      else security_task_setrlimit tsk resource n
  end.

(** Returns the result, what was stored through [old_rlim], and the state. *)
Definition do_prlimit (tsk : task_struct) (resource : Z)
    (new_rlim : option rlimit) (old_rlim : bool) (st : kstate)
    : Z * option rlimit * kstate :=
  if RLIM_NLIMITS <=? resource then (- EINVAL, None, st)
  else if (match new_rlim with Some n => rlim_max n <? rlim_cur n | None => false end)
  then (- EINVAL, None, st)
  else if (match new_rlim with
           | Some n => (resource =? RLIMIT_NOFILE) && (sysctl_nr_open <? rlim_max n)
           | None => false end)
  then (- EPERM, None, st)
  else
    let rlim := read_rlim st (t_signal tsk) resource in
    let retval := prlimit_check tsk resource rlim new_rlim in
    if negb (retval =? 0) then (retval, None, st)
    else
      let old := if old_rlim then Some rlim else None in
      match new_rlim with
      | None => (0, old, st)
      | Some n =>
          let st := write_rlim (t_signal tsk) resource n st in
          let st :=
            if (resource =? RLIMIT_CPU) && negb (rlim_cur n =? RLIM_INFINITY) && posix_timers
            then arm_cpu_timer (t_group_leader tsk) (rlim_cur n) st else st in
          (0, old, st)
      end.

Definition prlimit (tsk : task_struct) (resource : Z) (new_rlim : option rlimit)
    (old_rlim : bool) : sys kstate (Z * option rlimit) := fun st =>
  let '(ret, old, st') := do_prlimit tsk resource new_rlim old_rlim st in
  (Val (ret, old), st').

(** [copy_from_user] of a pair of limits: the pair, or nothing on a fault. *)
Definition get_limits (src size : Z) : sys kstate rlimit := fun st =>
  some_or (if uncopied src size =? 0 then uspace st !! src else None) (- EFAULT) st.

(** [copy_to_user(dst, &v, size) ? -EFAULT : 0] *)
Definition put_limits (dst : Z) (v : rlimit) (size : Z) : sys kstate Z := fun st =>
  let '(rest, m) := copy_to_user (uspace st) dst v size in
  (Val (if rest =? 0 then 0 else - EFAULT), set_uspace m st).

Definition sys_getrlimit (current : task_struct) (resource rlim : Z) : sys kstate Z :=
  let* p := prlimit current resource None true in
  match p with
  | (0, Some value) => put_limits rlim value 16
  | (ret, _) => sret ret
  end.

Definition sys_setrlimit (current : task_struct) (resource rlim : Z) : sys kstate Z :=
  let* new_rlim := get_limits rlim 16 in
  let* p := prlimit current resource (Some new_rlim) false in
  sret (fst p).

Definition compat_in (v : Z) : Z := if v =? COMPAT_RLIM_INFINITY then RLIM_INFINITY else v.
Definition compat_out (v : Z) : Z :=
  if COMPAT_RLIM_INFINITY <? v then COMPAT_RLIM_INFINITY else u32 v.

Definition compat_sys_setrlimit (current : task_struct) (resource rlim : Z) : sys kstate Z :=
  let* r32 := get_limits rlim 8 in
  let r := Rlimit (compat_in (rlim_cur r32)) (compat_in (rlim_max r32)) in
  let* p := prlimit current resource (Some r) false in
  sret (fst p).

Definition compat_sys_getrlimit (current : task_struct) (resource rlim : Z) : sys kstate Z :=
  let* p := prlimit current resource None true in
  match p with
  | (0, Some r) => put_limits rlim (Rlimit (compat_out (rlim_cur r)) (compat_out (rlim_max r))) 8
  | (ret, _) => sret ret
  end.

Definition clamp31 (v : Z) : Z := if S32_MAX <? v then S32_MAX else v.

Definition sys_old_getrlimit (current : task_struct) (resource rlim : Z) : sys kstate Z :=
  do* fail_if (RLIM_NLIMITS <=? resource) (- EINVAL) in
  let* x := sgets (fun st => read_rlim st (t_signal current) resource) in
  put_limits rlim (Rlimit (clamp31 (rlim_cur x)) (clamp31 (rlim_max x))) 16.

(** The 32-bit variant stores the two halves with one [put_user] each. *)
Definition compat_sys_old_getrlimit (current : task_struct) (resource rlim : Z) : sys kstate Z :=
  do* fail_if (RLIM_NLIMITS <=? resource) (- EINVAL) in
  let* r := sgets (fun st => read_rlim st (t_signal current) resource) in
  let r32 := Rlimit (clamp31 (rlim_cur r)) (clamp31 (rlim_max r)) in
  if (uncopied rlim 4 =? 0) && (uncopied (rlim + 4) 4 =? 0)
  then do* smodify (fun st => set_uspace (<[rlim := r32]> (uspace st)) st) in sret 0
  else do* smodify (fun st => set_uspace (delete rlim (uspace st)) st) in sret (- EFAULT).

(** 64-bit build: [BITS_PER_LONG < 64] is false. *)
Definition rlim64_is_infinity (rlim64 : Z) : bool := rlim64 =? RLIM64_INFINITY.

Definition rlim_to_rlim64 (rlim : rlimit) : rlimit :=
  Rlimit (if rlim_cur rlim =? RLIM_INFINITY then RLIM64_INFINITY else rlim_cur rlim)
         (if rlim_max rlim =? RLIM_INFINITY then RLIM64_INFINITY else rlim_max rlim).

Definition rlim64_to_rlim (rlim64 : rlimit) : rlimit :=
  Rlimit (if rlim64_is_infinity (rlim_cur rlim64) then RLIM_INFINITY else u64 (rlim_cur rlim64))
         (if rlim64_is_infinity (rlim_max rlim64) then RLIM_INFINITY else u64 (rlim_max rlim64)).

Definition check_prlimit_permission (current task : task_struct) (flags : Z) : Z :=
  if t_pid current =? t_pid task then 0
  else
    let c := t_cred current in
    let tcred := t_cred task in
    let id_match := (uid c =? euid tcred) && (uid c =? suid tcred) && (uid c =? uid tcred) &&
                    (gid c =? egid tcred) && (gid c =? sgid tcred) && (gid c =? gid tcred) in
    if negb id_match && negb (ns_capable (user_ns tcred) CAP_SYS_RESOURCE) then - EPERM
    else security_task_prlimit c tcred flags.

Definition sys_prlimit64 (current : task_struct) (pid resource new_rlim old_rlim : Z)
    : sys kstate Z :=
  let checkflags := if old_rlim =? 0 then 0 else LSM_PRLIMIT_READ in
  let* new := (if new_rlim =? 0 then sret None
               else let* new64 := get_limits new_rlim 16 in
                    sret (Some (rlim64_to_rlim new64))) in
  let checkflags := if new_rlim =? 0 then checkflags else Z.lor checkflags LSM_PRLIMIT_WRITE in
  let* tbl := sgets tasks in
  let* tsk := some_or (if pid =? 0 then Some current else tbl !! pid) (- ESRCH) in
  let ret := check_prlimit_permission current tsk checkflags in
  do* fail_if (negb (ret =? 0)) ret in
  let* p := prlimit tsk resource new (negb (old_rlim =? 0)) in
  match p with
  | (0, Some old) => put_limits old_rlim (rlim_to_rlim64 old) 16
  | (ret, _) => sret ret
  end.

End rlimit.
Arguments do_prlimit {_ _} _ _ _ _ _ : simpl never.

(** ** Properties *)

Section properties.
Context {caps : Caps} {renv : RlimitEnv} {ua : UAccess}.

(** Every case of [do_prlimit], as one statement: it either fails and leaves
    everything alone, or succeeds and changes exactly the entry named. *)
Definition prlimit_effect (tsk : task_struct) (resource : Z) (new : option rlimit)
    (st st' : kstate) : Prop :=
  match new with
  | None => st' = st
  | Some n =>
      rlim_cur n <= rlim_max n /\
      (resource = RLIMIT_NOFILE -> rlim_max n <= sysctl_nr_open) /\
      (rlim_max n <= rlim_max (read_rlim st (t_signal tsk) resource) \/
       capable CAP_SYS_RESOURCE = true) /\
      security_task_setrlimit tsk resource n = 0 /\
      tasks st' = tasks st /\ uspace st' = uspace st /\
      signals st' = alter <[Z.to_nat resource := n]> (t_signal tsk) (signals st)
  end.

Lemma do_prlimit_cases tsk resource new oldp st ret old st' :
  do_prlimit tsk resource new oldp st = (ret, old, st') ->
  (ret <> 0 /\ old = None /\ st' = st) \/
  (ret = 0 /\ resource < RLIM_NLIMITS /\ prlimit_effect tsk resource new st st' /\
   old = if oldp then Some (read_rlim st (t_signal tsk) resource) else None).
Proof.
  unfold do_prlimit, prlimit_effect, prlimit_check.
  repeat (case_match; simplify_eq/=); intros [= <- <- <-]; try (left; split_and!; done || lia).
  all: right; split_and!; try done; try lia.
  all: destruct (capable CAP_SYS_RESOURCE); [by right|left; lia].
Qed.

(** Every limit array has one entry per resource and no soft limit above its
    hard limit. *)
Definition wf_limits (st : kstate) : Prop :=
  forall sig l, signals st !! sig = Some l ->
    length l = Z.to_nat RLIM_NLIMITS /\ Forall (fun r => rlim_cur r <= rlim_max r) l.

Lemma keeps_prlimit_wf tsk resource new oldp :
  keeps (inv_rel wf_limits) (prlimit tsk resource new oldp).
Proof.
  intros st o st'. unfold prlimit.
  destruct (do_prlimit _ _ _ _ st) as [[ret old] st1] eqn:E. intros [= <- <-] Hwf.
  apply do_prlimit_cases in E as [(_ & _ & ->)|(_ & _ & Heff & _)]; [done|].
  destruct new as [n|]; simpl in Heff; [|by subst].
  destruct Heff as (Hle & _ & _ & _ & _ & _ & Hs). intros sig l.
  rewrite Hs. destruct (decide (sig = t_signal tsk)) as [->|Hne].
  - rewrite lookup_alter_eq, fmap_Some. intros (l0 & Hl & ->).
    apply Hwf in Hl as [Hlen Hall]. rewrite length_insert. split; [done|].
    by apply Forall_insert.
  - rewrite lookup_alter_ne by done. apply Hwf.
Qed.

(** How a write of one entry shows in every other. *)
Lemma read_after_write sig0 k n st st' sig resource :
  signals st' = alter <[k := n]> sig0 (signals st) ->
  read_rlim st' sig resource = read_rlim st sig resource \/
  (sig = sig0 /\ Z.to_nat resource = k /\ read_rlim st' sig resource = n).
Proof.
  intros Hs. unfold read_rlim. rewrite Hs.
  destruct (decide (sig = sig0)) as [->|Hne]; [|left; by rewrite lookup_alter_ne].
  rewrite lookup_alter_eq. destruct (signals st !! sig0) as [l|]; [|by left]. simpl.
  destruct (decide (Z.to_nat resource = k)) as [->|Hk].
  - destruct (decide (k < length l)%nat) as [Hlt|Hge].
    + right. by rewrite list_lookup_insert_eq.
    + left. by rewrite list_insert_ge by lia.
  - left. by rewrite list_lookup_insert_ne.
Qed.

Lemma read_written tsk resource n st st' l :
  signals st !! t_signal tsk = Some l -> 0 <= resource < Z.of_nat (length l) ->
  prlimit_effect tsk resource (Some n) st st' ->
  read_rlim st' (t_signal tsk) resource = n.
Proof.
  intros Hl Hr (_ & _ & _ & _ & _ & _ & Hs). unfold read_rlim.
  rewrite Hs, lookup_alter_eq, Hl. simpl. by rewrite list_lookup_insert_eq by lia.
Qed.

Definition hard_le (st st' : kstate) : Prop := forall sig resource,
  rlim_max (read_rlim st' sig resource) <= rlim_max (read_rlim st sig resource).
#[local] Instance hard_le_preorder : PreOrder hard_le.
Proof. split; unfold hard_le; [intros ???; lia|]. intros x y z Hxy Hyz sig r. specialize (Hxy sig r). specialize (Hyz sig r). lia. Qed.

Lemma keeps_prlimit_hard tsk resource new oldp :
  0 <= resource -> capable CAP_SYS_RESOURCE = false ->
  keeps hard_le (prlimit tsk resource new oldp).
Proof.
  intros Hres Hcap st o st'. unfold prlimit.
  destruct (do_prlimit _ _ _ _ st) as [[ret old] st1] eqn:E. intros [= <- <-].
  apply do_prlimit_cases in E as [(_ & _ & ->)|(_ & _ & Heff & _)]; [reflexivity|].
  destruct new as [n|]; simpl in Heff; [|by subst].
  destruct Heff as (_ & _ & [Hle|] & _ & _ & _ & Hs); [|congruence].
  intros sig r. destruct (read_after_write _ _ _ _ _ sig r Hs) as [->|(-> & Hr & ->)]; [done|].
  unfold read_rlim in *. by rewrite Hr.
Qed.

Lemma keeps_get_limits (R : kstate -> kstate -> Prop) `{!PreOrder R} src size :
  keeps R (get_limits src size).
Proof. intros st o st'. unfold get_limits, some_or. case_match; intros [= <- <-]; reflexivity. Qed.

Lemma keeps_put_limits (R : kstate -> kstate -> Prop) dst v size :
  (forall m st, R st (set_uspace m st)) -> keeps R (put_limits dst v size).
Proof. intros HR st o st' [= <- <-]. apply HR. Qed.

(** The system calls of the component; each names the task that makes it. *)
Inductive rlim_call :=
| CGet (current : task_struct) (resource rlim : Z)
| CSet (current : task_struct) (resource rlim : Z)
| CCompatGet (current : task_struct) (resource rlim : Z)
| CCompatSet (current : task_struct) (resource rlim : Z)
| COldGet (current : task_struct) (resource rlim : Z)
| CCompatOldGet (current : task_struct) (resource rlim : Z)
| CPrlimit64 (current : task_struct) (pid resource new_rlim old_rlim : Z).

Definition call_resource (c : rlim_call) : Z :=
  match c with
  | CGet _ r _ | CSet _ r _ | CCompatGet _ r _ | CCompatSet _ r _
  | COldGet _ r _ | CCompatOldGet _ r _ | CPrlimit64 _ _ r _ _ => r
  end.

Definition exec_call (c : rlim_call) : sys kstate Z :=
  match c with
  | CGet t r p => sys_getrlimit t r p
  | CSet t r p => sys_setrlimit t r p
  | CCompatGet t r p => compat_sys_getrlimit t r p
  | CCompatSet t r p => compat_sys_setrlimit t r p
  | COldGet t r p => sys_old_getrlimit t r p
  | CCompatOldGet t r p => compat_sys_old_getrlimit t r p
  | CPrlimit64 t pid r n o => sys_prlimit64 t pid r n o
  end.

(** A relation that survives a write to user memory and [do_prlimit] survives
    every call. *)
Lemma keeps_exec_call (R : kstate -> kstate -> Prop) `{!PreOrder R} c :
  (forall m st, R st (set_uspace m st)) ->
  (forall tsk new oldp, keeps R (prlimit tsk (call_resource c) new oldp)) ->
  keeps R (exec_call c).
Proof.
  intros Hu Hp. pose proof (keeps_get_limits R). pose proof (fun d v s => keeps_put_limits R d v s Hu).
  destruct c; simpl in *; unfold sys_getrlimit, sys_setrlimit, compat_sys_getrlimit,
    compat_sys_setrlimit, sys_old_getrlimit, compat_sys_old_getrlimit, sys_prlimit64;
    eauto 20 with keeps.
Qed.

(** The array of limits of every thread group keeps its sixteen
    entries and no soft limit ever exceeds its hard limit, whatever sequence
    of limit system calls runs. *)
Theorem limits_stay_well_formed (cs : list rlim_call) (st : kstate) :
  wf_limits st -> wf_limits (run_all exec_call cs st).
Proof.
  apply (keeps_run_all (inv_rel wf_limits)). intros c.
  apply keeps_exec_call; [apply _|by intros m s Hwf|]. intros. apply keeps_prlimit_wf.
Qed.

Fixpoint resources_ok (cs : list rlim_call) : Prop :=
  match cs with [] => True | c :: cs' => 0 <= call_resource c /\ resources_ok cs' end.

(** C17: a caller without CAP_SYS_RESOURCE can never raise a hard
    limit, its own or another task's, by any sequence of limit calls. *)
Theorem hard_limits_only_shrink (cs : list rlim_call) (st : kstate) (sig resource : Z) :
  capable CAP_SYS_RESOURCE = false -> resources_ok cs ->
  rlim_max (read_rlim (run_all exec_call cs st) sig resource) <=
  rlim_max (read_rlim st sig resource).
Proof.
  intros Hcap. revert st. induction cs as [|c cs IH]; intros st; cbn; [intros; lia|].
  intros [Hc Hcs]. etransitivity; [by apply IH|].
  destruct (run (exec_call c) st) as [r st'] eqn:E.
  eapply (keeps_run hard_le); [|exact E]. apply keeps_exec_call; [apply _|by intros m s sig' r'|].
  intros. by apply keeps_prlimit_hard.
Qed.

Lemma do_prlimit_read tsk resource st :
  resource < RLIM_NLIMITS ->
  do_prlimit tsk resource None true st = (0, Some (read_rlim st (t_signal tsk) resource), st).
Proof. intros Hr. unfold do_prlimit. simpl. by rewrite (proj2 (Z.leb_gt _ _)) by lia. Qed.

(** On a 64-bit machine the two limit structures have the same values. *)
Lemma rlim_to_rlim64_id r : rlim_to_rlim64 r = r.
Proof. destruct r; unfold rlim_to_rlim64; simpl; f_equal; case_match; lia. Qed.
Lemma rlim64_to_rlim_id r : is_u64 (rlim_cur r) -> is_u64 (rlim_max r) -> rlim64_to_rlim r = r.
Proof.
  destruct r; unfold rlim64_to_rlim, rlim64_is_infinity; simpl; intros.
  rewrite !u64_small by done. f_equal; case_match; lia.
Qed.

(** A 32-bit limit survives the trip through the 64-bit one; all ones means no limit. *)
Lemma compat_round (v : Z) : is_u32 v -> compat_out (compat_in v) = v.
Proof.
  intros Hv. unfold compat_in, compat_out.
  destruct (Z.eqb_spec v U32_MAX) as [->|]; [done|].
  destruct (Z.ltb_spec U32_MAX v); [unfold is_u32 in *; lia|by apply u32_small].
Qed.

(** What a successful [do_prlimit] with a new limit leaves to be read. *)
Lemma set_then_read tsk resource n oldp st old st' l :
  signals st !! t_signal tsk = Some l -> length l = Z.to_nat RLIM_NLIMITS -> 0 <= resource ->
  do_prlimit tsk resource (Some n) oldp st = (0, old, st') ->
  do_prlimit tsk resource None true st' = (0, Some n, st').
Proof.
  intros Hl Hlen Hr E. apply do_prlimit_cases in E as [(? & _)|(_ & Hlt & Heff & _)]; [done|].
  rewrite do_prlimit_read by done. by erewrite read_written by (done || lia).
Qed.

Lemma run_set_inv current resource p st st' :
  run (sys_setrlimit current resource p) st = (0, st') ->
  exists v, uspace st !! p = Some v /\
    do_prlimit current resource (Some v) false st = (0, None, st').
Proof.
  unfold sys_setrlimit, get_limits, prlimit. sys_unfold.
  destruct (uncopied p 16 =? 0); [|done]. destruct (uspace st !! p) as [v|]; [|done].
  destruct (do_prlimit _ _ _ _ st) as [[ret old] st1] eqn:E. simpl. intros [= -> ->].
  exists v. split; [done|]. destruct (do_prlimit_cases _ _ _ _ _ _ _ _ E) as [(? & _)|(_ & _ & _ & ->)]; done.
Qed.

(** [getrlimit] after a successful [setrlimit] of the same
    resource returns 0 and stores at its pointer the limits that [setrlimit]
    was given. *)
Theorem setrlimit_getrlimit current resource p q st st1 l :
  signals st !! t_signal current = Some l -> length l = Z.to_nat RLIM_NLIMITS ->
  0 <= resource -> uncopied q 16 = 0 ->
  run (sys_setrlimit current resource p) st = (0, st1) ->
  exists st2, run (sys_getrlimit current resource q) st1 = (0, st2) /\
    uspace st2 !! q = uspace st !! p.
Proof.
  intros Hl Hlen Hr Hq (v & Hv & E)%run_set_inv.
  pose proof (set_then_read _ _ _ _ _ _ _ _ Hl Hlen Hr E) as Hget.
  eexists. unfold sys_getrlimit, prlimit, put_limits, copy_to_user. sys_unfold.
  rewrite Hget. simpl. rewrite Hq. simpl. split; [done|]. simpl. by rewrite lookup_insert_eq.
Qed.

(** The same through the 32-bit entry points, for every pair of
    32-bit limits: what [compat setrlimit] was given is what
    [compat getrlimit] reports, "no limit" included. *)
Theorem compat_setrlimit_getrlimit current resource p q v st st1 l :
  signals st !! t_signal current = Some l -> length l = Z.to_nat RLIM_NLIMITS ->
  0 <= resource -> uncopied q 8 = 0 ->
  uspace st !! p = Some v -> is_u32 (rlim_cur v) -> is_u32 (rlim_max v) ->
  run (compat_sys_setrlimit current resource p) st = (0, st1) ->
  exists st2, run (compat_sys_getrlimit current resource q) st1 = (0, st2) /\
    uspace st2 !! q = Some v.
Proof.
  intros Hl Hlen Hr Hq Hv Hc Hm Hset.
  assert (exists old, do_prlimit current resource
    (Some (Rlimit (compat_in (rlim_cur v)) (compat_in (rlim_max v)))) false st = (0, old, st1)) as [old E].
  { revert Hset. unfold compat_sys_setrlimit, get_limits, prlimit. sys_unfold. rewrite Hv.
    destruct (uncopied p 8 =? 0); [|done].
    destruct (do_prlimit _ _ _ _ st) as [[ret o] s1] eqn:E. simpl. intros [= -> ->]. eauto. }
  pose proof (set_then_read _ _ _ _ _ _ _ _ Hl Hlen Hr E) as Hget.
  eexists. unfold compat_sys_getrlimit, prlimit, put_limits, copy_to_user. sys_unfold.
  rewrite Hget. simpl. rewrite Hq. simpl. split; [done|]. simpl. rewrite lookup_insert_eq.
  rewrite !compat_round by done. by destruct v.
Qed.

(** The converse of [do_prlimit_cases]: these conditions are enough. *)
Lemma do_prlimit_ok tsk resource n oldp st :
  resource < RLIM_NLIMITS -> rlim_cur n <= rlim_max n ->
  (resource = RLIMIT_NOFILE -> rlim_max n <= sysctl_nr_open) ->
  (rlim_max n <= rlim_max (read_rlim st (t_signal tsk) resource) \/
   capable CAP_SYS_RESOURCE = true) ->
  security_task_setrlimit tsk resource n = 0 ->
  exists st', do_prlimit tsk resource (Some n) oldp st =
      (0, if oldp then Some (read_rlim st (t_signal tsk) resource) else None, st') /\
    prlimit_effect tsk resource (Some n) st st'.
Proof.
  intros Hr Hle Hnf Hmax Hsec.
  destruct (do_prlimit tsk resource (Some n) oldp st) as [[ret old] st'] eqn:E.
  destruct (do_prlimit_cases _ _ _ _ _ _ _ _ E) as [(Hne & _)|(-> & _ & Heff & ->)]; [|by eauto].
  destruct Hne. revert E. unfold do_prlimit, prlimit_check. rewrite Hsec.
  destruct (capable CAP_SYS_RESOURCE), Hmax; repeat (case_match; simplify_eq/=); intros [= <- <- <-]; lia.
Qed.

Lemma read_other tsk resource n st st' sig r :
  0 <= r -> 0 <= resource -> (sig <> t_signal tsk \/ r <> resource) ->
  prlimit_effect tsk resource (Some n) st st' -> read_rlim st' sig r = read_rlim st sig r.
Proof.
  intros ?? Hne (_ & _ & _ & _ & _ & _ & Hs).
  destruct (read_after_write _ _ _ _ _ sig r Hs) as [->|(-> & ? & _)]; [done|].
  destruct Hne; [done|lia].
Qed.

(** The whole contract of [prlimit64] with both pointers given:
    when the caller may change the target and the hooks accept, it returns 0,
    the target's limit is the new one, the previous one is in user memory at
    [old_rlim], and no other limit of any task changed. *)
Theorem prlimit64_effect current tsk pid resource new_p old_p n st :
  pid <> 0 -> new_p <> 0 -> old_p <> 0 ->
  tasks st !! pid = Some tsk -> 0 <= resource < RLIM_NLIMITS ->
  uspace st !! new_p = Some n -> is_u64 (rlim_cur n) -> is_u64 (rlim_max n) ->
  uncopied new_p 16 = 0 -> uncopied old_p 16 = 0 ->
  check_prlimit_permission current tsk (Z.lor LSM_PRLIMIT_READ LSM_PRLIMIT_WRITE) = 0 ->
  rlim_cur n <= rlim_max n ->
  (resource = RLIMIT_NOFILE -> rlim_max n <= sysctl_nr_open) ->
  (rlim_max n <= rlim_max (read_rlim st (t_signal tsk) resource) \/
   capable CAP_SYS_RESOURCE = true) ->
  security_task_setrlimit tsk resource n = 0 ->
  (exists l, signals st !! t_signal tsk = Some l /\ length l = Z.to_nat RLIM_NLIMITS) ->
  exists st', run (sys_prlimit64 current pid resource new_p old_p) st = (0, st') /\
    read_rlim st' (t_signal tsk) resource = n /\
    uspace st' !! old_p = Some (read_rlim st (t_signal tsk) resource) /\
    (forall sig r, 0 <= r -> (sig <> t_signal tsk \/ r <> resource) ->
       read_rlim st' sig r = read_rlim st sig r).
Proof.
  intros Hpid Hnp Hop Htsk Hr Hn Hc Hm Hcn Hco Hperm Hle Hnf Hmax Hsec (l & Hl & Hlen).
  destruct (do_prlimit_ok tsk resource n true st) as (st1 & E & Heff); [done || lia..|].
  exists (set_uspace (<[old_p := read_rlim st (t_signal tsk) resource]> (uspace st1)) st1).
  split_and!.
  - unfold sys_prlimit64, get_limits, prlimit, put_limits, copy_to_user. sys_unfold.
    apply Z.eqb_neq in Hpid, Hnp, Hop. rewrite Hpid, Hnp, Hop, Hcn, Hn. simpl.
    rewrite Htsk. simpl. rewrite Hperm. simpl. rewrite rlim64_to_rlim_id, E by done. simpl.
    rewrite Hco, rlim_to_rlim64_id. reflexivity.
  - change (read_rlim st1 (t_signal tsk) resource = n).
    eapply read_written; [exact Hl|rewrite Hlen; lia|exact Heff].
  - simpl. by rewrite lookup_insert_eq.
  - intros sig r ? ?. change (read_rlim st1 sig r = read_rlim st sig r).
    eapply (read_other tsk resource n); [done|lia|done|exact Heff].
Qed.

End properties.

(** ** Concrete runs: the theorems above at a small system *)
Module Demo.

Definition env : RlimitEnv := {|
  security_task_setrlimit _ _ _ := 0; security_task_prlimit _ _ _ := 0;
  sysctl_nr_open := 1048576; posix_timers := true |}.
#[local] Existing Instance env.
#[local] Existing Instance uaccess_ok.

Definition limits : list rlimit := replicate 16 (Rlimit 1000 2000).
Definition shell : task_struct := Task 7 70 7 (ids 1000) (Some 600).
Definition editor : task_struct := Task 8 80 8 (ids 1000) (Some 900).
Definition start : kstate :=
  KState {[7 := shell; 8 := editor]} {[70 := limits; 80 := limits]} []
         {[100 := Rlimit 500 1500; 108 := Rlimit 300 U32_MAX]}.

Lemma start_wf : wf_limits start.
Proof.
  intros sig l. unfold start; simpl. rewrite lookup_insert_Some, lookup_singleton_Some.
  intros [[_ <-]|[_ [_ <-]]]; (split; [reflexivity|by repeat constructor]).
Qed.

Lemma limits_stay_well_formed_witness :
  wf_limits (run_all (exec_call (caps := user_caps))
    [CSet shell 9 100; CPrlimit64 shell 8 3 100 200] start).
Proof. apply (limits_stay_well_formed (caps := user_caps)). apply start_wf. Defined.

Lemma hard_limits_only_shrink_witness :
  rlim_max (read_rlim (run_all (exec_call (caps := user_caps))
    [CSet shell 9 100; CPrlimit64 shell 8 9 100 200] start) 70 9) <= 2000.
Proof.
  apply (hard_limits_only_shrink (caps := user_caps) [CSet shell 9 100; CPrlimit64 shell 8 9 100 200] start 70 9);
    [reflexivity|simpl; lia].
Defined.

Lemma setrlimit_getrlimit_witness : exists st1 st2,
  run (sys_setrlimit (caps := user_caps) shell 9 100) start = (0, st1) /\
  run (sys_getrlimit (caps := user_caps) shell 9 300) st1 = (0, st2) /\
  uspace st2 !! 300 = uspace start !! 100.
Proof.
  eexists.
  destruct (setrlimit_getrlimit (caps := user_caps) (renv := env) (ua := uaccess_ok) shell 9 100 300 start _ limits
    eq_refl eq_refl ltac:(lia) eq_refl eq_refl) as (st2 & H1 & H2).
  exists st2. split; [reflexivity|split; [exact H1|exact H2]].
Defined.

Lemma compat_setrlimit_getrlimit_witness : exists st1 st2,
  run (compat_sys_setrlimit (caps := root_caps) shell 9 108) start = (0, st1) /\
  run (compat_sys_getrlimit (caps := root_caps) shell 9 300) st1 = (0, st2) /\
  uspace st2 !! 300 = Some (Rlimit 300 U32_MAX).
Proof.
  eexists.
  destruct (compat_setrlimit_getrlimit (caps := root_caps) (renv := env) (ua := uaccess_ok) shell 9 108 300 (Rlimit 300 U32_MAX)
    start _ limits eq_refl eq_refl ltac:(lia) eq_refl eq_refl ltac:(done) ltac:(done) eq_refl)
    as (st2 & H1 & H2).
  exists st2. split; [reflexivity|split; [exact H1|exact H2]].
Defined.

Lemma prlimit64_effect_witness : exists st',
  run (sys_prlimit64 (caps := user_caps) shell 8 9 100 200) start = (0, st') /\
  read_rlim st' 80 9 = Rlimit 500 1500 /\ uspace st' !! 200 = Some (Rlimit 1000 2000).
Proof.
  destruct (prlimit64_effect (caps := user_caps) (renv := env) (ua := uaccess_ok) shell editor 8 9 100 200 (Rlimit 500 1500) start)
    as (st' & H1 & H2 & H3 & _); try done; try (left; done); try (simpl; lia).
  - exists limits. done.
  - exists st'. split; [exact H1|]. split; [exact H2|exact H3].
Defined.

End Demo.
