(* ===== verification/MemLimit.v ===== *)
(** * The memory limiter: [kernel/fase3/syscall3.c]

    The four system calls keep a linked list of nodes (pid, limit) and set
    [RLIMIT_AS] of the process with [do_prlimit].  [head] is the list anchored
    at [memory_limitation_head], holding node addresses; [heap] holds the
    contents of the nodes [kmalloc] returned and [kfree] has not released;
    [ks] is the state [do_prlimit] works on. *)
From S2P Require Import Prelude Task Rlimit.

Record memory_limitation := MemLim { pid : Z; memory_limit : Z }.
#[global] Instance memory_limitation_eq_dec : EqDecision memory_limitation.
Proof. solve_decision. Defined.

(** ** What the code relies on from the kernel headers

    [ListHead L]: an intrusive list anchored at a head, seen through the order
    in which [list_for_each_entry] visits the nodes. *)
Class ListHead (L : Type) := {
  list_init : L;                     (** [LIST_HEAD(name)] *)
  list_add : Z -> L -> L;            (** [list_add(&node->list, &head)] *)
  list_del : Z -> L -> L;            (** [list_del(&node->list)] *)
  list_nodes : L -> list Z;
}.
Class ListHeadLaws (L : Type) `{ListHead L} := {
  nodes_init : list_nodes list_init = [];
  nodes_add l p : p ∉ list_nodes l -> list_nodes (list_add p l) = p :: list_nodes l;
  nodes_del l p : NoDup (list_nodes l) -> p ∈ list_nodes l ->
    list_nodes (list_del p l) = filter (.≠ p) (list_nodes l);
}.

(** [kmalloc] of one node given the nodes in use, and of the bounce buffer. *)
Class Kmalloc := {
  kmalloc_node : gmap Z memory_limitation -> option Z;
  kmalloc_array : Z -> Z -> bool;    (** [kmalloc_array(n, size, ..)] is not NULL *)
}.
Class KmallocLaws `{Kmalloc} := {
  kmalloc_fresh h p : kmalloc_node h = Some p -> h !! p = None;
}.

Record mstate (L : Type) := MState {
  head : L;
  heap : gmap Z memory_limitation;
  ks : kstate;
  ubuf : gmap Z (list memory_limitation);   (** user arrays written by the calls *)
  uint : gmap Z Z;                          (** user [int] objects *)
}.
Arguments MState {L} _ _ _ _ _.
Arguments head {L} _.
Arguments heap {L} _.
Arguments ks {L} _.
Arguments ubuf {L} _.
Arguments uint {L} _.

Abbreviation PAGE_SHIFT := 12 (only parsing).
(** [sizeof(struct memory_limitation)]: 4 bytes, padding, 8 bytes. *)
Abbreviation SIZEOF_LIMITATION := 16 (only parsing).

Section memlimit.
Context {L : Type} {lh : ListHead L} {km : Kmalloc} {caps : Caps} {renv : RlimitEnv} {ua : UAccess}.
Implicit Types st : mstate L.

Definition set_process_memory_limit (task : task_struct) (limit : Z) : sys (mstate L) Z := fun st =>
  let '(ret, _, ks') := do_prlimit task RLIMIT_AS (Some (Rlimit limit limit)) false (ks st) in
  (Val ret, MState (head st) (heap st) ks' (ubuf st) (uint st)).

(** [list_for_each_entry] with an early return. *)
Fixpoint find_node (h : gmap Z memory_limitation) (nodes : list Z) (p : Z) : option Z :=
  match nodes with
  | [] => None
  | entry :: rest =>
      match h !! entry with
      | Some node => if pid node =? p then Some entry else find_node h rest p
      | None => find_node h rest p
      end
  end.

Definition find_node_by_pid (p : Z) st : option Z :=
  find_node (heap st) (list_nodes (head st)) p.

Definition get_process_memory_usage (task : task_struct) : Z :=
  match t_mm task with
  | Some total_vm => shl64 total_vm PAGE_SHIFT
  | None => 0
  end.

Definition find_task_by_vpid (p : Z) st : option task_struct := tasks (ks st) !! p.

Definition add_memory_limitation_node (p limit : Z) : sys (mstate L) Z := fun st =>
  match find_node_by_pid p st with
  | Some _ => (Val (- 101), st)
  | None =>
      match kmalloc_node (heap st) with
      | None => (Val (- ENOMEM), st)
      | Some new_entry =>
          (Val 0, MState (list_add new_entry (head st)) (<[new_entry := MemLim p limit]> (heap st))
                         (ks st) (ubuf st) (uint st))
      end
  end.

Definition sys_luis_add_memory_limit (process_pid limit : Z) : sys (mstate L) Z :=
  do* fail_if (negb (capable CAP_SYS_ADMIN)) (- EPERM) in
  do* fail_if ((process_pid <=? 0) || (limit <=? 0)) (- EINVAL) in
  let* t := sgets (find_task_by_vpid process_pid) in
  let* task := some_or t (- ESRCH) in
  let* existing_node := sgets (find_node_by_pid process_pid) in
  do* fail_if (bool_decide (is_Some existing_node)) (- 101) in
  let current_memory_usage := get_process_memory_usage task in
  do* fail_if (limit <? current_memory_usage) (- 100) in
  let* ret := set_process_memory_limit task limit in
  do* fail_if (negb (ret =? 0)) ret in
  add_memory_limitation_node process_pid limit.

(** The loop that fills [k_processes_buffer]. *)
Fixpoint fill_buffer (h : gmap Z memory_limitation) (nodes : list Z) (max_entries count : Z)
    : list memory_limitation :=
  match nodes with
  | [] => []
  | entry :: rest =>
      if max_entries <=? count then []
      else default (MemLim 0 0) (h !! entry) :: fill_buffer h rest max_entries (count + 1)
  end.

Definition sys_luis_get_memory_limits (u_processes_buffer max_entries processes_buffer_size : Z)
    : sys (mstate L) Z :=
  do* fail_if (max_entries <=? 0) (- EINVAL) in
  do* fail_if (negb (access_ok u_processes_buffer (u64 (max_entries * SIZEOF_LIMITATION))) ||
               negb (access_ok processes_buffer_size 4)) (- EINVAL) in
  do* fail_if (negb (kmalloc_array max_entries SIZEOF_LIMITATION)) (- ENOMEM) in
  let* buf := sgets (fun st => fill_buffer (heap st) (list_nodes (head st)) max_entries 0) in
  let count := Z.of_nat (length buf) in
  let* rest := (fun st =>
    let '(rest, m) := copy_to_user (ubuf st) u_processes_buffer buf (count * SIZEOF_LIMITATION) in
    (Val rest, MState (head st) (heap st) (ks st) m (uint st))) in
  do* fail_if (negb (rest =? 0)) (- EFAULT) in
  let* err := (fun st =>
    let '(err, m) := put_user (uint st) count processes_buffer_size 4 in
    (Val err, MState (head st) (heap st) (ks st) (ubuf st) m)) in
  do* fail_if (negb (err =? 0)) (- EFAULT) in
  sret 0.

(** [node->node.memory_limit = limit] *)
Definition store_limit (node limit : Z) st : mstate L :=
  MState (head st) (alter (fun n => MemLim (pid n) limit) node (heap st)) (ks st) (ubuf st) (uint st).

Definition sys_luis_update_memory_limit (process_pid limit : Z) : sys (mstate L) Z :=
  do* fail_if (negb (capable CAP_SYS_ADMIN)) (- EPERM) in
  do* fail_if ((process_pid <=? 0) || (limit <=? 0)) (- EINVAL) in
  let* t := sgets (find_task_by_vpid process_pid) in
  let* task := some_or t (- ESRCH) in
  let* n := sgets (find_node_by_pid process_pid) in
  let* node := some_or n (- 102) in
  do* fail_if (limit <? get_process_memory_usage task) (- 100) in
  let* ret := set_process_memory_limit task limit in
  do* fail_if (negb (ret =? 0)) ret in
  do* smodify (store_limit node limit) in
  sret 0.

(** [list_del(&node->list); kfree(node);] *)
Definition unlink_and_free (node : Z) st : mstate L :=
  MState (list_del node (head st)) (delete node (heap st)) (ks st) (ubuf st) (uint st).

Definition sys_luis_remove_memory_limit (process_pid : Z) : sys (mstate L) Z :=
  do* fail_if (negb (capable CAP_SYS_ADMIN)) (- EPERM) in
  do* fail_if (process_pid <=? 0) (- EINVAL) in
  let* t := sgets (find_task_by_vpid process_pid) in
  let* task := some_or t (- ESRCH) in
  let* n := sgets (find_node_by_pid process_pid) in
  let* node := some_or n (- 102) in
  let* ret := set_process_memory_limit task (110 * 1024 * 1024) in
  do* fail_if (negb (ret =? 0)) ret in
  do* smodify (unlink_and_free node) in
  sret 0.

End memlimit.

(** ** Properties *)

Section properties.
Context {L : Type} {lh : ListHead L} {km : Kmalloc} {caps : Caps} {renv : RlimitEnv} {ua : UAccess}.
Context {lhl : ListHeadLaws L} {kml : KmallocLaws}.
Implicit Types st : mstate L.

Lemma find_node_Some h nodes p e :
  find_node h nodes p = Some e -> e ∈ nodes /\ exists n, h !! e = Some n /\ pid n = p.
Proof.
  induction nodes as [|x nodes IH]; simpl; [done|].
  destruct (h !! x) as [n|] eqn:E; [destruct (Z.eqb_spec (pid n) p)|]; intros Hf; simplify_eq;
    try (apply IH in Hf as [??]; split; [set_solver|done]).
  split; [set_solver|eauto].
Qed.

Lemma find_node_None h nodes p e n :
  find_node h nodes p = None -> e ∈ nodes -> h !! e = Some n -> pid n <> p.
Proof.
  induction nodes as [|x nodes IH]; simpl; [set_solver|].
  destruct (h !! x) as [n'|] eqn:E; [destruct (Z.eqb_spec (pid n') p)|]; intros Hf; simplify_eq;
    rewrite elem_of_cons; intros [->|?] ?; simplify_eq; eauto.
Qed.

Lemma do_prlimit_tasks tsk resource new oldp s ret old s' :
  do_prlimit tsk resource new oldp s = (ret, old, s') -> tasks s' = tasks s.
Proof.
  intros [(_ & _ & ->)|(_ & _ & Heff & _)]%do_prlimit_cases; [done|].
  destruct new; simpl in Heff; [by destruct Heff as (_ & _ & _ & _ & ? & _)|by subst].
Qed.

Lemma do_prlimit_no_old tsk resource new s ret old s' :
  do_prlimit tsk resource new false s = (ret, old, s') -> old = None.
Proof. by intros [(_ & ? & _)|(_ & _ & _ & ?)]%do_prlimit_cases. Qed.

Lemma do_prlimit_fail tsk resource new oldp s ret old s' :
  do_prlimit tsk resource new oldp s = (ret, old, s') -> negb (ret =? 0) = true -> s' = s.
Proof. intros [(_ & _ & ?)|(-> & _)]%do_prlimit_cases; done. Qed.

Lemma mstate_eta st : MState (head st) (heap st) (ks st) (ubuf st) (uint st) = st.
Proof. by destruct st. Qed.

(** Symbolic execution of a call of this file. *)
Ltac run_call :=
  unfold sys_luis_add_memory_limit, sys_luis_update_memory_limit, sys_luis_remove_memory_limit,
    set_process_memory_limit, add_memory_limitation_node, find_node_by_pid, find_task_by_vpid;
  sys_unfold; repeat (case_match; simplify_eq/=); intros [= <- <-]; simpl;
  repeat match goal with
  | E : do_prlimit _ _ _ false _ = (_, ?o, _) |- _ =>
      is_var o; pose proof (do_prlimit_no_old _ _ _ _ _ _ _ E); subst o
  | E : do_prlimit _ _ _ _ ?s = (?z, _, ?s'), E' : negb (?z =? 0) = true |- _ =>
      is_var s'; pose proof (do_prlimit_fail _ _ _ _ _ _ _ _ E E'); subst s'; clear E
  | E1 : ~ is_Some ?x, E2 : ?x = Some _ |- _ => by destruct E1; eexists
  | E : negb (?z =? 0) = false |- _ => apply negb_false_iff, Z.eqb_eq in E; subst z
  | E : bool_decide _ = _ |- _ => rewrite ?bool_decide_eq_true, ?bool_decide_eq_false in E
  end; rewrite ?mstate_eta.

(** Every outcome of each call: it fails and nothing changed (but see
    [add]), or it succeeds and did what its last steps say. *)
Definition add_effect p limit st st' : Prop :=
  0 < p /\ 0 < limit /\ find_node_by_pid p st = None /\
  exists e task, kmalloc_node (heap st) = Some e /\ head st' = list_add e (head st) /\
    heap st' = <[e := MemLim p limit]> (heap st) /\
    tasks (ks st) !! p = Some task /\ get_process_memory_usage task <= limit /\
    do_prlimit task RLIMIT_AS (Some (Rlimit limit limit)) false (ks st) = (0, None, ks st').

(** The limit is set and the node cannot be allocated. *)
Definition add_no_node p limit st st' : Prop :=
  find_node_by_pid p st = None /\ kmalloc_node (heap st) = None /\
  head st' = head st /\ heap st' = heap st /\
  exists task, tasks (ks st) !! p = Some task /\
    do_prlimit task RLIMIT_AS (Some (Rlimit limit limit)) false (ks st) = (0, None, ks st').

Lemma add_outcome p limit st r st' :
  run (sys_luis_add_memory_limit p limit) st = (r, st') ->
  (r <> 0 /\ st' = st) \/ (r = - ENOMEM /\ add_no_node p limit st st') \/
  (r = 0 /\ add_effect p limit st st').
Proof.
  unfold add_effect, add_no_node. run_call; try (left; split; [lia|done]).
  - right; right. split_and!; try done; try lia. eexists _, _. split_and!; try done; lia.
  - right; left. split_and!; try done. eauto.
Qed.

Definition update_effect p limit st st' : Prop :=
  0 < p /\ 0 < limit /\
  exists e task, find_node_by_pid p st = Some e /\ head st' = head st /\
    heap st' = alter (fun n => MemLim (pid n) limit) e (heap st) /\
    tasks (ks st) !! p = Some task /\ get_process_memory_usage task <= limit /\
    do_prlimit task RLIMIT_AS (Some (Rlimit limit limit)) false (ks st) = (0, None, ks st').

Lemma update_outcome p limit st r st' :
  run (sys_luis_update_memory_limit p limit) st = (r, st') ->
  (r <> 0 /\ st' = st) \/ (r = 0 /\ update_effect p limit st st').
Proof.
  unfold update_effect. run_call; try (left; split; [lia|done]).
  right. split_and!; try done; try lia. eexists _, _. split_and!; try done; lia.
Qed.

Definition remove_effect p st st' : Prop :=
  exists e task, find_node_by_pid p st = Some e /\ head st' = list_del e (head st) /\
    heap st' = delete e (heap st) /\ tasks (ks st) !! p = Some task /\
    do_prlimit task RLIMIT_AS (Some (Rlimit 115343360 115343360)) false (ks st) = (0, None, ks st').

Lemma remove_outcome p st r st' :
  run (sys_luis_remove_memory_limit p) st = (r, st') ->
  (r <> 0 /\ st' = st) \/ (r = 0 /\ remove_effect p st st').
Proof.
  unfold remove_effect. run_call; try (left; split; [lia|done]).
  right. split; [done|]. eexists _, _. by split_and!.
Qed.

(** *** The list and its nodes *)

(** The list has no repeated node, its nodes are exactly the allocated ones
    (none dangling, none leaked), no two nodes are for the same pid, and
    every stored pid and limit is positive. *)
Record wf_list st : Prop := {
  wf_nodup : NoDup (list_nodes (head st));
  wf_nodes p : p ∈ list_nodes (head st) <-> is_Some (heap st !! p);
  wf_pids p q n m : heap st !! p = Some n -> heap st !! q = Some m -> pid n = pid m -> p = q;
  wf_pos p n : heap st !! p = Some n -> 0 < pid n /\ 0 < memory_limit n;
}.

Definition init_state (k : kstate) : mstate L := MState list_init ∅ k ∅ ∅.

Lemma wf_list_init k : wf_list (init_state k).
Proof.
  split; simpl; rewrite ?nodes_init; try set_solver.
  - constructor.
  - intros p. rewrite lookup_empty. split; [set_solver|by intros []].
Qed.

Lemma wf_list_same st st' :
  head st' = head st -> heap st' = heap st -> wf_list st -> wf_list st'.
Proof. intros Hh Hp []. split; rewrite ?Hh, ?Hp; auto. Qed.

Lemma found_node p st e :
  find_node_by_pid p st = Some e ->
  e ∈ list_nodes (head st) /\ exists limit, heap st !! e = Some (MemLim p limit).
Proof. intros (He & [p' l] & ? & ?)%find_node_Some. simpl in *. subst. eauto. Qed.

Lemma not_found p st e n :
  wf_list st -> find_node_by_pid p st = None -> heap st !! e = Some n -> pid n <> p.
Proof.
  intros Hwf Hf He. eapply find_node_None; [exact Hf| |exact He].
  apply (wf_nodes _ Hwf). by rewrite He.
Qed.

Lemma wf_list_add p limit st st' e :
  0 < p -> 0 < limit -> find_node_by_pid p st = None -> kmalloc_node (heap st) = Some e ->
  head st' = list_add e (head st) -> heap st' = <[e := MemLim p limit]> (heap st) ->
  wf_list st -> wf_list st'.
Proof.
  intros Hp Hl Hf He%kmalloc_fresh Hh Hheap Hwf. pose proof (fun q n => not_found p st q n Hwf Hf) as Hnf.
  destruct Hwf as [Hnd Hn Hpids Hpos].
  assert (e ∉ list_nodes (head st)) as Hfresh by (rewrite Hn, He; by intros []).
  split; rewrite ?Hh, ?Hheap, ?nodes_add by done.
  - by constructor.
  - intros q. rewrite elem_of_cons, Hn. destruct (decide (q = e)) as [->|].
    + rewrite lookup_insert_eq. naive_solver.
    + rewrite lookup_insert_ne by done. naive_solver.
  - intros q1 q2 n m. rewrite !lookup_insert_Some. naive_solver.
  - intros q n. rewrite lookup_insert_Some. naive_solver.
Qed.

Lemma wf_list_update p limit st st' e :
  0 < limit -> find_node_by_pid p st = Some e -> head st' = head st ->
  heap st' = alter (fun n => MemLim (pid n) limit) e (heap st) -> wf_list st -> wf_list st'.
Proof.
  intros Hl Hf Hh Hheap [Hnd Hn Hpids Hpos].
  split; rewrite ?Hh, ?Hheap; auto.
  - intros q. rewrite Hn. destruct (decide (q = e)) as [->|].
    + rewrite lookup_alter_eq. by rewrite fmap_is_Some.
    + by rewrite lookup_alter_ne.
  - intros q1 q2 n m. rewrite !lookup_alter_Some. naive_solver.
  - intros q n. rewrite lookup_alter_Some. naive_solver.
Qed.

Lemma wf_list_remove p st st' e :
  find_node_by_pid p st = Some e -> head st' = list_del e (head st) ->
  heap st' = delete e (heap st) -> wf_list st -> wf_list st'.
Proof.
  intros [He _]%found_node Hh Hheap [Hnd Hn Hpids Hpos].
  split; rewrite ?Hh, ?Hheap, ?nodes_del by done.
  - by apply NoDup_filter.
  - intros q. rewrite list_elem_of_filter, Hn. destruct (decide (q = e)) as [->|].
    + rewrite lookup_delete_eq. split; [naive_solver|by intros []].
    + rewrite lookup_delete_ne by done. naive_solver.
  - intros q1 q2 n m. rewrite !lookup_delete_Some. naive_solver.
  - intros q n. rewrite lookup_delete_Some. naive_solver.
Qed.

(** *** The four calls as one interface *)
Inductive mem_call :=
| Add (p limit : Z)
| Get (buffer max_entries size : Z)
| Update (p limit : Z)
| Remove (p : Z).

Definition exec (c : mem_call) : sys (mstate L) Z :=
  match c with
  | Add p l => sys_luis_add_memory_limit p l
  | Get b m s => sys_luis_get_memory_limits b m s
  | Update p l => sys_luis_update_memory_limit p l
  | Remove p => sys_luis_remove_memory_limit p
  end.

Lemma get_outcome b m s st r st' :
  run (sys_luis_get_memory_limits b m s) st = (r, st') -> 
  head st' = head st /\ heap st' = heap st /\ ks st' = ks st.
Proof. unfold sys_luis_get_memory_limits. sys_unfold. repeat (case_match; simplify_eq/=); by intros [= <- <-]. Qed.

(** *** The abstract limiter

    A finite map from pid to limit beside the state the rest of the kernel and
    the user see: the resource limits, the user arrays and counters. *)
Record lstate := LState {
  limits : gmap Z Z;
  l_ks : kstate;
  l_ubuf : gmap Z (list memory_limitation);
  l_uint : gmap Z Z;
}.

(** The first condition that holds decides the return value. *)
Fixpoint first_of (conds : list (bool * Z)) : option Z :=
  match conds with
  | [] => None
  | (c, r) :: rest => if c then Some r else first_of rest
  end.

(** Bytes of address space of the process, 4096 per page. *)
Definition vm_bytes (p : Z) (k : kstate) : Z :=
  match tasks k !! p with
  | Some t => match t_mm t with Some pages => u64 (pages * 4096) | None => 0 end
  | None => 0
  end.
(** Setting soft and hard [RLIMIT_AS] of a process: the result and the kernel after. *)
Definition set_as (p l : Z) (k : kstate) : Z * kstate :=
  match tasks k !! p with
  | Some t => let '(r, _, k') := do_prlimit t RLIMIT_AS (Some (Rlimit l l)) false k in (r, k')
  | None => (- ESRCH, k)
  end.

(** When each call is refused, and with what, in order of precedence. *)
Definition refusals (c : mem_call) (s : lstate) : list (bool * Z) :=
  let unknown p := (bool_decide (tasks (l_ks s) !! p = None), - ESRCH) in
  let registered p := bool_decide (p ∈ dom (limits s)) in
  let refused p l := (negb ((set_as p l (l_ks s)).1 =? 0), (set_as p l (l_ks s)).1) in
  match c with
  | Add p l =>
      [(negb (capable CAP_SYS_ADMIN), - EPERM); ((p <=? 0) || (l <=? 0), - EINVAL); unknown p;
       (registered p, - 101); (l <? vm_bytes p (l_ks s), - 100); refused p l]
  | Update p l =>
      [(negb (capable CAP_SYS_ADMIN), - EPERM); ((p <=? 0) || (l <=? 0), - EINVAL); unknown p;
       (negb (registered p), - 102); (l <? vm_bytes p (l_ks s), - 100); refused p l]
  | Remove p =>
      [(negb (capable CAP_SYS_ADMIN), - EPERM); (p <=? 0, - EINVAL); unknown p;
       (negb (registered p), - 102); refused p 115343360]
  | Get b n cnt =>
      [(n <=? 0, - EINVAL);
       (negb (access_ok b (u64 (n * SIZEOF_LIMITATION)) && access_ok cnt 4), - EINVAL);
       (negb (kmalloc_array n SIZEOF_LIMITATION), - ENOMEM)]
  end.

(** How many entries a request for [n] is answered with, and the answers
    allowed: that many different registered pids with their limits. *)
Definition reported (n : Z) (m : gmap Z Z) : Z := Z.min n (Z.of_nat (size m)).
Definition report (n : Z) (m : gmap Z Z) (l : list memory_limitation) : Prop :=
  Z.of_nat (length l) = reported n m /\ NoDup (pid <$> l) /\
  forall e, e ∈ l -> m !! pid e = Some (memory_limit e).

(** The nodes of a heap are the entries of the map. *)
Definition holds (h : gmap Z memory_limitation) (m : gmap Z Z) : Prop :=
  forall p l, m !! p = Some l <-> exists e, h !! e = Some (MemLim p l).

Inductive spec_step : mem_call -> lstate -> Z -> lstate -> Prop :=
| spec_refuse c s r : first_of (refusals c s) = Some r -> spec_step c s r s
| spec_add p l s h e : first_of (refusals (Add p l) s) = None ->
    holds h (limits s) -> kmalloc_node h = Some e ->
    spec_step (Add p l) s 0
      (LState (<[p := l]> (limits s)) (set_as p l (l_ks s)).2 (l_ubuf s) (l_uint s))
| spec_add_nomem p l s h : first_of (refusals (Add p l) s) = None ->
    holds h (limits s) -> kmalloc_node h = None ->
    spec_step (Add p l) s (- ENOMEM)
      (LState (limits s) (set_as p l (l_ks s)).2 (l_ubuf s) (l_uint s))
| spec_update p l s : first_of (refusals (Update p l) s) = None ->
    spec_step (Update p l) s 0
      (LState (<[p := l]> (limits s)) (set_as p l (l_ks s)).2 (l_ubuf s) (l_uint s))
| spec_remove p s : first_of (refusals (Remove p) s) = None ->
    spec_step (Remove p) s 0
      (LState (delete p (limits s)) (set_as p 115343360 (l_ks s)).2 (l_ubuf s) (l_uint s))
| spec_get_array_fault b n cnt s : first_of (refusals (Get b n cnt) s) = None ->
    uncopied b (reported n (limits s) * SIZEOF_LIMITATION) <> 0 ->
    spec_step (Get b n cnt) s (- EFAULT)
      (LState (limits s) (l_ks s) (delete b (l_ubuf s)) (l_uint s))
| spec_get_count_fault b n cnt s l : first_of (refusals (Get b n cnt) s) = None ->
    uncopied b (reported n (limits s) * SIZEOF_LIMITATION) = 0 -> uncopied cnt 4 <> 0 ->
    report n (limits s) l ->
    spec_step (Get b n cnt) s (- EFAULT)
      (LState (limits s) (l_ks s) (<[b := l]> (l_ubuf s)) (delete cnt (l_uint s)))
| spec_get b n cnt s l : first_of (refusals (Get b n cnt) s) = None ->
    uncopied b (reported n (limits s) * SIZEOF_LIMITATION) = 0 -> uncopied cnt 4 = 0 ->
    report n (limits s) l ->
    spec_step (Get b n cnt) s 0
      (LState (limits s) (l_ks s) (<[b := l]> (l_ubuf s)) (<[cnt := reported n (limits s)]> (l_uint s))).

(** [s] is what the list, the kernel and the user memory say. *)
Record represents st (s : lstate) : Prop := {
  rep_limits : holds (heap st) (limits s);
  rep_ks : l_ks s = ks st;
  rep_ubuf : l_ubuf s = ubuf st;
  rep_uint : l_uint s = uint st;
}.

Lemma holds_empty : holds ∅ ∅.
Proof. intros p l. setoid_rewrite lookup_empty. naive_solver. Qed.

Lemma holds_find st m p :
  wf_list st -> holds (heap st) m -> find_node_by_pid p st = None <-> m !! p = None.
Proof.
  intros Hwf Hr. split; intros Hf; apply eq_None_not_Some.
  - intros [l (e & He)%Hr]. by eapply not_found in He.
  - intros [e (_ & l & He)%found_node]. assert (m !! p = Some l) by (apply Hr; eauto). congruence.
Qed.

Lemma holds_registered st m p :
  wf_list st -> holds (heap st) m ->
  bool_decide (p ∈ dom m) = bool_decide (is_Some (find_node_by_pid p st)).
Proof.
  intros Hwf Hr. apply bool_decide_ext. rewrite elem_of_dom, <- !not_eq_None_Some.
  by rewrite (holds_find st m p).
Qed.

Lemma holds_add st m p l e :
  find_node_by_pid p st = None -> kmalloc_node (heap st) = Some e -> wf_list st ->
  holds (heap st) m -> holds (<[e := MemLim p l]> (heap st)) (<[p := l]> m).
Proof.
  intros Hf He%kmalloc_fresh Hwf Hr q l'.
  rewrite lookup_insert_Some, (Hr q l'). setoid_rewrite lookup_insert_Some. split.
  - intros [[-> ->]|[Hne (e' & He')]]; [by eauto|]. exists e'. right.
    split; [intros ->; congruence|done].
  - intros (e' & [[_ [= -> ->]]|[Hne He']]); [by left|]. right.
    split; [|by eauto]. intros ->. by eapply not_found in He'.
Qed.

Lemma holds_update st m p l e :
  find_node_by_pid p st = Some e -> wf_list st -> holds (heap st) m ->
  holds (alter (fun n => MemLim (pid n) l) e (heap st)) (<[p := l]> m).
Proof.
  intros (_ & l0 & He)%found_node Hwf Hr q l'.
  rewrite lookup_insert_Some, (Hr q l'). setoid_rewrite lookup_alter_Some. split.
  - intros [[-> ->]|[Hne (e' & He')]]; [by eauto 10|]. exists e'. right.
    split; [intros ->; congruence|done].
  - intros (e' & [(<- & n & Hn & [= -> ->])|[Hne He']]); [left; by simplify_map_eq|].
    right. split; [|by eauto]. intros ->. apply Hne. symmetry. by eapply (wf_pids _ Hwf).
Qed.

Lemma holds_remove st m p e :
  find_node_by_pid p st = Some e -> wf_list st -> holds (heap st) m ->
  holds (delete e (heap st)) (delete p m).
Proof.
  intros (_ & l0 & He)%found_node Hwf Hr q l'.
  rewrite lookup_delete_Some, (Hr q l'). setoid_rewrite lookup_delete_Some. split.
  - intros [Hne (e' & He')]. exists e'. split; [intros ->; congruence|done].
  - intros (e' & Hne & He'). split; [|by eauto]. intros ->. apply Hne. symmetry.
    by eapply (wf_pids _ Hwf).
Qed.

Lemma call_wf c st r st' : wf_list st -> run (exec c) st = (r, st') -> wf_list st'.
Proof.
  intros Hwf. destruct c as [p l|b n s|p l|p]; simpl.
  - intros [(? & ->)|[(_ & _ & _ & ? & ? & _)|(_ & ? & ? & ? & e & t & ? & ? & ? & _)]]%add_outcome;
      [done|by eapply wf_list_same|by apply (wf_list_add p l st st' e)].
  - intros (? & ? & _)%get_outcome. by eapply wf_list_same.
  - intros [(? & ->)|(_ & ? & ? & e & t & ? & ? & ? & _)]%update_outcome;
      [done|by apply (wf_list_update p l st st' e)].
  - intros [(? & ->)|(_ & e & t & ? & ? & ? & _)]%remove_outcome;
      [done|by apply (wf_list_remove p st st' e)].
Qed.

(** *** What [luis_get_memory_limits] reports *)
Definition entries st : list memory_limitation :=
  omap (fun e => heap st !! e) (list_nodes (head st)).

Lemma fill_buffer_take h nodes max count :
  (forall e, e ∈ nodes -> is_Some (h !! e)) ->
  fill_buffer h nodes max count = take (Z.to_nat (max - count)) (omap (fun e => h !! e) nodes).
Proof.
  revert count. induction nodes as [|e nodes IH]; intros count Hn; simpl; [by rewrite take_nil|].
  destruct (Hn e) as [n Hen]; [set_solver|]. rewrite Hen. simpl.
  destruct (Z.leb_spec max count).
  - by replace (Z.to_nat (max - count)) with 0%nat by lia.
  - replace (Z.to_nat (max - count)) with (S (Z.to_nat (max - (count + 1)))) by lia.
    simpl. f_equal. apply IH. set_solver.
Qed.

Lemma entries_represented st m p l :
  wf_list st -> holds (heap st) m -> MemLim p l ∈ entries st <-> m !! p = Some l.
Proof.
  intros Hwf Hr. unfold entries. rewrite list_elem_of_omap, (Hr p l). split.
  - intros (e & _ & He). eauto.
  - intros (e & He). exists e. rewrite (wf_nodes _ Hwf). by rewrite He.
Qed.

Lemma entries_pids st : wf_list st -> NoDup (pid <$> entries st).
Proof.
  intros [Hnd _ Hpids _]. unfold entries. induction (list_nodes (head st)) as [|e ns IH]; simpl; [constructor|].
  apply NoDup_cons in Hnd as [He Hnd]. destruct (heap st !! e) as [n|] eqn:E; simpl; [|by apply IH].
  constructor; [|by apply IH]. rewrite list_elem_of_fmap. intros (n' & Hn & (e' & He' & E')%list_elem_of_omap).
  by rewrite (Hpids _ _ _ _ E E' Hn) in He.
Qed.

Lemma entries_size st m : wf_list st -> holds (heap st) m -> length (entries st) = size m.
Proof.
  intros Hwf Hr. pose (l := (fun n => (pid n, memory_limit n)) <$> entries st).
  assert (NoDup l.*1) as Hnd by (unfold l; rewrite <- list_fmap_compose; by apply entries_pids).
  assert (list_to_map l = m) as <-.
  { apply map_eq. intros p. apply option_eq. intros lim. rewrite <- elem_of_list_to_map by done.
    rewrite <- (entries_represented st m p lim) by done. unfold l. rewrite list_elem_of_fmap.
    split; [intros ([p' l'] & [= -> ->] & ?); done|intros ?; by eexists (MemLim p lim)]. }
  rewrite <- length_map_to_list, (map_to_list_to_map l) by done. unfold l. by rewrite length_fmap.
Qed.

Lemma entries_report st m n :
  wf_list st -> holds (heap st) m -> 0 <= n -> report n m (take (Z.to_nat n) (entries st)).
Proof.
  intros Hwf Hr Hn. split_and!.
  - unfold reported. rewrite length_take, (entries_size st m) by done. lia.
  - rewrite fmap_take. eapply sublist_NoDup; [by apply entries_pids|apply sublist_take].
  - intros [p l] Hin. simpl. apply (entries_represented st); [done..|]. apply elem_of_take in Hin as (i & Hi & _). by eapply list_elem_of_lookup_2.
Qed.

Lemma wf_fill st n : wf_list st ->
  fill_buffer (heap st) (list_nodes (head st)) n 0 = take (Z.to_nat n) (entries st).
Proof.
  intros Hwf. rewrite fill_buffer_take by (intros; by apply (wf_nodes _ Hwf)). by rewrite Z.sub_0_r.
Qed.

(** Conditions of the code in the terms of the specification. *)
Lemma usage_spec st p t :
  tasks (ks st) !! p = Some t -> get_process_memory_usage t = vm_bytes p (ks st).
Proof.
  intros Ht. unfold get_process_memory_usage, vm_bytes. rewrite Ht. destruct (t_mm t); [|done].
  unfold shl64. by rewrite Z.shiftl_mul_pow2.
Qed.

Definition with_ks st (k : kstate) : mstate L := MState (head st) (heap st) k (ubuf st) (uint st).

Lemma set_limit_run st p t l :
  tasks (ks st) !! p = Some t ->
  set_process_memory_limit t l st = (Val (set_as p l (ks st)).1, with_ks st (set_as p l (ks st)).2).
Proof.
  intros Ht. unfold set_process_memory_limit, set_as. rewrite Ht. by destruct (do_prlimit _ _ _ _ _) as [[??]?].
Qed.
Lemma set_as_refused st p l :
  negb ((set_as p l (ks st)).1 =? 0) = true -> with_ks st (set_as p l (ks st)).2 = st.
Proof.
  unfold set_as. destruct (tasks (ks st) !! p) as [t|]; [|intros _; apply mstate_eta].
  destruct (do_prlimit _ _ _ _ _) as [[r o] k] eqn:E. simpl. intros Hr.
  rewrite (do_prlimit_fail _ _ _ _ _ _ _ _ E Hr). apply mstate_eta.
Qed.

(** Run the call one condition at a time, each against the same condition of
    the specification. *)
Ltac same_condition :=
  match goal with
  | |- context [if ?b then Some _ else _] => destruct b eqn:?; simpl; [try reflexivity|]
  end.
Ltac same_task p st t :=
  unfold find_task_by_vpid; destruct (tasks (ks st) !! p) as [t|] eqn:?;
    [rewrite ?bool_decide_false by done; simpl|by rewrite bool_decide_true].

Lemma add_runs p l st s : wf_list st -> represents st s ->
  run (sys_luis_add_memory_limit p l) st =
  match first_of (refusals (Add p l) s) with
  | Some r => (r, st)
  | None =>
      let st1 := with_ks st (set_as p l (ks st)).2 in
      match kmalloc_node (heap st) with
      | None => (- ENOMEM, st1)
      | Some e => (0, MState (list_add e (head st)) (<[e := MemLim p l]> (heap st)) (ks st1) (ubuf st) (uint st))
      end
  end.
Proof.
  intros Hwf [Hm Hk _ _]. cbn [refusals first_of]. rewrite Hk, (holds_registered st) by done.
  unfold sys_luis_add_memory_limit. sys_unfold. repeat (same_condition; []). same_task p st t.
  rewrite (usage_spec st p t) by done. repeat (same_condition; []).
  rewrite (set_limit_run st p t) by done. same_condition; [by rewrite set_as_refused|].
  apply bool_decide_eq_false, eq_None_not_Some in Heqb1.
  unfold add_memory_limitation_node, find_node_by_pid in *. simpl. rewrite Heqb1. by destruct (kmalloc_node _).
Qed.

Lemma update_runs p l st s : wf_list st -> represents st s ->
  run (sys_luis_update_memory_limit p l) st =
  match first_of (refusals (Update p l) s), find_node_by_pid p st with
  | Some r, _ => (r, st)
  | None, Some e => (0, store_limit e l (with_ks st (set_as p l (ks st)).2))
  | None, None => (- 102, st)
  end.
Proof.
  intros Hwf [Hm Hk _ _]. cbn [refusals first_of]. rewrite Hk, (holds_registered st) by done.
  unfold sys_luis_update_memory_limit. sys_unfold. repeat (same_condition; []). same_task p st t.
  destruct (find_node_by_pid p st) as [e|]; [|done]. simpl.
  rewrite (usage_spec st p t) by done. same_condition.
  rewrite (set_limit_run st p t) by done. same_condition; [by rewrite set_as_refused|done].
Qed.

Lemma remove_runs p st s : wf_list st -> represents st s ->
  run (sys_luis_remove_memory_limit p) st =
  match first_of (refusals (Remove p) s), find_node_by_pid p st with
  | Some r, _ => (r, st)
  | None, Some e => (0, unlink_and_free e (with_ks st (set_as p 115343360 (ks st)).2))
  | None, None => (- 102, st)
  end.
Proof.
  intros Hwf [Hm Hk _ _]. cbn [refusals first_of]. rewrite Hk, (holds_registered st) by done.
  unfold sys_luis_remove_memory_limit. sys_unfold. repeat (same_condition; []). same_task p st t.
  destruct (find_node_by_pid p st) as [e|]; [|done]. simpl.
  change (110 * 1024 * 1024) with 115343360. rewrite (set_limit_run st p t) by done. same_condition; [by rewrite set_as_refused|done].
Qed.

Lemma get_runs b n cnt st s : wf_list st -> represents st s ->
  run (sys_luis_get_memory_limits b n cnt) st =
  match first_of (refusals (Get b n cnt) s) with
  | Some r => (r, st)
  | None =>
      let l := take (Z.to_nat n) (entries st) in
      let st1 m u := MState (head st) (heap st) (ks st) m u in
      if negb (uncopied b (Z.of_nat (length l) * SIZEOF_LIMITATION) =? 0) then (- EFAULT, st1 (delete b (ubuf st)) (uint st))
      else if negb (uncopied cnt 4 =? 0) then (- EFAULT, st1 (<[b := l]> (ubuf st)) (delete cnt (uint st)))
      else (0, st1 (<[b := l]> (ubuf st)) (<[cnt := Z.of_nat (length l)]> (uint st)))
  end.
Proof.
  intros Hwf [Hm Hk _ _]. cbn [refusals first_of]. rewrite negb_andb.
  unfold sys_luis_get_memory_limits. sys_unfold. repeat (same_condition; []).
  rewrite wf_fill by done. unfold put_user, copy_to_user.
  destruct (uncopied b _ =? 0); simpl; [|done]. by destruct (uncopied cnt 4 =? 0).
Qed.

(** An accepted call found its node, or for [Add] found none. *)
Lemma first_of_None c r rest : first_of ((c, r) :: rest) = None <-> c = false /\ first_of rest = None.
Proof. simpl. destruct c; naive_solver. Qed.
Lemma accepted_found c st s :
  wf_list st -> represents st s -> first_of (refusals c s) = None ->
  match c with
  | Add p _ => find_node_by_pid p st = None
  | Update p _ | Remove p => is_Some (find_node_by_pid p st)
  | Get _ n _ => 0 < n
  end.
Proof.
  intros Hwf [Hm _ _ _]. destruct c; cbn [refusals]; rewrite !first_of_None, ?(holds_registered st) by done;
    rewrite ?negb_false_iff, ?bool_decide_eq_true, ?bool_decide_eq_false, ?Z.leb_gt, <- ?eq_None_not_Some; tauto.
Qed.

(** One call of the code is one step of the abstract limiter. *)
Lemma call_refines c st r st' s :
  wf_list st -> represents st s -> run (exec c) st = (r, st') ->
  exists s', spec_step c s r s' /\ represents st' s'.
Proof.
  intros Hwf Hr. pose proof Hr as [Hm Hk Hb Hu]. pose proof (accepted_found c st s Hwf Hr) as Hacc.
  destruct (first_of (refusals c s)) as [r'|] eqn:E.
  { assert (run (exec c) st = (r', st)) as ->.
    { destruct c; cbn [exec]; rewrite ?(add_runs _ _ st s), ?(update_runs _ _ st s), ?(remove_runs _ st s),
        ?(get_runs _ _ _ st s) by done; by rewrite E. }
    intros [= <- <-]. exists s. split; [by constructor|done]. }
  specialize (Hacc eq_refl). destruct c as [p l|b n cnt|p l|p]; cbn [exec] in *.
  - rewrite (add_runs p l st s), E by done. simpl.
    destruct (kmalloc_node (heap st)) as [e|] eqn:Ek; intros [= <- <-]; eexists;
      (split; [by eauto using spec_step|split; simpl; try done; try by rewrite Hk]). by apply holds_add.
  - rewrite (get_runs b n cnt st s), E by done. cbv zeta.
    pose proof (entries_report st _ n Hwf Hm ltac:(lia)) as Hrep. rewrite (proj1 Hrep).
    repeat case_match; rewrite ?negb_true_iff, ?negb_false_iff, ?Z.eqb_eq, ?Z.eqb_neq in *; intros [= <- <-];
      eexists; (split; [by eauto using spec_step|split; simpl; (exact Hm || congruence)]).
  - destruct Hacc as [e He]. rewrite (update_runs p l st s), E, He by done. intros [= <- <-]. eexists.
    split; [by eauto using spec_step|split; simpl; try done; try by rewrite Hk]. by apply holds_update.
  - destruct Hacc as [e He]. rewrite (remove_runs p st s), E, He by done. intros [= <- <-]. eexists.
    split; [by eauto using spec_step|split; simpl; try done; try by rewrite Hk]. by apply holds_remove.
Qed.

(** Running a program of calls, with the values they return. *)
Fixpoint exec_all (cs : list mem_call) st : list Z * mstate L :=
  match cs with
  | [] => ([], st)
  | c :: cs' =>
      let '(r, st1) := run (exec c) st in
      let '(rs, st2) := exec_all cs' st1 in (r :: rs, st2)
  end.
Inductive spec_run : list mem_call -> lstate -> list Z -> lstate -> Prop :=
| spec_run_nil m : spec_run [] m [] m
| spec_run_cons c cs m r m1 rs m2 :
    spec_step c m r m1 -> spec_run cs m1 rs m2 -> spec_run (c :: cs) m (r :: rs) m2.

Lemma trace_refines cs st rs st' m :
  wf_list st -> represents st m -> exec_all cs st = (rs, st') ->
  exists m', spec_run cs m rs m' /\ wf_list st' /\ represents st' m'.
Proof.
  revert st rs m. induction cs as [|c cs IH]; simpl; intros st rs m Hwf Hr.
  { intros [= <- <-]. exists m. by split_and!; [constructor| |]. }
  destruct (run (exec c) st) as [r st1] eqn:E1.
  destruct (exec_all cs st1) as [rs' st2] eqn:E2. intros [= <- <-].
  destruct (call_refines _ _ _ _ _ Hwf Hr E1) as (m1 & ? & Hr1).
  pose proof (call_wf _ _ _ _ Hwf E1) as Hwf1.
  destruct (IH _ _ _ Hwf1 Hr1 E2) as (m2 & ? & ?). exists m2. split; [by econstructor|done].
Qed.

Definition init_spec (k : kstate) : lstate := LState ∅ k ∅ ∅.
Lemma represents_init k : represents (init_state k) (init_spec k).
Proof. split; try done. apply holds_empty. Qed.

(** C1: every program of add, get, update and remove calls, run from the empty
    list, is a run of a finite map from pid to limit beside the kernel's
    resource limits and the user's memory, with the same return values.  The
    specification fixes them: a call is refused exactly with the first
    condition that applies (capability, arguments, no such process, pid
    registered or not, more memory in use than the limit, [do_prlimit]) and
    then changes nothing; otherwise it sets [RLIMIT_AS] and inserts, replaces
    or deletes its pid and returns 0, or -ENOMEM with only the limit set when
    no node can be allocated; get stores as many different registered pids
    with their limits as were asked for or exist, and their number, unless the
    user memory faults.  The list stays well formed throughout: its nodes are
    exactly the allocated ones and no pid appears twice. *)
Theorem limiter_refines_map (cs : list mem_call) (k : kstate) rs st' :
  exec_all cs (init_state k) = (rs, st') ->
  exists s, spec_run cs (init_spec k) rs s /\ wf_list st' /\ represents st' s.
Proof. apply trace_refines; [apply wf_list_init|apply represents_init]. Qed.

(** [luis_get_memory_limits] returns 0 and stores in the user array the first
    [max] entries in list order and in the counter how many those are; the
    entries of the list are exactly the registered (pid, limit) pairs. *)
Theorem get_reports_the_list b max s st :
  wf_list st -> 0 < max -> access_ok b (u64 (max * SIZEOF_LIMITATION)) = true ->
  access_ok s 4 = true -> kmalloc_array max SIZEOF_LIMITATION = true ->
  (forall n, uncopied b n = 0) -> uncopied s 4 = 0 ->
  exists st', run (sys_luis_get_memory_limits b max s) st = (0, st') /\
    ubuf st' !! b = Some (take (Z.to_nat max) (entries st)) /\
    uint st' !! s = Some (Z.min max (Z.of_nat (length (entries st)))) /\
    forall m p l, holds (heap st) m -> (MemLim p l ∈ entries st <-> m !! p = Some l).
Proof.
  intros Hwf Hmax Hb Hs Hk Hub Hus.
  pose proof (fill_buffer_take (heap st) (list_nodes (head st)) max 0
    (fun e => proj1 (wf_nodes _ Hwf e))) as Hfill.
  rewrite Z.sub_0_r in Hfill. change (omap _ _) with (entries st) in Hfill.
  eexists. split_and!; [|..|intros; by apply entries_represented].
  - unfold sys_luis_get_memory_limits, copy_to_user, put_user. sys_unfold.
    rewrite (proj2 (Z.leb_gt max 0)), Hb, Hs, Hk by done. simpl.
    rewrite Hub. simpl. unfold copy_to_user. rewrite Hus. simpl. reflexivity.
  - simpl. by rewrite Hfill, lookup_insert_eq.
  - simpl. rewrite Hfill, lookup_insert_eq, length_take. f_equal. lia.
Qed.

(** *** The registered limit is the one in force *)

(** Tasks with a [signal_struct] of their own: what holds of processes, as
    opposed to threads of one process. *)
Definition separate st : Prop := forall p q t u,
  tasks (ks st) !! p = Some t -> tasks (ks st) !! q = Some u -> t_signal t = t_signal u -> p = q.
Definition has_limits st : Prop := forall p t, tasks (ks st) !! p = Some t ->
  exists l, signals (ks st) !! t_signal t = Some l /\ length l = Z.to_nat RLIM_NLIMITS.
Definition enforced st : Prop := forall e p l t,
  heap st !! e = Some (MemLim p l) -> tasks (ks st) !! p = Some t ->
  read_rlim (ks st) (t_signal t) RLIMIT_AS = Rlimit l l.

Lemma set_limit_reads st k' p t n q u :
  separate st -> has_limits st -> tasks (ks st) !! p = Some t ->
  do_prlimit t RLIMIT_AS (Some n) false (ks st) = (0, None, k') ->
  tasks (ks st) !! q = Some u ->
  read_rlim k' (t_signal u) RLIMIT_AS =
  if decide (q = p) then n else read_rlim (ks st) (t_signal u) RLIMIT_AS.
Proof.
  intros Hsep Hlim Ht [(? & _)|(_ & _ & Heff & _)]%do_prlimit_cases Hu; [done|].
  destruct (Hlim _ _ Ht) as (l & Hl & Hlen). case_decide as Hq.
  - subst. simplify_map_eq. eapply read_written; [exact Hl|rewrite Hlen; lia|exact Heff].
  - eapply (read_other t RLIMIT_AS n); [lia|lia| |exact Heff]. left. intros ?. apply Hq. by eapply Hsep.
Qed.

Lemma set_limit_has st k' t n :
  do_prlimit t RLIMIT_AS (Some n) false (ks st) = (0, None, k') -> has_limits st ->
  forall p u, tasks k' !! p = Some u ->
  exists l, signals k' !! t_signal u = Some l /\ length l = Z.to_nat RLIM_NLIMITS.
Proof.
  intros [(? & _)|(_ & _ & Heff & _)]%do_prlimit_cases Hlim p u; [done|].
  destruct Heff as (_ & _ & _ & _ & -> & _ & ->). intros (l & Hl & Hlen)%Hlim.
  destruct (decide (t_signal u = t_signal t)) as [Heq|?].
  - rewrite Heq, lookup_alter_eq, <- Heq, Hl. eexists. split; [done|]. by rewrite length_insert.
  - rewrite lookup_alter_ne by done. eauto.
Qed.

Record ready st : Prop := {
  ready_wf : wf_list st;
  ready_separate : separate st;
  ready_limits : has_limits st;
  ready_enforced : enforced st;
}.

(** Setting the limit of [p] and changing only its node keeps every
    registered limit in force. *)
Lemma ready_set st st' p t n :
  ready st -> wf_list st' -> tasks (ks st) !! p = Some t ->
  do_prlimit t RLIMIT_AS (Some n) false (ks st) = (0, None, ks st') ->
  (forall e q l, heap st' !! e = Some (MemLim q l) ->
     (q = p /\ n = Rlimit l l) \/ (q <> p /\ heap st !! e = Some (MemLim q l))) ->
  ready st'.
Proof.
  intros [Hwf Hsep Hlim Henf] Hwf' Ht E Hheap.
  pose proof (do_prlimit_tasks _ _ _ _ _ _ _ _ E) as Htasks. split; [done|..].
  - intros q1 q2 u1 u2. rewrite Htasks. apply Hsep.
  - intros q u. by apply (set_limit_has st _ t n).
  - intros e q l u He. rewrite Htasks. intros Hu.
    rewrite (set_limit_reads st _ p t n q u) by done.
    apply Hheap in He as [[-> ->]|[Hne He]]; [by rewrite decide_True|].
    rewrite decide_False by done. by eapply Henf.
Qed.

Lemma ready_call c st r st' : ready st -> run (exec c) st = (r, st') -> ready st'.
Proof.
  intros Hready Hrun. pose proof (call_wf _ _ _ _ (ready_wf _ Hready) Hrun) as Hwf'.
  pose proof (ready_wf _ Hready) as Hwf.
  destruct c as [p l|b n s|p l|p]; simpl in Hrun.
  - apply add_outcome in Hrun as [(_ & ->)|[(_ & Hf & _ & _ & Hh & t & Ht & E)|(_ & _ & _ & Hf & e & t & He & _ & Hh & Ht & _ & E)]];
      [done|..]; eapply ready_set; try done; intros e' q l'; rewrite Hh.
    + intros He'. right. split; [|done]. by intros ->; eapply not_found in He'.
    + rewrite lookup_insert_Some. intros [[_ [= -> ->]]|[_ He']]; [by left|].
      right. split; [|done]. by intros ->; eapply not_found in He'.
  - apply get_outcome in Hrun as (Hh & Hheap & Hk). destruct Hready as [_ H1' H2' H3'].
    unfold separate, has_limits, enforced in *. split; unfold separate, has_limits, enforced; rewrite ?Hk, ?Hheap; done.
  - apply update_outcome in Hrun as [(_ & ->)|(_ & _ & _ & e & t & Hf & _ & Hh & Ht & _ & E)]; [done|].
    eapply ready_set; try done. intros e' q l'. rewrite Hh, lookup_alter_Some.
    apply found_node in Hf as (_ & l0 & He).
    intros [(<- & n & Hn & [= -> ->])|[Hne He']]; [left; by simplify_map_eq|].
    right. split; [|done]. intros ->. apply Hne. by eapply (wf_pids _ Hwf).
  - apply remove_outcome in Hrun as [(_ & ->)|(_ & e & t & Hf & _ & Hh & Ht & E)]; [done|].
    eapply ready_set; try done. intros e' q l'. rewrite Hh, lookup_delete_Some.
    apply found_node in Hf as (_ & l0 & He). intros [Hne He'].
    right. split; [|done]. intros ->. apply Hne. by eapply (wf_pids _ Hwf).
Qed.

(** C2: for processes that do not share a [signal_struct], after any program of
    calls the limit registered for a pid is both the soft and the hard
    [RLIMIT_AS] of that process. *)
Theorem registered_limits_in_force cs st rs st' :
  ready st -> exec_all cs st = (rs, st') ->
  forall e p l t, heap st' !! e = Some (MemLim p l) -> tasks (ks st') !! p = Some t ->
  read_rlim (ks st') (t_signal t) RLIMIT_AS = Rlimit l l.
Proof.
  intros Hready Hrun. apply ready_enforced. revert st rs Hready Hrun.
  induction cs as [|c cs IH]; simpl; intros st rs Hready; [by intros [= _ <-]|].
  destruct (run (exec c) st) as [r st1] eqn:E1.
  destruct (exec_all cs st1) as [rs' st2] eqn:E2. intros [= _ <-].
  eapply IH; [|exact E2]. by eapply ready_call.
Qed.

(** *** Errors *)

(** An update or remove call that returns an error has changed neither the
    list nor any resource limit. *)
Theorem failed_update_or_remove_changes_nothing c st r st' :
  (exists p l, c = Update p l) \/ (exists p, c = Remove p) ->
  run (exec c) st = (r, st') -> r <> 0 -> st' = st.
Proof.
  intros [(p & l & ->)|(p & ->)]; simpl.
  - by intros [(_ & ->)|(-> & _)]%update_outcome.
  - by intros [(_ & ->)|(-> & _)]%remove_outcome.
Qed.

(** When the node cannot be allocated, [luis_add_memory_limit] returns
    -ENOMEM with nothing registered, but the process already has the new
    [RLIMIT_AS]: the limit is in force and no call of this interface knows it. *)
Theorem add_without_memory_limits_anyway p limit task st :
  capable CAP_SYS_ADMIN = true -> 0 < p -> 0 < limit -> tasks (ks st) !! p = Some task ->
  find_node_by_pid p st = None -> get_process_memory_usage task <= limit ->
  kmalloc_node (heap st) = None -> has_limits st ->
  (limit <= rlim_max (read_rlim (ks st) (t_signal task) RLIMIT_AS) \/
   capable CAP_SYS_RESOURCE = true) ->
  security_task_setrlimit task RLIMIT_AS (Rlimit limit limit) = 0 ->
  exists st', run (sys_luis_add_memory_limit p limit) st = (- ENOMEM, st') /\
    heap st' = heap st /\
    read_rlim (ks st') (t_signal task) RLIMIT_AS = Rlimit limit limit.
Proof.
  intros Hcap Hp Hl Ht Hf Hu Hk Hlim Hmax Hsec.
  destruct (do_prlimit_ok task RLIMIT_AS (Rlimit limit limit) false (ks st))
    as (k' & E & Heff); [done..|].
  destruct (Hlim _ _ Ht) as (l & Hsig & Hlen).
  exists (MState (head st) (heap st) k' (ubuf st) (uint st)). split_and!; [|done|].
  - unfold sys_luis_add_memory_limit, set_process_memory_limit, add_memory_limitation_node,
      find_task_by_vpid. sys_unfold.
    rewrite Hcap, (proj2 (Z.leb_gt p 0)), (proj2 (Z.leb_gt limit 0)) by done. simpl.
    rewrite Ht. simpl. rewrite Hf. simpl.
    rewrite (proj2 (Z.ltb_ge limit _)) by done. rewrite E. simpl.
    unfold find_node_by_pid in *. simpl. by rewrite Hf, Hk.
  - simpl. eapply read_written; [exact Hsig|rewrite Hlen; lia|exact Heff].
Qed.

(** After a successful remove the process is unregistered but not unlimited:
    its soft and hard [RLIMIT_AS] are 110 MiB, whatever they were before the
    limiter touched them. *)
Theorem removed_process_stays_limited p st st' t :
  wf_list st -> has_limits st -> separate st -> tasks (ks st) !! p = Some t ->
  run (sys_luis_remove_memory_limit p) st = (0, st') ->
  (forall e l, heap st' !! e <> Some (MemLim p l)) /\
  read_rlim (ks st') (t_signal t) RLIMIT_AS = Rlimit 115343360 115343360.
Proof.
  intros Hwf Hlim Hsep Ht [(? & _)|(_ & e & t' & Hf & _ & Hh & Ht' & E)]%remove_outcome; [done|].
  simplify_map_eq. split.
  - intros e' l. apply found_node in Hf as (_ & l0 & He). rewrite Hh.
    intros [Hne He']%lookup_delete_Some. apply Hne. by eapply (wf_pids _ Hwf).
  - rewrite (set_limit_reads st _ p t (Rlimit 115343360 115343360) p t) by done.
    by rewrite decide_True.
Qed.

(** Once the process has exited, its entry can never be removed: the call
    returns an error and changes nothing, so the node stays in the list. *)
Theorem dead_process_cannot_be_removed p st :
  0 < p -> tasks (ks st) !! p = None ->
  exists r, r <> 0 /\ run (sys_luis_remove_memory_limit p) st = (r, st).
Proof.
  intros Hp Ht. destruct (run (sys_luis_remove_memory_limit p) st) as [r st'] eqn:E.
  exists r. destruct (remove_outcome _ _ _ _ E) as [(? & ->)|(_ & e & t & _ & _ & _ & ? & _)];
    [done|congruence].
Qed.

End properties.

(** ** A concrete limiter *)
Module Demo.

Definition list_head_list : ListHead (list Z) := {|
  list_init := []; list_add p l := p :: l;
  list_del p l := filter (.≠ p) l; list_nodes l := l |}.
#[local] Existing Instance list_head_list.
#[local] Instance list_head_laws : ListHeadLaws (list Z).
Proof. by split. Qed.

(** An allocator that hands out the first address above all those in use. *)
Definition next_free (h : gmap Z memory_limitation) : Z := map_fold (fun k _ a => Z.max (k + 1) a) 1 h.
Definition kmalloc_ok : Kmalloc := {| kmalloc_node h := Some (next_free h); kmalloc_array _ _ := true |}.
Definition kmalloc_oom : Kmalloc := {| kmalloc_node _ := None; kmalloc_array _ _ := true |}.

Lemma next_free_above (h : gmap Z memory_limitation) k : is_Some (h !! k) -> k < next_free h.
Proof.
  unfold next_free. revert k. induction h as [|i x h Hi Hf IH] using map_first_key_ind; intros k.
  - rewrite lookup_empty. by intros [].
  - rewrite map_fold_insert_first_key by done.
    destruct (decide (i = k)) as [->|]; [lia|]. rewrite lookup_insert_ne by done. intros ?%IH. lia.
Qed.
#[local] Instance kmalloc_ok_laws : KmallocLaws (H := kmalloc_ok).
Proof.
  split. intros h p [= <-]. apply eq_None_not_Some. intros ?%next_free_above. lia.
Qed.
#[local] Instance kmalloc_oom_laws : KmallocLaws (H := kmalloc_oom).
Proof. by split. Qed.

Definition env := Rlimit.Demo.env.
Definition k0 : kstate := Rlimit.Demo.start.
(** The root user's calls, with an allocator that works and one that does not. *)
Abbreviation exec_root := (exec (lh := list_head_list) (km := kmalloc_ok) (caps := root_caps) (renv := env) (ua := uaccess_ok)).
Abbreviation exec_all_root := (exec_all (lh := list_head_list) (km := kmalloc_ok) (caps := root_caps) (renv := env) (ua := uaccess_ok)).
Definition st0 : mstate (list Z) := init_state (lh := list_head_list) k0.

(** 600 pages are 2457600 bytes: less is refused with -100, a repeated pid with -101. *)
Definition session : list mem_call :=
  [Add 7 2000000; Add 7 3000000; Add 7 4000000; Add 8 5000000; Update 8 6000000; Get 1 10 2; Get 1 0 2;
   Remove 7; Remove 7].

Example session_returns : (exec_all_root session st0).1 = [-100; 0; -101; 0; 0; 0; -22; 0; -102].
Proof. vm_compute. reflexivity. Qed.

Lemma limiter_refines_map_witness : exists s,
  spec_run (km := kmalloc_ok) (caps := root_caps) (renv := env) (ua := uaccess_ok)
    session (init_spec k0) [-100; 0; -101; 0; 0; 0; -22; 0; -102] s /\
  limits s !! 7 = None /\ limits s !! 8 = Some 6000000 /\
  l_ubuf s !! 1 = Some [MemLim 8 6000000; MemLim 7 3000000] /\ l_uint s !! 2 = Some 2.
Proof.
  destruct (limiter_refines_map (km := kmalloc_ok) (caps := root_caps) (renv := env) (ua := uaccess_ok)
    session k0 (exec_all_root session st0).1 (exec_all_root session st0).2)
    as (s & H1 & Hwf & [Hm _ Hb Hu]); [apply surjective_pairing|].
  rewrite session_returns in H1. exists s. split; [exact H1|]. split.
  { apply (proj1 (holds_find (km := kmalloc_ok) (exec_all_root session st0).2 (limits s) 7 Hwf Hm)). vm_compute. reflexivity. }
  split; [apply Hm; exists 2; vm_compute; reflexivity|].
  rewrite Hb, Hu. split; vm_compute; reflexivity.
Defined.

Lemma st0_ready : ready st0.
Proof.
  split.
  - apply (wf_list_init (km := kmalloc_ok)).
  - intros p q t u. unfold st0; simpl. rewrite !lookup_insert_Some, !lookup_singleton_Some.
    intros [[<- <-]|[_ [<- <-]]] [[<- <-]|[_ [<- <-]]]; done.
  - intros p t. unfold st0; simpl. rewrite lookup_insert_Some, lookup_singleton_Some.
    intros [[<- <-]|[_ [<- <-]]]; by eexists.
  - intros e p l t. simpl. by rewrite lookup_empty.
Qed.

Lemma registered_limits_in_force_witness :
  read_rlim (ks (exec_all_root session st0).2) 80 RLIMIT_AS = Rlimit 6000000 6000000.
Proof.
  apply (registered_limits_in_force (km := kmalloc_ok) (caps := root_caps) (renv := env)
    (ua := uaccess_ok) session st0 (exec_all_root session st0).1 (exec_all_root session st0).2)
    with (e := 2) (p := 8) (t := Rlimit.Demo.editor); [apply st0_ready|..].
  - apply surjective_pairing.
  - vm_compute. reflexivity.
  - vm_compute. reflexivity.
Defined.

Lemma get_reports_the_list_witness : exists st',
  run (exec_root (Get 1 10 2)) (exec_all_root [Add 7 3000000; Add 8 5000000] st0).2 = (0, st') /\
  ubuf st' !! 1 = Some [MemLim 8 5000000; MemLim 7 3000000] /\ uint st' !! 2 = Some 2.
Proof.
  destruct (get_reports_the_list (km := kmalloc_ok) (ua := uaccess_ok) 1 10 2
    (exec_all_root [Add 7 3000000; Add 8 5000000] st0).2) as (st' & H1 & H2 & H3 & _); try done.
  - destruct (trace_refines (km := kmalloc_ok) (caps := root_caps) (renv := env) (ua := uaccess_ok)
      [Add 7 3000000; Add 8 5000000] st0 (exec_all_root [Add 7 3000000; Add 8 5000000] st0).1
      (exec_all_root [Add 7 3000000; Add 8 5000000] st0).2 (init_spec k0)) as (? & _ & ? & _);
      [apply (wf_list_init (km := kmalloc_ok))|apply represents_init|apply surjective_pairing|done].
  - exists st'. split; [exact H1|]. split; [rewrite H2; vm_compute; reflexivity|rewrite H3; vm_compute; reflexivity].
Defined.

Lemma failed_update_or_remove_changes_nothing_witness :
  (run (exec_root (Remove 9)) st0).2 = st0.
Proof.
  eapply (failed_update_or_remove_changes_nothing (km := kmalloc_ok) (caps := root_caps)
    (renv := env) (ua := uaccess_ok) (Remove 9) st0 (-3) st0); [right; by eexists|reflexivity|done].
Defined.

Lemma add_without_memory_limits_anyway_witness : exists st',
  run (sys_luis_add_memory_limit (km := kmalloc_oom) (caps := root_caps) (renv := env) 7 3000000) st0
    = (- ENOMEM, st') /\
  heap st' = ∅ /\ read_rlim (ks st') 70 RLIMIT_AS = Rlimit 3000000 3000000.
Proof.
  apply (add_without_memory_limits_anyway (km := kmalloc_oom) (caps := root_caps) (renv := env)
    7 3000000 Rlimit.Demo.shell st0); try done; [apply (ready_limits _ st0_ready)|by right].
Defined.

Lemma removed_process_stays_limited_witness : exists st',
  run (exec_root (Remove 7)) (exec_all_root [Add 7 3000000] st0).2 = (0, st') /\
  read_rlim (ks st') 70 RLIMIT_AS = Rlimit 115343360 115343360.
Proof.
  eexists. split; [vm_compute; reflexivity|].
  pose proof (ready_call (km := kmalloc_ok) (caps := root_caps) (renv := env) (ua := uaccess_ok)
    (Add 7 3000000) st0 0 _ st0_ready eq_refl) as [Hwf Hsep Hlim _].
  eapply (removed_process_stays_limited (km := kmalloc_ok) (caps := root_caps) (renv := env)
    7 _ _ Rlimit.Demo.shell Hwf Hlim Hsep); [reflexivity|vm_compute; reflexivity].
Defined.

Lemma dead_process_cannot_be_removed_witness : exists r, r <> 0 /\
  run (exec_root (Remove 9)) st0 = (r, st0).
Proof.
  apply (dead_process_cannot_be_removed (caps := root_caps) (renv := env) 9 st0);
    [lia|reflexivity].
Defined.

End Demo.
