(* ===== verification/Creds.v ===== *)
(** * Changing user and group ids: the set*id system calls

    sys.c 416-1053.  The state is the credentials of the calling task (the
    object [current_cred()] returns), its [PF_*] flags and the ids stored in
    user memory.  A call builds a new credential from the old one and commits
    it as a whole at the end; [goto error] drops the copy. *)
From S2P Require Import Prelude Task.

Record cstate := CState {
  cur : cred;
  tflags : Z;                 (** [current->flags] *)
  upids : gmap Z Z;           (** ids at user addresses *)
}.

Abbreviation PF_NPROC_EXCEEDED := 4096 (only parsing).
Abbreviation LSM_SETID_ID := 1 (only parsing).
Abbreviation LSM_SETID_RE := 2 (only parsing).
Abbreviation LSM_SETID_RES := 4 (only parsing).
Abbreviation LSM_SETID_FS := 8 (only parsing).

(** The rest of the credential machinery (cred.c, user.c, ucount.c, LSMs). *)
Class CredEnv := {
  prepare_ok : bool;                             (** [prepare_creds()] is not NULL *)
  ns_capable_setid : cred -> Z -> bool;          (** [ns_capable_setid(c->user_ns, cap)] by a task with credentials [c] *)
  security_task_fix_setuid : cred -> cred -> Z -> Z;
  security_task_fix_setgid : cred -> cred -> Z -> Z;
  alloc_uid : Z -> option Z;
  set_cred_ucounts : cred -> Z * Z;              (** result, and the new [->ucounts] *)
  nproc_overlimit : Z -> bool;                   (** [is_rlimit_overlimit(ucounts, NPROC, rlimit(NPROC))] *)
  INIT_USER : Z;
}.

Definition with_uid (c : cred) x := Cred x (gid c) (suid c) (sgid c) (euid c) (egid c) (fsuid c) (fsgid c) (user c) (user_ns c) (ucounts c).
Definition with_gid (c : cred) x := Cred (uid c) x (suid c) (sgid c) (euid c) (egid c) (fsuid c) (fsgid c) (user c) (user_ns c) (ucounts c).
Definition with_suid (c : cred) x := Cred (uid c) (gid c) x (sgid c) (euid c) (egid c) (fsuid c) (fsgid c) (user c) (user_ns c) (ucounts c).
Definition with_sgid (c : cred) x := Cred (uid c) (gid c) (suid c) x (euid c) (egid c) (fsuid c) (fsgid c) (user c) (user_ns c) (ucounts c).
Definition with_euid (c : cred) x := Cred (uid c) (gid c) (suid c) (sgid c) x (egid c) (fsuid c) (fsgid c) (user c) (user_ns c) (ucounts c).
Definition with_egid (c : cred) x := Cred (uid c) (gid c) (suid c) (sgid c) (euid c) x (fsuid c) (fsgid c) (user c) (user_ns c) (ucounts c).
Definition with_fsuid (c : cred) x := Cred (uid c) (gid c) (suid c) (sgid c) (euid c) (egid c) x (fsgid c) (user c) (user_ns c) (ucounts c).
Definition with_fsgid (c : cred) x := Cred (uid c) (gid c) (suid c) (sgid c) (euid c) (egid c) (fsuid c) x (user c) (user_ns c) (ucounts c).
Definition with_user (c : cred) x := Cred (uid c) (gid c) (suid c) (sgid c) (euid c) (egid c) (fsuid c) (fsgid c) x (user_ns c) (ucounts c).
Definition with_ucounts (c : cred) x := Cred (uid c) (gid c) (suid c) (sgid c) (euid c) (egid c) (fsuid c) (fsgid c) (user c) (user_ns c) x.

Section creds.
Context {ns_ : UserNs} {cenv : CredEnv} {ua : UAccess}.

Definition prepare_creds : sys cstate cred := fun s =>
  if prepare_ok then (Val (cur s), s) else (Exit (- ENOMEM), s).

(** [commit_creds] installs the copy and returns 0. *)
Definition commit_creds (new : cred) : sys cstate Z := fun s =>
  (Val 0, CState new (tflags s) (upids s)).

(** [(id != (uid_t) -1)] *)
Definition given (id : Z) : bool := negb (id =? NO_ID).

Definition sys_setregid (rgid egid' : Z) : sys cstate Z :=
  let* old := sgets cur in
  let krgid := make_kgid (user_ns old) rgid in
  let kegid := make_kgid (user_ns old) egid' in
  do* fail_if (given rgid && negb (gid_valid krgid)) (- EINVAL) in
  do* fail_if (given egid' && negb (gid_valid kegid)) (- EINVAL) in
  let* new := prepare_creds in
  do* fail_if (given rgid && negb ((gid old =? krgid) || (egid old =? krgid) ||
                                   ns_capable_setid old CAP_SETGID)) (- EPERM) in
  let new := if given rgid then with_gid new krgid else new in
  do* fail_if (given egid' && negb ((gid old =? kegid) || (egid old =? kegid) ||
                 (sgid old =? kegid) || ns_capable_setid old CAP_SETGID)) (- EPERM) in
  let new := if given egid' then with_egid new kegid else new in
  let new := if given rgid || (given egid' && negb (kegid =? gid old))
             then with_sgid new (egid new) else new in
  let new := with_fsgid new (egid new) in
  let retval := security_task_fix_setgid new old LSM_SETID_RE in
  do* fail_if (retval <? 0) retval in
  commit_creds new.

Definition sys_setgid (g : Z) : sys cstate Z :=
  let* old := sgets cur in
  let kgid := make_kgid (user_ns old) g in
  do* fail_if (negb (gid_valid kgid)) (- EINVAL) in
  let* new := prepare_creds in
  let* new := (if ns_capable_setid old CAP_SETGID
               then sret (with_gid (with_egid (with_sgid (with_fsgid new kgid) kgid) kgid) kgid)
               else if (kgid =? gid old) || (kgid =? sgid old)
               then sret (with_egid (with_fsgid new kgid) kgid)
               else sexit (- EPERM)) in
  let retval := security_task_fix_setgid new old LSM_SETID_ID in
  do* fail_if (retval <? 0) retval in
  commit_creds new.

Definition set_user (new : cred) : sys cstate cred := fun s =>
  match alloc_uid (uid new) with
  | None => (Exit (- EAGAIN), s)
  | Some new_user => (Val (with_user new new_user), s)
  end.

Definition flag_nproc_exceeded (new : cred) : sys cstate unit := fun s =>
  if ucounts new =? ucounts (cur s) then (Val tt, s)
  else
    let f := if nproc_overlimit (ucounts new) && negb (user new =? INIT_USER)
             then Z.lor (tflags s) PF_NPROC_EXCEEDED
             else Z.ldiff (tflags s) PF_NPROC_EXCEEDED in
    (Val tt, CState (cur s) f (upids s)).

(** The common tail of the three set*uid calls. *)
Definition finish_setuid (new old : cred) (flags : Z) : sys cstate Z :=
  let retval := security_task_fix_setuid new old flags in
  do* fail_if (retval <? 0) retval in
  let '(retval, uc) := set_cred_ucounts new in
  let new := with_ucounts new uc in
  do* fail_if (retval <? 0) retval in
  do* flag_nproc_exceeded new in
  commit_creds new.

Definition sys_setreuid (ruid euid' : Z) : sys cstate Z :=
  let* old := sgets cur in
  let kruid := make_kuid (user_ns old) ruid in
  let keuid := make_kuid (user_ns old) euid' in
  do* fail_if (given ruid && negb (uid_valid kruid)) (- EINVAL) in
  do* fail_if (given euid' && negb (uid_valid keuid)) (- EINVAL) in
  let* new := prepare_creds in
  let new := if given ruid then with_uid new kruid else new in
  do* fail_if (given ruid && negb (uid old =? kruid) && negb (euid old =? kruid) &&
               negb (ns_capable_setid old CAP_SETUID)) (- EPERM) in
  let new := if given euid' then with_euid new keuid else new in
  do* fail_if (given euid' && negb (uid old =? keuid) && negb (euid old =? keuid) &&
               negb (suid old =? keuid) && negb (ns_capable_setid old CAP_SETUID)) (- EPERM) in
  let* new := (if negb (uid new =? uid old) then set_user new else sret new) in
  let new := if given ruid || (given euid' && negb (keuid =? uid old))
             then with_suid new (euid new) else new in
  let new := with_fsuid new (euid new) in
  finish_setuid new old LSM_SETID_RE.

Definition sys_setuid (u : Z) : sys cstate Z :=
  let* old := sgets cur in
  let kuid := make_kuid (user_ns old) u in
  do* fail_if (negb (uid_valid kuid)) (- EINVAL) in
  let* new := prepare_creds in
  let* new := (if ns_capable_setid old CAP_SETUID
               then let new := with_suid (with_uid new kuid) kuid in
                    if negb (kuid =? uid old) then set_user new else sret new
               else if negb (kuid =? uid old) && negb (kuid =? suid new)
               then sexit (- EPERM)
               else sret new) in
  let new := with_fsuid (with_euid new kuid) kuid in
  finish_setuid new old LSM_SETID_ID.

Definition sys_setresuid (ruid euid' suid' : Z) : sys cstate Z :=
  let* old := sgets cur in
  let kruid := make_kuid (user_ns old) ruid in
  let keuid := make_kuid (user_ns old) euid' in
  let ksuid := make_kuid (user_ns old) suid' in
  do* fail_if (given ruid && negb (uid_valid kruid)) (- EINVAL) in
  do* fail_if (given euid' && negb (uid_valid keuid)) (- EINVAL) in
  do* fail_if (given suid' && negb (uid_valid ksuid)) (- EINVAL) in
  (* check for no-op *)
  do* fail_if ((negb (given ruid) || (kruid =? uid old)) &&
               (negb (given euid') || ((keuid =? euid old) && (keuid =? fsuid old))) &&
               (negb (given suid') || (ksuid =? suid old))) 0 in
  let is_new k id := given id && negb (k =? uid old) && negb (k =? euid old) && negb (k =? suid old) in
  do* fail_if ((is_new kruid ruid || is_new keuid euid' || is_new ksuid suid') &&
               negb (ns_capable_setid old CAP_SETUID)) (- EPERM) in
  let* new := prepare_creds in
  let* new := (if given ruid
               then let new := with_uid new kruid in
                    if negb (kruid =? uid old) then set_user new else sret new
               else sret new) in
  let new := if given euid' then with_euid new keuid else new in
  let new := if given suid' then with_suid new ksuid else new in
  let new := with_fsuid new (euid new) in
  finish_setuid new old LSM_SETID_RES.

Definition put_id (v dst : Z) : sys cstate Z := fun s =>
  let '(r, m) := put_user (upids s) v dst 4 in (Val r, CState (cur s) (tflags s) m).

Definition sys_getresuid (ruidp euidp suidp : Z) : sys cstate Z :=
  let* c := sgets cur in
  let ruid := from_kuid_munged (user_ns c) (uid c) in
  let euid' := from_kuid_munged (user_ns c) (euid c) in
  let suid' := from_kuid_munged (user_ns c) (suid c) in
  let* retval := put_id ruid ruidp in
  if negb (retval =? 0) then sret retval else
  let* retval := put_id euid' euidp in
  if negb (retval =? 0) then sret retval else
  put_id suid' suidp.

Definition sys_setresgid (rgid egid' sgid' : Z) : sys cstate Z :=
  let* old := sgets cur in
  let krgid := make_kgid (user_ns old) rgid in
  let kegid := make_kgid (user_ns old) egid' in
  let ksgid := make_kgid (user_ns old) sgid' in
  do* fail_if (given rgid && negb (gid_valid krgid)) (- EINVAL) in
  do* fail_if (given egid' && negb (gid_valid kegid)) (- EINVAL) in
  do* fail_if (given sgid' && negb (gid_valid ksgid)) (- EINVAL) in
  do* fail_if ((negb (given rgid) || (krgid =? gid old)) &&
               (negb (given egid') || ((kegid =? egid old) && (kegid =? fsgid old))) &&
               (negb (given sgid') || (ksgid =? sgid old))) 0 in
  let is_new k id := given id && negb (k =? gid old) && negb (k =? egid old) && negb (k =? sgid old) in
  do* fail_if ((is_new krgid rgid || is_new kegid egid' || is_new ksgid sgid') &&
               negb (ns_capable_setid old CAP_SETGID)) (- EPERM) in
  let* new := prepare_creds in
  let new := if given rgid then with_gid new krgid else new in
  let new := if given egid' then with_egid new kegid else new in
  let new := if given sgid' then with_sgid new ksgid else new in
  let new := with_fsgid new (egid new) in
  let retval := security_task_fix_setgid new old LSM_SETID_RES in
  do* fail_if (retval <? 0) retval in
  commit_creds new.

Definition sys_getresgid (rgidp egidp sgidp : Z) : sys cstate Z :=
  let* c := sgets cur in
  let rgid := from_kgid_munged (user_ns c) (gid c) in
  let egid' := from_kgid_munged (user_ns c) (egid c) in
  let sgid' := from_kgid_munged (user_ns c) (sgid c) in
  let* retval := put_id rgid rgidp in
  if negb (retval =? 0) then sret retval else
  let* retval := put_id egid' egidp in
  if negb (retval =? 0) then sret retval else
  put_id sgid' sgidp.

Definition sys_setfsuid (u : Z) : sys cstate Z :=
  let* old := sgets cur in
  let old_fsuid := from_kuid_munged (user_ns old) (fsuid old) in
  let kuid := make_kuid (user_ns old) u in
  do* fail_if (negb (uid_valid kuid)) old_fsuid in
  do* fail_if (negb prepare_ok) old_fsuid in
  let new := with_fsuid old kuid in
  do* (if ((kuid =? uid old) || (kuid =? euid old) || (kuid =? suid old) || (kuid =? fsuid old) ||
           ns_capable_setid old CAP_SETUID) && negb (kuid =? fsuid old) &&
          (security_task_fix_setuid new old LSM_SETID_FS =? 0)
       then commit_creds new else sret 0) in
  sret old_fsuid.

Definition sys_setfsgid (g : Z) : sys cstate Z :=
  let* old := sgets cur in
  let old_fsgid := from_kgid_munged (user_ns old) (fsgid old) in
  let kgid := make_kgid (user_ns old) g in
  do* fail_if (negb (gid_valid kgid)) old_fsgid in
  do* fail_if (negb prepare_ok) old_fsgid in
  let new := with_fsgid old kgid in
  do* (if ((kgid =? gid old) || (kgid =? egid old) || (kgid =? sgid old) || (kgid =? fsgid old) ||
           ns_capable_setid old CAP_SETGID) && negb (kgid =? fsgid old) &&
          (security_task_fix_setgid new old LSM_SETID_FS =? 0)
       then commit_creds new else sret 0) in
  sret old_fsgid.

Definition sys_getuid : sys cstate Z := sgets (fun s => from_kuid_munged (user_ns (cur s)) (uid (cur s))).
Definition sys_geteuid : sys cstate Z := sgets (fun s => from_kuid_munged (user_ns (cur s)) (euid (cur s))).
Definition sys_getgid : sys cstate Z := sgets (fun s => from_kgid_munged (user_ns (cur s)) (gid (cur s))).
Definition sys_getegid : sys cstate Z := sgets (fun s => from_kgid_munged (user_ns (cur s)) (egid (cur s))).

End creds.

(** ** Properties *)
Section properties.
Context {ns_ : UserNs} {cenv : CredEnv} {ua : UAccess}.

Lemma finish_setuid_inv new old flags s o s' :
  finish_setuid new old flags s = (o, s') ->
  (exists r, o = Exit r /\ r < 0 /\ s' = s) \/
  (o = Val 0 /\ cur s' = with_ucounts new (set_cred_ucounts new).2).
Proof.
  unfold finish_setuid. intros E. destruct (set_cred_ucounts new) as [r uc]. sys_inv E.
  1, 2: left; eexists; split_and!; [done|lia|done].
  right. revert E. unfold sbind, flag_nproc_exceeded, commit_creds. repeat case_match; intros ?; by simplify_eq.
Qed.

(** A call fails with a negative value and leaves the state alone, or returns
    0 and commits a credential that is described by [Q old new]. *)
Definition commits (Q : cred -> cred -> Prop) (m : sys cstate Z) : Prop :=
  forall s r s', run m s = (r, s') -> (r < 0 /\ s' = s) \/ (r = 0 /\ Q (cur s) (cur s')).
(** The two setfs*id calls report the previous id and never an error. *)
Definition reports (f : cred -> Z) (Q : cred -> cred -> Prop) (m : sys cstate Z) : Prop :=
  forall s r s', run m s = (r, s') -> r = f (cur s) /\ (s' = s \/ Q (cur s) (cur s')).

Lemma set_user_inv new s o s' :
  set_user new s = (o, s') -> s' = s /\
  (o = Exit (- EAGAIN) \/ exists u, o = Val (with_user new u)).
Proof. unfold set_user. case_match; intros [= <- <-]; eauto. Qed.
Lemma prepare_creds_inv s o s' :
  prepare_creds s = (o, s') -> s' = s /\ (o = Exit (- ENOMEM) \/ o = Val (cur s)).
Proof. unfold prepare_creds. case_match; intros [= <- <-]; eauto. Qed.

(** Inversion of the credential primitives, on top of [sys_inv]. *)
Ltac cred_inv E :=
  repeat (sys_inv E;
  try lazymatch type of E with
  | sbind prepare_creds _ _ = _ =>
      let E' := fresh in
      apply bind_inv in E as [(? & E' & E)|(? & ? & E' & E)];
      apply prepare_creds_inv in E' as [-> [E'|E']]; simplify_eq
  | sbind (set_user _) _ _ = _ =>
      let E' := fresh in
      apply bind_inv in E as [(? & E' & E)|(? & ? & E' & E)];
      apply set_user_inv in E' as [-> [E'|[? E']]]; simplify_eq
  | finish_setuid _ _ _ _ = _ => apply finish_setuid_inv in E as [(? & E & ? & ->)|(E & E')]; simplify_eq
  | commit_creds _ _ = _ => unfold commit_creds in E; simplify_eq
  end).

Definition same_uids (old new : cred) : Prop :=
  uid new = uid old /\ euid new = euid old /\ suid new = suid old /\ fsuid new = fsuid old.
Definition same_gids (old new : cred) : Prop :=
  gid new = gid old /\ egid new = egid old /\ sgid new = sgid old /\ fsgid new = fsgid old.

(** Every commit lemma below ends like this: the committed record is known,
    case on which ids were given and on the privilege. *)
Ltac commit_solve g1 g2 c :=
  destruct g1, g2, c; simpl in *;
  repeat case_match; simpl in *; split_and!; try done; try (by left); try lia; right; try lia; split; try done; try (by left); right; lia.

Definition setreuid_commit ruid euid' (old new : cred) : Prop :=
  let kr := make_kuid (user_ns old) ruid in
  let ke := make_kuid (user_ns old) euid' in
  uid new = (if given ruid then kr else uid old) /\
  euid new = (if given euid' then ke else euid old) /\
  suid new = (if given ruid || (given euid' && negb (ke =? uid old)) then euid new else suid old) /\
  fsuid new = euid new /\ same_gids old new /\
  (ns_capable_setid old CAP_SETUID = true \/
   ((given ruid = true -> kr = uid old \/ kr = euid old) /\
    (given euid' = true -> ke = uid old \/ ke = euid old \/ ke = suid old))).

Lemma setreuid_commits ruid euid' : commits (setreuid_commit ruid euid') (sys_setreuid ruid euid').
Proof.
  intros s r s' E. apply run_inv in E. unfold sys_setreuid in E.
  destruct E as [E|E]; cred_inv E; try (left; split; [lia|done]); right; split; try done.
  all: unfold setreuid_commit; rewrite E'; clear E'.
  all: commit_solve (given ruid) (given euid') (ns_capable_setid (cur s) CAP_SETUID).
Qed.

Definition setuid_commit u (old new : cred) : Prop :=
  let ku := make_kuid (user_ns old) u in
  euid new = ku /\ fsuid new = ku /\ same_gids old new /\
  if ns_capable_setid old CAP_SETUID then uid new = ku /\ suid new = ku
  else uid new = uid old /\ suid new = suid old /\ (ku = uid old \/ ku = suid old).

Lemma setuid_commits u : commits (setuid_commit u) (sys_setuid u).
Proof.
  intros s r s' E. apply run_inv in E. unfold sys_setuid in E.
  destruct E as [E|E]; cred_inv E; try (left; split; [lia|done]); right; split; try done.
  all: unfold setuid_commit; rewrite E'; clear E'; simpl.
  all: destruct (ns_capable_setid (cur s) CAP_SETUID); simplify_eq/=; split_and!; try done; lia.
Qed.

Definition setresuid_commit ruid euid' suid' (old new : cred) : Prop :=
  let kr := make_kuid (user_ns old) ruid in
  let ke := make_kuid (user_ns old) euid' in
  let ks := make_kuid (user_ns old) suid' in
  uid new = (if given ruid then kr else uid old) /\
  euid new = (if given euid' then ke else euid old) /\
  suid new = (if given suid' then ks else suid old) /\
  user_ns new = user_ns old /\ same_gids old new /\
  (new = old \/
   (fsuid new = euid new /\
    (ns_capable_setid old CAP_SETUID = true \/
     ((given ruid = true -> kr = uid old \/ kr = euid old \/ kr = suid old) /\
      (given euid' = true -> ke = uid old \/ ke = euid old \/ ke = suid old) /\
      (given suid' = true -> ks = uid old \/ ks = euid old \/ ks = suid old))))).

Lemma setresuid_commits ruid euid' suid' :
  commits (setresuid_commit ruid euid' suid') (sys_setresuid ruid euid' suid').
Proof.
  intros s r s' E. apply run_inv in E. unfold sys_setresuid in E.
  destruct E as [E|E]; cred_inv E; try (left; split; [lia|done]); right; split; try done.
  all: unfold setresuid_commit; try (rewrite E'; clear E'); destruct (given suid').
  all: commit_solve (given ruid) (given euid') (ns_capable_setid (cur s) CAP_SETUID).
Qed.

Definition setfsuid_commit u (old new : cred) : Prop :=
  let ku := make_kuid (user_ns old) u in
  uid new = uid old /\ euid new = euid old /\ suid new = suid old /\ fsuid new = ku /\
  same_gids old new /\
  (ns_capable_setid old CAP_SETUID = true \/
   ku = uid old \/ ku = euid old \/ ku = suid old \/ ku = fsuid old).

Lemma setfsuid_commits u :
  reports (fun c => from_kuid_munged (user_ns c) (fsuid c)) (setfsuid_commit u) (sys_setfsuid u).
Proof.
  intros s r s'. unfold sys_setfsuid, commit_creds. sys_unfold.
  repeat case_match; intros [= <- <-]; simplify_eq/=; (split; [done|]); try (left; done); right.
  unfold setfsuid_commit; simpl. split_and!; try done.
  destruct (ns_capable_setid _ CAP_SETUID); [by left|right; lia].
Qed.

Definition setregid_commit rgid egid' (old new : cred) : Prop :=
  let kr := make_kgid (user_ns old) rgid in
  let ke := make_kgid (user_ns old) egid' in
  gid new = (if given rgid then kr else gid old) /\
  egid new = (if given egid' then ke else egid old) /\
  sgid new = (if given rgid || (given egid' && negb (ke =? gid old)) then egid new else sgid old) /\
  fsgid new = egid new /\ same_uids old new /\
  (ns_capable_setid old CAP_SETGID = true \/
   ((given rgid = true -> kr = gid old \/ kr = egid old) /\
    (given egid' = true -> ke = gid old \/ ke = egid old \/ ke = sgid old))).

Lemma setregid_commits rgid egid' : commits (setregid_commit rgid egid') (sys_setregid rgid egid').
Proof.
  intros s r s' E. apply run_inv in E. unfold sys_setregid in E.
  destruct E as [E|E]; cred_inv E; try (left; split; [lia|done]); right; split; try done.
  unfold setregid_commit; simpl.
  commit_solve (given rgid) (given egid') (ns_capable_setid (cur s) CAP_SETGID).
Qed.

Definition setgid_commit g (old new : cred) : Prop :=
  let kg := make_kgid (user_ns old) g in
  egid new = kg /\ fsgid new = kg /\ same_uids old new /\
  if ns_capable_setid old CAP_SETGID then gid new = kg /\ sgid new = kg
  else gid new = gid old /\ sgid new = sgid old /\ (kg = gid old \/ kg = sgid old).

Lemma setgid_commits g : commits (setgid_commit g) (sys_setgid g).
Proof.
  intros s r s' E. apply run_inv in E. unfold sys_setgid in E.
  destruct E as [E|E]; cred_inv E; try (left; split; [lia|done]); right; split; try done.
  all: unfold setgid_commit; simpl.
  all: destruct (ns_capable_setid (cur s) CAP_SETGID); simplify_eq/=; split_and!; try done; lia.
Qed.

Definition setresgid_commit rgid egid' sgid' (old new : cred) : Prop :=
  let kr := make_kgid (user_ns old) rgid in
  let ke := make_kgid (user_ns old) egid' in
  let ks := make_kgid (user_ns old) sgid' in
  gid new = (if given rgid then kr else gid old) /\
  egid new = (if given egid' then ke else egid old) /\
  sgid new = (if given sgid' then ks else sgid old) /\
  user_ns new = user_ns old /\ same_uids old new /\
  (new = old \/
   (fsgid new = egid new /\
    (ns_capable_setid old CAP_SETGID = true \/
     ((given rgid = true -> kr = gid old \/ kr = egid old \/ kr = sgid old) /\
      (given egid' = true -> ke = gid old \/ ke = egid old \/ ke = sgid old) /\
      (given sgid' = true -> ks = gid old \/ ks = egid old \/ ks = sgid old))))).

Lemma setresgid_commits rgid egid' sgid' :
  commits (setresgid_commit rgid egid' sgid') (sys_setresgid rgid egid' sgid').
Proof.
  intros s r s' E. apply run_inv in E. unfold sys_setresgid in E.
  destruct E as [E|E]; cred_inv E; try (left; split; [lia|done]); right; split; try done.
  all: unfold setresgid_commit; simpl; destruct (given sgid').
  all: commit_solve (given rgid) (given egid') (ns_capable_setid (cur s) CAP_SETGID).
Qed.

Definition setfsgid_commit g (old new : cred) : Prop :=
  let kg := make_kgid (user_ns old) g in
  gid new = gid old /\ egid new = egid old /\ sgid new = sgid old /\ fsgid new = kg /\
  same_uids old new /\
  (ns_capable_setid old CAP_SETGID = true \/
   kg = gid old \/ kg = egid old \/ kg = sgid old \/ kg = fsgid old).

Lemma setfsgid_commits g :
  reports (fun c => from_kgid_munged (user_ns c) (fsgid c)) (setfsgid_commit g) (sys_setfsgid g).
Proof.
  intros s r s'. unfold sys_setfsgid, commit_creds. sys_unfold.
  repeat case_match; intros [= <- <-]; simplify_eq/=; (split; [done|]); try (left; done); right.
  unfold setfsgid_commit; simpl. split_and!; try done.
  destruct (ns_capable_setid _ CAP_SETGID); [by left|right; lia].
Qed.

Inductive id_call :=
| SetReuid (r e : Z) | SetUid (u : Z) | SetResuid (r e s : Z) | SetFsuid (u : Z)
| SetRegid (r e : Z) | SetGid (g : Z) | SetResgid (r e s : Z) | SetFsgid (g : Z)
| GetResuid (rp ep sp : Z) | GetResgid (rp ep sp : Z).

Definition exec_id (c : id_call) : sys cstate Z :=
  match c with
  | SetReuid r e => sys_setreuid r e
  | SetUid u => sys_setuid u
  | SetResuid r e s => sys_setresuid r e s
  | SetFsuid u => sys_setfsuid u
  | SetRegid r e => sys_setregid r e
  | SetGid g => sys_setgid g
  | SetResgid r e s => sys_setresgid r e s
  | SetFsgid g => sys_setfsgid g
  | GetResuid rp ep sp => sys_getresuid rp ep sp
  | GetResgid rp ep sp => sys_getresgid rp ep sp
  end.

Lemma get_keeps_cred rp ep sp s r s' :
  run (sys_getresuid rp ep sp) s = (r, s') \/ run (sys_getresgid rp ep sp) s = (r, s') ->
  cur s' = cur s.
Proof.
  unfold sys_getresuid, sys_getresgid, put_id. intros [E|E]; revert E;
  sys_unfold; repeat (case_match; simplify_eq/=); intros ?; by simplify_eq/=.
Qed.

(** All that one call can do to the credentials, by call. *)
Definition id_commit (c : id_call) (old new : cred) : Prop :=
  new = old \/
  match c with
  | SetReuid r e => setreuid_commit r e old new
  | SetUid u => setuid_commit u old new
  | SetResuid r e s => setresuid_commit r e s old new
  | SetFsuid u => setfsuid_commit u old new
  | SetRegid r e => setregid_commit r e old new
  | SetGid g => setgid_commit g old new
  | SetResgid r e s => setresgid_commit r e s old new
  | SetFsgid g => setfsgid_commit g old new
  | GetResuid _ _ _ | GetResgid _ _ _ => False
  end.

Lemma commits_id Q m s r s' :
  commits Q m -> run m s = (r, s') -> cur s' = cur s \/ Q (cur s) (cur s').
Proof. intros Hm [(_ & ->)|(_ & ?)]%Hm; auto. Qed.
Lemma reports_id f Q m s r s' :
  reports f Q m -> run m s = (r, s') -> cur s' = cur s \/ Q (cur s) (cur s').
Proof. intros Hm (_ & [->|?])%Hm; auto. Qed.

Lemma exec_id_commit c s r s' : run (exec_id c) s = (r, s') -> id_commit c (cur s) (cur s').
Proof.
  unfold id_commit. destruct c; simpl; intros E;
    eauto using commits_id, reports_id, setreuid_commits, setuid_commits, setresuid_commits,
      setfsuid_commits, setregid_commits, setgid_commits, setresgid_commits, setfsgid_commits.
  all: left; eapply get_keeps_cred; eauto.
Qed.

Definition uids_in (S : Z -> Prop) (c : cred) : Prop :=
  S (uid c) /\ S (euid c) /\ S (suid c) /\ S (fsuid c).
Definition gids_in (S : Z -> Prop) (c : cred) : Prop :=
  S (gid c) /\ S (egid c) /\ S (sgid c) /\ S (fsgid c).

(** Each committed id is an old one, or was requested and allowed. *)
Ltac ids_step :=
  match goal with
  | H : ?S ?x |- ?S ?x => exact H
  | H : false = true |- _ => discriminate H
  | H : ?new = ?old |- _ (_ ?new) => is_var new; is_var old; subst new
  | H : _ \/ _ |- _ => destruct H
  | H : _ /\ _ |- _ => destruct H
  | H1 : ?g = true, H2 : ?g = true -> _ |- _ => specialize (H2 H1)
  | H2 : true = true -> _ |- _ => specialize (H2 eq_refl)
  | H : ?x = ?y |- _ ?x => rewrite H
  | |- _ (if ?b then _ else _) => destruct b eqn:?
  end.

Lemma commit_uids_in S c old new :
  ns_capable_setid old CAP_SETUID = false -> uids_in S old -> id_commit c old new -> uids_in S new.
Proof.
  unfold uids_in. intros Hcap (Hu & He & Hs & Hf) [->|Hc]; [done|].
  destruct c; simpl in Hc; try done;
    unfold setreuid_commit, setuid_commit, setresuid_commit, setfsuid_commit, setregid_commit,
      setgid_commit, setresgid_commit, setfsgid_commit, same_uids in Hc; rewrite ?Hcap in Hc;
    destruct_and?; split_and!; repeat ids_step.
Qed.

Lemma commit_gids_in S c old new :
  ns_capable_setid old CAP_SETGID = false -> gids_in S old -> id_commit c old new -> gids_in S new.
Proof.
  unfold gids_in. intros Hcap (Hu & He & Hs & Hf) [->|Hc]; [done|].
  destruct c; simpl in Hc; try done;
    unfold setreuid_commit, setuid_commit, setresuid_commit, setfsuid_commit, setregid_commit,
      setgid_commit, setresgid_commit, setfsgid_commit, same_gids in Hc; rewrite ?Hcap in Hc;
    destruct_and?; split_and!; repeat ids_step.
Qed.

(** A property of credentials that every call keeps is kept by a program. *)
Lemma run_all_cred (I : cred -> Prop) cs s :
  (forall c old new, I old -> id_commit c old new -> I new) ->
  I (cur s) -> I (cur (run_all exec_id cs s)).
Proof.
  intros Hstep. revert s. induction cs as [|c cs IH]; intros s Hs; [done|]. simpl.
  apply IH. destruct (run (exec_id c) s) as [r s'] eqn:E. simpl.
  by eapply Hstep, exec_id_commit.
Qed.

(** C18: a task that holds neither CAP_SETUID nor CAP_SETGID in any credential
    it can reach can never, by any program of set*id calls, acquire a real,
    effective, saved or filesystem user id (or group id) outside the ones it
    started with. *)
Theorem unprivileged_ids_confined (U G : Z -> Prop) (cs : list id_call) (s : cstate) :
  (forall c, uids_in U c -> gids_in G c ->
     ns_capable_setid c CAP_SETUID = false /\ ns_capable_setid c CAP_SETGID = false) ->
  uids_in U (cur s) -> gids_in G (cur s) ->
  uids_in U (cur (run_all exec_id cs s)) /\ gids_in G (cur (run_all exec_id cs s)).
Proof.
  intros Hcap Hu Hg.
  apply (run_all_cred (fun c => uids_in U c /\ gids_in G c)); [|done].
  intros c old new [Hou Hog] Hc. destruct (Hcap old Hou Hog) as [Hcu Hcg].
  split; [by eapply commit_uids_in|by eapply commit_gids_in].
Qed.

(** [setuid] by a privileged task drops the old identity for good: it
    sets all four user ids, and if a task with only that id is unprivileged,
    no later program of set*id calls changes any of them. *)
Theorem setuid_drops_for_good u s s1 cs :
  let ku := make_kuid (user_ns (cur s)) u in
  ns_capable_setid (cur s) CAP_SETUID = true ->
  (forall c, uids_in (eq ku) c -> ns_capable_setid c CAP_SETUID = false) ->
  run (sys_setuid u) s = (0, s1) ->
  let c := cur (run_all exec_id cs s1) in
  uid c = ku /\ euid c = ku /\ suid c = ku /\ fsuid c = ku.
Proof.
  intros ku Hpriv Hunpriv [(? & _)|(_ & Hc)]%setuid_commits c; [lia|].
  unfold setuid_commit in Hc. rewrite Hpriv in Hc. destruct Hc as (He & Hf & _ & Hu & Hs).
  enough (uids_in (eq ku) c) as (? & ? & ? & ?) by done.
  apply run_all_cred; [|by split_and!].
  intros c' old new Hin. by apply commit_uids_in, Hin; apply Hunpriv.
Qed.

(** The calls that can fail are all-or-nothing: a negative return leaves
    the credentials, the task flags and user memory as they were. *)
Theorem failed_setid_changes_nothing c s r s' :
  match c with SetFsuid _ | SetFsgid _ | GetResuid _ _ _ | GetResgid _ _ _ => False | _ => True end ->
  run (exec_id c) s = (r, s') -> r <> 0 -> r < 0 /\ s' = s.
Proof.
  intros Hc E Hr. destruct c; try done; simpl in E;
  first [apply setreuid_commits in E | apply setuid_commits in E | apply setresuid_commits in E
        | apply setregid_commits in E | apply setgid_commits in E | apply setresgid_commits in E];
  by destruct E as [?|[? _]].
Qed.

(** [getresuid] after a successful [setresuid] that names all three ids
    stores in user memory the ids that were set, in a namespace whose mapping
    can be read back. *)
Theorem setresuid_getresuid r e u s s1 rp ep sp :
  (forall id, from_kuid_munged (user_ns (cur s)) (make_kuid (user_ns (cur s)) id) = id) ->
  given r = true -> given e = true -> given u = true ->
  NoDup [rp; ep; sp] -> (forall p, uncopied p 4 = 0) ->
  run (sys_setresuid r e u) s = (0, s1) ->
  exists s2, run (sys_getresuid rp ep sp) s1 = (0, s2) /\
    upids s2 !! rp = Some r /\ upids s2 !! ep = Some e /\ upids s2 !! sp = Some u.
Proof.
  intros Hmap Hr He Hu Hnd Hok [(? & _)|(_ & Hc)]%setresuid_commits; [lia|].
  unfold setresuid_commit in Hc. rewrite Hr, He, Hu in Hc.
  destruct Hc as (E1 & E2 & E3 & Ens & _).
  apply NoDup_cons in Hnd as [Hrp [Hep _]%NoDup_cons].
  eexists. unfold sys_getresuid, put_id, put_user, copy_to_user. sys_unfold.
  rewrite !Hok. simpl. rewrite E1, E2, E3, Ens, !Hmap. split_and!; [reflexivity|..]; simpl.
  - rewrite !lookup_insert_ne by set_solver. by rewrite lookup_insert_eq.
  - rewrite lookup_insert_ne by set_solver. by rewrite lookup_insert_eq.
  - by rewrite lookup_insert_eq.
Qed.

End properties.

(** ** Concrete runs *)
Module Demo.

(** Privilege is effective uid 0; all hooks accept. *)
Definition env : CredEnv := {|
  prepare_ok := true; ns_capable_setid c _ := euid c =? 0;
  security_task_fix_setuid _ _ _ := 0; security_task_fix_setgid _ _ _ := 0;
  alloc_uid u := Some u; set_cred_ucounts c := (0, uid c);
  nproc_overlimit _ := false; INIT_USER := 0 |}.

(** A program installed set-uid 1001, started by user 1000 of group 100. *)
Definition game : cstate := CState (Cred 1000 100 1001 100 1001 100 1001 100 1000 0 1000) 0 ∅.
Definition root : cstate := CState (ids 0) 0 ∅.
Abbreviation exec_demo := (exec_id (ns_ := init_userns) (cenv := env) (ua := uaccess_ok)).

Definition attempts : list id_call :=
  [SetReuid 1000 1000; SetUid 1001; SetUid 0; SetResuid 1001 1001 NO_ID; SetFsuid 0; SetGid 0].

Lemma unprivileged_ids_confined_witness :
  let c := cur (run_all exec_demo attempts game) in
  uids_in (fun u => u = 1000 \/ u = 1001) c /\ gids_in (eq 100) c.
Proof.
  apply (unprivileged_ids_confined (ns_ := init_userns) (cenv := env) (ua := uaccess_ok)).
  - intros c (_ & He & _) _. simpl. destruct (Z.eqb_spec (euid c) 0); [lia|done].
  - repeat split; simpl; auto.
  - repeat split.
Defined.

Lemma setuid_drops_for_good_witness :
  let c := cur (run_all exec_demo [SetReuid 0 0; SetUid 0; SetFsuid 0]
                  (run (exec_demo (SetUid 1000)) root).2) in
  uid c = 1000 /\ euid c = 1000 /\ suid c = 1000 /\ fsuid c = 1000.
Proof.
  apply (setuid_drops_for_good (ns_ := init_userns) (cenv := env) (ua := uaccess_ok) 1000 root).
  - reflexivity.
  - intros c (_ & He & _). simpl in *. by rewrite <- He.
  - reflexivity.
Defined.

Lemma failed_setid_changes_nothing_witness :
  (run (exec_demo (SetUid 0)) game).1 < 0 /\ (run (exec_demo (SetUid 0)) game).2 = game.
Proof.
  apply (failed_setid_changes_nothing (ns_ := init_userns) (cenv := env) (ua := uaccess_ok) (SetUid 0));
    [exact I|apply surjective_pairing|vm_compute; discriminate].
Defined.

Lemma setresuid_getresuid_witness : exists s2,
  run (exec_demo (GetResuid 10 20 30)) (run (exec_demo (SetResuid 5 6 7)) root).2 = (0, s2) /\
  upids s2 !! 10 = Some 5 /\ upids s2 !! 20 = Some 6 /\ upids s2 !! 30 = Some 7.
Proof.
  apply (setresuid_getresuid (ns_ := init_userns) (cenv := env) (ua := uaccess_ok) 5 6 7 root);
    try reflexivity.
  apply (bool_decide_unpack _). reflexivity.
Defined.

End Demo.
