(* ===== verification/Priority.v ===== *)
(** * Scheduling priority: [setpriority] and [getpriority]

    sys.c 217-396.  The state is the list of threads in the order
    [for_each_process_thread] visits them; a thread is named by [tid] and
    carries its pid in the caller's namespace, its process group, its
    credentials and its nice value. *)
From S2P Require Import Prelude Task.

Record thread := Thread {
  tid : Z;
  vpid : Z;                 (** [task_pid_vnr(p)]; 0 outside the caller's namespace *)
  pgrp : Z;                 (** number of [task_pgrp(p)] *)
  tcred : cred;
  nice : Z;
}.

#[global] Instance thread_eq_dec : EqDecision thread.
Proof. solve_decision. Defined.

Abbreviation PRIO_PROCESS := 0 (only parsing).
Abbreviation PRIO_PGRP := 1 (only parsing).
Abbreviation PRIO_USER := 2 (only parsing).
Abbreviation MIN_NICE := (-20) (only parsing).
Abbreviation MAX_NICE := 19 (only parsing).

Class PrioEnv := {
  can_nice : thread -> Z -> bool;
  security_task_setnice : thread -> Z -> Z;
  find_user : Z -> bool;                (** some process has this uid *)
}.

(** [set_user_nice(p, n)] *)
Definition set_user_nice (id n : Z) (ts : list thread) : list thread :=
  (fun t => if tid t =? id then Thread (tid t) (vpid t) (pgrp t) (tcred t) n else t) <$> ts.

(** 40..1 for -20..19, as the comment before [getpriority] says. *)
Definition nice_to_rlimit (n : Z) : Z := MAX_NICE - n + 1.

Section priority.
Context {caps : Caps} {ns_ : UserNs} {penv : PrioEnv}.
Variable current : thread.

Definition set_one_prio_perm (p : thread) : bool :=
  let c := tcred current in
  let pcred := tcred p in
  if (uid pcred =? euid c) || (euid pcred =? euid c) then true
  else ns_capable (user_ns pcred) CAP_SYS_NICE.

(** The decision of [set_one_prio]: an error, or go ahead. *)
Definition set_one_prio_check (p : thread) (niceval : Z) : Z :=
  if negb (set_one_prio_perm p) then - EPERM
  else if (niceval <? nice p) && negb (can_nice p niceval) then - EACCES
  else security_task_setnice p niceval.

Definition set_one_prio (p : thread) (niceval error : Z) (ts : list thread) : Z * list thread :=
  let no_nice := set_one_prio_check p niceval in
  if negb (no_nice =? 0) then (no_nice, ts)
  else (if error =? - ESRCH then 0 else error, set_user_nice (tid p) niceval ts).

(** The loop over the threads selected by [who]. *)
Fixpoint set_each_prio (ps : list thread) (niceval error : Z) (ts : list thread)
    : Z * list thread :=
  match ps with
  | [] => (error, ts)
  | p :: ps' =>
      let '(error, ts) := set_one_prio p niceval error ts in
      set_each_prio ps' niceval error ts
  end.

Definition find_task_by_vpid (who : Z) (ts : list thread) : option thread :=
  List.find (fun t => vpid t =? who) ts.

(** The uid a PRIO_USER request is about; [None] if [find_user] fails. *)
Definition prio_user_uid (who : Z) : option Z :=
  let c := tcred current in
  let uid' := make_kuid (user_ns c) who in
  if who =? 0 then Some (uid c)
  else if negb (uid' =? uid c) && negb (find_user uid') then None
  else Some uid'.

(** The threads a valid [which] selects, in the order the code visits them. *)
Definition prio_targets (which who : Z) (ts : list thread) : list thread :=
  if which =? PRIO_PROCESS then
    match (if who =? 0 then Some current else find_task_by_vpid who ts) with
    | Some p => [p]
    | None => []
    end
  else if which =? PRIO_PGRP then
    let g := if who =? 0 then pgrp current else who in
    filter (fun t => pgrp t = g) ts
  else
    match prio_user_uid who with
    | None => []
    | Some u => filter (fun t => uid (tcred t) = u /\ vpid t <> 0) ts
    end.

Definition clamp_nice (n : Z) : Z :=
  let n := if n <? MIN_NICE then MIN_NICE else n in
  if MAX_NICE <? n then MAX_NICE else n.

Definition sys_setpriority (which who niceval : Z) (ts : list thread) : Z * list thread :=
  if (PRIO_USER <? which) || (which <? PRIO_PROCESS) then (- EINVAL, ts)
  else set_each_prio (prio_targets which who ts) (clamp_nice niceval) (- ESRCH) ts.

(** [if (niceval > retval) retval = niceval;] over the selected threads *)
Fixpoint max_nice (ps : list thread) (retval : Z) : Z :=
  match ps with
  | [] => retval
  | p :: ps' =>
      let niceval := nice_to_rlimit (nice p) in
      max_nice ps' (if retval <? niceval then niceval else retval)
  end.

Definition sys_getpriority (which who : Z) (ts : list thread) : Z :=
  if (PRIO_USER <? which) || (which <? PRIO_PROCESS) then - EINVAL
  else max_nice (prio_targets which who ts) (- ESRCH).

(** ** Properties *)

Definition nice_ok (ts : list thread) : Prop := Forall (fun t => MIN_NICE <= nice t <= MAX_NICE) ts.

Lemma clamp_nice_range n : MIN_NICE <= clamp_nice n <= MAX_NICE.
Proof. unfold clamp_nice. repeat case_match; lia. Qed.

Lemma set_user_nice_lookup id n ts i t :
  ts !! i = Some t ->
  set_user_nice id n ts !! i = Some (if tid t =? id then Thread (tid t) (vpid t) (pgrp t) (tcred t) n else t).
Proof. intros Ht. unfold set_user_nice. by rewrite list_lookup_fmap, Ht. Qed.

(** What the loop leaves, for every thread at once. *)
Lemma set_each_prio_lookup ps niceval error ts i t :
  ts !! i = Some t ->
  (set_each_prio ps niceval error ts).2 !! i =
  Some (if existsb (fun p => (tid t =? tid p) && (set_one_prio_check p niceval =? 0)) ps
        then Thread (tid t) (vpid t) (pgrp t) (tcred t) niceval else t).
Proof.
  revert error ts t. induction ps as [|p ps IH]; intros error ts t Ht; simpl; [done|].
  unfold set_one_prio. destruct (set_one_prio_check p niceval =? 0) eqn:Ec; simpl.
  - rewrite (IH _ _ _ (set_user_nice_lookup (tid p) niceval ts i t Ht)).
    destruct (tid t =? tid p) eqn:Et; simpl; [|by rewrite ?andb_false_r].
    by destruct (existsb _ ps).
  - rewrite (IH _ _ _ Ht). by rewrite andb_false_r.
Qed.

Lemma set_each_prio_length ps niceval error ts :
  length (set_each_prio ps niceval error ts).2 = length ts.
Proof.
  revert error ts. induction ps as [|p ps IH]; intros error ts; simpl; [done|].
  unfold set_one_prio. destruct (negb _); rewrite IH; [done|].
  unfold set_user_nice. by rewrite length_fmap.
Qed.

(** The value the loop returns. *)
Lemma set_each_prio_ok ps niceval error ts :
  Forall (fun p => set_one_prio_check p niceval = 0) ps ->
  (set_each_prio ps niceval error ts).1 =
  if bool_decide (ps = []) then error else if error =? - ESRCH then 0 else error.
Proof.
  intros Hok. revert error ts. induction Hok as [|p ps Hp Hps IH]; intros error ts; simpl; [done|].
  unfold set_one_prio. rewrite Hp. simpl. rewrite IH.
  destruct (Z.eqb_spec error (-3)); repeat case_match; simplify_eq/=; lia.
Qed.

(** An error other than -ESRCH is never forgotten. *)
Lemma set_each_prio_sticky ps niceval error ts :
  error <> - ESRCH -> error <> 0 ->
  (forall p, set_one_prio_check p niceval <> - ESRCH) ->
  (set_each_prio ps niceval error ts).1 <> 0.
Proof.
  intros He1 He2 Hns. revert error ts He1 He2.
  induction ps as [|p ps IH]; intros error ts He1 He2; simpl; [done|].
  unfold set_one_prio. destruct (Z.eqb_spec (set_one_prio_check p niceval) 0); simpl; apply IH; auto;
  case_match; lia.
Qed.

Lemma set_each_prio_zero ps niceval error ts :
  (error = - ESRCH \/ error = 0) -> (forall p, set_one_prio_check p niceval <> - ESRCH) ->
  (set_each_prio ps niceval error ts).1 = 0 ->
  Forall (fun p => set_one_prio_check p niceval = 0) ps /\ (ps = [] -> error = 0).
Proof.
  intros He Hns. revert error ts He. induction ps as [|p ps IH]; intros error ts He; simpl; [done|].
  unfold set_one_prio. destruct (Z.eqb_spec (set_one_prio_check p niceval) 0) as [E|E]; simpl; intros H0.
  - apply IH in H0 as [? _]; [|case_match; lia]. by split; [constructor|].
  - by apply set_each_prio_sticky in H0.
Qed.

Lemma max_nice_spec ps r :
  r <= max_nice ps r /\ (forall p, p ∈ ps -> nice_to_rlimit (nice p) <= max_nice ps r) /\
  (max_nice ps r = r \/ exists p, p ∈ ps /\ max_nice ps r = nice_to_rlimit (nice p)).
Proof.
  revert r. induction ps as [|p ps IH]; intros r; simpl; [split_and!; [lia|set_solver|by left]|].
  destruct (IH (if r <? nice_to_rlimit (nice p) then nice_to_rlimit (nice p) else r)) as (H1 & H2 & H3).
  split_and!.
  - case_match; lia.
  - intros q [->|?]%elem_of_cons; [case_match; lia|auto].
  - destruct H3 as [->|(q & ? & ?)]; [case_match; [right|by left]|right].
    + exists p. split; [set_solver|done].
    + exists q. split; [set_solver|done].
Qed.

(** [setpriority] with a valid [which] returns 0 exactly when it selects
    some thread and may change every selected one; afterwards a selected and
    permitted thread has the clamped value, every other thread the value it
    had, and every nice value stays between -20 and 19. *)
Theorem setpriority_effect which who niceval ts :
  PRIO_PROCESS <= which <= PRIO_USER -> nice_ok ts ->
  (forall p, set_one_prio_check p (clamp_nice niceval) <> - ESRCH) ->
  let ps := prio_targets which who ts in
  let '(r, ts') := sys_setpriority which who niceval ts in
  (r = 0 <-> ps <> [] /\ forall p, p ∈ ps -> set_one_prio_check p (clamp_nice niceval) = 0) /\
  nice_ok ts' /\
  forall i t, ts !! i = Some t ->
    ((exists p, p ∈ ps /\ tid p = tid t /\ set_one_prio_check p (clamp_nice niceval) = 0) ->
     ts' !! i = Some (Thread (tid t) (vpid t) (pgrp t) (tcred t) (clamp_nice niceval))) /\
    ((forall p, p ∈ ps -> tid p = tid t -> set_one_prio_check p (clamp_nice niceval) <> 0) ->
     ts' !! i = Some t).
Proof.
  intros Hw Hok Hns ps. unfold sys_setpriority.
  replace ((PRIO_USER <? which) || (which <? PRIO_PROCESS)) with false by lia.
  fold ps. destruct (set_each_prio ps (clamp_nice niceval) (- ESRCH) ts) as [r ts'] eqn:E.
  pose proof (fun i t Ht => set_each_prio_lookup ps (clamp_nice niceval) (- ESRCH) ts i t Ht) as Hlk.
  rewrite E in Hlk. simpl in Hlk. split_and!.
  - split.
    + intros ->. destruct (set_each_prio_zero ps (clamp_nice niceval) (- ESRCH) ts) as [Hall Hne];
        [by left|done|by rewrite E|]. split; [by intros Hnil; apply Hne in Hnil|].
      by apply Forall_forall.
    + intros [Hne Hall%Forall_forall].
      pose proof (set_each_prio_ok ps (clamp_nice niceval) (- ESRCH) ts Hall) as Hr.
      rewrite E in Hr. simpl in Hr. by rewrite bool_decide_false in Hr.
  - apply Forall_lookup. intros i t' Ht'.
    destruct (ts !! i) as [t|] eqn:Ht.
    + rewrite (Hlk _ _ Ht) in Ht'. injection Ht' as <-.
      case_match; simpl; [apply clamp_nice_range|by eapply Forall_lookup in Hok].
    + apply lookup_ge_None in Ht. apply lookup_lt_Some in Ht'.
      assert (length ts' = length ts); [|lia].
      rewrite <- (f_equal snd E : _ = ts'). apply set_each_prio_length.
  - intros i t Ht. rewrite (Hlk i t Ht). split.
    + intros (p & Hp & Htid & Hc). rewrite (proj2 (existsb_exists _ _)); [done|].
      exists p. rewrite <- list_elem_of_In. split; [done|]. rewrite Htid, Hc. by rewrite Z.eqb_refl.
    + intros Hno. case_match eqn:Hex; [|done].
      apply existsb_exists in Hex as (p & Hp%list_elem_of_In & Hb).
      apply andb_prop in Hb as [Htid Hc]. by destruct (Hno p Hp); lia.
Qed.

Lemma prio_targets_subset which who ts p :
  current ∈ ts -> p ∈ prio_targets which who ts -> p ∈ ts.
Proof.
  intros Hc. unfold prio_targets. destruct (which =? PRIO_PROCESS).
  - destruct (who =? 0); [set_solver|]. destruct (find_task_by_vpid who ts) as [q|] eqn:E; [|set_solver].
    apply find_some in E as [Hq%list_elem_of_In _]. set_solver.
  - destruct (which =? PRIO_PGRP); [by intros [_ ?]%list_elem_of_filter|].
    destruct (prio_user_uid who); [by intros [_ ?]%list_elem_of_filter|set_solver].
Qed.

(** [getpriority] never returns a negative priority: for a valid [which]
    it is -ESRCH when nothing is selected, and otherwise the largest of
    [20 - nice] over the selected threads, a value from 1 to 40. *)
Theorem getpriority_is_best which who ts :
  PRIO_PROCESS <= which <= PRIO_USER -> current ∈ ts -> nice_ok ts ->
  let ps := prio_targets which who ts in
  let r := sys_getpriority which who ts in
  (ps = [] /\ r = - ESRCH) \/
  (1 <= r <= 40 /\ (exists p, p ∈ ps /\ r = 20 - nice p) /\ forall p, p ∈ ps -> 20 - nice p <= r).
Proof.
  intros Hw Hcur Hok ps r. unfold r, sys_getpriority.
  replace ((PRIO_USER <? which) || (which <? PRIO_PROCESS)) with false by lia. fold ps.
  destruct (max_nice_spec ps (- ESRCH)) as (H1 & H2 & H3). unfold nice_to_rlimit in *.
  assert (forall p, p ∈ ps -> MIN_NICE <= nice p <= MAX_NICE) as Hrange.
  { intros p Hp%prio_targets_subset; [|done]. by apply (proj1 (Forall_forall _ _) Hok). }
  destruct ps as [|q ps'] eqn:Eps; [by left|right].
  assert (1 <= max_nice (q :: ps') (- ESRCH)).
  { specialize (H2 q ltac:(set_solver)). specialize (Hrange q ltac:(set_solver)). lia. }
  destruct H3 as [?|(p & Hp & Hm)]; [lia|]. pose proof (Hrange p Hp). split_and!; [lia|lia| |].
  - exists p. split; [done|lia].
  - intros p' Hp'. specialize (H2 p' Hp'). lia.
Qed.

End priority.

(** ** Concrete runs *)
Module Demo.

Definition env : PrioEnv := {|
  can_nice _ _ := false; security_task_setnice _ _ := 0; find_user _ := true |}.
(** An ordinary user's shell and job in group 7, and another user's task in it. *)
Definition shell := Thread 1 7 7 (ids 1000) 0.
Definition job := Thread 2 8 7 (ids 1000) 5.
Definition other := Thread 3 9 7 (ids 2000) (-5).
Definition table := [shell; job; other].

Lemma setpriority_effect_witness :
  let '(r, ts') := sys_setpriority (caps := user_caps) (ns_ := init_userns) (penv := env)
                     shell PRIO_PGRP 0 100 table in
  r <> 0 /\ ts' !! 1%nat = Some (Thread 2 8 7 (ids 1000) 19) /\ ts' !! 2%nat = Some other.
Proof.
  pose proof (setpriority_effect (caps := user_caps) (ns_ := init_userns) (penv := env)
    shell PRIO_PGRP 0 100 table) as H.
  destruct (sys_setpriority (caps := user_caps) (ns_ := init_userns) (penv := env)
                     shell PRIO_PGRP 0 100 table) as [r ts'].
  destruct H as (Hr & _ & Hts).
  - lia.
  - repeat constructor; simpl; lia.
  - intros p. unfold set_one_prio_check. simpl. repeat case_match; lia.
  - split_and!.
    + intros [_ Hall]%Hr. by specialize (Hall other ltac:(apply (bool_decide_unpack _); vm_compute; reflexivity)).
    + apply (Hts 1%nat job eq_refl). exists job.
      split; [apply (bool_decide_unpack _); vm_compute; reflexivity|done].
    + apply (Hts 2%nat other eq_refl). intros p Hp.
      change (prio_targets _ _ _ _) with table in Hp.
      repeat (apply elem_of_cons in Hp as [->|Hp]; [done|]). by apply not_elem_of_nil in Hp.
Defined.

Lemma getpriority_is_best_witness :
  1 <= sys_getpriority (ns_ := init_userns) (penv := env) shell PRIO_PGRP 7 table <= 40.
Proof.
  destruct (getpriority_is_best (ns_ := init_userns) (penv := env) shell PRIO_PGRP 7 table)
    as [[H _]|[H _]]; [lia|apply (bool_decide_unpack _); vm_compute; reflexivity|repeat constructor; simpl; lia|discriminate H|exact H].
Defined.

End Demo.
