(* ===== verification/Pgrp.v ===== *)
(** * Process groups and sessions

    sys.c 1003-1029 and 1118-1306.  A task is named by its pid, a thread group
    by the pid of its leader, and a [struct pid] by its number.  Process group,
    session and the session-leader flag live in the [signal_struct] the
    threads of a group share, so they are kept per thread group. *)
From S2P Require Import Prelude.

Record ptask := PTask {
  tgid : Z;                  (** [->group_leader], the key of the shared part *)
  real_parent : Z;
  forknoexec : bool;         (** [flags & PF_FORKNOEXEC] *)
}.
Record psignal := PSignal {
  pgrp : Z; session : Z;
  leader : bool;             (** [signal->leader] *)
  tty : option Z;            (** controlling terminal *)
}.
Record pstate := PState {
  ptasks : gmap Z ptask;
  psignals : gmap Z psignal;
}.

Class PgrpEnv := {
  security_task_setpgid : Z -> Z -> Z;
  security_task_getpgid : Z -> Z;
  security_task_getsid : Z -> Z;
}.

Definition upd_signal (f : psignal -> psignal) (tg : Z) (st : pstate) : pstate :=
  PState (ptasks st) (alter f tg (psignals st)).

(** [change_pid(p, PIDTYPE_PGID, pid)] and [change_pid(p, PIDTYPE_SID, pid)] *)
Definition change_pgrp (pid tg : Z) : pstate -> pstate :=
  upd_signal (fun s => PSignal pid (session s) (leader s) (tty s)) tg.
Definition change_sid (pid tg : Z) : pstate -> pstate :=
  upd_signal (fun s => PSignal (pgrp s) pid (leader s) (tty s)) tg.
Definition set_leader (tg : Z) : pstate -> pstate :=
  upd_signal (fun s => PSignal (pgrp s) (session s) true (tty s)) tg.
Definition proc_clear_tty (tg : Z) : pstate -> pstate :=
  upd_signal (fun s => PSignal (pgrp s) (session s) (leader s) None) tg.

(** [pid_task(pid, PIDTYPE_PGID)]: some thread group in that process group. *)
Definition pid_task_pgid (pid : Z) (st : pstate) : option (Z * psignal) :=
  List.find (fun x => pgrp x.2 =? pid) (map_to_list (psignals st)).

Section pgrp.
Context {penv : PgrpEnv}.
Variable current : Z.        (** pid of the calling task *)

Definition group_leader (st : pstate) : Z := default current (tgid <$> ptasks st !! current).
Definition sig_of (tg : Z) (st : pstate) : psignal :=
  default (PSignal 0 0 false None) (psignals st !! tg).
Definition tgid_of (pid : Z) (st : pstate) : Z := default pid (tgid <$> ptasks st !! pid).

Definition sys_getpid : sys pstate Z := sgets group_leader.
Definition sys_gettid : sys pstate Z := sret current.
Definition sys_getppid : sys pstate Z := sgets (fun st =>
  tgid_of (default 0 (real_parent <$> ptasks st !! current)) st).

(** What [setpgid]'s arguments stand for: 0 is the caller, or the process itself. *)
Definition eff_pid (pid : Z) (st : pstate) : Z := if pid =? 0 then group_leader st else pid.
Definition eff_pgid (pid pgid : Z) (st : pstate) : Z := if pgid =? 0 then eff_pid pid st else pgid.

Definition sys_setpgid (pid pgid : Z) : sys pstate Z :=
  let* st := sgets (fun st => st) in
  let gl := group_leader st in
  let pgid := eff_pgid pid pgid st in
  let pid := eff_pid pid st in
  do* fail_if (pgid <? 0) (- EINVAL) in
  let* p := some_or (ptasks st !! pid) (- ESRCH) in
  (* thread_group_leader(p) *)
  do* fail_if (negb (tgid p =? pid)) (- EINVAL) in
  let mysid := session (sig_of gl st) in
  do* (if tgid_of (real_parent p) st =? gl then
         do* fail_if (negb (session (sig_of pid st) =? mysid)) (- EPERM) in
         fail_if (negb (forknoexec p)) (- EACCES)
       else
         fail_if (negb (pid =? gl)) (- ESRCH)) in
  do* fail_if (leader (sig_of pid st)) (- EPERM) in
  do* (if negb (pgid =? pid) then
         fail_if (match pid_task_pgid pgid st with
                  | None => true
                  | Some (_, g) => negb (session g =? mysid)
                  end) (- EPERM)
       else sret tt) in
  let err := security_task_setpgid pid pgid in
  do* fail_if (negb (err =? 0)) err in
  do* (if negb (pgrp (sig_of pid st) =? pgid) then smodify (change_pgrp pgid pid) else sret tt) in
  sret 0.

Definition do_getpgid (pid : Z) : sys pstate Z :=
  let* st := sgets (fun st => st) in
  if pid =? 0 then sret (pgrp (sig_of (group_leader st) st))
  else
    let* p := some_or (ptasks st !! pid) (- ESRCH) in
    let* grp := some_or (pgrp <$> psignals st !! tgid p) (- ESRCH) in
    let retval := security_task_getpgid pid in
    do* fail_if (negb (retval =? 0)) retval in
    sret grp.

Definition sys_getpgid (pid : Z) : sys pstate Z := do_getpgid pid.
Definition sys_getpgrp : sys pstate Z := do_getpgid 0.

Definition sys_getsid (pid : Z) : sys pstate Z :=
  let* st := sgets (fun st => st) in
  if pid =? 0 then sret (session (sig_of (group_leader st) st))
  else
    let* p := some_or (ptasks st !! pid) (- ESRCH) in
    let* sid := some_or (session <$> psignals st !! tgid p) (- ESRCH) in
    let retval := security_task_getsid pid in
    do* fail_if (negb (retval =? 0)) retval in
    sret sid.

Definition set_special_pids (pid : Z) : sys pstate unit :=
  let* curr := sgets group_leader in
  let* st := sgets (fun st => st) in
  do* (if negb (session (sig_of curr st) =? pid) then smodify (change_sid pid curr) else sret tt) in
  let* st := sgets (fun st => st) in
  if negb (pgrp (sig_of curr st) =? pid) then smodify (change_pgrp pid curr) else sret tt.

Definition ksys_setsid : sys pstate Z :=
  let* st := sgets (fun st => st) in
  let gl := group_leader st in
  do* fail_if (leader (sig_of gl st)) (- EPERM) in
  do* fail_if (bool_decide (is_Some (pid_task_pgid gl st))) (- EPERM) in
  do* smodify (set_leader gl) in
  do* set_special_pids gl in
  do* smodify (proc_clear_tty gl) in
  sret gl.

(** ** Properties *)

(** Every group lies in one session, also the one named after a live
    process, and a session leader leads its own session and group. *)
Record wf_groups (st : pstate) : Prop := {
  grp_session t u s s' : psignals st !! t = Some s -> psignals st !! u = Some s' ->
    pgrp s = pgrp s' -> session s = session s';
  grp_own t u s s' : psignals st !! t = Some s -> psignals st !! u = Some s' ->
    pgrp s' = t -> session s' = session s;
  grp_leader t s : psignals st !! t = Some s -> leader s = true -> session s = t /\ pgrp s = t;
  grp_signals p t : ptasks st !! p = Some t -> is_Some (psignals st !! tgid t);
}.

Lemma pid_task_pgid_Some pid st tg s :
  pid_task_pgid pid st = Some (tg, s) -> psignals st !! tg = Some s /\ pgrp s = pid.
Proof.
  unfold pid_task_pgid. intros [Hin%list_elem_of_In%elem_of_map_to_list Hp]%find_some.
  simpl in Hp. split; [done|lia].
Qed.
Lemma pid_task_pgid_None pid st tg s :
  pid_task_pgid pid st = None -> psignals st !! tg = Some s -> pgrp s <> pid.
Proof.
  unfold pid_task_pgid. intros Hn Hs%elem_of_map_to_list%list_elem_of_In.
  pose proof (find_none _ _ Hn _ Hs) as Hf. simpl in Hf. lia.
Qed.

(** The last step of a successful [setpgid]. *)
Definition setpgid_effect pid pgid (st st' : pstate) : Prop :=
  exists s, psignals st !! pid = Some s /\ leader s = false /\
    (pgid = pid \/ exists tg g, psignals st !! tg = Some g /\ pgrp g = pgid /\ session g = session s) /\
    st' = PState (ptasks st) (<[pid := PSignal pgid (session s) (leader s) (tty s)]> (psignals st)).

Lemma sig_of_Some tg st s : psignals st !! tg = Some s -> sig_of tg st = s.
Proof. unfold sig_of. by intros ->. Qed.

Lemma change_pgrp_eq pid pgid st s :
  psignals st !! pid = Some s ->
  (if negb (pgrp s =? pgid) then change_pgrp pgid pid st else st) =
  PState (ptasks st) (<[pid := PSignal pgid (session s) (leader s) (tty s)]> (psignals st)).
Proof.
  intros Hs. unfold change_pgrp, upd_signal. destruct (Z.eqb_spec (pgrp s) pgid) as [<-|]; simpl.
  - destruct s as [g ss l t]. simpl. rewrite insert_id by done. by destruct st.
  - f_equal. apply map_eq. intros i. destruct (decide (i = pid)) as [->|].
    + by rewrite lookup_alter_eq, Hs, lookup_insert_eq.
    + by rewrite lookup_alter_ne, lookup_insert_ne.
Qed.

Lemma setpgid_effect_intro q g mysid st st' s :
  psignals st !! q = Some s -> leader s = false -> session s = mysid ->
  (negb (g =? q) = false \/
   match pid_task_pgid g st with None => true | Some (_, x) => negb (session x =? mysid) end = false) ->
  st' = (if negb (pgrp s =? g) then change_pgrp g q st else st) -> setpgid_effect q g st st'.
Proof.
  intros Hs Hl Hm Hg Hst. rewrite (change_pgrp_eq _ _ _ _ Hs) in Hst.
  exists s. split_and!; [done|done| |done].
  destruct Hg as [Hg|Hg]; [left; lia|right].
  destruct (pid_task_pgid g st) as [[tg x]|] eqn:E; [|done].
  apply pid_task_pgid_Some in E as [Hx Hp]. exists tg, x. split_and!; [done|done|lia].
Qed.

Lemma setpgid_outcome pid pgid st r st' :
  wf_groups st -> run (sys_setpgid pid pgid) st = (r, st') ->
  (r <> 0 /\ st' = st) \/
  (r = 0 /\ 0 <= eff_pgid pid pgid st /\ setpgid_effect (eff_pid pid st) (eff_pgid pid pgid st) st st').
Proof.
  intros Hwf E. apply run_inv in E. unfold sys_setpgid in E.
  assert (forall p, ptasks st !! eff_pid pid st = Some p -> tgid p = eff_pid pid st ->
    exists s, psignals st !! eff_pid pid st = Some s) as Hsig.
  { intros p Hp Hq. destruct (grp_signals _ Hwf _ _ Hp) as [s Hs]. rewrite Hq in Hs. eauto. }
  destruct E as [E|E]; sys_inv E; try (left; split; [lia|done]).
  all: right; split_and!; [done|lia|]; destruct (Hsig a) as [s Hs]; [done|lia|].
  all: rewrite (sig_of_Some _ _ _ Hs) in *.
  all: eapply (setpgid_effect_intro _ _ (session (sig_of (group_leader st) st)) _ _ s);
    [exact Hs|done| |auto|
     match goal with H : negb (pgrp _ =? _) = _ |- _ => by rewrite H end].
  all: try lia.
  all: replace (group_leader st) with (eff_pid pid st) by lia; by rewrite (sig_of_Some _ _ _ Hs).
Qed.

Lemma wf_groups_setpgid q g st st' :
  wf_groups st -> setpgid_effect q g st st' -> wf_groups st'.
Proof.
  intros [Hgs Hown Hlead Hsig] (s & Hs & Hl & Hg & ->).
  assert (forall u s', psignals st !! u = Some s' -> pgrp s' = g -> session s' = session s) as Hin.
  { intros u s' Hu Hp. destruct Hg as [->|(tg & x & Hx & Hxp & Hxs)]; [by eapply Hown|].
    rewrite <- Hxs. eapply Hgs; [done|done|congruence]. }
  split; simpl.
  - intros t u s1 s2. rewrite !lookup_insert_Some.
    intros [[<- <-]|[? H1]] [[<- <-]|[? H2]]; simpl; intros Hp; eauto.
    symmetry. by eapply Hin.
  - intros t u s1 s2. rewrite !lookup_insert_Some.
    intros [[<- <-]|[? H1]] [[<- <-]|[? H2]]; simpl; intros Hp; eauto.
    destruct Hg as [->|(tg & x & Hx & Hxp & <-)]; [done|]. eapply Hown; [done|done|congruence].
  - intros t s1. rewrite lookup_insert_Some. intros [[<- <-]|[? H1]]; simpl; [congruence|eauto].
  - intros p t Hp. destruct (Hsig p t Hp) as [x Hx].
    destruct (decide (tgid t = q)) as [->|]; [rewrite lookup_insert_eq|rewrite lookup_insert_ne by done]; eauto.
Qed.

Lemma upd_known f tg st s :
  psignals st !! tg = Some s -> upd_signal f tg st = PState (ptasks st) (<[tg := f s]> (psignals st)).
Proof.
  intros Hs. unfold upd_signal. f_equal. apply map_eq. intros i.
  destruct (decide (i = tg)) as [->|].
  - by rewrite lookup_alter_eq, Hs, lookup_insert_eq.
  - by rewrite lookup_alter_ne, lookup_insert_ne.
Qed.
Lemma upd_ins f tg T m s : upd_signal f tg (PState T (<[tg := s]> m)) = PState T (<[tg := f s]> m).
Proof. erewrite upd_known by (simpl; by rewrite lookup_insert_eq). simpl. by rewrite insert_insert_eq. Qed.
Lemma sig_of_ins tg T m s : sig_of tg (PState T (<[tg := s]> m)) = s.
Proof. apply sig_of_Some. simpl. by rewrite lookup_insert_eq. Qed.
Lemma group_leader_ins st m : group_leader (PState (ptasks st) m) = group_leader st.
Proof. done. Qed.

(** What a successful [setsid] leaves. *)
Lemma setsid_outcome st r st' s :
  psignals st !! group_leader st = Some s -> run ksys_setsid st = (r, st') ->
  let gl := group_leader st in
  (r = - EPERM /\ st' = st) \/
  (r = gl /\ leader s = false /\ (forall u s', psignals st !! u = Some s' -> pgrp s' <> gl) /\
   st' = PState (ptasks st) (<[gl := PSignal gl gl true None]> (psignals st))).
Proof.
  intros Hs E gl.
  apply run_inv in E. unfold ksys_setsid, set_special_pids in E.
  destruct E as [E|E]; sys_inv E; try (by left).
  all: unfold set_leader, change_sid, change_pgrp, proc_clear_tty in *.
  all: rewrite !(upd_known _ _ _ _ Hs) in *; rewrite ?group_leader_ins, ?upd_ins, ?sig_of_ins in *.
  all: rewrite ?upd_ins, ?sig_of_ins, (sig_of_Some _ _ _ Hs) in *; simpl in *.
  all: right; split_and!; [done|done| |by repeat f_equal; lia].
  all: intros u s' Hu; eapply pid_task_pgid_None; [|exact Hu].
  all: match goal with H : bool_decide _ = false |- _ =>
    apply bool_decide_eq_false in H; by apply eq_None_not_Some end.
Qed.

Lemma wf_groups_setsid gl st s :
  wf_groups st -> psignals st !! gl = Some s ->
  (forall u s', psignals st !! u = Some s' -> pgrp s' <> gl) ->
  wf_groups (PState (ptasks st) (<[gl := PSignal gl gl true None]> (psignals st))).
Proof.
  intros [Hgs Hown Hlead Hsig] Hs Hno. split; simpl.
  - intros t u s1 s2. rewrite !lookup_insert_Some.
    intros [[<- <-]|[? H1]] [[<- <-]|[? H2]]; simpl; intros Hp; eauto.
    + by destruct (Hno u s2).
    + by destruct (Hno t s1).
  - intros t u s1 s2. rewrite !lookup_insert_Some.
    intros [[<- <-]|[? H1]] [[<- <-]|[? H2]]; simpl; intros Hp; eauto; [|done].
    by destruct (Hno u s2).
  - intros t s1. rewrite lookup_insert_Some. intros [[<- <-]|[? H1]]; simpl; eauto.
  - intros p t Hp. destruct (Hsig p t Hp) as [x Hx].
    destruct (decide (tgid t = gl)) as [->|]; [rewrite lookup_insert_eq|rewrite lookup_insert_ne by done]; eauto.
Qed.
End pgrp.

(** Calls, each by a task of the table. *)
Inductive grp_call :=
| Setpgid (current pid pgid : Z) | Setsid (current : Z) | Getpgid (current pid : Z) | Getsid (current pid : Z).

Section properties.
Context {penv : PgrpEnv}.

Definition exec_grp (c : grp_call) : sys pstate Z :=
  match c with
  | Setpgid cur pid pgid => sys_setpgid cur pid pgid
  | Setsid cur => ksys_setsid cur
  | Getpgid cur pid => sys_getpgid cur pid
  | Getsid cur pid => sys_getsid cur pid
  end.
Definition caller (c : grp_call) : Z :=
  match c with Setpgid cur _ _ | Setsid cur | Getpgid cur _ | Getsid cur _ => cur end.

Lemma getpgid_outcome cur pid st r st' :
  run (sys_getpgid cur pid) st = (r, st') \/ run (sys_getsid cur pid) st = (r, st') -> st' = st.
Proof.
  intros [E|E]; apply run_inv in E; unfold sys_getpgid, do_getpgid, sys_getsid in E;
  destruct E as [E|E]; sys_inv E; done.
Qed.

Lemma exec_grp_wf c st r st' :
  is_Some (ptasks st !! caller c) -> wf_groups st -> run (exec_grp c) st = (r, st') ->
  wf_groups st' /\ ptasks st' = ptasks st.
Proof.
  intros [t Ht] Hwf E. destruct c as [cur pid pgid|cur|cur pid|cur pid]; simpl in *.
  - destruct (setpgid_outcome _ _ _ _ _ _ Hwf E) as [(_ & ->)|(_ & _ & Heff)]; [done|].
    split; [by eapply wf_groups_setpgid|]. by destruct Heff as (s & _ & _ & _ & ->).
  - assert (group_leader cur st = tgid t) as Hgl by (unfold group_leader; by rewrite Ht).
    destruct (grp_signals _ Hwf _ _ Ht) as [s Hs]. rewrite <- Hgl in Hs.
    destruct (setsid_outcome _ _ _ _ _ Hs E) as [(_ & ->)|(_ & _ & Hno & ->)]; [done|].
    split; [by eapply wf_groups_setsid|done].
  - by rewrite (getpgid_outcome cur pid st r st'); [|left].
  - by rewrite (getpgid_outcome cur pid st r st'); [|right].
Qed.

(** C28: whatever sequence of [setpgid] and [setsid] calls the tasks make, all
    members of a process group stay in one session, and a session leader
    stays the leader of its own session and its own group. *)
Theorem groups_stay_in_one_session cs st :
  wf_groups st -> Forall (fun c => is_Some (ptasks st !! caller c)) cs ->
  wf_groups (run_all exec_grp cs st).
Proof.
  revert st. induction cs as [|c cs IH]; intros st Hwf Hcs; simpl; [done|].
  apply Forall_cons in Hcs as [Hc Hcs].
  destruct (run (exec_grp c) st) as [r st'] eqn:E. simpl.
  destruct (exec_grp_wf _ _ _ _ Hc Hwf E) as [Hwf' Ht]. apply IH; [done|]. by rewrite Ht.
Qed.

(** After [setpgid(pid, pgid)] with positive arguments has returned 0,
    [getpgid(pid)] returns pgid. *)
Theorem setpgid_getpgid cur pid pgid st st' :
  wf_groups st -> 0 < pid -> 0 < pgid -> security_task_getpgid pid = 0 ->
  run (sys_setpgid cur pid pgid) st = (0, st') ->
  run (sys_getpgid cur pid) st' = (pgid, st').
Proof.
  intros Hwf Hpid Hpgid Hsec E.
  assert (exists p, ptasks st !! pid = Some p /\ tgid p = pid) as (p & Hp & Htg).
  { revert E. unfold sys_setpgid, eff_pid, eff_pgid. intros E. apply run_inv in E.
    destruct E as [E|E]; sys_inv E; exists a;
    replace (pid =? 0) with false in * by lia; split; done || lia. }
  destruct (setpgid_outcome _ _ _ _ _ _ Hwf E) as [(? & _)|(_ & _ & s & Hs & _ & _ & ->)]; [done|].
  unfold eff_pid, eff_pgid in *. replace (pid =? 0) with false in * by lia.
  replace (pgid =? 0) with false in * by lia.
  unfold sys_getpgid, do_getpgid. sys_unfold. replace (pid =? 0) with false by lia.
  rewrite Hp, Htg. simpl. rewrite lookup_insert_eq. simpl. by rewrite Hsec.
Qed.

(** A successful [setsid] returns the caller's process id and makes it
    the leader of a session and of a group that nobody else is in, without a
    controlling terminal. *)
Theorem setsid_starts_a_session cur t st r st' :
  wf_groups st -> ptasks st !! cur = Some t -> r <> - EPERM ->
  run (ksys_setsid cur) st = (r, st') ->
  r = tgid t /\ psignals st' !! tgid t = Some (PSignal (tgid t) (tgid t) true None) /\
  forall u s, u <> tgid t -> psignals st' !! u = Some s -> pgrp s <> tgid t.
Proof.
  intros Hwf Ht Hr E.
  assert (group_leader cur st = tgid t) as Hgl by (unfold group_leader; by rewrite Ht).
  destruct (grp_signals _ Hwf _ _ Ht) as [s Hs]. rewrite <- Hgl in *.
  destruct (setsid_outcome _ _ _ _ _ Hs E) as [(? & _)|(-> & _ & Hno & ->)]; [done|].
  split_and!; [done|simpl; by rewrite lookup_insert_eq|].
  intros u s' Hu. simpl. rewrite lookup_insert_ne by done. apply Hno.
Qed.

End properties.

Module Demo.
(** Two processes of one session, 10 the parent of 11;
    pid 11 has not called exec yet. *)
Definition penv0 : PgrpEnv :=
  {| security_task_setpgid _ _ := 0; security_task_getpgid _ := 0; security_task_getsid _ := 0 |}.
#[local] Existing Instance penv0.
Definition st0 : pstate := PState
  {[ 10 := PTask 10 1 false; 11 := PTask 11 10 true ]}
  {[ 10 := PSignal 10 10 true (Some 3); 11 := PSignal 10 10 false (Some 3) ]}.

Lemma st0_wf : wf_groups st0.
Proof.
  split; unfold st0; simpl.
  - intros t u s s'. rewrite !lookup_insert_Some, !lookup_singleton_Some. naive_solver.
  - intros t u s s'. rewrite !lookup_insert_Some, !lookup_singleton_Some. naive_solver.
  - intros t s. rewrite lookup_insert_Some, lookup_singleton_Some. naive_solver.
  - intros p t. rewrite lookup_insert_Some, lookup_singleton_Some.
    intros [[_ <-]|[_ [_ <-]]]; simpl; eauto.
Qed.

Definition calls0 : list grp_call :=
  [Setpgid 10 11 11; Setsid 10; Setsid 11; Setpgid 11 0 10; Getsid 10 11].

Lemma groups_stay_in_one_session_witness :
  wf_groups (run_all exec_grp calls0 st0) /\
  psignals (run_all exec_grp calls0 st0) !! 11 = Some (PSignal 10 10 false (Some 3)).
Proof.
  split; [|vm_compute; reflexivity].
  apply (groups_stay_in_one_session calls0 st0 st0_wf).
  repeat constructor; vm_compute; eauto.
Defined.

Lemma setpgid_getpgid_witness :
  let st' := (run (sys_setpgid 10 11 11) st0).2 in run (sys_getpgid 10 11) st' = (11, st').
Proof.
  apply (setpgid_getpgid 10 11 11 st0); [exact st0_wf|lia|lia|reflexivity|vm_compute; reflexivity].
Defined.

Lemma setsid_starts_a_session_witness :
  let st' := (run (ksys_setsid 11) st0).2 in
  psignals st' !! 11 = Some (PSignal 11 11 true None).
Proof.
  refine (proj1 (proj2 (setsid_starts_a_session 11 (PTask 11 10 true) st0 11 _ st0_wf _ _ _)));
    [reflexivity|lia|vm_compute; reflexivity].
Defined.
End Demo.
