(* ===== verification/Uts.v ===== *)
(** * Names of the system: [uname], [sethostname], [setdomainname]

    sys.c 1308-1497.  [struct new_utsname] is six arrays of 65 bytes; user
    memory is byte-addressed, so the offsets of the three layouts the calls
    copy out are those of the C structures. *)
From S2P Require Import Prelude Task UMem.
From stdpp Require Import pretty.
#[local] Open Scope Z_scope.

Record new_utsname := Utsname {
  sysname : list Z; nodename : list Z; release : list Z;
  version : list Z; machine : list Z; domainname : list Z;
}.

Abbreviation NEW_UTS_LEN := 64 (only parsing).
Abbreviation UTS_FIELD := 65%nat (only parsing).       (** sizeof a field *)
Abbreviation OLD_UTS_LEN := 8%nat (only parsing).
Abbreviation OFF_RELEASE := 130 (only parsing).
Abbreviation OFF_MACHINE := 260 (only parsing).
(** Offsets in [struct oldold_utsname], whose fields have 9 bytes. *)
Abbreviation OFF_OLD_RELEASE := 18 (only parsing).
Abbreviation OFF_OLD_MACHINE := 36 (only parsing).

(** What the build and the calling task fix. *)
Class UtsEnv := {
  UTS_RELEASE : list Z;                  (** version string of the build, without its NUL *)
  LINUX_VERSION_PATCHLEVEL : Z;
  COMPAT_UTS_MACHINE : list Z;           (** NULs included *)
  uname26 : bool;                        (** [current->personality & UNAME26] *)
  per_linux32 : bool;                    (** [personality(...) == PER_LINUX32] *)
  uts_user_ns : Z;                       (** [current->nsproxy->uts_ns->user_ns] *)
}.

Record ustate := UState { utsname : new_utsname; mem : umem }.

Definition isdigit (c : Z) : bool := (48 <=? c) && (c <=? 57).

(** The scan for what follows the version numbers of the release. *)
Fixpoint skip_version (rest : list Z) (ndots : Z) : list Z :=
  match rest with
  | [] => []
  | c :: rest' =>
      let ndots := if c =? 46 then ndots + 1 else ndots in
      if (c =? 46) && (3 <=? ndots) then rest
      else if negb (isdigit c) && negb (c =? 46) then rest
      else skip_version rest' ndots
  end.

(** [scnprintf(buf, size, ...)] of the text [out]: the characters kept. *)
Definition scnprintf (size : Z) (out : list Z) : list Z := take (Z.to_nat (size - 1)) out.

(** memcpy of [l] over a field, then memset 0 of the rest *)
Definition set_field (l : list Z) : list Z := l ++ replicate (UTS_FIELD - length l) 0.
Arguments set_field : simpl never.

Definition bytes_new (u : new_utsname) : list Z :=
  sysname u ++ nodename u ++ release u ++ version u ++ machine u ++ domainname u.
(** [sizeof(struct old_utsname)] is 325: the same fields less the last. *)
Definition bytes_old (u : new_utsname) : list Z := take 325 (bytes_new u).
(** Eight bytes of each field, the ninth zero. *)
Definition bytes_oldold (u : new_utsname) : list Z :=
  concat ((fun f => take OLD_UTS_LEN f ++ [0]) <$> [sysname u; nodename u; release u; version u; machine u]).

Section uts.
Context {caps : Caps} {ua : UAccess} {uenv : UtsEnv}.

Definition copy_out (dst : Z) (l : list Z) : sys ustate Z := fun s =>
  let '(rest, m) := put_bytes (mem s) dst l in (Val rest, UState (utsname s) m).

Definition release26 : list Z :=
  bytes_of "2.6." ++ bytes_of (pretty (u32 (LINUX_VERSION_PATCHLEVEL + 60))) ++ skip_version UTS_RELEASE 0.

(** Returns the number of bytes that could not be stored. *)
Definition override_release (dst len : Z) : sys ustate Z :=
  if uname26 then
    let copy := Z.max 1 (Z.min len 65) in
    copy_out dst (scnprintf copy release26 ++ [0])
  else sret 0.

Definition override_architecture (dst : Z) : sys ustate Z :=
  if per_linux32 then copy_out dst COMPAT_UTS_MACHINE else sret 0.

Definition sys_newuname (name : Z) : sys ustate Z :=
  let* tmp := sgets utsname in
  let* rest := copy_out name (bytes_new tmp) in
  do* fail_if (negb (rest =? 0)) (- EFAULT) in
  let* rest := override_release (name + OFF_RELEASE) 65 in
  do* fail_if (negb (rest =? 0)) (- EFAULT) in
  let* rest := override_architecture (name + OFF_MACHINE) in
  do* fail_if (negb (rest =? 0)) (- EFAULT) in
  sret 0.

Definition sys_uname (name : Z) : sys ustate Z :=
  do* fail_if (name =? 0) (- EFAULT) in
  let* tmp := sgets utsname in
  let* rest := copy_out name (bytes_old tmp) in
  do* fail_if (negb (rest =? 0)) (- EFAULT) in
  let* rest := override_release (name + OFF_RELEASE) 65 in
  do* fail_if (negb (rest =? 0)) (- EFAULT) in
  let* rest := override_architecture (name + OFF_MACHINE) in
  do* fail_if (negb (rest =? 0)) (- EFAULT) in
  sret 0.

Definition sys_olduname (name : Z) : sys ustate Z :=
  do* fail_if (name =? 0) (- EFAULT) in
  let* tmp := sgets utsname in
  let* rest := copy_out name (bytes_oldold tmp) in
  do* fail_if (negb (rest =? 0)) (- EFAULT) in
  let* rest := override_architecture (name + OFF_OLD_MACHINE) in
  do* fail_if (negb (rest =? 0)) (- EFAULT) in
  let* rest := override_release (name + OFF_OLD_RELEASE) 9 in
  do* fail_if (negb (rest =? 0)) (- EFAULT) in
  sret 0.

Definition set_nodename (l : list Z) (u : new_utsname) : new_utsname :=
  Utsname (sysname u) (set_field l) (release u) (version u) (machine u) (domainname u).
Definition set_domainname (l : list Z) (u : new_utsname) : new_utsname :=
  Utsname (sysname u) (nodename u) (release u) (version u) (machine u) (set_field l).

Definition sys_sethostname (name len : Z) : sys ustate Z :=
  do* fail_if (negb (ns_capable uts_user_ns CAP_SYS_ADMIN)) (- EPERM) in
  do* fail_if ((len <? 0) || (NEW_UTS_LEN <? len)) (- EINVAL) in
  let* got := sgets (fun s => get_bytes (mem s) name len) in
  do* fail_if (negb (got.1 =? 0)) (- EFAULT) in
  do* smodify (fun s => UState (set_nodename got.2 (utsname s)) (mem s)) in
  sret 0.

(** The bytes [gethostname] takes from the field: [i = 1 + strlen], at most [len]. *)
Definition hostname_len (len : Z) (u : new_utsname) : Z :=
  let i := 1 + Z.of_nat (strlen (nodename u)) in if len <? i then len else i.

Definition sys_gethostname (name len : Z) : sys ustate Z :=
  do* fail_if (len <? 0) (- EINVAL) in
  let* u := sgets utsname in
  let* rest := copy_out name (take (Z.to_nat (hostname_len len u)) (nodename u)) in
  do* fail_if (negb (rest =? 0)) (- EFAULT) in
  sret 0.

Definition sys_setdomainname (name len : Z) : sys ustate Z :=
  do* fail_if (negb (ns_capable uts_user_ns CAP_SYS_ADMIN)) (- EPERM) in
  do* fail_if ((len <? 0) || (NEW_UTS_LEN <? len)) (- EINVAL) in
  let* got := sgets (fun s => get_bytes (mem s) name len) in
  do* fail_if (negb (got.1 =? 0)) (- EFAULT) in
  do* smodify (fun s => UState (set_domainname got.2 (utsname s)) (mem s)) in
  sret 0.

(** ** Properties *)

(** Every field fills its array and holds a NUL. *)
Definition field_ok (f : list Z) : Prop := length f = UTS_FIELD /\ f !! 64%nat = Some 0.
Record uts_ok (s : ustate) : Prop := {
  ok_sysname : field_ok (sysname (utsname s)); ok_nodename : field_ok (nodename (utsname s));
  ok_release : field_ok (release (utsname s)); ok_version : field_ok (version (utsname s));
  ok_machine : field_ok (machine (utsname s)); ok_domainname : field_ok (domainname (utsname s));
}.

Lemma set_field_ok l : (length l <= 64)%nat -> field_ok (set_field l).
Proof.
  intros Hl. unfold field_ok, set_field. rewrite length_app, length_replicate. split; [lia|].
  rewrite lookup_app_r by lia. apply lookup_replicate. lia.
Qed.
Lemma set_field_nul l : (length l <= 64)%nat ->
  set_field l = l ++ 0 :: replicate (64 - length l) 0.
Proof. intros. unfold set_field. by replace (65 - length l)%nat with (S (64 - length l)) by lia. Qed.

Lemma copy_out_inv dst l s o s' : copy_out dst l s = (o, s') ->
  exists rest m, put_bytes (mem s) dst l = (rest, m) /\ o = Val rest /\ s' = UState (utsname s) m.
Proof. unfold copy_out. destruct (put_bytes _ _ _) as [rest m]. intros [= <- <-]. eauto. Qed.
Lemma keeps_copy_out dst l : keeps (inv_rel uts_ok) (copy_out dst l).
Proof. intros s o s' (rest & m & _ & _ & ->)%copy_out_inv [? ? ? ? ? ?]. by split. Qed.
#[local] Hint Resolve keeps_copy_out : keeps.

(** What the two setters do. *)
Lemma set_outcome (upd : list Z -> new_utsname -> new_utsname) name len s o s' :
  (do* fail_if (negb (ns_capable uts_user_ns CAP_SYS_ADMIN)) (- EPERM) in
   do* fail_if ((len <? 0) || (NEW_UTS_LEN <? len)) (- EINVAL) in
   let* got := sgets (fun s => get_bytes (mem s) name len) in
   do* fail_if (negb (got.1 =? 0)) (- EFAULT) in
   do* smodify (fun s => UState (upd got.2 (utsname s)) (mem s)) in
   sret 0) s = (o, s') ->
  (exists e, o = Exit e /\ e < 0 /\ s' = s) \/
  (o = Val 0 /\ 0 <= len <= NEW_UTS_LEN /\
   s' = UState (upd (read_bytes (mem s) name (Z.to_nat len)) (utsname s)) (mem s)).
Proof.
  intros E. sys_inv E; try (left; eexists; split_and!; [done|lia|done]).
  right. split_and!; [done|lia|lia|]. simpl in *.
  by replace (len - uncopied name len) with len by lia.
Qed.

Lemma keeps_set upd name len s o s' :
  (forall l u m, (length l <= 64)%nat -> uts_ok (UState u m) -> uts_ok (UState (upd l u) m)) ->
  (do* fail_if (negb (ns_capable uts_user_ns CAP_SYS_ADMIN)) (- EPERM) in
   do* fail_if ((len <? 0) || (NEW_UTS_LEN <? len)) (- EINVAL) in
   let* got := sgets (fun s => get_bytes (mem s) name len) in
   do* fail_if (negb (got.1 =? 0)) (- EFAULT) in
   do* smodify (fun s => UState (upd got.2 (utsname s)) (mem s)) in
   sret 0) s = (o, s') -> uts_ok s -> uts_ok s'.
Proof.
  intros Hupd E Hs. apply set_outcome in E as [(e & _ & _ & ->)|(_ & Hlen & ->)]; [done|].
  apply Hupd; [rewrite length_read_bytes; lia|by destruct s].
Qed.
Lemma keeps_sethostname name len : keeps (inv_rel uts_ok) (sys_sethostname name len).
Proof.
  intros s o s' E Hs. eapply keeps_set; [|exact E|exact Hs].
  intros l u m Hl [? ? ? ? ? ?]. split; simpl; try done. by apply set_field_ok.
Qed.
Lemma keeps_setdomainname name len : keeps (inv_rel uts_ok) (sys_setdomainname name len).
Proof.
  intros s o s' E Hs. eapply keeps_set; [|exact E|exact Hs].
  intros l u m Hl [? ? ? ? ? ?]. split; simpl; try done. by apply set_field_ok.
Qed.
#[local] Hint Resolve keeps_sethostname keeps_setdomainname : keeps.

Inductive uts_call :=
| Newuname (name : Z) | Uname (name : Z) | Olduname (name : Z)
| Sethostname (name len : Z) | Gethostname (name len : Z) | Setdomainname (name len : Z).
Definition exec_uts (c : uts_call) : sys ustate Z :=
  match c with
  | Newuname n => sys_newuname n | Uname n => sys_uname n | Olduname n => sys_olduname n
  | Sethostname n l => sys_sethostname n l | Gethostname n l => sys_gethostname n l
  | Setdomainname n l => sys_setdomainname n l
  end.
Lemma keeps_exec_uts c : keeps (inv_rel uts_ok) (exec_uts c).
Proof.
  destruct c; simpl; unfold sys_newuname, sys_uname, sys_olduname, sys_gethostname,
    override_release, override_architecture; auto 30 with keeps typeclass_instances.
Qed.

(** Whatever sequence of the six calls runs, every field of the names
    stays a full array with a terminating NUL, so the number of bytes
    [gethostname] copies into its 65-byte buffer never exceeds 65. *)
Theorem names_stay_terminated cs s len :
  uts_ok s -> uts_ok (run_all exec_uts cs s) /\
              hostname_len len (utsname (run_all exec_uts cs s)) <= 65.
Proof.
  intros Hs. assert (uts_ok (run_all exec_uts cs s)) as H.
  { exact (keeps_run_all (inv_rel uts_ok) exec_uts cs s keeps_exec_uts Hs). }
  split; [done|]. destruct (ok_nodename _ H) as [_ Hnul]. apply strlen_nul in Hnul.
  unfold hostname_len. case_match; lia.
Qed.

(** A host name without NULs set with [sethostname] is what [gethostname]
    stores, terminated, in any buffer longer than the name. *)
Theorem sethostname_gethostname name len buf n s s1 s2 :
  Forall (fun b => b <> 0) (read_bytes (mem s) name (Z.to_nat len)) ->
  run (sys_sethostname name len) s = (0, s1) -> len < n ->
  run (sys_gethostname buf n) s1 = (0, s2) ->
  read_bytes (mem s2) buf (S (Z.to_nat len)) = read_bytes (mem s) name (Z.to_nat len) ++ [0].
Proof.
  intros Hnz E1 Hn E2.
  assert (0 <= len <= 64 /\ s1 = UState (set_nodename (read_bytes (mem s) name (Z.to_nat len)) (utsname s)) (mem s))
    as [Hlen ->].
  { apply run_inv in E1 as [E|E]; apply set_outcome in E as [(e & [= ?] & ? & _)|(? & ? & ->)]; done || lia. }
  set (h := read_bytes (mem s) name (Z.to_nat len)) in *.
  assert (length h = Z.to_nat len) as Hh by apply length_read_bytes.
  apply run_inv in E2. unfold sys_gethostname in E2. destruct E2 as [E|E]; sys_inv E.
  all: apply bind_inv in E as [(e & E & ?)|(a & s3 & E & E3)];
    apply copy_out_inv in E as (rest & m & Hput & Ho & ->); [done|].
  all: injection Ho as ->; sys_inv E3; cbn [mem utsname] in *.
  replace rest with 0 in Hput by lia. apply put_bytes_ok in Hput as ->.
  unfold hostname_len, set_nodename; cbn [utsname mem nodename]. rewrite set_field_nul by lia. rewrite strlen_app_nul by done.
  replace (n <? 1 + Z.of_nat (length h)) with false by lia.
  replace (Z.to_nat (1 + Z.of_nat (length h))) with (length (h ++ [0])) by (rewrite length_app; simpl; lia).
  rewrite (cons_middle 0 h (replicate _ 0)), app_assoc, take_app_length.
  replace (S (Z.to_nat len)) with (length (h ++ [0])) by (rewrite length_app; simpl; lia).
  apply read_write_same.
Qed.

(** The two overrides, when they succeed. *)
Lemma override_release_ok dst s s' : override_release dst 65 s = (Val 0, s') ->
  s' = UState (utsname s) (if uname26 then write_bytes (mem s) dst (take 64 release26 ++ [0]) else mem s).
Proof.
  unfold override_release. destruct uname26; [|intros [= <-]; by destruct s].
  intros (rest & m & Hput & [= <-] & ->)%copy_out_inv. by apply put_bytes_ok in Hput as ->.
Qed.
Lemma override_architecture_ok dst s s' : override_architecture dst s = (Val 0, s') ->
  s' = UState (utsname s) (if per_linux32 then write_bytes (mem s) dst COMPAT_UTS_MACHINE else mem s).
Proof.
  unfold override_architecture. destruct per_linux32; [|intros [= <-]; by destruct s].
  intros (rest & m & Hput & [= <-] & ->)%copy_out_inv. by apply put_bytes_ok in Hput as ->.
Qed.
(** One store and its check, in a call that returns 0. *)
Lemma stored_inv (m : sys ustate Z) (k : sys ustate Z) s o s' :
  (forall s o s', m s = (o, s') -> exists v, o = Val v) -> (o = Val 0 \/ o = Exit 0) ->
  (let* rest := m in do* fail_if (negb (rest =? 0)) (- EFAULT) in k) s = (o, s') ->
  exists s1, m s = (Val 0, s1) /\ k s1 = (o, s').
Proof.
  intros Hm Ho E. apply bind_inv in E as [(e & E & _)|(a & s1 & Em & E)].
  - by destruct (Hm _ _ _ E).
  - sys_inv E; [naive_solver lia|]. exists s1. by replace 0 with a by lia.
Qed.
Lemma copy_out_val dst l s o s' : copy_out dst l s = (o, s') -> exists v, o = Val v.
Proof. intros (? & ? & _ & -> & _)%copy_out_inv. eauto. Qed.
Lemma override_release_val dst len s o s' : override_release dst len s = (o, s') -> exists v, o = Val v.
Proof. unfold override_release. case_match; [apply copy_out_val|intros [= <- <-]; eauto]. Qed.
Lemma override_architecture_val dst s o s' : override_architecture dst s = (o, s') -> exists v, o = Val v.
Proof. unfold override_architecture. case_match; [apply copy_out_val|intros [= <- <-]; eauto]. Qed.

Lemma newuname_mem name s s' : run (sys_newuname name) s = (0, s') ->
  let m0 := write_bytes (mem s) name (bytes_new (utsname s)) in
  let m1 := if uname26 then write_bytes m0 (name + OFF_RELEASE) (take 64 release26 ++ [0]) else m0 in
  mem s' = if per_linux32 then write_bytes m1 (name + OFF_MACHINE) COMPAT_UTS_MACHINE else m1.
Proof.
  intros E. assert (exists o, (o = Val 0 \/ o = Exit 0) /\ sys_newuname name s = (o, s')) as (o & Ho & E').
  { apply run_inv in E as [E|E]; eauto. }
  clear E. unfold sys_newuname in E'. sys_inv E'.
  apply stored_inv in E' as (s1 & H1 & E'); [|apply copy_out_val|done].
  apply stored_inv in E' as (s2 & H2 & E'); [|apply override_release_val|done].
  apply stored_inv in E' as (s3 & H3 & E'); [|apply override_architecture_val|done].
  apply copy_out_inv in H1 as (rest & m & Hput & [= <-] & ->). apply put_bytes_ok in Hput as ->.
  apply override_release_ok in H2 as ->. apply override_architecture_ok in H3 as ->.
  by injection E' as _ <-.
Qed.

(** What [read_bytes] finds in the user's structure. *)
Lemma bytes_new_fields m a s : uts_ok s ->
  let M := write_bytes m a (bytes_new (utsname s)) in
  read_bytes M a 65 = sysname (utsname s) /\ read_bytes M (a + 65) 65 = nodename (utsname s) /\
  read_bytes M (a + 130) 65 = release (utsname s) /\ read_bytes M (a + 195) 65 = version (utsname s) /\
  read_bytes M (a + 260) 65 = machine (utsname s) /\ read_bytes M (a + 325) 65 = domainname (utsname s).
Proof.
  intros [[L1 _] [L2 _] [L3 _] [L4 _] [L5 _] [L6 _]]. unfold bytes_new.
  destruct (utsname s) as [f1 f2 f3 f4 f5 f6]; cbn [sysname nodename release version machine domainname] in *.
  
  assert (forall off l1 l2 l3, length l2 = 65%nat -> off = Z.of_nat (length l1) ->
    read_bytes (write_bytes m a (l1 ++ l2 ++ l3)) (a + off) 65 = l2) as Hf.
  { intros off l1 l2 l3 <- ->. apply read_write_field. }
  split_and!.
  - specialize (Hf 0 [] f1 (f2 ++ f3 ++ f4 ++ f5 ++ f6)). rewrite Z.add_0_r in Hf. by apply Hf.
  - apply (Hf 65 f1 f2 (f3 ++ f4 ++ f5 ++ f6)); [done|by rewrite L1].
  - specialize (Hf 130 (f1 ++ f2) f3 (f4 ++ f5 ++ f6)). rewrite <- !app_assoc in Hf. apply Hf; [done|].
    by rewrite length_app, L1, L2.
  - specialize (Hf 195 (f1 ++ f2 ++ f3) f4 (f5 ++ f6)). rewrite <- !app_assoc in Hf. apply Hf; [done|].
    by rewrite !length_app, L1, L2, L3.
  - specialize (Hf 260 (f1 ++ f2 ++ f3 ++ f4) f5 f6). rewrite <- !app_assoc in Hf. apply Hf; [done|].
    by rewrite !length_app, L1, L2, L3, L4.
  - specialize (Hf 325 (f1 ++ f2 ++ f3 ++ f4 ++ f5) f6 []).
    rewrite <- !app_assoc, app_nil_r in Hf. apply Hf; [done|]. by rewrite !length_app, L1, L2, L3, L4, L5.
Qed.

(** [newuname] stores the six names at their offsets; only under the
    UNAME26 personality is the release replaced, by "2.6." and the mapped
    version cut to the field, and only under PER_LINUX32 the machine name; no
    override spills into a neighbouring field. *)
Theorem newuname_stores_names name s s' :
  uts_ok s -> (length COMPAT_UTS_MACHINE <= 65)%nat -> run (sys_newuname name) s = (0, s') ->
  let u := utsname s in let M := mem s' in
  let r := if uname26 then take 64 release26 ++ [0] else [] in
  let a := if per_linux32 then COMPAT_UTS_MACHINE else [] in
  read_bytes M name 65 = sysname u /\ read_bytes M (name + 65) 65 = nodename u /\
  read_bytes M (name + OFF_RELEASE) 65 = r ++ drop (length r) (release u) /\
  read_bytes M (name + 195) 65 = version u /\
  read_bytes M (name + OFF_MACHINE) 65 = a ++ drop (length a) (machine u) /\
  read_bytes M (name + 325) 65 = domainname u.
Proof.
  intros Hok Hc E u M r a. subst M. rewrite (newuname_mem _ _ _ E).
  assert (length r <= 65)%nat as Hr.
  { subst r. case_match; [|simpl; lia]. rewrite length_app, length_take. change (length [0]) with 1%nat. lia. }
  assert (length a <= 65)%nat as Ha by (subst a; case_match; [done|simpl; lia]).
  destruct (bytes_new_fields (mem s) name s Hok) as (F1 & F2 & F3 & F4 & F5 & F6).
  set (m0 := write_bytes (mem s) name (bytes_new (utsname s))) in *.
  replace (if uname26 then _ else m0) with (write_bytes m0 (name + OFF_RELEASE) r)
    by (subst r; by destruct uname26).
  set (m1 := write_bytes m0 (name + OFF_RELEASE) r).
  replace (if per_linux32 then _ else m1) with (write_bytes m1 (name + OFF_MACHINE) a)
    by (subst a; by destruct per_linux32).
  subst m1. split_and!.
  all: first [rewrite (read_write_out _ (name + OFF_MACHINE)) by lia
             |rewrite (read_write_over _ (name + OFF_MACHINE)) by lia].
  all: first [rewrite (read_write_out _ (name + OFF_RELEASE)) by lia
             |rewrite (read_write_over _ (name + OFF_RELEASE)) by lia].
  all: by rewrite ?F1, ?F2, ?F3, ?F4, ?F5, ?F6.
Qed.
End uts.

Module Demo.
#[local] Existing Instances root_caps uaccess_ok.
Definition env0 : UtsEnv := {|
  UTS_RELEASE := bytes_of "6.8.0-so2"; LINUX_VERSION_PATCHLEVEL := 8;
  COMPAT_UTS_MACHINE := bytes_of "i686" ++ [0; 0; 0]; uname26 := true; per_linux32 := true;
  uts_user_ns := 0 |}.
#[local] Existing Instance env0.
Definition names0 : new_utsname := Utsname (set_field (bytes_of "Linux SO2_202003745"))
  (set_field (bytes_of "(none)")) (set_field (bytes_of "6.8.0-so2")) (set_field (bytes_of "#1"))
  (set_field (bytes_of "x86_64")) (set_field (bytes_of "(none)")).
Definition s0 : ustate := UState names0 (write_bytes ∅ 1000 (bytes_of "maquina")).

Lemma names0_ok : uts_ok s0.
Proof. split; apply set_field_ok; vm_compute; lia. Qed.

Lemma names_stay_terminated_witness :
  hostname_len 100 (utsname (run_all exec_uts [Sethostname 1000 7; Newuname 5000] s0)) <= 65.
Proof. exact (proj2 (names_stay_terminated [Sethostname 1000 7; Newuname 5000] s0 100 names0_ok)). Defined.

Lemma sethostname_gethostname_witness :
  let s1 := (run (sys_sethostname 1000 7) s0).2 in
  let s2 := (run (sys_gethostname 2000 20) s1).2 in
  read_bytes (mem s2) 2000 8 = bytes_of "maquina" ++ [0].
Proof.
  eapply (sethostname_gethostname 1000 7 2000 20 s0);
    [vm_compute; repeat constructor; done|vm_compute; reflexivity|lia|vm_compute; reflexivity].
Defined.

Lemma newuname_stores_names_witness :
  let s' := (run (sys_newuname 5000) s0).2 in
  take 11 (read_bytes (mem s') (5000 + OFF_RELEASE) 65) = bytes_of "2.6.68-so2" ++ [0].
Proof.
  intros s'. destruct (newuname_stores_names 5000 s0 s' names0_ok) as (_ & _ & -> & _).
  - vm_compute. lia.
  - vm_compute. reflexivity.
  - vm_compute. reflexivity.
Defined.
End Demo.
