(* ===== verification/Rusage.v ===== *)
(** * Resource accounting: [times], [getrusage], [umask]

    sys.c 1055-1104 and 1785-1945.  [getrusage] samples counters that other
    CPUs change, under a sequence lock: the first attempt reads without the
    lock, and a second one runs under it when a writer interfered.  A sample
    of the shared counters is a [sigview]; the two attempts get one each. *)
From S2P Require Import Prelude.

(** Event counters of a thread, of the dead threads of a group, or of its
    reaped children. *)
Record counters := Counters {
  nvcsw : Z; nivcsw : Z; min_flt : Z; maj_flt : Z; inblock : Z; oublock : Z;
}.
Record sigview := SigView {
  own : counters;              (** dead threads of the group *)
  maxrss : Z;
  children : counters;         (** [c*] fields: reaped children *)
  cmaxrss : Z; cutime : Z; cstime : Z;
  threads : list counters;     (** live threads, in [__for_each_thread] order *)
}.
Record rusage := Rusage {
  ru_utime : Z * Z; ru_stime : Z * Z; ru_maxrss : Z;
  ru_minflt : Z; ru_majflt : Z; ru_inblock : Z; ru_oublock : Z; ru_nvcsw : Z; ru_nivcsw : Z;
}.

Abbreviation RUSAGE_SELF := 0 (only parsing).
Abbreviation RUSAGE_CHILDREN := (-1) (only parsing).
Abbreviation RUSAGE_BOTH := (-2) (only parsing).
Abbreviation RUSAGE_THREAD := 1 (only parsing).
Abbreviation PAGE_KB := 4 (only parsing).             (** PAGE_SIZE / 1024 *)

(** Time keeping and address spaces. *)
Class RusageEnv := {
  task_cputime_adjusted : Z * Z;               (** of the calling thread *)
  thread_group_cputime_adjusted : Z * Z;       (** of its group *)
  mm_hiwater_rss : option Z;                   (** [None] when the task has no mm *)
  ns_to_kernel_old_timeval : Z -> Z * Z;
  nsec_to_clock_t : Z -> Z;
  jiffies_64 : Z;
  jiffies_64_to_clock_t : Z -> Z;
  clock_t_to_jiffies : Z -> Z;
  compat_jiffies_to_clock_t : Z -> Z;
  (** stores the 32-bit layout; result and memory after *)
  put_compat_rusage : rusage -> Z -> gmap Z rusage -> Z * gmap Z rusage;
}.

(** The six counters of [struct rusage]: signed 64-bit. *)
Definition czero : counters := Counters 0 0 0 0 0 0.
Definition cadd (r t : counters) : counters :=
  Counters (s64 (nvcsw r + nvcsw t)) (s64 (nivcsw r + nivcsw t)) (s64 (min_flt r + min_flt t))
    (s64 (maj_flt r + maj_flt t)) (s64 (inblock r + inblock t)) (s64 (oublock r + oublock t)).
(** Assignment of unsigned counters to the signed fields. *)
Definition cset (t : counters) : counters :=
  Counters (s64 (nvcsw t)) (s64 (nivcsw t)) (s64 (min_flt t)) (s64 (maj_flt t))
    (s64 (inblock t)) (s64 (oublock t)).

Definition accumulate_thread_rusage (t : counters) (r : counters) : counters := cadd r t.

(** One sampling attempt: the switch on [who]; [None] is BUG(). *)
Record sample := Sample { sm_utime : Z; sm_stime : Z; sm_maxrss : Z; sm_ru : counters }.

Definition sample_children (sig : sigview) : sample :=
  Sample (cutime sig) (cstime sig) (cmaxrss sig) (cset (children sig)).
Definition sample_self (sig : sigview) (a : sample) : sample :=
  Sample (sm_utime a) (sm_stime a)
    (if sm_maxrss a <? maxrss sig then maxrss sig else sm_maxrss a)
    (foldl (fun r t => accumulate_thread_rusage t r) (cadd (sm_ru a) (own sig)) (threads sig)).
Definition sample_who (who : Z) (sig : sigview) : option sample :=
  if who =? RUSAGE_BOTH then Some (sample_self sig (sample_children sig))
  else if who =? RUSAGE_CHILDREN then Some (sample_children sig)
  else if who =? RUSAGE_SELF then Some (sample_self sig (Sample 0 0 0 czero))
  else None.

Section rusage.
Context {ua : UAccess} {renv : RusageEnv}.

(** The end of the function, from [out_thread] and from [out_children]. *)
Definition finish (utime stime maxrss : Z) (r : counters) : rusage :=
  Rusage (ns_to_kernel_old_timeval utime) (ns_to_kernel_old_timeval stime)
    (s64 (u64 (maxrss * PAGE_KB)))
    (min_flt r) (maj_flt r) (inblock r) (oublock r) (nvcsw r) (nivcsw r).
Definition setmax_hiwater (maxrss : Z) : Z :=
  match mm_hiwater_rss with Some h => if maxrss <? h then h else maxrss | None => maxrss end.

(** [self] holds the counters of [p] itself; [first] is what the lockless
    attempt reads, [retry] whether a writer interfered with it, [locked] what
    the attempt under the lock reads. *)
Definition getrusage (who : Z) (self : counters) (first : sigview) (retry : bool)
    (locked : sigview) : option rusage :=
  if who =? RUSAGE_THREAD then
    let '(ut, st) := task_cputime_adjusted in
    Some (finish ut st (setmax_hiwater (maxrss first)) (accumulate_thread_rusage self czero))
  else
    match sample_who who first with
    | None => None
    | Some a0 =>
        match (if retry then sample_who who locked else Some a0) with
        | None => None
        | Some a =>
            if who =? RUSAGE_CHILDREN then
              Some (finish (sm_utime a) (sm_stime a) (sm_maxrss a) (sm_ru a))
            else
              let '(tgu, tgs) := thread_group_cputime_adjusted in
              Some (finish (u64 (sm_utime a + tgu)) (u64 (sm_stime a + tgs))
                      (setmax_hiwater (sm_maxrss a)) (sm_ru a))
        end
    end.

Record astate := AState { aself : counters; afirst : sigview; aretry : bool; alocked : sigview;
                          amem : gmap Z rusage; umask_ : Z; tmem : gmap Z (list Z) }.

(** [BUG()] is out of reach of the system calls: they check [who] first. *)
Definition sys_getrusage (who ru : Z) : sys astate Z :=
  do* fail_if (negb (who =? RUSAGE_SELF) && negb (who =? RUSAGE_CHILDREN) &&
               negb (who =? RUSAGE_THREAD)) (- EINVAL) in
  let* s := sgets (fun s => s) in
  let* r := some_or (getrusage who (aself s) (afirst s) (aretry s) (alocked s)) 0 in
  let '(rest, m) := copy_to_user (amem s) ru r 144 in
  do* smodify (fun s => AState (aself s) (afirst s) (aretry s) (alocked s) m (umask_ s) (tmem s)) in
  sret (if negb (rest =? 0) then - EFAULT else 0).

Definition compat_sys_getrusage (who ru : Z) : sys astate Z :=
  do* fail_if (negb (who =? RUSAGE_SELF) && negb (who =? RUSAGE_CHILDREN) &&
               negb (who =? RUSAGE_THREAD)) (- EINVAL) in
  let* s := sgets (fun s => s) in
  let* r := some_or (getrusage who (aself s) (afirst s) (aretry s) (alocked s)) 0 in
  let '(err, m) := put_compat_rusage r ru (amem s) in
  do* smodify (fun s => AState (aself s) (afirst s) (aretry s) (alocked s) m (umask_ s) (tmem s)) in
  sret err.

(** [struct tms]: user, system, children's user and system time, in ticks. *)
Definition do_sys_times (sig : sigview) : list Z :=
  let '(tgutime, tgstime) := thread_group_cputime_adjusted in
  nsec_to_clock_t <$> [tgutime; tgstime; cutime sig; cstime sig].

Definition store_tms (tbuf : Z) (tmp : list Z) (size : Z) : sys astate unit :=
  let* m := sgets tmem in
  let '(rest, m') := copy_to_user m tbuf tmp size in
  do* smodify (fun s => AState (aself s) (afirst s) (aretry s) (alocked s) (amem s) (umask_ s) m') in
  fail_if (negb (rest =? 0)) (- EFAULT).

Definition sys_times (tbuf : Z) : sys astate Z :=
  let* sig := sgets afirst in
  do* (if negb (tbuf =? 0) then store_tms tbuf (do_sys_times sig) 32 else sret tt) in
  sret (s64 (jiffies_64_to_clock_t jiffies_64)).

Definition clock_t_to_compat_clock_t (x : Z) : Z := compat_jiffies_to_clock_t (clock_t_to_jiffies x).

Definition compat_sys_times (tbuf : Z) : sys astate Z :=
  let* sig := sgets afirst in
  do* (if negb (tbuf =? 0)
       then store_tms tbuf (clock_t_to_compat_clock_t <$> do_sys_times sig) 16 else sret tt) in
  sret (compat_jiffies_to_clock_t (u64 jiffies_64)).

Definition sys_umask (mask : Z) : sys astate Z :=
  let* old := sgets umask_ in
  do* smodify (fun s => AState (aself s) (afirst s) (aretry s) (alocked s) (amem s) (Z.land mask 511) (tmem s)) in
  sret old.

(** ** Properties *)

(** Sum of one counter over the live threads. *)
Definition total (f : counters -> Z) (ts : list counters) : Z := foldr (fun t acc => f t + acc) 0 ts.

(** The six fields behave alike: each is a projection [cadd] adds by. *)
Definition additive (f : counters -> Z) : Prop :=
  (forall r t, f (cadd r t) = s64 (f r + f t)) /\ (forall t, f (cset t) = s64 (f t)) /\ f czero = 0.
Lemma fields_additive :
  Forall additive [nvcsw; nivcsw; min_flt; maj_flt; inblock; oublock].
Proof. repeat constructor. Qed.

Lemma foldl_additive f ts r : additive f -> (exists x, f r = s64 x) ->
  f (foldl (fun r t => accumulate_thread_rusage t r) r ts) = s64 (f r + total f ts).
Proof.
  intros [Ha _]. revert r. induction ts as [|t ts IH]; intros r [x Hx]; simpl.
  - by rewrite Z.add_0_r, Hx, s64_idem.
  - unfold accumulate_thread_rusage at 2. rewrite IH; [|eauto].
    rewrite !Ha, s64_add_l. f_equal. lia.
Qed.
Lemma sample_self_field f sig a : additive f ->
  f (sm_ru (sample_self sig a)) = s64 (f (sm_ru a) + f (own sig) + total f (threads sig)).
Proof.
  intros Hf. simpl. rewrite foldl_additive; [|done|destruct Hf as [-> _]; eauto].
  destruct Hf as [-> _]. by rewrite s64_add_l.
Qed.

(** The counter totals a request is about, over a consistent sample. *)
Definition spec_counter (f : counters -> Z) (who : Z) (sig : sigview) : Z :=
  s64 ((if (who =? RUSAGE_BOTH) || (who =? RUSAGE_CHILDREN) then f (children sig) else 0) +
       (if (who =? RUSAGE_BOTH) || (who =? RUSAGE_SELF) then f (own sig) + total f (threads sig) else 0)).

Lemma sample_who_field f who sig a : additive f ->
  sample_who who sig = Some a -> f (sm_ru a) = spec_counter f who sig.
Proof.
  intros Hf. unfold sample_who, spec_counter.
  destruct (Z.eqb_spec who RUSAGE_BOTH) as [->|]; [intros [= <-]|
    destruct (Z.eqb_spec who RUSAGE_CHILDREN) as [->|]; [intros [= <-]|
    destruct (Z.eqb_spec who RUSAGE_SELF) as [->|]; [intros [= <-]|done]]].
  - rewrite sample_self_field by done. simpl. destruct Hf as (_ & -> & _).
    rewrite <- Z.add_assoc, s64_add_l. f_equal; lia.
  - simpl. destruct Hf as (_ & -> & _). f_equal. lia.
  - rewrite sample_self_field by done. simpl. destruct Hf as (_ & _ & ->). done.
Qed.

Definition ru_counters (r : rusage) : counters :=
  Counters (ru_nvcsw r) (ru_nivcsw r) (ru_minflt r) (ru_majflt r) (ru_inblock r) (ru_oublock r).
Lemma finish_counters u s m r : ru_counters (finish u s m r) = r.
Proof. by destruct r. Qed.

(** If the sequence lock keeps its promise, a sample taken without
    interference or under the lock being the true one, then [getrusage] for a
    group, its children or both reports for each counter the sum over the
    children asked for, the dead threads and every live thread, modulo the
    width of the field. *)
Theorem getrusage_sums_consistent_sample who self first retry locked truth r :
  who <> RUSAGE_THREAD -> (retry = false -> first = truth) -> (retry = true -> locked = truth) ->
  getrusage who self first retry locked = Some r ->
  Forall (fun f => f (ru_counters r) = spec_counter f who truth)
    [nvcsw; nivcsw; min_flt; maj_flt; inblock; oublock].
Proof.
  intros Hw Hfirst Hlocked E.
  assert (exists a, sample_who who truth = Some a /\ ru_counters r = sm_ru a) as (a & Ha & ->).
  { unfold getrusage in E. replace (who =? RUSAGE_THREAD) with false in E by lia.
    destruct (sample_who who first) as [a0|] eqn:E0; [|done].
    destruct retry.
    - rewrite (Hlocked eq_refl) in E. destruct (sample_who who truth) as [a|]; [|done].
      exists a. split; [done|]. destruct (who =? _); simplify_eq/=; [apply finish_counters|].
      destruct thread_group_cputime_adjusted. simplify_eq. apply finish_counters.
    - rewrite <- (Hfirst eq_refl). exists a0. split; [done|].
      destruct (who =? _); simplify_eq/=; [apply finish_counters|].
      destruct thread_group_cputime_adjusted. simplify_eq. apply finish_counters. }
  eapply Forall_impl; [apply fields_additive|]. intros f Hf. by apply sample_who_field.
Qed.

(** [getrusage(2)] with a supported [who] always finds a sample (the
    BUG() of the switch is unreachable from it), and its result says whether
    the structure was stored; another [who] is refused with nothing stored. *)
Theorem getrusage_never_bugs who ru s :
  (who ∈ [RUSAGE_SELF; RUSAGE_CHILDREN; RUSAGE_THREAD] ->
   exists r, getrusage who (aself s) (afirst s) (aretry s) (alocked s) = Some r /\
     let '(res, s') := run (sys_getrusage who ru) s in
     if uncopied ru 144 =? 0 then res = 0 /\ amem s' !! ru = Some r else res = - EFAULT) /\
  (who ∉ [RUSAGE_SELF; RUSAGE_CHILDREN; RUSAGE_THREAD] ->
   run (sys_getrusage who ru) s = (- EINVAL, s)).
Proof.
  split; intros Hw.
  - assert (exists r, getrusage who (aself s) (afirst s) (aretry s) (alocked s) = Some r) as [r Hr].
    { unfold getrusage. destruct task_cputime_adjusted, thread_group_cputime_adjusted.
      rewrite !elem_of_cons, elem_of_nil in Hw. destruct Hw as [->|[->|[->|[]]]]; simpl; eauto;
      destruct (aretry s); simpl; eauto. }
    exists r. split; [done|]. unfold sys_getrusage.
    assert (negb (who =? RUSAGE_SELF) && negb (who =? RUSAGE_CHILDREN) && negb (who =? RUSAGE_THREAD) = false) as ->.
    { rewrite !elem_of_cons, elem_of_nil in Hw. lia. }
    autounfold with sys_unfold. cbv beta iota. rewrite Hr. unfold copy_to_user.
    destruct (uncopied ru 144 =? 0); simpl; [|done]. by rewrite lookup_insert_eq.
  - unfold sys_getrusage.
    assert (negb (who =? RUSAGE_SELF) && negb (who =? RUSAGE_CHILDREN) && negb (who =? RUSAGE_THREAD) = true) as ->.
    { rewrite !elem_of_cons, elem_of_nil in Hw. lia. }
    done.
Qed.
End rusage.

Module Demo.
#[local] Existing Instance uaccess_ok.
Definition env0 : RusageEnv := {|
  task_cputime_adjusted := (5, 6); thread_group_cputime_adjusted := (50, 60);
  mm_hiwater_rss := Some 40; ns_to_kernel_old_timeval n := (n / 1000000000, n / 1000 mod 1000000);
  nsec_to_clock_t n := n / 10000000; jiffies_64 := 4000; jiffies_64_to_clock_t j := j;
  clock_t_to_jiffies j := j; compat_jiffies_to_clock_t := u32; put_compat_rusage r a m := (0, m) |}.
#[local] Existing Instance env0.
Definition c (n : Z) : counters := Counters n n n n n n.
Definition view (n : Z) : sigview := SigView (c 1) 30 (c n) 20 7 8 [c 10; c 11].

Lemma getrusage_sums_consistent_sample_witness :
  option_map ru_nvcsw (getrusage RUSAGE_BOTH (c 10) (view 999) true (view 100)) = Some 122.
Proof.
  destruct (getrusage RUSAGE_BOTH (c 10) (view 999) true (view 100)) as [r|] eqn:E; [|by vm_compute in E].
  assert (forall r', nvcsw (ru_counters r') = ru_nvcsw r') as Hr by done.
  pose proof (getrusage_sums_consistent_sample RUSAGE_BOTH (c 10) (view 999) true (view 100) (view 100) r
    ltac:(lia) ltac:(done) ltac:(done) E) as H.
  apply Forall_inv in H. simpl in *. by rewrite H.
Defined.

Definition st0 : astate := AState (c 10) (view 3) false (view 3) ∅ 18 ∅.
Lemma getrusage_never_bugs_witness :
  exists r, getrusage RUSAGE_SELF (c 10) (view 3) false (view 3) = Some r /\
    amem (run (sys_getrusage RUSAGE_SELF 4096) st0).2 !! 4096 = Some r.
Proof.
  destruct (proj1 (getrusage_never_bugs RUSAGE_SELF 4096 st0)) as (r & Hr & H); [set_solver|].
  exists r. split; [exact Hr|]. exact (proj2 H).
Defined.
End Demo.
