(* ===== verification/PrctlMm.v ===== *)
(** * [prctl(PR_SET_MM)]: moving the boundaries of an address space

    sys.c 1948-2318.  [mmap] holds the eleven addresses of [mm_struct] that
    the calls set, in the order of [struct prctl_mm_map]; [saved_auxv] is the
    auxiliary vector byte by byte. *)
From S2P Require Import Prelude Task UMem.

Record mmap := Mmap {
  start_code : Z; end_code : Z; start_data : Z; end_data : Z; start_brk : Z; brk : Z;
  start_stack : Z; arg_start : Z; arg_end : Z; env_start : Z; env_end : Z;
}.
Record prctl_mm_map := PrctlMap { addrs : mmap; auxv : Z; auxv_size : Z; exe_fd : Z }.
Record mm_struct := Mm { layout : mmap; saved_auxv : list Z; exe_file : Z; umem_ : umem }.

#[global] Instance mmap_eq_dec : EqDecision mmap.
Proof. solve_decision. Defined.

Abbreviation PR_SET_MM_START_CODE := 1 (only parsing).
Abbreviation PR_SET_MM_END_CODE := 2 (only parsing).
Abbreviation PR_SET_MM_START_DATA := 3 (only parsing).
Abbreviation PR_SET_MM_END_DATA := 4 (only parsing).
Abbreviation PR_SET_MM_START_STACK := 5 (only parsing).
Abbreviation PR_SET_MM_START_BRK := 6 (only parsing).
Abbreviation PR_SET_MM_BRK := 7 (only parsing).
Abbreviation PR_SET_MM_ARG_START := 8 (only parsing).
Abbreviation PR_SET_MM_ARG_END := 9 (only parsing).
Abbreviation PR_SET_MM_ENV_START := 10 (only parsing).
Abbreviation PR_SET_MM_ENV_END := 11 (only parsing).
Abbreviation PR_SET_MM_AUXV := 12 (only parsing).
Abbreviation PR_SET_MM_EXE_FILE := 13 (only parsing).
Abbreviation PR_SET_MM_MAP := 14 (only parsing).
Abbreviation PR_SET_MM_MAP_SIZE := 15 (only parsing).
Abbreviation SIZEOF_MAP := 104 (only parsing).        (** sizeof(struct prctl_mm_map) *)

(** Memory management and files around these calls. *)
Class MmEnv := {
  TASK_SIZE : Z;
  mmap_min_addr : Z;
  SIZEOF_AUXV : nat;                                (** sizeof(mm->saved_auxv) *)
  (** [check_data_rlimit(rlimit(RLIMIT_DATA), brk, start_brk, end_data, start_data)] *)
  check_data_rlimit : Z -> Z -> Z -> Z -> Z;
  find_vma : Z -> bool;
  checkpoint_restore_ns_capable : bool;
  fget : Z -> option Z;                             (** file of a descriptor *)
  is_reg_exec : Z -> bool;                          (** regular file, on a mount that allows exec *)
  file_permission_exec : Z -> Z;
  replace_mm_exe_file : Z -> Z;                     (** 0, or the reason it is refused *)
}.
(** The vector holds at least its terminating AT_NULL entry. *)
Class MmEnvLaws `{MmEnv} := { auxv_has_null : (16 <= SIZEOF_AUXV)%nat }.

(** Little-endian integers in memory. *)
Fixpoint le (l : list Z) : Z := match l with [] => 0 | b :: l' => b + 256 * le l' end.
Definition u64_at (m : umem) (a : Z) : Z := le (read_bytes m a 8).
Definition u32_at (m : umem) (a : Z) : Z := le (read_bytes m a 4).
Definition le32 (x : Z) : list Z := [x mod 256; x / 256 mod 256; x / 65536 mod 256; x / 16777216 mod 256].

Definition load_map (m : umem) (a : Z) : prctl_mm_map :=
  PrctlMap (Mmap (u64_at m a) (u64_at m (a + 8)) (u64_at m (a + 16)) (u64_at m (a + 24))
    (u64_at m (a + 32)) (u64_at m (a + 40)) (u64_at m (a + 48)) (u64_at m (a + 56))
    (u64_at m (a + 64)) (u64_at m (a + 72)) (u64_at m (a + 80)))
    (u64_at m (a + 88)) (u32_at m (a + 96)) (u32_at m (a + 100)).

(** The members the [offsets] table names. *)
Definition members (p : mmap) : list Z :=
  [start_code p; end_code p; start_data p; end_data p; start_brk p; brk p;
   start_stack p; arg_start p; arg_end p; env_start p; env_end p].

(** memcpy of [l] over the start of [old] *)
Definition overwrite (l old : list Z) : list Z := l ++ drop (length l) old.
Arguments load_map : simpl never.

Section mm.
Context {caps : Caps} {ua : UAccess} {menv : MmEnv}.

Definition prctl_set_mm_exe_file (fd : Z) : sys mm_struct Z :=
  let* f := some_or (fget fd) (- EBADF) in
  do* fail_if (negb (is_reg_exec f)) (- EACCES) in
  let err := file_permission_exec f in
  do* fail_if (negb (err =? 0)) err in
  let err := replace_mm_exe_file f in
  do* fail_if (negb (err =? 0)) err in
  do* smodify (fun m => Mm (layout m) (saved_auxv m) f (umem_ m)) in
  sret 0.

Definition check_order (ok : bool) : Z := if ok then 0 else - EINVAL.

Definition validate_prctl_map_addr (p : mmap) : Z :=
  if existsb (fun val => (TASK_SIZE <=? val) || (val <? mmap_min_addr)) (members p) then - EINVAL
  else
    let error := check_order (start_code p <? end_code p) in
    let error := Z.lor error (check_order (start_data p <=? end_data p)) in
    let error := Z.lor error (check_order (start_brk p <=? brk p)) in
    let error := Z.lor error (check_order (arg_start p <=? arg_end p)) in
    let error := Z.lor error (check_order (env_start p <=? env_end p)) in
    if negb (error =? 0) then error
    else if negb (check_data_rlimit (brk p) (start_brk p) (end_data p) (start_data p) =? 0) then - EINVAL
    else 0.

(** [user_auxv]: zeroed, the user's bytes, the last entry AT_NULL. *)
Definition user_auxv (l : list Z) : list Z :=
  take (SIZEOF_AUXV - 16) (l ++ replicate (SIZEOF_AUXV - length l) 0) ++ replicate 16 0.

Definition prctl_set_mm_map (opt addr data_size : Z) : sys mm_struct Z :=
  if opt =? PR_SET_MM_MAP_SIZE then
    let* m := sgets (fun m => m) in
    let '(rest, um) := put_bytes (umem_ m) addr (le32 SIZEOF_MAP) in
    do* smodify (fun m => Mm (layout m) (saved_auxv m) (exe_file m) um) in
    sret (if rest =? 0 then 0 else - EFAULT)
  else
  do* fail_if (negb (data_size =? SIZEOF_MAP)) (- EINVAL) in
  let* m := sgets (fun m => m) in
  do* fail_if (negb (uncopied addr SIZEOF_MAP =? 0)) (- EFAULT) in
  let map := load_map (umem_ m) addr in
  let error := validate_prctl_map_addr (addrs map) in
  do* fail_if (negb (error =? 0)) error in
  let* uauxv := (if negb (auxv_size map =? 0) then
      do* fail_if ((auxv map =? 0) || (Z.of_nat SIZEOF_AUXV <? auxv_size map)) (- EINVAL) in
      let '(rest, l) := get_bytes (umem_ m) (auxv map) (auxv_size map) in
      do* fail_if (negb (rest =? 0)) (- EFAULT) in
      sret (user_auxv l)
    else sret []) in
  do* (if negb (exe_fd map =? U32_MAX) then
         do* fail_if (negb checkpoint_restore_ns_capable) (- EPERM) in
         let* error := prctl_set_mm_exe_file (exe_fd map) in
         fail_if (negb (error =? 0)) error
       else sret tt) in
  do* smodify (fun m => Mm (addrs map) (saved_auxv m) (exe_file m) (umem_ m)) in
  do* (if negb (auxv_size map =? 0)
       then smodify (fun m => Mm (layout m) uauxv (exe_file m) (umem_ m)) else sret tt) in
  sret 0.

Definition prctl_set_auxv (addr len : Z) : sys mm_struct Z :=
  do* fail_if (Z.of_nat SIZEOF_AUXV <? len) (- EINVAL) in
  let* m := sgets (fun m => m) in
  let '(rest, l) := get_bytes (umem_ m) addr len in
  do* fail_if (negb (rest =? 0)) (- EFAULT) in
  do* smodify (fun m => Mm (layout m)
       (overwrite (take (Z.to_nat len) (user_auxv l)) (saved_auxv m)) (exe_file m) (umem_ m)) in
  sret 0.

(** The switch that stores [addr]; [None] is its default case. *)
Definition set_member (opt addr : Z) (p : mmap) : option mmap :=
  let 'Mmap sc ec sd ed sb b ss as_ ae es ee := p in
  if opt =? PR_SET_MM_START_CODE then Some (Mmap addr ec sd ed sb b ss as_ ae es ee)
  else if opt =? PR_SET_MM_END_CODE then Some (Mmap sc addr sd ed sb b ss as_ ae es ee)
  else if opt =? PR_SET_MM_START_DATA then Some (Mmap sc ec addr ed sb b ss as_ ae es ee)
  else if opt =? PR_SET_MM_END_DATA then Some (Mmap sc ec sd addr sb b ss as_ ae es ee)
  else if opt =? PR_SET_MM_START_STACK then Some (Mmap sc ec sd ed sb b addr as_ ae es ee)
  else if opt =? PR_SET_MM_START_BRK then Some (Mmap sc ec sd ed addr b ss as_ ae es ee)
  else if opt =? PR_SET_MM_BRK then Some (Mmap sc ec sd ed sb addr ss as_ ae es ee)
  else if opt =? PR_SET_MM_ARG_START then Some (Mmap sc ec sd ed sb b ss addr ae es ee)
  else if opt =? PR_SET_MM_ARG_END then Some (Mmap sc ec sd ed sb b ss as_ addr es ee)
  else if opt =? PR_SET_MM_ENV_START then Some (Mmap sc ec sd ed sb b ss as_ ae addr ee)
  else if opt =? PR_SET_MM_ENV_END then Some (Mmap sc ec sd ed sb b ss as_ ae es addr)
  else None.

(** The options for which an address without a mapping is refused. *)
Definition needs_vma (opt : Z) : bool :=
  (opt =? PR_SET_MM_START_STACK) || (opt =? PR_SET_MM_ARG_START) || (opt =? PR_SET_MM_ARG_END)
  || (opt =? PR_SET_MM_ENV_START) || (opt =? PR_SET_MM_ENV_END).

Definition prctl_set_mm (opt addr arg4 arg5 : Z) : sys mm_struct Z :=
  do* fail_if (negb (arg5 =? 0) || (negb (arg4 =? 0) && negb (opt =? PR_SET_MM_AUXV) &&
        negb (opt =? PR_SET_MM_MAP) && negb (opt =? PR_SET_MM_MAP_SIZE))) (- EINVAL) in
  if (opt =? PR_SET_MM_MAP) || (opt =? PR_SET_MM_MAP_SIZE) then prctl_set_mm_map opt addr arg4 else
  do* fail_if (negb (capable CAP_SYS_RESOURCE)) (- EPERM) in
  if opt =? PR_SET_MM_EXE_FILE then prctl_set_mm_exe_file (u32 addr) else
  if opt =? PR_SET_MM_AUXV then prctl_set_auxv addr arg4 else
  do* fail_if ((TASK_SIZE <=? addr) || (addr <? mmap_min_addr)) (- EINVAL) in
  let vma := find_vma addr in
  let* m := sgets (fun m => m) in
  let* map := some_or (set_member opt addr (layout m)) (- EINVAL) in
  let error := validate_prctl_map_addr map in
  do* fail_if (negb (error =? 0)) error in
  do* fail_if (needs_vma opt && negb vma) (- EFAULT) in
  do* smodify (fun m => Mm map (saved_auxv m) (exe_file m) (umem_ m)) in
  sret 0.

(** ** Properties *)

(** What the comments of [validate_prctl_map_addr] ask of an address space. *)
Record layout_ok (p : mmap) : Prop := {
  lo_range : Forall (fun v => mmap_min_addr <= v < TASK_SIZE) (members p);
  lo_code : start_code p < end_code p;
  lo_data : start_data p <= end_data p;
  lo_brk : start_brk p <= brk p;
  lo_arg : arg_start p <= arg_end p;
  lo_env : env_start p <= env_end p;
  lo_rlimit : check_data_rlimit (brk p) (start_brk p) (end_data p) (start_data p) = 0;
}.

Lemma check_order_0 b : check_order b = 0 <-> b = true.
Proof. by destruct b. Qed.

Lemma validate_spec p : validate_prctl_map_addr p = 0 <-> layout_ok p.
Proof.
  unfold validate_prctl_map_addr. destruct (existsb _ _) eqn:Hx.
  - split; [done|]. intros [Hr _ _ _ _ _ _]. apply existsb_exists in Hx as (v & Hv & Hb).
    rewrite Forall_forall in Hr. apply list_elem_of_In, Hr in Hv. lia.
  - assert (Forall (fun v => mmap_min_addr <= v < TASK_SIZE) (members p)) as Hr.
    { apply Forall_forall. intros v Hv%list_elem_of_In. apply not_true_iff_false in Hx.
      destruct (decide (mmap_min_addr <= v < TASK_SIZE)); [done|]. destruct Hx.
      apply existsb_exists. exists v. split; [done|lia]. }
    destruct (negb (_ =? 0)) eqn:Ho.
    + split; [lia|]. intros [_ H1 H2 H3 H4 H5 _]. exfalso. apply negb_true_iff, Z.eqb_neq in Ho.
      apply Ho. rewrite !Z.lor_eq_0_iff, !check_order_0. lia.
    + apply negb_false_iff, Z.eqb_eq in Ho. rewrite !Z.lor_eq_0_iff, !check_order_0 in Ho.
      destruct Ho as [[[[? ?] ?] ?] ?]. destruct (negb (check_data_rlimit _ _ _ _ =? 0)) eqn:Hd.
      * split; [done|]. intros [_ _ _ _ _ _ ?]. lia.
      * split; [|done]. intros _. split; done || lia.
Qed.

(** The auxiliary vector has its size and ends in an AT_NULL entry. *)
Definition auxv_ok (l : list Z) : Prop :=
  length l = SIZEOF_AUXV /\ drop (SIZEOF_AUXV - 16) l = replicate 16 0.
Definition mm_ok (m : mm_struct) : Prop := layout_ok (layout m) /\ auxv_ok (saved_auxv m).

Lemma user_auxv_ok `{!MmEnvLaws} l : auxv_ok (user_auxv l).
Proof.
  pose proof auxv_has_null. unfold auxv_ok, user_auxv.
  assert (length (take (SIZEOF_AUXV - 16) (l ++ replicate (SIZEOF_AUXV - length l) 0))
    = (SIZEOF_AUXV - 16)%nat) as Hl.
  { rewrite length_take, length_app, length_replicate. lia. }
  rewrite length_app, Hl, length_replicate. split; [lia|]. by rewrite drop_app_length' by lia.
Qed.
Lemma overwrite_ok l old n : auxv_ok l -> auxv_ok old -> (n <= SIZEOF_AUXV)%nat ->
  auxv_ok (overwrite (take n l) old).
Proof.
  unfold auxv_ok, overwrite. intros [Hl Hz] [Ho Hzo] Hn.
  rewrite length_app, length_take, length_drop. split; [lia|].
  rewrite Hl, Nat.min_l by lia. apply list_eq. intros i. rewrite lookup_drop.
  apply (f_equal (.!! i)) in Hz. apply (f_equal (.!! i)) in Hzo. rewrite lookup_drop in Hz, Hzo.
  destruct (decide (SIZEOF_AUXV - 16 + i < n)%nat).
  - rewrite lookup_app_l by (rewrite length_take; lia). by rewrite lookup_take_lt by lia.
  - rewrite lookup_app_r by (rewrite length_take; lia). rewrite lookup_drop, length_take, Hl.
    rewrite <- Hzo. f_equal. lia.
Qed.

Lemma set_mm_exe_file_outcome fd m o m' : prctl_set_mm_exe_file fd m = (o, m') ->
  (exists e, o = Exit e /\ m' = m) \/
  (o = Val 0 /\ exists f, m' = Mm (layout m) (saved_auxv m) f (umem_ m)).
Proof.
  intros E. unfold prctl_set_mm_exe_file in E. sys_inv E; eauto.
Qed.
End mm.

Section properties.
Context {caps : Caps} {ua : UAccess} {menv : MmEnv} {mlaws : MmEnvLaws}.

(** What a PR_SET_MM_MAP call leaves. *)
Lemma set_mm_map_outcome addr size m o m' :
  prctl_set_mm_map PR_SET_MM_MAP addr size m = (o, m') ->
  (exists e, o = Exit e /\ m' = m) \/
  (o = Val 0 /\ layout m' = addrs (load_map (umem_ m) addr) /\ layout_ok (layout m') /\
   umem_ m' = umem_ m /\ (saved_auxv m' = saved_auxv m \/ auxv_ok (saved_auxv m'))).
Proof.
  unfold prctl_set_mm_map. change (PR_SET_MM_MAP =? PR_SET_MM_MAP_SIZE) with false. cbv iota.
  intros E. sys_inv E; eauto.
  all: assert (layout_ok (addrs (load_map (umem_ m) addr))) as Hok by (apply validate_spec; lia).
  all: try (apply bind_inv in E as [(e & E & ->)|(v & m1 & E & E1)];
    apply set_mm_exe_file_outcome in E as [(e' & ? & ->)|([= ->] & f & ->)]; eauto; try done; sys_inv E1; try done).
  all: right; cbn [layout saved_auxv exe_file umem_]; split_and!; auto using user_auxv_ok.
Qed.

(** Moving one boundary (PR_SET_MM_START_CODE to PR_SET_MM_ENV_END) either
    returns 0, stores the address in that boundary alone, and leaves an
    address space with every address in range, every pair ordered and the
    data limit respected; or fails and changes nothing. *)
Theorem set_mm_moves_one_boundary opt addr m r m' :
  PR_SET_MM_START_CODE <= opt <= PR_SET_MM_ENV_END ->
  run (prctl_set_mm opt addr 0 0) m = (r, m') ->
  (r = 0 /\ set_member opt addr (layout m) = Some (layout m') /\ layout_ok (layout m') /\
   capable CAP_SYS_RESOURCE = true /\
   saved_auxv m' = saved_auxv m /\ exe_file m' = exe_file m /\ umem_ m' = umem_ m) \/
  (r <> 0 /\ m' = m).
Proof.
  intros Hopt E. apply run_inv in E. unfold prctl_set_mm in E.
  replace ((opt =? PR_SET_MM_MAP) || (opt =? PR_SET_MM_MAP_SIZE)) with false in E by lia.
  replace (opt =? PR_SET_MM_EXE_FILE) with false in E by lia.
  replace (opt =? PR_SET_MM_AUXV) with false in E by lia.
  destruct E as [E|E]; sys_inv E; try (right; split; [lia|done]).
  left. split_and!; try done; [apply validate_spec; simpl; lia|by apply negb_false_iff].
Qed.

Lemma prctl_set_auxv_outcome addr len m o m' : 0 <= len ->
  prctl_set_auxv addr len m = (o, m') ->
  (exists e, o = Exit e /\ e <> 0 /\ m' = m) \/
  (o = Val 0 /\ layout m' = layout m /\ (auxv_ok (saved_auxv m) -> auxv_ok (saved_auxv m'))).
Proof.
  intros Hlen E. unfold prctl_set_auxv in E. sys_inv E;
    try (left; eexists; split_and!; [done|lia|done]).
  right. split_and!; [done|done|]. intros Hok. apply overwrite_ok; [apply user_auxv_ok|done|lia].
Qed.

(** C27: over any sequence of PR_SET_MM calls with arguments of 64 bits, the
    address-space layout keeps satisfying the checks of
    [validate_prctl_map_addr] and the auxiliary vector keeps its size and its
    AT_NULL terminator, also when [prctl_set_auxv] replaces only a part. *)
Theorem set_mm_keeps_address_space_valid (cs : list (Z * Z * Z * Z)) m :
  mm_ok m -> Forall (fun c => 0 <= c.1.2) cs ->
  mm_ok (run_all (fun c => let '(opt, addr, arg4, arg5) := c in prctl_set_mm opt addr arg4 arg5) cs m).
Proof.
  revert m. induction cs as [|[[[opt addr] arg4] arg5] cs IH]; intros m Hm Hcs; [done|].
  apply Forall_cons in Hcs as [Hc Hcs]. simpl in Hc. cbn [run_all]. apply IH; [|done].
  destruct (run (prctl_set_mm opt addr arg4 arg5) m) as [r m'] eqn:E. simpl. clear IH Hcs.
  assert (exists o, prctl_set_mm opt addr arg4 arg5 m = (o, m')) as [o E'].
  { apply run_inv in E as [E|E]; eauto. }
  clear E. unfold prctl_set_mm in E'. sys_inv E'; try done.
  - destruct (decide (opt = PR_SET_MM_MAP)) as [->|].
    + apply set_mm_map_outcome in E' as [(e & _ & ->)|(_ & _ & ? & _ & Ha)]; [done|].
      split; [done|]. destruct Ha as [->|]; [apply Hm|done].
    + replace opt with PR_SET_MM_MAP_SIZE in E' by lia. unfold prctl_set_mm_map in E'. simpl in E'.
      sys_inv E'. apply Hm.
  - by apply set_mm_exe_file_outcome in E' as [(e & _ & ->)|(_ & f & ->)].
  - apply prctl_set_auxv_outcome in E' as [(e & _ & _ & ->)|(_ & Hl & Ha)]; [done| |done].
    split; [rewrite Hl; apply Hm|apply Ha, Hm].
  - split; [apply validate_spec; simpl; lia|apply Hm].
Qed.
End properties.

Module Demo.
#[local] Existing Instances root_caps uaccess_ok.
Definition env0 : MmEnv := {|
  TASK_SIZE := 140737488351232; mmap_min_addr := 65536; SIZEOF_AUXV := 32;
  check_data_rlimit _ _ _ _ := 0; find_vma a := a <? 200000; checkpoint_restore_ns_capable := true;
  fget fd := if fd =? 3 then Some 77 else None; is_reg_exec _ := true;
  file_permission_exec _ := 0; replace_mm_exe_file _ := 0 |}.
#[local] Existing Instance env0.
#[local] Instance laws0 : MmEnvLaws.
Proof. split. simpl. lia. Qed.
Definition lay0 : mmap := Mmap 70000 80000 80000 90000 90000 95000 150000 160000 161000 161000 162000.
Definition mm0 : mm_struct := Mm lay0 (replicate 32 0) 5 (write_bytes ∅ 1000 (replicate 24 9)).

Lemma mm0_ok : mm_ok mm0.
Proof. split; [apply validate_spec; reflexivity|split; reflexivity]. Qed.

Lemma set_mm_moves_one_boundary_witness :
  let m' := (run (prctl_set_mm PR_SET_MM_BRK 99999 0 0) mm0).2 in
  layout_ok (layout m') /\ brk (layout m') = 99999.
Proof.
  destruct (set_mm_moves_one_boundary PR_SET_MM_BRK 99999 mm0 0
    (run (prctl_set_mm PR_SET_MM_BRK 99999 0 0) mm0).2) as [(_ & _ & H & _)|[H _]];
    [lia|vm_compute; reflexivity| |done].
  split; [exact H|vm_compute; reflexivity].
Defined.

(** A partial vector, an executable, a refused boundary and a moved one. *)
Definition calls0 : list (Z * Z * Z * Z) :=
  [(PR_SET_MM_AUXV, 1000, 24, 0); (PR_SET_MM_EXE_FILE, 3, 0, 0);
   (PR_SET_MM_END_CODE, 66000, 0, 0); (PR_SET_MM_ARG_END, 160500, 0, 0)].
Lemma set_mm_keeps_address_space_valid_witness :
  mm_ok (run_all (fun c => let '(opt, addr, arg4, arg5) := c in prctl_set_mm opt addr arg4 arg5) calls0 mm0).
Proof.
  apply (set_mm_keeps_address_space_valid calls0 mm0 mm0_ok). repeat constructor; simpl; lia.
Defined.
End Demo.
