(* ===== verification/ProcTree.v ===== *)
(** * Walking the process tree

    [walk_process_tree] (fork.c 3211-3241) walks the descendants of a process
    with two nested loops, two gotos and no stack: to go up it finds its place
    again from [real_parent].  It is modelled as the loop it is, one iteration
    at a time, and proved equal to the recursive walk of the tree.  The
    visitor of PR_SET_CHILD_SUBREAPER, sys.c 2335-2351, follows. *)
From S2P Require Import Prelude.

(** Tasks are named by pids, a process by the pid of its leader. *)
Record ptable := PTable {
  threads : Z -> list Z;               (** [for_each_thread(leader, ..)] *)
  kids : Z -> list Z;                  (** [thread->children], leaders of child processes *)
  real_parent : Z -> Z;                (** a thread *)
  group_leader : Z -> Z;
}.

(** The elements after the first occurrence of [x]. *)
Fixpoint after (x : Z) (l : list Z) : list Z :=
  match l with
  | [] => []
  | y :: l' => if y =? x then l' else after x l'
  end.

Section walk.
Context {S : Type}.
Variables (pt : ptable) (visitor : Z -> S -> Z * S) (top : Z).

(** The children the two loops go through for [leader], in order. *)
Definition all_kids (leader : Z) : list Z := threads pt leader ≫= kids pt.
(** What the loops have left when [goto up] re-enters them at [child] of [parent]. *)
Definition resume (leader parent child : Z) : list Z :=
  after child (kids pt parent) ++ (after parent (threads pt leader) ≫= kids pt).

(** Where the walk is: the loops run for [wleader] and still have [wrest] to
    visit. *)
Record wpos := WPos { wleader : Z; wrest : list Z }.
Inductive wstate := Going (pos : wpos) (s : S) | Stopped (s : S).

Definition walk_step (pos : wpos) (s : S) : wstate :=
  match wrest pos with
  | child :: rest =>
      let '(res, s') := visitor child s in
      if negb (res =? 0) then
        if res <? 0 then Stopped s'
        else Going (WPos child (all_kids child)) s'           (* goto down *)
      else Going (WPos (wleader pos) rest) s'
  | [] =>
      if negb (wleader pos =? top) then
        let child := wleader pos in
        let parent := real_parent pt child in
        let leader := group_leader pt parent in
        Going (WPos leader (resume leader parent child)) s    (* goto up *)
      else Stopped s
  end.

(** [fuel] iterations; [None] when they are not enough. *)
Fixpoint walk (fuel : nat) (w : wstate) : option S :=
  match w with
  | Stopped s => Some s
  | Going pos s => match fuel with O => None | Datatypes.S n => walk n (walk_step pos s) end
  end.
Definition walk_process_tree (fuel : nat) (s : S) : option S :=
  walk fuel (Going (WPos top (all_kids top)) s).
End walk.

(** ** The recursive walk *)
Inductive tree := Node (root_ : Z) (sub : list tree).
Definition root (t : tree) : Z := let 'Node p _ := t in p.
Definition sub (t : tree) : list tree := let 'Node _ ts := t in ts.

Section tree_ind.
Variable P : tree -> Prop.
Hypothesis HN : forall p ts, Forall P ts -> P (Node p ts).
Fixpoint tree_ind' (t : tree) : P t :=
  let 'Node p ts := t in
  HN p ts ((fix go ts := match ts return Forall P ts with
            | [] => Forall_nil_2 P
            | t :: ts => Forall_cons_2 P _ _ (tree_ind' t) (go ts)
            end) ts).
End tree_ind.

Fixpoint size (t : tree) : nat := let 'Node _ ts := t in Datatypes.S (sum_list_with size ts).
Fixpoint pids (t : tree) : list Z := let 'Node p ts := t in p :: mjoin (pids <$> ts).

Section spec.
Context {S : Type} (visitor : Z -> S -> Z * S).
(** Visit the subtrees of a process in order: [inr] once the visitor asked to stop. *)
Fixpoint visit (t : tree) (s : S) : S + S :=
  let '(res, s') := visitor (root t) s in
  if negb (res =? 0) then
    if res <? 0 then inr s'
    else (fix go ts s := match ts with
          | [] => inl s
          | t :: ts => match visit t s with inl s => go ts s | inr s => inr s end
          end) (let 'Node _ ts := t in ts) s'
  else inl s'.
Fixpoint visit_list (ts : list tree) (s : S) : S + S :=
  match ts with
  | [] => inl s
  | t :: ts => match visit t s with inl s => visit_list ts s | inr s => inr s end
  end.
Definition walk_spec (t : tree) (s : S) : S :=
  match visit_list (sub t) s with inl s | inr s => s end.

Lemma visit_unfold t s :
  visit t s = let '(res, s') := visitor (root t) s in
    if negb (res =? 0) then if res <? 0 then inr s' else visit_list (sub t) s' else inl s'.
Proof.
  destruct t as [p ts]; cbn -[Z.ltb Z.eqb]. destruct (visitor p s) as [res s'].
  destruct (negb (res =? 0)), (res <? 0); done.
Qed.
End spec.

(** ** The table stores a tree *)
Fixpoint stored (pt : ptable) (t : tree) : Prop :=
  let 'Node p ts := t in
  all_kids pt p = root <$> ts /\ NoDup (threads pt p) /\ NoDup (all_kids pt p) /\
  Forall id ((fun c => group_leader pt (real_parent pt (root c)) = p /\
                       real_parent pt (root c) ∈ threads pt p /\
                       root c ∈ kids pt (real_parent pt (root c))) <$> ts) /\
  Forall id (stored pt <$> ts).

Lemma after_app_notin x l1 l2 : x ∉ l1 -> after x (l1 ++ l2) = after x l2.
Proof.
  induction l1 as [|y l1 IH]; intros Hx; simpl; [done|].
  destruct (Z.eqb_spec y x); [set_solver|]. apply IH. set_solver.
Qed.
Lemma after_split x l1 l2 : x ∉ l1 -> after x (l1 ++ x :: l2) = l2.
Proof. intros. rewrite after_app_notin by done. simpl. by rewrite Z.eqb_refl. Qed.

(** Going up lands behind the child the walk came from. *)
Lemma resume_after (pt : ptable) leader parent child pre post :
  NoDup (threads pt leader) -> NoDup (all_kids pt leader) ->
  parent ∈ threads pt leader -> child ∈ kids pt parent ->
  all_kids pt leader = pre ++ child :: post -> resume pt leader parent child = post.
Proof.
  unfold all_kids, resume. intros Ht Hk Hp Hc Hsplit.
  apply list_elem_of_split in Hp as (t1 & t2 & Hteq). rewrite Hteq in *.
  apply list_elem_of_split in Hc as (k1 & k2 & Hkeq).
  assert (parent ∉ t1) by (apply NoDup_app in Ht; set_solver).
  rewrite after_split by done. rewrite bind_app, bind_cons, Hkeq in Hsplit, Hk.
  assert ((t1 ≫= kids pt) ++ k1 = pre /\ k2 ++ (t2 ≫= kids pt) = post) as [_ <-].
  { rewrite <- app_assoc in Hsplit. simpl in Hsplit. rewrite app_assoc in Hsplit.
    rewrite <- app_assoc in Hk. simpl in Hk. rewrite app_assoc in Hk.
    assert (forall a b c d (x : Z), x ∉ a -> x ∉ c -> a ++ x :: b = c ++ x :: d -> a = c /\ b = d) as Hu.
    { clear. induction a as [|y a IH]; intros b [|z c] d x Ha Hc E; simplify_eq/=; try set_solver.
      destruct (IH b c d x) as [-> ->]; set_solver. }
    eapply Hu; [| |exact Hsplit].
    - apply NoDup_app in Hk. set_solver.
    - rewrite Hsplit in Hk. apply NoDup_app in Hk. set_solver. }
  f_equal. rewrite Hkeq. apply after_split.
  rewrite <- app_assoc in Hk. apply NoDup_app in Hk as (_ & _ & Hk). simpl in Hk.
  apply NoDup_app in Hk. set_solver.
Qed.

Section equivalence.
Context {S : Type}.
Variables (pt : ptable) (visitor : Z -> S -> Z * S) (top : Z).

Lemma walk_stopped n s : walk pt visitor top n (Stopped s) = Some s.
Proof. by destruct n. Qed.

(** The position of a child in the loops of its parent. *)
Record placed (leader : Z) (t : tree) : Prop := {
  pl_up : group_leader pt (real_parent pt (root t)) = leader;
  pl_thread : real_parent pt (root t) ∈ threads pt leader;
  pl_kid : root t ∈ kids pt (real_parent pt (root t));
  pl_nodup : NoDup (threads pt leader) /\ NoDup (all_kids pt leader);
}.

(** From a child, the loop reaches the next one having visited the subtree. *)
Definition walks (t : tree) : Prop := forall leader pre post s,
  all_kids pt leader = pre ++ root t :: post -> placed leader t -> stored pt t -> top ∉ pids t ->
  exists n, (n <= 2 * size t)%nat /\ forall k,
    walk pt visitor top (n + k) (Going (WPos leader (root t :: post)) s) =
    match visit visitor t s with
    | inl s' => walk pt visitor top k (Going (WPos leader post) s')
    | inr s' => Some s'
    end.

Lemma walks_list leader ts pre s :
  Forall walks ts -> all_kids pt leader = pre ++ (root <$> ts) ->
  Forall (placed leader) ts -> Forall (stored pt) ts -> Forall (fun t => top ∉ pids t) ts ->
  exists n, (n <= 2 * sum_list_with size ts)%nat /\ forall k,
    walk pt visitor top (n + k) (Going (WPos leader (root <$> ts)) s) =
    match visit_list visitor ts s with
    | inl s' => walk pt visitor top k (Going (WPos leader []) s')
    | inr s' => Some s'
    end.
Proof.
  revert pre s. induction ts as [|t ts IH]; intros pre s Hw Hk Hp Hs Ht; simpl.
  { exists 0%nat. split; [lia|]. done. }
  apply Forall_cons in Hw as [Hw Hws], Hp as [Hp Hps], Hs as [Hs Hss], Ht as [Ht Hts].
  destruct (Hw leader pre (@fmap list _ _ _ root ts) s Hk Hp Hs Ht) as (n1 & Hn1 & H1).
  destruct (visit visitor t s) as [s1|s1] eqn:E.
  - destruct (IH (pre ++ [root t]) s1) as (n2 & Hn2 & H2); try done.
    { rewrite Hk. simpl. by rewrite <- app_assoc. }
    exists (n1 + n2)%nat. split; [lia|]. intros k. by rewrite <- Nat.add_assoc, H1, H2.
  - exists n1. split; [lia|]. apply H1.
Qed.

Lemma stored_children p ts : stored pt (Node p ts) ->
  all_kids pt p = root <$> ts /\ Forall (placed p) ts /\ Forall (stored pt) ts.
Proof.
  intros (Hk & Hnt & Hnk & Hpl & Hst). split; [done|]. split.
  - rewrite Forall_fmap in Hpl. eapply Forall_impl; [exact Hpl|]. intros c (? & ? & ?). by split.
  - by rewrite Forall_fmap in Hst.
Qed.
Lemma top_children ts : top ∉ mjoin (pids <$> ts) -> Forall (fun t => top ∉ pids t) ts.
Proof.
  intros Ht. apply Forall_forall. intros t Hin Hp. apply Ht, list_elem_of_join.
  exists (pids t). split; [done|]. by apply list_elem_of_fmap_2.
Qed.

Lemma walks_all t : walks t.
Proof.
  induction t as [p ts IH] using tree_ind'.
  intros leader pre post s Hk Hpl Hst Htop.
  apply stored_children in Hst as (Hkp & Hpls & Hsts).
  rewrite visit_unfold. simpl in *. destruct (visitor p s) as [res s'] eqn:E.
  destruct (negb (res =? 0)) eqn:Hr; [destruct (res <? 0) eqn:Hneg|].
  - exists 1%nat. split; [lia|]. intros k. simpl. unfold walk_step; simpl.
    rewrite E, Hr, Hneg. apply walk_stopped.
  - destruct (walks_list p ts [] s') as (n & Hn & H); try done; [by apply top_children; set_solver|].
    exists (1 + n + 1)%nat. split; [lia|]. intros k. simpl. unfold walk_step at 1; simpl.
    rewrite E, Hr, Hneg, <- Nat.add_assoc, Hkp, H.
    destruct (visit_list visitor ts s') as [s2|s2]; [|done]. simpl. unfold walk_step; simpl.
    replace (p =? top) with false by (symmetry; apply Z.eqb_neq; set_solver). simpl.
    destruct Hpl as [Hup Hth Hkid [? ?]]; simpl in *. rewrite Hup.
    by rewrite (resume_after pt leader (real_parent pt p) p pre post).
  - exists 1%nat. split; [lia|]. intros k. simpl. unfold walk_step; simpl. by rewrite E, Hr.
Qed.

Lemma walk_is_dfs t fuel s :
  root t = top -> stored pt t -> top ∉ mjoin (pids <$> sub t) -> (2 * size t + 1 <= fuel)%nat ->
  walk_process_tree pt visitor top fuel s = Some (walk_spec visitor t s).
Proof.
  destruct t as [p ts]. simpl. intros -> Hst Htop Hf.
  apply stored_children in Hst as (Hk & Hpl & Hst).
  destruct (walks_list top ts [] s) as (n & Hn & H); try done.
  { apply Forall_forall. intros. apply walks_all. }
  { by apply top_children. }
  unfold walk_process_tree, walk_spec. simpl. rewrite Hk.
  replace fuel with (n + Datatypes.S (fuel - n - 1))%nat by lia. rewrite H.
  destruct (visit_list visitor ts s); [|done]. simpl. unfold walk_step. simpl.
  rewrite Z.eqb_refl. simpl. apply walk_stopped.
Qed.

(** C10: on a process table that stores a tree, the goto loop of
    [walk_process_tree] terminates after at most two iterations per process
    and one more, and has done exactly what the recursive depth-first walk of
    the tree does, for every visitor. *)
Theorem walk_process_tree_is_dfs t fuel s :
  root t = top -> stored pt t -> top ∉ mjoin (pids <$> sub t) -> (2 * size t + 1 <= fuel)%nat ->
  walk_process_tree pt visitor top fuel s = Some (walk_spec visitor t s).
Proof. apply walk_is_dfs. Qed.
End equivalence.

(** ** PR_SET_CHILD_SUBREAPER *)
Section subreaper.
Variable is_child_reaper : Z -> bool.       (** init of its pid namespace *)

(** [has] is the set of processes with [signal->has_child_subreaper]. *)
Definition propagate_has_child_subreaper (p : Z) (has : gset Z) : Z * gset Z :=
  if bool_decide (p ∈ has) || is_child_reaper p then (0, has) else (1, {[p]} ∪ has).

(** [d] descends from [t] with no namespace init on the way, itself included. *)
Inductive below : tree -> Z -> Prop :=
| below_child t c : c ∈ sub t -> is_child_reaper (root c) = false -> below t (root c)
| below_deep t c d : c ∈ sub t -> is_child_reaper (root c) = false -> below c d -> below t d.

(** The flag is inherited: the comment of the visitor relies on it. *)
Definition inherited (has : gset Z) (t : tree) : Prop := forall d, root t ∈ has -> below t d -> d ∈ has.
Fixpoint all_inherited (has : gset Z) (t : tree) : Prop :=
  inherited has t /\ Forall id (all_inherited has <$> (let 'Node _ ts := t in ts)).

(** What visiting [t] adds to the flagged processes. *)
Definition adds (t : tree) (has has' : gset Z) : Prop :=
  forall x, x ∈ has' <-> x ∈ has \/ (is_child_reaper (root t) = false /\ (x = root t \/ below t x)).

Lemma below_pids t d : below t d -> d ∈ mjoin (pids <$> sub t).
Proof.
  induction 1 as [t c Hc _|t c d Hc _ _ IH]; apply list_elem_of_join; exists (pids c);
    (split; [|by apply list_elem_of_fmap_2]); destruct c; simpl in *; set_solver.
Qed.

Definition visit_ok (t : tree) : Prop := forall has0 has,
  has0 ⊆ has -> (forall x, x ∈ pids t -> x ∈ has -> x ∈ has0) -> all_inherited has0 t -> NoDup (pids t) ->
  exists has', visit propagate_has_child_subreaper t has = inl has' /\ adds t has has'.

Lemma visit_list_ok ts has0 has :
  Forall visit_ok ts -> has0 ⊆ has ->
  (forall x, x ∈ mjoin (pids <$> ts) -> x ∈ has -> x ∈ has0) ->
  Forall (all_inherited has0) ts -> NoDup (mjoin (pids <$> ts)) ->
  exists has', visit_list propagate_has_child_subreaper ts has = inl has' /\
    forall x, x ∈ has' <-> x ∈ has \/ exists c, c ∈ ts /\ is_child_reaper (root c) = false /\ (x = root c \/ below c x).
Proof.
  revert has. induction ts as [|t ts IH]; intros has Hv Hsub Hx Hi Hnd; simpl.
  { exists has. split; [done|]. set_solver. }
  apply Forall_cons in Hv as [Hv Hvs], Hi as [Hi His].
  cbn in Hnd. apply NoDup_app in Hnd as (Hnd1 & Hdisj & Hnd2).
  destruct (Hv has0 has Hsub) as (h1 & -> & Ha); [set_solver|done|done|].
  destruct (IH h1) as (h2 & -> & Hb); try done.
  - intros x Hin. apply Ha. left. by apply Hsub.
  - intros x Hin H1. apply Ha in H1 as [H1|(Hr & H1)]; [apply Hx; set_solver|].
    exfalso. eapply Hdisj; [|exact Hin]. destruct t as [p us].
    destruct H1 as [->|H1%below_pids]; simpl in *; set_solver.
  - exists h2. split; [done|]. intros x. rewrite (Hb x), (Ha x).
    setoid_rewrite elem_of_cons. naive_solver.
Qed.

Lemma visit_ok_all t : visit_ok t.
Proof.
  induction t as [p ts IH] using tree_ind'.
  intros has0 has Hsub Hx [Hin Hi] Hnd. rewrite Forall_fmap in Hi.
  rewrite visit_unfold. unfold propagate_has_child_subreaper at 1. simpl root in *.
  destruct (is_child_reaper p) eqn:Hr.
  { rewrite orb_true_r. exists has. split; [done|]. unfold adds. simpl. rewrite Hr. naive_solver. }
  rewrite orb_false_r. case_bool_decide as Hp; simpl.
  { exists has. split; [done|]. intros x. split; [auto|]. intros [?|(_ & [->|Hb])]; [done|done|].
    apply Hsub, Hin; [|done]. apply Hx; [simpl; set_solver|done]. }
  simpl in Hnd, Hx. apply NoDup_cons in Hnd as [Hnp Hnd].
  destruct (visit_list_ok ts has0 ({[p]} ∪ has)) as (h & -> & Hh); try done.
  { set_solver. } { intros x Hxp [->%elem_of_singleton|Hxh]%elem_of_union; [done|]. apply Hx; set_solver. }
  exists h. split; [done|]. intros x. simpl. rewrite (Hh x), elem_of_union, elem_of_singleton. split.
  - intros [[->|?]|(c & Hc & Hrc & [->|Hb])]; [auto|auto| |];
      right; (split; [done|]); right; [by apply (below_child (Node p ts))|by eapply (below_deep (Node p ts))].
  - intros [?|(_ & [->|Hb])]; [auto|auto|]. right.
    inversion Hb as [t' c Hc Hrc|t' c d Hc Hrc Hd]; subst; eauto.
Qed.

(** Setting the subreaper attribute flags, through the goto loop of
    [walk_process_tree], exactly the descendants of the caller that no
    namespace init separates from it, provided the flag was inherited before;
    subtrees the visitor skips lose nothing. *)
Theorem subreaper_flags_descendants pt t fuel has :
  stored pt t -> NoDup (pids t) -> Forall (all_inherited has) (sub t) -> (2 * size t + 1 <= fuel)%nat ->
  exists has', walk_process_tree pt propagate_has_child_subreaper (root t) fuel has = Some has' /\
    forall d, d ∈ has' <-> d ∈ has \/ below t d.
Proof.
  intros Hst Hnd Hi Hf. destruct t as [p ts]; simpl in *. apply NoDup_cons in Hnd as [Hnp Hnd].
  rewrite (walk_is_dfs _ _ _ (Node p ts)) by done. unfold walk_spec. simpl.
  destruct (visit_list_ok ts has has) as (h & -> & Hh); try done.
  { apply Forall_forall. intros. apply visit_ok_all. }
  exists h. split; [done|]. intros d. rewrite (Hh d). split.
  - intros [?|(c & Hc & Hrc & [->|Hb])]; [auto| |]; right;
      [by apply (below_child (Node p ts))|by eapply (below_deep (Node p ts))].
  - intros [?|Hb]; [auto|]. right. inversion Hb as [t' c Hc Hrc|t' c d' Hc Hrc Hd]; subst; eauto.
Qed.
End subreaper.

Module Demo.
(** 1 has threads 1 and 2; thread 1 forked 10, thread 2 forked 20; 10 forked
    the namespace init 11, and 20 forked 21. *)
Definition pt0 : ptable := {|
  threads p := if p =? 1 then [1; 2] else [p];
  kids t := if t =? 1 then [10] else if t =? 2 then [20] else if t =? 10 then [11] else if t =? 20 then [21] else [];
  real_parent p := if p =? 10 then 1 else if p =? 20 then 2 else if p =? 11 then 10 else 20;
  group_leader t := if t =? 2 then 1 else t |}.
Definition t0 : tree := Node 1 [Node 10 [Node 11 []]; Node 20 [Node 21 []]].
Lemma stored0 : stored pt0 t0.
Proof.
  cbn. repeat split; repeat constructor; try done; try set_solver.
Qed.

Lemma walk_process_tree_is_dfs_witness :
  walk_process_tree pt0 (fun p s => (1, s ++ [p])) 1 11 [] = Some [10; 11; 20; 21].
Proof.
  rewrite (walk_process_tree_is_dfs pt0 (fun p s => (1, s ++ [p])) 1 t0 11 []);
    [reflexivity|reflexivity|exact stored0|simpl; set_solver by lia|simpl; lia].
Defined.

Lemma subreaper_flags_descendants_witness :
  exists has', walk_process_tree pt0 (propagate_has_child_subreaper (fun p => p =? 11)) 1 11 ∅ = Some has' /\
    21 ∈ has'.
Proof.
  destruct (subreaper_flags_descendants (fun p => p =? 11) pt0 t0 11 ∅ stored0) as (h & Hh & Hd).
  - cbn. repeat constructor; set_solver by lia.
  - repeat constructor; unfold inherited; set_solver.
  - simpl. lia.
  - exists h. split; [exact Hh|]. apply Hd. right.
    apply (below_deep _ _ (Node 20 [Node 21 []])); [set_solver|done|].
    apply (below_child _ _ (Node 21 [])); [set_solver|done].
Defined.
End Demo.
