(* ===== verification/Prctl.v ===== *)
(** * [prctl]

    sys.c 2323-2330, 2362-2810.  The attributes of the calling task and of its
    address space that the options read and write; PR_SET_MM is [PrctlMm],
    PR_SET_CHILD_SUBREAPER walks the tree of [ProcTree].  Options that other
    subsystems or architectures serve ([SET_UNALIGN_CTL], seccomp, perf, KSM,
    ...) are one parameter, [delegate]. *)
From S2P Require Import Prelude Task UMem PrctlMm ProcTree.

Record task := Tsk {
  pdeath_signal : Z;
  dumpable : Z;
  comm : list Z;                     (** TASK_COMM_LEN bytes *)
  flags : Z;                         (** PF_* *)
  timer_slack_ns : Z;
  default_timer_slack_ns : Z;
  is_child_subreaper : bool;
  no_new_privs : bool;
  clear_child_tid : Z;
  mmflags : Z;                       (** [mm->flags] *)
  mm : mm_struct;
  has_child_subreaper : gset Z;      (** processes with the flag *)
  anon_names : list (Z * Z * option (list Z));   (** accepted PR_SET_VMA requests *)
}.

Class PrctlEnv := {
  security_task_prctl : Z -> Z -> Z -> Z -> Z -> Z;
  delegate : Z -> Z -> Z -> Z -> Z -> Z;
  (** [ksm_enable_merge_any] and [ksm_disable_merge_any]: error and [mm->flags] after *)
  ksm_merge_any : bool -> Z -> Z * Z;
  lock_killed : bool;                (** [mmap_write_lock_killable] fails *)
  name_faults : Z -> bool;           (** [strncpy_from_user(comm, arg2, 15) < 0] *)
  strndup_user : umem -> Z -> Z -> Z + list Z;   (** error or string *)
  anon_name_alloc : bool;            (** [anon_vma_name_alloc] finds memory *)
  madvise_set_anon_name : Z -> Z -> option (list Z) -> Z;
  config_parisc : bool;
  proc_table : ptable;
  self_leader : Z;                   (** pid of [me->group_leader] *)
  max_steps : nat;                   (** bound on the steps of the tree walk *)
  is_child_reaper : Z -> bool;
}.

(** The fall-backs at the top of the file, [# define SET_UNALIGN_CTL(a, b) (-EINVAL)]
    and its like: what an architecture that defines none of them serves. *)
Definition arch_fallback (opt arg2 arg3 arg4 arg5 : Z) : Z := - EINVAL.

Abbreviation PR_MCE_KILL_CLEAR := 0 (only parsing).
Abbreviation PR_MCE_KILL_SET := 1 (only parsing).
Abbreviation PR_MCE_KILL_LATE := 0 (only parsing).
Abbreviation PR_MCE_KILL_EARLY := 1 (only parsing).
Abbreviation PR_MCE_KILL_DEFAULT := 2 (only parsing).
Abbreviation PF_MCE_PROCESS := 128 (only parsing).
Abbreviation PF_MCE_EARLY := 134217728 (only parsing).
Abbreviation PR_IO_FLUSHER := 1572864 (only parsing).   (** PF_MEMALLOC_NOIO | PF_LOCAL_THROTTLE *)
Abbreviation MMF_DISABLE_THP := 24 (only parsing).
Abbreviation MMF_HAS_MDWE := 28 (only parsing).
Abbreviation MMF_HAS_MDWE_NO_INHERIT := 29 (only parsing).
Abbreviation MMF_VM_MERGE_ANY := 30 (only parsing).
Abbreviation PR_MDWE_REFUSE_EXEC_GAIN := 1 (only parsing).
Abbreviation PR_MDWE_NO_INHERIT := 2 (only parsing).
Abbreviation TASK_COMM_LEN := 16%nat (only parsing).
Abbreviation ANON_VMA_NAME_MAX_LEN := 80 (only parsing).
Abbreviation NSIG := 64 (only parsing).

(** Updates of one attribute. *)
Definition set_pdeath v t := Tsk v (dumpable t) (comm t) (flags t) (timer_slack_ns t) (default_timer_slack_ns t)
  (is_child_subreaper t) (no_new_privs t) (clear_child_tid t) (mmflags t) (mm t) (has_child_subreaper t) (anon_names t).
Definition set_dumpable v t := Tsk (pdeath_signal t) v (comm t) (flags t) (timer_slack_ns t) (default_timer_slack_ns t)
  (is_child_subreaper t) (no_new_privs t) (clear_child_tid t) (mmflags t) (mm t) (has_child_subreaper t) (anon_names t).
Definition set_comm v t := Tsk (pdeath_signal t) (dumpable t) v (flags t) (timer_slack_ns t) (default_timer_slack_ns t)
  (is_child_subreaper t) (no_new_privs t) (clear_child_tid t) (mmflags t) (mm t) (has_child_subreaper t) (anon_names t).
Definition set_flags (f : Z -> Z) t := Tsk (pdeath_signal t) (dumpable t) (comm t) (f (flags t)) (timer_slack_ns t) (default_timer_slack_ns t)
  (is_child_subreaper t) (no_new_privs t) (clear_child_tid t) (mmflags t) (mm t) (has_child_subreaper t) (anon_names t).
Definition set_slack v t := Tsk (pdeath_signal t) (dumpable t) (comm t) (flags t) v (default_timer_slack_ns t)
  (is_child_subreaper t) (no_new_privs t) (clear_child_tid t) (mmflags t) (mm t) (has_child_subreaper t) (anon_names t).
Definition set_subreaper v h t := Tsk (pdeath_signal t) (dumpable t) (comm t) (flags t) (timer_slack_ns t) (default_timer_slack_ns t)
  v (no_new_privs t) (clear_child_tid t) (mmflags t) (mm t) h (anon_names t).
Definition set_nnp t := Tsk (pdeath_signal t) (dumpable t) (comm t) (flags t) (timer_slack_ns t) (default_timer_slack_ns t)
  (is_child_subreaper t) true (clear_child_tid t) (mmflags t) (mm t) (has_child_subreaper t) (anon_names t).
Definition set_mmflags (f : Z -> Z) t := Tsk (pdeath_signal t) (dumpable t) (comm t) (flags t) (timer_slack_ns t) (default_timer_slack_ns t)
  (is_child_subreaper t) (no_new_privs t) (clear_child_tid t) (f (mmflags t)) (mm t) (has_child_subreaper t) (anon_names t).
Definition set_mm v t := Tsk (pdeath_signal t) (dumpable t) (comm t) (flags t) (timer_slack_ns t) (default_timer_slack_ns t)
  (is_child_subreaper t) (no_new_privs t) (clear_child_tid t) (mmflags t) v (has_child_subreaper t) (anon_names t).
Definition add_anon_name v t := Tsk (pdeath_signal t) (dumpable t) (comm t) (flags t) (timer_slack_ns t) (default_timer_slack_ns t)
  (is_child_subreaper t) (no_new_privs t) (clear_child_tid t) (mmflags t) (mm t) (has_child_subreaper t) (v :: anon_names t).
Definition set_umem v t :=
  set_mm (Mm (layout (mm t)) (saved_auxv (mm t)) (exe_file (mm t)) v) t.

(** A call of [PrctlMm] on the task's [mm]. *)
Definition on_mm (m : sys mm_struct Z) : sys task Z := fun t =>
  let '(r, mm') := run m (mm t) in (Val r, set_mm mm' t).

Definition le64 (x : Z) : list Z := le32 x ++ le32 (x / 4294967296).

(** Printable, and none of the characters of ANON_VMA_NAME_INVALID_CHARS. *)
Definition is_valid_name_char (ch : Z) : bool :=
  (31 <? ch) && (ch <? 127) && negb (bool_decide (ch ∈ bytes_of "\`$[]")).

Section prctl.
Context {caps : Caps} {ua : UAccess} {menv : MmEnv} {prenv : PrctlEnv}.

Definition put_user_bytes (l : list Z) (dst : Z) : sys task Z :=
  let* t := sgets (fun t => t) in
  let '(rest, m) := put_bytes (umem_ (mm t)) dst l in
  do* smodify (set_umem m) in
  sret (if rest =? 0 then 0 else - EFAULT).

Definition prctl_get_tid_address (dst : Z) : sys task Z :=
  let* t := sgets (fun t => t) in put_user_bytes (le64 (clear_child_tid t)) dst.

Definition prctl_set_vma (opt addr size arg : Z) : sys task Z :=
  if negb (opt =? 0) then sret (- EINVAL) else          (* PR_SET_VMA_ANON_NAME *)
  let* t := sgets (fun t => t) in
  let* anon_name := (if negb (arg =? 0) then
      match strndup_user (umem_ (mm t)) arg ANON_VMA_NAME_MAX_LEN with
      | inl err => sexit err
      | inr name =>
          do* fail_if (negb (forallb is_valid_name_char name)) (- EINVAL) in
          do* fail_if (negb anon_name_alloc) (- ENOMEM) in
          sret (Some name)
      end
    else sret None) in
  let error := madvise_set_anon_name addr size anon_name in
  do* (if error =? 0 then smodify (add_anon_name (addr, size, anon_name)) else sret tt) in
  sret error.

Definition get_current_mdwe (t : task) : Z :=
  let ret := if Z.testbit (mmflags t) MMF_HAS_MDWE then PR_MDWE_REFUSE_EXEC_GAIN else 0 in
  if Z.testbit (mmflags t) MMF_HAS_MDWE_NO_INHERIT then Z.lor ret PR_MDWE_NO_INHERIT else ret.

Definition prctl_set_mdwe (bits arg3 arg4 arg5 : Z) : sys task Z :=
  do* fail_if (negb (arg3 =? 0) || negb (arg4 =? 0) || negb (arg5 =? 0)) (- EINVAL) in
  do* fail_if (negb (Z.ldiff bits 3 =? 0)) (- EINVAL) in
  do* fail_if (has bits PR_MDWE_NO_INHERIT && negb (has bits PR_MDWE_REFUSE_EXEC_GAIN)) (- EINVAL) in
  do* fail_if config_parisc (- EINVAL) in
  let* current_bits := sgets get_current_mdwe in
  do* fail_if (negb (current_bits =? 0) && negb (current_bits =? bits)) (- EPERM) in
  do* (if has bits PR_MDWE_NO_INHERIT
       then smodify (set_mmflags (fun f => Z.setbit f MMF_HAS_MDWE_NO_INHERIT)) else sret tt) in
  do* (if has bits PR_MDWE_REFUSE_EXEC_GAIN
       then smodify (set_mmflags (fun f => Z.setbit f MMF_HAS_MDWE)) else sret tt) in
  sret 0.

Definition prctl_get_mdwe (arg2 arg3 arg4 arg5 : Z) : sys task Z :=
  do* fail_if (negb (arg2 =? 0) || negb (arg3 =? 0) || negb (arg4 =? 0) || negb (arg5 =? 0)) (- EINVAL) in
  sgets get_current_mdwe.

Definition prctl_get_auxv (addr len : Z) : sys task Z :=
  let* t := sgets (fun t => t) in
  let size := Z.min (Z.of_nat SIZEOF_AUXV) len in
  do* (if negb (size =? 0) then
         let '(rest, m) := put_bytes (umem_ (mm t)) addr (take (Z.to_nat size) (saved_auxv (mm t))) in
         do* smodify (set_umem m) in
         fail_if (negb (rest =? 0)) (- EFAULT)
       else sret tt) in
  sret (Z.of_nat SIZEOF_AUXV).

(** [set_task_comm]: the string up to its NUL, padded. *)
Definition comm_of (l : list Z) : list Z :=
  let s := cstr (take 15 l) in s ++ replicate (TASK_COMM_LEN - length s) 0.
Arguments comm_of : simpl never.

Definition prctl_set_name (arg2 : Z) : sys task Z :=
  let* t := sgets (fun t => t) in
  do* fail_if (name_faults arg2) (- EFAULT) in
  do* smodify (set_comm (comm_of (read_bytes (umem_ (mm t)) arg2 15))) in
  sret 0.
Definition prctl_get_name (arg2 : Z) : sys task Z :=
  let* t := sgets (fun t => t) in
  let '(rest, m) := put_bytes (umem_ (mm t)) arg2 (comm t) in
  do* smodify (set_umem m) in
  do* fail_if (negb (rest =? 0)) (- EFAULT) in
  sret 0.

Definition prctl_mce_kill (arg2 arg3 arg4 arg5 : Z) : sys task Z :=
  do* fail_if (negb (Z.lor arg4 arg5 =? 0)) (- EINVAL) in
  if arg2 =? PR_MCE_KILL_CLEAR then
    do* fail_if (negb (arg3 =? 0)) (- EINVAL) in
    do* smodify (set_flags (fun f => Z.ldiff f PF_MCE_PROCESS)) in
    sret 0
  else if arg2 =? PR_MCE_KILL_SET then
    do* smodify (set_flags (fun f => Z.lor f PF_MCE_PROCESS)) in
    if arg3 =? PR_MCE_KILL_EARLY then
      do* smodify (set_flags (fun f => Z.lor f PF_MCE_EARLY)) in sret 0
    else if arg3 =? PR_MCE_KILL_LATE then
      do* smodify (set_flags (fun f => Z.ldiff f PF_MCE_EARLY)) in sret 0
    else if arg3 =? PR_MCE_KILL_DEFAULT then
      do* smodify (set_flags (fun f => Z.ldiff f (Z.lor PF_MCE_EARLY PF_MCE_PROCESS))) in sret 0
    else sexit (- EINVAL)
  else sexit (- EINVAL).

Definition mce_policy (f : Z) : Z :=
  if has f PF_MCE_PROCESS then
    if has f PF_MCE_EARLY then PR_MCE_KILL_EARLY else PR_MCE_KILL_LATE
  else PR_MCE_KILL_DEFAULT.
Definition prctl_mce_kill_get (arg2 arg3 arg4 arg5 : Z) : sys task Z :=
  do* fail_if (negb (Z.lor (Z.lor (Z.lor arg2 arg3) arg4) arg5 =? 0)) (- EINVAL) in
  sgets (fun t => mce_policy (flags t)).

Definition prctl_set_child_subreaper (arg2 : Z) : sys task Z :=
  do* smodify (fun t => set_subreaper (negb (arg2 =? 0)) (has_child_subreaper t) t) in
  if arg2 =? 0 then sret 0 else
  do* smodify (fun t =>
    match walk_process_tree proc_table (propagate_has_child_subreaper is_child_reaper) self_leader
            max_steps (has_child_subreaper t) with
    | Some h => set_subreaper (is_child_subreaper t) h t
    | None => t
    end) in
  sret 0.

(** [if (arg2 || arg3 || ...) return -EINVAL;] *)
Definition must_be_zero (args : list Z) : sys task unit :=
  fail_if (existsb (fun a => negb (a =? 0)) args) (- EINVAL).
(** A case whose work is a call of another subsystem. *)
Definition served_elsewhere (opt arg2 arg3 arg4 arg5 : Z) : sys task Z :=
  sret (delegate opt arg2 arg3 arg4 arg5).

(** The cases from PR_SET_PDEATHSIG to PR_TASK_PERF_EVENTS_ENABLE. *)
Definition prctl_basic (opt arg2 arg3 arg4 arg5 : Z) : option (sys task Z) :=
  match opt with
  | 1 (* PR_SET_PDEATHSIG *) => Some (
      if negb (arg2 <=? NSIG) then sret (- EINVAL)
      else do* smodify (set_pdeath arg2) in sret 0)
  | 2 (* PR_GET_PDEATHSIG *) => Some (
      let* t := sgets (fun t => t) in put_user_bytes (le32 (pdeath_signal t)) arg2)
  | 3 (* PR_GET_DUMPABLE *) => Some (sgets dumpable)
  | 4 (* PR_SET_DUMPABLE *) => Some (
      if negb (arg2 =? 0) && negb (arg2 =? 1) then sret (- EINVAL)
      else do* smodify (set_dumpable arg2) in sret 0)
  | 13 (* PR_GET_TIMING *) => Some (sret 0)              (* PR_TIMING_STATISTICAL *)
  | 14 (* PR_SET_TIMING *) => Some (sret (if negb (arg2 =? 0) then - EINVAL else 0))
  | 15 (* PR_SET_NAME *) => Some (prctl_set_name arg2)
  | 16 (* PR_GET_NAME *) => Some (prctl_get_name arg2)
  | 5 | 6 (* UNALIGN *) | 9 | 10 (* FPEMU *) | 11 | 12 (* FPEXC *) | 19 | 20 (* ENDIAN *)
  | 21 | 22 (* SECCOMP *) | 25 | 26 (* TSC *) | 31 | 32 (* TASK_PERF_EVENTS *) =>
      Some (served_elsewhere opt arg2 arg3 arg4 arg5)
  | _ => None
  end.

(** The cases from PR_GET_TIMERSLACK to PR_MPX_DISABLE_MANAGEMENT. *)
Definition prctl_task (opt arg2 arg3 arg4 arg5 : Z) : option (sys task Z) :=
  match opt with
  | 30 (* PR_GET_TIMERSLACK *) => Some (
      sgets (fun t => if U64_MAX <? timer_slack_ns t then s64 U64_MAX else s64 (timer_slack_ns t)))
  | 29 (* PR_SET_TIMERSLACK *) => Some (
      do* smodify (fun t => set_slack (if arg2 <=? 0 then default_timer_slack_ns t else arg2) t) in sret 0)
  | 33 (* PR_MCE_KILL *) => Some (prctl_mce_kill arg2 arg3 arg4 arg5)
  | 34 (* PR_MCE_KILL_GET *) => Some (prctl_mce_kill_get arg2 arg3 arg4 arg5)
  | 35 (* PR_SET_MM *) => Some (on_mm (prctl_set_mm (s32 arg2) arg3 arg4 arg5))
  | 40 (* PR_GET_TID_ADDRESS *) => Some (prctl_get_tid_address arg2)
  | 36 (* PR_SET_CHILD_SUBREAPER *) => Some (prctl_set_child_subreaper arg2)
  | 37 (* PR_GET_CHILD_SUBREAPER *) => Some (
      let* t := sgets (fun t => t) in put_user_bytes (le32 (Z.b2z (is_child_subreaper t))) arg2)
  | 38 (* PR_SET_NO_NEW_PRIVS *) => Some (
      do* fail_if (negb (arg2 =? 1)) (- EINVAL) in
      do* must_be_zero [arg3; arg4; arg5] in
      do* smodify set_nnp in sret 0)
  | 39 (* PR_GET_NO_NEW_PRIVS *) => Some (
      do* must_be_zero [arg2; arg3; arg4; arg5] in
      sgets (fun t => if no_new_privs t then 1 else 0))
  | 42 (* PR_GET_THP_DISABLE *) => Some (
      do* must_be_zero [arg2; arg3; arg4; arg5] in
      sgets (fun t => Z.b2z (Z.testbit (mmflags t) MMF_DISABLE_THP)))
  | 41 (* PR_SET_THP_DISABLE *) => Some (
      do* must_be_zero [arg3; arg4; arg5] in
      do* fail_if lock_killed (- EINTR) in
      do* smodify (set_mmflags (fun f =>
            if negb (arg2 =? 0) then Z.setbit f MMF_DISABLE_THP else Z.clearbit f MMF_DISABLE_THP)) in
      sret 0)
  | 43 | 44 (* PR_MPX_*_MANAGEMENT *) => Some (sret (- EINVAL))
  | _ => None
  end.

(** The cases from PR_SET_FP_MODE to the default. *)
Definition prctl_rest (opt arg2 arg3 arg4 arg5 : Z) : sys task Z :=
  match opt with
  | 52 | 54 | 55 (* GET_SPECULATION_CTRL, PAC_RESET_KEYS, SET_TAGGED_ADDR_CTRL *) =>
      do* must_be_zero [arg3; arg4; arg5] in served_elsewhere opt arg2 arg3 arg4 arg5
  | 53 | 60 (* SET_SPECULATION_CTRL, PAC_SET_ENABLED_KEYS *) =>
      do* must_be_zero [arg4; arg5] in served_elsewhere opt arg2 arg3 arg4 arg5
  | 61 | 56 (* PAC_GET_ENABLED_KEYS, GET_TAGGED_ADDR_CTRL *) =>
      do* must_be_zero [arg2; arg3; arg4; arg5] in served_elsewhere opt arg2 arg3 arg4 arg5
  | 57 (* PR_SET_IO_FLUSHER *) =>
      do* fail_if (negb (capable CAP_SYS_RESOURCE)) (- EPERM) in
      do* must_be_zero [arg3; arg4; arg5] in
      if arg2 =? 1 then do* smodify (set_flags (fun f => Z.lor f PR_IO_FLUSHER)) in sret 0
      else if arg2 =? 0 then do* smodify (set_flags (fun f => Z.ldiff f PR_IO_FLUSHER)) in sret 0
      else sexit (- EINVAL)
  | 58 (* PR_GET_IO_FLUSHER *) =>
      do* fail_if (negb (capable CAP_SYS_RESOURCE)) (- EPERM) in
      do* must_be_zero [arg2; arg3; arg4; arg5] in
      sgets (fun t => Z.b2z (Z.land (flags t) PR_IO_FLUSHER =? PR_IO_FLUSHER))
  | 65 (* PR_SET_MDWE *) => prctl_set_mdwe arg2 arg3 arg4 arg5
  | 66 (* PR_GET_MDWE *) => prctl_get_mdwe arg2 arg3 arg4 arg5
  | 1398164801 (* PR_SET_VMA *) => prctl_set_vma arg2 arg3 arg4 arg5
  | 1096112214 (* PR_GET_AUXV *) =>
      do* must_be_zero [arg4; arg5] in prctl_get_auxv arg2 arg3
  | 67 (* PR_SET_MEMORY_MERGE *) =>
      do* must_be_zero [arg3; arg4; arg5] in
      do* fail_if lock_killed (- EINTR) in
      let* t := sgets (fun t => t) in
      let '(error, f) := ksm_merge_any (negb (arg2 =? 0)) (mmflags t) in
      do* smodify (set_mmflags (fun _ => f)) in
      sret error
  | 68 (* PR_GET_MEMORY_MERGE *) =>
      do* must_be_zero [arg2; arg3; arg4; arg5] in
      sgets (fun t => Z.b2z (Z.testbit (mmflags t) MMF_VM_MERGE_ANY))
  | 45 | 46 (* FP_MODE *) | 50 | 51 (* SVE_VL *) | 63 | 64 (* SME_VL *)
  | 59 (* SET_SYSCALL_USER_DISPATCH *) | 62 (* SCHED_CORE *) | 69 | 70 (* RISCV_V *) =>
      served_elsewhere opt arg2 arg3 arg4 arg5
  | _ => sret (- EINVAL)
  end.

Definition sys_prctl (opt arg2 arg3 arg4 arg5 : Z) : sys task Z :=
  let error := security_task_prctl opt arg2 arg3 arg4 arg5 in
  do* fail_if (negb (error =? - ENOSYS)) error in
  match prctl_basic opt arg2 arg3 arg4 arg5 with
  | Some m => m
  | None => match prctl_task opt arg2 arg3 arg4 arg5 with
            | Some m => m
            | None => prctl_rest opt arg2 arg3 arg4 arg5
            end
  end.

(** ** Properties *)

(** KSM owns one bit of [mm->flags]. *)
Class PrctlLaws := {
  ksm_other_bits on f b : b <> MMF_VM_MERGE_ANY -> Z.testbit (ksm_merge_any on f).2 b = Z.testbit f b;
}.

(** Attributes a task cannot take back. *)
Definition locked_in (t t' : task) : Prop :=
  (no_new_privs t = true -> no_new_privs t' = true) /\
  (get_current_mdwe t <> 0 -> get_current_mdwe t' = get_current_mdwe t).
#[export] Instance locked_in_preorder : PreOrder locked_in.
Proof.
  split; unfold locked_in; [done|]. intros t1 t2 t3 [H1 H2] [H3 H4]. split; [auto|].
  intros Hb. rewrite H4; rewrite H2; auto.
Qed.

(** The updates that leave both attributes alone. *)
Lemma locked_in_same t t' :
  no_new_privs t' = no_new_privs t -> mmflags t' = mmflags t -> locked_in t t'.
Proof. unfold locked_in, get_current_mdwe. by intros -> ->. Qed.
Lemma locked_in_mmflags f t :
  Z.testbit (f (mmflags t)) MMF_HAS_MDWE = Z.testbit (mmflags t) MMF_HAS_MDWE ->
  Z.testbit (f (mmflags t)) MMF_HAS_MDWE_NO_INHERIT = Z.testbit (mmflags t) MMF_HAS_MDWE_NO_INHERIT ->
  locked_in t (set_mmflags f t).
Proof. unfold locked_in, get_current_mdwe. simpl. by intros -> ->. Qed.
#[local] Hint Extern 1 (locked_in _ _) => apply locked_in_same; reflexivity : keeps.

Lemma keeps_put_user_bytes l dst : keeps locked_in (put_user_bytes l dst).
Proof. intros t o t' E. unfold put_user_bytes in E. sys_inv E. auto with keeps. Qed.
Lemma keeps_on_mm m : keeps locked_in (on_mm m).
Proof. intros t o t' E. unfold on_mm in E. destruct (run m (mm t)). injection E as <- <-. auto with keeps. Qed.
Lemma keeps_get_name a : keeps locked_in (prctl_get_name a).
Proof. intros t o t' E. unfold prctl_get_name in E. sys_inv E; auto with keeps. Qed.
Lemma keeps_get_auxv a n : keeps locked_in (prctl_get_auxv a n).
Proof. intros t o t' E. unfold prctl_get_auxv in E. sys_inv E; auto with keeps. Qed.
Lemma keeps_set_vma o a n x : keeps locked_in (prctl_set_vma o a n x).
Proof.
  unfold prctl_set_vma. intros t r t' E. sys_inv E; try reflexivity; auto with keeps.
  all: destruct (strndup_user _ _ _); sys_inv E; try reflexivity; auto with keeps.
Qed.
Lemma keeps_set_subreaper a : keeps locked_in (prctl_set_child_subreaper a).
Proof.
  unfold prctl_set_child_subreaper. intros t r t' E. sys_inv E; auto with keeps.
  apply locked_in_same; by case_match.
Qed.
#[local] Hint Resolve keeps_put_user_bytes keeps_on_mm keeps_get_name keeps_get_auxv keeps_set_vma
  keeps_set_subreaper : keeps.

(** The bits a request sets, as [get_current_mdwe] reads them. *)
Lemma mdwe_bits bits : Z.ldiff bits 3 = 0 -> bits = 0 \/ bits = 1 \/ bits = 2 \/ bits = 3.
Proof.
  intros H. assert (bits = Z.land bits 3) as Hb.
  { rewrite <- (Z.lor_ldiff_and bits 3) at 1. by rewrite H. }
  change 3 with (Z.ones 2) in Hb. rewrite Z.land_ones in Hb by lia.
  change (2 ^ 2) with 4 in Hb. pose proof (Z.mod_pos_bound bits 4). lia.
Qed.
Lemma set_mdwe_outcome bits a3 a4 a5 t o t' :
  prctl_set_mdwe bits a3 a4 a5 t = (o, t') ->
  (exists e, o = Exit e /\ t' = t) \/
  (o = Val 0 /\ (get_current_mdwe t = 0 \/ get_current_mdwe t = bits) /\
   get_current_mdwe t' = bits /\ no_new_privs t' = no_new_privs t).
Proof.
  unfold prctl_set_mdwe. intros E. sys_inv E; eauto; right; split; try done.
  all: assert (get_current_mdwe t = 0 \/ get_current_mdwe t = bits) as Hc by lia.
  all: assert (Z.ldiff bits 3 = 0) as Hb%mdwe_bits by lia.
  all: split; [done|]; split; [|done].
  all: destruct Hb as [->|[->|[->| ->]]]; try done.
  all: revert Hc; unfold get_current_mdwe; simpl mmflags;
    rewrite ?Z.setbit_eq, ?(Z.setbit_neq _ MMF_HAS_MDWE), ?(Z.setbit_neq _ MMF_HAS_MDWE_NO_INHERIT),
      ?Z.setbit_eq by lia.
  all: by repeat case_match; intros [?|?].
Qed.
Lemma keeps_set_mdwe b a3 a4 a5 : keeps locked_in (prctl_set_mdwe b a3 a4 a5).
Proof.
  intros t o t' E. apply set_mdwe_outcome in E as [(e & _ & ->)|(_ & Hc & Hn & Hp)]; [reflexivity|].
  split; [by rewrite Hp|]. intros. destruct Hc; congruence.
Qed.
Lemma keeps_mce_kill a2 a3 a4 a5 : keeps locked_in (prctl_mce_kill a2 a3 a4 a5).
Proof. unfold prctl_mce_kill. intros t o t' E. sys_inv E; auto with keeps. Qed.
Lemma keeps_set_thp : keeps locked_in (smodify (set_mmflags (fun f => Z.setbit f MMF_DISABLE_THP))).
Proof. apply keeps_modify. intros t. apply locked_in_mmflags; by rewrite Z.setbit_neq by lia. Qed.
Lemma keeps_clear_thp : keeps locked_in (smodify (set_mmflags (fun f => Z.clearbit f MMF_DISABLE_THP))).
Proof. apply keeps_modify. intros t. apply locked_in_mmflags; by rewrite Z.clearbit_neq by lia. Qed.
Lemma keeps_ksm `{!PrctlLaws} on : keeps locked_in (
  let* t := sgets (fun t => t) in
  let '(error, f) := ksm_merge_any on (mmflags t) in
  do* smodify (set_mmflags (fun _ => f)) in sret error).
Proof.
  intros t o t' E. sys_inv E. apply locked_in_mmflags.
  all: match goal with H : ksm_merge_any _ _ = (_, ?f) |- _ =>
    replace f with (ksm_merge_any on (mmflags t)).2 by (by rewrite H) end; by apply ksm_other_bits.
Qed.
Lemma keeps_set_nnp : keeps locked_in (smodify set_nnp).
Proof. apply keeps_modify. intros t. by split. Qed.
#[local] Hint Resolve keeps_set_mdwe keeps_mce_kill keeps_set_thp keeps_clear_thp keeps_ksm keeps_set_nnp : keeps.

Lemma keeps_prctl_basic o a2 a3 a4 a5 m : prctl_basic o a2 a3 a4 a5 = Some m -> keeps locked_in m.
Proof.
  unfold prctl_basic, served_elsewhere, prctl_set_name. intros E.
  repeat (case_match; try discriminate E); injection E as <-; auto 12 with keeps typeclass_instances.
Qed.
Lemma keeps_prctl_task o a2 a3 a4 a5 m : prctl_task o a2 a3 a4 a5 = Some m -> keeps locked_in m.
Proof.
  unfold prctl_task, must_be_zero, prctl_get_tid_address, prctl_mce_kill_get. intros E.
  repeat (case_match; try discriminate E); injection E as <-; auto 12 with keeps typeclass_instances.
Qed.
Lemma keeps_prctl_rest `{!PrctlLaws} o a2 a3 a4 a5 : keeps locked_in (prctl_rest o a2 a3 a4 a5).
Proof.
  unfold prctl_rest, must_be_zero, served_elsewhere, prctl_get_mdwe.
  repeat case_match; auto 12 with keeps typeclass_instances.
Qed.
Lemma keeps_sys_prctl `{!PrctlLaws} o a2 a3 a4 a5 : keeps locked_in (sys_prctl o a2 a3 a4 a5).
Proof.
  unfold sys_prctl. apply keeps_bind; [auto with keeps typeclass_instances|auto with keeps typeclass_instances|].
  intros _. destruct (prctl_basic _ _ _ _ _) eqn:E1; [by eapply keeps_prctl_basic|].
  destruct (prctl_task _ _ _ _ _) eqn:E2; [by eapply keeps_prctl_task|apply keeps_prctl_rest].
Qed.
End prctl.

#[local] Arguments has : simpl never.
#[local] Arguments get_current_mdwe : simpl never.

Section theorems.
Context {caps : Caps} {ua : UAccess} {menv : MmEnv} {prenv : PrctlEnv} {prlaws : PrctlLaws}.

(** Arguments of one call: option and four values. *)
Definition exec_prctl (c : Z * Z * Z * Z * Z) : sys task Z :=
  let '(o, a2, a3, a4, a5) := c in sys_prctl o a2 a3 a4 a5.

(** With no security module in the way, the call is its case of the switch. *)
Lemma prctl_dispatch o a2 a3 a4 a5 t :
  security_task_prctl o a2 a3 a4 a5 = - ENOSYS ->
  run (sys_prctl o a2 a3 a4 a5) t =
  run (match prctl_basic o a2 a3 a4 a5 with
       | Some m => m
       | None => match prctl_task o a2 a3 a4 a5 with Some m => m | None => prctl_rest o a2 a3 a4 a5 end
       end) t.
Proof. intros H. unfold run, sys_prctl. by rewrite H. Qed.

(** C31: no sequence of [prctl] calls, whatever their options and arguments,
    clears no_new_privs or changes memory-deny-write-execute bits once some
    are set. *)
Theorem prctl_cannot_unlock cs t :
  let t' := run_all exec_prctl cs t in
  (no_new_privs t = true -> no_new_privs t' = true) /\
  (get_current_mdwe t <> 0 -> get_current_mdwe t' = get_current_mdwe t).
Proof.
  apply (keeps_run_all locked_in). intros [[[[o a2] a3] a4] a5]. apply keeps_sys_prctl.
Qed.

(** PR_SET_MDWE with admissible bits on a task without any returns 0 and
    PR_GET_MDWE returns those bits afterwards. *)
Theorem set_mdwe_get_mdwe bits t :
  config_parisc = false -> (forall a b c d e, security_task_prctl a b c d e = - ENOSYS) ->
  bits ∈ [PR_MDWE_REFUSE_EXEC_GAIN; 3] -> get_current_mdwe t = 0 ->
  exists t', run (sys_prctl 65 bits 0 0 0) t = (0, t') /\ run (sys_prctl 66 0 0 0 0) t' = (bits, t').
Proof.
  intros Hp Hs Hb Ht. destruct (prctl_set_mdwe bits 0 0 0 t) as [o t'] eqn:E. exists t'.
  assert (o = Val 0 /\ get_current_mdwe t' = bits) as [-> Hg].
  { destruct (set_mdwe_outcome _ _ _ _ _ _ _ E) as [(e & -> & _)|(-> & _ & ? & _)]; [|done].
    exfalso. rewrite !elem_of_cons, elem_of_nil in Hb. unfold prctl_set_mdwe in E.
    destruct Hb as [->|[->|[]]]; sys_inv E; first [done|congruence|lia]. }
  split.
  - unfold run, sys_prctl. rewrite Hs. unfold sbind at 1. simpl. by rewrite E.
  - unfold sys_prctl. rewrite Hs. autounfold with sys_unfold. simpl. unfold prctl_get_mdwe.
    autounfold with sys_unfold. cbv beta. by rewrite Hg.
Qed.

(** The flags after setting a policy, and the policy they stand for. *)
Definition mce_flags (policy f : Z) : Z :=
  let f := Z.lor f PF_MCE_PROCESS in
  if policy =? PR_MCE_KILL_EARLY then Z.lor f PF_MCE_EARLY
  else if policy =? PR_MCE_KILL_LATE then Z.ldiff f PF_MCE_EARLY
  else Z.ldiff f (Z.lor PF_MCE_EARLY PF_MCE_PROCESS).
Lemma mce_flags_policy policy f :
  policy ∈ [PR_MCE_KILL_LATE; PR_MCE_KILL_EARLY; PR_MCE_KILL_DEFAULT] -> mce_policy (mce_flags policy f) = policy.
Proof.
  rewrite !elem_of_cons, elem_of_nil. unfold mce_policy. intros [->|[->|[->|[]]]]; unfold mce_flags; simpl.
  - by rewrite has_ldiff_other, has_lor_same, has_ldiff_same.
  - by rewrite has_lor_other, !has_lor_same.
  - replace (has _ PF_MCE_PROCESS) with false; [done|]. symmetry. unfold has. apply negb_false_iff, Z.eqb_eq.
    apply Z.bits_inj'. intros n Hn. change 134217856 with (Z.lor PF_MCE_EARLY PF_MCE_PROCESS).
    rewrite Z.bits_0, Z.land_spec, Z.ldiff_spec, !Z.lor_spec.
    by destruct (Z.testbit PF_MCE_EARLY n), (Z.testbit PF_MCE_PROCESS n), (Z.testbit f n).
Qed.

(** The machine-check policy set with PR_MCE_KILL is the one
    PR_MCE_KILL_GET reports, for the three policies. *)
Theorem mce_kill_set_get policy t :
  (forall a b c d e, security_task_prctl a b c d e = - ENOSYS) ->
  policy ∈ [PR_MCE_KILL_LATE; PR_MCE_KILL_EARLY; PR_MCE_KILL_DEFAULT] ->
  exists t', run (sys_prctl 33 PR_MCE_KILL_SET policy 0 0) t = (0, t') /\
             run (sys_prctl 34 0 0 0 0) t' = (policy, t').
Proof.
  intros Hs Hp. exists (set_flags (mce_flags policy) t). split.
  - rewrite prctl_dispatch by done. rewrite !elem_of_cons, elem_of_nil in Hp.
    by destruct Hp as [->|[->|[->|[]]]].
  - rewrite prctl_dispatch by done.
    rewrite <- (mce_flags_policy policy (flags t) Hp) at 2. reflexivity.
Qed.

(** PR_MCE_KILL_SET with an unknown policy returns -EINVAL, yet leaves
    the task marked as having a policy of its own. *)
Theorem mce_kill_rejected_still_marks policy t :
  (forall a b c d e, security_task_prctl a b c d e = - ENOSYS) ->
  policy ∉ [PR_MCE_KILL_LATE; PR_MCE_KILL_EARLY; PR_MCE_KILL_DEFAULT] ->
  let '(r, t') := run (sys_prctl 33 PR_MCE_KILL_SET policy 0 0) t in
  r = - EINVAL /\ has (flags t') PF_MCE_PROCESS = true.
Proof.
  intros Hs Hp. rewrite !elem_of_cons, elem_of_nil in Hp.
  rewrite prctl_dispatch by done. unfold run; simpl. unfold prctl_mce_kill. sys_unfold.
  replace (policy =? PR_MCE_KILL_EARLY) with false by lia. replace (policy =? PR_MCE_KILL_LATE) with false by lia.
  replace (policy =? PR_MCE_KILL_DEFAULT) with false by lia. simpl. by rewrite has_lor_same.
Qed.

(** PR_GET_NAME after PR_SET_NAME stores the first 15 characters of the
    name, up to its NUL, padded with NULs to the 16 bytes of comm. *)
Theorem set_name_get_name src dst t t1 t2 :
  (forall a b c d e, security_task_prctl a b c d e = - ENOSYS) ->
  run (sys_prctl 15 src 0 0 0) t = (0, t1) -> run (sys_prctl 16 dst 0 0 0) t1 = (0, t2) ->
  let s := cstr (read_bytes (umem_ (mm t)) src 15) in
  read_bytes (umem_ (mm t2)) dst TASK_COMM_LEN = s ++ replicate (TASK_COMM_LEN - length s) 0.
Proof.
  intros Hs E1 E2 s.
  assert (comm t1 = comm_of (read_bytes (umem_ (mm t)) src 15)) as Hc.
  { rewrite prctl_dispatch in E1 by done. change (run (prctl_set_name src) t = (0, t1)) in E1.
    apply run_inv in E1. unfold prctl_set_name in E1. destruct E1 as [E|E]; by sys_inv E. }
  assert (umem_ (mm t2) = write_bytes (umem_ (mm t1)) dst (comm t1)) as ->.
  { rewrite prctl_dispatch in E2 by done. change (run (prctl_get_name dst) t1 = (0, t2)) in E2.
    apply run_inv in E2. unfold prctl_get_name in E2. destruct E2 as [E|E]; sys_inv E.
    simpl. eapply put_bytes_ok. match goal with H : put_bytes _ _ _ = (?z, _) |- _ => replace 0 with z by lia; exact H end. }
  assert (comm_of (read_bytes (umem_ (mm t)) src 15) = s ++ replicate (TASK_COMM_LEN - length s) 0) as Hs'.
  { unfold comm_of. by rewrite (take_ge (read_bytes _ _ _)) by (by rewrite length_read_bytes). }
  rewrite Hc, Hs'. set (l := s ++ _).
  replace TASK_COMM_LEN with (length l); [apply read_write_same|].
  subst l. rewrite length_app, length_replicate.
  assert (length s <= 15)%nat; [|lia]. subst s. unfold cstr. rewrite length_take, length_read_bytes. lia.
Qed.
End theorems.

Module Demo.
#[local] Existing Instances root_caps uaccess_ok PrctlMm.Demo.env0.
Definition env0 : PrctlEnv := {|
  security_task_prctl _ _ _ _ _ := - ENOSYS; delegate := arch_fallback;
  ksm_merge_any on f := (0, if on then Z.setbit f MMF_VM_MERGE_ANY else Z.clearbit f MMF_VM_MERGE_ANY);
  lock_killed := false; name_faults _ := false; strndup_user m a n := inr (cstr (read_bytes m a 80));
  anon_name_alloc := true; madvise_set_anon_name _ _ _ := 0; config_parisc := false;
  proc_table := ProcTree.Demo.pt0; self_leader := 1; max_steps := 11; is_child_reaper p := p =? 11 |}.
#[local] Existing Instance env0.
#[local] Instance laws0 : PrctlLaws.
Proof. split. intros [] f b Hb; simpl; [apply Z.setbit_neq|apply Z.clearbit_neq]; lia. Qed.
Definition t0 : task := Tsk 0 1 (replicate 16 0) 0 50000 50000 false false 0 0
  (Mm PrctlMm.Demo.lay0 (replicate 32 0) 5 (write_bytes ∅ 1000 (bytes_of "gestor de memoria"))) ∅ [].

Lemma prctl_cannot_unlock_witness :
  let t1 := (run (sys_prctl 65 3 0 0 0) (run (sys_prctl 38 1 0 0 0) t0).2).2 in
  let t2 := run_all exec_prctl [(38, 0, 0, 0, 0); (65, 0, 0, 0, 0); (65, 1, 0, 0, 0); (67, 1, 0, 0, 0)] t1 in
  no_new_privs t1 = true /\ get_current_mdwe t1 = 3 /\ no_new_privs t2 = true /\ get_current_mdwe t2 = 3.
Proof.
  intros t1 t2. destruct (prctl_cannot_unlock [(38, 0, 0, 0, 0); (65, 0, 0, 0, 0); (65, 1, 0, 0, 0); (67, 1, 0, 0, 0)] t1) as [H1 H2].
  assert (no_new_privs t1 = true) as E1 by (vm_compute; reflexivity).
  assert (get_current_mdwe t1 = 3) as E2 by (vm_compute; reflexivity).
  split_and!; [exact E1|exact E2|exact (H1 E1)|]. fold t2 in H2. rewrite H2; rewrite E2; done.
Defined.
Lemma set_mdwe_get_mdwe_witness :
  exists t', run (sys_prctl 65 3 0 0 0) t0 = (0, t') /\ run (sys_prctl 66 0 0 0 0) t' = (3, t').
Proof. apply (set_mdwe_get_mdwe 3 t0); [reflexivity|reflexivity|set_solver|reflexivity]. Defined.
Lemma mce_kill_set_get_witness :
  exists t', run (sys_prctl 33 PR_MCE_KILL_SET PR_MCE_KILL_EARLY 0 0) t0 = (0, t') /\
             run (sys_prctl 34 0 0 0 0) t' = (PR_MCE_KILL_EARLY, t').
Proof. apply (mce_kill_set_get PR_MCE_KILL_EARLY t0); [reflexivity|set_solver]. Defined.
Lemma mce_kill_rejected_still_marks_witness :
  has (flags (run (sys_prctl 33 PR_MCE_KILL_SET 7 0 0) t0).2) PF_MCE_PROCESS = true.
Proof.
  exact (proj2 (mce_kill_rejected_still_marks 7 t0 (fun _ _ _ _ _ => eq_refl)
    ltac:(rewrite !elem_of_cons, elem_of_nil; lia))).
Defined.
Lemma set_name_get_name_witness :
  let t2 := (run (sys_prctl 16 2000 0 0 0) (run (sys_prctl 15 1000 0 0 0) t0).2).2 in
  read_bytes (umem_ (mm t2)) 2000 16 = bytes_of "gestor de memor" ++ [0].
Proof.
  refine (set_name_get_name 1000 2000 t0 _ _ _ _ _); [reflexivity|vm_compute; reflexivity|vm_compute; reflexivity].
Defined.
End Demo.
