(* ===== verification/Sysinfo.v ===== *)
(** * [getcpu] and [sysinfo]

    sys.c 2812-2902 and 3100-3163. *)
From S2P Require Import Prelude.

Record sysinfo := Sysinfo {
  uptime : Z; loads : list Z;
  totalram : Z; freeram : Z; sharedram : Z; bufferram : Z; totalswap : Z; freeswap : Z;
  procs : Z; totalhigh : Z; freehigh : Z; mem_unit : Z;
}.
Definition sysinfo0 : sysinfo := Sysinfo 0 [0; 0; 0] 0 0 0 0 0 0 0 0 0 0.

(** Memory management and time keeping. *)
Class SysinfoEnv := {
  boottime : Z * Z;                      (** seconds and nanoseconds, with the namespace offset *)
  avenrun : list Z;                      (** the three load averages, shifted *)
  nr_threads : Z;
  si_meminfo : sysinfo -> sysinfo;       (** fills the RAM fields and [mem_unit] *)
  si_swapinfo : sysinfo -> sysinfo;      (** fills the swap fields *)
}.
(** What the memory manager documents of the two: each leaves the fields of
    the other alone, the unit is a power of two below 2^32, and parts do not
    exceed their totals. *)
Class SysinfoLaws `{SysinfoEnv} := {
  si_unit i : exists k, 0 <= k < 32 /\ mem_unit (si_meminfo i) = 2 ^ k;
  si_swap_keeps i : totalram (si_swapinfo i) = totalram i /\ freeram (si_swapinfo i) = freeram i /\
    sharedram (si_swapinfo i) = sharedram i /\ bufferram (si_swapinfo i) = bufferram i /\
    totalhigh (si_swapinfo i) = totalhigh i /\ freehigh (si_swapinfo i) = freehigh i /\
    mem_unit (si_swapinfo i) = mem_unit i;
  si_ram i : is_u64 (totalram (si_meminfo i)) /\
    Forall (fun v => 0 <= v <= totalram (si_meminfo i))
      [freeram (si_meminfo i); sharedram (si_meminfo i); bufferram (si_meminfo i);
       totalhigh (si_meminfo i); freehigh (si_meminfo i)];
  si_swap i : is_u64 (totalswap (si_swapinfo i)) /\ 0 <= freeswap (si_swapinfo i) <= totalswap (si_swapinfo i);
}.

(** The loop that shifts the total once per bit of the unit; [None] is
    [goto out].  Its result is the shift to apply. *)
Fixpoint scale_loop (fuel : nat) (mem_unit mem_total bitcount : Z) : option Z :=
  match fuel with
  | O => None
  | S n =>
      if 1 <? mem_unit then
        let sav_total := mem_total in
        let mem_total := shl64 mem_total 1 in
        if mem_total <? sav_total then None
        else scale_loop n (Z.shiftr mem_unit 1) mem_total (bitcount + 1)
      else Some bitcount
  end.

(** A 32-bit unit is gone after 32 halvings. *)
Definition scale (i : sysinfo) : option Z :=
  let mem_total := u64 (totalram i + totalswap i) in
  if (mem_total <? totalram i) || (mem_total <? totalswap i) then None
  else scale_loop 33 (mem_unit i) mem_total 0.

Definition shift_left (i : sysinfo) (b : Z) : sysinfo :=
  Sysinfo (uptime i) (loads i) (shl64 (totalram i) b) (shl64 (freeram i) b) (shl64 (sharedram i) b)
    (shl64 (bufferram i) b) (shl64 (totalswap i) b) (shl64 (freeswap i) b) (procs i)
    (shl64 (totalhigh i) b) (shl64 (freehigh i) b) 1.

Section sysinfo.
Context {ua : UAccess} {senv : SysinfoEnv}.

(** The structure before scaling. *)
Definition collected : sysinfo :=
  let '(sec, nsec) := boottime in
  si_swapinfo (si_meminfo (Sysinfo (s64 (sec + (if negb (nsec =? 0) then 1 else 0))) avenrun
    0 0 0 0 0 0 (u16 nr_threads) 0 0 0)).

Definition do_sysinfo : sysinfo :=
  match scale collected with
  | Some b => shift_left collected b
  | None => collected
  end.

Record smem := SMem { words : gmap Z Z; infos : gmap Z sysinfo }.

Definition sys_sysinfo (info : Z) : sys smem Z :=
  let* s := sgets (fun s => s) in
  let '(rest, m) := copy_to_user (infos s) info do_sysinfo 112 in
  do* smodify (fun s => SMem (words s) m) in
  do* fail_if (negb (rest =? 0)) (- EFAULT) in
  sret 0.

Definition put_word (v dst : Z) : sys smem Z :=
  let* s := sgets (fun s => s) in
  let '(err, m) := put_user (words s) v dst 4 in
  do* smodify (fun s => SMem m (infos s)) in
  sret err.

Definition sys_getcpu (cpu node cpup nodep : Z) : sys smem Z :=
  let* e1 := (if negb (cpup =? 0) then put_word cpu cpup else sret 0) in
  let* e2 := (if negb (nodep =? 0) then put_word node nodep else sret 0) in
  sret (if negb (Z.lor e1 e2 =? 0) then - EFAULT else 0).

(** ** The 32-bit layout *)
(** [while (s.mem_unit < PAGE_SIZE) s.mem_unit <<= 1;] *)
Fixpoint unit_loop (fuel : nat) (mem_unit bitcount : Z) : option (Z * Z) :=
  if mem_unit <? 4096 then
    match fuel with
    | O => None
    | S n => unit_loop n (u32 (Z.shiftl mem_unit 1)) (bitcount + 1)
    end
  else Some (mem_unit, bitcount).

Definition shift_right (i : sysinfo) (u b : Z) : sysinfo :=
  Sysinfo (uptime i) (loads i) (Z.shiftr (totalram i) b) (Z.shiftr (freeram i) b) (Z.shiftr (sharedram i) b)
    (Z.shiftr (bufferram i) b) (Z.shiftr (totalswap i) b) (Z.shiftr (freeswap i) b) (procs i)
    (Z.shiftr (totalhigh i) b) (Z.shiftr (freehigh i) b) u.
Definition narrow (s : sysinfo) : sysinfo :=
  Sysinfo (s32 (uptime s)) (u32 <$> loads s) (u32 (totalram s)) (u32 (freeram s)) (u32 (sharedram s))
    (u32 (bufferram s)) (u32 (totalswap s)) (u32 (freeswap s)) (u16 (procs s))
    (u32 (totalhigh s)) (u32 (freehigh s)) (u32 (mem_unit s)).

(** [None]: the unit loop did not end within twelve doublings. *)
Definition compat_view (s : sysinfo) : option sysinfo :=
  if negb (Z.shiftr (totalram s) 32 =? 0) || negb (Z.shiftr (totalswap s) 32 =? 0) then
    match unit_loop 12 (mem_unit s) 0 with
    | Some (u, b) => Some (narrow (shift_right s u b))
    | None => None
    end
  else Some (narrow s).

Definition compat_sys_sysinfo (info : Z) : sys smem Z :=
  let* s_32 := some_or (compat_view do_sysinfo) 0 in
  let* s := sgets (fun s => s) in
  let '(rest, m) := copy_to_user (infos s) info s_32 64 in
  do* smodify (fun s => SMem (words s) m) in
  do* fail_if (negb (rest =? 0)) (- EFAULT) in
  sret 0.

(** ** Properties *)
Lemma double_overflow x : is_u64 x -> (shl64 x 1 <? x) = (u64_mod <=? x * 2).
Proof.
  intros Hx. rewrite shl64_mul by lia. change (2 ^ 1) with 2. unfold is_u64 in Hx. unfold u64.
  destruct (Z.leb_spec u64_mod (x * 2)).
  - apply Z.ltb_lt. replace (x * 2) with (x * 2 - u64_mod + 1 * u64_mod) by lia.
    rewrite Z_mod_plus_full, Z.mod_small; lia.
  - apply Z.ltb_ge. rewrite Z.mod_small; lia.
Qed.

Lemma scale_loop_spec fuel k m b : (0 <= k) -> is_u64 m -> (Z.to_nat k < fuel)%nat ->
  scale_loop fuel (2 ^ k) m b = if m * 2 ^ k <? u64_mod then Some (b + k) else None.
Proof.
  intros Hk. revert fuel m b. pattern k. apply natlike_ind; [| |done]; clear k Hk.
  - intros [|n] m b Hm Hf; [lia|]. unfold is_u64 in Hm. change (2 ^ 0) with 1. cbn [scale_loop].
    change (1 <? 1) with false. cbv iota. rewrite Z.mul_1_r.
    replace (m <? u64_mod) with true by lia. f_equal. lia.
  - intros k Hk IH [|n] m b Hm Hf; [lia|]. unfold is_u64 in *. cbn [scale_loop].
    rewrite Z.pow_succ_r by done. pose proof (Z.pow_pos_nonneg 2 k).
    replace (1 <? 2 * 2 ^ k) with true by lia.
    rewrite double_overflow by done. destruct (Z.leb_spec u64_mod (m * 2)).
    + replace (m * (2 * 2 ^ k) <? u64_mod) with false by nia. done.
    + rewrite Z.shiftr_div_pow2 by lia. change (2 ^ 1) with 2.
      replace (2 * 2 ^ k / 2) with (2 ^ k) by (rewrite Z.mul_comm, Z.div_mul; lia).
      rewrite shl64_small by (unfold is_u64; change (2 ^ 1) with 2; lia). change (2 ^ 1) with 2.
      rewrite IH by (unfold is_u64; lia). rewrite <- Z.mul_assoc.
      destruct (m * (2 * 2 ^ k) <? u64_mod); [|done]. f_equal. lia.
Qed.

(** A quantity in bytes, and the scaled structure. *)
Definition scaled (i : sysinfo) (k : Z) : sysinfo :=
  Sysinfo (uptime i) (loads i) (totalram i * 2 ^ k) (freeram i * 2 ^ k) (sharedram i * 2 ^ k)
    (bufferram i * 2 ^ k) (totalswap i * 2 ^ k) (freeswap i * 2 ^ k) (procs i)
    (totalhigh i * 2 ^ k) (freehigh i * 2 ^ k) 1.

Lemma scale_spec i k : 0 <= k < 32 -> mem_unit i = 2 ^ k -> is_u64 (totalram i) -> is_u64 (totalswap i) ->
  scale i = if (totalram i + totalswap i) * 2 ^ k <? u64_mod then Some k else None.
Proof.
  intros Hk Hu Hr Hs. unfold scale, is_u64 in *. rewrite Hu. pose proof (Z.pow_pos_nonneg 2 k).
  destruct (Z.ltb_spec (totalram i + totalswap i) u64_mod).
  - rewrite u64_small by (unfold is_u64; lia).
    replace ((_ <? totalram i) || _) with false by lia.
    rewrite scale_loop_spec by (unfold is_u64; lia). by case_match.
  - replace ((totalram i + totalswap i) * 2 ^ k <? u64_mod) with false by nia.
    unfold u64. replace (totalram i + totalswap i) with (totalram i + totalswap i - u64_mod + 1 * u64_mod) by lia.
    rewrite Z_mod_plus_full, Z.mod_small by lia.
    by replace ((_ <? totalram i) || _) with true by lia.
Qed.

(** The memory fields of the structure. *)
Definition mem_fields : list (sysinfo -> Z) :=
  [totalram; freeram; sharedram; bufferram; totalswap; freeswap; totalhigh; freehigh].
(** Every memory field is at most one of the totals. *)
Definition bounded (i : sysinfo) : Prop :=
  is_u64 (totalram i) /\ is_u64 (totalswap i) /\
  Forall (fun f => 0 <= f i <= Z.max (totalram i) (totalswap i)) mem_fields.

Lemma collected_ok `{!SysinfoLaws} :
  bounded collected /\ exists k, 0 <= k < 32 /\ mem_unit collected = 2 ^ k.
Proof.
  unfold collected. destruct boottime as [sec nsec]. set (i := Sysinfo _ _ _ _ _ _ _ _ _ _ _ _).
  destruct (si_unit i) as (k & Hk & Hu), (si_ram i) as [Hr Hf], (si_swap (si_meminfo i)) as [Hs Hfs].
  destruct (si_swap_keeps (si_meminfo i)) as (E1 & E2 & E3 & E4 & E5 & E6 & E7).
  split; [|exists k; by rewrite E7].
  unfold bounded, is_u64 in *. rewrite !Forall_cons in Hf. destruct Hf as (? & ? & ? & ? & ? & _).
  unfold mem_fields. rewrite !Forall_cons, Forall_nil, E1, E2, E3, E4, E5, E6. lia.
Qed.

Lemma shift_left_scaled i k : 0 <= k -> bounded i -> (totalram i + totalswap i) * 2 ^ k < u64_mod ->
  shift_left i k = scaled i k.
Proof.
  intros Hk (Hr & Hs & Hf) Hfit. unfold mem_fields in Hf. rewrite !Forall_cons in Hf.
  destruct Hf as (? & ? & ? & ? & ? & ? & ? & ? & _). pose proof (Z.pow_pos_nonneg 2 k).
  unfold shift_left, scaled. f_equal; apply shl64_small; unfold is_u64; nia.
Qed.

Lemma do_sysinfo_eq `{!SysinfoLaws} k : 0 <= k < 32 -> mem_unit collected = 2 ^ k ->
  do_sysinfo = if (totalram collected + totalswap collected) * 2 ^ k <? u64_mod
               then scaled collected k else collected.
Proof.
  intros Hk Hu. destruct collected_ok as [Hb _]. unfold do_sysinfo.
  rewrite (scale_spec _ k) by (done || apply Hb).
  destruct (Z.ltb_spec ((totalram collected + totalswap collected) * 2 ^ k) u64_mod); [|done].
  apply shift_left_scaled; lia || done.
Qed.
Lemma mem_field_scaled f i k : f ∈ mem_fields -> f (scaled i k) = f i * 2 ^ k.
Proof. unfold mem_fields. set_unfold. naive_solver. Qed.

(** [do_sysinfo] reports memory in bytes whenever RAM and swap together
    fit in 64 bits, and in the original unit otherwise; either way no shift
    overflows: every field times the reported unit is the same number of
    bytes as before scaling. *)
Theorem sysinfo_conserves_bytes `{!SysinfoLaws} f :
  f ∈ mem_fields ->
  f do_sysinfo * mem_unit do_sysinfo = f collected * mem_unit collected /\
  ((totalram collected + totalswap collected) * mem_unit collected < u64_mod -> mem_unit do_sysinfo = 1).
Proof.
  intros Hf. destruct collected_ok as [Hb (k & Hk & Hu)]. rewrite (do_sysinfo_eq k Hk Hu), Hu.
  destruct (Z.ltb_spec ((totalram collected + totalswap collected) * 2 ^ k) u64_mod).
  - rewrite mem_field_scaled by done. simpl. split; [lia|done].
  - split; [by rewrite Hu|lia].
Qed.

Lemma narrow_field f i : f ∈ mem_fields -> f (narrow i) = u32 (f i).
Proof. unfold mem_fields. set_unfold. naive_solver. Qed.
Lemma shift_right_field f i u b : f ∈ mem_fields -> f (shift_right i u b) = Z.shiftr (f i) b.
Proof. unfold mem_fields. set_unfold. naive_solver. Qed.

(** Up to 16 TiB of RAM and swap, the 32-bit [sysinfo] ends its unit loop
    and reports every memory field rounded down to its unit, without losing
    high bits. *)
Theorem compat_sysinfo_rounds_down `{!SysinfoLaws} f :
  f ∈ mem_fields -> (totalram collected + totalswap collected) * mem_unit collected < 2 ^ 44 ->
  exists v, compat_view do_sysinfo = Some v /\
    f v * mem_unit v <= f collected * mem_unit collected < (f v + 1) * mem_unit v.
Proof.
  intros Hf Hfit. destruct collected_ok as [Hb (k & Hk & Hu)].
  assert (do_sysinfo = scaled collected k) as ->.
  { rewrite (do_sysinfo_eq k Hk Hu). rewrite Hu in Hfit. by replace (_ <? u64_mod) with true by lia. }
  assert (forall g, g ∈ mem_fields -> 0 <= g collected * 2 ^ k < 2 ^ 44) as Hg.
  { intros g Hin. destruct Hb as ([? _] & [? _] & Hall). rewrite Forall_forall in Hall.
    specialize (Hall g Hin). simpl in Hall. rewrite Hu in Hfit. pose proof (Z.pow_pos_nonneg 2 k).
    assert (0 <= g collected <= totalram collected + totalswap collected) by lia. clear Hall. nia. }
  rewrite Hu. specialize (Hg f Hf) as Hfr. unfold compat_view.
  pose proof (mem_field_scaled f collected k Hf) as Hfs. change (2 ^ 44) with 17592186044416 in *.
  destruct (_ || _) eqn:Hbig.
  - change (mem_unit (scaled collected k)) with 1. change (unit_loop 12 1 0) with (Some (4096, 12)).
    eexists. split; [done|]. rewrite narrow_field, shift_right_field, Hfs by done.
    change (mem_unit (narrow _)) with 4096. rewrite Z.shiftr_div_pow2 by lia. change (2 ^ 12) with 4096.
    pose proof (Z.div_mod (f collected * 2 ^ k) 4096). pose proof (Z.mod_pos_bound (f collected * 2 ^ k) 4096).
    rewrite u32_small; [lia|]. unfold is_u32. split; [apply Z.div_pos; lia|apply Z.div_lt_upper_bound; lia].
  - assert (0 <= f collected <= Z.max (totalram collected) (totalswap collected)) as Hmax.
    { destruct Hb as (_ & _ & Hall). rewrite Forall_forall in Hall. exact (Hall f Hf). }
    pose proof (Z.pow_pos_nonneg 2 k). apply orb_false_iff in Hbig as [H1 H2]. apply negb_false_iff, Z.eqb_eq in H1, H2.
    rewrite Z.shiftr_div_pow2 in H1, H2 by lia. change (2 ^ 32) with u32_mod in *. eexists. split; [done|].
    rewrite narrow_field, Hfs by done. change (mem_unit (narrow _)) with 1.
    rewrite u32_small; [lia|]. unfold is_u32. split; [lia|].
    assert (totalram (scaled collected k) < u32_mod /\ totalswap (scaled collected k) < u32_mod) as [? ?].
    { pose proof (Z.div_mod (totalram (scaled collected k)) u32_mod).
      pose proof (Z.mod_pos_bound (totalram (scaled collected k)) u32_mod).
      pose proof (Z.div_mod (totalswap (scaled collected k)) u32_mod).
      pose proof (Z.mod_pos_bound (totalswap (scaled collected k)) u32_mod). lia. }
    simpl in *. nia.
Qed.
End sysinfo.

Module Demo.
(** 8 GiB of RAM and 2 GiB of swap, counted in pages. *)
Definition env0 : SysinfoEnv := {|
  boottime := (100, 5); avenrun := [1; 2; 3]; nr_threads := 70000;
  si_meminfo i := Sysinfo (uptime i) (loads i) 2097152 1000000 10 20 (totalswap i) (freeswap i) (procs i) 0 0 4096;
  si_swapinfo i := Sysinfo (uptime i) (loads i) (totalram i) (freeram i) (sharedram i) (bufferram i)
    524288 500000 (procs i) (totalhigh i) (freehigh i) (mem_unit i) |}.
#[local] Existing Instance env0.
#[local] Instance laws0 : SysinfoLaws.
Proof.
  split; intros i; simpl.
  - exists 12. lia.
  - done.
  - unfold is_u64. split; [lia|]. repeat constructor; lia.
  - unfold is_u64. lia.
Qed.

Lemma sysinfo_conserves_bytes_witness :
  totalram do_sysinfo * mem_unit do_sysinfo = 8589934592 /\ mem_unit do_sysinfo = 1.
Proof.
  destruct (sysinfo_conserves_bytes totalram) as [H1 H2]; [unfold mem_fields; set_solver|].
  split; [rewrite H1; reflexivity|apply H2; vm_compute; reflexivity].
Defined.
Lemma compat_sysinfo_rounds_down_witness :
  exists v, compat_view do_sysinfo = Some v /\ freeram v * mem_unit v <= 4096000000 < (freeram v + 1) * mem_unit v.
Proof.
  destruct (compat_sysinfo_rounds_down freeram) as (v & Hv & H);
    [unfold mem_fields; set_solver|vm_compute; reflexivity|]. exists v. split; [exact Hv|exact H].
Defined.
End Demo.
