(* ===== verification/Luis.v ===== *)
(** * The system calls of phases 1 and 2

    sys.c 2904-3094: memory snapshot, call counters, I/O statistics and
    [tamalloc].  Local variables the C code leaves uninitialised are arguments
    of the model ([stack_info], [stack_stats], [stack_date]): whatever the
    kernel stack held. *)
From S2P Require Import Prelude UMem Sysinfo.
From stdpp Require Import pretty.
#[local] Open Scope Z_scope.

Abbreviation PAGE_SHIFT := 12 (only parsing).
Abbreviation PAGE_SIZE := 4096 (only parsing).
Abbreviation MAX_PROCS := 20%nat (only parsing).

Record memory_snapshot := Snapshot {
  total_mem_kb : Z; free_mem_kb : Z; cached_mem_kb : Z; dirty_page_count : Z;
  slab_mem_kb : Z; reclaimable_slab_mem_kb : Z; active_page_count : Z; inactive_page_count : Z;
  total_swap_kb : Z; snapshot_date : list Z;        (** 36 bytes *)
}.
Record track_counters := Track { counter_open : Z; counter_read : Z; counter_write : Z; counter_fork : Z }.
Record io_stats := IoStats {
  pid : Z; comm : list Z; bytes_read : Z; bytes_written : Z; cancelled_write_bytes : Z; io_wait_time : Z;
}.
Record all_io_stats := AllIo { stats : list io_stats; num_procs : Z }.

(** A process as the I/O statistics see it. *)
Record proc := Proc {
  p_pid : Z; p_comm : list Z; p_read : Z; p_write : Z; p_cancelled : Z; p_runtime : Z; p_vruntime : Z;
}.

Record lstate := LState {
  call_counters : track_counters;              (** the four global counters *)
  procs_list : list proc;                      (** [for_each_process] order *)
  areas : gmap Z Z;                            (** mapped areas: address to size *)
  snaps : gmap Z memory_snapshot;
  tracks : gmap Z track_counters;
  ios : gmap Z all_io_stats;
  ptrs : gmap Z Z;                             (** user words *)
}.

(** Page statistics, wall-clock time and mappings. *)
Inductive node_stat := NR_ACTIVE_ANON | NR_ACTIVE_FILE | NR_INACTIVE_ANON | NR_INACTIVE_FILE
  | NR_FILE_DIRTY | NR_SLAB_UNRECLAIMABLE_B | NR_SLAB_RECLAIMABLE_B.
Record tm := Tm { tm_year : Z; tm_mon : Z; tm_mday : Z; tm_hour : Z; tm_min : Z; tm_sec : Z }.
Class LuisEnv := {
  global_node_page_state : node_stat -> Z;
  now_tm : tm;                                 (** [ktime_get_real_ts64] and [time64_to_tm] *)
  vm_mmap : gmap Z Z -> Z -> Z;                (** address, or an error as an unsigned value *)
  alloc_page : option Z;                       (** a zeroed page *)
}.

(** [%0<w>d] for a number that is not negative *)
Definition pad0 (w : nat) (n : Z) : list Z :=
  let s := bytes_of (pretty n) in replicate (w - length s) 48 ++ s.
Definition fmt_date (t : tm) : list Z :=
  pad0 4 (tm_year t + 1900) ++ bytes_of "-" ++ pad0 2 (tm_mon t + 1) ++ bytes_of "-" ++ pad0 2 (tm_mday t) ++
  bytes_of " " ++ pad0 2 (tm_hour t) ++ bytes_of ":" ++ pad0 2 (tm_min t) ++ bytes_of ":" ++
  pad0 2 (tm_sec t) ++ bytes_of " UTC".
(** [snprintf(buf, size, ..)]: text cut to [size - 1], a NUL, the old bytes behind it. *)
Definition snprintf (old out : list Z) : list Z :=
  let l := take (length old - 1) out ++ [0] in l ++ drop (length l) old.

Section luis.
Context {ua : UAccess} {senv : SysinfoEnv} {lenv : LuisEnv}.

Definition pages_kb (n : Z) : Z := shl64 n (PAGE_SHIFT - 10).

Definition local_snapshot (stack_info : sysinfo) (stack_date : list Z) : memory_snapshot :=
  let sys_info := si_meminfo stack_info in
  Snapshot (pages_kb (totalram sys_info)) (pages_kb (freeram sys_info)) (pages_kb (bufferram sys_info))
    (global_node_page_state NR_FILE_DIRTY)
    (pages_kb (global_node_page_state NR_SLAB_UNRECLAIMABLE_B))
    (pages_kb (global_node_page_state NR_SLAB_RECLAIMABLE_B))
    (u64 (global_node_page_state NR_ACTIVE_ANON + global_node_page_state NR_ACTIVE_FILE))
    (u64 (global_node_page_state NR_INACTIVE_ANON + global_node_page_state NR_INACTIVE_FILE))
    (pages_kb (totalswap sys_info))
    (snprintf stack_date (fmt_date now_tm)).

Definition sys_luis_capture_memory_snapshot (stack_info : sysinfo) (stack_date : list Z)
    (user_snapshot : Z) : sys lstate Z :=
  do* fail_if (user_snapshot =? 0) (- EINVAL) in
  let* s := sgets (fun s => s) in
  let '(rest, m) := copy_to_user (snaps s) user_snapshot (local_snapshot stack_info stack_date) 112 in
  do* smodify (fun s => LState (call_counters s) (procs_list s) (areas s) m (tracks s) (ios s) (ptrs s)) in
  do* fail_if (negb (rest =? 0)) (- EFAULT) in
  sret 0.

Definition sys_luis_track_syscall_usage (trackers : Z) : sys lstate Z :=
  let* s := sgets (fun s => s) in
  let c := call_counters s in
  let local_trackers := Track (counter_open c) (counter_read c) (counter_write c) (counter_fork c) in
  let '(rest, m) := copy_to_user (tracks s) trackers local_trackers 32 in
  do* smodify (fun s => LState (call_counters s) (procs_list s) (areas s) (snaps s) m (ios s) (ptrs s)) in
  do* fail_if (negb (rest =? 0)) (- EFAULT) in
  sret 0.

(** [strncpy(comm, task->comm, 17)] and the NUL after it: 18 bytes. *)
Definition comm18 (c : list Z) : list Z :=
  let s := take 17 (cstr c) in s ++ replicate (18 - length s) 0.
Definition io_entry (p : proc) : io_stats :=
  IoStats (p_pid p) (comm18 (p_comm p)) (p_read p) (p_write p) (p_cancelled p)
    (u64 (p_runtime p - p_vruntime p)).
Definition idle (p : proc) : bool := (p_read p =? 0) && (p_write p =? 0).

(** The loop over the processes: [i] entries of [st] are filled. *)
Fixpoint fill_io (ps : list proc) (i : nat) (st : list io_stats) : nat * list io_stats :=
  match ps with
  | [] => (i, st)
  | p :: ps' =>
      if idle p then fill_io ps' i st
      else if (MAX_PROCS <=? i)%nat then (i, st)
      else fill_io ps' (S i) (<[i := io_entry p]> st)
  end.

Definition sys_luis_get_io_throttle (stack_stats : list io_stats) (user_stats : Z) : sys lstate Z :=
  let* s := sgets (fun s => s) in
  let '(i, st) := fill_io (procs_list s) 0 stack_stats in
  do* fail_if (negb (access_ok user_stats 1128)) (- EFAULT) in
  let '(rest, m) := copy_to_user (ios s) user_stats (AllIo st (Z.of_nat i)) 1128 in
  do* smodify (fun s => LState (call_counters s) (procs_list s) (areas s) (snaps s) (tracks s) m (ptrs s)) in
  do* fail_if (negb (rest =? 0)) (- EFAULT) in
  sret 0.

Definition PAGE_ALIGN (size : Z) : Z := Z.land (u64 (size + 4095)) (u64_mod - PAGE_SIZE).
(** [IS_ERR_VALUE(x)]: [x >= (unsigned long)-MAX_ERRNO] *)
Definition IS_ERR_VALUE (x : Z) : bool := u64_mod - 4095 <=? x.

Definition sys_luis_tamalloc (size addr : Z) : sys lstate Z :=
  let size := PAGE_ALIGN size in
  let* s := sgets (fun s => s) in
  let user_addr := vm_mmap (areas s) size in
  do* fail_if (IS_ERR_VALUE user_addr) (s64 user_addr) in
  do* smodify (fun s => LState (call_counters s) (procs_list s) (<[user_addr := size]> (areas s))
                          (snaps s) (tracks s) (ios s) (ptrs s)) in
  let '(rest, m) := copy_to_user (ptrs s) addr user_addr 8 in
  do* smodify (fun s => LState (call_counters s) (procs_list s) (areas s) (snaps s) (tracks s) (ios s) m) in
  if negb (rest =? 0) then
    do* smodify (fun s => LState (call_counters s) (procs_list s) (delete user_addr (areas s))
                            (snaps s) (tracks s) (ios s) (ptrs s)) in
    sexit (- EFAULT)
  else sret 0.

Abbreviation VM_FAULT_OOM := 1 (only parsing).
(** The fault result and the page handed back. *)
Definition tamalloc_page_fault_handler : Z * option Z :=
  match alloc_page with
  | None => (VM_FAULT_OOM, None)
  | Some page => (0, Some page)
  end.

(** ** Properties *)

(** A mapping has a fresh page-aligned address and a size, or is refused;
    nothing is mapped for size 0. *)
Class LuisLaws := {
  vm_mmap_u64 m n : is_u64 (vm_mmap m n);
  vm_mmap_fresh m n : IS_ERR_VALUE (vm_mmap m n) = false -> m !! vm_mmap m n = None;
  vm_mmap_empty m : IS_ERR_VALUE (vm_mmap m 0) = true;
}.
(** [si_meminfo] does not touch the swap fields: they are [si_swapinfo]'s. *)
Class MeminfoLaws := { meminfo_no_swap i : totalswap (si_meminfo i) = totalswap i }.

Lemma page_align_spec size : is_u64 size ->
  PAGE_ALIGN size = if size <=? u64_mod - PAGE_SIZE then (size + 4095) / 4096 * 4096 else 0.
Proof.
  unfold is_u64. intros Hs. unfold PAGE_ALIGN.
  assert (forall x, 0 <= x < u64_mod -> Z.land x (u64_mod - PAGE_SIZE) = x / 4096 * 4096) as Hland.
  { intros x Hx. change 4096 with (2 ^ 12). rewrite <- Z.shiftr_div_pow2, <- Z.shiftl_mul_pow2 by lia.
    apply Z.bits_inj'. intros n Hn. rewrite Z.land_spec.
    change (u64_mod - 2 ^ 12) with (Z.shiftl (Z.ones 52) 12).
    destruct (Z.ltb_spec n 12).
    - rewrite !Z.shiftl_spec_low by lia. apply andb_false_r.
    - rewrite !Z.shiftl_spec_high by lia. rewrite Z.shiftr_spec by lia. replace (n - 12 + 12) with n by lia.
      destruct (Z.ltb_spec n 64).
      + rewrite Z.ones_spec_low by lia. apply andb_true_r.
      + rewrite Z.ones_spec_high by lia. rewrite andb_false_r. symmetry.
        destruct (decide (x = 0)) as [->|]; [apply Z.testbit_0_l|].
        apply Z.bits_above_log2; [lia|]. apply Z.log2_lt_pow2; [lia|].
        apply Z.lt_le_trans with (2 ^ 64); [change (2 ^ 64) with u64_mod; lia|].
        apply Z.pow_le_mono_r; lia. }
  destruct (Z.leb_spec size (u64_mod - PAGE_SIZE)).
  - unfold u64. rewrite Z.mod_small by lia. apply Hland. lia.
  - unfold u64. replace (size + 4095) with (size - u64_mod + 4095 + 1 * u64_mod) by lia.
    rewrite Z_mod_plus_full, Z.mod_small by lia. rewrite Hland by lia. rewrite Z.div_small; lia.
Qed.

(** C19: [luis_tamalloc] either returns 0, having mapped one new area of the
    requested size rounded up to whole pages and stored its address for the
    caller; or returns an error and leaves the mappings exactly as they were,
    also when the address could not be stored.  A size that overflows when
    rounded is an error. *)
Theorem tamalloc_maps_or_leaves_alone `{!LuisLaws} size addr s r s' :
  is_u64 size -> run (sys_luis_tamalloc size addr) s = (r, s') ->
  let a := vm_mmap (areas s) (PAGE_ALIGN size) in
  (r = 0 /\ 0 < size <= u64_mod - PAGE_SIZE /\ areas s !! a = None /\
   areas s' = <[a := (size + 4095) / 4096 * 4096]> (areas s) /\ ptrs s' !! addr = Some a) \/
  (r < 0 /\ areas s' = areas s).
Proof.
  intros Hs E; cbv zeta. pose proof (page_align_spec size Hs) as Hpa. apply run_inv in E.
  pose proof (vm_mmap_u64 (areas s) (PAGE_ALIGN size)) as Ha.
  pose proof (vm_mmap_fresh (areas s) (PAGE_ALIGN size)) as Hfresh.
  pose proof (vm_mmap_empty (areas s)) as Hempty.
  unfold sys_luis_tamalloc in E.
  destruct E as [E|E]; sys_inv E.
  - left. split; [done|]. unfold copy_to_user in *. simplify_eq/=.
    replace (uncopied addr 8 =? 0) with true by lia. rewrite lookup_insert_eq.
    destruct (Z.leb_spec size (u64_mod - PAGE_SIZE)).
    + split; [|split_and!; auto; by rewrite Hpa].
      destruct (decide (size = 0)) as [->|]; [|unfold is_u64 in Hs; lia].
      change (PAGE_ALIGN 0) with 0 in *. congruence.
    + rewrite Hpa in *. congruence.
  - right. split; [|done]. set (a := vm_mmap _ _) in *. unfold IS_ERR_VALUE, is_u64, s64 in *.
    replace (a + 9223372036854775808) with (a - 9223372036854775808 + 1 * u64_mod) by lia.
    rewrite Z_mod_plus_full, Z.mod_small; lia.
  - right. split; [lia|]. simpl. apply delete_insert_id. auto.
Qed.

(** ** I/O statistics *)
Lemma fill_io_spec ps i st :
  (i <= MAX_PROCS)%nat -> length st = MAX_PROCS ->
  let es := io_entry <$> filter (fun p => idle p = false) ps in
  let n := Nat.min MAX_PROCS (i + length es) in
  fill_io ps i st = (n, take i st ++ take (n - i) es ++ drop n st).
Proof.
  revert i st. induction ps as [|p ps IH]; intros i st Hi Hst; cbv zeta; cbn [fill_io].
  { change (io_entry <$> filter _ []) with (@nil io_stats). cbn [length].
    rewrite Nat.add_0_r, Nat.min_r by done. rewrite take_nil. cbn [app]. by rewrite take_drop. }
  destruct (idle p) eqn:Hidle.
  - rewrite filter_cons_False by congruence. apply IH; done.
  - rewrite filter_cons_True by done. rewrite fmap_cons. cbn [length].
    destruct (Nat.leb_spec MAX_PROCS i) as [Hge|Hlt].
    + replace i with MAX_PROCS by lia. rewrite Nat.min_l by lia. rewrite Nat.sub_diag.
      change (take 0 _) with (@nil io_stats). cbn [app]. by rewrite take_drop.
    + rewrite IH by (rewrite ?length_insert; lia).
      set (es := @fmap list _ _ _ io_entry (filter _ ps)). replace (S i + length es)%nat with (i + S (length es))%nat by lia.
      set (n := Nat.min MAX_PROCS (i + S (length es))). f_equal.
      assert (S i <= n)%nat by lia.
      rewrite (take_S_r _ _ (io_entry p)) by (apply list_lookup_insert_eq; lia).
      rewrite take_insert_ge, drop_insert_lt by lia.
      replace (n - i)%nat with (S (n - S i)) by lia. cbn [take]. by rewrite <- app_assoc.
Qed.

(** [luis_get_io_throttle] reports, in process order, the first twenty
    processes that did any I/O, and how many entries it filled; every entry
    behind them reaches user space as the kernel stack left it. *)
Theorem io_throttle_reports_active stack_stats a s s' :
  length stack_stats = MAX_PROCS -> run (sys_luis_get_io_throttle stack_stats a) s = (0, s') ->
  let active := filter (fun p => idle p = false) (procs_list s) in
  let n := Nat.min MAX_PROCS (length active) in
  ios s' !! a = Some (AllIo (take n (io_entry <$> active) ++ drop n stack_stats) (Z.of_nat n)).
Proof.
  intros Hst E. pose proof (fill_io_spec (procs_list s) 0 stack_stats ltac:(lia) Hst) as Hf.
  cbv zeta in *. rewrite length_fmap, Nat.sub_0_r in Hf. cbn [Nat.add take app] in Hf.
  apply run_inv in E. unfold sys_luis_get_io_throttle in E. destruct E as [E|E]; sys_inv E.
  rewrite Hf in *. unfold copy_to_user in *. simplify_eq/=.
  replace (uncopied a 1128 =? 0) with true by lia. by rewrite lookup_insert_eq.
Qed.

(** The snapshot reports RAM in kilobytes, but its [total_swap_kb] is not
    computed from anything: it is whatever the uninitialised [sys_info] held,
    so two runs in the same memory state can differ. *)
Theorem snapshot_swap_is_uninitialised `{!MeminfoLaws} info date a s s' :
  run (sys_luis_capture_memory_snapshot info date a) s = (0, s') ->
  exists v, snaps s' !! a = Some v /\ total_mem_kb v = u64 (totalram (si_meminfo info) * 4) /\
    total_swap_kb v = u64 (totalswap info * 4).
Proof.
  intros E. apply run_inv in E. unfold sys_luis_capture_memory_snapshot in E.
  destruct E as [E|E]; sys_inv E. unfold copy_to_user in *. simplify_eq/=.
  replace (uncopied a 112 =? 0) with true by lia. rewrite lookup_insert_eq. eexists. split; [done|].
  unfold local_snapshot, pages_kb. cbn [total_mem_kb total_swap_kb].
  by rewrite !shl64_mul, meminfo_no_swap by lia.
Qed.
End luis.

Module Demo.
#[local] Existing Instances uaccess_ok Sysinfo.Demo.env0.
Definition env0 : LuisEnv := {|
  global_node_page_state _ := 100; now_tm := Tm 124 11 5 9 8 7;
  vm_mmap m n := if n =? 0 then u64_mod - EINVAL else
                 if bool_decide (m !! 65536 = None) then 65536 else u64_mod - ENOMEM;
  alloc_page := Some 9 |}.
#[local] Existing Instance env0.
#[local] Instance laws0 : LuisLaws.
Proof.
  split.
  - intros m n. simpl. unfold is_u64. case_match; [lia|]. case_match; lia.
  - intros m n. unfold IS_ERR_VALUE. simpl. case_match; [done|]. case_bool_decide; [done|]. done.
  - done.
Qed.
#[local] Instance meminfo0 : MeminfoLaws.
Proof. by split. Qed.
Definition p (n r w : Z) : proc := Proc n (bytes_of "sh" ++ [0; 0]) r w 0 10 20.
Definition s0 : lstate := LState (Track 1 2 3 4) [p 1 0 0; p 2 5 0; p 3 0 7] ∅ ∅ ∅ ∅ ∅.
Definition garbage : io_stats := IoStats 77 [] 1 2 3 4.

Lemma tamalloc_maps_or_leaves_alone_witness :
  let s' := (run (sys_luis_tamalloc 5000 800) s0).2 in areas s' = {[ 65536 := 8192 ]}.
Proof.
  destruct (tamalloc_maps_or_leaves_alone 5000 800 s0 0 (run (sys_luis_tamalloc 5000 800) s0).2)
    as [(_ & _ & _ & H & _)|[H _]]; [unfold is_u64; lia|vm_compute; reflexivity|exact H|lia].
Defined.
Lemma io_throttle_reports_active_witness :
  let s' := (run (sys_luis_get_io_throttle (replicate 20 garbage) 800) s0).2 in
  option_map num_procs (ios s' !! 800) = Some 2 /\
  (ios s' !! 800) ≫= (fun v => stats v !! 2%nat) = Some garbage.
Proof.
  assert (run (sys_luis_get_io_throttle (replicate 20 garbage) 800) s0 =
    (0, (run (sys_luis_get_io_throttle (replicate 20 garbage) 800) s0).2)) as E by (vm_compute; reflexivity).
  pose proof (io_throttle_reports_active (replicate 20 garbage) 800 s0 _ eq_refl E) as H.
  cbv zeta in H |- *. rewrite H. split; reflexivity.
Defined.
Lemma snapshot_swap_is_uninitialised_witness :
  let info := Sysinfo 0 [] 0 0 0 0 1234 0 0 0 0 0 in
  option_map total_swap_kb (snaps (run (sys_luis_capture_memory_snapshot info (replicate 36 0) 800) s0).2 !! 800)
  = Some 4936.
Proof.
  destruct (snapshot_swap_is_uninitialised (Sysinfo 0 [] 0 0 0 0 1234 0 0 0 0 0) (replicate 36 0) 800 s0
    (run (sys_luis_capture_memory_snapshot (Sysinfo 0 [] 0 0 0 0 1234 0 0 0 0 0) (replicate 36 0) 800) s0).2)
    as (v & Hv & _ & Hs); [vm_compute; reflexivity|].
  cbv zeta. rewrite Hv. simpl. rewrite Hs. reflexivity.
Defined.
End Demo.
