(* ===== verification/Seek.v ===== *)
(** * Files and file offsets: the [llseek] family and [rw_verify_area]

    read_write.c 33-390.  A [struct file] keeps its offset, its mode bits and
    which of the seek implementations of this file its driver installed;
    descriptors of one open file share it, so a descriptor names a file and a
    file an inode.  [loff_t] arithmetic wraps at 64 bits (the kernel is built
    with -fno-strict-overflow). *)
From S2P Require Import Prelude.

Abbreviation FMODE_READ := 1 (only parsing).
Abbreviation FMODE_WRITE := 2 (only parsing).
Abbreviation FMODE_LSEEK := 4 (only parsing).
Abbreviation FMODE_PREAD := 8 (only parsing).
Abbreviation FMODE_PWRITE := 16 (only parsing).
Abbreviation FMODE_UNSIGNED_OFFSET := 8192 (only parsing).
Abbreviation FMODE_CAN_READ := 131072 (only parsing).
Abbreviation FMODE_CAN_WRITE := 262144 (only parsing).
Abbreviation FMODE_STREAM := 2097152 (only parsing).
Abbreviation OFFSET_MAX := S64_MAX (only parsing).

Abbreviation SEEK_SET := 0 (only parsing).
Abbreviation SEEK_CUR := 1 (only parsing).
Abbreviation SEEK_END := 2 (only parsing).
Abbreviation SEEK_DATA := 3 (only parsing).
Abbreviation SEEK_HOLE := 4 (only parsing).
Abbreviation SEEK_MAX := SEEK_HOLE (only parsing).

Record inode := Inode {
  i_size : Z; s_maxbytes : Z; i_sb : Z;
  is_dir : bool; is_reg : bool; immutable : bool; swapfile : bool;
}.
(** The implementations of [->llseek] in this file. *)
Inductive llseek_op :=
| GenericFileLlseek | FixedSizeLlseek (size : Z) | NoSeekEndLlseek | NoSeekEndLlseekSize (size : Z)
| NoopLlseek | DefaultLlseek.
Record file := File {
  f_pos : Z; f_version : Z; f_mode : Z; f_flags : Z; f_ino : Z;
  op_llseek : llseek_op;
  op_read : bool; op_read_iter : bool; op_write : bool; op_write_iter : bool;   (** methods present *)
}.
Definition set_pos (f : file) (pos version : Z) : file :=
  File pos version (f_mode f) (f_flags f) (f_ino f) (op_llseek f) (op_read f) (op_read_iter f)
    (op_write f) (op_write_iter f).

Definition unsigned_offsets (f : file) : bool := has (f_mode f) FMODE_UNSIGNED_OFFSET.

(** ** Seeking: the result and the file after *)
Definition vfs_setpos (f : file) (offset maxsize : Z) : Z * file :=
  if (offset <? 0) && negb (unsigned_offsets f) then (- EINVAL, f)
  else if maxsize <? offset then (- EINVAL, f)
  else (offset, if negb (offset =? f_pos f) then set_pos f offset 0 else f).

Definition generic_file_llseek_size (f : file) (offset whence maxsize eof : Z) : Z * file :=
  if whence =? SEEK_END then vfs_setpos f (s64 (offset + eof)) maxsize
  else if whence =? SEEK_CUR then
    if offset =? 0 then (f_pos f, f)
    else vfs_setpos f (s64 (f_pos f + offset)) maxsize
  else if whence =? SEEK_DATA then
    if u64 eof <=? u64 offset then (- ENXIO, f) else vfs_setpos f offset maxsize
  else if whence =? SEEK_HOLE then
    if u64 eof <=? u64 offset then (- ENXIO, f) else vfs_setpos f eof maxsize
  else vfs_setpos f offset maxsize.

Definition generic_file_llseek (i : inode) (f : file) (offset whence : Z) : Z * file :=
  generic_file_llseek_size f offset whence (s_maxbytes i) (i_size i).

Definition fixed_size_llseek (f : file) (offset whence size : Z) : Z * file :=
  if (whence =? SEEK_SET) || (whence =? SEEK_CUR) || (whence =? SEEK_END)
  then generic_file_llseek_size f offset whence size size else (- EINVAL, f).

Definition no_seek_end_llseek (f : file) (offset whence : Z) : Z * file :=
  if (whence =? SEEK_SET) || (whence =? SEEK_CUR)
  then generic_file_llseek_size f offset whence OFFSET_MAX 0 else (- EINVAL, f).

Definition no_seek_end_llseek_size (f : file) (offset whence size : Z) : Z * file :=
  if (whence =? SEEK_SET) || (whence =? SEEK_CUR)
  then generic_file_llseek_size f offset whence size 0 else (- EINVAL, f).

Definition noop_llseek (f : file) (offset whence : Z) : Z * file := (f_pos f, f).

(** The tail of [default_llseek], after the switch. *)
Definition default_setpos (f : file) (offset : Z) : Z * file :=
  if (0 <=? offset) || unsigned_offsets f then
    (offset, if negb (offset =? f_pos f) then set_pos f offset 0 else f)
  else (- EINVAL, f).

Definition default_llseek (i : inode) (f : file) (offset whence : Z) : Z * file :=
  if whence =? SEEK_END then default_setpos f (s64 (offset + i_size i))
  else if whence =? SEEK_CUR then
    if offset =? 0 then (f_pos f, f) else default_setpos f (s64 (offset + f_pos f))
  else if whence =? SEEK_DATA then
    if i_size i <=? offset then (- ENXIO, f) else default_setpos f offset
  else if whence =? SEEK_HOLE then
    if i_size i <=? offset then (- ENXIO, f) else default_setpos f (i_size i)
  else default_setpos f offset.

Definition run_llseek (i : inode) (f : file) (offset whence : Z) : Z * file :=
  match op_llseek f with
  | GenericFileLlseek => generic_file_llseek i f offset whence
  | FixedSizeLlseek size => fixed_size_llseek f offset whence size
  | NoSeekEndLlseek => no_seek_end_llseek f offset whence
  | NoSeekEndLlseekSize size => no_seek_end_llseek_size f offset whence size
  | NoopLlseek => noop_llseek f offset whence
  | DefaultLlseek => default_llseek i f offset whence
  end.

Definition vfs_llseek (i : inode) (f : file) (offset whence : Z) : Z * file :=
  if negb (has (f_mode f) FMODE_LSEEK) then (- ESPIPE, f) else run_llseek i f offset whence.

(** ** The system calls *)
Record fstate := FState {
  fds : gmap Z Z;                  (** descriptor to open file *)
  files : gmap Z file;
  inodes : gmap Z inode;
  results : gmap Z Z;              (** user [loff_t] objects *)
}.

Section seek.
Context {ua : UAccess}.

(** [fdget_pos(fd)]: the file, its name and its inode. *)
Definition fdget_pos (s : fstate) (fd : Z) : option (Z * file * inode) :=
  match fds s !! fd with
  | None => None
  | Some n => match files s !! n with
              | None => None
              | Some f => match inodes s !! f_ino f with Some i => Some (n, f, i) | None => None end
              end
  end.
Definition put_file (n : Z) (f : file) (s : fstate) : fstate :=
  FState (fds s) (<[n := f]> (files s)) (inodes s) (results s).

Definition ksys_lseek (fd offset whence : Z) : sys fstate Z :=
  let* s := sgets (fun s => s) in
  let* got := some_or (fdget_pos s fd) (- EBADF) in
  let '(n, f, i) := got in
  do* fail_if (SEEK_MAX <? whence) (- EINVAL) in
  let '(res, f') := vfs_llseek i f offset whence in
  do* smodify (put_file n f') in
  let retval := s64 res in                       (* off_t: 64 bits here *)
  sret (if negb (res =? retval) then - EOVERFLOW else retval).

Definition sys_lseek (fd offset whence : Z) : sys fstate Z := ksys_lseek fd offset whence.
(** [compat_off_t] is 32 bits, sign extended. *)
Definition compat_sys_lseek (fd offset whence : Z) : sys fstate Z := ksys_lseek fd (s32 offset) whence.

Definition sys_llseek (fd offset_high offset_low result whence : Z) : sys fstate Z :=
  let* s := sgets (fun s => s) in
  let* got := some_or (fdget_pos s fd) (- EBADF) in
  let '(n, f, i) := got in
  do* fail_if (SEEK_MAX <? whence) (- EINVAL) in
  let '(offset, f') := vfs_llseek i f (s64 (Z.lor (Z.shiftl offset_high 32) offset_low)) whence in
  do* smodify (put_file n f') in
  if 0 <=? offset then
    let '(rest, m) := copy_to_user (results s) result offset 8 in
    do* smodify (fun s => FState (fds s) (files s) (inodes s) m) in
    sret (if rest =? 0 then 0 else - EFAULT)
  else sret (s32 offset).
End seek.

(** ** [rw_verify_area] *)
(** Security module and fsnotify, for a file, a direction and a length. *)
Class RwEnv := {
  security_file_permission : Z -> bool -> Z;
  fsnotify_file_area_perm : Z -> bool -> option Z -> Z -> Z;
}.
Definition rw_verify_area `{RwEnv} (rd : bool) (n : Z) (f : file) (ppos : option Z) (count : Z) : Z :=
  if s64 count <? 0 then - EINVAL else
  let bad := match ppos with
             | None => 0
             | Some pos =>
                 if pos <? 0 then
                   if negb (unsigned_offsets f) then - EINVAL
                   else if - pos <=? count then - EOVERFLOW else 0
                 else if s64 (pos + count) <? 0 then
                   if negb (unsigned_offsets f) then - EINVAL else 0
                 else 0
             end in
  if negb (bad =? 0) then bad else
  let ret := security_file_permission n rd in
  if negb (ret =? 0) then ret else fsnotify_file_area_perm n rd ppos count.

(** ** Properties *)

(** Where a seek goes, in unbounded arithmetic; [None] for an offset at or
    behind the end of file in SEEK_DATA and SEEK_HOLE. *)
Definition target (pos size offset whence : Z) : option Z :=
  if whence =? SEEK_END then Some (offset + size)
  else if whence =? SEEK_CUR then Some (pos + offset)
  else if whence =? SEEK_DATA then if (offset <? 0) || (size <=? offset) then None else Some offset
  else if whence =? SEEK_HOLE then if (offset <? 0) || (size <=? offset) then None else Some size
  else Some offset.

Lemma s64_wrap x : S64_MAX < x < u64_mod -> s64 x = x - u64_mod.
Proof.
  intros Hx. unfold s64. replace (x + 9223372036854775808) with (x - 9223372036854775808 + 1 * u64_mod) by lia.
  rewrite Z_mod_plus_full, Z.mod_small; lia.
Qed.
Lemma u64_neg x : is_s64 x -> u64 x = if x <? 0 then x + u64_mod else x.
Proof.
  unfold is_s64, u64. intros Hx. destruct (Z.ltb_spec x 0).
  - replace x with (x + u64_mod + (-1) * u64_mod) at 1 by lia. rewrite Z_mod_plus_full, Z.mod_small; lia.
  - rewrite Z.mod_small; lia.
Qed.
(** Adding an offset to a position either does not wrap, or wraps to a
    negative number that [vfs_setpos] refuses like the true sum. *)
Lemma s64_sum pos off : 0 <= pos <= S64_MAX -> is_s64 off ->
  (pos + off <= S64_MAX /\ s64 (pos + off) = pos + off) \/ (S64_MAX < pos + off /\ s64 (pos + off) < 0).
Proof.
  intros Hp Ho. unfold is_s64 in Ho. destruct (Z.leb_spec (pos + off) S64_MAX).
  - left. split; [done|]. apply s64_small. unfold is_s64. lia.
  - right. split; [done|]. rewrite s64_wrap by lia. lia.
Qed.

Definition seek_to (f : file) (offset : Z) : file :=
  if negb (offset =? f_pos f) then set_pos f offset 0 else f.

(** C30: [generic_file_llseek] is exact: on a file with signed offsets its
    64-bit, wrapping computation gives the position asked for whenever that
    position, in unbounded arithmetic, lies between 0 and the maximum file
    size, and otherwise an error with the file unchanged. *)
Theorem generic_llseek_is_exact i f offset whence :
  unsigned_offsets f = false -> 0 <= f_pos f <= s_maxbytes i -> 0 <= i_size i <= S64_MAX ->
  s_maxbytes i <= S64_MAX -> is_s64 offset ->
  generic_file_llseek i f offset whence =
  match target (f_pos f) (i_size i) offset whence with
  | None => (- ENXIO, f)
  | Some t => if (0 <=? t) && (t <=? s_maxbytes i) then (t, seek_to f t) else (- EINVAL, f)
  end.
Proof.
  intros Hu Hpos Hsize Hmax Hoff.
  assert (forall o t, (o = t \/ (S64_MAX < t /\ o < 0)) ->
    vfs_setpos f o (s_maxbytes i) =
    if (0 <=? t) && (t <=? s_maxbytes i) then (t, seek_to f t) else (- EINVAL, f)) as Hset.
  { intros o t Ho. unfold vfs_setpos, seek_to. rewrite Hu. simpl. rewrite andb_true_r.
    destruct Ho as [->|[? ?]].
    - destruct (Z.ltb_spec t 0), (Z.leb_spec 0 t); try lia; simpl; [done|].
      destruct (Z.ltb_spec (s_maxbytes i) t), (Z.leb_spec t (s_maxbytes i)); done || lia.
    - replace (o <? 0) with true by lia. by replace ((0 <=? t) && (t <=? s_maxbytes i)) with false by lia. }
  assert (u64 (i_size i) = i_size i) as Hi by (apply u64_small; unfold is_u64; lia).
  pose proof (u64_neg offset Hoff) as Ho.
  assert (u64 (i_size i) <=? u64 offset = ((offset <? 0) || (i_size i <=? offset))) as Hend.
  { rewrite Hi, Ho. unfold is_s64 in Hoff. destruct (Z.ltb_spec offset 0); simpl; lia. }
  unfold generic_file_llseek, generic_file_llseek_size, target. rewrite Hend.
  destruct (whence =? SEEK_END).
  { apply Hset. rewrite (Z.add_comm offset). destruct (s64_sum (i_size i) offset); [done|done|lia|lia]. }
  destruct (whence =? SEEK_CUR).
  { destruct (Z.eqb_spec offset 0) as [->|].
    - rewrite Z.add_0_r. replace ((0 <=? f_pos f) && (f_pos f <=? s_maxbytes i)) with true by lia.
      unfold seek_to. by rewrite Z.eqb_refl.
    - apply Hset. destruct (s64_sum (f_pos f) offset); [lia|done|lia|lia]. }
  destruct (whence =? SEEK_DATA); [destruct (_ || _); [done|apply Hset; auto]|].
  destruct (whence =? SEEK_HOLE); [destruct (_ || _); [done|apply Hset; auto]|].
  apply Hset; auto.
Qed.

(** Every implementation either moves to the position it returns or reports a
    negative error and leaves the file alone. *)
Definition moved (f : file) (res : Z) (f' : file) : Prop :=
  (0 <= res /\ f' = seek_to f res) \/ (res < 0 /\ f' = f).

Lemma seek_to_same f : seek_to f (f_pos f) = f.
Proof. unfold seek_to. by rewrite Z.eqb_refl. Qed.
Lemma moved_stay f : 0 <= f_pos f -> moved f (f_pos f) f.
Proof. left. split; [done|]. by rewrite seek_to_same. Qed.
Lemma moved_err f e : e < 0 -> moved f e f.
Proof. by right. Qed.
Lemma vfs_setpos_moved f o m : unsigned_offsets f = false -> moved f (vfs_setpos f o m).1 (vfs_setpos f o m).2.
Proof.
  intros Hu. unfold vfs_setpos. rewrite Hu. simpl. rewrite andb_true_r.
  destruct (Z.ltb_spec o 0); [by apply moved_err|]. case_match; [by apply moved_err|]. by left.
Qed.
Lemma default_setpos_moved f o : unsigned_offsets f = false -> moved f (default_setpos f o).1 (default_setpos f o).2.
Proof.
  intros Hu. unfold default_setpos. rewrite Hu. simpl. rewrite orb_false_r.
  destruct (Z.leb_spec 0 o); [by left|by apply moved_err].
Qed.
Create HintDb seek.
#[local] Hint Resolve moved_stay moved_err vfs_setpos_moved default_setpos_moved : seek.
#[local] Hint Extern 2 (_ < 0) => lia : seek.

Lemma generic_size_moved f o w m e : unsigned_offsets f = false -> 0 <= f_pos f ->
  moved f (generic_file_llseek_size f o w m e).1 (generic_file_llseek_size f o w m e).2.
Proof. intros. unfold generic_file_llseek_size. repeat case_match; simpl; auto with seek. Qed.
#[local] Hint Resolve generic_size_moved : seek.

Lemma vfs_llseek_moved i f o w : unsigned_offsets f = false -> 0 <= f_pos f ->
  moved f (vfs_llseek i f o w).1 (vfs_llseek i f o w).2.
Proof.
  intros Hu Hp. unfold vfs_llseek, run_llseek. case_match; [simpl; auto with seek|].
  destruct (op_llseek f); unfold generic_file_llseek, fixed_size_llseek, no_seek_end_llseek,
    no_seek_end_llseek_size, noop_llseek, default_llseek; repeat case_match; simpl; auto with seek.
Qed.

Section seek_properties.
Context {ua : UAccess}.

Lemma fdget_pos_files s fd n f i : fdget_pos s fd = Some (n, f, i) -> files s !! n = Some f /\ fds s !! fd = Some n.
Proof. unfold fdget_pos. intros. repeat case_match; simplify_eq. done. Qed.
Lemma fdget_pos_put s fd n f i f' : fdget_pos s fd = Some (n, f, i) -> f_ino f' = f_ino f ->
  fdget_pos (put_file n f' s) fd = Some (n, f', i).
Proof.
  unfold fdget_pos, put_file. intros. repeat case_match; simplify_eq/=.
  all: rewrite ?lookup_insert_eq in *; simplify_eq; congruence.
Qed.
Lemma put_file_same s n f : files s !! n = Some f -> put_file n f s = s.
Proof. intros. unfold put_file. rewrite insert_id by done. by destruct s. Qed.
Lemma seek_to_mode f p : f_ino (seek_to f p) = f_ino f /\ f_mode (seek_to f p) = f_mode f /\
  op_llseek (seek_to f p) = op_llseek f /\ f_pos (seek_to f p) = p.
Proof. unfold seek_to. destruct (Z.eqb_spec p (f_pos f)) as [->|]; done. Qed.

Lemma vfs_llseek_s64 i f o w : is_s64 (f_pos f) -> is_s64 o -> is_s64 (i_size i) ->
  match op_llseek f with FixedSizeLlseek n | NoSeekEndLlseekSize n => is_s64 n | _ => True end ->
  is_s64 (vfs_llseek i f o w).1.
Proof.
  intros Hp Ho Hs Hn.
  assert (forall x, is_s64 (s64 x)) as Hw.
  { intros x. unfold is_s64, s64. pose proof (Z.mod_pos_bound (x + 9223372036854775808) u64_mod). lia. }
  assert (forall e, -4096 <= e < 0 -> is_s64 e) as He by (unfold is_s64; lia).
  assert (forall x m, is_s64 x -> is_s64 (vfs_setpos f x m).1) as Hv.
  { intros x m Hx. unfold vfs_setpos. repeat case_match; simpl; done || (apply He; lia). }
  assert (forall x, is_s64 x -> is_s64 (default_setpos f x).1) as Hd.
  { intros x Hx. unfold default_setpos. repeat case_match; simpl; done || (apply He; lia). }
  unfold vfs_llseek, run_llseek, generic_file_llseek, fixed_size_llseek, no_seek_end_llseek,
    no_seek_end_llseek_size, noop_llseek, default_llseek, generic_file_llseek_size.
  repeat case_match; simpl; auto; try (apply He; lia); try (apply Hv; unfold is_s64 in *; lia).
Qed.

(** What the two system calls do when the descriptor is open. *)
Lemma ksys_lseek_open s fd n f i offset whence :
  fdget_pos s fd = Some (n, f, i) -> whence <= SEEK_MAX -> is_s64 (vfs_llseek i f offset whence).1 ->
  run (ksys_lseek fd offset whence) s =
  ((vfs_llseek i f offset whence).1, put_file n (vfs_llseek i f offset whence).2 s).
Proof.
  intros Hf Hw Hr. unfold ksys_lseek. autounfold with sys_unfold. rewrite Hf.
  replace (SEEK_MAX <? whence) with false by lia. destruct (vfs_llseek i f offset whence) as [res f']. simpl in *.
  rewrite s64_small by done. by rewrite Z.eqb_refl.
Qed.

(** After a seek with SEEK_SET through one descriptor succeeded, telling
    the position (SEEK_CUR with 0) through any descriptor of the same open
    file returns the offset that was set; the seek changed no other file. *)
Theorem lseek_set_seen_through_duplicates s fd fd' n f i offset s1 :
  fdget_pos s fd = Some (n, f, i) -> fds s !! fd' = Some n ->
  unsigned_offsets f = false -> op_llseek f = GenericFileLlseek -> has (f_mode f) FMODE_LSEEK = true ->
  is_s64 offset -> run (sys_lseek fd offset SEEK_SET) s = (offset, s1) -> 0 <= offset ->
  run (sys_lseek fd' 0 SEEK_CUR) s1 = (offset, s1) /\
  forall m, m <> n -> files s1 !! m = files s !! m.
Proof.
  intros Hf Hd Hu Hop Hm Hoff E Hpos.
  assert (vfs_llseek i f offset SEEK_SET = (offset, seek_to f offset) /\ s1 = put_file n (seek_to f offset) s) as [Hv ->].
  { assert (vfs_llseek i f offset SEEK_SET = vfs_setpos f offset (s_maxbytes i)) as Hv.
    { unfold vfs_llseek, run_llseek. by rewrite Hm, Hop. }
    assert (is_s64 (vfs_setpos f offset (s_maxbytes i)).1) as Hs.
    { unfold vfs_setpos. repeat case_match; simpl; unfold is_s64 in *; lia. }
    unfold sys_lseek in E. rewrite (ksys_lseek_open _ _ _ _ _ _ _ Hf) in E by (lia || by rewrite Hv).
    rewrite Hv in *. revert E. unfold vfs_setpos. rewrite Hu. simpl.
    replace (offset <? 0) with false by lia. simpl.
    case_match; [intros [= ? ?]; lia|]. intros [= <-]. done. }
  destruct (seek_to_mode f offset) as (Hi & Hmode & Hop' & Hp).
  assert (fdget_pos (put_file n (seek_to f offset) s) fd' = Some (n, seek_to f offset, i)) as Hf'.
  { pose proof (fdget_pos_put _ _ _ _ _ (seek_to f offset) Hf Hi) as Hg. revert Hg. unfold fdget_pos. simpl.
    destruct (fdget_pos_files _ _ _ _ _ Hf) as [_ Hfd]. by rewrite Hfd, Hd. }
  assert (vfs_llseek i (seek_to f offset) 0 SEEK_CUR = (offset, seek_to f offset)) as Ht.
  { unfold vfs_llseek, run_llseek. rewrite Hmode, Hm, Hop', Hop. simpl.
    unfold generic_file_llseek, generic_file_llseek_size. simpl. by rewrite Hp. }
  split.
  - unfold sys_lseek. rewrite (ksys_lseek_open _ _ _ _ _ _ _ Hf') by (lia || by rewrite Ht).
    rewrite Ht. simpl. rewrite put_file_same; [done|]. simpl. by rewrite lookup_insert_eq.
  - intros m Hne. simpl. by rewrite lookup_insert_ne.
Qed.

(** With any of the six seek implementations and any arguments, [lseek] on
    an open file either returns the new position, which is not negative and
    is all that changed, or returns an error and changes nothing. *)
Theorem lseek_moves_or_leaves s fd offset whence n f i r s' :
  fdget_pos s fd = Some (n, f, i) -> unsigned_offsets f = false ->
  0 <= f_pos f <= S64_MAX -> is_s64 offset -> is_s64 (i_size i) ->
  match op_llseek f with FixedSizeLlseek k | NoSeekEndLlseekSize k => is_s64 k | _ => True end ->
  run (sys_lseek fd offset whence) s = (r, s') ->
  (0 <= r /\ s' = put_file n (seek_to f r) s) \/ (r < 0 /\ s' = s).
Proof.
  intros Hf Hu Hp Ho Hi Hk E. destruct (fdget_pos_files _ _ _ _ _ Hf) as [Hn _].
  destruct (Z.leb_spec whence SEEK_MAX) as [Hw|Hw].
  - unfold sys_lseek in E. rewrite (ksys_lseek_open _ _ _ _ _ _ _ Hf) in E
      by (done || (apply vfs_llseek_s64; unfold is_s64 in *; lia || done)).
    injection E as <- <-.
    destruct (vfs_llseek_moved i f offset whence Hu) as [[? ->]|[? ->]]; [lia|by left|right].
    by rewrite put_file_same.
  - right. revert E. unfold sys_lseek, ksys_lseek. autounfold with sys_unfold. rewrite Hf.
    replace (SEEK_MAX <? whence) with true by lia. intros [= <- <-]. done.
Qed.
End seek_properties.

Lemma rw_verify_range_nonneg `{RwEnv} rd n f pos count :
  unsigned_offsets f = false -> is_s64 pos -> is_u64 count ->
  0 <= rw_verify_area rd n f (Some pos) count ->
  0 <= pos /\ 0 <= count /\ pos + count <= S64_MAX.
Proof.
  intros Hu Hp Hc. unfold rw_verify_area. rewrite Hu. unfold is_s64, is_u64 in *. simpl.
  destruct (Z.ltb_spec (s64 count) 0) as [|Hc0]; [lia|].
  assert (count <= S64_MAX) as Hc1.
  { destruct (Z.leb_spec count S64_MAX); [done|]. rewrite s64_wrap in Hc0 by lia. lia. }
  destruct (Z.ltb_spec pos 0); simpl; [lia|].
  destruct (Z.ltb_spec (s64 (pos + count)) 0) as [|Hs]; simpl; [lia|]. intros _.
  split_and!; [done|lia|]. destruct (s64_sum pos count) as [[? ?]|[? ?]]; unfold is_s64 in *; lia.
Qed.
Lemma rw_verify_range `{RwEnv} rd n f pos count :
  unsigned_offsets f = false -> is_s64 pos -> is_u64 count ->
  rw_verify_area rd n f (Some pos) count = 0 ->
  0 <= pos /\ 0 <= count /\ pos + count <= S64_MAX.
Proof. intros Hu Hp Hc E. apply (rw_verify_range_nonneg rd n f); [done..|lia]. Qed.

(** When [rw_verify_area] lets a transfer on a file with signed offsets
    through, its length and the whole range it covers lie between 0 and the
    largest [loff_t]. *)
Theorem rw_verify_area_in_range `{RwEnv} rd n f pos count :
  unsigned_offsets f = false -> is_s64 pos -> is_u64 count ->
  rw_verify_area rd n f (Some pos) count = 0 ->
  0 <= pos /\ 0 <= count /\ pos + count <= S64_MAX.
Proof. apply rw_verify_range. Qed.

Module Demo.
#[local] Existing Instance uaccess_ok.
Definition env0 : RwEnv := {| security_file_permission _ _ := 0; fsnotify_file_area_perm _ _ _ _ := 0 |}.
#[local] Existing Instance env0.
Definition ino0 : inode := Inode 1000 S64_MAX 1 false true false false.
Definition f0 : file := File 10 5 393247 0 1 GenericFileLlseek false true false true.
(** Descriptors 3 and 4 are duplicates. *)
Definition s0 : fstate := FState {[ 3 := 7; 4 := 7 ]} {[ 7 := f0 ]} {[ 1 := ino0 ]} ∅.

Lemma generic_llseek_is_exact_witness : generic_file_llseek ino0 f0 (-3) SEEK_END = (997, seek_to f0 997).
Proof.
  rewrite (generic_llseek_is_exact ino0 f0 (-3) SEEK_END); unfold is_s64; simpl; [reflexivity|reflexivity|lia|lia|lia|lia].
Defined.
Lemma lseek_set_seen_through_duplicates_witness :
  let s1 := (run (sys_lseek 3 77 SEEK_SET) s0).2 in run (sys_lseek 4 0 SEEK_CUR) s1 = (77, s1).
Proof.
  exact (proj1 (lseek_set_seen_through_duplicates s0 3 4 7 f0 ino0 77
    (run (sys_lseek 3 77 SEEK_SET) s0).2 eq_refl eq_refl eq_refl eq_refl eq_refl
    ltac:(unfold is_s64; lia) eq_refl ltac:(lia))).
Defined.
Lemma lseek_moves_or_leaves_witness :
  let '(r, s') := run (sys_lseek 3 5 SEEK_CUR) s0 in r = 15 /\ s' = put_file 7 (seek_to f0 15) s0.
Proof.
  destruct (lseek_moves_or_leaves s0 3 5 SEEK_CUR 7 f0 ino0 15 (run (sys_lseek 3 5 SEEK_CUR) s0).2) as [[_ H]|[H _]];
    [reflexivity|reflexivity|simpl; lia|unfold is_s64; lia|unfold is_s64; simpl; lia|exact I|vm_compute; reflexivity| |lia].
  split; [reflexivity|exact H].
Defined.
Lemma rw_verify_area_in_range_witness : 0 <= 10 /\ 0 <= 500 /\ 10 + 500 <= S64_MAX.
Proof.
  apply (rw_verify_area_in_range true 7 f0 10 500); [reflexivity|unfold is_s64; lia|unfold is_u64; lia|reflexivity].
Defined.
End Demo.
