(* ===== verification/ReadWrite.v ===== *)
(** * Reading and writing files

    read_write.c 28-32, 392-756 and 757-1110: [vfs_read], [vfs_write] and the
    system calls built on them, with the call counters of phase 1.  What a
    driver does with a request is a parameter over a world of type [W] (file
    contents, user memory); [drv_log] is a history of the requests drivers
    got, kept for the statements only. *)
From S2P Require Import Prelude Seek.

Abbreviation MAX_RW_COUNT := 2147479552 (only parsing).      (** INT_MAX & PAGE_MASK *)
Abbreviation RWF_HIPRI := 1 (only parsing).

(** Results are the value returned, the offset after and the world after. *)
Class Driver (W : Type) := {
  drv_read : Z -> Z -> Z -> option Z -> W -> Z * option Z * W;     (** file, buffer, count, offset *)
  drv_read_iter : Z -> list (Z * Z) -> Z -> W -> Z * Z * W;        (** file, segments, [ki_pos] *)
  drv_write : Z -> Z -> Z -> option Z -> W -> Z * option Z * W;
  drv_write_iter : Z -> list (Z * Z) -> Z -> W -> Z * Z * W;
  import_iovec : W -> Z -> Z -> Z + list (Z * Z);                  (** error, or the segments *)
  kiocb_set_rw_flags : Z -> Z;
}.

Record drvcall := DrvCall { dc_read : bool; dc_file : Z; dc_count : Z; dc_pos : option Z }.

Record rstate (W : Type) := RState {
  fs : fstate;
  world : W;
  rchar : Z; wchar : Z; syscr : Z; syscw : Z;          (** accounting of the caller *)
  read_call_counter : Z; write_call_counter : Z;
  drv_log : list drvcall;
}.
Arguments RState {W}. Arguments fs {W}. Arguments world {W}. Arguments rchar {W}. Arguments wchar {W}.
Arguments syscr {W}. Arguments syscw {W}. Arguments read_call_counter {W}.
Arguments write_call_counter {W}. Arguments drv_log {W}.

Section rw.
Context {W : Type} {ua : UAccess} {rwenv : RwEnv} {drv : Driver W}.
#[local] Abbreviation st := (rstate W).

Definition set_fs (x : fstate) (s : st) : st :=
  RState x (world s) (rchar s) (wchar s) (syscr s) (syscw s) (read_call_counter s) (write_call_counter s) (drv_log s).
(** A driver call: the world it leaves and its log entry. *)
Definition drove (w : W) (c : drvcall) (s : st) : st :=
  RState (fs s) w (rchar s) (wchar s) (syscr s) (syscw s) (read_call_counter s) (write_call_counter s) (c :: drv_log s).
(** [if (ret > 0) add_rchar(current, ret); inc_syscr(current);] *)
Definition account_read (ret : Z) (s : st) : st :=
  RState (fs s) (world s) (if 0 <? ret then u64 (rchar s + ret) else rchar s) (wchar s) (u64 (syscr s + 1)) (syscw s)
    (read_call_counter s) (write_call_counter s) (drv_log s).
Definition account_write (ret : Z) (s : st) : st :=
  RState (fs s) (world s) (rchar s) (if 0 <? ret then u64 (wchar s + ret) else wchar s) (syscr s) (u64 (syscw s + 1))
    (read_call_counter s) (write_call_counter s) (drv_log s).
Definition count_read (s : st) : st :=
  RState (fs s) (world s) (rchar s) (wchar s) (syscr s) (syscw s)
    (s64 (read_call_counter s + 1)) (write_call_counter s) (drv_log s).
Definition count_write (s : st) : st :=
  RState (fs s) (world s) (rchar s) (wchar s) (syscr s) (syscw s)
    (read_call_counter s) (s64 (write_call_counter s + 1)) (drv_log s).

(** ** One buffer *)
Definition new_sync_read (n buf len : Z) (ppos : option Z) (s : st) : Z * option Z * st :=
  let '(ret, kpos, w) := drv_read_iter n [(buf, len)] (default 0 ppos) (world s) in
  (ret, match ppos with Some _ => Some kpos | None => None end, drove w (DrvCall true n len ppos) s).

Definition new_sync_write (n buf len : Z) (ppos : option Z) (s : st) : Z * option Z * st :=
  let '(ret, kpos, w) := drv_write_iter n [(buf, len)] (default 0 ppos) (world s) in
  (ret, match ppos with Some pos => Some (if 0 <? ret then kpos else pos) | None => None end,
   drove w (DrvCall false n len ppos) s).

(** The call through [f_op], with its fall-backs. *)
Definition call_read (n : Z) (f : file) (buf count : Z) (ppos : option Z) (s : st) : Z * option Z * st :=
  if op_read f then
    let '(ret, p, w) := drv_read n buf count ppos (world s) in (ret, p, drove w (DrvCall true n count ppos) s)
  else if op_read_iter f then new_sync_read n buf count ppos s
  else (- EINVAL, ppos, s).
Definition call_write (n : Z) (f : file) (buf count : Z) (ppos : option Z) (s : st) : Z * option Z * st :=
  if op_write f then
    let '(ret, p, w) := drv_write n buf count ppos (world s) in (ret, p, drove w (DrvCall false n count ppos) s)
  else if op_write_iter f then new_sync_write n buf count ppos s
  else (- EINVAL, ppos, s).

Definition vfs_read (n : Z) (f : file) (buf count : Z) (ppos : option Z) (s : st) : Z * option Z * st :=
  if negb (has (f_mode f) FMODE_READ) then (- EBADF, ppos, s)
  else if negb (has (f_mode f) FMODE_CAN_READ) then (- EINVAL, ppos, s)
  else if negb (access_ok buf count) then (- EFAULT, ppos, s)
  else
    let ret := rw_verify_area true n f ppos count in
    if negb (ret =? 0) then (ret, ppos, s)
    else
      let count := if MAX_RW_COUNT <? count then MAX_RW_COUNT else count in
      let '(ret, p, s) := call_read n f buf count ppos s in
      (ret, p, account_read ret s).

Definition vfs_write (n : Z) (f : file) (buf count : Z) (ppos : option Z) (s : st) : Z * option Z * st :=
  if negb (has (f_mode f) FMODE_WRITE) then (- EBADF, ppos, s)
  else if negb (has (f_mode f) FMODE_CAN_WRITE) then (- EINVAL, ppos, s)
  else if negb (access_ok buf count) then (- EFAULT, ppos, s)
  else
    let ret := rw_verify_area false n f ppos count in
    if negb (ret =? 0) then (ret, ppos, s)
    else
      let count := if MAX_RW_COUNT <? count then MAX_RW_COUNT else count in
      let '(ret, p, s) := call_write n f buf count ppos s in
      (ret, p, account_write ret s).

Definition file_ppos (f : file) : option Z :=
  if has (f_mode f) FMODE_STREAM then None else Some (f_pos f).

(** [if (ret >= 0 && ppos) f.file->f_pos = pos;] *)
Definition store_pos (n : Z) (f : file) (ret : Z) (ppos : option Z) (s : st) : st :=
  match ppos with
  | Some pos => if 0 <=? ret then set_fs (put_file n (set_pos f pos (f_version f)) (fs s)) s else s
  | None => s
  end.

(** A request on the current offset of a descriptor. *)
Definition at_pos (op : Z -> file -> option Z -> st -> Z * option Z * st) (fd : Z) (s : st) : Z * st :=
  match fdget_pos (fs s) fd with
  | None => (- EBADF, s)
  | Some (n, f, _) =>
      let '(ret, p, s) := op n f (file_ppos f) s in (ret, store_pos n f ret p s)
  end.
(** A request at an explicit offset, for files whose mode has [bit]. *)
Definition at_offset (op : Z -> file -> option Z -> st -> Z * option Z * st) (bit fd pos : Z) (s : st) : Z * st :=
  if pos <? 0 then (- EINVAL, s)
  else match fdget_pos (fs s) fd with
       | None => (- EBADF, s)
       | Some (n, f, _) =>
           if has (f_mode f) bit then let '(ret, _, s) := op n f (Some pos) s in (ret, s)
           else (- ESPIPE, s)
       end.

Definition ksys_read (fd buf count : Z) : st -> Z * st :=
  at_pos (fun n f => vfs_read n f buf count) fd.
Definition sys_read (fd buf count : Z) (s : st) : Z * st := ksys_read fd buf count (count_read s).
Definition ksys_write (fd buf count : Z) : st -> Z * st :=
  at_pos (fun n f => vfs_write n f buf count) fd.
Definition sys_write (fd buf count : Z) (s : st) : Z * st := ksys_write fd buf count (count_write s).
Definition ksys_pread64 (fd buf count pos : Z) : st -> Z * st :=
  at_offset (fun n f => vfs_read n f buf count) FMODE_PREAD fd pos.
Definition ksys_pwrite64 (fd buf count pos : Z) : st -> Z * st :=
  at_offset (fun n f => vfs_write n f buf count) FMODE_PWRITE fd pos.

(** ** Segments *)
Definition iov_count (segs : list (Z * Z)) : Z := foldr (fun sg acc => sg.2 + acc) 0 segs.

Definition do_iter_readv_writev (rd : bool) (n : Z) (segs : list (Z * Z)) (ppos : option Z) (flags : Z) (s : st)
    : Z * option Z * st :=
  let ret := kiocb_set_rw_flags flags in
  if negb (ret =? 0) then (ret, ppos, s)
  else
    let '(ret, kpos, w) := (if rd then drv_read_iter n segs (default 0 ppos) (world s)
                            else drv_write_iter n segs (default 0 ppos) (world s)) in
    (ret, match ppos with Some _ => Some kpos | None => None end,
     drove w (DrvCall rd n (iov_count segs) ppos) s).

(** The loop over the segments; it ends when nothing is left to transfer. *)
Fixpoint loop_segs (rd : bool) (n : Z) (segs : list (Z * Z)) (ret : Z) (ppos : option Z) (s : st)
    : Z * option Z * st :=
  match segs with
  | [] => (ret, ppos, s)
  | (base, len) :: rest =>
      if iov_count segs =? 0 then (ret, ppos, s)
      else
        let '(nr, p, w) := (if rd then drv_read n base len ppos (world s)
                            else drv_write n base len ppos (world s)) in
        let s := drove w (DrvCall rd n len ppos) s in
        if nr <? 0 then (if ret =? 0 then nr else ret, p, s)
        else if negb (nr =? len) then (ret + nr, p, s)
        else loop_segs rd n rest (ret + nr) p s
  end.
Definition do_loop_readv_writev (rd : bool) (n : Z) (segs : list (Z * Z)) (ppos : option Z) (flags : Z) (s : st)
    : Z * option Z * st :=
  if negb (Z.ldiff flags RWF_HIPRI =? 0) then (- EOPNOTSUPP, ppos, s)
  else loop_segs rd n segs 0 ppos s.

Definition vfs_readv (n : Z) (f : file) (vec vlen flags : Z) (ppos : option Z) (s : st) : Z * option Z * st :=
  if negb (has (f_mode f) FMODE_READ) then (- EBADF, ppos, s)
  else if negb (has (f_mode f) FMODE_CAN_READ) then (- EINVAL, ppos, s)
  else match import_iovec (world s) vec vlen with
       | inl err => (err, ppos, s)
       | inr segs =>
           let tot_len := iov_count segs in
           if tot_len =? 0 then (0, ppos, s)
           else
             let ret := rw_verify_area true n f ppos tot_len in
             if ret <? 0 then (ret, ppos, s)
             else if op_read_iter f then do_iter_readv_writev true n segs ppos flags s
             else do_loop_readv_writev true n segs ppos flags s
       end.
Definition vfs_writev (n : Z) (f : file) (vec vlen flags : Z) (ppos : option Z) (s : st) : Z * option Z * st :=
  if negb (has (f_mode f) FMODE_WRITE) then (- EBADF, ppos, s)
  else if negb (has (f_mode f) FMODE_CAN_WRITE) then (- EINVAL, ppos, s)
  else match import_iovec (world s) vec vlen with
       | inl err => (err, ppos, s)
       | inr segs =>
           let tot_len := iov_count segs in
           if tot_len =? 0 then (0, ppos, s)
           else
             let ret := rw_verify_area false n f ppos tot_len in
             if ret <? 0 then (ret, ppos, s)
             else if op_write_iter f then do_iter_readv_writev false n segs ppos flags s
             else do_loop_readv_writev false n segs ppos flags s
       end.

Definition do_readv (fd vec vlen flags : Z) (s : st) : Z * st :=
  let '(ret, s) := at_pos (fun n f => vfs_readv n f vec vlen flags) fd s in (ret, account_read ret s).
Definition do_writev (fd vec vlen flags : Z) (s : st) : Z * st :=
  let '(ret, s) := at_pos (fun n f => vfs_writev n f vec vlen flags) fd s in (ret, account_write ret s).
Definition do_preadv (fd vec vlen pos flags : Z) (s : st) : Z * st :=
  if pos <? 0 then (- EINVAL, s) else
  let '(ret, s) := at_offset (fun n f => vfs_readv n f vec vlen flags) FMODE_PREAD fd pos s in
  (ret, account_read ret s).
Definition do_pwritev (fd vec vlen pos flags : Z) (s : st) : Z * st :=
  if pos <? 0 then (- EINVAL, s) else
  let '(ret, s) := at_offset (fun n f => vfs_writev n f vec vlen flags) FMODE_PWRITE fd pos s in
  (ret, account_write ret s).

(** On a 64-bit machine the high half is shifted out. *)
Definition pos_from_hilo (high low : Z) : Z := s64 (Z.lor (shl64 (shl64 high 32) 32) low).
Definition sys_preadv (fd vec vlen pos_l pos_h : Z) : st -> Z * st :=
  do_preadv fd vec vlen (pos_from_hilo pos_h pos_l) 0.
Definition sys_preadv2 (fd vec vlen pos_l pos_h flags : Z) : st -> Z * st :=
  let pos := pos_from_hilo pos_h pos_l in
  if pos =? -1 then do_readv fd vec vlen flags else do_preadv fd vec vlen pos flags.
Definition sys_pwritev (fd vec vlen pos_l pos_h : Z) : st -> Z * st :=
  do_pwritev fd vec vlen (pos_from_hilo pos_h pos_l) 0.
Definition sys_pwritev2 (fd vec vlen pos_l pos_h flags : Z) : st -> Z * st :=
  let pos := pos_from_hilo pos_h pos_l in
  if pos =? -1 then do_writev fd vec vlen flags else do_pwritev fd vec vlen pos flags.
End rw.

(** ** Properties *)
Section properties.
Context {W : Type} {ua : UAccess} {rwenv : RwEnv} {drv : Driver W}.
#[local] Abbreviation st := (rstate W).

Inductive rw_call :=
| Read (fd buf count : Z) | Write (fd buf count : Z)
| Pread (fd buf count pos : Z) | Pwrite (fd buf count pos : Z)
| Readv (fd vec vlen flags : Z) | Writev (fd vec vlen flags : Z)
| Preadv (fd vec vlen pos flags : Z) | Pwritev (fd vec vlen pos flags : Z).
Definition exec_rw (c : rw_call) : st -> Z * st :=
  match c with
  | Read fd b n => sys_read fd b n | Write fd b n => sys_write fd b n
  | Pread fd b n p => ksys_pread64 fd b n p | Pwrite fd b n p => ksys_pwrite64 fd b n p
  | Readv fd v n fl => do_readv fd v n fl | Writev fd v n fl => do_writev fd v n fl
  | Preadv fd v n p fl => do_preadv fd v n p fl | Pwritev fd v n p fl => do_pwritev fd v n p fl
  end.
Definition exec_all (cs : list rw_call) (s : st) : st := foldl (fun s c => (exec_rw c s).2) s cs.

(** A transfer touches neither the descriptor table nor the call counters. *)
Definition quiet (s s' : st) : Prop :=
  fs s' = fs s /\ read_call_counter s' = read_call_counter s /\ write_call_counter s' = write_call_counter s.
Definition op_quiet (op : Z -> file -> option Z -> st -> Z * option Z * st) : Prop :=
  forall n f p s, quiet s (op n f p s).2.

Ltac quiet := repeat (case_match; simplify_eq/=); repeat split; try done.
Lemma call_read_quiet n f b c p s : quiet s (call_read n f b c p s).2.
Proof. unfold call_read, new_sync_read. quiet. Qed.
Lemma call_write_quiet n f b c p s : quiet s (call_write n f b c p s).2.
Proof. unfold call_write, new_sync_write. quiet. Qed.
Lemma vfs_read_quiet b c : op_quiet (fun n f => vfs_read n f b c).
Proof.
  intros n f p s. unfold vfs_read. do 4 (case_match; [done|]).
  match goal with |- context [call_read n f b ?c' p s] => pose proof (call_read_quiet n f b c' p s) as H';
    destruct (call_read n f b c' p s) as [[r p'] s'] end. exact H'.
Qed.
Lemma vfs_write_quiet b c : op_quiet (fun n f => vfs_write n f b c).
Proof.
  intros n f p s. unfold vfs_write. do 4 (case_match; [done|]).
  match goal with |- context [call_write n f b ?c' p s] => pose proof (call_write_quiet n f b c' p s) as H';
    destruct (call_write n f b c' p s) as [[r p'] s'] end. exact H'.
Qed.
Lemma loop_segs_quiet rd n segs r p s : quiet s (loop_segs rd n segs r p s).2.
Proof.
  revert r p s. induction segs as [|[a l] segs IH]; intros r p s; cbn [loop_segs]; [done|].
  case_match; [done|]. destruct (if rd then _ else _) as [[nr p'] w].
  case_match; [done|]. case_match; [done|]. destruct (IH (r + nr) p' (drove w (DrvCall rd n l p) s)) as (? & ? & ?).
  by repeat split.
Qed.
Lemma do_iter_quiet rd n segs p fl s : quiet s (do_iter_readv_writev rd n segs p fl s).2.
Proof. unfold do_iter_readv_writev. case_match; [done|]. by destruct (if rd then _ else _) as [[r k] w]. Qed.
Lemma do_loop_quiet rd n segs p fl s : quiet s (do_loop_readv_writev rd n segs p fl s).2.
Proof. unfold do_loop_readv_writev. case_match; [done|]. apply loop_segs_quiet. Qed.
Lemma vfs_readv_quiet v n fl : op_quiet (fun m f => vfs_readv m f v n fl).
Proof.
  intros m f p s. unfold vfs_readv. do 2 (case_match; [done|]). case_match; [done|]. do 2 (case_match; [done|]).
  case_match; [apply do_iter_quiet|apply do_loop_quiet].
Qed.
Lemma vfs_writev_quiet v n fl : op_quiet (fun m f => vfs_writev m f v n fl).
Proof.
  intros m f p s. unfold vfs_writev. do 2 (case_match; [done|]). case_match; [done|]. do 2 (case_match; [done|]).
  case_match; [apply do_iter_quiet|apply do_loop_quiet].
Qed.

Definition same_counters (s s' : st) : Prop :=
  read_call_counter s' = read_call_counter s /\ write_call_counter s' = write_call_counter s.
Lemma at_pos_counters op fd s : op_quiet op -> same_counters s (at_pos op fd s).2.
Proof.
  intros Hq. unfold at_pos. destruct (fdget_pos (fs s) fd) as [[[n f] i]|]; [|done].
  pose proof (Hq n f (file_ppos f) s) as H. destruct (op n f (file_ppos f) s) as [[r p] s']. destruct H as (? & ? & ?).
  unfold store_pos. simpl. by repeat case_match.
Qed.
Lemma at_offset_quiet op bit fd pos s : op_quiet op -> quiet s (at_offset op bit fd pos s).2.
Proof.
  intros Hq. unfold at_offset. case_match; [done|]. destruct (fdget_pos (fs s) fd) as [[[n f] i]|]; [|done].
  case_match; [|done]. pose proof (Hq n f (Some pos) s) as H'. by destruct (op n f (Some pos) s) as [[r p] s'].
Qed.
Create HintDb rw.
#[local] Hint Resolve vfs_read_quiet vfs_write_quiet vfs_readv_quiet vfs_writev_quiet : rw.

Definition is_read (c : rw_call) : bool := match c with Read _ _ _ => true | _ => false end.
Definition is_write (c : rw_call) : bool := match c with Write _ _ _ => true | _ => false end.

Lemma exec_rw_counters c s :
  read_call_counter (exec_rw c s).2 = (if is_read c then s64 (read_call_counter s + 1) else read_call_counter s) /\
  write_call_counter (exec_rw c s).2 = (if is_write c then s64 (write_call_counter s + 1) else write_call_counter s).
Proof.
  destruct c as [fd b n|fd b n|fd b n p|fd b n p|fd v n fl|fd v n fl|fd v n p fl|fd v n p fl]; simpl.
  - destruct (at_pos_counters (fun n' f => vfs_read n' f b n) fd (count_read s)) as [H1 H2]; auto with rw.
  - destruct (at_pos_counters (fun n' f => vfs_write n' f b n) fd (count_write s)) as [H1 H2]; auto with rw.
  - destruct (at_offset_quiet (fun n' f => vfs_read n' f b n) FMODE_PREAD fd p s) as (_ & H1 & H2); auto with rw.
  - destruct (at_offset_quiet (fun n' f => vfs_write n' f b n) FMODE_PWRITE fd p s) as (_ & H1 & H2); auto with rw.
  - unfold do_readv. pose proof (at_pos_counters (fun m f => vfs_readv m f v n fl) fd s) as H.
    destruct (at_pos _ fd s). apply H. auto with rw.
  - unfold do_writev. pose proof (at_pos_counters (fun m f => vfs_writev m f v n fl) fd s) as H.
    destruct (at_pos _ fd s). apply H. auto with rw.
  - unfold do_preadv. case_match; [done|].
    pose proof (at_offset_quiet (fun m f => vfs_readv m f v n fl) FMODE_PREAD fd p s) as H'.
    destruct (at_offset _ _ fd p s). apply H'. auto with rw.
  - unfold do_pwritev. case_match; [done|].
    pose proof (at_offset_quiet (fun m f => vfs_writev m f v n fl) FMODE_PWRITE fd p s) as H'.
    destruct (at_offset _ _ fd p s). apply H'. auto with rw.
Qed.

(** How many calls of a program satisfy [f]. *)
Definition calls_of (f : rw_call -> bool) (cs : list rw_call) : Z :=
  Z.of_nat (length (filter (fun c => f c = true) cs)).
Lemma calls_of_cons f c cs : calls_of f (c :: cs) = (if f c then 1 else 0) + calls_of f cs.
Proof.
  unfold calls_of. destruct (f c) eqn:E.
  - rewrite filter_cons_True by done. simpl. lia.
  - rewrite filter_cons_False by congruence. lia.
Qed.

(** The counters that [luis_track_syscall_usage] reports count exactly the
    [read] and [write] system calls, failed ones included and modulo the
    width of a long; the positional and vectored calls are not counted. *)
Theorem counters_count_calls cs s :
  is_s64 (read_call_counter s) -> is_s64 (write_call_counter s) ->
  read_call_counter (exec_all cs s) = s64 (read_call_counter s + calls_of is_read cs) /\
  write_call_counter (exec_all cs s) = s64 (write_call_counter s + calls_of is_write cs).
Proof.
  revert s. induction cs as [|c cs IH]; intros s Hr Hw.
  - unfold calls_of. simpl. by rewrite !Z.add_0_r, !s64_small.
  - cbn [exec_all foldl]. destruct (exec_rw_counters c s) as [E1 E2].
    destruct (IH (exec_rw c s).2) as [H1 H2].
    { rewrite E1. destruct (is_read c); [apply s64_range|done]. }
    { rewrite E2. destruct (is_write c); [apply s64_range|done]. }
    unfold exec_all in *. rewrite H1, H2, E1, E2, !calls_of_cons.
    split; [destruct (is_read c)|destruct (is_write c)]; rewrite ?s64_add_l; f_equal; lia.
Qed.

(** ** What reaches a driver *)

(** Offsets are [loff_t] values, drivers included. *)
Class DriverLaws := {
  drv_read_pos n b c p w q : (drv_read n b c p w).1.2 = Some q -> is_s64 q;
  drv_write_pos n b c p w q : (drv_write n b c p w).1.2 = Some q -> is_s64 q;
  drv_read_iter_pos n l p w : is_s64 (drv_read_iter n l p w).1.2;
  drv_write_iter_pos n l p w : is_s64 (drv_write_iter n l p w).1.2;
}.

(** The request was allowed by the mode of its file, is short enough, and its
    range is representable. *)
Definition request_ok (fl : gmap Z file) (c : drvcall) : Prop :=
  exists f, fl !! dc_file c = Some f /\
    has (f_mode f) (if dc_read c then FMODE_READ else FMODE_WRITE) = true /\
    0 <= dc_count c <= MAX_RW_COUNT /\
    (forall p, dc_pos c = Some p -> unsigned_offsets f = false -> 0 <= p /\ p + dc_count c <= S64_MAX).
Definition rw_ok (s : st) : Prop :=
  (forall n f, files (fs s) !! n = Some f -> is_s64 (f_pos f)) /\
  Forall (request_ok (files (fs s))) (drv_log s).

(** One transfer: at most one request, and a 64-bit offset after it. *)
Definition transfer_ok (rd : bool) (n : Z) (f : file) (ppos : option Z) (s : st) (res : Z * option Z * st) : Prop :=
  (drv_log res.2 = drv_log s \/
   exists c, drv_log res.2 = DrvCall rd n c ppos :: drv_log s /\
     has (f_mode f) (if rd then FMODE_READ else FMODE_WRITE) = true /\ 0 <= c <= MAX_RW_COUNT /\
     (forall p, ppos = Some p -> unsigned_offsets f = false -> 0 <= p /\ p + c <= S64_MAX)) /\
  (forall q, res.1.2 = Some q -> is_s64 q).

Lemma range_clamped rd n f ppos count p : is_u64 count -> is_s64 p -> ppos = Some p ->
  rw_verify_area rd n f ppos count = 0 -> unsigned_offsets f = false ->
  0 <= p /\ p + (if MAX_RW_COUNT <? count then MAX_RW_COUNT else count) <= S64_MAX.
Proof.
  intros Hc Hp -> Hv Hu. destruct (rw_verify_range rd n f p count) as (? & ? & ?); try done.
  case_match; lia.
Qed.

Lemma call_read_log `{!DriverLaws} n f b c p s : (forall q, p = Some q -> is_s64 q) ->
  (drv_log (call_read n f b c p s).2 = drv_log s \/
   drv_log (call_read n f b c p s).2 = DrvCall true n c p :: drv_log s) /\
  (forall q, (call_read n f b c p s).1.2 = Some q -> is_s64 q).
Proof.
  intros Hp. unfold call_read, new_sync_read. destruct (op_read f); [|destruct (op_read_iter f)].
  - pose proof (drv_read_pos n b c p (world s)). destruct (drv_read _ _ _ _ _) as [[r q] w]. simpl in *. auto.
  - pose proof (drv_read_iter_pos n [(b, c)] (default 0 p) (world s)).
    destruct (drv_read_iter _ _ _ _) as [[r q] w]. simpl in *. split; [auto|]. destruct p; naive_solver.
  - simpl. auto.
Qed.
Lemma call_write_log `{!DriverLaws} n f b c p s : (forall q, p = Some q -> is_s64 q) ->
  (drv_log (call_write n f b c p s).2 = drv_log s \/
   drv_log (call_write n f b c p s).2 = DrvCall false n c p :: drv_log s) /\
  (forall q, (call_write n f b c p s).1.2 = Some q -> is_s64 q).
Proof.
  intros Hp. unfold call_write, new_sync_write. destruct (op_write f); [|destruct (op_write_iter f)].
  - pose proof (drv_write_pos n b c p (world s)). destruct (drv_write _ _ _ _ _) as [[r q] w]. simpl in *. auto.
  - pose proof (drv_write_iter_pos n [(b, c)] (default 0 p) (world s)).
    destruct (drv_write_iter _ _ _ _) as [[r q] w]. simpl in *. split; [auto|].
    destruct p; [|done]. intros q' [= <-]. case_match; auto.
  - simpl. auto.
Qed.

Lemma vfs_read_ok `{!DriverLaws} n f b c p s : is_u64 c -> (forall q, p = Some q -> is_s64 q) ->
  transfer_ok true n f p s (vfs_read n f b c p s).
Proof.
  intros Hc Hp. unfold vfs_read. destruct (has (f_mode f) FMODE_READ) eqn:Hm; cbn [negb]; [|split; simpl; auto].
  do 2 (case_match; [split; simpl; auto; done|]). case_match; [split; simpl; auto; done|].
  match goal with |- context [call_read n f b ?c' p s] => destruct (call_read_log n f b c' p s Hp) as [Hl Hq];
    destruct (call_read n f b c' p s) as [[r p'] s'] end. simpl in *.
  split; [|done]. destruct Hl as [Hl|Hl]; [auto|right]. eexists. split_and!; [exact Hl|done| | |].
  1,2: unfold is_u64 in Hc; case_match; lia.
  intros q -> Hu. apply (range_clamped true n f (Some q)); auto. lia.
Qed.
Lemma vfs_write_ok `{!DriverLaws} n f b c p s : is_u64 c -> (forall q, p = Some q -> is_s64 q) ->
  transfer_ok false n f p s (vfs_write n f b c p s).
Proof.
  intros Hc Hp. unfold vfs_write. destruct (has (f_mode f) FMODE_WRITE) eqn:Hm; cbn [negb]; [|split; simpl; auto].
  do 2 (case_match; [split; simpl; auto; done|]). case_match; [split; simpl; auto; done|].
  match goal with |- context [call_write n f b ?c' p s] => destruct (call_write_log n f b c' p s Hp) as [Hl Hq];
    destruct (call_write n f b c' p s) as [[r p'] s'] end. simpl in *.
  split; [|done]. destruct Hl as [Hl|Hl]; [auto|right]. eexists. split_and!; [exact Hl|done| | |].
  1,2: unfold is_u64 in Hc; case_match; lia.
  intros q -> Hu. apply (range_clamped false n f (Some q)); auto. lia.
Qed.

(** The log entries of a transfer on an open file. *)
Lemma transfer_log rd n f ppos s res :
  rw_ok s -> files (fs s) !! n = Some f -> fs res.2 = fs s -> transfer_ok rd n f ppos s res -> rw_ok res.2.
Proof.
  intros [Hp Hl] Hn Hfs [Hlog _]. split; [by rewrite Hfs|]. rewrite Hfs.
  destruct Hlog as [->|(c & -> & ? & ? & ?)]; [done|]. constructor; [|done]. exists f. auto.
Qed.
(** Moving the offset of a file keeps the requests valid. *)
Lemma store_pos_ok n f r p s : rw_ok s -> files (fs s) !! n = Some f -> (forall q, p = Some q -> is_s64 q) ->
  rw_ok (store_pos n f r p s).
Proof.
  intros [Hp Hl] Hn Hq. unfold store_pos. destruct p as [q|]; [|done]. case_match; [|done]. split; simpl.
  - intros m g. rewrite lookup_insert_Some. intros [[<- <-]|[_ ?]]; [by apply Hq|eauto].
  - eapply Forall_impl; [exact Hl|]. intros c (g & Hg & Hm & Hc & Hr).
    destruct (decide (dc_file c = n)) as [E|]; [|exists g; by rewrite lookup_insert_ne].
    exists (set_pos f q (f_version f)). rewrite E, lookup_insert_eq. rewrite E in Hg.
    assert (g = f) as -> by congruence. done.
Qed.

Definition small_call (c : rw_call) : Prop :=
  match c with
  | Read _ _ n | Write _ _ n => is_u64 n
  | Pread _ _ n p | Pwrite _ _ n p => is_u64 n /\ is_s64 p
  | _ => False
  end.

Lemma at_pos_ok op rd fd s :
  op_quiet op -> (forall n f p, (forall q, p = Some q -> is_s64 q) -> transfer_ok rd n f p s (op n f p s)) ->
  rw_ok s -> rw_ok (at_pos op fd s).2.
Proof.
  intros Hq Ht Hok. unfold at_pos. destruct (fdget_pos (fs s) fd) as [[[n f] i]|] eqn:E; [|done].
  apply fdget_pos_files in E as [Hn _].
  assert (forall q, file_ppos f = Some q -> is_s64 q) as Hp.
  { unfold file_ppos. case_match; [done|]. intros q [= <-]. by eapply Hok. }
  specialize (Ht n f (file_ppos f) Hp). destruct (Hq n f (file_ppos f) s) as (Hfs & _).
  pose proof (transfer_log _ _ _ _ _ _ Hok Hn Hfs Ht) as Hok'.
  destruct (op n f (file_ppos f) s) as [[r p] s']. simpl in *.
  apply store_pos_ok; [done|by rewrite Hfs|apply Ht].
Qed.
Lemma at_offset_ok op rd bit fd pos s :
  op_quiet op -> (forall n f p, (forall q, p = Some q -> is_s64 q) -> transfer_ok rd n f p s (op n f p s)) ->
  is_s64 pos -> rw_ok s -> rw_ok (at_offset op bit fd pos s).2.
Proof.
  intros Hq Ht Hpos Hok. unfold at_offset. case_match; [done|].
  destruct (fdget_pos (fs s) fd) as [[[n f] i]|] eqn:E; [|done]. apply fdget_pos_files in E as [Hn _].
  case_match; [|done]. assert (forall q, Some pos = Some q -> is_s64 q) as Hp by (by intros q [= <-]).
  specialize (Ht n f (Some pos) Hp). destruct (Hq n f (Some pos) s) as (Hfs & _).
  pose proof (transfer_log _ _ _ _ _ _ Hok Hn Hfs Ht) as Hok'.
  by destruct (op n f (Some pos) s) as [[r p] s'].
Qed.

Lemma exec_rw_ok `{!DriverLaws} c s : small_call c -> rw_ok s -> rw_ok (exec_rw c s).2.
Proof.
  intros Hc Hok. destruct c as [fd b n|fd b n|fd b n p|fd b n p|fd v n fl|fd v n fl|fd v n p fl|fd v n p fl];
    simpl in *; try done.
  - eapply at_pos_ok; [apply vfs_read_quiet|intros; by apply vfs_read_ok|done].
  - eapply at_pos_ok; [apply vfs_write_quiet|intros; by apply vfs_write_ok|done].
  - destruct Hc. eapply at_offset_ok; [apply vfs_read_quiet|intros; by apply vfs_read_ok|done|done].
  - destruct Hc. eapply at_offset_ok; [apply vfs_write_quiet|intros; by apply vfs_write_ok|done|done].
Qed.

(** C9: over any program of [read], [write], [pread64] and [pwrite64] calls
    with arguments of the C types, every request that reaches a driver is for
    a file open in that direction, asks for at most MAX_RW_COUNT bytes, and
    (on files with signed offsets) covers a range between 0 and the largest
    [loff_t]. *)
Theorem drivers_get_valid_requests `{!DriverLaws} cs s :
  rw_ok s -> Forall small_call cs -> Forall (request_ok (files (fs (exec_all cs s)))) (drv_log (exec_all cs s)).
Proof.
  intros Hok Hcs. assert (rw_ok (exec_all cs s)) as [_ ?]; [|done].
  revert s Hok. induction Hcs as [|c cs Hc _ IH]; intros s Hok; [done|]. simpl. by apply IH, exec_rw_ok.
Qed.

(** [pread64] and [pwrite64] leave the descriptor table and every file
    offset alone; [read] and [write] leave them alone when they fail. *)
Theorem positional_io_keeps_offsets fd b n p s :
  fs (ksys_pread64 fd b n p s).2 = fs s /\ fs (ksys_pwrite64 fd b n p s).2 = fs s /\
  ((ksys_read fd b n s).1 < 0 -> fs (ksys_read fd b n s).2 = fs s) /\
  ((ksys_write fd b n s).1 < 0 -> fs (ksys_write fd b n s).2 = fs s).
Proof.
  assert (forall op, op_quiet op -> (at_pos op fd s).1 < 0 -> fs (at_pos op fd s).2 = fs s) as Hat.
  { intros op Hq. unfold at_pos. destruct (fdget_pos (fs s) fd) as [[[m f] i]|]; [|done].
    destruct (Hq m f (file_ppos f) s) as [Hfs _]. destruct (op m f (file_ppos f) s) as [[r q] s']. simpl in *.
    intros Hr. unfold store_pos. destruct q; [|done]. by replace (0 <=? r) with false by lia. }
  split_and!.
  - by apply at_offset_quiet, vfs_read_quiet.
  - by apply at_offset_quiet, vfs_write_quiet.
  - by apply Hat, vfs_read_quiet.
  - by apply Hat, vfs_write_quiet.
Qed.
End properties.

Module Demo.
#[local] Existing Instances uaccess_ok Seek.Demo.env0.
(** A driver that transfers at most 100 bytes. *)
Definition drv0 : Driver unit := {|
  drv_read _ _ c p w := (Z.min c 100, (fun q => s64 (q + Z.min c 100)) <$> p, w);
  drv_read_iter _ l p w := (Z.min (iov_count l) 100, s64 (p + Z.min (iov_count l) 100), w);
  drv_write _ _ c p w := (Z.min c 100, (fun q => s64 (q + Z.min c 100)) <$> p, w);
  drv_write_iter _ l p w := (Z.min (iov_count l) 100, s64 (p + Z.min (iov_count l) 100), w);
  import_iovec _ a n := inr [(a, n)]; kiocb_set_rw_flags _ := 0 |}.
#[local] Existing Instance drv0.
#[local] Instance laws0 : DriverLaws (W := unit).
Proof.
  split; simpl.
  - intros _ _ c [p|] _ q; simpl; [intros [= <-]; apply s64_range|done].
  - intros _ _ c [p|] _ q; simpl; [intros [= <-]; apply s64_range|done].
  - intros. apply s64_range.
  - intros. apply s64_range.
Qed.
Definition s0 : rstate unit := RState Seek.Demo.s0 tt 0 0 0 0 0 0 [].
Definition prog : list rw_call := [Read 3 4096 50; Read 9 4096 50; Write 4 4096 5000000000; Pread 3 4096 10 2; Readv 3 0 5 0].

Lemma rw0_ok : rw_ok s0.
Proof.
  split; [|constructor]. intros n f. simpl. rewrite lookup_singleton_Some. intros [_ <-].
  unfold is_s64. simpl. lia.
Qed.
Lemma counters_count_calls_witness :
  read_call_counter (exec_all prog s0) = 2 /\ write_call_counter (exec_all prog s0) = 1.
Proof.
  destruct (counters_count_calls prog s0) as [H1 H2]; [unfold is_s64; simpl; lia|unfold is_s64; simpl; lia|].
  rewrite H1, H2. split; vm_compute; reflexivity.
Defined.
Lemma drivers_get_valid_requests_witness :
  let s' := exec_all (take 4 prog) s0 in
  length (drv_log s') = 3%nat /\ Forall (request_ok (files (fs s'))) (drv_log s').
Proof.
  split; [vm_compute; reflexivity|]. apply (drivers_get_valid_requests (take 4 prog) s0 rw0_ok).
  repeat constructor; unfold is_u64, is_s64; lia.
Defined.
Lemma positional_io_keeps_offsets_witness : fs (ksys_pread64 3 4096 10 2 s0).2 = fs s0.
Proof. exact (proj1 (positional_io_keeps_offsets 3 4096 10 2 s0)). Defined.
End Demo.
