(* ===== verification/FileCopy.v ===== *)
(** * sendfile, copy_file_range and the checks before a write

    read_write.c 1230-1745.  The files, inodes and user offsets are those of
    Seek; the file systems' copy, clone and splice methods are an interface.
    Every request that reaches one of them is logged. *)
From S2P Require Import Prelude Seek.

Abbreviation MAX_RW_COUNT := 2147479552 (only parsing).
Abbreviation MAX_NON_LFS := 2147483647 (only parsing).
Abbreviation RLIM_INFINITY := 18446744073709551615 (only parsing).
Abbreviation O_APPEND := 1024 (only parsing).
Abbreviation O_LARGEFILE := 32768 (only parsing).
Abbreviation COPY_FILE_SPLICE := 1 (only parsing).
Abbreviation IOCB_APPEND := 16 (only parsing).
Abbreviation IOCB_NOWAIT := 8 (only parsing).
Abbreviation IOCB_DIRECT := 131072 (only parsing).
Abbreviation FMODE_BUF_WASYNC := 2147483648 (only parsing).

(** Which method carries a request out. *)
Inductive route := ByCopy | ByClone | BySplice | SendDirect | SendToPipe.
Record creq := CReq { cq_route : route; cq_in : Z; cq_pos_in : Z; cq_out : Z; cq_pos_out : Z; cq_len : Z }.

Record cstate (W : Type) := CState {
  cfs : fstate;
  cworld : W;
  crchar : Z; cwchar : Z; csyscr : Z; csyscw : Z;      (** accounting of the caller *)
  sigxfsz : Z;                                         (** signals sent *)
  started : Z;                                         (** [file_start_write] less [file_end_write] *)
  clog : list creq;
}.
Arguments CState {W}. Arguments cfs {W}. Arguments cworld {W}. Arguments crchar {W}. Arguments cwchar {W}.
Arguments csyscr {W}. Arguments csyscw {W}. Arguments sigxfsz {W}. Arguments started {W}. Arguments clog {W}.

Class CopyEnv (W : Type) := {
  rlimit_fsize : Z;                                    (** [rlimit(RLIMIT_FSIZE)] *)
  copy_method : Z -> option Z;                         (** [f_op->copy_file_range] of a file *)
  remap_method : Z -> bool;                            (** [f_op->remap_file_range] is set *)
  pipe_of : Z -> bool;                                 (** [get_pipe_info(file, true)] *)
  call_copy : Z -> Z -> Z -> Z -> Z -> W -> Z * W;     (** in, offset, out, offset, length *)
  call_remap : Z -> Z -> Z -> Z -> Z -> W -> Z * W;
  do_splice_direct : Z -> Z -> Z -> Z -> Z -> W -> Z * Z * Z * W;   (** result and both offsets after *)
  splice_file_to_pipe : Z -> Z -> Z -> W -> Z * Z * W;
}.

(** The permission hooks answer 0 or an error. *)
Class RwLaws {rwenv : RwEnv} := {
  security_file_permission_le n rd : security_file_permission n rd <= 0;
  fsnotify_file_area_perm_le n rd ppos count : fsnotify_file_area_perm n rd ppos count <= 0;
}.
(** No method reports more than it was asked to move. *)
Class CopyLaws (W : Type) {cenv : CopyEnv W} := {
  call_copy_le ni pi no po len w : 0 < len -> (call_copy ni pi no po len w).1 <= len;
  call_remap_le ni pi no po len w : 0 < len -> (call_remap ni pi no po len w).1 <= len;
  do_splice_direct_le ni pi no po len w : 0 < len -> (do_splice_direct ni pi no po len w).1.1.1 <= len;
}.

Section copy.
Context {W : Type} {ua : UAccess} {rwenv : RwEnv} {cenv : CopyEnv W}.
#[local] Abbreviation st := (cstate W).

Definition log (q : creq) (w : W) (s : st) : st :=
  CState (cfs s) w (crchar s) (cwchar s) (csyscr s) (csyscw s) (sigxfsz s) (started s) (q :: clog s).
Definition set_cfs (x : fstate) (s : st) : st :=
  CState x (cworld s) (crchar s) (cwchar s) (csyscr s) (csyscw s) (sigxfsz s) (started s) (clog s).
Definition add_started (d : Z) (s : st) : st :=
  CState (cfs s) (cworld s) (crchar s) (cwchar s) (csyscr s) (csyscw s) (sigxfsz s) (started s + d) (clog s).
Definition send_sigxfsz (s : st) : st :=
  CState (cfs s) (cworld s) (crchar s) (cwchar s) (csyscr s) (csyscw s) (sigxfsz s + 1) (started s) (clog s).
(** The accounting at the end of a transfer. *)
Definition account (ret : Z) (s : st) : st :=
  CState (cfs s) (cworld s) (if 0 <? ret then u64 (crchar s + ret) else crchar s)
    (if 0 <? ret then u64 (cwchar s + ret) else cwchar s) (u64 (csyscr s + 1)) (u64 (csyscw s + 1)) (sigxfsz s)
    (started s) (clog s).

(** ** Checks before a write: the error or the shortened count *)
Definition generic_write_check_limits (f : file) (i : inode) (pos count : Z) (s : st) : (Z + Z) * st :=
  let max_size := s_maxbytes i in
  let limit := s64 rlimit_fsize in
  let limited := negb (u64 limit =? RLIM_INFINITY) in
  if limited && (limit <=? pos) then (inl (- EFBIG), send_sigxfsz s)
  else
    let count := if limited then Z.min count (s64 (limit - pos)) else count in
    let max_size := if has (f_flags f) O_LARGEFILE then max_size else MAX_NON_LFS in
    if max_size <=? pos then (inl (- EFBIG), s)
    else (inr (Z.min count (s64 (max_size - pos))), s).

(** [struct kiocb]: the offset and the flags. *)
Definition generic_write_checks_count (f : file) (i : inode) (ki_pos ki_flags count : Z) (s : st) : (Z + Z * Z) * st :=
  if swapfile i then (inl (- ETXTBSY), s)
  else if count =? 0 then (inr (ki_pos, 0), s)
  else
    let ki_pos := if has ki_flags IOCB_APPEND then i_size i else ki_pos in
    if has ki_flags IOCB_NOWAIT && negb (has ki_flags IOCB_DIRECT || has (f_mode f) FMODE_BUF_WASYNC)
    then (inl (- EINVAL), s)
    else
      let '(r, s) := generic_write_check_limits f i ki_pos count s in
      (match r with inl e => inl e | inr c => inr (ki_pos, c) end, s).
(** The iterator is truncated to the count. *)
Definition generic_write_checks (f : file) (i : inode) (ki_pos ki_flags iter_count : Z) (s : st) : (Z + Z * Z) * st :=
  let '(r, s) := generic_write_checks_count f i ki_pos ki_flags iter_count s in
  (match r with inl e => inl e | inr (pos, c) => inr (pos, Z.min iter_count c) end, s).

(** ** Checks before a copy *)
Definition generic_file_rw_checks (fi : file) (ii : inode) (fo : file) (io : inode) : Z :=
  if is_dir ii || is_dir io then - EISDIR
  else if negb (is_reg ii) || negb (is_reg io) then - EINVAL
  else if negb (has (f_mode fi) FMODE_READ) || negb (has (f_mode fo) FMODE_WRITE) || has (f_flags fo) O_APPEND then - EBADF
  else 0.

Definition generic_copy_file_checks (ni : Z) (fi : file) (ii : inode) (pos_in : Z) (no : Z) (fo : file) (io : inode)
    (pos_out req_count flags : Z) (s : st) : (Z + Z) * st :=
  let ret := generic_file_rw_checks fi ii fo io in
  if negb (ret =? 0) then (inl ret, s)
  else if negb (has flags COPY_FILE_SPLICE) &&
          match copy_method no with
          | Some m => negb (bool_decide (copy_method ni = Some m))
          | None => negb (i_sb ii =? i_sb io)
          end then (inl (- EXDEV), s)
  else if immutable io then (inl (- EPERM), s)
  else if swapfile ii || swapfile io then (inl (- ETXTBSY), s)
  else
    let count := req_count in
    if (u64 (pos_in + count) <? u64 pos_in) || (u64 (pos_out + count) <? u64 pos_out) then (inl (- EOVERFLOW), s)
    else
      let size_in := i_size ii in
      let count := if size_in <=? pos_in then 0 else Z.min count (u64 (size_in - u64 pos_in)) in
      let '(r, s) := generic_write_check_limits fo io pos_out (s64 count) s in
      match r with
      | inl e => (inl e, s)
      | inr count =>
          let count := u64 count in
          if (f_ino fi =? f_ino fo) && (u64 pos_in <? u64 (pos_out + count)) && (u64 pos_out <? u64 (pos_in + count))
          then (inl (- EINVAL), s) else (inr count, s)
      end.

(** ** copy_file_range *)

(** The file systems' own ways, under freeze protection: the result and
    whether the data still has to be spliced. *)
Definition copy_by_method (ni no pos_in pos_out len : Z) (samesb splice : bool) (s : st) : Z * bool * st :=
  let s := add_started 1 s in
  let '(ret, splice, s) :=
    if negb splice && bool_decide (is_Some (copy_method no)) then
      let '(ret, w) := call_copy ni pos_in no pos_out len (cworld s) in
      (ret, splice, log (CReq ByCopy ni pos_in no pos_out len) w s)
    else if negb splice && remap_method ni && samesb then
      let n := Z.min MAX_RW_COUNT len in
      let '(ret, w) := call_remap ni pos_in no pos_out n (cworld s) in
      (ret, if ret <=? 0 then true else splice, log (CReq ByClone ni pos_in no pos_out n) w s)
    else if samesb then (0, true, s)
    else (0, splice, s) in
  (ret, splice, add_started (-1) s).
Definition copy_by_splice (ni no pos_in pos_out len : Z) (s : st) : Z * st :=
  let n := Z.min len MAX_RW_COUNT in
  let '(ret, _, _, w) := do_splice_direct ni pos_in no pos_out n (cworld s) in
  (ret, log (CReq BySplice ni pos_in no pos_out n) w s).

Definition vfs_copy_file_range (ni : Z) (fi : file) (ii : inode) (pos_in : Z) (no : Z) (fo : file) (io : inode)
    (pos_out len flags : Z) (s : st) : Z * st :=
  let splice := has flags COPY_FILE_SPLICE in
  let samesb := i_sb ii =? i_sb io in
  if outside flags COPY_FILE_SPLICE then (- EINVAL, s)
  else
    let '(r, s) := generic_copy_file_checks ni fi ii pos_in no fo io pos_out len flags s in
    match r with
    | inl ret => (ret, s)
    | inr len =>
        let ret := rw_verify_area true ni fi (Some pos_in) len in
        if negb (ret =? 0) then (ret, s) else
        let ret := rw_verify_area false no fo (Some pos_out) len in
        if negb (ret =? 0) then (ret, s) else
        if len =? 0 then (0, s) else
        let '(ret, splice, s) := copy_by_method ni no pos_in pos_out len samesb splice s in
        let '(ret, s) := if splice then copy_by_splice ni no pos_in pos_out len s else (ret, s) in
        (ret, account ret s)
    end.

(** A user offset of [sz] bytes: the 32-bit calls read the low half of the object. *)
Definition read_off (sz p : Z) (s : st) : option Z :=
  if uncopied p sz =? 0 then (if sz =? 4 then s32 <$> results (cfs s) !! p else results (cfs s) !! p) else None.
Definition write_off (sz p v : Z) (s : st) : Z * st :=
  let '(rest, m) := copy_to_user (results (cfs s)) p v sz in
  (rest, set_cfs (FState (fds (cfs s)) (files (cfs s)) (inodes (cfs s)) m) s).
(** [file->f_pos = pos], on the file as it is now *)
Definition set_f_pos (n pos : Z) (s : st) : st :=
  match files (cfs s) !! n with
  | Some f => set_cfs (put_file n (set_pos f pos (f_version f)) (cfs s)) s
  | None => s
  end.
(** Where an offset comes from and goes back to. *)
Definition store_off (p n pos ret : Z) (s : st) : Z * st :=
  if negb (p =? 0) then
    let '(rest, s) := write_off 8 p pos s in (if negb (rest =? 0) then - EFAULT else ret, s)
  else (ret, set_f_pos n pos s).

Definition sys_copy_file_range (fd_in off_in fd_out off_out len flags : Z) (s : st) : Z * st :=
  match fdget_pos (cfs s) fd_in, fdget_pos (cfs s) fd_out with
  | Some (ni, fi, ii), Some (no, fo, io) =>
      match (if negb (off_in =? 0) then read_off 8 off_in s else Some (f_pos fi)) with
      | None => (- EFAULT, s)
      | Some pos_in =>
          match (if negb (off_out =? 0) then read_off 8 off_out s else Some (f_pos fo)) with
          | None => (- EFAULT, s)
          | Some pos_out =>
              if negb (flags =? 0) then (- EINVAL, s)
              else
                let '(ret, s) := vfs_copy_file_range ni fi ii pos_in no fo io pos_out len flags s in
                if 0 <? ret then
                  let pos_in := s64 (pos_in + ret) in
                  let pos_out := s64 (pos_out + ret) in
                  let '(ret, s) := store_off off_in ni pos_in ret s in
                  store_off off_out no pos_out ret s
                else (ret, s)
          end
      end
  | _, _ => (- EBADF, s)
  end.

(** ** sendfile *)

(** The transfer itself: the result and both offsets after it. *)
Definition send_request (ni no pos out_pos count : Z) (s : st) : Z * Z * Z * st :=
  if negb (pipe_of no) then
    let '(ret, pos', out_pos', w) := do_splice_direct ni pos no out_pos count (cworld s) in
    (ret, s64 pos', s64 out_pos', log (CReq SendDirect ni pos no out_pos count) w s)
  else
    let '(ret, pos', w) := splice_file_to_pipe ni pos count (cworld s) in
    (ret, s64 pos', out_pos, log (CReq SendToPipe ni pos no out_pos count) w s).

(** [*ppos] after the call is the second result; without [ppos] the offset of
    the input file is used. *)
Definition do_sendfile (out_fd in_fd : Z) (ppos : option Z) (count max : Z) (s : st) : Z * Z * st :=
  let old := default 0 ppos in
  match fdget_pos (cfs s) in_fd with
  | None => (- EBADF, old, s)
  | Some (ni, fi, ii) =>
      if negb (has (f_mode fi) FMODE_READ) then (- EBADF, old, s)
      else if bool_decide (is_Some ppos) && negb (has (f_mode fi) FMODE_PREAD) then (- ESPIPE, old, s)
      else
        let pos := default (f_pos fi) ppos in
        let ret := rw_verify_area true ni fi (Some pos) count in
        if ret <? 0 then (ret, old, s)
        else
          let count := if MAX_RW_COUNT <? count then MAX_RW_COUNT else count in
          match fdget_pos (cfs s) out_fd with
          | None => (- EBADF, old, s)
          | Some (no, fo, io) =>
              if negb (has (f_mode fo) FMODE_WRITE) then (- EBADF, old, s)
              else
                let max := if max =? 0 then Z.min (s_maxbytes ii) (s_maxbytes io) else max in
                if (u64 max <? u64 (pos + count)) && (max <=? pos) then (- EOVERFLOW, old, s)
                else
                  let count := if u64 max <? u64 (pos + count) then u64 (max - pos) else count in
                  (* a refused write area leaves before the accounting *)
                  if negb (pipe_of no) && (rw_verify_area false no fo (Some (f_pos fo)) count <? 0)
                  then (rw_verify_area false no fo (Some (f_pos fo)) count, old, s)
                  else
                    let '(ret, pos, out_pos, s) := send_request ni no pos (f_pos fo) count s in
                    let s := if 0 <? ret then
                               let s := set_f_pos no out_pos s in
                               match ppos with Some _ => s | None => set_f_pos ni pos s end
                             else s in
                    let after := if 0 <? ret then pos else old in
                    (if max <? pos then - EOVERFLOW else ret, after, account ret s)
          end
  end.

(** With an offset of [sz] bytes in user memory, which is written back
    whatever happened; [conv] is the conversion to its type. *)
Definition sendfile_at (sz : Z) (conv : Z -> Z) (out_fd in_fd offset count max : Z) (s : st) : Z * st :=
  if negb (offset =? 0) then
    match read_off sz offset s with
    | None => (- EFAULT, s)
    | Some pos =>
        let '(ret, pos, s) := do_sendfile out_fd in_fd (Some pos) count max s in
        let '(rest, s) := write_off sz offset (conv pos) s in
        (if negb (rest =? 0) then - EFAULT else ret, s)
    end
  else let '(ret, _, s) := do_sendfile out_fd in_fd None count 0 s in (ret, s).
Definition sys_sendfile (out_fd in_fd offset count : Z) : st -> Z * st := sendfile_at 8 s64 out_fd in_fd offset count MAX_NON_LFS.
Definition sys_sendfile64 (out_fd in_fd offset count : Z) : st -> Z * st := sendfile_at 8 s64 out_fd in_fd offset count 0.
(** [compat_off_t] has 32 bits. *)
Definition compat_sys_sendfile (out_fd in_fd offset count : Z) : st -> Z * st :=
  sendfile_at 4 s32 out_fd in_fd offset (u32 count) MAX_NON_LFS.
Definition compat_sys_sendfile64 (out_fd in_fd offset count : Z) : st -> Z * st :=
  sendfile_at 8 s64 out_fd in_fd offset (u32 count) 0.

Inductive fcall :=
| FCopy (fd_in off_in fd_out off_out len flags : Z) | FSend (out_fd in_fd offset count : Z) | FSend64 (out_fd in_fd offset count : Z)
| CompatFSend (out_fd in_fd offset count : Z) | CompatFSend64 (out_fd in_fd offset count : Z).
Definition exec_copy (c : fcall) : st -> Z * st :=
  match c with
  | FCopy a b c d e f => sys_copy_file_range a b c d e f
  | FSend a b c d => sys_sendfile a b c d
  | FSend64 a b c d => sys_sendfile64 a b c d
  | CompatFSend a b c d => compat_sys_sendfile a b c d
  | CompatFSend64 a b c d => compat_sys_sendfile64 a b c d
  end.
Definition exec_copies (cs : list fcall) (s : st) : st := foldl (fun s c => (exec_copy c s).2) s cs.
End copy.

(** ** Properties *)
Ltac new_req := split; [done|split; [done|]]; split; [done|split; [done|]].
Section copy_properties.
Context {W : Type} {ua : UAccess} {rwenv : RwEnv} {cenv : CopyEnv W} {rwlaws : RwLaws} {laws : CopyLaws W}.
#[local] Abbreviation st := (cstate W).

(** The limit on file sizes: none, or one that a file offset can reach. *)
Definition fsize_ok : Prop := 0 <= rlimit_fsize <= S64_MAX \/ rlimit_fsize = RLIM_INFINITY.
Definition lfs_bound (f : file) (i : inode) : Z := if has (f_flags f) O_LARGEFILE then s_maxbytes i else MAX_NON_LFS.
(** No write may end behind this. *)
Definition write_bound (f : file) (i : inode) : Z := Z.min rlimit_fsize (lfs_bound f i).

Lemma write_limits_exact f i pos count (s : st) :
  fsize_ok -> 0 <= s_maxbytes i <= S64_MAX -> 0 <= pos <= S64_MAX -> 0 <= count <= S64_MAX ->
  generic_write_check_limits f i pos count s =
  if write_bound f i <=? pos then (inl (- EFBIG), if rlimit_fsize <=? pos then send_sigxfsz s else s)
  else (inr (Z.min count (write_bound f i - pos)), s).
Proof.
  intros Hl Hm Hp Hc. unfold generic_write_check_limits, write_bound.
  assert (0 <= lfs_bound f i <= S64_MAX) as Hb by (unfold lfs_bound; destruct (has _ _); lia).
  fold (lfs_bound f i). destruct Hl as [Hl| ->].
  - rewrite (s64_small rlimit_fsize), (u64_small rlimit_fsize) by (unfold is_s64, is_u64; lia).
    replace (rlimit_fsize =? RLIM_INFINITY) with false by lia. simpl.
    destruct (Z.leb_spec rlimit_fsize pos); [by replace (_ `min` _ <=? pos) with true by lia|].
    destruct (Z.leb_spec (lfs_bound f i) pos); [by replace (_ `min` _ <=? pos) with true by lia|].
    replace (_ `min` _ <=? pos) with false by lia. rewrite !s64_small by (unfold is_s64; lia).
    do 2 f_equal. lia.
  - change (u64 (s64 RLIM_INFINITY) =? RLIM_INFINITY) with true. simpl.
    destruct (Z.leb_spec (lfs_bound f i) pos).
    + replace (_ `min` _ <=? pos) with true by lia. by replace (RLIM_INFINITY <=? pos) with false by lia.
    + replace (_ `min` _ <=? pos) with false by lia. rewrite s64_small by (unfold is_s64; lia).
      do 2 f_equal. lia.
Qed.

(** What the system calls are given: offsets are [loff_t]s, sizes are not negative. *)
Definition inode_ok (i : inode) : Prop := 0 <= i_size i <= S64_MAX /\ 0 <= s_maxbytes i <= S64_MAX.
Definition fs_ok (x : fstate) : Prop :=
  map_Forall (fun _ f => is_s64 (f_pos f)) (files x) /\ map_Forall (fun _ i => inode_ok i) (inodes x) /\
  map_Forall (fun _ v => is_s64 v) (results x).

(** A request between two regular files, whichever way it is carried out. *)
Definition copy_req_ok (fi : file) (ii : inode) (fo : file) (io : inode) (pos_in pos_out len : Z) : Prop :=
  is_reg ii = true /\ is_reg io = true /\ has (f_flags fo) O_APPEND = false /\
  immutable io = false /\ swapfile ii = false /\ swapfile io = false /\ 0 < len /\
  (unsigned_offsets fi = false -> unsigned_offsets fo = false ->
   0 <= pos_in /\ pos_in + len <= i_size ii /\ 0 <= pos_out /\ pos_out + len <= write_bound fo io /\
   (f_ino fi = f_ino fo -> pos_in + len <= pos_out \/ pos_out + len <= pos_in)).
(** A request of sendfile. *)
Definition send_req_ok (fi : file) (ii : inode) (fo : file) (io : inode) (pos_in pos_out len : Z) : Prop :=
  unsigned_offsets fi = false ->
  0 <= pos_in /\ 0 <= len <= MAX_RW_COUNT /\
  (pos_in + len <= MAX_NON_LFS \/ pos_in + len <= s_maxbytes ii /\ pos_in + len <= s_maxbytes io).
Definition req_ok (fi : file) (ii : inode) (fo : file) (io : inode) (q : creq) : Prop :=
  has (f_mode fi) FMODE_READ = true /\ has (f_mode fo) FMODE_WRITE = true /\
  match cq_route q with
  | ByCopy => copy_req_ok fi ii fo io (cq_pos_in q) (cq_pos_out q) (cq_len q)
  | ByClone | BySplice => copy_req_ok fi ii fo io (cq_pos_in q) (cq_pos_out q) (cq_len q) /\ cq_len q <= MAX_RW_COUNT
  | SendToPipe => send_req_ok fi ii fo io (cq_pos_in q) (cq_pos_out q) (cq_len q) /\ pipe_of (cq_out q) = true
  | SendDirect => send_req_ok fi ii fo io (cq_pos_in q) (cq_pos_out q) (cq_len q) /\
      (unsigned_offsets fi = false -> unsigned_offsets fo = false -> 0 <= cq_pos_out q /\ cq_pos_out q + cq_len q <= S64_MAX)
  end.
Definition sound_req (x : fstate) (q : creq) : Prop :=
  exists fi ii fo io, files x !! cq_in q = Some fi /\ inodes x !! f_ino fi = Some ii /\
    files x !! cq_out q = Some fo /\ inodes x !! f_ino fo = Some io /\ req_ok fi ii fo io q.

(** Only offsets of open files change. *)
Definition same_files (x y : fstate) : Prop :=
  fds x = fds y /\ inodes x = inodes y /\
  forall n, (fun f => set_pos f 0 0) <$> files x !! n = (fun f => set_pos f 0 0) <$> files y !! n.
#[local] Instance same_files_preorder : PreOrder same_files.
Proof.
  split; [by intros x|]. intros x y z (? & ? & H) (? & ? & H'). split_and!; [congruence..|].
  intros n. by rewrite H.
Qed.
Lemma sound_req_same x y q : same_files x y -> sound_req x q -> sound_req y q.
Proof.
  intros (_ & Hi & Hf) (fi & ii & fo & io & H1 & H2 & H3 & H4 & Hok). rewrite Hi in *.
  pose proof (Hf (cq_in q)) as E1. pose proof (Hf (cq_out q)) as E2. rewrite H1 in E1. rewrite H3 in E2.
  destruct (files y !! cq_in q) as [gi|] eqn:G1, (files y !! cq_out q) as [go|] eqn:G2; try done.
  destruct fi, fo, gi, go. simpl in *. simplify_eq. eexists _, ii, _, io. split_and!; done.
Qed.
Lemma set_f_pos_same n pos (s : st) : same_files (cfs s) (cfs (set_f_pos n pos s)).
Proof.
  unfold set_f_pos. destruct (files (cfs s) !! n) as [f|] eqn:E; [|reflexivity].
  split_and!; [done..|]. intros m. simpl. destruct (decide (m = n)) as [->|].
  - by rewrite E, lookup_insert_eq.
  - by rewrite lookup_insert_ne.
Qed.
Lemma write_off_same sz p v (s : st) : same_files (cfs s) (cfs (write_off sz p v s).2).
Proof. by unfold write_off. Qed.
Lemma set_f_pos_ok n pos (s : st) : is_s64 pos -> fs_ok (cfs s) -> fs_ok (cfs (set_f_pos n pos s)).
Proof.
  intros Hp (Hf & Hi & Hr). unfold set_f_pos. destruct (files _ !! n); [|done].
  split_and!; [|done..]. by apply map_Forall_insert_2.
Qed.
Lemma write_off_ok sz p v (s : st) : is_s64 v -> fs_ok (cfs s) -> fs_ok (cfs (write_off sz p v s).2).
Proof.
  intros Hv (Hf & Hi & Hr). unfold write_off, copy_to_user. simpl. split_and!; [done..|]. simpl.
  destruct (_ =? _); [by apply map_Forall_insert_2|by apply map_Forall_delete].
Qed.

(** The parts of the state the checks and the accounting leave alone. *)
Definition frame (s s' : st) : Prop := cfs s' = cfs s /\ started s' = started s /\ clog s' = clog s.
Lemma limits_frame f i pos count (s s' : st) r :
  generic_write_check_limits f i pos count s = (r, s') -> frame s s'.
Proof. unfold generic_write_check_limits. intros E. repeat case_match; by simplify_eq. Qed.
Lemma copy_checks_frame ni fi ii pos_in no fo io pos_out len flags (s s' : st) r :
  generic_copy_file_checks ni fi ii pos_in no fo io pos_out len flags s = (r, s') -> frame s s'.
Proof.
  unfold generic_copy_file_checks. intros E. repeat (case_match; simplify_eq; try done); by eapply limits_frame.
Qed.
Lemma rw_checks_zero fi ii fo io :
  generic_file_rw_checks fi ii fo io = 0 ->
  is_reg ii = true /\ is_reg io = true /\ has (f_mode fi) FMODE_READ = true /\ has (f_mode fo) FMODE_WRITE = true /\
  has (f_flags fo) O_APPEND = false.
Proof.
  unfold generic_file_rw_checks. destruct (_ || _); [done|]. destruct (is_reg ii), (is_reg io); try done. simpl.
  destruct (has (f_mode fi) _), (has (f_mode fo) _), (has (f_flags fo) _); done.
Qed.
Lemma write_bound_s64 f i : inode_ok i -> write_bound f i <= S64_MAX.
Proof. unfold inode_ok, write_bound, lfs_bound. destruct (has _ _); lia. Qed.

(** The arithmetic of the checks, for offsets that are not negative. *)
Definition copy_range_ok (fi : file) (ii : inode) (fo : file) (io : inode) (pos_in pos_out len : Z) : Prop :=
  pos_in + len <= i_size ii /\ pos_out + len <= write_bound fo io /\
  (f_ino fi = f_ino fo -> pos_in + len <= pos_out \/ pos_out + len <= pos_in).
Lemma copy_count_sound fi ii pos_in fo io pos_out req (s s' : st) c :
  fsize_ok -> inode_ok ii -> inode_ok io -> 0 <= pos_in <= S64_MAX -> 0 <= pos_out <= S64_MAX -> is_u64 req ->
  generic_write_check_limits fo io pos_out
    (s64 (if i_size ii <=? pos_in then 0 else Z.min req (u64 (i_size ii - u64 pos_in)))) s = (inr c, s') ->
  (f_ino fi =? f_ino fo) && (u64 pos_in <? u64 (pos_out + u64 c)) && (u64 pos_out <? u64 (pos_in + u64 c)) = false ->
  0 < u64 c -> u64 c <= req /\ copy_range_ok fi ii fo io pos_in pos_out (u64 c).
Proof.
  intros Hl Hii Hio Hpi Hpo Hr E Hov Hc. pose proof (write_bound_s64 fo io Hio) as Hw.
  destruct Hii as [Hsz _], Hio as [_ Hmax].
  set (n := if _ <=? _ then _ else _) in E.
  assert (0 <= n <= S64_MAX /\ n <= req /\ (0 < n -> pos_in + n <= i_size ii)) as (Hn & Hnr & Hni).
  { subst n. unfold is_u64 in *. destruct (Z.leb_spec (i_size ii) pos_in); [lia|].
    rewrite (u64_small pos_in), u64_small by (unfold is_u64; lia). lia. }
  clearbody n. rewrite s64_small in E by (unfold is_s64; lia). rewrite write_limits_exact in E by done.
  destruct (Z.leb_spec (write_bound fo io) pos_out); [done|]. injection E as <- <-.
  set (c := Z.min _ _) in *. assert (0 <= c <= n /\ pos_out + c <= write_bound fo io) by (subst c; lia). clearbody c.
  rewrite (u64_small c) in * by (unfold is_u64; lia).
  rewrite !u64_small in Hov by (unfold is_u64; lia). split; [lia|]. split_and!; [lia..|].
  intros He. apply Z.eqb_eq in He. rewrite He in Hov. simpl in Hov. lia.
Qed.

Lemma copy_checks_sound ni fi ii pos_in no fo io pos_out req flags (s s' : st) len :
  fsize_ok -> inode_ok ii -> inode_ok io -> is_s64 pos_in -> is_s64 pos_out -> is_u64 req ->
  generic_copy_file_checks ni fi ii pos_in no fo io pos_out req flags s = (inr len, s') ->
  has (f_mode fi) FMODE_READ = true /\ has (f_mode fo) FMODE_WRITE = true /\ is_u64 len /\
  is_reg ii = true /\ is_reg io = true /\ has (f_flags fo) O_APPEND = false /\
  immutable io = false /\ swapfile ii = false /\ swapfile io = false /\
  (0 <= pos_in -> 0 <= pos_out -> 0 < len -> len <= req /\ copy_range_ok fi ii fo io pos_in pos_out len).
Proof.
  intros Hl Hii Hio Hpi Hpo Hr. unfold generic_copy_file_checks. cbv zeta.
  destruct (Z.eqb_spec (generic_file_rw_checks fi ii fo io) 0) as [Hz|]; [|done]. simpl negb. cbv iota.
  apply rw_checks_zero in Hz as (? & ? & ? & ? & ?).
  destruct (negb _ && _); [done|]. destruct (immutable io); [done|].
  destruct (swapfile ii), (swapfile io); try done. simpl. destruct (_ || _); [done|].
  destruct (generic_write_check_limits _ _ _ _ _) as [[e|c] s1] eqn:E; [done|].
  destruct (_ && _) eqn:Hov; [done|]. intros [= <- <-].
  split_and!; try done; [apply u64_range..|]. intros Hi Ho Hc. unfold is_s64 in *.
  by eapply copy_count_sound; [..|apply E|apply Hov|]; [..|lia|lia| |].
Qed.

(** What a call leaves: the file table, and the log with its new requests. *)
Definition logs (P : creq -> Prop) (s s' : st) : Prop :=
  cfs s' = cfs s /\ started s' = started s /\ exists news, clog s' = news ++ clog s /\ Forall P news.
Lemma logs_frame P (s s' : st) : frame s s' -> logs P s s'.
Proof. intros (? & ? & ?). split_and!; [done..|]. by exists []. Qed.

Lemma rw_verify_area_le rd n f ppos count : rw_verify_area rd n f ppos count <= 0.
Proof.
  unfold rw_verify_area. pose proof (security_file_permission_le n rd).
  pose proof (fsnotify_file_area_perm_le n rd ppos count). repeat case_match; lia.
Qed.
Lemma copy_checks_error ni fi ii pos_in no fo io pos_out req flags (s s' : st) e :
  generic_copy_file_checks ni fi ii pos_in no fo io pos_out req flags s = (inl e, s') -> e <= 0.
Proof.
  unfold generic_copy_file_checks, generic_file_rw_checks, generic_write_check_limits. intros E.
  repeat (case_match; simplify_eq/=; try lia).
Qed.

Lemma logs_trans P (s s1 s' : st) : logs P s s1 -> logs P s1 s' -> logs P s s'.
Proof.
  intros (? & ? & l & El & Hl) (? & ? & l' & El' & Hl'). split_and!; [congruence..|].
  exists (l' ++ l). split; [by rewrite El', El, app_assoc|by apply Forall_app].
Qed.
Lemma logs_one (P : creq -> Prop) q w (s s' : st) :
  P q -> cfs s' = cfs s -> started s' = started s -> clog s' = clog (log q w s) -> logs P s s'.
Proof. intros. split_and!; [done..|]. exists [q]. by rewrite Forall_singleton. Qed.

Section transfer.
Context (fi fo : file) (ii io : inode) (ni no pos_in pos_out len : Z).
Hypothesis readable : has (f_mode fi) FMODE_READ = true.
Hypothesis writable : has (f_mode fo) FMODE_WRITE = true.
Hypothesis len_pos : 0 < len.
Hypothesis part_ok : forall n, 0 < n <= len -> copy_req_ok fi ii fo io pos_in pos_out n.
#[local] Abbreviation P := (fun q => cq_in q = ni /\ cq_out q = no /\ req_ok fi ii fo io q).
Lemma copy_by_method_logs samesb splice (s s' : st) ret splice' :
  copy_by_method ni no pos_in pos_out len samesb splice s = (ret, splice', s') -> logs P s s' /\ ret <= len.
Proof.
  unfold copy_by_method. destruct (_ && _).
  - pose proof (call_copy_le ni pos_in no pos_out len (cworld s) len_pos). simpl.
    destruct (call_copy _ _ _ _ _ _) as [r w]. intros [= <- <- <-]. split; [|done].
    eapply (logs_one _ (CReq ByCopy ni pos_in no pos_out len) w); [|simpl; done || lia..].
    new_req. apply part_ok. simpl. lia.
  - destruct (_ && _).
    + pose proof (call_remap_le ni pos_in no pos_out (Z.min MAX_RW_COUNT len) (cworld s) ltac:(lia)). simpl.
      destruct (call_remap _ _ _ _ _ _) as [r w]. intros [= <- <- <-]. split; [|simpl in *; lia].
      eapply (logs_one _ (CReq ByClone ni pos_in no pos_out (Z.min MAX_RW_COUNT len)) w); [|simpl; done || lia..].
      new_req. split; [apply part_ok; simpl; lia|simpl; lia].
    + destruct samesb; intros [= <- <- <-]; (split; [|lia]); apply logs_frame; (split_and!; [done|simpl; lia|done]).
Qed.
Lemma copy_by_splice_logs (s s' : st) ret :
  copy_by_splice ni no pos_in pos_out len s = (ret, s') -> logs P s s' /\ ret <= len.
Proof.
  unfold copy_by_splice.
  pose proof (do_splice_direct_le ni pos_in no pos_out (Z.min len MAX_RW_COUNT) (cworld s) ltac:(lia)).
  destruct (do_splice_direct _ _ _ _ _ _) as [[[r a] b] w]. intros [= <- <-]. split; [|simpl in *; lia].
  eapply (logs_one _ (CReq BySplice ni pos_in no pos_out (Z.min len MAX_RW_COUNT)) w); [|done..].
  new_req. split; [apply part_ok; simpl; lia|simpl; lia].
Qed.
End transfer.

Lemma vfs_copy_logs ni fi ii pos_in no fo io pos_out req flags (s s' : st) ret :
  fsize_ok -> inode_ok ii -> inode_ok io -> is_s64 pos_in -> is_s64 pos_out -> is_u64 req ->
  vfs_copy_file_range ni fi ii pos_in no fo io pos_out req flags s = (ret, s') ->
  logs (fun q => cq_in q = ni /\ cq_out q = no /\ req_ok fi ii fo io q) s s' /\
  (0 < ret -> exists len, ret <= len /\ copy_req_ok fi ii fo io pos_in pos_out len /\
     (unsigned_offsets fi = false -> unsigned_offsets fo = false -> len <= req)).
Proof.
  intros Hl Hii Hio Hpi Hpo Hr. unfold vfs_copy_file_range.
  destruct (outside _ _); [intros [= <- <-]; split; [by apply logs_frame|lia]|].
  destruct (generic_copy_file_checks _ _ _ _ _ _ _ _ _ _ s) as [[e|len] s1] eqn:E;
    pose proof (copy_checks_frame _ _ _ _ _ _ _ _ _ _ _ _ _ E) as Hf.
  { intros [= <- <-]. split; [by apply logs_frame|]. apply copy_checks_error in E. lia. }
  apply copy_checks_sound in E as (Hrd & Hwr & Hlen & Hri & Hro & Ha & Him & Hsi & Hso & Hrange); try done.
  pose proof (rw_verify_area_le true ni fi (Some pos_in) len).
  pose proof (rw_verify_area_le false no fo (Some pos_out) len).
  destruct (Z.eqb_spec (rw_verify_area true ni fi (Some pos_in) len) 0) as [V1|]; simpl negb; cbv iota zeta;
    [|intros [= <- <-]; split; [by apply logs_frame|lia]].
  destruct (Z.eqb_spec (rw_verify_area false no fo (Some pos_out) len) 0) as [V2|]; simpl negb; cbv iota zeta;
    [|intros [= <- <-]; split; [by apply logs_frame|lia]].
  destruct (Z.eqb_spec len 0); [intros [= <- <-]; split; [by apply logs_frame|lia]|].
  assert (0 < len) as Hpos by (unfold is_u64 in *; lia).
  assert (unsigned_offsets fi = false -> unsigned_offsets fo = false ->
          0 <= pos_in /\ 0 <= pos_out /\ len <= req /\ copy_range_ok fi ii fo io pos_in pos_out len) as Hin.
  { intros Hu Hu'. apply rw_verify_range in V1; [|done..]. apply rw_verify_range in V2; [|done..].
    split_and!; [lia..| |]; apply Hrange; lia. }
  assert (forall n, 0 < n <= len -> copy_req_ok fi ii fo io pos_in pos_out n) as Hok.
  { intros n' Hn. split_and!; try done; [lia|]. intros Hu Hu'. destruct (Hin Hu Hu') as (? & ? & ? & ? & ? & Hd).
    split_and!; [lia..|]. intros He. specialize (Hd He). lia. }
  destruct (copy_by_method _ _ _ _ _ _ _ s1) as [[ret1 sp] s2] eqn:E2.
  apply (copy_by_method_logs fi fo ii io) in E2 as [L1 Hr1]; [|done..].
  apply logs_frame with (P := fun q => cq_in q = ni /\ cq_out q = no /\ req_ok fi ii fo io q) in Hf.
  destruct (if sp then _ else _) as [ret2 s3] eqn:E3.
  assert (logs (fun q => cq_in q = ni /\ cq_out q = no /\ req_ok fi ii fo io q) s s3 /\ ret2 <= len) as [L Hr2].
  { destruct sp; [|injection E3 as <- <-; split; [by eapply logs_trans|done]].
    apply (copy_by_splice_logs fi fo ii io) in E3 as [L2 ?]; [|done..].
    split; [by eapply logs_trans; [|eapply logs_trans]|done]. }
  intros [= <- <-]. split; [done|]. intros _. exists len. split_and!; [done|by apply Hok; lia|].
  intros Hu Hu'. by apply Hin.
Qed.

(** One call: offsets may move, sound requests may be logged. *)
Definition grows (s s' : st) : Prop :=
  fs_ok (cfs s') /\ same_files (cfs s) (cfs s') /\ started s' = started s /\
  exists news, clog s' = news ++ clog s /\ Forall (sound_req (cfs s)) news.
Lemma grows_refl (s : st) : fs_ok (cfs s) -> grows s s.
Proof. intros. split_and!; [done|reflexivity|done|]. by exists []. Qed.
Lemma grows_trans (s s1 s' : st) : grows s s1 -> grows s1 s' -> grows s s'.
Proof.
  intros (_ & F & ? & l & El & Hl) (? & F' & ? & l' & El' & Hl'). split_and!; [done|by etransitivity|congruence|].
  exists (l' ++ l). split; [by rewrite El', El, app_assoc|]. apply Forall_app. split; [|done].
  eapply Forall_impl; [done|]. intros q. apply sound_req_same. destruct F as (? & ? & ?). by split_and!.
Qed.
Lemma grows_logs ni fi ii no fo io (s s' : st) :
  fs_ok (cfs s) -> files (cfs s) !! ni = Some fi -> inodes (cfs s) !! f_ino fi = Some ii ->
  files (cfs s) !! no = Some fo -> inodes (cfs s) !! f_ino fo = Some io ->
  logs (fun q => cq_in q = ni /\ cq_out q = no /\ req_ok fi ii fo io q) s s' -> grows s s'.
Proof.
  intros Hok H1 H2 H3 H4 (E & ? & news & ? & Hn). unfold grows. rewrite E.
  split_and!; [done|reflexivity|done|]. exists news. split; [done|].
  eapply Forall_impl; [done|]. intros q (<- & <- & ?). by exists fi, ii, fo, io.
Qed.
Lemma grows_cfs (s s' : st) :
  fs_ok (cfs s') -> same_files (cfs s) (cfs s') -> started s' = started s -> clog s' = clog s -> grows s s'.
Proof. intros. split_and!; [done..|]. by exists []. Qed.
Lemma grows_account ret (s : st) : fs_ok (cfs s) -> grows s (account ret s).
Proof. intros. by apply grows_cfs. Qed.
Lemma grows_set_f_pos n pos (s : st) : is_s64 pos -> fs_ok (cfs s) -> grows s (set_f_pos n pos s).
Proof.
  intros. apply grows_cfs; [by apply set_f_pos_ok|apply set_f_pos_same|..]; unfold set_f_pos; by case_match.
Qed.
Lemma grows_write_off sz p v (s : st) : is_s64 v -> fs_ok (cfs s) -> grows s (write_off sz p v s).2.
Proof. intros. by apply grows_cfs; [apply write_off_ok|apply write_off_same|..]. Qed.
Lemma grows_store_off p n pos ret (s : st) : is_s64 pos -> fs_ok (cfs s) -> grows s (store_off p n pos ret s).2.
Proof.
  intros. unfold store_off. destruct (negb _); [|by apply grows_set_f_pos].
  pose proof (grows_write_off 8 p pos s). destruct (write_off _ _ _ _). auto.
Qed.
Lemma fdget_pos_inv x fd n f i :
  fs_ok x -> fdget_pos x fd = Some (n, f, i) ->
  files x !! n = Some f /\ inodes x !! f_ino f = Some i /\ is_s64 (f_pos f) /\ inode_ok i.
Proof.
  intros (Hf & Hi & _). unfold fdget_pos. destruct (fds x !! fd) as [m|]; [|done].
  destruct (files x !! m) as [f'|] eqn:E1; [|done]. destruct (inodes x !! f_ino f') as [i'|] eqn:E2; [|done].
  intros [= <- <- <-]. split; [done|]. split; [done|]. split; [exact (Hf _ _ E1)|exact (Hi _ _ E2)].
Qed.
Lemma read_off_s64 sz p (s : st) v : fs_ok (cfs s) -> read_off sz p s = Some v -> is_s64 v.
Proof.
  intros (_ & _ & Hr). unfold read_off. destruct (uncopied p sz =? 0); [|done]. destruct (sz =? 4); [|apply Hr].
  intros (w & _ & ->)%fmap_Some. unfold s32, is_s64. pose proof (Z.mod_pos_bound (w + 2147483648) u32_mod ltac:(done)).
  change u32_mod with 4294967296 in *. lia.
Qed.

Lemma grows_copy_file_range fd_in off_in fd_out off_out len flags (s : st) :
  fsize_ok -> fs_ok (cfs s) -> is_u64 len -> grows s (sys_copy_file_range fd_in off_in fd_out off_out len flags s).2.
Proof.
  intros Hl Hok Hlen. unfold sys_copy_file_range. pose proof (grows_refl s Hok).
  destruct (fdget_pos (cfs s) fd_in) as [[[ni fi] ii]|] eqn:E1, (fdget_pos (cfs s) fd_out) as [[[no fo] io]|] eqn:E2; try done.
  apply fdget_pos_inv in E1 as (? & ? & ? & ?), E2 as (? & ? & ? & ?); [|done..].
  destruct (if negb (off_in =? 0) then _ else _) as [pi|] eqn:Ei; [|done].
  destruct (if negb (off_out =? 0) then _ else _) as [po|] eqn:Eo; [|done].
  assert (is_s64 pi) by (destruct (negb _); [by eapply read_off_s64|by simplify_eq]).
  assert (is_s64 po) by (destruct (negb (off_out =? 0)); [by eapply read_off_s64|by simplify_eq]).
  destruct (negb (flags =? 0)); [done|].
  destruct (vfs_copy_file_range _ _ _ _ _ _ _ _ _ _ s) as [ret s1] eqn:E.
  apply vfs_copy_logs in E as [L _]; [|done..]. apply grows_logs in L; [|done..].
  destruct (0 <? ret); [|done].
  pose proof (grows_store_off off_in ni (s64 (pi + ret)) ret s1 (s64_range _) ltac:(apply L)) as G.
  destruct (store_off off_in _ _ _ _) as [r2 s2]. simpl in G.
  eapply grows_trans; [done|]. eapply grows_trans; [done|]. apply grows_store_off; [apply s64_range|apply G].
Qed.

(** The count sendfile passes on. *)
Lemma send_count_sound pos count mx :
  0 <= pos -> 0 <= count -> pos + count <= S64_MAX -> 0 <= mx <= S64_MAX ->
  let c := if MAX_RW_COUNT <? count then MAX_RW_COUNT else count in
  (u64 mx <? u64 (pos + c)) && (mx <=? pos) = false ->
  let n := if u64 mx <? u64 (pos + c) then u64 (mx - pos) else c in
  0 <= n <= MAX_RW_COUNT /\ pos + n <= mx.
Proof.
  intros Hp Hc Hs Hm c. assert (0 <= c <= MAX_RW_COUNT /\ c <= count) by (subst c; destruct (_ <? _) eqn:?; lia).
  clearbody c. rewrite (u64_small mx), (u64_small (pos + c)) by (unfold is_u64; lia). intros Hv.
  destruct (Z.ltb_spec mx (pos + c)); [|lia]. rewrite u64_small by (unfold is_u64; lia). lia.
Qed.

Lemma send_request_grows fi ii fo io ni no pos out_pos count (s s' : st) ret pos' out' :
  fs_ok (cfs s) -> files (cfs s) !! ni = Some fi -> inodes (cfs s) !! f_ino fi = Some ii ->
  files (cfs s) !! no = Some fo -> inodes (cfs s) !! f_ino fo = Some io ->
  has (f_mode fi) FMODE_READ = true -> has (f_mode fo) FMODE_WRITE = true -> is_s64 out_pos ->
  send_req_ok fi ii fo io pos out_pos count ->
  (pipe_of no = false -> unsigned_offsets fi = false -> unsigned_offsets fo = false ->
   0 <= out_pos /\ out_pos + count <= S64_MAX) ->
  send_request ni no pos out_pos count s = (ret, pos', out', s') ->
  grows s s' /\ is_s64 pos' /\ is_s64 out'.
Proof.
  intros Hok H1 H2 H3 H4 Hr Hw Ho Hs Hd. unfold send_request. destruct (pipe_of no) eqn:Hp; simpl.
  - destruct (splice_file_to_pipe _ _ _ _) as [[r a] w]. intros [= <- <- <- <-].
    split; [|split; [apply s64_range|done]]. apply (grows_logs ni fi ii no fo io); [done..|].
    apply (logs_one _ (CReq SendToPipe ni pos no out_pos count) w); [|done..]. new_req. split; [exact Hs|exact Hp].
  - destruct (do_splice_direct _ _ _ _ _ _) as [[[r a] b] w]. intros [= <- <- <- <-].
    split; [|split; apply s64_range]. apply (grows_logs ni fi ii no fo io); [done..|].
    apply (logs_one _ (CReq SendDirect ni pos no out_pos count) w); [|done..].
    new_req. split; [done|]. by apply Hd.
Qed.

Lemma grows_do_sendfile out_fd in_fd ppos count max (s s' : st) ret after :
  fs_ok (cfs s) -> is_u64 count -> (forall p, ppos = Some p -> is_s64 p) -> max = 0 \/ max = MAX_NON_LFS ->
  do_sendfile out_fd in_fd ppos count max s = (ret, after, s') -> grows s s' /\ is_s64 after.
Proof.
  intros Hok Hc Hp Hm. unfold do_sendfile. pose proof (grows_refl s Hok) as R.
  assert (is_s64 (default 0 ppos)) as H0 by (destruct ppos; [by apply Hp|by unfold is_s64]).
  destruct (fdget_pos (cfs s) in_fd) as [[[ni fi] ii]|] eqn:E1; [|by intros [= <- <- <-]].
  apply fdget_pos_inv in E1 as (? & ? & ? & ?); [|done].
  destruct (has (f_mode fi) FMODE_READ) eqn:Hrd; simpl negb; cbv iota; [|by intros [= <- <- <-]].
  destruct (_ && _); [by intros [= <- <- <-]|]. cbv zeta.
  set (pos := default (f_pos fi) ppos). assert (is_s64 pos) by (subst pos; destruct ppos; [by apply Hp|done]).
  destruct (Z.ltb_spec (rw_verify_area true ni fi (Some pos) count) 0) as [|V1]; [by intros [= <- <- <-]|].
  destruct (fdget_pos (cfs s) out_fd) as [[[no fo] io]|] eqn:E2; [|by intros [= <- <- <-]].
  apply fdget_pos_inv in E2 as (? & ? & ? & ?); [|done].
  destruct (has (f_mode fo) FMODE_WRITE) eqn:Hwr; simpl negb; cbv iota; [|by intros [= <- <- <-]].
  set (mx := if max =? 0 then _ else _).
  assert (0 <= mx <= S64_MAX /\ (mx = MAX_NON_LFS \/ mx <= s_maxbytes ii /\ mx <= s_maxbytes io)) as [Hmx Hmx'].
  { subst mx. unfold inode_ok in *. destruct Hm as [-> | ->]; simpl; lia. }
  destruct ((_ <? _) && _) eqn:Hv; [by intros [= <- <- <-]|].
  set (n := if u64 mx <? _ then _ else _).
  assert (unsigned_offsets fi = false -> 0 <= pos /\ 0 <= n <= MAX_RW_COUNT /\ pos + n <= mx) as Hn.
  { intros Hu. apply rw_verify_range_nonneg in V1 as (? & ? & ?); [|done..].
    split; [done|]. by apply send_count_sound. }
  destruct (negb (pipe_of no) && _) eqn:V2; [by intros [= <- <- <-]|].
  destruct (send_request _ _ _ _ _ s) as [[[ret1 pos1] out1] s1] eqn:E.
  apply (send_request_grows fi ii fo io) in E as (G & ? & ?); [|done..| |].
  - intros [= <- <- <-]. split; [|by destruct (0 <? ret1)].
    eapply grows_trans; [done|].
    assert (grows s1 (if 0 <? ret1 then match ppos with Some _ => set_f_pos no out1 s1
              | None => set_f_pos ni pos1 (set_f_pos no out1 s1) end else s1)) as G2.
    { destruct (0 <? ret1); [|by apply grows_refl, G]. pose proof (grows_set_f_pos no out1 s1) as G1.
      destruct ppos; [apply G1; [done|apply G]|]. eapply grows_trans; [apply G1; [done|apply G]|].
      apply grows_set_f_pos; [done|]. apply G1; [done|apply G]. }
    eapply grows_trans; [exact G2|]. apply grows_account, G2.
  - intros Hu. destruct (Hn Hu) as (? & ? & ?). split_and!; [lia..|]. destruct Hmx' as [->|]; [left|right]; lia.
  - intros Hpi Hu Hu'. destruct (Hn Hu) as (? & ? & ?). rewrite Hpi in V2. simpl in V2.
    apply Z.ltb_ge, rw_verify_range_nonneg in V2; [lia|done..|]. unfold is_u64. lia.
Qed.

Lemma grows_sendfile_at sz conv out_fd in_fd offset count max (s : st) :
  fs_ok (cfs s) -> is_u64 count -> (forall v, is_s64 (conv v)) -> max = 0 \/ max = MAX_NON_LFS ->
  grows s (sendfile_at sz conv out_fd in_fd offset count max s).2.
Proof.
  intros Hok Hc Hv Hm. unfold sendfile_at. destruct (negb _).
  - destruct (read_off sz offset s) as [pos|] eqn:E; [|by apply grows_refl]. apply read_off_s64 in E; [|done].
    destruct (do_sendfile _ _ _ _ _ s) as [[ret after] s1] eqn:Es.
    apply grows_do_sendfile in Es as [G _]; [|done..|by intros p [= <-]|done].
    pose proof (grows_write_off sz offset (conv after) s1 (Hv _) ltac:(apply G)).
    destruct (write_off _ _ _ s1). by eapply grows_trans.
  - destruct (do_sendfile _ _ _ _ _ s) as [[ret after] s1] eqn:Es.
    by apply grows_do_sendfile in Es as [G _]; [..|left].
Qed.

(** The arguments have the range of their types. *)
Definition fcall_ok (c : fcall) : Prop :=
  match c with FCopy _ _ _ _ n _ | FSend _ _ _ n | FSend64 _ _ _ n | CompatFSend _ _ _ n | CompatFSend64 _ _ _ n => is_u64 n end.
Lemma grows_exec c (s : st) : fsize_ok -> fcall_ok c -> fs_ok (cfs s) -> grows s (exec_copy c s).2.
Proof.
  intros Hl Hc Hok. assert (forall n, is_u64 (u32 n)) as Hu
    by (intros n; pose proof (u32_range n); unfold is_u64, is_u32 in *; lia).
  destruct c; simpl; [by apply grows_copy_file_range|..]; apply grows_sendfile_at; auto using s64_range.
  intros v. unfold is_s64, s32. pose proof (Z.mod_pos_bound (v + 2147483648) u32_mod). lia.
Qed.
Lemma grows_all cs (s : st) : fsize_ok -> Forall fcall_ok cs -> fs_ok (cfs s) -> grows s (exec_copies cs s).
Proof.
  intros Hl Hcs. revert s. induction Hcs as [|c cs Hc _ IH]; intros s Hok; [by apply grows_refl|].
  pose proof (grows_exec c s Hl Hc Hok) as G. eapply grows_trans; [exact G|]. apply IH, G.
Qed.

(** C36: Over any program of copy_file_range and sendfile calls, 32-bit ones
    included, every request that reaches a copy, clone or splice method is
    between a file open for reading and one open for writing.  For
    copy_file_range both are regular, the target is neither append-only,
    immutable nor a swap file, the source range lies within the file, the
    target range below the file-size limits, and within one file the ranges
    are disjoint; sendfile asks for at most MAX_RW_COUNT bytes below the
    largest offset.  Freeze protection is released as often as taken. *)
Theorem copy_requests_sound cs (s : st) :
  fsize_ok -> Forall fcall_ok cs -> fs_ok (cfs s) -> clog s = [] ->
  let s' := exec_copies cs s in
  Forall (sound_req (cfs s')) (clog s') /\ started s' = started s.
Proof.
  intros Hl Hcs Hok Hlog. destruct (grows_all cs s Hl Hcs Hok) as (_ & F & ? & news & E & Hn).
  split; [|done]. rewrite E, Hlog, app_nil_r.
  eapply Forall_impl; [done|]. intros q. by apply sound_req_same.
Qed.

(** Where an offset moves to: the user's object or the open file. *)
Definition moved (p n pos : Z) (x : fstate) : fstate :=
  if negb (p =? 0) then FState (fds x) (files x) (inodes x) (if uncopied p 8 =? 0 then <[p := pos]> (results x) else delete p (results x))
  else match files x !! n with Some f => put_file n (set_pos f pos (f_version f)) x | None => x end.
Definition start_off (p : Z) (f : file) (x : fstate) : option Z :=
  if negb (p =? 0) then (if uncopied p 8 =? 0 then results x !! p else None) else Some (f_pos f).
Lemma store_off_moved p n pos ret (s : st) :
  cfs (store_off p n pos ret s).2 = moved p n pos (cfs s) /\
  ((store_off p n pos ret s).1 = ret \/ (store_off p n pos ret s).1 = - EFAULT).
Proof.
  unfold store_off, moved, set_f_pos, write_off, copy_to_user. destruct (negb _).
  - simpl. split; [done|]. destruct (negb _); auto.
  - split; [|by left]. simpl. by destruct (files (cfs s) !! n).
Qed.

(** A copy_file_range that moves no data leaves every offset as it was.
    One that moves [n] bytes moves both offsets, each in the place it came
    from, by exactly [n], without wrapping and not past the end of the input
    or the limit of the output, and it copies at most what was asked for; it
    returns [n], or -EFAULT when an offset cannot be written back. *)
Theorem copy_file_range_moves_offsets fd_in off_in fd_out off_out len flags (s s' : st) r ni fi ii no fo io :
  fsize_ok -> fs_ok (cfs s) -> is_u64 len ->
  fdget_pos (cfs s) fd_in = Some (ni, fi, ii) -> fdget_pos (cfs s) fd_out = Some (no, fo, io) ->
  unsigned_offsets fi = false -> unsigned_offsets fo = false ->
  sys_copy_file_range fd_in off_in fd_out off_out len flags s = (r, s') ->
  (r <= 0 /\ cfs s' = cfs s) \/
  exists pi po n, start_off off_in fi (cfs s) = Some pi /\ start_off off_out fo (cfs s) = Some po /\
    0 < n <= len /\ 0 <= pi /\ pi + n <= i_size ii /\ 0 <= po /\ po + n <= write_bound fo io /\
    (r = n \/ r = - EFAULT) /\ cfs s' = moved off_out no (po + n) (moved off_in ni (pi + n) (cfs s)).
Proof.
  intros Hl Hok Hlen E1 E2 Hu Hu'. unfold sys_copy_file_range. rewrite E1, E2.
  apply fdget_pos_inv in E1 as (? & ? & ? & ?), E2 as (? & ? & ? & Hio); [|done..].
  change (if negb (off_in =? 0) then _ else _) with (start_off off_in fi (cfs s)).
  change (if negb (off_out =? 0) then _ else _) with (start_off off_out fo (cfs s)).
  assert (forall p f v, is_s64 (f_pos f) -> start_off p f (cfs s) = Some v -> is_s64 v) as Hs.
  { intros p f v Hf. unfold start_off. destruct (negb _); [|by intros [= <-]]. by apply (read_off_s64 8). }
  destruct (start_off off_in fi _) as [pi|] eqn:Ei; [|intros [= <- <-]; left; by split; [lia|]].
  destruct (start_off off_out fo _) as [po|] eqn:Eo; [|intros [= <- <-]; left; by split; [lia|]].
  apply Hs in Ei, Eo; [|done..].
  destruct (negb _); [intros [= <- <-]; left; by split; [lia|]|].
  destruct (vfs_copy_file_range _ _ _ _ _ _ _ _ _ _ s) as [n s1] eqn:E.
  apply vfs_copy_logs in E as [(Ec & _) Hn]; [|done..].
  destruct (Z.ltb_spec 0 n) as [Hpos|]; [|intros [= <- <-]; by left].
  destruct (Hn Hpos) as (k & ? & (_ & _ & _ & _ & _ & _ & _ & Hr) & Hk).
  destruct (Hr Hu Hu') as (? & ? & ? & ? & _). specialize (Hk Hu Hu').
  pose proof (write_bound_s64 fo io Hio). unfold inode_ok in *.
  rewrite (s64_small (pi + n)), (s64_small (po + n)) by (unfold is_s64; lia).
  destruct (store_off_moved off_in ni (pi + n) n s1) as [Hm Hr1].
  destruct (store_off off_in ni (pi + n) n s1) as [r1 s2]. simpl in Hm, Hr1.
  destruct (store_off_moved off_out no (po + n) r1 s2) as [Hm2 Hr2]. intros E. rewrite E in Hm2, Hr2. simpl in *.
  right. exists pi, po, n. rewrite Hm2, Hm, Ec. split_and!; try done; try lia.
Qed.

(** A write that starts at or behind the file-size limit, the limit of
    the file system or 2 GiB for a file opened without O_LARGEFILE is refused
    with -EFBIG, with SIGXFSZ exactly when the process limit is reached; any
    other is accepted, at the end of the file in append mode, and shortened
    only as far as the limit requires, never to nothing. *)
Theorem write_checks_clamp f i pos flags n (s : st) :
  fsize_ok -> inode_ok i -> 0 <= pos <= S64_MAX -> 0 < n <= S64_MAX -> swapfile i = false ->
  has flags IOCB_NOWAIT = false ->
  let start := if has flags IOCB_APPEND then i_size i else pos in
  (write_bound f i <= start ->
   generic_write_checks f i pos flags n s = (inl (- EFBIG), if rlimit_fsize <=? start then send_sigxfsz s else s)) /\
  (start < write_bound f i ->
   exists k, generic_write_checks f i pos flags n s = (inr (start, k), s) /\
     0 < k <= n /\ start + k <= write_bound f i /\ (k = n \/ start + k = write_bound f i)).
Proof.
  intros Hl [Hsz Hmax] Hp Hn Hsw Hnw start. assert (0 <= start <= S64_MAX) by (subst start; destruct (has flags IOCB_APPEND); [exact Hsz|exact Hp]).
  unfold generic_write_checks, generic_write_checks_count. rewrite Hsw, Hnw. replace (n =? 0) with false by lia.
  simpl. fold start. rewrite write_limits_exact by (done || lia). split; intros Hb.
  - by replace (write_bound f i <=? start) with true by lia.
  - replace (write_bound f i <=? start) with false by lia. eexists. split; [done|]. lia.
Qed.
End copy_properties.

Module Demo.
#[local] Existing Instance uaccess_ok.
#[local] Existing Instance Seek.Demo.env0.
(** Every method moves all it is asked to; file 9 is a pipe. *)
Definition cenv0 : CopyEnv unit := {|
  rlimit_fsize := 100000; copy_method _ := None; remap_method n := n =? 7; pipe_of n := n =? 9;
  call_copy _ _ _ _ n w := (n, w); call_remap _ _ _ _ n w := (0, w);
  do_splice_direct _ pi _ po n w := (n, pi + n, po + n, w); splice_file_to_pipe _ pi n w := (n, pi + n, w);
|}.
#[local] Existing Instance cenv0.
#[local] Instance rw_laws0 : RwLaws.
Proof. split; simpl; lia. Qed.
#[local] Instance copy_laws0 : CopyLaws unit.
Proof. split; simpl; lia. Qed.
Definition fin : file := File 10 0 31 O_LARGEFILE 1 GenericFileLlseek false true false true.
Definition fout : file := File 20 0 31 O_LARGEFILE 2 GenericFileLlseek false true false true.
Definition fpipe : file := File 0 0 3 0 3 NoopLlseek false true false true.
Definition ino (size : Z) (reg : bool) : inode := Inode size S64_MAX 1 false reg false false.
Definition fs1 : fstate :=
  FState {[ 3 := 7; 4 := 8; 5 := 9 ]} {[ 7 := fin; 8 := fout; 9 := fpipe ]}
    {[ 1 := ino 1000 true; 2 := ino 50 true; 3 := ino 0 false ]} {[ 4096 := 900 ]}.
Definition s1 : cstate unit := CState fs1 tt 0 0 0 0 0 0 [].
Lemma fs1_ok : fs_ok fs1.
Proof.
  unfold fs1. split_and!; simpl; repeat (apply map_Forall_insert_2 || apply map_Forall_empty);
    unfold inode_ok, is_s64; simpl; lia.
Qed.
Definition prog : list fcall := [FCopy 3 0 4 0 5000 0; FCopy 3 4096 4 0 500 0; FSend64 5 3 4096 70; CompatFSend 4 3 0 100].

Lemma copy_requests_sound_witness :
  let s' := exec_copies prog s1 in
  map cq_route (clog s') = [SendDirect; SendToPipe; BySplice; ByClone; BySplice; ByClone] /\
  Forall (sound_req (cfs s')) (clog s') /\ started s' = 0.
Proof.
  split; [reflexivity|]. apply (copy_requests_sound prog s1); [by left|..|apply fs1_ok|reflexivity].
  repeat constructor; unfold fcall_ok, is_u64; lia.
Defined.
Lemma copy_file_range_moves_offsets_witness :
  (sys_copy_file_range 3 0 4 0 5000 0 s1).1 = 990 /\
  cfs (sys_copy_file_range 3 0 4 0 5000 0 s1).2 = moved 0 8 1010 (moved 0 7 1000 fs1).
Proof.
  split; [reflexivity|].
  destruct (copy_file_range_moves_offsets 3 0 4 0 5000 0 s1 (sys_copy_file_range 3 0 4 0 5000 0 s1).2 990
    7 fin (ino 1000 true) 8 fout (ino 50 true) ltac:(by left) fs1_ok ltac:(unfold is_u64; lia) eq_refl eq_refl
    eq_refl eq_refl eq_refl) as [[H _]|(pi & po & n & [= <-] & [= <-] & _ & _ & _ & _ & _ & [<-|H] & E)]; [lia|exact E|lia].
Defined.
Lemma write_checks_clamp_witness :
  exists k, generic_write_checks fout (ino 50 true) 99990 0 30 s1 = (inr (99990, k), s1) /\
    0 < k <= 30 /\ 99990 + k <= 100000 /\ (k = 30 \/ 99990 + k = 100000).
Proof.
  exact (proj2 (write_checks_clamp fout (ino 50 true) 99990 0 30 s1 ltac:(by left) ltac:(split; simpl; lia)
    ltac:(lia) ltac:(lia) eq_refl eq_refl) eq_refl).
Defined.
End Demo.
