(* ===== verification/KernelRw.v ===== *)
(** * In-kernel reading and writing, and the 32-bit vectored calls

    read_write.c 408-461, 509-575, 789-911 and 1141-1228: what other parts of
    the kernel call to read and write files, on top of the drivers of
    ReadWrite.  The freeze protection of a write ([file_start_write],
    [kiocb_start_write]) is a count beside ReadWrite's state; an asynchronous
    write that was queued keeps it until it completes. *)
From S2P Require Import Prelude Seek ReadWrite.

Abbreviation EIOCBQUEUED := 529 (only parsing).

Record kstate (W : Type) := KState { krw : rstate W; kstarted : Z }.
Arguments KState {W}. Arguments krw {W}. Arguments kstarted {W}.

Section kernel_rw.
Context {W : Type} {ua : UAccess} {rwenv : RwEnv} {drv : Driver W}.
#[local] Abbreviation st := (rstate W).
#[local] Abbreviation kst := (kstate W).

(** ** Buffers of the kernel *)
Definition warn_unsupported : Z := - EINVAL.

(** A request through [read_iter] or [write_iter] at [*pos]; the offset moves
    when something was transferred. *)
Definition iter_at (rd : bool) (n : Z) (segs : list (Z * Z)) (pos : option Z) (s : st) : Z * option Z * st :=
  let '(ret, kpos, w) := (if rd then drv_read_iter n segs (default 0 pos) (world s)
                          else drv_write_iter n segs (default 0 pos) (world s)) in
  (ret, match pos with Some p => Some (if 0 <? ret then kpos else p) | None => None end,
   drove w (DrvCall rd n (iov_count segs) pos) s).

Definition __kernel_read (n : Z) (f : file) (buf count : Z) (pos : option Z) (s : st) : Z * option Z * st :=
  if negb (has (f_mode f) FMODE_READ) then (- EINVAL, pos, s)
  else if negb (has (f_mode f) FMODE_CAN_READ) then (- EINVAL, pos, s)
  else if negb (op_read_iter f) || op_read f then (warn_unsupported, pos, s)
  else
    let '(ret, p, s) := iter_at true n [(buf, Z.min count MAX_RW_COUNT)] pos s in
    (ret, p, account_read ret s).
Definition kernel_read (n : Z) (f : file) (buf count : Z) (pos : option Z) (s : st) : Z * option Z * st :=
  let ret := rw_verify_area true n f pos count in
  if negb (ret =? 0) then (ret, pos, s) else __kernel_read n f buf count pos s.

Definition __kernel_write_iter (n : Z) (f : file) (from : list (Z * Z)) (pos : option Z) (s : st) : Z * option Z * st :=
  if negb (has (f_mode f) FMODE_WRITE) then (- EBADF, pos, s)
  else if negb (has (f_mode f) FMODE_CAN_WRITE) then (- EINVAL, pos, s)
  else if negb (op_write_iter f) || op_write f then (warn_unsupported, pos, s)
  else
    let '(ret, p, s) := iter_at false n from pos s in
    (ret, p, account_write ret s).
Definition __kernel_write (n : Z) (f : file) (buf count : Z) : option Z -> st -> Z * option Z * st :=
  __kernel_write_iter n f [(buf, Z.min count MAX_RW_COUNT)].

Definition start_write (k : kst) : kst := KState (krw k) (kstarted k + 1).
Definition end_write (k : kst) : kst := KState (krw k) (kstarted k - 1).
(** A body that leaves the protection alone. *)
Definition inside (m : st -> Z * option Z * st) (k : kst) : Z * option Z * kst :=
  let '(ret, p, s) := m (krw k) in (ret, p, KState s (kstarted k)).

Definition kernel_write (n : Z) (f : file) (buf count : Z) (pos : option Z) (k : kst) : Z * option Z * kst :=
  let ret := rw_verify_area false n f pos count in
  if negb (ret =? 0) then (ret, pos, k)
  else
    let '(ret, p, k) := inside (__kernel_write n f buf count pos) (start_write k) in
    (ret, p, end_write k).

(** ** Iterators *)
Definition vfs_iter_read (n : Z) (f : file) (iter : list (Z * Z)) (ppos : option Z) (flags : Z) (s : st) : Z * option Z * st :=
  if negb (op_read_iter f) then (- EINVAL, ppos, s)
  else if negb (has (f_mode f) FMODE_READ) then (- EBADF, ppos, s)
  else if negb (has (f_mode f) FMODE_CAN_READ) then (- EINVAL, ppos, s)
  else
    let tot_len := iov_count iter in
    if tot_len =? 0 then (0, ppos, s)
    else
      let ret := rw_verify_area true n f ppos tot_len in
      if ret <? 0 then (ret, ppos, s) else do_iter_readv_writev true n iter ppos flags s.

Definition vfs_iter_write (n : Z) (f : file) (iter : list (Z * Z)) (ppos : option Z) (flags : Z) (k : kst) : Z * option Z * kst :=
  if negb (has (f_mode f) FMODE_WRITE) then (- EBADF, ppos, k)
  else if negb (has (f_mode f) FMODE_CAN_WRITE) then (- EINVAL, ppos, k)
  else if negb (op_write_iter f) then (- EINVAL, ppos, k)
  else
    let tot_len := iov_count iter in
    if tot_len =? 0 then (0, ppos, k)
    else
      let ret := rw_verify_area false n f ppos tot_len in
      if ret <? 0 then (ret, ppos, k)
      else
        let '(ret, p, k) := inside (do_iter_readv_writev false n iter ppos flags) (start_write k) in
        (ret, p, end_write k).

(** With the caller's [struct kiocb]: its offset is whatever the driver left. *)
Definition call_iter (rd : bool) (n : Z) (iter : list (Z * Z)) (ki_pos : Z) (s : st) : Z * option Z * st :=
  let '(ret, kpos, w) := (if rd then drv_read_iter n iter ki_pos (world s) else drv_write_iter n iter ki_pos (world s)) in
  (ret, Some kpos, drove w (DrvCall rd n (iov_count iter) (Some ki_pos)) s).
Definition vfs_iocb_iter_read (n : Z) (f : file) (ki_pos : Z) (iter : list (Z * Z)) (s : st) : Z * option Z * st :=
  if negb (op_read_iter f) then (- EINVAL, Some ki_pos, s)
  else if negb (has (f_mode f) FMODE_READ) then (- EBADF, Some ki_pos, s)
  else if negb (has (f_mode f) FMODE_CAN_READ) then (- EINVAL, Some ki_pos, s)
  else
    let tot_len := iov_count iter in
    if tot_len =? 0 then (0, Some ki_pos, s)
    else
      let ret := rw_verify_area true n f (Some ki_pos) tot_len in
      if ret <? 0 then (ret, Some ki_pos, s) else call_iter true n iter ki_pos s.
Definition vfs_iocb_iter_write (n : Z) (f : file) (ki_pos : Z) (iter : list (Z * Z)) (k : kst) : Z * option Z * kst :=
  if negb (op_write_iter f) then (- EINVAL, Some ki_pos, k)
  else if negb (has (f_mode f) FMODE_WRITE) then (- EBADF, Some ki_pos, k)
  else if negb (has (f_mode f) FMODE_CAN_WRITE) then (- EINVAL, Some ki_pos, k)
  else
    let tot_len := iov_count iter in
    if tot_len =? 0 then (0, Some ki_pos, k)
    else
      let ret := rw_verify_area false n f (Some ki_pos) tot_len in
      if ret <? 0 then (ret, Some ki_pos, k)
      else
        let '(ret, p, k) := inside (call_iter false n iter ki_pos) (start_write k) in
        (ret, p, if negb (ret =? - EIOCBQUEUED) then end_write k else k).

(** ** The vectored system calls of 32-bit processes *)
Definition sys_readv (fd vec vlen : Z) : st -> Z * st := do_readv fd vec vlen 0.
Definition sys_writev (fd vec vlen : Z) : st -> Z * st := do_writev fd vec vlen 0.
(** [((loff_t)pos_high << 32) | pos_low] *)
Definition compat_pos (pos_low pos_high : Z) : Z := s64 (Z.lor (shl64 (u32 pos_high) 32) (u32 pos_low)).
Definition at_or_current (cur : st -> Z * st) (at_ : Z -> st -> Z * st) (pos : Z) : st -> Z * st :=
  if pos =? -1 then cur else at_ pos.
Definition compat_sys_preadv64 (fd vec vlen pos : Z) : st -> Z * st := do_preadv fd vec vlen pos 0.
Definition compat_sys_preadv (fd vec vlen pos_low pos_high : Z) : st -> Z * st :=
  do_preadv fd vec vlen (compat_pos pos_low pos_high) 0.
Definition compat_sys_preadv64v2 (fd vec vlen pos flags : Z) : st -> Z * st :=
  at_or_current (do_readv fd vec vlen flags) (fun pos => do_preadv fd vec vlen pos flags) pos.
Definition compat_sys_preadv2 (fd vec vlen pos_low pos_high flags : Z) : st -> Z * st :=
  at_or_current (do_readv fd vec vlen flags) (fun pos => do_preadv fd vec vlen pos flags) (compat_pos pos_low pos_high).
Definition compat_sys_pwritev64 (fd vec vlen pos : Z) : st -> Z * st := do_pwritev fd vec vlen pos 0.
Definition compat_sys_pwritev (fd vec vlen pos_low pos_high : Z) : st -> Z * st :=
  do_pwritev fd vec vlen (compat_pos pos_low pos_high) 0.
Definition compat_sys_pwritev64v2 (fd vec vlen pos flags : Z) : st -> Z * st :=
  at_or_current (do_writev fd vec vlen flags) (fun pos => do_pwritev fd vec vlen pos flags) pos.
Definition compat_sys_pwritev2 (fd vec vlen pos_low pos_high flags : Z) : st -> Z * st :=
  at_or_current (do_writev fd vec vlen flags) (fun pos => do_pwritev fd vec vlen pos flags) (compat_pos pos_low pos_high).
End kernel_rw.

(** ** Properties *)
Section kernel_rw_properties.
Context {W : Type} {ua : UAccess} {rwenv : RwEnv} {drv : Driver W}.
#[local] Abbreviation st := (rstate W).
#[local] Abbreviation kst := (kstate W).

Lemma iov_count_one b c : iov_count [(b, c)] = c.
Proof. unfold iov_count. simpl. lia. Qed.
Lemma clamp_min c : Z.min c MAX_RW_COUNT = if MAX_RW_COUNT <? c then MAX_RW_COUNT else c.
Proof. destruct (Z.ltb_spec MAX_RW_COUNT c); lia. Qed.

(** The kernel's own entry points behave as the system-call path does.
    On a file whose only methods are the iterator ones, kernel_read and
    kernel_write return what vfs_read and vfs_write return for a user buffer
    of the same size, pass the driver the same request, charge the same
    accounting and, when data was transferred, leave the same offset; vfs_iter_read and
    vfs_iter_write agree in everything with readv and writev on the segments
    the vector stands for. *)
Theorem kernel_io_agrees n f b c pos flags vec vlen segs (k : kst) :
  access_ok b c = true -> import_iovec (world (krw k)) vec vlen = inr segs ->
  op_read f = false -> op_read_iter f = true -> op_write f = false -> op_write_iter f = true ->
  has (f_mode f) FMODE_READ = true -> has (f_mode f) FMODE_CAN_READ = true ->
  has (f_mode f) FMODE_WRITE = true -> has (f_mode f) FMODE_CAN_WRITE = true ->
  (let '(r, p, s) := kernel_read n f b c pos (krw k) in
   let '(r', p', s') := vfs_read n f b c pos (krw k) in r = r' /\ s = s' /\ (0 < r -> p = p')) /\
  (let '(r, p, k') := kernel_write n f b c pos k in (r, p, krw k') = vfs_write n f b c pos (krw k)) /\
  vfs_iter_read n f segs pos flags (krw k) = vfs_readv n f vec vlen flags pos (krw k) /\
  (let '(r, p, k') := vfs_iter_write n f segs pos flags k in (r, p, krw k') = vfs_writev n f vec vlen flags pos (krw k)).
Proof.
  intros Ha Hs Hr Hri Hw Hwi M1 M2 M3 M4. split_and!.
  - unfold kernel_read, vfs_read, __kernel_read, call_read, iter_at, new_sync_read.
    rewrite M1, M2, Ha, Hr, Hri, clamp_min, iov_count_one. simpl. destruct (negb _) eqn:?; [done|].
    destruct (drv_read_iter _ _ _ _) as [[r p] w]. split_and!; [done..|]. intros Hp. destruct pos; [|done].
    by replace (0 <? r) with true by lia.
  - unfold kernel_write, vfs_write, __kernel_write, __kernel_write_iter, inside, call_write, iter_at, new_sync_write.
    rewrite M3, M4, Ha, Hw, Hwi, clamp_min, iov_count_one. simpl. destruct (negb _); [done|].
    by destruct (drv_write_iter _ _ _ _) as [[r p] w].
  - unfold vfs_iter_read, vfs_readv. by rewrite M1, M2, Hri, Hs.
  - unfold vfs_iter_write, vfs_writev, inside. rewrite M3, M4, Hwi, Hs. simpl. destruct (_ =? 0); [done|].
    destruct (_ <? 0); [done|]. by destruct (do_iter_readv_writev _ _ _ _ _ _) as [[r p] s].
Qed.

(** In-kernel calls that write, on open files. *)
Inductive kcall :=
| KWrite (n : Z) (f : file) (buf count : Z) (pos : option Z)
| KIterWrite (n : Z) (f : file) (iter : list (Z * Z)) (pos : option Z) (flags : Z)
| KIocbWrite (n : Z) (f : file) (ki_pos : Z) (iter : list (Z * Z)).
Definition exec_k (c : kcall) (k : kst) : Z * option Z * kst :=
  match c with
  | KWrite n f b c p => kernel_write n f b c p k
  | KIterWrite n f i p fl => vfs_iter_write n f i p fl k
  | KIocbWrite n f p i => vfs_iocb_iter_write n f p i k
  end.
(** Each result, with the state at the end. *)
Fixpoint exec_ks (cs : list kcall) (k : kst) : list Z * kst :=
  match cs with
  | [] => ([], k)
  | c :: cs => let '(r, _, k) := exec_k c k in let '(rs, k) := exec_ks cs k in (r :: rs, k)
  end.
Definition queued (c : kcall) (r : Z) : Z :=
  match c with KIocbWrite _ _ _ _ => if r =? - EIOCBQUEUED then 1 else 0 | _ => 0 end.

(** -EIOCBQUEUED is a driver's answer, never a permission hook's. *)
Definition hooks_answer_at_once : Prop :=
  forall n f p c, rw_verify_area false n f p c <> - EIOCBQUEUED.
Lemma inside_started m (k : kst) : kstarted (inside m k).2 = kstarted k.
Proof. unfold inside. by destruct (m (krw k)) as [[r p] s]. Qed.
Lemma exec_k_started c (k : kst) :
  hooks_answer_at_once -> kstarted (exec_k c k).2 = kstarted k + queued c (exec_k c k).1.1.
Proof.
  intros Hh. destruct c as [n f b c p|n f i p fl|n f p i]; simpl.
  - unfold kernel_write. destruct (negb _); [simpl; lia|].
    pose proof (inside_started (__kernel_write n f b c p) (start_write k)).
    destruct (inside _ _) as [[r q] k']. simpl in *. lia.
  - unfold vfs_iter_write. do 4 (case_match; [simpl; lia|]). case_match; [simpl; lia|].
    pose proof (inside_started (do_iter_readv_writev false n i p fl) (start_write k)).
    destruct (inside _ _) as [[r q] k']. simpl in *. lia.
  - unfold vfs_iocb_iter_write. do 4 (case_match; [simpl; lia|]). case_match.
    { pose proof (Hh n f (Some p) (iov_count i)). simpl. case_match; lia. }
    pose proof (inside_started (call_iter false n i p) (start_write k)).
    destruct (inside _ _) as [[r q] k']. cbn [fst snd] in *. destruct (r =? - EIOCBQUEUED); simpl in *; lia.
Qed.

(** Freeze protection is released as often as it is taken by any sequence
    of in-kernel writes, failing ones included, apart from the asynchronous
    writes the driver queued: each keeps it once, for its completion to
    release. *)
Theorem kernel_writes_balanced cs (k : kst) :
  hooks_answer_at_once ->
  kstarted (exec_ks cs k).2 = kstarted k + foldr Z.add 0 (zip_with queued cs (exec_ks cs k).1).
Proof.
  intros Hh. revert k. induction cs as [|c cs IH]; intros k; simpl; [lia|].
  pose proof (exec_k_started c k Hh) as E. destruct (exec_k c k) as [[r p] k1]. simpl in E.
  specialize (IH k1). destruct (exec_ks cs k1) as [rs k2]. simpl in *. lia.
Qed.

(** Joining the halves of an offset. *)
Lemma compat_pos_join pos : is_s64 pos -> compat_pos (u32 pos) (u32 (Z.shiftr pos 32)) = pos.
Proof.
  intros Hp. unfold compat_pos. rewrite !(u32_small (u32 _)) by apply u32_range.
  pose proof (u32_range pos) as Hl. pose proof (u32_range (Z.shiftr pos 32)) as Hh. unfold is_u32 in *.
  rewrite shl64_small by (unfold is_u64; lia).
  assert (Z.lor (u32 (Z.shiftr pos 32) * 2 ^ 32) (u32 pos) = u32 (Z.shiftr pos 32) * 2 ^ 32 + u32 pos) as ->.
  { rewrite <- Z.shiftl_mul_pow2 by lia. symmetry. apply Z.add_nocarry_lor. apply Z.bits_inj'. intros i Hi.
    rewrite Z.land_spec, Z.bits_0, Z.shiftl_spec by done. destruct (Z.ltb_spec i 32).
    - by rewrite (Z.testbit_neg_r _ (i - 32)) by lia.
    - replace (Z.testbit (u32 pos) i) with false; [apply andb_false_r|]. symmetry.
      destruct (Z.eq_dec (u32 pos) 0) as [->|]; [apply Z.bits_0|]. apply Z.bits_above_log2; [lia|].
      apply Z.log2_lt_pow2; [lia|]. apply Z.lt_le_trans with (2 ^ 32); [lia|]. apply Z.pow_le_mono_r; lia. }
  rewrite Z.shiftr_div_pow2 by lia. unfold is_s64 in Hp. unfold u32, s64.
  pose proof (Z.div_mod pos (2 ^ 32) ltac:(lia)). pose proof (Z.mod_pos_bound pos (2 ^ 32) ltac:(lia)). change (2 ^ 32) with 4294967296 in *.
  destruct (Z.ltb_spec pos 0).
  - assert ((pos / 4294967296) mod 4294967296 = pos / 4294967296 + 4294967296) as ->.
    { rewrite <- (Z.mod_small (pos / 4294967296 + 4294967296) 4294967296) by lia.
      by rewrite <- (Z_mod_plus_full (pos / 4294967296) 1). }
    assert (((pos / 4294967296 + 4294967296) * 4294967296 + pos mod 4294967296 + 9223372036854775808)
      = (pos + 9223372036854775808) + 1 * 18446744073709551616) as -> by lia.
    rewrite Z_mod_plus_full, Z.mod_small by lia. lia.
  - rewrite (Z.mod_small (pos / 4294967296)) by lia. rewrite Z.mod_small by lia. lia.
Qed.

(** A 32-bit process that passes a 64-bit offset in two halves gets the
    positional call at exactly that offset, and with both halves all ones the
    version-2 calls use the current position instead. *)
Theorem compat_offsets_roundtrip (fd vec vlen pos flags : Z) :
  is_s64 pos ->
  let lo := u32 pos in let hi := u32 (Z.shiftr pos 32) in
  compat_sys_preadv fd vec vlen lo hi = do_preadv fd vec vlen pos 0 /\
  compat_sys_pwritev fd vec vlen lo hi = do_pwritev fd vec vlen pos 0 /\
  compat_sys_preadv2 fd vec vlen lo hi flags = compat_sys_preadv64v2 fd vec vlen pos flags /\
  compat_sys_pwritev2 fd vec vlen lo hi flags = compat_sys_pwritev64v2 fd vec vlen pos flags /\
  compat_sys_preadv2 fd vec vlen U32_MAX U32_MAX flags = do_readv fd vec vlen flags /\
  compat_sys_pwritev2 fd vec vlen U32_MAX U32_MAX flags = do_writev fd vec vlen flags.
Proof.
  intros Hp lo hi. unfold compat_sys_preadv, compat_sys_pwritev, compat_sys_preadv2, compat_sys_pwritev2, lo, hi.
  rewrite !compat_pos_join by done. done.
Qed.
End kernel_rw_properties.

Module Demo.
#[local] Existing Instances uaccess_ok Seek.Demo.env0.
(** Writes of more than 64 bytes are queued. *)
Definition drvQ : Driver unit := {|
  drv_read _ _ c p w := (c, p, w); drv_read_iter _ l p w := (Z.min (iov_count l) 100, p + Z.min (iov_count l) 100, w);
  drv_write _ _ c p w := (c, p, w);
  drv_write_iter _ l p w := if 64 <? iov_count l then (- EIOCBQUEUED, p, w) else (iov_count l, p + iov_count l, w);
  import_iovec _ a n := inr [(a, n)]; kiocb_set_rw_flags _ := 0 |}.
#[local] Existing Instance drvQ.
Definition k0 : kstate unit := KState (RState Seek.Demo.s0 tt 0 0 0 0 0 0 []) 0.
Definition fk : file := Seek.Demo.f0.
Definition progK : list kcall :=
  [KWrite 7 fk 4096 10 (Some 0); KIocbWrite 7 fk 0 [(0, 100)]; KIterWrite 7 fk [(0, 20); (64, 20)] None 0;
   KIocbWrite 7 fk 50 [(0, 9)]; KIocbWrite 7 fk 50 [(0, 90)]].

Lemma kernel_io_agrees_witness :
  (kernel_read 7 fk 4096 500 (Some 3) (krw k0)).1.1 = 100 /\
  let '(r, p, k') := kernel_write 7 fk 4096 50 (Some 3) k0 in (r, p, krw k') = vfs_write 7 fk 4096 50 (Some 3) (krw k0).
Proof.
  split; [reflexivity|].
  exact (proj1 (proj2 (kernel_io_agrees 7 fk 4096 50 (Some 3) 0 64 5 [(64, 5)] k0
    eq_refl eq_refl eq_refl eq_refl eq_refl eq_refl eq_refl eq_refl eq_refl eq_refl))).
Defined.
Lemma kernel_writes_balanced_witness :
  (exec_ks progK k0).1 = [10; -529; 40; 9; -529] /\ kstarted (exec_ks progK k0).2 = 2.
Proof.
  split; [reflexivity|]. rewrite (kernel_writes_balanced progK k0); [reflexivity|].
  intros n f p c. unfold rw_verify_area. simpl. repeat case_match; lia.
Defined.
Lemma compat_offsets_roundtrip_witness :
  compat_sys_preadv (W := unit) 3 64 5 705032704 1 = do_preadv 3 64 5 5000000000 0.
Proof.
  exact (proj1 (compat_offsets_roundtrip (W := unit) 3 64 5 5000000000 0 ltac:(unfold is_s64; lia))).
Defined.
End Demo.
