(* ===== verification/Ledger.v ===== *)
(** * Ledgers: what is held, resource by resource

    The kernel code that can fail half-way acquires references, counts and
    objects one after the other and gives them back on its error paths.  A
    ledger says how many of each resource are held; two ledgers are equivalent
    when they agree on every resource.  [balance] decides
    equivalences of ledgers built by takes and drops, as arithmetic. *)
From S2P Require Import Prelude.

Definition ledger (R : Type) : Type := R -> Z.

Section ledger.
Context {R : Type} `{EqDecision R}.
Implicit Types (r : R) (l : ledger R).

Definition adjust r (d : Z) l : ledger R := fun r' => if decide (r = r') then l r' + d else l r'.
Definition take_one r l : ledger R := adjust r 1 l.
Definition drop_one r l : ledger R := adjust r (-1) l.

#[global] Instance ledger_equiv : Equiv (ledger R) := fun l l' => forall r, l r = l' r.
#[global] Instance ledger_equivalence : Equivalence (≡@{ledger R}).
Proof. split; repeat intro; [done|by rewrite H|by rewrite H]. Qed.
#[global] Instance adjust_proper r d : Proper ((≡) ==> (≡)) (adjust r d).
Proof. intros l l' H x. unfold adjust. by rewrite (H x). Qed.
#[global] Instance take_one_proper r : Proper ((≡) ==> (≡)) (take_one r).
Proof. apply adjust_proper. Qed.
#[global] Instance drop_one_proper r : Proper ((≡) ==> (≡)) (drop_one r).
Proof. apply adjust_proper. Qed.

(** One of [r], seen at [r']: turns a ledger into arithmetic. *)
Definition one r r' : Z := Z.b2z (bool_decide (r = r')).
Lemma adjust_at r d l r' : adjust r d l r' = l r' + d * one r r'.
Proof. unfold adjust, one. case_decide; subst; [rewrite bool_decide_true by done|rewrite bool_decide_false by done]; simpl; lia. Qed.
Lemma take_one_at r l r' : take_one r l r' = l r' + one r r'.
Proof. unfold take_one. rewrite adjust_at. lia. Qed.
Lemma drop_one_at r l r' : drop_one r l r' = l r' - one r r'.
Proof. unfold drop_one. rewrite adjust_at. lia. Qed.

Lemma one_same r : one r r = 1.
Proof. unfold one. by rewrite bool_decide_true. Qed.
Lemma one_other r r' : r <> r' -> one r r' = 0.
Proof. intros. unfold one. by rewrite bool_decide_false. Qed.

Lemma drop_take r l : drop_one r (take_one r l) ≡ l.
Proof. intros x. unfold drop_one, take_one, adjust. repeat case_decide; subst; lia. Qed.
Lemma take_drop r l : take_one r (drop_one r l) ≡ l.
Proof. intros x. unfold drop_one, take_one, adjust. repeat case_decide; subst; lia. Qed.
Lemma adjust_comm r r' d d' l : adjust r d (adjust r' d' l) ≡ adjust r' d' (adjust r d l).
Proof. intros x. unfold adjust. repeat case_decide; subst; lia. Qed.
End ledger.

(** Equivalence of ledgers, point by point. *)
Ltac ledger_at := repeat (progress rewrite ?take_one_at, ?drop_one_at, ?adjust_at in * ).
Ltac balance := let x := fresh "x" in intros x; ledger_at; lia.

(** The empty ledger, for concrete runs. *)
Definition nothing_held {R} : ledger R := fun _ => 0.
