(* ===== verification/Stacks.v ===== *)
(** * Kernel stacks: the per-CPU caches and their delayed release

    fork.c 183-330 (CONFIG_VMAP_STACK), 535-580 and the use of them in
    [dup_task_struct].  Stacks are virtually mapped areas; each CPU keeps up
    to two that are not in use.  Creating and freeing tasks, RCU callbacks and
    CPUs going down run concurrently and may move between CPUs, so every
    access to a slot of a cache ([this_cpu_xchg], [this_cpu_cmpxchg]) is one
    step, taken on any CPU.  A stack has THREAD_SIZE / PAGE_SIZE = 4 pages,
    each charged to a memory control group while a task uses it. *)
From S2P Require Import Prelude Ledger.

Abbreviation NR_CACHED_STACKS := 2 (only parsing).
(** [THREAD_SIZE / PAGE_SIZE] pages of [PAGE_SIZE / 1024] KB *)
Definition stack_pages : list Z := [0; 1; 2; 3].
Abbreviation PAGE_KB := 4 (only parsing).

(** Where a task is with its stack. *)
Inductive point :=
| NoStack
| Scanning (i : Z)                (** [alloc_thread_stack_node], slot [i] is next *)
| Reused (vm : Z)                 (** taken from a slot, old contents still there *)
| Fresh (vm : Z)                  (** from [__vmalloc_node_range], not charged yet *)
| Allocated (vm : Z)              (** [tsk->stack_vm_area] is set *)
| Running (vm : Z)                (** accounted, in use *)
| Exited (vm : Z)                 (** after [exit_task_stack_account] *)
| Releasing (vm i : Z)            (** [free_thread_stack], slot [i] is next *)
| Freed.                          (** the [task_struct] itself is gone *)
Definition area (p : point) : option Z :=
  match p with
  | NoStack | Scanning _ | Freed => None
  | Reused vm | Fresh vm | Allocated vm | Running vm | Exited vm | Releasing vm _ => Some vm
  end.
Record task_stack := TStack { pt : point; stack_refcount : Z; dead : bool }.

Record tstate := TState {
  cached_stacks : gmap (Z * Z) Z;      (** CPU and slot to area; absent is NULL *)
  tasks : gmap Z task_stack;
  rcu : list (Z * option Z);           (** callbacks: area, and the next slot of a running one *)
  live : gset Z;                       (** areas vmalloc gave out *)
  bad_free : bool;                     (** an area that was not live was freed *)
  dirty : gset Z;                      (** areas that hold data of a former user *)
  charges : ledger (Z * Z);            (** area and page *)
  stack_kb : Z;                        (** NR_KERNEL_STACK_KB *)
  alloc_ret : gmap Z Z;                (** what [alloc_thread_stack_node] returned *)
  abandoned : list Z;                  (** areas whose task was freed with its stack still there *)
  early : gset Z;                      (** areas whose last reference was put before TASK_DEAD *)
}.

Definition set_cached (x : gmap (Z * Z) Z) (s : tstate) : tstate :=
  TState x (tasks s) (rcu s) (live s) (bad_free s) (dirty s) (charges s) (stack_kb s) (alloc_ret s) (abandoned s) (early s).
Definition set_task (t : Z) (x : task_stack) (s : tstate) : tstate :=
  TState (cached_stacks s) (<[t := x]> (tasks s)) (rcu s) (live s) (bad_free s) (dirty s) (charges s) (stack_kb s) (alloc_ret s) (abandoned s) (early s).
Definition set_rcu (x : list (Z * option Z)) (s : tstate) : tstate :=
  TState (cached_stacks s) (tasks s) x (live s) (bad_free s) (dirty s) (charges s) (stack_kb s) (alloc_ret s) (abandoned s) (early s).
Definition set_charges (x : ledger (Z * Z)) (s : tstate) : tstate :=
  TState (cached_stacks s) (tasks s) (rcu s) (live s) (bad_free s) (dirty s) x (stack_kb s) (alloc_ret s) (abandoned s) (early s).
Definition set_dirty (x : gset Z) (s : tstate) : tstate :=
  TState (cached_stacks s) (tasks s) (rcu s) (live s) (bad_free s) x (charges s) (stack_kb s) (alloc_ret s) (abandoned s) (early s).
Definition returns (t r : Z) (s : tstate) : tstate :=
  TState (cached_stacks s) (tasks s) (rcu s) (live s) (bad_free s) (dirty s) (charges s) (stack_kb s) (<[t := r]> (alloc_ret s)) (abandoned s) (early s).
(** [vfree(addr)] *)
Definition vfree (vm : Z) (s : tstate) : tstate :=
  TState (cached_stacks s) (tasks s) (rcu s) (live s ∖ {[ vm ]}) (bad_free s || negb (bool_decide (vm ∈ live s)))
    (dirty s ∖ {[ vm ]}) (charges s) (stack_kb s) (alloc_ret s) (abandoned s) (early s).
(** [__vmalloc_node_range] found [vm]; THREADINFO_GFP asks for zeroed memory. *)
Definition vmalloc (vm : Z) (s : tstate) : tstate :=
  TState (cached_stacks s) (tasks s) (rcu s) ({[ vm ]} ∪ live s) (bad_free s) (dirty s ∖ {[ vm ]}) (charges s) (stack_kb s) (alloc_ret s) (abandoned s) (early s).
(** A [task_struct] that is freed takes the pointer to its stack with it. *)
Definition let_go (l : list Z) (s : tstate) : tstate :=
  TState (cached_stacks s) (tasks s) (rcu s) (live s) (bad_free s) (dirty s) (charges s) (stack_kb s) (alloc_ret s)
    (abandoned s ++ l) (early s).
(** The last reference is put although the task is not TASK_DEAD yet. *)
Definition note_early (x : task_stack) (vm : Z) (s : tstate) : tstate :=
  TState (cached_stacks s) (tasks s) (rcu s) (live s) (bad_free s) (dirty s) (charges s) (stack_kb s) (alloc_ret s)
    (abandoned s) (if (stack_refcount x =? 1) && negb (dead x) then {[ vm ]} ∪ early s else early s).
Definition at_point (p : point) (t : Z) (s : tstate) : tstate :=
  match tasks s !! t with
  | Some x => set_task t (TStack p (stack_refcount x) (dead x)) s
  | None => s
  end.

(** ** Memory control groups *)

(** The loop over the pages; [done] are those charged so far. *)
Fixpoint charge_loop (charge_page : Z -> Z) (vm : Z) (pages done : list Z) (l : ledger (Z * Z)) : Z * ledger (Z * Z) :=
  match pages with
  | [] => (0, l)
  | p :: ps =>
      let ret := charge_page p in
      if negb (ret =? 0) then (ret, foldl (fun l p => drop_one (vm, p) l) l done)
      else charge_loop charge_page vm ps (done ++ [p]) (take_one (vm, p) l)
  end.
Definition memcg_charge_kernel_stack (charge_page : Z -> Z) (vm : Z) (l : ledger (Z * Z)) : Z * ledger (Z * Z) :=
  charge_loop charge_page vm stack_pages [] l.
Definition account_kernel_stack (account : Z) (s : tstate) : tstate :=
  TState (cached_stacks s) (tasks s) (rcu s) (live s) (bad_free s) (dirty s) (charges s)
    (foldl (fun kb _ => kb + account * PAGE_KB) (stack_kb s) stack_pages) (alloc_ret s) (abandoned s) (early s).
Definition exit_task_stack_account (vm : Z) (s : tstate) : tstate :=
  let s := account_kernel_stack (-1) s in
  set_charges (foldl (fun l p => drop_one (vm, p) l) (charges s) stack_pages) s.

(** ** The caches *)

(** One round of [try_release_thread_stack_to_cache]: the compare-and-exchange
    puts the area into an empty slot. *)
Definition try_release_slot (cpu i vm : Z) (s : tstate) : option tstate :=
  match cached_stacks s !! (cpu, i) with
  | Some _ => None
  | None => Some (set_cached (<[(cpu, i) := vm]> (cached_stacks s)) s)
  end.
Definition thread_stack_delayed_free (vm : Z) (s : tstate) : tstate := set_rcu (rcu s ++ [(vm, None)]) s.

(** A CPU goes down: both of its slots are emptied. *)
Definition free_slot (cpu i : Z) (s : tstate) : tstate :=
  match cached_stacks s !! (cpu, i) with
  | None => s
  | Some vm => set_cached (delete (cpu, i) (cached_stacks s)) (vfree vm s)
  end.
Definition free_vm_stack_cache (cpu : Z) (s : tstate) : tstate := free_slot cpu 1 (free_slot cpu 0 s).

(** ** Allocation, step by step *)

(** One round of the loop of [alloc_thread_stack_node]. *)
Definition scan_slot (t cpu i : Z) (s : tstate) : tstate :=
  match cached_stacks s !! (cpu, i) with
  | Some vm => at_point (Reused vm) t (set_cached (delete (cpu, i) (cached_stacks s)) s)
  | None => at_point (Scanning (i + 1)) t s
  end.
(** Clearing and charging a reused stack, or charging a fresh one. *)
Definition finish_alloc (charge_page : Z -> Z) (reused : bool) (t vm : Z) (s : tstate) : tstate :=
  let s := if reused then set_dirty (dirty s ∖ {[ vm ]}) s else s in
  let '(ret, l) := memcg_charge_kernel_stack charge_page vm (charges s) in
  let s := set_charges l s in
  if negb (ret =? 0) then returns t (- ENOMEM) (at_point NoStack t (vfree vm s))
  else returns t 0 (at_point (Allocated vm) t s).
Definition vmalloc_stack (t : Z) (vm : option Z) (s : tstate) : tstate :=
  match vm with
  | None => returns t (- ENOMEM) (at_point NoStack t s)
  | Some vm => at_point (Fresh vm) t (vmalloc vm s)
  end.

(** ** Release, step by step *)
Definition free_thread_stack_step (t cpu vm i : Z) (s : tstate) : tstate :=
  if i <? NR_CACHED_STACKS then
    match try_release_slot cpu i vm s with
    | Some s => at_point NoStack t s
    | None => at_point (Releasing vm (i + 1)) t s
    end
  else at_point NoStack t (thread_stack_delayed_free vm s).
(** [WARN_ON(READ_ONCE(tsk->__state) != TASK_DEAD)]: then the stack stays. *)
Definition release_task_stack (t : Z) (vm : Z) (s : tstate) : tstate :=
  match tasks s !! t with
  | Some x => if dead x then at_point (Releasing vm 0) t s else s
  | None => s
  end.
(** The last reference releases the stack. *)
Definition put_task_stack (t : Z) (x : task_stack) (vm : Z) (s : tstate) : tstate :=
  let s := set_task t (TStack (pt x) (stack_refcount x - 1) (dead x)) s in
  if stack_refcount x - 1 =? 0 then release_task_stack t vm s else s.
(** [free_task], and [free_task_struct] after a failed allocation. *)
Definition free_task (t : Z) (x : task_stack) (s : tstate) : tstate :=
  let_go (option_list (area (pt x))) (set_task t (TStack Freed (stack_refcount x) (dead x)) s).
(** [thread_stack_free_rcu] of the callback at position [k]. *)
Definition thread_stack_free_rcu_step (k : nat) (cpu vm : Z) (at_slot : option Z) (s : tstate) : tstate :=
  match at_slot with
  | None => set_rcu (<[k := (vm, Some 0)]> (rcu s)) s
  | Some i =>
      if i <? NR_CACHED_STACKS then
        match try_release_slot cpu i vm s with
        | Some s => set_rcu (delete k (rcu s)) s
        | None => set_rcu (<[k := (vm, Some (i + 1))]> (rcu s)) s
        end
      else set_rcu (delete k (rcu s)) (vfree vm s)
  end.

(** ** The system *)
Inductive event :=
| Begin (t : Z)                                 (** [dup_task_struct] calls [alloc_thread_stack_node] *)
| Scan (t cpu : Z)
| Vmalloc (t : Z) (vm : option Z)               (** nothing in the caches *)
| Charge (t : Z) (charge_page : Z -> Z)
| Account (t : Z)                               (** the rest of [dup_task_struct] *)
| Use (t : Z)                                   (** the task runs on its stack *)
| GetStack (t : Z)                              (** someone inspects it *)
| Exit (t : Z)                                  (** [exit_task_stack_account] *)
| Die (t : Z)                                   (** the scheduler is done with the task *)
| PutStack (t : Z)
| Release (t cpu : Z)
| FreeTask (t : Z)                              (** the last reference to the task itself *)
| Callback (k : nat) (cpu : Z)                  (** a step of an RCU callback *)
| CpuDown (cpu : Z).

Definition on_task (t : Z) (s : tstate) (f : task_stack -> option tstate) : option tstate :=
  match tasks s !! t with Some x => f x | None => None end.
(** [None]: the event cannot happen now. *)
Definition step (e : event) (s : tstate) : option tstate :=
  match e with
  | Begin t => match tasks s !! t with
               | None => Some (set_task t (TStack (Scanning 0) 0 false) s) | Some _ => None end
  | Scan t cpu => on_task t s (fun x => match pt x with
      | Scanning i => if i <? NR_CACHED_STACKS then Some (scan_slot t cpu i s) else None | _ => None end)
  | Vmalloc t vm => on_task t s (fun x => match pt x with
      | Scanning i => if negb (i <? NR_CACHED_STACKS) && match vm with Some v => bool_decide (v ∉ live s) | None => true end
                      then Some (vmalloc_stack t vm s) else None
      | _ => None end)
  | Charge t charge_page => on_task t s (fun x => match pt x with
      | Reused vm => Some (finish_alloc charge_page true t vm s)
      | Fresh vm => Some (finish_alloc charge_page false t vm s) | _ => None end)
  | Account t => on_task t s (fun x => match pt x with
      | Allocated vm => Some (account_kernel_stack 1 (set_task t (TStack (Running vm) 1 (dead x)) s)) | _ => None end)
  | Use t => on_task t s (fun x => match pt x with
      | Running vm => Some (set_dirty ({[ vm ]} ∪ dirty s) s) | _ => None end)
  | GetStack t => on_task t s (fun x => match area (pt x) with
      | Some _ => if 0 <? stack_refcount x then Some (set_task t (TStack (pt x) (stack_refcount x + 1) (dead x)) s) else None
      | None => None end)
  | Exit t => on_task t s (fun x => match pt x with
      | Running vm => Some (at_point (Exited vm) t (exit_task_stack_account vm s)) | _ => None end)
  | Die t => on_task t s (fun x => match pt x with
      | Exited vm => Some (set_task t (TStack (pt x) (stack_refcount x) true) s) | _ => None end)
  | PutStack t => on_task t s (fun x => match pt x with
      | Running vm | Exited vm => if 0 <? stack_refcount x then Some (put_task_stack t x vm (note_early x vm s)) else None | _ => None end)
  | Release t cpu => on_task t s (fun x => match pt x with
      | Releasing vm i => Some (free_thread_stack_step t cpu vm i s) | _ => None end)
  | FreeTask t => on_task t s (fun x => match pt x with
      | NoStack => Some (free_task t x s)
      | Exited vm => if stack_refcount x =? 0 then Some (free_task t x s) else None | _ => None end)
  | Callback k cpu => match rcu s !! k with
      | Some (vm, i) => Some (thread_stack_free_rcu_step k cpu vm i s) | None => None end
  | CpuDown cpu => Some (free_vm_stack_cache cpu s)
  end.
Fixpoint exec (es : list event) (s : tstate) : option tstate :=
  match es with [] => Some s | e :: es => match step e s with Some s' => exec es s' | None => None end end.
Definition init : tstate := TState ∅ ∅ [] ∅ false ∅ nothing_held 0 ∅ [] ∅.
Inductive reachable : tstate -> Prop :=
| reach_init : reachable init
| reach_step e s s' : reachable s -> step e s = Some s' -> reachable s'.
Lemma exec_reachable es s s' : reachable s -> exec es s = Some s' -> reachable s'.
Proof.
  revert s. induction es as [|e es IH]; intros s Hs; simpl; [by intros [= <-]|].
  destruct (step e s) as [s1|] eqn:E; [|done]. apply IH. by eapply reach_step.
Qed.

(** ** Ownership *)

(** Who holds which area: cache slots, tasks, callbacks. *)
Definition areas_by (g : point -> option Z) (m : gmap Z task_stack) : list Z := omap (fun x => g (pt x.2)) (map_to_list m).
#[local] Abbreviation task_areas := (areas_by area).
Definition owners (s : tstate) : list Z := (map_to_list (cached_stacks s)).*2 ++ task_areas (tasks s) ++ (rcu s).*1.
(** The areas somebody holds, and those nobody will ever release. *)
Definition held_or_lost (s : tstate) : list Z := owners s ++ abandoned s.

Lemma cached_insert (m : gmap (Z * Z) Z) k vm :
  m !! k = None -> (map_to_list (<[k := vm]> m)).*2 ≡ₚ vm :: (map_to_list m).*2.
Proof. intros H. by rewrite map_to_list_insert. Qed.
Lemma cached_delete (m : gmap (Z * Z) Z) k vm :
  m !! k = Some vm -> (map_to_list m).*2 ≡ₚ vm :: (map_to_list (delete k m)).*2.
Proof. intros H. by rewrite <- (map_to_list_delete m k vm). Qed.
Lemma areas_by_insert g m t x : m !! t = None -> areas_by g (<[t := x]> m) ≡ₚ option_list (g (pt x)) ++ areas_by g m.
Proof.
  intros H. unfold areas_by. rewrite map_to_list_insert by done. simpl. by destruct (g (pt x)).
Qed.
Lemma areas_by_at g m t x : m !! t = Some x -> areas_by g m ≡ₚ option_list (g (pt x)) ++ areas_by g (delete t m).
Proof. intros H. rewrite <- areas_by_insert by apply lookup_delete_eq. by rewrite insert_delete_id. Qed.
Lemma areas_by_set g m t y : areas_by g (<[t := y]> m) ≡ₚ option_list (g (pt y)) ++ areas_by g (delete t m).
Proof. rewrite <- areas_by_insert by apply lookup_delete_eq. by rewrite insert_delete_eq. Qed.
Lemma rcu_at (l : list (Z * option Z)) k vm i : l !! k = Some (vm, i) -> l.*1 ≡ₚ vm :: (delete k l).*1.
Proof. intros H. by rewrite (delete_Permutation l k (vm, i)) at 1 by done. Qed.
Lemma rcu_set (l : list (Z * option Z)) k vm i j : l !! k = Some (vm, i) -> (<[k := (vm, j)]> l).*1 = l.*1.
Proof.
  intros H. rewrite list_fmap_insert. apply list_insert_id. by rewrite list_lookup_fmap, H.
Qed.

(** How a step changes who owns what. *)
Inductive owner_step (s s' : tstate) : Prop :=
| OwnersMove : held_or_lost s' ≡ₚ held_or_lost s -> live s' = live s -> bad_free s' = bad_free s -> owner_step s s'
| OwnersNew vm : vm ∉ live s -> held_or_lost s' ≡ₚ vm :: held_or_lost s -> live s' = {[ vm ]} ∪ live s ->
    bad_free s' = bad_free s -> owner_step s s'
| OwnersLose vm : held_or_lost s ≡ₚ vm :: held_or_lost s' -> live s' = live s ∖ {[ vm ]} ->
    bad_free s' = bad_free s || negb (bool_decide (vm ∈ live s)) -> owner_step s s'.

Ltac own := unfold held_or_lost, owners; simpl;
  rewrite ?areas_by_set; repeat match goal with
  | H : tasks ?s !! ?t = Some ?x |- context [areas_by area (tasks ?s)] => rewrite (areas_by_at area (tasks s) t x H)
  | H : cached_stacks ?s !! ?k = None |- context [map_to_list (<[?k := ?v]> (cached_stacks ?s))] => rewrite (cached_insert (cached_stacks s) k v H)
  | H : cached_stacks ?s !! ?k = Some ?v |- context [map_to_list (cached_stacks ?s)] => rewrite (cached_delete (cached_stacks s) k v H)
  | H : rcu ?s !! ?k = Some (?v, ?i) |- context [(<[?k := (?v, ?j)]> (rcu ?s)).*1] => rewrite (rcu_set (rcu s) k v i j H)
  | H : rcu ?s !! ?k = Some (?v, ?i) |- context [(rcu ?s).*1] => rewrite (rcu_at (rcu s) k v i H)
  end; simpl;
  repeat match goal with H : pt ?x = _ |- context [pt ?x] => rewrite H | H : area (pt ?x) = _ |- context [area (pt ?x)] => rewrite H end; simpl;
  rewrite ?fmap_app; simpl; solve_Permutation.
Ltac point_of H := unfold at_point; simpl; rewrite H; simpl.

Lemma scan_owners t cpu i s x :
  tasks s !! t = Some x -> pt x = Scanning i -> owner_step s (scan_slot t cpu i s).
Proof.
  intros Ht Hp. unfold scan_slot. destruct (cached_stacks s !! (cpu, i)) eqn:E; point_of Ht; apply OwnersMove; try done; own.
Qed.
Lemma vmalloc_owners t vm s x i :
  tasks s !! t = Some x -> pt x = Scanning i -> match vm with Some v => v ∉ live s | None => True end ->
  owner_step s (vmalloc_stack t vm s).
Proof.
  intros Ht Hp Hv. unfold vmalloc_stack. destruct vm as [v|]; point_of Ht.
  - apply (OwnersNew _ _ v); try done. own.
  - apply OwnersMove; try done. own.
Qed.
Lemma finish_owners charge reused t vm s x :
  tasks s !! t = Some x -> area (pt x) = Some vm -> owner_step s (finish_alloc charge reused t vm s).
Proof.
  intros Ht Ha. unfold finish_alloc. destruct reused; (destruct (memcg_charge_kernel_stack _ _ _) as [r l]);
    (destruct (negb _); point_of Ht; [apply (OwnersLose _ _ vm)|apply OwnersMove]); try done; own.
Qed.
Lemma release_owners t cpu vm i s x :
  tasks s !! t = Some x -> pt x = Releasing vm i -> owner_step s (free_thread_stack_step t cpu vm i s).
Proof.
  intros Ht Hp. unfold free_thread_stack_step, try_release_slot, thread_stack_delayed_free.
  destruct (i <? _); [destruct (cached_stacks s !! (cpu, i)) eqn:E|]; point_of Ht; apply OwnersMove; try done; own.
Qed.
Lemma callback_owners k cpu vm i s :
  rcu s !! k = Some (vm, i) -> owner_step s (thread_stack_free_rcu_step k cpu vm i s).
Proof.
  intros Hk. unfold thread_stack_free_rcu_step, try_release_slot. destruct i as [i|].
  - destruct (i <? _); [destruct (cached_stacks s !! (cpu, i)) eqn:E|].
    + apply OwnersMove; try done. own.
    + apply OwnersMove; try done. own.
    + apply (OwnersLose _ _ vm); try done. own.
  - apply OwnersMove; try done. own.
Qed.
Lemma free_slot_owners cpu i s : owner_step s (free_slot cpu i s).
Proof.
  unfold free_slot. destruct (cached_stacks s !! (cpu, i)) as [vm|] eqn:E; [|by apply OwnersMove].
  apply (OwnersLose _ _ vm); try done. own.
Qed.
Lemma put_owners t x vm s :
  tasks s !! t = Some x -> area (pt x) = Some vm -> owner_step s (put_task_stack t x vm s).
Proof.
  intros Ht Hp. unfold put_task_stack, release_task_stack, at_point. simpl. rewrite !lookup_insert_eq. simpl.
  destruct (_ =? 0); [destruct (dead x)|]; apply OwnersMove; try done; unfold held_or_lost, owners; simpl;
    rewrite ?insert_insert_eq, areas_by_set, (areas_by_at area _ _ _ Ht); simpl; by rewrite Hp.
Qed.

Lemma owner_step_note x vm s s' : owner_step (note_early x vm s) s' -> owner_step s s'.
Proof. intros [? ? ?|vm' ? ? ? ?|vm' ? ? ?]; [by apply OwnersMove|by eapply OwnersNew|by eapply OwnersLose]. Qed.
Lemma free_owners t x s : tasks s !! t = Some x -> owner_step s (free_task t x s).
Proof. intros Ht. apply OwnersMove; try done. unfold held_or_lost, owners. simpl. rewrite areas_by_set, (areas_by_at area _ _ _ Ht). simpl. solve_Permutation. Qed.

(** Every live area has exactly one owner, and nothing else is owned. *)
Definition owned_once (s : tstate) : Prop := held_or_lost s ≡ₚ elements (live s) /\ bad_free s = false.
Lemma owner_step_once s s' : owner_step s s' -> owned_once s -> owned_once s'.
Proof.
  intros Hs [Ho Hb]. destruct Hs as [E L B|vm Hn E L B|vm E L B]; unfold owned_once; rewrite L, B.
  - by rewrite E.
  - split; [|done]. by rewrite E, elements_union_singleton, Ho.
  - assert (vm ∈ live s) as Hin by (apply elem_of_elements; rewrite <- Ho, E; set_solver).
    rewrite Hb, bool_decide_true by done. split; [|done].
    apply (Permutation.Permutation_cons_inv (a := vm)). rewrite <- E, Ho.
    rewrite <- elements_union_singleton by set_solver. f_equiv. symmetry. rewrite <- union_difference_singleton; done.
Qed.
Lemma on_task_inv t s f s' : on_task t s f = Some s' -> exists x, tasks s !! t = Some x /\ f x = Some s'.
Proof. unfold on_task. destruct (tasks s !! t); naive_solver. Qed.
Lemma set_task_owners t x y s s' :
  tasks s !! t = Some x -> area (pt y) = area (pt x) -> cached_stacks s' = cached_stacks s ->
  tasks s' = <[t := y]> (tasks s) -> rcu s' = rcu s -> abandoned s' = abandoned s -> live s' = live s ->
  bad_free s' = bad_free s -> owner_step s s'.
Proof.
  intros Ht Ha Hc Hts Hr Hab Hl Hb. apply OwnersMove; try done. unfold held_or_lost, owners.
  by rewrite Hc, Hts, Hr, Hab, areas_by_set, (areas_by_at area _ _ _ Ht), Ha.
Qed.
(** Inversion of a step: the task, its point, and the state after. *)
Ltac step_inv E :=
  let x := fresh "x" in
  simpl in E; try (apply on_task_inv in E as (x & ? & E));
  repeat (case_match; simplify_eq/=).
Lemma step_owners e s s' : step e s = Some s' -> (exists cpu, e = CpuDown cpu) \/ owner_step s s'.
Proof.
  intros E. destruct e; try (by left; eexists); right; step_inv E.
  - apply OwnersMove; try done. unfold held_or_lost, owners. simpl. by rewrite areas_by_insert by done.
  - by eapply scan_owners.
  - apply (vmalloc_owners t (Some z) s x i); [done..|]. by apply andb_prop in H1 as [_ ?%bool_decide_eq_true_1].
  - by apply (vmalloc_owners t None s x i).
  - eapply finish_owners; [done|by rewrite H0].
  - eapply finish_owners; [done|by rewrite H0].
  - eapply set_task_owners; [done| |done..]. by rewrite H0.
  - by apply OwnersMove.
  - eapply set_task_owners; [done| |done..]. done.
  - point_of H. eapply set_task_owners; [done| |done..]. by rewrite H0.
  - eapply set_task_owners; [done| |done..]. by rewrite H0.
  - eapply owner_step_note, put_owners; [done|]. by rewrite H0.
  - eapply owner_step_note, put_owners; [done|]. by rewrite H0.
  - by eapply release_owners.
  - by apply free_owners.
  - by apply free_owners.
  - by eapply callback_owners.
Qed.
Lemma step_once e s s' : step e s = Some s' -> owned_once s -> owned_once s'.
Proof.
  intros E Hs. destruct (step_owners e s s' E) as [[cpu ->]|Ho]; [|by eapply owner_step_once].
  injection E as <-. unfold free_vm_stack_cache. eauto using owner_step_once, free_slot_owners.
Qed.

(** ** Accounting *)

(** Charged from the end of the allocation to the exit of the task; counted
    in NR_KERNEL_STACK_KB from the moment [dup_task_struct] accounts it. *)
Definition charged_at (p : point) : option Z := match p with Allocated vm | Running vm => Some vm | _ => None end.
Definition accounted_at (p : point) : option Z := match p with Running vm => Some vm | _ => None end.
Definition times (vm : Z) (l : list Z) : Z := Z.of_nat (length (filter (eq vm) l)).
Definition charges_exact (s : tstate) : Prop :=
  forall vm p, charges s (vm, p) = if bool_decide (p ∈ stack_pages) then times vm (areas_by charged_at (tasks s)) else 0.
Definition kb_exact (s : tstate) : Prop := stack_kb s = 16 * Z.of_nat (length (areas_by accounted_at (tasks s))).

#[local] Instance times_perm vm : Proper ((≡ₚ) ==> (=)) (times vm).
Proof. intros l l' H. unfold times. by rewrite H. Qed.
Lemma times_cons vm x l : times vm (x :: l) = one x vm + times vm l.
Proof.
  unfold times, one. rewrite filter_cons. case_decide; subst; simpl.
  - rewrite bool_decide_true by done. simpl. lia.
  - rewrite bool_decide_false by congruence. simpl. lia.
Qed.
Lemma times_nil vm : times vm [] = 0.
Proof. done. Qed.
Lemma one_pair (vm p vm' p' : Z) : one (vm, p) (vm', p') = one vm vm' * one p p'.
Proof.
  unfold one. destruct (decide (vm = vm')), (decide (p = p')); subst; repeat first [rewrite bool_decide_true by done | rewrite bool_decide_false by congruence]; done.
Qed.
Lemma pages_one p : one 0 p + one 1 p + one 2 p + one 3 p = Z.b2z (bool_decide (p ∈ stack_pages)).
Proof.
  unfold one, stack_pages.
  destruct (decide (p = 0)) as [->|?]; [done|]. destruct (decide (p = 1)) as [->|?]; [done|].
  destruct (decide (p = 2)) as [->|?]; [done|]. destruct (decide (p = 3)) as [->|?]; [done|].
  rewrite !bool_decide_false by (done || set_solver). done.
Qed.

(** Charging takes one of every page, or fails and takes nothing. *)
Lemma charge_loop_result c vm l r l' :
  memcg_charge_kernel_stack c vm l = (r, l') ->
  forall vm' p, l' (vm', p) = l (vm', p) + (if r =? 0 then one vm vm' * Z.b2z (bool_decide (p ∈ stack_pages)) else 0).
Proof.
  intros E vm' p. rewrite <- pages_one. revert E. unfold memcg_charge_kernel_stack, stack_pages. cbn [charge_loop app]. cbv zeta.
  repeat match goal with |- context [c ?i =? 0] => destruct (Z.eqb_spec (c i) 0); cbn [negb] end; intros E; apply pair_equal_spec in E as [<- <-]; cbn [foldl];
    ledger_at; rewrite ?one_pair;
    try match goal with H : ?x <> 0 |- context [?x =? 0] => replace (x =? 0) with false by lia end; simpl; lia.
Qed.
Lemma uncharge_result (vm : Z) l (vm' p : Z) :
  foldl (fun l p => drop_one (vm, p) l) l stack_pages (vm', p) = l (vm', p) - one vm vm' * Z.b2z (bool_decide (p ∈ stack_pages)).
Proof. rewrite <- pages_one. unfold stack_pages. cbn [foldl]. ledger_at. rewrite ?one_pair. lia. Qed.

Lemma accounts_set_task t x y s s' :
  tasks s !! t = Some x -> charged_at (pt y) = charged_at (pt x) -> accounted_at (pt y) = accounted_at (pt x) ->
  tasks s' = <[t := y]> (tasks s) -> charges s' ≡ charges s -> stack_kb s' = stack_kb s ->
  charges_exact s /\ kb_exact s -> charges_exact s' /\ kb_exact s'.
Proof.
  intros Ht Hc Ha Hts Hch Hk [Hce Hkb]. unfold charges_exact, kb_exact. rewrite Hts, Hk. split.
  - intros vm p. rewrite (Hch (vm, p)), Hce, areas_by_set, (areas_by_at charged_at _ _ _ Ht). by rewrite Hc.
  - rewrite Hkb, areas_by_set, (areas_by_at accounted_at _ _ _ Ht). by rewrite Ha.
Qed.
Lemma finish_accounts charge reused t vm s x :
  tasks s !! t = Some x -> charged_at (pt x) = None -> accounted_at (pt x) = None ->
  charges_exact s /\ kb_exact s -> charges_exact (finish_alloc charge reused t vm s) /\ kb_exact (finish_alloc charge reused t vm s).
Proof.
  intros Ht Hc Ha [Hce Hkb]. unfold finish_alloc. set (s1 := if reused then _ else _).
  assert (tasks s1 = tasks s /\ charges s1 = charges s /\ stack_kb s1 = stack_kb s) as (T & C & K) by (subst s1; by destruct reused).
  clearbody s1. rewrite C. destruct (memcg_charge_kernel_stack _ _ _) as [r l] eqn:E.
  pose proof (charge_loop_result _ _ _ _ _ E) as Hl. unfold at_point. simpl.
  destruct (r =? 0); simpl; rewrite T, Ht; unfold charges_exact, kb_exact; simpl; rewrite T, K, Hkb.
  - split.
    + intros vm' p. rewrite Hl, Hce, areas_by_set, (areas_by_at charged_at _ _ _ Ht), Hc. simpl. rewrite times_cons.
      destruct (bool_decide _); simpl; lia.
    + by rewrite areas_by_set, (areas_by_at accounted_at _ _ _ Ht), Ha.
  - split.
    + intros vm' p. rewrite Hl, Hce, areas_by_set, (areas_by_at charged_at _ _ _ Ht), Hc. simpl. lia.
    + by rewrite areas_by_set, (areas_by_at accounted_at _ _ _ Ht), Ha.
Qed.
Lemma exit_accounts t vm s x :
  tasks s !! t = Some x -> pt x = Running vm -> charges_exact s /\ kb_exact s ->
  let s' := at_point (Exited vm) t (exit_task_stack_account vm s) in charges_exact s' /\ kb_exact s'.
Proof.
  intros Ht Hp [Hce Hkb]. unfold at_point. cbn [tasks exit_task_stack_account set_charges account_kernel_stack]. rewrite Ht.
  unfold charges_exact, kb_exact. cbn [tasks set_task charges stack_kb exit_task_stack_account set_charges account_kernel_stack]. split.
  - intros vm' p. rewrite uncharge_result, Hce, areas_by_set, (areas_by_at charged_at _ _ _ Ht), Hp. simpl. rewrite times_cons.
    destruct (bool_decide _); simpl; lia.
  - rewrite Hkb, areas_by_set, (areas_by_at accounted_at _ _ _ Ht), Hp. simpl. lia.
Qed.
Lemma account_accounts t vm s x :
  tasks s !! t = Some x -> pt x = Allocated vm -> charges_exact s /\ kb_exact s ->
  let s' := account_kernel_stack 1 (set_task t (TStack (Running vm) 1 (dead x)) s) in charges_exact s' /\ kb_exact s'.
Proof.
  intros Ht Hp [Hce Hkb]. unfold charges_exact, kb_exact. simpl. split.
  - intros vm' p. rewrite Hce, areas_by_set, (areas_by_at charged_at _ _ _ Ht), Hp. done.
  - rewrite Hkb, areas_by_set, (areas_by_at accounted_at _ _ _ Ht), Hp. simpl. lia.
Qed.
(** Caches and callbacks have no part in the accounting. *)
Lemma accounts_frame s s' :
  tasks s' = tasks s -> charges s' = charges s -> stack_kb s' = stack_kb s ->
  charges_exact s /\ kb_exact s -> charges_exact s' /\ kb_exact s'.
Proof. unfold charges_exact, kb_exact. by intros -> -> ->. Qed.
Lemma free_slot_frame cpu i s :
  tasks (free_slot cpu i s) = tasks s /\ charges (free_slot cpu i s) = charges s /\ stack_kb (free_slot cpu i s) = stack_kb s /\
  dirty (free_slot cpu i s) ⊆ dirty s.
Proof. unfold free_slot. case_match; split_and!; try done. simpl. set_solver. Qed.
Lemma callback_frame k cpu vm i s :
  let s' := thread_stack_free_rcu_step k cpu vm i s in
  tasks s' = tasks s /\ charges s' = charges s /\ stack_kb s' = stack_kb s /\ dirty s' ⊆ dirty s.
Proof.
  unfold thread_stack_free_rcu_step, try_release_slot. destruct i as [i|]; [|done].
  destruct (i <? _); [destruct (cached_stacks s !! (cpu, i))|]; split_and!; try done. simpl. set_solver.
Qed.

(** ** The life of a stack, seen from its task *)
Definition with_pt (p : point) (x : task_stack) : task_stack := TStack p (stack_refcount x) (dead x).
Inductive next : option task_stack -> task_stack -> Prop :=
| NextBegin : next None (TStack (Scanning 0) 0 false)
| NextMiss x i : pt x = Scanning i -> i < NR_CACHED_STACKS -> next (Some x) (with_pt (Scanning (i + 1)) x)
| NextHit x i vm : pt x = Scanning i -> i < NR_CACHED_STACKS -> next (Some x) (with_pt (Reused vm) x)
| NextFresh x i vm : pt x = Scanning i -> NR_CACHED_STACKS <= i -> next (Some x) (with_pt (Fresh vm) x)
| NextNone x i : pt x = Scanning i -> NR_CACHED_STACKS <= i -> next (Some x) (with_pt NoStack x)
| NextRefused x vm : pt x = Reused vm \/ pt x = Fresh vm -> next (Some x) (with_pt NoStack x)
| NextAllocated x vm : pt x = Reused vm \/ pt x = Fresh vm -> next (Some x) (with_pt (Allocated vm) x)
| NextRunning x vm : pt x = Allocated vm -> next (Some x) (TStack (Running vm) 1 (dead x))
| NextGet x : 0 < stack_refcount x -> next (Some x) (TStack (pt x) (stack_refcount x + 1) (dead x))
| NextExit x vm : pt x = Running vm -> next (Some x) (with_pt (Exited vm) x)
| NextDie x vm : pt x = Exited vm -> next (Some x) (TStack (pt x) (stack_refcount x) true)
| NextFree x : pt x = NoStack \/ (exists vm, pt x = Exited vm) -> next (Some x) (TStack Freed (stack_refcount x) (dead x))
| NextPut x vm : pt x = Running vm \/ pt x = Exited vm -> 0 < stack_refcount x ->
    next (Some x) (TStack (pt x) (stack_refcount x - 1) (dead x))
| NextLast x vm : pt x = Running vm \/ pt x = Exited vm -> stack_refcount x = 1 -> dead x = true ->
    next (Some x) (TStack (Releasing vm 0) (stack_refcount x - 1) (dead x))
| NextBusy x vm i : pt x = Releasing vm i -> i < NR_CACHED_STACKS -> next (Some x) (with_pt (Releasing vm (i + 1)) x)
| NextGone x vm i : pt x = Releasing vm i -> next (Some x) (with_pt NoStack x).
Create HintDb stacks.
#[local] Hint Constructors next : stacks.

(** Whose step it is. *)
Definition actor (e : event) : option Z :=
  match e with
  | Begin t | Scan t _ | Vmalloc t _ | Charge t _ | Account t | GetStack t | Exit t | Die t | PutStack t | Release t _ | FreeTask t => Some t
  | Use _ | Callback _ _ | CpuDown _ => None
  end.
Lemma finish_tasks charge reused t vm s x :
  tasks s !! t = Some x -> pt x = Reused vm \/ pt x = Fresh vm ->
  exists y, tasks (finish_alloc charge reused t vm s) = <[t := y]> (tasks s) /\ next (Some x) y.
Proof.
  intros Ht Hp. unfold finish_alloc. destruct reused; (destruct (memcg_charge_kernel_stack _ _ _) as [r l]);
    (destruct (negb _); point_of Ht; eexists; (split; [done|]); eauto with stacks).
Qed.
Lemma put_tasks t x vm s :
  tasks s !! t = Some x -> pt x = Running vm \/ pt x = Exited vm -> 0 < stack_refcount x ->
  exists y, tasks (put_task_stack t x vm s) = <[t := y]> (tasks s) /\ next (Some x) y.
Proof.
  intros Ht Hp Hr. unfold put_task_stack, release_task_stack, at_point. simpl. rewrite !lookup_insert_eq. simpl.
  destruct (Z.eqb_spec (stack_refcount x - 1) 0); [destruct (dead x) eqn:Hd|]; simpl; rewrite ?insert_insert_eq;
    (eexists; split; [done|]); [|rewrite <- Hd; eauto with stacks|eauto with stacks].
  rewrite <- Hd. eapply NextLast; [done|lia|done].
Qed.
Ltac here H := simpl; rewrite ?H; eexists; split; [done|].
Lemma step_tasks e s s' :
  step e s = Some s' ->
  match actor e with
  | None => tasks s' = tasks s
  | Some t => exists y, tasks s' = <[t := y]> (tasks s) /\ next (tasks s !! t) y
  end.
Proof.
  intros E. destruct e; simpl; step_inv E.
  - eexists. split; [done|]. eauto with stacks.
  - unfold scan_slot. case_match; unfold at_point; here H; [eapply NextHit|eapply NextMiss]; (done || lia).
  - unfold at_point. here H. eapply NextFresh; [done|]. lia.
  - unfold at_point. here H. eapply NextNone; [done|]. lia.
  - rewrite H. eapply finish_tasks; eauto.
  - rewrite H. eapply finish_tasks; eauto.
  - here H. eauto with stacks.
  - done.
  - here H. apply NextGet. lia.
  - unfold at_point. here H. eauto with stacks.
  - here H. rewrite <- H0. eauto with stacks.
  - rewrite H. apply (put_tasks t x vm (note_early x vm s)); eauto. lia.
  - rewrite H. apply (put_tasks t x vm (note_early x vm s)); eauto. lia.
  - unfold free_thread_stack_step, try_release_slot, thread_stack_delayed_free, at_point.
    destruct (i <? 2) eqn:Hi; [destruct (cached_stacks s !! (cpu, i))|]; here H; eauto with stacks. eapply NextBusy; [done|lia].
  - here H. eauto with stacks.
  - here H. eauto with stacks.
  - apply callback_frame.
  - injection E as <-. unfold free_vm_stack_cache. etransitivity; apply free_slot_frame.
Qed.

(** Only a task that has exited dies. *)
Definition past_exit (p : point) : bool := match p with NoStack | Exited _ | Releasing _ _ | Freed => true | _ => false end.
Definition dead_exited (s : tstate) : Prop := map_Forall (fun _ x => dead x = true -> past_exit (pt x) = true) (tasks s).
Lemma next_dead o y :
  next o y -> (forall x, o = Some x -> dead x = true -> past_exit (pt x) = true) -> dead y = true -> past_exit (pt y) = true.
Proof.
  intros Hn Hx. destruct Hn as [| x i Hp Hi|x i vm Hp Hi|x i vm Hp Hi|x i Hp Hi|x vm Hp|x vm Hp|x vm Hp|x Hr|x vm Hp|x vm Hp|x Hp|x vm Hp Hr|x vm Hp Hr Hd|x vm i Hp Hi|x vm i Hp];
    simpl; try done; intros Hd'; specialize (Hx x eq_refl); try (specialize (Hx Hd')); try done;
    try (destruct Hp as [Hp|Hp]); rewrite Hp in *; done.
Qed.
Lemma step_dead e s s' : step e s = Some s' -> dead_exited s -> dead_exited s'.
Proof.
  intros E Hd. apply step_tasks in E. unfold dead_exited. destruct (actor e) as [t|]; [|by rewrite E].
  destruct E as (y & -> & Hn). apply map_Forall_insert_2; [|done].
  apply (next_dead _ _ Hn). intros x Hx. exact (Hd t x Hx).
Qed.

(** ** The invariant *)
Definition clear_when_new (s : tstate) : Prop :=
  forall t x vm, tasks s !! t = Some x -> pt x = Fresh vm \/ pt x = Allocated vm -> vm ∉ dirty s.
(** A stack without references is on its way out, or its last reference was
    put too early; only the stack of a dead task is released. *)
Definition stack_ok (lost : gset Z) (x : task_stack) : Prop :=
  match pt x with
  | Running vm | Exited vm => stack_refcount x = 0 -> vm ∈ lost
  | Releasing vm i => dead x = true
  | _ => True
  end.
Definition release_ok (s : tstate) : Prop :=
  map_Forall (fun _ x => stack_ok (early s) x) (tasks s) /\ Forall (fun vm => vm ∈ early s) (abandoned s).
Definition inv (s : tstate) : Prop :=
  owned_once s /\ dead_exited s /\ (charges_exact s /\ kb_exact s) /\ clear_when_new s /\ release_ok s.

Lemma owners_nodup s : owned_once s -> NoDup (owners s).
Proof.
  intros [Ho _]. assert (NoDup (held_or_lost s)) as Hn by (rewrite Ho; apply NoDup_elements).
  unfold held_or_lost in Hn. by apply NoDup_app in Hn as [? _].
Qed.
(** A stack in the hands of two tasks would be owned twice. *)
Lemma owned_by_one_task s t t' x x' vm :
  owned_once s -> tasks s !! t = Some x -> tasks s !! t' = Some x' ->
  area (pt x) = Some vm -> area (pt x') = Some vm -> t = t'.
Proof.
  intros Ho Ht Ht' Ha Ha'. destruct (decide (t = t')) as [|Hne]; [done|]. exfalso.
  assert (NoDup (owners s)) as Hnd by (by apply owners_nodup). revert Hnd.
  unfold owners. rewrite (areas_by_at area _ _ _ Ht), Ha.
  rewrite (areas_by_at area (delete t (tasks s)) t' x') by (by rewrite lookup_delete_ne).
  rewrite Ha'. simpl. rewrite !NoDup_app. intros (_ & _ & Hn). apply NoDup_cons in Hn as [Hn _]. set_solver.
Qed.

Ltac same_accounts Ht Hs :=
  eapply accounts_set_task; [exact Ht| | |reflexivity|reflexivity|reflexivity|exact Hs]; simpl;
  repeat match goal with H : pt ?x = _ |- context [pt ?x] => rewrite H end; done.
Lemma put_accounts t x vm s :
  dead_exited s -> tasks s !! t = Some x -> pt x = Running vm \/ pt x = Exited vm ->
  charges_exact s /\ kb_exact s -> charges_exact (put_task_stack t x vm s) /\ kb_exact (put_task_stack t x vm s).
Proof.
  intros Hd Ht Hp Hs. unfold put_task_stack, release_task_stack, at_point. simpl. rewrite !lookup_insert_eq. simpl.
  destruct (_ =? 0); [|same_accounts Ht Hs]. destruct (dead x) eqn:E; [|same_accounts Ht Hs].
  pose proof (Hd t x Ht E) as Hx. destruct Hp as [Hp|Hp]; rewrite Hp in Hx; [done|].
  eapply (accounts_set_task t x); [exact Ht| | |simpl; rewrite insert_insert_eq; reflexivity|reflexivity|reflexivity|exact Hs]; simpl; by rewrite Hp.
Qed.
Lemma step_accounts e s s' :
  dead_exited s -> step e s = Some s' -> charges_exact s /\ kb_exact s -> charges_exact s' /\ kb_exact s'.
Proof.
  intros Hd E Hs. destruct e; step_inv E.
  - destruct Hs as [Hc Hk]. split; unfold charges_exact, kb_exact in *; simpl.
    + intros vm p. by rewrite Hc, areas_by_insert by done.
    + by rewrite Hk, areas_by_insert by done.
  - unfold scan_slot. case_match; point_of H; same_accounts H Hs.
  - unfold at_point. simpl. rewrite H. same_accounts H Hs.
  - unfold at_point. simpl. rewrite H. same_accounts H Hs.
  - eapply finish_accounts; eauto; by rewrite H0.
  - eapply finish_accounts; eauto; by rewrite H0.
  - by eapply account_accounts.
  - by eapply accounts_frame.
  - same_accounts H Hs.
  - by eapply exit_accounts.
  - same_accounts H Hs.
  - eapply put_accounts; eauto.
  - eapply put_accounts; eauto.
  - unfold free_thread_stack_step, try_release_slot, thread_stack_delayed_free, at_point.
    destruct (i <? 2); [destruct (cached_stacks s !! (cpu, i))|]; simpl; rewrite H; same_accounts H Hs.
  - same_accounts H Hs.
  - same_accounts H Hs.
  - apply (accounts_frame s); [apply callback_frame..|done].
  - injection E as <-. unfold free_vm_stack_cache.
    apply (accounts_frame (free_slot cpu 0 s)); [apply free_slot_frame..|].
    apply (accounts_frame s); [apply free_slot_frame..|done].
Qed.
Lemma clear_insert t y s s' :
  tasks s' = <[t := y]> (tasks s) -> dirty s' ⊆ dirty s ->
  (forall vm, pt y = Fresh vm \/ pt y = Allocated vm -> vm ∉ dirty s') -> clear_when_new s -> clear_when_new s'.
Proof.
  intros Ht Hd Hy Hs t' x vm. rewrite Ht, lookup_insert_Some. intros [[<- <-]|[_ Hx]] Hp; [by apply Hy|].
  specialize (Hs t' x vm Hx Hp). set_solver.
Qed.
Lemma clear_frame s s' : tasks s' = tasks s -> dirty s' ⊆ dirty s -> clear_when_new s -> clear_when_new s'.
Proof. intros Ht Hd Hs t x vm. rewrite Ht. intros Hx Hp. specialize (Hs t x vm Hx Hp). set_solver. Qed.
Lemma finish_clear charge (reused : bool) t vm s x :
  tasks s !! t = Some x -> pt x = (if reused then Reused vm else Fresh vm) -> clear_when_new s ->
  clear_when_new (finish_alloc charge reused t vm s).
Proof.
  intros Ht Hp Hs. unfold finish_alloc. set (s1 := if reused then _ else _).
  assert (tasks s1 = tasks s /\ dirty s1 ⊆ dirty s /\ vm ∉ dirty s1) as (T & D & C).
  { subst s1. destruct reused; simpl in *; [split_and!; [done|set_solver..]|]. split_and!; [done..|].
    apply (Hs t x); [done|by left]. }
  clearbody s1. destruct (memcg_charge_kernel_stack _ _ _) as [r l]. unfold at_point.
  destruct (negb _); simpl; rewrite T, Ht; (eapply clear_insert; [simpl; by rewrite T|simpl| |exact Hs]).
  - set_solver.
  - intros vm'. simpl. naive_solver.
  - done.
  - intros vm'. simpl. intros [?|[= <-]]; done.
Qed.
Ltac still_clear s Hs := eapply (clear_insert _ _ s); [reflexivity|simpl; set_solver| |exact Hs]; simpl; intros ?;
  repeat match goal with H : pt ?x = _ |- context [pt ?x] => rewrite H end; try naive_solver.
Lemma put_clear t x vm s :
  tasks s !! t = Some x -> pt x = Running vm \/ pt x = Exited vm -> clear_when_new s ->
  clear_when_new (put_task_stack t x vm s).
Proof.
  intros Ht Hp Hs. unfold put_task_stack, release_task_stack, at_point. simpl. rewrite !lookup_insert_eq. simpl.
  destruct (_ =? 0); [destruct (dead x)|];
    (eapply (clear_insert t _ s); [simpl; rewrite ?insert_insert_eq; reflexivity|done| |exact Hs]); simpl; intros vm';
    destruct Hp as [Hp|Hp]; rewrite ?Hp; naive_solver.
Qed.
Lemma step_clear e s s' : owned_once s -> step e s = Some s' -> clear_when_new s -> clear_when_new s'.
Proof.
  intros Ho E Hs. destruct e; step_inv E.
  - still_clear s Hs.
  - unfold scan_slot. case_match; point_of H; still_clear s Hs.
  - unfold at_point. simpl. rewrite H. eapply (clear_insert _ _ s); [reflexivity|simpl; set_solver| |exact Hs].
    simpl. intros vm [[= <-]|]; [set_solver|done].
  - unfold at_point. simpl. rewrite H. still_clear s Hs.
  - by eapply finish_clear.
  - by eapply finish_clear.
  - still_clear s Hs.
  - intros t' y vm' Hy Hp. simpl in *. pose proof (Hs t' y vm' Hy Hp). destruct (decide (vm' = vm)) as [->|]; [|set_solver].
    assert (t = t') as <- by (eapply owned_by_one_task; [done..|by rewrite H0|by destruct Hp as [->| ->]]). naive_solver congruence.
  - eapply (clear_insert _ _ s); [reflexivity|done| |exact Hs]. intros vm. apply (Hs t x vm H).
  - unfold at_point. simpl. rewrite H. still_clear s Hs.
  - still_clear s Hs.
  - eapply put_clear; [done|by left|]. by apply (clear_frame s).
  - eapply put_clear; [done|by right|]. by apply (clear_frame s).
  - unfold free_thread_stack_step, try_release_slot, thread_stack_delayed_free, at_point.
    destruct (i <? 2); [destruct (cached_stacks s !! (cpu, i))|]; simpl; rewrite H; still_clear s Hs.
  - still_clear s Hs.
  - still_clear s Hs.
  - apply (clear_frame s); [apply callback_frame..|done].
  - injection E as <-. unfold free_vm_stack_cache.
    apply (clear_frame (free_slot cpu 0 s)); [apply free_slot_frame..|].
    apply (clear_frame s); [apply free_slot_frame..|done].
Qed.
Lemma stack_ok_more l l' x : l ⊆ l' -> stack_ok l x -> stack_ok l' x.
Proof. unfold stack_ok. intros Hl. destruct (pt x); naive_solver. Qed.
Lemma release_insert t y s s' :
  tasks s' = <[t := y]> (tasks s) -> early s ⊆ early s' -> abandoned s' = abandoned s ->
  stack_ok (early s') y -> release_ok s -> release_ok s'.
Proof.
  intros Ht He Ha Hy [H1 H2]. split; rewrite ?Ht, ?Ha.
  - apply map_Forall_insert_2; [done|]. eapply map_Forall_impl; [exact H1|]. intros ? x. by apply stack_ok_more.
  - eapply Forall_impl; [exact H2|]. set_solver.
Qed.
Lemma release_frame s s' :
  tasks s' = tasks s -> early s' = early s -> abandoned s' = abandoned s -> release_ok s -> release_ok s'.
Proof. unfold release_ok. by intros -> -> ->. Qed.
Lemma put_release t x vm s :
  tasks s !! t = Some x -> pt x = Running vm \/ pt x = Exited vm -> release_ok s ->
  release_ok (put_task_stack t x vm (note_early x vm s)).
Proof.
  intros Ht Hp Hs. unfold put_task_stack, release_task_stack, at_point. simpl. rewrite !lookup_insert_eq. simpl.
  destruct (Z.eqb_spec (stack_refcount x - 1) 0) as [Hr|Hr]; [destruct (dead x) eqn:Hd|];
    (eapply (release_insert t); [simpl; rewrite ?insert_insert_eq; reflexivity|simpl; by case_match; set_solver|done| |exact Hs]); simpl.
  - done.
  - rewrite Hd. replace (stack_refcount x =? 1) with true by lia. unfold stack_ok. simpl.
    destruct Hp as [-> | ->]; set_solver.
  - unfold stack_ok. simpl. destruct Hp as [-> | ->]; lia.
Qed.
Lemma finish_release charge reused t vm s x :
  tasks s !! t = Some x -> release_ok s -> release_ok (finish_alloc charge reused t vm s).
Proof.
  intros Ht Hs. unfold finish_alloc. destruct reused; (destruct (memcg_charge_kernel_stack _ _ _) as [r l]);
    (destruct (negb _); point_of Ht; by eapply (release_insert t); [reflexivity|simpl|..]).
Qed.
Lemma free_release t x s :
  tasks s !! t = Some x -> pt x = NoStack \/ (exists vm, pt x = Exited vm /\ stack_refcount x = 0) ->
  release_ok s -> release_ok (free_task t x s).
Proof.
  intros Ht Hp [H1 H2]. pose proof (H1 _ _ Ht) as Hx. unfold stack_ok in Hx. split; simpl.
  - by apply map_Forall_insert_2.
  - apply Forall_app. split; [done|]. destruct Hp as [->|(vm & Hp & Hr)]; simpl; [constructor|].
    rewrite Hp in *. repeat constructor. auto.
Qed.
Lemma callback_release k cpu vm i s :
  let s' := thread_stack_free_rcu_step k cpu vm i s in early s' = early s /\ abandoned s' = abandoned s.
Proof.
  unfold thread_stack_free_rcu_step, try_release_slot. destruct i as [i|]; [|done].
  by destruct (i <? _); [destruct (cached_stacks s !! (cpu, i))|].
Qed.
Lemma free_slot_release cpu i s : early (free_slot cpu i s) = early s /\ abandoned (free_slot cpu i s) = abandoned s.
Proof. unfold free_slot. by case_match. Qed.
Ltac still_ok Hs := eapply release_insert; [reflexivity|done|done| |exact Hs].
Lemma step_release e s s' : step e s = Some s' -> release_ok s -> release_ok s'.
Proof.
  intros E Hs. pose proof (proj1 Hs) as H1'. destruct e; step_inv E;
    try match goal with H : tasks s !! _ = Some _ |- _ => pose proof (H1' _ _ H) as Hx end.
  - by still_ok Hs.
  - unfold scan_slot. case_match; point_of H; by still_ok Hs.
  - unfold at_point. simpl. rewrite H. by still_ok Hs.
  - unfold at_point. simpl. rewrite H. by still_ok Hs.
  - by eapply finish_release.
  - by eapply finish_release.
  - by still_ok Hs.
  - done.
  - still_ok Hs. unfold stack_ok in *. simpl. destruct (pt x); try done; lia.
  - unfold at_point. simpl. rewrite H. still_ok Hs. unfold stack_ok in Hx. by rewrite H0 in Hx.
  - still_ok Hs. unfold stack_ok in *. by rewrite H0 in Hx.
  - eapply put_release; eauto.
  - eapply put_release; eauto.
  - unfold stack_ok in Hx. rewrite H0 in Hx. unfold free_thread_stack_step, try_release_slot, thread_stack_delayed_free, at_point.
    destruct (i <? 2); [destruct (cached_stacks s !! (cpu, i))|]; simpl; rewrite H; by still_ok Hs.
  - apply free_release; auto.
  - apply free_release; [done| |done]. right. eexists. split; [done|lia].
  - apply (release_frame s); [apply callback_frame|apply callback_release..|done].
  - injection E as <-. unfold free_vm_stack_cache.
    apply (release_frame (free_slot cpu 0 s)); [apply free_slot_frame|apply free_slot_release..|].
    apply (release_frame s); [apply free_slot_frame|apply free_slot_release..|done].
Qed.
Lemma reachable_inv s : reachable s -> inv s.
Proof.
  induction 1 as [|e s s' _ (Ho & Hd & Ha & Hc & Hr) E].
  - split_and!; try done. intros vm p. by destruct (bool_decide _).
  - split_and!; eauto using step_once, step_dead, step_clear, step_release; eapply step_accounts; eauto.
Qed.
Lemma times_nodup vm l : NoDup l -> times vm l = if bool_decide (vm ∈ l) then 1 else 0.
Proof.
  induction 1 as [|x l Hx Hl IH]; [done|]. rewrite times_cons, IH. unfold one.
  destruct (decide (x = vm)) as [->|Hne].
  - rewrite bool_decide_true by done. rewrite (bool_decide_false (vm ∈ l)) by done. by rewrite bool_decide_true by set_solver.
  - rewrite (bool_decide_false (x = vm)) by done. simpl. by erewrite bool_decide_ext; [done|set_solver].
Qed.
(** A charged stack is owned by its task. *)
Lemma charged_sublist m : areas_by charged_at m `sublist_of` areas_by area m.
Proof.
  unfold areas_by. induction (map_to_list m) as [|[t x] l IH]; simpl; [done|].
  destruct (pt x); simpl; try done; try (by constructor).
Qed.
Lemma charged_nodup s : owned_once s -> NoDup (areas_by charged_at (tasks s)).
Proof.
  intros Ho. eapply sublist_NoDup; [|apply charged_sublist].
  pose proof (owners_nodup s Ho) as Hn.
  unfold owners in Hn. apply NoDup_app in Hn as (_ & _ & Hn). by apply NoDup_app in Hn as (? & _).
Qed.

(** ** Theorems *)

(** C37: However task creation, exit, the last references to stacks and tasks, RCU
    callbacks and CPU hot-unplug interleave: no two of the owners of stacks
    (a slot of one CPU's cache, a task, a pending callback) hold the same one,
    and none is freed twice; every stack area that vmalloc gave out has an
    owner, except those whose task was freed after the last reference to the
    stack had been put before TASK_DEAD (the stack that [release_task_stack]
    leaks with a warning), so that none is leaked when there are no such
    references; and only the stack of a dead task is released. *)
Theorem stacks_owned_once s :
  reachable s ->
  NoDup (owners s) /\ bad_free s = false /\
  (forall vm, vm ∈ live s <-> vm ∈ owners s \/ vm ∈ abandoned s) /\
  (forall vm, vm ∈ abandoned s -> vm ∈ early s /\ vm ∉ owners s) /\
  (early s = ∅ -> forall vm, vm ∈ live s <-> vm ∈ owners s) /\
  (forall t x vm i, tasks s !! t = Some x -> pt x = Releasing vm i -> dead x = true) /\
  (forall t t' x x' vm, tasks s !! t = Some x -> tasks s !! t' = Some x' ->
     area (pt x) = Some vm -> area (pt x') = Some vm -> t = t').
Proof.
  intros (Ho & _ & _ & _ & Hr & Ha)%reachable_inv. rewrite Forall_forall in Ha.
  assert (forall vm, vm ∈ live s <-> vm ∈ owners s \/ vm ∈ abandoned s) as Hl.
  { intros vm. rewrite <- elem_of_elements, <- (proj1 Ho). apply elem_of_app. }
  split_and!; [by apply owners_nodup|apply Ho|done| | | |].
  - intros vm Hv. split; [by apply Ha|]. assert (NoDup (held_or_lost s)) as Hn by (rewrite (proj1 Ho); apply NoDup_elements).
    unfold held_or_lost in Hn. apply NoDup_app in Hn as (_ & Hn & _). intros Hin. by eapply Hn.
  - intros He vm. rewrite Hl. split; [|by left]. intros [?|Hv%Ha]; [done|]. rewrite He in Hv. set_solver.
  - intros t x vm i Ht Hp. specialize (Hr _ _ Ht). unfold stack_ok in Hr. by rewrite Hp in Hr.
  - intros. by eapply owned_by_one_task.
Qed.

(** At every moment each page of a stack is charged to a memory control
    group exactly once while a task has the stack, from the end of its
    allocation to its exit, and not at all otherwise (in a cache, waiting to
    be freed, after a failed allocation); NR_KERNEL_STACK_KB is 16 KB for each
    task in that state that was accounted; and a stack just handed to a new task
    holds no data of a former user. *)
Theorem stack_accounting_exact s :
  reachable s ->
  (forall vm p, charges s (vm, p) =
     if bool_decide (p ∈ stack_pages /\ vm ∈ areas_by charged_at (tasks s)) then 1 else 0) /\
  stack_kb s = 16 * Z.of_nat (length (areas_by accounted_at (tasks s))) /\
  (forall t x vm, tasks s !! t = Some x -> pt x = Allocated vm -> vm ∉ dirty s).
Proof.
  intros (Ho & Hd & (Hc & Hk) & Hcl & _)%reachable_inv. split_and!; [|done|intros; eapply Hcl; eauto].
  intros vm p. rewrite Hc. destruct (decide (p ∈ stack_pages)) as [Hp|Hp].
  - rewrite (bool_decide_true (p ∈ _)) by done. rewrite times_nodup by (by apply charged_nodup).
    erewrite bool_decide_ext; [done|]. naive_solver.
  - by rewrite !bool_decide_false by naive_solver.
Qed.

(** The steps of [alloc_thread_stack_node] for task [t], and how many are left. *)
Definition alloc_event (t : Z) (e : event) : bool :=
  match e with Scan t' _ | Vmalloc t' _ | Charge t' _ => t =? t' | _ => false end.
Definition alloc_todo (p : point) : Z :=
  match p with Scanning i => NR_CACHED_STACKS - i + 2 | Reused _ | Fresh _ => 1 | _ => 0 end.
Definition own_steps (t : Z) (es : list event) : Z := Z.of_nat (length (List.filter (alloc_event t) es)).
(** The loop stays within the slots, and a finished allocation has returned. *)
Definition alloc_state_ok (s : tstate) : Prop :=
  forall t x, tasks s !! t = Some x ->
    (forall i, pt x = Scanning i -> 0 <= i <= NR_CACHED_STACKS) /\
    (alloc_todo (pt x) = 0 -> exists r, alloc_ret s !! t = Some r /\ (r = 0 \/ r = - ENOMEM)).

Lemma todo_pos s t x : alloc_state_ok s -> tasks s !! t = Some x -> 0 <= alloc_todo (pt x).
Proof. intros H Ht. destruct (H t x Ht) as [Hi _]. destruct (pt x); simpl; try lia. specialize (Hi _ eq_refl). lia. Qed.

(** What a step does to the allocation of one task, [t]. *)
Definition alloc_progress (t : Z) (own : bool) (s s' : tstate) : Prop :=
  forall x, tasks s !! t = Some x -> exists x', tasks s' !! t = Some x' /\
    ((forall i, pt x = Scanning i -> 0 <= i <= NR_CACHED_STACKS) -> forall i, pt x' = Scanning i -> 0 <= i <= NR_CACHED_STACKS) /\
    (if own then alloc_todo (pt x') <= alloc_todo (pt x) - 1 /\
                 (alloc_todo (pt x') = 0 -> alloc_ret s' !! t = Some 0 \/ alloc_ret s' !! t = Some (- ENOMEM))
     else alloc_todo (pt x') = alloc_todo (pt x) /\ alloc_ret s' !! t = alloc_ret s !! t).
(** Another task's step. *)
Lemma progress_other t t' y s s' :
  t <> t' -> tasks s' = <[t' := y]> (tasks s) -> alloc_ret s' !! t = alloc_ret s !! t -> alloc_progress t false s s'.
Proof. intros Hne Ht Hr x Hx. exists x. rewrite Ht, lookup_insert_ne by done. done. Qed.
(** A step that leaves the point of the allocation alone. *)
Lemma progress_same t x y s s' :
  tasks s !! t = Some x -> tasks s' = <[t := y]> (tasks s) -> alloc_ret s' = alloc_ret s ->
  alloc_todo (pt y) = alloc_todo (pt x) -> (forall i, pt y = Scanning i -> pt x = Scanning i) ->
  forall t', alloc_progress t' false s s'.
Proof.
  intros Hx Ht Hr Ha Hi t' z Hz. rewrite Ht, Hr. destruct (decide (t' = t)) as [->|].
  - exists y. rewrite lookup_insert_eq. assert (z = x) as -> by congruence. split_and!; [done| |done..]. intros H i E. eauto.
  - exists z. by rewrite lookup_insert_ne.
Qed.
Lemma progress_frame t s s' : tasks s' = tasks s -> alloc_ret s' = alloc_ret s -> alloc_progress t false s s'.
Proof. intros Ht Hr x Hx. exists x. by rewrite Ht, Hr. Qed.
Lemma put_ret t x vm s : alloc_ret (put_task_stack t x vm s) = alloc_ret s.
Proof. unfold put_task_stack, release_task_stack, at_point. simpl. rewrite !lookup_insert_eq. simpl. by repeat case_match. Qed.
Lemma callback_ret k cpu vm i s : alloc_ret (thread_stack_free_rcu_step k cpu vm i s) = alloc_ret s.
Proof.
  unfold thread_stack_free_rcu_step, try_release_slot. destruct i as [i|]; [|done].
  by destruct (i <? _); [destruct (cached_stacks s !! (cpu, i))|].
Qed.
Lemma free_slot_ret cpu i s : alloc_ret (free_slot cpu i s) = alloc_ret s.
Proof. unfold free_slot. by case_match. Qed.

(** The task's own step, to point [p]. *)
Lemma progress_own t x p s s' r :
  tasks s !! t = Some x -> tasks s' = <[t := with_pt p x]> (tasks s) ->
  alloc_ret s' = (if alloc_todo p =? 0 then <[t := r]> (alloc_ret s) else alloc_ret s) ->
  r = 0 \/ r = - ENOMEM -> alloc_todo p <= alloc_todo (pt x) - 1 ->
  (forall i, p = Scanning i -> 0 <= i <= NR_CACHED_STACKS) ->
  forall t', alloc_progress t' (t' =? t) s s'.
Proof.
  intros Hx Ht Hr Hv Ha Hi t'. destruct (Z.eqb_spec t' t) as [->|Hne].
  - intros z Hz. assert (z = x) as -> by congruence. exists (with_pt p x). rewrite Ht, lookup_insert_eq. split_and!; [done..|].
    simpl. intros E. rewrite Hr, E. simpl. rewrite lookup_insert_eq. destruct Hv as [-> | ->]; auto.
  - eapply progress_other; [done|done|]. rewrite Hr. destruct (_ =? 0); [|done]. by rewrite lookup_insert_ne.
Qed.
Lemma finish_progress charge reused t vm s x :
  tasks s !! t = Some x -> pt x = (if reused : bool then Reused vm else Fresh vm) ->
  forall t', alloc_progress t' (t' =? t) s (finish_alloc charge reused t vm s).
Proof.
  intros Ht Hp t'. assert (alloc_todo (pt x) = 1) as Hd by (rewrite Hp; by destruct reused).
  unfold finish_alloc. destruct reused; (destruct (memcg_charge_kernel_stack _ _ _) as [r l]);
    (destruct (negb _); point_of Ht;
     [eapply (progress_own t x NoStack _ _ (- ENOMEM))|eapply (progress_own t x (Allocated vm) _ _ 0)]); auto; simpl; done || lia.
Qed.
Lemma put_progress t x vm s :
  tasks s !! t = Some x -> pt x = Running vm \/ pt x = Exited vm -> forall t', alloc_progress t' false s (put_task_stack t x vm s).
Proof.
  intros Ht Hp. pose proof (put_ret t x vm s) as Hr. revert Hr.
  unfold put_task_stack, release_task_stack, at_point. simpl. rewrite !lookup_insert_eq. simpl. intros Hr.
  destruct (_ =? 0); [destruct (dead x)|];
    (eapply (progress_same t x); [exact Ht|simpl; rewrite ?insert_insert_eq; reflexivity|done| |]); simpl;
    destruct Hp as [Hp|Hp]; rewrite ?Hp; done.
Qed.
Lemma progress_note t b x vm s s' : alloc_progress t b (note_early x vm s) s' -> alloc_progress t b s s'.
Proof. done. Qed.
Lemma step_progress e s s' t :
  step e s = Some s' -> alloc_state_ok s -> alloc_progress t (alloc_event t e) s s'.
Proof.
  intros E Hok. destruct e; simpl; step_inv E.
  - destruct (decide (t = t0)) as [->|Hne]; [intros y Hy; congruence|]. by eapply progress_other.
  - pose proof (proj1 (Hok _ _ H) _ H0). unfold scan_slot. case_match; point_of H.
    + eapply (progress_own _ x (Reused z) _ _ 0); auto; rewrite ?H0; simpl; lia || done.
    + eapply (progress_own _ x (Scanning (i + 1)) _ _ 0); auto; rewrite ?H0; simpl; try lia.
      * destruct (Z.eqb_spec (2 - (i + 1) + 2) 0); [lia|done].
      * intros j [= <-]. lia.
  - pose proof (proj1 (Hok _ _ H) _ H0). unfold at_point. simpl. rewrite H.
    eapply (progress_own _ x (Fresh z) _ _ 0); auto; rewrite ?H0; simpl; lia || done.
  - pose proof (proj1 (Hok _ _ H) _ H0). unfold at_point. simpl. rewrite H.
    eapply (progress_own _ x NoStack _ _ (- ENOMEM)); auto; rewrite ?H0; simpl; lia || done.
  - by apply (finish_progress _ true _ _ _ x).
  - by apply (finish_progress _ false _ _ _ x).
  - eapply progress_same; [done..| |]; rewrite ?H0; done.
  - by apply progress_frame.
  - eapply progress_same; [done..| |]; done.
  - unfold at_point. simpl. rewrite H. eapply progress_same; [done..| |]; rewrite ?H0; done.
  - eapply progress_same; [done..| |]; rewrite ?H0; done.
  - eapply progress_note, put_progress; eauto.
  - eapply progress_note, put_progress; eauto.
  - unfold free_thread_stack_step, try_release_slot, thread_stack_delayed_free, at_point.
    destruct (i <? 2); [destruct (cached_stacks s !! (cpu, i))|]; simpl; rewrite H;
      (eapply progress_same; [done..| |]; rewrite ?H0; done).
  - eapply progress_same; [done..| |]; rewrite ?H0; done.
  - eapply progress_same; [done..| |]; rewrite ?H0; done.
  - apply progress_frame; [apply callback_frame|apply callback_ret].
  - injection E as <-. unfold free_vm_stack_cache. apply progress_frame.
    + etransitivity; apply free_slot_frame.
    + by rewrite !free_slot_ret.
Qed.
Lemma step_alloc_ok e s s' : step e s = Some s' -> alloc_state_ok s -> alloc_state_ok s'.
Proof.
  intros E Hok t y Hy. pose proof (step_progress e s s' t E Hok) as Hp.
  destruct (tasks s !! t) as [x|] eqn:Hx.
  - destruct (Hp x Hx) as (x' & Hx' & Hi & Ha). assert (x' = y) as -> by congruence.
    destruct (Hok t x Hx) as [Hi0 Hr0]. split; [by apply Hi|]. intros H0. destruct (alloc_event t e).
    + destruct Ha as [_ [H|H]%(fun f => f H0)]; eauto.
    + destruct Ha as [H1 ->]. apply Hr0. by rewrite <- H1.
  - apply step_tasks in E. destruct (actor e) as [t'|]; [|rewrite E in Hy; congruence].
    destruct E as (z & E & Hn). rewrite E in Hy. apply lookup_insert_Some in Hy as [[-> <-]|[_ ?]]; [|congruence].
    rewrite Hx in Hn. inversion Hn; subst. simpl. split; [intros i [= <-]; lia|lia].
Qed.
Lemma reachable_alloc_ok s : reachable s -> alloc_state_ok s.
Proof. induction 1; [intros t x; simpl; by rewrite lookup_empty|eauto using step_alloc_ok]. Qed.

(** C38: Allocating a stack is wait-free: whatever other tasks, callbacks and
    CPUs do in between, a task needs at most four steps of its own, and as
    long as it has not finished one of them is possible; when it has finished,
    [alloc_thread_stack_node] has returned 0 or -ENOMEM. *)
Theorem stack_alloc_wait_free t x es s s' :
  reachable s -> tasks s !! t = Some x -> pt x = Scanning 0 -> exec es s = Some s' ->
  own_steps t es <= 4 /\
  exists x', tasks s' !! t = Some x' /\
    (alloc_todo (pt x') = 0 /\ (exists r, alloc_ret s' !! t = Some r /\ (r = 0 \/ r = - ENOMEM)) \/
     exists e s'', alloc_event t e = true /\ step e s' = Some s'').
Proof.
  intros Hs Hx Hp E. assert (own_steps t es <= alloc_todo (pt x) /\ exists x', tasks s' !! t = Some x') as [Hb [x' Hx']].
  { clear Hp. revert s x Hs Hx E. induction es as [|e es IH]; intros s x Hs Hx E; simpl in E.
    - injection E as <-. split; [|eauto]. unfold own_steps. simpl. eapply todo_pos; eauto using reachable_alloc_ok.
    - destruct (step e s) as [s1|] eqn:E1; [|done].
      destruct (step_progress e s s1 t E1 (reachable_alloc_ok s Hs) x Hx) as (x1 & Hx1 & _ & Ha).
      destruct (IH s1 x1 (reach_step _ _ _ Hs E1) Hx1 E) as [Hb ?]. split; [|done].
      unfold own_steps in *. simpl. destruct (alloc_event t e); simpl in *; lia. }
  rewrite Hp in Hb. simpl in Hb. split; [lia|]. exists x'. split; [done|].
  assert (alloc_state_ok s') as Hok by eauto using reachable_alloc_ok, exec_reachable.
  destruct (Hok t x' Hx') as [Hi Hr].
  destruct (pt x') as [|i|vm|vm|vm|vm|vm|vm i|] eqn:Hpt; try (by left; auto); right.
  - destruct (Z.ltb_spec i 2).
    + exists (Scan t 0). simpl. unfold on_task. rewrite Hx', Hpt, Z.eqb_refl. replace (i <? 2) with true by lia. eauto.
    + exists (Vmalloc t None). simpl. unfold on_task. rewrite Hx', Hpt, Z.eqb_refl. replace (i <? 2) with false by lia. simpl. eauto.
  - exists (Charge t (fun _ => 0)). simpl. unfold on_task. rewrite Hx', Hpt, Z.eqb_refl. eauto.
  - exists (Charge t (fun _ => 0)). simpl. unfold on_task. rewrite Hx', Hpt, Z.eqb_refl. eauto.
Qed.

Module Demo.
Definition ok (_ : Z) : Z := 0.
(** Task 1 lives and dies on CPU 0 and leaves its stack in the cache; task 3
    takes it from there while task 2 is in the middle of its scan. *)
Definition trace : list event :=
  [Begin 1; Scan 1 0; Scan 1 0; Vmalloc 1 (Some 100); Charge 1 ok; Account 1; Use 1; Begin 2; Scan 2 0;
   GetStack 1; Exit 1; Die 1; PutStack 1; PutStack 1; Release 1 0; Begin 3; Scan 3 0; Charge 3 ok; Account 3].
Definition s1 : tstate := default init (exec trace init).
Definition rest : list event := [Use 3; Scan 2 1; CpuDown 0; Vmalloc 2 (Some 200); Charge 2 (fun p => if p =? 2 then - ENOMEM else 0)].
Definition runs (es : list event) (s : tstate) : bool := match exec es s with Some _ => true | None => false end.
Lemma runs_exec es s : runs es s = true -> exec es s = Some (default init (exec es s)).
Proof. unfold runs. by destruct (exec es s). Qed.
Lemma s1_reachable : reachable s1.
Proof. eapply exec_reachable; [apply reach_init|]. apply runs_exec. vm_compute. reflexivity. Qed.
Definition s0 : tstate := default init (exec (take 8 trace) init).
Lemma s0_reachable : reachable s0.
Proof. eapply exec_reachable; [apply reach_init|]. apply runs_exec. vm_compute. reflexivity. Qed.

(** Task 1 is gone and its stack serves task 3; the last reference to the stack
    of task 4 is put before it is dead, and the stack is lost with the task. *)
Definition s3 : tstate := default init (exec
  (trace ++ [FreeTask 1; CpuDown 0; Begin 4; Scan 4 0; Scan 4 0; Vmalloc 4 (Some 300); Charge 4 ok; Account 4; Exit 4; PutStack 4;
             Die 4; FreeTask 4]) init).
Lemma s3_reachable : reachable s3.
Proof. eapply exec_reachable; [apply reach_init|]. apply runs_exec. vm_compute. reflexivity. Qed.
Lemma stacks_owned_once_witness : owners s3 = [100] /\ abandoned s3 = [300] /\ NoDup (owners s3) /\ bad_free s3 = false /\
  (forall vm, vm ∈ live s3 <-> vm ∈ [100; 300]) /\ 300 ∈ early s3.
Proof.
  assert (owners s3 = [100]) as E1 by (vm_compute; reflexivity). assert (abandoned s3 = [300]) as E2 by (vm_compute; reflexivity).
  destruct (stacks_owned_once s3 s3_reachable) as (H1 & H2 & H3 & H4 & _).
  split; [exact E1|]. split; [exact E2|]. split; [exact H1|]. split; [exact H2|]. split.
  - intros vm. rewrite H3, E1, E2, <- elem_of_app. reflexivity.
  - apply H4. rewrite E2. constructor.
Defined.
Lemma stack_accounting_exact_witness : charges s1 (100, 2) = 1 /\ charges s1 (100, 4) = 0 /\ stack_kb s1 = 16.
Proof.
  destruct (stack_accounting_exact s1 s1_reachable) as (Hc & Hk & _). rewrite !Hc, Hk. split_and!; vm_compute; reflexivity.
Defined.
Definition s2 : tstate := default init (exec (drop 8 trace ++ rest) s0).
Lemma stack_alloc_wait_free_witness :
  own_steps 2 (drop 8 trace ++ rest) <= 4 /\ alloc_ret s2 !! 2 = Some (- ENOMEM).
Proof.
  split; [|vm_compute; reflexivity].
  apply (stack_alloc_wait_free 2 (TStack (Scanning 0) 0 false) (drop 8 trace ++ rest) s0 s2);
    [apply s0_reachable|vm_compute; reflexivity|reflexivity|apply runs_exec; vm_compute; reflexivity].
Defined.
End Demo.
