(* ===== verification/Open.v ===== *)
(** * Opening and closing files

    open.c 39-40 and 1168-1587: the flags of [open(2)] and [openat2(2)], the
    system calls that open and close descriptors, and [open_call_counter].
    The path walk ([do_filp_open]), file references and the allocator of
    descriptors are interfaces over a world of type [W]. *)
From S2P Require Import Prelude Task.

Abbreviation O_ACCMODE := 3 (only parsing).
Abbreviation O_WRONLY := 1 (only parsing).
Abbreviation O_RDWR := 2 (only parsing).
Abbreviation O_CREAT := 64 (only parsing).
Abbreviation O_EXCL := 128 (only parsing).
Abbreviation O_NOCTTY := 256 (only parsing).
Abbreviation O_TRUNC := 512 (only parsing).
Abbreviation O_APPEND := 1024 (only parsing).
Abbreviation O_NONBLOCK := 2048 (only parsing).
Abbreviation O_DSYNC := 4096 (only parsing).
Abbreviation FASYNC := 8192 (only parsing).
Abbreviation O_DIRECT := 16384 (only parsing).
Abbreviation O_LARGEFILE := 32768 (only parsing).
Abbreviation O_DIRECTORY := 65536 (only parsing).
Abbreviation O_NOFOLLOW := 131072 (only parsing).
Abbreviation O_NOATIME := 262144 (only parsing).
Abbreviation O_CLOEXEC := 524288 (only parsing).
Abbreviation __O_SYNC := 1048576 (only parsing).
Abbreviation O_PATH := 2097152 (only parsing).
Abbreviation __O_TMPFILE := 4194304 (only parsing).
Abbreviation __FMODE_NONOTIFY := 67108864 (only parsing).
(** The union of the flags above, FMODE_NONOTIFY excepted. *)
Abbreviation VALID_OPEN_FLAGS := 8388547 (only parsing).
Abbreviation O_PATH_FLAGS := 2818048 (only parsing).   (** O_DIRECTORY, O_NOFOLLOW, O_PATH, O_CLOEXEC *)

Abbreviation S_IALLUGO := 4095 (only parsing).
Abbreviation S_IFREG := 32768 (only parsing).
Abbreviation MAY_WRITE := 2 (only parsing).
Abbreviation MAY_APPEND := 8 (only parsing).

Abbreviation LOOKUP_FOLLOW := 1 (only parsing).
Abbreviation LOOKUP_DIRECTORY := 2 (only parsing).
Abbreviation LOOKUP_REVAL := 32 (only parsing).
Abbreviation LOOKUP_OPEN := 256 (only parsing).
Abbreviation LOOKUP_CREATE := 512 (only parsing).
Abbreviation LOOKUP_EXCL := 1024 (only parsing).
Abbreviation LOOKUP_EMPTY := 16384 (only parsing).
Abbreviation LOOKUP_NO_SYMLINKS := 65536 (only parsing).
Abbreviation LOOKUP_NO_MAGICLINKS := 131072 (only parsing).
Abbreviation LOOKUP_NO_XDEV := 262144 (only parsing).
Abbreviation LOOKUP_BENEATH := 524288 (only parsing).
Abbreviation LOOKUP_IN_ROOT := 1048576 (only parsing).
Abbreviation LOOKUP_CACHED := 2097152 (only parsing).

Abbreviation RESOLVE_NO_XDEV := 1 (only parsing).
Abbreviation RESOLVE_NO_MAGICLINKS := 2 (only parsing).
Abbreviation RESOLVE_NO_SYMLINKS := 4 (only parsing).
Abbreviation RESOLVE_BENEATH := 8 (only parsing).
Abbreviation RESOLVE_IN_ROOT := 16 (only parsing).
Abbreviation RESOLVE_CACHED := 32 (only parsing).
Abbreviation VALID_RESOLVE_FLAGS := 63 (only parsing).

Abbreviation AT_FDCWD := (-100) (only parsing).
Abbreviation OPEN_HOW_SIZE_VER0 := 24 (only parsing).
Abbreviation CAP_SYS_TTY_CONFIG := 26 (only parsing).

(** ** Flags *)
Record open_how := OpenHow { how_flags : Z; how_mode : Z; how_resolve : Z }.
Record open_flags := OpenFlags {
  open_flag : Z; op_mode : Z; acc_mode : Z; intent : Z; lookup_flags : Z;
}.

Definition WILL_CREATE (flags : Z) : bool := has flags (O_CREAT .| __O_TMPFILE).

Definition build_open_how (flags mode : Z) : open_how :=
  let fl := Z.land flags VALID_OPEN_FLAGS in
  let md := Z.land mode S_IALLUGO in
  (* O_PATH beats everything else. *)
  let fl := if has fl O_PATH then Z.land fl O_PATH_FLAGS else fl in
  let md := if negb (WILL_CREATE fl) then 0 else md in
  OpenHow fl md 0.

(** [ACC_MODE(flags)], the table lookup in a string of four bytes *)
Definition ACC_MODE (flags : Z) : Z :=
  let a := Z.land flags O_ACCMODE in if a =? 0 then 4 else if a =? 1 then 2 else 6.

(** The part of [build_open_flags] behind the checks. *)
Definition open_intent (flags : Z) : Z :=
  let i := if has flags O_PATH then 0 else LOOKUP_OPEN in
  if has flags O_CREAT then set_if (has flags O_EXCL) LOOKUP_EXCL (i .| LOOKUP_CREATE) else i.
Definition open_lookup (flags resolve : Z) : Z :=
  set_if (has resolve RESOLVE_IN_ROOT) LOOKUP_IN_ROOT
  (set_if (has resolve RESOLVE_BENEATH) LOOKUP_BENEATH
  (set_if (has resolve RESOLVE_NO_SYMLINKS) LOOKUP_NO_SYMLINKS
  (set_if (has resolve RESOLVE_NO_MAGICLINKS) LOOKUP_NO_MAGICLINKS
  (set_if (has resolve RESOLVE_NO_XDEV) LOOKUP_NO_XDEV
  (set_if (negb (has flags O_NOFOLLOW)) LOOKUP_FOLLOW
  (set_if (has flags O_DIRECTORY) LOOKUP_DIRECTORY 0)))))).

Definition build_open_flags (how : open_how) : Z + open_flags :=
  let flags := how_flags how in
  let strip := __FMODE_NONOTIFY .| O_CLOEXEC in
  let acc := ACC_MODE flags in
  let flags := Z.ldiff flags strip in
  if outside flags VALID_OPEN_FLAGS then inl (- EINVAL) else
  if outside (how_resolve how) VALID_RESOLVE_FLAGS then inl (- EINVAL) else
  if has (how_resolve how) RESOLVE_BENEATH && has (how_resolve how) RESOLVE_IN_ROOT then inl (- EINVAL) else
  if (if WILL_CREATE flags then outside (how_mode how) S_IALLUGO else negb (how_mode how =? 0))
  then inl (- EINVAL) else
  let mode := if WILL_CREATE flags then how_mode how .| S_IFREG else 0 in
  if has_all flags (O_DIRECTORY .| O_CREAT) then inl (- EINVAL) else
  if has flags __O_TMPFILE && (negb (has flags O_DIRECTORY) || negb (has acc MAY_WRITE))
  then inl (- EINVAL) else
  if has flags O_PATH && outside flags O_PATH_FLAGS then inl (- EINVAL) else
  let acc := if has flags O_PATH then 0 else acc in
  let flags := set_if (has flags __O_SYNC) O_DSYNC flags in
  let opened := flags in
  let acc := set_if (has flags O_TRUNC) MAY_WRITE acc in
  let acc := set_if (has flags O_APPEND) MAY_APPEND acc in
  let intent := open_intent flags in
  let flags := set_if (has flags O_CREAT && has flags O_EXCL) O_NOFOLLOW flags in
  let lookup := open_lookup flags (how_resolve how) in
  if has (how_resolve how) RESOLVE_CACHED then
    if has flags (O_TRUNC .| O_CREAT .| __O_TMPFILE) then inl (- EAGAIN)
    else inr (OpenFlags opened mode acc intent (lookup .| LOOKUP_CACHED))
  else inr (OpenFlags opened mode acc intent lookup).

(** ** Descriptors *)

(** A descriptor is free (not in the table), reserved by an open in progress,
    or refers to an open file. *)
Inductive fdslot := Reserved | Installed (f : Z).
#[global] Instance fdslot_eq_dec : EqDecision fdslot.
Proof. solve_decision. Defined.

Record ostate (W : Type) := OState { ofds : gmap Z fdslot; oworld : W; open_call_counter : Z }.
Arguments OState {W}. Arguments ofds {W}. Arguments oworld {W}. Arguments open_call_counter {W}.

Class OpenEnv (W : Type) := {
  force_o_largefile : bool;
  get_unused_fd_flags : gmap Z fdslot -> Z -> Z;            (** a descriptor, or an error *)
  getname : Z -> W -> Z + Z;                                (** error, or the name *)
  getname_kernel : Z -> W -> Z + Z;
  do_filp_open : Z -> Z -> open_flags -> W -> (Z + Z) * W;  (** error, or the open file *)
  do_file_open_root : Z -> Z -> open_flags -> W -> (Z + Z) * W;
  copy_open_how : Z -> Z -> W -> Z + open_how;              (** [copy_struct_from_user] *)
  file_count : Z -> W -> Z;
  file_is_path : Z -> W -> bool;                            (** FMODE_PATH *)
  op_flush : Z -> W -> option (Z * W);                      (** the [->flush] method, if any *)
  drop_locks : Z -> W -> W;                                 (** [dnotify_flush], [locks_remove_posix] *)
  fput : Z -> W -> W;
  tty_vhangup_self : W -> W;
}.

Section open.
Context {W : Type} {oenv : OpenEnv W} {caps : Caps}.
#[local] Abbreviation st := (ostate W).

Definition set_slot (fd : Z) (x : option fdslot) (s : st) : st :=
  OState (match x with Some v => <[fd := v]> (ofds s) | None => delete fd (ofds s) end)
    (oworld s) (open_call_counter s).
Definition set_world (w : W) (s : st) : st := OState (ofds s) w (open_call_counter s).

(** [open_call_counter++] *)
Definition count_open (s : st) : st := OState (ofds s) (oworld s) (s64 (open_call_counter s + 1)).

Definition do_sys_openat2 (dfd filename : Z) (how : open_how) : sys st Z :=
  match build_open_flags how with
  | inl fd => sret fd
  | inr op =>
      let* w := sgets oworld in
      match getname filename w with
      | inl e => sret e
      | inr tmp =>
          let* s := sgets (fun s => s) in
          let fd := get_unused_fd_flags (ofds s) (how_flags how) in
          if fd <? 0 then sret fd
          else
            do* smodify (set_slot fd (Some Reserved)) in
            let '(f, w) := do_filp_open dfd tmp op w in
            do* smodify (set_world w) in
            match f with
            | inl e => do* smodify (set_slot fd None) in sret e
            | inr f => do* smodify (set_slot fd (Some (Installed f))) in sret fd
            end
      end
  end.

Definition do_sys_open (dfd filename flags mode : Z) : sys st Z :=
  do* smodify count_open in
  do_sys_openat2 dfd filename (build_open_how flags mode).

Definition sys_open (filename flags mode : Z) : sys st Z :=
  do_sys_open AT_FDCWD filename (set_if force_o_largefile O_LARGEFILE flags) mode.
Definition sys_openat (dfd filename flags mode : Z) : sys st Z :=
  do_sys_open dfd filename (set_if force_o_largefile O_LARGEFILE flags) mode.
Definition sys_openat2 (dfd filename how usize : Z) : sys st Z :=
  do* fail_if (usize <? OPEN_HOW_SIZE_VER0) (- EINVAL) in
  let* w := sgets oworld in
  match copy_open_how how usize w with
  | inl e => sret e
  | inr tmp =>
      let fl := set_if (negb (has (how_flags tmp) O_PATH) && force_o_largefile) O_LARGEFILE (how_flags tmp) in
      do_sys_openat2 dfd filename (OpenHow fl (how_mode tmp) (how_resolve tmp))
  end.
Definition compat_sys_open (filename flags mode : Z) : sys st Z := do_sys_open AT_FDCWD filename flags mode.
Definition compat_sys_openat (dfd filename flags mode : Z) : sys st Z := do_sys_open dfd filename flags mode.
Definition sys_creat (pathname mode : Z) : sys st Z :=
  let flags := O_CREAT .| O_WRONLY .| O_TRUNC in
  do_sys_open AT_FDCWD pathname (set_if force_o_largefile O_LARGEFILE flags) mode.

(** In-kernel opens; an error or a file. *)
Definition file_open_name (name flags mode : Z) (s : st) : (Z + Z) * st :=
  match build_open_flags (build_open_how flags mode) with
  | inl e => (inl e, s)
  | inr op => let '(f, w) := do_filp_open AT_FDCWD name op (oworld s) in (f, set_world w s)
  end.
Definition filp_open (filename flags mode : Z) (s : st) : (Z + Z) * st :=
  match getname_kernel filename (oworld s) with
  | inl e => (inl e, s)
  | inr name => file_open_name name flags mode s
  end.
Definition file_open_root (root filename flags mode : Z) (s : st) : (Z + Z) * st :=
  match build_open_flags (build_open_how flags mode) with
  | inl e => (inl e, s)
  | inr op => let '(f, w) := do_file_open_root root filename op (oworld s) in (f, set_world w s)
  end.

(** ** Closing *)
Definition filp_flush (f : Z) (w : W) : Z * W :=
  if file_count f w =? 0 then (0, w)
  else
    let '(retval, w) := match op_flush f w with Some r => r | None => (0, w) end in
    (retval, if negb (file_is_path f w) then drop_locks f w else w).
Definition filp_close (f : Z) (w : W) : Z * W :=
  let '(retval, w) := filp_flush f w in (retval, fput f w).

(** [file_close_fd]: a reserved descriptor has no file and stays reserved. *)
Definition file_close_fd (fd : Z) (t : gmap Z fdslot) : option (Z * gmap Z fdslot) :=
  match t !! fd with Some (Installed f) => Some (f, delete fd t) | _ => None end.

Abbreviation ERESTARTSYS := 512 (only parsing).
Abbreviation ERESTARTNOINTR := 513 (only parsing).
Abbreviation ERESTARTNOHAND := 514 (only parsing).
Abbreviation ERESTART_RESTARTBLOCK := 516 (only parsing).
Definition is_restart (r : Z) : bool :=
  (r =? - ERESTARTSYS) || (r =? - ERESTARTNOINTR) || (r =? - ERESTARTNOHAND) || (r =? - ERESTART_RESTARTBLOCK).

Definition sys_close (fd : Z) : sys st Z :=
  let* s := sgets (fun s => s) in
  match file_close_fd fd (ofds s) with
  | None => sexit (- EBADF)
  | Some (f, t) =>
      let '(retval, w) := filp_flush f (oworld s) in
      do* smodify (fun s => OState t (fput f w) (open_call_counter s)) in
      sret (if is_restart retval then - EINTR else retval)
  end.

Definition sys_vhangup : sys st Z :=
  if capable CAP_SYS_TTY_CONFIG
  then do* smodify (fun s => set_world (tty_vhangup_self (oworld s)) s) in sret 0
  else sret (- EPERM).
End open.

(** A program of calls on the descriptors of one task. *)
Inductive ocall :=
| COpen (filename flags mode : Z) | COpenat (dfd filename flags mode : Z)
| COpenat2 (dfd filename how usize : Z) | CCompatOpen (filename flags mode : Z)
| CCompatOpenat (dfd filename flags mode : Z) | CCreat (pathname mode : Z)
| CClose (fd : Z) | CVhangup.
Definition exec_open {W} {oenv : OpenEnv W} {caps : Caps} (c : ocall) : sys (ostate W) Z :=
  match c with
  | COpen n f m => sys_open n f m
  | COpenat d n f m => sys_openat d n f m
  | COpenat2 d n h u => sys_openat2 d n h u
  | CCompatOpen n f m => compat_sys_open n f m
  | CCompatOpenat d n f m => compat_sys_openat d n f m
  | CCreat p m => sys_creat p m
  | CClose fd => sys_close fd
  | CVhangup => sys_vhangup
  end.

(** ** Properties *)

(** *** Flags *)
Lemma acc_mode_write flags : has (ACC_MODE flags) MAY_WRITE = has flags O_WRONLY || has flags O_RDWR.
Proof.
  unfold ACC_MODE. assert (Z.land flags O_ACCMODE = 0 \/ Z.land flags O_ACCMODE = 1 \/
    Z.land flags O_ACCMODE = 2 \/ Z.land flags O_ACCMODE = 3) as H.
  { pose proof (Z.land_ones flags 2 ltac:(done)) as E. change (Z.ones 2) with 3 in E. rewrite E.
    change (2 ^ 2) with 4. pose proof (Z.mod_pos_bound flags 4 ltac:(done)). lia. }
  assert (forall k, 0 <= k < 2 -> Z.testbit (Z.land flags O_ACCMODE) k = Z.testbit flags k) as Hb.
  { intros k Hk. rewrite Z.land_spec. assert (k = 0 \/ k = 1) as [-> | ->] by lia; apply andb_true_r. }
  flag_bits. rewrite <- (Hb 0), <- (Hb 1) by lia.
  by destruct H as [-> | [-> | [-> | ->]]].
Qed.

Lemma land_path_flags flags :
  Z.land (Z.land flags VALID_OPEN_FLAGS) O_PATH_FLAGS = Z.land flags O_PATH_FLAGS.
Proof. by rewrite <- Z.land_assoc. Qed.

(** The older calls accept every value of their flags but two combinations,
    which [build_open_how] does not repair. *)
Definition refused_combination (flags : Z) : bool :=
  negb (has flags O_PATH) &&
  (has_all flags (O_DIRECTORY .| O_CREAT) ||
   has flags __O_TMPFILE && (negb (has flags O_DIRECTORY) || negb (has flags O_WRONLY || has flags O_RDWR))).

(** [open], [openat] and [creat] ignore unknown flags, drop all but four
    flags next to O_PATH and a mode nothing is created with; the only flags
    they refuse, with -EINVAL, are O_CREAT with O_DIRECTORY and O_TMPFILE
    without O_DIRECTORY or without write access, and not even those next to
    O_PATH. *)
Theorem open_refuses_only flags mode :
  match build_open_flags (build_open_how flags mode) with
  | inl e => e = - EINVAL /\ refused_combination flags = true
  | inr _ => refused_combination flags = false
  end.
Proof.
  unfold build_open_flags, build_open_how, refused_combination. cbn [how_flags how_mode how_resolve].
  rewrite (outside_ldiff _ _ VALID_OPEN_FLAGS)
    by (case_match; rewrite ?land_path_flags; by apply outside_land).
  change (outside 0 VALID_RESOLVE_FLAGS) with false. cbv iota.
  change (has 0 RESOLVE_BENEATH && has 0 RESOLVE_IN_ROOT) with false.
  change (has 0 RESOLVE_CACHED) with false. cbv iota.
  rewrite acc_mode_write. unfold WILL_CREATE.
  assert (forall b x, outside (if (b : bool) then 0 else Z.land x S_IALLUGO) S_IALLUGO = false) as Ho.
  { intros [] x; [done|by apply outside_land]. }
  destruct (has (Z.land flags VALID_OPEN_FLAGS) O_PATH) eqn:Ep.
  - rewrite land_path_flags. rewrite (outside_ldiff _ _ O_PATH_FLAGS) by (by apply outside_land).
    rewrite Ho. rewrite andb_false_r. flag_bits. rewrite Ep. simpl. done.
  - rewrite Ho. flag_bits. rewrite Ep.
    destruct (Z.testbit flags 6), (Z.testbit flags 22); simpl; rewrite ?orb_true_r;
      bits_split; simpl; done.
Qed.

(** What the path walk and the file may rely on. *)
Record flags_ok (how : open_how) (op : open_flags) : Prop := {
  only_valid : outside (open_flag op) VALID_OPEN_FLAGS = false;
  write_checked : has (open_flag op) O_PATH = false ->
    has (how_flags how) O_WRONLY || has (how_flags how) O_RDWR || has (open_flag op) O_TRUNC = true ->
    has (acc_mode op) MAY_WRITE = true;
  path_unchecked : has (open_flag op) O_PATH = true -> acc_mode op = 0 /\ intent op = 0;
  excl_no_follow : has_all (open_flag op) (O_CREAT .| O_EXCL) = true ->
    has (lookup_flags op) LOOKUP_FOLLOW = false;
  sync_both : has (open_flag op) __O_SYNC = true -> has (open_flag op) O_DSYNC = true;
  no_created_dir : has_all (open_flag op) (O_DIRECTORY .| O_CREAT) = false;
  mode_iff_create : op_mode op <> 0 <-> has (open_flag op) (O_CREAT .| __O_TMPFILE) = true;
  one_scope : has (lookup_flags op) LOOKUP_BENEATH && has (lookup_flags op) LOOKUP_IN_ROOT = false;
  cached_read_only : has (lookup_flags op) LOOKUP_CACHED = true ->
    has (open_flag op) (O_TRUNC .| O_CREAT .| __O_TMPFILE) = false;
}.

(** The request an accepted [how] is turned into, with what was checked. *)
Definition op_of (how : open_how) (flags : Z) : open_flags :=
  let cached := has (how_resolve how) RESOLVE_CACHED in
  let flags' := set_if (has flags __O_SYNC) O_DSYNC flags in
  OpenFlags flags' (if WILL_CREATE flags then how_mode how .| S_IFREG else 0)
    (set_if (has flags' O_APPEND) MAY_APPEND (set_if (has flags' O_TRUNC) MAY_WRITE
       (if has flags O_PATH then 0 else ACC_MODE (how_flags how))))
    (open_intent flags')
    (set_if cached LOOKUP_CACHED
       (open_lookup (set_if (has flags' O_CREAT && has flags' O_EXCL) O_NOFOLLOW flags') (how_resolve how))).
Lemma build_open_flags_inv how op : build_open_flags how = inr op ->
  exists flags, flags = Z.ldiff (how_flags how) (__FMODE_NONOTIFY .| O_CLOEXEC) /\ op = op_of how flags /\
    outside flags VALID_OPEN_FLAGS = false /\
    has (how_resolve how) RESOLVE_BENEATH && has (how_resolve how) RESOLVE_IN_ROOT = false /\
    has_all flags (O_DIRECTORY .| O_CREAT) = false /\
    has flags O_PATH && outside flags O_PATH_FLAGS = false /\
    (has (how_resolve how) RESOLVE_CACHED = true -> has flags (O_TRUNC .| O_CREAT .| __O_TMPFILE) = false).
Proof.
  unfold build_open_flags. cbv zeta. set (flags := Z.ldiff (how_flags how) _).
  destruct (outside flags _) eqn:Ev; [done|].
  destruct (outside (how_resolve how) _) eqn:Er; [done|].
  destruct (has (how_resolve how) RESOLVE_BENEATH && _) eqn:Es; [done|].
  destruct (if WILL_CREATE flags then _ else _); [done|].
  destruct (has_all flags _) eqn:Ed; [done|].
  destruct (has flags __O_TMPFILE && _); [done|].
  destruct (has flags O_PATH && outside _ _) eqn:Ep; [done|].
  unfold op_of. cbv zeta. intros Hop. exists flags.
  destruct (has (how_resolve how) RESOLVE_CACHED).
  - destruct (has _ (O_TRUNC .| O_CREAT .| __O_TMPFILE)) eqn:Ec in Hop; [done|]. injection Hop as <-.
    split_and!; try done. intros _. flag_bits. by bits_split.
  - by injection Hop as <-.
Qed.

(** O_PATH excludes every flag that is not one of its companions. *)
Lemma path_excludes flags b :
  has flags O_PATH && outside flags O_PATH_FLAGS = false -> has O_PATH_FLAGS b = false ->
  has flags O_PATH = true -> has flags b = false.
Proof.
  intros H Hb Hp. rewrite Hp in H. apply outside_spec in H. unfold has in *.
  rewrite <- H, <- Z.land_assoc. apply negb_false_iff, Z.eqb_eq in Hb. by rewrite Hb, Z.land_0_r.
Qed.
Lemma s_ifreg_set m : m .| S_IFREG <> 0.
Proof. intros E. apply Z.lor_eq_0_iff in E as [_ ?]. done. Qed.

(** Whenever [build_open_flags] accepts a request, also one of [openat2],
    the walk is given a consistent one: no unknown flags; a write access check
    for every open that writes or truncates; no access and no intent for
    O_PATH; no symbolic link followed by an exclusive create; O_DSYNC with
    every O_SYNC; no regular file created for O_DIRECTORY; a mode exactly when
    something is created; not both scopes; no cached-only walk that would have
    to create or truncate. *)
Theorem build_open_flags_sound how op : build_open_flags how = inr op -> flags_ok how op.
Proof.
  intros (flags & Hf & -> & Hv & Hs & Hd & Hp & Hc)%build_open_flags_inv.
  pose proof (path_excludes flags O_CREAT Hp eq_refl) as Hcr.
  pose proof (path_excludes flags O_TRUNC Hp eq_refl) as Htr.
  pose proof (path_excludes flags O_APPEND Hp eq_refl) as Hap.
  pose proof (acc_mode_write (how_flags how)) as Ha.
  split; unfold op_of; cbn [open_flag op_mode acc_mode intent lookup_flags];
    unfold open_intent, open_lookup, WILL_CREATE.
  - by apply outside_set_if.
  - clear Hp. flag_bits. by bits_split.
  - clear Hp. intros H. flag_bits. simpl in *. rewrite H in *.
    rewrite Hcr, Htr, Hap by done. done.
  - flag_bits. by bits_split.
  - flag_bits. by bits_split.
  - flag_bits. by bits_split.
  - pose proof (s_ifreg_set (how_mode how)). flag_bits. by bits_split.
  - flag_bits. by bits_split.
  - flag_bits. by bits_split.
Qed.

(** *** Descriptors *)

(** Errors are negative, descriptors handed out are free. *)
Class OpenLaws (W : Type) {oenv : OpenEnv W} := {
  unused_fd_free t fl : 0 <= get_unused_fd_flags t fl -> t !! get_unused_fd_flags t fl = None;
  getname_err p w e : getname p w = inl e -> e < 0;
  filp_open_err d n op w e : (do_filp_open d n op w).1 = inl e -> e < 0;
  copy_how_err p n w e : copy_open_how p n w = inl e -> e < 0;
}.

Lemma build_open_flags_err how e : build_open_flags how = inl e -> e < 0.
Proof. unfold build_open_flags. intros H. repeat case_match; simplify_eq; done. Qed.

Section fds.
Context {W : Type} {oenv : OpenEnv W} {caps : Caps} {laws : OpenLaws W}.
Implicit Types s : ostate W.

(** What an opening call asks for: directory, name and how to open, or an error
    before anything is looked up. *)
Definition asked (c : ocall) (w : W) : Z + (Z * Z * open_how) :=
  let large flags := if force_o_largefile then Z.lor flags O_LARGEFILE else flags in
  match c with
  | COpen n f m => inr (AT_FDCWD, n, build_open_how (large f) m)
  | COpenat d n f m => inr (d, n, build_open_how (large f) m)
  | COpenat2 d n h u =>
      if u <? OPEN_HOW_SIZE_VER0 then inl (- EINVAL)
      else match copy_open_how h u w with
           | inl e => inl e
           | inr t => inr (d, n, OpenHow (if has (how_flags t) O_PATH then how_flags t else large (how_flags t))
                                   (how_mode t) (how_resolve t))
           end
  | CCompatOpen n f m => inr (AT_FDCWD, n, build_open_how f m)
  | CCompatOpenat d n f m => inr (d, n, build_open_how f m)
  | CCreat n m => inr (AT_FDCWD, n, build_open_how (large (O_CREAT .| O_WRONLY .| O_TRUNC)) m)
  | CClose _ | CVhangup => inl (- EINVAL)
  end.

(** What an opening call does: it fails, with the table as it was and the world
    as the failed lookup left it if it got that far, or it returns a descriptor
    that was free and now refers to the file the lookup returned. *)
Definition opened (req : Z + (Z * Z * open_how)) s (r : Z) s' : Prop :=
  (r < 0 /\ ofds s' = ofds s /\
    (oworld s' = oworld s \/ exists d tmp op, do_filp_open d tmp op (oworld s) = (inl r, oworld s'))) \/
  (0 <= r /\ ofds s !! r = None /\ exists d n how op tmp f, req = inr (d, n, how) /\
    build_open_flags how = inr op /\ getname n (oworld s) = inr tmp /\
    do_filp_open d tmp op (oworld s) = (inr f, oworld s') /\ ofds s' = <[r := Installed f]> (ofds s)).

Lemma openat2_opened dfd name how s o s' : do_sys_openat2 dfd name how s = (o, s') ->
  (exists r, o = Val r /\ opened (inr (dfd, name, how)) s r s') /\ open_call_counter s' = open_call_counter s.
Proof.
  unfold do_sys_openat2. destruct (build_open_flags how) as [e|op] eqn:Eb.
  { intros [= <- <-]. split; [|done]. exists e. split; [done|]. left. split_and!; [|done|by left].
    by eapply build_open_flags_err. }
  intros E. sys_inv E. destruct (getname name (oworld s)) as [e|tmp] eqn:Eg.
  { injection E as <- <-. split; [|done]. exists e. split; [done|]. left.
    split_and!; [|done|by left]. by eapply getname_err. }
  sys_inv E.
  { split; [|done]. eexists. split; [done|]. left. split_and!; [lia|done|by left]. }
  assert (ofds s !! get_unused_fd_flags (ofds s) (how_flags how) = None) as Hfree.
  { apply unused_fd_free. lia. }
  rename s0 into f, Heqp into Ef. destruct f as [e|f]; sys_inv E; simpl; split; try done.
  - exists e. split; [done|]. left. split_and!; [|simpl; by rewrite delete_insert_id by done|right; by exists dfd, tmp, op].
    apply (filp_open_err dfd tmp op (oworld s)). by rewrite Ef.
  - eexists. split; [done|]. right. split; [lia|]. split; [done|]. exists dfd, name, how, op, tmp, f.
    split_and!; [done..|]. simpl. by rewrite insert_insert_eq.
Qed.

Definition is_open_call (c : ocall) : bool := match c with CClose _ | CVhangup => false | _ => true end.
(** The calls that go through [do_sys_open]. *)
Definition is_counted (c : ocall) : bool :=
  match c with CClose _ | CVhangup | COpenat2 _ _ _ _ => false | _ => true end.

Lemma do_sys_open_opened dfd name fl mode s o s' : do_sys_open dfd name fl mode s = (o, s') ->
  (exists r, o = Val r /\ opened (inr (dfd, name, build_open_how fl mode)) s r s') /\
  open_call_counter s' = s64 (open_call_counter s + 1).
Proof. intros E. unfold do_sys_open in E. sys_inv E. by apply openat2_opened in E. Qed.

Lemma exec_open_opened c s o s' : is_open_call c = true -> exec_open c s = (o, s') ->
  opened (asked c (oworld s)) s (run (exec_open c) s).1 s' /\
  open_call_counter s' = if is_counted c then s64 (open_call_counter s + 1) else open_call_counter s.
Proof.
  intros Hc E. unfold run. rewrite E.
  destruct c; try done; cbn [exec_open is_counted asked] in *;
    try (apply do_sys_open_opened in E as [(r & -> & Hr) ->]; done).
  unfold sys_openat2 in E. sys_inv E; [split; [left; split_and!; [done|done|by left]|done]|].
  destruct (copy_open_how how usize (oworld s)) as [e|tmp] eqn:Ec.
  - injection E as <- <-. split; [left; split_and!; [by eapply copy_how_err|done|by left]|done].
  - rewrite (proj2 (Z.ltb_ge _ _)) by lia. apply openat2_opened in E as [(r & -> & Hr) ->]. split; [|done].
    revert Hr. unfold set_if. by destruct (has (how_flags tmp) O_PATH), force_o_largefile.
Qed.

(** C12: a successful opening call, [openat2] and the 32-bit ones included, turns
    exactly one descriptor that was free into one that refers to the file
    [do_filp_open] returned for the directory, name and flags asked for, and
    returns it; a failing one leaves the table as it was, so that no
    reservation survives it. *)
Theorem open_takes_one_descriptor c s : is_open_call c = true ->
  let '(r, s') := run (exec_open c) s in
  (r < 0 /\ ofds s' = ofds s /\
    (oworld s' = oworld s \/ exists d tmp op, do_filp_open d tmp op (oworld s) = (inl r, oworld s'))) \/
  (0 <= r /\ ofds s !! r = None /\ exists d n how op tmp f, asked c (oworld s) = inr (d, n, how) /\
    build_open_flags how = inr op /\ getname n (oworld s) = inr tmp /\
    do_filp_open d tmp op (oworld s) = (inr f, oworld s') /\ ofds s' = <[r := Installed f]> (ofds s)).
Proof.
  intros Hc. destruct (run (exec_open c) s) as [r s'] eqn:E. pose proof (run_inv _ _ _ _ E) as H.
  assert (exists o, exec_open c s = (o, s')) as [o Ho] by (destruct H; eauto).
  apply exec_open_opened in Ho as [Ho _]; [|done]. by rewrite E in Ho.
Qed.

(** *** Closing *)
Lemma sys_close_outcome fd s :
  (exists f, ofds s !! fd = Some (Installed f) /\
    run (sys_close fd) s =
      (let '(r, w) := filp_flush f (oworld s) in
       (if is_restart r then - EINTR else r, OState (delete fd (ofds s)) (fput f w) (open_call_counter s)))) \/
  ((forall f, ofds s !! fd <> Some (Installed f)) /\ run (sys_close fd) s = (- EBADF, s)).
Proof.
  unfold sys_close, file_close_fd, run, sbind, sgets. cbn.
  destruct (ofds s !! fd) as [[|f]|]; [by right| |by right].
  left. exists f. split; [done|]. by destruct (filp_flush f (oworld s)).
Qed.

(** [close] on a descriptor that refers to a file frees it and drops the
    file reference, whatever the driver's [flush] returns, and never reports
    one of the codes that would restart the call; on any other descriptor it
    is -EBADF and nothing changes, so a second [close] cannot hit a descriptor
    of somebody else's open in progress. *)
Theorem close_frees_descriptor fd s :
  let '(r, s') := run (sys_close fd) s in
  is_restart r = false /\
  (forall f, ofds s' !! fd <> Some (Installed f)) /\
  (forall fd', fd' <> fd -> ofds s' !! fd' = ofds s !! fd') /\
  ((r = - EBADF /\ s' = s /\ (forall f, ofds s !! fd <> Some (Installed f))) \/
   (exists f, ofds s !! fd = Some (Installed f) /\ ofds s' = delete fd (ofds s) /\
      oworld s' = fput f (filp_flush f (oworld s)).2)).
Proof.
  destruct (sys_close_outcome fd s) as [(f & Hf & ->)|[Hn ->]].
  - destruct (filp_flush f (oworld s)) as [r w] eqn:E. simpl. split_and!.
    + by destruct (is_restart r) eqn:Hr.
    + intros g. by rewrite lookup_delete_eq.
    + intros fd' Hne. by rewrite lookup_delete_ne.
    + right. exists f. rewrite E. done.
  - split_and!; try done. by left.
Qed.

(** Opening and then closing the descriptor that was returned gives back
    the table of descriptors as it was. *)
Theorem open_close_roundtrip c s : is_open_call c = true ->
  0 <= (run (exec_open c) s).1 ->
  ofds (run (sys_close (run (exec_open c) s).1) (run (exec_open c) s).2).2 = ofds s.
Proof.
  intros Hc Hr. destruct (run (exec_open c) s) as [r s'] eqn:E. simpl in *.
  assert (exists o, exec_open c s = (o, s')) as [o Ho].
  { apply run_inv in E as [?|?]; eauto. }
  apply exec_open_opened in Ho as [Ho _]; [|done]. rewrite E in Ho. simpl in Ho.
  destruct Ho as [[? _]|(_ & Hfree & ? & ? & ? & ? & ? & f & _ & _ & _ & _ & Ht)]; [lia|].
  destruct (sys_close_outcome r s') as [(g & Hg & ->)|[Hn _]].
  - destruct (filp_flush g (oworld s')). simpl. rewrite Ht. by apply delete_insert_id.
  - destruct (Hn f). by rewrite Ht, lookup_insert_eq.
Qed.

(** *** The counter *)

Lemma exec_open_counter c s : open_call_counter (run (exec_open c) s).2 =
  if is_counted c then s64 (open_call_counter s + 1) else open_call_counter s.
Proof.
  destruct (run (exec_open c) s) as [r s'] eqn:E. simpl.
  destruct (is_open_call c) eqn:Hc.
  - assert (exists o, exec_open c s = (o, s')) as [o Ho].
    { apply run_inv in E as [?|?]; eauto. }
    by apply exec_open_opened in Ho as [_ ?].
  - destruct c; try done; simpl in *.
    + destruct (sys_close_outcome fd s) as [(f & _ & H)|[_ H]]; rewrite E in H.
      * destruct (filp_flush f (oworld s)). by injection H as -> ->.
      * by injection H as -> ->.
    + unfold sys_vhangup, run, sbind, sret, smodify in E. destruct (capable _); by injection E as <- <-.
Qed.

(** [open_call_counter] counts, modulo the width of a long, the [open],
    [openat] and [creat] calls, compat ones and failing ones included; opening
    through [openat2] is not counted. *)
Theorem open_counter_counts cs s : is_s64 (open_call_counter s) ->
  open_call_counter (run_all exec_open cs s) = s64 (open_call_counter s + calls_where is_counted cs).
Proof. apply counter_counts, exec_open_counter. Qed.
End fds.

(** ** A concrete system: the world is the number of the last file opened;
    names are user addresses, 0 faults, 404 does not exist. *)
Module Demo.
Definition low_fd (t : gmap Z fdslot) : option Z :=
  List.find (fun fd => bool_decide (t !! fd = None)) (Z.of_nat <$> seq 0 64).
Definition envD : OpenEnv Z := {|
  force_o_largefile := true;
  get_unused_fd_flags t _ := match low_fd t with Some fd => fd | None => -24 end;
  getname p _ := if p =? 0 then inl (- EFAULT) else inr p;
  getname_kernel p _ := inr p;
  do_filp_open _ n _ w := if n =? 404 then (inl (- ENOENT), w) else (inr (w + 1), w + 1);
  do_file_open_root _ n _ w := (inr (w + 1), w + 1);
  copy_open_how p n _ := if p =? 0 then inl (- EFAULT) else inr (OpenHow p 0 0);
  file_count _ _ := 1;
  file_is_path _ _ := false;
  op_flush f w := if f =? 102 then Some (-512, w) else None;
  drop_locks _ w := w;
  fput _ w := w;
  tty_vhangup_self w := w;
|}.
#[local] Existing Instance envD.
#[local] Existing Instance user_caps.
Lemma open_lawsD : OpenLaws Z.
Proof.
  split; unfold get_unused_fd_flags, getname, do_filp_open, copy_open_how, envD.
  - intros t _. destruct (low_fd t) as [fd|] eqn:E; [|lia].
    intros _. apply List.find_some in E as [_ H]. by apply bool_decide_eq_true in H.
  - intros p _ e. case_match; intros; by simplify_eq.
  - intros _ n _ w e. case_match; intros; by simplify_eq/=.
  - intros p _ _ e. case_match; intros; by simplify_eq.
Qed.
#[local] Existing Instance open_lawsD.
Definition s0 : ostate Z := OState {[ 0 := Installed 7; 1 := Reserved ]} 100 5.

(** O_RDWR | O_CREAT of an existing path gets descriptor 2, which refers to the
    file the lookup of that name returned. *)
Lemma open_takes_one_descriptor_witness :
  run (exec_open (COpen 1000 66 420)) s0 =
    (2, OState {[ 0 := Installed 7; 1 := Reserved; 2 := Installed 101 ]} 101 6) /\
  exists how op f, asked (COpen 1000 66 420) 100 = inr (AT_FDCWD, 1000, how) /\ build_open_flags how = inr op /\
    do_filp_open AT_FDCWD 1000 op 100 = (inr f, 101) /\ f = 101.
Proof.
  split; [vm_compute; reflexivity|].
  pose proof (open_takes_one_descriptor (COpen 1000 66 420) s0 eq_refl) as H.
  assert (run (exec_open (COpen 1000 66 420)) s0 =
    (2, OState {[ 0 := Installed 7; 1 := Reserved; 2 := Installed 101 ]} 101 6)) as E by (vm_compute; reflexivity).
  rewrite E in H. destruct H as [[H _]|(_ & _ & d & n & how & op & tmp & f & [= <- <- <-] & Ho & [= <-] & Hf & Ht)]; [lia|].
  exists (build_open_how (Z.lor 66 O_LARGEFILE) 420), op, f. split; [reflexivity|]. split; [exact Ho|]. split; [exact Hf|].
  assert (Some (Installed 101) = Some (Installed f)) as Hx by exact (f_equal (fun t => t !! 2) Ht). congruence.
Defined.

Lemma open_close_roundtrip_witness :
  ofds (run (sys_close (run (exec_open (CCreat 1000 420)) s0).1) (run (exec_open (CCreat 1000 420)) s0).2).2 = ofds s0.
Proof. apply (open_close_roundtrip (CCreat 1000 420) s0); [reflexivity|]. vm_compute. discriminate. Defined.

(** Two counted calls, one of them failing; [openat2] is not counted. *)
Lemma open_counter_counts_witness :
  open_call_counter (run_all exec_open [COpen 404 0 0; COpenat2 5 1000 1 24; COpenat 5 1000 0 0; CClose 2] s0) = 7.
Proof. rewrite (open_counter_counts _ s0) by (vm_compute; split; discriminate || reflexivity). reflexivity. Defined.

(** O_TRUNC | O_CREAT | O_EXCL | O_WRONLY. *)
Lemma build_open_flags_sound_witness :
  exists op, build_open_flags (build_open_how 705 420) = inr op /\ flags_ok (build_open_how 705 420) op.
Proof.
  eexists. split; [vm_compute; reflexivity|]. apply build_open_flags_sound. vm_compute. reflexivity.
Defined.

(** A flush that asks for a restart. *)
Example close_restart :
  run (sys_close 2) (OState {[ 2 := Installed 102 ]} 0 0) = (- EINTR, OState ∅ 0 0).
Proof. vm_compute. reflexivity. Qed.
End Demo.
