(* ===== verification/OpenFile.v ===== *)
(** * Turning a path into an open file

    open.c 882-1166 and 1588-1647: [do_dentry_open] and its callers, and the
    [->open] methods drivers plug in.  What an open file holds is a ledger:
    write access to the inode and its mounts, a count of readers, a reference
    to the path and to the module of the driver.  The checks of other
    subsystems, the driver's own [->open] and the file table are interfaces. *)
From S2P Require Import Prelude Ledger Seek Open.

Abbreviation FMODE_PATH := 16384 (only parsing).
Abbreviation FMODE_ATOMIC_POS := 32768 (only parsing).
Abbreviation FMODE_WRITER := 65536 (only parsing).
Abbreviation FMODE_OPENED := 524288 (only parsing).
Abbreviation FMODE_CAN_ODIRECT := 4194304 (only parsing).
Abbreviation FMODE_BACKING := 33554432 (only parsing).
Abbreviation MAX_NON_LFS := 2147483647 (only parsing).

Abbreviation S_IFMT := 61440 (only parsing).
Definition S_ISREG (m : Z) : bool := Z.land m S_IFMT =? 32768.
Definition S_ISDIR (m : Z) : bool := Z.land m S_IFMT =? 16384.
Definition special_file (m : Z) : bool :=
  let t := Z.land m S_IFMT in (t =? 8192) || (t =? 24576) || (t =? 4096) || (t =? 49152).

(** The methods of a driver [do_dentry_open] looks at. *)
Record fops := Fops {
  fo_read : bool; fo_read_iter : bool; fo_write : bool; fo_write_iter : bool; fo_llseek : bool;
  fo_open : option Z;                        (** the driver's [->open], by number *)
}.
Definition empty_fops : fops := Fops false false false false false None.
Record dinode := DInode { di_mode : Z; di_fop : option fops; di_direct_io : bool; di_thps : Z; di_size : Z }.
Record ofile := OFile {
  of_flags : Z; of_mode : Z;
  of_path : option (Z * Z);                  (** mount and dentry *)
  of_inode : option Z; of_op : option fops;
  of_backing : Z;                            (** mount of [backing_file_user_path] *)
}.
Definition with_mode (f : ofile) (m : Z) : ofile :=
  OFile (of_flags f) m (of_path f) (of_inode f) (of_op f) (of_backing f).
Definition with_op (f : ofile) (o : option fops) : ofile :=
  OFile (of_flags f) (of_mode f) (of_path f) (of_inode f) o (of_backing f).
Definition mnt_of (f : ofile) : Z := default 0 (fst <$> of_path f).
Definition ino_of (f : ofile) : Z := default 0 (of_inode f).

Inductive ores :=
| InodeWriter (ino : Z) | InodeReader (ino : Z) | MntWriter (mnt : Z) | PathRef (path : Z * Z) | FopsRef (ino : Z).
#[global] Instance ores_eq_dec : EqDecision ores.
Proof. solve_decision. Defined.

Record dstate := DState {
  held : ledger ores;
  dropped : list Z;                          (** inodes whose huge page cache was dropped *)
}.
Definition take (r : ores) (s : dstate) : dstate := DState (take_one r (held s)) (dropped s).
Definition give (r : ores) (s : dstate) : dstate := DState (drop_one r (held s)) (dropped s).

Class DentryEnv := {
  dinodes : Z -> dinode;
  get_write_access : dstate -> Z -> Z;       (** 0, or the error *)
  mnt_get_write_access : dstate -> Z -> Z;
  fops_live : Z -> bool;                     (** [try_module_get] of the inode's driver *)
  security_file_open : ofile -> Z;
  break_lease_open : Z -> Z -> Z;            (** inode, flags *)
  drv_open : Z -> ofile -> Z * ofile;        (** the methods [fo_open] names *)
  d_backing_inode : Z -> Z;                  (** of a dentry *)
  put_file_access : ofile -> dstate -> dstate;
  fput_opened : ofile -> dstate -> dstate;   (** the last [fput] *)
  alloc_empty_file : Z -> Z + ofile;         (** by flags *)
  alloc_empty_file_noaccount : Z -> Z + ofile;
  vfs_create : Z * Z -> Z -> Z;
}.

Section open.
Context {denv : DentryEnv}.

Definition file_get_write_access (f : ofile) (s : dstate) : Z * dstate :=
  let error := get_write_access s (ino_of f) in
  if negb (error =? 0) then (error, s)
  else
    let s := take (InodeWriter (ino_of f)) s in
    let error := mnt_get_write_access s (mnt_of f) in
    if negb (error =? 0) then (error, give (InodeWriter (ino_of f)) s)
    else
      let s := take (MntWriter (mnt_of f)) s in
      if has (of_mode f) FMODE_BACKING then
        let error := mnt_get_write_access s (of_backing f) in
        if negb (error =? 0)
        then (error, give (InodeWriter (ino_of f)) (give (MntWriter (mnt_of f)) s))
        else (0, take (MntWriter (of_backing f)) s)
      else (0, s).

(** The label [cleanup_file]. *)
Definition cleanup_file (error : Z) (f : ofile) (s : dstate) : Z * ofile * dstate :=
  (error, OFile (of_flags f) (of_mode f) None None (of_op f) (of_backing f),
   give (PathRef (default (0, 0) (of_path f))) s).
(** The label [cleanup_all]. *)
Definition cleanup_all (error : Z) (f : ofile) (s : dstate) : Z * ofile * dstate :=
  let error := if 0 <? error then - EINVAL else error in
  let s := match of_op f with Some _ => give (FopsRef (ino_of f)) s | None => s end in
  cleanup_file error f (put_file_access f s).

(** What a successful [->open] is followed by, up to the check of O_DIRECT. *)
Definition opened_mode (m : Z) (op : fops) (direct_io : bool) : Z :=
  let m := m .| FMODE_OPENED in
  let m := set_if (has m FMODE_READ && (fo_read op || fo_read_iter op)) FMODE_CAN_READ m in
  let m := set_if (has m FMODE_WRITE && (fo_write op || fo_write_iter op)) FMODE_CAN_WRITE m in
  let m := if has m FMODE_LSEEK && negb (fo_llseek op) then Z.ldiff m FMODE_LSEEK else m in
  set_if direct_io FMODE_CAN_ODIRECT m.

Definition finish_dentry_open (i : Z) (f : ofile) (s : dstate) : Z * ofile * dstate :=
  let inode := dinodes i in
  let f := OFile (Z.ldiff (of_flags f) (O_CREAT .| O_EXCL .| O_NOCTTY .| O_TRUNC))
             (opened_mode (of_mode f) (default empty_fops (of_op f)) (di_direct_io inode)) (of_path f) (of_inode f) (of_op f) (of_backing f) in
  if has (of_flags f) O_DIRECT && negb (has (of_mode f) FMODE_CAN_ODIRECT) then (- EINVAL, f, s)
  else
    let s := if has (of_mode f) FMODE_WRITE && negb (di_thps inode =? 0)
             then DState (held s) (i :: dropped s) else s in
    (0, f, s).

(** Count the reader, or get write access. *)
Definition take_access (i : Z) (f : ofile) (s : dstate) : Z * ofile * dstate :=
  if Z.land (of_mode f) (FMODE_READ .| FMODE_WRITE) =? FMODE_READ
  then (0, f, take (InodeReader i) s)
  else if has (of_mode f) FMODE_WRITE && negb (special_file (di_mode (dinodes i))) then
    let '(error, s) := file_get_write_access f s in
    if negb (error =? 0) then (error, f, s)
    else (0, with_mode f (of_mode f .| FMODE_WRITER), s)
  else (0, f, s).

Definition do_dentry_open (f : ofile) (i : Z) (open : option Z) (s : dstate) : Z * ofile * dstate :=
  let inode := dinodes i in
  let s := take (PathRef (default (0, 0) (of_path f))) s in
  let f := OFile (of_flags f) (of_mode f) (of_path f) (Some i) (of_op f) (of_backing f) in
  if has (of_flags f) O_PATH then
    (0, with_op (with_mode f (FMODE_PATH .| FMODE_OPENED)) (Some empty_fops), s)
  else
    let '(error, f, s) := take_access i f s in
    if negb (error =? 0) then cleanup_file error f s
    else
      let f := with_mode f (set_if (S_ISREG (di_mode inode) || S_ISDIR (di_mode inode)) FMODE_ATOMIC_POS (of_mode f)) in
      let f := with_op f (if fops_live i then di_fop inode else None) in
      match of_op f with
      | None => cleanup_all (- ENODEV) f s
      | Some op =>
          let s := take (FopsRef i) s in
          let error := security_file_open f in
          if negb (error =? 0) then cleanup_all error f s
          else
            let error := break_lease_open i (of_flags f) in
            if negb (error =? 0) then cleanup_all error f s
            else
              let f := with_mode f (of_mode f .| FMODE_LSEEK .| FMODE_PREAD .| FMODE_PWRITE) in
              let open := match open with Some o => Some o | None => fo_open op end in
              let '(error, f) := match open with Some o => drv_open o f | None => (0, f) end in
              if negb (error =? 0) then cleanup_all error f s
              else finish_dentry_open i f s
      end.

Definition vfs_open (path : Z * Z) (f : ofile) (s : dstate) : Z * ofile * dstate :=
  let f := OFile (of_flags f) (of_mode f) (Some path) (of_inode f) (of_op f) (of_backing f) in
  do_dentry_open f (d_backing_inode path.2) None s.
Definition finish_open (f : ofile) (dentry : Z) (open : option Z) (s : dstate) : Z * ofile * dstate :=
  let f := OFile (of_flags f) (of_mode f) (Some (mnt_of f, dentry)) (of_inode f) (of_op f) (of_backing f) in
  do_dentry_open f (d_backing_inode dentry) open s.
Definition finish_no_open (f : ofile) (dentry : Z) : Z * ofile :=
  (0, OFile (of_flags f) (of_mode f) (Some (mnt_of f, dentry)) (of_inode f) (of_op f) (of_backing f)).

(** [fput(f); return ERR_PTR(error);] on failure *)
Definition file_or_error (r : Z * ofile * dstate) : (Z + ofile) * dstate :=
  let '(error, f, s) := r in
  if negb (error =? 0) then (inl error, fput_opened f s) else (inr f, s).

Definition dentry_open (path : Z * Z) (flags : Z) (s : dstate) : (Z + ofile) * dstate :=
  match alloc_empty_file flags with
  | inl e => (inl e, s)
  | inr f => file_or_error (vfs_open path f s)
  end.
Definition dentry_create (path : Z * Z) (flags mode : Z) (s : dstate) : (Z + ofile) * dstate :=
  match alloc_empty_file flags with
  | inl e => (inl e, s)
  | inr f =>
      let error := vfs_create path mode in
      file_or_error (if error =? 0 then vfs_open path f s else (error, f, s))
  end.
Definition kernel_file_open (path : Z * Z) (flags i : Z) (s : dstate) : (Z + ofile) * dstate :=
  match alloc_empty_file_noaccount flags with
  | inl e => (inl e, s)
  | inr f =>
      let f := OFile (of_flags f) (of_mode f) (Some path) (of_inode f) (of_op f) (of_backing f) in
      file_or_error (do_dentry_open f i None s)
  end.

(** *** Methods for [->open] *)
Definition generic_file_open (f : ofile) : Z * ofile :=
  if negb (has (of_flags f) O_LARGEFILE) && (MAX_NON_LFS <? di_size (dinodes (ino_of f)))
  then (- EOVERFLOW, f) else (0, f).
Definition nonseekable_open (f : ofile) : Z * ofile :=
  (0, with_mode f (Z.ldiff (of_mode f) (FMODE_LSEEK .| FMODE_PREAD .| FMODE_PWRITE))).
Definition stream_open (f : ofile) : Z * ofile :=
  (0, with_mode f (Z.ldiff (of_mode f) (FMODE_LSEEK .| FMODE_PREAD .| FMODE_PWRITE .| FMODE_ATOMIC_POS) .| FMODE_STREAM)).
End open.

(** ** Properties *)

(** What the last reference to an open file gives back: [put_file_access], the
    driver's module and the path. *)
Definition access_released (f : ofile) (l : ledger ores) : ledger ores :=
  if Z.land (of_mode f) (FMODE_READ .| FMODE_WRITE) =? FMODE_READ then drop_one (InodeReader (ino_of f)) l
  else if has (of_mode f) FMODE_WRITER then
    let l := drop_one (MntWriter (mnt_of f)) (drop_one (InodeWriter (ino_of f)) l) in
    if has (of_mode f) FMODE_BACKING then drop_one (MntWriter (of_backing f)) l else l
  else l.
Definition file_released (f : ofile) (l : ledger ores) : ledger ores :=
  if has (of_mode f) FMODE_OPENED then
    let l := access_released f l in
    let l := if has (of_mode f) FMODE_PATH then l else drop_one (FopsRef (ino_of f)) l in
    drop_one (PathRef (default (0, 0) (of_path f))) l
  else l.

(** The mode bits that say what a file holds and may be used for. *)
Definition held_bits : list Z :=
  [FMODE_READ; FMODE_WRITE; FMODE_WRITER; FMODE_BACKING; FMODE_OPENED; FMODE_PATH; FMODE_CAN_READ; FMODE_CAN_WRITE].
Definition access_bits (f f' : ofile) : Prop :=
  forall b, b ∈ held_bits ->
  has (of_mode f') b = has (of_mode f) b.
Definition fresh_file (f : ofile) : Prop :=
  has (of_mode f) FMODE_WRITER = false /\ has (of_mode f) FMODE_OPENED = false /\
  has (of_mode f) FMODE_PATH = false /\ has (of_mode f) FMODE_CAN_READ = false /\ has (of_mode f) FMODE_CAN_WRITE = false.
(** A driver's [->open] may clear the seek bits, not change what is held. *)
Definition open_respects (open : ofile -> Z * ofile) : Prop := forall f e f', open f = (e, f') ->
  access_bits f f' /\ of_path f' = of_path f /\ of_inode f' = of_inode f /\ of_backing f' = of_backing f /\
  (is_Some (of_op f) -> is_Some (of_op f')).

(** The contracts of internal.h and file_table.c. *)
Class DentryLaws {denv : DentryEnv} := {
  put_file_access_spec f s : held (put_file_access f s) ≡ access_released f (held s);
  fput_spec f s : held (fput_opened f s) ≡ file_released f (held s);
  alloc_empty f fl : alloc_empty_file fl = inr f \/ alloc_empty_file_noaccount fl = inr f ->
    fresh_file f;
  drv_open_respects o : open_respects (drv_open o);
}.

#[global] Instance access_released_proper f : Proper ((≡) ==> (≡)) (access_released f).
Proof. intros l l' H. unfold access_released. repeat case_match; by rewrite H. Qed.
#[global] Instance file_released_proper f : Proper ((≡) ==> (≡)) (file_released f).
Proof. intros l l' H. unfold file_released. repeat case_match; by rewrite H. Qed.

Lemma read_only_bits m :
  (Z.land m (FMODE_READ .| FMODE_WRITE) =? FMODE_READ) = has m FMODE_READ && negb (has m FMODE_WRITE).
Proof.
  change (FMODE_READ .| FMODE_WRITE) with 3. flag_bits.
  apply eq_true_iff_eq. rewrite Z.eqb_eq, andb_true_iff, negb_true_iff. split.
  - intros E. split; [apply (f_equal (fun z => Z.testbit z 0)) in E|apply (f_equal (fun z => Z.testbit z 1)) in E];
      rewrite Z.land_spec in E; repeat bit_const; by rewrite andb_true_r in E.
  - intros [H0 H1]. apply Z.bits_inj'. intros n Hn. rewrite Z.land_spec.
    assert (n = 0 \/ n = 1 \/ 2 <= n) as [-> |[-> |Hn2]] by lia; [by rewrite H0|by rewrite H1|].
    rewrite (Z.bits_above_log2 3 n), (Z.bits_above_log2 1 n) by (simpl; lia). apply andb_false_r.
Qed.

Lemma access_released_ext f f' l : access_bits f f' -> ino_of f' = ino_of f -> mnt_of f' = mnt_of f ->
  of_backing f' = of_backing f -> access_released f' l = access_released f l.
Proof.
  intros Hb Hi Hm Hk. unfold access_released. rewrite !read_only_bits.
  rewrite !Hb, Hi, Hm, Hk by (unfold held_bits; set_solver). done.
Qed.
Lemma access_released_drop f r l : access_released f (drop_one r l) ≡ drop_one r (access_released f l).
Proof. unfold access_released. repeat case_match; balance. Qed.
Lemma access_released_take f r l : access_released f (take_one r l) ≡ take_one r (access_released f l).
Proof. unfold access_released. repeat case_match; balance. Qed.

(** Adding bits that say nothing about what is held. *)
Lemma access_bits_lor f m m' : of_mode f = m ->
  (forall b, b ∈ held_bits ->
     has m' b = has m b) -> access_bits f (with_mode f m').
Proof. intros <- H b Hb. by apply H. Qed.
Ltac access_bits_tac :=
  let b := fresh "b" in let Hb := fresh "Hb" in
  intros b Hb; unfold held_bits in Hb; rewrite !elem_of_cons, elem_of_nil in Hb; cbn [of_mode with_mode with_op];
  destruct_or! Hb; try done; subst b; flag_bits; by bits_split.
Lemma access_bits_refl f : access_bits f f.
Proof. by intros b _. Qed.
Lemma access_bits_trans f f' f'' : access_bits f f' -> access_bits f' f'' -> access_bits f f''.
Proof. intros H1 H2 b Hb. by rewrite H2, H1. Qed.

Section balance.
Context {denv : DentryEnv} {laws : DentryLaws}.

(** Write access is all taken or all given back. *)
Lemma file_get_write_access_balanced f s e s' : file_get_write_access f s = (e, s') ->
  if e =? 0 then forall f', has (of_mode f') FMODE_WRITER = true -> has (of_mode f') FMODE_WRITE = true ->
      has (of_mode f') FMODE_BACKING = has (of_mode f) FMODE_BACKING ->
      ino_of f' = ino_of f -> mnt_of f' = mnt_of f -> of_backing f' = of_backing f ->
      access_released f' (held s') ≡ held s
  else held s' ≡ held s.
Proof.
  unfold file_get_write_access. intros E.
  destruct (negb (get_write_access s (ino_of f) =? 0)) eqn:E1; simplify_eq.
  { by rewrite (proj1 (negb_true_iff _) E1). }
  set (s1 := take _ s) in *.
  destruct (negb (mnt_get_write_access s1 (mnt_of f) =? 0)) eqn:E2; simplify_eq.
  { rewrite (proj1 (negb_true_iff _) E2). subst s1. cbn. apply drop_take. }
  set (s2 := take (MntWriter (mnt_of f)) s1) in *.
  destruct (has (of_mode f) FMODE_BACKING) eqn:Eb.
  - destruct (negb (mnt_get_write_access s2 (of_backing f) =? 0)) eqn:E3; simplify_eq.
    { rewrite (proj1 (negb_true_iff _) E3). subst s2 s1. cbn. balance. }
    intros f' Hw Hww Hb Hi Hm Hk. unfold access_released.
    rewrite read_only_bits, Hw, Hww, Hb, Hi, Hm, Hk, andb_false_r. subst s2 s1. cbn. balance.
  - simplify_eq. intros f' Hw Hww Hb Hi Hm Hk. unfold access_released.
    rewrite read_only_bits, Hw, Hww, Hb, Hi, Hm, andb_false_r. try subst s2; try subst s1. cbn. balance.
Qed.

Lemma cleanup_file_held e f s : held (cleanup_file e f s).2 = drop_one (PathRef (default (0, 0) (of_path f))) (held s).
Proof. done. Qed.
Lemma cleanup_all_held e f s : held (cleanup_all e f s).2 ≡
  drop_one (PathRef (default (0, 0) (of_path f)))
    (access_released f (if of_op f is Some _ then drop_one (FopsRef (ino_of f)) (held s) else held s)).
Proof.
  unfold cleanup_all. cbn. rewrite put_file_access_spec. by destruct (of_op f).
Qed.
Lemma cleanup_all_mode e f s : of_mode (cleanup_all e f s).1.2 = of_mode f.
Proof. done. Qed.
Lemma cleanup_all_error e f s : e <> 0 -> (cleanup_all e f s).1.1 <> 0.
Proof. cbn. destruct (Z.ltb_spec 0 e); lia. Qed.

(** What [take_access] leaves alone. *)
Definition same_file (f f' : ofile) : Prop :=
  of_path f' = of_path f /\ of_inode f' = of_inode f /\ of_backing f' = of_backing f.
Lemma same_file_ids f f' : same_file f f' -> ino_of f' = ino_of f /\ mnt_of f' = mnt_of f /\ of_backing f' = of_backing f.
Proof. intros (Hp & Hi & Hb). unfold ino_of, mnt_of. by rewrite Hp, Hi, Hb. Qed.

Lemma take_access_balanced i f s e f' s' : of_inode f = Some i -> has (of_mode f) FMODE_WRITER = false ->
  take_access i f s = (e, f', s') ->
  same_file f f' /\ has (of_mode f') FMODE_OPENED = has (of_mode f) FMODE_OPENED /\
  has (of_mode f') FMODE_PATH = has (of_mode f) FMODE_PATH /\
  if e =? 0 then access_released f' (held s') ≡ held s else held s' ≡ held s.
Proof.
  intros Hi Hw. unfold take_access. rewrite read_only_bits.
  destruct (has (of_mode f) FMODE_READ && negb (has (of_mode f) FMODE_WRITE)) eqn:Er.
  { intros [= <- <- <-]. split_and!; try done. simpl. unfold access_released.
    rewrite read_only_bits, Er. unfold ino_of. rewrite Hi. simpl. apply drop_take. }
  destruct (has (of_mode f) FMODE_WRITE && _) eqn:Ew.
  - destruct (file_get_write_access f s) as [e1 s1] eqn:Eg. apply file_get_write_access_balanced in Eg.
    apply andb_true_iff in Ew as [Ew _].
    destruct (e1 =? 0) eqn:E1; simpl; intros [= <- <- <-]; rewrite ?E1; split_and!; try done;
      try (cbn [of_mode with_mode]; flag_bits; by bits_split).
    simpl. apply Eg; try done; cbn [of_mode with_mode]; flag_bits; try done; rewrite ?Ew; by bits_split.
  - intros [= <- <- <-]. split_and!; try done. simpl. unfold access_released.
    by rewrite read_only_bits, Er, Hw.
Qed.

(** The file [finish_dentry_open] builds is open and holds what it held. *)
Lemma opened_mode_bits m op d b :
  b ∈ [FMODE_READ; FMODE_WRITE; FMODE_WRITER; FMODE_BACKING; FMODE_PATH] ->
  has (opened_mode m op d) b = has m b.
Proof.
  unfold opened_mode. rewrite !elem_of_cons, elem_of_nil. intros Hb.
  destruct_or! Hb; try done; subst b; flag_bits; by case_match.
Qed.
Lemma opened_mode_opened m op d : has (opened_mode m op d) FMODE_OPENED = true.
Proof. unfold opened_mode. flag_bits. by case_match. Qed.

Lemma finish_dentry_open_balanced i f s l : of_inode f = Some i -> has (of_mode f) FMODE_PATH = false ->
  access_released f (held s) ≡ take_one (FopsRef i) (take_one (PathRef (default (0, 0) (of_path f))) l) ->
  let '(e, f', s') := finish_dentry_open i f s in
  has (of_mode f') FMODE_OPENED = true /\ file_released f' (held s') ≡ l.
Proof.
  intros Hi Hp Hl. unfold finish_dentry_open. cbv zeta. cbn [of_mode of_flags].
  set (f' := OFile _ _ _ _ _ _).
  enough (has (of_mode f') FMODE_OPENED = true /\ file_released f' (held s) ≡ l) as [H1 H2].
  { destruct (has (Z.ldiff _ _) O_DIRECT && _); [done|].
    destruct (has _ FMODE_WRITE && _); done. }
  assert (access_released f' (held s) = access_released f (held s)) as E.
  { unfold access_released. subst f'. cbn [of_mode]. rewrite !read_only_bits, !opened_mode_bits by (unfold held_bits; set_solver). done. }
  split; [apply opened_mode_opened|]. unfold file_released. rewrite E.
  subst f'. cbn [of_mode of_path]. rewrite opened_mode_opened, opened_mode_bits, Hp by (unfold held_bits; set_solver).
  rewrite Hl. unfold ino_of. cbn [of_inode]. rewrite Hi. simpl. rewrite drop_take. apply drop_take.
Qed.

(** The contract of [do_dentry_open]: an open file whose last reference gives
    everything back, or an error after which nothing is held. *)
Definition balanced (l : ledger ores) (r : Z * ofile * dstate) : Prop :=
  let '(e, f, s) := r in
  if has (of_mode f) FMODE_OPENED then file_released f (held s) ≡ l else e <> 0 /\ held s ≡ l.

Lemma cleanup_all_balanced e f s l : e <> 0 -> has (of_mode f) FMODE_OPENED = false ->
  access_released f (held s) ≡
    (if of_op f is Some _ then take_one (FopsRef (ino_of f)) else id)
      (take_one (PathRef (default (0, 0) (of_path f))) l) ->
  balanced l (cleanup_all e f s).
Proof.
  intros He Ho Hl. pose proof (cleanup_all_held e f s) as Hh. pose proof (cleanup_all_error e f s He) as Hn.
  pose proof (cleanup_all_mode e f s) as Hm.
  destruct (cleanup_all e f s) as [[e' f'] s']. simpl in *. rewrite Hm, Ho. split; [done|].
  rewrite Hh. destruct (of_op f); rewrite ?access_released_drop, Hl; simpl; rewrite ?drop_take; done.
Qed.

Lemma access_bits_of f f' b :
  access_bits f f' -> b ∈ held_bits ->
  has (of_mode f') b = has (of_mode f) b.
Proof. intros H. apply H. Qed.

(** From the driver's methods on: [f] has its access, [s] also holds [FopsRef]. *)
Lemma driver_stage_balanced i f op open s l : of_inode f = Some i -> of_op f = Some op ->
  has (of_mode f) FMODE_PATH = false -> has (of_mode f) FMODE_OPENED = false ->
  access_released f (held s) ≡ take_one (FopsRef i) (take_one (PathRef (default (0, 0) (of_path f))) l) ->
  balanced l
    (let f := with_mode f (of_mode f .| FMODE_LSEEK .| FMODE_PREAD .| FMODE_PWRITE) in
     let '(error, f) := match (open : option Z) with Some o => drv_open o f | None => (0, f) end in
     if negb (error =? 0) then cleanup_all error f s else finish_dentry_open i f s).
Proof.
  intros Hi Hop Hp Ho Hl. cbv zeta. set (f1 := with_mode f _).
  assert (access_bits f f1) as H1 by (subst f1; access_bits_tac).
  destruct (match open with Some o => drv_open o f1 | None => (0, f1) end) as [e f2] eqn:E.
  assert (access_bits f1 f2 /\ same_file f1 f2 /\ is_Some (of_op f2)) as (H2 & Hs & Hop2).
  { destruct open as [o|]; [|by injection E as <- <-; split; [apply access_bits_refl|eauto]].
    apply drv_open_respects in E as (? & ? & ? & ? & Hx). split_and!; try done. apply Hx. simpl. eauto. }
  assert (access_released f2 (held s) = access_released f (held s)) as Er.
  { assert (same_file f f2) as (? & ? & ?)%same_file_ids by done.
    apply access_released_ext; try done. by eapply access_bits_trans. }
  destruct Hs as (Hs1 & Hs2 & Hs3). simpl in Hs1, Hs2.
  destruct (e =? 0) eqn:E0; simpl.
  - pose proof (finish_dentry_open_balanced i f2 s l) as Hf.
    destruct (finish_dentry_open i f2 s) as [[e' f'] s'].
    destruct Hf as [Ho' Hr'].
    + by rewrite Hs2.
    + rewrite (access_bits_of _ _ _ H2), (access_bits_of _ _ _ H1) by (unfold held_bits; set_solver). done.
    + by rewrite Er, Hl, Hs1.
    + simpl. by rewrite Ho'.
  - apply cleanup_all_balanced; [lia| |].
    + rewrite (access_bits_of _ _ _ H2), (access_bits_of _ _ _ H1) by (unfold held_bits; set_solver). done.
    + destruct Hop2 as [op2 ->]. rewrite Er, Hl, Hs1. unfold ino_of. by rewrite Hs2, Hi.
Qed.

Lemma do_dentry_open_balanced f i open s : fresh_file f -> balanced (held s) (do_dentry_open f i open s).
Proof.
  intros (Hw & Ho & Hp & _). unfold do_dentry_open. cbv zeta. cbn [of_flags of_mode].
  set (p := PathRef (default (0, 0) (of_path f))).
  destruct (has (of_flags f) O_PATH).
  { simpl. change (has (FMODE_PATH .| FMODE_OPENED) FMODE_OPENED) with true. cbv iota.
    unfold file_released. cbn. apply drop_take. }
  set (f0 := OFile _ _ _ _ _ _). set (s0 := take p s).
  destruct (take_access i f0 s0) as [[e f1] s1] eqn:Et.
  apply take_access_balanced in Et as (Hs & Ho1 & Hp1 & Hl); [|done|done].
  destruct Hs as (Hs1 & Hs2 & Hs3). simpl in Hs1, Hs2, Hs3, Ho1, Hp1. rewrite Ho in Ho1. rewrite Hp in Hp1.
  destruct (e =? 0) eqn:E0; simpl negb; cbv iota.
  2: { unfold balanced, cleanup_file. cbn [of_mode]. rewrite Ho1. split; [lia|]. cbn [held give].
       rewrite Hl, Hs1. apply drop_take. }
  set (f2 := with_op _ _).
  assert (access_bits f1 f2) as Hb by (subst f2; access_bits_tac).
  assert (access_released f2 (held s1) ≡ take_one p (held s)) as Hr.
  { rewrite (access_released_ext f1 f2) by done. exact Hl. }
  assert (has (of_mode f2) FMODE_OPENED = false) as Ho2.
  { by rewrite (access_bits_of _ _ _ Hb) by (unfold held_bits; set_solver). }
  assert (has (of_mode f2) FMODE_PATH = false) as Hp2.
  { by rewrite (access_bits_of _ _ _ Hb) by (unfold held_bits; set_solver). }
  assert (of_path f2 = of_path f) as Hpath by done.
  assert (of_inode f2 = Some i) as Hi2 by done.
  assert (of_flags f2 = of_flags f1) as Hfl by done.
  clearbody f2. destruct (of_op f2) as [op|] eqn:Eop.
  2: { apply cleanup_all_balanced; [done|done|]. rewrite Eop, Hr, Hpath. done. }
  assert (access_released f2 (held (take (FopsRef i) s1)) ≡
    take_one (FopsRef i) (take_one (PathRef (default (0, 0) (of_path f2))) (held s))) as Hr'.
  { cbn [held take]. rewrite access_released_take, Hr, Hpath. done. }
  assert (forall e, e <> 0 -> balanced (held s) (cleanup_all e f2 (take (FopsRef i) s1))) as Hc.
  { intros e' He'. apply cleanup_all_balanced; [done|done|].
    unfold ino_of. by rewrite Eop, Hr', Hi2. }
  destruct (security_file_open f2 =? 0) eqn:E1; simpl negb; cbv iota; [|apply Hc; lia].
  rewrite Hfl.
  destruct (break_lease_open i (of_flags f1) =? 0) eqn:E2; simpl negb; cbv iota; [|apply Hc; lia].
  by eapply driver_stage_balanced.
Qed.

(** An opened file comes out of [finish_dentry_open], O_PATH apart. *)
Lemma take_access_can i f s e f' s' : take_access i f s = (e, f', s') ->
  of_flags f' = of_flags f /\
  has (of_mode f') FMODE_CAN_READ = has (of_mode f) FMODE_CAN_READ /\
  has (of_mode f') FMODE_CAN_WRITE = has (of_mode f) FMODE_CAN_WRITE.
Proof.
  unfold take_access. intros E. repeat case_match; simplify_eq; try done.
  cbn [of_mode of_flags with_mode]. flag_bits. done.
Qed.
Lemma do_dentry_open_success f i open s f' s' : fresh_file f -> has (of_flags f) O_PATH = false ->
  do_dentry_open f i open s = (0, f', s') ->
  exists f2 s2, finish_dentry_open i f2 s2 = (0, f', s') /\
    has (of_mode f2) FMODE_CAN_READ = false /\ has (of_mode f2) FMODE_CAN_WRITE = false.
Proof.
  intros (_ & _ & _ & Hr & Hw) Hp. unfold do_dentry_open. cbv zeta. cbn [of_flags]. rewrite Hp.
  destruct (take_access _ _ _) as [[e f1] s1] eqn:Et.
  apply take_access_can in Et as (Hf & Hr1 & Hw1). cbn [of_mode] in Hr1, Hw1. rewrite Hr in Hr1. rewrite Hw in Hw1.
  destruct (e =? 0) eqn:E0; simpl negb; cbv iota; [|unfold cleanup_file; intros [= ? ? ?]; lia].
  set (f2 := with_op _ _).
  assert (access_bits f1 f2) as Hb by (subst f2; access_bits_tac).
  assert (of_flags f2 = of_flags f1) as Hfl by done. clearbody f2.
  assert (forall e s0, e <> 0 -> cleanup_all e f2 s0 = (0, f', s') -> False) as Hc.
  { intros e' s0 He E. apply (cleanup_all_error e' f2 s0) in He. by rewrite E in He. }
  destruct (of_op f2) as [op|]; [|intros E; by apply Hc in E].
  destruct (security_file_open f2 =? 0) eqn:E1; simpl negb; cbv iota; [|intros E; apply Hc in E; [done|lia]].
  rewrite Hfl.
  destruct (break_lease_open i _ =? 0) eqn:E2; simpl negb; cbv iota; [|intros E; apply Hc in E; [done|lia]].
  set (f3 := with_mode _ _). assert (access_bits f2 f3) as H3 by (subst f3; access_bits_tac).
  destruct (match _ with Some o => drv_open o f3 | None => (0, f3) end) as [e4 f4] eqn:E4.
  assert (access_bits f3 f4) as H4.
  { destruct (match open with Some o => Some o | None => fo_open op end);
      [by apply drv_open_respects in E4 as [? _]|injection E4 as <- <-; apply access_bits_refl]. }
  destruct (e4 =? 0) eqn:E5; simpl negb; cbv iota.
  - intros E. exists f4, (take (FopsRef i) s1). split; [done|].
    split; rewrite (access_bits_of _ _ _ H4), (access_bits_of _ _ _ H3), (access_bits_of _ _ _ Hb)
      by (unfold held_bits; set_solver); done.
  - intros E. apply (f_equal (fun r => r.1.1)) in E. simpl in E.
    destruct (0 <? e4); lia.
Qed.

(** A file that [do_dentry_open] reports open can be read and written
    exactly when it was opened for that and its driver has a method for it,
    can be seeked only through an [llseek] method, supports O_DIRECT when
    asked for, and has lost the flags that only concern the opening itself; an
    O_PATH file can do none of these. *)
Theorem opened_file_methods f i open s f' s' : fresh_file f ->
  do_dentry_open f i open s = (0, f', s') ->
  let op := default empty_fops (of_op f') in
  has (of_mode f') FMODE_OPENED = true /\
  has (of_mode f') FMODE_CAN_READ = has (of_mode f') FMODE_READ && (fo_read op || fo_read_iter op) /\
  has (of_mode f') FMODE_CAN_WRITE = has (of_mode f') FMODE_WRITE && (fo_write op || fo_write_iter op) /\
  (has (of_mode f') FMODE_LSEEK = true -> fo_llseek op = true) /\
  if has (of_flags f) O_PATH then of_mode f' = FMODE_PATH .| FMODE_OPENED
  else (has (of_flags f') O_DIRECT = true -> has (of_mode f') FMODE_CAN_ODIRECT = true) /\
       has (of_flags f') (O_CREAT .| O_EXCL .| O_NOCTTY .| O_TRUNC) = false.
Proof.
  intros Hf E. destruct (has (of_flags f) O_PATH) eqn:Hp.
  { unfold do_dentry_open in E. cbn [of_flags] in E. rewrite Hp in E. by injection E as <- <-. }
  apply do_dentry_open_success in E as (f2 & s2 & E & Hr & Hw); [|done|done].
  unfold finish_dentry_open in E. cbv zeta in E. cbn [of_flags of_mode] in E.
  destruct (has _ O_DIRECT && _) eqn:Ed in E; [done|]. injection E as <- _.
  cbn [of_mode of_flags of_op]. set (op := default empty_fops (of_op f2)) in *.
  unfold opened_mode in *. split_and!.
  - flag_bits. by case_match.
  - flag_bits. rewrite Hr. case_match; by destruct (fo_read op || fo_read_iter op), (Z.testbit (of_mode f2) 0).
  - flag_bits. rewrite Hw. case_match; by destruct (fo_write op || fo_write_iter op), (Z.testbit (of_mode f2) 1).
  - flag_bits. by destruct (fo_llseek op), (Z.testbit (of_mode f2) 2).
  - intros H. rewrite H in Ed. by apply negb_false_iff in Ed.
  - by flag_bits.
Qed.

(** The in-kernel ways to open a file. *)
Inductive dcall :=
| DOpen (path : Z * Z) (flags : Z) | DCreate (path : Z * Z) (flags mode : Z)
| DKernel (path : Z * Z) (flags i : Z).
Definition exec_dentry (c : dcall) (s : dstate) : (Z + ofile) * dstate :=
  match c with
  | DOpen p fl => dentry_open p fl s
  | DCreate p fl m => dentry_create p fl m s
  | DKernel p fl i => kernel_file_open p fl i s
  end.

Lemma file_or_error_balanced l r : balanced l r ->
  let '(x, s') := file_or_error r in
  match x with inl e => e <> 0 /\ held s' ≡ l | inr f => held (fput_opened f s') ≡ l end.
Proof.
  destruct r as [[e f] s]. unfold balanced, file_or_error. intros H.
  destruct (Z.eqb_spec e 0) as [->|He]; simpl; rewrite fput_spec; unfold file_released in *.
  - destruct (has (of_mode f) FMODE_OPENED); [done|]. by destruct H.
  - split; [done|]. destruct (has (of_mode f) FMODE_OPENED); [done|]. by destruct H.
Qed.

(** C8: opening a file from inside the kernel is balanced on every path: when
    it fails, wherever it fails, the write and read accesses, the path and the
    driver's module are all given back (also when O_DIRECT is refused after
    the driver's own [->open] succeeded); when it succeeds, dropping the last
    reference to the file gives all of them back. *)
Theorem dentry_open_balanced c s :
  let '(r, s') := exec_dentry c s in
  match r with inl _ => held s' ≡ held s | inr f => held (fput_opened f s') ≡ held s end.
Proof.
  assert (forall r, balanced (held s) r -> let '(x, s') := file_or_error r in
    match x with inl _ => held s' ≡ held s | inr f => held (fput_opened f s') ≡ held s end) as Hfe.
  { intros r Hr. apply file_or_error_balanced in Hr. destruct (file_or_error r) as [[e|f] s']; [|done].
    by destruct Hr. }
  destruct c; simpl; unfold dentry_open, dentry_create, kernel_file_open, vfs_open.
  - destruct (alloc_empty_file flags) eqn:Ea; [done|]. apply Hfe.
    apply do_dentry_open_balanced. destruct (alloc_empty _ _ (or_introl Ea)) as (? & ? & ? & ? & ?). done.
  - destruct (alloc_empty_file flags) eqn:Ea; [done|]. apply Hfe.
    destruct (alloc_empty _ _ (or_introl Ea)) as (? & Ho & ? & ? & ?).
    destruct (Z.eqb_spec (vfs_create path mode) 0) as [|He]; [by apply do_dentry_open_balanced|].
    simpl. by rewrite Ho.
  - destruct (alloc_empty_file_noaccount flags) eqn:Ea; [done|]. apply Hfe.
    apply do_dentry_open_balanced. destruct (alloc_empty _ _ (or_intror Ea)) as (? & ? & ? & ? & ?). done.
Qed.
End balance.

(** The methods of this file keep the contract drivers owe. *)
Lemma generic_file_open_respects `{DentryEnv} : open_respects generic_file_open.
Proof. intros f e f'. unfold generic_file_open. case_match; intros [= <- <-]; by split. Qed.
Lemma nonseekable_open_respects : open_respects nonseekable_open.
Proof. intros f e f' [= <- <-]. split; [access_bits_tac|done]. Qed.
Lemma stream_open_respects : open_respects stream_open.
Proof. intros f e f' [= <- <-]. split; [access_bits_tac|done]. Qed.

(** ** A concrete system: inode 1 is a regular file, inode 2 a terminal, inode
    3 a regular file that is being executed. *)
Module Demo.
Definition rw_ops : fops := Fops false true false true true (Some 1).
Definition tty_ops : fops := Fops true false true false true (Some 2).
Definition envD : DentryEnv := {|
  dinodes i := if i =? 2 then DInode 8192 (Some tty_ops) false 0 0
               else DInode 33188 (Some rw_ops) (i =? 1) 0 (if i =? 1 then 3000000000 else 100);
  get_write_access s i := if i =? 3 then - ETXTBSY else 0;
  mnt_get_write_access s m := if m =? 9 then - EROFS else 0;
  fops_live _ := true;
  security_file_open _ := 0;
  break_lease_open _ _ := 0;
  drv_open o f := if o =? 2 then stream_open f else (0, f);
  d_backing_inode d := d;
  put_file_access f s := DState (access_released f (held s)) (dropped s);
  fput_opened f s := DState (file_released f (held s)) (dropped s);
  alloc_empty_file fl := inr (OFile fl (Z.land (fl + 1) 3) None None None 0);
  alloc_empty_file_noaccount fl := inr (OFile fl (Z.land (fl + 1) 3) None None None 0);
  vfs_create _ _ := 0;
|}.
#[local] Existing Instance envD.
Lemma low_bits_fresh x b : Z.land 3 b = 0 -> has (Z.land x 3) b = false.
Proof. intros H. unfold has. by rewrite <- Z.land_assoc, H, Z.land_0_r. Qed.
Lemma ofile_lawsD : DentryLaws.
Proof.
  split.
  - done.
  - done.
  - intros f fl [[= <-]|[= <-]]; unfold fresh_file; cbn [of_mode]; by rewrite !low_bits_fresh.
  - intros o f e f' E. unfold drv_open, envD in E. destruct (o =? 2).
    + by apply stream_open_respects in E.
    + by injection E as <- <-.
Qed.
#[local] Existing Instance ofile_lawsD.
Definition s0 : dstate := DState nothing_held [].
Definition new (fl : Z) (p : Z * Z) : ofile := OFile fl (Z.land (fl + 1) 3) (Some p) None None 0.

(** Writing to a read-only mount: the write access to the inode is undone. *)
Lemma dentry_open_balanced_witness :
  (dentry_open (9, 1) O_RDWR s0).1 = inl (- EROFS) /\
  held (dentry_open (9, 1) O_RDWR s0).2 ≡ held s0.
Proof.
  split; [vm_compute; reflexivity|].
  pose proof (dentry_open_balanced (DOpen (9, 1) O_RDWR) s0) as H. exact H.
Defined.

(** Opening the terminal for reading and writing. *)
Lemma opened_file_methods_witness :
  exists f' s', do_dentry_open (new O_RDWR (1, 2)) 2 None s0 = (0, f', s') /\
    has (of_mode f') FMODE_CAN_READ = true /\ has (of_mode f') FMODE_LSEEK = false.
Proof.
  destruct (do_dentry_open (new O_RDWR (1, 2)) 2 None s0) as [[e f'] s'] eqn:E.
  assert (e = 0) as -> by (apply (f_equal (fun r => r.1.1)) in E; vm_compute in E; congruence).
  exists f', s'. split; [done|].
  assert (fresh_file (new O_RDWR (1, 2))) as Hf by (vm_compute; split_and!; reflexivity).
  destruct (opened_file_methods _ _ _ _ _ _ Hf E) as (_ & Hr & _).
  injection E as <- <-. split; [|vm_compute; reflexivity]. rewrite Hr. vm_compute. reflexivity.
Defined.
End Demo.
