(* ===== verification/FileAttr.v ===== *)
(** * System calls on paths and attributes

    open.c 42-880: [truncate], [fallocate], [access], [chdir], [chroot],
    [chmod], [chown] and their variants.  A call takes references and write
    accesses and leaves through labels that give them back; [holding] is such
    a region.  The path walk, permission checks, the file system's
    [notify_change] and [fallocate] and the delegation machinery are
    interfaces over a world of type [W]; [attr_log] and [falloc_log] keep the
    requests file systems got, for the statements only. *)
From S2P Require Import Prelude Task Ledger Open OpenFile.
From S2P Require Seek.

Abbreviation FMODE_WRITE := 2 (only parsing).
Abbreviation ATTR_MODE := 1 (only parsing).
Abbreviation ATTR_UID := 2 (only parsing).
Abbreviation ATTR_GID := 4 (only parsing).
Abbreviation ATTR_SIZE := 8 (only parsing).
Abbreviation ATTR_MTIME := 32 (only parsing).
Abbreviation ATTR_CTIME := 64 (only parsing).
Abbreviation ATTR_FORCE := 512 (only parsing).
Abbreviation ATTR_KILL_SUID := 2048 (only parsing).
Abbreviation ATTR_FILE := 8192 (only parsing).
Abbreviation ATTR_KILL_PRIV := 16384 (only parsing).
Abbreviation FALLOC_FL_KEEP_SIZE := 1 (only parsing).
Abbreviation FALLOC_FL_PUNCH_HOLE := 2 (only parsing).
Abbreviation FALLOC_FL_COLLAPSE_RANGE := 8 (only parsing).
Abbreviation FALLOC_FL_ZERO_RANGE := 16 (only parsing).
Abbreviation FALLOC_FL_INSERT_RANGE := 32 (only parsing).
Abbreviation FALLOC_FL_UNSHARE_RANGE := 64 (only parsing).
Abbreviation FALLOC_FL_SUPPORTED_MASK := 123 (only parsing).
Abbreviation AT_SYMLINK_NOFOLLOW := 256 (only parsing).
Abbreviation AT_EACCESS := 512 (only parsing).
Abbreviation AT_EMPTY_PATH := 4096 (only parsing).
Abbreviation S_IRWXO := 7 (only parsing).
Abbreviation S_IWOTH := 2 (only parsing).
Abbreviation MAY_EXEC := 1 (only parsing).
Abbreviation MAY_ACCESS := 16 (only parsing).
Abbreviation MAY_CHDIR := 64 (only parsing).
Abbreviation CAP_SYS_CHROOT := 18 (only parsing).
Abbreviation ESTALE := 116 (only parsing).

Definition S_ISFIFO (m : Z) : bool := Z.land m S_IFMT =? 4096.
Definition S_ISBLK (m : Z) : bool := Z.land m S_IFMT =? 24576.

(** Credentials with the capability sets [access] switches. *)
Record acred := ACred { ids_of : cred; cap_effective : Z; cap_permitted : Z; no_setuid_fixup : bool }.
Record ainode := AInode {
  i_mode : Z; i_append : bool; i_immutable : bool; i_swapfile : bool; i_maxbytes : Z; i_fallocate : bool;
}.
Record iattr := IAttr { ia_valid : Z; ia_mode : Z; ia_size : Z; ia_vfsuid : Z; ia_vfsgid : Z }.
Record afile := AFile { af_flags : Z; af_mode : Z; af_path : Z * Z }.

Inductive ares := MntWrite (mnt : Z) | InodeWrite (ino : Z) | APath (p : Z * Z) | AFd (fd : Z) | SbWrite (ino : Z).
#[global] Instance ares_eq_dec : EqDecision ares.
Proof. solve_decision. Defined.

Record astate (W : Type) := AState {
  acur : acred;                              (** [current->cred] *)
  pwd : Z * Z; root : Z * Z;                 (** [current->fs] *)
  aheld : ledger ares;
  attr_log : list (ainode * iattr);
  falloc_log : list (ainode * Z * Z * Z);
  aworld : W;
}.
Arguments AState {W}. Arguments acur {W}. Arguments pwd {W}. Arguments root {W}. Arguments aheld {W}.
Arguments attr_log {W}. Arguments falloc_log {W}. Arguments aworld {W}.

Class AttrEnv (W : Type) := {
  user_path_at : acred -> Z -> Z -> Z -> W -> Z + Z * Z;    (** dfd, name, lookup flags *)
  afdget : Z -> W -> option afile;
  afdget_raw : Z -> W -> option afile;
  d_inode : Z -> Z;                                         (** inode of a dentry *)
  ainodes : Z -> W -> ainode;
  inode_permission : acred -> Z -> Z -> Z -> W -> Z;        (** mount, inode, mask *)
  mnt_want_write : Z -> W -> Z;
  mnt_want_write_file : afile -> W -> Z;
  get_write_access : Z -> W -> Z;
  break_lease : Z -> Z -> W -> Z;
  mnt_is_readonly : Z -> W -> bool;
  path_noexec : Z * Z -> W -> bool;
  d_can_lookup : Z -> W -> bool;
  security_path_truncate : Z * Z -> W -> Z;
  security_path_chroot : Z * Z -> W -> Z;
  security_path_chmod : Z * Z -> Z -> W -> Z;
  security_path_chown : Z * Z -> Z -> Z -> W -> Z;          (** ids as the mount sees them *)
  security_file_truncate : afile -> W -> Z;
  security_file_permission : afile -> Z -> W -> Z;
  fsnotify_area : afile -> Z -> Z -> W -> Z;
  dentry_needs_remove_privs : Z -> Z -> W -> Z;
  should_drop_sgid : Z -> Z -> W -> Z;                      (** [setattr_should_drop_sgid] *)
  notify_change : Z -> iattr -> W -> Z * bool * W;          (** error, delegation found *)
  break_deleg_wait : Z -> W -> Z * W;
  delegations : Z -> W -> nat;                              (** outstanding on an inode *)
  op_fallocate : Z -> Z -> Z -> Z -> W -> Z * W;
  prepare_creds_ok : W -> bool;
}.

Section attr.
Context {W : Type} {aenv : AttrEnv W} {caps : Caps} {uns : UserNs}.
#[local] Abbreviation st := (astate W).

Definition set_held (l : ledger ares) (s : st) : st :=
  AState (acur s) (pwd s) (root s) l (attr_log s) (falloc_log s) (aworld s).
Definition set_cred (c : acred) (s : st) : st :=
  AState c (pwd s) (root s) (aheld s) (attr_log s) (falloc_log s) (aworld s).
Definition set_aworld (w : W) (s : st) : st :=
  AState (acur s) (pwd s) (root s) (aheld s) (attr_log s) (falloc_log s) w.

(** The region between taking [r] and the label that gives it back. *)
Definition holding (r : ares) (m : sys st Z) : sys st Z := fun s =>
  let '(e, s') := run m (set_held (take_one r (aheld s)) s) in
  (Val e, set_held (drop_one r (aheld s')) s').

Definition inode_of (p : Z * Z) : sys st ainode := sgets (fun s => ainodes (d_inode p.2) (aworld s)).

(** [retry_estale(error, flags)] and the loop around a path walk: [body]
    returns its error and whether the error comes to the check. *)
Definition retry_estale (error flags : Z) : bool := (error =? - ESTALE) && negb (has flags LOOKUP_REVAL).
Fixpoint retry_lookup (fuel : nat) (flags : Z) (body : Z -> sys st (Z * bool)) : sys st Z :=
  let* r := body flags in
  if r.2 && retry_estale r.1 flags then
    match fuel with
    | O => sret r.1
    | S n => retry_lookup n (flags .| LOOKUP_REVAL) body
    end
  else sret r.1.

(** [user_path_at(..); ..; path_put(&path);] with [checked] telling whether an
    error of the walk itself comes to the check. *)
Definition with_path (dfd name flags : Z) (checked : bool) (body : Z * Z -> sys st Z) : sys st (Z * bool) :=
  let* s := sgets (fun s => s) in
  match user_path_at (acur s) dfd name flags (aworld s) with
  | inl e => sret (e, checked)
  | inr p => let* e := holding (APath p) (body p) in sret (e, true)
  end.

(** [want(mnt); ..; mnt_drop_write(mnt);] *)
Definition with_write (want : W -> Z) (mnt : Z) (body : sys st Z) : sys st Z :=
  let* error := sgets (fun s => want (aworld s)) in
  do* fail_if (negb (error =? 0)) error in
  holding (MntWrite mnt) body.

(** The request reaches the file system. *)
Definition do_notify_change (p : Z * Z) (a : iattr) : sys st (Z * bool) := fun s =>
  let i := d_inode p.2 in
  let '(e, d, w) := notify_change i a (aworld s) in
  (Val (e, d), AState (acur s) (pwd s) (root s) (aheld s) ((ainodes i (aworld s), a) :: attr_log s) (falloc_log s) w).

(** ** Truncation *)
Definition do_truncate (p : Z * Z) (length time_attrs : Z) (filp : bool) : sys st Z :=
  do* fail_if (length <? 0) (- EINVAL) in
  let valid := set_if filp ATTR_FILE (ATTR_SIZE .| time_attrs) in
  let* ret := sgets (fun s => dentry_needs_remove_privs p.1 p.2 (aworld s)) in
  do* fail_if (ret <? 0) ret in
  let valid := if negb (ret =? 0) then valid .| (ret .| ATTR_FORCE) else valid in
  let* r := do_notify_change p (IAttr valid 0 length 0 0) in
  sret r.1.

Definition vfs_truncate (p : Z * Z) (length : Z) : sys st Z :=
  let i := d_inode p.2 in
  let* inode := inode_of p in
  do* fail_if (S_ISDIR (i_mode inode)) (- EISDIR) in
  do* fail_if (negb (S_ISREG (i_mode inode))) (- EINVAL) in
  with_write (mnt_want_write p.1) p.1 (
    let* error := sgets (fun s => inode_permission (acur s) p.1 i MAY_WRITE (aworld s)) in
    do* fail_if (negb (error =? 0)) error in
    do* fail_if (i_append inode) (- EPERM) in
    let* error := sgets (fun s => get_write_access i (aworld s)) in
    do* fail_if (negb (error =? 0)) error in
    holding (InodeWrite i) (
      let* error := sgets (fun s => break_lease i O_WRONLY (aworld s)) in
      do* fail_if (negb (error =? 0)) error in
      let* error := sgets (fun s => security_path_truncate p (aworld s)) in
      do* fail_if (negb (error =? 0)) error in
      do_truncate p length 0 false)).

Definition do_sys_truncate (pathname length : Z) : sys st Z :=
  do* fail_if (length <? 0) (- EINVAL) in
  retry_lookup 1 LOOKUP_FOLLOW (fun lookup_flags =>
    with_path AT_FDCWD pathname lookup_flags true (fun p => vfs_truncate p length)).
Definition sys_truncate (path length : Z) : sys st Z := do_sys_truncate path length.
Definition compat_sys_truncate (path length : Z) : sys st Z := do_sys_truncate path (s32 length).

Definition do_sys_ftruncate (fd length : Z) (small : bool) : sys st Z :=
  do* fail_if (length <? 0) (- EINVAL) in
  let* s := sgets (fun s => s) in
  let* f := some_or (afdget fd (aworld s)) (- EBADF) in
  holding (AFd fd) (
    let small := if has (af_flags f) O_LARGEFILE then false else small in
    let* inode := inode_of (af_path f) in
    do* fail_if (negb (S_ISREG (i_mode inode)) || negb (has (af_mode f) FMODE_WRITE)) (- EINVAL) in
    do* fail_if (small && (MAX_NON_LFS <? length)) (- EINVAL) in
    do* fail_if (i_append inode) (- EPERM) in
    holding (SbWrite (d_inode (af_path f).2)) (
      let* error := sgets (fun s => security_file_truncate f (aworld s)) in
      do* fail_if (negb (error =? 0)) error in
      do_truncate (af_path f) length (ATTR_MTIME .| ATTR_CTIME) true)).
Definition sys_ftruncate (fd length : Z) : sys st Z := do_sys_ftruncate fd (s64 length) true.
Definition compat_sys_ftruncate (fd length : Z) : sys st Z := do_sys_ftruncate fd (u32 length) true.

(** ** Allocation *)

(** The checks of the mode that [vfs_fallocate] starts with: 0 or the error. *)
Definition falloc_mode_error (mode : Z) : Z :=
  if outside mode FALLOC_FL_SUPPORTED_MASK then - EOPNOTSUPP
  else if has_all mode (FALLOC_FL_PUNCH_HOLE .| FALLOC_FL_ZERO_RANGE) then - EOPNOTSUPP
  else if has mode FALLOC_FL_PUNCH_HOLE && negb (has mode FALLOC_FL_KEEP_SIZE) then - EOPNOTSUPP
  else if has mode FALLOC_FL_COLLAPSE_RANGE && outside mode FALLOC_FL_COLLAPSE_RANGE then - EINVAL
  else if has mode FALLOC_FL_INSERT_RANGE && outside mode FALLOC_FL_INSERT_RANGE then - EINVAL
  else if has mode FALLOC_FL_UNSHARE_RANGE && outside mode (FALLOC_FL_UNSHARE_RANGE .| FALLOC_FL_KEEP_SIZE)
  then - EINVAL else 0.

Definition vfs_fallocate (f : afile) (mode offset len : Z) : sys st Z :=
  let i := d_inode (af_path f).2 in
  let* inode := inode_of (af_path f) in
  do* fail_if ((offset <? 0) || (len <=? 0)) (- EINVAL) in
  do* fail_if (negb (falloc_mode_error mode =? 0)) (falloc_mode_error mode) in
  do* fail_if (negb (has (af_mode f) FMODE_WRITE)) (- EBADF) in
  do* fail_if (outside mode FALLOC_FL_KEEP_SIZE && i_append inode) (- EPERM) in
  do* fail_if (i_immutable inode) (- EPERM) in
  do* fail_if (i_swapfile inode) (- ETXTBSY) in
  let* ret := sgets (fun s => security_file_permission f MAY_WRITE (aworld s)) in
  do* fail_if (negb (ret =? 0)) ret in
  let* ret := sgets (fun s => fsnotify_area f offset len (aworld s)) in
  do* fail_if (negb (ret =? 0)) ret in
  do* fail_if (S_ISFIFO (i_mode inode)) (- ESPIPE) in
  do* fail_if (S_ISDIR (i_mode inode)) (- EISDIR) in
  do* fail_if (negb (S_ISREG (i_mode inode)) && negb (S_ISBLK (i_mode inode))) (- ENODEV) in
  do* fail_if ((i_maxbytes inode <? s64 (offset + len)) || (s64 (offset + len) <? 0)) (- EFBIG) in
  do* fail_if (negb (i_fallocate inode)) (- EOPNOTSUPP) in
  holding (SbWrite i) (fun s =>
    let '(ret, w) := op_fallocate i mode offset len (aworld s) in
    (Val ret, AState (acur s) (pwd s) (root s) (aheld s) (attr_log s)
                ((inode, mode, offset, len) :: falloc_log s) w)).

(** [fdget(fd); ..; fdput(f);] with -EBADF in between *)
Definition with_fd (fd : Z) (body : afile -> sys st Z) : sys st Z :=
  let* s := sgets (fun s => s) in
  let* f := some_or (afdget fd (aworld s)) (- EBADF) in
  holding (AFd fd) (body f).
Definition ksys_fallocate (fd mode offset len : Z) : sys st Z :=
  with_fd fd (fun f => vfs_fallocate f mode offset len).

(** ** Access *)
Definition access_need_override_creds (c : acred) (flags : Z) : bool :=
  if has flags AT_EACCESS then false
  else
    let cred := ids_of c in
    if negb (fsuid cred =? uid cred) || negb (fsgid cred =? gid cred) then true
    else if negb (no_setuid_fixup c) then
      let root_uid := make_kuid (user_ns cred) 0 in
      if negb (uid cred =? root_uid) then negb (cap_effective c =? 0)
      else negb (cap_effective c =? cap_permitted c)
    else false.
Definition access_override_creds (c : acred) : acred :=
  let k := ids_of c in
  let k := Cred (uid k) (gid k) (suid k) (sgid k) (euid k) (egid k) (uid k) (gid k) (user k) (user_ns k) (ucounts k) in
  let eff := if negb (no_setuid_fixup c)
             then if negb (uid k =? make_kuid (user_ns k) 0) then 0 else cap_permitted c
             else cap_effective c in
  ACred k eff (cap_permitted c) (no_setuid_fixup c).

Definition access_path (mode : Z) (p : Z * Z) : sys st Z :=
  let* inode := inode_of p in
  let* noexec := sgets (fun s => path_noexec p (aworld s)) in
  do* fail_if (has mode MAY_EXEC && S_ISREG (i_mode inode) && noexec) (- EACCES) in
  let* res := sgets (fun s => inode_permission (acur s) p.1 (d_inode p.2) (mode .| MAY_ACCESS) (aworld s)) in
  if negb (res =? 0) || negb (has mode S_IWOTH) || special_file (i_mode inode) then sret res
  else let* ro := sgets (fun s => mnt_is_readonly p.1 (aworld s)) in sret (if ro then - EROFS else res).

Definition do_faccessat (dfd filename mode flags : Z) : sys st Z :=
  do* fail_if (outside mode S_IRWXO) (- EINVAL) in
  do* fail_if (outside flags (AT_EACCESS .| AT_SYMLINK_NOFOLLOW .| AT_EMPTY_PATH)) (- EINVAL) in
  let lookup := if has flags AT_SYMLINK_NOFOLLOW then 0 else LOOKUP_FOLLOW in
  let lookup := set_if (has flags AT_EMPTY_PATH) LOOKUP_EMPTY lookup in
  let* s := sgets (fun s => s) in
  let old := acur s in
  let override := access_need_override_creds old flags in
  do* fail_if (override && negb (prepare_creds_ok (aworld s))) (- ENOMEM) in
  do* (if override then smodify (set_cred (access_override_creds old)) else sret tt) in
  let* res := retry_lookup 1 lookup (fun lf => with_path dfd filename lf false (access_path mode)) in
  do* (if override then smodify (set_cred old) else sret tt) in
  sret res.
Definition sys_faccessat (dfd filename mode : Z) : sys st Z := do_faccessat dfd filename mode 0.
Definition sys_faccessat2 (dfd filename mode flags : Z) : sys st Z := do_faccessat dfd filename mode flags.
Definition sys_access (filename mode : Z) : sys st Z := do_faccessat AT_FDCWD filename mode 0.

(** ** Directories of the task *)
Definition set_fs_pwd (p : Z * Z) (s : st) : st :=
  AState (acur s) p (root s) (aheld s) (attr_log s) (falloc_log s) (aworld s).
Definition set_fs_root (p : Z * Z) (s : st) : st :=
  AState (acur s) (pwd s) p (aheld s) (attr_log s) (falloc_log s) (aworld s).
Definition path_permission (p : Z * Z) (mask : Z) : sys st Z :=
  sgets (fun s => inode_permission (acur s) p.1 (d_inode p.2) mask (aworld s)).

Definition sys_chdir (filename : Z) : sys st Z :=
  retry_lookup 1 (LOOKUP_FOLLOW .| LOOKUP_DIRECTORY) (fun lf => with_path AT_FDCWD filename lf false (fun p =>
    let* error := path_permission p (MAY_EXEC .| MAY_CHDIR) in
    do* fail_if (negb (error =? 0)) error in
    do* smodify (set_fs_pwd p) in sret error)).
Definition sys_fchdir (fd : Z) : sys st Z :=
  let* s := sgets (fun s => s) in
  let* f := some_or (afdget_raw fd (aworld s)) (- EBADF) in
  holding (AFd fd) (
    do* fail_if (negb (d_can_lookup (af_path f).2 (aworld s))) (- ENOTDIR) in
    let* error := path_permission (af_path f) (MAY_EXEC .| MAY_CHDIR) in
    do* fail_if (negb (error =? 0)) error in
    do* smodify (set_fs_pwd (af_path f)) in sret error).
Definition sys_chroot (filename : Z) : sys st Z :=
  retry_lookup 1 (LOOKUP_FOLLOW .| LOOKUP_DIRECTORY) (fun lf => with_path AT_FDCWD filename lf false (fun p =>
    let* error := path_permission p (MAY_EXEC .| MAY_CHDIR) in
    do* fail_if (negb (error =? 0)) error in
    let* c := sgets acur in
    do* fail_if (negb (ns_capable (user_ns (ids_of c)) CAP_SYS_CHROOT)) (- EPERM) in
    let* error := sgets (fun s => security_path_chroot p (aworld s)) in
    do* fail_if (negb (error =? 0)) error in
    do* smodify (set_fs_root p) in sret 0)).

(** ** Modes and owners *)

(** The loop at [retry_deleg]; [None] when the fuel does not suffice. *)
Fixpoint retry_deleg (fuel : nat) (i : Z) (attempt : sys st (Z * bool)) : sys st (option Z) :=
  match fuel with
  | O => sret None
  | S n =>
      let* r := attempt in
      if r.2 then
        let* error := (fun s => let '(e, w) := break_deleg_wait i (aworld s) in (Val e, set_aworld w s)) in
        if error =? 0 then retry_deleg n i attempt else sret (Some error)
      else sret (Some r.1)
  end.
(** One attempt more than there are delegations. *)
Definition break_delegations (i : Z) (attempt : sys st (Z * bool)) : sys st Z :=
  let* fuel := sgets (fun s => S (delegations i (aworld s))) in
  let* r := retry_deleg fuel i attempt in
  sret (default (- EAGAIN) r).

Definition chmod_attempt (p : Z * Z) (mode : Z) : sys st (Z * bool) :=
  let* inode := inode_of p in
  let* error := sgets (fun s => security_path_chmod p mode (aworld s)) in
  if negb (error =? 0) then sret (error, false)
  else do_notify_change p
         (IAttr (ATTR_MODE .| ATTR_CTIME) (Z.land mode S_IALLUGO .| Z.ldiff (i_mode inode) S_IALLUGO) 0 0 0).
Definition chmod_common (p : Z * Z) (mode : Z) : sys st Z :=
  with_write (mnt_want_write p.1) p.1 (break_delegations (d_inode p.2) (chmod_attempt p mode)).
Definition vfs_fchmod (f : afile) (mode : Z) : sys st Z := chmod_common (af_path f) mode.
Definition sys_fchmod (fd mode : Z) : sys st Z := with_fd fd (fun f => vfs_fchmod f mode).

Definition at_lookup (flags : Z) : Z :=
  set_if (has flags AT_EMPTY_PATH) LOOKUP_EMPTY (if has flags AT_SYMLINK_NOFOLLOW then 0 else LOOKUP_FOLLOW).
Definition do_fchmodat (dfd filename mode flags : Z) : sys st Z :=
  do* fail_if (outside flags (AT_SYMLINK_NOFOLLOW .| AT_EMPTY_PATH)) (- EINVAL) in
  retry_lookup 1 (at_lookup flags) (fun lf => with_path dfd filename lf false (fun p => chmod_common p mode)).
Definition sys_fchmodat2 (dfd filename mode flags : Z) : sys st Z := do_fchmodat dfd filename mode flags.
Definition sys_fchmodat (dfd filename mode : Z) : sys st Z := do_fchmodat dfd filename mode 0.
Definition sys_chmod (filename mode : Z) : sys st Z := do_fchmodat AT_FDCWD filename mode 0.

Definition setattr_vfsuid (a : iattr) (kuid : Z) : option iattr :=
  if negb (uid_valid kuid) then None
  else Some (IAttr (ia_valid a .| ATTR_UID) (ia_mode a) (ia_size a) kuid (ia_vfsgid a)).
Definition setattr_vfsgid (a : iattr) (kgid : Z) : option iattr :=
  if negb (gid_valid kgid) then None
  else Some (IAttr (ia_valid a .| ATTR_GID) (ia_mode a) (ia_size a) (ia_vfsuid a) kgid).
Definition chown_attempt (p : Z * Z) (user group kuid kgid : Z) : sys st (Z * bool) :=
  let a := IAttr ATTR_CTIME 0 0 NO_ID NO_ID in
  let* a := some_or (if negb (user =? NO_ID) then setattr_vfsuid a kuid else Some a) (- EINVAL) in
  let* a := some_or (if negb (group =? NO_ID) then setattr_vfsgid a kgid else Some a) (- EINVAL) in
  let* inode := inode_of p in
  let* sgid := sgets (fun s => should_drop_sgid p.1 (d_inode p.2) (aworld s)) in
  let a := if negb (S_ISDIR (i_mode inode))
           then IAttr (ia_valid a .| (ATTR_KILL_SUID .| ATTR_KILL_PRIV .| sgid)) (ia_mode a) (ia_size a)
                  (ia_vfsuid a) (ia_vfsgid a)
           else a in
  let* error := sgets (fun s => security_path_chown p (ia_vfsuid a) (ia_vfsgid a) (aworld s)) in
  if negb (error =? 0) then sret (error, false) else do_notify_change p a.
Definition chown_common (p : Z * Z) (user group : Z) : sys st Z :=
  let* c := sgets acur in
  let ns := user_ns (ids_of c) in
  break_delegations (d_inode p.2) (chown_attempt p user group (make_kuid ns user) (make_kgid ns group)).

Definition do_fchownat (dfd filename user group flag : Z) : sys st Z :=
  do* fail_if (outside flag (AT_SYMLINK_NOFOLLOW .| AT_EMPTY_PATH)) (- EINVAL) in
  retry_lookup 1 (at_lookup flag) (fun lf => with_path dfd filename lf false (fun p =>
    with_write (mnt_want_write p.1) p.1 (chown_common p user group))).
Definition sys_fchownat (dfd filename user group flag : Z) : sys st Z := do_fchownat dfd filename user group flag.
Definition sys_chown (filename user group : Z) : sys st Z := do_fchownat AT_FDCWD filename user group 0.
Definition sys_lchown (filename user group : Z) : sys st Z :=
  do_fchownat AT_FDCWD filename user group AT_SYMLINK_NOFOLLOW.
Definition vfs_fchown (f : afile) (user group : Z) : sys st Z :=
  with_write (mnt_want_write_file f) (af_path f).1 (chown_common (af_path f) user group).
Definition ksys_fchown (fd user group : Z) : sys st Z := with_fd fd (fun f => vfs_fchown f user group).
End attr.

Inductive acall :=
| CTruncate (path length : Z) | CCompatTruncate (path length : Z)
| CFtruncate (fd length : Z) | CCompatFtruncate (fd length : Z)
| CFallocate (fd mode offset len : Z)
| CFaccessat2 (dfd name mode flags : Z) | CFaccessat (dfd name mode : Z) | CAccess (name mode : Z)
| CChdir (name : Z) | CFchdir (fd : Z) | CChroot (name : Z)
| CFchmod (fd mode : Z) | CFchmodat2 (dfd name mode flags : Z) | CFchmodat (dfd name mode : Z) | CChmod (name mode : Z)
| CFchownat (dfd name user group flag : Z) | CChown (name user group : Z) | CLchown (name user group : Z)
| CFchown (fd user group : Z).
Definition exec_attr {W} {aenv : AttrEnv W} {caps : Caps} {uns : UserNs} (c : acall) : sys (astate W) Z :=
  match c with
  | CTruncate p l => sys_truncate p l | CCompatTruncate p l => compat_sys_truncate p l
  | CFtruncate fd l => sys_ftruncate fd l | CCompatFtruncate fd l => compat_sys_ftruncate fd l
  | CFallocate fd m o l => ksys_fallocate fd m o l
  | CFaccessat2 d n m fl => sys_faccessat2 d n m fl | CFaccessat d n m => sys_faccessat d n m
  | CAccess n m => sys_access n m
  | CChdir n => sys_chdir n | CFchdir fd => sys_fchdir fd | CChroot n => sys_chroot n
  | CFchmod fd m => sys_fchmod fd m | CFchmodat2 d n m fl => sys_fchmodat2 d n m fl
  | CFchmodat d n m => sys_fchmodat d n m | CChmod n m => sys_chmod n m
  | CFchownat d n u g fl => sys_fchownat d n u g fl | CChown n u g => sys_chown n u g
  | CLchown n u g => sys_lchown n u g | CFchown fd u g => ksys_fchown fd u g
  end.

(** ** Properties *)
Section properties.
Context {W : Type} {aenv : AttrEnv W} {caps : Caps} {uns : UserNs}.
Implicit Types s : astate W.
#[local] Abbreviation st := (astate W).

(** *** Combinators *)
Lemma run_keeps (R : st -> st -> Prop) (m : sys st Z) s : keeps R m -> R s (run m s).2.
Proof. intros Hm. destruct (run m s) as [r s'] eqn:E. by eapply keeps_run. Qed.

Section combinators.
Context (R : st -> st -> Prop) `{!PreOrder R}.
Lemma keeps_with_path dfd name flags checked body :
  (forall p, keeps R (holding (APath p) (body p))) -> keeps R (with_path dfd name flags checked body).
Proof. intros Hb. unfold with_path. apply keeps_bind; [done|auto with keeps|]. intros s. case_match; eauto with keeps. Qed.
Lemma keeps_retry_lookup fuel flags body :
  (forall fl, keeps R (body fl)) -> keeps R (retry_lookup fuel flags body).
Proof. intros Hb. revert flags. induction fuel; intros flags; simpl; eauto 10 with keeps. Qed.
Lemma keeps_retry_deleg fuel i attempt : (forall s w, R s (set_aworld w s)) ->
  keeps R attempt -> keeps R (retry_deleg fuel i attempt).
Proof.
  intros Hw Ha. induction fuel; simpl; [auto with keeps|].
  apply keeps_bind; [done|done|]. intros [e d]. simpl. destruct d; [|auto with keeps].
  apply keeps_bind; [done| |].
  - intros s o s' E. destruct (break_deleg_wait i (aworld s)). injection E as <- <-. apply Hw.
  - intros e'. destruct (e' =? 0); auto with keeps.
Qed.
Lemma keeps_break_delegations i attempt : (forall s w, R s (set_aworld w s)) ->
  keeps R attempt -> keeps R (break_delegations i attempt).
Proof. intros. unfold break_delegations. eauto 10 using keeps_retry_deleg with keeps. Qed.
Lemma keeps_with_write want mnt body :
  keeps R (holding (MntWrite mnt) body) -> keeps R (with_write want mnt body).
Proof. intros. unfold with_write. auto 10 with keeps. Qed.
Lemma keeps_with_fd fd body :
  (forall f, keeps R (holding (AFd fd) (body f))) -> keeps R (with_fd fd body).
Proof. intros. unfold with_fd. auto 10 with keeps. Qed.
End combinators.

(** A walk always comes back to the code behind the loop. *)
Definition returns {A} (m : sys st A) : Prop := forall s, exists a s', m s = (Val a, s').
Lemma returns_with_path dfd name flags checked body : returns (with_path dfd name flags checked body).
Proof.
  intros s. unfold with_path, sbind, sgets. cbn. destruct (user_path_at _ _ _ _ _) as [e|p]; [unfold sret; eauto|].
  unfold holding. destruct (run (body p) _). cbn. unfold sret. eauto.
Qed.
Lemma returns_retry_lookup fuel flags body : (forall fl, returns (body fl)) -> returns (retry_lookup fuel flags body).
Proof.
  intros Hb. revert flags. induction fuel as [|n IH]; intros flags s; simpl; unfold sbind;
    destruct (Hb flags s) as ([e c] & s1 & ->); simpl; case_match; unfold sret; eauto. apply IH.
Qed.

(** *** Nothing stays held *)
Definition quiet s s' : Prop := aheld s' ≡ aheld s /\ acur s' = acur s.
#[local] Instance quiet_preorder : PreOrder quiet.
Proof.
  split; [by intros s|]. intros s1 s2 s3 [H1 C1] [H2 C2]. split; [by rewrite H2|by rewrite C2].
Qed.
Lemma quiet_holding r (m : sys st Z) : keeps quiet m -> keeps quiet (holding r m).
Proof.
  intros Hm s o s' E. unfold holding in E.
  destruct (run m (set_held (take_one r (aheld s)) s)) as [e s1] eqn:Er. injection E as <- <-.
  apply (keeps_run _ _ _ _ _ Hm) in Er as [Hh Hc]. split; [|done]. cbn in *. rewrite Hh. apply drop_take.
Qed.
Lemma quiet_notify p a : keeps quiet (do_notify_change p a).
Proof. intros s o s' E. unfold do_notify_change in E. repeat case_match. by injection E as <- <-. Qed.
Lemma quiet_modify (f : st -> st) : (forall s, quiet s (f s)) -> keeps quiet (smodify f).
Proof. apply keeps_modify. Qed.
#[local] Hint Resolve quiet_holding quiet_notify keeps_with_path keeps_retry_lookup keeps_break_delegations
  keeps_with_write keeps_with_fd : keeps.
#[local] Hint Extern 1 (PreOrder quiet) => apply quiet_preorder : keeps.
#[local] Hint Extern 2 (quiet _ _) => by split : keeps.
Lemma quiet_inode_of p : keeps quiet (inode_of p).
Proof. apply keeps_gets. apply _. Qed.
Lemma quiet_path_permission p mask : keeps quiet (path_permission p mask).
Proof. apply keeps_gets. apply _. Qed.
#[local] Hint Resolve quiet_inode_of quiet_path_permission : keeps.

Lemma quiet_truncate p length t f : keeps quiet (do_truncate p length t f).
Proof. unfold do_truncate. auto 20 with keeps. Qed.
Lemma quiet_attempt_chmod p mode : keeps quiet (chmod_attempt p mode).
Proof. unfold chmod_attempt. auto 20 with keeps. Qed.
Lemma quiet_attempt_chown p u g ku kg : keeps quiet (chown_attempt p u g ku kg).
Proof. unfold chown_attempt. auto 30 with keeps. Qed.
#[local] Hint Resolve quiet_truncate quiet_attempt_chmod quiet_attempt_chown : keeps.
Lemma quiet_vfs_truncate p length : keeps quiet (vfs_truncate p length).
Proof. unfold vfs_truncate. auto 40 with keeps. Qed.
Lemma quiet_ftruncate fd length small : keeps quiet (do_sys_ftruncate fd length small).
Proof. unfold do_sys_ftruncate. auto 40 with keeps. Qed.
Lemma quiet_vfs_fallocate f mode offset len : keeps quiet (vfs_fallocate f mode offset len).
Proof.
  unfold vfs_fallocate. repeat (apply keeps_bind; [apply _|auto with keeps|intros ?]).
  apply quiet_holding. intros s o s' E. repeat case_match. by injection E as <- <-.
Qed.
Lemma quiet_access_path mode p : keeps quiet (access_path mode p).
Proof. unfold access_path. auto 20 with keeps. Qed.
Lemma quiet_chmod p mode : keeps quiet (chmod_common p mode).
Proof. unfold chmod_common. auto 20 with keeps. Qed.
Lemma quiet_chown p u g : keeps quiet (chown_common p u g).
Proof. unfold chown_common. auto 20 with keeps. Qed.
#[local] Hint Resolve quiet_vfs_truncate quiet_ftruncate quiet_vfs_fallocate quiet_access_path quiet_chmod
  quiet_chown : keeps.

Lemma quiet_faccessat dfd name mode flags : keeps quiet (do_faccessat dfd name mode flags).
Proof.
  unfold do_faccessat. set (walk := retry_lookup _ _ _).
  assert (keeps quiet walk) as Hk by (subst walk; auto 20 with keeps).
  assert (returns walk) as Hr by (apply returns_retry_lookup; intros; apply returns_with_path). clearbody walk.
  intros s o s' E. sys_inv E; try (by split);
    apply bind_inv in E as [(e & E & ->)|(res & s1 & E & E')]; pose proof (Hk _ _ _ E) as [Hh Hc];
    try sys_inv E'; cbn in *.
  all: try (split; [done|by rewrite ?Hc]).
  edestruct Hr as (? & ? & Hx). by rewrite E in Hx.
Qed.

(** Whatever path a call on paths or attributes takes, with every error
    exit and every retry, it returns with all path and descriptor references
    and write accesses given back and with the caller's own credentials, also
    after [access] has run with others. *)
Theorem attr_calls_hold_nothing cs s :
  aheld (run_all exec_attr cs s) ≡ aheld s /\ acur (run_all exec_attr cs s) = acur s.
Proof.
  apply (keeps_run_all quiet exec_attr cs s). clear. intros c.
  destruct c; cbn [exec_attr];
    unfold sys_truncate, compat_sys_truncate, do_sys_truncate, sys_ftruncate, compat_sys_ftruncate, ksys_fallocate,
      sys_faccessat2, sys_faccessat, sys_access, sys_chdir, sys_fchdir, sys_chroot, sys_fchmod, sys_fchmodat2,
      sys_fchmodat, sys_chmod, do_fchmodat, vfs_fchmod, sys_fchownat, sys_chown, sys_lchown, do_fchownat, ksys_fchown,
      vfs_fchown; auto 40 using quiet_faccessat with keeps.
Qed.

(** *** Credentials of [access] *)

(** [access_need_override_creds] is in step with [access_override_creds],
    as the comment there asks for: the override is skipped exactly when it
    would change nothing. *)
Theorem access_override_in_sync c flags : has flags AT_EACCESS = false ->
  (access_need_override_creds c flags = false <-> access_override_creds c = c).
Proof.
  intros Hf. unfold access_need_override_creds, access_override_creds. rewrite Hf.
  destruct c as [[ui gi su sg eu eg fu fg us ns uc] eff per nofix]. cbn.
  destruct (Z.eqb_spec fu ui) as [->|]; cbn; [|split; [done|intros [=]; congruence]].
  destruct (Z.eqb_spec fg gi) as [->|]; cbn; [|split; [done|intros [=]; congruence]].
  destruct nofix; cbn; [done|].
  destruct (Z.eqb_spec ui (make_kuid ns 0)) as [|]; cbn.
  - destruct (Z.eqb_spec eff per) as [->|]; cbn; [done|split; [done|intros [=]; congruence]].
  - destruct (Z.eqb_spec eff 0) as [->|]; cbn; [done|split; [done|intros [=]; congruence]].
Qed.

(** *** What file systems are asked for *)

(** The privilege bits other subsystems add are not the ones requested here. *)
Class AttrLaws := {
  remove_privs_bits m d (w : W) :
    has (dentry_needs_remove_privs m d w) (ATTR_MODE .| ATTR_UID .| ATTR_GID .| ATTR_SIZE) = false;
  drop_sgid_bits m i (w : W) : has (should_drop_sgid m i w) (ATTR_MODE .| ATTR_UID .| ATTR_GID .| ATTR_SIZE) = false;
}.
Context {laws : AttrLaws}.

Record request_ok (x : ainode * iattr) : Prop := {
  size_ok : has (ia_valid x.2) ATTR_SIZE = true ->
    0 <= ia_size x.2 /\ S_ISREG (i_mode x.1) = true /\ i_append x.1 = false;
  mode_ok : has (ia_valid x.2) ATTR_MODE = true ->
    Z.ldiff (ia_mode x.2) S_IALLUGO = Z.ldiff (i_mode x.1) S_IALLUGO /\ has (ia_valid x.2) ATTR_CTIME = true;
  uid_ok : has (ia_valid x.2) ATTR_UID = true -> uid_valid (ia_vfsuid x.2) = true;
  gid_ok : has (ia_valid x.2) ATTR_GID = true -> gid_valid (ia_vfsgid x.2) = true;
  owner_ok : has (ia_valid x.2) (ATTR_UID .| ATTR_GID) = true -> S_ISDIR (i_mode x.1) = false ->
    has (ia_valid x.2) ATTR_KILL_SUID = true /\ has (ia_valid x.2) ATTR_KILL_PRIV = true;
}.
Definition range_ok (x : ainode * Z * Z * Z) : Prop :=
  let '(inode, mode, offset, len) := x in
  0 <= offset /\ 0 < len /\ offset + len <= i_maxbytes inode /\
  falloc_mode_error mode = 0 /\ i_immutable inode = false /\ i_swapfile inode = false /\
  (i_append inode = true -> outside mode FALLOC_FL_KEEP_SIZE = false) /\
  (S_ISREG (i_mode inode) || S_ISBLK (i_mode inode) = true).
Definition logs_ok s : Prop := Forall request_ok (attr_log s) /\ Forall range_ok (falloc_log s).

Lemma notify_ok p a s o s' : do_notify_change p a s = (o, s') ->
  request_ok (ainodes (d_inode p.2) (aworld s), a) -> logs_ok s -> logs_ok s'.
Proof.
  unfold do_notify_change. intros E Ha [H1 H2]. destruct (notify_change _ _ _) as [[e d] w].
  injection E as <- <-. split; [by constructor|done].
Qed.

Lemma truncate_request_ok inode ret length t filp :
  0 <= length -> S_ISREG (i_mode inode) = true -> i_append inode = false ->
  has ret (ATTR_MODE .| ATTR_UID .| ATTR_GID .| ATTR_SIZE) = false ->
  t = 0 \/ t = ATTR_MTIME .| ATTR_CTIME ->
  let valid := set_if filp ATTR_FILE (ATTR_SIZE .| t) in
  request_ok (inode, IAttr (if negb (ret =? 0) then valid .| (ret .| ATTR_FORCE) else valid) 0 length 0 0).
Proof.
  intros Hl Hr Ha Hret Ht valid.
  assert (has (if negb (ret =? 0) then valid .| (ret .| ATTR_FORCE) else valid)
    (ATTR_MODE .| ATTR_UID .| ATTR_GID) = false) as Hb.
  { subst valid. flag_bits. destruct Ht as [-> | ->]; destruct (negb (ret =? 0));
      flag_bits; by bits_split. }
  split; cbn [fst snd ia_valid ia_size]; try done; intros H; exfalso;
    rewrite !has_lor, !orb_false_iff in Hb; destruct Hb as [[? ?] ?]; try congruence.
  rewrite has_lor in H. apply orb_true_iff in H as [?|?]; congruence.
Qed.

Lemma do_truncate_ok p length t filp s o s' : do_truncate p length t filp s = (o, s') ->
  S_ISREG (i_mode (ainodes (d_inode p.2) (aworld s))) = true ->
  i_append (ainodes (d_inode p.2) (aworld s)) = false -> t = 0 \/ t = ATTR_MTIME .| ATTR_CTIME ->
  logs_ok s -> logs_ok s'.
Proof.
  unfold do_truncate. intros E Hr Ha Ht Hs. sys_inv E; try done.
  apply bind_inv in E as [(e & E & ->)|(r & s1 & E & E')].
  - eapply notify_ok; [exact E| |done]. apply truncate_request_ok; try done; [lia|apply remove_privs_bits].
  - sys_inv E'. eapply notify_ok; [exact E| |done].
    apply truncate_request_ok; try done; [lia|apply remove_privs_bits].
Qed.

#[local] Abbreviation logged := (inv_rel logs_ok).
#[local] Instance logged_preorder : PreOrder logged := inv_rel_preorder logs_ok.
Lemma logged_holding r (m : sys st Z) : keeps logged m -> keeps logged (holding r m).
Proof.
  intros Hm s o s' E Hs. unfold holding in E.
  destruct (run m _) as [e s1] eqn:Er. injection E as <- <-. apply (keeps_run _ _ _ _ _ Hm) in Er. by apply Er.
Qed.
(** A region entered in a known state. *)
Lemma logged_holding_at r (m : sys st Z) s o s' : holding r m s = (o, s') ->
  (forall s1 o1 s2, aworld s1 = aworld s -> logs_ok s1 -> m s1 = (o1, s2) -> logs_ok s2) -> logs_ok s -> logs_ok s'.
Proof.
  unfold holding. intros E Hm Hs. destruct (run m _) as [e s1] eqn:Er. injection E as <- <-.
  apply run_inv in Er as [Er|Er]; by eapply Hm in Er.
Qed.

Lemma logged_vfs_truncate p length : keeps logged (vfs_truncate p length).
Proof.
  intros s o s' E Hs. unfold vfs_truncate, inode_of, with_write in E. sys_inv E; try done.
  eapply logged_holding_at; [exact E| |done]. clear E s'. intros s1 o1 s2 W1 L1 E. sys_inv E; try done.
  eapply logged_holding_at; [exact E| |done]. clear E s2. intros s2 o2 s3 W2 L2 E. sys_inv E; try done.
  eapply do_truncate_ok; [exact E| | |by left|done].
  - rewrite W2, W1. by apply negb_false_iff.
  - by rewrite W2, W1.
Qed.
Lemma logged_ftruncate fd length small : keeps logged (do_sys_ftruncate fd length small).
Proof.
  intros s o s' E Hs. unfold do_sys_ftruncate in E. sys_inv E; try done.
  eapply logged_holding_at; [exact E| |done]. clear E s'. intros s1 o1 s2 W1 L1 E. unfold inode_of in E.
  sys_inv E; try done.
  eapply logged_holding_at; [exact E| |done]. clear E s2. intros s2 o2 s3 W2 L2 E. sys_inv E; try done.
  apply orb_false_iff in H1 as [Hreg _].
  eapply do_truncate_ok; [exact E| | |by right|done].
  - rewrite W2. by apply negb_false_iff.
  - by rewrite W2.
Qed.
Lemma s64_add_bounds a b m : is_s64 a -> is_s64 b -> 0 <= a -> 0 < b ->
  (m <? s64 (a + b)) || (s64 (a + b) <? 0) = false -> a + b <= m.
Proof.
  unfold is_s64, s64. intros Ha Hb Ha0 Hb0 H.
  destruct (decide (a + b < 9223372036854775808)).
  - rewrite Z.mod_small in H by lia. lia.
  - rewrite (Z.mod_eq _ u64_mod) in H by lia.
    replace ((a + b + 9223372036854775808) / u64_mod) with 1 in H; [lia|].
    apply (Z.div_unique _ _ _ (a + b + 9223372036854775808 - u64_mod)); lia.
Qed.
Lemma logged_fallocate f mode offset len : is_s64 offset -> is_s64 len ->
  keeps logged (vfs_fallocate f mode offset len).
Proof.
  intros Ho Hl s o s' E Hs. unfold vfs_fallocate, inode_of in E. sys_inv E; try done.
  eapply logged_holding_at; [exact E| |done]. clear E s'. intros s1 o1 s2 W1 [L1 L2] E.
  destruct (op_fallocate _ _ _ _ _) as [ret w]. injection E as <- <-. split; [done|]. constructor; [|done].
  apply orb_false_iff in H as [Hoff%Z.ltb_ge Hlen%Z.leb_gt].
  unfold range_ok. split_and!; try done.
  - by apply (s64_add_bounds offset len).
  - by apply negb_false_iff, Z.eqb_eq in H0.
  - intros Ha. by rewrite Ha, andb_true_r in H2.
  - by rewrite <- negb_orb, negb_false_iff in H9.
Qed.

#[local] Hint Extern 1 (PreOrder logged) => apply logged_preorder : keeps.
#[local] Hint Extern 2 (logged _ _) => (let H := fresh in intros H; exact H) : keeps.
#[local] Hint Resolve logged_holding keeps_with_path keeps_retry_lookup keeps_break_delegations
  keeps_with_write keeps_with_fd logged_vfs_truncate logged_ftruncate : keeps.
Lemma logged_inode_of p : keeps logged (inode_of p).
Proof. apply keeps_gets. apply _. Qed.
Lemma logged_path_permission p mask : keeps logged (path_permission p mask).
Proof. apply keeps_gets. apply _. Qed.
#[local] Hint Resolve logged_inode_of logged_path_permission : keeps.

(** The type bits of a mode survive [chmod]. *)
Lemma chmod_keeps_type mode m :
  Z.ldiff (Z.land mode S_IALLUGO .| Z.ldiff m S_IALLUGO) S_IALLUGO = Z.ldiff m S_IALLUGO.
Proof.
  apply Z.bits_inj'. intros n Hn. rewrite Z.ldiff_spec, Z.lor_spec, Z.land_spec, !Z.ldiff_spec.
  by destruct (Z.testbit S_IALLUGO n), (Z.testbit mode n), (Z.testbit m n).
Qed.
Lemma logged_chmod_attempt p mode : keeps logged (chmod_attempt p mode).
Proof.
  intros s o s' E Hs. unfold chmod_attempt, inode_of in E. sys_inv E; try done.
  eapply notify_ok; [exact E| |done]. split; cbn [fst snd ia_valid ia_mode]; try done.
  intros _. split; [apply chmod_keeps_type|done].
Qed.

(** The attributes [chown_attempt] builds up, before and after the bits that
    drop privileges. *)
Lemma chown_attr_ok user group kuid kgid a0 a :
  (if negb (user =? NO_ID) then setattr_vfsuid (IAttr ATTR_CTIME 0 0 NO_ID NO_ID) kuid
   else Some (IAttr ATTR_CTIME 0 0 NO_ID NO_ID)) = Some a0 ->
  (if negb (group =? NO_ID) then setattr_vfsgid a0 kgid else Some a0) = Some a ->
  has (ia_valid a) (ATTR_SIZE .| ATTR_MODE) = false /\
  (has (ia_valid a) ATTR_UID = true -> uid_valid (ia_vfsuid a) = true) /\
  (has (ia_valid a) ATTR_GID = true -> gid_valid (ia_vfsgid a) = true).
Proof.
  unfold setattr_vfsuid, setattr_vfsgid. intros H1 H2.
  destruct (uid_valid kuid) eqn:Eu, (gid_valid kgid) eqn:Eg, (negb (user =? NO_ID)), (negb (group =? NO_ID));
    simplify_eq/=; done.
Qed.
Lemma logged_chown_attempt p u g ku kg : keeps logged (chown_attempt p u g ku kg).
Proof.
  intros s o s' E Hs. unfold chown_attempt, inode_of in E. sys_inv E; try done.
  match goal with H1 : _ = Some ?x, H2 : _ = Some ?y |- _ =>
    destruct (chown_attr_ok _ _ _ _ _ _ H1 H2) as (Hb & Hu & Hg) end.
  eapply notify_ok; [exact E| |done].
  pose proof (drop_sgid_bits p.1 (d_inode p.2) (aworld s)) as Hd.
  destruct (S_ISDIR _) eqn:Edir; cbn [negb]; split; cbn [fst snd ia_valid ia_vfsuid ia_vfsgid ia_size];
    rewrite ?Edir; try done; intros HH; flag_bits; repeat match goal with
      | H : _ || _ = false |- _ => apply orb_false_iff in H as [? ?] end;
    repeat match goal with H : Z.testbit _ _ = false |- _ => rewrite H in HH end;
    cbn [orb] in HH; rewrite ?orb_false_r, ?orb_true_r in *; by auto.
Qed.
#[local] Hint Resolve logged_chmod_attempt logged_chown_attempt : keeps.

Definition args_ok (c : acall) : Prop :=
  match c with CFallocate _ _ offset len => is_s64 offset /\ is_s64 len | _ => True end.

Lemma logged_access_path mode p : keeps logged (access_path mode p).
Proof. unfold access_path. auto 20 with keeps. Qed.
Lemma logged_faccessat dfd name mode flags : keeps logged (do_faccessat dfd name mode flags).
Proof. unfold do_faccessat. auto 30 using logged_access_path with keeps. Qed.
Lemma logged_chmod p mode : keeps logged (chmod_common p mode).
Proof. unfold chmod_common. auto 20 with keeps. Qed.
Lemma logged_chown p u g : keeps logged (chown_common p u g).
Proof. unfold chown_common. auto 20 with keeps. Qed.
#[local] Hint Resolve logged_chmod logged_chown logged_faccessat : keeps.

Lemma logged_call c : args_ok c -> keeps logged (exec_attr c).
Proof.
  intros Hc. destruct c; cbn [exec_attr];
    unfold sys_truncate, compat_sys_truncate, do_sys_truncate, sys_ftruncate, compat_sys_ftruncate, ksys_fallocate,
      sys_faccessat2, sys_faccessat, sys_access, sys_chdir, sys_fchdir, sys_chroot, sys_fchmod, sys_fchmodat2,
      sys_fchmodat, sys_chmod, do_fchmodat, vfs_fchmod, sys_fchownat, sys_chown, sys_lchown, do_fchownat, ksys_fchown,
      vfs_fchown; try (auto 40 with keeps).
  destruct Hc. auto 20 using logged_fallocate with keeps.
Qed.



(** *** The retry loops end *)
Lemma reval_set flags error : retry_estale error (flags .| LOOKUP_REVAL) = false.
Proof. unfold retry_estale. flag_bits. apply andb_false_r. Qed.
Lemma retry_lookup_reval n flags body s :
  retry_lookup n (flags .| LOOKUP_REVAL) body s = retry_lookup 0 (flags .| LOOKUP_REVAL) body s.
Proof.
  destruct n; [done|]. cbn [retry_lookup]. unfold sbind. destruct (body _ s) as [[[e c]|] s1]; [|done].
  cbn [fst snd]. by rewrite reval_set, andb_false_r.
Qed.

(** The documented behaviour of delegations: one that was found is
    outstanding, and waiting for it to be broken ends with one fewer. *)
Class DelegLaws := {
  deleg_found i a (w : W) e w' : notify_change i a w = (e, true, w') -> (0 < delegations i w' <= delegations i w)%nat;
  deleg_broken i (w : W) w' : break_deleg_wait i w = (0, w') -> (delegations i w' < delegations i w)%nat;
}.

Lemma notify_delegated `{!DelegLaws} p a s e s' : do_notify_change p a s = (Val (e, true), s') ->
  (0 < delegations (d_inode p.2) (aworld s') <= delegations (d_inode p.2) (aworld s))%nat.
Proof.
  unfold do_notify_change. destruct (notify_change _ _ _) as [[e1 d] w] eqn:E. intros [= -> -> <-].
  by apply deleg_found in E.
Qed.
Lemma retry_deleg_enough `{!DelegLaws} (p : Z * Z) attempt n s s' :
  (forall s e s', attempt s = (Val (e, true), s') ->
    (0 < delegations (d_inode p.2) (aworld s') <= delegations (d_inode p.2) (aworld s))%nat) ->
  (delegations (d_inode p.2) (aworld s) < n)%nat ->
  retry_deleg n (d_inode p.2) attempt s <> (Val None, s').
Proof.
  intros Ha. revert s. induction n as [|n IH]; intros s Hn; [lia|]. cbn [retry_deleg]. unfold sbind.
  destruct (attempt s) as [[[e d]|] s1] eqn:E; [|done]. cbn [fst snd].
  destruct d; [|done]. apply Ha in E.
  destruct (break_deleg_wait (d_inode p.2) (aworld s1)) as [e1 w1] eqn:Eb.
  destruct (Z.eqb_spec e1 0) as [->|]; [|done].
  apply deleg_broken in Eb. apply IH. simpl. lia.
Qed.

(** Both loops of these calls end.  A path walk is repeated at most once,
    with LOOKUP_REVAL, however often it reports a stale handle; and changing a
    mode or an owner is attempted at most once more than there are delegations
    on the file, so the fuel of the model is never used up. *)
Theorem retries_end `{!DelegLaws} :
  (forall n flags body s, retry_lookup (S n) flags body s = retry_lookup 1 flags body s) /\
  (forall (p : Z * Z) mode s s', let n := S (delegations (d_inode p.2) (aworld s)) in
     retry_deleg n (d_inode p.2) (chmod_attempt p mode) s <> (Val None, s')) /\
  (forall (p : Z * Z) user group kuid kgid s s', let n := S (delegations (d_inode p.2) (aworld s)) in
     retry_deleg n (d_inode p.2) (chown_attempt p user group kuid kgid) s <> (Val None, s')).
Proof.
  split_and!.
  - intros n flags body s. cbn [retry_lookup]. unfold sbind. destruct (body flags s) as [[[e c]|] s1]; [|done].
    cbn [fst snd]. destruct (c && _); [|done]. apply retry_lookup_reval.
  - intros p mode s s' n. subst n. apply retry_deleg_enough; [|lia]. intros s1 e s2 E.
    unfold chmod_attempt, inode_of in E. sys_inv E. by apply notify_delegated in E.
  - intros p u g ku kg s s' n. subst n. apply retry_deleg_enough; [|lia]. intros s1 e s2 E.
    unfold chown_attempt, inode_of in E. sys_inv E. by apply notify_delegated in E.
Qed.

(** *** The root directory *)
Definition same_root s s' : Prop := root s' = root s.
#[local] Instance same_root_preorder : PreOrder same_root.
Proof. split; [done|]. intros s1 s2 s3 H1 H2. unfold same_root in *. congruence. Qed.
Lemma root_holding r (m : sys st Z) : keeps same_root m -> keeps same_root (holding r m).
Proof.
  intros Hm s o s' E. unfold holding in E. destruct (run m _) as [e s1] eqn:Er. injection E as <- <-.
  by apply (keeps_run _ _ _ _ _ Hm) in Er.
Qed.
Lemma root_notify p a : keeps same_root (do_notify_change p a).
Proof. intros s o s' E. unfold do_notify_change in E. repeat case_match. by injection E as <- <-. Qed.
Lemma root_inode_of p : keeps same_root (inode_of p).
Proof. apply keeps_gets. apply _. Qed.
Lemma root_path_permission p mask : keeps same_root (path_permission p mask).
Proof. apply keeps_gets. apply _. Qed.
#[local] Hint Extern 1 (PreOrder same_root) => apply same_root_preorder : keeps.
#[local] Hint Extern 2 (same_root _ _) => reflexivity : keeps.
Lemma root_fallocate f mode offset len : keeps same_root (vfs_fallocate f mode offset len).
Proof.
  unfold vfs_fallocate. repeat (apply keeps_bind; [apply _|auto using root_inode_of with keeps|intros ?]).
  apply root_holding. intros s o s' E. repeat case_match. by injection E as <- <-.
Qed.
#[local] Hint Resolve root_holding root_notify root_inode_of root_path_permission root_fallocate : keeps.

(** Without CAP_SYS_CHROOT no program of these calls changes the root
    directory of the task. *)
Theorem root_needs_capability cs s : (forall ns, ns_capable ns CAP_SYS_CHROOT = false) ->
  root (run_all exec_attr cs s) = root s.
Proof.
  intros Hcap. apply (keeps_run_all same_root exec_attr cs s). intros c.
  destruct c; cbn [exec_attr];
    unfold sys_truncate, compat_sys_truncate, do_sys_truncate, sys_ftruncate, compat_sys_ftruncate, ksys_fallocate,
      sys_faccessat2, sys_faccessat, sys_access, sys_chdir, sys_fchdir, sys_fchmod, sys_fchmodat2,
      sys_fchmodat, sys_chmod, do_fchmodat, vfs_fchmod, sys_fchownat, sys_chown, sys_lchown, do_fchownat, ksys_fchown,
      vfs_fchown, do_faccessat, access_path, do_sys_ftruncate, vfs_truncate, do_truncate, chmod_common, chown_common,
      chmod_attempt, chown_attempt;
    try (auto 60 with keeps).
  unfold sys_chroot. apply keeps_retry_lookup; [apply _|]. intros fl. apply keeps_with_path; [apply _|]. intros p.
  apply root_holding. intros s1 o s2 E. unfold path_permission in E. sys_inv E; try done;
    by rewrite Hcap in *.
Qed.
End properties.

(** ** A concrete system: the world is the number of delegations on inode 5;
    names are dentries on mount 1, 404 does not exist, 500 is stale until
    revalidated; dentry and inode numbers agree. *)
Module Demo.
Definition reg : ainode := AInode 33188 false false false 1000000 true.
Definition dir : ainode := AInode 16877 false false false 0 false.
Definition envD : AttrEnv nat := {|
  user_path_at _ _ n fl _ := if n =? 404 then inl (- ENOENT)
                             else if (n =? 500) && negb (has fl LOOKUP_REVAL) then inl (- ESTALE) else inr (1, n);
  afdget fd _ := if fd =? 3 then Some (AFile O_LARGEFILE 3 (1, 5)) else None;
  afdget_raw fd _ := None;
  d_inode d := d;
  ainodes i _ := if i =? 7 then dir else reg;
  inode_permission c _ _ mask _ := if (fsuid (ids_of c) =? 0) || negb (has mask 2) then 0 else - EACCES;
  mnt_want_write _ _ := 0; mnt_want_write_file _ _ := 0;
  get_write_access _ _ := 0; break_lease _ _ _ := 0; mnt_is_readonly _ _ := false;
  path_noexec _ _ := false; d_can_lookup _ _ := true;
  security_path_truncate _ _ := 0; security_path_chroot _ _ := 0; security_path_chmod _ _ _ := 0;
  security_path_chown _ _ _ _ := 0; security_file_truncate _ _ := 0; security_file_permission _ _ _ := 0;
  fsnotify_area _ _ _ _ := 0; dentry_needs_remove_privs _ _ _ := ATTR_KILL_SUID; should_drop_sgid _ _ _ := 0;
  notify_change i _ w := match w with O => (0, false, w) | S _ => (- EAGAIN, true, w) end;
  break_deleg_wait _ w := match w with O => (- EINVAL, w) | S n => (0, n) end;
  delegations _ w := w;
  op_fallocate _ _ _ _ w := (0, w);
  prepare_creds_ok _ := true;
|}.
#[local] Existing Instance envD.
#[local] Existing Instance user_caps.
#[local] Existing Instance init_userns.
Lemma attr_lawsD : @AttrLaws nat envD.
Proof. split; intros; vm_compute; reflexivity. Qed.
Lemma delegD : @DelegLaws nat envD.
Proof.
  split; unfold notify_change, break_deleg_wait, delegations, envD.
  - intros _ _ [|n] e w' [= <- <-]. lia.
  - intros _ [|n] w' [= <-]. lia.
Qed.
#[local] Existing Instance attr_lawsD.
#[local] Existing Instance delegD.
(** A set-user-id root program run by user 1000. *)
Definition setuid_cred : acred :=
  ACred (Cred 1000 1000 0 1000 0 1000 0 1000 0 0 0) 7 7 false.
Definition s0 (w : nat) : astate nat := AState setuid_cred (1, 7) (1, 7) nothing_held [] [] w.

(** [access] asks with the real user id, [chmod] breaks two delegations. *)
Definition prog : list acall :=
  [CAccess 5 2; CChmod 5 420; CTruncate 500 10; CFallocate 3 1 0 100; CChown 5 1000 NO_ID].
Example prog_results :
  (run (exec_attr (CAccess 5 2)) (s0 0)).1 = - EACCES /\
  (run (exec_attr (CFaccessat2 3 5 2 AT_EACCESS)) (s0 0)).1 = 0 /\
  (run (exec_attr (CChmod 5 420)) (s0 2)).1 = 0 /\ aworld (run (exec_attr (CChmod 5 420)) (s0 2)).2 = 0%nat /\
  (run (exec_attr (CTruncate 500 10)) (s0 0)).1 = 0 /\ length (attr_log (run_all exec_attr prog (s0 2))) = 5%nat.
Proof. vm_compute. split_and!; reflexivity. Qed.

Lemma access_override_in_sync_witness :
  access_need_override_creds setuid_cred 0 = true /\ access_override_creds setuid_cred <> setuid_cred.
Proof.
  split; [vm_compute; reflexivity|]. intros H.
  apply (access_override_in_sync setuid_cred 0) in H; [|reflexivity]. vm_compute in H. discriminate.
Defined.
Lemma root_needs_capability_witness : root (run_all exec_attr [CChroot 7; CChdir 7] (s0 0)) = (1, 7).
Proof. apply (root_needs_capability [CChroot 7; CChdir 7] (s0 0)). reflexivity. Defined.
Lemma retries_end_witness :
  retry_deleg 4 5 (chmod_attempt (1, 5) 420) (s0 3) <> (Val None, s0 0).
Proof. destruct (@retries_end nat envD init_userns delegD) as (_ & H & _). apply (H (1, 5) 420 (s0 3) (s0 0)). Defined.
End Demo.
