(* ===== verification/ForkMm.v ===== *)
(** * Address spaces: duplication, references and release

    fork.c 465-527, 614-800, 911-930, 1206-1570 and 1673-1745.  A [mm_struct]
    holds page tables, a context and counters from [mm_init] on, a reference
    and a write denial for its executable, a module for its binary format, and
    one entry per memory area.  After [__mt_dup] the tree of a new address
    space still names the parent's areas; the copying loop replaces them one
    by one ([Own]) and marks the place where it fails ([XA_ZERO_ENTRY]), which
    is where [exit_mmap] has to stop.  The allocators, architecture hooks and
    the rest of mm/ are interfaces. *)
From S2P Require Import Prelude Ledger.

Abbreviation VM_SHARED := 8 (only parsing).
Abbreviation VM_MAYWRITE := 32 (only parsing).
Abbreviation VM_LOCKED_MASK := 532480 (only parsing).        (** VM_LOCKED | VM_LOCKONFAULT *)
Abbreviation VM_DONTCOPY := 131072 (only parsing).
Abbreviation VM_ACCOUNT := 1048576 (only parsing).
Abbreviation VM_WIPEONFORK := 33554432 (only parsing).
Abbreviation VM_INIT_DEF_MASK := 1073741824 (only parsing).  (** VM_NOHUGEPAGE *)
Abbreviation PF_KTHREAD := 2097152 (only parsing).

Record vma := Vma {
  vm_start : Z; vm_end : Z; vm_flags : Z;
  vm_file : option Z; vm_anon : bool; vm_open : bool;         (** [anon_vma], [vm_ops->open] *)
}.
(** An entry of the tree of areas. *)
Inductive mentry := Own (v : vma) | Inherited (v : vma) | XA_ZERO_ENTRY.

Record mm := Mm {
  mm_users : Z; mm_count : Z; mm_owner : option Z; mm_exe : option Z; mm_binfmt : option Z;
  mm_mt : list mentry; map_count : Z; total_vm : Z; data_vm : Z; exec_vm : Z; stack_vm : Z;
  mm_flags : Z; def_flags : Z; mm_user_ns : Z; hiwater_vm : Z;
}.

(** What address spaces hold. *)
Inductive mres :=
| Pgd (m : Z) | Context (m : Z) | Cid (m : Z) | RssStat (m : Z) | UserNsRef (ns : Z)
| FileRef (f : Z) | DenyWrite (f : Z) | ModuleRef (b : Z)
| AreaMem | AreaPolicy | AreaAnon | AreaOpen | Committed | InMmapList (f : Z) | WritableMap (f : Z).
#[global] Instance mres_eq_dec : EqDecision mres.
Proof. solve_decision. Defined.

Record mmstate := MmState { mms : gmap Z mm; mheld : ledger mres }.
Definition mtake (r : mres) (s : mmstate) : mmstate := MmState (mms s) (take_one r (mheld s)).
Definition mgive (r : mres) (s : mmstate) : mmstate := MmState (mms s) (drop_one r (mheld s)).
Definition madjust (r : mres) (d : Z) (s : mmstate) : mmstate := MmState (mms s) (adjust r d (mheld s)).
Definition set_mm (m : Z) (x : mm) (s : mmstate) : mmstate := MmState (<[m := x]> (mms s)) (mheld s).
Definition upd_mm (m : Z) (f : mm -> mm) (s : mmstate) : mmstate := MmState (alter f m (mms s)) (mheld s).
Definition free_mm (m : Z) (s : mmstate) : mmstate := MmState (delete m (mms s)) (mheld s).

(** Results of other subsystems; errors are not zero. *)
Class MmEnv := {
  allocate_mm : gmap Z mm -> option Z;
  pgd_alloc : Z -> bool;
  init_new_context : Z -> Z;
  mm_alloc_cid : Z -> Z;
  percpu_counter_init : Z -> Z;
  mmf_init_flags : Z -> Z;
  default_dump_filter : Z;
  mmap_write_lock_killable : Z -> Z;
  ksm_fork : Z -> Z;
  mt_dup : Z -> Z;
  arch_dup_mmap : Z -> Z;
  vma_iter_clear_gfp : vma -> Z;
  fatal_signal_at : vma -> bool;                 (** [fatal_signal_pending] when the loop gets there *)
  security_vm_enough_memory : Z -> vma -> Z;
  vm_area_alloc_ok : vma -> bool;                (** [kmem_cache_alloc] *)
  vma_lock_alloc_ok : vma -> bool;
  vma_dup_policy : vma -> Z;
  dup_userfaultfd : vma -> Z;
  anon_vma_fork : vma -> Z;
  copy_page_range : vma -> Z;
  vm_stat_account : mm -> Z -> Z -> mm;          (** flags, pages *)
  deny_write_access : Z -> Z;
  try_module_get : Z -> bool;
  exit_mmap : Z -> mmstate -> mmstate;
  path_equal : Z -> Z -> bool;                   (** of two files *)
}.

(** ** Areas *)
Definition vma_pages (v : vma) : Z := (vm_end v - vm_start v) / 4096.
Definition vma_is_shared_maywrite (v : vma) : bool := has_all (vm_flags v) (VM_SHARED .| VM_MAYWRITE).

Section mm.
Context {menv : MmEnv}.

(** [vm_area_dup]: the object, and the lock next to it. *)
Definition vm_area_dup (v : vma) (s : mmstate) : option vma * mmstate :=
  if negb (vm_area_alloc_ok v) then (None, s)
  else
    let s := mtake AreaMem s in
    if negb (vma_lock_alloc_ok v) then (None, mgive AreaMem s) else (Some v, s).

(** The copy the child gets: unlocked, wiped when asked for. *)
Definition child_vma (v : vma) : vma :=
  Vma (vm_start v) (vm_end v) (Z.ldiff (vm_flags v) VM_LOCKED_MASK) (vm_file v)
    (if has (vm_flags v) VM_WIPEONFORK then false else vm_anon v) (vm_open v).

(** [get_file(file)] and the links into its mapping *)
Definition link_file (v : vma) (s : mmstate) : mmstate :=
  match vm_file v with
  | None => s
  | Some f =>
      let s := mtake (FileRef f) s in
      let s := if vma_is_shared_maywrite v then mtake (WritableMap f) s else s in
      mtake (InMmapList f) s
  end.

(** One iteration of the loop of [dup_mmap] for an area that is copied.  The
    result is the error and, when the copy went into the tree, that copy. *)
Definition dup_area (old : Z) (v : vma) (s : mmstate) : Z * option vma * mmstate :=
  if fatal_signal_at v then (- EINTR, None, s) else
  let account := has (vm_flags v) VM_ACCOUNT in
  let len := vma_pages v in
  if account && negb (security_vm_enough_memory old v =? 0) then (- ENOMEM, None, s) else
  let charge := if account then len else 0 in
  let s := madjust Committed charge s in
  let fail_nomem s := (- ENOMEM, None, madjust Committed (- charge) s) in
  let '(tmp, s) := vm_area_dup v s in
  match tmp with
  | None => fail_nomem s
  | Some tmp =>
      let fail_nomem_policy s := fail_nomem (mgive AreaMem s) in
      if negb (vma_dup_policy v =? 0) then fail_nomem_policy s else
      let s := mtake AreaPolicy s in
      let fail_nomem_anon_vma_fork s := fail_nomem_policy (mgive AreaPolicy s) in
      if negb (dup_userfaultfd tmp =? 0) then fail_nomem_anon_vma_fork s else
      let wipe := has (vm_flags tmp) VM_WIPEONFORK in
      if negb wipe && vm_anon v && negb (anon_vma_fork v =? 0) then fail_nomem_anon_vma_fork s else
      let s := if negb wipe && vm_anon v then mtake AreaAnon s else s in
      let tmp := child_vma tmp in
      let s := link_file tmp s in
      let retval := if negb wipe then copy_page_range v else 0 in
      let s := if vm_open tmp then mtake AreaOpen s else s in
      (retval, Some tmp, s)
  end.

(** The loop over the inherited entries: what is built so far is in front. *)
Fixpoint dup_areas (m old : Z) (done : list mentry) (todo : list vma) (s : mmstate) : Z * list mentry * mmstate :=
  match todo with
  | [] => (0, done, s)
  | v :: rest =>
      if has (vm_flags v) VM_DONTCOPY then
        let retval := vma_iter_clear_gfp v in
        if negb (retval =? 0) then (retval, done ++ XA_ZERO_ENTRY :: (Inherited <$> rest), s)
        else dup_areas m old done rest (upd_mm m (fun x => vm_stat_account x (vm_flags v) (- vma_pages v)) s)
      else
        let '(retval, tmp, s) := dup_area old v s in
        match tmp with
        | None => (retval, done ++ XA_ZERO_ENTRY :: (Inherited <$> rest), s)
        | Some tmp =>
            let s := upd_mm m (fun x => Mm (mm_users x) (mm_count x) (mm_owner x) (mm_exe x) (mm_binfmt x) (mm_mt x)
                       (map_count x + 1) (total_vm x) (data_vm x) (exec_vm x) (stack_vm x) (mm_flags x)
                       (def_flags x) (mm_user_ns x) (hiwater_vm x)) s in
            let done := done ++ [Own tmp] in
            if negb (retval =? 0) then
              (* mpnt = vma_next(): the mark goes to the next area, if any *)
              (retval, match rest with [] => done | _ :: rest' => done ++ XA_ZERO_ENTRY :: (Inherited <$> rest') end, s)
            else dup_areas m old done rest s
        end
  end.

Definition set_mt (l : list mentry) (x : mm) : mm :=
  Mm (mm_users x) (mm_count x) (mm_owner x) (mm_exe x) (mm_binfmt x) l (map_count x) (total_vm x) (data_vm x)
    (exec_vm x) (stack_vm x) (mm_flags x) (def_flags x) (mm_user_ns x) (hiwater_vm x).
Definition set_exe (f : option Z) (x : mm) : mm :=
  Mm (mm_users x) (mm_count x) (mm_owner x) f (mm_binfmt x) (mm_mt x) (map_count x) (total_vm x) (data_vm x)
    (exec_vm x) (stack_vm x) (mm_flags x) (def_flags x) (mm_user_ns x) (hiwater_vm x).
Definition set_binfmt (b : option Z) (x : mm) : mm :=
  Mm (mm_users x) (mm_count x) (mm_owner x) (mm_exe x) b (mm_mt x) (map_count x) (total_vm x) (data_vm x)
    (exec_vm x) (stack_vm x) (mm_flags x) (def_flags x) (mm_user_ns x) (hiwater_vm x).
Definition set_owner (o : option Z) (x : mm) : mm :=
  Mm (mm_users x) (mm_count x) o (mm_exe x) (mm_binfmt x) (mm_mt x) (map_count x) (total_vm x) (data_vm x)
    (exec_vm x) (stack_vm x) (mm_flags x) (def_flags x) (mm_user_ns x) (hiwater_vm x).
Definition set_users (n c : Z) (x : mm) : mm :=
  Mm n c (mm_owner x) (mm_exe x) (mm_binfmt x) (mm_mt x) (map_count x) (total_vm x) (data_vm x)
    (exec_vm x) (stack_vm x) (mm_flags x) (def_flags x) (mm_user_ns x) (hiwater_vm x).
Definition set_stats (t d e k : Z) (x : mm) : mm :=
  Mm (mm_users x) (mm_count x) (mm_owner x) (mm_exe x) (mm_binfmt x) (mm_mt x) (map_count x) t d e k
    (mm_flags x) (def_flags x) (mm_user_ns x) (hiwater_vm x).
Definition set_hiwater (h : Z) (x : mm) : mm :=
  Mm (mm_users x) (mm_count x) (mm_owner x) (mm_exe x) (mm_binfmt x) (mm_mt x) (map_count x) (total_vm x)
    (data_vm x) (exec_vm x) (stack_vm x) (mm_flags x) (def_flags x) (mm_user_ns x) h.

(** ** Executables *)

(** [get_file_rcu(&mm->exe_file)] *)
Definition get_mm_exe_file (x : mm) (s : mmstate) : option Z * mmstate :=
  match mm_exe x with None => (None, s) | Some f => (Some f, mtake (FileRef f) s) end.

Definition dup_mm_exe_file (m : Z) (oldmm : mm) (s : mmstate) : mmstate :=
  let '(exe_file, s) := get_mm_exe_file oldmm s in
  let s := upd_mm m (set_exe exe_file) s in
  match exe_file with
  | Some f => if deny_write_access f =? 0 then mtake (DenyWrite f) s else s     (* else a warning *)
  | None => s
  end.

(** [allow_write_access(old); fput(old);] *)
Definition put_exe (f : option Z) (s : mmstate) : mmstate :=
  match f with None => s | Some f => mgive (FileRef f) (mgive (DenyWrite f) s) end.

Definition set_mm_exe_file (m : Z) (new_exe_file : option Z) (s : mmstate) : Z * mmstate :=
  match mms s !! m with
  | None => (0, s)
  | Some x =>
      let old_exe_file := mm_exe x in
      match new_exe_file with
      | Some f =>
          if negb (deny_write_access f =? 0) then (- EACCES, s)
          else
            let s := mtake (FileRef f) (mtake (DenyWrite f) s) in
            (0, put_exe old_exe_file (upd_mm m (set_exe new_exe_file) s))
      | None => (0, put_exe old_exe_file (upd_mm m (set_exe None) s))
      end
  end.

Definition entry_file (e : mentry) : option Z :=
  match e with Own v | Inherited v => vm_file v | XA_ZERO_ENTRY => None end.
Definition replace_mm_exe_file (m f : Z) (s : mmstate) : Z * mmstate :=
  match mms s !! m with
  | None => (0, s)
  | Some x =>
      let '(old, s) := get_mm_exe_file x s in
      let mapped := match old with
        | None => false
        | Some g => existsb (fun e => match entry_file e with Some h => path_equal h g | None => false end) (mm_mt x)
        end in
      let s := match old with Some g => mgive (FileRef g) s | None => s end in
      if mapped then (- EBUSY, s)
      else if negb (deny_write_access f =? 0) then (- EACCES, s)
      else
        let s := mtake (FileRef f) (mtake (DenyWrite f) s) in
        let old := mm_exe x in
        (0, put_exe old (upd_mm m (set_exe (Some f)) s))
  end.

(** ** Creation *)

(** [mm_init], on an object whose fields were copied or zeroed. *)
Definition mm_fields (x : mm) (p : Z) (cur : option mm) : mm :=
  Mm 1 1 (Some p) None (mm_binfmt x) [] 0 (total_vm x) (data_vm x) (exec_vm x) (stack_vm x)
    (match cur with Some c => mmf_init_flags (mm_flags c) | None => default_dump_filter end)
    (match cur with Some c => Z.land (def_flags c) VM_INIT_DEF_MASK | None => 0 end) (mm_user_ns x) (hiwater_vm x).
Definition mm_init (m p user_ns : Z) (cur : option mm) (s : mmstate) : bool * mmstate :=
  let s := upd_mm m (fun x => mm_fields x p cur) s in
  if negb (pgd_alloc m) then (false, free_mm m s) else
  let s := mtake (Pgd m) s in
  if negb (init_new_context m =? 0) then (false, free_mm m (mgive (Pgd m) s)) else
  let s := mtake (Context m) s in
  if negb (mm_alloc_cid m =? 0) then (false, free_mm m (mgive (Pgd m) (mgive (Context m) s))) else
  let s := mtake (Cid m) s in
  if negb (percpu_counter_init m =? 0)
  then (false, free_mm m (mgive (Pgd m) (mgive (Context m) (mgive (Cid m) s)))) else
  let s := mtake (UserNsRef user_ns) (mtake (RssStat m) s) in
  (true, upd_mm m (fun x => Mm (mm_users x) (mm_count x) (mm_owner x) (mm_exe x) (mm_binfmt x) (mm_mt x)
     (map_count x) (total_vm x) (data_vm x) (exec_vm x) (stack_vm x) (mm_flags x) (def_flags x) user_ns
     (hiwater_vm x)) s).

Definition zero_mm : mm := Mm 0 0 None None None [] 0 0 0 0 0 0 0 0 0.
Definition mm_alloc (p user_ns : Z) (cur : option mm) (s : mmstate) : option Z * mmstate :=
  match allocate_mm (mms s) with
  | None => (None, s)
  | Some m => let '(ok, s) := mm_init m p user_ns cur (set_mm m zero_mm s) in (if ok then Some m else None, s)
  end.

(** ** Release *)
Definition __mmdrop (m : Z) (s : mmstate) : mmstate :=
  match mms s !! m with
  | None => s
  | Some x => free_mm m (mgive (RssStat m) (mgive (Cid m) (mgive (UserNsRef (mm_user_ns x))
                (mgive (Context m) (mgive (Pgd m) s)))))
  end.
(** [mmdrop]: the last of the [mm_count] references *)
Definition mmdrop (m : Z) (s : mmstate) : mmstate :=
  match mms s !! m with
  | None => s
  | Some x =>
      let s := set_mm m (set_users (mm_users x) (mm_count x - 1) x) s in
      if mm_count x - 1 =? 0 then __mmdrop m s else s
  end.
Definition __mmput (m : Z) (s : mmstate) : mmstate :=
  let s := exit_mmap m s in
  let '(_, s) := set_mm_exe_file m None s in
  let s := match mms s !! m with
           | Some x => match mm_binfmt x with Some b => mgive (ModuleRef b) s | None => s end
           | None => s
           end in
  mmdrop m s.
Definition mmput (m : Z) (s : mmstate) : mmstate :=
  match mms s !! m with
  | None => s
  | Some x =>
      let s := set_mm m (set_users (mm_users x - 1) (mm_count x) x) s in
      if mm_users x - 1 =? 0 then __mmput m s else s
  end.
Definition mmget (m : Z) (s : mmstate) : mmstate := upd_mm m (fun x => set_users (mm_users x + 1) (mm_count x) x) s.

(** ** Duplication *)
Definition dup_mmap (m old : Z) (oldmm : mm) (s : mmstate) : Z * mmstate :=
  if negb (mmap_write_lock_killable old =? 0) then (- EINTR, s) else
  let s := dup_mm_exe_file m oldmm s in
  let s := upd_mm m (set_stats (total_vm oldmm) (data_vm oldmm) (exec_vm oldmm) (stack_vm oldmm)) s in
  if negb (ksm_fork old =? 0) then (ksm_fork old, s) else
  if negb (mt_dup old =? 0) then (mt_dup old, s) else
  let todo := omap (fun e => match e with Own v | Inherited v => Some v | XA_ZERO_ENTRY => None end) (mm_mt oldmm) in
  let '(retval, mt, s) := dup_areas m old [] todo s in
  let s := upd_mm m (set_mt mt) s in
  if negb (retval =? 0) then (retval, s) else (arch_dup_mmap old, s).

Definition dup_mm (p old : Z) (oldmm : mm) (s : mmstate) : option Z * mmstate :=
  match allocate_mm (mms s) with
  | None => (None, s)
  | Some m =>
      let '(ok, s) := mm_init m p (mm_user_ns oldmm) (Some oldmm) (set_mm m oldmm s) in
      if negb ok then (None, s) else
      let free_pt s := (None, mmput m (upd_mm m (set_owner None) (upd_mm m (set_binfmt None) s))) in
      let '(err, s) := dup_mmap m old oldmm s in
      if negb (err =? 0) then free_pt s else
      let s := upd_mm m (fun x => set_hiwater (total_vm x) x) s in
      match mm_binfmt oldmm with
      | Some b => if negb (try_module_get b) then free_pt s else (Some m, mtake (ModuleRef b) s)
      | None => (Some m, s)
      end
  end.

(** ** References from outside *)

(** [task->mm] and [task->flags] *)
Definition get_task_exe_file (tmm : option Z) (flags : Z) (s : mmstate) : option Z * mmstate :=
  match tmm with
  | Some m => if negb (has flags PF_KTHREAD)
              then match mms s !! m with Some x => get_mm_exe_file x s | None => (None, s) end else (None, s)
  | None => (None, s)
  end.
Definition get_task_mm (tmm : option Z) (flags : Z) (s : mmstate) : option Z * mmstate :=
  match tmm with
  | Some m => if has flags PF_KTHREAD then (None, s) else (Some m, mmget m s)
  | None => (None, s)
  end.
(** [lock]: the result of [down_read_killable]; [may]: of [ptrace_may_access] *)
Definition mm_access (lock : Z) (may : bool) (curmm tmm : option Z) (flags : Z) (s : mmstate) : (Z + option Z) * mmstate :=
  if negb (lock =? 0) then (inl lock, s) else
  let '(m, s) := get_task_mm tmm flags s in
  match m with
  | Some m => if negb (bool_decide (Some m = curmm)) && negb may then (inl (- EACCES), mmput m s) else (inr (Some m), s)
  | None => (inr None, s)
  end.
End mm.

(** ** Properties *)

(** What an area and an address space hold, as numbers per resource. *)
Definition vma_amount (v : vma) (r : mres) : Z :=
  one AreaMem r + one AreaPolicy r + Z.b2z (vm_anon v) * one AreaAnon r + Z.b2z (vm_open v) * one AreaOpen r +
  (if has (vm_flags v) VM_ACCOUNT then vma_pages v else 0) * one Committed r +
  match vm_file v with
  | None => 0
  | Some f => one (FileRef f) r + one (InMmapList f) r + Z.b2z (vma_is_shared_maywrite v) * one (WritableMap f) r
  end.
Definition areas_amount (vs : list vma) (r : mres) : Z := foldr (fun v n => vma_amount v r + n) 0 vs.
(** The areas [exit_mmap] releases: up to the mark. *)
Fixpoint released_areas (l : list mentry) : list vma :=
  match l with
  | [] | XA_ZERO_ENTRY :: _ => []
  | (Own v | Inherited v) :: l' => v :: released_areas l'
  end.
Definition opt_amount (o : option Z) (mk : Z -> mres) (r : mres) : Z :=
  match o with Some f => one (mk f) r | None => 0 end.
Definition base_amount (m ns : Z) (r : mres) : Z :=
  one (Pgd m) r + one (Context m) r + one (Cid m) r + one (RssStat m) r + one (UserNsRef ns) r.
Definition mm_amount (m : Z) (x : mm) (r : mres) : Z :=
  base_amount m (mm_user_ns x) r + areas_amount (released_areas (mm_mt x)) r +
  opt_amount (mm_exe x) FileRef r + opt_amount (mm_exe x) DenyWrite r + opt_amount (mm_binfmt x) ModuleRef r.

(** The fields that say what an address space holds, its tree apart. *)
Definition core (x : mm) : Z * Z * option Z * option Z * Z :=
  (mm_users x, mm_count x, mm_exe x, mm_binfmt x, mm_user_ns x).

Class MmLaws {menv : MmEnv} := {
  allocate_mm_fresh ms m : allocate_mm ms = Some m -> ms !! m = None;
  vm_stat_account_core x fl n : core (vm_stat_account x fl n) = core x;
  exit_mmap_mms m s : mms (exit_mmap m s) = alter (set_mt []) m (mms s);
  exit_mmap_held m s x : mms s !! m = Some x ->
    forall r, mheld (exit_mmap m s) r = mheld s r - areas_amount (released_areas (mm_mt x)) r;
}.

Lemma areas_amount_app l l' r : areas_amount (l ++ l') r = areas_amount l r + areas_amount l' r.
Proof. induction l; simpl; [done|]. unfold areas_amount in *. simpl. lia. Qed.
Lemma released_own_app vs l : released_areas ((Own <$> vs) ++ l) = vs ++ released_areas l.
Proof. induction vs; simpl; [done|]. by f_equal. Qed.
Lemma released_own vs : released_areas (Own <$> vs) = vs.
Proof. rewrite <- (app_nil_r (Own <$> vs)), released_own_app. simpl. by rewrite app_nil_r. Qed.

(** [held_by n l l']: [l'] is [l] and [n r] more of every resource [r]. *)
Definition held_by (n : mres -> Z) (l l' : ledger mres) : Prop := forall r, l' r = l r + n r.

(** Other address spaces stay, this one keeps what it holds. *)
Definition alters (m : Z) (ms ms' : gmap Z mm) : Prop :=
  exists f, (forall x, core (f x) = core x) /\ ms' = alter f m ms.
#[global] Instance alters_preorder m : PreOrder (alters m).
Proof.
  split.
  - intros ms. exists id. split; [done|]. symmetry. by apply alter_id.
  - intros ms1 ms2 ms3 (f & Hf & ->) (g & Hg & ->). exists (g ∘ f). split.
    + intros x. simpl. by rewrite Hg, Hf.
    + apply map_eq. intros k. destruct (decide (k = m)) as [->|]; by simplify_map_eq; rewrite ?option_fmap_compose.
Qed.
Lemma alters_upd m f s : (forall x, core (f x) = core x) -> alters m (mms s) (mms (upd_mm m f s)).
Proof. intros Hf. by exists f. Qed.

Section properties.
Context {menv : MmEnv} {laws : MmLaws}.

(** Two ledgers related by steps, at one resource. *)
Ltac held_at := let r := fresh "r" in intros r;
  repeat match goal with H : held_by _ _ _ |- _ => specialize (H r) | H : forall r, mheld _ r = _ |- _ => specialize (H r) end;
  cbn [mheld mtake mgive madjust upd_mm set_mm free_mm] in *; ledger_at; try lia.

Lemma vm_area_dup_outcome v s t s' : vm_area_dup v s = (t, s') ->
  mms s' = mms s /\
  match t with None => held_by (fun _ => 0) (mheld s) (mheld s')
  | Some t => t = v /\ held_by (one AreaMem) (mheld s) (mheld s') end.
Proof.
  unfold vm_area_dup. intros E. repeat case_match; simplify_eq; split_and!; try done; held_at.
Qed.

Lemma link_file_held v s : mms (link_file v s) = mms s /\
  held_by (fun r => match vm_file v with None => 0 | Some f => one (FileRef f) r + one (InMmapList f) r +
    Z.b2z (vma_is_shared_maywrite v) * one (WritableMap f) r end) (mheld s) (mheld (link_file v s)).
Proof.
  unfold link_file. destruct (vm_file v) as [g|]; [|split; [done|]; held_at].
  destruct (vma_is_shared_maywrite v); split; try done; held_at; simpl Z.b2z; lia.
Qed.

Lemma dup_area_outcome old v s r t s' : dup_area old v s = (r, t, s') ->
  mms s' = mms s /\
  match t with
  | None => r <> 0 /\ held_by (fun _ => 0) (mheld s) (mheld s')
  | Some t => t = child_vma v /\ held_by (vma_amount t) (mheld s) (mheld s')
  end.
Proof.
  unfold dup_area. intros E.
  destruct (fatal_signal_at v); [simplify_eq; split_and!; try done; held_at|].
  destruct (has (vm_flags v) VM_ACCOUNT && _); [simplify_eq; split_and!; try done; held_at|].
  set (charge := if has (vm_flags v) VM_ACCOUNT then _ else _) in *.
  destruct (vm_area_dup v _) as [[tmp|] s1] eqn:Ed; apply vm_area_dup_outcome in Ed as [Hm Hd]; cbn [mms madjust] in Hm.
  2: { simplify_eq. split_and!; try done. held_at. }
  destruct Hd as [-> Hd].
  destruct (negb (vma_dup_policy v =? 0)); [simplify_eq; split_and!; try done; held_at|].
  destruct (negb (dup_userfaultfd v =? 0)); [simplify_eq; split_and!; try done; held_at|].
  destruct (negb (has (vm_flags v) VM_WIPEONFORK) && vm_anon v && negb (anon_vma_fork v =? 0));
    [simplify_eq; split_and!; try done; held_at|].
  set (s2 := mtake AreaPolicy s1) in *.
  set (s3 := if negb (has (vm_flags v) VM_WIPEONFORK) && vm_anon v then mtake AreaAnon s2 else s2) in *.
  destruct (link_file_held (child_vma v) s3) as [Hm4 Hl4].
  injection E as <- <- <-.
  assert (mms s3 = mms s) as Hm3 by (subst s3 s2; destruct (_ && _); done).
  split; [destruct (vm_open _); cbn [mms mtake]; congruence|]. split; [done|].
  assert (held_by (fun r => one AreaPolicy r + Z.b2z (vm_anon (child_vma v)) * one AreaAnon r) (mheld s1) (mheld s3)) as Hl3.
  { subst s3 s2. cbn [vm_anon child_vma]. destruct (has (vm_flags v) VM_WIPEONFORK), (vm_anon v); cbn [negb andb Z.b2z]; held_at. }
  assert (has (vm_flags (child_vma v)) VM_ACCOUNT = has (vm_flags v) VM_ACCOUNT) as Hacc.
  { cbn [vm_flags child_vma]. flag_bits. done. }
  assert (vma_pages (child_vma v) = vma_pages v) as Hp by done.
  clearbody s3. intros r. unfold vma_amount. rewrite Hacc, Hp. fold charge.
  specialize (Hl3 r). specialize (Hl4 r). specialize (Hd r). cbn [mheld madjust] in Hd. ledger_at.
  cbv beta in *. change (vm_open (child_vma v)) with (vm_open v).
  destruct (vm_open v); cbn [Z.b2z mheld mtake]; ledger_at; lia.
Qed.

(** The areas the child gets a copy of. *)
Definition copied (v : vma) : bool := negb (has (vm_flags v) VM_DONTCOPY).

Lemma dup_areas_outcome m old todo : forall dv s r mt s', dup_areas m old (Own <$> dv) todo s = (r, mt, s') ->
  alters m (mms s) (mms s') /\
  exists cs, released_areas mt = dv ++ cs /\ held_by (areas_amount cs) (mheld s) (mheld s') /\
    (r = 0 -> mt = Own <$> (dv ++ cs) /\ cs = child_vma <$> List.filter copied todo).
Proof.
  induction todo as [|v rest IH]; intros dv s r mt s' E; cbn [dup_areas] in E.
  { simplify_eq. split; [reflexivity|]. exists []. rewrite app_nil_r, released_own.
    split_and!; try done. intros r. cbn. lia. }
  cbn [List.filter]. unfold copied at 1. destruct (has (vm_flags v) VM_DONTCOPY) eqn:Edc; cbn [negb].
  - destruct (negb (vma_iter_clear_gfp v =? 0)) eqn:Ec; simplify_eq.
    { split; [reflexivity|]. exists []. rewrite released_own_app. cbn. split_and!; try done; [intros r; cbn; lia|].
      intros H. rewrite H in Ec. done. }
    apply IH in E as (Ha & cs & Hr & Hh & Hz). split; [|exists cs; split_and!; done].
    etrans; [|exact Ha]. apply alters_upd. intros x. apply vm_stat_account_core.
  - destruct (dup_area old v s) as [[r1 t] s1] eqn:Ed. apply dup_area_outcome in Ed as [Hm Hd].
    destruct t as [t|].
    2: { simplify_eq. destruct Hd as [Hne Hd]. rewrite Hm. split; [reflexivity|]. exists [].
         rewrite released_own_app. cbn. split_and!; try done. }
    destruct Hd as [-> Hd].
    set (s2 := upd_mm m _ s1) in *.
    assert (alters m (mms s) (mms s2)) as Ha2 by (rewrite <- Hm; apply alters_upd; done).
    assert ((Own <$> dv) ++ [Own (child_vma v)] = Own <$> (dv ++ [child_vma v])) as Eo by by rewrite fmap_app.
    destruct (negb (r1 =? 0)) eqn:Er.
    + assert (r1 <> 0) as Hne by lia. injection E as <- <- <-. split; [done|]. exists [child_vma v].
      split_and!; [|intros x; specialize (Hd x); subst s2; unfold areas_amount; cbn [foldr mheld upd_mm]; lia|done].
      rewrite Eo. destruct rest; [by rewrite released_own|]. rewrite released_own_app. cbn. by rewrite app_nil_r.
    + rewrite Eo in E. apply IH in E as (Ha & cs & Hr & Hh & Hz). split; [by etrans|].
      exists (child_vma v :: cs). rewrite <- app_assoc in Hr, Hz. split_and!; [done| |].
      * intros x. specialize (Hd x). specialize (Hh x). subst s2. unfold areas_amount in *. cbn [foldr mheld upd_mm] in *. lia.
      * intros H0. destruct (Hz H0) as [-> ->]. done.
Qed.

(** *** Creating and releasing the object *)
Lemma mm_init_outcome m p ns cur s ok s' x : mms s !! m = Some x -> mm_init m p ns cur s = (ok, s') ->
  if ok then exists x', mms s' = <[m := x']> (mms s) /\ held_by (base_amount m ns) (mheld s) (mheld s') /\
      core x' = (1, 1, None, mm_binfmt x, ns) /\ mm_mt x' = [] /\ map_count x' = 0
  else mms s' = delete m (mms s) /\ held_by (fun _ => 0) (mheld s) (mheld s').
Proof.
  intros Hx. unfold mm_init. intros E.
  assert (forall f, delete m (alter f m (mms s)) = delete m (mms s)) as Hdel.
  { intros f. apply map_eq. intros k. destruct (decide (k = m)) as [->|]; by simplify_map_eq. }
  destruct (negb (pgd_alloc m)); [simplify_eq; split; [apply Hdel|held_at]|].
  destruct (negb (init_new_context m =? 0)); [simplify_eq; split; [apply Hdel|held_at]|].
  destruct (negb (mm_alloc_cid m =? 0)); [simplify_eq; split; [apply Hdel|held_at]|].
  destruct (negb (percpu_counter_init m =? 0)); [simplify_eq; split; [apply Hdel|held_at]|].
  injection E as <- <-. cbn [mms mtake upd_mm]. eexists. split.
  { apply map_eq. intros k. destruct (decide (k = m)) as [->|]; simplify_map_eq; reflexivity. }
  split_and!; try done. unfold base_amount. held_at.
Qed.

Lemma put_exe_outcome f s : mms (put_exe f s) = mms s /\
  held_by (fun r => - opt_amount f FileRef r - opt_amount f DenyWrite r) (mheld s) (mheld (put_exe f s)).
Proof.
  destruct f as [f|]; split; try done; unfold opt_amount; cbn [put_exe]; held_at.
Qed.

(** Dropping the last user of an address space nobody else refers to. *)
Lemma mmput_last m s x : mms s !! m = Some x -> mm_users x = 1 -> mm_count x = 1 ->
  mms (mmput m s) = delete m (mms s) /\ held_by (fun r => - mm_amount m x r) (mheld s) (mheld (mmput m s)).
Proof.
  intros Hx Hu Hc. unfold mmput. rewrite Hx, Hu. change (1 - 1 =? 0) with true. cbv iota.
  set (s1 := set_mm m _ s). unfold __mmput.
  set (y := set_users (1 - 1) (mm_count x) x) in *.
  assert (mms s1 !! m = Some y) as H1 by (subst s1; cbn; by rewrite lookup_insert_eq).
  pose proof (exit_mmap_mms m s1) as Em. pose proof (exit_mmap_held m s1 y H1) as Eh.
  set (s2 := exit_mmap m s1) in *. clearbody s2.
  assert (mms s2 !! m = Some (set_mt [] y)) as H2 by (rewrite Em; by simplify_map_eq).
  unfold set_mm_exe_file. rewrite H2. cbn [mm_exe set_mt].
  set (s3 := upd_mm m (set_exe None) s2). destruct (put_exe_outcome (mm_exe y) s3) as [E4 L4].
  set (s4 := put_exe (mm_exe y) s3) in *. clearbody s4.
  assert (mms s4 !! m = Some (set_exe None (set_mt [] y))) as H4.
  { rewrite E4. subst s3. cbn. by simplify_map_eq. }
  rewrite H4. cbn [mm_binfmt set_exe set_mt].
  set (s5 := match mm_binfmt y with Some b => mgive (ModuleRef b) s4 | None => s4 end).
  assert (mms s5 = mms s4) as E5 by (subst s5; by destruct (mm_binfmt y)).
  unfold mmdrop. rewrite E5, H4. cbn [mm_count set_exe set_mt]. subst y. cbn [mm_count set_users]. rewrite Hc.
  change (1 - 1 =? 0) with true. cbv iota. unfold __mmdrop. cbn [mms set_mm]. rewrite lookup_insert_eq.
  split.
  - cbn. rewrite E5, E4. subst s3. cbn. rewrite Em. subst s1. cbn. apply map_eq. intros k.
    destruct (decide (k = m)) as [->|]; by simplify_map_eq.
  - assert (held_by (fun r => - opt_amount (mm_binfmt x) ModuleRef r) (mheld s4) (mheld s5)) as L5.
    { subst s5. cbn [mm_binfmt set_users]. unfold opt_amount. destruct (mm_binfmt x) as [b|]; held_at. }
    clearbody s5. subst s3 s1. cbn [mm_exe mm_mt mm_user_ns set_users set_exe set_mt] in *.
    unfold mm_amount, base_amount. held_at.
Qed.

(** *** Duplication *)

(** The write denial that [dup_mm_exe_file] relies on. *)
Definition exe_denied (x : mm) : Prop := forall f, mm_exe x = Some f -> deny_write_access f = 0.

Lemma dup_mm_exe_file_outcome m oldmm s x : exe_denied oldmm -> mms s !! m = Some x ->
  mms (dup_mm_exe_file m oldmm s) = <[m := set_exe (mm_exe oldmm) x]> (mms s) /\
  held_by (fun r => opt_amount (mm_exe oldmm) FileRef r + opt_amount (mm_exe oldmm) DenyWrite r)
    (mheld s) (mheld (dup_mm_exe_file m oldmm s)).
Proof.
  intros Hd Hx. unfold dup_mm_exe_file, get_mm_exe_file, exe_denied, opt_amount in *.
  assert (forall f, alter (set_exe f) m (mms s) = <[m := set_exe f x]> (mms s)) as Ha.
  { intros f. apply map_eq. intros k. destruct (decide (k = m)) as [->|]; by simplify_map_eq. }
  destruct (mm_exe oldmm) as [f|]; [rewrite (Hd f eq_refl); change (0 =? 0) with true; cbv iota|];
    (split; [apply Ha|held_at]).
Qed.

Lemma alters_insert m x ms ms' : alters m (<[m := x]> ms) ms' ->
  exists x', ms' = <[m := x']> ms /\ core x' = core x.
Proof.
  intros (f & Hf & ->). exists (f x). split; [|done]. apply map_eq. intros k.
  destruct (decide (k = m)) as [->|]; by simplify_map_eq.
Qed.
Lemma upd_mm_insert m f x s ms : mms s = <[m := x]> ms -> mms (upd_mm m f s) = <[m := f x]> ms.
Proof.
  intros H. cbn. rewrite H. apply map_eq. intros k. destruct (decide (k = m)) as [->|]; by simplify_map_eq.
Qed.

(** The areas of an address space, whoever they belong to. *)
Definition all_areas (x : mm) : list vma :=
  omap (fun e => match e with Own v | Inherited v => Some v | XA_ZERO_ENTRY => None end) (mm_mt x).

(** What [dup_mmap] made of the new address space [x] when it returned [err]. *)
Definition dup_partial (m : Z) (oldmm x : mm) (ms : gmap Z mm) (s : mmstate) (err : Z) (s' : mmstate) : Prop :=
  exists x', mms s' = <[m := x']> ms /\
    core x' = (mm_users x, mm_count x, mm_exe x', mm_binfmt x, mm_user_ns x) /\
    held_by (fun r => areas_amount (released_areas (mm_mt x')) r + opt_amount (mm_exe x') FileRef r +
       opt_amount (mm_exe x') DenyWrite r) (mheld s) (mheld s') /\
    (err = 0 -> mm_exe x' = mm_exe oldmm /\ mm_mt x' = Own <$> (child_vma <$> List.filter copied (all_areas oldmm))).

(** At any exit of [dup_mmap] the new address space holds exactly what its
    fields and the entries in front of the mark say. *)
Lemma dup_mmap_outcome m old oldmm ms s x err s' : exe_denied oldmm -> mms s = <[m := x]> ms ->
  mm_exe x = None -> mm_mt x = [] -> dup_mmap m old oldmm s = (err, s') ->
  dup_partial m oldmm x ms s err s'.
Proof.
  intros Hd Hm Hxe Hxt. unfold dup_mmap. intros E.
  destruct (negb (mmap_write_lock_killable old =? 0)).
  { simplify_eq. exists x. rewrite Hxe, Hxt. split_and!; try done; [by rewrite <- Hxe|]. intros r. cbn. lia. }
  assert (mms s !! m = Some x) as Hx by (rewrite Hm; apply lookup_insert_eq).
  destruct (dup_mm_exe_file_outcome m oldmm s x Hd Hx) as [E1 L1].
  set (s1 := dup_mm_exe_file m oldmm s) in *. clearbody s1.
  rewrite Hm, insert_insert_eq in E1.
  set (s2 := upd_mm m (set_stats _ _ _ _) s1) in *.
  pose proof (upd_mm_insert m (set_stats (total_vm oldmm) (data_vm oldmm) (exec_vm oldmm) (stack_vm oldmm)) _ s1 ms E1) as E2.
  fold s2 in E2. set (x2 := set_stats _ _ _ _ _) in E2.
  assert (mheld s2 = mheld s1) as L2 by done. clearbody s2.
  assert (forall e, e <> 0 -> dup_partial m oldmm x ms s e s2) as Hearly.
  { intros e He. exists x2. split_and!; try done. subst x2. cbn [mm_mt mm_exe set_stats set_exe]. rewrite Hxt, L2.
    intros r. specialize (L1 r). unfold areas_amount. cbn [released_areas foldr]. cbv beta in *. lia. }
  destruct (negb (ksm_fork old =? 0)) eqn:Ek; [injection E as <- <-; apply Hearly; lia|].
  destruct (negb (mt_dup old =? 0)) eqn:Et; [injection E as <- <-; apply Hearly; lia|].
  clear Hearly. fold (all_areas oldmm) in E.
  destruct (dup_areas m old [] (all_areas oldmm) s2) as [[r1 mt] s3] eqn:Ea.
  apply (dup_areas_outcome m old (all_areas oldmm) []) in Ea as (A3 & cs & Hr & Hh & Hz).
  rewrite E2 in A3. apply alters_insert in A3 as (x3 & E3 & C3).
  pose proof (upd_mm_insert m (set_mt mt) x3 s3 ms E3) as E4. set (s4 := upd_mm m (set_mt mt) s3) in *.
  assert (mheld s4 = mheld s3) as L4 by done. clearbody s4.
  assert (core (set_mt mt x3) = core x3) as C4 by done. unfold core in C3, C4. subst x2.
  cbn [mm_users mm_count mm_exe mm_binfmt mm_user_ns set_stats set_exe] in C3. injection C3 as C31 C32 C33 C34 C35.
  assert (forall e, (e = 0 -> r1 = 0) -> dup_partial m oldmm x ms s e s4) as Hlate.
  { intros e He. exists (set_mt mt x3). unfold core. cbn [mm_users mm_count mm_exe mm_binfmt mm_user_ns mm_mt set_mt].
    rewrite C31, C32, C33, C34, C35, Hr, L4. split_and!; try done.
    - intros r. specialize (Hh r). specialize (L1 r). rewrite L2 in Hh. cbn [app]. cbv beta in *. lia.
    - intros H0. destruct (Hz (He H0)) as [-> ->]. done. }
  destruct (negb (r1 =? 0)) eqn:Er1; injection E as <- <-; apply Hlate; [done|lia].
Qed.

Lemma dup_mm_outcome p old oldmm s :
  exe_denied oldmm ->
  let '(r, s') := dup_mm p old oldmm s in
  match r with
  | None => mms s' = mms s /\ mheld s' ≡ mheld s
  | Some m => mms s !! m = None /\ exists x, mms s' = <[m := x]> (mms s) /\
      mm_users x = 1 /\ mm_count x = 1 /\ mm_exe x = mm_exe oldmm /\ mm_binfmt x = mm_binfmt oldmm /\
      mm_mt x = Own <$> (child_vma <$> List.filter copied (all_areas oldmm)) /\
      held_by (mm_amount m x) (mheld s) (mheld s')
  end.
Proof.
  intros Hd. unfold dup_mm. destruct (allocate_mm (mms s)) as [m|] eqn:Eal; [|done].
  apply allocate_mm_fresh in Eal as Hfresh.
  destruct (mm_init m p (mm_user_ns oldmm) (Some oldmm) (set_mm m oldmm s)) as [ok s1] eqn:Ei.
  apply (mm_init_outcome _ _ _ _ _ _ _ oldmm) in Ei; [|cbn; apply lookup_insert_eq].
  cbn [mms mheld set_mm] in Ei. destruct ok; cbn [negb].
  2: { destruct Ei as [-> Hh]. split; [by apply delete_insert_id|]. intros r. rewrite Hh. lia. }
  destruct Ei as (x & E1 & L1 & C1 & T1 & _). rewrite insert_insert_eq in E1.
  injection C1 as Cu Cc Ce Cb Cn.
  destruct (dup_mmap m old oldmm s1) as [err s2] eqn:Edm.
  eapply dup_mmap_outcome in Edm as (x2 & E2 & C2 & L2 & Hz); [|done..].
  injection C2 as Cu2 Cc2 Cb2 Cn2. rewrite Cu in Cu2. rewrite Cc in Cc2. rewrite Cb in Cb2. rewrite Cn in Cn2.
  assert (forall s3 y, mms s3 = <[m := y]> (mms s) -> mheld s3 = mheld s2 -> mm_users y = 1 -> mm_count y = 1 ->
    mm_exe y = mm_exe x2 -> mm_user_ns y = mm_user_ns x2 -> mm_mt y = mm_mt x2 ->
    let s4 := mmput m (upd_mm m (set_owner None) (upd_mm m (set_binfmt None) s3)) in
    mms s4 = mms s /\ mheld s4 ≡ mheld s) as Hfree.
  { intros s3 y Hy Hl Hyu Hyc Hye Hyn Hyt s4.
    pose proof (upd_mm_insert m (set_binfmt None) y s3 (mms s) Hy) as H5.
    pose proof (upd_mm_insert m (set_owner None) _ _ _ H5) as H6.
    destruct (mmput_last m (upd_mm m (set_owner None) (upd_mm m (set_binfmt None) s3)) (set_owner None (set_binfmt None y)))
      as [E4 L4]; [rewrite H6; apply lookup_insert_eq|done|done|].
    split; [subst s4; rewrite E4, H6; by apply delete_insert_id|].
    intros r. specialize (L4 r). specialize (L2 r). specialize (L1 r). subst s4.
    unfold mm_amount in L4. cbn [mheld upd_mm mm_exe mm_mt mm_user_ns mm_binfmt set_owner set_binfmt opt_amount] in L4.
    rewrite Hl, Hye, Hyn, Hyt, Cn2 in L4. cbn [opt_amount] in L4. cbv beta in *. lia. }
  destruct (negb (err =? 0)) eqn:Ee; [by eapply Hfree|].
  destruct Hz as [He2 Ht2]; [lia|].
  pose proof (upd_mm_insert m (fun x => set_hiwater (total_vm x) x) x2 s2 (mms s) E2) as E3.
  cbv beta in E3. set (s3 := upd_mm m (fun x => set_hiwater (total_vm x) x) s2) in *. set (x3 := set_hiwater _ x2) in *.
  assert (held_by (fun r => mm_amount m x3 r - opt_amount (mm_binfmt x3) ModuleRef r) (mheld s) (mheld s3)) as L3.
  { subst s3 x3. intros r. specialize (L2 r). specialize (L1 r). unfold mm_amount.
    cbn [mheld upd_mm mm_exe mm_mt mm_user_ns mm_binfmt set_hiwater]. rewrite Cn2. cbv beta in *. lia. }
  assert (mm_binfmt x3 = mm_binfmt oldmm) as Hb3 by done.
  destruct (mm_binfmt oldmm) as [b|] eqn:Eb.
  - destruct (negb (try_module_get b)); [eapply Hfree; [exact E3|done..]|].
    split; [done|]. exists x3. split_and!; try done. intros r. specialize (L3 r). rewrite Hb3 in L3. cbn [opt_amount] in L3.
    cbn [mheld mtake]. ledger_at. lia.
  - split; [done|]. exists x3. split_and!; try done. intros r. specialize (L3 r). rewrite Hb3 in L3. cbn [opt_amount] in L3. lia.
Qed.

(** C7: duplicating an address space either fails, wherever it fails, and then
    leaves every address space and every resource as before, so that nothing
    of the parent's areas is released either; or it yields one new address
    space with one user, which has a copy of exactly the parent's areas that
    are not marked VM_DONTCOPY, in order and unlocked, and the same
    executable, and which holds exactly what that takes. *)
Theorem dup_mm_all_or_nothing p old oldmm s :
  exe_denied oldmm ->
  let '(r, s') := dup_mm p old oldmm s in
  match r with
  | None => mms s' = mms s /\ mheld s' ≡ mheld s
  | Some m => mms s !! m = None /\ exists x, mms s' = <[m := x]> (mms s) /\
      mm_users x = 1 /\ mm_count x = 1 /\ mm_exe x = mm_exe oldmm /\ mm_binfmt x = mm_binfmt oldmm /\
      mm_mt x = Own <$> (child_vma <$> List.filter copied (all_areas oldmm)) /\
      held_by (mm_amount m x) (mheld s) (mheld s')
  end.
Proof. apply dup_mm_outcome. Qed.

(** Dropping the only user of a freshly duplicated address space releases
    exactly what duplicating it took. *)
Theorem dup_mm_mmput_roundtrip p old oldmm s m s' : exe_denied oldmm ->
  dup_mm p old oldmm s = (Some m, s') -> mms (mmput m s') = mms s /\ mheld (mmput m s') ≡ mheld s.
Proof.
  intros Hd E. pose proof (dup_mm_outcome p old oldmm s Hd) as H. rewrite E in H.
  destruct H as (Hf & x & Hm & Hu & Hc & _ & _ & _ & Hh).
  destruct (mmput_last m s' x) as [E1 L1]; [rewrite Hm; apply lookup_insert_eq|done|done|].
  split; [rewrite E1, Hm; by apply delete_insert_id|]. intros r. specialize (L1 r). specialize (Hh r). cbv beta in *. lia.
Qed.

(** *** References from outside *)

(** Replacing the executable of an address space is refused while an area
    still maps the old one, and then, or when the new file is open for
    writing, changes nothing; otherwise exactly the reference and the write
    denial move from the old file to the new one. *)
Theorem replace_mm_exe_file_moves m f s x : mms s !! m = Some x ->
  let '(r, s') := replace_mm_exe_file m f s in
  (r <> 0 /\ mms s' = mms s /\ mheld s' ≡ mheld s) \/
  (r = 0 /\ mms s' = <[m := set_exe (Some f) x]> (mms s) /\
   (forall g h e, mm_exe x = Some g -> e ∈ mm_mt x -> entry_file e = Some h -> path_equal h g = false) /\
   held_by (fun r => one (FileRef f) r + one (DenyWrite f) r - opt_amount (mm_exe x) FileRef r -
      opt_amount (mm_exe x) DenyWrite r) (mheld s) (mheld s')).
Proof.
  intros Hx. unfold replace_mm_exe_file, get_mm_exe_file. rewrite Hx.
  set (mapped := fun g => existsb (fun e => match entry_file e with Some h => path_equal h g | None => false end) (mm_mt x)).
  assert (alter (set_exe (Some f)) m (mms s) = <[m := set_exe (Some f) x]> (mms s)) as Ha.
  { apply map_eq. intros k. destruct (decide (k = m)) as [->|]; by simplify_map_eq. }
  destruct (mm_exe x) as [g|] eqn:Ex.
  - fold (mapped g). destruct (mapped g) eqn:Em.
    { left. split_and!; try done. held_at. }
    destruct (negb (deny_write_access f =? 0)).
    { left. split_and!; try done. held_at. }
    right. split_and!; try done.
    + intros g' h e [= <-] He Hh. unfold mapped in Em. destruct (path_equal h g) eqn:Ep; [|done].
      rewrite <- Em. symmetry. apply existsb_exists. exists e. split; [by apply list_elem_of_In|]. by rewrite Hh.
    + unfold opt_amount. cbn [put_exe]. held_at.
  - destruct (negb (deny_write_access f =? 0)); [by left|].
    right. split_and!; try done. unfold opt_amount. cbn [put_exe]. held_at.
Qed.

Lemma mmput_mmget m s x : mms s !! m = Some x -> 1 <= mm_users x -> mmput m (mmget m s) = s.
Proof.
  intros Hx Hu. unfold mmput, mmget. cbn [mms upd_mm]. rewrite lookup_alter_eq, Hx. cbn [fmap option_fmap option_map].
  cbn [mm_users mm_count set_users]. replace (mm_users x + 1 - 1) with (mm_users x) by lia.
  destruct (Z.eqb_spec (mm_users x) 0); [lia|]. unfold set_mm, upd_mm. cbn [mms mheld]. destruct s as [ms l]. cbn in *.
  f_equal. apply map_eq. intros k. destruct (decide (k = m)) as [->|]; simplify_map_eq; [by destruct x|done].
Qed.

(** Looking at the memory of another task without the right to gives
    -EACCES and leaves its address space with the users it had; a kernel
    thread shows none. *)
Theorem mm_access_denied lock curmm m flags s x : mms s !! m = Some x -> 1 <= mm_users x -> Some m <> curmm ->
  mm_access lock false curmm (Some m) flags s =
    if negb (lock =? 0) then (inl lock, s) else if has flags PF_KTHREAD then (inr None, s) else (inl (- EACCES), s).
Proof.
  intros Hx Hu Hc. unfold mm_access, get_task_mm. destruct (negb (lock =? 0)); [done|].
  destruct (has flags PF_KTHREAD); [done|]. rewrite bool_decide_false by done. cbn.
  by rewrite (mmput_mmget m s x).
Qed.
End properties.

(** ** A concrete system: address spaces are numbered by size of the table,
    the copying of an area that starts at 8192 fails when [bad] is set. *)
Module Demo.
Definition envD (bad : bool) : MmEnv := {|
  allocate_mm ms := Some (fresh (dom ms) : Z);
  pgd_alloc _ := true; init_new_context _ := 0; mm_alloc_cid _ := 0; percpu_counter_init _ := 0;
  mmf_init_flags fl := fl; default_dump_filter := 0;
  mmap_write_lock_killable _ := 0; ksm_fork _ := 0; mt_dup _ := 0; arch_dup_mmap _ := 0;
  vma_iter_clear_gfp _ := 0; fatal_signal_at _ := false; security_vm_enough_memory _ _ := 0;
  vm_area_alloc_ok _ := true; vma_lock_alloc_ok _ := true; vma_dup_policy _ := 0; dup_userfaultfd _ := 0;
  anon_vma_fork v := if bad && (vm_start v =? 8192) then - ENOMEM else 0;
  copy_page_range _ := 0;
  vm_stat_account x _ n := set_stats (total_vm x + n) (data_vm x) (exec_vm x) (stack_vm x) x;
  deny_write_access _ := 0; try_module_get _ := true;
  exit_mmap m s := MmState (alter (set_mt []) m (mms s))
    (match mms s !! m with Some x => fun r => mheld s r - areas_amount (released_areas (mm_mt x)) r | None => mheld s end);
  path_equal a b := a =? b;
|}.
Lemma mm_lawsD bad : @MmLaws (envD bad).
Proof.
  split; cbn.
  - intros ms m [= <-]. apply not_elem_of_dom, is_fresh.
  - done.
  - done.
  - intros m s x Hx r. by rewrite Hx.
Qed.
Definition areas : list vma :=
  [Vma 0 8192 VM_ACCOUNT (Some 3) false false; Vma 8192 12288 (8192 .| 2) None true false;
   Vma 12288 16384 VM_DONTCOPY None false false].
Definition parent : mm := Mm 1 1 (Some 1) (Some 3) (Some 9) (Own <$> areas) 3 4 2 1 1 0 0 0 4.
Definition s0 : mmstate := MmState {[ 10 := parent ]} nothing_held.

(** With a failing second area nothing is left; without it the child has two. *)
Lemma dup_mm_all_or_nothing_witness :
  (@dup_mm (envD true) 2 10 parent s0).1 = None /\
  mms (@dup_mm (envD true) 2 10 parent s0).2 = mms s0 /\
  exists m, (@dup_mm (envD false) 2 10 parent s0).1 = Some m /\ m <> 10.
Proof.
  split_and!.
  - vm_compute. reflexivity.
  - assert ((@dup_mm (envD true) 2 10 parent s0).1 = None) as Hn by (vm_compute; reflexivity).
    pose proof (@dup_mm_all_or_nothing (envD true) (mm_lawsD true) 2 10 parent s0 ltac:(intros f _; reflexivity)) as H.
    destruct (@dup_mm (envD true) 2 10 parent s0) as [r s']. simpl in *. rewrite Hn in H. apply H.
  - eexists. split; [vm_compute; reflexivity|discriminate].
Defined.
Lemma dup_mm_mmput_roundtrip_witness :
  exists m s', @dup_mm (envD false) 2 10 parent s0 = (Some m, s') /\ mms (@mmput (envD false) m s') = mms s0.
Proof.
  destruct (@dup_mm (envD false) 2 10 parent s0) as [r s'] eqn:E.
  assert (exists m, r = Some m) as [m ->] by (apply (f_equal fst) in E; vm_compute in E; eauto).
  exists m, s'. split; [reflexivity|].
  refine (proj1 (@dup_mm_mmput_roundtrip (envD false) (mm_lawsD false) 2 10 parent s0 m s' _ E)). intros f _. reflexivity.
Defined.
Lemma replace_mm_exe_file_moves_witness : (@replace_mm_exe_file (envD false) 10 4 s0).1 = - EBUSY /\
  mms (@replace_mm_exe_file (envD false) 10 4 s0).2 = mms s0.
Proof.
  split; [vm_compute; reflexivity|].
  pose proof (@replace_mm_exe_file_moves (envD false) 10 4 s0 parent ltac:(vm_compute; reflexivity)) as H.
  assert ((@replace_mm_exe_file (envD false) 10 4 s0).1 = - EBUSY) as Hr by (vm_compute; reflexivity).
  destruct (@replace_mm_exe_file (envD false) 10 4 s0) as [r s']. simpl in *. destruct H as [(_ & H & _)|(H & _)]; [exact H|].
  rewrite Hr in H. discriminate.
Defined.
Lemma mm_access_denied_witness : @mm_access (envD false) 0 false (Some 11) (Some 10) 0 s0 = (inl (- EACCES), s0).
Proof.
  rewrite (@mm_access_denied (envD false) 0 (Some 11) 10 0 s0 parent); [reflexivity|vm_compute; reflexivity|vm_compute; discriminate|discriminate].
Defined.
End Demo.
