(* ===== verification/Fork.v ===== *)
(** * Creating processes

    fork.c 1748-1985, 2132-2205 and 2236-2793: [copy_process] with the parts of
    a process it shares or copies, and every label of its error path.  What
    other subsystems hold for a task, and the reference counts of file tables,
    file system information and signal handlers, are a ledger; thread groups,
    tasks and address spaces (ForkMm) are explicit.  The task under
    construction is a value until it is linked into the task list. *)
From S2P Require Import Prelude Task Ledger ForkMm.

Abbreviation CSIGNAL := 255 (only parsing).
Abbreviation CLONE_NEWTIME := 128 (only parsing).
Abbreviation CLONE_VM := 256 (only parsing).
Abbreviation CLONE_FS := 512 (only parsing).
Abbreviation CLONE_FILES := 1024 (only parsing).
Abbreviation CLONE_SIGHAND := 2048 (only parsing).
Abbreviation CLONE_PIDFD := 4096 (only parsing).
Abbreviation CLONE_PTRACE := 8192 (only parsing).
Abbreviation CLONE_VFORK := 16384 (only parsing).
Abbreviation CLONE_PARENT := 32768 (only parsing).
Abbreviation CLONE_THREAD := 65536 (only parsing).
Abbreviation CLONE_NEWNS := 131072 (only parsing).
Abbreviation CLONE_SYSVSEM := 262144 (only parsing).
Abbreviation CLONE_PARENT_SETTID := 1048576 (only parsing).
Abbreviation CLONE_CHILD_CLEARTID := 2097152 (only parsing).
Abbreviation CLONE_DETACHED := 4194304 (only parsing).
Abbreviation CLONE_UNTRACED := 8388608 (only parsing).
Abbreviation CLONE_CHILD_SETTID := 16777216 (only parsing).
Abbreviation CLONE_NEWCGROUP := 33554432 (only parsing).
Abbreviation CLONE_NEWUTS := 67108864 (only parsing).
Abbreviation CLONE_NEWIPC := 134217728 (only parsing).
Abbreviation CLONE_NEWUSER := 268435456 (only parsing).
Abbreviation CLONE_NEWPID := 536870912 (only parsing).
Abbreviation CLONE_NEWNET := 1073741824 (only parsing).
Abbreviation CLONE_IO := 2147483648 (only parsing).
Abbreviation CLONE_CLEAR_SIGHAND := 4294967296 (only parsing).
Abbreviation CLONE_INTO_CGROUP := 8589934592 (only parsing).
Abbreviation PF_IDLE := 2 (only parsing).
Abbreviation PF_IO_WORKER := 16 (only parsing).
Abbreviation PF_WQ_WORKER := 32 (only parsing).
Abbreviation PF_FORKNOEXEC := 64 (only parsing).
Abbreviation PF_SUPERPRIV := 256 (only parsing).
Abbreviation PF_NPROC_EXCEEDED := 4096 (only parsing).
Abbreviation PF_USER_WORKER := 16384 (only parsing).
Abbreviation PF_NO_SETAFFINITY := 67108864 (only parsing).
Abbreviation SIGNAL_UNKILLABLE := 64 (only parsing).
Abbreviation ERESTARTNOINTR := 513 (only parsing).
Abbreviation INIT_USER := 0 (only parsing).

Record clone_args := CloneArgs {
  ca_flags : Z; ca_pidfd : Z; ca_child_tid : Z; ca_parent_tid : Z; ca_exit_signal : Z;
  ca_stack : Z; ca_stack_size : Z; ca_tls : Z; ca_set_tid : list Z; ca_cgroup : Z;
  ca_kthread : bool; ca_io_thread : bool; ca_user_worker : bool; ca_no_files : bool; ca_idle : bool;
}.

Record task := Task {
  t_pid : Z; t_tgid : Z; t_group_leader : Z; t_real_parent : Z; t_exit_signal : Z; t_flags : Z;
  t_signal : Z; t_sighand : Z; t_fs : Z; t_files : option Z; t_mm : option Z;
  t_set_child_tid : Z; t_clear_child_tid : Z; t_self_exec_id : Z; t_parent_exec_id : Z;
  t_children : list Z; t_pdeath_signal : Z; t_nnp : bool; t_seccomp : option Z;
  t_kthread : bool; t_io_context : bool; t_user : Z;
}.
Record sigstruct := SigStruct {
  sg_nr_threads : Z; sg_quick_threads : Z; sg_live : Z; sg_sigcnt : Z; sg_threads : list Z;
  sg_flags : Z; sg_pgrp : Z; sg_session : Z; sg_tty : option Z;
  sg_has_child_subreaper : bool; sg_is_child_subreaper : bool;
  sg_oom_score_adj : Z; sg_oom_score_adj_min : Z; sg_rlim : list (Z * Z);
}.

(** What is held for a task, and shared objects with a count of users. *)
Inductive fres :=
| FTask (p : Z) | FStack (p : Z) | FStackAcct (p : Z) | FScs (p : Z) | FCreds (p : Z) | FNproc (p : Z)
| FDelayacct (p : Z) | FKthread (p : Z) | FMempolicy (p : Z) | FPerf (p : Z) | FAudit (p : Z) | FSecurity (p : Z)
| FSemundo (p : Z) | FNamespaces (p : Z) | FIo (p : Z) | FThread (p : Z) | FCgroup (p : Z) | FSchedCore (p : Z)
| FPid (nr : Z) | FPidfdFile (nr : Z) | FFd (fd : Z) | FDelayed (cur : Z) | FSeccomp (f : Z) | FTty (t : Z)
| FilesCount (f : Z) | FsUsers (f : Z) | SighandCount (h : Z).
#[global] Instance fres_eq_dec : EqDecision fres.
Proof. solve_decision. Defined.

Record fkstate := FkState {
  tasks : gmap Z task; signals : gmap Z sigstruct; kmm : mmstate; ext : ledger fres;
  installed : gmap Z Z;                       (** pidfds installed: descriptor to pid *)
  nr_threads : Z; total_forks : Z; process_counts : Z;
  upids : gmap Z Z;                           (** [pid_t] and [int] objects in user memory *)
}.
Definition ftake (r : fres) (s : fkstate) : fkstate :=
  FkState (tasks s) (signals s) (kmm s) (take_one r (ext s)) (installed s) (nr_threads s) (total_forks s) (process_counts s) (upids s).
Definition fgive (r : fres) (s : fkstate) : fkstate :=
  FkState (tasks s) (signals s) (kmm s) (drop_one r (ext s)) (installed s) (nr_threads s) (total_forks s) (process_counts s) (upids s).
Definition set_kmm (m : mmstate) (s : fkstate) : fkstate :=
  FkState (tasks s) (signals s) m (ext s) (installed s) (nr_threads s) (total_forks s) (process_counts s) (upids s).
Definition set_tasks (m : gmap Z task) (s : fkstate) : fkstate :=
  FkState m (signals s) (kmm s) (ext s) (installed s) (nr_threads s) (total_forks s) (process_counts s) (upids s).
Definition set_signals (m : gmap Z sigstruct) (s : fkstate) : fkstate :=
  FkState (tasks s) m (kmm s) (ext s) (installed s) (nr_threads s) (total_forks s) (process_counts s) (upids s).
Definition set_upids (m : gmap Z Z) (s : fkstate) : fkstate :=
  FkState (tasks s) (signals s) (kmm s) (ext s) (installed s) (nr_threads s) (total_forks s) (process_counts s) m.

(** The calls into other subsystems that can fail. *)
Inductive fstep :=
| SArchDup | SStack | SScs | SCreds | SKthread | SMempolicy | SSched | SPerf | SAudit | SSecurity | SSemundo | SDupFd
| SCopyFs | SSighand | SSignal | SNamespaces | SIo | SThread | SPidfd | SPidfdFile | SCgroup.
Class ForkEnv := {
  err_of : fstep -> fkstate -> Z;             (** 0 or the error *)
  alloc_task : fkstate -> option Z;           (** [alloc_task_struct_node] *)
  new_files : fkstate -> Z;                   (** objects a successful step creates *)
  new_fs : fkstate -> Z;
  new_sighand : fkstate -> Z;
  new_signal : fkstate -> Z;
  alloc_pid : list Z -> fkstate -> Z + Z;
  unused_fd : fkstate -> Z;                   (** [get_unused_fd_flags]: the descriptor or the error *)
  fs_in_exec : Z -> bool;
  pidns_differs : bool;                       (** [task_active_pid_ns(current) != nsp->pid_ns_for_children] *)
  sigpending : fkstate -> bool;
  nproc_exceeded : fkstate -> bool;           (** [is_rlimit_overlimit] *)
  max_threads : Z;
  io_context_set : fkstate -> bool;           (** [copy_io] left a context *)
  pidns_adding : Z -> bool;                   (** [pid_allocated & PIDNS_ADDING] *)
  fatal_pending : fkstate -> bool;
  child_reaper : Z -> bool;                   (** [is_child_reaper(pid)] *)
}.

Section fork.
Context {menv : MmEnv} {fenv : ForkEnv} {caps : Caps} {ua : UAccess}.

(** A call that takes [r] when it succeeds. *)
Definition acquire (r : fres) (k : fstep) (s : fkstate) : Z * fkstate :=
  let e := err_of k s in if e =? 0 then (0, ftake r s) else (e, s).
(** [retval = ..; if (retval) goto bad;] *)
Definition guard {A} (r : Z * fkstate) (bad : Z -> fkstate -> A) (k : fkstate -> A) : A :=
  let '(e, s) := r in if e =? 0 then k s else bad e s.

(** ** The checks at the top *)
Definition clone_flags_error (fl : Z) (sig_flags : Z) : Z :=
  if has_all fl (CLONE_NEWNS .| CLONE_FS) then - EINVAL
  else if has_all fl (CLONE_NEWUSER .| CLONE_FS) then - EINVAL
  else if has fl CLONE_THREAD && negb (has fl CLONE_SIGHAND) then - EINVAL
  else if has fl CLONE_SIGHAND && negb (has fl CLONE_VM) then - EINVAL
  else if has fl CLONE_PARENT && has sig_flags SIGNAL_UNKILLABLE then - EINVAL
  else if has fl CLONE_THREAD && (has fl (CLONE_NEWUSER .| CLONE_NEWPID) || pidns_differs) then - EINVAL
  else if has fl CLONE_PIDFD && has fl (CLONE_DETACHED .| CLONE_THREAD) then - EINVAL
  else 0.

(** ** The parts of a process *)
Definition copy_files (fl : Z) (no_files : bool) (cur : task) (s : fkstate) : Z * option Z * fkstate :=
  match t_files cur with
  | None => (0, None, s)
  | Some oldf =>
      if no_files then (0, None, s)
      else if has fl CLONE_FILES then (0, Some oldf, ftake (FilesCount oldf) s)
      else
        let error := err_of SDupFd s in
        if error =? 0 then let f := new_files s in (0, Some f, ftake (FilesCount f) s)
        else (error, Some oldf, s)
  end.
Definition copy_fs (fl : Z) (cur : task) (s : fkstate) : Z * Z * fkstate :=
  let fs := t_fs cur in
  if has fl CLONE_FS then
    if fs_in_exec fs then (- EAGAIN, fs, s) else (0, fs, ftake (FsUsers fs) s)
  else if err_of SCopyFs s =? 0 then let f := new_fs s in (0, f, ftake (FsUsers f) s)
  else (- ENOMEM, fs, s).
Definition copy_sighand (fl : Z) (cur : task) (s : fkstate) : Z * Z * fkstate :=
  if has fl CLONE_SIGHAND then (0, t_sighand cur, ftake (SighandCount (t_sighand cur)) s)
  else if err_of SSighand s =? 0 then let h := new_sighand s in (0, h, ftake (SighandCount h) s)
  else (- ENOMEM, t_sighand cur, s).
(** The new thread group: its first member is the new task. *)
Definition new_group (p : Z) (old : sigstruct) : sigstruct :=
  SigStruct 1 1 1 1 [p] 0 0 0 None false false (sg_oom_score_adj old) (sg_oom_score_adj_min old) (sg_rlim old).
Definition copy_signal (fl p : Z) (cur : task) (old : sigstruct) (s : fkstate) : Z * Z * fkstate :=
  if has fl CLONE_THREAD then (0, t_signal cur, s)
  else if err_of SSignal s =? 0
  then let g := new_signal s in (0, g, set_signals (<[g := new_group p old]> (signals s)) s)
  else (- ENOMEM, t_signal cur, s).
Definition copy_mm (fl p : Z) (cur : task) (s : fkstate) : Z * option Z * fkstate :=
  match t_mm cur with
  | None => (0, None, s)
  | Some old =>
      if has fl CLONE_VM then (0, Some old, set_kmm (mmget old (kmm s)) s)
      else
        match mms (kmm s) !! old with
        | None => (- ENOMEM, None, s)
        | Some oldmm =>
            let '(m, k) := dup_mm p old oldmm (kmm s) in
            match m with
            | None => (- ENOMEM, None, set_kmm k s)
            | Some m => (0, Some m, set_kmm k s)
            end
        end
  end.
(** [copy_seccomp]: the parent's filter and [no_new_privs] *)
Definition copy_seccomp (cur : task) (t : task) (s : fkstate) : task * fkstate :=
  (Task (t_pid t) (t_tgid t) (t_group_leader t) (t_real_parent t) (t_exit_signal t) (t_flags t) (t_signal t)
     (t_sighand t) (t_fs t) (t_files t) (t_mm t) (t_set_child_tid t) (t_clear_child_tid t) (t_self_exec_id t)
     (t_parent_exec_id t) (t_children t) (t_pdeath_signal t) (t_nnp t || t_nnp cur) (t_seccomp cur)
     (t_kthread t) (t_io_context t) (t_user t),
   match t_seccomp cur with Some f => ftake (FSeccomp f) s | None => s end).

(** [__pidfd_prepare] with the flags [copy_process] passes: the descriptor. *)
Definition pidfd_prepare_locked (nr : Z) (s : fkstate) : Z * fkstate :=
  let pidfd := unused_fd s in
  if pidfd <? 0 then (pidfd, s)
  else
    let s := ftake (FFd pidfd) s in
    let e := err_of SPidfdFile s in
    if e =? 0 then (pidfd, ftake (FPidfdFile nr) s) else (e, fgive (FFd pidfd) s).

(** ** The task itself *)
Definition dup_task_struct (s : fkstate) : option Z * fkstate :=
  match alloc_task s with
  | None => (None, s)
  | Some p =>
      let s := ftake (FTask p) s in
      if negb (err_of SArchDup s =? 0) then (None, fgive (FTask p) s) else
      if negb (err_of SStack s =? 0) then (None, fgive (FTask p) s) else
      let s := ftake (FStackAcct p) (ftake (FStack p) s) in
      if negb (err_of SScs s =? 0)
      then (None, fgive (FTask p) (fgive (FStack p) (fgive (FStackAcct p) s))) else
      (Some p, ftake (FScs p) s)
  end.
(** The flags and fields set right after the copy. *)
Definition child_task (p : Z) (args : clone_args) (cur : task) : task :=
  let fl := Z.ldiff (t_flags cur) PF_KTHREAD in
  let fl := set_if (ca_kthread args) PF_KTHREAD fl in
  let fl := set_if (ca_user_worker args) PF_USER_WORKER fl in
  let fl := set_if (ca_io_thread args) PF_IO_WORKER fl in
  Task (t_pid cur) (t_tgid cur) (t_group_leader cur) (t_real_parent cur) (t_exit_signal cur) fl (t_signal cur)
    (t_sighand cur) (t_fs cur) (t_files cur) (t_mm cur)
    (if has (ca_flags args) CLONE_CHILD_SETTID then ca_child_tid args else 0)
    (if has (ca_flags args) CLONE_CHILD_CLEARTID then ca_child_tid args else 0)
    (t_self_exec_id cur) (t_parent_exec_id cur) [] (t_pdeath_signal cur) (t_nnp cur) None false false (t_user cur).
(** [p->flags &= ~(..); p->flags |= PF_FORKNOEXEC;] *)
Definition fork_flags (fl : Z) : Z :=
  Z.ldiff fl (PF_SUPERPRIV .| PF_WQ_WORKER .| PF_IDLE .| PF_NO_SETAFFINITY) .| PF_FORKNOEXEC.
(** The new task after the flags and lists are initialised. *)
Definition setup_task (t : task) : task :=
  Task (t_pid t) (t_tgid t) (t_group_leader t) (t_real_parent t) (t_exit_signal t) (fork_flags (t_flags t))
    (t_signal t) (t_sighand t) (t_fs t) (t_files t) (t_mm t) (t_set_child_tid t) (t_clear_child_tid t)
    (t_self_exec_id t) (t_parent_exec_id t) [] (t_pdeath_signal t) (t_nnp t) (t_seccomp t) false false (t_user t).
Definition clear_nproc_exceeded (t : task) : task :=
  Task (t_pid t) (t_tgid t) (t_group_leader t) (t_real_parent t) (t_exit_signal t)
    (Z.ldiff (t_flags t) PF_NPROC_EXCEEDED) (t_signal t) (t_sighand t) (t_fs t) (t_files t) (t_mm t)
    (t_set_child_tid t) (t_clear_child_tid t) (t_self_exec_id t) (t_parent_exec_id t) (t_children t)
    (t_pdeath_signal t) (t_nnp t) (t_seccomp t) (t_kthread t) (t_io_context t) (t_user t).

(** ** The labels of the error path, last one first *)
Section labels.
Context (curid : Z) (args : clone_args) (p : Z).
#[local] Abbreviation fl := (ca_flags args).
#[local] Abbreviation result := ((Z + Z) * fkstate)%type.

Definition fork_out (e : Z) (s : fkstate) : result :=
  (inl e, if has fl CLONE_THREAD then s else fgive (FDelayed curid) s).
Definition bad_fork_free (kthread : bool) (e : Z) (s : fkstate) : result :=
  let s := fgive (FStack p) (fgive (FStackAcct p) s) in
  let s := fgive (FScs p) s in
  let s := if kthread then fgive (FKthread p) s else s in
  fork_out e (fgive (FTask p) s).
Definition bad_fork_cleanup_count (kthread : bool) (e : Z) (s : fkstate) : result :=
  bad_fork_free kthread e (fgive (FCreds p) (fgive (FNproc p) s)).
Definition bad_fork_cleanup_delayacct (kthread : bool) (e : Z) (s : fkstate) : result :=
  bad_fork_cleanup_count kthread e (fgive (FDelayacct p) s).
Definition bad_fork_cleanup_policy (e : Z) (s : fkstate) : result :=
  bad_fork_cleanup_delayacct (ca_kthread args) e (fgive (FMempolicy p) s).
Definition bad_fork_cleanup_perf (e : Z) (s : fkstate) : result := bad_fork_cleanup_policy e (fgive (FPerf p) s).
Definition bad_fork_cleanup_audit (e : Z) (s : fkstate) : result := bad_fork_cleanup_perf e (fgive (FAudit p) s).
Definition bad_fork_cleanup_security (e : Z) (s : fkstate) : result := bad_fork_cleanup_audit e (fgive (FSecurity p) s).
Definition bad_fork_cleanup_semundo (e : Z) (s : fkstate) : result := bad_fork_cleanup_security e (fgive (FSemundo p) s).
Definition bad_fork_cleanup_files (files : option Z) (e : Z) (s : fkstate) : result :=
  bad_fork_cleanup_semundo e (match files with Some f => fgive (FilesCount f) s | None => s end).
Definition bad_fork_cleanup_fs (files : option Z) (fs e : Z) (s : fkstate) : result :=
  bad_fork_cleanup_files files e (fgive (FsUsers fs) s).
(** [__cleanup_sighand]: drops the count, the object goes with the last user. *)
Definition bad_fork_cleanup_sighand (files : option Z) (fs hand e : Z) (s : fkstate) : result :=
  bad_fork_cleanup_fs files fs e (fgive (SighandCount hand) s).
(** [free_signal_struct] *)
Definition bad_fork_cleanup_signal (files : option Z) (fs hand sig e : Z) (s : fkstate) : result :=
  bad_fork_cleanup_sighand files fs hand e
    (if negb (has fl CLONE_THREAD) then set_signals (delete sig (signals s)) s else s).
Definition bad_fork_cleanup_mm (files : option Z) (fs hand sig : Z) (mm : option Z) (e : Z) (s : fkstate) : result :=
  bad_fork_cleanup_signal files fs hand sig e
    (match mm with
     | Some m =>
         (* mm_clear_owner(p->mm, p) *)
         let k := upd_mm m (fun x => if bool_decide (mm_owner x = Some p) then set_owner None x else x) (kmm s) in
         set_kmm (mmput m k) s
     | None => s
     end).
Definition bad_fork_cleanup_namespaces files fs hand sig mm (e : Z) (s : fkstate) : result :=
  bad_fork_cleanup_mm files fs hand sig mm e (fgive (FNamespaces p) s).
Definition bad_fork_cleanup_io (io : bool) files fs hand sig mm (e : Z) (s : fkstate) : result :=
  bad_fork_cleanup_namespaces files fs hand sig mm e (if io then fgive (FIo p) s else s).
Definition bad_fork_cleanup_thread io files fs hand sig mm (e : Z) (s : fkstate) : result :=
  bad_fork_cleanup_io io files fs hand sig mm e (fgive (FThread p) s).
Definition bad_fork_free_pid (init_pid : bool) (nr : Z) io files fs hand sig mm (e : Z) (s : fkstate) : result :=
  bad_fork_cleanup_thread io files fs hand sig mm e (if init_pid then s else fgive (FPid nr) s).
Definition bad_fork_put_pidfd (pidfd : Z) init_pid nr io files fs hand sig mm (e : Z) (s : fkstate) : result :=
  bad_fork_free_pid init_pid nr io files fs hand sig mm e
    (if has fl CLONE_PIDFD then fgive (FFd pidfd) (fgive (FPidfdFile nr) s) else s).
Definition bad_fork_cancel_cgroup pidfd init_pid nr io files fs hand sig mm (e : Z) (s : fkstate) : result :=
  bad_fork_put_pidfd pidfd init_pid nr io files fs hand sig mm e (fgive (FCgroup p) (fgive (FSchedCore p) s)).
End labels.

(** ** Making the task visible *)

(** The fields decided under the task-list lock. *)
Definition linked_task (curid p nr : Z) (args : clone_args) (cur leader : task) (t : task) : task :=
  let fl := ca_flags args in
  let thread := has fl CLONE_THREAD in
  let keep_parent := has fl (CLONE_PARENT .| CLONE_THREAD) in
  Task nr (if thread then t_tgid cur else nr) (if thread then t_group_leader cur else p)
    (if keep_parent then t_real_parent cur else curid)
    (if thread then -1 else if keep_parent then t_exit_signal leader else ca_exit_signal args)
    (t_flags t) (t_signal t) (t_sighand t) (t_fs t) (t_files t) (t_mm t) (t_set_child_tid t) (t_clear_child_tid t)
    (t_self_exec_id t) (if keep_parent then t_parent_exec_id cur else t_self_exec_id cur)
    (t_children t) 0 (t_nnp t) (t_seccomp t) (t_kthread t) (t_io_context t) (t_user t).

Definition join_group (p : Z) (g : sigstruct) : sigstruct :=
  SigStruct (sg_nr_threads g + 1) (sg_quick_threads g + 1) (sg_live g + 1) (sg_sigcnt g + 1) (sg_threads g ++ [p])
    (sg_flags g) (sg_pgrp g) (sg_session g) (sg_tty g) (sg_has_child_subreaper g) (sg_is_child_subreaper g)
    (sg_oom_score_adj g) (sg_oom_score_adj_min g) (sg_rlim g).
(** A leader inherits the group, session, terminal and subreaper of its parent. *)
Definition lead_group (nr : Z) (csig : sigstruct) (subreaper : bool) (g : sigstruct) : sigstruct :=
  SigStruct (sg_nr_threads g) (sg_quick_threads g) (sg_live g) (sg_sigcnt g) (sg_threads g)
    (set_if (child_reaper nr) SIGNAL_UNKILLABLE (sg_flags g)) (sg_pgrp csig) (sg_session csig) (sg_tty csig)
    subreaper (sg_is_child_subreaper g) (sg_oom_score_adj g) (sg_oom_score_adj_min g) (sg_rlim g).
Definition add_child (p : Z) (t : task) : task :=
  Task (t_pid t) (t_tgid t) (t_group_leader t) (t_real_parent t) (t_exit_signal t) (t_flags t) (t_signal t)
    (t_sighand t) (t_fs t) (t_files t) (t_mm t) (t_set_child_tid t) (t_clear_child_tid t) (t_self_exec_id t)
    (t_parent_exec_id t) (t_children t ++ [p]) (t_pdeath_signal t) (t_nnp t) (t_seccomp t) (t_kthread t)
    (t_io_context t) (t_user t).

Definition link_task (p : Z) (t : task) (csig : sigstruct) (s : fkstate) : fkstate :=
  if t_pid t =? 0 then s
  else if 0 <=? t_exit_signal t then                  (* thread_group_leader(p) *)
    let parent := tasks s !! t_real_parent t in
    let psig := parent ≫= fun q => signals s !! t_signal q in
    let sub := match psig with Some g => sg_has_child_subreaper g || sg_is_child_subreaper g | None => false end in
    let s := match sg_tty csig with Some tty => ftake (FTty tty) s | None => s end in
    FkState (<[p := t]> (alter (add_child p) (t_real_parent t) (tasks s)))
      (alter (lead_group (t_pid t) csig sub) (t_signal t) (signals s))
      (kmm s) (ext s) (installed s) (nr_threads s + 1) (total_forks s) (process_counts s + 1) (upids s)
  else
    FkState (<[p := t]> (tasks s)) (alter (join_group p) (t_signal t) (signals s))
      (kmm s) (ext s) (installed s) (nr_threads s + 1) (total_forks s) (process_counts s) (upids s).

Definition copy_oom_score_adj (fl : Z) (t : task) (csig : sigstruct) (s : fkstate) : fkstate :=
  match t_mm t with
  | None => s
  | Some m =>
      if negb (Z.land fl (CLONE_VM .| CLONE_THREAD .| CLONE_VFORK) =? CLONE_VM) then s
      else
        let s := set_kmm (upd_mm m (fun x => Mm (mm_users x) (mm_count x) (mm_owner x) (mm_exe x) (mm_binfmt x)
                   (mm_mt x) (map_count x) (total_vm x) (data_vm x) (exec_vm x) (stack_vm x)
                   (mm_flags x .| 67108864) (def_flags x) (mm_user_ns x) (hiwater_vm x)) (kmm s)) s in
        set_signals (alter (fun g => SigStruct (sg_nr_threads g) (sg_quick_threads g) (sg_live g) (sg_sigcnt g)
          (sg_threads g) (sg_flags g) (sg_pgrp g) (sg_session g) (sg_tty g) (sg_has_child_subreaper g)
          (sg_is_child_subreaper g) (sg_oom_score_adj csig) (sg_oom_score_adj_min csig) (sg_rlim g))
          (t_signal t) (signals s)) s
  end.

Definition finish_fork (s : fkstate) : fkstate :=
  FkState (tasks s) (signals s) (kmm s) (ext s) (installed s) (nr_threads s) (u64 (total_forks s + 1)) (process_counts s) (upids s).
Definition install_pidfd (pidfd nr : Z) (s : fkstate) : fkstate :=
  FkState (tasks s) (signals s) (kmm s) (ext s) (<[pidfd := nr]> (installed s)) (nr_threads s) (total_forks s)
    (process_counts s) (upids s).

(** From [copy_seccomp] to the end: no more failure paths. *)
Definition commit_fork (curid p nr pidfd : Z) (args : clone_args) (cur leader : task) (csig : sigstruct) (t : task)
    (s : fkstate) : (Z + Z) * fkstate :=
  let fl := ca_flags args in
  let t := linked_task curid p nr args cur leader t in
  let '(t, s) := copy_seccomp cur t s in
  let s := finish_fork (link_task p t csig s) in
  let s := if has fl CLONE_THREAD then s else fgive (FDelayed curid) s in
  let s := if has fl CLONE_PIDFD then install_pidfd pidfd nr s else s in
  (inr p, copy_oom_score_adj fl t csig s).

(** From the cgroup check on. *)
Definition fork_visible (curid p nr pidfd : Z) (init_pid : bool) (args : clone_args) (cur leader : task)
    (csig : sigstruct) (io : bool) (t : task) (s : fkstate) : (Z + Z) * fkstate :=
  guard (acquire (FCgroup p) SCgroup s)
    (bad_fork_put_pidfd curid args p pidfd init_pid nr io (t_files t) (t_fs t) (t_sighand t) (t_signal t) (t_mm t))
    (fun s =>
  let s := ftake (FSchedCore p) s in
  let cancel := bad_fork_cancel_cgroup curid args p pidfd init_pid nr io (t_files t) (t_fs t) (t_sighand t)
                  (t_signal t) (t_mm t) in
  if negb (pidns_adding nr) then cancel (- ENOMEM) s
  else if fatal_pending s then cancel (- EINTR) s
  else commit_fork curid p nr pidfd args cur leader csig t s).

(** The pid and, when asked for, the descriptor for it. *)
Definition fork_pid (curid p : Z) (init_pid : bool) (args : clone_args) (cur leader : task) (csig : sigstruct)
    (io : bool) (t : task) (s : fkstate) : (Z + Z) * fkstate :=
  match (if init_pid then inr 0 else alloc_pid (ca_set_tid args) s) with
  | inl e => bad_fork_cleanup_thread curid args p io (t_files t) (t_fs t) (t_sighand t) (t_signal t) (t_mm t) e s
  | inr nr =>
      let s := if init_pid then s else ftake (FPid nr) s in
      if has (ca_flags args) CLONE_PIDFD then
        let '(pidfd, s) := pidfd_prepare_locked nr s in
        if pidfd <? 0
        then bad_fork_free_pid curid args p init_pid nr io (t_files t) (t_fs t) (t_sighand t) (t_signal t) (t_mm t) pidfd s
        else
          let '(e, m) := put_user (upids s) pidfd (ca_pidfd args) 4 in
          let s := set_upids m s in
          if negb (e =? 0)
          then bad_fork_put_pidfd curid args p pidfd init_pid nr io (t_files t) (t_fs t) (t_sighand t) (t_signal t) (t_mm t) e s
          else fork_visible curid p nr pidfd init_pid args cur leader csig io t s
      else fork_visible curid p nr (-1) init_pid args cur leader csig io t s
  end.

(** [copy_files] to [copy_thread]. *)
Definition fork_parts (curid p : Z) (init_pid : bool) (args : clone_args) (cur leader : task) (csig : sigstruct)
    (t : task) (s : fkstate) : (Z + Z) * fkstate :=
  let fl := ca_flags args in
  let '(e, files, s) := copy_files fl (ca_no_files args) cur s in
  if negb (e =? 0) then bad_fork_cleanup_semundo curid args p e s else
  let '(e, fs, s) := copy_fs fl cur s in
  if negb (e =? 0) then bad_fork_cleanup_files curid args p files e s else
  let '(e, hand, s) := copy_sighand fl cur s in
  if negb (e =? 0) then bad_fork_cleanup_fs curid args p files fs e s else
  let '(e, sig, s) := copy_signal fl p cur csig s in
  if negb (e =? 0) then bad_fork_cleanup_sighand curid args p files fs hand e s else
  let '(e, mm, s) := copy_mm fl p cur s in
  if negb (e =? 0) then bad_fork_cleanup_signal curid args p files fs hand sig e s else
  guard (acquire (FNamespaces p) SNamespaces s) (bad_fork_cleanup_mm curid args p files fs hand sig mm) (fun s =>
  let e := err_of SIo s in
  if negb (e =? 0) then bad_fork_cleanup_namespaces curid args p files fs hand sig mm e s else
  let io := io_context_set s in
  let s := if io then ftake (FIo p) s else s in
  guard (acquire (FThread p) SThread s) (bad_fork_cleanup_io curid args p io files fs hand sig mm) (fun s =>
  let t := Task (t_pid t) (t_tgid t) (t_group_leader t) (t_real_parent t) (t_exit_signal t) (t_flags t) sig hand fs
             files mm (t_set_child_tid t) (t_clear_child_tid t) (t_self_exec_id t) (t_parent_exec_id t)
             (t_children t) (t_pdeath_signal t) (t_nnp t) (t_seccomp t) (ca_kthread args) io (t_user t) in
  fork_pid curid p init_pid args cur leader csig io t s)).

(** From the limits to [copy_semundo]. *)
Definition fork_setup (curid p : Z) (init_pid : bool) (args : clone_args) (cur leader : task) (csig : sigstruct)
    (s : fkstate) : (Z + Z) * fkstate :=
  let t := child_task p args cur in
  let e := err_of SCreds s in
  if e <? 0 then bad_fork_free curid args p false e s else
  let s := ftake (FNproc p) (ftake (FCreds p) s) in
  if nproc_exceeded s && negb (t_user t =? INIT_USER) && negb (capable CAP_SYS_RESOURCE) && negb (capable CAP_SYS_ADMIN)
  then bad_fork_cleanup_count curid args p false (- EAGAIN) s else
  let s := set_tasks (alter clear_nproc_exceeded curid (tasks s)) s in
  if max_threads <=? nr_threads s then bad_fork_cleanup_count curid args p false (- EAGAIN) s else
  let s := ftake (FDelayacct p) s in
  let t := setup_task t in
  if ca_kthread args && negb (err_of SKthread s =? 0)
  then bad_fork_cleanup_delayacct curid args p false (- EAGAIN) s else
  let s := if ca_kthread args then ftake (FKthread p) s else s in
  guard (acquire (FMempolicy p) SMempolicy s) (bad_fork_cleanup_delayacct curid args p (ca_kthread args)) (fun s =>
  let e := err_of SSched s in
  if negb (e =? 0) then bad_fork_cleanup_policy curid args p e s else
  guard (acquire (FPerf p) SPerf s) (bad_fork_cleanup_policy curid args p) (fun s =>
  guard (acquire (FAudit p) SAudit s) (bad_fork_cleanup_perf curid args p) (fun s =>
  guard (acquire (FSecurity p) SSecurity s) (bad_fork_cleanup_audit curid args p) (fun s =>
  guard (acquire (FSemundo p) SSemundo s) (bad_fork_cleanup_security curid args p) (fun s =>
  fork_parts curid p init_pid args cur leader csig t s))))).

(** The caller, its thread-group leader and its signal structure are given:
    the kernel reaches them through [current]. *)
Definition copy_process (curid : Z) (init_pid : bool) (args : clone_args) (cur leader : task) (csig : sigstruct)
    (s : fkstate) : (Z + Z) * fkstate :=
  let fl := ca_flags args in
  let e := clone_flags_error fl (sg_flags csig) in
  if negb (e =? 0) then (inl e, s) else
  let s := if has fl CLONE_THREAD then s else ftake (FDelayed curid) s in
  if sigpending s then fork_out curid args (- ERESTARTNOINTR) s else
  let '(p, s) := dup_task_struct s in
  match p with
  | None => fork_out curid args (- ENOMEM) s
  | Some p => fork_setup curid p init_pid args cur leader csig s
  end.
End fork.

(** ** A failed fork leaves no trace, a successful one the new task's share *)

Fixpoint bill (l : list fres) (r : fres) : Z :=
  match l with [] => 0 | x :: l => one x r + bill l r end.
Lemma bill_app l l' r : bill (l ++ l') r = bill l r + bill l' r.
Proof. induction l as [|x l IH]; cbn; lia. Qed.

Definition same_mm (k k' : mmstate) : Prop := mms k' = mms k /\ mheld k' ≡ mheld k.

(** What a failed attempt may differ in: the mark of the caller. *)
Record restored (curid : Z) (s s' : fkstate) : Prop := {
  rs_ext : ext s' ≡ ext s;
  rs_signals : signals s' = signals s;
  rs_mm : same_mm (kmm s) (kmm s');
  rs_installed : installed s' = installed s;
  rs_counts : (nr_threads s', total_forks s', process_counts s') = (nr_threads s, total_forks s, process_counts s);
  rs_tasks : tasks s' = tasks s \/ tasks s' = alter clear_nproc_exceeded curid (tasks s);
}.

Class ForkLaws `{fenv : ForkEnv} := {
  err_neg k s : err_of k s <= 0;
  alloc_task_fresh s p : alloc_task s = Some p ->
    tasks s !! p = None /\ (forall m x, mms (kmm s) !! m = Some x -> mm_owner x <> Some p);
  new_signal_fresh s : signals s !! new_signal s = None;
  new_files_fresh s : err_of SDupFd s = 0 -> ext s (FilesCount (new_files s)) = 0;
  new_fs_fresh s : err_of SCopyFs s = 0 -> ext s (FsUsers (new_fs s)) = 0;
  new_sighand_fresh s : err_of SSighand s = 0 -> ext s (SighandCount (new_sighand s)) = 0;
  alloc_pid_spec l s : match alloc_pid l s with inl e => e < 0 | inr nr => 0 < nr end;
}.

Section properties.
Context {menv : MmEnv} {fenv : ForkEnv} {caps : Caps} {ua : UAccess}.
Context {mlaws : MmLaws} {flaws : ForkLaws}.

Section attempt.
Context (curid : Z) (args : clone_args) (p : Z) (s0 : fkstate).
#[local] Abbreviation fl := (ca_flags args).

(** The stack of what is held at a point between [s0] and the end. *)
Record holds (l : list fres) (s : fkstate) : Prop := {
  hd_ext : forall r, ext s r = ext s0 r + bill l r;
  hd_installed : installed s = installed s0;
  hd_counts : (nr_threads s, total_forks s, process_counts s) = (nr_threads s0, total_forks s0, process_counts s0);
  hd_tasks : tasks s = tasks s0 \/ tasks s = alter clear_nproc_exceeded curid (tasks s0);
}.
Lemma holds_take r l s : holds l s -> holds (r :: l) (ftake r s).
Proof. intros [H ???]. split; try done. intros x. cbn. rewrite take_one_at, H. lia. Qed.
Lemma holds_give r l s : holds (r :: l) s -> holds l (fgive r s).
Proof. intros [H ???]. split; try done. intros x. cbn. rewrite drop_one_at, H. cbn. lia. Qed.
Lemma holds_bill l l' s : (forall r, bill l r = bill l' r) -> holds l s -> holds l' s.
Proof. intros Hp [H ???]. split; try done. intros x. by rewrite H, Hp. Qed.
Lemma holds_kmm k l s : holds l s -> holds l (set_kmm k s).
Proof. by intros []. Qed.
Lemma holds_signals g l s : holds l s -> holds l (set_signals g s).
Proof. by intros []. Qed.
Lemma holds_upids u l s : holds l s -> holds l (set_upids u s).
Proof. by intros []. Qed.

(** *** The labels, in the order in which they pop the stack *)
Definition b_out : list fres := if has fl CLONE_THREAD then [] else [FDelayed curid].
Definition b_free (k : bool) : list fres :=
  FStackAcct p :: FStack p :: FScs p :: (if k then [FKthread p] else []) ++ FTask p :: b_out.
Definition b_count k : list fres := FNproc p :: FCreds p :: b_free k.
Definition b_delayacct k : list fres := FDelayacct p :: b_count k.
Definition b_policy : list fres := FMempolicy p :: b_delayacct (ca_kthread args).
Definition b_semundo : list fres := FSemundo p :: FSecurity p :: FAudit p :: FPerf p :: b_policy.
Definition b_files (files : option Z) : list fres := match files with Some f => [FilesCount f] | None => [] end ++ b_semundo.
Definition b_sighand files fs hand : list fres := SighandCount hand :: FsUsers fs :: b_files files.
Definition b_io (io : bool) files fs hand : list fres := (if io then [FIo p] else []) ++ FNamespaces p :: b_sighand files fs hand.
Definition b_thread io files fs hand : list fres := FThread p :: b_io io files fs hand.
Definition b_pid (init_pid : bool) nr io files fs hand : list fres :=
  (if init_pid then [] else [FPid nr]) ++ b_thread io files fs hand.
Definition b_pidfd pidfd init_pid nr io files fs hand : list fres :=
  (if has fl CLONE_PIDFD then [FPidfdFile nr; FFd pidfd] else []) ++ b_pid init_pid nr io files fs hand.
Definition b_cgroup pidfd init_pid nr io files fs hand : list fres :=
  FSchedCore p :: FCgroup p :: b_pidfd pidfd init_pid nr io files fs hand.

(** The thread groups and address spaces are as before; after [copy_signal]
    and [copy_mm], they are so again once their labels ran. *)
Definition calm (s : fkstate) : Prop := signals s = signals s0 /\ same_mm (kmm s0) (kmm s).
Definition undo_signal (sig : Z) (s : fkstate) : gmap Z sigstruct :=
  if negb (has fl CLONE_THREAD) then delete sig (signals s) else signals s.
Definition undo_mm (mm : option Z) (k : mmstate) : mmstate :=
  match mm with
  | Some m => mmput m (upd_mm m (fun x => if bool_decide (mm_owner x = Some p) then set_owner None x else x) k)
  | None => k
  end.
Definition calm_signal sig (s : fkstate) : Prop := undo_signal sig s = signals s0 /\ same_mm (kmm s0) (kmm s).
Definition calm_mm sig mm (s : fkstate) : Prop := undo_signal sig s = signals s0 /\ same_mm (kmm s0) (undo_mm mm (kmm s)).

Definition failed (e : Z) (r : (Z + Z) * fkstate) : Prop := r.1 = inl e /\ restored curid s0 r.2.

Lemma fork_out_failed e s : holds b_out s -> calm s -> failed e (fork_out curid args e s).
Proof.
  unfold fork_out, b_out. intros H [C1 C2]. split; [done|]. cbn.
  assert (holds [] (if has fl CLONE_THREAD then s else fgive (FDelayed curid) s)) as [E ???]
    by (destruct (has fl CLONE_THREAD); [done|by apply holds_give]).
  split; try done; [intros r; rewrite E; cbn; lia|by destruct (has fl CLONE_THREAD)..].
Qed.
Lemma bad_fork_free_failed k e s : holds (b_free k) s -> calm s -> failed e (bad_fork_free curid args p k e s).
Proof.
  unfold b_free, bad_fork_free. intros H C. do 3 apply holds_give in H. apply fork_out_failed; [|by destruct k].
  apply holds_give. destruct k; [by apply holds_give|done].
Qed.
Lemma bad_fork_cleanup_count_failed k e s : holds (b_count k) s -> calm s -> failed e (bad_fork_cleanup_count curid args p k e s).
Proof. intros H C. apply bad_fork_free_failed; [by do 2 apply holds_give in H|done]. Qed.
Lemma bad_fork_cleanup_delayacct_failed k e s :
  holds (b_delayacct k) s -> calm s -> failed e (bad_fork_cleanup_delayacct curid args p k e s).
Proof. intros H C. apply bad_fork_cleanup_count_failed; [by apply holds_give in H|done]. Qed.
Lemma bad_fork_cleanup_policy_failed e s : holds b_policy s -> calm s -> failed e (bad_fork_cleanup_policy curid args p e s).
Proof. intros H C. apply bad_fork_cleanup_delayacct_failed; [by apply holds_give in H|done]. Qed.
Lemma bad_fork_cleanup_semundo_failed e s : holds b_semundo s -> calm s -> failed e (bad_fork_cleanup_semundo curid args p e s).
Proof. intros H C. apply bad_fork_cleanup_policy_failed; [by do 4 apply holds_give in H|done]. Qed.
Lemma bad_fork_cleanup_files_failed files e s :
  holds (b_files files) s -> calm s -> failed e (bad_fork_cleanup_files curid args p files e s).
Proof. intros H C. apply bad_fork_cleanup_semundo_failed; destruct files; [by apply holds_give in H|done..]. Qed.
Lemma bad_fork_cleanup_sighand_failed files fs hand e s :
  holds (b_sighand files fs hand) s -> calm s -> failed e (bad_fork_cleanup_sighand curid args p files fs hand e s).
Proof. intros H C. apply bad_fork_cleanup_files_failed; [by do 2 apply holds_give in H|done]. Qed.
Lemma bad_fork_cleanup_signal_failed files fs hand sig e s : holds (b_sighand files fs hand) s -> calm_signal sig s ->
  failed e (bad_fork_cleanup_signal curid args p files fs hand sig e s).
Proof.
  unfold calm_signal, undo_signal, bad_fork_cleanup_signal. intros H [C1 C2].
  apply bad_fork_cleanup_sighand_failed; destruct (negb (has fl CLONE_THREAD)); try done. by apply holds_signals.
Qed.
Lemma bad_fork_cleanup_mm_failed files fs hand sig mm e s : holds (b_sighand files fs hand) s -> calm_mm sig mm s ->
  failed e (bad_fork_cleanup_mm curid args p files fs hand sig mm e s).
Proof. intros H [C1 C2]. apply bad_fork_cleanup_signal_failed; destruct mm; try done. by apply holds_kmm. Qed.
Lemma bad_fork_cleanup_io_failed io files fs hand sig mm e s : holds (b_io io files fs hand) s -> calm_mm sig mm s ->
  failed e (bad_fork_cleanup_io curid args p io files fs hand sig mm e s).
Proof.
  intros H C. apply bad_fork_cleanup_mm_failed; [|by destruct io]. apply holds_give.
  destruct io; [by apply holds_give in H|done].
Qed.
Lemma bad_fork_cleanup_thread_failed io files fs hand sig mm e s : holds (b_thread io files fs hand) s -> calm_mm sig mm s ->
  failed e (bad_fork_cleanup_thread curid args p io files fs hand sig mm e s).
Proof. intros H C. apply bad_fork_cleanup_io_failed; [by apply holds_give in H|done]. Qed.
Lemma bad_fork_free_pid_failed init_pid nr io files fs hand sig mm e s :
  holds (b_pid init_pid nr io files fs hand) s -> calm_mm sig mm s ->
  failed e (bad_fork_free_pid curid args p init_pid nr io files fs hand sig mm e s).
Proof. intros H C. apply bad_fork_cleanup_thread_failed; destruct init_pid; try done. by apply holds_give in H. Qed.
Lemma bad_fork_put_pidfd_failed pidfd init_pid nr io files fs hand sig mm e s :
  holds (b_pidfd pidfd init_pid nr io files fs hand) s -> calm_mm sig mm s ->
  failed e (bad_fork_put_pidfd curid args p pidfd init_pid nr io files fs hand sig mm e s).
Proof.
  unfold b_pidfd, bad_fork_put_pidfd. intros H C. apply bad_fork_free_pid_failed; destruct (has fl CLONE_PIDFD); try done.
  by do 2 apply holds_give in H.
Qed.
Lemma bad_fork_cancel_cgroup_failed pidfd init_pid nr io files fs hand sig mm e s :
  holds (b_cgroup pidfd init_pid nr io files fs hand) s -> calm_mm sig mm s ->
  failed e (bad_fork_cancel_cgroup curid args p pidfd init_pid nr io files fs hand sig mm e s).
Proof. intros H C. apply bad_fork_put_pidfd_failed; [by do 2 apply holds_give in H|done]. Qed.

(** *** The parts: shared or new *)
Context (cur leader : task) (csig : sigstruct).
Hypothesis cur_mm : forall m, t_mm cur = Some m -> exists x, mms (kmm s0) !! m = Some x /\ 1 <= mm_users x /\
  exe_denied x /\ mm_owner x <> Some p.

Definition files_child (files : option Z) : Prop :=
  match t_files cur with
  | None => files = None
  | Some f => if ca_no_files args then files = None else if has fl CLONE_FILES then files = Some f
              else exists g, files = Some g /\ ext s0 (FilesCount g) = 0
  end.
Definition fs_child (fs : Z) : Prop :=
  if has fl CLONE_FS then fs = t_fs cur /\ fs_in_exec fs = false else ext s0 (FsUsers fs) = 0.
Definition sighand_child (hand : Z) : Prop :=
  if has fl CLONE_SIGHAND then hand = t_sighand cur else ext s0 (SighandCount hand) = 0.
Definition signal_child (sig : Z) (g : gmap Z sigstruct) : Prop :=
  if has fl CLONE_THREAD then sig = t_signal cur /\ g = signals s0
  else signals s0 !! sig = None /\ g = <[sig := new_group p csig]> (signals s0).
Definition mm_child (mm : option Z) (k : mmstate) : Prop :=
  match t_mm cur with
  | None => mm = None /\ k = kmm s0
  | Some old =>
      if has fl CLONE_VM then mm = Some old /\ k = mmget old (kmm s0)
      else exists oldmm m, mm = Some m /\ mms (kmm s0) !! old = Some oldmm /\ dup_mm p old oldmm (kmm s0) = (Some m, k)
  end.

(** Nothing but the ledger and the caller's mark moved yet. *)
Definition quiet (s : fkstate) : Prop :=
  signals s = signals s0 /\ kmm s = kmm s0 /\ tasks s = alter clear_nproc_exceeded curid (tasks s0).
Lemma quiet_calm s : quiet s -> calm s.
Proof. intros (H1 & H2 & _). split; [done|]. rewrite H2. by split. Qed.

(** Nothing held so far is a count of users. *)
Lemma semundo_counts r : (match r with FilesCount _ | FsUsers _ | SighandCount _ => True | _ => False end) ->
  bill b_semundo r = 0.
Proof.
  intros Hr. unfold b_semundo, b_policy, b_delayacct, b_count, b_free, b_out.
  destruct (ca_kthread args), (has fl CLONE_THREAD); cbn [bill app]; rewrite !one_other by (by intros <-); lia.
Qed.

Lemma copy_files_outcome s : holds b_semundo s -> quiet s ->
  let '(e, files, s') := copy_files fl (ca_no_files args) cur s in
  (e < 0 /\ s' = s) \/ (e = 0 /\ holds (b_files files) s' /\ quiet s' /\ files_child files).
Proof.
  intros H Q. unfold copy_files, files_child. destruct (t_files cur) as [f|]; [|by right].
  destruct (ca_no_files args); [by right|]. destruct (has fl CLONE_FILES); [right; by split_and!; [|apply holds_take|..]|].
  pose proof (err_neg SDupFd s). destruct (Z.eqb_spec (err_of SDupFd s) 0); [right|left; split; [lia|done]].
  split_and!; try done; [by apply holds_take|]. eexists. split; [done|].
  pose proof (new_files_fresh s ltac:(done)) as Hf. rewrite (hd_ext _ _ H), semundo_counts in Hf by done. lia.
Qed.
Lemma copy_fs_outcome files s : holds (b_files files) s -> quiet s ->
  let '(e, fs, s') := copy_fs fl cur s in
  (e < 0 /\ s' = s) \/ (e = 0 /\ holds (FsUsers fs :: b_files files) s' /\ quiet s' /\ fs_child fs).
Proof.
  intros H Q. unfold copy_fs, fs_child. destruct (has fl CLONE_FS).
  { destruct (fs_in_exec (t_fs cur)) eqn:?; [by left|]. right. split_and!; try done. by apply holds_take. }
  destruct (Z.eqb_spec (err_of SCopyFs s) 0); [right|by left]. split_and!; try done; [by apply holds_take|].
  pose proof (new_fs_fresh s ltac:(done)) as Hf. rewrite (hd_ext _ _ H) in Hf.
  destruct files; cbn [b_files app bill] in Hf; rewrite semundo_counts, ?one_other in Hf by done; lia.
Qed.
Lemma copy_sighand_outcome files fs s : holds (FsUsers fs :: b_files files) s -> quiet s ->
  let '(e, hand, s') := copy_sighand fl cur s in
  (e < 0 /\ s' = s) \/ (e = 0 /\ holds (b_sighand files fs hand) s' /\ quiet s' /\ sighand_child hand).
Proof.
  intros H Q. unfold copy_sighand, sighand_child.
  destruct (has fl CLONE_SIGHAND); [right; by split_and!; [|apply holds_take|..]|].
  destruct (Z.eqb_spec (err_of SSighand s) 0); [right|by left]. split_and!; try done; [by apply holds_take|].
  pose proof (new_sighand_fresh s ltac:(done)) as Hf. rewrite (hd_ext _ _ H) in Hf.
  destruct files; cbn [b_files app bill] in Hf; rewrite semundo_counts, !one_other in Hf by done; lia.
Qed.
Lemma copy_signal_outcome files fs hand s : holds (b_sighand files fs hand) s -> quiet s ->
  let '(e, sig, s') := copy_signal fl p cur csig s in
  (e < 0 /\ s' = s) \/
  (e = 0 /\ holds (b_sighand files fs hand) s' /\ signal_child sig (signals s') /\ undo_signal sig s' = signals s0 /\
   kmm s' = kmm s0 /\ tasks s' = alter clear_nproc_exceeded curid (tasks s0)).
Proof.
  intros H (Q1 & Q2 & Q3). unfold copy_signal, signal_child, undo_signal. destruct (has fl CLONE_THREAD); [by right|].
  destruct (err_of SSignal s =? 0); [right|by left].
  pose proof (new_signal_fresh s) as Hf. rewrite Q1 in *. split_and!; try done; [by apply holds_signals|].
  cbn. by apply delete_insert_id.
Qed.
Lemma copy_mm_outcome files fs hand s : holds (b_sighand files fs hand) s -> kmm s = kmm s0 ->
  let '(e, mm, s') := copy_mm fl p cur s in
  signals s' = signals s /\ tasks s' = tasks s /\ holds (b_sighand files fs hand) s' /\
  ((e < 0 /\ same_mm (kmm s0) (kmm s')) \/
   (e = 0 /\ mm_child mm (kmm s') /\ same_mm (kmm s0) (undo_mm mm (kmm s')))).
Proof.
  intros H Q. unfold copy_mm, mm_child, undo_mm. destruct (t_mm cur) as [old|] eqn:Em.
  2: { split_and!; try done. right. rewrite Q. by split_and!. }
  destruct (cur_mm old) as (x & Hx & Hu & Hd & Ho); [done|]. rewrite Q.
  destruct (has fl CLONE_VM).
  - split_and!; try done; [by apply holds_kmm|]. right. split_and!; try done. cbn [kmm set_kmm].
    assert (upd_mm old (fun x => if bool_decide (mm_owner x = Some p) then set_owner None x else x) (mmget old (kmm s0))
      = mmget old (kmm s0)) as ->; [|rewrite (mmput_mmget _ _ x) by done; by split].
    unfold mmget, upd_mm. cbn. f_equal. apply map_eq. intros k. destruct (decide (k = old)) as [->|]; simplify_map_eq; [|done].
    by rewrite bool_decide_false.
  - rewrite Hx. pose proof (dup_mm_outcome p old x (kmm s0) Hd) as Hm.
    destruct (dup_mm p old x (kmm s0)) as [[m|] k] eqn:Edup.
    2: { split_and!; try done; [by apply holds_kmm|]. by left. }
    split_and!; try done; [by apply holds_kmm|]. right. split_and!; [done|by exists x, m|]. cbn [kmm set_kmm].
    destruct Hm as (Hf & y & Hy & Hyu & Hyc & _ & _ & _ & Hh).
    set (f := fun x => _) in *. pose proof (upd_mm_insert m f y k _ Hy) as E.
    assert (mm_users (f y) = 1 /\ mm_count (f y) = 1 /\ mm_amount m (f y) = mm_amount m y) as (Fu & Fc & Fa)
      by (subst f; cbv beta; by case_bool_decide).
    destruct (mmput_last m (upd_mm m f k) (f y)) as [E1 L1]; [rewrite E; apply lookup_insert_eq|done..|].
    split; [rewrite E1, E; by apply delete_insert_id|]. intros r. specialize (L1 r). specialize (Hh r).
    rewrite Fa in L1. cbn in *. lia.
Qed.

(** *** What a successful fork leaves *)
Definition task_share (pidfd nr : Z) (io : bool) (t : task) : list fres :=
  match t_seccomp cur with Some f => [FSeccomp f] | None => [] end ++
  (if has fl CLONE_THREAD then [] else match sg_tty csig with Some tty => [FTty tty] | None => [] end) ++
  [FSchedCore p; FCgroup p] ++ (if has fl CLONE_PIDFD then [FPidfdFile nr; FFd pidfd] else []) ++
  [FPid nr; FThread p] ++ (if io then [FIo p] else []) ++
  [FNamespaces p; SighandCount (t_sighand t); FsUsers (t_fs t)] ++
  match t_files t with Some f => [FilesCount f] | None => [] end ++
  [FSemundo p; FSecurity p; FAudit p; FPerf p; FMempolicy p; FDelayacct p; FNproc p; FCreds p] ++
  [FStackAcct p; FStack p; FScs p] ++ (if ca_kthread args then [FKthread p] else []) ++ [FTask p].

(** The fields that are set on the way. *)
Definition fresh_fields (t : task) : Prop :=
  t_flags t = fork_flags (t_flags (child_task p args cur)) /\ t_children t = [] /\ t_nnp t = t_nnp cur /\
  t_user t = t_user cur /\ t_kthread t = ca_kthread args /\
  t_set_child_tid t = (if has fl CLONE_CHILD_SETTID then ca_child_tid args else 0) /\
  t_clear_child_tid t = (if has fl CLONE_CHILD_CLEARTID then ca_child_tid args else 0).
Definition multiprocess (fl : Z) : bool := Z.land fl (CLONE_VM .| CLONE_THREAD .| CLONE_VFORK) =? CLONE_VM.

Record forked (nr pidfd : Z) (io : bool) (t : task) (s' : fkstate) : Prop := {
  fk_fields : fresh_fields t;
  fk_pid : t_pid t = nr /\ 0 < nr;
  fk_group : (t_tgid t, t_group_leader t) = if has fl CLONE_THREAD then (t_tgid cur, t_group_leader cur) else (nr, p);
  fk_parent : (t_real_parent t, t_parent_exec_id t) =
    if has fl (CLONE_PARENT .| CLONE_THREAD) then (t_real_parent cur, t_parent_exec_id cur) else (curid, t_self_exec_id cur);
  fk_exit : if has fl CLONE_THREAD then t_exit_signal t = -1 else 0 <= t_exit_signal t;
  fk_pdeath : t_pdeath_signal t = 0 /\ t_seccomp t = t_seccomp cur;
  fk_files : files_child (t_files t);
  fk_fs : fs_child (t_fs t);
  fk_sighand : sighand_child (t_sighand t);
  fk_mm : exists k, mm_child (t_mm t) k /\ (multiprocess fl = false -> kmm s' = k) /\ mheld (kmm s') = mheld k /\
    (forall m x, mms k !! m = Some x -> exists x', mms (kmm s') !! m = Some x' /\ core x' = core x);
  fk_signal : if has fl CLONE_THREAD then t_signal t = t_signal cur /\ signals s' = alter (join_group p) (t_signal cur) (signals s0)
    else signals s0 !! t_signal t = None /\
         exists sub, signals s' = <[t_signal t := lead_group nr csig sub (new_group p csig)]> (signals s0);
  fk_tasks : tasks s' = <[p := t]> ((if has fl CLONE_THREAD then id else alter (add_child p) (t_real_parent t))
    (alter clear_nproc_exceeded curid (tasks s0)));
  fk_counts : (nr_threads s', total_forks s', process_counts s') =
    (nr_threads s0 + 1, u64 (total_forks s0 + 1), process_counts s0 + Z.b2z (negb (has fl CLONE_THREAD)));
  fk_installed : installed s' = if has fl CLONE_PIDFD then <[pidfd := nr]> (installed s0) else installed s0;
  fk_ext : forall r, ext s' r = ext s0 r + bill (task_share pidfd nr io t) r;
}.

Lemma multiprocess_thread : has fl CLONE_THREAD = true -> multiprocess fl = false.
Proof.
  unfold multiprocess. rewrite (has_bit fl CLONE_THREAD) by done. change (Z.log2 CLONE_THREAD) with 16. intros H. apply Z.eqb_neq. intros E.
  apply (f_equal (fun z => Z.testbit z 16)) in E. rewrite Z.land_spec, H in E. done.
Qed.

(** The new group already has the values [copy_oom_score_adj] gives it. *)
Lemma copy_oom_score_adj_outcome t s :
  (forall g, has fl CLONE_THREAD = false -> signals s !! t_signal t = Some g ->
     (sg_oom_score_adj g, sg_oom_score_adj_min g) = (sg_oom_score_adj csig, sg_oom_score_adj_min csig)) ->
  let s' := copy_oom_score_adj fl t csig s in
  (tasks s', signals s', ext s', installed s') = (tasks s, signals s, ext s, installed s) /\
  (nr_threads s', total_forks s', process_counts s') = (nr_threads s, total_forks s, process_counts s) /\
  mheld (kmm s') = mheld (kmm s) /\ (multiprocess fl = false -> kmm s' = kmm s) /\
  (forall m x, mms (kmm s) !! m = Some x -> exists x', mms (kmm s') !! m = Some x' /\ core x' = core x).
Proof.
  intros Hg s'. subst s'. unfold copy_oom_score_adj. fold (multiprocess fl).
  destruct (t_mm t) as [m|]; [|split_and!; eauto].
  destruct (multiprocess fl) eqn:Emp; cbn [negb]; [|split_and!; eauto].
  assert (has fl CLONE_THREAD = false) as Ht
    by (destruct (has fl CLONE_THREAD) eqn:E; [|done]; apply multiprocess_thread in E; congruence).
  split_and!; try done; cbn.
  - do 3 f_equal. apply alter_id. intros g E. specialize (Hg g Ht E). destruct g. cbn in *. by simplify_eq.
  - intros k x Hx. destruct (decide (k = m)) as [->|]; simplify_map_eq; eauto.
Qed.

(** The parts of [t] after [fork_parts]. *)
Record prepared (io : bool) (t : task) (s : fkstate) : Prop := {
  pr_fields : fresh_fields t;
  pr_files : files_child (t_files t);
  pr_fs : fs_child (t_fs t);
  pr_sighand : sighand_child (t_sighand t);
  pr_signal : signal_child (t_signal t) (signals s);
  pr_undo : undo_signal (t_signal t) s = signals s0;
  pr_mm : mm_child (t_mm t) (kmm s);
  pr_mm_undo : same_mm (kmm s0) (undo_mm (t_mm t) (kmm s));
  pr_tasks : tasks s = alter clear_nproc_exceeded curid (tasks s0);
}.
Lemma prepared_calm io t s : prepared io t s -> calm_mm (t_signal t) (t_mm t) s.
Proof. by intros []. Qed.

Lemma commit_bill pidfd nr io t r :
  bill (b_cgroup pidfd false nr io (t_files t) (t_fs t) (t_sighand t)) r
  + bill (match t_seccomp cur with Some f => [FSeccomp f] | None => [] end) r
  + bill (if has fl CLONE_THREAD then [] else match sg_tty csig with Some tty => [FTty tty] | None => [] end) r
  = bill (task_share pidfd nr io t) r + bill b_out r.
Proof.
  unfold task_share, b_cgroup, b_pidfd, b_pid, b_thread, b_io, b_sighand, b_files, b_semundo, b_policy, b_delayacct,
    b_count, b_free.
  repeat (rewrite ?bill_app; cbn [bill]). lia.
Qed.

Lemma link_task_outcome t s :
  0 < t_pid t -> (0 <=? t_exit_signal t) = negb (has fl CLONE_THREAD) ->
  let s' := link_task p t csig s in
  (forall r, ext s' r = ext s r +
     bill (if has fl CLONE_THREAD then [] else match sg_tty csig with Some tty => [FTty tty] | None => [] end) r) /\
  tasks s' = <[p := t]> ((if has fl CLONE_THREAD then id else alter (add_child p) (t_real_parent t)) (tasks s)) /\
  (exists sub, signals s' = alter (if has fl CLONE_THREAD then join_group p else lead_group (t_pid t) csig sub)
     (t_signal t) (signals s)) /\
  (kmm s', installed s') = (kmm s, installed s) /\
  (nr_threads s', total_forks s', process_counts s') =
    (nr_threads s + 1, total_forks s, process_counts s + Z.b2z (negb (has fl CLONE_THREAD))).
Proof.
  intros Hp He s'. subst s'. unfold link_task. rewrite He. destruct (Z.eqb_spec (t_pid t) 0); [lia|].
  destruct (has fl CLONE_THREAD); cbn [negb Z.b2z].
  - split_and!; try done; [intros r; cbn; lia|by exists false|cbn; by rewrite Z.add_0_r].
  - destruct (sg_tty csig); split_and!; try done; try (by eexists); intros r; cbn; ledger_at; lia.
Qed.

Lemma committed_signals sub nr sig g : signal_child sig g ->
  let g' := alter (if has fl CLONE_THREAD then join_group p else lead_group nr csig sub) sig g in
  if has fl CLONE_THREAD then sig = t_signal cur /\ g' = alter (join_group p) (t_signal cur) (signals s0)
  else signals s0 !! sig = None /\ g' = <[sig := lead_group nr csig sub (new_group p csig)]> (signals s0).
Proof.
  unfold signal_child. destruct (has fl CLONE_THREAD); intros [H1 H2]; cbn; subst; [done|]. split; [done|].
  apply map_eq. intros k. destruct (decide (k = sig)) as [->|]; by simplify_map_eq.
Qed.

Lemma commit_fork_outcome nr pidfd io t s :
  0 < nr -> 0 <= ca_exit_signal args -> 0 <= t_exit_signal leader ->
  holds (b_cgroup pidfd false nr io (t_files t) (t_fs t) (t_sighand t)) s -> prepared io t s ->
  exists t' s', commit_fork curid p nr pidfd args cur leader csig t s = (inr p, s') /\ forked nr pidfd io t' s'.
Proof.
  intros Hnr Ha Hl [He Hi Hc _] [Hf Pfi Pfs Psh Psi _ Pmm _ Pt].
  pose proof (commit_bill pidfd nr io t) as Hb.
  unfold commit_fork, copy_seccomp.
  set (t' := Task (t_pid _) _ _ _ _ _ _ _ _ _ _ _ _ _ _ _ _ _ _ _ _ _).
  set (s1 := match t_seccomp cur with Some f => _ | None => s end).
  assert ((0 <=? t_exit_signal t') = negb (has fl CLONE_THREAD)) as Hlead.
  { subst t'. cbn. destruct (has fl CLONE_THREAD); [done|]. apply Z.leb_le. by destruct (has fl _). }
  destruct (link_task_outcome t' s1 Hnr Hlead) as (E2 & T2 & (sub & G2) & F2 & C2).
  assert (forall r, ext s1 r = ext s r + bill (match t_seccomp cur with Some f => [FSeccomp f] | None => [] end) r) as E1
    by (intros r; subst s1; destruct (t_seccomp cur); cbn; ledger_at; lia).
  assert ((tasks s1, signals s1, kmm s1, installed s1) = (tasks s, signals s, kmm s, installed s) /\
    (nr_threads s1, total_forks s1, process_counts s1) = (nr_threads s, total_forks s, process_counts s)) as [F1 C1]
    by (subst s1; by destruct (t_seccomp cur)).
  set (s2 := link_task p t' csig s1) in *. clearbody s2. clearbody s1.
  set (s3 := if has fl CLONE_PIDFD then _ else _).
  assert ((tasks s3, signals s3, kmm s3) = (tasks s2, signals s2, kmm s2) /\
    installed s3 = (if has fl CLONE_PIDFD then <[pidfd := nr]> (installed s2) else installed s2) /\
    (nr_threads s3, total_forks s3, process_counts s3) = (nr_threads s2, u64 (total_forks s2 + 1), process_counts s2)) as (F3 & I3 & C3)
    by (subst s3; destruct (has fl CLONE_PIDFD), (has fl CLONE_THREAD); done).
  assert (forall r, ext s3 r = ext s2 r - bill b_out r) as E3.
  { intros r. subst s3. unfold b_out. destruct (has fl CLONE_PIDFD), (has fl CLONE_THREAD); cbn; ledger_at; lia. }
  clearbody s3. injection F1 as Ft1 Fs1 Fk1 Fi1. injection F2 as Fk2 Fi2. injection F3 as Ft3 Fs3 Fk3.
  assert (signals s3 = alter (if has fl CLONE_THREAD then join_group p else lead_group nr csig sub) (t_signal t) (signals s))
    as G3 by (rewrite Fs3, G2, Fs1; done).
  pose proof (committed_signals sub nr _ _ Psi) as Hsig. cbv zeta in Hsig. rewrite <- G3 in Hsig.
  destruct (copy_oom_score_adj_outcome t' s3) as (F4 & C4 & K4 & K4' & K5).
  { intros g Hth Hg. rewrite Hth in Hsig. destruct Hsig as [_ Hsig]. rewrite Hsig in Hg.
    change (t_signal t') with (t_signal t) in Hg. rewrite lookup_insert_eq in Hg. by injection Hg as <-. }
  set (s4 := copy_oom_score_adj fl t' csig s3) in *. clearbody s4. injection F4 as Ft4 Fs4 Fe4 Fi4.
  exists t', s4. split; [done|]. destruct Hf as (Hf1 & Hf2 & Hf3 & Hf4 & Hf5 & Hf6 & Hf7).
  split; try done.
  - unfold fresh_fields. subst t'. cbn. rewrite Hf3, orb_diag. done.
  - subst t'. cbn. by destruct (has fl CLONE_THREAD).
  - subst t'. cbn. by destruct (has fl (CLONE_PARENT .| CLONE_THREAD)).
  - subst t'. cbn in *. destruct (has fl CLONE_THREAD); [done|by apply Z.leb_le].
  - exists (kmm s). rewrite Fk3, Fk2, Fk1 in *. done.
  - rewrite Fs4. change (t_signal t') with (t_signal t).
    destruct (has fl CLONE_THREAD); [done|]. destruct Hsig as [??]. split; [done|by exists sub].
  - by rewrite Ft4, Ft3, T2, Ft1, Pt.
  - rewrite C4, C3. injection C2 as -> -> ->. injection C1 as -> -> ->. injection Hc as -> -> ->. done.
  - by rewrite Fi4, I3, Fi2, Fi1, Hi.
  - intros r. rewrite Fe4, E3, E2, E1, He. specialize (Hb r). change (task_share pidfd nr io t') with (task_share pidfd nr io t). lia.
Qed.

(** *** The attempt, stage by stage *)
Context (init_pid : bool).
Definition outcome (r : (Z + Z) * fkstate) : Prop :=
  match r with
  | (inl e, s') => e < 0 /\ restored curid s0 s'
  | (inr q, s') => q = p /\ (init_pid = false -> 0 <= ca_exit_signal args -> 0 <= t_exit_signal leader ->
      exists nr pidfd io t, forked nr pidfd io t s')
  end.
Lemma failed_outcome e r : e < 0 -> failed e r -> outcome r.
Proof. destruct r as [r s']. intros He [H1 H2]. cbn in *. by subst r. Qed.
#[local] Hint Resolve failed_outcome : core.

(** A fallible step: nothing happened, or one more thing is held. *)
Lemma guard_outcome r k s bad (cont : fkstate -> (Z + Z) * fkstate) :
  (forall e, e < 0 -> outcome (bad e s)) -> outcome (cont (ftake r s)) -> outcome (guard (acquire r k s) bad cont).
Proof.
  intros Hb Hk. unfold guard, acquire. pose proof (err_neg k s).
  destruct (Z.eqb_spec (err_of k s) 0) as [E|E]; cbn; [done|].
  destruct (Z.eqb_spec (err_of k s) 0); [done|]. apply Hb. lia.
Qed.

Lemma fork_visible_outcome nr pidfd io t s : (init_pid = false -> 0 < nr) ->
  holds (b_pidfd pidfd init_pid nr io (t_files t) (t_fs t) (t_sighand t)) s -> prepared io t s ->
  outcome (fork_visible curid p nr pidfd init_pid args cur leader csig io t s).
Proof.
  intros Hnr H P. unfold fork_visible. apply guard_outcome.
  - intros e He. eapply failed_outcome, bad_fork_put_pidfd_failed; [done..|]. by eapply prepared_calm.
  - pose proof (holds_take (FSchedCore p) _ _ (holds_take (FCgroup p) _ _ H)) as H2.
    set (s2 := ftake _ _) in *.
    assert (prepared io t s2) as P2 by (by destruct P). clearbody s2. clear H P.
    destruct (negb (pidns_adding nr)); [eapply failed_outcome, bad_fork_cancel_cgroup_failed; by eauto using prepared_calm|].
    destruct (fatal_pending s2); [eapply failed_outcome, bad_fork_cancel_cgroup_failed; by eauto using prepared_calm|].
    assert ((commit_fork curid p nr pidfd args cur leader csig t s2).1 = inr p) as Hr
      by (unfold commit_fork; by destruct (copy_seccomp _ _ _)).
    destruct (commit_fork curid p nr pidfd args cur leader csig t s2) as [r s'] eqn:E. cbn in Hr. subst r.
    split; [done|]. intros Hi Ha Hl. rewrite Hi in H2.
    destruct (commit_fork_outcome nr pidfd io t s2) as (t' & s3 & E3 & F); [by auto..|]. exists nr, pidfd, io, t'. congruence.
Qed.

Lemma fork_pid_outcome io t s :
  holds (b_thread io (t_files t) (t_fs t) (t_sighand t)) s -> prepared io t s ->
  outcome (fork_pid curid p init_pid args cur leader csig io t s).
Proof.
  intros H P. unfold fork_pid. pose proof (alloc_pid_spec (ca_set_tid args) s) as Hn.
  destruct (if init_pid then inr 0 else alloc_pid (ca_set_tid args) s) as [e|nr] eqn:Ep.
  { destruct init_pid; [done|]. rewrite Ep in Hn.
    eapply failed_outcome, bad_fork_cleanup_thread_failed; by eauto using prepared_calm. }
  assert (init_pid = false -> 0 < nr) as Hnr by (intros ->; by rewrite Ep in Hn).
  set (s1 := if init_pid then s else ftake (FPid nr) s).
  assert (holds (b_pid init_pid nr io (t_files t) (t_fs t) (t_sighand t)) s1) as H1
    by (subst s1; destruct init_pid; [done|by apply holds_take]).
  assert (prepared io t s1) as P1 by (subst s1; destruct init_pid; by destruct P).
  clearbody s1. clear H P Ep Hn.
  destruct (has fl CLONE_PIDFD) eqn:Efd.
  2: { apply fork_visible_outcome; [done| |done]. unfold b_pidfd. by rewrite Efd. }
  unfold pidfd_prepare_locked. set (fd := unused_fd s1).
  destruct (Z.ltb_spec fd 0); [rewrite (proj2 (Z.ltb_lt fd 0)) by done;
    eapply failed_outcome, bad_fork_free_pid_failed; by eauto using prepared_calm|].
  pose proof (holds_take (FFd fd) _ _ H1) as H2. set (s2 := ftake (FFd fd) s1) in *.
  assert (prepared io t s2) as P2 by (by destruct P1). clearbody s2.
  pose proof (err_neg SPidfdFile s2). destruct (Z.eqb_spec (err_of SPidfdFile s2) 0).
  2: { rewrite (proj2 (Z.ltb_lt (err_of SPidfdFile s2) 0)) by lia.
    eapply failed_outcome, bad_fork_free_pid_failed; [lia|by apply holds_give in H2|].
    destruct P2. split; done. }
  rewrite (proj2 (Z.ltb_ge fd 0)) by lia.
  pose proof (holds_take (FPidfdFile nr) _ _ H2) as H3. set (s3 := ftake (FPidfdFile nr) s2) in *.
  assert (prepared io t s3) as P3 by (by destruct P2). clearbody s3. clear H1 P1 H2 P2.
  assert (holds (b_pidfd fd init_pid nr io (t_files t) (t_fs t) (t_sighand t)) s3) as H4 by (unfold b_pidfd; by rewrite Efd).
  destruct (put_user (upids s3) fd (ca_pidfd args) 4) as [pe m] eqn:Epu.
  unfold put_user in Epu. destruct (copy_to_user (upids s3) (ca_pidfd args) fd 4) as [rest m'].
  assert (prepared io t (set_upids m s3)) as P5 by (by destruct P3).
  destruct (Z.eqb_spec pe 0) as [->|]; cbn [negb]; [by apply fork_visible_outcome; [|apply holds_upids|]|].
  eapply failed_outcome, bad_fork_put_pidfd_failed; [|by apply holds_upids|by eauto using prepared_calm].
  by destruct (rest =? 0); simplify_eq.
Qed.

Lemma fork_parts_outcome s : holds b_semundo s -> quiet s ->
  outcome (fork_parts curid p init_pid args cur leader csig (setup_task (child_task p args cur)) s).
Proof.
  intros H Q. unfold fork_parts.
  pose proof (copy_files_outcome s H Q) as O. destruct (copy_files _ _ _ _) as [[e files] s1].
  destruct O as [[He ->]|(-> & H1 & Q1 & C1)]; [rewrite (proj2 (Z.eqb_neq e 0)) by lia|].
  { eapply failed_outcome, bad_fork_cleanup_semundo_failed; eauto using quiet_calm. }
  cbn [Z.eqb negb]. pose proof (copy_fs_outcome files s1 H1 Q1) as O. destruct (copy_fs _ _ _) as [[e fs] s2].
  destruct O as [[He ->]|(-> & H2 & Q2 & C2)]; [rewrite (proj2 (Z.eqb_neq e 0)) by lia|].
  { eapply failed_outcome, bad_fork_cleanup_files_failed; eauto using quiet_calm. }
  cbn [Z.eqb negb]. pose proof (copy_sighand_outcome files fs s2 H2 Q2) as O. destruct (copy_sighand _ _ _) as [[e hand] s3].
  destruct O as [[He ->]|(-> & H3 & Q3 & C3)]; [rewrite (proj2 (Z.eqb_neq e 0)) by lia|].
  { eapply failed_outcome, bad_fork_cleanup_files_failed; [done|by apply holds_give in H2|by apply quiet_calm in Q2]. }
  cbn [Z.eqb negb]. pose proof (copy_signal_outcome files fs hand s3 H3 Q3) as O.
  destruct (copy_signal _ _ _ _ _) as [[e sig] s4].
  destruct O as [[He ->]|(-> & H4 & C4 & U4 & K4 & T4)]; [rewrite (proj2 (Z.eqb_neq e 0)) by lia|].
  { eapply failed_outcome, bad_fork_cleanup_sighand_failed; eauto using quiet_calm. }
  cbn [Z.eqb negb]. pose proof (copy_mm_outcome files fs hand s4 H4 K4) as O.
  destruct (copy_mm _ _ _ _) as [[e mm] s5]. destruct O as (G5 & T5 & H5 & O).
  assert (undo_signal sig s5 = signals s0) as U5 by (unfold undo_signal in *; by rewrite G5).
  destruct O as [[He K5]|(-> & C5 & K5)]; [rewrite (proj2 (Z.eqb_neq e 0)) by lia|].
  { eapply failed_outcome, bad_fork_cleanup_signal_failed; [done..|by split]. }
  cbn [Z.eqb negb]. rewrite <- G5 in C4. rewrite T4 in T5. clear H Q H1 Q1 H2 Q2 H3 Q3 H4 G5 T4 K4 U4.
  assert (calm_mm sig mm s5) as M5 by (by split).
  apply guard_outcome; [intros e He; by eapply failed_outcome, bad_fork_cleanup_mm_failed|].
  pose proof (holds_take (FNamespaces p) _ _ H5) as H6. set (s6 := ftake _ s5) in *.
  assert (calm_mm sig mm s6 /\ signal_child sig (signals s6) /\ mm_child mm (kmm s6) /\
    tasks s6 = alter clear_nproc_exceeded curid (tasks s0)) as (M6 & C4' & C5' & T6) by done. clearbody s6.
  pose proof (err_neg SIo s6). destruct (Z.eqb_spec (err_of SIo s6) 0); cbn [negb].
  2: { eapply failed_outcome; [|eapply (bad_fork_cleanup_io_failed false)]; [lia|done..]. }
  set (io := io_context_set s6). set (s7 := if io then ftake (FIo p) s6 else s6).
  assert (holds (b_io io files fs hand) s7) as H7 by (subst s7; destruct io; [by apply holds_take|done]).
  assert (calm_mm sig mm s7 /\ signal_child sig (signals s7) /\ mm_child mm (kmm s7) /\
    tasks s7 = alter clear_nproc_exceeded curid (tasks s0)) as (M7 & C4'' & C5'' & T7) by (subst s7; by destruct io).
  clearbody s7 io. apply guard_outcome; [intros e' He'; by eapply failed_outcome, bad_fork_cleanup_io_failed|].
  apply fork_pid_outcome; [by apply holds_take|]. destruct M7. split; done.
Qed.

Lemma fork_setup_outcome s : holds (b_free false) s -> signals s = signals s0 -> kmm s = kmm s0 -> tasks s = tasks s0 ->
  outcome (fork_setup curid p init_pid args cur leader csig s).
Proof.
  intros H Gs Ks Ts. unfold fork_setup.
  assert (forall s1, signals s1 = signals s0 -> kmm s1 = kmm s0 -> calm s1) as Hcalm
    by (intros s1 H1 H2; split; [done|rewrite H2; done]).
  destruct (Z.ltb_spec (err_of SCreds s) 0); [by eapply failed_outcome, bad_fork_free_failed; auto|].
  pose proof (holds_take (FNproc p) _ _ (holds_take (FCreds p) _ _ H)) as H1.
  set (s1 := ftake (FNproc p) _) in *. assert (signals s1 = signals s0 /\ kmm s1 = kmm s0 /\ tasks s1 = tasks s0)
    as (G1 & K1 & T1) by done. clearbody s1.
  destruct (nproc_exceeded s1 && _ && _ && _); [by eapply failed_outcome, bad_fork_cleanup_count_failed; auto|].
  set (s2 := set_tasks _ s1).
  assert (holds (b_count false) s2) as H2.
  { destruct H1 as [???? ]. split; try done. right. subst s2. cbn. by rewrite T1. }
  assert (quiet s2) as Q2 by (subst s2; split_and!; [done..|]; cbn; by rewrite T1). clearbody s2.
  destruct (max_threads <=? nr_threads s2); [by eapply failed_outcome, bad_fork_cleanup_count_failed; eauto using quiet_calm|].
  pose proof (holds_take (FDelayacct p) _ _ H2) as H3. set (s3 := ftake _ s2) in *. assert (quiet s3) as Q3 by done. clearbody s3.
  destruct (ca_kthread args && negb _); [by eapply failed_outcome, bad_fork_cleanup_delayacct_failed; eauto using quiet_calm|].
  set (s4 := if ca_kthread args then ftake (FKthread p) s3 else s3).
  assert (holds (b_delayacct (ca_kthread args)) s4) as H4.
  { subst s4. destruct (ca_kthread args); [|done]. eapply holds_bill; [|by apply holds_take].
    intros r. unfold b_delayacct, b_count, b_free. cbn. lia. }
  assert (quiet s4) as Q4 by (subst s4; by destruct (ca_kthread args)). clearbody s4.
  apply guard_outcome; [intros; by eapply failed_outcome, bad_fork_cleanup_delayacct_failed; eauto using quiet_calm|].
  pose proof (holds_take (FMempolicy p) _ _ H4) as H5. set (s5 := ftake _ s4) in *. assert (quiet s5) as Q5 by done. clearbody s5.
  pose proof (err_neg SSched s5). destruct (Z.eqb_spec (err_of SSched s5) 0); cbn [negb].
  2: { eapply failed_outcome, bad_fork_cleanup_policy_failed; [lia|done|by apply quiet_calm]. }
  apply quiet_calm in Q5 as M5.
  apply guard_outcome; [intros; by eapply failed_outcome, bad_fork_cleanup_policy_failed|].
  apply (holds_take (FPerf p)) in H5.
  apply guard_outcome; [intros; eapply failed_outcome; [done|]; eapply bad_fork_cleanup_policy_failed; [by apply holds_give|done]|].
  apply (holds_take (FAudit p)) in H5.
  apply guard_outcome; [intros; eapply failed_outcome; [done|]; eapply bad_fork_cleanup_policy_failed; [by do 2 apply holds_give in H5|done]|].
  apply (holds_take (FSecurity p)) in H5.
  apply guard_outcome; [intros; eapply failed_outcome; [done|]; eapply bad_fork_cleanup_policy_failed; [by do 3 apply holds_give in H5|done]|].
  apply fork_parts_outcome; [by apply holds_take|done].
Qed.
End attempt.

(** The caller's address space is in use, and its executable can be denied
    writing, as it is while it runs. *)
Definition caller_ok (cur : task) (s : fkstate) : Prop :=
  forall m, t_mm cur = Some m -> exists x, mms (kmm s) !! m = Some x /\ 1 <= mm_users x /\ exe_denied x.

Lemma dup_task_struct_none curid s0 l s s' : dup_task_struct s = (None, s') -> holds curid s0 l s ->
  holds curid s0 l s' /\ signals s' = signals s /\ kmm s' = kmm s.
Proof.
  unfold dup_task_struct. intros Ed Hh. repeat (case_match; simplify_eq); (split; [|done]); destruct Hh as [Hx ???];
    (split; [intros r; cbn; ledger_at; rewrite Hx; lia|assumption..]).
Qed.
Lemma copy_process_outcome curid init_pid args cur leader csig s : caller_ok cur s ->
  match copy_process curid init_pid args cur leader csig s with
  | (inl e, s') => e < 0 /\ restored curid s s'
  | (inr p, s') => clone_flags_error (ca_flags args) (sg_flags csig) = 0 /\ tasks s !! p = None /\
      outcome curid args p s cur leader csig init_pid (inr p, s')
  end.
Proof.
  intros Hc. unfold copy_process.
  assert (restored curid s s) as Hrefl by (split; try done; by left).
  destruct (Z.eqb_spec (clone_flags_error (ca_flags args) (sg_flags csig)) 0) as [E|E]; cbn [negb].
  2: { split; [|done]. revert E. unfold clone_flags_error. repeat (case_match; [lia|]). lia. }
  rewrite E. set (s1 := if has _ CLONE_THREAD then s else _).
  assert (holds curid s (b_out curid args) s1) as H1.
  { subst s1. unfold b_out. assert (holds curid s [] s) by (split; try done; [intros r; cbn; lia|by left]).
    destruct (has _ CLONE_THREAD); [done|by apply holds_take]. }
  assert (signals s1 = signals s /\ kmm s1 = kmm s /\ tasks s1 = tasks s) as (G1 & K1 & T1) by (subst s1; by destruct (has _ _)).
  assert (calm s s1) as C1 by (split; [done|by rewrite K1]). clearbody s1.
  destruct (sigpending s1).
  { destruct (fork_out_failed curid args s (- ERESTARTNOINTR) s1 H1 C1) as [F1 F2].
    destruct (fork_out _ _ _ _) as [r s2]. cbn in *. by subst r. }
  destruct (dup_task_struct s1) as [[p|] s2] eqn:Ed.
  - assert (alloc_task s1 = Some p /\ s2 = ftake (FScs p) (ftake (FStackAcct p) (ftake (FStack p) (ftake (FTask p) s1)))) as [Ea ->]
      by (unfold dup_task_struct in Ed; repeat (case_match; simplify_eq); done).
    apply alloc_task_fresh in Ea as [Ht Ho]. rewrite T1 in Ht. rewrite K1 in Ho.
    match goal with |- context [fork_setup _ _ _ _ _ _ _ ?x] => set (s2 := x) in * end.
    assert (holds curid s (b_free curid args p false) s2) as H2.
    { eapply holds_bill; [|subst s2; do 4 apply holds_take; exact H1]. intros r. unfold b_free. cbn. lia. }
    pose proof (fork_setup_outcome curid args p s cur leader csig) as O.
    specialize (O ltac:(intros m Hm; destruct (Hc m Hm) as (x & Hx & ? & ?); exists x; split_and!; eauto) init_pid s2 H2 G1 K1 T1).
    destruct (fork_setup _ _ _ _ _ _ _ _) as [[e|q] s3]; [done|]. destruct O as [-> O]. done.
  - assert (holds curid s (b_out curid args) s2 /\ calm s s2) as [H2 C2].
    { apply (dup_task_struct_none curid s (b_out curid args)) in Ed as (H2 & G2 & K2); [|done].
      split; [done|]. destruct C1. split; congruence. }
    destruct (fork_out_failed curid args s (- ENOMEM) s2 H2 C2) as [F1 F2].
    destruct (fork_out _ _ _ _) as [r s3]. cbn in *. by subst r.
Qed.

(** C5: wherever creating a process fails, the error is negative and every
    resource, shared count, thread group, address space, descriptor and
    counter is what it was before; only the mark that the caller was over its
    process limit may have been cleared. *)
Theorem copy_process_failure_clean curid init_pid args cur leader csig s e s' :
  caller_ok cur s -> copy_process curid init_pid args cur leader csig s = (inl e, s') -> e < 0 /\ restored curid s s'.
Proof. intros Hc E. pose proof (copy_process_outcome curid init_pid args cur leader csig s Hc) as O. by rewrite E in O. Qed.

(** C16: a process that is created is a task nobody had, in the thread group,
    with the parent, and with the parts that the flags ask for, each shared
    with the caller or new; the thread group, the task list, the counters and
    the resources held change by exactly this task's share. *)
Theorem copy_process_child curid args cur leader csig s p s' :
  caller_ok cur s -> 0 <= ca_exit_signal args -> 0 <= t_exit_signal leader ->
  copy_process curid false args cur leader csig s = (inr p, s') ->
  tasks s !! p = None /\ exists nr pidfd io t, forked curid args p s cur csig nr pidfd io t s'.
Proof.
  intros Hc Ha Hl E. pose proof (copy_process_outcome curid false args cur leader csig s Hc) as O. rewrite E in O.
  destruct O as (_ & Hf & _ & O). by split; [|apply O].
Qed.

(** *** Thread groups stay consistent *)
Record groups_ok (s : fkstate) : Prop := {
  go_task id t : tasks s !! id = Some t ->
    exists g l, signals s !! t_signal t = Some g /\ id ∈ sg_threads g /\
      tasks s !! t_group_leader t = Some l /\ t_group_leader l = t_group_leader t /\ 0 <= t_exit_signal l /\
      t_signal l = t_signal t /\ t_tgid t = t_pid l /\ t_sighand t = t_sighand l /\ t_mm t = t_mm l;
  go_group k g : signals s !! k = Some g ->
    sg_nr_threads g = Z.of_nat (length (sg_threads g)) /\ NoDup (sg_threads g) /\
    forall id, id ∈ sg_threads g -> exists t, tasks s !! id = Some t /\ t_signal t = k;
  go_count : nr_threads s = Z.of_nat (size (tasks s));
  go_mm id t : tasks s !! id = Some t -> caller_ok t s;
}.

(** What the groups depend on in a task. *)
Definition gview (t : task) := (t_signal t, t_group_leader t, t_exit_signal t, t_pid t, t_tgid t, t_sighand t, t_mm t).
Definition same_view (T T' : gmap Z task) : Prop := gview <$> T' = gview <$> T.
Lemma same_view_alter f k T T' : (forall t, gview (f t) = gview t) -> same_view T T' -> same_view T (alter f k T').
Proof.
  unfold same_view. intros Hf <-. apply map_eq. intros i. rewrite !lookup_fmap.
  destruct (decide (i = k)) as [->|]; [rewrite lookup_alter_eq|by rewrite lookup_alter_ne].
  destruct (T' !! k); cbn; by rewrite ?Hf.
Qed.
Lemma same_view_lookup T T' id t' : same_view T T' -> T' !! id = Some t' -> exists t, T !! id = Some t /\ gview t' = gview t.
Proof.
  intros H E. apply (f_equal (.!! id)) in H. rewrite !lookup_fmap, E in H. cbn in H.
  destruct (T !! id) as [t|]; [|done]. exists t. split; [done|]. by apply (inj Some) in H.
Qed.
Lemma same_view_sym T T' : same_view T T' -> same_view T' T.
Proof. by intros H. Qed.
Lemma same_view_size T T' : same_view T T' -> size T' = size T.
Proof. intros H. apply (f_equal size) in H. by rewrite !map_size_fmap in H. Qed.

Lemma groups_ok_view s s' : same_view (tasks s) (tasks s') -> signals s' = signals s -> mms (kmm s') = mms (kmm s) ->
  nr_threads s' = nr_threads s -> groups_ok s -> groups_ok s'.
Proof.
  intros V E2 E3 E4 [G1 G2 G3 G4]. split.
  - intros id t' H. destruct (same_view_lookup _ _ _ _ V H) as (t & E & Hv). injection Hv as -> -> ? ? -> -> ->.
    destruct (G1 id t E) as (g & l & A1 & A2 & A3 & A4).
    destruct (same_view_lookup _ _ _ _ (same_view_sym _ _ V) A3) as (l' & E' & Hv'). injection Hv' as ???????.
    exists g, l'. rewrite E2. destruct_and!. split_and!; first [congruence|lia].
  - rewrite E2. intros k g H. destruct (G2 k g H) as (A1 & A2 & A3). split_and!; [done..|]. intros id Hid.
    destruct (A3 id Hid) as (t & E & <-). destruct (same_view_lookup _ _ _ _ (same_view_sym _ _ V) E) as (t' & E' & Hv).
    exists t'. split; [done|]. by injection Hv.
  - by rewrite E4, (same_view_size _ _ V).
  - intros id t' H. destruct (same_view_lookup _ _ _ _ V H) as (t & E & Hv). injection Hv as ? ? ? ? ? ? Hmm.
    unfold caller_ok. rewrite Hmm, E3. by apply (G4 id).
Qed.
Lemma groups_ok_restored curid s s' : restored curid s s' -> groups_ok s -> groups_ok s'.
Proof.
  intros [_ Hs [Hm _] _ Hc Ht]. injection Hc as Hn _ _. apply groups_ok_view; try done.
  destruct Ht as [->| ->]; [done|by apply same_view_alter].
Qed.

Definition usable (k : mmstate) (m : Z) : Prop := exists x, mms k !! m = Some x /\ 1 <= mm_users x /\ exe_denied x.
(** Address spaces in use stay in use, and so is the child's. *)
Lemma mm_child_usable args p s cur mm k : caller_ok cur s -> mm_child args p s cur mm k ->
  (forall m, usable (kmm s) m -> usable k m) /\ (forall m, mm = Some m -> usable k m).
Proof.
  unfold caller_ok, mm_child. fold (usable (kmm s)). intros Hc. destruct (t_mm cur) as [old|]; [|by intros [-> ->]].
  specialize (Hc old eq_refl). destruct (has _ CLONE_VM).
  - intros [-> ->].
    assert (forall m, usable (kmm s) m -> usable (mmget old (kmm s)) m) as Hg; [|split; [done|intros m [= <-]; auto]].
    intros m (x & Hx & Hu & Hd). unfold usable, mmget, upd_mm. cbn.
    destruct (decide (m = old)) as [->|]; simplify_map_eq; [|by eauto].
    eexists. split; [done|]. cbn. split; [lia|done].
  - intros (oldmm & m & -> & Hm & E). destruct Hc as (x & Hx & Hu & Hd). rewrite Hm in Hx. injection Hx as <-.
    pose proof (dup_mm_outcome p old oldmm (kmm s) Hd) as O. rewrite E in O.
    destruct O as (Hf & y & Hy & Hyu & _ & Hye & _). split.
    + intros k' (z & Hz & ?). exists z. rewrite Hy. split; [|done]. rewrite lookup_insert_ne; [done|]. by intros ->; simplify_eq.
    + intros k' [= <-]. exists y. rewrite Hy, lookup_insert_eq. split_and!; [done|lia|]. unfold exe_denied. by rewrite Hye.
Qed.

Lemma thread_shares fl sf : clone_flags_error fl sf = 0 -> has fl CLONE_THREAD = true ->
  has fl CLONE_SIGHAND = true /\ has fl CLONE_VM = true.
Proof.
  unfold clone_flags_error. intros E Ht. rewrite Ht in E. repeat (case_match; [done|]).
  destruct (has fl CLONE_SIGHAND), (has fl CLONE_VM); done.
Qed.

Section forked.
Context (curid : Z) (args : clone_args) (p : Z) (s : fkstate) (cur leader : task) (csig : sigstruct).
Context (nr pidfd : Z) (io : bool) (t : task) (s' : fkstate).
Hypothesis (G : groups_ok s) (F : forked curid args p s cur csig nr pidfd io t s').
Hypothesis (Hcur : tasks s !! curid = Some cur) (Hsig : signals s !! t_signal cur = Some csig).
Hypothesis (Hp : tasks s !! p = None).
Hypothesis (Hfl : clone_flags_error (ca_flags args) (sg_flags csig) = 0).
#[local] Abbreviation fl := (ca_flags args).

Lemma forked_tasks : exists T, same_view (tasks s) T /\ T !! p = None /\ tasks s' = <[p := t]> T.
Proof.
  eexists. split_and!; [| |apply (fk_tasks _ _ _ _ _ _ _ _ _ _ _ F)].
  - destruct (has fl CLONE_THREAD); [|apply same_view_alter; [done|]]; by apply same_view_alter.
  - destruct (has fl CLONE_THREAD); cbn; rewrite ?lookup_alter_None; done.
Qed.

(** A task that was there: the same view of it is there. *)
Lemma forked_old id u : tasks s !! id = Some u -> exists u', tasks s' !! id = Some u' /\ gview u' = gview u.
Proof.
  destruct forked_tasks as (T & V & Tp & E). intros H.
  destruct (same_view_lookup _ _ _ _ (same_view_sym _ _ V) H) as (u' & E' & Hv).
  exists u'. split; [|done]. rewrite E, lookup_insert_ne; [done|]. by intros ->; simplify_eq.
Qed.
Lemma forked_tasks_inv id u' : tasks s' !! id = Some u' ->
  (id = p /\ u' = t) \/ (id <> p /\ exists u, tasks s !! id = Some u /\ gview u' = gview u).
Proof.
  destruct forked_tasks as (T & V & Tp & E). rewrite E. intros [[-> ->]|[Hne H]]%lookup_insert_Some; [by left|right].
  split; [done|]. by eapply same_view_lookup.
Qed.
Lemma forked_signal_old k g : signals s !! k = Some g ->
  exists g', signals s' !! k = Some g' /\ (forall id, id ∈ sg_threads g -> id ∈ sg_threads g').
Proof.
  pose proof (fk_signal _ _ _ _ _ _ _ _ _ _ _ F) as H. intros E. destruct (has fl CLONE_THREAD).
  - destruct H as [_ ->]. destruct (decide (k = t_signal cur)) as [->|]; simplify_map_eq; [|by eauto].
    eexists. split; [done|]. cbn. set_solver.
  - destruct H as (Hn & sub & ->). exists g. split; [|done]. rewrite lookup_insert_ne; [done|]. congruence.
Qed.

(** The group of the new task, with the new task in it. *)
Lemma forked_signal_new : exists g l, signals s' !! t_signal t = Some g /\ p ∈ sg_threads g /\
  tasks s' !! t_group_leader t = Some l /\ t_group_leader l = t_group_leader t /\ 0 <= t_exit_signal l /\
  t_signal l = t_signal t /\ t_tgid t = t_pid l /\ t_sighand t = t_sighand l /\ t_mm t = t_mm l.
Proof.
  destruct F as [_ [Epid _] Egr _ Eex _ _ _ Esh (k & Emm & _) Esi _ _ _ _].
  unfold sighand_child, mm_child in Esh, Emm. destruct (has fl CLONE_THREAD) eqn:Ht.
  - destruct (thread_shares _ _ Hfl Ht) as [S1 S2]. rewrite S1 in Esh. rewrite S2 in Emm.
    assert (t_mm t = t_mm cur) as Em by (destruct (t_mm cur); by destruct Emm).
    destruct Esi as [Et Es]. injection Egr as Eg1 Eg2.
    destruct (go_task s G curid cur Hcur) as (g & l & A1 & _ & A3 & A4).
    destruct (forked_old _ _ A3) as (l' & E' & Hv). injection Hv as ???????.
    exists (join_group p csig), l'. rewrite Es, Et, Eg2, lookup_alter_eq, Hsig.
    destruct_and!. split_and!; first [done|congruence|lia|cbn; set_solver].
  - destruct Esi as (_ & sub & Es). injection Egr as Eg1 Eg2.
    exists (lead_group nr csig sub (new_group p csig)), t. destruct forked_tasks as (T & _ & _ & E).
    rewrite Es, Eg2, E, !lookup_insert_eq. split_and!; first [done|congruence|cbn; set_solver].
Qed.

Lemma forked_groups k g : signals s' !! k = Some g ->
  sg_nr_threads g = Z.of_nat (length (sg_threads g)) /\ NoDup (sg_threads g) /\
  forall id, id ∈ sg_threads g -> exists u, tasks s' !! id = Some u /\ t_signal u = k.
Proof.
  assert (tasks s' !! p = Some t) as Ep by (destruct forked_tasks as (T & _ & _ & ->); apply lookup_insert_eq).
  assert (forall g, signals s !! k = Some g -> forall id, id ∈ sg_threads g ->
    id <> p /\ exists u, tasks s' !! id = Some u /\ t_signal u = k) as Hold.
  { intros g0 H0 id Hid. destruct (go_group s G k g0 H0) as (_ & _ & A). destruct (A id Hid) as (u & Eu & Ek).
    split; [congruence|]. destruct (forked_old _ _ Eu) as (u' & Eu' & Hv). exists u'. injection Hv as ?. split; congruence. }
  pose proof (fk_signal _ _ _ _ _ _ _ _ _ _ _ F) as Esi. destruct (has fl CLONE_THREAD).
  - destruct Esi as [Et ->]. intros H. destruct (decide (k = t_signal cur)) as [->|Hk].
    + rewrite lookup_alter_eq, Hsig in H. injection H as <-. cbn.
      destruct (go_group s G _ _ Hsig) as (A1 & A2 & _). split_and!.
      * rewrite length_app. cbn. lia.
      * apply NoDup_app. split_and!; [done| |apply NoDup_singleton]. intros id Hid.
        destruct (Hold _ Hsig id Hid) as [Hne _]. set_solver.
      * intros id [Hid| ->%list_elem_of_singleton]%elem_of_app; [by apply (Hold _ Hsig)|by exists t].
    + rewrite lookup_alter_ne in H by done. destruct (go_group s G k g H) as (A1 & A2 & _). split_and!; [done..|].
      intros id Hid. by apply (Hold g H).
  - destruct Esi as (Hn & sub & ->). intros [[<- <-]|[_ H]]%lookup_insert_Some.
    + cbn. split_and!; [done|apply NoDup_singleton|]. intros id ->%list_elem_of_singleton. by exists t.
    + destruct (go_group s G k g H) as (A1 & A2 & _). split_and!; [done..|]. intros id Hid. by apply (Hold g H).
Qed.

Lemma forked_usable m : usable (kmm s) m \/ t_mm t = Some m -> usable (kmm s') m.
Proof.
  destruct (fk_mm _ _ _ _ _ _ _ _ _ _ _ F) as (k & Emm & _ & _ & Hcore).
  destruct (mm_child_usable _ _ _ _ _ _ (go_mm s G _ _ Hcur) Emm) as [U1 U2].
  intros H. assert (usable k m) as (x & Hx & Hu & Hd) by (destruct H; auto).
  destruct (Hcore m x Hx) as (x' & Hx' & C). injection C as C1 _ C2 _ _. exists x'. split_and!; [done|lia|].
  unfold exe_denied. by rewrite C2.
Qed.

Lemma groups_ok_forked : groups_ok s'.
Proof.
  split.
  - intros id u' H. destruct (forked_tasks_inv _ _ H) as [[-> ->]|(_ & u & Eu & Hv)]; [apply forked_signal_new|].
    destruct (go_task s G id u Eu) as (g & l & A1 & A2 & A3 & A4). injection Hv as ???????.
    destruct (forked_signal_old _ _ A1) as (g' & B1 & B2). destruct (forked_old _ _ A3) as (l' & B3 & Hv').
    injection Hv' as ???????. exists g', l'. destruct_and!. split_and!; first [congruence|lia|auto].
  - apply forked_groups.
  - pose proof (fk_counts _ _ _ _ _ _ _ _ _ _ _ F) as E. injection E as -> _ _. destruct forked_tasks as (T & V & Tp & ->).
    rewrite map_size_insert_None by done. rewrite (same_view_size _ _ V), (go_count s G). lia.
  - intros id u' H m Hm. apply forked_usable. destruct (forked_tasks_inv _ _ H) as [[-> ->]|(_ & u & Eu & Hv)]; [by right|left].
    injection Hv as ???????. apply (go_mm s G id u Eu). congruence.
Qed.
End forked.

(** One task of the system calls [copy_process], with any arguments. *)
Inductive fork_step (s s' : fkstate) : Prop :=
| FStep curid args cur leader csig r :
    tasks s !! curid = Some cur -> tasks s !! t_group_leader cur = Some leader ->
    signals s !! t_signal cur = Some csig -> 0 <= ca_exit_signal args ->
    copy_process curid false args cur leader csig s = (r, s') -> fork_step s s'.

Lemma fork_step_groups s s' : fork_step s s' -> groups_ok s -> groups_ok s'.
Proof.
  intros [curid args cur leader csig r Hcur Hl Hsig Ha E] G. pose proof (go_mm s G _ _ Hcur) as Hc.
  pose proof (copy_process_outcome curid false args cur leader csig s Hc) as O. rewrite E in O. destruct r as [e|p].
  - destruct O as [_ O]. by eapply groups_ok_restored.
  - destruct O as (Hfl & Hf & _ & O). destruct (go_task s G _ _ Hcur) as (g & l & _ & _ & A3 & _ & A5 & _).
    rewrite Hl in A3. injection A3 as <-. destruct O as (nr & pidfd & io & t & F); [done..|].
    by eapply (groups_ok_forked curid args p s cur csig).
Qed.

(** Whatever processes and threads are created, in any order and with any
    flags, the threads of a process stay together: they are listed in one
    thread group whose counter is their number, their [tgid] is the pid of
    its leader, they have its signal handlers and its address space, that
    address space stays in use, and [nr_threads] is the number of tasks. *)
Theorem forks_keep_groups s s' : groups_ok s -> rtc fork_step s s' -> groups_ok s'.
Proof. intros G. induction 1 as [|x y z Hxy _ IH]; [done|]. by apply IH, (fork_step_groups x). Qed.
End properties.

(** ** A concrete system: one process, ids handed out in order. *)
Module Demo.
Definition owners (s : fkstate) : gset Z := list_to_set (omap (fun x => mm_owner x.2) (map_to_list (mms (kmm s)))).
(** The first of a few objects nobody uses. *)
Definition unused (mk : Z -> fres) (s : fkstate) : option Z :=
  List.find (fun f => ext s (mk f) =? 0) [71; 72; 73; 74; 75].
Lemma unused_free mk s f : unused mk s = Some f -> ext s (mk f) = 0.
Proof. intros [_ H]%find_some. by apply Z.eqb_eq. Qed.
Definition envF (bad : option fstep) : ForkEnv := {|
  err_of k s := match k with
    | SDupFd => if unused FilesCount s then 0 else - ENOMEM
    | SCopyFs => if unused FsUsers s then 0 else - ENOMEM
    | SSighand => if unused SighandCount s then 0 else - ENOMEM
    | SArchDup | SStack | SScs | SCreds | SKthread | SMempolicy | SSched | SPerf | SAudit | SSecurity | SSemundo
    | SSignal | SNamespaces | SIo | SThread | SPidfd | SPidfdFile | SCgroup =>
        match bad, k with
        | Some SThread, SThread | Some SCgroup, SCgroup => - EAGAIN
        | _, _ => 0
        end
    end;
  alloc_task s := Some (fresh (dom (tasks s) ∪ owners s));
  new_files s := default 0 (unused FilesCount s); new_fs s := default 0 (unused FsUsers s);
  new_sighand s := default 0 (unused SighandCount s);
  new_signal s := fresh (dom (signals s));
  alloc_pid l s := inr (1 + Z.abs (nr_threads s)); unused_fd _ := 5;
  fs_in_exec _ := false; pidns_differs := false; sigpending _ := false; nproc_exceeded _ := false;
  max_threads := 1000; io_context_set _ := true; pidns_adding _ := true; fatal_pending _ := false; child_reaper _ := false;
|}.
Lemma lawsF bad : @ForkLaws (envF bad).
Proof.
  split.
  - intros k s. destruct k; cbn; try (case_match; lia); destruct bad as [[]|]; lia.
  - cbn. intros s p [= <-]. pose proof (is_fresh (dom (tasks s) ∪ owners s)) as H.
    apply not_elem_of_union in H as [H1 H2]. split; [by apply not_elem_of_dom|].
    intros m x Hx Ho. apply H2, elem_of_list_to_set, list_elem_of_omap. exists (m, x). split; [|done].
    by apply elem_of_map_to_list.
  - intros s. apply not_elem_of_dom. exact (is_fresh (dom (signals s))).
  - intros s. cbn [err_of new_files new_fs new_sighand envF]. destruct (unused FilesCount s) eqn:E; [intros _|lia]. by apply unused_free in E.
  - intros s. cbn [err_of new_files new_fs new_sighand envF]. destruct (unused FsUsers s) eqn:E; [intros _|lia]. by apply unused_free in E.
  - intros s. cbn [err_of new_files new_fs new_sighand envF]. destruct (unused SighandCount s) eqn:E; [intros _|lia]. by apply unused_free in E.
  - cbn. intros. lia.
Qed.
Definition init : task :=
  Task 1 1 1 0 17 0 50 60 61 (Some 62) (Some 10) 0 0 0 0 [] 0 true (Some 9) false false 1000.
Definition group : sigstruct := SigStruct 1 1 1 1 [1] 0 1 1 (Some 4) false true 7 0 [].
Definition s0 : fkstate := FkState {[ 1 := init ]} {[ 50 := group ]} ForkMm.Demo.s0 nothing_held ∅ 1 0 1 ∅.
Definition args (fl : Z) : clone_args := CloneArgs fl 4096 0 0 17 0 0 0 [] 0 false false false false false.
#[local] Instance mmD : MmEnv := ForkMm.Demo.envD false.
#[local] Instance mmlD : MmLaws := ForkMm.Demo.mm_lawsD false.

Lemma s0_ok : caller_ok init s0.
Proof. intros m [= <-]. exists ForkMm.Demo.parent. split; [reflexivity|]. split; [cbn; lia|]. intros f _. reflexivity. Qed.
Lemma s0_groups : groups_ok s0.
Proof.
  split; cbn.
  - intros id t [<- <-]%lookup_singleton_Some. exists group, init. split_and!; try done. cbn. set_solver.
  - intros k g [<- <-]%lookup_singleton_Some. cbn. split_and!; [done|apply NoDup_singleton|].
    intros id ->%list_elem_of_singleton. by exists init.
  - by rewrite map_size_singleton.
  - intros id t [<- <-]%lookup_singleton_Some. apply s0_ok.
Qed.

(** The last step before the pid fails: all is given back. *)
Lemma copy_process_failure_clean_witness :
  let r := @copy_process mmD (envF (Some SThread)) root_caps uaccess_ok 1 false (args CLONE_PIDFD) init init group s0 in
  r.1 = inl (- EAGAIN) /\ mms (kmm r.2) = mms (kmm s0) /\ signals r.2 = signals s0 /\ ext r.2 (FilesCount 71) = 0.
Proof.
  cbv zeta. destruct (@copy_process mmD (envF (Some SThread)) root_caps uaccess_ok 1 false (args CLONE_PIDFD) init init group s0)
    as [r s'] eqn:E.
  assert (r = inl (- EAGAIN)) as -> by (apply (f_equal fst) in E; vm_compute in E; symmetry; exact E).
  destruct (@copy_process_failure_clean mmD (envF (Some SThread)) root_caps uaccess_ok mmlD (lawsF _) 1 false (args CLONE_PIDFD)
    init init group s0 (- EAGAIN) s' s0_ok E) as [_ [R1 R2 [R3 _] _ _ _]].
  split; [reflexivity|]. split; [exact R3|]. split; [exact R2|]. exact (R1 (FilesCount 71)).
Defined.

Definition thread_flags : Z := CLONE_VM .| CLONE_SIGHAND .| CLONE_THREAD .| CLONE_FILES.
Lemma copy_process_child_witness : exists p s' t,
  @copy_process mmD (envF None) root_caps uaccess_ok 1 false (args thread_flags) init init group s0 = (inr p, s') /\
  tasks s' !! p = Some t /\ t_mm t = Some 10 /\ t_tgid t = 1 /\ t_files t = Some 62 /\ t_fs t <> 61.
Proof.
  destruct (@copy_process mmD (envF None) root_caps uaccess_ok 1 false (args thread_flags) init init group s0) as [r s'] eqn:E.
  assert (exists p, r = inr p) as [p ->] by (apply (f_equal fst) in E; vm_compute in E; eauto).
  destruct (@copy_process_child mmD (envF None) root_caps uaccess_ok mmlD (lawsF _) 1 (args thread_flags)
    init init group s0 p s' s0_ok ltac:(cbn; lia) ltac:(cbn; lia) E) as (_ & nr & pidfd & io & t & F).
  exists p, s', t. split; [reflexivity|]. destruct F as [_ _ Fg _ _ _ Ff Fs _ (k & Fm & _) _ Ft _ _ _].
  split; [rewrite Ft; apply lookup_insert_eq|]. split; [exact (proj1 Fm)|]. split; [exact (f_equal fst Fg)|].
  split; [exact Ff|]. intros H. apply (f_equal (fun x => match x with (inr q, s1) => t_fs <$> tasks s1 !! q | _ => None end)) in E.
  rewrite Ft, lookup_insert_eq in E. cbn [fmap option_fmap option_map] in E. rewrite H in E. vm_compute in E. discriminate.
Defined.

(** The first task creates a thread. *)
Lemma forks_keep_groups_witness :
  let s' := (@copy_process mmD (envF None) root_caps uaccess_ok 1 false (args thread_flags) init init group s0).2 in
  nr_threads s' = 2 /\ @groups_ok mmD s'.
Proof.
  cbv zeta. split.
  - vm_compute. reflexivity.
  - apply (@forks_keep_groups mmD (envF None) root_caps uaccess_ok mmlD (lawsF None) s0); [apply s0_groups|].
    apply rtc_once. refine (FStep s0 _ 1 (args thread_flags) init init group
      (copy_process 1 false (args thread_flags) init init group s0).1 eq_refl eq_refl eq_refl _ _); [cbn; lia|].
    apply surjective_pairing.
Defined.
End Demo.
