(* ===== verification/Clone.v ===== *)
(** * fork, vfork, clone, clone3 and kernel threads

    fork.c 1573-1606, 2797-3208: [kernel_clone] and everything that calls it
    or [copy_process]; the counter of fork calls of this repository; the
    hand-over of the address space between a vfork child and its parent. *)
From S2P Require Import Prelude Task Ledger ForkMm Fork.

Abbreviation PTRACE_EVENT_FORK := 1 (only parsing).
Abbreviation PTRACE_EVENT_VFORK := 2 (only parsing).
Abbreviation PTRACE_EVENT_CLONE := 3 (only parsing).
Abbreviation PTRACE_EVENT_VFORK_DONE := 5 (only parsing).
Abbreviation SIGCHLD := 17 (only parsing).
Abbreviation PAGE_SIZE := 4096 (only parsing).
Abbreviation CLONE_ARGS_SIZE_VER0 := 64 (only parsing).
Abbreviation CLONE_ARGS_SIZE_VER2 := 88 (only parsing).
Abbreviation MAX_PID_NS_LEVEL := 32 (only parsing).
Abbreviation INT_MAX := 2147483647 (only parsing).
Abbreviation CLONE_LEGACY_FLAGS := 4294967295 (only parsing).

Definition lower_32_bits (x : Z) : Z := Z.land x 4294967295.
(** [valid_signal]: at most [_NSIG] *)
Definition valid_signal (sig : Z) : bool := sig <=? 64.

Record clstate := ClState {
  cfk : fkstate;
  fork_call_counter : Z;
  vfork_done : gmap Z Z;              (** task to the waiting parent *)
  woken : list Z;                     (** tasks started, in order *)
  ptrace_events : list (Z * Z);       (** event and pid, in order *)
}.
Definition set_fk (f : fkstate -> fkstate) (s : clstate) : clstate :=
  ClState (f (cfk s)) (fork_call_counter s) (vfork_done s) (woken s) (ptrace_events s).
Definition set_vfork (f : gmap Z Z -> gmap Z Z) (s : clstate) : clstate :=
  ClState (cfk s) (fork_call_counter s) (f (vfork_done s)) (woken s) (ptrace_events s).
(** [wake_up_new_task(p)] *)
Definition wake_up_new_task (p : Z) (s : clstate) : clstate :=
  ClState (cfk s) (fork_call_counter s) (vfork_done s) (woken s ++ [p]) (ptrace_events s).
(** [ptrace_event_pid(event, pid)] *)
Definition ptrace_event_pid (event nr : Z) (s : clstate) : clstate :=
  ClState (cfk s) (fork_call_counter s) (vfork_done s) (woken s) (ptrace_events s ++ [(event, nr)]).
(** [fork_call_counter++] *)
Definition count_fork (s : clstate) : clstate :=
  ClState (cfk s) (s64 (fork_call_counter s + 1)) (vfork_done s) (woken s) (ptrace_events s).

(** [struct clone_args] of user space. *)
Record uclone := UClone {
  u_flags : Z; u_pidfd : Z; u_child_tid : Z; u_parent_tid : Z; u_exit_signal : Z; u_stack : Z; u_stack_size : Z;
  u_tls : Z; u_set_tid : Z; u_set_tid_size : Z; u_cgroup : Z;
}.

Class CloneEnv := {
  ptrace_event_enabled : Z -> bool;
  pid_vnr : Z -> Z;                                (** the pid in the caller's namespace *)
  vfork_killed : clstate -> Z;                     (** [wait_for_completion_state]: 0, or the signal's error *)
  copy_clone_args : Z -> Z -> Z + uclone;          (** [copy_struct_from_user] *)
  copy_set_tid : Z -> Z -> option (list Z);        (** [copy_from_user] of so many [pid_t] *)
}.

Section clone.
Context {menv : MmEnv} {fenv : ForkEnv} {caps : Caps} {ua : UAccess} {cenv : CloneEnv}.

(** [copy_process] by the task [curid]; a running task is on the list. *)
Definition copy_current (curid : Z) (init_pid : bool) (args : clone_args) (s : fkstate) : (Z + Z) * fkstate :=
  match tasks s !! curid with
  | None => (inl (- ESRCH), s)
  | Some cur =>
      match tasks s !! t_group_leader cur, signals s !! t_signal cur with
      | Some leader, Some csig => copy_process curid init_pid args cur leader csig s
      | _, _ => (inl (- ESRCH), s)
      end
  end.

(** ** kernel_clone *)
Definition clone_trace (args : clone_args) : Z :=
  let fl := ca_flags args in
  if has fl CLONE_UNTRACED then 0
  else
    let trace := if has fl CLONE_VFORK then PTRACE_EVENT_VFORK
                 else if negb (ca_exit_signal args =? SIGCHLD) then PTRACE_EVENT_CLONE
                 else PTRACE_EVENT_FORK in
    if ptrace_event_enabled trace then trace else 0.

(** The child, or the parent when it is killed, cleared [vfork_done]. *)
Definition wait_for_vfork_done (child : Z) (s : clstate) : Z * clstate :=
  let killed := vfork_killed s in
  (killed, set_fk (fgive (FTask child)) (set_vfork (delete child) s)).

(** What [kernel_clone] does with the task it got. *)
Definition start_task (curid p nr trace : Z) (args : clone_args) (s : clstate) : clstate :=
  let fl := ca_flags args in
  let s := set_fk (ftake (FPid nr)) s in                                   (* get_task_pid *)
  let s := if has fl CLONE_PARENT_SETTID
           then set_fk (fun f => set_upids (put_user (upids f) (pid_vnr nr) (ca_parent_tid args) 4).2 f) s else s in
  let s := if has fl CLONE_VFORK
           then set_fk (ftake (FTask p)) (set_vfork (<[p := curid]>) s) else s in
  let s := wake_up_new_task p s in
  let s := if negb (trace =? 0) then ptrace_event_pid trace nr s else s in
  let s := if has fl CLONE_VFORK then
             let '(killed, s) := wait_for_vfork_done p s in
             if killed =? 0 then ptrace_event_pid PTRACE_EVENT_VFORK_DONE nr s else s
           else s in
  set_fk (fgive (FPid nr)) s.                                              (* put_pid *)

Definition kernel_clone (curid : Z) (args : clone_args) : sys clstate Z := fun s =>
  let fl := ca_flags args in
  if has fl CLONE_PIDFD && has fl CLONE_PARENT_SETTID && (ca_pidfd args =? ca_parent_tid args)
  then (Val (- EINVAL), s)
  else
    let trace := clone_trace args in
    let '(r, f) := copy_current curid false args (cfk s) in
    let s := set_fk (fun _ => f) s in
    match r with
    | inl e => (Val e, s)
    | inr p =>
        let nr := match tasks f !! p with Some t => t_pid t | None => 0 end in
        (Val (pid_vnr nr), start_task curid p nr trace args s)
    end.

(** ** The callers *)

(** The arguments of kernel threads: flags and exit signal in one word. *)
Definition thread_args (flags : Z) (kthread io_thread user_worker : bool) : clone_args :=
  CloneArgs (Z.ldiff (lower_32_bits flags .| CLONE_VM .| CLONE_UNTRACED) CSIGNAL) 0 0 0
    (Z.land (lower_32_bits flags) CSIGNAL) 0 0 0 [] 0 kthread io_thread user_worker false false.
Definition kernel_thread (curid flags : Z) : sys clstate Z := kernel_clone curid (thread_args flags true false false).
Definition user_mode_thread (curid flags : Z) : sys clstate Z := kernel_clone curid (thread_args flags false false false).
Definition io_thread_flags : Z := CLONE_FS .| CLONE_FILES .| CLONE_SIGHAND .| CLONE_THREAD .| CLONE_IO.
(** Gives the task, which is not started. *)
Definition create_io_thread (curid : Z) (s : clstate) : (Z + Z) * clstate :=
  let '(r, f) := copy_current curid false (thread_args io_thread_flags false true true) (cfk s) in
  (r, set_fk (fun _ => f) s).
Definition fork_idle (curid : Z) (s : clstate) : (Z + Z) * clstate :=
  let args := CloneArgs CLONE_VM 0 0 0 0 0 0 0 [] 0 true false false false true in
  let '(r, f) := copy_current curid true args (cfk s) in (r, set_fk (fun _ => f) s).

Definition user_args (flags exit_signal : Z) : clone_args :=
  CloneArgs flags 0 0 0 exit_signal 0 0 0 [] 0 false false false false false.
Definition sys_fork (curid : Z) : sys clstate Z := kernel_clone curid (user_args 0 SIGCHLD).
Definition sys_vfork (curid : Z) : sys clstate Z := kernel_clone curid (user_args (CLONE_VFORK .| CLONE_VM) SIGCHLD).
Definition legacy_args (clone_flags newsp parent_tidptr child_tidptr tls : Z) : clone_args :=
  CloneArgs (Z.ldiff (lower_32_bits clone_flags) CSIGNAL) parent_tidptr child_tidptr parent_tidptr
    (Z.land (lower_32_bits clone_flags) CSIGNAL) newsp 0 tls [] 0 false false false false false.
Definition sys_clone (curid clone_flags newsp parent_tidptr child_tidptr tls : Z) : sys clstate Z :=
  do* smodify count_fork in
  kernel_clone curid (legacy_args clone_flags newsp parent_tidptr child_tidptr tls).

Definition copy_clone_args_from_user (uargs usize : Z) : Z + clone_args :=
  if PAGE_SIZE <? usize then inl (- E2BIG)
  else if usize <? CLONE_ARGS_SIZE_VER0 then inl (- EINVAL)
  else
    match copy_clone_args uargs usize with
    | inl err => inl err
    | inr a =>
        if MAX_PID_NS_LEVEL <? u_set_tid_size a then inl (- EINVAL)
        else if (u_set_tid a =? 0) && (0 <? u_set_tid_size a) then inl (- EINVAL)
        else if negb (u_set_tid a =? 0) && (u_set_tid_size a =? 0) then inl (- EINVAL)
        else if outside (u_exit_signal a) CSIGNAL || negb (valid_signal (u_exit_signal a)) then inl (- EINVAL)
        else if has (u_flags a) CLONE_INTO_CGROUP && ((INT_MAX <? u_cgroup a) || (usize <? CLONE_ARGS_SIZE_VER2))
        then inl (- EINVAL)
        else
          let kargs tids := CloneArgs (u_flags a) (u_pidfd a) (u_child_tid a) (u_parent_tid a) (u_exit_signal a)
                         (u_stack a) (u_stack_size a) (u_tls a) tids (u_cgroup a) false false false false false in
          if u_set_tid a =? 0 then inr (kargs [])
          else
            match copy_set_tid (u_set_tid a) (u_set_tid_size a) with
            | None => inl (- EFAULT)
            | Some tids => inr (kargs tids)
            end
    end.

(** The stack grows down: the arguments with the stack pointer at its top. *)
Definition clone3_stack_valid (kargs : clone_args) : option clone_args :=
  if ca_stack kargs =? 0 then if 0 <? ca_stack_size kargs then None else Some kargs
  else if ca_stack_size kargs =? 0 then None
  else if negb (access_ok (ca_stack kargs) (ca_stack_size kargs)) then None
  else Some (CloneArgs (ca_flags kargs) (ca_pidfd kargs) (ca_child_tid kargs) (ca_parent_tid kargs)
    (ca_exit_signal kargs) (u64 (ca_stack kargs + ca_stack_size kargs)) (ca_stack_size kargs) (ca_tls kargs)
    (ca_set_tid kargs) (ca_cgroup kargs) (ca_kthread kargs) (ca_io_thread kargs) (ca_user_worker kargs)
    (ca_no_files kargs) (ca_idle kargs)).
Definition clone3_args_valid (kargs : clone_args) : option clone_args :=
  let fl := ca_flags kargs in
  if outside fl (CLONE_LEGACY_FLAGS .| CLONE_CLEAR_SIGHAND .| CLONE_INTO_CGROUP) then None
  else if has fl (CLONE_DETACHED .| Z.ldiff CSIGNAL CLONE_NEWTIME) then None
  else if has_all fl (CLONE_SIGHAND .| CLONE_CLEAR_SIGHAND) then None
  else if has fl (CLONE_THREAD .| CLONE_PARENT) && negb (ca_exit_signal kargs =? 0) then None
  else clone3_stack_valid kargs.

Definition sys_clone3 (curid uargs size : Z) : sys clstate Z :=
  match copy_clone_args_from_user uargs size with
  | inl err => sret err
  | inr kargs =>
      match clone3_args_valid kargs with
      | None => sret (- EINVAL)
      | Some kargs => kernel_clone curid kargs
      end
  end.

(** [set_tid_address]: the address to clear when the thread ends. *)
Definition set_clear_child_tid (tidptr : Z) (t : task) : task :=
  Task (t_pid t) (t_tgid t) (t_group_leader t) (t_real_parent t) (t_exit_signal t) (t_flags t) (t_signal t)
    (t_sighand t) (t_fs t) (t_files t) (t_mm t) (t_set_child_tid t) tidptr (t_self_exec_id t)
    (t_parent_exec_id t) (t_children t) (t_pdeath_signal t) (t_nnp t) (t_seccomp t) (t_kthread t)
    (t_io_context t) (t_user t).
Definition sys_set_tid_address (curid tidptr : Z) : sys clstate Z := fun s =>
  let nr := match tasks (cfk s) !! curid with Some t => t_pid t | None => 0 end in
  (Val (pid_vnr nr), set_fk (fun f => set_tasks (alter (set_clear_child_tid tidptr) curid (tasks f)) f) s).
End clone.

(** The calls of the file, by whoever makes them. *)
Inductive ccall :=
| CFork (cur : Z) | CVfork (cur : Z) | CClone (cur fl sp ptid ctid tls : Z) | CClone3 (cur uargs size : Z)
| CKernelThread (cur fl : Z) | CUserThread (cur fl : Z) | CSetTid (cur tidptr : Z).
Definition exec_clone {menv : MmEnv} {fenv : ForkEnv} {caps : Caps} {ua : UAccess} {cenv : CloneEnv}
    (c : ccall) : sys clstate Z :=
  match c with
  | CFork cur => sys_fork cur
  | CVfork cur => sys_vfork cur
  | CClone cur fl sp ptid ctid tls => sys_clone cur fl sp ptid ctid tls
  | CClone3 cur uargs size => sys_clone3 cur uargs size
  | CKernelThread cur fl => kernel_thread cur fl
  | CUserThread cur fl => user_mode_thread cur fl
  | CSetTid cur tidptr => sys_set_tid_address cur tidptr
  end.

(** ** What the callers promise *)
Section properties.
Context {menv : MmEnv} {fenv : ForkEnv} {caps : Caps} {ua : UAccess} {cenv : CloneEnv}.

(** *** The counter of fork calls *)
Definition is_clone (c : ccall) : bool := match c with CClone _ _ _ _ _ _ => true | _ => false end.

Lemma start_task_frame curid p nr trace args s :
  let s' := start_task curid p nr trace args s in
  fork_call_counter s' = fork_call_counter s /\ woken s' = woken s ++ [p] /\
  (tasks (cfk s'), signals (cfk s'), kmm (cfk s'), installed (cfk s')) =
    (tasks (cfk s), signals (cfk s), kmm (cfk s), installed (cfk s)) /\
  (nr_threads (cfk s'), total_forks (cfk s'), process_counts (cfk s')) =
    (nr_threads (cfk s), total_forks (cfk s), process_counts (cfk s)) /\
  ext (cfk s') ≡ ext (cfk s) /\
  vfork_done s' = (if has (ca_flags args) CLONE_VFORK then delete p (vfork_done s) else vfork_done s).
Proof.
  intros s'. subst s'. unfold start_task, wait_for_vfork_done.
  destruct (has (ca_flags args) CLONE_PARENT_SETTID), (has (ca_flags args) CLONE_VFORK), (negb (trace =? 0));
    try (case_match; clear); (split_and!; [done..| |]);
    first [intros r; cbn; ledger_at; lia|cbn; by rewrite ?delete_insert_eq].
Qed.

Lemma kernel_clone_counter curid args s o s' : kernel_clone curid args s = (o, s') ->
  fork_call_counter s' = fork_call_counter s.
Proof.
  unfold kernel_clone. case_match; [by intros [= <- <-]|]. destruct (copy_current _ _ _ _) as [[e|p] f]; intros [= <- <-]; [done|].
  set (s1 := set_fk _ s). match goal with |- context [start_task _ _ ?n ?t _ _] =>
    destruct (start_task_frame curid p n t args s1) as [-> _] end. done.
Qed.
Lemma exec_clone_counter c s : fork_call_counter (run (exec_clone c) s).2 =
  if is_clone c then s64 (fork_call_counter s + 1) else fork_call_counter s.
Proof.
  assert (forall curid args s, fork_call_counter (run (kernel_clone curid args) s).2 = fork_call_counter s) as Hk.
  { intros curid args s1. destruct (run (kernel_clone curid args) s1) as [r s2] eqn:E.
    apply run_inv in E as [E|E]; by apply kernel_clone_counter in E. }
  destruct c as [| |cur fl sp ptid ctid tls| | | |]; cbn [is_clone exec_clone]; try exact (Hk _ _ s).
  - change (run (sys_clone cur fl sp ptid ctid tls) s) with
      (run (kernel_clone cur (legacy_args fl sp ptid ctid tls)) (count_fork s)). by rewrite Hk.
  - unfold sys_clone3. repeat case_match; first [apply Hk|done].
  - done.
Qed.

(** [fork_call_counter] counts, modulo the width of a long, exactly the
    [clone] system calls, failing ones included; processes created by [fork],
    [vfork], [clone3] and kernel threads are not counted. *)
Theorem fork_counter_counts_clone cs s : is_s64 (fork_call_counter s) ->
  fork_call_counter (run_all exec_clone cs s) = s64 (fork_call_counter s + calls_where is_clone cs).
Proof. apply counter_counts, exec_clone_counter. Qed.

(** *** One new task, started, or nothing *)
Context {mlaws : MmLaws} {flaws : ForkLaws}.
Hypothesis pid_vnr_positive : forall nr, 0 < nr -> 0 < pid_vnr nr.

(** What a successful [kernel_clone] leaves. *)
Record cloned (curid : Z) (args : clone_args) (s : clstate) (r : Z) (s' : clstate) (p : Z) (t : task) : Prop := {
  cl_new : tasks (cfk s) !! p = None;
  cl_task : tasks (cfk s') !! p = Some t;
  cl_pid : r = pid_vnr (t_pid t) /\ 0 < r;
  cl_woken : woken s' = woken s ++ [p];
  cl_vfork : has (ca_flags args) CLONE_VFORK = true -> vfork_done s' !! p = None;
  cl_forked : exists pidfd io cur csig, tasks (cfk s) !! curid = Some cur /\
    files_child args (cfk s) cur (t_files t) /\ (has (ca_flags args) CLONE_VM = true -> t_mm t = t_mm cur) /\
    nr_threads (cfk s') = nr_threads (cfk s) + 1 /\
    (forall x, ext (cfk s') x = ext (cfk s) x + bill (task_share args p cur csig pidfd (t_pid t) io t) x);
}.
Definition clone_failed (curid : Z) (s : clstate) (r : Z) (s' : clstate) : Prop :=
  r < 0 /\ restored curid (cfk s) (cfk s') /\ woken s' = woken s /\ vfork_done s' = vfork_done s /\
  ptrace_events s' = ptrace_events s.

Lemma restored_refl curid s : restored curid s s.
Proof. split; try done. by left. Qed.

(** The caller found on the list. *)
Lemma copy_current_outcome curid args s : groups_ok s -> 0 <= ca_exit_signal args ->
  match copy_current curid false args s with
  | (inl e, s') => e < 0 /\ restored curid s s'
  | (inr p, s') => tasks s !! p = None /\ fork_step s s' /\ exists cur csig nr pidfd io t,
      tasks s !! curid = Some cur /\ forked curid args p s cur csig nr pidfd io t s'
  end.
Proof.
  intros G Ha. unfold copy_current. destruct (tasks s !! curid) as [cur|] eqn:Ec; [|split; [done|apply restored_refl]].
  destruct (go_task s G _ _ Ec) as (g & l & A1 & _ & A3 & _ & A5 & _). rewrite A1, A3.
  pose proof (copy_process_outcome curid false args cur l g s (go_mm s G _ _ Ec)) as O.
  destruct (copy_process curid false args cur l g s) as [[e|p] s'] eqn:E; [done|].
  destruct O as (_ & Hn & _ & O). split_and!; [done|by apply (FStep s s' curid args cur l g (inr p))|].
  destruct O as (nr & pidfd & io & t & F); [done..|]. by exists cur, g, nr, pidfd, io, t.
Qed.
Lemma copy_current_groups curid args s : groups_ok s -> 0 <= ca_exit_signal args ->
  groups_ok (copy_current curid false args s).2.
Proof.
  intros G Ha. pose proof (copy_current_outcome curid args s G Ha) as O.
  destruct (copy_current curid false args s) as [[e|p] s']; cbn.
  - destruct O as [_ O]. by eapply groups_ok_restored.
  - destruct O as (_ & O & _). by eapply fork_step_groups.
Qed.

Lemma kernel_clone_outcome curid args s r s' : groups_ok (cfk s) -> 0 <= ca_exit_signal args ->
  run (kernel_clone curid args) s = (r, s') ->
  clone_failed curid s r s' \/ exists p t, cloned curid args s r s' p t.
Proof.
  intros G Ha. unfold run, kernel_clone.
  destruct (_ && (ca_pidfd args =? ca_parent_tid args)); [intros [= <- <-]; left; split_and!; try done; apply restored_refl|].
  pose proof (copy_current_outcome curid args (cfk s) G Ha) as O.
  destruct (copy_current curid false args (cfk s)) as [[e|p] f].
  { intros [= <- <-]. left. destruct O. by split_and!. }
  destruct O as (Hn & _ & cur & csig & nr & pidfd & io & t & Hc & F).
  assert (tasks f !! p = Some t) as Ht by (rewrite (fk_tasks _ _ _ _ _ _ _ _ _ _ _ F); apply lookup_insert_eq).
  rewrite Ht. destruct (fk_pid _ _ _ _ _ _ _ _ _ _ _ F) as [Hp Hpos]. rewrite Hp.
  set (s1 := set_fk _ s). destruct (start_task_frame curid p nr (clone_trace args) args s1) as (_ & W & E1 & E2 & E3 & V).
  set (s2 := start_task _ _ _ _ _ _) in *. clearbody s2. intros [= <- <-]. right. exists p, t.
  injection E1 as E11 _ _ _. injection E2 as E21 _ _. split; try done.
  - by rewrite E11.
  - rewrite Hp. auto.
  - intros Hv. rewrite Hv in V. rewrite V. apply lookup_delete_eq.
  - exists pidfd, io, cur, csig. split_and!; [done|apply F| | |].
    + destruct (fk_mm _ _ _ _ _ _ _ _ _ _ _ F) as (k & M & _). intros Hvm. unfold mm_child in M. rewrite Hvm in M.
      destruct (t_mm cur); by destruct M.
    + rewrite E21. pose proof (fk_counts _ _ _ _ _ _ _ _ _ _ _ F) as C. by injection C.
    + intros x. rewrite (E3 x), Hp. apply (fk_ext _ _ _ _ _ _ _ _ _ _ _ F).
Qed.

(** C25: [fork], [vfork], [clone] and their kin either fail with a negative
    error and leave no trace, or return the pid of exactly one new task, which
    has been started once and holds exactly its share of resources; when the
    call waited for a vfork child, that child no longer points to the caller. *)
Theorem kernel_clone_all_or_nothing curid args s r s' : groups_ok (cfk s) -> 0 <= ca_exit_signal args ->
  run (kernel_clone curid args) s = (r, s') ->
  clone_failed curid s r s' \/ exists p t, cloned curid args s r s' p t.
Proof. apply kernel_clone_outcome. Qed.

(** *** Any program of calls *)
Lemma kernel_clone_groups curid args : 0 <= ca_exit_signal args ->
  keeps (inv_rel (fun s => groups_ok (cfk s))) (kernel_clone curid args).
Proof.
  intros Ha s o s' E G. revert E. unfold kernel_clone.
  destruct (_ && (ca_pidfd args =? ca_parent_tid args)); [by intros [= <- <-]|].
  pose proof (copy_current_groups curid args (cfk s) G Ha) as G'.
  destruct (copy_current curid false args (cfk s)) as [[e|p] f]; intros [= <- <-]; [done|].
  set (s1 := set_fk _ s). set (nr := match tasks f !! p with Some t => _ | None => _ end).
  destruct (start_task_frame curid p nr (clone_trace args) args s1) as (_ & _ & E1 & E2 & _).
  set (s2 := start_task _ _ _ _ _ _) in *. clearbody s2. change (cfk s1) with f in *.
  injection E1 as E11 ? ? ?. injection E2 as ? ? ?.
  apply (groups_ok_view f); [by rewrite E11|congruence..|done].
Qed.

Lemma csignal_nonneg x : 0 <= Z.land x CSIGNAL.
Proof. apply Z.land_nonneg. by right. Qed.
Lemma clone3_exit_signal uargs size kargs kargs' : copy_clone_args_from_user uargs size = inr kargs ->
  clone3_args_valid kargs = Some kargs' -> 0 <= ca_exit_signal kargs'.
Proof.
  intros E1 E2. assert (ca_exit_signal kargs' = ca_exit_signal kargs) as ->.
  { unfold clone3_args_valid, clone3_stack_valid in E2. repeat case_match; simplify_eq; done. }
  clear E2. unfold copy_clone_args_from_user in E1.
  repeat (case_match; try done); simplify_eq; cbn;
    match goal with H : outside ?x CSIGNAL || _ = false |- _ =>
      apply orb_false_iff in H as [H _]; apply outside_spec in H; rewrite <- H; apply csignal_nonneg end.
Qed.

(** C15: every way to create processes and threads keeps the thread groups
    consistent, for any program of such calls by any tasks with any
    arguments: the entry points never pass on an invalid exit signal. *)
Theorem clone_calls_keep_groups cs s : groups_ok (cfk s) -> groups_ok (cfk (run_all exec_clone cs s)).
Proof.
  refine (keeps_run_all (inv_rel (fun s => groups_ok (cfk s))) exec_clone cs s _). intros c.
  destruct c; cbn [exec_clone]; try (apply kernel_clone_groups; cbn; first [lia|apply csignal_nonneg]).
  - apply keeps_bind; [apply _|apply keeps_modify; by intros s1 G|]. intros _. apply kernel_clone_groups, csignal_nonneg.
  - unfold sys_clone3. destruct (copy_clone_args_from_user uargs size) as [e|kargs] eqn:E1; [apply keeps_ret, _|].
    destruct (clone3_args_valid kargs) as [kargs'|] eqn:E2; [|apply keeps_ret, _].
    by eapply kernel_clone_groups, clone3_exit_signal.
  - intros s1 o s2 [= <- <-] G. cbn in *. revert G. apply groups_ok_view; try done. cbn. by apply same_view_alter.
Qed.

(** *** clone and clone3 *)

(** The structure that says what the registers of [clone] say. *)
Definition as_clone3 (fl sig ptid ctid tls : Z) : uclone := UClone fl ptid ctid ptid sig 0 0 tls 0 0 0.
(** Flags both calls know, with an exit signal [clone3] takes. *)
Definition common_args (fl sig : Z) : Prop :=
  0 <= sig <= 64 /\ Z.land fl CSIGNAL = 0 /\ Z.land fl CLONE_LEGACY_FLAGS = fl /\ has fl CLONE_DETACHED = false /\
  (has fl (CLONE_THREAD .| CLONE_PARENT) = true -> sig = 0).

Lemma land_small x n : 0 <= x < 2 ^ n -> 0 <= n -> Z.land x (Z.ones n) = x.
Proof. intros. rewrite Z.land_ones by lia. apply Z.mod_small. lia. Qed.
Lemma legacy_args_split fl sig ptid ctid tls : common_args fl sig ->
  legacy_args (fl .| sig) 0 ptid ctid tls =
  CloneArgs fl ptid ctid ptid sig 0 0 tls [] 0 false false false false false.
Proof.
  intros (Hs & Hf & Hl & _). unfold legacy_args, lower_32_bits.
  assert (Z.land sig 255 = sig) as S8 by (apply (land_small sig 8); lia).
  assert (Z.land sig 4294967295 = sig) as S32 by (apply (land_small sig 32); lia).
  rewrite !Z.land_lor_distr_l, Hl, S32, Hf, S8, Z.lor_0_l. f_equal.
  apply Z.bits_inj'. intros n Hn. rewrite Z.ldiff_spec, Z.lor_spec.
  apply (f_equal (fun z => Z.testbit z n)) in Hf, S8. rewrite !Z.land_spec in Hf, S8. rewrite Z.bits_0 in Hf.
  destruct (Z.testbit fl n), (Z.testbit sig n), (Z.testbit 255 n); done.
Qed.

Lemma sys_clone3_common curid fl sig ptid ctid tls uargs : common_args fl sig ->
  copy_clone_args uargs CLONE_ARGS_SIZE_VER2 = inr (as_clone3 fl sig ptid ctid tls) ->
  sys_clone3 curid uargs CLONE_ARGS_SIZE_VER2 =
  kernel_clone curid (CloneArgs fl ptid ctid ptid sig 0 0 tls [] 0 false false false false false).
Proof.
  intros (Hs & Hf & Hl & Hd & Ht) Hu. unfold sys_clone3, copy_clone_args_from_user. rewrite Hu.
  assert (outside sig CSIGNAL = false) as O1 by (apply outside_spec, (land_small sig 8); lia).
  assert (valid_signal sig = true) as O2 by (apply Z.leb_le; lia).
  cbn. rewrite O1, O2, andb_false_r. cbn [negb orb]. unfold clone3_args_valid. cbn [ca_flags ca_exit_signal].
  assert (outside fl (CLONE_LEGACY_FLAGS .| CLONE_CLEAR_SIGHAND .| CLONE_INTO_CGROUP) = false) as ->.
  { apply outside_spec. rewrite !Z.land_lor_distr_r, Hl. apply Z.bits_inj'. intros n Hn.
    rewrite !Z.lor_spec, !Z.land_spec. by destruct (Z.testbit fl n). }
  assert (has fl 127 = false) as H127.
  { unfold has. change 127 with (Z.land 255 127). by rewrite Z.land_assoc, Hf. }
  rewrite has_lor, Hd. change (Z.ldiff CSIGNAL CLONE_NEWTIME) with 127. rewrite H127. cbn [orb].
  assert (has_all fl (CLONE_SIGHAND .| CLONE_CLEAR_SIGHAND) = false) as ->.
  { rewrite has_all_lor, (has_all_bit fl CLONE_CLEAR_SIGHAND) by done. change (Z.log2 CLONE_CLEAR_SIGHAND) with 32.
    rewrite <- Hl, Z.land_spec. change (Z.testbit CLONE_LEGACY_FLAGS 32) with false. by rewrite !andb_false_r. }
  assert (has fl (CLONE_THREAD .| CLONE_PARENT) && negb (sig =? 0) = false) as ->; [|done].
  destruct (has fl (CLONE_THREAD .| CLONE_PARENT)); [|done]. by rewrite (Ht eq_refl).
Qed.

(** On the flags both know, [clone3] does what [clone] does, task for
    task, except that only [clone] is counted. *)
Theorem clone3_agrees_with_clone curid fl sig ptid ctid tls uargs s r s' : common_args fl sig ->
  copy_clone_args uargs CLONE_ARGS_SIZE_VER2 = inr (as_clone3 fl sig ptid ctid tls) ->
  run (sys_clone3 curid uargs CLONE_ARGS_SIZE_VER2) (count_fork s) = (r, s') ->
  run (sys_clone curid (fl .| sig) 0 ptid ctid tls) s = (r, s').
Proof.
  intros Hc Hu E. rewrite (sys_clone3_common _ _ _ _ _ _ _ Hc Hu) in E. unfold run, sys_clone in *. cbn [sbind smodify].
  by rewrite (legacy_args_split _ _ _ _ _ Hc).
Qed.
End properties.

(** ** A concrete system: process 1 of [Fork.Demo]; the structure of [clone3]
    at address 500 asks for a thread. *)
Module Demo.
Import Fork.Demo.
Definition threadu : uclone := UClone thread_flags 0 0 0 0 4096 4096 0 0 0 0.
Definition envC : CloneEnv := {|
  ptrace_event_enabled _ := true; pid_vnr nr := nr; vfork_killed _ := 0;
  copy_clone_args p _ := if p =? 500 then inr threadu else if p =? 501 then inr (as_clone3 CLONE_VM 17 8192 0 0) else inl (- EFAULT);
  copy_set_tid _ _ := None;
|}.
#[local] Existing Instance envC.
#[local] Existing Instance uaccess_ok.
#[local] Existing Instance root_caps.
#[local] Instance mmE : MmEnv := ForkMm.Demo.envD false.
#[local] Instance mmlE : MmLaws := ForkMm.Demo.mm_lawsD false.
#[local] Instance fkE : ForkEnv := envF None.
#[local] Instance fklE : ForkLaws := lawsF None.
Definition c0 : clstate := ClState s0 6 ∅ [] [].

(** Two clones, one of them failing, among four ways to fork. *)
Lemma fork_counter_counts_clone_witness :
  fork_call_counter (run_all exec_clone [CFork 1; CClone 1 17 0 0 0 0; CVfork 1; CClone 1 CLONE_THREAD 0 0 0 0; CClone3 1 500 64] c0) = 8.
Proof. rewrite (fork_counter_counts_clone _ c0) by (vm_compute; split; discriminate || reflexivity). reflexivity. Defined.

Lemma clone_calls_keep_groups_witness :
  let s' := run_all exec_clone [CClone3 1 500 64; CVfork 1; CClone 1 17 0 0 0 0] c0 in
  nr_threads (cfk s') = 4 /\ groups_ok (cfk s').
Proof.
  cbv zeta. split; [vm_compute; reflexivity|].
  apply (clone_calls_keep_groups [CClone3 1 500 64; CVfork 1; CClone 1 17 0 0 0 0] c0). apply s0_groups.
Defined.

(** A vfork child has the pid 2 and is started; both events are reported. *)
Lemma kernel_clone_all_or_nothing_witness :
  let '(r, s') := run (sys_vfork 1) c0 in
  r = 2 /\ ptrace_events s' = [(PTRACE_EVENT_VFORK, 2); (PTRACE_EVENT_VFORK_DONE, 2)] /\
  exists p t, cloned 1 (user_args (CLONE_VFORK .| CLONE_VM) SIGCHLD) c0 r s' p t.
Proof.
  destruct (run (sys_vfork 1) c0) as [r s'] eqn:E.
  pose proof (f_equal fst E) as E1. pose proof (f_equal (fun x => ptrace_events x.2) E) as E2. vm_compute in E1, E2.
  split; [symmetry; exact E1|]. split; [symmetry; exact E2|].
  destruct (kernel_clone_all_or_nothing (cenv := envC) (fun nr H => H) 1 (user_args (CLONE_VFORK .| CLONE_VM) SIGCHLD) c0 r s'
    s0_groups ltac:(cbn; lia) E) as [[Hr _]|H]; [subst r; lia|exact H].
Defined.

Lemma clone3_agrees_with_clone_witness :
  run (sys_clone 1 (CLONE_VM .| 17) 0 8192 0 0) c0 = run (sys_clone3 1 501 CLONE_ARGS_SIZE_VER2) (count_fork c0).
Proof.
  destruct (run (sys_clone3 1 501 CLONE_ARGS_SIZE_VER2) (count_fork c0)) as [r s'] eqn:E.
  apply (clone3_agrees_with_clone 1 CLONE_VM 17 8192 0 0 501 c0 r s'); [|reflexivity|exact E].
  unfold common_args. split; [lia|]. split; [reflexivity|]. split; [reflexivity|]. split; [reflexivity|].
  intros H. vm_compute in H. discriminate.
Defined.
End Demo.
