(* ===== verification/Vfork.v ===== *)
(** * The hand-over of the address space after vfork

    fork.c 1573-1606 and 1621-1660: a child made with CLONE_VFORK borrows its
    parent's address space.  The parent sleeps on a completion that lives on
    its own stack and to which the child's [vfork_done] points; the child
    completes it from [mm_release] when it executes a program or exits.  A
    fatal signal ends the wait too.  Parent and child run concurrently: each
    region under [task_lock] is one step, and steps interleave freely.  The
    child tests [vfork_done] without the lock before it takes it, so the parent
    may leave in between; [bad_complete] records a [complete] of a completion
    that is not there. *)
From S2P Require Import Prelude.

(** kernel/sched/completion.c: given the count and whether a fatal signal is
    pending, the waiter sleeps on, or returns a value and leaves a count. *)
Class Completion := {
  wait_for_completion_state : Z -> bool -> option (Z * Z);
  wait_zero d f d' : wait_for_completion_state d f = Some (0, d') -> 0 < d;
  wait_signal d f k d' : wait_for_completion_state d f = Some (k, d') -> k <> 0 -> f = true;
  wait_done d f : 0 < d -> wait_for_completion_state d f <> None;
  wait_fatal d : wait_for_completion_state d true <> None;
}.

(** The child: outside of [mm_release], or between the test of [vfork_done] and
    the lock. *)
Inductive child_at := ChildRuns | ChildCompletes.
(** The parent inside [wait_for_vfork_done]. *)
Inductive parent_at := Sleeping | Woken (killed : Z) | Returned (killed : Z).
Record vstate := VState {
  vfork_done : bool;                  (** the child's pointer is set *)
  completion : Z;                     (** the count of the parent's completion *)
  parent : parent_at;
  child_ref : bool;                   (** the parent's reference to the child *)
  fatal : bool;                       (** a fatal signal is pending for the parent *)
  released : bool;                    (** the child gave the address space back *)
  clear_child_tid : Z;
  utids : gmap Z Z;                   (** user memory: thread ids *)
  futex_woken : list Z;
  child : child_at;
  bad_complete : bool;                (** [complete] through NULL or into a stack frame that is gone *)
}.

Section vfork.
Context {co : Completion} {ua : UAccess}.

(** [complete(vfork)]: the completion is on the stack of the waiting parent. *)
Definition complete (vfork : bool) (s : vstate) : vstate :=
  let there := vfork && match parent s with Returned _ => false | _ => true end in
  VState (vfork_done s) (if there then completion s + 1 else completion s) (parent s) (child_ref s) (fatal s) (released s)
    (clear_child_tid s) (utids s) (futex_woken s) (child s) (bad_complete s || negb there).
Definition set_vfork_done (v : bool) (s : vstate) : vstate :=
  VState v (completion s) (parent s) (child_ref s) (fatal s) (released s) (clear_child_tid s) (utids s) (futex_woken s)
    (child s) (bad_complete s).
(** The child is past [mm_release]. *)
Definition leave_mm (s : vstate) : vstate :=
  VState (vfork_done s) (completion s) (parent s) (child_ref s) (fatal s) true (clear_child_tid s) (utids s) (futex_woken s)
    ChildRuns (bad_complete s).

(** The region under [task_lock], with its own test of the pointer. *)
Definition complete_vfork_done (s : vstate) : vstate :=
  let vfork := vfork_done s in
  let s := if vfork then complete vfork (set_vfork_done false s) else s in
  leave_mm s.

(** [mm_release] up to the test of [tsk->vfork_done], which takes no lock;
    [mm_users] is how many use the address space when the child leaves it. *)
Definition mm_release_test (mm_users : Z) (s : vstate) : vstate :=
  let s :=
    if negb (clear_child_tid s =? 0) then
      let tid := clear_child_tid s in
      let '(m, w) := if 1 <? mm_users then ((put_user (utids s) 0 tid 4).2, futex_woken s ++ [tid])
                     else (utids s, futex_woken s) in
      VState (vfork_done s) (completion s) (parent s) (child_ref s) (fatal s) (released s) 0 m w (child s) (bad_complete s)
    else s in
  if vfork_done s
  then VState true (completion s) (parent s) (child_ref s) (fatal s) (released s) (clear_child_tid s) (utids s) (futex_woken s)
         ChildCompletes (bad_complete s)
  else leave_mm s.
(** The whole function, when nothing comes in between. *)
Definition mm_release (mm_users : Z) (s : vstate) : vstate :=
  let s := mm_release_test mm_users s in
  match child s with ChildCompletes => complete_vfork_done s | ChildRuns => s end.

(** [killed = wait_for_completion_state(vfork, state);] when it returns *)
Definition wait_vfork (s : vstate) : option vstate :=
  match parent s with
  | Sleeping =>
      '(killed, d) ← wait_for_completion_state (completion s) (fatal s);
      Some (VState (vfork_done s) d (Woken killed) (child_ref s) (fatal s) (released s) (clear_child_tid s) (utids s) (futex_woken s)
              (child s) (bad_complete s))
  | _ => None
  end.
(** [if (killed) child->vfork_done = NULL; put_task_struct(child); return killed;] *)
Definition finish_vfork (s : vstate) : option vstate :=
  match parent s with
  | Woken killed =>
      Some (VState (if negb (killed =? 0) then false else vfork_done s) (completion s) (Returned killed) false (fatal s)
              (released s) (clear_child_tid s) (utids s) (futex_woken s) (child s) (bad_complete s))
  | _ => None
  end.
Definition wait_for_vfork_done (s : vstate) : option vstate := s' ← wait_vfork s; finish_vfork s'.

(** [kernel_clone] before it waits. *)
Definition vfork_start (tid : Z) (m : gmap Z Z) : vstate := VState true 0 Sleeping true false false tid m [] ChildRuns false.

Inductive parent_step (s s' : vstate) : Prop :=
| PWait : wait_vfork s = Some s' -> parent_step s s'
| PFinish : finish_vfork s = Some s' -> parent_step s s'.
Inductive vstep (s s' : vstate) : Prop :=
| VParent : parent_step s s' -> vstep s s'
| VTest users : child s = ChildRuns -> s' = mm_release_test users s -> vstep s s'
| VComplete : child s = ChildCompletes -> s' = complete_vfork_done s -> vstep s s'
| VSignal : s' = VState (vfork_done s) (completion s) (parent s) (child_ref s) true (released s) (clear_child_tid s) (utids s)
    (futex_woken s) (child s) (bad_complete s) -> vstep s s'.
Definition reachable (s : vstate) : Prop := exists tid m, rtc vstep (vfork_start tid m) s.

(** ** Invariant *)
Record vfork_ok (s : vstate) : Prop := {
  vo_count : match parent s with
    | Sleeping => completion s = Z.b2z (negb (vfork_done s)) /\ child_ref s = true
    | Woken 0 => vfork_done s = false /\ child_ref s = true
    | Woken _ => child_ref s = true
    | Returned _ => vfork_done s = false /\ child_ref s = false
    end;
  vo_released : match parent s with Returned _ => True | _ => released s = negb (vfork_done s) end;
  vo_zero : (parent s = Woken 0 \/ parent s = Returned 0) -> released s = true;
  vo_bad : bad_complete s = false;
  vo_killed k : (parent s = Woken k \/ parent s = Returned k) -> k <> 0 -> fatal s = true;
}.

Lemma complete_fields s : vfork_ok s ->
  vfork_done (complete_vfork_done s) = false /\ released (complete_vfork_done s) = true /\ bad_complete (complete_vfork_done s) = false /\
  completion (complete_vfork_done s) = completion s + Z.b2z (vfork_done s) /\
  parent (complete_vfork_done s) = parent s /\ child_ref (complete_vfork_done s) = child_ref s /\ fatal (complete_vfork_done s) = fatal s.
Proof.
  intros [C _ _ B _]. unfold complete_vfork_done, complete. destruct (vfork_done s) eqn:E; cbn; rewrite ?E, ?B;
    [|split_and!; try done; lia]. by destruct (parent s); [..|destruct C].
Qed.
Lemma test_fields u s : let s' := mm_release_test u s in
  (vfork_done s', completion s', parent s', child_ref s', fatal s', bad_complete s') =
  (vfork_done s, completion s, parent s, child_ref s, fatal s, bad_complete s) /\
  released s' = released s || negb (vfork_done s).
Proof.
  unfold mm_release_test. destruct s as [[] c pa r f rl tid m w ch bc]; cbn;
    destruct (negb (tid =? 0)); [destruct (1 <? u)|..|destruct (1 <? u)|]; cbn; by rewrite ?orb_false_r, ?orb_true_r.
Qed.

Lemma vfork_start_ok tid m : vfork_ok (vfork_start tid m).
Proof. by split; cbn; [| |intros [|]| |intros k [|]]. Qed.
Lemma vstep_ok s s' : vstep s s' -> vfork_ok s -> vfork_ok s'.
Proof.
  intros [[E|E]|u _ ->|_ ->| ->] Hok; pose proof Hok as [C R Z B K].
  - unfold wait_vfork in E. destruct (parent s) eqn:Ep; try done.
    destruct (wait_for_completion_state (completion s) (fatal s)) as [[k d]|] eqn:Ew; [|done]. injection E as <-.
    destruct C as [C1 C2]. assert (k = 0 -> vfork_done s = false) as Hz.
    { intros ->. apply wait_zero in Ew. destruct (vfork_done s); [cbn in C1; lia|done]. }
    split; cbn.
    + destruct k; [by auto|done..].
    + done.
    + intros [[= ->]|[=]]. by rewrite R, Hz.
    + done.
    + intros k' [[= <-]|[=]] Hk. by eapply wait_signal.
  - unfold finish_vfork in E. destruct (parent s) as [|k|] eqn:Ep; try done. injection E as <-. split; cbn.
    + destruct (Z.eqb_spec k 0) as [->|]; cbn; [by destruct C|done].
    + done.
    + intros [[=]|[= ->]]. by auto.
    + done.
    + intros k' [[=]|[= <-]]. by eauto.
  - destruct (test_fields u s) as [E1 E2]. injection E1 as E11 E12 E13 E14 E15 E16.
    split; rewrite ?E11, ?E12, ?E13, ?E14, ?E15, ?E16, ?E2; try done.
    + destruct (parent s); [rewrite R..|done]; by destruct (vfork_done s).
    + intros H%Z. by rewrite H.
  - destruct (complete_fields s Hok) as (E11 & E12 & E13 & E2 & E31 & E32 & E33).
    split; rewrite ?E11, ?E12, ?E13, ?E2, ?E31, ?E32, ?E33; try done; [|by destruct (parent s)].
    destruct (parent s) as [|[]|]; [|by destruct C|done..|by destruct C].
    destruct C as [-> C]. split; [by destruct (vfork_done s)|done].
  - split; cbn; try done.
Qed.
Lemma reachable_ok s : reachable s -> vfork_ok s.
Proof.
  intros (tid & m & H). remember (vfork_start tid m) as s0 eqn:E0.
  assert (vfork_ok s0) as G by (subst; apply vfork_start_ok). clear E0.
  induction H as [|x y z Hxy _ IH]; [done|]. by apply IH, (vstep_ok x).
Qed.

(** C11: in every interleaving of parent, child and signals the child never
    completes through a NULL pointer nor into a stack frame its parent has
    left, even when the parent is killed between the child's test of
    [vfork_done] and its lock; and when the parent goes on, the child does not
    point to the completion on its stack any more and the reference to the
    child is dropped; it goes on with 0 only after the child gave the address
    space back, and with an error only when a fatal signal is pending. *)
Theorem vfork_no_dangling s : reachable s -> bad_complete s = false /\
  forall k, parent s = Returned k ->
  vfork_done s = false /\ child_ref s = false /\ (k = 0 -> released s = true) /\ (k <> 0 -> fatal s = true).
Proof.
  intros [C _ Z B K]%reachable_ok. split; [done|]. intros k E. rewrite E in C. destruct C as [C1 C2].
  split_and!; [done..| |].
  - intros ->. auto.
  - intros Hk. by eapply K; [right|].
Qed.

(** ** The parent is not left behind *)
(** How many of its own steps the parent has left. *)
Definition steps_left (s : vstate) : nat := match parent s with Sleeping => 2 | Woken _ => 1 | Returned _ => 0 end.

Lemma parent_step_decreases s s' : parent_step s s' -> (steps_left s' < steps_left s)%nat.
Proof.
  intros [E|E]; unfold wait_vfork, finish_vfork, steps_left in *; destruct (parent s); try done.
  - destruct (wait_for_completion_state _ _) as [[k d]|]; [|done]. injection E as <-. cbn. lia.
  - injection E as <-. cbn. lia.
Qed.
(** The parent can move unless it sleeps with the child still running and no
    fatal signal, or has returned. *)
Lemma parent_enabled s : vfork_ok s -> released s = true \/ fatal s = true -> (0 < steps_left s)%nat ->
  exists s', parent_step s s' /\ (released s', fatal s') = (released s, fatal s).
Proof.
  intros [C R _ _ _] Hrf Hl. unfold steps_left in Hl. destruct (parent s) as [|k|k] eqn:Ep; [| |lia].
  - destruct C as [C _]. assert (wait_for_completion_state (completion s) (fatal s) <> None) as Hw.
    { destruct Hrf as [Hr|Hf]; [|rewrite Hf; apply wait_fatal]. apply wait_done. rewrite C.
      rewrite R in Hr. destruct (vfork_done s); done || lia. }
    destruct (wait_for_completion_state (completion s) (fatal s)) as [[k d]|] eqn:Ew; [|done].
    eexists. split; [apply PWait; unfold wait_vfork; by rewrite Ep, Ew|done].
  - eexists. split; [apply PFinish; unfold finish_vfork; by rewrite Ep|done].
Qed.

(** C20: once the child has given the address space back, or a fatal signal is
    pending, the parent gets to the end by its own steps, whatever the
    interleaving so far; and it has at most two steps to take, so no schedule
    that lets it run delays it forever. *)
Theorem vfork_parent_resumes s : reachable s -> released s = true \/ fatal s = true ->
  (exists s' k, rtc parent_step s s' /\ parent s' = Returned k) /\
  (forall s', parent_step s s' -> (steps_left s' < steps_left s <= 2)%nat).
Proof.
  intros Hr Hrf. split.
  - assert (forall n s, reachable s -> released s = true \/ fatal s = true -> (steps_left s <= n)%nat ->
      exists s' k, rtc parent_step s s' /\ parent s' = Returned k) as H; [|by apply (H 2%nat); [..|unfold steps_left; case_match; lia]].
    clear. induction n as [|n IH]; intros s Hr Hrf Hn.
    all: destruct (decide (0 < steps_left s)%nat) as [Hl|Hl];
      [|exists s; unfold steps_left in *; destruct (parent s) as [| |k]; try lia; by exists k].
    + lia.
    + destruct (parent_enabled s (reachable_ok s Hr) Hrf Hl) as (s1 & H1 & E1). injection E1 as Ea Eb.
      destruct (IH s1) as (s' & k & H2 & H3).
      * destruct Hr as (tid & m & Hr). exists tid, m. eapply rtc_r; [done|by apply VParent].
      * by rewrite Ea, Eb.
      * apply parent_step_decreases in H1. lia.
      * exists s', k. split; [by eapply rtc_l|done].
  - intros s' H. split; [by apply parent_step_decreases|]. unfold steps_left. case_match; lia.
Qed.
End vfork.

(** ** A concrete run: the child executes a program, then the parent goes on;
    and a parent that is killed first. *)
Module Demo.
#[local] Instance coD : Completion.
Proof.
  refine {| wait_for_completion_state d f := if 0 <? d then Some (0, d - 1) else if f then Some (-512, d) else None |}.
  - intros d f d'. case_match; [lia|]. by destruct f.
  - intros d f k d'. case_match; [congruence|]. by destruct f.
  - intros d f Hd. by rewrite (proj2 (Z.ltb_lt 0 d) Hd).
  - intros d. by case_match.
Defined.
#[local] Existing Instance uaccess_ok.
Definition m0 : gmap Z Z := {[ 4096 := 77 ]}.
Definition s1 : vstate := mm_release 2 (vfork_start 4096 m0).
Definition s2 : vstate := default s1 (wait_for_vfork_done s1).
Lemma run_child : rtc vstep (vfork_start 4096 m0) s1.
Proof. eapply rtc_l; [by apply (VTest _ _ 2)|]. apply rtc_once. by apply VComplete. Qed.

(** The child has found the pointer set when the parent is killed and leaves;
    then the child takes the lock. *)
Definition tested : vstate := mm_release_test 2 (vfork_start 4096 m0).
Definition signalled : vstate :=
  VState true 0 Sleeping true true false 0 (utids tested) [4096] ChildCompletes false.
Definition left_alone : vstate := default signalled (wait_for_vfork_done signalled).
Definition raced : vstate := complete_vfork_done left_alone.
Lemma run_raced : rtc vstep (vfork_start 4096 m0) raced.
Proof.
  eapply rtc_l; [by apply (VTest _ tested 2)|]. eapply rtc_l; [by apply (VSignal _ signalled)|].
  eapply rtc_l; [apply VParent, PWait; vm_compute; reflexivity|].
  eapply rtc_l; [apply VParent, PFinish; vm_compute; reflexivity|]. apply rtc_once. by apply VComplete.
Qed.

Lemma vfork_no_dangling_witness : parent raced = Returned (-512) /\ bad_complete raced = false /\
  vfork_done raced = false /\ child_ref raced = false /\ fatal raced = true.
Proof.
  destruct (vfork_no_dangling raced (ex_intro _ 4096 (ex_intro _ m0 run_raced))) as [H1 H2].
  destruct (H2 (-512) eq_refl) as (H3 & H4 & _ & H5).
  split; [reflexivity|]. split; [exact H1|]. split; [exact H3|]. split; [exact H4|]. apply H5. discriminate.
Defined.
Example parent_resumed : parent s2 = Returned 0 /\ utids s2 !! 4096 = Some 0 /\ released s2 = true.
Proof. vm_compute. auto. Qed.

Lemma vfork_parent_resumes_witness : parent s1 = Sleeping /\ exists s' k, rtc parent_step s1 s' /\ parent s' = Returned k.
Proof.
  split; [vm_compute; reflexivity|].
  refine (proj1 (vfork_parent_resumes s1 (ex_intro _ 4096 (ex_intro _ m0 run_child)) (or_introl _))).
  vm_compute. reflexivity.
Defined.

(** While the child runs and no signal is pending the parent cannot move. *)
Example parent_sleeps : wait_vfork (vfork_start 0 ∅) = None.
Proof. vm_compute. reflexivity. Qed.
End Demo.
