(* ===== verification/Unshare.v ===== *)
(** * unshare, and the limit on threads

    fork.c 999-1018, 1059-1067, 3307-3551: [unshare] takes parts of the
    calling task out of sharing, each time with a copy that is installed or
    released again; the counts of users are a ledger.  [max_threads] is set
    from the size of memory at boot and through a sysctl afterwards. *)
From S2P Require Import Prelude Ledger Fork.

Inductive ures := UFs (f : Z) | UFsMem (f : Z) | UFiles (f : Z) | UCred (c : Z) | UNs (n : Z).
#[global] Instance ures_eq_dec : EqDecision ures.
Proof. solve_decision. Defined.

(** The parts of the calling task. *)
Record ustate := UState {
  cur_fs : option Z; cur_files : option Z; cur_cred : Z; cur_ns : Z;
  uheld : ledger ures;
  sem_exits : Z; shm_exits : Z;               (** how often the undo list and the segments were left *)
}.
Definition uset_held (l : ledger ures) (s : ustate) : ustate :=
  UState (cur_fs s) (cur_files s) (cur_cred s) (cur_ns s) l (sem_exits s) (shm_exits s).
Definition utake (r : ures) (s : ustate) : ustate := uset_held (take_one r (uheld s)) s.
Definition ugive (r : ures) (s : ustate) : ustate := uset_held (drop_one r (uheld s)) s.

Class UnshareEnv := {
  thread_group_empty : bool;
  sighand_count : Z;
  current_is_single_threaded : bool;
  copy_fs_struct : ustate -> option Z;                          (** a new object with one user *)
  dup_fd : ustate -> Z + Z;                                     (** the error or a new table with one user *)
  unshare_userns : Z -> ustate -> Z + option Z;                 (** new credentials, with a reference *)
  unshare_nsproxy_namespaces : Z -> option Z -> option Z -> ustate -> Z + option Z;
  set_cred_ucounts : Z -> Z;
}.

Section unshare.
Context {uenv : UnshareEnv}.

Definition check_unshare_flags (fl : Z) : Z :=
  if outside fl (CLONE_THREAD .| CLONE_FS .| CLONE_NEWNS .| CLONE_SIGHAND .| CLONE_VM .| CLONE_FILES .| CLONE_SYSVSEM
       .| CLONE_NEWUTS .| CLONE_NEWIPC .| CLONE_NEWNET .| CLONE_NEWUSER .| CLONE_NEWPID .| CLONE_NEWCGROUP .| CLONE_NEWTIME)
  then - EINVAL
  else if has fl (CLONE_THREAD .| CLONE_SIGHAND .| CLONE_VM) && negb thread_group_empty then - EINVAL
  else if has fl (CLONE_SIGHAND .| CLONE_VM) && (1 <? sighand_count) then - EINVAL
  else if has fl CLONE_VM && negb current_is_single_threaded then - EINVAL
  else 0.

Definition unshare_fs (fl : Z) (s : ustate) : Z * option Z * ustate :=
  match cur_fs s with
  | None => (0, None, s)
  | Some fs =>
      if negb (has fl CLONE_FS) then (0, None, s)
      else if uheld s (UFs fs) =? 1 then (0, None, s)
      else
        match copy_fs_struct s with
        | None => (- ENOMEM, None, s)
        | Some f => (0, Some f, utake (UFsMem f) (utake (UFs f) s))
        end
  end.
Definition unshare_fd (fl : Z) (s : ustate) : Z * option Z * ustate :=
  if has fl CLONE_FILES && match cur_files s with Some fd => 1 <? uheld s (UFiles fd) | None => false end then
    match dup_fd s with
    | inl error => (error, None, s)
    | inr f => (0, Some f, utake (UFiles f) s)
    end
  else (0, None, s).

(** [free_fs_struct]: the object goes, with the users it has. *)
Definition free_fs_struct (f : Z) (s : ustate) : ustate :=
  uset_held (drop_one (UFsMem f) (adjust (UFs f) (- uheld s (UFs f)) (uheld s))) s.

(** The flags that come with the ones asked for. *)
Definition unshare_closure (fl : Z) : Z :=
  let fl := set_if (has fl CLONE_NEWUSER) (CLONE_THREAD .| CLONE_FS) fl in
  let fl := set_if (has fl CLONE_VM) CLONE_SIGHAND fl in
  let fl := set_if (has fl CLONE_SIGHAND) CLONE_THREAD fl in
  set_if (has fl CLONE_NEWNS) CLONE_FS fl.

Definition bad_unshare_cleanup_fs (new_fs : option Z) (err : Z) (s : ustate) : Z * ustate :=
  (err, match new_fs with Some f => free_fs_struct f s | None => s end).
Definition bad_unshare_cleanup_fd (new_fs new_fd : option Z) (err : Z) (s : ustate) : Z * ustate :=
  bad_unshare_cleanup_fs new_fs err (match new_fd with Some f => ugive (UFiles f) s | None => s end).
Definition bad_unshare_cleanup_cred (new_fs new_fd new_cred : option Z) (err : Z) (s : ustate) : Z * ustate :=
  bad_unshare_cleanup_fd new_fs new_fd err (match new_cred with Some c => ugive (UCred c) s | None => s end).

Definition some_b {A} (o : option A) : bool := match o with Some _ => true | None => false end.

(** The switch, under [task_lock] where the code has it: what is left to release. *)
Definition switch_ns (new_nsproxy : option Z) (s : ustate) : ustate :=
  match new_nsproxy with
  | Some n => ugive (UNs (cur_ns s))
      (UState (cur_fs s) (cur_files s) (cur_cred s) n (uheld s) (sem_exits s) (shm_exits s))
  | None => s
  end.
Definition switch_fs (new_fs : option Z) (s : ustate) : option Z * ustate :=
  match new_fs, cur_fs s with
  | Some f, Some fs =>
      let s := UState (Some f) (cur_files s) (cur_cred s) (cur_ns s) (drop_one (UFs fs) (uheld s)) (sem_exits s) (shm_exits s) in
      (if negb (uheld s (UFs fs) =? 0) then None else Some fs, s)
  | _, _ => (None, s)
  end.
Definition switch_fd (new_fd : option Z) (s : ustate) : option Z * ustate :=
  match new_fd with
  | Some f => (cur_files s, UState (cur_fs s) (Some f) (cur_cred s) (cur_ns s) (uheld s) (sem_exits s) (shm_exits s))
  | None => (None, s)
  end.
(** [commit_creds(new)]: the reference is the task's, the old one is dropped. *)
Definition switch_cred (new_cred : option Z) (s : ustate) : ustate :=
  match new_cred with
  | Some c => ugive (UCred (cur_cred s))
      (UState (cur_fs s) (cur_files s) c (cur_ns s) (uheld s) (sem_exits s) (shm_exits s))
  | None => s
  end.
Definition install_unshared (fl : Z) (new_fs new_fd new_cred new_nsproxy : option Z) (s : ustate) : Z * ustate :=
  let do_sysvsem := has fl (CLONE_NEWIPC .| CLONE_SYSVSEM) in
  if some_b new_fs || some_b new_fd || do_sysvsem || some_b new_cred || some_b new_nsproxy then
    let s := if do_sysvsem then UState (cur_fs s) (cur_files s) (cur_cred s) (cur_ns s) (uheld s) (sem_exits s + 1) (shm_exits s) else s in
    let s := if has fl CLONE_NEWIPC then UState (cur_fs s) (cur_files s) (cur_cred s) (cur_ns s) (uheld s) (sem_exits s) (shm_exits s + 1) else s in
    let s := switch_ns new_nsproxy s in
    let '(new_fs, s) := switch_fs new_fs s in
    let '(new_fd, s) := switch_fd new_fd s in
    let s := switch_cred new_cred s in
    bad_unshare_cleanup_cred new_fs new_fd None 0 s
  else bad_unshare_cleanup_cred new_fs new_fd new_cred 0 s.

Definition ksys_unshare (fl : Z) (s : ustate) : Z * ustate :=
  let fl := unshare_closure fl in
  let err := check_unshare_flags fl in
  if negb (err =? 0) then (err, s) else
  let '(err, new_fs, s) := unshare_fs fl s in
  if negb (err =? 0) then (err, s) else
  let '(err, new_fd, s) := unshare_fd fl s in
  if negb (err =? 0) then bad_unshare_cleanup_fs new_fs err s else
  match unshare_userns fl s with
  | inl err => bad_unshare_cleanup_fd new_fs new_fd err s
  | inr new_cred =>
      let s := match new_cred with Some c => utake (UCred c) s | None => s end in
      match unshare_nsproxy_namespaces fl new_cred new_fs s with
      | inl err => bad_unshare_cleanup_cred new_fs new_fd new_cred err s
      | inr new_nsproxy =>
          let s := match new_nsproxy with Some n => utake (UNs n) s | None => s end in
          let err := match new_cred with Some c => set_cred_ucounts c | None => 0 end in
          if negb (err =? 0) then bad_unshare_cleanup_cred new_fs new_fd new_cred err s
          else install_unshared fl new_fs new_fd new_cred new_nsproxy s
      end
  end.

Definition unshare_files (s : ustate) : Z * ustate :=
  let '(error, copy, s) := unshare_fd CLONE_FILES s in
  match copy with
  | Some f =>
      if negb (error =? 0) then (error, s)
      else
        let old := cur_files s in
        let s := UState (cur_fs s) (Some f) (cur_cred s) (cur_ns s) (uheld s) (sem_exits s) (shm_exits s) in
        (0, match old with Some o => ugive (UFiles o) s | None => s end)
  | None => (error, s)
  end.
End unshare.

(** ** What unshare promises *)
Class UnshareLaws `{uenv : UnshareEnv} := {
  copy_fs_fresh s f : copy_fs_struct s = Some f -> uheld s (UFs f) = 0;
  dup_fd_spec s : match dup_fd s with inl e => e <> 0 | inr f => uheld s (UFiles f) = 0 end;
  userns_error fl s e : unshare_userns fl s = inl e -> e <> 0;
  nsproxy_error fl c f s e : unshare_nsproxy_namespaces fl c f s = inl e -> e <> 0;
}.

Section properties.
Context {uenv : UnshareEnv} {laws : UnshareLaws}.

Definition opt_one (mk : Z -> ures) (o : option Z) (r : ures) : Z := match o with Some x => one (mk x) r | None => 0 end.
Definition parts (s : ustate) := (cur_fs s, cur_files s, cur_cred s, cur_ns s, sem_exits s, shm_exits s).

Lemma unshare_fs_outcome fl s e o s1 : unshare_fs fl s = (e, o, s1) ->
  (e <> 0 /\ o = None /\ s1 = s) \/
  (e = 0 /\ parts s1 = parts s /\ (forall r, uheld s1 r = uheld s r + opt_one UFs o r + opt_one UFsMem o r) /\
   match o with
   | Some f => uheld s (UFs f) = 0 /\ exists fs, cur_fs s = Some fs /\ uheld s (UFs fs) <> 1
   | None => has fl CLONE_FS = true -> forall fs, cur_fs s = Some fs -> uheld s (UFs fs) = 1
   end).
Proof.
  unfold unshare_fs. destruct (cur_fs s) as [fs|] eqn:Ef.
  2: { intros [= <- <- <-]. right. split_and!; try done. intros r. cbn. lia. }
  destruct (has fl CLONE_FS) eqn:Eh; cbn [negb].
  2: { intros [= <- <- <-]. right. split_and!; try done. intros r. cbn. lia. }
  destruct (Z.eqb_spec (uheld s (UFs fs)) 1).
  { intros [= <- <- <-]. right. split_and!; try done; [intros r; cbn; lia|]. intros _ fs' [= <-]. done. }
  destruct (copy_fs_struct s) as [f|] eqn:Ec; intros [= <- <- <-]; [right|left; done].
  split_and!; try done; [intros r; cbn; ledger_at; lia|by apply copy_fs_fresh|by exists fs].
Qed.
Lemma unshare_fd_outcome fl s e o s1 : unshare_fd fl s = (e, o, s1) ->
  (e <> 0 /\ o = None /\ s1 = s) \/
  (e = 0 /\ parts s1 = parts s /\ (forall r, uheld s1 r = uheld s r + opt_one UFiles o r) /\
   match o with
   | Some f => uheld s (UFiles f) = 0 /\ exists fd, cur_files s = Some fd /\ 1 < uheld s (UFiles fd)
   | None => has fl CLONE_FILES = true -> forall fd, cur_files s = Some fd -> uheld s (UFiles fd) <= 1
   end).
Proof.
  unfold unshare_fd. destruct (has fl CLONE_FILES); cbn [andb].
  2: { intros [= <- <- <-]. right. split_and!; try done. intros r. cbn. lia. }
  destruct (cur_files s) as [fd|] eqn:Ef.
  2: { intros [= <- <- <-]. right. split_and!; try done. intros r. cbn. lia. }
  destruct (Z.ltb_spec 1 (uheld s (UFiles fd))).
  2: { intros [= <- <- <-]. right. split_and!; try done; [intros r; cbn; lia|]. by intros _ fd' [= <-]. }
  pose proof (dup_fd_spec s) as Hd. destruct (dup_fd s) as [er|f]; intros [= <- <- <-]; [by left|right].
  split_and!; try done; [intros r; cbn; ledger_at; lia|by exists fd].
Qed.

(** The labels release what the options say was taken. *)
Lemma bad_unshare_cleanup_outcome ofs ofd oc err s0 s (d : ures -> Z) :
  (forall r, uheld s r = uheld s0 r + opt_one UFs ofs r + opt_one UFsMem ofs r + opt_one UFiles ofd r + opt_one UCred oc r + d r) ->
  (forall f, ofs = Some f -> uheld s0 (UFs f) = 0 /\ d (UFs f) = 0) ->
  let '(e, s') := bad_unshare_cleanup_cred ofs ofd oc err s in
  e = err /\ parts s' = parts s /\ forall r, uheld s' r = uheld s0 r + d r.
Proof.
  intros H Hf. unfold bad_unshare_cleanup_cred, bad_unshare_cleanup_fd, bad_unshare_cleanup_fs, free_fs_struct.
  split; [done|]. split; [by destruct ofs, ofd, oc|].
  intros r. specialize (H r) as Hr.
  destruct ofs as [f|]; [|destruct ofd, oc; cbn in *; ledger_at; lia].
  destruct (Hf f eq_refl) as [F1 F2]. pose proof (H (UFs f)) as Hff. rewrite F1, F2 in Hff.
  destruct (decide (r = UFs f)) as [->|Hne].
  - destruct ofd, oc; cbn in *; ledger_at; rewrite ?one_same, !one_other in * by done; lia.
  - destruct ofd, oc; cbn in *; ledger_at; rewrite ?(one_other (UFs f) r), ?(one_other (UFiles _) (UFs f)),
      ?(one_other (UCred _) (UFs f)) in * by done; lia.
Qed.

(** One reference of the task moved from the old object to the new one. *)
Definition moved (mk : Z -> ures) (new old : option Z) (r : ures) : Z :=
  match new with Some x => one (mk x) r - opt_one mk old r | None => 0 end.
Definition replaced (new old : option Z) : option Z := match new with Some x => Some x | None => old end.

Record unshared (fl : Z) (s s' : ustate) (ofs ofd oc ons : option Z) : Prop := {
  us_fs : cur_fs s' = replaced ofs (cur_fs s);
  us_files : cur_files s' = replaced ofd (cur_files s);
  us_cred : Some (cur_cred s') = replaced oc (Some (cur_cred s));
  us_ns : Some (cur_ns s') = replaced ons (Some (cur_ns s));
  us_held : forall r, uheld s' r = uheld s r + moved UFs ofs (cur_fs s) r + opt_one UFsMem ofs r +
    moved UFiles ofd (cur_files s) r + moved UCred oc (Some (cur_cred s)) r + moved UNs ons (Some (cur_ns s)) r;
}.

Lemma switch_ns_outcome ons s : let s' := switch_ns ons s in
  (cur_fs s', cur_files s', cur_cred s') = (cur_fs s, cur_files s, cur_cred s) /\
  Some (cur_ns s') = replaced ons (Some (cur_ns s)) /\
  forall r, uheld s' r = uheld s r + moved UNs ons (Some (cur_ns s)) r - opt_one UNs ons r.
Proof. destruct ons; split_and!; try done; intros r; cbn; ledger_at; lia. Qed.
Lemma switch_cred_outcome oc s : let s' := switch_cred oc s in
  (cur_fs s', cur_files s', cur_ns s') = (cur_fs s, cur_files s, cur_ns s) /\
  Some (cur_cred s') = replaced oc (Some (cur_cred s)) /\
  forall r, uheld s' r = uheld s r + moved UCred oc (Some (cur_cred s)) r - opt_one UCred oc r.
Proof. destruct oc; split_and!; try done; intros r; cbn; ledger_at; lia. Qed.
(** The old file system information is still shared: nothing to free. *)
Lemma switch_fs_outcome ofs s : (ofs <> None -> exists fs, cur_fs s = Some fs /\ 1 < uheld s (UFs fs)) ->
  let '(rest, s') := switch_fs ofs s in
  rest = None /\ cur_fs s' = replaced ofs (cur_fs s) /\
  (cur_files s', cur_cred s', cur_ns s') = (cur_files s, cur_cred s, cur_ns s) /\
  forall r, uheld s' r = uheld s r + moved UFs ofs (cur_fs s) r - opt_one UFs ofs r.
Proof.
  intros H. destruct ofs as [f|]; [|split_and!; try done; intros r; cbn; lia].
  destruct H as (fs & E & Hc); [done|]. unfold switch_fs. rewrite E. cbn -[drop_one].
  assert (drop_one (UFs fs) (uheld s) (UFs fs) =? 0 = false) as -> by (apply Z.eqb_neq; ledger_at; rewrite one_same; lia).
  split_and!; try done. intros r. ledger_at. lia.
Qed.
Lemma switch_fd_outcome ofd s : let '(rest, s') := switch_fd ofd s in
  rest = (if some_b ofd then cur_files s else None) /\ cur_files s' = replaced ofd (cur_files s) /\
  (cur_fs s', cur_cred s', cur_ns s', uheld s') = (cur_fs s, cur_cred s, cur_ns s, uheld s).
Proof. by destruct ofd. Qed.

Lemma install_unshared_outcome fl ofs ofd oc ons s0 s :
  parts s = parts s0 ->
  (forall r, uheld s r = uheld s0 r + opt_one UFs ofs r + opt_one UFsMem ofs r + opt_one UFiles ofd r + opt_one UCred oc r
     + opt_one UNs ons r) ->
  (ofs <> None -> exists fs, cur_fs s0 = Some fs /\ 1 < uheld s0 (UFs fs)) ->
  exists s', install_unshared fl ofs ofd oc ons s = (0, s') /\ unshared fl s0 s' ofs ofd oc ons.
Proof.
  intros Hp Hh Hf. injection Hp as P1 P2 P3 P4 P5 P6. unfold install_unshared.
  set (do_sysvsem := has fl (CLONE_NEWIPC .| CLONE_SYSVSEM)). set (do_shm := has fl CLONE_NEWIPC).
  destruct (some_b ofs || some_b ofd || do_sysvsem || some_b oc || some_b ons) eqn:Eb.
  2: { assert (ofs = None /\ ofd = None /\ oc = None /\ ons = None) as (-> & -> & -> & ->)
         by (by destruct ofs, ofd, oc, ons, do_sysvsem).
    exists s. split; [done|]. split; cbn; try congruence. intros r. rewrite Hh. cbn. lia. }
  clear Eb. set (s1 := if do_shm then _ else _).
  assert ((cur_fs s1, cur_files s1, cur_cred s1, cur_ns s1, uheld s1) = (cur_fs s, cur_files s, cur_cred s, cur_ns s, uheld s))
    as E1 by (subst s1; by destruct do_shm, do_sysvsem).
  clearbody s1. injection E1 as A1 A2 A3 A4 A5.
  destruct (switch_ns_outcome ons s1) as (E2 & N2 & H2). set (s2 := switch_ns ons s1) in *. clearbody s2. injection E2 as B1 B2 B3.
  pose proof (switch_fs_outcome ofs s2) as E3. destruct (switch_fs ofs s2) as [ofs' s3].
  destruct E3 as (-> & F3 & E3 & H3).
  { intros Hn. destruct (Hf Hn) as (fs & Ec & Hc). exists fs. split; [congruence|]. rewrite H2, A5, Hh.
    unfold moved. destruct ofs as [f|], ofd, oc, ons; try done; cbn; rewrite ?(one_other (UNs _)), ?(one_other (UFiles _)), ?(one_other (UCred _)), ?(one_other (UFsMem _)) by done;
      unfold one; case_bool_decide; cbn; lia. }
  injection E3 as C1 C2 C3. pose proof (switch_fd_outcome ofd s3) as E4. destruct (switch_fd ofd s3) as [ofd' s4].
  destruct E4 as (-> & D1 & E4). injection E4 as D2 D3 D4 D5.
  destruct (switch_cred_outcome oc s4) as (E5 & K5 & H5). set (s5 := switch_cred oc s4) in *. clearbody s5. injection E5 as G1 G2 G3.
  unfold bad_unshare_cleanup_cred, bad_unshare_cleanup_fd, bad_unshare_cleanup_fs.
  eexists. split; [done|].
  split; [destruct (if some_b ofd then _ else _); cbn; congruence..|].
  intros r. transitivity (uheld s5 r - (if some_b ofd then opt_one UFiles (cur_files s) r else 0)).
  { rewrite C1, B2, A2. destruct ofd, (cur_files s); cbn; ledger_at; lia. }
  rewrite H5, D5, H3, H2, A5, Hh, D3, C2, B3, A3, A4, B1, A1, P1, P2, P3, P4. destruct ofd; cbn; lia.
Qed.

(** The task is one of the users of its file system information. *)
Definition uses_fs (s : ustate) : Prop := forall fs, cur_fs s = Some fs -> 1 <= uheld s (UFs fs).

(** A failure after which the task is as it was, with [d] left over. *)
Definition undone (s0 : ustate) (err : Z) (d : ures -> Z) (r : Z * ustate) : Prop :=
  r.1 = err /\ parts r.2 = parts s0 /\ forall x, uheld r.2 x = uheld s0 x + d x.
Lemma cleanup_undone ofs ofd oc err s0 s d :
  parts s = parts s0 ->
  (forall r, uheld s r = uheld s0 r + opt_one UFs ofs r + opt_one UFsMem ofs r + opt_one UFiles ofd r + opt_one UCred oc r + d r) ->
  (forall f, ofs = Some f -> uheld s0 (UFs f) = 0) -> (forall f, d (UFs f) = 0) ->
  undone s0 err d (bad_unshare_cleanup_cred ofs ofd oc err s).
Proof.
  intros Hp Hh Hf Hd. pose proof (bad_unshare_cleanup_outcome ofs ofd oc err s0 s d Hh) as O.
  destruct (bad_unshare_cleanup_cred ofs ofd oc err s) as [e s']. destruct O as (-> & O1 & O2); [auto|].
  split; [done|]. cbn. split; [congruence|done].
Qed.

(** The outcome of the call: an error with everything as before, up to a set
    of namespaces when the accounting of the new credentials fails last; or
    the switch to what was copied. *)
Definition unshare_result (s : ustate) (fl : Z) (ofs ofd : option Z) (r : Z * ustate) : Prop :=
  (r.1 <> 0 /\ parts r.2 = parts s /\
   (uheld r.2 ≡ uheld s \/ exists c n, set_cred_ucounts c = r.1 /\ uheld r.2 ≡ take_one (UNs n) (uheld s))) \/
  (r.1 = 0 /\ exists oc ons, unshared fl s r.2 ofs ofd oc ons).
Lemma undone_result s fl ofs ofd err d r : undone s err d r -> err <> 0 ->
  (forall x, d x = 0) \/ (exists c n, set_cred_ucounts c = err /\ forall x, d x = one (UNs n) x) ->
  unshare_result s fl ofs ofd r.
Proof.
  intros (E & P & H) He Hd. left. split_and!; [congruence|done|].
  destruct Hd as [Hd|(c & n & Hc & Hd)]; [left|right; exists c, n; split; [congruence|]]; intros x; rewrite H, Hd; ledger_at; lia.
Qed.

(** From [unshare_userns] on. *)
Definition unshare_tail (fl : Z) (new_fs new_fd : option Z) (s : ustate) : Z * ustate :=
  match unshare_userns fl s with
  | inl err => bad_unshare_cleanup_fd new_fs new_fd err s
  | inr new_cred =>
      let s := match new_cred with Some c => utake (UCred c) s | None => s end in
      match unshare_nsproxy_namespaces fl new_cred new_fs s with
      | inl err => bad_unshare_cleanup_cred new_fs new_fd new_cred err s
      | inr new_nsproxy =>
          let s := match new_nsproxy with Some n => utake (UNs n) s | None => s end in
          let err := match new_cred with Some c => set_cred_ucounts c | None => 0 end in
          if negb (err =? 0) then bad_unshare_cleanup_cred new_fs new_fd new_cred err s
          else install_unshared fl new_fs new_fd new_cred new_nsproxy s
      end
  end.
Lemma unshare_tail_outcome fl ofs ofd s0 s :
  parts s = parts s0 ->
  (forall r, uheld s r = uheld s0 r + opt_one UFs ofs r + opt_one UFsMem ofs r + opt_one UFiles ofd r) ->
  (forall f, ofs = Some f -> uheld s0 (UFs f) = 0) ->
  (ofs <> None -> exists fs, cur_fs s0 = Some fs /\ 1 < uheld s0 (UFs fs)) ->
  unshare_result s0 fl ofs ofd (unshare_tail fl ofs ofd s).
Proof.
  intros Hp Hh Hf Hn. unfold unshare_tail. destruct (unshare_userns fl s) as [err|oc] eqn:Eu.
  { apply userns_error in Eu. eapply (undone_result _ _ _ _ err (fun _ => 0)); [|done|by left].
    apply (cleanup_undone ofs ofd None); try done. intros r. rewrite Hh. cbn. lia. }
  set (s1 := match oc with Some c => _ | None => s end).
  assert (parts s1 = parts s0) as P1 by (subst s1; by destruct oc).
  assert (forall r, uheld s1 r = uheld s r + opt_one UCred oc r) as H1 by (intros r; subst s1; destruct oc; cbn; ledger_at; lia).
  clearbody s1. destruct (unshare_nsproxy_namespaces fl oc ofs s1) as [err|ons] eqn:En.
  { apply nsproxy_error in En. eapply (undone_result _ _ _ _ err (fun _ => 0)); [|done|by left].
    apply cleanup_undone; try done. intros r. rewrite H1, Hh. lia. }
  set (s2 := match ons with Some n => _ | None => s1 end).
  assert (parts s2 = parts s0) as P2 by (subst s2; by destruct ons).
  assert (forall r, uheld s2 r = uheld s1 r + opt_one UNs ons r) as H2 by (intros r; subst s2; destruct ons; cbn; ledger_at; lia).
  clearbody s2. set (err := match oc with Some c => _ | None => 0 end). destruct (Z.eqb_spec err 0) as [E0|E0]; cbn [negb].
  - right. destruct (install_unshared_outcome fl ofs ofd oc ons s0 s2 P2) as (s' & E & U); [|done|rewrite E; by eauto].
    intros r. rewrite H2, H1, Hh. lia.
  - eapply (undone_result _ _ _ _ err (opt_one UNs ons)); [|done|].
    + apply cleanup_undone; try done; [intros r; rewrite H2, H1, Hh; lia|]. intros f. destruct ons; cbn; [by rewrite one_other|done].
    + destruct ons as [n|]; [right|by left]. subst err. destruct oc as [c|]; [|done]. by exists c, n.
Qed.

Lemma ksys_unshare_outcome fl s : uses_fs s ->
  let f := unshare_closure fl in
  exists ofs ofd, unshare_result s f ofs ofd (ksys_unshare fl s) /\
  match ofs with Some x => uheld s (UFs x) = 0
  | None => (ksys_unshare fl s).1 = 0 -> has f CLONE_FS = true -> forall fs, cur_fs s = Some fs -> uheld s (UFs fs) = 1 end /\
  match ofd with Some x => uheld s (UFiles x) = 0
  | None => (ksys_unshare fl s).1 = 0 -> has f CLONE_FILES = true -> forall fd, cur_files s = Some fd -> uheld s (UFiles fd) <= 1 end.
Proof.
  intros Hfs f.
  assert (forall err, err <> 0 -> unshare_result s f None None (err, s)) as Hsame by (intros err He; left; split_and!; try done; by left).
  unfold ksys_unshare. fold f.
  destruct (Z.eqb_spec (check_unshare_flags f) 0); cbn [negb]; [|exists None, None; split; [by apply Hsame|done]].
  destruct (unshare_fs f s) as [[e1 ofs] s1] eqn:E1. apply unshare_fs_outcome in E1 as [(N1 & -> & ->)|(-> & P1 & H1 & X1)].
  { rewrite (proj2 (Z.eqb_neq e1 0)) by done. exists None, None. split; [by apply Hsame|done]. }
  cbn [Z.eqb negb]. destruct (unshare_fd f s1) as [[e2 ofd] s2] eqn:E2.
  assert (forall x, ofs = Some x -> uheld s (UFs x) = 0) as Hfresh by (intros x ->; by destruct X1).
  apply unshare_fd_outcome in E2 as [(N2 & -> & ->)|(-> & P2 & H2 & X2)].
  { rewrite (proj2 (Z.eqb_neq e2 0)) by done. exists ofs, None. split; [|split; [by destruct ofs; [destruct X1|]|done]].
    eapply (undone_result _ _ _ _ e2 (fun _ => 0)); [|done|by left].
    apply (cleanup_undone ofs None None); try done. intros r. rewrite H1. cbn. lia. }
  cbn [Z.eqb negb]. exists ofs, ofd. pose proof P1 as P1'. injection P1' as _ Pf1 _ _ _ _ .
  assert (forall x, uheld s1 (UFiles x) = uheld s (UFiles x)) as Hx
    by (intros x; rewrite H1; destruct ofs; cbn; rewrite ?one_other by done; lia).
  split_and!.
  - apply unshare_tail_outcome; [congruence|intros r; rewrite H2, H1; lia|done|].
    intros Hn. destruct ofs as [x|]; [|done]. destruct X1 as (_ & fs & Ec & Hne). exists fs. split; [done|].
    specialize (Hfs fs Ec). lia.
  - destruct ofs; [by destruct X1|auto].
  - destruct ofd as [x|]; [destruct X2; by rewrite <- Hx|]. intros _ Hh fd Efd. rewrite <- Hx. apply X2; congruence.
Qed.

(** C23: a failing [unshare] leaves the task and every count of users as they
    were, except that a set of namespaces already made stays behind when the
    accounting of the new credentials fails; a successful one moves exactly
    the task's own references to the copies. *)
Theorem unshare_balanced fl s r s' : uses_fs s -> ksys_unshare fl s = (r, s') ->
  (r <> 0 -> parts s' = parts s /\
     (uheld s' ≡ uheld s \/ exists c n, set_cred_ucounts c = r /\ uheld s' ≡ take_one (UNs n) (uheld s))) /\
  (r = 0 -> exists ofs ofd oc ons, unshared (unshare_closure fl) s s' ofs ofd oc ons).
Proof.
  intros Hfs E. destruct (ksys_unshare_outcome fl s Hfs) as (ofs & ofd & O & _). rewrite E in O.
  destruct O as [(H1 & H2)|(H1 & oc & ons & H2)]; cbn in *; split; intros Hr; try done. by exists ofs, ofd, oc, ons.
Qed.

Lemma closure_fs fl : has fl (CLONE_FS .| CLONE_NEWNS .| CLONE_NEWUSER) = true -> has (unshare_closure fl) CLONE_FS = true.
Proof. unfold unshare_closure. flag_bits. bits_split; done. Qed.
Lemma closure_files fl : has (unshare_closure fl) CLONE_FILES = has fl CLONE_FILES.
Proof. unfold unshare_closure. flag_bits. bits_split; done. Qed.
Lemma opt_one_nonneg mk o r : 0 <= opt_one mk o r.
Proof. destruct o; cbn; [|lia]. unfold one. case_bool_decide; cbn; lia. Qed.
Lemma moved_other mk (mk' : Z -> ures) new old x : (forall a b, mk a <> mk' b) -> moved mk new old (mk' x) = 0.
Proof. intros H. unfold moved. destruct new as [n|], old as [o|]; cbn; rewrite ?one_other by auto; lia. Qed.

(** After a successful [unshare] of file system information or of the
    descriptor table the task is its only user; unsharing a mount or a user
    namespace unshares the file system information too. *)
Theorem unshare_makes_exclusive fl s s' : uses_fs s -> ksys_unshare fl s = (0, s') ->
  (has fl (CLONE_FS .| CLONE_NEWNS .| CLONE_NEWUSER) = true -> forall fs, cur_fs s' = Some fs -> uheld s' (UFs fs) = 1) /\
  (has fl CLONE_FILES = true -> forall fd, cur_files s' = Some fd -> uheld s' (UFiles fd) <= 1).
Proof.
  intros Hfs E. destruct (ksys_unshare_outcome fl s Hfs) as (ofs & ofd & O & X1 & X2). rewrite E in *. cbn [fst] in X1, X2.
  destruct O as [[H _]|(_ & oc & ons & [U1 U2 _ _ U5])]; [done|]. cbn [snd] in *. split.
  - intros Hc fs Ef. rewrite U1 in Ef.
    rewrite U5, (moved_other UFiles UFs), (moved_other UCred UFs), (moved_other UNs UFs) by done.
    destruct ofs as [f|]; cbn in *.
    + injection Ef as ->. rewrite X1, one_same, one_other by done. destruct (cur_fs s) as [old|] eqn:Eo; cbn; [|lia].
      specialize (Hfs old Eo). rewrite one_other; [lia|]. intros [= ->]. lia.
    + rewrite (X1 eq_refl (closure_fs _ Hc) fs Ef). lia.
  - intros Hc fd Ef. rewrite U2 in Ef.
    rewrite U5, (moved_other UFs UFiles), (moved_other UCred UFiles), (moved_other UNs UFiles) by done.
    assert (opt_one UFsMem ofs (UFiles fd) = 0) as -> by (destruct ofs; cbn; [by rewrite one_other|done]).
    destruct ofd as [f|]; cbn in *.
    + injection Ef as ->. rewrite X2, one_same. pose proof (opt_one_nonneg UFiles (cur_files s) (UFiles fd)). lia.
    + rewrite closure_files in X2. specialize (X2 eq_refl Hc fd Ef). lia.
Qed.
End properties.

(** ** The limit on threads *)
Abbreviation MIN_THREADS := 20 (only parsing).
Abbreviation MAX_THREADS := 1073741823 (only parsing).           (** FUTEX_TID_MASK *)
Abbreviation THREAD_SIZE := 16384 (only parsing).
Definition fls64 (x : Z) : Z := if x =? 0 then 0 else Z.log2 x + 1.
Definition set_max_threads (nr_pages max_threads_suggested : Z) : Z :=
  let threads := if 64 <? fls64 nr_pages + fls64 4096 then MAX_THREADS
                 else u64 (nr_pages * 4096) / u64 (THREAD_SIZE * 8) in
  let threads := if max_threads_suggested <? threads then max_threads_suggested else threads in
  Z.min (Z.max threads MIN_THREADS) MAX_THREADS.
(** [fork_init]: [max_threads] and the process limit of the first task. *)
Definition fork_init_limits (nr_pages : Z) : Z * Z :=
  let max_threads := set_max_threads nr_pages MAX_THREADS in (max_threads, max_threads / 2).

Section sysctl.
(** kernel/sysctl.c: the result and the value left in the table's variable. *)
Context (proc_dointvec_minmax : bool -> Z -> Z -> Z -> Z * Z).
Hypothesis minmax_checked : forall lo hi v v', proc_dointvec_minmax true lo hi v = (0, v') -> lo <= v' <= hi.
Definition sysctl_max_threads (write : bool) (max_threads : Z) : Z * Z :=
  let '(ret, threads) := proc_dointvec_minmax write 1 MAX_THREADS max_threads in
  if negb (ret =? 0) || negb write then (ret, max_threads) else (0, threads).

(** The multiplication that sizes the thread limit cannot wrap, the limit
    at boot allows an eighth of memory in thread stacks within its bounds, the
    process limit is half of it, and writing the sysctl keeps it in bounds. *)
Theorem max_threads_bounded nr_pages write v : is_u64 nr_pages ->
  (fls64 nr_pages + fls64 4096 <= 64 -> is_u64 (nr_pages * 4096)) /\
  MIN_THREADS <= (fork_init_limits nr_pages).1 <= MAX_THREADS /\
  (MIN_THREADS < (fork_init_limits nr_pages).1 -> (fork_init_limits nr_pages).1 * THREAD_SIZE * 8 <= nr_pages * 4096) /\
  10 <= (fork_init_limits nr_pages).2 /\
  (1 <= v <= MAX_THREADS -> 1 <= (sysctl_max_threads write v).2 <= MAX_THREADS).
Proof.
  intros Hn. unfold is_u64 in *.
  assert (fls64 nr_pages + fls64 4096 <= 64 -> nr_pages < 2 ^ 51) as Hlog.
  { change (fls64 4096) with 13. unfold fls64. destruct (Z.eqb_spec nr_pages 0); [lia|].
    intros H. apply Z.log2_lt_pow2; lia. }
  split_and!.
  - intros H. specialize (Hlog H). lia.
  - unfold fork_init_limits, set_max_threads. cbn [fst]. lia.
  - unfold fork_init_limits, set_max_threads. cbn [fst]. lia.
  - unfold fork_init_limits, set_max_threads. cbn [fst].
    destruct (Z.ltb_spec 64 (fls64 nr_pages + fls64 4096)) as [Hb|Hb].
    + intros _. assert (2 ^ 51 <= nr_pages); [|lia].
      change (fls64 4096) with 13 in Hb. unfold fls64 in Hb. destruct (Z.eqb_spec nr_pages 0); [lia|].
      apply Z.log2_le_pow2; lia.
    + specialize (Hlog Hb). rewrite (u64_small (nr_pages * 4096)) by (unfold is_u64; lia).
      change (u64 (THREAD_SIZE * 8)) with 131072. pose proof (Z.mul_div_le (nr_pages * 4096) 131072). case_match; lia.
  - unfold fork_init_limits. cbn [snd]. apply (Z.div_le_mono 20 _ 2); [lia|]. unfold set_max_threads. lia.
  - intros Hv. unfold sysctl_max_threads. destruct (proc_dointvec_minmax write 1 MAX_THREADS v) as [ret t] eqn:E.
    destruct (Z.eqb_spec ret 0) as [->|]; [|done]. destruct write; [|done]. cbn. by eapply minmax_checked.
Qed.
End sysctl.

(** ** A concrete task that shares its file system information and its
    descriptor table; [ucounts] is what accounting new credentials gives. *)
Module Demo.
Definition unused_of (mk : Z -> ures) (s : ustate) : option Z := List.find (fun f => uheld s (mk f) =? 0) [21; 22; 23].
Definition envU (ucounts : Z) : UnshareEnv := {|
  thread_group_empty := true; sighand_count := 1; current_is_single_threaded := true;
  copy_fs_struct s := unused_of UFs s;
  dup_fd s := match unused_of UFiles s with Some f => inr f | None => inl (- ENOMEM) end;
  unshare_userns fl _ := if has fl CLONE_NEWUSER then inr (Some 30) else inr None;
  unshare_nsproxy_namespaces fl _ _ _ := if has fl (CLONE_NEWNS .| CLONE_NEWUTS) then inr (Some 40) else inr None;
  set_cred_ucounts _ := ucounts;
|}.
Lemma lawsU u : @UnshareLaws (envU u).
Proof.
  split; cbn [copy_fs_struct dup_fd unshare_userns unshare_nsproxy_namespaces envU].
  - intros s f [_ H]%find_some. by apply Z.eqb_eq.
  - intros s. destruct (unused_of UFiles s) as [f|] eqn:E; [|done]. apply find_some in E as [_ H]. by apply Z.eqb_eq.
  - intros fl s e. by case_match.
  - intros fl c f s e. by case_match.
Qed.
Definition held0 : ledger ures := fun r =>
  match r with UFs 20 => 2 | UFsMem 20 => 1 | UFiles 20 => 3 | UCred 29 => 1 | UNs 39 => 1 | _ => 0 end.
Definition s0 : ustate := UState (Some 20) (Some 20) 29 39 held0 0 0.
Lemma s0_uses : uses_fs s0.
Proof. intros fs [= <-]. vm_compute. discriminate. Qed.

Lemma unshare_balanced_witness :
  (ksys_unshare (uenv := envU 0) (CLONE_FILES .| CLONE_NEWNS) s0).1 = 0 /\
  exists s', ksys_unshare (uenv := envU 0) (CLONE_FILES .| CLONE_NEWNS) s0 = (0, s') /\
  exists ofs ofd oc ons, unshared (unshare_closure (CLONE_FILES .| CLONE_NEWNS)) s0 s' ofs ofd oc ons.
Proof.
  split; [vm_compute; reflexivity|].
  destruct (ksys_unshare (uenv := envU 0) (CLONE_FILES .| CLONE_NEWNS) s0) as [r s'] eqn:E.
  assert (0 = r) as Er by (apply (f_equal fst) in E; vm_compute in E; exact E). subst r.
  exists s'. split; [reflexivity|].
  exact (proj2 (@unshare_balanced (envU 0) (lawsU 0) (CLONE_FILES .| CLONE_NEWNS) s0 0 s' s0_uses E) eq_refl).
Defined.

Lemma unshare_makes_exclusive_witness :
  exists s', ksys_unshare (uenv := envU 0) (CLONE_FILES .| CLONE_NEWNS) s0 = (0, s') /\
  cur_fs s' = Some 21 /\ uheld s' (UFs 21) = 1 /\ uheld s' (UFs 20) = 1.
Proof.
  destruct (ksys_unshare (uenv := envU 0) (CLONE_FILES .| CLONE_NEWNS) s0) as [r s'] eqn:E.
  assert (0 = r) as Er by (apply (f_equal fst) in E; vm_compute in E; exact E). subst r.
  assert (cur_fs s' = Some 21 /\ uheld s' (UFs 20) = 1) as [E1 E2].
  { split; [apply (f_equal (fun x => cur_fs x.2)) in E|apply (f_equal (fun x => uheld x.2 (UFs 20))) in E];
      vm_compute in E; symmetry; exact E. }
  exists s'. split; [reflexivity|]. split; [exact E1|]. split; [|exact E2].
  destruct (@unshare_makes_exclusive (envU 0) (lawsU 0) (CLONE_FILES .| CLONE_NEWNS) s0 s' s0_uses E) as [H _].
  apply H; [vm_compute; reflexivity|exact E1].
Defined.

(** There is a run in which [unshare] of a user and a UTS namespace fails
    because the new credentials cannot be accounted, and the set of namespaces
    made for it keeps its reference: the error path does not release it. *)
Theorem unshare_leaks_nsproxy : exists u fl s' r, @UnshareLaws (envU u) /\
  ksys_unshare (uenv := envU u) fl s0 = (r, s') /\ r < 0 /\ cur_ns s' = cur_ns s0 /\
  uheld s' (UNs 40) = uheld s0 (UNs 40) + 1.
Proof.
  exists (- EAGAIN), (CLONE_NEWUSER .| CLONE_NEWUTS). do 2 eexists. split; [apply lawsU|].
  split; [vm_compute; reflexivity|]. split; [lia|]. split; vm_compute; reflexivity.
Qed.

Definition minmaxD (write : bool) (lo hi v : Z) : Z * Z :=
  if write then if (lo <=? 500) && (500 <=? hi) then (0, 500) else (- EINVAL, v) else (0, v).
Lemma max_threads_bounded_witness : 20 <= (fork_init_limits 1048576).1 <= 1073741823 /\
  (sysctl_max_threads minmaxD true 20).2 = 500.
Proof.
  destruct (max_threads_bounded minmaxD) with (nr_pages := 1048576) (write := true) (v := 20) as (_ & H & _).
  - intros lo hi v v'. unfold minmaxD. case_match; [|discriminate]. intros [= <-]. lia.
  - split; [lia|reflexivity].
  - split; [exact H|vm_compute; reflexivity].
Defined.
End Demo.
