(* ===== verification/Release.v ===== *)
(** * The end of tasks, signal structures and address spaces

    fork.c 505-533, 583-612, 818-948, 949-992, 1363-1393, 1827-1837 and
    2154-2170: the last reference to a task drops its share of the signal
    structure, the last share frees it and with it a reference to the address
    space an OOM victim left; whatever cannot be freed on the spot is left to
    an RCU callback or the work queue, which run at any later time, in any
    order.  References are kept in a ledger, so is the pending work; using an
    object that is gone, or dropping a reference that does not exist, is
    recorded.  [put_task_struct] and [mmdrop] are inline functions of headers. *)
From S2P Require Import Prelude Ledger.
Open Scope Z_scope.

Record rtask := RTask { usage : Z; rt_signal : option Z }.   (** no signal structure: a fork that failed *)
Record rsignal := RSignal { sigcnt : Z; oom_mm : option Z }.
Record rmm := RMm { rm_users : Z; rm_count : Z }.
(** Who holds a reference: callers outside of this file. *)
Inductive ref := TaskRef (t : Z) | UserRef (m : Z) | GrabRef (m : Z).
Inductive work := PutTaskRcu (t : Z) | DelayedFreeRcu (t : Z) | MmDropWork (m : Z) | MmPutWork (m : Z).
#[global] Instance ref_eq_dec : EqDecision ref.
Proof. solve_decision. Defined.
#[global] Instance work_eq_dec : EqDecision work.
Proof. solve_decision. Defined.

Record rstate := RState {
  rtasks : gmap Z rtask; rsignals : gmap Z rsignal; rmms : gmap Z rmm;
  refs : ledger ref; pending : ledger work;
  bad : bool;                                       (** a use after free or a count below zero *)
  rcalls : list (string * Z);                       (** calls of other files, the last one first *)
}.
Definition set_rtasks (x : gmap Z rtask) (s : rstate) : rstate := RState x (rsignals s) (rmms s) (refs s) (pending s) (bad s) (rcalls s).
Definition set_rsignals (x : gmap Z rsignal) (s : rstate) : rstate := RState (rtasks s) x (rmms s) (refs s) (pending s) (bad s) (rcalls s).
Definition set_rmms (x : gmap Z rmm) (s : rstate) : rstate := RState (rtasks s) (rsignals s) x (refs s) (pending s) (bad s) (rcalls s).
Definition set_refs (x : ledger ref) (s : rstate) : rstate := RState (rtasks s) (rsignals s) (rmms s) x (pending s) (bad s) (rcalls s).
(** [call_rcu], [schedule_work] *)
Definition schedule_work (w : work) (s : rstate) : rstate :=
  RState (rtasks s) (rsignals s) (rmms s) (refs s) (take_one w (pending s)) (bad s) (rcalls s).
Definition work_done (w : work) (s : rstate) : rstate :=
  RState (rtasks s) (rsignals s) (rmms s) (refs s) (drop_one w (pending s)) (bad s) (rcalls s).
Definition gone (s : rstate) : rstate := RState (rtasks s) (rsignals s) (rmms s) (refs s) (pending s) true (rcalls s).
Definition note (f : string) (x : Z) (s : rstate) : rstate :=
  RState (rtasks s) (rsignals s) (rmms s) (refs s) (pending s) (bad s) ((f, x) :: rcalls s).
Definition notes (fs : list string) (x : Z) (s : rstate) : rstate := foldl (fun s f => note f x s) s fs.
Class ReleaseEnv := { pf_kthread : Z -> bool }.   (** PF_KTHREAD *)

Section release.
Context {renv : ReleaseEnv}.

(** ** Address spaces *)
Definition __mmdrop (m : Z) (s : rstate) : rstate :=
  match rmms s !! m with
  | None => gone s
  | Some _ =>
      let s := notes ["cleanup_lazy_tlbs"; "pgd_free"; "destroy_context"; "mmu_notifier_subscriptions_destroy"; "check_mm"; "put_user_ns";
                      "mm_pasid_drop"; "mm_destroy_cid"; "percpu_counter_destroy_many"] m s in
      set_rmms (delete m (rmms s)) s
  end.
(** [mm_count] goes down; the last one is for [last]. *)
Definition drop_count (m : Z) (last : rstate -> rstate) (s : rstate) : rstate :=
  match rmms s !! m with
  | None => gone s
  | Some x =>
      if rm_count x <=? 0 then gone s
      else
        let s := set_rmms (<[m := RMm (rm_users x) (rm_count x - 1)]> (rmms s)) s in
        if rm_count x - 1 =? 0 then last s else s
  end.
Definition mmdrop (m : Z) (s : rstate) : rstate := drop_count m (__mmdrop m) s.
Definition mmdrop_async (m : Z) (s : rstate) : rstate := drop_count m (schedule_work (MmDropWork m)) s.
Definition drop_users (m : Z) (last : rstate -> rstate) (s : rstate) : rstate :=
  match rmms s !! m with
  | None => gone s
  | Some x =>
      if rm_users x <=? 0 then gone s
      else
        let s := set_rmms (<[m := RMm (rm_users x - 1) (rm_count x)]> (rmms s)) s in
        if rm_users x - 1 =? 0 then last s else s
  end.
(** [__mmput], for its counts. *)
Definition mmput (m : Z) (s : rstate) : rstate := drop_users m (mmdrop m) s.
Definition mmput_async (m : Z) (s : rstate) : rstate := drop_users m (schedule_work (MmPutWork m)) s.

(** ** Signal structures and tasks *)
Definition free_signal_struct (sg : Z) (s : rstate) : rstate :=
  match rsignals s !! sg with
  | None => gone s
  | Some y =>
      let s := notes ["taskstats_tgid_free"; "sched_autogroup_exit"] sg s in
      let s := match oom_mm y with Some m => mmdrop_async m s | None => s end in
      set_rsignals (delete sg (rsignals s)) s
  end.
Definition put_signal_struct (sg : Z) (s : rstate) : rstate :=
  match rsignals s !! sg with
  | None => gone s
  | Some y =>
      if sigcnt y <=? 0 then gone s
      else
        let s := set_rsignals (<[sg := RSignal (sigcnt y - 1) (oom_mm y)]> (rsignals s)) s in
        if sigcnt y - 1 =? 0 then free_signal_struct sg s else s
  end.
Definition free_task (t : Z) (s : rstate) : rstate :=
  match rtasks s !! t with
  | None => gone s
  | Some _ =>
      let s := notes ["release_user_cpus_ptr"; "scs_release"; "rt_mutex_debug_task_free"; "ftrace_graph_exit_task";
                      "arch_release_task_struct"] t s in
      let s := if pf_kthread t then note "free_kthread_struct" t s else s in
      let s := note "bpf_task_storage_free" t s in
      set_rtasks (delete t (rtasks s)) s
  end.
Definition __put_task_struct (t : Z) (s : rstate) : rstate :=
  match rtasks s !! t with
  | Some x =>
      match rt_signal x with
      | Some sg =>
          let s := notes ["io_uring_free"; "cgroup_free"; "task_numa_free"; "security_task_free"; "exit_creds"; "delayacct_tsk_free"] t s in
          let s := note "sched_core_free" t (put_signal_struct sg s) in
          free_task t s
      | None => gone s
      end
  | None => gone s
  end.
(** With [rt] (CONFIG_PREEMPT_RT) the last reference is left to RCU. *)
Definition put_task_struct (rt : bool) (t : Z) (s : rstate) : rstate :=
  match rtasks s !! t with
  | None => gone s
  | Some x =>
      if usage x <=? 0 then gone s
      else
        let s := set_rtasks (<[t := RTask (usage x - 1) (rt_signal x)]> (rtasks s)) s in
        if usage x - 1 =? 0 then (if rt then schedule_work (PutTaskRcu t) s else __put_task_struct t s) else s
  end.
(** With [memcg] (CONFIG_MEMCG) the task is left to RCU. *)
Definition delayed_free_task (memcg : bool) (t : Z) (s : rstate) : rstate :=
  if memcg then schedule_work (DelayedFreeRcu t) s else free_task t s.

(** [__put_task_struct_rcu_cb], [__delayed_free_task], [mmdrop_async_fn], [mmput_async_fn] *)
Definition run_work (w : work) (s : rstate) : rstate :=
  match w with
  | PutTaskRcu t => __put_task_struct t s
  | DelayedFreeRcu t => free_task t s
  | MmDropWork m => __mmdrop m s
  | MmPutWork m => mmdrop m s
  end.

(** ** Steps *)
Definition hand_back (r : ref) (s : rstate) : rstate := set_refs (drop_one r (refs s)) s.
Definition receive (r : ref) (s : rstate) : rstate := set_refs (take_one r (refs s)) s.
Inductive rstep (s : rstate) : rstate -> Prop :=
  (** a fork: a thread of a group, or a new group *)
  | SThread t sg y : rtasks s !! t = None -> rsignals s !! sg = Some y ->
      rstep s (receive (TaskRef t) (set_rsignals (<[sg := RSignal (sigcnt y + 1) (oom_mm y)]> (rsignals s))
                (set_rtasks (<[t := RTask 1 (Some sg)]> (rtasks s)) s)))
  | SProcess t sg : rtasks s !! t = None -> rsignals s !! sg = None ->
      rstep s (receive (TaskRef t) (set_rsignals (<[sg := RSignal 1 None]> (rsignals s))
                (set_rtasks (<[t := RTask 1 (Some sg)]> (rtasks s)) s)))
  (** a fork that failed after [dup_task_struct] *)
  | SFailed memcg t : rtasks s !! t = None ->
      rstep s (delayed_free_task memcg t (set_rtasks (<[t := RTask 1 None]> (rtasks s)) s))
  | SGetTask t x : 0 < refs s (TaskRef t) -> rtasks s !! t = Some x ->
      rstep s (receive (TaskRef t) (set_rtasks (<[t := RTask (usage x + 1) (rt_signal x)]> (rtasks s)) s))
  | SPutTask rt t : 0 < refs s (TaskRef t) -> rstep s (put_task_struct rt t (hand_back (TaskRef t) s))
  (** the OOM killer remembers the address space of a victim *)
  | SOom sg y m x : rsignals s !! sg = Some y -> oom_mm y = None -> rmms s !! m = Some x -> 0 < rm_users x ->
      rstep s (set_rsignals (<[sg := RSignal (sigcnt y) (Some m)]> (rsignals s))
                (set_rmms (<[m := RMm (rm_users x) (rm_count x + 1)]> (rmms s)) s))
  | SMmNew m : rmms s !! m = None -> rstep s (receive (UserRef m) (set_rmms (<[m := RMm 1 1]> (rmms s)) s))
  | SMmGet m x : 0 < refs s (UserRef m) -> rmms s !! m = Some x ->
      rstep s (receive (UserRef m) (set_rmms (<[m := RMm (rm_users x + 1) (rm_count x)]> (rmms s)) s))
  | SMmPut m : 0 < refs s (UserRef m) -> rstep s (mmput m (hand_back (UserRef m) s))
  | SMmPutAsync m : 0 < refs s (UserRef m) -> rstep s (mmput_async m (hand_back (UserRef m) s))
  | SMmGrab m x : 0 < refs s (UserRef m) \/ 0 < refs s (GrabRef m) -> rmms s !! m = Some x ->
      rstep s (receive (GrabRef m) (set_rmms (<[m := RMm (rm_users x) (rm_count x + 1)]> (rmms s)) s))
  | SMmDrop m : 0 < refs s (GrabRef m) -> rstep s (mmdrop m (hand_back (GrabRef m) s))
  | SWork w : 0 < pending s w -> rstep s (run_work w (work_done w s)).
Definition rstart : rstate := RState ∅ ∅ ∅ nothing_held nothing_held false [].

(** ** Properties *)
Section count.
Context {V : Type}.
(** How many entries of a map satisfy [P]. *)
Definition add_if (P : V -> bool) (_ : Z) (x : V) (n : Z) : Z := Z.b2z (P x) + n.
Definition mcount (P : V -> bool) (m : gmap Z V) : Z := map_fold (add_if P) 0 m.
Lemma mcount_insert P m k x : m !! k = None -> mcount P (<[k := x]> m) = Z.b2z (P x) + mcount P m.
Proof. intros Hk. unfold mcount. rewrite map_fold_insert_L; [done|unfold add_if; intros; lia|done]. Qed.
Lemma mcount_delete P m k x : m !! k = Some x -> mcount P (delete k m) = mcount P m - Z.b2z (P x).
Proof. intros Hk. unfold mcount. rewrite (map_fold_delete_L (add_if P) 0 k x m); unfold add_if; [lia|intros; lia|done]. Qed.
Lemma mcount_update P m k x y : m !! k = Some x -> mcount P (<[k := y]> m) = mcount P m - Z.b2z (P x) + Z.b2z (P y).
Proof.
  intros Hk. rewrite <- insert_delete_eq, mcount_insert by apply lookup_delete_eq. rewrite (mcount_delete P m k x Hk). lia.
Qed.
Lemma mcount_nonneg P m : 0 <= mcount P m.
Proof.
  induction m as [|k x m Hk IH] using map_ind; [by unfold mcount; rewrite map_fold_empty|]. rewrite mcount_insert by done.
  destruct (P x); simpl; lia.
Qed.
Lemma mcount_pos P m k x : m !! k = Some x -> P x = true -> 0 < mcount P m.
Proof. intros Hk Hp. pose proof (mcount_nonneg P (delete k m)) as H. rewrite (mcount_delete P m k x Hk), Hp in H. simpl in H. lia. Qed.
Lemma mcount_found P m : 0 < mcount P m -> exists k x, m !! k = Some x /\ P x = true.
Proof.
  induction m as [|k x m Hk IH] using map_ind; [by unfold mcount; rewrite map_fold_empty|]. rewrite mcount_insert by done. intros H.
  destruct (P x) eqn:Ex; [exists k, x; by rewrite lookup_insert_eq|]. destruct (IH H) as (k' & y & Ey & Hy). exists k', y.
  rewrite lookup_insert_ne by congruence. done.
Qed.
Lemma mcount_zero P : mcount P ∅ = 0.
Proof. apply map_fold_empty. Qed.
End count.

Definition has_signal (sg : Z) (x : rtask) : bool := bool_decide (rt_signal x = Some sg).
Definition has_oom (m : Z) (y : rsignal) : bool := bool_decide (oom_mm y = Some m).

(** The references and the work of one address space; [oom] counts the signal
    structures that remember it. *)
Definition mm_ok (x : option rmm) (users grabs oom puts drops : Z) : Prop :=
  match x with
  | Some x =>
      rm_users x = users /\ 0 <= users /\ 0 <= grabs /\ 0 <= oom /\ 0 <= puts <= 1 /\ (0 < users -> puts = 0) /\
      rm_count x = Z.b2z (0 <? users) + puts + grabs + oom /\ drops = Z.b2z (rm_count x =? 0)
  | None => users = 0 /\ grabs = 0 /\ oom = 0 /\ puts = 0 /\ drops = 0
  end.
Definition task_ok (x : option rtask) (uses puts frees : Z) : Prop :=
  match x with
  | Some x =>
      match rt_signal x with
      | Some _ => usage x = uses /\ 0 <= uses /\ puts = Z.b2z (uses =? 0) /\ frees = 0
      | None => uses = 0 /\ puts = 0 /\ frees = 1
      end
  | None => uses = 0 /\ puts = 0 /\ frees = 0
  end.
Definition signal_ok (y : option rsignal) (threads : Z) : Prop :=
  match y with Some y => sigcnt y = threads /\ 0 < threads | None => threads = 0 end.
(** [oom] is the number of structures that remember an address space, where
    one of them may be on its way out. *)
Definition mms_inv (oom : Z -> Z) (s : rstate) : Prop := forall m,
  mm_ok (rmms s !! m) (refs s (UserRef m)) (refs s (GrabRef m)) (oom m) (pending s (MmPutWork m)) (pending s (MmDropWork m)).
Definition tasks_inv (s : rstate) : Prop := forall t,
  task_ok (rtasks s !! t) (refs s (TaskRef t)) (pending s (PutTaskRcu t)) (pending s (DelayedFreeRcu t)).
Definition signals_inv (s : rstate) : Prop := forall sg, signal_ok (rsignals s !! sg) (mcount (has_signal sg) (rtasks s)).
Definition oom_count (s : rstate) (m : Z) : Z := mcount (has_oom m) (rsignals s).
Record rinv (s : rstate) : Prop := {
  inv_bad : bad s = false;
  inv_tasks : tasks_inv s;
  inv_signals : signals_inv s;
  inv_mms : mms_inv (oom_count s) s;
}.

(** Look at one key: the entry that changes, or another one. *)
Ltac at_key k k' :=
  destruct (decide (k = k')) as [<-|]; ledger_at;
  [rewrite ?lookup_insert_eq, ?lookup_delete_eq, ?one_same | rewrite ?lookup_insert_ne by done; rewrite ?lookup_delete_ne by done];
  rewrite ?one_other by congruence; rewrite ?Z.add_0_r, ?Z.sub_0_r.

(** *** Address spaces *)
Definition same_tasks (s s' : rstate) : Prop :=
  rtasks s' = rtasks s /\ rsignals s' = rsignals s /\ bad s' = bad s /\
  (forall t, refs s' (TaskRef t) = refs s (TaskRef t)) /\
  forall t, pending s' (PutTaskRcu t) = pending s (PutTaskRcu t) /\ pending s' (DelayedFreeRcu t) = pending s (DelayedFreeRcu t).
Lemma mms_inv_ext oom oom' s : (forall m, oom m = oom' m) -> mms_inv oom s -> mms_inv oom' s.
Proof. intros E H m. rewrite <- E. apply H. Qed.

(** A reference to [m] has been given up, its count not yet. *)
Definition owes (oom : Z -> Z) (m : Z) (s : rstate) : Prop := forall m',
  if decide (m = m') then
    exists x, rmms s !! m = Some x /\ 0 < rm_count x /\ pending s (MmDropWork m) = 0 /\
      mm_ok (Some (RMm (rm_users x) (rm_count x - 1))) (refs s (UserRef m)) (refs s (GrabRef m)) (oom m) (pending s (MmPutWork m))
        (Z.b2z (rm_count x - 1 =? 0))
  else mm_ok (rmms s !! m') (refs s (UserRef m')) (refs s (GrabRef m')) (oom m') (pending s (MmPutWork m')) (pending s (MmDropWork m')).
Lemma owes_at oom m s : owes oom m s ->
  exists x, rmms s !! m = Some x /\ 0 < rm_count x /\ pending s (MmDropWork m) = 0 /\
      mm_ok (Some (RMm (rm_users x) (rm_count x - 1))) (refs s (UserRef m)) (refs s (GrabRef m)) (oom m) (pending s (MmPutWork m))
        (Z.b2z (rm_count x - 1 =? 0)).
Proof. intros H. specialize (H m). by rewrite decide_True in H. Qed.
Lemma owes_other oom m s m' : owes oom m s -> m <> m' ->
  mm_ok (rmms s !! m') (refs s (UserRef m')) (refs s (GrabRef m')) (oom m') (pending s (MmPutWork m')) (pending s (MmDropWork m')).
Proof. intros H Hm. specialize (H m'). by rewrite decide_False in H. Qed.
Lemma mmdrop_async_pays oom m s : owes oom m s -> mms_inv oom (mmdrop_async m s) /\ same_tasks s (mmdrop_async m s).
Proof.
  intros Ho. destruct (owes_at oom m s Ho) as (x & Ex & Hc & Hd & Hok). unfold mmdrop_async, drop_count. rewrite Ex.
  replace (rm_count x <=? 0) with false by lia.
  destruct (Z.eqb_spec (rm_count x - 1) 0) as [E0|E0].
  - split; [|split_and!; try done; intros t; simpl; ledger_at; rewrite !one_other by done; lia].
    intros m'. simpl. pose proof (owes_other oom m s m' Ho) as Hother. at_key m m'; [|by apply Hother].
    rewrite Hd. simpl. simpl in Hok. rewrite E0 in *. intuition lia.
  - split; [|by split_and!]. intros m'. simpl. pose proof (owes_other oom m s m' Ho) as Hother. at_key m m'; [|by apply Hother].
    rewrite Hd. simpl in *. replace (rm_count x - 1 =? 0) with false by lia. intuition lia.
Qed.
Lemma mmdrop_pays oom m s : owes oom m s -> mms_inv oom (mmdrop m s) /\ same_tasks s (mmdrop m s).
Proof.
  intros Ho. destruct (owes_at oom m s Ho) as (x & Ex & Hc & Hd & Hok). unfold mmdrop, drop_count. rewrite Ex.
  replace (rm_count x <=? 0) with false by lia.
  destruct (Z.eqb_spec (rm_count x - 1) 0) as [E0|E0].
  - unfold __mmdrop. simpl. rewrite lookup_insert_eq. split; [|by split_and!].
    intros m'. simpl. pose proof (owes_other oom m s m' Ho) as Hother. at_key m m'; [|rewrite lookup_insert_ne by done; by apply Hother].
    rewrite Hd. simpl in *. destruct (0 <? refs s (UserRef m)) eqn:Eu; simpl in *; intuition lia.
  - split; [|by split_and!]. intros m'. simpl. pose proof (owes_other oom m s m' Ho) as Hother. at_key m m'; [|by apply Hother].
    rewrite Hd. simpl in *. replace (rm_count x - 1 =? 0) with false by lia. intuition lia.
Qed.

(** Steps that give up a reference to an address space. *)
Lemma same_tasks_inv oom s s' : same_tasks s s' -> tasks_inv s -> signals_inv s -> mms_inv oom s' ->
  (forall m, oom m = oom_count s m) -> bad s = false -> rinv s'.
Proof.
  intros (E1 & E2 & E3 & E4 & E5) Ht Hs Hm Ho Hb. split.
  - by rewrite E3.
  - intros t. destruct (E5 t) as [-> ->]. rewrite E1, E4. apply Ht.
  - intros sg. rewrite E1, E2. apply Hs.
  - eapply mms_inv_ext; [|exact Hm]. intros m. rewrite Ho. unfold oom_count. by rewrite E2.
Qed.
Lemma hand_back_tasks r s : (forall t, r <> TaskRef t) -> tasks_inv s -> tasks_inv (hand_back r s).
Proof. intros Hr Ht t. unfold hand_back. simpl. ledger_at. rewrite one_other by done. rewrite Z.sub_0_r. apply Ht. Qed.
Lemma hand_back_grab s m : mms_inv (oom_count s) s -> 0 < refs s (GrabRef m) -> owes (oom_count s) m (hand_back (GrabRef m) s).
Proof.
  intros Hm Hr m'. unfold hand_back. simpl. ledger_at. rewrite ?(one_other (GrabRef m) (UserRef _)) by done.
  destruct (decide (m = m')) as [<-|Hne]; [|rewrite one_other by congruence; rewrite !Z.sub_0_r; apply Hm].
  rewrite one_same, Z.sub_0_r. specialize (Hm m). destruct (rmms s !! m) as [x|] eqn:Ex; simpl in Hm; [|lia].
  destruct Hm as (H1 & H2 & H3 & H4 & H5 & H6 & H7 & H8). exists x.
  assert (0 <= Z.b2z (0 <? refs s (UserRef m))) by (destruct (0 <? _); simpl; lia).
  replace (rm_count x =? 0) with false in H8 by lia. simpl in H8. split_and!; simpl; try done; try lia.
Qed.
(** Dropping a user: the entry before [last]. *)
Lemma drop_users_pays s m last :
  mms_inv (oom_count s) s -> 0 < refs s (UserRef m) ->
  (forall s', owes (oom_count s) m s' -> mms_inv (oom_count s) (last s') /\ same_tasks s' (last s')) \/
  (forall s', last s' = schedule_work (MmPutWork m) s') ->
  let s1 := drop_users m last (hand_back (UserRef m) s) in mms_inv (oom_count s) s1 /\ same_tasks s s1.
Proof.
  intros Hm Hr Hlast. cbv zeta. unfold drop_users, hand_back. simpl. pose proof (Hm m) as Hx.
  destruct (rmms s !! m) as [x|] eqn:Ex; simpl in Hx; [|lia].
  destruct Hx as (H1 & H2 & H3 & H4 & H5 & H6 & H7 & H8). replace (rm_users x <=? 0) with false by lia.
  assert (Z.b2z (0 <? refs s (UserRef m)) = 1) as Hb by (by replace (0 <? refs s (UserRef m)) with true by lia).
  rewrite Hb in H7. replace (rm_count x =? 0) with false in H8 by lia. simpl in H8. specialize (H6 Hr).
  set (s1 := set_rmms _ _). assert (same_tasks s s1) as Hsame.
  { by split_and!. }
  destruct (Z.eqb_spec (rm_users x - 1) 0) as [E0|E0].
  - assert (refs s (UserRef m) = 1) as Er by lia. destruct Hlast as [Hlast|Hlast].
    + destruct (Hlast s1) as [Hi Hs].
      * intros m'. subst s1. simpl. ledger_at. rewrite ?(one_other (UserRef m) (GrabRef _)) by done.
        destruct (decide (m = m')) as [<-|Hne].
        -- rewrite lookup_insert_eq, one_same, Er, !Z.sub_0_r. eexists. split; [done|]. simpl. split_and!; try done; try lia.
        -- rewrite lookup_insert_ne, one_other, !Z.sub_0_r by congruence. apply Hm.
      * split; [done|]. destruct Hsame as (A1 & A2 & A3 & A4 & A5), Hs as (B1 & B2 & B3 & B4 & B5).
        split_and!; try congruence. intros t. destruct (A5 t), (B5 t). split; congruence.
    + rewrite Hlast. split.
      * intros m'. subst s1. simpl. ledger_at. rewrite ?(one_other (UserRef m) (GrabRef _)), ?(one_other (MmPutWork m) (MmDropWork _)) by done.
        destruct (decide (m = m')) as [<-|Hne].
        -- rewrite lookup_insert_eq, !one_same, Er. simpl. rewrite H6, H8. replace (rm_count x =? 0) with false by lia. simpl. lia.
        -- rewrite lookup_insert_ne, !one_other, !Z.add_0_r, !Z.sub_0_r by congruence. apply Hm.
      * by destruct Hsame as (A1 & A2 & A3 & A4 & A5); split_and!.
  - split; [|done]. intros m'. subst s1. simpl. ledger_at. rewrite ?(one_other (UserRef m) (GrabRef _)) by done.
    destruct (decide (m = m')) as [<-|Hne].
    + rewrite lookup_insert_eq, one_same. simpl. replace (rm_count x =? 0) with false by lia.
      replace (0 <? refs s (UserRef m) - 1) with true by lia. simpl. lia.
    + rewrite lookup_insert_ne, one_other, !Z.sub_0_r by congruence. apply Hm.
Qed.

(** *** Tasks and signal structures *)

(** The structure of [sg] leaves and gives up what it remembers. *)
Definition oom_without (sg : Z) (s : rstate) (m : Z) : Z := mcount (has_oom m) (delete sg (rsignals s)).
Lemma oom_without_at sg y s m : rsignals s !! sg = Some y -> oom_without sg s m = oom_count s m - Z.b2z (has_oom m y).
Proof. intros E. unfold oom_without, oom_count. by apply mcount_delete. Qed.
Lemma owes_oom sg y m s : rsignals s !! sg = Some y -> oom_mm y = Some m -> mms_inv (oom_count s) s -> owes (oom_without sg s) m s.
Proof.
  intros Es Eo Hm m'. rewrite !(oom_without_at sg y s) by done. specialize (Hm m').
  assert (0 <= oom_without sg s m') as Hn by apply mcount_nonneg. rewrite (oom_without_at sg y s m' Es) in Hn.
  unfold has_oom in *. rewrite Eo in *. destruct (decide (m = m')) as [<-|Hne].
  - rewrite bool_decide_true in * by done. simpl in *. destruct (rmms s !! m) as [x|] eqn:Ex; simpl in Hm; [|lia].
    destruct Hm as (H1 & H2 & H3 & H4 & H5 & H6 & H7 & H8). exists x.
    assert (0 <= Z.b2z (0 <? refs s (UserRef m))) by (destruct (0 <? _); simpl; lia).
    replace (rm_count x =? 0) with false in H8 by lia. split_and!; simpl; try done; try lia.
  - rewrite bool_decide_false by congruence. simpl. rewrite Z.sub_0_r. exact Hm.
Qed.
Lemma free_signal_struct_frees sg y s : rsignals s !! sg = Some y -> mms_inv (oom_count s) s ->
  let s' := free_signal_struct sg s in
  mms_inv (oom_count s') s' /\ rtasks s' = rtasks s /\ rsignals s' = delete sg (rsignals s) /\ bad s' = bad s /\
  (forall t, refs s' (TaskRef t) = refs s (TaskRef t)) /\
  forall t, pending s' (PutTaskRcu t) = pending s (PutTaskRcu t) /\ pending s' (DelayedFreeRcu t) = pending s (DelayedFreeRcu t).
Proof.
  intros Es Hm. cbv zeta. unfold free_signal_struct. rewrite Es. set (s1 := notes _ sg s).
  assert (mms_inv (oom_count s1) s1) as Hm1 by exact Hm. destruct (oom_mm y) as [m|] eqn:Eo.
  - destruct (mmdrop_async_pays _ m s1 (owes_oom sg y m s1 Es Eo Hm1)) as [Hi (E1 & E2 & E3 & E4 & E5)]. simpl.
    rewrite E1, E2, E3. by split_and!.
  - split_and!; try done. intros m. specialize (Hm m). fold (oom_without sg s m). simpl.
    change (oom_count _ m) with (oom_without sg s m). rewrite (oom_without_at sg y s m Es). unfold has_oom. rewrite Eo.
    rewrite bool_decide_false by done. simpl. rewrite Z.sub_0_r. exact Hm.
Qed.

Lemma free_task_is t x s : rtasks s !! t = Some x -> exists l,
  free_task t s = RState (delete t (rtasks s)) (rsignals s) (rmms s) (refs s) (pending s) (bad s) l.
Proof. intros E. unfold free_task. rewrite E. destruct (pf_kthread t); by eexists. Qed.
(** The last reference to [t]: nothing names it any more. *)
Lemma last_put_parts f t x sg s :
  rtasks s !! t = Some x -> rt_signal x = Some sg -> bad s = false -> signals_inv s -> mms_inv (oom_count s) s ->
  (forall t', t <> t' -> task_ok (rtasks s !! t') (refs s (TaskRef t')) (pending s (PutTaskRcu t')) (pending s (DelayedFreeRcu t'))) ->
  refs s (TaskRef t) = 0 -> pending s (PutTaskRcu t) = 0 -> pending s (DelayedFreeRcu t) = 0 ->
  rinv (free_task t (note f t (put_signal_struct sg s))).
Proof.
  intros Et Ex Hb Hs Hm Hother R1 R2 R3. unfold put_signal_struct. pose proof (Hs sg) as Hsg.
  assert (0 < mcount (has_signal sg) (rtasks s)) as Hpos
    by (apply (mcount_pos _ _ t x Et); unfold has_signal; by apply bool_decide_true).
  destruct (rsignals s !! sg) as [y|] eqn:Ey; simpl in Hsg; [|lia]. destruct Hsg as [Hc _].
  replace (sigcnt y <=? 0) with false by lia.
  set (s1 := set_rsignals _ s). assert (rsignals s1 !! sg = Some (RSignal (sigcnt y - 1) (oom_mm y))) as Ey1 by apply lookup_insert_eq.
  assert (mms_inv (oom_count s1) s1) as Hm1.
  { eapply mms_inv_ext; [|exact Hm]. intros m. unfold oom_count, s1. simpl. rewrite (mcount_update _ _ _ y) by done. unfold has_oom. simpl. lia. }
  assert (forall sg', mcount (has_signal sg') (delete t (rtasks s)) = mcount (has_signal sg') (rtasks s) - one sg sg') as Hcnt.
  { intros sg'. rewrite (mcount_delete _ _ t x) by done. unfold has_signal, one. rewrite Ex. f_equal. f_equal.
    apply bool_decide_ext. split; congruence. }
  assert (forall s2, mms_inv (oom_count s2) s2 -> rtasks s2 = rtasks s -> bad s2 = false ->
    (forall t, refs s2 (TaskRef t) = refs s (TaskRef t)) ->
    (forall t, pending s2 (PutTaskRcu t) = pending s (PutTaskRcu t) /\ pending s2 (DelayedFreeRcu t) = pending s (DelayedFreeRcu t)) ->
    (forall sg', signal_ok (rsignals s2 !! sg') (mcount (has_signal sg') (delete t (rtasks s)))) -> rinv (free_task t (note f t s2))) as Hfinish.
  { intros s2 F1 F2 F3 F4 F5 F6. destruct (free_task_is t x (note f t s2)) as [l ->]; [by simpl; rewrite F2|]. simpl. rewrite F2.
    split; [done| |done|exact F1]. intros t'. simpl. destruct (F5 t') as [P1 P2]. rewrite P1, P2, F4.
    destruct (decide (t = t')) as [<-|Hne]; [rewrite lookup_delete_eq; by simpl|rewrite lookup_delete_ne by done; by apply Hother]. }
  destruct (Z.eqb_spec (sigcnt y - 1) 0) as [E0|E0].
  - destruct (free_signal_struct_frees sg _ s1 Ey1 Hm1) as (G1 & G2 & G3 & G4 & G5 & G6).
    apply Hfinish; try done; [by rewrite G4|]. intros sg'. rewrite G3, Hcnt. unfold s1. simpl. specialize (Hs sg').
    destruct (decide (sg = sg')) as [<-|Hne]; [rewrite lookup_delete_eq, one_same; simpl; lia|].
    rewrite lookup_delete_ne, lookup_insert_ne, one_other, Z.sub_0_r by done. exact Hs.
  - apply Hfinish; try done. intros sg'. rewrite Hcnt. unfold s1. simpl. specialize (Hs sg').
    destruct (decide (sg = sg')) as [<-|Hne]; [rewrite lookup_insert_eq, one_same; simpl; lia|].
    rewrite lookup_insert_ne, one_other, Z.sub_0_r by done. exact Hs.
Qed.

Lemma last_put t x sg s :
  rtasks s !! t = Some x -> rt_signal x = Some sg -> bad s = false -> signals_inv s -> mms_inv (oom_count s) s ->
  (forall t', t <> t' -> task_ok (rtasks s !! t') (refs s (TaskRef t')) (pending s (PutTaskRcu t')) (pending s (DelayedFreeRcu t'))) ->
  refs s (TaskRef t) = 0 -> pending s (PutTaskRcu t) = 0 -> pending s (DelayedFreeRcu t) = 0 -> rinv (__put_task_struct t s).
Proof.
  intros Et Ex. unfold __put_task_struct. rewrite Et, Ex. intros. by apply (last_put_parts _ t x sg (notes _ t s)).
Qed.

(** *** Steps *)
Lemma step_new_task t sg n oom s :
  rinv s -> rtasks s !! t = None -> mcount (has_signal sg) (rtasks s) + 1 = n ->
  (forall m, mcount (has_oom m) (<[sg := RSignal n oom]> (rsignals s)) = oom_count s m) ->
  rinv (receive (TaskRef t) (set_rsignals (<[sg := RSignal n oom]> (rsignals s)) (set_rtasks (<[t := RTask 1 (Some sg)]> (rtasks s)) s))).
Proof.
  intros [Hb Ht Hs Hm] Et En Ho. split; simpl; [done| | |].
  - intros t'. simpl. specialize (Ht t'). ledger_at. destruct (decide (t = t')) as [<-|Hne].
    + rewrite lookup_insert_eq, one_same. rewrite Et in Ht. simpl in *. destruct Ht as (-> & -> & ->). done.
    + rewrite lookup_insert_ne, one_other, Z.add_0_r by congruence. exact Ht.
  - intros sg'. simpl. rewrite mcount_insert by done. specialize (Hs sg'). unfold has_signal at 1. simpl.
    destruct (decide (sg = sg')) as [<-|Hne].
    + rewrite lookup_insert_eq, bool_decide_true by done. simpl. pose proof (mcount_nonneg (has_signal sg) (rtasks s)). lia.
    + rewrite lookup_insert_ne, bool_decide_false by congruence. simpl. exact Hs.
  - intros m. unfold oom_count at 1. simpl. rewrite Ho. ledger_at. rewrite !one_other, !Z.add_0_r by done. apply Hm.
Qed.
Lemma step_thread t sg y s : rinv s -> rtasks s !! t = None -> rsignals s !! sg = Some y ->
  rinv (receive (TaskRef t) (set_rsignals (<[sg := RSignal (sigcnt y + 1) (oom_mm y)]> (rsignals s))
                (set_rtasks (<[t := RTask 1 (Some sg)]> (rtasks s)) s))).
Proof.
  intros Hi Et Ey. apply step_new_task; [done|done| |].
  - pose proof (inv_signals s Hi sg) as Hs. rewrite Ey in Hs. simpl in Hs. lia.
  - intros m. rewrite (mcount_update _ _ _ y) by done. unfold oom_count, has_oom. simpl. lia.
Qed.
Lemma step_process t sg s : rinv s -> rtasks s !! t = None -> rsignals s !! sg = None ->
  rinv (receive (TaskRef t) (set_rsignals (<[sg := RSignal 1 None]> (rsignals s)) (set_rtasks (<[t := RTask 1 (Some sg)]> (rtasks s)) s))).
Proof.
  intros Hi Et Ey. apply step_new_task; [done|done| |].
  - pose proof (inv_signals s Hi sg) as Hs. rewrite Ey in Hs. simpl in Hs. lia.
  - intros m. by rewrite mcount_insert by done.
Qed.
Lemma step_failed memcg t s : rinv s -> rtasks s !! t = None ->
  rinv (delayed_free_task memcg t (set_rtasks (<[t := RTask 1 None]> (rtasks s)) s)).
Proof.
  intros [Hb Ht Hs Hm] Et. destruct memcg; simpl.
  2: { destruct (free_task_is t (RTask 1 None) (set_rtasks (<[t := RTask 1 None]> (rtasks s)) s)) as [l ->]; [apply lookup_insert_eq|].
       simpl. rewrite delete_insert_id by done. by split. }
  split; simpl; [done| | |].
  - intros t'. simpl. specialize (Ht t'). ledger_at. rewrite (one_other _ (PutTaskRcu _)), Z.add_0_r by done.
    destruct (decide (t = t')) as [<-|Hne].
    + rewrite lookup_insert_eq, one_same. rewrite Et in Ht. simpl in *. lia.
    + rewrite lookup_insert_ne, one_other, Z.add_0_r by congruence. exact Ht.
  - intros sg. simpl. rewrite mcount_insert by done. unfold has_signal at 1. rewrite bool_decide_false by done. apply Hs.
  - intros m. simpl. ledger_at. rewrite !one_other, !Z.add_0_r by done. apply Hm.
Qed.
Lemma step_get_task t x s : rinv s -> 0 < refs s (TaskRef t) -> rtasks s !! t = Some x ->
  rinv (receive (TaskRef t) (set_rtasks (<[t := RTask (usage x + 1) (rt_signal x)]> (rtasks s)) s)).
Proof.
  intros [Hb Ht Hs Hm] Hr Et. split; simpl; [done| | |].
  - intros t'. simpl. specialize (Ht t'). ledger_at. destruct (decide (t = t')) as [<-|Hne].
    + rewrite lookup_insert_eq, one_same. rewrite Et in Ht. simpl in *. destruct (rt_signal x); [|lia].
      destruct Ht as (H1 & H2 & H3 & H4). replace (refs s (TaskRef t) =? 0) with false in H3 by lia.
      replace (refs s (TaskRef t) + 1 =? 0) with false by lia. simpl in *. lia.
    + rewrite lookup_insert_ne, one_other, Z.add_0_r by congruence. exact Ht.
  - intros sg. simpl. rewrite (mcount_update _ _ _ x) by done. unfold has_signal at 2 3. simpl. specialize (Hs sg).
    by replace (mcount (has_signal sg) (rtasks s) - _ + _) with (mcount (has_signal sg) (rtasks s)) by lia.
  - intros m. simpl. ledger_at. rewrite !one_other, !Z.add_0_r by done. apply Hm.
Qed.
Lemma step_put_task rt t s : rinv s -> 0 < refs s (TaskRef t) -> rinv (put_task_struct rt t (hand_back (TaskRef t) s)).
Proof.
  intros [Hb Ht Hs Hm] Hr. unfold put_task_struct, hand_back. simpl. pose proof (Ht t) as Htt.
  destruct (rtasks s !! t) as [x|] eqn:Et; simpl in Htt; [|lia]. destruct (rt_signal x) as [sg|] eqn:Ex; [|lia].
  destruct Htt as (H1 & H2 & H3 & H4). replace (refs s (TaskRef t) =? 0) with false in H3 by lia. simpl in H3.
  replace (usage x <=? 0) with false by lia. set (s1 := set_rtasks _ _).
  assert (signals_inv s1) as Hs1.
  { intros sg'. subst s1. simpl. rewrite (mcount_update _ _ _ x) by done. unfold has_signal at 2 3. simpl. rewrite Ex. specialize (Hs sg').
    by replace (mcount (has_signal sg') (rtasks s) - _ + _) with (mcount (has_signal sg') (rtasks s)) by lia. }
  assert (mms_inv (oom_count s1) s1) as Hm1.
  { intros m. subst s1. simpl. ledger_at. rewrite !one_other, !Z.sub_0_r by done. apply Hm. }
  assert (forall t', t <> t' -> task_ok (rtasks s1 !! t') (refs s1 (TaskRef t')) (pending s1 (PutTaskRcu t')) (pending s1 (DelayedFreeRcu t'))) as Ho.
  { intros t' Hne. subst s1. simpl. ledger_at. rewrite lookup_insert_ne, one_other, Z.sub_0_r by congruence. apply Ht. }
  assert (refs s1 (TaskRef t) = usage x - 1) as Hr1 by (subst s1; simpl; ledger_at; rewrite one_same; lia).
  assert (rtasks s1 !! t = Some (RTask (usage x - 1) (Some sg))) as Et1 by apply lookup_insert_eq.
  destruct (Z.eqb_spec (usage x - 1) 0) as [E0|E0]; [destruct rt|].
  - split; [done| |done|].
    + intros t'. cbn [rtasks refs pending schedule_work]. ledger_at. rewrite (one_other _ (DelayedFreeRcu _)), Z.add_0_r by done.
      destruct (decide (t = t')) as [<-|Hne]; [|rewrite one_other, Z.add_0_r by congruence; by apply Ho].
      rewrite Et1, Hr1, one_same. simpl. change (pending s1 (PutTaskRcu t)) with (pending s (PutTaskRcu t)).
      change (pending s1 (DelayedFreeRcu t)) with (pending s (DelayedFreeRcu t)). rewrite E0, H3. done.
    + intros m. cbn [rmms refs pending schedule_work]. ledger_at. rewrite !one_other, !Z.add_0_r by done. apply Hm1.
  - apply (last_put t _ sg _ Et1); try done. by rewrite Hr1.
  - split; [done| |done|done]. intros t'. destruct (decide (t = t')) as [<-|Hne]; [|by apply Ho].
    rewrite Et1, Hr1. simpl. replace (usage x - 1 =? 0) with false by lia. simpl. lia.
Qed.

(** An address space gets one more of something. *)
Lemma step_mm r m x s :
  rinv s -> (forall t, r <> TaskRef t) ->
  (forall m', m <> m' -> one r (UserRef m') = 0 /\ one r (GrabRef m') = 0) ->
  mm_ok (Some x) (refs s (UserRef m) + one r (UserRef m)) (refs s (GrabRef m) + one r (GrabRef m)) (oom_count s m)
    (pending s (MmPutWork m)) (pending s (MmDropWork m)) ->
  rinv (receive r (set_rmms (<[m := x]> (rmms s)) s)).
Proof.
  intros [Hb Ht Hs Hm] Hr Ho Hx. split; simpl; [done| |done|].
  - intros t. simpl. ledger_at. rewrite one_other, Z.add_0_r by done. apply Ht.
  - intros m'. simpl. ledger_at. destruct (decide (m = m')) as [<-|Hne]; [rewrite lookup_insert_eq; exact Hx|].
    destruct (Ho m' Hne) as [-> ->]. rewrite lookup_insert_ne, !Z.add_0_r by done. apply Hm.
Qed.
Lemma step_oom sg y m x s : rinv s -> rsignals s !! sg = Some y -> oom_mm y = None -> rmms s !! m = Some x -> 0 < rm_users x ->
  rinv (set_rsignals (<[sg := RSignal (sigcnt y) (Some m)]> (rsignals s)) (set_rmms (<[m := RMm (rm_users x) (rm_count x + 1)]> (rmms s)) s)).
Proof.
  intros [Hb Ht Hs Hm] Ey Eo Ex Hu. split; simpl; [done|done| |].
  - intros sg'. simpl. specialize (Hs sg'). destruct (decide (sg = sg')) as [<-|Hne]; [|by rewrite lookup_insert_ne].
    rewrite lookup_insert_eq. rewrite Ey in Hs. exact Hs.
  - assert (forall m', mcount (has_oom m') (<[sg := RSignal (sigcnt y) (Some m)]> (rsignals s)) = oom_count s m' + one m m') as Hc.
    { intros m'. rewrite (mcount_update _ _ _ y) by done. unfold has_oom at 2 3, one. rewrite Eo, (bool_decide_false (None = _)) by done.
      simpl. unfold oom_count. replace (bool_decide (Some m = Some m')) with (bool_decide (m = m')) by (apply bool_decide_ext; naive_solver). lia. }
    intros m'. unfold oom_count at 1. simpl. rewrite Hc. specialize (Hm m').
    destruct (decide (m = m')) as [<-|Hne]; [|by rewrite lookup_insert_ne, one_other, Z.add_0_r].
    rewrite lookup_insert_eq, one_same. rewrite Ex in Hm. simpl in *. destruct Hm as (H1 & H2 & H3 & H4 & H5 & H6 & H7 & H8).
    assert (0 <= Z.b2z (0 <? refs s (UserRef m))) by (destruct (0 <? _); simpl; lia).
    assert (Z.b2z (0 <? refs s (UserRef m)) = 1) by (by replace (0 <? refs s (UserRef m)) with true by lia).
    replace (rm_count x =? 0) with false in H8 by lia. replace (rm_count x + 1 =? 0) with false by lia. simpl in *. lia.
Qed.
Lemma oom_zero_new s m : rinv s -> rmms s !! m = None -> refs s (UserRef m) = 0 /\ refs s (GrabRef m) = 0 /\ oom_count s m = 0 /\
  pending s (MmPutWork m) = 0 /\ pending s (MmDropWork m) = 0.
Proof. intros Hi E. pose proof (inv_mms s Hi m) as H. by rewrite E in H. Qed.
(** Work is taken off the queue. *)
Lemma work_tasks w s : (forall t, w <> PutTaskRcu t /\ w <> DelayedFreeRcu t) -> tasks_inv s -> tasks_inv (work_done w s).
Proof.
  intros Hw Ht t. simpl. destruct (Hw t). ledger_at. rewrite !one_other, !Z.sub_0_r by done. apply Ht.
Qed.
Lemma step_mm_drop_work m s : rinv s -> 0 < pending s (MmDropWork m) -> rinv (__mmdrop m (work_done (MmDropWork m) s)).
Proof.
  intros [Hb Ht Hs Hm] Hp. unfold __mmdrop. simpl. pose proof (Hm m) as Hx. destruct (rmms s !! m) as [x|] eqn:Ex; simpl in Hx; [|lia].
  destruct Hx as (H1 & H2 & H3 & H4 & H5 & H6 & H7 & H8). destruct (Z.eqb_spec (rm_count x) 0) as [E0|E0]; simpl in H8; [|lia].
  split; [done|by apply work_tasks|done|]. intros m'. simpl. ledger_at. rewrite (one_other _ (MmPutWork _)), Z.sub_0_r by done.
  destruct (decide (m = m')) as [<-|Hne].
  - rewrite lookup_delete_eq, one_same. simpl. destruct (0 <? refs s (UserRef m)) eqn:Eu; simpl in *;
      change (oom_count _ m) with (oom_count s m); lia.
  - rewrite lookup_delete_ne, one_other, Z.sub_0_r by congruence. apply Hm.
Qed.
Lemma step_mm_put_work m s : rinv s -> 0 < pending s (MmPutWork m) -> rinv (mmdrop m (work_done (MmPutWork m) s)).
Proof.
  intros [Hb Ht Hs Hm] Hp. assert (owes (oom_count s) m (work_done (MmPutWork m) s)) as Ho.
  { intros m'. simpl. ledger_at. rewrite !(one_other _ (MmDropWork _)), !Z.sub_0_r by done. pose proof (Hm m') as Hx.
    destruct (decide (m = m')) as [<-|Hne]; [|by rewrite one_other, Z.sub_0_r by congruence].
    rewrite one_same. destruct (rmms s !! m) as [x|] eqn:Ex; simpl in Hx; [|lia]. exists x.
    destruct Hx as (H1 & H2 & H3 & H4 & H5 & H6 & H7 & H8). assert (0 <= Z.b2z (0 <? refs s (UserRef m))) by (destruct (0 <? _); simpl; lia).
    replace (rm_count x =? 0) with false in H8 by lia. split_and!; simpl; try done; lia. }
  destruct (mmdrop_pays _ m _ Ho) as [Hi Hsame]. eapply same_tasks_inv; [done| |done|done|done|done]. by apply work_tasks.
Qed.
Lemma step_task_work t s : rinv s -> 0 < pending s (PutTaskRcu t) -> rinv (__put_task_struct t (work_done (PutTaskRcu t) s)).
Proof.
  intros [Hb Ht Hs Hm] Hp. pose proof (Ht t) as Hx. destruct (rtasks s !! t) as [x|] eqn:Et; simpl in Hx; [|lia].
  destruct (rt_signal x) as [sg|] eqn:Ex; [|lia]. destruct Hx as (H1 & H2 & H3 & H4).
  destruct (Z.eqb_spec (refs s (TaskRef t)) 0) as [E0|E0]; simpl in H3; [|lia].
  apply (last_put t x sg); try done.
  - intros t' Hne. simpl. ledger_at. rewrite !one_other, !Z.sub_0_r by congruence. apply Ht.
  - simpl. ledger_at. rewrite one_same. lia.
Qed.
Lemma step_delayed_work t s : rinv s -> 0 < pending s (DelayedFreeRcu t) -> rinv (free_task t (work_done (DelayedFreeRcu t) s)).
Proof.
  intros [Hb Ht Hs Hm] Hp. pose proof (Ht t) as Hx.
  destruct (rtasks s !! t) as [x|] eqn:Et; simpl in Hx; [|lia]. destruct (rt_signal x) as [sg|] eqn:Ex; [lia|].
  destruct (free_task_is t x (work_done (DelayedFreeRcu t) s) Et) as [l ->].
  split; simpl; [done| | |].
  - intros t'. simpl. ledger_at. rewrite (one_other _ (PutTaskRcu _)), Z.sub_0_r by done. specialize (Ht t').
    destruct (decide (t = t')) as [<-|Hne]; [rewrite lookup_delete_eq, one_same; simpl; lia|].
    rewrite lookup_delete_ne, one_other, Z.sub_0_r by congruence. exact Ht.
  - intros sg. simpl. rewrite (mcount_delete _ _ t x) by done. unfold has_signal at 2. rewrite Ex, bool_decide_false by done.
    simpl. rewrite Z.sub_0_r. apply Hs.
  - intros m. simpl. ledger_at. rewrite !one_other, !Z.sub_0_r by done. apply Hm.
Qed.

Lemma rstep_inv s s' : rstep s s' -> rinv s -> rinv s'.
Proof.
  intros Hst Hi. destruct Hst as [t sg y|t sg|memcg t|t x|rt t Hr|sg y m x|m Em|m x Hr Em|m Hr|m Hr|m x Hr Em|m Hr|w Hp].
  - by apply step_thread.
  - by apply step_process.
  - by apply step_failed.
  - by apply step_get_task.
  - by apply step_put_task.
  - by apply step_oom.
  - apply step_mm; [done|done|intros m' Hne; by rewrite !one_other by congruence|].
    destruct (oom_zero_new s m Hi Em) as (-> & -> & -> & -> & ->). by rewrite one_same, one_other by done.
  - apply step_mm; [done|done|intros m' Hne; by rewrite !one_other by congruence|].
    pose proof (inv_mms s Hi m) as H. rewrite Em in H. rewrite one_same, one_other by done. simpl in *.
    destruct H as (H1 & H2 & H3 & H4 & H5 & H6 & H7 & H8). replace (0 <? refs s (UserRef m) + 1) with true by lia.
    replace (0 <? refs s (UserRef m)) with true in H7 by lia. lia.
  - destruct (drop_users_pays s m (mmdrop m) (inv_mms s Hi) Hr) as [H1 H2]; [left; intros s'; apply mmdrop_pays|].
    eapply same_tasks_inv; [done|apply Hi..|exact H1|done|apply Hi].
  - destruct (drop_users_pays s m (schedule_work (MmPutWork m)) (inv_mms s Hi) Hr) as [H1 H2]; [by right|].
    eapply same_tasks_inv; [done|apply Hi..|exact H1|done|apply Hi].
  - apply step_mm; [done|done|intros m' Hne; by rewrite !one_other by congruence|].
    pose proof (inv_mms s Hi m) as H. rewrite Em in H. rewrite one_same, one_other by done. simpl in *.
    destruct H as (H1 & H2 & H3 & H4 & H5 & H6 & H7 & H8).
    assert (0 <= Z.b2z (0 <? refs s (UserRef m))) by (destruct (0 <? _); simpl; lia).
    assert (0 < rm_count x) by (destruct Hr as [Hr|Hr]; [replace (0 <? refs s (UserRef m)) with true in H7 by lia; simpl in H7|]; lia).
    replace (rm_count x =? 0) with false in H8 by lia. replace (rm_count x + 1 =? 0) with false by lia. rewrite Z.add_0_r. simpl in *. lia.
  - destruct (mmdrop_pays _ m _ (hand_back_grab s m (inv_mms s Hi) Hr)) as [H1 H2].
    eapply same_tasks_inv; [exact H2|apply hand_back_tasks; [done|apply Hi]|apply Hi|exact H1|done|apply Hi].
  - destruct w as [t|t|m|m]; simpl;
      [by apply step_task_work|by apply step_delayed_work|by apply step_mm_drop_work|by apply step_mm_put_work].
Qed.
Lemma rstart_inv : rinv rstart.
Proof. split; [done|..]; intros x; simpl; rewrite ?lookup_empty; unfold oom_count; simpl; by rewrite ?mcount_zero. Qed.
Definition rreachable (s : rstate) : Prop := rtc rstep rstart s.
Lemma rreachable_inv s : rreachable s -> rinv s.
Proof.
  intros Hr. assert (rinv rstart) as H0 by apply rstart_inv. revert H0. induction Hr as [s|a b c Hab _ IH]; [done|].
  intros H. apply IH. by eapply rstep_inv.
Qed.

(** C39: However the last references to tasks and address spaces, the
    callbacks of RCU and the work queue interleave, no object is used or freed
    after it is gone and no count drops below zero.  Nothing is freed too
    early or kept for ever: a task somebody has a reference to exists, with its signal structure, and so does an address
    space somebody uses or has grabbed; and once the pending work is done
    every task that is left has a reference, every signal structure a task,
    and every address space a user, somebody who grabbed it, or a signal
    structure that remembers it. *)
Theorem release_exact s : rreachable s ->
  bad s = false /\
  (forall t, 0 < refs s (TaskRef t) -> exists x sg y, rtasks s !! t = Some x /\ rt_signal x = Some sg /\ rsignals s !! sg = Some y) /\
  (forall m, 0 < refs s (UserRef m) \/ 0 < refs s (GrabRef m) -> is_Some (rmms s !! m)) /\
  ((forall w, pending s w = 0) ->
    (forall t x, rtasks s !! t = Some x -> 0 < refs s (TaskRef t)) /\
    (forall sg y, rsignals s !! sg = Some y -> exists t x, rtasks s !! t = Some x /\ rt_signal x = Some sg) /\
    (forall m x, rmms s !! m = Some x -> 0 < refs s (UserRef m) \/ 0 < refs s (GrabRef m) \/
       exists sg y, rsignals s !! sg = Some y /\ oom_mm y = Some m)).
Proof.
  intros Hr. apply rreachable_inv in Hr. split_and!.
  - apply Hr.
  - intros t Ht. pose proof (inv_tasks s Hr t) as H. destruct (rtasks s !! t) as [x|] eqn:Et; simpl in H; [|lia].
    destruct (rt_signal x) as [sg|] eqn:Ex; [|lia]. pose proof (inv_signals s Hr sg) as Hs.
    assert (0 < mcount (has_signal sg) (rtasks s)) by (apply (mcount_pos _ _ t x Et); unfold has_signal; by apply bool_decide_true).
    destruct (rsignals s !! sg) as [y|] eqn:Ey; simpl in Hs; [by exists x, sg, y|lia].
  - intros m Hm. pose proof (inv_mms s Hr m) as H. destruct (rmms s !! m); [done|]. simpl in H. lia.
  - intros Hp. split_and!.
    + intros t x Et. pose proof (inv_tasks s Hr t) as H. rewrite Et, !Hp in H. simpl in H. destruct (rt_signal x); [|lia].
      destruct H as (_ & H2 & H3 & _). destruct (Z.eqb_spec (refs s (TaskRef t)) 0); simpl in H3; lia.
    + intros sg y Ey. pose proof (inv_signals s Hr sg) as H. rewrite Ey in H. simpl in H.
      destruct (mcount_found (has_signal sg) (rtasks s)) as (t & x & Et & Hx); [lia|]. exists t, x. split; [done|].
      by apply bool_decide_eq_true in Hx.
    + intros m x Em. pose proof (inv_mms s Hr m) as H. rewrite Em, !Hp in H. simpl in H.
      destruct H as (H1 & H2 & H3 & H4 & _ & _ & H7 & H8). destruct (Z.eqb_spec (rm_count x) 0); simpl in H8; [lia|].
      destruct (Z.ltb_spec 0 (refs s (UserRef m))); [by left|]. simpl in H7.
      destruct (decide (0 < refs s (GrabRef m))); [by right; left|]. right; right.
      destruct (mcount_found (has_oom m) (rsignals s)) as (sg & y & Ey & Hy); [unfold oom_count in *; lia|]. exists sg, y. split; [done|].
      by apply bool_decide_eq_true in Hy.
Qed.
End release.

(** ** Lazy users of an address space

    A kernel thread goes on using the page tables of the task before it; with
    CONFIG_MMU_LAZY_TLB_SHOOTDOWN this is not counted, and [__mmdrop] makes
    every CPU leave the address space first. *)
Module LazyTlb.
Record lcpu := LCpu { active_mm : Z; cur_mm : option Z }.
Record lstate := LState { cpus : gmap Z lcpu; warned : bool }.
Abbreviation init_mm := 0 (only parsing).
Definition do_shoot_lazy_tlb (mm cpu : Z) (s : lstate) : lstate :=
  match cpus s !! cpu with
  | Some c =>
      if active_mm c =? mm
      then LState (<[cpu := LCpu init_mm (cur_mm c)]> (cpus s)) (warned s || bool_decide (is_Some (cur_mm c)))
      else s
  | None => s
  end.
Definition do_check_lazy_tlb (mm cpu : Z) (s : lstate) : lstate :=
  match cpus s !! cpu with Some c => LState (cpus s) (warned s || (active_mm c =? mm)) | None => s end.
(** [on_each_cpu_mask] *)
Definition on_each_cpu_mask (mask : list Z) (f : Z -> lstate -> lstate) (s : lstate) : lstate := foldl (fun s c => f c s) s mask.
Definition cleanup_lazy_tlbs (shootdown debug : bool) (mm_cpumask online : list Z) (mm : Z) (s : lstate) : lstate :=
  if negb shootdown then s
  else
    let s := on_each_cpu_mask mm_cpumask (do_shoot_lazy_tlb mm) s in
    if debug then on_each_cpu_mask online (do_check_lazy_tlb mm) s else s.

Lemma shoot_lookup mm cpu s c' : cpus (do_shoot_lazy_tlb mm cpu s) !! c' =
  (fun c => if bool_decide (cpu = c') && (active_mm c =? mm) then LCpu init_mm (cur_mm c) else c) <$> cpus s !! c'.
Proof.
  unfold do_shoot_lazy_tlb. destruct (decide (cpu = c')) as [<-|Hne].
  - rewrite bool_decide_true by done. destruct (cpus s !! cpu) as [c|] eqn:E; simpl; [|by rewrite E].
    destruct (active_mm c =? mm); simpl; [by rewrite lookup_insert_eq|by rewrite E].
  - rewrite bool_decide_false by done. assert (forall o : option lcpu, o = (fun c => c) <$> o) as Hid by (by intros []).
    simpl. rewrite <- Hid. destruct (cpus s !! cpu) as [c|]; [|done]. destruct (active_mm c =? mm); simpl; [by rewrite lookup_insert_ne|done].
Qed.
(** After the shots every CPU of the mask is off the address space, and all
    others are as they were. *)
Lemma shots mask mm s c' : mm <> init_mm -> cpus (on_each_cpu_mask mask (do_shoot_lazy_tlb mm) s) !! c' =
  (fun c => if bool_decide (c' ∈ mask) && (active_mm c =? mm) then LCpu init_mm (cur_mm c) else c) <$> cpus s !! c'.
Proof.
  intros Hmm. unfold on_each_cpu_mask. revert s. induction mask as [|cpu mask IH]; intros s; simpl.
  - by destruct (cpus s !! c').
  - rewrite IH, shoot_lookup. destruct (cpus s !! c') as [c|]; simpl; [|done]. f_equal.
    destruct (decide (cpu = c')) as [->|Hne].
    + rewrite (bool_decide_true (c' = c')), (bool_decide_true (c' ∈ c' :: mask)) by set_solver. simpl.
      destruct (Z.eqb_spec (active_mm c) mm) as [E|E]; simpl; [by destruct (bool_decide (c' ∈ mask)); destruct mm|].
      replace (active_mm c =? mm) with false by lia. by rewrite andb_false_r.
    + rewrite (bool_decide_false (cpu = c')) by done. simpl.
      by replace (bool_decide (c' ∈ cpu :: mask)) with (bool_decide (c' ∈ mask)) by (apply bool_decide_ext; set_solver).
Qed.
Lemma shots_warned mask mm s :
  (forall cpu c, cpus s !! cpu = Some c -> active_mm c = mm -> cur_mm c = None) -> warned s = false -> mm <> init_mm ->
  warned (on_each_cpu_mask mask (do_shoot_lazy_tlb mm) s) = false.
Proof.
  unfold on_each_cpu_mask. revert s. induction mask as [|cpu mask IH]; intros s Hc Hw Hmm; simpl; [done|]. apply IH; [| |done].
  - intros cpu' c'. rewrite shoot_lookup. destruct (cpus s !! cpu') as [c|] eqn:E; simpl; [|done]. intros [= <-].
    destruct (_ && _); simpl; [intros; lia|]. by apply Hc with cpu'.
  - unfold do_shoot_lazy_tlb. destruct (cpus s !! cpu) as [c|] eqn:E; [|done].
    destruct (Z.eqb_spec (active_mm c) mm) as [Ea|]; [|done]. simpl. by rewrite Hw, (Hc cpu c E Ea).
Qed.
Lemma checks_warned online mm s :
  (forall cpu c, cpus s !! cpu = Some c -> active_mm c <> mm) -> warned s = false ->
  warned (on_each_cpu_mask online (do_check_lazy_tlb mm) s) = false /\ cpus (on_each_cpu_mask online (do_check_lazy_tlb mm) s) = cpus s.
Proof.
  unfold on_each_cpu_mask. revert s. induction online as [|cpu online IH]; intros s Hc Hw; simpl; [done|].
  assert (cpus (do_check_lazy_tlb mm cpu s) = cpus s) as Es by (unfold do_check_lazy_tlb; by destruct (cpus s !! cpu)).
  rewrite <- Es. apply IH; [by rewrite Es|]. unfold do_check_lazy_tlb. destruct (cpus s !! cpu) as [c|] eqn:E; [|done]. simpl.
  rewrite Hw. simpl. apply Z.eqb_neq. by apply Hc with cpu.
Qed.

(** When the last reference to an address space is gone and only kernel
    threads still sit on it, on CPUs of its mask, then after
    [cleanup_lazy_tlbs] no CPU uses it, the CPUs that did use the kernel's
    own, no other CPU has changed, and no warning was printed. *)
Theorem lazy_tlbs_cleaned debug mask online mm s :
  mm <> init_mm -> warned s = false ->
  (forall cpu c, cpus s !! cpu = Some c -> active_mm c = mm -> cpu ∈ mask /\ cur_mm c = None) ->
  let s' := cleanup_lazy_tlbs true debug mask online mm s in
  warned s' = false /\
  forall cpu, cpus s' !! cpu = (fun c => if active_mm c =? mm then LCpu init_mm None else c) <$> cpus s !! cpu.
Proof.
  intros Hmm Hw Hc. cbv zeta. unfold cleanup_lazy_tlbs. simpl. set (s1 := on_each_cpu_mask mask _ s).
  assert (warned s1 = false) as Hw1 by (apply shots_warned; [|done|done]; intros cpu c E Ea; by apply (Hc cpu)).
  assert (forall cpu, cpus s1 !! cpu = (fun c => if active_mm c =? mm then LCpu init_mm None else c) <$> cpus s !! cpu) as H1.
  { intros cpu. unfold s1. rewrite shots by done. destruct (cpus s !! cpu) as [c|] eqn:E; simpl; [|done]. f_equal.
    destruct (Z.eqb_spec (active_mm c) mm) as [Ea|Ea]; [|by rewrite andb_false_r]. destruct (Hc cpu c E Ea) as [Hin ->].
    by rewrite bool_decide_true. }
  destruct debug; [|done]. destruct (checks_warned online mm s1) as [W E]; [|done|by rewrite E].
  intros cpu c. rewrite H1. destruct (cpus s !! cpu) as [c0|]; simpl; [|done]. intros [= <-].
  destruct (Z.eqb_spec (active_mm c0) mm); simpl; [lia|done].
Qed.
End LazyTlb.

(** ** Examples *)
Module Demo.
#[local] Instance env0 : ReleaseEnv := {| pf_kthread _ := false |}.
(** A process and a thread; the process exits first, then the thread, the
    signal structure remembers address space 7. *)
Lemma a_group_ends : exists s, rreachable s /\ rtasks s = ∅ /\ rsignals s = ∅ /\ is_Some (rmms s !! 7) /\ 0 < pending s (MmDropWork 7).
Proof.
  eexists. split; [|shelve]. unfold rreachable.
  eapply rtc_l; [apply (SProcess _ 1 10); done|]. eapply rtc_l; [apply (SThread _ 2 10 (RSignal 1 None)); done|].
  eapply rtc_l; [apply (SMmNew _ 7); done|]. eapply rtc_l; [apply (SOom _ 10 (RSignal 2 None) 7 (RMm 1 1)); done|].
  eapply rtc_l; [apply (SPutTask _ false 1); done|]. eapply rtc_l; [apply (SMmPut _ 7); done|].
  eapply rtc_l; [apply (SPutTask _ true 2); done|]. eapply rtc_l; [apply (SWork _ (PutTaskRcu 2)); done|]. apply rtc_refl.
  Unshelve. split_and!; [by vm_compute|by vm_compute|by eexists; vm_compute|by vm_compute].
Qed.
(** Process 1 starts thread 2 and exits; address space 7, which the OOM killer
    remembered, loses its last user; the fork of task 3 fails. *)
Definition started : rstate := receive (TaskRef 1) (set_rsignals (<[10 := RSignal 1 None]> (rsignals rstart))
  (set_rtasks (<[1 := RTask 1 (Some 10)]> (rtasks rstart)) rstart)).
Definition threaded : rstate := receive (TaskRef 2) (set_rsignals (<[10 := RSignal 2 None]> (rsignals started))
  (set_rtasks (<[2 := RTask 1 (Some 10)]> (rtasks started)) started)).
Definition with_mm : rstate := receive (UserRef 7) (set_rmms (<[7 := RMm 1 1]> (rmms threaded)) threaded).
Definition victim : rstate := set_rsignals (<[10 := RSignal 2 (Some 7)]> (rsignals with_mm)) (set_rmms (<[7 := RMm 1 2]> (rmms with_mm)) with_mm).
Definition exited : rstate := put_task_struct false 1 (hand_back (TaskRef 1) victim).
Definition unused : rstate := mmput 7 (hand_back (UserRef 7) exited).
Definition thread_left : rstate := delayed_free_task false 3 (set_rtasks (<[3 := RTask 1 None]> (rtasks unused)) unused).
Lemma release_exact_witness :
  bad thread_left = false /\ rtasks thread_left = {[ 2 := RTask 1 (Some 10) ]} /\
  (exists x sg y, rtasks thread_left !! 2 = Some x /\ rt_signal x = Some sg /\ rsignals thread_left !! sg = Some y) /\
  refs thread_left (UserRef 7) = 0 /\
  (0 < refs thread_left (UserRef 7) \/ 0 < refs thread_left (GrabRef 7) \/
   exists sg y, rsignals thread_left !! sg = Some y /\ oom_mm y = Some 7).
Proof.
  destruct (release_exact thread_left) as (H1 & H2 & _ & H4).
  - apply (rtc_l _ _ started); [by apply (SProcess _ 1 10)|].
    apply (rtc_l _ _ threaded); [by apply (SThread _ 2 10 (RSignal 1 None))|].
    apply (rtc_l _ _ with_mm); [by apply (SMmNew _ 7)|].
    apply (rtc_l _ _ victim); [by apply (SOom _ 10 (RSignal 2 None) 7 (RMm 1 1))|].
    apply (rtc_l _ _ exited); [by apply (SPutTask _ false 1)|].
    apply (rtc_l _ _ unused); [by apply (SMmPut _ 7)|].
    apply rtc_once. by apply (SFailed _ false 3).
  - destruct H4 as (_ & _ & H5); [done|]. split_and!; [exact H1|by vm_compute|apply H2; by vm_compute|by vm_compute|].
    apply (H5 7 (RMm 0 1)). by vm_compute.
Defined.
Import LazyTlb.
Definition two_cpus : lstate := LState {[ 0 := LCpu 7 None; 1 := LCpu 5 (Some 5) ]} false.
Lemma lazy_tlbs_cleaned_witness :
  let s' := cleanup_lazy_tlbs true true [0] [0; 1] 7 two_cpus in
  warned s' = false /\ forall cpu, cpus s' !! cpu = (fun c => if active_mm c =? 7 then LCpu init_mm None else c) <$> cpus two_cpus !! cpu.
Proof.
  apply (lazy_tlbs_cleaned true [0] [0; 1] 7 two_cpus); [done|done|].
  intros cpu c E Ea. unfold two_cpus in E. simpl in E. apply lookup_insert_Some in E as [[<- <-]|[Hne E]]; [split; [set_solver|done]|].
  apply lookup_singleton_Some in E as [<- <-]. done.
Defined.
End Demo.
