(* ===== verification/Pidfd.v ===== *)
(** * Files for processes

    fork.c 1991-2152: a pidfd is a file that holds a reference to a [struct
    pid].  Reserving one, giving it up, what it shows in /proc and when it
    polls ready.  Descriptors and anonymous files come from an interface; a
    pid has one number for every name space it is visible in, outermost
    first. *)
From S2P Require Import Prelude Ledger.
Open Scope Z_scope.

Abbreviation O_RDWR := 2 (only parsing).
Abbreviation O_NONBLOCK := 2048 (only parsing).
Abbreviation O_CLOEXEC := 524288 (only parsing).
Abbreviation EPOLLIN := 1 (only parsing).
Abbreviation EPOLLRDNORM := 64 (only parsing).

(** [struct upid]: number and name space, one for each level. *)
Record kpid := KPid { pid_id : Z; numbers : list (Z * Z); has_task : bool; has_tgid_task : bool }.
Record pid_namespace := PidNs { ns_id : Z; ns_level : nat }.
Inductive pres := PFd (fd : Z) | PFile (pid : Z) | PPid (pid : Z).
#[global] Instance pres_eq_dec : EqDecision pres.
Proof. solve_decision. Defined.
Abbreviation pstate := (ledger pres).

Class PidfdEnv := {
  get_unused_fd_flags : pstate -> Z;                 (** a descriptor or an error *)
  anon_inode_getfile : Z -> pstate -> Z;             (** flags; 0 or an error *)
  thread_group_exited : kpid -> bool;
}.
Class PidfdLaws `{PidfdEnv} := { anon_inode_error fl s : anon_inode_getfile fl s <= 0 }.

(** [pidfd_pid]: the pid of a pidfd, by its file operations. *)
Definition pidfd_pid (is_pidfd : bool) (private_data : Z) : Z + Z := if is_pidfd then inr private_data else inl (- EBADF).
(** [fput] of the last reference frees the file and calls [pidfd_release]. *)
Definition pidfd_release (pid : Z) (s : pstate) : pstate := drop_one (PPid pid) s.
Definition fput (pid : Z) (s : pstate) : pstate := drop_one (PFile pid) (pidfd_release pid s).
Definition put_unused_fd (fd : Z) (s : pstate) : pstate := drop_one (PFd fd) s.

Section pidfd.
Context {penv : PidfdEnv}.
Definition __pidfd_prepare (pid : kpid) (flags : Z) (s : pstate) : Z * pstate :=
  if outside flags (O_NONBLOCK .| O_RDWR .| O_CLOEXEC) then (- EINVAL, s)
  else
    let pidfd := get_unused_fd_flags s in
    if pidfd <? 0 then (pidfd, s)
    else
      let s := take_one (PFd pidfd) s in
      let e := anon_inode_getfile (flags .| O_RDWR .| O_CLOEXEC) s in
      if negb (e =? 0) then (e, put_unused_fd pidfd s)
      else (pidfd, take_one (PPid (pid_id pid)) (take_one (PFile (pid_id pid)) s)).
Definition pidfd_prepare (pid : option kpid) (flags : Z) (s : pstate) : Z * pstate :=
  match pid with
  | None => (- EINVAL, s)
  | Some pid => if negb (has_tgid_task pid) then (- EINVAL, s) else __pidfd_prepare pid flags s
  end.
Definition pidfd_poll (pid : kpid) : Z := if thread_group_exited pid then EPOLLIN .| EPOLLRDNORM else 0.
End pidfd.

(** ** /proc/<pid>/fdinfo *)
(** [pid_nr_ns]: the number of the pid in a name space, or 0. *)
Definition pid_nr_ns (pid : kpid) (ns : pid_namespace) : Z :=
  match numbers pid !! ns_level ns with
  | Some (nr, id) => if id =? ns_id ns then nr else 0
  | None => 0
  end.
(** [for (i = ns->level + 1; i <= pid->level; i++)] *)
Fixpoint print_levels (fuel : nat) (pid : kpid) (i : nat) : list (string * Z) :=
  match fuel with
  | O => []
  | S fuel =>
      match numbers pid !! i with
      | Some (nr, _) => ("\t", nr) :: print_levels fuel pid (S i)
      | None => []
      end
  end.
(** The prefixes and numbers [seq_put_decimal_ll] is called with. *)
Definition pidfd_show_fdinfo (pid : kpid) (proc_ns : pid_namespace) : list (string * Z) :=
  let nr := if has_task pid then pid_nr_ns pid proc_ns else -1 in
  [("Pid:\t", nr); ("\nNSpid:\t", nr)] ++
  (if 0 <? nr then print_levels (length (numbers pid)) pid (ns_level proc_ns + 1) else []).

(** ** Properties *)
Section pidfd_properties.
Context {penv : PidfdEnv} {laws : PidfdLaws}.
Lemma pidfd_prepare_outcome pid flags s : let '(fd, s') := __pidfd_prepare pid flags s in
  (fd < 0 /\ s' ≡ s) \/ (0 <= fd /\ s' ≡ take_one (PPid (pid_id pid)) (take_one (PFile (pid_id pid)) (take_one (PFd fd) s))).
Proof.
  unfold __pidfd_prepare. destruct (outside _ _); [left; split; [lia|done]|].
  destruct (Z.ltb_spec (get_unused_fd_flags s) 0); [by left|]. cbv zeta.
  match goal with |- context [anon_inode_getfile ?f ?x] => pose proof (anon_inode_error f x) as Hl; destruct (Z.eqb_spec (anon_inode_getfile f x) 0) end; simpl.
  - right. split; [lia|done].
  - left. split; [lia|]. unfold put_unused_fd. apply drop_take.
Qed.

(** Preparing a pidfd either fails and leaves nothing reserved, or
    reserves one descriptor and a file that holds exactly one reference to the
    pid; giving both up again, as an error path after it must, restores
    everything.  It fails for a pid that is not a process. *)
Theorem pidfd_prepare_roundtrip pid flags s fd s' :
  pidfd_prepare pid flags s = (fd, s') ->
  (fd < 0 /\ s' ≡ s) \/
  (0 <= fd /\ exists p, pid = Some p /\ has_tgid_task p = true /\
   s' ≡ take_one (PPid (pid_id p)) (take_one (PFile (pid_id p)) (take_one (PFd fd) s)) /\
   fput (pid_id p) (put_unused_fd fd s') ≡ s).
Proof.
  unfold pidfd_prepare. destruct pid as [p|]; [|intros [= <- <-]; left; split; [lia|done]].
  destruct (has_tgid_task p) eqn:Et; simpl; [|intros [= <- <-]; left; split; [lia|done]].
  intros E. pose proof (pidfd_prepare_outcome p flags s) as H. rewrite E in H. destruct H as [H|[Hf Hs]]; [by left|].
  right. split; [done|]. exists p. split_and!; try done. unfold fput, pidfd_release, put_unused_fd. intros r.
  rewrite !drop_one_at, (Hs r). ledger_at. lia.
Qed.
End pidfd_properties.

Lemma print_levels_all fuel pid i : (length (numbers pid) <= i + fuel)%nat ->
  print_levels fuel pid i = (fun n => ("\t", n.1)) <$> drop i (numbers pid).
Proof.
  revert i. induction fuel as [|fuel IH]; intros i Hf; simpl; [by rewrite drop_ge by lia|].
  destruct (numbers pid !! i) as [[nr id]|] eqn:E.
  - rewrite IH by lia. by rewrite (drop_S _ _ _ E).
  - apply lookup_ge_None in E. by rewrite drop_ge.
Qed.

(** What a pidfd shows: the number of the pid in the name space of the
    /proc it is read through and then its numbers in all name spaces below,
    outermost first; 0 and nothing more when that name space does not see it,
    and -1 when the process is gone.  [Pid] and the first [NSpid] agree. *)
Theorem fdinfo_shows_descendants pid ns :
  (forall n, n ∈ numbers pid -> 0 < n.1) ->
  pidfd_show_fdinfo pid ns =
  match has_task pid, numbers pid !! ns_level ns with
  | true, Some (nr, id) =>
      if id =? ns_id ns then [("Pid:\t", nr); ("\nNSpid:\t", nr)] ++ ((fun n => ("\t", n.1)) <$> drop (S (ns_level ns)) (numbers pid))
      else [("Pid:\t", 0); ("\nNSpid:\t", 0)]
  | true, None => [("Pid:\t", 0); ("\nNSpid:\t", 0)]
  | false, _ => [("Pid:\t", -1); ("\nNSpid:\t", -1)]
  end.
Proof.
  intros Hpos. unfold pidfd_show_fdinfo, pid_nr_ns. destruct (has_task pid); [|done].
  destruct (numbers pid !! ns_level ns) as [[nr id]|] eqn:E; [|done]. destruct (id =? ns_id ns); [|done]. cbv zeta.
  assert (0 < nr) by (apply (Hpos (nr, id)); by eapply list_elem_of_lookup_2). replace (0 <? nr) with true by lia.
  rewrite print_levels_all by lia. by rewrite Nat.add_1_r.
Qed.

(** ** Examples *)
Module Demo.
#[local] Instance env0 : PidfdEnv := {|
  get_unused_fd_flags _ := 5; anon_inode_getfile _ _ := 0; thread_group_exited _ := false |}.
#[local] Instance laws0 : PidfdLaws.
Proof. split. simpl. lia. Qed.
(** Number 100 outside, 7 in name space 20 and 1 in name space 30 below it. *)
Definition p0 : kpid := KPid 9 [(100, 10); (7, 20); (1, 30)] true true.
Lemma pidfd_prepare_roundtrip_witness :
  (5 < 0 /\ (pidfd_prepare (Some p0) O_NONBLOCK nothing_held).2 ≡ nothing_held) \/
  (0 <= 5 /\ exists p, Some p0 = Some p /\ has_tgid_task p = true /\
   (pidfd_prepare (Some p0) O_NONBLOCK nothing_held).2 ≡ take_one (PPid (pid_id p)) (take_one (PFile (pid_id p)) (take_one (PFd 5) nothing_held)) /\
   fput (pid_id p) (put_unused_fd 5 (pidfd_prepare (Some p0) O_NONBLOCK nothing_held).2) ≡ nothing_held).
Proof. apply (pidfd_prepare_roundtrip (Some p0) O_NONBLOCK). reflexivity. Defined.
Lemma fdinfo_shows_descendants_witness :
  pidfd_show_fdinfo p0 (PidNs 20 1) = [("Pid:\t", 7); ("\nNSpid:\t", 7); ("\t", 1)].
Proof.
  apply (fdinfo_shows_descendants p0 (PidNs 20 1)). intros n Hn. unfold p0 in Hn. simpl in Hn. set_unfold in Hn.
  destruct Hn as [-> |[-> |[-> |[]]]]; done.
Defined.
End Demo.
