(* ===== verification/System.v ===== *)
(** * The counters of the system, end to end

    sys.c 196-199 and 2970-2990 with the counters of fs/open.c,
    fs/read_write.c and kernel/fork.c.  The calls of the four files run on one
    kernel state and [luis_track_syscall_usage] reports how many there were.
    [CountsCalls] is what each file promises about its global counter; the
    report is proved from these promises, first for calls that follow one
    another and then for threads that run them at the same time: the counters
    are plain [long]s incremented without a lock, so the load and the store of
    an increment are separate steps and updates can be lost. *)
From S2P Require Import Prelude Task ForkMm Fork.
From S2P Require Open ReadWrite Seek Clone Luis.

(** A global counter is incremented by the calls that are counted, whether
    they succeed or not, and by no other call. *)
Class CountsCalls {S C} (exec : C -> sys S Z) (cnt : S -> Z) (counted : C -> bool) : Prop :=
  counts_calls : forall c s, cnt (run (exec c) s).2 = if counted c then s64 (cnt s + 1) else cnt s.

Record kernel (Wo Wr : Type) := Kernel {
  k_open : Open.ostate Wo; k_rw : ReadWrite.rstate Wr; k_clone : Clone.clstate; k_luis : Luis.lstate;
}.
Arguments Kernel {Wo Wr}. Arguments k_open {Wo Wr}. Arguments k_rw {Wo Wr}. Arguments k_clone {Wo Wr}. Arguments k_luis {Wo Wr}.

(** A call of one component on the whole state. *)
Definition on_part {K S} (get : K -> S) (put : S -> K -> K) (m : sys S Z) : sys K Z := fun k =>
  let '(o, s) := m (get k) in (o, put s k).
Lemma run_on_part {K S} (get : K -> S) (put : S -> K -> K) m k :
  run (on_part get put m) k = ((run m (get k)).1, put (run m (get k)).2 k).
Proof. unfold run, on_part. destruct (m (get k)) as [[v|e] s]; done. Qed.

Inductive kcall := KOpen (c : Open.ocall) | KRw (c : ReadWrite.rw_call) | KClone (c : Clone.ccall) | KTrack (trackers : Z).

Section system.
Context {Wo Wr : Type} {oenv : Open.OpenEnv Wo} {caps : Caps} {ua : UAccess} {rwenv : Seek.RwEnv} {drv : ReadWrite.Driver Wr}.
Context {menv : MmEnv} {fenv : ForkEnv} {cenv : Clone.CloneEnv} {olaws : Open.OpenLaws Wo}.
#[local] Abbreviation K := (kernel Wo Wr).

(** The [extern] counters of sys.c are those of the other files. *)
Definition counters_now (k : K) : Luis.track_counters :=
  Luis.Track (Open.open_call_counter (k_open k)) (ReadWrite.read_call_counter (k_rw k))
    (ReadWrite.write_call_counter (k_rw k)) (Clone.fork_call_counter (k_clone k)).
(** The state of [luis_track_syscall_usage] with the values it loaded. *)
Definition luis_with (loaded : Luis.track_counters) (k : K) : Luis.lstate :=
  let s := k_luis k in
  Luis.LState loaded (Luis.procs_list s) (Luis.areas s) (Luis.snaps s) (Luis.tracks s) (Luis.ios s) (Luis.ptrs s).
Definition luis_now (k : K) : Luis.lstate := luis_with (counters_now k) k.

Definition exec_kernel (c : kcall) : sys K Z :=
  match c with
  | KOpen c => on_part k_open (fun x k => Kernel x (k_rw k) (k_clone k) (k_luis k)) (Open.exec_open c)
  | KRw c => on_part k_rw (fun x k => Kernel (k_open k) x (k_clone k) (k_luis k))
      (fun s => let '(r, s') := ReadWrite.exec_rw c s in (Val r, s'))
  | KClone c => on_part k_clone (fun x k => Kernel (k_open k) (k_rw k) x (k_luis k)) (Clone.exec_clone c)
  | KTrack p => on_part luis_now (fun x k => Kernel (k_open k) (k_rw k) (k_clone k) x) (Luis.sys_luis_track_syscall_usage p)
  end.

Definition counts_open (c : kcall) : bool := match c with KOpen c => Open.is_counted c | _ => false end.
Definition counts_read (c : kcall) : bool := match c with KRw c => ReadWrite.is_read c | _ => false end.
Definition counts_write (c : kcall) : bool := match c with KRw c => ReadWrite.is_write c | _ => false end.
Definition counts_fork (c : kcall) : bool := match c with KClone c => Clone.is_clone c | _ => false end.

#[local] Instance open_counts : CountsCalls exec_kernel (fun k => Open.open_call_counter (k_open k)) counts_open.
Proof. intros [] k; cbn [exec_kernel]; rewrite run_on_part; cbn; [apply Open.exec_open_counter|done..]. Qed.
Lemma run_rw (c : ReadWrite.rw_call) s :
  (run (fun s => let '(r, s') := ReadWrite.exec_rw (W := Wr) c s in (Val r, s')) s).2 = (ReadWrite.exec_rw c s).2.
Proof. unfold run. by destruct (ReadWrite.exec_rw c s). Qed.
#[local] Instance read_counts : CountsCalls exec_kernel (fun k => ReadWrite.read_call_counter (k_rw k)) counts_read.
Proof. intros [] k; cbn [exec_kernel]; rewrite run_on_part; cbn [fst snd k_rw counts_read]; [done|rewrite run_rw; apply ReadWrite.exec_rw_counters|done..]. Qed.
#[local] Instance write_counts : CountsCalls exec_kernel (fun k => ReadWrite.write_call_counter (k_rw k)) counts_write.
Proof. intros [] k; cbn [exec_kernel]; rewrite run_on_part; cbn [fst snd k_rw counts_write]; [done|rewrite run_rw; apply ReadWrite.exec_rw_counters|done..]. Qed.
#[local] Instance fork_counts : CountsCalls exec_kernel (fun k => Clone.fork_call_counter (k_clone k)) counts_fork.
Proof. intros [] k; cbn [exec_kernel]; rewrite run_on_part; cbn; [done|done|apply Clone.exec_clone_counter|done]. Qed.

(** At boot the counters are zero. *)
Definition booted (k : K) : Prop := counters_now k = Luis.Track 0 0 0 0.

Lemma counted_from_boot (cnt : K -> Z) (counted : kcall -> bool) `{!CountsCalls exec_kernel cnt counted} cs k :
  cnt k = 0 -> cnt (run_all exec_kernel cs k) = s64 (calls_where counted cs).
Proof. intros H. rewrite (counter_counts exec_kernel cnt counted) by (rewrite ?H; done || (by split)). by rewrite H. Qed.

(** After any sequence of calls of the four files since boot, each run to its
    end before the next, a call of [luis_track_syscall_usage] whose buffer can
    be written returns 0 and stores there the number of [open]/[openat]/[creat],
    [read], [write] and [clone] calls made so far, failing ones included,
    modulo 2^64; when the buffer cannot be written it returns -EFAULT. *)
Theorem track_reports_sequence cs p k : booted k ->
  let k' := run_all exec_kernel cs k in
  let '(r, k'') := run (exec_kernel (KTrack p)) k' in
  if uncopied p 32 =? 0
  then r = 0 /\ Luis.tracks (k_luis k'') !! p =
         Some (Luis.Track (s64 (calls_where counts_open cs)) (s64 (calls_where counts_read cs))
                 (s64 (calls_where counts_write cs)) (s64 (calls_where counts_fork cs)))
  else r = - EFAULT.
Proof.
  intros H k'. injection H as H1 H2 H3 H4. cbn [exec_kernel]. rewrite run_on_part.
  assert (counters_now k' = Luis.Track (s64 (calls_where counts_open cs)) (s64 (calls_where counts_read cs))
    (s64 (calls_where counts_write cs)) (s64 (calls_where counts_fork cs))) as E.
  { unfold counters_now. subst k'. f_equal.
    - by apply (counted_from_boot (fun k => Open.open_call_counter (k_open k)) counts_open).
    - by apply (counted_from_boot (fun k => ReadWrite.read_call_counter (k_rw k)) counts_read).
    - by apply (counted_from_boot (fun k => ReadWrite.write_call_counter (k_rw k)) counts_write).
    - by apply (counted_from_boot (fun k => Clone.fork_call_counter (k_clone k)) counts_fork). }
  unfold run, Luis.sys_luis_track_syscall_usage, copy_to_user, sbind, sgets, smodify, fail_if, sret.
  cbn [Luis.call_counters luis_now luis_with]. rewrite E. destruct (uncopied p 32 =? 0) eqn:Eu; cbn; [|done].
  rewrite lookup_insert_eq. done.
Qed.
(** ** Threads

    The increment is the first statement of each counted call with an effect.
    A thread that entered one has loaded the counter ([Loaded]); its next step
    stores the loaded value plus one, however old it is, and runs the body,
    which does not touch the counters again.  A thread in
    [luis_track_syscall_usage] loads the four counters one by one, in the
    order of sys.c, and then copies them out. *)
Inductive counter := OpenCnt | ReadCnt | WriteCnt | ForkCnt.
#[global] Instance counter_eq_dec : EqDecision counter.
Proof. solve_decision. Defined.

Definition counts (i : counter) : kcall -> bool :=
  match i with OpenCnt => counts_open | ReadCnt => counts_read | WriteCnt => counts_write | ForkCnt => counts_fork end.
Definition counter_of (i : counter) (k : K) : Z :=
  match i with
  | OpenCnt => Open.open_call_counter (k_open k) | ReadCnt => ReadWrite.read_call_counter (k_rw k)
  | WriteCnt => ReadWrite.write_call_counter (k_rw k) | ForkCnt => Clone.fork_call_counter (k_clone k)
  end.
Definition set_counter (i : counter) (v : Z) (k : K) : K :=
  let o := k_open k in let r := k_rw k in let c := k_clone k in
  match i with
  | OpenCnt => Kernel (Open.OState (Open.ofds o) (Open.oworld o) v) r c (k_luis k)
  | ReadCnt => Kernel o (ReadWrite.RState (ReadWrite.fs r) (ReadWrite.world r) (ReadWrite.rchar r) (ReadWrite.wchar r)
      (ReadWrite.syscr r) (ReadWrite.syscw r) v (ReadWrite.write_call_counter r) (ReadWrite.drv_log r)) c (k_luis k)
  | WriteCnt => Kernel o (ReadWrite.RState (ReadWrite.fs r) (ReadWrite.world r) (ReadWrite.rchar r) (ReadWrite.wchar r)
      (ReadWrite.syscr r) (ReadWrite.syscw r) (ReadWrite.read_call_counter r) v (ReadWrite.drv_log r)) c (k_luis k)
  | ForkCnt => Kernel o r (Clone.ClState (Clone.cfk c) v (Clone.vfork_done c) (Clone.woken c) (Clone.ptrace_events c)) (k_luis k)
  end.
Definition value (i : counter) (tc : Luis.track_counters) : Z :=
  match i with
  | OpenCnt => Luis.counter_open tc | ReadCnt => Luis.counter_read tc
  | WriteCnt => Luis.counter_write tc | ForkCnt => Luis.counter_fork tc
  end.
Definition sample_order : list counter := [WriteCnt; ReadCnt; OpenCnt; ForkCnt].

Inductive thread :=
| Loaded (c : kcall) (v : Z)
| Sampling (trackers : Z) (loaded : list Z) (from : list kcall).

(** What a finished [luis_track_syscall_usage] returned and left in the user's
    buffer, with the calls counted before it started and before it finished. *)
Record report := Report {
  rp_trackers : Z; rp_ret : Z; rp_user : option Luis.track_counters; rp_from : list kcall; rp_upto : list kcall;
}.
Record conc := Conc { c_k : K; c_threads : gmap Z thread; c_done : list kcall; c_reports : list report }.

Definition set_threads (ts : gmap Z thread) (s : conc) : conc := Conc (c_k s) ts (c_done s) (c_reports s).
Definition store_and_run (t : Z) (c : kcall) (i : counter) (v : Z) (s : conc) : conc :=
  Conc (run (exec_kernel c) (set_counter i v (c_k s))).2 (delete t (c_threads s)) (c_done s ++ [c]) (c_reports s).
Definition copy_out (t p : Z) (loaded : Luis.track_counters) (from : list kcall) (s : conc) : conc :=
  let k := c_k s in
  let '(r, l) := run (Luis.sys_luis_track_syscall_usage p) (luis_with loaded k) in
  Conc (Kernel (k_open k) (k_rw k) (k_clone k) l) (delete t (c_threads s)) (c_done s)
    (c_reports s ++ [Report p r (Luis.tracks l !! p) from (c_done s)]).

(** Between the load and the store of [i] by some thread. *)
Definition incrementing (i : counter) (s : conc) (t : Z) : Prop :=
  exists c v, c_threads s !! t = Some (Loaded c v) /\ counts i c = true.

(** [overlap = false]: no increment starts inside another one of the same counter. *)
Inductive conc_step (overlap : bool) : conc -> conc -> Prop :=
| s_load t c i s : c_threads s !! t = None -> counts i c = true ->
    (overlap = false -> forall t', ~ incrementing i s t') ->
    conc_step overlap s (set_threads (<[t := Loaded c (counter_of i (c_k s))]> (c_threads s)) s)
| s_store t c i v s : c_threads s !! t = Some (Loaded c v) -> counts i c = true ->
    conc_step overlap s (store_and_run t c i v s)
| s_other c s : (forall i, counts i c = false) -> (forall p, c <> KTrack p) ->
    conc_step overlap s (Conc (run (exec_kernel c) (c_k s)).2 (c_threads s) (c_done s ++ [c]) (c_reports s))
| s_track t p s : c_threads s !! t = None ->
    conc_step overlap s (set_threads (<[t := Sampling p [] (c_done s)]> (c_threads s)) s)
| s_sample t p l from i s : c_threads s !! t = Some (Sampling p l from) -> sample_order !! length l = Some i ->
    conc_step overlap s (set_threads (<[t := Sampling p (l ++ [counter_of i (c_k s)]) from]> (c_threads s)) s)
| s_copy t p w r o f from s : c_threads s !! t = Some (Sampling p [w; r; o; f] from) ->
    conc_step overlap s (copy_out t p (Luis.Track o r w f) from s).

Definition conc_start (k : K) : conc := Conc k ∅ [] [].

(** The number of finished calls that incremented [i]. *)
Definition made (i : counter) (cs : list kcall) : Z := calls_where (counts i) cs.

(** What is sure of a value [x] read from [i]: it is at most the number of
    calls made; without overlap it is at least the number made before [from]. *)
Definition plausible (overlap : bool) (i : counter) (from upto : list kcall) (x : Z) : Prop :=
  0 <= x <= made i upto /\ (overlap = false -> made i from <= x).

Definition report_ok (overlap : bool) (rp : report) : Prop :=
  if uncopied (rp_trackers rp) 32 =? 0
  then rp_ret rp = 0 /\ exists tc, rp_user rp = Some tc /\
         forall i, plausible overlap i (rp_from rp) (rp_upto rp) (value i tc)
  else rp_ret rp = - EFAULT.

Definition thread_ok (overlap : bool) (s : conc) (th : thread) : Prop :=
  match th with
  | Loaded c v => forall i, counts i c = true -> plausible overlap i (c_done s) (c_done s) v
  | Sampling p l from => from `prefix_of` c_done s /\
      forall j i x, sample_order !! j = Some i -> l !! j = Some x -> plausible overlap i from (c_done s) x
  end.

Record conc_inv (overlap : bool) (s : conc) : Prop := {
  ci_counter i : plausible overlap i (c_done s) (c_done s) (counter_of i (c_k s));
  ci_threads t th : c_threads s !! t = Some th -> thread_ok overlap s th;
  ci_alone i t1 t2 : overlap = false -> incrementing i s t1 -> incrementing i s t2 -> t1 = t2;
  ci_reports rp : rp ∈ c_reports s -> report_ok overlap rp;
}.

Lemma exec_counter i c k :
  counter_of i (run (exec_kernel c) k).2 = if counts i c then s64 (counter_of i k + 1) else counter_of i k.
Proof. destruct i; [apply open_counts|apply read_counts|apply write_counts|apply fork_counts]. Qed.
Lemma set_counter_of i j v k : counter_of j (set_counter i v k) = if decide (j = i) then v else counter_of j k.
Proof. by destruct i, j. Qed.
(** Every call is counted at most once. *)
Lemma counts_one i j c : counts i c = true -> counts j c = true -> i = j.
Proof. destruct i, j, c as [|[]| |]; done. Qed.

Lemma made_app i cs c : made i (cs ++ [c]) = made i cs + (if counts i c then 1 else 0).
Proof.
  unfold made, calls_where. rewrite List.filter_app, length_app. simpl. destruct (counts i c); simpl; lia.
Qed.
Lemma made_length i cs : 0 <= made i cs <= Z.of_nat (length cs).
Proof. unfold made, calls_where. pose proof (List.filter_length_le (counts i) cs). lia. Qed.
Lemma made_prefix i cs cs' : cs `prefix_of` cs' -> made i cs <= made i cs'.
Proof.
  intros [tl ->]. unfold made, calls_where. rewrite List.filter_app, length_app. lia.
Qed.

Lemma plausible_later overlap i from upto upto' x :
  upto `prefix_of` upto' -> plausible overlap i from upto x -> plausible overlap i from upto' x.
Proof. intros H%(made_prefix i) [??]. split; [lia|done]. Qed.

Lemma inv_start overlap k : booted k -> conc_inv overlap (conc_start k).
Proof.
  intros H. injection H as H1 H2 H3 H4. split; simpl.
  - intros i. assert (counter_of i k = 0) as -> by by destruct i. split; [unfold made, calls_where; simpl; lia|done].
  - intros t th. by rewrite lookup_empty.
  - intros i t1 t2 _ (c & v & Hc & _). simpl in Hc. by rewrite lookup_empty in Hc.
  - set_solver.
Qed.

(** A thread starts or samples: the counters stay. *)
Lemma inv_thread overlap s t th : conc_inv overlap s -> thread_ok overlap s th ->
  (overlap = false -> forall i t', incrementing i (set_threads (<[t := th]> (c_threads s)) s) t ->
     incrementing i s t' -> t' = t) ->
  conc_inv overlap (set_threads (<[t := th]> (c_threads s)) s).
Proof.
  intros [Hc Ht Ha Hr] Hth Hal. split; simpl; try done.
  - intros t' th'. rewrite lookup_insert_Some. intros [[-> <-]|[_ ?]]; [done|by eapply Ht].
  - intros i t1 t2 Ho Hi1 Hi2.
    assert (forall t', t' <> t -> incrementing i (set_threads (<[t := th]> (c_threads s)) s) t' -> incrementing i s t') as Hold.
    { intros t' Hne (c & v & H & ?). simpl in H. rewrite lookup_insert_ne in H by done. by exists c, v. }
    destruct (decide (t1 = t)) as [->|], (decide (t2 = t)) as [->|]; [done|..].
    + symmetry. by apply (Hal Ho i); [|apply Hold].
    + by apply (Hal Ho i); [|apply Hold].
    + by eapply Ha; [|apply Hold|apply Hold].
Qed.

(** A call is over: the calls made grow, its counter and no other with them. *)
Lemma inv_done overlap s k c ts : conc_inv overlap s -> ts ⊆ c_threads s ->
  (forall i, counts i c = false -> counter_of i k = counter_of i (c_k s)) ->
  (forall i, counts i c = true -> plausible overlap i (c_done s ++ [c]) (c_done s ++ [c]) (counter_of i k)) ->
  (overlap = false -> forall i t c' v, counts i c = true -> ts !! t = Some (Loaded c' v) -> counts i c' = false) ->
  conc_inv overlap (Conc k ts (c_done s ++ [c]) (c_reports s)).
Proof.
  intros [Hc Ht Ha Hr] Hts Hk Hk' Hal.
  split; simpl; try done.
  - intros i. destruct (counts i c) eqn:E; [by apply Hk'|]. rewrite Hk by done.
    specialize (Hc i). unfold plausible in *. rewrite made_app, E, Z.add_0_r. done.
  - intros t th Hth. pose proof (lookup_weaken _ _ _ _ Hth Hts) as Hth'. specialize (Ht _ _ Hth'). destruct th as [c' v|p l from]; simpl in *.
    + intros i Hi. specialize (Ht i Hi) as [H1 H2]. split; rewrite made_app.
      * destruct (counts i c); lia.
      * intros Ho. destruct (counts i c) eqn:E; [by rewrite (Hal Ho i t c' v) in Hi|]. rewrite Z.add_0_r. auto.
    + destruct Ht as [Hp Hl]. split; [by apply prefix_app_r|]. intros j i x Hj Hx.
      eapply plausible_later; [|by eapply Hl]. by apply prefix_app_r.
  - intros i t1 t2 Ho (c1 & v1 & H1 & ?) (c2 & v2 & H2 & ?). simpl in *.
    apply (Ha i t1 t2 Ho); [exists c1, v1|exists c2, v2]; (split; [by eapply lookup_weaken|done]).
Qed.

Lemma inv_store overlap s t c i v : conc_inv overlap s ->
  c_threads s !! t = Some (Loaded c v) -> counts i c = true ->
  Z.of_nat (length (c_done s ++ [c])) < 2 ^ 63 -> conc_inv overlap (store_and_run t c i v s).
Proof.
  intros Hinv Ht Hi Hlen. pose proof (ci_threads _ _ Hinv _ _ Ht i Hi) as [Hv Hv'].
  apply inv_done; [done|apply delete_subseteq|..].
  - intros j Hj. rewrite exec_counter, Hj, set_counter_of. rewrite decide_False; [done|congruence].
  - intros j Hj. rewrite <- (counts_one i j c Hi Hj). rewrite exec_counter, Hi, set_counter_of, decide_True by done.
    rewrite s64_small by (pose proof (made_length i (c_done s)); rewrite length_app in Hlen; simpl in Hlen; split; lia).
    unfold plausible. rewrite made_app, Hi. split; [lia|]. intros Ho. specialize (Hv' Ho). lia.
  - intros Ho j t' c' v' Hj (Hne & Ht')%lookup_delete_Some. apply not_true_is_false. intros Hc'. apply Hne.
    by apply (ci_alone _ _ Hinv j t t' Ho); [exists c, v|exists c', v'].
Qed.

Lemma inv_copy overlap s t p w r o f from : conc_inv overlap s ->
  c_threads s !! t = Some (Sampling p [w; r; o; f] from) ->
  conc_inv overlap (copy_out t p (Luis.Track o r w f) from s).
Proof.
  intros Hinv Ht. pose proof (ci_threads _ _ Hinv _ _ Ht) as [Hp Hl]. destruct Hinv as [Hc Hth Ha Hr].
  assert (report_ok overlap (Report p (run (Luis.sys_luis_track_syscall_usage p) (luis_with (Luis.Track o r w f) (c_k s))).1
    (Luis.tracks (run (Luis.sys_luis_track_syscall_usage p) (luis_with (Luis.Track o r w f) (c_k s))).2 !! p) from (c_done s))) as Hok.
  { unfold report_ok, run, Luis.sys_luis_track_syscall_usage, copy_to_user, sbind, sgets, smodify, fail_if, sret. simpl.
    destruct (uncopied p 32 =? 0); simpl; [|done]. split; [done|]. rewrite lookup_insert_eq. eexists. split; [done|].
    intros []; simpl; [apply (Hl 2%nat)|apply (Hl 1%nat)|apply (Hl 0%nat)|apply (Hl 3%nat)]; done. }
  unfold copy_out. destruct (run (Luis.sys_luis_track_syscall_usage p) _) as [ret l]. simpl in Hok. split; simpl.
  - intros i. specialize (Hc i). by destruct i.
  - intros t' th (_ & H)%lookup_delete_Some. by apply (Hth t').
  - intros i t1 t2 Ho (c1 & v1 & H1 & ?) (c2 & v2 & H2 & ?). simpl in H1, H2.
    apply lookup_delete_Some in H1 as [_ H1], H2 as [_ H2].
    apply (Ha i t1 t2 Ho); [by exists c1, v1|by exists c2, v2].
  - intros rp. rewrite elem_of_app, list_elem_of_singleton. intros [?| ->]; [by apply Hr|done].
Qed.

Lemma inv_step overlap s s' : conc_inv overlap s -> conc_step overlap s s' ->
  Z.of_nat (length (c_done s')) < 2 ^ 63 -> conc_inv overlap s'.
Proof.
  intros Hinv Hstep Hlen. destruct Hstep as [t c i s Ht Hi Hal|t c i v s Ht Hi|c s Hno _|t p s Ht|t p l from i s Ht Hi|t p w r o f from s Ht].
  - apply inv_thread; [done|..].
    + intros j Hj. rewrite <- (counts_one i j c Hi Hj). apply (ci_counter _ _ Hinv).
    + intros Ho j t' (c' & v' & H & Hj) Hinc. simpl in H. rewrite lookup_insert_eq in H. injection H as <- <-.
      destruct (Hal Ho t'). by rewrite (counts_one i j _ Hi Hj).
  - by apply inv_store.
  - apply inv_done; [done..| | |].
    + intros i Hi. by rewrite exec_counter, Hi.
    + intros i Hi. by rewrite Hno in Hi.
    + intros _ i ???. by rewrite Hno.
  - apply inv_thread; [done|..].
    + split; [done|]. intros ???? H. by rewrite lookup_nil in H.
    + intros _ i t' (c' & v' & H & _) _. simpl in H. rewrite lookup_insert_eq in H. done.
  - destruct (ci_threads _ _ Hinv _ _ Ht) as [Hp Hl]. apply inv_thread; [done|..].
    + split; [done|]. intros j i' x Hj. destruct (decide (j = length l)) as [->|].
      * rewrite list_lookup_middle by done. intros [= <-]. assert (i' = i) as -> by congruence. destruct (ci_counter _ _ Hinv i) as [? H2].
        split; [done|]. intros Ho. specialize (H2 Ho). apply (made_prefix i) in Hp. lia.
      * intros Hx. assert (j < length l)%nat by (apply lookup_lt_Some in Hx; rewrite length_app in Hx; simpl in Hx; lia).
        rewrite lookup_app_l in Hx by done. by apply (Hl j).
    + intros _ j t' (c' & v' & H & _) _. simpl in H. rewrite lookup_insert_eq in H. done.
  - by apply inv_copy.
Qed.

Lemma step_done overlap s s' : conc_step overlap s s' -> (length (c_done s) <= length (c_done s'))%nat.
Proof. destruct 1; simpl; rewrite ?length_app; simpl; try lia. unfold copy_out. by destruct (run _ _). Qed.

Lemma conc_reachable_inv overlap k s : booted k -> rtc (conc_step overlap) (conc_start k) s ->
  Z.of_nat (length (c_done s)) < 2 ^ 63 -> conc_inv overlap s.
Proof.
  intros Hb. revert s. apply (rtc_ind_r (fun s => Z.of_nat (length (c_done s)) < 2 ^ 63 -> conc_inv overlap s)).
  { intros _. by apply inv_start. }
  intros s s' _ Hstep IH Hlen. eapply inv_step; [apply IH|done..]. apply step_done in Hstep. lia.
Qed.

(** C6: threads make the calls of the four files at the same time, from boot on,
    fewer than 2^63 in all.  However their steps interleave, a
    [luis_track_syscall_usage] whose buffer can be written returns 0 and
    stores four numbers, none of them larger than the number of
    [open]/[openat]/[creat], [read], [write] and [clone] calls counted before
    it returned (-EFAULT when the buffer cannot be written); and as long as no
    increment of a counter falls between the load and the store of another
    one, none of them is smaller than the number of calls counted before it
    began, so that the report is exact when no counted call is made meanwhile. *)
Theorem track_reports_calls overlap k s : booted k -> rtc (conc_step overlap) (conc_start k) s ->
  Z.of_nat (length (c_done s)) < 2 ^ 63 ->
  forall rp, rp ∈ c_reports s ->
  if uncopied (rp_trackers rp) 32 =? 0
  then rp_ret rp = 0 /\ exists tc, rp_user rp = Some tc /\ forall i,
    0 <= value i tc <= calls_where (counts i) (rp_upto rp) /\
    (overlap = false -> calls_where (counts i) (rp_from rp) <= value i tc)
  else rp_ret rp = - EFAULT.
Proof. intros Hb Hr Hlen. apply (ci_reports _ _ (conc_reachable_inv _ _ _ Hb Hr Hlen)). Qed.

(** Two increments of the same counter that overlap leave it incremented once:
    both threads load the same value. *)
Theorem increments_get_lost (t1 t2 : Z) c1 c2 i k :
  t1 <> t2 -> counts i c1 = true -> counts i c2 = true -> counter_of i k = 0 ->
  exists s, rtc (conc_step true) (conc_start k) s /\ c_threads s = ∅ /\
    made i (c_done s) = 2 /\ counter_of i (c_k s) = 1.
Proof.
  intros Hne H1 H2 H0. eexists. split; [|split; [|split]].
  - eapply rtc_l; [apply (s_load true t1 c1 i); [apply lookup_empty|done|done]|].
    eapply rtc_l; [apply (s_load true t2 c2 i); [simpl; by rewrite lookup_insert_ne, lookup_empty by done|done|done]|].
    eapply rtc_l; [eapply (s_store true t1 c1 i); [simpl; rewrite lookup_insert_ne by done; by rewrite lookup_insert_eq|done]|].
    eapply rtc_once. eapply (s_store true t2 c2 i); [|done].
    simpl. rewrite lookup_delete_ne by done. by rewrite lookup_insert_eq.
  - simpl. apply map_eq. intros t. rewrite lookup_empty, lookup_delete_None, lookup_delete_None, !lookup_insert_None, lookup_empty.
    destruct (decide (t2 = t)), (decide (t1 = t)); naive_solver.
  - unfold made, calls_where. simpl. by rewrite H1, H2.
  - simpl. rewrite exec_counter, H2, set_counter_of, decide_True, H0 by done. done.
Qed.
End system.

(** ** A concrete kernel, put together from those of the components *)
Module Demo.
#[local] Existing Instances uaccess_ok root_caps Open.Demo.envD Open.Demo.open_lawsD Seek.Demo.env0 ReadWrite.Demo.drv0
  Clone.Demo.envC Clone.Demo.mmE Clone.Demo.fkE.
Definition k0 : kernel Z unit :=
  Kernel (Open.OState (Open.ofds Open.Demo.s0) (Open.oworld Open.Demo.s0) 0) ReadWrite.Demo.s0
    (Clone.ClState Fork.Demo.s0 0 ∅ [] []) Luis.Demo.s0.
Definition prog : list kcall :=
  [KOpen (Open.COpen 1000 0 0); KRw (ReadWrite.Read 3 4096 50); KClone (Clone.CFork 1); KTrack 900;
   KRw (ReadWrite.Write 4 4096 10); KRw (ReadWrite.Read 9 4096 50); KClone (Clone.CClone 1 17 0 0 0 0);
   KOpen (Open.COpen 404 0 0)].

(** Two opens, one of them failing; two reads, one failing; a write; [clone]
    counts and [fork] does not. *)
Lemma track_reports_sequence_witness :
  Luis.tracks (k_luis (run (exec_kernel (KTrack 800)) (run_all exec_kernel prog k0)).2) !! 800 = Some (Luis.Track 2 2 1 1).
Proof.
  pose proof (track_reports_sequence prog 800 k0 eq_refl) as H. cbv zeta in H.
  destruct (run (exec_kernel (KTrack 800)) (run_all exec_kernel prog k0)) as [r k'']. cbn [uncopied uaccess_ok Z.eqb] in H.
  destruct H as [_ H]. cbn [snd]. rewrite H. vm_compute. reflexivity.
Defined.

(** Thread 1 opens a file, thread 2 enters a failing read, thread 1 opens
    another one meanwhile; thread 3 then asks for the counters. *)
#[local] Abbreviation conc0 := (conc (Wo := Z) (Wr := unit)).
Definition open1 := KOpen (Open.COpen 1000 0 0).
Definition open2 := KOpen (Open.COpen 404 0 0).
Definition read1 := KRw (ReadWrite.Read 9 4096 50).
Definition load (t : Z) c i (s : conc0) : conc0 := set_threads (<[t := Loaded c (counter_of i (c_k s))]> (c_threads s)) s.
Definition sample (t p : Z) l from i (s : conc0) : conc0 :=
  set_threads (<[t := Sampling p (l ++ [counter_of i (c_k s)]) from]> (c_threads s)) s.
Definition calls_made : conc0 :=
  let s := conc_start k0 in
  let s := store_and_run 1 open1 OpenCnt 0 (load 1 open1 OpenCnt s) in
  let s := load 1 open2 OpenCnt (load 2 read1 ReadCnt s) in
  store_and_run 1 open2 OpenCnt 1 (store_and_run 2 read1 ReadCnt 0 s).
Definition done : list kcall := [open1; read1; open2].
Definition reported : conc0 :=
  let s := set_threads (<[3 := Sampling 800 [] (c_done calls_made)]> (c_threads calls_made)) calls_made in
  let s := sample 3 800 [0] done ReadCnt (sample 3 800 [] done WriteCnt s) in
  let s := sample 3 800 [0; 1; 2] done ForkCnt (sample 3 800 [0; 1] done OpenCnt s) in
  copy_out 3 800 (Luis.Track 2 1 0 0) done s.

Ltac nobody := let H := fresh in intros _ ? (? & ? & H & ?); simpl in H;
  repeat (apply lookup_insert_Some in H as [[<- [= <- <-]]|[_ H]]; [done|]); by rewrite lookup_empty in H.

Lemma reported_run : rtc (conc_step false) (conc_start k0) reported.
Proof.
  eapply rtc_l; [apply (s_load false 1 open1 OpenCnt); [reflexivity|reflexivity|nobody]|].
  eapply rtc_l; [apply (s_store false 1 open1 OpenCnt 0); [vm_compute; reflexivity|reflexivity]|].
  eapply rtc_l; [apply (s_load false 2 read1 ReadCnt); [vm_compute; reflexivity|reflexivity|]|].
  { intros _ ? (? & ? & H & ?). simpl in H. rewrite delete_insert_id in H by reflexivity. by rewrite lookup_empty in H. }
  eapply rtc_l; [apply (s_load false 1 open2 OpenCnt); [vm_compute; reflexivity|reflexivity|]|].
  { intros _ ? (? & ? & H & ?). simpl in H. rewrite delete_insert_id in H by reflexivity.
    apply lookup_insert_Some in H as [[<- [= <- <-]]|[_ H]]; [done|]. by rewrite lookup_empty in H. }
  eapply rtc_l; [apply (s_store false 2 read1 ReadCnt 0); [vm_compute; reflexivity|reflexivity]|].
  eapply rtc_l; [apply (s_store false 1 open2 OpenCnt 1); [vm_compute; reflexivity|reflexivity]|].
  eapply rtc_l; [apply (s_track false 3 800); vm_compute; reflexivity|].
  eapply rtc_l; [apply (s_sample false 3 800 [] done WriteCnt); vm_compute; reflexivity|].
  eapply rtc_l; [apply (s_sample false 3 800 [0] done ReadCnt); vm_compute; reflexivity|].
  eapply rtc_l; [apply (s_sample false 3 800 [0; 1] done OpenCnt); vm_compute; reflexivity|].
  eapply rtc_l; [apply (s_sample false 3 800 [0; 1; 2] done ForkCnt); vm_compute; reflexivity|].
  apply rtc_once. apply (s_copy false 3 800 0 1 2 0 done). vm_compute. reflexivity.
Qed.

(** The counters have not changed since the call began: the numbers are exact. *)
Lemma track_reports_calls_witness : exists tc,
  c_reports reported = [Report 800 0 (Some tc) done done] /\
  Luis.counter_open tc = 2 /\ Luis.counter_read tc = 1 /\ Luis.counter_write tc = 0 /\ Luis.counter_fork tc = 0.
Proof.
  assert (c_reports reported = [Report 800 0 (Some (Luis.Track 2 1 0 0)) done done]) as E by (vm_compute; reflexivity).
  destruct (track_reports_calls false k0 reported eq_refl reported_run ltac:(vm_compute; reflexivity)
    (Report 800 0 (Some (Luis.Track 2 1 0 0)) done done)) as (_ & tc & Htc & Hv); [rewrite E; constructor|].
  exists tc. split; [rewrite E; cbn in Htc; by injection Htc as <-|].
  clear E Htc. cbn [rp_from rp_upto] in Hv.
  assert (forall i, value i tc = calls_where (counts i) done) as Hx by (intros i; specialize (Hv i) as [H1 H2]; specialize (H2 eq_refl); lia).
  split_and!; [apply (Hx OpenCnt)|apply (Hx ReadCnt)|apply (Hx WriteCnt)|apply (Hx ForkCnt)].
Defined.

Lemma increments_get_lost_witness : exists s, rtc (conc_step true) (conc_start k0) s /\ c_threads s = ∅ /\
  made OpenCnt (c_done s) = 2 /\ counter_of OpenCnt (c_k s) = 1.
Proof. apply (increments_get_lost 1 2 open1 open2 OpenCnt k0); done. Defined.
End Demo.
