(* ===== verification/Modules.v ===== *)
(** * The kernel modules under Modulos/

    Each module publishes a /proc file; its [show] function is modelled as the
    text it prints.  What the modules ask of the kernel ([si_meminfo],
    process memory, /proc/stat, [vfs_statfs], [sscanf]) is a parameter. *)
From S2P Require Import Prelude UMem Sysinfo.
From stdpp Require Import pretty.
#[local] Open Scope Z_scope.

(** ** Text *)
Definition nl : string := String (Ascii.ascii_of_nat 10) EmptyString.
Definition esc : string := String (Ascii.ascii_of_nat 27) EmptyString.
Definition spaces (n : nat) : string := Nat.iter n (String (Ascii.ascii_of_nat 32)) EmptyString.
(** [%<w>..] and [%-<w>..] *)
Definition pad_left (w : nat) (s : string) : string := spaces (w - String.length s) +:+ s.
Definition pad_right (w : nat) (s : string) : string := s +:+ spaces (w - String.length s).
Definition dec (n : Z) : string := pretty n.
(** [%02lu] *)
Definition dec2 (n : Z) : string := if n <? 10 then "0" +:+ dec n else dec n.

(** The entries of /proc; creating one can fail. *)
Definition procdir : Type := gset string.
Definition proc_create (ok : bool) (name : string) (d : procdir) : option procdir :=
  if ok then Some ({[name]} ∪ d) else None.
Definition remove_proc_entry (name : string) (d : procdir) : procdir := d ∖ {[name]}.

(** ** cpu_stats *)
Module CpuStats.
(** The first eight numbers of the cpu line of /proc/stat. *)
Record cpu_line := CpuLine {
  user : Z; nice : Z; system : Z; idle : Z; iowait : Z; irq : Z; softirq : Z; steal : Z;
}.
Record cpu_state := CpuState { prev_idle_time : Z; prev_total_time : Z }.
Abbreviation ERR := U64_MAX (only parsing).              (** -1 as unsigned long long *)

(** [None]: /proc/stat could not be opened, read or parsed. *)
Definition get_cpu_idle_time (line : option cpu_line) : Z :=
  match line with None => ERR | Some l => u64 (idle l + iowait l) end.
Definition get_cpu_total_time (line : option cpu_line) : Z :=
  match line with
  | None => ERR
  | Some l => u64 (user l + nice l + system l + idle l + iowait l + irq l + softirq l + steal l)
  end.

(** The file is read twice, so the two samples are of different moments. *)
Definition calculate_cpu_usage (line1 line2 : option cpu_line) (s : cpu_state) : Z * cpu_state :=
  let idle_time := get_cpu_idle_time line1 in
  let total_time := get_cpu_total_time line2 in
  if (idle_time =? ERR) || (total_time =? ERR) then (-1, s)
  else
    let delta_idle := u64 (idle_time - prev_idle_time s) in
    let delta_total := u64 (total_time - prev_total_time s) in
    (if 0 <? delta_total then s32 (u64 (100 * u64 (delta_total - delta_idle)) / delta_total) else 0,
     CpuState idle_time total_time).

Definition show_cpu_stats (line1 line2 : option cpu_line) (s : cpu_state) : string * cpu_state :=
  let '(cpu_usage, s) := calculate_cpu_usage line1 line2 s in
  (if 0 <=? cpu_usage then "Uso de CPU: " +:+ dec cpu_usage +:+ "%" +:+ nl
   else "Uso de CPU: Error" +:+ nl, s).

Definition cpu_stats_init (ok : bool) (d : procdir) : Z * procdir :=
  match proc_create ok "cpu_stats" d with Some d' => (0, d') | None => (- ENOMEM, d) end.
Definition cpu_stats_exit (d : procdir) : procdir := remove_proc_entry "cpu_stats" d.

Lemma percentage_range di dt : 0 <= di <= dt -> 0 < dt -> 100 * dt < u64_mod ->
  let p := s32 (u64 (100 * u64 (dt - di)) / dt) in p = 100 * (dt - di) / dt /\ 0 <= p <= 100.
Proof.
  intros Hd Hp Hb. rewrite (u64_small (dt - di)) by (unfold is_u64; lia).
  rewrite u64_small by (unfold is_u64; lia). cbv zeta.
  assert (0 <= 100 * (dt - di) / dt <= 100).
  { split; [apply Z.div_pos; lia|]. apply Z.div_le_upper_bound; lia. }
  rewrite s32_small; [lia|]. unfold is_s32. lia.
Qed.

(** If the idle and total times did not go back since the previous read,
    idle time grew by no more than total time and the total by less than
    2^64/100 ticks, the module prints the share of busy time in the interval,
    a number from 0 to 100, and remembers the new sample. *)
Theorem cpu_usage_is_a_percentage l1 l2 s i t :
  get_cpu_idle_time (Some l1) = i -> get_cpu_total_time (Some l2) = t -> i <> ERR -> t <> ERR ->
  0 <= prev_idle_time s <= i -> 0 <= prev_total_time s < t ->
  i - prev_idle_time s <= t - prev_total_time s -> 100 * (t - prev_total_time s) < u64_mod ->
  let di := i - prev_idle_time s in let dt := t - prev_total_time s in
  exists p, calculate_cpu_usage (Some l1) (Some l2) s = (p, CpuState i t) /\
    p = 100 * (dt - di) / dt /\ 0 <= p <= 100.
Proof.
  intros Hi Ht Hie Hte Hpi Hpt Hd Hb di dt. unfold calculate_cpu_usage. rewrite Hi, Ht.
  replace ((i =? ERR) || (t =? ERR)) with false by lia.
  rewrite (u64_small (i - _)) by (unfold is_u64; lia). rewrite (u64_small (t - _)) by (unfold is_u64; lia).
  replace (0 <? t - prev_total_time s) with true by lia. eexists. split; [done|].
  apply percentage_range; subst di dt; lia.
Qed.

(** Without that, the unsigned subtraction wraps: idle time that grew by 2
    while total time grew by 1 is reported as a usage far above 100. *)
Lemma cpu_usage_can_exceed_100 :
  (calculate_cpu_usage (Some (CpuLine 0 0 0 12 0 0 0 0)) (Some (CpuLine 9 0 0 12 0 0 0 0)) (CpuState 10 20)).1 = -100 /\
  (calculate_cpu_usage (Some (CpuLine 0 0 0 14 0 0 0 0)) (Some (CpuLine 9 0 0 14 0 0 0 0)) (CpuState 10 20)).1 = 1431655732.
Proof. split; vm_compute; reflexivity. Qed.
End CpuStats.

(** ** luis_mem_process *)
Module MemProcess.
(** A process of [for_each_process]; [None] for a kernel thread. *)
Record process := Process { p_pid : Z; p_comm : string; p_mm : option (Z * Z); p_oom : Z }.   (** total_vm, rss in pages *)

Definition calculate_percentage (part total : Z) : Z :=
  if negb (total =? 0) then u64 (part * 100) / total else 0.

Record row := Row { r_pid : Z; r_comm : string; r_vsz : Z; r_rss : Z; r_usage : Z; r_oom : Z }.
Definition row_of (p : process) : row :=
  match p_mm p with
  | Some (total_vm, rss_pages) =>
      let vsz := shl64 total_vm 2 in
      let rss := shl64 rss_pages 2 in
      Row (p_pid p) (p_comm p) vsz rss (calculate_percentage (u64 (rss * 100)) vsz) (p_oom p)
  | None => Row (p_pid p) (p_comm p) 0 0 0 (p_oom p)
  end.
Definition print_row (r : row) : string :=
  "| " +:+ pad_left 5 (dec (r_pid r)) +:+ " | " +:+ pad_right 15 (r_comm r) +:+ " | " +:+
  pad_left 19 (dec (r_vsz r)) +:+ " | " +:+ pad_left 19 (dec (r_rss r)) +:+ " | " +:+
  pad_left 11 (dec (r_usage r / 100)) +:+ "." +:+ dec2 (r_usage r mod 100) +:+ "% | " +:+
  pad_left 13 (dec (r_oom r)) +:+ " |" +:+ nl.
Definition rule : string :=
  "+-------+-----------------+---------------------+----------------------+----------------+---------------+" +:+ nl.
Definition heading : string :=
  "|  PID  |       Name      | Reserved Memory(KB) | Committed Memory(KB) | Mem Usage (%)  | OOM Score Adj |" +:+ nl.

(** The loop over the processes. *)
Fixpoint show_rows (target_pid : Z) (ps : list process) : string :=
  match ps with
  | [] => EmptyString
  | p :: ps' =>
      if negb (target_pid =? 0) && negb (p_pid p =? target_pid) then show_rows target_pid ps'
      else print_row (row_of p) +:+ show_rows target_pid ps'
  end.
Definition meminfo_show (totalram : Z) (target_pid : Z) (ps : list process) : string :=
  "Total Reserved Memory (KB): " +:+ dec (u64 (totalram * 4)) +:+ nl +:+ rule +:+ heading +:+ rule +:+
  show_rows target_pid ps +:+ rule.

(** [sscanf] with %d: [None] when it stores nothing. *)
Class Scanf := { scan_d : list Z -> option Z }.

(** The state is [target_pid] and the user's memory. *)
Definition meminfo_write `{UAccess} `{Scanf} (m : umem) (buf count : Z) (target_pid : Z) : Z * Z :=
  if 9 <? count then (- EINVAL, target_pid)
  else
    let '(rest, input) := get_bytes m buf count in
    if negb (rest =? 0) then (- EFAULT, target_pid)
    else
      let input := input ++ [0] in
      (count, if bool_decide (input !! 0%nat = Some 48 /\ input !! 1%nat = Some 0) then 0
              else default target_pid (scan_d input)).

Definition meminfo_init (ok : bool) (d : procdir) : Z * procdir :=
  (0, default d (proc_create ok "luis_mem_process" d)).
Definition meminfo_exit (d : procdir) : procdir := remove_proc_entry "luis_mem_process" d.

Definition join (l : list string) : string := foldr String.append EmptyString l.

Lemma show_rows_filter t ps :
  show_rows t ps = join (print_row ∘ row_of <$> filter (fun p => t = 0 \/ p_pid p = t) ps).
Proof.
  induction ps as [|p ps IH]; [done|]. cbn [show_rows].
  destruct (decide (t = 0 \/ p_pid p = t)) as [H|H].
  - rewrite filter_cons_True by done. replace (negb (t =? 0) && negb (p_pid p =? t)) with false by lia.
    rewrite IH. done.
  - rewrite filter_cons_False by done. by replace (negb (t =? 0) && negb (p_pid p =? t)) with true by lia.
Qed.

Lemma row_usage p total_vm rss :
  p_mm p = Some (total_vm, rss) -> 0 <= rss <= total_vm -> 0 < total_vm -> total_vm * 40000 < u64_mod ->
  r_vsz (row_of p) = 4 * total_vm /\ r_rss (row_of p) = 4 * rss /\
  r_usage (row_of p) = 10000 * rss / total_vm /\ 0 <= r_usage (row_of p) <= 10000.
Proof.
  intros Hm Hr Ht Hb. unfold row_of, calculate_percentage. rewrite Hm. cbn [r_vsz r_rss r_usage].
  rewrite (shl64_small total_vm), (shl64_small rss) by (unfold is_u64; change (2 ^ 2) with 4; lia).
  change (2 ^ 2) with 4. replace (total_vm * 4 =? 0) with false by lia. cbn [negb].
  rewrite (u64_small (rss * 4 * 100)) by (unfold is_u64; lia).
  rewrite u64_small by (unfold is_u64; lia).
  replace (rss * 4 * 100 * 100) with (10000 * rss * 4) by lia. rewrite Z.div_mul_cancel_r by lia.
  split_and!; [lia|lia|done|apply Z.div_pos; lia|apply Z.div_le_upper_bound; lia].
Qed.

(** After a pid was written to the module's file, reading it prints one
    line for each process with that pid, or for every process when 0 was
    written, and nothing else between the heading and the closing rule. *)
Theorem written_pid_selects_rows `{UAccess} `{Scanf} m buf count t ram ps t' :
  meminfo_write m buf count t = (count, t') -> 0 <= count ->
  (t' = 0 \/ scan_d (read_bytes m buf (Z.to_nat count) ++ [0]) = Some t' \/ t' = t) /\
  meminfo_show ram t' ps =
    "Total Reserved Memory (KB): " +:+ dec (u64 (ram * 4)) +:+ nl +:+ rule +:+ heading +:+ rule +:+
    join (print_row ∘ row_of <$> filter (fun p => t' = 0 \/ p_pid p = t') ps) +:+ rule.
Proof.
  intros E Hc. split; [|unfold meminfo_show; by rewrite show_rows_filter].
  unfold meminfo_write in E. destruct (9 <? count); [injection E; lia|].
  destruct (get_bytes m buf count) as [rest input] eqn:G.
  destruct (Z.eqb_spec rest 0) as [->|]; simpl in E; [|injection E; lia].
  apply get_bytes_ok in G as ->. injection E as <-. case_bool_decide; [auto|].
  destruct (scan_d _); simpl; auto.
Qed.

(** The usage column is the resident share of the address space in
    hundredths of a percent, between 0 and 100.00, for address spaces below
    2^64/40000 pages. *)
Theorem usage_column_is_a_percentage p total_vm rss :
  p_mm p = Some (total_vm, rss) -> 0 <= rss <= total_vm -> 0 < total_vm -> total_vm * 40000 < u64_mod ->
  r_vsz (row_of p) = 4 * total_vm /\ r_rss (row_of p) = 4 * rss /\
  r_usage (row_of p) = 10000 * rss / total_vm /\ 0 <= r_usage (row_of p) <= 10000.
Proof. apply row_usage. Qed.
End MemProcess.

(** ** luis_mem_info *)
Module MemInfo.
Import MemProcess(process, p_mm).

Definition calculate_percentage_bp (part total : Z) : Z :=
  if negb (total =? 0) then u64 (part * 10000) / total else 0.

(** The sums of the loop, in KB. *)
Fixpoint sum_memory (ps : list process) (reserved committed : Z) : Z * Z :=
  match ps with
  | [] => (reserved, committed)
  | p :: ps' =>
      match p_mm p with
      | Some (total_vm, rss) =>
          sum_memory ps' (u64 (reserved + shl64 total_vm 2)) (u64 (committed + shl64 rss 2))
      | None => sum_memory ps' reserved committed
      end
  end.
Definition frame : string := "+-----------------------+-----------------------+".
Definition colour (s : string) : string := esc +:+ "[1;36m" +:+ s +:+ esc +:+ "[0m" +:+ nl.
Definition meminfo_show_all (ps : list process) : string :=
  let '(reserved, committed) := sum_memory ps 0 0 in
  colour frame +:+ colour "| Reserved Memory (MB) | Committed Memory (MB) |" +:+ colour frame +:+
  "| " +:+ pad_left 21 (dec (reserved / 1024)) +:+ " | " +:+ pad_left 21 (dec (committed / 1024)) +:+ " |" +:+ nl +:+
  frame +:+ nl.
Definition meminfo_all_init (ok : bool) (d : procdir) : Z * procdir :=
  (0, default d (proc_create ok "luis_mem_info" d)).
Definition meminfo_all_exit (d : procdir) : procdir := remove_proc_entry "luis_mem_info" d.

Definition vm_total (ps : list process) : Z := foldr (fun p acc => match p_mm p with Some (v, _) => v | None => 0 end + acc) 0 ps.
Definition rss_total (ps : list process) : Z := foldr (fun p acc => match p_mm p with Some (_, r) => r | None => 0 end + acc) 0 ps.

Lemma u64_add_shl a b x : u64 (u64 (a + shl64 x 2) + b) = u64 (a + (4 * x + b)).
Proof.
  rewrite shl64_mul by lia. change (2 ^ 2) with 4. unfold u64.
  rewrite Zplus_mod_idemp_l, <- Z.add_assoc, (Z.add_comm (_ mod _)), Z.add_assoc, Zplus_mod_idemp_r.
  f_equal. lia.
Qed.
Lemma sum_memory_spec ps a b : is_u64 a -> is_u64 b ->
  sum_memory ps a b = (u64 (a + 4 * vm_total ps), u64 (b + 4 * rss_total ps)).
Proof.
  revert a b. induction ps as [|p ps IH]; intros a b Ha Hb; simpl.
  - by rewrite !Z.add_0_r, !u64_small.
  - destruct (p_mm p) as [[v r]|]; [|by rewrite IH].
    rewrite IH by apply u64_range. rewrite !u64_add_shl. f_equal; f_equal; lia.
Qed.
End MemInfo.

(** ** mem_stats *)
Module MemStats.
Definition kb (pages unit_ : Z) : Z := u64 (pages * unit_) / 1024.
Definition line (name : string) (n : Z) : string := name +:+ ": " +:+ dec n +:+ " KB" +:+ nl.
(** [stack_info]: the uninitialised [struct sysinfo]. *)
Definition show_mem_stats `{SysinfoEnv} (stack_info : sysinfo) : string :=
  let si := si_meminfo stack_info in
  line "Memoria Total" (kb (totalram si) (mem_unit si)) +:+ line "Memoria Libre" (kb (freeram si) (mem_unit si)) +:+
  line "Memoria en Buffers" (kb (bufferram si) (mem_unit si)) +:+ line "Swap Total" (kb (totalswap si) (mem_unit si)) +:+
  line "Swap Libre" (kb (freeswap si) (mem_unit si)).
Definition mem_stats_init (ok : bool) (d : procdir) : Z * procdir :=
  match proc_create ok "mem_stats" d with Some d' => (0, d') | None => (- ENOMEM, d) end.
Definition mem_stats_exit (d : procdir) : procdir := remove_proc_entry "mem_stats" d.
End MemStats.

(** ** disk_stats *)
Module DiskStats.
Record kstatfs := Kstatfs { f_bsize : Z; f_bfree : Z; f_blocks : Z }.
(** References held on the path of the mount point. *)
Record disk_state := DiskState { path_refs : Z }.
(** [kern_path] and [vfs_statfs]: an error, or what they found.  A successful
    [kern_path] takes a reference on the path. *)
Class DiskEnv := { kern_path_root : Z; vfs_statfs_root : Z + kstatfs }.

Definition proc_show `{DiskEnv} (s : disk_state) : Z * string * disk_state :=
  if negb (kern_path_root =? 0) then
    (kern_path_root, "Error al obtener el path de /: " +:+ dec kern_path_root +:+ nl, s)
  else
    let s := DiskState (path_refs s + 1) in
    match vfs_statfs_root with
    | inl ret => (ret, "Error al obtener estadísticas de /: " +:+ dec ret +:+ nl, s)
    | inr st =>
        let free_space := u64 (f_bsize st * f_bfree st) in
        let total_space := u64 (f_bsize st * f_blocks st) in
        (0, "Punto de montaje: /" +:+ nl +:+ "Espacio total: " +:+ dec total_space +:+ " bytes" +:+ nl +:+
            "Espacio libre: " +:+ dec free_space +:+ " bytes" +:+ nl, s)
    end.
Definition disk_stats_init (ok : bool) (d : procdir) : Z * procdir :=
  match proc_create ok "disk_stats" d with Some d' => (0, d') | None => (- ENOMEM, d) end.
Definition disk_stats_exit (d : procdir) : procdir := remove_proc_entry "disk_stats" d.

(** Every read of /proc/disk_stats that resolves the mount point leaves
    one more reference on its path, so n reads leak n references. *)
Theorem each_read_leaks_a_path_reference `{DiskEnv} n s :
  kern_path_root = 0 -> path_refs (Nat.iter n (fun s => (proc_show s).2) s) = path_refs s + Z.of_nat n.
Proof.
  intros Hk. induction n as [|n IH]; [simpl; lia|]. cbn [Nat.iter nat_rect].
  assert (forall x, path_refs (proc_show x).2 = path_refs x + 1) as Hs.
  { intros x. unfold proc_show. rewrite Hk. simpl. by destruct vfs_statfs_root. }
  unfold Nat.iter in *. simpl. rewrite Hs, IH. lia.
Qed.
End DiskStats.

Module Demo.
#[local] Existing Instance uaccess_ok.
Import CpuStats MemProcess DiskStats.
Definition scanf0 : Scanf := {| scan_d l := if bool_decide (l = bytes_of "42" ++ [0]) then Some 42 else None |}.
Definition disk0 : DiskEnv := {| kern_path_root := 0; vfs_statfs_root := inr (Kstatfs 4096 10 100) |}.
#[local] Existing Instances scanf0 disk0.
Definition ps0 : list process := [Process 1 "systemd" (Some (1000, 250)) 0; Process 2 "kthreadd" None 0; Process 42 "sh" (Some (300, 100)) 100].

Lemma cpu_usage_is_a_percentage_witness :
  exists p, calculate_cpu_usage (Some (CpuLine 0 0 0 150 50 0 0 0)) (Some (CpuLine 300 0 100 150 50 0 0 0))
      (CpuState 100 200) = (p, CpuState 200 600) /\ p = 75.
Proof.
  destruct (cpu_usage_is_a_percentage (CpuLine 0 0 0 150 50 0 0 0) (CpuLine 300 0 100 150 50 0 0 0)
    (CpuState 100 200) 200 600) as (p & Hp & -> & _);
    [reflexivity|reflexivity|lia|lia|simpl; lia|simpl; lia|simpl; lia|simpl; lia|].
  eexists. split; [exact Hp|reflexivity].
Defined.
Lemma written_pid_selects_rows_witness :
  exists out, meminfo_show 1000 42 ps0 = out /\
    (42 = 0 \/ scan_d (read_bytes (write_bytes ∅ 64 (bytes_of "42")) 64 2 ++ [0]) = Some 42 \/ 42 = 7).
Proof.
  eexists. split; [reflexivity|].
  exact (proj1 (written_pid_selects_rows (write_bytes ∅ 64 (bytes_of "42")) 64 2 7 1000 ps0 42 eq_refl ltac:(lia))).
Defined.
Lemma usage_column_is_a_percentage_witness : r_usage (row_of (Process 1 "systemd" (Some (1000, 250)) 0)) = 2500.
Proof.
  destruct (usage_column_is_a_percentage (Process 1 "systemd" (Some (1000, 250)) 0) 1000 250) as (_ & _ & -> & _);
    [reflexivity|lia|lia|lia|reflexivity].
Defined.
Lemma each_read_leaks_a_path_reference_witness :
  path_refs (Nat.iter 5 (fun s => (proc_show s).2) (DiskState 1)) = 6.
Proof. rewrite (each_read_leaks_a_path_reference 5 (DiskState 1)); reflexivity. Defined.
End Demo.
