(* ===== verification/BootConf.v ===== *)
(** * Boot configuration and the command lines

    init/main.c 262-480 and 609-672 (CONFIG_BLK_DEV_INITRD,
    CONFIG_BOOT_CONFIG): the boot configuration appended to the initial RAM
    disk, the command lines made from it, and the buffers in which the kernel
    keeps its command lines.  Strings are lists of bytes; a buffer is a list
    of fixed length and a write past its end is an outcome of its own.  The
    parser of boot configurations, the early allocator and [parse_args] are
    interfaces. *)
From S2P Require Import Prelude UMem.

Abbreviation COMMAND_LINE_SIZE := 2048 (only parsing).
Abbreviation XBC_DATA_MAX := 32767 (only parsing).
Abbreviation BOOTCONFIG_MAGIC_LEN := 12 (only parsing).
(** "#BOOTCONFIG\n" *)
Definition BOOTCONFIG_MAGIC : list Z := bytes_of "#BOOTCONFIG" ++ [10].

(** ** The configuration behind the initial RAM disk *)
Definition memcmp_eq (m : umem) (a : Z) (l : list Z) : bool := bool_decide (read_bytes m a (length l) = l).
(** The loop over the last four places where the magic can end. *)
Fixpoint find_magic (n : nat) (m : umem) (data : Z) : option Z :=
  match n with
  | O => None
  | S n => if memcmp_eq m data BOOTCONFIG_MAGIC then Some data else find_magic n m (data - 1)
  end.
Definition le32_to_cpu (l : list Z) : Z := foldr (fun b acc => b + 256 * acc) 0 l.

(** Nodes below a key: the composed name or an error, and the values. *)
Record xbc_key := XbcKey { xk_name : Z + list Z; xk_values : option (list (list Z)) }.
(** What [parse_args] finds: the options, and how it stopped. *)
Inductive stopped := ParsedAll | AfterDashes (offs : Z) | ParseError (e : Z).
Record parsed := Parsed { p_opts : list (list Z * option (list Z)); p_stop : stopped }.

Class BootEnv := {
  xbc_calc_checksum : list Z -> Z;
  xbc_get_embedded_bootconfig : option (list Z);
  xbc_init : list Z -> Z;                                    (** negative: malformed *)
  xbc_find_node : list Z -> list Z -> option (list xbc_key);   (** configuration, key *)
  memblock_alloc : Z -> bool;                                (** whether it succeeds *)
  parse_args : list Z -> parsed;
  CONFIG_BOOT_CONFIG_FORCE : bool;
}.

(** ** Printing into a buffer *)

(** [snprintf(buf + pos, rest, ...)] for a buffer that ends where [b] ends. *)
Definition snprintf (b : list Z) (pos : nat) (txt : list Z) : list Z :=
  let room := (length b - pos)%nat in
  match room with
  | O => b
  | S r => take pos b ++ take r txt ++ [0] ++ drop (pos + length (take r txt) + 1) b
  end.
Definition quoted (name val : list Z) : list Z := name ++ bytes_of "=" ++ [34] ++ val ++ [34] ++ bytes_of " ".
(** The loop over the values of a key. *)
Fixpoint print_values (name : list Z) (vals : list (list Z)) (b : list Z) (pos : nat) : list Z * nat :=
  match vals with
  | [] => (b, pos)
  | v :: vs => print_values name vs (snprintf b pos (quoted name v)) (pos + length (quoted name v))
  end.
(** The result: an error, or the length of the whole text. *)
Fixpoint print_keys (ks : list xbc_key) (b : list Z) (pos : nat) : (Z + nat) * list Z :=
  match ks with
  | [] => (inr pos, b)
  | k :: ks =>
      match xk_name k with
      | inl ret => (inl ret, b)
      | inr name =>
          match xk_values k with
          | None => let txt := name ++ bytes_of " " in print_keys ks (snprintf b pos txt) (pos + length txt)
          | Some vals => let '(b, pos) := print_values name vals b pos in print_keys ks b pos
          end
      end
  end.
Definition xbc_snprint_cmdline (b : list Z) (root : list xbc_key) : (Z + nat) * list Z := print_keys root b 0.

(** [strcpy(b + off, src)]; [None] when it would write past the end. *)
Definition strcpy (b : list Z) (off : Z) (src : list Z) : option (list Z) :=
  let n := Z.to_nat off in
  if (0 <=? off) && (n + length src + 1 <=? length b)%nat
  then Some (take n b ++ src ++ [0] ++ drop (n + length src + 1) b) else None.

Section bootconf.
Context `{BootEnv}.

(** The data and its size, and the end of the RAM disk after. *)
Definition get_boot_config_from_initrd (m : umem) (initrd_start initrd_end : Z) : option (Z * Z) * Z :=
  if initrd_end =? 0 then (None, initrd_end)
  else match find_magic 4 m (initrd_end - BOOTCONFIG_MAGIC_LEN) with
       | None => (None, initrd_end)
       | Some data =>
           let hdr := data - 8 in
           let size := le32_to_cpu (read_bytes m hdr 4) in
           let csum := le32_to_cpu (read_bytes m (hdr + 4) 4) in
           let data := u64 (hdr - size) in
           if data <? initrd_start then (None, initrd_end)
           else if negb (xbc_calc_checksum (read_bytes m data (Z.to_nat size)) =? csum) then (None, initrd_end)
           else (Some (data, size), data)
       end.

Definition xbc_make_cmdline (conf key : list Z) : option (list Z) :=
  match xbc_find_node conf key with
  | None => None
  | Some root =>
      match xbc_snprint_cmdline [] root with
      | (inr len, _) =>
          if (len =? 0)%nat then None
          else if negb (memblock_alloc (Z.of_nat len + 1)) then None
          else match xbc_snprint_cmdline (replicate (len + 1) 0) root with
               | (inr ret, b) => if (len <? ret)%nat then None else Some b
               | (inl _, _) => None
               end
      | (inl _, _) => None
      end
  end.

(** [bootconfig_params]: whether the option was seen. *)
Definition bootconfig_params (found : bool) (opt : list Z * option (list Z)) : bool :=
  if bool_decide (opt.1 = bytes_of "bootconfig") then true else found.

Record bconf := BConf {
  b_initrd_end : Z; bootconfig_found : bool; initargs_offs : Z;
  extra_command_line : option (list Z); extra_init_args : option (list Z);
}.
Definition setup_boot_config (m : umem) (initrd_start initrd_end : Z) (boot_command_line : list Z) : bconf :=
  let '(got, initrd_end) := get_boot_config_from_initrd m initrd_start initrd_end in
  let data := match got with
              | Some (a, size) => Some (read_bytes m a (Z.to_nat size))
              | None => xbc_get_embedded_bootconfig
              end in
  let tmp_cmdline := take (Z.to_nat (COMMAND_LINE_SIZE - 1)) boot_command_line in
  let p := parse_args tmp_cmdline in
  let found := foldl bootconfig_params false (p_opts p) in
  let none offs := BConf initrd_end found offs None None in
  match p_stop p with
  | ParseError _ => none 0
  | stop =>
      if negb (found || CONFIG_BOOT_CONFIG_FORCE) then none 0
      else
        let offs := match stop with AfterDashes o => o | _ => 0 end in
        match data with
        | None => none offs
        | Some conf =>
            if XBC_DATA_MAX <=? Z.of_nat (length conf) then none offs
            else if xbc_init conf <? 0 then none offs
            else BConf initrd_end found offs (xbc_make_cmdline conf (bytes_of "kernel")) (xbc_make_cmdline conf (bytes_of "init"))
        end
  end.

(** ** The command lines the kernel keeps *)
Inductive cmd_lines := CmdPanic | CmdOverrun | CmdLines (saved static : list Z) (saved_len : nat).
Definition setup_command_line (c : bconf) (boot_command_line command_line : list Z) : cmd_lines :=
  let extra := default [] (extra_command_line c) in
  let xlen := Z.of_nat (strlen extra) in
  let iargs := default [] (extra_init_args c) in
  let ilen := match extra_init_args c with Some i => Z.of_nat (strlen i) + 4 | None => 0 end in
  let len := xlen + Z.of_nat (length boot_command_line) + 1 in
  if negb (memblock_alloc (len + ilen)) then CmdPanic
  else if negb (memblock_alloc len) then CmdPanic
  else
    let res :=
      saved ← (if negb (xlen =? 0) then strcpy (replicate (Z.to_nat (len + ilen)) 0) 0 (cstr extra)
               else Some (replicate (Z.to_nat (len + ilen)) 0));
      static ← (if negb (xlen =? 0) then strcpy (replicate (Z.to_nat len) 0) 0 (cstr extra)
                else Some (replicate (Z.to_nat len) 0));
      saved ← strcpy saved xlen boot_command_line;
      static ← strcpy static xlen command_line;
      saved ← (if negb (ilen =? 0) then
                 if negb (initargs_offs c =? 0) then
                   let len := xlen + initargs_offs c in
                   saved ← strcpy saved len (cstr iargs);
                   strcpy saved (len + ilen - 4) (drop (Z.to_nat (initargs_offs c - 1)) boot_command_line)
                 else
                   let len := Z.of_nat (strlen saved) in
                   saved ← strcpy saved len (bytes_of " -- ");
                   strcpy saved (len + 4) (cstr iargs)
               else Some saved);
      Some (saved, static) in
    match res with
    | None => CmdOverrun
    | Some (saved, static) => CmdLines saved static (strlen saved)
    end.
End bootconf.

(** ** Properties *)
Definition text_ok (l : list Z) : Prop := Forall (fun b => b <> 0) l.
Lemma cstr_text l r : text_ok l -> cstr (l ++ 0 :: r) = l.
Proof. intros Hl. unfold cstr. rewrite strlen_app_nul by done. apply take_app_length. Qed.
Lemma strlen_text l r : text_ok l -> strlen (l ++ 0 :: r) = length l.
Proof. apply strlen_app_nul. Qed.

(** *** Printing *)
#[local] Arguments quoted : simpl never.
#[local] Arguments bytes_of : simpl never.
#[local] Arguments snprintf : simpl never.

(** The text of a key with its values, and of a list of keys. *)
Fixpoint values_text (name : list Z) (vs : list (list Z)) : list Z :=
  match vs with [] => [] | v :: vs => quoted name v ++ values_text name vs end.
Definition key_text (name : list Z) (vals : option (list (list Z))) : list Z :=
  match vals with None => name ++ bytes_of " " | Some vs => values_text name vs end.
Fixpoint keys_text (ks : list xbc_key) : option (list Z) :=
  match ks with
  | [] => Some []
  | k :: ks => match xk_name k, keys_text ks with
               | inr name, Some t => Some (key_text name (xk_values k) ++ t)
               | _, _ => None
               end
  end.

(** A buffer that ends in NUL and whose first bytes are [done]. *)
Definition holds_text (b done : list Z) : Prop := take (length done) b = done /\ last b = Some 0.
Lemma snprintf_room done txt b :
  (length done + length txt + 1 <= length b)%nat -> holds_text b done ->
  length (snprintf b (length done) txt) = length b /\ holds_text (snprintf b (length done) txt) (done ++ txt).
Proof.
  intros Hr [Hd Hz]. unfold snprintf, holds_text. destruct (length b - length done)%nat as [|r] eqn:E; [lia|].
  rewrite (take_ge txt r) by lia. rewrite Hd. simpl. rewrite !length_app. simpl. rewrite length_drop.
  split; [lia|]. split.
  - rewrite app_assoc. by rewrite take_app_length' by (rewrite length_app; lia).
  - rewrite app_assoc, last_app_cons. apply last_Some in Hz as [b0 ->]. rewrite length_app in *. simpl in *.
    destruct (decide (length done + length txt + 1 <= length b0)%nat).
    + rewrite drop_app_le by done. rewrite app_comm_cons. apply last_snoc.
    + by rewrite drop_ge by (rewrite length_app; simpl; lia).
Qed.
(** Printing without a buffer measures. *)
Lemma snprintf_nil pos txt : snprintf [] pos txt = [].
Proof. done. Qed.
Lemma print_values_nil name vals pos :
  print_values name vals [] pos = ([], (pos + length (values_text name vals))%nat).
Proof.
  revert pos. induction vals as [|v vs IH]; intros pos; simpl; [by rewrite Nat.add_0_r|].
  by rewrite IH, length_app, Nat.add_assoc.
Qed.
Lemma print_keys_nil ks pos :
  match keys_text ks with
  | Some t => print_keys ks [] pos = (inr (pos + length t)%nat, [])
  | None => exists e, print_keys ks [] pos = (inl e, [])
  end.
Proof.
  revert pos. induction ks as [|k ks IH]; intros pos; simpl; [by rewrite Nat.add_0_r|].
  destruct (xk_name k) as [e|name]; [by eexists|].
  destruct (xk_values k) as [vals|].
  - rewrite print_values_nil. specialize (IH (pos + length (values_text name vals))%nat).
    destruct (keys_text ks) as [t|]; [|done]. rewrite IH. unfold key_text. rewrite length_app. do 2 f_equal. lia.
  - specialize (IH (pos + length (name ++ bytes_of " "))%nat). destruct (keys_text ks) as [t|]; [|done].
    rewrite ?snprintf_nil, IH. unfold key_text. rewrite !length_app. do 2 f_equal. lia.
Qed.
Lemma print_values_room name vals done b :
  (length done + length (values_text name vals) + 1 <= length b)%nat -> holds_text b done ->
  exists b', print_values name vals b (length done) = (b', length (done ++ values_text name vals)) /\
    length b' = length b /\ holds_text b' (done ++ values_text name vals).
Proof.
  revert done b. induction vals as [|v vs IH]; intros done b Hr Hd; simpl in *.
  - rewrite app_nil_r. eauto.
  - rewrite length_app in Hr. destruct (snprintf_room done (quoted name v) b) as (Hl & Ht); [lia|done|].
    rewrite <- length_app. destruct (IH (done ++ quoted name v) (snprintf b (length done) (quoted name v))) as (b' & E & L & T).
    + rewrite length_app, Hl. lia.
    + done.
    + exists b'. rewrite E, L, (app_assoc done). by rewrite Hl.
Qed.
Lemma print_keys_room ks done b t :
  keys_text ks = Some t -> (length done + length t + 1 <= length b)%nat -> holds_text b done ->
  exists b', print_keys ks b (length done) = (inr (length (done ++ t)), b') /\
    length b' = length b /\ holds_text b' (done ++ t).
Proof.
  revert done b t. induction ks as [|k ks IH]; intros done b t Ht Hr Hd; simpl in *.
  - injection Ht as <-. rewrite app_nil_r. eauto.
  - destruct (xk_name k) as [|name]; [done|]. destruct (keys_text ks) as [t'|]; [|done]. injection Ht as <-.
    specialize (IH (done ++ key_text name (xk_values k))). rewrite length_app in Hr. unfold key_text in *.
    destruct (xk_values k) as [vals|].
    + destruct (print_values_room name vals done b) as (b1 & E & L & T); [lia|done|]. rewrite E.
      destruct (IH b1 t' eq_refl) as (b2 & E2 & L2 & T2); [rewrite length_app; lia|done|].
      exists b2. rewrite E2, L2, (app_assoc done). by rewrite L.
    + destruct (snprintf_room done (name ++ bytes_of " ") b) as (L & T); [lia|done|].
      rewrite <- length_app. destruct (IH (snprintf b (length done) (name ++ bytes_of " ")) t' eq_refl) as (b2 & E2 & L2 & T2);
        [rewrite length_app; lia|done|].
      exists b2. rewrite E2, L2, (app_assoc done (name ++ bytes_of " ") t'). by rewrite L.
Qed.

Section bootconf_properties.
Context `{BootEnv}.

Lemma xbc_make_cmdline_spec conf key :
  xbc_make_cmdline conf key =
  match xbc_find_node conf key with
  | None => None
  | Some root =>
      match keys_text root with
      | None | Some [] => None
      | Some t => if memblock_alloc (Z.of_nat (length t) + 1) then Some (t ++ [0]) else None
      end
  end.
Proof.
  unfold xbc_make_cmdline, xbc_snprint_cmdline. destruct (xbc_find_node conf key) as [root|]; [|done].
  pose proof (print_keys_nil root 0) as Hm. destruct (keys_text root) as [t|] eqn:Et.
  - rewrite Hm. simpl. destruct t as [|c t]; [done|]. set (txt := c :: t) in *. replace (length txt =? 0)%nat with false by done.
    destruct (memblock_alloc _); [|done]. simpl.
    destruct (print_keys_room root [] (replicate (length txt + 1) 0) txt Et) as (b & E & L & T & Z).
    + rewrite length_replicate. simpl. lia.
    + split; [done|]. rewrite Nat.add_1_r. apply last_Some. exists (replicate (length txt) 0).
      by rewrite <- replicate_cons_app.
    + simpl in E. rewrite E, Nat.ltb_irrefl. simpl in T. apply last_Some in Z as [b0 ->].
      rewrite length_app, length_replicate in L. simpl in L. rewrite take_app_length' in T by lia. by rewrite T.
  - destruct Hm as [e ->]. done.
Qed.

(** C26: The extra command line made from a boot configuration is the whole
    text of its keys and values: measuring and printing agree, so the buffer
    is exactly filled up to its terminating NUL and nothing is cut off.  There
    is none exactly when the key is missing, a name is too long, the text is
    empty or memory is short. *)
Theorem xbc_make_cmdline_exact conf key :
  xbc_make_cmdline conf key =
  match xbc_find_node conf key with
  | None => None
  | Some root =>
      match keys_text root with
      | None | Some [] => None
      | Some t => if memblock_alloc (Z.of_nat (length t) + 1) then Some (t ++ [0]) else None
      end
  end.
Proof. apply xbc_make_cmdline_spec. Qed.

(** *** The configuration behind the RAM disk *)
Definition cpu_to_le32 (n : Z) : list Z := [n mod 256; (n / 256) mod 256; (n / 65536) mod 256; (n / 16777216) mod 256].
Lemma le32_roundtrip n : is_u32 n -> le32_to_cpu (cpu_to_le32 n) = n.
Proof. unfold is_u32, le32_to_cpu, cpu_to_le32. simpl. intros. Z.div_mod_to_equations. lia. Qed.
Lemma read_bytes_part m a l1 l2 l3 :
  read_bytes m a (length (l1 ++ l2 ++ l3)) = l1 ++ l2 ++ l3 -> read_bytes m (a + Z.of_nat (length l1)) (length l2) = l2.
Proof.
  rewrite !length_app, !read_bytes_app. intros E.
  apply app_inj_1 in E as [_ E]; [|by rewrite length_read_bytes].
  by apply app_inj_1 in E as [E _]; [|by rewrite length_read_bytes].
Qed.
Lemma read_bytes_at m a n i : (i < n)%nat -> read_bytes m a n !! i = Some (ubyte m (a + Z.of_nat i)).
Proof.
  revert a i. induction n as [|n IH]; intros a i Hi; [lia|]. destruct i as [|i]; simpl; [by rewrite Z.add_0_r|].
  rewrite IH by lia. do 2 f_equal. lia.
Qed.
(** The magic ends in a newline, so it is not found ending in a NUL. *)
Lemma magic_not_at_nul m a : ubyte m (a + 11) = 0 -> memcmp_eq m a BOOTCONFIG_MAGIC = false.
Proof.
  intros Hz. unfold memcmp_eq. apply bool_decide_false. intros E.
  pose proof (read_bytes_at m a 12 11 ltac:(lia)) as Hb. change 12%nat with (length BOOTCONFIG_MAGIC) in Hb. rewrite E in Hb.
  change (Some 10 = Some (ubyte m (a + 11))) in Hb. congruence.
Qed.
Lemma find_magic_padded m a k n :
  (k <= n)%nat -> memcmp_eq m a BOOTCONFIG_MAGIC = true ->
  (forall i, 0 < i <= Z.of_nat k -> ubyte m (a + i + 11) = 0) -> find_magic (S n) m (a + Z.of_nat k) = Some a.
Proof.
  revert n. induction k as [|k IH]; intros n Hk Hm Hz.
  - change (Z.of_nat 0) with 0. rewrite Z.add_0_r. simpl. by rewrite Hm.
  - destruct n as [|n]; [lia|]. change (find_magic (S (S n)) m (a + Z.of_nat (S k))) with
      (if memcmp_eq m (a + Z.of_nat (S k)) BOOTCONFIG_MAGIC then Some (a + Z.of_nat (S k)) else find_magic (S n) m (a + Z.of_nat (S k) - 1)).
    rewrite magic_not_at_nul by (apply Hz; lia). replace (a + Z.of_nat (S k) - 1) with (a + Z.of_nat k) by lia.
    apply IH; [lia|done|]. intros i Hi. apply Hz. lia.
Qed.

Lemma find_magic_range n m a p : find_magic n m a = Some p -> a - Z.of_nat n < p <= a.
Proof.
  revert a. induction n as [|n IH]; intros a; simpl; [done|]. destruct (memcmp_eq _ _ _); [intros [= <-]; lia|].
  intros E. apply IH in E. lia.
Qed.
Lemma le32_range m a : (forall x, 0 <= ubyte m x < 256) -> is_u32 (le32_to_cpu (read_bytes m a 4)).
Proof.
  intros Hb. unfold le32_to_cpu, is_u32. simpl. pose proof (Hb a). pose proof (Hb (a + 1)).
  pose proof (Hb (a + 1 + 1)). pose proof (Hb (a + 1 + 1 + 1)). lia.
Qed.

(** What the tool that builds RAM disks appends: the data, its size and
    checksum, the magic, and up to three bytes of alignment. *)
Definition bootconfig_blob (d : list Z) (pad : nat) : list Z :=
  d ++ cpu_to_le32 (Z.of_nat (length d)) ++ cpu_to_le32 (xbc_calc_checksum d) ++ BOOTCONFIG_MAGIC ++ replicate pad 0.

Lemma blob_fields m a d pad :
  read_bytes m a (length (bootconfig_blob d pad)) = bootconfig_blob d pad ->
  let n := Z.of_nat (length d) in
  read_bytes m a (length d) = d /\ read_bytes m (a + n) 4 = cpu_to_le32 n /\
  read_bytes m (a + n + 4) 4 = cpu_to_le32 (xbc_calc_checksum d) /\ read_bytes m (a + n + 8) 12 = BOOTCONFIG_MAGIC /\
  (forall i, 0 < i <= Z.of_nat pad -> ubyte m (a + n + 8 + i + 11) = 0).
Proof.
  intros Hr n. unfold bootconfig_blob in Hr. fold n in Hr. split_and!.
  - pose proof (read_bytes_part m a [] d _ Hr) as E. simpl in E. by rewrite Z.add_0_r in E.
  - exact (read_bytes_part m a d _ _ Hr).
  - rewrite app_assoc in Hr. pose proof (read_bytes_part m a _ _ _ Hr) as E. rewrite length_app in E.
    rewrite <- E. f_equal. simpl. lia.
  - rewrite !app_assoc, <- (app_assoc _ BOOTCONFIG_MAGIC) in Hr. pose proof (read_bytes_part m a _ _ _ Hr) as E.
    rewrite !length_app in E. etransitivity; [|exact E]. f_equal. simpl. lia.
  - intros i Hi. rewrite !app_assoc, <- (app_nil_r (replicate pad 0)) in Hr.
    pose proof (read_bytes_part m a _ _ _ Hr) as E. rewrite !length_app, length_replicate in E.
    pose proof (f_equal (fun l => l !! Z.to_nat (i - 1)) E) as Ei. simpl in Ei.
    rewrite read_bytes_at, lookup_replicate_2 in Ei by lia. injection Ei as Ei.
    rewrite <- Ei. f_equal. simpl. lia.
Qed.

(** C32: A boot configuration that was appended to a RAM disk, with the
    alignment boot loaders add, is found again, and exactly it is cut off:
    the data returned is the data appended and the RAM disk ends where it
    ended before. *)
Theorem bootconfig_roundtrip m start a d pad :
  0 <= start <= a -> 0 < a -> a + Z.of_nat (length (bootconfig_blob d pad)) < u64_mod -> (pad <= 3)%nat ->
  is_u32 (Z.of_nat (length d)) -> is_u32 (xbc_calc_checksum d) ->
  read_bytes m a (length (bootconfig_blob d pad)) = bootconfig_blob d pad ->
  get_boot_config_from_initrd m start (a + Z.of_nat (length (bootconfig_blob d pad))) = (Some (a, Z.of_nat (length d)), a) /\
  read_bytes m a (length d) = d.
Proof.
  intros Hs Ha He Hp Hd Hc Hr. destruct (blob_fields m a d pad Hr) as (Hdata & Hsize & Hsum & Hmagic & Hpad).
  split; [|done]. set (n := Z.of_nat (length d)) in *.
  assert (Z.of_nat (length (bootconfig_blob d pad)) = n + 20 + Z.of_nat pad) as Hl
    by (unfold bootconfig_blob; rewrite !length_app, length_replicate; simpl; lia).
  unfold get_boot_config_from_initrd. rewrite Hl. destruct (Z.eqb_spec (a + (n + 20 + Z.of_nat pad)) 0); [lia|].
  replace (a + (n + 20 + Z.of_nat pad) - 12) with ((a + n + 8) + Z.of_nat pad) by lia.
  rewrite (find_magic_padded m (a + n + 8) pad 3); [|done|by apply bool_decide_true|done].
  cbv zeta. replace (a + n + 8 - 8) with (a + n) by lia. rewrite Hsize, Hsum, !le32_roundtrip by done.
  replace (a + n - n) with a by lia. rewrite u64_small by (unfold is_u64; lia).
  replace (a <? start) with false by lia. replace (Z.to_nat n) with (length d) by (subst n; lia).
  by rewrite Hdata, Z.eqb_refl.
Qed.

(** Whatever lies behind the RAM disk, a configuration that is accepted
    has its checksum and lies, with its header, between the beginning and the
    end of the RAM disk, which is then cut off in front of it; when none is
    accepted the RAM disk keeps its end. *)
Theorem bootconfig_within_initrd m start e got e' :
  (forall a, 0 <= ubyte m a < 256) -> u32_mod + 23 <= e < u64_mod ->
  get_boot_config_from_initrd m start e = (got, e') ->
  match got with
  | None => e' = e
  | Some (data, size) =>
      e' = data /\ start <= data /\ 0 <= size /\ data + size + 20 <= e /\
      xbc_calc_checksum (read_bytes m data (Z.to_nat size)) = le32_to_cpu (read_bytes m (data + size + 4) 4)
  end.
Proof.
  intros Hb He. unfold get_boot_config_from_initrd. destruct (e =? 0); [by intros [= <- <-]|].
  destruct (find_magic 4 m (e - 12)) as [p|] eqn:Hp; [|by intros [= <- <-]]. cbv zeta.
  apply find_magic_range in Hp. set (size := le32_to_cpu (read_bytes m (p - 8) 4)).
  assert (is_u32 size) as Hsz by (apply le32_range; done). unfold is_u32 in Hsz.
  rewrite u64_small by (unfold is_u64; lia).
  destruct (Z.ltb_spec (p - 8 - size) start); [by intros [= <- <-]|].
  destruct (Z.eqb_spec (xbc_calc_checksum (read_bytes m (p - 8 - size) (Z.to_nat size))) (le32_to_cpu (read_bytes m (p - 8 + 4) 4)))
    as [Hc|]; simpl; [|by intros [= <- <-]].
  intros [= <- <-]. split_and!; [done|lia..|]. replace (p - 8 - size + size + 4) with (p - 8 + 4) by lia. exact Hc.
Qed.

(** *** The kept command lines *)

(** Copying into a buffer behind [done]. *)
Lemma strcpy_room b off src done :
  off = Z.of_nat (length done) -> (length done + length src + 1 <= length b)%nat -> take (length done) b = done ->
  exists r, strcpy b off src = Some (done ++ src ++ 0 :: r) /\ length (done ++ src ++ 0 :: r) = length b.
Proof.
  intros -> Hl Hd. unfold strcpy. rewrite Nat2Z.id. replace (0 <=? _) with true by lia.
  replace (_ <=? _)%nat with true by (symmetry; by apply Nat.leb_le). simpl. rewrite Hd. eexists. split; [done|].
  rewrite !length_app. simpl. rewrite length_drop. lia.
Qed.
Lemma take_prefix (d x : list Z) : take (length d) (d ++ x) = d.
Proof. apply take_app_length. Qed.

(** The extra text of the boot configuration and the two command lines. *)
Definition saved_text (xt it boot : list Z) (inits : bool) (offs : nat) : list Z :=
  if negb inits then xt ++ boot
  else if (offs =? 0)%nat then xt ++ boot ++ bytes_of " -- " ++ it
  else xt ++ take offs boot ++ it ++ drop (offs - 1) boot.

Lemma strcpy_first n xt :
  (length xt + 1 <= n)%nat ->
  exists b, (if negb (Z.of_nat (length xt) =? 0) then strcpy (replicate n 0) 0 xt else Some (replicate n 0)) = Some b /\
    length b = n /\ take (length xt) b = xt.
Proof.
  intros Hn. destruct (Z.eqb_spec (Z.of_nat (length xt)) 0) as [E|E]; simpl.
  - destruct xt; [|done]. exists (replicate n 0). by rewrite length_replicate.
  - destruct (strcpy_room (replicate n 0) 0 xt []) as (r & -> & L); [done|rewrite length_replicate; simpl; lia|done|].
    eexists. split; [done|]. rewrite L, length_replicate. split; [done|]. apply (take_prefix xt).
Qed.
Lemma strlen_two l l' r : text_ok l -> text_ok l' -> strlen (l ++ l' ++ 0 :: r) = (length l + length l')%nat.
Proof. intros. rewrite app_assoc, strlen_text by (by apply Forall_app). apply length_app. Qed.
Lemma cstr_split a b r : text_ok a -> text_ok b -> cstr (a ++ b ++ 0 :: r) = a ++ b.
Proof. intros. rewrite app_assoc. apply cstr_text. by apply Forall_app. Qed.
(** A C string that is absent or a text with its NUL. *)
Lemma opt_text (o : option (list Z)) :
  (forall x, o = Some x -> exists t, x = t ++ [0] /\ text_ok t) ->
  text_ok (cstr (default [] o)) /\ strlen (default [] o) = length (cstr (default [] o)).
Proof.
  intros Ho. destruct o as [x|]; simpl; [|by split; [constructor|]]. destruct (Ho x eq_refl) as (t & -> & Ht).
  rewrite cstr_text, strlen_text by done. done.
Qed.
(** The last copies: the extra init arguments. *)
Lemma add_init_args saved xt boot it r offs :
  text_ok xt -> text_ok boot -> text_ok it -> 0 <= offs <= Z.of_nat (length boot) ->
  saved = xt ++ boot ++ 0 :: r -> (length xt + length boot + 1 + (length it + 4) = length saved)%nat ->
  exists b, (if negb (offs =? 0) then
               let len := Z.of_nat (length xt) + offs in
               saved ← strcpy saved len it;
               strcpy saved (len + (Z.of_nat (length it) + 4) - 4) (drop (Z.to_nat (offs - 1)) boot)
             else
               let len := Z.of_nat (strlen saved) in
               saved ← strcpy saved len (bytes_of " -- ");
               strcpy saved (len + 4) it) = Some b /\ cstr b = saved_text xt it boot true (Z.to_nat offs).
Proof.
  intros Hx Hb Hi Ho Es El. unfold saved_text. simpl negb. cbv iota zeta. destruct (Z.eqb_spec offs 0) as [->|Hne]; simpl negb; cbv iota.
  - rewrite Es, (strlen_two xt boot) by done. rewrite <- Es.
    destruct (strcpy_room saved (Z.of_nat (length xt + length boot)) (bytes_of " -- ") (xt ++ boot)) as (r1 & E1 & L1).
    + by rewrite length_app.
    + rewrite length_app. simpl. lia.
    + rewrite Es, app_assoc. apply take_prefix.
    + rewrite E1. simpl. destruct (strcpy_room ((xt ++ boot) ++ bytes_of " -- " ++ 0 :: r1)
        (Z.of_nat (length xt + length boot) + 4) it ((xt ++ boot) ++ bytes_of " -- ")) as (r2 & E2 & _).
      * rewrite !length_app. simpl. lia.
      * rewrite L1, !length_app. simpl. lia.
      * rewrite (app_assoc (xt ++ boot)). apply take_prefix.
      * eexists. split; [exact E2|]. rewrite cstr_split; [by rewrite <- !app_assoc| |done].
        repeat apply Forall_app_2; try done. by repeat constructor.
  - destruct (strcpy_room saved (Z.of_nat (length xt) + offs) it (xt ++ take (Z.to_nat offs) boot)) as (r1 & E1 & L1).
    + rewrite length_app, length_take. lia.
    + rewrite length_app, length_take. lia.
    + rewrite Es. rewrite <- (take_drop (Z.to_nat offs) boot) at 2. rewrite <- app_assoc, (app_assoc xt). apply take_prefix.
    + rewrite E1. simpl. set (d1 := xt ++ take (Z.to_nat offs) boot) in *.
      assert (length d1 = (length xt + Z.to_nat offs)%nat) as Ld by (subst d1; rewrite length_app, length_take; lia).
      destruct (strcpy_room (d1 ++ it ++ 0 :: r1) (Z.of_nat (length xt) + offs + (Z.of_nat (length it) + 4) - 4)
        (drop (Z.to_nat (offs - 1)) boot) (d1 ++ it)) as (r2 & E2 & _).
      * rewrite length_app, Ld. lia.
      * rewrite L1, length_app, length_drop, Ld. lia.
      * rewrite (app_assoc d1). apply take_prefix.
      * eexists. split; [exact E2|]. replace (Z.to_nat offs =? 0)%nat with false by (symmetry; apply Nat.eqb_neq; lia).
        rewrite cstr_split; [subst d1; rewrite <- !app_assoc; do 3 f_equal; f_equal; lia| |by apply Forall_drop].
        repeat apply Forall_app_2; try done. by apply Forall_take.
Qed.

Lemma setup_command_line_fits c boot cmd :
  text_ok boot -> text_ok cmd -> (length cmd <= length boot)%nat -> 0 <= initargs_offs c <= Z.of_nat (length boot) ->
  (forall x, extra_command_line c = Some x -> exists t, x = t ++ [0] /\ text_ok t) ->
  (forall x, extra_init_args c = Some x -> exists t, x = t ++ [0] /\ text_ok t) ->
  setup_command_line c boot cmd <> CmdPanic ->
  exists saved static, setup_command_line c boot cmd = CmdLines saved static (length (cstr saved)) /\
    cstr saved = saved_text (cstr (default [] (extra_command_line c))) (cstr (default [] (extra_init_args c))) boot
                   (bool_decide (is_Some (extra_init_args c))) (Z.to_nat (initargs_offs c)) /\
    cstr static = cstr (default [] (extra_command_line c)) ++ cmd.
Proof.
  intros Hb Hc Hlen Ho Hx Hi Hm. destruct (opt_text _ Hx) as [Tx Sx], (opt_text _ Hi) as [Ti Si].
  unfold setup_command_line in *. cbv zeta in *. destruct (negb (memblock_alloc _)) in Hm |- *; [done|].
  destruct (negb (memblock_alloc _)) in Hm |- *; [done|]. clear Hm. rewrite Sx.
  assert (match extra_init_args c with Some i => Z.of_nat (strlen i) + 4 | None => 0 end =
    if bool_decide (is_Some (extra_init_args c)) then Z.of_nat (length (cstr (default [] (extra_init_args c)))) + 4 else 0) as ->.
  { destruct (extra_init_args c); [rewrite bool_decide_true by done|rewrite bool_decide_false by (by intros [])]; [|done].
    simpl in Si. by rewrite Si. }
  set (xt := cstr (default [] (extra_command_line c))) in *. set (it := cstr (default [] (extra_init_args c))) in *.
  set (il := if bool_decide _ then _ else _). assert (0 <= il) by (subst il; case_bool_decide; lia).
  destruct (strcpy_first (Z.to_nat (Z.of_nat (length xt) + Z.of_nat (length boot) + 1 + il)) xt) as (b1 & -> & L1 & T1); [lia|].
  destruct (strcpy_first (Z.to_nat (Z.of_nat (length xt) + Z.of_nat (length boot) + 1)) xt) as (b2 & -> & L2 & T2); [lia|].
  simpl. destruct (strcpy_room b1 (Z.of_nat (length xt)) boot xt) as (r1 & -> & M1); [done|lia|done|]. simpl.
  destruct (strcpy_room b2 (Z.of_nat (length xt)) cmd xt) as (r2 & -> & M2); [done|lia|done|]. simpl.
  unfold saved_text. subst il. case_bool_decide as Hin; simpl negb; cbv iota.
  - replace (negb (_ + 4 =? 0)) with true by lia.
    destruct (add_init_args (xt ++ boot ++ 0 :: r1) xt boot it r1 (initargs_offs c)) as (b & E & Eb); [done..| |].
    { rewrite M1, L1. lia. }
    cbv zeta in E. rewrite E. simpl. exists b, (xt ++ cmd ++ 0 :: r2).
    unfold cstr at 1. rewrite length_take_le by apply strlen_le. rewrite Eb, cstr_split by done. done.
  - simpl. exists (xt ++ boot ++ 0 :: r1), (xt ++ cmd ++ 0 :: r2). unfold cstr at 1.
    rewrite length_take_le by apply strlen_le. by rewrite !cstr_split by done.
Qed.

(** The buffers for the command lines are large enough in every case: no
    copy runs past their end.  The saved line is the extra command line, the
    boot line and the extra init arguments, set in after the dashes where the
    boot line has them and behind added ones otherwise, and its recorded
    length is its length; the line to be parsed is the extra one and the
    architecture's. *)
Theorem command_lines_fit c boot cmd :
  text_ok boot -> text_ok cmd -> (length cmd <= length boot)%nat -> 0 <= initargs_offs c <= Z.of_nat (length boot) ->
  (forall x, extra_command_line c = Some x -> exists t, x = t ++ [0] /\ text_ok t) ->
  (forall x, extra_init_args c = Some x -> exists t, x = t ++ [0] /\ text_ok t) ->
  (forall n, memblock_alloc n = true) ->
  exists saved static, setup_command_line c boot cmd = CmdLines saved static (length (cstr saved)) /\
    cstr saved = saved_text (cstr (default [] (extra_command_line c))) (cstr (default [] (extra_init_args c))) boot
                   (bool_decide (is_Some (extra_init_args c))) (Z.to_nat (initargs_offs c)) /\
    cstr static = cstr (default [] (extra_command_line c)) ++ cmd.
Proof.
  intros Hb Hc Hlen Ho Hx Hi Hm. apply setup_command_line_fits; try done. unfold setup_command_line. rewrite !Hm. simpl negb. cbv iota.
  by destruct (mbind _ _) as [[]|].
Qed.
End bootconf_properties.

Module Demo.
(** [kernel.quiet], [kernel.console = ttyS0, tty0] and [init.splash]. *)
Definition env0 : BootEnv := {|
  xbc_calc_checksum l := foldr Z.add 0 l;
  xbc_get_embedded_bootconfig := None; xbc_init _ := 0;
  xbc_find_node _ key :=
    if bool_decide (key = bytes_of "kernel") then
      Some [XbcKey (inr (bytes_of "quiet")) None; XbcKey (inr (bytes_of "console")) (Some [bytes_of "ttyS0"; bytes_of "tty0"])]
    else Some [XbcKey (inr (bytes_of "splash")) None];
  memblock_alloc _ := true;
  parse_args l := Parsed [(bytes_of "bootconfig", None)] (AfterDashes 14);
  CONFIG_BOOT_CONFIG_FORCE := false |}.
#[local] Existing Instance env0.
Definition conf0 : list Z := bytes_of "kernel.quiet".
Definition boot0 : list Z := bytes_of "bootconfig -- single".
Definition mem0 : umem := write_bytes ∅ 4294968000 (bootconfig_blob conf0 2).
Definition end0 : Z := 4294968000 + Z.of_nat (length (bootconfig_blob conf0 2)).
Definition c0 : bconf := setup_boot_config mem0 4294967500 end0 boot0.

Lemma bootconfig_roundtrip_witness :
  get_boot_config_from_initrd mem0 4294967500 end0 = (Some (4294968000, 12), 4294968000) /\
  read_bytes mem0 4294968000 12 = conf0.
Proof.
  apply (bootconfig_roundtrip mem0 4294967500 4294968000 conf0 2); [lia|lia|vm_compute; done|lia|vm_compute; done|vm_compute; done|].
  apply read_write_same.
Defined.
Lemma mem0_bytes a : 0 <= ubyte mem0 a < 256.
Proof.
  destruct (decide (4294968000 <= a < end0)) as [Ha|Ha].
  - assert (exists b, bootconfig_blob conf0 2 !! Z.to_nat (a - 4294968000) = Some b) as [b Hb]
      by (apply lookup_lt_is_Some; unfold end0 in Ha; lia).
    replace a with (4294968000 + Z.of_nat (Z.to_nat (a - 4294968000))) by lia. unfold mem0.
    rewrite (ubyte_write_in _ _ _ _ b Hb).
    assert (Forall (fun b => 0 <= b < 256) (bootconfig_blob conf0 2)) as Hf by (apply (bool_decide_unpack _); vm_compute; done).
    exact (Forall_lookup_1 _ _ _ _ Hf Hb).
  - unfold mem0. rewrite ubyte_write_out by (unfold end0 in Ha; lia). unfold ubyte. rewrite lookup_empty. simpl. lia.
Qed.
Lemma bootconfig_within_initrd_witness :
  4294967500 <= 4294968000 /\ 4294968000 + 12 + 20 <= end0.
Proof.
  pose proof (bootconfig_within_initrd mem0 4294967500 end0 (Some (4294968000, 12)) 4294968000 mem0_bytes
    ltac:(vm_compute; done) ltac:(vm_compute; reflexivity)) as (_ & H1 & _ & H2 & _). split; [exact H1|exact H2].
Defined.
Definition extra0 : list Z := bytes_of "quiet console=" ++ [34] ++ bytes_of "ttyS0" ++ [34] ++ bytes_of " console=" ++ [34] ++
  bytes_of "tty0" ++ [34] ++ bytes_of " ".
Lemma c0_parts : initargs_offs c0 = 14 /\ extra_command_line c0 = Some (extra0 ++ [0]) /\ extra_init_args c0 = Some (bytes_of "splash " ++ [0]).
Proof. split; [|split]; vm_compute; reflexivity. Qed.
Lemma command_lines_fit_witness :
  exists saved static, setup_command_line c0 boot0 boot0 = CmdLines saved static (length (cstr saved)) /\
    cstr saved = extra0 ++ bytes_of "bootconfig -- splash  single".
Proof.
  destruct c0_parts as (Eo & Ex & Ei).
  destruct (command_lines_fit c0 boot0 boot0) as (saved & static & E & Es & _).
  - apply (bool_decide_unpack _). vm_compute. done.
  - apply (bool_decide_unpack _). vm_compute. done.
  - vm_compute. lia.
  - rewrite Eo. vm_compute. split; discriminate.
  - intros x. rewrite Ex. intros [= <-]. exists extra0. split; [done|]. apply (bool_decide_unpack _). vm_compute. done.
  - intros x. rewrite Ei. intros [= <-]. exists (bytes_of "splash "). split; [done|]. apply (bool_decide_unpack _). vm_compute. done.
  - done.
  - exists saved, static. split; [exact E|]. rewrite Es, Eo, Ex, Ei. vm_compute. reflexivity.
Defined.
End Demo.
