(* ===== verification/BootArgs.v ===== *)
(** * Boot options and the arguments of init

    init/main.c 136-262, 487-605, 733-770, 799-872 and 1393-1413: every
    option of the command line that no module parameter claims goes to
    [unknown_bootoption], which offers it to the [__setup] handlers and hands
    the rest to init, as an argument or in its environment.  Both live in
    arrays of fixed size; reading or writing outside of them is an outcome of
    its own ([None]).  Parameter names are compared, numbers parsed and the
    handlers of the rest of the kernel run by interfaces. *)
From S2P Require Import Prelude UMem BootConf.

Abbreviation CONSOLE_LOGLEVEL_DEBUG := 10 (only parsing).
Abbreviation CONSOLE_LOGLEVEL_QUIET := 4 (only parsing).
Abbreviation DOT := 46 (only parsing).
Abbreviation EQUALS := 61 (only parsing).

(** The state the handlers of this file change; [W] is the rest of the kernel. *)
Record bargs (W : Type) := BArgs {
  argv_init : list (option (list Z)); envp_init : list (option (list Z));
  panic_later : option (list Z); panic_param : option (list Z);
  execute_command : option (list Z); ramdisk_execute_command : option (list Z);
  console_loglevel : Z; reset_devices : Z; rodata_enabled : bool; randomize_kstack_offset : bool;
  early_done : bool; blacklisted_initcalls : list (list Z);
  rest_of_kernel : W;
}.
Arguments BArgs {W}. Arguments argv_init {W}. Arguments envp_init {W}. Arguments panic_later {W}. Arguments panic_param {W}.
Arguments execute_command {W}. Arguments ramdisk_execute_command {W}. Arguments console_loglevel {W}. Arguments reset_devices {W}.
Arguments rodata_enabled {W}. Arguments randomize_kstack_offset {W}. Arguments early_done {W}. Arguments blacklisted_initcalls {W}.
Arguments rest_of_kernel {W}.

Section setters.
Context {W : Type}.
#[local] Abbreviation st := (bargs W).
Definition set_argv (x : list (option (list Z))) (s : st) : st :=
  BArgs x (envp_init s) (panic_later s) (panic_param s) (execute_command s) (ramdisk_execute_command s) (console_loglevel s)
    (reset_devices s) (rodata_enabled s) (randomize_kstack_offset s) (early_done s) (blacklisted_initcalls s) (rest_of_kernel s).
Definition set_envp (x : list (option (list Z))) (s : st) : st :=
  BArgs (argv_init s) x (panic_later s) (panic_param s) (execute_command s) (ramdisk_execute_command s) (console_loglevel s)
    (reset_devices s) (rodata_enabled s) (randomize_kstack_offset s) (early_done s) (blacklisted_initcalls s) (rest_of_kernel s).
Definition panics (what param : list Z) (s : st) : st :=
  BArgs (argv_init s) (envp_init s) (Some what) (Some param) (execute_command s) (ramdisk_execute_command s) (console_loglevel s)
    (reset_devices s) (rodata_enabled s) (randomize_kstack_offset s) (early_done s) (blacklisted_initcalls s) (rest_of_kernel s).
Definition set_commands (e r : option (list Z)) (s : st) : st :=
  BArgs (argv_init s) (envp_init s) (panic_later s) (panic_param s) e r (console_loglevel s)
    (reset_devices s) (rodata_enabled s) (randomize_kstack_offset s) (early_done s) (blacklisted_initcalls s) (rest_of_kernel s).
Definition set_loglevel (n : Z) (s : st) : st :=
  BArgs (argv_init s) (envp_init s) (panic_later s) (panic_param s) (execute_command s) (ramdisk_execute_command s) n
    (reset_devices s) (rodata_enabled s) (randomize_kstack_offset s) (early_done s) (blacklisted_initcalls s) (rest_of_kernel s).
Definition set_flags (reset : Z) (ro rand : bool) (s : st) : st :=
  BArgs (argv_init s) (envp_init s) (panic_later s) (panic_param s) (execute_command s) (ramdisk_execute_command s) (console_loglevel s)
    reset ro rand (early_done s) (blacklisted_initcalls s) (rest_of_kernel s).
Definition set_early_done (s : st) : st :=
  BArgs (argv_init s) (envp_init s) (panic_later s) (panic_param s) (execute_command s) (ramdisk_execute_command s) (console_loglevel s)
    (reset_devices s) (rodata_enabled s) (randomize_kstack_offset s) true (blacklisted_initcalls s) (rest_of_kernel s).
Definition set_blacklist (x : list (list Z)) (s : st) : st :=
  BArgs (argv_init s) (envp_init s) (panic_later s) (panic_param s) (execute_command s) (ramdisk_execute_command s) (console_loglevel s)
    (reset_devices s) (rodata_enabled s) (randomize_kstack_offset s) (early_done s) x (rest_of_kernel s).
End setters.

(** [struct obs_kernel_param] *)
Record obs_kernel_param (W : Type) := ObsParam {
  op_str : list Z; op_early : bool; op_setup : option (option (list Z) -> bargs W -> Z * bargs W);
}.
Arguments ObsParam {W}. Arguments op_str {W}. Arguments op_early {W}. Arguments op_setup {W}.

(** kernel/params.c, lib/cmdline.c, lib/kstrtox.c and the linker's table. *)
Class ParamEnv (W : Type) := {
  MAX_INIT_ARGS : nat; MAX_INIT_ENVS : nat;              (** CONFIG_INIT_ENV_ARG_LIMIT *)
  parameqn : list Z -> list Z -> nat -> bool;
  parameq : list Z -> list Z -> bool;
  sysctl_is_alias : list Z -> bool;
  setup_table : list (obs_kernel_param W);               (** [__setup_start] to [__setup_end] *)
  get_option : option (list Z) -> option Z;              (** [None] for a NULL string *)
  kstrtobool : option (list Z) -> Z + bool;
  arch_parse_debug_rodata : option (list Z) -> bool;
}.

(** ** Strings in place *)

(** [repair_env_string]: [param] and [val] are addresses in the command line;
    [None] is BUG(). *)
Fixpoint strlen_at (fuel : nat) (m : umem) (a : Z) : nat :=
  match fuel with O => O | S n => if ubyte m a =? 0 then O else S (strlen_at n m (a + 1)) end.
Definition repair_env_string (fuel : nat) (m : umem) (param : Z) (val : option Z) : option umem :=
  match val with
  | None => Some m
  | Some val =>
      let len := Z.of_nat (strlen_at fuel m param) in
      if val =? param + len + 1 then Some (write_bytes m (val - 1) [EQUALS])
      else if val =? param + len + 2 then
        let m := write_bytes m (val - 2) [EQUALS] in
        Some (write_bytes m (val - 1) (read_bytes m val (strlen_at fuel m val + 1)))
      else None
  end.
(** The string the repaired [param] is. *)
Definition repaired (name : list Z) (val : option (list Z)) : list Z :=
  match val with Some v => name ++ [EQUALS] ++ v | None => name end.

Section options.
Context {W : Type} {pe : ParamEnv W}.
#[local] Abbreviation st := (bargs W).

(** ** Handlers of this file *)
Definition set_reset_devices (_ : option (list Z)) (s : st) : Z * st := (1, set_flags 1 (rodata_enabled s) (randomize_kstack_offset s) s).
Definition debug_kernel (_ : option (list Z)) (s : st) : Z * st := (0, set_loglevel CONSOLE_LOGLEVEL_DEBUG s).
Definition quiet_kernel (_ : option (list Z)) (s : st) : Z * st := (0, set_loglevel CONSOLE_LOGLEVEL_QUIET s).
Definition loglevel (str : option (list Z)) (s : st) : Z * st :=
  match get_option str with
  | Some newlevel => (0, set_loglevel newlevel s)
  | None => (- EINVAL, s)
  end.
Definition early_randomize_kstack_offset (buf : option (list Z)) (s : st) : Z * st :=
  match kstrtobool buf with
  | inl ret => (ret, s)
  | inr b => (0, set_flags (reset_devices s) (rodata_enabled s) b s)
  end.
Definition set_debug_rodata (str : option (list Z)) (s : st) : Z * st :=
  if arch_parse_debug_rodata str then (0, s)
  else if bool_decide (str = Some (bytes_of "on")) then (0, set_flags (reset_devices s) true (randomize_kstack_offset s) s)
  else if bool_decide (str = Some (bytes_of "off")) then (0, set_flags (reset_devices s) false (randomize_kstack_offset s) s)
  else (0, s).
(** [for (i = 1; i < MAX_INIT_ARGS; i++) argv_init[i] = NULL;] *)
Definition clear_args (argv : list (option (list Z))) : list (option (list Z)) :=
  imap (fun i x => if (1 <=? i)%nat && (i <? MAX_INIT_ARGS)%nat then None else x) argv.
Definition init_setup (str : option (list Z)) (s : st) : Z * st :=
  (1, set_argv (clear_args (argv_init s)) (set_commands str (ramdisk_execute_command s) s)).
Definition rdinit_setup (str : option (list Z)) (s : st) : Z * st :=
  (1, set_argv (clear_args (argv_init s)) (set_commands (execute_command s) str s)).

(** ** Dispatching *)

(** The loop over the table; [had] is [had_early_param]. *)
Fixpoint check_table (ps : list (obs_kernel_param W)) (line : list Z) (had : bool) (s : st) : bool * st :=
  match ps with
  | [] => (had, s)
  | p :: ps =>
      let n := length (op_str p) in
      if parameqn line (op_str p) n then
        if op_early p then
          let c := default 0 (line !! n) in
          check_table ps line (if (c =? 0) || (c =? EQUALS) then true else had) s
        else match op_setup p with
             | None => (true, s)
             | Some f => let '(r, s) := f (Some (drop n line)) s in
                         if negb (r =? 0) then (true, s) else check_table ps line had s
             end
      else check_table ps line had s
  end.
Definition obsolete_checksetup (line : list Z) (s : st) : bool * st := check_table setup_table line false s.

(** Entries of early options have a handler. *)
Definition do_early_param (opt : list Z * option (list Z)) (s : st) : st :=
  let '(param, val) := opt in
  foldl (fun s p =>
    if (op_early p && parameq param (op_str p)) ||
       (bool_decide (param = bytes_of "console") && bool_decide (op_str p = bytes_of "earlycon"))
    then match op_setup p with Some f => (f val s).2 | None => s end else s) s setup_table.
Definition parse_early_options `{BootEnv} (cmdline : list Z) (s : st) : st := foldl (fun s o => do_early_param o s) s (p_opts (parse_args cmdline)).
Definition parse_early_param `{BootEnv} (boot_command_line : list Z) (s : st) : st :=
  if early_done s then s
  else set_early_done (parse_early_options (take (Z.to_nat (COMMAND_LINE_SIZE - 1)) boot_command_line) s).

(** ** Arguments and environment of init *)

(** [for (i = 0; argv_init[i]; i++) if (i == MAX_INIT_ARGS) ...]: where the
    loop ends and whether it reached the limit; [None] when it leaves the
    array.  With [stop] it ends at the limit, and where [same] holds it breaks. *)
Fixpoint scan (stop : bool) (arr : list (option (list Z))) (max i : nat) (full : bool) (same : list Z -> bool) : option (nat * bool) :=
  match arr with
  | [] => None
  | None :: _ => Some (i, full)
  | Some e :: arr =>
      if (i =? max)%nat && stop then Some (i, true)
      else
        let full := full || (i =? max)%nat in
        if same e then Some (i, full) else scan stop arr max (S i) full same
  end.
Definition never (_ : list Z) : bool := false.
(** [arr[i] = param]; [None] outside of the array. *)
Definition store (arr : list (option (list Z))) (i : nat) (param : list Z) : option (list (option (list Z))) :=
  if (i <? length arr)%nat then Some (<[i := Some param]> arr) else None.

Definition set_init_arg (name : list Z) (val : option (list Z)) (s : st) : option st :=
  match panic_later s with
  | Some _ => Some s
  | None =>
      let param := repaired name val in
      '(i, full) ← scan true (argv_init s) MAX_INIT_ARGS 0 false never;
      if full : bool then Some (panics (bytes_of "init") param s)
      else argv ← store (argv_init s) i param; Some (set_argv argv s)
  end.

(** [!strncmp(param, envp_init[i], len + 1)] for the name with its [=]. *)
Definition same_name (name : list Z) (e : list Z) : bool := bool_decide (take (length name + 1) e = name ++ [EQUALS]).
Definition add_env (name v : list Z) (s : st) : option st :=
  let param := repaired name (Some v) in
  '(i, full) ← scan false (envp_init s) MAX_INIT_ENVS 0 false (same_name name);
  let s := if full : bool then panics (bytes_of "env") param s else s in
  envp ← store (envp_init s) i param; Some (set_envp envp s).
Definition add_arg (param : list Z) (s : st) : option st :=
  '(i, full) ← scan false (argv_init s) MAX_INIT_ARGS 0 false never;
  let s := if full : bool then panics (bytes_of "init") param s else s in
  argv ← store (argv_init s) i param; Some (set_argv argv s).

Definition unknown_bootoption (name : list Z) (val : option (list Z)) (s : st) : option st :=
  if sysctl_is_alias name then Some s
  else
    let param := repaired name val in
    let '(taken, s) := obsolete_checksetup param s in
    if taken then Some s
    else if bool_decide (DOT ∈ name) then Some s
    else match panic_later s with
         | Some _ => Some s
         | None => match val with Some v => add_env name v s | None => add_arg param s end
         end.

(** ** The message about unknown options *)

(** The entries a C loop sees: up to the first NULL. *)
Fixpoint visible (arr : list (option (list Z))) : list (list Z) :=
  match arr with Some e :: arr => e :: visible arr | _ => [] end.
Definition options_len (arr : list (list Z)) (len : Z) : Z := foldl (fun len e => len + 1 + Z.of_nat (length e)) len arr.
(** [end += sprintf(end, " %s", *p)] into a buffer of [size] bytes. *)
Fixpoint print_options (arr : list (list Z)) (size : Z) (text : list Z) : option (list Z) :=
  match arr with
  | [] => Some text
  | e :: arr => let text := text ++ bytes_of " " ++ e in
                if Z.of_nat (length text) + 1 <=? size then print_options arr size text else None
  end.
(** [Some None]: nothing is printed; [None]: the buffer overflowed. *)
Definition print_unknown_bootoptions `{BootEnv} (s : st) : option (option (list Z)) :=
  let args := visible (drop 1 (argv_init s)) in
  let envs := visible (drop 2 (envp_init s)) in
  if bool_decide (is_Some (panic_later s)) || (bool_decide (args = []) && bool_decide (envs = [])) then Some None
  else
    let len := options_len envs (options_len args 1) in
    if negb (memblock_alloc len) then Some None
    else
      text ← print_options args len [];
      text ← print_options envs len text;
      Some (Some (drop 1 text)).
End options.

(** ** The options in the order they are parsed *)
Inductive boot_option :=
  | Option_ (name : list Z) (val : option (list Z))     (** before [--] *)
  | InitArg (name : list Z) (val : option (list Z)).    (** after [--], or from the boot configuration *)

Section parsing.
Context {W : Type} {pe : ParamEnv W}.
#[local] Abbreviation st := (bargs W).
Definition take_option (o : boot_option) (s : st) : option st :=
  match o with Option_ name val => unknown_bootoption name val s | InitArg name val => set_init_arg name val s end.
Definition take_options (os : list boot_option) (s : st) : option st := foldl (fun s o => s ≫= take_option o) (Some s) os.

(** [argv_init] and [envp_init] as they are declared. *)
Definition argv_start : list (option (list Z)) := Some (bytes_of "init") :: replicate (MAX_INIT_ARGS + 1) None.
Definition envp_start : list (option (list Z)) :=
  Some (bytes_of "HOME=/") :: Some (bytes_of "TERM=linux") :: replicate MAX_INIT_ENVS None.

(** *** Properties *)

(** What the handlers elsewhere do to the state of this file. *)
Definition keeps_args (p : obs_kernel_param W) : Prop :=
  forall f str s, op_setup p = Some f ->
    envp_init (f str s).2 = envp_init s /\ panic_later (f str s).2 = panic_later s /\
    (argv_init (f str s).2 = argv_init s \/ argv_init (f str s).2 = clear_args (argv_init s)).

(** Arrays of the declared lengths; until a panic is due the last entry is
    NULL, and the first argument is always set. *)
Record args_ok (s : st) : Prop := {
  ok_argv : length (argv_init s) = (MAX_INIT_ARGS + 2)%nat;
  ok_envp : length (envp_init s) = (MAX_INIT_ENVS + 2)%nat;
  ok_argv0 : exists a, argv_init s !! O = Some (Some a);
  ok_argv_end : panic_later s = None -> argv_init s !! (MAX_INIT_ARGS + 1)%nat = Some None;
  ok_envp_end : panic_later s = None -> envp_init s !! (MAX_INIT_ENVS + 1)%nat = Some None;
}.

(** The scan of an array with a NULL at [k] stays in it. *)
Lemma scan_bounded stop arr max i full same k :
  arr !! k = Some None ->
  exists j full', scan stop arr max i full same = Some ((i + j)%nat, full') /\ (j <= k)%nat /\
    (full' = false -> full = false /\ (j <= max - i \/ max < i)%nat).
Proof.
  revert i full k. induction arr as [|[e|] arr IH]; intros i full k Hk; simpl; [done| |].
  - destruct k as [|k]; [done|]. simpl in Hk. destruct (Nat.eqb_spec i max) as [->|Hi]; simpl.
    + destruct stop; [exists O, true; rewrite Nat.add_0_r; split_and!; [done|lia|done]|].
      destruct (same e); [exists O, true; rewrite Nat.add_0_r, orb_true_r; split_and!; [done|lia|done]|].
      rewrite orb_true_r. destruct (IH (S max) true k Hk) as (j & f & -> & Hj & Hf). exists (S j), f.
      split_and!; [f_equal; f_equal; lia|lia|]. intros ->. by destruct (Hf eq_refl).
    + rewrite orb_false_r. destruct (same e).
      * exists O, full. rewrite Nat.add_0_r. split_and!; [done|lia|]. intros ->. split; [done|]. lia.
      * destruct (IH (S i) full k Hk) as (j & f & -> & Hj & Hf). exists (S j), f.
        split_and!; [f_equal; f_equal; lia|lia|]. intros ->. destruct (Hf eq_refl) as [-> H]. split; [done|]. lia.
  - exists O, full. rewrite Nat.add_0_r. split_and!; [done|lia|]. intros ->. split; [done|]. lia.
Qed.
Lemma clear_args_length a : length (clear_args a) = length a.
Proof. apply length_imap. Qed.
Lemma clear_args_lookup a i : clear_args a !! i = (fun x => if (1 <=? i)%nat && (i <? MAX_INIT_ARGS)%nat then None else x) <$> a !! i.
Proof. apply list_lookup_imap. Qed.

Lemma handler_keeps_ok p f str s : keeps_args p -> op_setup p = Some f -> args_ok s -> args_ok (f str s).2.
Proof.
  intros Hp Hf [H1 H2 [a H3] H4 H5]. destruct (Hp f str s Hf) as (He & Hpl & Ha). split.
  - destruct Ha as [-> | ->]; by rewrite ?clear_args_length.
  - by rewrite He.
  - exists a. destruct Ha as [-> | ->]; by rewrite ?clear_args_lookup, ?H3.
  - rewrite Hpl. intros Hn. destruct Ha as [-> | ->]; rewrite ?clear_args_lookup, H4 by done; [done|].
    simpl. by case_match.
  - rewrite Hpl, He. done.
Qed.
Lemma check_table_keeps_ok ps line had s :
  Forall keeps_args ps -> args_ok s -> args_ok (check_table ps line had s).2.
Proof.
  revert had s. induction ps as [|p ps IH]; intros had s Hps Hs; simpl; [done|].
  apply Forall_cons in Hps as [Hp Hps]. destruct (parameqn _ _ _); [|by apply IH].
  destruct (op_early p); [by apply IH|]. destruct (op_setup p) as [f|] eqn:Ef; [|done].
  pose proof (handler_keeps_ok p f (Some (drop (length (op_str p)) line)) s Hp Ef Hs) as Hk.
  destruct (f _ s) as [r s'] eqn:E. simpl in Hk. destruct (negb (r =? 0)); [done|by apply IH].
Qed.
(** Storing where a scan ended. *)
Lemma store_argv_ok s i p q : args_ok s ->
  (i <= MAX_INIT_ARGS + 1)%nat -> (panic_later q = None -> i <= MAX_INIT_ARGS)%nat ->
  envp_init q = envp_init s -> argv_init q = argv_init s -> (panic_later q = None -> panic_later s = None) ->
  exists a, store (argv_init s) i p = Some a /\ args_ok (set_argv a q).
Proof.
  intros [H1 H2 [x H3] H4 H5] Hi Hpi Ee Ea Ep. unfold store. rewrite H1. replace (i <? _)%nat with true by lia.
  eexists. split; [done|]. split; simpl; rewrite ?length_insert, ?Ee; [done|done| | |by auto].
  - destruct i; [rewrite list_lookup_insert_eq by lia|rewrite list_lookup_insert_ne by lia]; eauto.
  - intros Hn. rewrite list_lookup_insert_ne by (specialize (Hpi Hn); lia). auto.
Qed.
Lemma store_envp_ok s i p q : args_ok s ->
  (i <= MAX_INIT_ENVS + 1)%nat -> (panic_later q = None -> i <= MAX_INIT_ENVS)%nat ->
  envp_init q = envp_init s -> argv_init q = argv_init s -> (panic_later q = None -> panic_later s = None) ->
  exists a, store (envp_init q) i p = Some a /\ args_ok (set_envp a q).
Proof.
  intros [H1 H2 [x H3] H4 H5] Hi Hpi Ee Ea Ep. unfold store. rewrite Ee, H2. replace (i <? _)%nat with true by lia.
  eexists. split; [done|]. split; simpl; rewrite ?length_insert, ?Ea; [done|done|eauto|by auto|].
  intros Hn. rewrite list_lookup_insert_ne by (specialize (Hpi Hn); lia). auto.
Qed.

Lemma set_init_arg_ok name val s : args_ok s -> exists s', set_init_arg name val s = Some s' /\ args_ok s'.
Proof.
  intros Hs. unfold set_init_arg. destruct (panic_later s) eqn:Ep; [eauto|].
  destruct (scan_bounded true (argv_init s) MAX_INIT_ARGS 0 false never _ (ok_argv_end s Hs Ep)) as (j & full & -> & Hj & Hf).
  simpl. destruct full.
  - eexists. split; [done|]. destruct Hs. by split.
  - destruct (store_argv_ok s j (repaired name val) s Hs) as (a & -> & Hok); [lia| |done..|eauto].
    intros _. destruct (Hf eq_refl) as [_ [Hm|Hm]]; lia.
Qed.
Lemma add_env_ok name v s : args_ok s -> panic_later s = None -> exists s', add_env name v s = Some s' /\ args_ok s'.
Proof.
  intros Hs Ep. unfold add_env.
  destruct (scan_bounded false (envp_init s) MAX_INIT_ENVS 0 false (same_name name) _ (ok_envp_end s Hs Ep)) as (j & full & -> & Hj & Hf).
  simpl. destruct (store_envp_ok s j (repaired name (Some v))
    (if full then panics (bytes_of "env") (repaired name (Some v)) s else s) Hs) as (a & E & Hok);
    try (by destruct full); [|destruct full; simpl in *; rewrite E; simpl; eauto].
  destruct full; [done|]. intros _. destruct (Hf eq_refl) as [_ [Hm|Hm]]; lia.
Qed.
Lemma add_arg_ok p s : args_ok s -> panic_later s = None -> exists s', add_arg p s = Some s' /\ args_ok s'.
Proof.
  intros Hs Ep. unfold add_arg.
  destruct (scan_bounded false (argv_init s) MAX_INIT_ARGS 0 false never _ (ok_argv_end s Hs Ep)) as (j & full & -> & Hj & Hf).
  simpl. destruct (store_argv_ok s j p (if full then panics (bytes_of "init") p s else s) Hs) as (a & E & Hok);
    try (by destruct full); [|].
  - destruct full; [done|]. intros _. destruct (Hf eq_refl) as [_ [Hm|Hm]]; lia.
  - destruct full; simpl in *; rewrite E; simpl; eauto.
Qed.
Lemma take_option_ok o s : Forall keeps_args setup_table -> args_ok s -> exists s', take_option o s = Some s' /\ args_ok s'.
Proof.
  intros Hk Hs. destruct o as [name val|name val]; [|by apply set_init_arg_ok]. simpl. unfold unknown_bootoption.
  destruct (sysctl_is_alias name); [eauto|]. unfold obsolete_checksetup.
  pose proof (check_table_keeps_ok setup_table (repaired name val) false s Hk Hs) as Hc.
  destruct (check_table _ _ _ _) as [taken s1]. simpl in Hc. destruct taken; [eauto|]. destruct (bool_decide _); [eauto|].
  destruct (panic_later s1) eqn:Ep; [eauto|]. destruct val; [by apply add_env_ok|by apply add_arg_ok].
Qed.
Lemma take_options_cons o os s : take_options (o :: os) s = take_option o s ≫= take_options os.
Proof.
  unfold take_options. simpl. destruct (take_option o s); simpl; [done|]. induction os; simpl; auto.
Qed.
Lemma take_options_app a b s : take_options (a ++ b) s = take_options a s ≫= take_options b.
Proof.
  revert s. induction a as [|o a IH]; intros s; [done|]. rewrite <- app_comm_cons, !take_options_cons.
  destruct (take_option o s); simpl; auto.
Qed.
Lemma visible_bounded arr k : arr !! k = Some None -> (length (visible arr) <= k)%nat.
Proof.
  revert k. induction arr as [|[e|] arr IH]; intros [|k] Hk; simpl in *; try done; try lia. apply le_n_S. auto.
Qed.

(** C35: However many options the command line has and whatever the handlers
    of the rest of the kernel do, collecting them for init never reads or
    writes outside of the two arrays; unless the boot is going to panic both
    arrays are still NULL-terminated, so init gets at most MAX_INIT_ARGS
    arguments after its name and at most MAX_INIT_ENVS + 1 environment
    strings. *)
Theorem init_vectors_safe os s :
  Forall keeps_args setup_table -> args_ok s ->
  exists s', take_options os s = Some s' /\ args_ok s' /\
    (panic_later s' = None -> (length (visible (argv_init s')) <= MAX_INIT_ARGS + 1)%nat /\
                              (length (visible (envp_init s')) <= MAX_INIT_ENVS + 1)%nat).
Proof.
  intros Hk Hs. cut (exists s', take_options os s = Some s' /\ args_ok s').
  { intros (s' & E & Hs'). exists s'. split_and!; [done|done|]. intros Hn.
    split; apply visible_bounded; by apply Hs'. }
  revert s Hs. induction os as [|o os IH]; intros s Hs; [by exists s|]. rewrite take_options_cons.
  destruct (take_option_ok o s Hk Hs) as (s1 & -> & H1). simpl. auto.
Qed.
End parsing.

(** ** What init receives *)
Section delivered.
Context {W : Type} {pe : ParamEnv W}.
#[local] Abbreviation st := (bargs W).

(** An option that neither a sysctl, a handler nor a module claims; names end
    at the first [=]. *)
Definition unclaimed (o : boot_option) : Prop :=
  match o with
  | Option_ name val =>
      sysctl_is_alias name = false /\ DOT ∉ name /\ EQUALS ∉ name /\
      Forall (fun p => parameqn (repaired name val) (op_str p) (length (op_str p)) = false) setup_table
  | InitArg _ _ => True
  end.
(** The environment as an association list in order of first definition. *)
Fixpoint upsert (name v : list Z) (es : list (list Z)) : list (list Z) :=
  match es with
  | [] => [repaired name (Some v)]
  | e :: es => if same_name name e then repaired name (Some v) :: es else e :: upsert name v es
  end.
Fixpoint getenv (name : list Z) (es : list (list Z)) : option (list Z) :=
  match es with
  | [] => None
  | e :: es => if same_name name e then Some (drop (length name + 1) e) else getenv name es
  end.
(** The arguments and the environment after an option. *)
Definition deliver (ae : list (list Z) * list (list Z)) (o : boot_option) : list (list Z) * list (list Z) :=
  match o with
  | Option_ name (Some v) => (ae.1, upsert name v ae.2)
  | Option_ name val | InitArg name val => (ae.1 ++ [repaired name val], ae.2)
  end.

Lemma check_table_unclaimed (ps : list (obs_kernel_param W)) line had s :
  Forall (fun p => parameqn line (op_str p) (length (op_str p)) = false) ps -> check_table ps line had s = (had, s).
Proof. induction 1 as [|p ps Hp _ IH]; simpl; [done|]. by rewrite Hp. Qed.
Lemma scan_free stop l k tl max i :
  (i + length l <= max)%nat -> scan stop ((Some <$> l) ++ replicate (S k) None ++ tl) max i false never = Some ((i + length l)%nat, false).
Proof.
  revert i. induction l as [|e l IH]; intros i Hi; simpl in *; [by rewrite Nat.add_0_r|].
  replace (i =? max)%nat with false by lia. simpl. rewrite IH by lia. do 2 f_equal. lia.
Qed.
Lemma store_free l k tl p :
  store ((Some <$> l) ++ replicate (S k) None ++ tl) (length l) p = Some ((Some <$> (l ++ [p])) ++ replicate k None ++ tl).
Proof.
  unfold store. rewrite !length_app, length_fmap. simpl. replace (_ <? _)%nat with true by lia. f_equal.
  rewrite insert_app_r_alt by (rewrite length_fmap; lia). rewrite length_fmap, Nat.sub_diag. simpl.
  by rewrite fmap_app, <- app_assoc.
Qed.
Lemma length_upsert name v es : (length es <= length (upsert name v es))%nat.
Proof. induction es as [|e es IH]; simpl; [lia|]. case_match; simpl; lia. Qed.
Lemma length_deliver ae o : (length ae.1 <= length (deliver ae o).1)%nat /\ (length ae.2 <= length (deliver ae o).2)%nat.
Proof. destruct o as [name [v|]|name val]; simpl; rewrite ?length_app; simpl; pose proof (length_upsert name); split; auto; lia. Qed.
Lemma length_delivers os ae :
  (length ae.1 <= length (foldl deliver ae os).1)%nat /\ (length ae.2 <= length (foldl deliver ae os).2)%nat.
Proof.
  revert ae. induction os as [|o os IH]; intros ae; simpl; [lia|]. pose proof (length_deliver ae o). specialize (IH (deliver ae o)). lia.
Qed.
(** The place the environment option goes to. *)
Lemma env_place name v es k i :
  (i + length (upsert name v es) <= MAX_INIT_ENVS)%nat -> (length (upsert name v es) <= length es + k)%nat ->
  exists j, scan false ((Some <$> es) ++ replicate (S k) None) MAX_INIT_ENVS i false (same_name name) = Some ((i + j)%nat, false) /\
    store ((Some <$> es) ++ replicate (S k) None) j (repaired name (Some v)) =
      Some ((Some <$> upsert name v es) ++ replicate (S k - (length (upsert name v es) - length es)) None).
Proof.
  revert i. induction es as [|e es IH]; intros i Hi Hk; csimpl in *.
  - exists O. rewrite Nat.add_0_r. by destruct k.
  - destruct (same_name name e) eqn:Es; csimpl in *; replace (i =? MAX_INIT_ENVS)%nat with false by lia; simpl.
    + exists O. rewrite Nat.add_0_r, Nat.sub_diag. done.
    + destruct (IH (S i)) as (j & E & St); [lia|lia|]. exists (S j). rewrite E. split; [do 2 f_equal; lia|].
      unfold store in *. csimpl in *. destruct (Nat.ltb_spec j (length ((Some <$> es) ++ None :: replicate k None))) as [Hj|Hj]; [|done].
      rewrite (proj2 (Nat.ltb_lt _ _)) by lia. csimpl. injection St as St. by rewrite St.
Qed.
(** The arrays hold these strings and then NULLs; [tl] is what follows. *)
Record holds (s : st) (ae : list (list Z) * list (list Z)) (k : nat) (tl : list (option (list Z))) : Prop := {
  h_quiet : panic_later s = None;
  h_argv : argv_init s = (Some <$> ae.1) ++ replicate k None ++ tl;
  h_envp : envp_init s = (Some <$> ae.2) ++ replicate (MAX_INIT_ENVS + 2 - length ae.2) None;
}.
#[local] Arguments repaired : simpl never.
Lemma arg_delivered stop s ae k tl p :
  holds s ae k tl -> (length ae.1 <= MAX_INIT_ARGS)%nat -> (0 < k)%nat ->
  exists a, scan stop (argv_init s) MAX_INIT_ARGS 0 false never = Some (length ae.1, false) /\
    store (argv_init s) (length ae.1) p = Some a /\
    holds (set_argv a s) (ae.1 ++ [p], ae.2) (length ae.1 + k - (length ae.1 + 1)) tl.
Proof.
  intros [H1 H2 H3] Hl Hk. destruct k as [|k]; [lia|]. rewrite H2, scan_free, store_free by done.
  eexists. split_and!; [done|done|]. replace (length ae.1 + S k - (length ae.1 + 1))%nat with k by lia. by split.
Qed.
Lemma option_delivered o s ae k tl :
  unclaimed o -> holds s ae k tl ->
  (length (deliver ae o).1 <= length ae.1 + k)%nat -> (length (deliver ae o).1 <= MAX_INIT_ARGS + 1)%nat ->
  (length (deliver ae o).2 <= MAX_INIT_ENVS)%nat ->
  exists s', take_option o s = Some s' /\ holds s' (deliver ae o) (length ae.1 + k - length (deliver ae o).1) tl.
Proof.
  intros Ho Hh Hk Ha He.
  destruct o as [name val|name val]; simpl in *.
  - destruct Ho as (Hs & Hd & _ & Ht). unfold unknown_bootoption, obsolete_checksetup. rewrite Hs, check_table_unclaimed by done.
    rewrite bool_decide_false by done. rewrite (h_quiet _ _ _ _ Hh). destruct val as [v|]; simpl in *.
    + unfold add_env. rewrite (h_envp _ _ _ _ Hh). pose proof (length_upsert name v ae.2).
      replace (MAX_INIT_ENVS + 2 - length ae.2)%nat with (S (MAX_INIT_ENVS + 1 - length ae.2)) by lia.
      destruct (env_place name v ae.2 (MAX_INIT_ENVS + 1 - length ae.2) 0) as (j & E & St); [lia|lia|].
      rewrite E. simpl (mbind _ (Some _)). rewrite (h_envp _ _ _ _ Hh).
      replace (MAX_INIT_ENVS + 2 - length ae.2)%nat with (S (MAX_INIT_ENVS + 1 - length ae.2)) by lia.
      rewrite St. simpl. eexists. split; [done|]. destruct Hh as [H1 H2 H3]. split; simpl; [done| |].
      * rewrite H2. by replace (length ae.1 + k - length ae.1)%nat with k by lia.
      * do 2 f_equal. lia.
    + rewrite length_app in *. simpl in *. unfold add_arg. destruct (arg_delivered false s ae k tl (repaired name None) Hh) as (a & -> & E & H); [lia|lia|].
      simpl. rewrite E. simpl. eauto.
  - unfold set_init_arg. rewrite (h_quiet _ _ _ _ Hh). rewrite length_app in *. simpl in *.
    destruct (arg_delivered true s ae k tl (repaired name val) Hh) as (a & -> & E & H); [lia|lia|]. simpl. rewrite E. simpl. eauto.
Qed.
Lemma options_delivered os s ae k tl :
  Forall unclaimed os -> holds s ae k tl -> let r := foldl deliver ae os in
  (length r.1 <= length ae.1 + k)%nat -> (length r.1 <= MAX_INIT_ARGS + 1)%nat -> (length r.2 <= MAX_INIT_ENVS)%nat ->
  exists s', take_options os s = Some s' /\ holds s' r (length ae.1 + k - length r.1) tl.
Proof.
  intros Hos. revert s ae k. induction Hos as [|o os Ho Hos IH]; intros s ae k Hh r Hk Ha He; subst r; simpl in *.
  - exists s. split; [done|]. by replace (length ae.1 + k - length ae.1)%nat with k by lia.
  - pose proof (length_deliver ae o). pose proof (length_delivers os (deliver ae o)). rewrite take_options_cons.
    destruct (option_delivered o s ae k tl) as (s1 & -> & H1); [done|done|lia..|]. simpl.
    destruct (IH s1 _ _ H1) as (s2 & -> & H2); [lia..|]. exists s2. split; [done|].
    by replace (length ae.1 + k - length (foldl deliver (deliver ae o) os).1)%nat with
      (length (deliver ae o).1 + (length ae.1 + k - length (deliver ae o).1) - length (foldl deliver (deliver ae o) os).1)%nat by lia.
Qed.

(** *** Names *)
Lemma same_name_spec name name' v :
  EQUALS ∉ name -> EQUALS ∉ name' -> same_name name (repaired name' (Some v)) = true <-> name = name'.
Proof.
  intros Hn Hn'. unfold same_name, repaired. rewrite bool_decide_eq_true. split; [|intros ->].
  - revert name' Hn'. induction name as [|c name IH]; intros [|c' name'] Hn' E; simpl in *; simplify_eq/=; [done| | |].
    + by destruct Hn'; left.
    + by destruct Hn; left.
    + f_equal. apply IH; [set_solver|set_solver|done].
  - rewrite app_assoc. apply take_app_length'. by rewrite length_app.
Qed.
Lemma getenv_upsert name name' v es :
  EQUALS ∉ name -> EQUALS ∉ name' ->
  getenv name (upsert name' v es) = if bool_decide (name = name') then Some v else getenv name es.
Proof.
  intros Hn Hn'. pose proof (same_name_spec name name' v Hn Hn') as Hs.
  assert (forall r, getenv name (repaired name' (Some v) :: r) = if bool_decide (name = name') then Some v else getenv name r) as Hc.
  { intros r. simpl. case_bool_decide as Hd.
    - rewrite (proj2 Hs Hd). subst. unfold repaired. rewrite app_assoc. by rewrite drop_app_length' by (by rewrite length_app).
    - destruct (same_name _ _); [|done]. destruct Hd. by apply Hs. }
  induction es as [|e es IH]; [apply Hc|]. cbn [upsert]. destruct (same_name name' e) eqn:E'.
  - rewrite Hc. case_bool_decide as Hd; [done|]. simpl. replace (same_name name e) with false; [done|]. symmetry.
    apply not_true_iff_false. intros E. unfold same_name in *. apply bool_decide_eq_true in E, E'. apply Hd.
    apply (proj1 (same_name_spec name name' (drop (length name' + 1) e) Hn Hn')). unfold same_name, repaired.
    apply bool_decide_eq_true. rewrite app_assoc, <- E', take_drop. done.
  - simpl. destruct (same_name name e) eqn:E; [|done]. case_bool_decide as Hd; [|done]. subst. congruence.
Qed.
(** The value of the last option with that name. *)
Definition last_value (name : list Z) (os : list boot_option) (old : option (list Z)) : option (list Z) :=
  foldl (fun r o => match o with Option_ n (Some v) => if bool_decide (name = n) then Some v else r | _ => r end) old os.
Lemma getenv_delivered name os ae :
  EQUALS ∉ name -> Forall unclaimed os -> getenv name (foldl deliver ae os).2 = last_value name os (getenv name ae.2).
Proof.
  intros Hn Hos. unfold last_value. revert ae. induction Hos as [|o os Ho _ IH]; intros ae; simpl; [done|].
  rewrite IH. destruct o as [n [v|]|]; simpl; [|done|done]. rewrite getenv_upsert; [done|done|by apply Ho].
Qed.
(** The arguments, in the order of the options. *)
Definition arguments (os : list boot_option) : list (list Z) :=
  omap (fun o => match o with Option_ _ (Some _) => None | Option_ n v | InitArg n v => Some (repaired n v) end) os.
Lemma arguments_delivered os ae : (foldl deliver ae os).1 = ae.1 ++ arguments os.
Proof.
  unfold arguments. revert ae. induction os as [|o os IH]; intros ae; csimpl; [by rewrite app_nil_r|].
  rewrite IH. destruct o as [n [v|]|]; simpl; by rewrite <- ?app_assoc.
Qed.
Lemma deliver_envs os args args' envs : (foldl deliver (args, envs) os).2 = (foldl deliver (args', envs) os).2.
Proof. revert args args' envs. induction os as [|[n [v|]|n v] os IH]; intros; simpl; auto. Qed.
Lemma visible_some l tl : visible ((Some <$> l) ++ tl) = l ++ visible tl.
Proof. induction l; simpl; [done|]. f_equal. done. Qed.
(** *** After init= *)
Lemma clear_args_shape s y :
  args_ok s -> panic_later s = None -> (1 <= MAX_INIT_ARGS)%nat -> argv_init s !! MAX_INIT_ARGS = Some y ->
  exists a0, argv_init s !! O = Some (Some a0) /\
    clear_args (argv_init s) = Some a0 :: replicate (MAX_INIT_ARGS - 1) None ++ [y; None].
Proof.
  intros [H1 H2 [a0 H3] H4 H5] Hp Hm Hy. exists a0. split; [done|]. apply list_eq_same_length with (MAX_INIT_ARGS + 2)%nat.
  - simpl. rewrite length_app, length_replicate. simpl. lia.
  - by rewrite clear_args_length.
  - intros i x x' Hi. rewrite clear_args_lookup. destruct i as [|i]; [rewrite H3; simpl; congruence|].
    change (S i) with (1 + i)%nat. destruct (decide (i < MAX_INIT_ARGS - 1)%nat) as [Hlt|Hge].
    + destruct (argv_init s !! (1 + i)%nat); simpl; [|done]. replace (S i <? MAX_INIT_ARGS)%nat with true by lia.
      rewrite lookup_app_l by (rewrite length_replicate; lia). rewrite lookup_replicate_2 by lia. congruence.
    + rewrite app_comm_cons. rewrite (lookup_app_r (Some a0 :: replicate _ _)) by (simpl; rewrite length_replicate; lia).
      simpl length. rewrite length_replicate. replace (1 + i <? MAX_INIT_ARGS)%nat with false by lia. rewrite andb_false_r.
      destruct (decide (1 + i = MAX_INIT_ARGS)%nat) as [E|E].
      * rewrite E, Hy. replace (MAX_INIT_ARGS - S (MAX_INIT_ARGS - 1))%nat with O by lia. simpl. congruence.
      * replace (1 + i)%nat with (MAX_INIT_ARGS + 1)%nat by lia. rewrite H4 by done.
        replace (MAX_INIT_ARGS + 1 - S (MAX_INIT_ARGS - 1))%nat with 1%nat by lia. simpl. congruence.
Qed.
Lemma holds_after_init str s y envs :
  args_ok s -> panic_later s = None -> (1 <= MAX_INIT_ARGS)%nat -> argv_init s !! MAX_INIT_ARGS = Some y ->
  envp_init s = (Some <$> envs) ++ replicate (MAX_INIT_ENVS + 2 - length envs) None ->
  exists a0, holds (init_setup str s).2 ([a0], envs) (MAX_INIT_ARGS - 1) [y; None].
Proof. intros Hs Hp Hm Hy He. destruct (clear_args_shape s y Hs Hp Hm Hy) as (a0 & _ & E). exists a0. by split. Qed.
Lemma visible_none k tl : visible (replicate (S k) None ++ tl) = [].
Proof. done. Qed.

(** After [init=] the arguments and variables that follow reach init:
    its arguments are exactly the bare options and those after [--], in
    order, every variable has the value of the last option with its name, and
    the ones no option names keep theirs; earlier arguments are forgotten.
    This needs the last slot to be free when [init=] is parsed. *)
Theorem options_after_init os s str envs :
  args_ok s -> panic_later s = None -> (1 <= MAX_INIT_ARGS)%nat -> argv_init s !! MAX_INIT_ARGS = Some None ->
  envp_init s = (Some <$> envs) ++ replicate (MAX_INIT_ENVS + 2 - length envs) None ->
  Forall unclaimed os -> (length (arguments os) <= MAX_INIT_ARGS)%nat ->
  (length (foldl deliver ([], envs) os).2 <= MAX_INIT_ENVS)%nat ->
  exists s', take_options os (init_setup str s).2 = Some s' /\ panic_later s' = None /\
    tail (visible (argv_init s')) = arguments os /\
    forall name, EQUALS ∉ name -> getenv name (visible (envp_init s')) = last_value name os (getenv name envs).
Proof.
  intros Hs Hp Hm Hy He Ho Ha Hl. destruct (holds_after_init str s None envs Hs Hp Hm Hy He) as [a0 [H1 H2 H3]].
  assert (holds (init_setup str s).2 ([a0], envs) (MAX_INIT_ARGS + 1) []) as Hh.
  { split; [done| |done]. rewrite H2, app_nil_r. simpl. f_equal. change [None; None] with (replicate 2 (@None (list Z))).
    rewrite <- replicate_add. f_equal. lia. }
  pose proof (arguments_delivered os ([a0], envs)) as Er. pose proof (deliver_envs os [a0] [] envs) as Ee.
  destruct (options_delivered os _ _ _ _ Ho Hh) as (s' & E & [G1 G2 G3]);
    [rewrite Er, length_app; simpl; lia..|by rewrite Ee|].
  exists s'. split_and!; [done|done| |].
  - rewrite G2, Er, visible_some, length_app. simpl. replace (MAX_INIT_ARGS + 1 - length (arguments os))%nat with (S (MAX_INIT_ARGS - length (arguments os))) by lia.
    by rewrite visible_none, app_nil_r.
  - intros name Hn. rewrite G3, <- (app_nil_r (replicate _ _)), visible_some.
    replace (MAX_INIT_ENVS + 2 - _)%nat with (S (MAX_INIT_ENVS + 1 - length (foldl deliver ([a0], envs) os).2)) by (rewrite Ee; lia).
    rewrite visible_none, app_nil_r. by apply getenv_delivered.
Qed.

(** The loop of [init=] stops one slot early: an argument in the last
    slot, entered before [init=], survives it, and when the options after it
    fill the other slots init receives it behind them. *)
Theorem init_keeps_stale_argument os s str envs x :
  args_ok s -> panic_later s = None -> (1 <= MAX_INIT_ARGS)%nat -> argv_init s !! MAX_INIT_ARGS = Some (Some x) ->
  envp_init s = (Some <$> envs) ++ replicate (MAX_INIT_ENVS + 2 - length envs) None ->
  Forall unclaimed os -> length (arguments os) = (MAX_INIT_ARGS - 1)%nat ->
  (length (foldl deliver ([], envs) os).2 <= MAX_INIT_ENVS)%nat ->
  exists s', take_options os (init_setup str s).2 = Some s' /\ panic_later s' = None /\
    tail (visible (argv_init s')) = arguments os ++ [x].
Proof.
  intros Hs Hp Hm Hy He Ho Ha Hl. destruct (holds_after_init str s (Some x) envs Hs Hp Hm Hy He) as [a0 Hh].
  pose proof (arguments_delivered os ([a0], envs)) as Er. pose proof (deliver_envs os [a0] [] envs) as Ee.
  destruct (options_delivered os _ _ _ _ Ho Hh) as (s' & E & [G1 G2 G3]);
    [rewrite Er, length_app; simpl; lia..|by rewrite Ee|].
  exists s'. split_and!; [done|done|]. rewrite G2, Er, visible_some, length_app. simpl. rewrite Ha.
  by replace (_ - _)%nat with O by lia.
Qed.
End delivered.

(** ** Strings in the command line *)
Definition cstring (m : umem) (a : Z) (l : list Z) : Prop := text_ok l /\ read_bytes m a (length l + 1) = l ++ [0].
Lemma cstring_cons m a c l : cstring m a (c :: l) <-> c <> 0 /\ ubyte m a = c /\ cstring m (a + 1) l.
Proof. unfold cstring, text_ok. simpl. rewrite Forall_cons. intuition congruence. Qed.
Lemma strlen_at_cstring fuel m a l : cstring m a l -> (length l < fuel)%nat -> strlen_at fuel m a = length l.
Proof.
  revert a fuel. induction l as [|c l IH]; intros a [|fuel] Hc Hf; simpl in *; try lia.
  - destruct Hc as [_ E]. simpl in E. injection E as ->. done.
  - apply cstring_cons in Hc as (Hn & Hu & Hc). rewrite Hu. destruct (Z.eqb_spec c 0); [done|]. f_equal. apply IH; [done|lia].
Qed.
Lemma cstring_text m a l : cstring m a l -> read_bytes m a (length l) = l.
Proof. intros [_ E]. rewrite read_bytes_app in E. by apply app_inj_1 in E as [E _]; [|by rewrite length_read_bytes]. Qed.
Lemma ubyte_write_one m a c x : ubyte (write_bytes m a [c]) x = if bool_decide (x = a) then c else ubyte m x.
Proof. unfold ubyte. simpl. case_bool_decide; subst; [by rewrite lookup_insert_eq|by rewrite lookup_insert_ne]. Qed.

(** After parsing has cut an option in two, [repair_env_string] joins it
    again in place, for values with and without quotes: the address of the
    name then holds the whole of name, equals sign and value, and no byte
    outside of the option changes. *)
Theorem repair_env_string_joins fuel m param val name v :
  cstring m param name -> cstring m val v ->
  val = param + Z.of_nat (length name) + 1 \/ val = param + Z.of_nat (length name) + 2 ->
  (length name < fuel)%nat -> (length v < fuel)%nat ->
  exists m', repair_env_string fuel m param (Some val) = Some m' /\ cstring m' param (repaired name (Some v)) /\
    forall x, x < param \/ val + Z.of_nat (length v) < x -> ubyte m' x = ubyte m x.
Proof.
  intros Hn Hv Hval Hfn Hfv. unfold repair_env_string. rewrite (strlen_at_cstring fuel m param name) by done.
  set (n := Z.of_nat (length name)) in *. assert (text_ok (repaired name (Some v))) as Ht.
  { unfold text_ok, repaired. rewrite !Forall_app. split_and!; [apply Hn|by repeat constructor|apply Hv]. }
  destruct Hval as [-> | ->].
  - rewrite Z.eqb_refl. eexists. split; [done|]. replace (param + n + 1 - 1) with (param + n) by lia. split; [split; [done|]|].
    + unfold repaired. rewrite !length_app, <- !Nat.add_assoc, read_bytes_app. fold n.
      rewrite read_write_out by (subst n; lia). rewrite (cstring_text m param name Hn), <- !app_assoc. f_equal.
      rewrite read_bytes_app, read_write_same. f_equal. rewrite read_write_out by (simpl; lia). apply Hv.
    + intros x Hx. rewrite ubyte_write_one, bool_decide_false by lia. done.
  - replace (param + n + 2 =? param + n + 1) with false by lia. rewrite Z.eqb_refl.
    replace (param + n + 2 - 2) with (param + n) by lia. set (m1 := write_bytes m (param + n) [EQUALS]).
    assert (cstring m1 (param + n + 2) v) as Hv1.
    { split; [apply Hv|]. subst m1. rewrite read_write_out by (simpl; lia). apply Hv. }
    rewrite (strlen_at_cstring fuel m1 _ v Hv1 Hfv), (proj2 Hv1). replace (param + n + 2 - 1) with (param + n + 1) by lia.
    eexists. split; [done|]. split; [split; [done|]|].
    + unfold repaired. rewrite !length_app, <- !Nat.add_assoc, read_bytes_app. fold n. rewrite <- !app_assoc. f_equal.
      * subst m1. rewrite !read_write_out by (subst n; simpl; lia). by apply cstring_text.
      * rewrite read_bytes_app. f_equal.
        -- rewrite read_write_out by (simpl; lia). apply read_write_same.
        -- change (Z.of_nat (length [EQUALS])) with 1. rewrite <- (length_app v [0]) at 1. apply read_write_same.
    + intros x Hx. rewrite ubyte_write_out by (rewrite length_app; simpl; lia). subst m1.
      rewrite ubyte_write_one, bool_decide_false by lia. done.
Qed.

(** ** The message *)
Definition spaced (l : list (list Z)) : list Z := l ≫= (fun e => bytes_of " " ++ e).
Lemma options_len_spaced l n : options_len l n = n + Z.of_nat (length (spaced l)).
Proof.
  unfold options_len, spaced. revert n. induction l as [|e l IH]; intros n; csimpl; [lia|]. rewrite IH, length_app. simpl. lia.
Qed.
Lemma print_options_spaced l size text :
  Z.of_nat (length text) + Z.of_nat (length (spaced l)) + 1 <= size -> print_options l size text = Some (text ++ spaced l).
Proof.
  unfold spaced. revert text. induction l as [|e l IH]; intros text Hs; csimpl in *; [by rewrite app_nil_r|].
  rewrite !length_app in *. simpl length in *. replace (_ <=? size) with true by lia.
  rewrite IH by (rewrite !length_app; simpl; lia). by rewrite <- !app_assoc.
Qed.

Lemma print_unknown_bootoptions_spec `{BootEnv} {W} (s : bargs W) :
  print_unknown_bootoptions s =
  let l := visible (drop 1 (argv_init s)) ++ visible (drop 2 (envp_init s)) in
  if bool_decide (is_Some (panic_later s)) || bool_decide (l = []) || negb (memblock_alloc (1 + Z.of_nat (length (spaced l))))
  then Some None else Some (Some (drop 1 (spaced l))).
Proof.
  unfold print_unknown_bootoptions. cbv zeta. set (a := visible _). set (e := visible (drop 2 _)).
  assert (bool_decide (a = []) && bool_decide (e = []) = bool_decide (a ++ e = [])) as ->.
  { rewrite <- bool_decide_and. apply bool_decide_ext. rewrite app_nil. done. }
  rewrite !options_len_spaced. assert (spaced (a ++ e) = spaced a ++ spaced e) as Es by apply bind_app.
  rewrite Es, length_app, Nat2Z.inj_add, Z.add_assoc. destruct (_ || _); [done|]. destruct (memblock_alloc _); [|done]. simpl.
  rewrite print_options_spaced by (simpl; lia). simpl. rewrite print_options_spaced by lia. done.
Qed.

(** The message about the options passed to user space never writes past
    the buffer whose size is computed before it, and is exactly the options
    after the name of init and after the two default variables, separated by
    spaces. *)
Theorem unknown_options_message `{BootEnv} {W} (s : bargs W) :
  print_unknown_bootoptions s =
  let l := visible (drop 1 (argv_init s)) ++ visible (drop 2 (envp_init s)) in
  if bool_decide (is_Some (panic_later s)) || bool_decide (l = []) || negb (memblock_alloc (1 + Z.of_nat (length (spaced l))))
  then Some None else Some (Some (drop 1 (spaced l))).
Proof. apply print_unknown_bootoptions_spec. Qed.

(** ** Early options *)
Section early.
Context {W : Type} {pe : ParamEnv W}.
#[local] Abbreviation st := (bargs W).
Lemma clear_args_twice a : clear_args (clear_args a) = clear_args a.
Proof. apply list_eq. intros i. rewrite !clear_args_lookup. destruct (a !! i); simpl; [|done]. by case_match. Qed.
Lemma check_table_args (ps : list (obs_kernel_param W)) line had s : Forall keeps_args ps ->
  let s' := (check_table ps line had s).2 in
  envp_init s' = envp_init s /\ panic_later s' = panic_later s /\
  (argv_init s' = argv_init s \/ argv_init s' = clear_args (argv_init s)).
Proof.
  revert had s. induction ps as [|p ps IH]; intros had s Hps; simpl; [auto|].
  apply Forall_cons in Hps as [Hp Hps]. destruct (parameqn _ _ _); [|by apply IH].
  destruct (op_early p); [by apply IH|]. destruct (op_setup p) as [f|] eqn:Ef; [|auto].
  pose proof (Hp f (Some (drop (length (op_str p)) line)) s Ef) as Hf. destruct (f _ s) as [r s1] eqn:E. simpl in Hf.
  destruct (negb (r =? 0)); [done|]. destruct Hf as (H1 & H2 & H3). destruct (IH had s1 Hps) as (G1 & G2 & G3).
  rewrite G1, G2. split_and!; [done|done|]. destruct G3 as [-> | ->], H3 as [-> | ->]; rewrite ?clear_args_twice; auto.
Qed.
Lemma check_table_had (ps : list (obs_kernel_param W)) line s : (check_table ps line true s).1 = true.
Proof.
  revert s. induction ps as [|p ps IH]; intros s; simpl; [done|]. destruct (parameqn _ _ _); [|auto].
  destruct (op_early p); [by case_match|]. destruct (op_setup p) as [f|]; [|done].
  destruct (f _ s). destruct (negb _); auto.
Qed.
Lemma check_table_early (ps : list (obs_kernel_param W)) line had s p :
  p ∈ ps -> op_early p = true -> parameqn line (op_str p) (length (op_str p)) = true ->
  default 0 (line !! length (op_str p)) ∈ [0; EQUALS] -> (check_table ps line had s).1 = true.
Proof.
  intros Hp He Hq Hc. revert had s. induction ps as [|q ps IH]; intros had s; [by apply elem_of_nil in Hp|].
  apply elem_of_cons in Hp as [<-|Hp]; simpl.
  - rewrite Hq, He. replace (_ || _) with true; [apply check_table_had|]. symmetry. set_unfold in Hc.
    destruct Hc as [Hc|[Hc|[]]]; rewrite Hc; done.
  - destruct (parameqn line (op_str q) _); [|by apply IH]. destruct (op_early q); [by apply IH|].
    destruct (op_setup q) as [f|]; [|done]. destruct (f _ s). destruct (negb _); [done|by apply IH].
Qed.

(** An option some early handler has already consumed is not handed to
    init: the environment stays, and the arguments stay or are cleared as a
    whole by a handler of the same name. *)
Theorem early_options_not_passed name val s p :
  Forall keeps_args setup_table -> p ∈ setup_table -> op_early p = true ->
  let line := repaired name val in
  parameqn line (op_str p) (length (op_str p)) = true -> default 0 (line !! length (op_str p)) ∈ [0; EQUALS] ->
  exists s', unknown_bootoption name val s = Some s' /\ envp_init s' = envp_init s /\ panic_later s' = panic_later s /\
    (argv_init s' = argv_init s \/ argv_init s' = clear_args (argv_init s)).
Proof.
  intros Hk Hp He line Hq Hc. unfold unknown_bootoption. destruct (sysctl_is_alias name); [by exists s; auto|]. fold line.
  unfold obsolete_checksetup. pose proof (check_table_args setup_table line false s Hk) as Ha.
  pose proof (check_table_early setup_table line false s p Hp He Hq Hc) as Ht.
  destruct (check_table _ _ _ _) as [taken s1]. simpl in *. subst taken. by exists s1.
Qed.
(** The early options are parsed once. *)
Lemma parse_early_param_once `{BootEnv} l l' (s : st) : parse_early_param l (parse_early_param l' s) = parse_early_param l' s.
Proof.
  unfold parse_early_param. destruct (early_done s) eqn:E; [by rewrite E|]. done.
Qed.
End early.

(** ** Examples *)
Module Demo.
Definition dash2underscore (c : Z) : Z := if c =? 45 then 95 else c.
Definition table : list (obs_kernel_param unit) :=
  [ObsParam (bytes_of "reset_devices") false (Some set_reset_devices); ObsParam (bytes_of "debug") true (Some debug_kernel);
   ObsParam (bytes_of "quiet") true (Some quiet_kernel)].
#[local] Instance env0 : ParamEnv unit := {|
  MAX_INIT_ARGS := 32; MAX_INIT_ENVS := 32;
  parameqn a b n := bool_decide (take n (dash2underscore <$> a) = take n (dash2underscore <$> b));
  parameq a b := bool_decide (dash2underscore <$> a = dash2underscore <$> b);
  sysctl_is_alias _ := false; setup_table := table;
  get_option _ := None; kstrtobool _ := inl (-22); arch_parse_debug_rodata _ := false |}.
(** The table with the two handlers that clear. *)
#[local] Instance env1 : ParamEnv unit := {|
  MAX_INIT_ARGS := MAX_INIT_ARGS (ParamEnv := env0); MAX_INIT_ENVS := MAX_INIT_ENVS (ParamEnv := env0);
  parameqn := parameqn (ParamEnv := env0); parameq := parameq (ParamEnv := env0);
  sysctl_is_alias := sysctl_is_alias (ParamEnv := env0);
  setup_table := table ++ [ObsParam (bytes_of "init=") false (Some init_setup); ObsParam (bytes_of "rdinit=") false (Some rdinit_setup)];
  get_option := get_option (ParamEnv := env0); kstrtobool := kstrtobool (ParamEnv := env0);
  arch_parse_debug_rodata := arch_parse_debug_rodata (ParamEnv := env0) |}.
#[local] Remove Hints env0 : typeclass_instances.
Definition start : bargs unit := BArgs argv_start envp_start None None None None 7 0 true false false [] ().
Definition bare (s : string) : boot_option := Option_ (bytes_of s) None.
Definition full : bargs unit := default start (take_options (replicate 32 (bare "auto")) start).

Lemma keeps_table : Forall keeps_args (setup_table (ParamEnv := env1)).
Proof. repeat (apply Forall_cons; split; [intros f str s [= <-]; simpl; auto|]). by apply Forall_nil. Qed.
Lemma start_ok : args_ok start.
Proof. split; try (by vm_compute). exists (bytes_of "init"). by vm_compute. Qed.
Lemma full_ok : args_ok full.
Proof. split; try (by vm_compute). exists (bytes_of "init"). by vm_compute. Qed.
Definition plain_opts : list boot_option :=
  [bare "single"; Option_ (bytes_of "TERM") (Some (bytes_of "vt100")); InitArg (bytes_of "x") (Some (bytes_of "1"))].

(** The hypotheses on the handlers hold of the handlers of this file. *)
Lemma init_vectors_safe_witness :
  exists s', take_options (replicate 40 (bare "auto")) start = Some s' /\ args_ok s' /\
    (panic_later s' = None -> (length (visible (argv_init s')) <= 33)%nat /\ (length (visible (envp_init s')) <= 33)%nat).
Proof. exact (init_vectors_safe (replicate 40 (bare "auto")) start keeps_table start_ok). Defined.
(** Forty arguments are too many: the boot will panic. *)
Lemma too_many : exists s', take_options (replicate 40 (bare "auto")) start = Some s' /\ panic_later s' = Some (bytes_of "init").
Proof. eexists. vm_compute. done. Qed.

Lemma options_after_init_witness :
  exists s', take_options plain_opts (init_setup (Some (bytes_of "/bin/sh")) start).2 = Some s' /\ panic_later s' = None /\
    tail (visible (argv_init s')) = [bytes_of "single"; bytes_of "x=1"] /\
    forall name, EQUALS ∉ name ->
      getenv name (visible (envp_init s')) = last_value name plain_opts (getenv name [bytes_of "HOME=/"; bytes_of "TERM=linux"]).
Proof.
  apply (options_after_init plain_opts start (Some (bytes_of "/bin/sh")) [bytes_of "HOME=/"; bytes_of "TERM=linux"]);
    [apply start_ok|done|simpl; lia|done|done| |simpl; lia|vm_compute; lia].
  repeat constructor; first [done | set_solver | by vm_compute | idtac].
Defined.

(** Thirty-one arguments after [init=], and the thirty-second of those before. *)
Definition others : list boot_option := replicate 31 (bare "new").
Lemma others_unclaimed : Forall unclaimed others.
Proof. apply Forall_replicate. split_and!; [done|set_solver|set_solver|]. repeat constructor. Qed.
Lemma init_keeps_stale_argument_witness :
  argv_init full !! 32%nat = Some (Some (bytes_of "auto")) /\
  exists s', take_options others (init_setup (Some (bytes_of "/bin/sh")) full).2 = Some s' /\ panic_later s' = None /\
    tail (visible (argv_init s')) = arguments others ++ [bytes_of "auto"].
Proof.
  split; [by vm_compute|].
  apply (init_keeps_stale_argument others full (Some (bytes_of "/bin/sh")) [bytes_of "HOME=/"; bytes_of "TERM=linux"] (bytes_of "auto"));
    [apply full_ok|by vm_compute|simpl; lia|by vm_compute|by vm_compute|apply others_unclaimed|done|vm_compute; lia].
Defined.

(** [TERM="vt"] after parsing, at address 16. *)
Definition line : umem := write_bytes ∅ 16 (bytes_of "TERM" ++ [0; 34] ++ bytes_of "vt" ++ [0]).
Lemma repair_env_string_joins_witness :
  exists m', repair_env_string 64 line 16 (Some 22) = Some m' /\ cstring m' 16 (bytes_of "TERM=vt") /\
    forall x, x < 16 \/ 22 + 2 < x -> ubyte m' x = ubyte line x.
Proof.
  apply (repair_env_string_joins 64 line 16 22 (bytes_of "TERM") (bytes_of "vt"));
    [split; [by repeat constructor|by vm_compute]|split; [by repeat constructor|by vm_compute]|right; done|simpl; lia|simpl; lia].
Defined.
Lemma early_options_not_passed_witness :
  exists s', unknown_bootoption (bytes_of "quiet") None start = Some s' /\ envp_init s' = envp_init start /\
    panic_later s' = panic_later start /\ (argv_init s' = argv_init start \/ argv_init s' = clear_args (argv_init start)).
Proof.
  apply (early_options_not_passed (bytes_of "quiet") None start (ObsParam (bytes_of "quiet") true (Some quiet_kernel)));
    [apply keeps_table| |done|by vm_compute|].
  - do 2 apply list_elem_of_further. apply list_elem_of_here.
  - apply list_elem_of_here.
Defined.

(** A variable in the last slot cannot be redefined: the boot panics although
    no slot is missing. *)
Definition variable (n : nat) : boot_option := Option_ (bytes_of "V" ++ [65 + Z.of_nat n]) (Some (bytes_of "1")).
Definition variables : list boot_option := variable <$> seq 0 31.
Lemma last_variable_not_redefined :
  exists s s', take_options variables start = Some s /\ panic_later s = None /\
    take_option (variable 30) s = Some s' /\ panic_later s' = Some (bytes_of "env") /\ envp_init s' = envp_init s.
Proof. do 2 eexists. split; [by vm_compute|]. split_and!; by vm_compute. Qed.
End Demo.
