(* ===== verification/Initcall.v ===== *)
(** * Init calls and the start of init

    init/main.c 1099-1594 (CONFIG_KALLSYMS, CONFIG_STRICT_KERNEL_RWX): the
    thread that becomes init runs the functions the linker has collected,
    level by level, drops the memory of the initialisation code and executes
    the first init program that works.  The other subsystems, the bodies of
    the collected functions and [kernel_execve] act on the processor's
    interrupt flag and preemption count and on the rest of the kernel, through
    an interface; what this file itself does is kept in a log of events. *)
From S2P Require Import Prelude UMem BootConf BootArgs.
Open Scope Z_scope.

(** [enum system_states] *)
Abbreviation SYSTEM_BOOTING := 0 (only parsing).
Abbreviation SYSTEM_SCHEDULING := 1 (only parsing).
Abbreviation SYSTEM_FREEING_INITMEM := 2 (only parsing).
Abbreviation SYSTEM_RUNNING := 3 (only parsing).
Abbreviation COMMA := 44 (only parsing).
Abbreviation SPACE := 32 (only parsing).

Inductive event :=
  | Call (f : string)
  | Initcall (fn ret : Z) (imbalance irqs : bool)                  (** what it is warned about *)
  | ParseLevel (level : nat) (text : list Z)
  | Exec (file : list Z) (argv envp : list (list Z)) (ret : Z).

(** What a subsystem can change: interrupts off, preemption count, its data. *)
Record cpu (W : Type) := Cpu { irqs_disabled : bool; preempt_count : Z; world : W }.
Arguments Cpu {W}. Arguments irqs_disabled {W}. Arguments preempt_count {W}. Arguments world {W}.

Record mach (W : Type) := Mach {
  m_args : bargs W;
  m_irqs_off : bool; m_preempt : Z; early_boot_irqs_disabled : bool;
  system_state : Z;
  saved_command_line : list Z; saved_command_line_len : nat; static_command_line : list Z;
  console_fds : nat; initrd_start : Z;
  m_panic : option string; m_log : list event;
}.
Arguments Mach {W}. Arguments m_args {W}. Arguments m_irqs_off {W}. Arguments m_preempt {W}. Arguments early_boot_irqs_disabled {W}.
Arguments system_state {W}. Arguments saved_command_line {W}. Arguments saved_command_line_len {W}. Arguments static_command_line {W}.
Arguments console_fds {W}. Arguments initrd_start {W}. Arguments m_panic {W}. Arguments m_log {W}.

(** The linker's tables and the rest of the kernel. *)
Class InitEnv (W : Type) := {
  initcalls : list Z;                     (** [__initcall_start] to [__initcall_end] *)
  initcall_levels : list nat;             (** where levels 0 to 7 begin, and the end *)
  sprint_symbol_no_offset : Z -> list Z;  (** with the NUL *)
  subsystem : string -> cpu W -> cpu W;
  initcall_fn : Z -> cpu W -> Z * cpu W;
  parse_level : nat -> list Z -> W -> list Z * W;   (** parses in place: the buffer after *)
  kzalloc : Z -> bool;
  kernel_execve : list Z -> list (list Z) -> list (list Z) -> W -> Z * W;
  init_eaccess : option (list Z) -> W -> Z;
  filp_open_console : W -> bool;
  CONFIG_DEFAULT_INIT : list Z;
}.

Section machine.
Context {W : Type}.
#[local] Abbreviation st := (mach W).
Definition on_args (f : bargs W -> bargs W) (s : st) : st :=
  Mach (f (m_args s)) (m_irqs_off s) (m_preempt s) (early_boot_irqs_disabled s) (system_state s) (saved_command_line s)
    (saved_command_line_len s) (static_command_line s) (console_fds s) (initrd_start s) (m_panic s) (m_log s).
Definition set_world (w : W) (a : bargs W) : bargs W :=
  BArgs (argv_init a) (envp_init a) (panic_later a) (panic_param a) (execute_command a) (ramdisk_execute_command a)
    (console_loglevel a) (reset_devices a) (rodata_enabled a) (randomize_kstack_offset a) (early_done a) (blacklisted_initcalls a) w.
Definition the_cpu (s : st) : cpu W := Cpu (m_irqs_off s) (m_preempt s) (rest_of_kernel (m_args s)).
Definition set_cpu (c : cpu W) (s : st) : st :=
  Mach (set_world (world c) (m_args s)) (irqs_disabled c) (preempt_count c) (early_boot_irqs_disabled s) (system_state s) (saved_command_line s)
    (saved_command_line_len s) (static_command_line s) (console_fds s) (initrd_start s) (m_panic s) (m_log s).
Definition set_early_irqs (b : bool) (s : st) : st :=
  Mach (m_args s) (m_irqs_off s) (m_preempt s) b (system_state s) (saved_command_line s)
    (saved_command_line_len s) (static_command_line s) (console_fds s) (initrd_start s) (m_panic s) (m_log s).
Definition set_state (n : Z) (s : st) : st :=
  Mach (m_args s) (m_irqs_off s) (m_preempt s) (early_boot_irqs_disabled s) n (saved_command_line s)
    (saved_command_line_len s) (static_command_line s) (console_fds s) (initrd_start s) (m_panic s) (m_log s).
Definition set_lines (saved static : list Z) (len : nat) (s : st) : st :=
  Mach (m_args s) (m_irqs_off s) (m_preempt s) (early_boot_irqs_disabled s) (system_state s) saved
    len static (console_fds s) (initrd_start s) (m_panic s) (m_log s).
Definition add_fd (s : st) : st :=
  Mach (m_args s) (m_irqs_off s) (m_preempt s) (early_boot_irqs_disabled s) (system_state s) (saved_command_line s)
    (saved_command_line_len s) (static_command_line s) (S (console_fds s)) (initrd_start s) (m_panic s) (m_log s).
Definition set_initrd (a : Z) (s : st) : st :=
  Mach (m_args s) (m_irqs_off s) (m_preempt s) (early_boot_irqs_disabled s) (system_state s) (saved_command_line s)
    (saved_command_line_len s) (static_command_line s) (console_fds s) a (m_panic s) (m_log s).
Definition set_panic (msg : string) (s : st) : st :=
  Mach (m_args s) (m_irqs_off s) (m_preempt s) (early_boot_irqs_disabled s) (system_state s) (saved_command_line s)
    (saved_command_line_len s) (static_command_line s) (console_fds s) (initrd_start s) (Some msg) (m_log s).
Definition add_event (e : event) (s : st) : st :=
  Mach (m_args s) (m_irqs_off s) (m_preempt s) (early_boot_irqs_disabled s) (system_state s) (saved_command_line s)
    (saved_command_line_len s) (static_command_line s) (console_fds s) (initrd_start s) (m_panic s) (m_log s ++ [e]).

(** [panic]: nothing runs after it. *)
Definition panic {A} (msg : string) : sys st A := fun s => (Exit (-1), set_panic msg s).
Definition event_ (e : event) : sys st unit := smodify (add_event e).
Definition local_irq_disable (s : st) : st := set_cpu (Cpu true (m_preempt s) (rest_of_kernel (m_args s))) s.
Definition local_irq_enable (s : st) : st := set_cpu (Cpu false (m_preempt s) (rest_of_kernel (m_args s))) s.
Definition preempt_count_set (n : Z) (s : st) : st := set_cpu (Cpu (m_irqs_off s) n (rest_of_kernel (m_args s))) s.
(** Run a list of actions. *)
Fixpoint each {A} (f : A -> sys st unit) (l : list A) : sys st unit :=
  match l with [] => sret tt | x :: l => do* f x in each f l end.
End machine.

(** ** The blacklist *)

(** [strsep(&str, ",")]: the token and what is left; NULL at the end. *)
Fixpoint cut_comma (l : list Z) : list Z * option (list Z) :=
  match l with
  | [] => ([], None)
  | c :: l => if c =? COMMA then ([], Some l) else let '(t, r) := cut_comma l in (c :: t, r)
  end.
Definition strsep (str : option (list Z)) : option (list Z) * option (list Z) :=
  match str with None => (None, None) | Some l => let '(t, r) := cut_comma l in (Some t, r) end.
(** [do ... while (str_entry)]; [None] is the panic without memory. *)
Fixpoint blacklist_loop `{BootEnv} (fuel : nat) (str : option (list Z)) (entries : list (list Z)) : option (list (list Z)) :=
  match fuel with
  | O => None
  | S fuel =>
      match strsep str with
      | (None, _) => Some entries
      | (Some e, str) =>
          if negb (memblock_alloc 24) then None
          else if negb (memblock_alloc (Z.of_nat (length e) + 1)) then None
          else blacklist_loop fuel str (e :: entries)
      end
  end.
Definition initcall_blacklist `{BootEnv} {W} (str : list Z) (s : bargs W) : option (Z * bargs W) :=
  l ← blacklist_loop (length str + 2) (Some str) (blacklisted_initcalls s); Some (1, set_blacklist l s).

(** [strreplace(s, ' ', '\0')] *)
Definition strreplace (l : list Z) (old new : Z) : list Z := (fun c => if c =? old then new else c) <$> l.
Definition initcall_blacklisted `{InitEnv W} (fn : Z) (s : bargs W) : bool :=
  match blacklisted_initcalls s with
  | [] => false
  | entries =>
      let fn_name := cstr (strreplace (sprint_symbol_no_offset fn) SPACE 0) in
      existsb (fun e => bool_decide (fn_name = e)) entries
  end.

Section initcall.
Context {W : Type} {ie : InitEnv W}.
#[local] Abbreviation st := (mach W).

Definition call (f : string) : sys st unit := fun s => (Val tt, add_event (Call f) (set_cpu (subsystem f (the_cpu s)) s)).
Definition calls (fs : list string) : sys st unit := each call fs.

(** ** Running the collected functions *)
Definition run_fn (fn : Z) : sys st Z := fun s => let '(r, c) := initcall_fn fn (the_cpu s) in (Val r, set_cpu c s).
Definition do_one_initcall (fn : Z) : sys st Z :=
  let* count := sgets m_preempt in
  let* skip := sgets (fun s => initcall_blacklisted fn (m_args s)) in
  if skip : bool then sret (- EPERM)
  else
    let* ret := run_fn fn in
    let* imbalance := sgets (fun s => negb (m_preempt s =? count)) in
    do* (if imbalance : bool then smodify (preempt_count_set count) else sret tt) in
    let* off := sgets m_irqs_off in
    do* (if off : bool then smodify local_irq_enable else sret tt) in
    do* event_ (Initcall fn ret imbalance off) in
    sret ret.

(** [for (fn = a; fn < b; fn++)] over the table. *)
Definition do_entry (i : nat) : sys st unit :=
  match initcalls !! i with
  | Some fn => let* _ := do_one_initcall fn in sret tt
  | None => panic "a pointer past the table"
  end.
Definition do_range (a b : nat) : sys st unit := each do_entry (seq a (b - a)).

(** The buffer after parsing is returned. *)
Definition do_initcall_level (level : nat) (command_line : list Z) : sys st (list Z) :=
  let* buf := (fun s => let '(buf, w) := parse_level level command_line (rest_of_kernel (m_args s)) in
                        (Val buf, add_event (ParseLevel level (cstr command_line)) (on_args (set_world w) s))) in
  match initcall_levels !! level, initcall_levels !! S level with
  | Some a, Some b => do* do_range a b in sret buf
  | _, _ => panic "a pointer past the table"
  end.
Fixpoint levels_loop (levels : list nat) (command_line : list Z) : sys st unit :=
  match levels with
  | [] => sret tt
  | level :: levels =>
      let* saved := sgets saved_command_line in
      match strcpy command_line 0 (cstr saved) with
      | None => panic "write past the end of the command line"
      | Some command_line => let* command_line := do_initcall_level level command_line in levels_loop levels command_line
      end
  end.
Definition do_initcalls : sys st unit :=
  let* n := sgets saved_command_line_len in
  let len := Z.of_nat n + 1 in
  if negb (kzalloc len) then panic "Failed to allocate" else
  levels_loop (seq 0 (length initcall_levels - 1)) (replicate (Z.to_nat len) 0).
Definition do_basic_setup : sys st unit :=
  do* calls ["cpuset_init_smp"; "driver_init"; "init_irq_proc"; "do_ctors"] in do_initcalls.
Definition do_pre_smp_initcalls : sys st unit := do_range 0 (default O (initcall_levels !! O)).

(** ** Init *)
Definition run_init_process (init_filename : list Z) : sys st Z := fun s =>
  let s := on_args (fun a => set_argv (<[O := Some init_filename]> (argv_init a)) a) s in
  let argv := visible (argv_init (m_args s)) in
  let envp := visible (envp_init (m_args s)) in
  let '(ret, w) := kernel_execve init_filename argv envp (rest_of_kernel (m_args s)) in
  (Val ret, add_event (Exec init_filename argv envp ret) (on_args (set_world w) s)).
Definition try_to_run_init_process (init_filename : list Z) : sys st Z := run_init_process init_filename.

Definition mark_readonly : sys st unit :=
  let* ro := sgets (fun s => rodata_enabled (m_args s)) in
  if ro : bool then calls ["rcu_barrier"; "mark_rodata_ro"; "rodata_test"] else sret tt.
(** The file's three descriptors; [fput] drops the reference of [filp_open]. *)
Definition console_on_rootfs : sys st unit :=
  let* ok := sgets (fun s => filp_open_console (rest_of_kernel (m_args s))) in
  if negb ok then sret tt else do* smodify add_fd in do* smodify add_fd in smodify add_fd.

Definition kernel_init_freeable : sys st unit :=
  do* calls ["gfp_allowed_mask = __GFP_BITS_MASK"; "set_mems_allowed"; "cad_pid = get_pid"; "smp_prepare_cpus"; "workqueue_init";
             "init_mm_internals"; "rcu_init_tasks_generic"] in
  do* do_pre_smp_initcalls in
  do* calls ["lockup_detector_init"; "smp_init"; "sched_init_smp"; "workqueue_init_topology"; "padata_init"; "page_alloc_init_late"] in
  do* do_basic_setup in
  do* calls ["kunit_run_all_tests"; "wait_for_initramfs"] in
  do* console_on_rootfs in
  let* no := sgets (fun s => negb (init_eaccess (ramdisk_execute_command (m_args s)) (rest_of_kernel (m_args s)) =? 0)) in
  do* (if no : bool then do* smodify (on_args (fun a => set_commands (execute_command a) None a)) in call "prepare_namespace"
       else sret tt) in
  call "integrity_load_keys".

(** The candidates after the memory of the initialisation code is gone. *)
Definition try_init (c : list Z) (rest : sys st Z) : sys st Z :=
  let* ret := try_to_run_init_process c in if ret =? 0 then sret 0 else rest.
Definition kernel_init_tail : sys st Z :=
  let* ramdisk := sgets (fun s => ramdisk_execute_command (m_args s)) in
  let rest :=
    let* cmd := sgets (fun s => execute_command (m_args s)) in
    match cmd with
    | Some cmd => let* ret := run_init_process cmd in if ret =? 0 then sret 0 else panic "Requested init failed"
    | None =>
        let standard :=
          try_init (bytes_of "/sbin/init") (try_init (bytes_of "/etc/init") (try_init (bytes_of "/bin/init")
            (try_init (bytes_of "/bin/sh") (panic "No working init found")))) in
        if bool_decide (CONFIG_DEFAULT_INIT <> []) then
          let* ret := run_init_process CONFIG_DEFAULT_INIT in if ret =? 0 then sret 0 else standard
        else standard
    end in
  match ramdisk with
  | Some cmd => let* ret := run_init_process cmd in if ret =? 0 then sret 0 else rest
  | None => rest
  end.
(** After [wait_for_completion(&kthreadd_done)]. *)
Definition kernel_init : sys st Z :=
  do* kernel_init_freeable in
  do* call "async_synchronize_full" in
  do* smodify (set_state SYSTEM_FREEING_INITMEM) in
  do* calls ["kprobe_free_init_mem"; "ftrace_free_init_mem"; "kgdb_free_init_mem"; "exit_boot_config"; "free_initmem"] in
  do* mark_readonly in
  do* call "pti_finalize" in
  do* smodify (set_state SYSTEM_RUNNING) in
  do* calls ["numa_default_policy"; "rcu_end_inkernel_boot"; "do_sysctl_args"] in
  kernel_init_tail.
End initcall.

(** ** Properties *)
Definition ran (l : list event) : list Z := omap (fun e => match e with Initcall fn _ _ _ => Some fn | _ => None end) l.
Definition parses (l : list event) : list (nat * list Z) := omap (fun e => match e with ParseLevel i t => Some (i, t) | _ => None end) l.
Definition is_exec (e : event) : bool := match e with Exec _ _ _ _ => true | _ => false end.
Definition execs (l : list event) : list event := filter is_exec l.

Section initcall_properties.
Context {W : Type} {ie : InitEnv W}.
#[local] Abbreviation st := (mach W).

(** What the boot code outside of this file's own assignments leaves alone. *)
Record frame (s s' : st) : Prop := {
  f_blacklist : blacklisted_initcalls (m_args s') = blacklisted_initcalls (m_args s);
  f_argv : argv_init (m_args s') = argv_init (m_args s);
  f_envp : envp_init (m_args s') = envp_init (m_args s);
  f_execute : execute_command (m_args s') = execute_command (m_args s);
  f_rodata : rodata_enabled (m_args s') = rodata_enabled (m_args s);
  f_saved : saved_command_line s' = saved_command_line s;
  f_len : saved_command_line_len s' = saved_command_line_len s;
  f_panic : m_panic s' = m_panic s;
}.
#[local] Instance frame_refl : Reflexive frame.
Proof. by split. Qed.
#[local] Instance frame_trans : Transitive frame.
Proof. intros a b c [] []. split; congruence. Qed.

Definition allowed (s : st) (fns : list Z) : list Z := filter (fun fn => initcall_blacklisted fn (m_args s) = false) fns.
Lemma allowed_frame s s' fns : frame s s' -> allowed s' fns = allowed s fns.
Proof. intros Hf. unfold allowed, initcall_blacklisted. by rewrite (f_blacklist _ _ Hf). Qed.

(** The state [setup_command_line] leaves. *)
Definition lines_ok (s : st) : Prop := saved_command_line_len s = strlen (saved_command_line s).
Lemma lines_ok_frame s s' : frame s s' -> lines_ok s -> lines_ok s'.
Proof. unfold lines_ok. intros Hf. by rewrite (f_saved _ _ Hf), (f_len _ _ Hf). Qed.

(** [m] always comes to its end; on the way it runs [fns], but those of the
    blacklist, and parses the command line at [levels]; it executes nothing. *)
Definition runs_at {A} (m : sys st A) (fns : list Z) (levels : list nat) (s : st) : Prop :=
  exists a s' l, m s = (Val a, s') /\ frame s s' /\ m_log s' = m_log s ++ l /\
    ran l = allowed s fns /\ parses l = (fun i => (i, cstr (saved_command_line s))) <$> levels /\ execs l = [].
Definition runs {A} (m : sys st A) (fns : list Z) (levels : list nat) : Prop := forall s, lines_ok s -> runs_at m fns levels s.
Lemma runs_at_bind {A B} (m : sys st A) (k : A -> sys st B) f1 f2 l1 l2 s :
  runs_at m f1 l1 s -> (forall a s1, m s = (Val a, s1) -> frame s s1 -> runs_at (k a) f2 l2 s1) ->
  runs_at (sbind m k) (f1 ++ f2) (l1 ++ l2) s.
Proof.
  intros (a & s1 & e1 & E1 & F1 & L1 & R1 & P1 & X1) Hk.
  destruct (Hk a s1 E1 F1) as (b & s2 & e2 & E2 & F2 & L2 & R2 & P2 & X2).
  exists b, s2, (e1 ++ e2). unfold sbind. rewrite E1. split_and!; [done|by etrans| | | |].
  - by rewrite L2, L1, app_assoc.
  - unfold ran in *. rewrite omap_app, R1, R2, (allowed_frame _ _ _ F1). unfold allowed. by rewrite filter_app.
  - unfold parses in *. by rewrite omap_app, P1, P2, (f_saved _ _ F1), fmap_app.
  - unfold execs in *. by rewrite filter_app, X1, X2.
Qed.
Lemma runs_bind {A B} (m : sys st A) (k : A -> sys st B) f1 f2 l1 l2 :
  runs m f1 l1 -> (forall a, runs (k a) f2 l2) -> runs (sbind m k) (f1 ++ f2) (l1 ++ l2).
Proof. intros Hm Hk s Hs. apply runs_at_bind; [by apply Hm|]. intros a s1 _ F. apply Hk. by eapply lines_ok_frame. Qed.
Lemma runs_quiet {A} (m : sys st A) :
  (forall s, exists a s' l, m s = (Val a, s') /\ frame s s' /\ m_log s' = m_log s ++ l /\ ran l = [] /\ parses l = [] /\ execs l = []) ->
  runs m [] [].
Proof. intros Hm s _. destruct (Hm s) as (a & s' & l & ? & ? & ? & ? & ? & ?). by exists a, s', l. Qed.
Lemma runs_bind_quiet {A B} (m : sys st A) (k : A -> sys st B) f l :
  runs m [] [] -> (forall a, runs (k a) f l) -> runs (sbind m k) f l.
Proof. apply (runs_bind m k [] f [] l). Qed.
Lemma runs_ret {A} (a : A) : runs (sret a) [] [].
Proof. apply runs_quiet. intros s. exists a, s, []. by rewrite app_nil_r. Qed.
Lemma runs_gets {A} (f : st -> A) : runs (sgets f) [] [].
Proof. apply runs_quiet. intros s. exists (f s), s, []. by rewrite app_nil_r. Qed.
Lemma runs_call f : runs (call f) [] [].
Proof. apply runs_quiet. intros s. by exists tt, (add_event (Call f) (set_cpu (subsystem f (the_cpu s)) s)), [Call f]. Qed.
Lemma runs_modify f : (forall s, frame s (f s) /\ m_log (f s) = m_log s) -> runs (smodify f) [] [].
Proof. intros Hf. apply runs_quiet. intros s. destruct (Hf s). exists tt, (f s), []. by rewrite app_nil_r. Qed.
Lemma runs_each {A} (f : A -> sys st unit) (g : A -> list Z) l :
  (forall a, a ∈ l -> runs (f a) (g a) []) -> runs (each f l) (l ≫= g) [].
Proof.
  induction l as [|a l IH]; intros Hf; csimpl; [apply runs_ret|].
  apply (runs_bind (f a) _ (g a) (l ≫= g) [] []); [apply Hf; left|]. intros _. apply IH. intros b Hb. apply Hf. by right.
Qed.
Lemma runs_calls fs : runs (calls fs) [] [].
Proof.
  pose proof (runs_each call (fun _ => []) fs (fun f _ => runs_call f)) as Hr.
  replace (fs ≫= (fun _ => [])) with (@nil Z) in Hr; [exact Hr|]. clear Hr. induction fs; simpl; auto.
Qed.

(** *** One call *)
Lemma do_one_initcall_spec fn s : exists r s', do_one_initcall fn s = (Val r, s') /\ frame s s' /\ m_preempt s' = m_preempt s /\
  if initcall_blacklisted fn (m_args s) then r = - EPERM /\ s' = s
  else r = (initcall_fn fn (the_cpu s)).1 /\ m_irqs_off s' = false /\
       exists imbalance off, m_log s' = m_log s ++ [Initcall fn r imbalance off] /\
         let c := (initcall_fn fn (the_cpu s)).2 in
         (imbalance = true <-> preempt_count c <> m_preempt s) /\ off = irqs_disabled c.
Proof.
  unfold do_one_initcall, run_fn. sys_unfold. destruct (initcall_blacklisted fn (m_args s)) eqn:Eb; [by exists (- EPERM), s|].
  destruct (initcall_fn fn (the_cpu s)) as [r c] eqn:Ef. simpl.
  assert (negb (preempt_count c =? m_preempt s) = true <-> preempt_count c <> m_preempt s) as Hi
    by (by rewrite negb_true_iff, Z.eqb_neq).
  destruct (negb (preempt_count c =? m_preempt s)) eqn:Ei; simpl; destruct (irqs_disabled c) eqn:Eo; simpl;
    do 2 eexists; (split; [done|]); (split; [by split|]); (split; [simpl; try done; lia|]); (split; [done|]);
    (split; [done|]); do 2 eexists; (split; [done|]); split; auto.
Qed.

(** Every function of the table runs as [do_one_initcall] promises: a
    blacklisted one is refused with EPERM and nothing happens; any other one
    is called once, its result is returned, and whatever it did the preemption
    count is the one before and interrupts are on, with a warning that names
    exactly what had to be repaired. *)
Theorem do_one_initcall_restores fn s :
  let '(o, s') := do_one_initcall fn s in
  m_preempt s' = m_preempt s /\
  if initcall_blacklisted fn (m_args s) then o = Val (- EPERM) /\ s' = s
  else let '(r, c) := initcall_fn fn (the_cpu s) in
       o = Val r /\ m_irqs_off s' = false /\ rest_of_kernel (m_args s') = world c /\
       m_log s' = m_log s ++ [Initcall fn r (bool_decide (preempt_count c <> m_preempt s)) (irqs_disabled c)].
Proof.
  unfold do_one_initcall, run_fn. sys_unfold. destruct (initcall_blacklisted fn (m_args s)) eqn:Eb; [done|].
  destruct (initcall_fn fn (the_cpu s)) as [r c] eqn:Ef. simpl.
  assert (negb (preempt_count c =? m_preempt s) = bool_decide (preempt_count c <> m_preempt s)) as ->.
  { case_bool_decide; [by apply negb_true_iff, Z.eqb_neq|]. apply negb_false_iff, Z.eqb_eq. lia. }
  case_bool_decide as Hp; simpl; destruct (irqs_disabled c) eqn:Eo; simpl; split_and!; done || lia.
Qed.

Lemma runs_one fn : runs (do_one_initcall fn) [fn] [].
Proof.
  intros s _. destruct (do_one_initcall_spec fn s) as (r & s' & E & F & _ & H). exists r, s'.
  unfold allowed. destruct (initcall_blacklisted fn (m_args s)) eqn:Eb.
  - destruct H as [_ ->]. exists []. rewrite app_nil_r, filter_cons_False by congruence. done.
  - destruct H as (_ & _ & i & o & L & _). exists [Initcall fn r i o]. rewrite filter_cons_True by done. done.
Qed.
Definition entry (i : nat) : list Z := match initcalls !! i with Some fn => [fn] | None => [] end.
Lemma runs_entry i : (i < length initcalls)%nat -> runs (do_entry i) (entry i) [].
Proof.
  intros Hi. unfold do_entry, entry. destruct (lookup_lt_is_Some_2 _ _ Hi) as [fn ->].
  apply (runs_bind (do_one_initcall fn) _ [fn] [] [] []); [apply runs_one|]. intros _. apply runs_ret.
Qed.
Lemma entries a n : (a + n <= length initcalls)%nat -> seq a n ≫= entry = take n (drop a initcalls).
Proof.
  revert a. induction n as [|n IH]; intros a Hn; csimpl; [done|]. rewrite IH by lia. unfold entry.
  destruct (lookup_lt_is_Some_2 initcalls a) as [fn E]; [lia|]. rewrite E, (drop_S _ _ _ E). done.
Qed.
Lemma runs_range a b : (a <= b <= length initcalls)%nat -> runs (do_range a b) (take (b - a) (drop a initcalls)) [].
Proof.
  intros Hab. rewrite <- entries by lia. apply runs_each. intros i Hi. apply runs_entry. apply elem_of_seq in Hi. lia.
Qed.

(** *** The levels *)

(** The linker's table: levels in order, from somewhere in the table to its end. *)
Definition tables_ok : Prop :=
  (2 <= length initcall_levels)%nat /\ last initcall_levels = Some (length initcalls) /\
  forall i a b, initcall_levels !! i = Some a -> initcall_levels !! S i = Some b -> (a <= b <= length initcalls)%nat.
Definition parses_in_place : Prop := forall i b w, length (parse_level i b w).1 = length b.

Lemma level_bounds i : tables_ok -> (S i < length initcall_levels)%nat ->
  exists a b, initcall_levels !! i = Some a /\ initcall_levels !! S i = Some b /\ (a <= b <= length initcalls)%nat.
Proof.
  intros (_ & _ & Hs) Hi. destruct (lookup_lt_is_Some_2 initcall_levels i) as [a Ea]; [lia|].
  destruct (lookup_lt_is_Some_2 initcall_levels (S i)) as [b Eb]; [lia|]. eauto 10.
Qed.
Lemma cstr_copied b l : 0 ∉ cstr l -> (length (cstr l) < length b)%nat ->
  exists b', strcpy b 0 (cstr l) = Some b' /\ cstr b' = cstr l /\ length b' = length b.
Proof.
  intros Hz Hl. unfold strcpy. simpl. replace (length (cstr l) + 1 <=? length b)%nat with true by lia. eexists. split; [done|]. split.
  - rewrite cstr_text; [done|]. apply Forall_forall. intros x Hx ->. done.
  - rewrite length_app. simpl. rewrite length_drop. lia.
Qed.
Lemma saved_no_nul s : lines_ok s -> 0 ∉ cstr (saved_command_line s) /\ length (cstr (saved_command_line s)) = saved_command_line_len s.
Proof.
  unfold lines_ok. intros Hl. unfold cstr. rewrite length_take, Hl. pose proof (strlen_le (saved_command_line s)). split; [|lia].
  clear. induction (saved_command_line s) as [|c l IH]; simpl; [set_solver|]. destruct (Z.eqb_spec c 0); set_solver.
Qed.

(** From the beginning of level [i] to the beginning of level [i + n]. *)
Definition start_of (i : nat) : nat := default O (initcall_levels !! i).
Definition span (i n : nat) : list Z := take (start_of (i + n) - start_of i) (drop (start_of i) initcalls).
Lemma start_of_mono i n : tables_ok -> (i + n < length initcall_levels)%nat -> (start_of i <= start_of (i + n) <= length initcalls \/ n = 0)%nat.
Proof.
  intros Ht. induction n as [|n IH]; intros Hn; [by right|]. left. destruct (level_bounds (i + n) Ht) as (a & b & Ea & Eb & Hab); [lia|].
  replace (i + S n)%nat with (S (i + n)) by lia. destruct IH as [IH| ->]; [lia| |].
  - unfold start_of in *. rewrite Ea, Eb in *. simpl in *. lia.
  - rewrite Nat.add_0_r in *. unfold start_of. rewrite Ea, Eb. simpl. lia.
Qed.
Lemma span_S i n : tables_ok -> (i + S n < length initcall_levels)%nat ->
  span i (S n) = take (start_of (S i) - start_of i) (drop (start_of i) initcalls) ++ span (S i) n.
Proof.
  intros Ht Hn. unfold span. replace (S i + n)%nat with (i + S n)%nat by lia.
  pose proof (start_of_mono i 1 Ht ltac:(lia)) as H1. replace (i + 1)%nat with (S i) in H1 by lia.
  assert (start_of (S i) <= start_of (i + S n))%nat.
  { pose proof (start_of_mono (S i) n Ht ltac:(lia)) as H2. replace (S i + n)%nat with (i + S n)%nat in H2 by lia.
    destruct H2 as [H2| ->]; [lia|]. by replace (i + 1)%nat with (S i) by lia. }
  rewrite <- (take_drop (start_of (S i) - start_of i) (drop (start_of i) initcalls)) at 1.
  rewrite take_app_ge by (rewrite length_take; lia). f_equal. rewrite drop_drop, length_take_le by (rewrite length_drop; lia).
  f_equal; [lia|]. f_equal. lia.
Qed.
Lemma runs_level i buf s :
  tables_ok -> parses_in_place -> (S i < length initcall_levels)%nat -> lines_ok s -> cstr buf = cstr (saved_command_line s) ->
  runs_at (do_initcall_level i buf) (take (start_of (S i) - start_of i) (drop (start_of i) initcalls)) [i] s /\
  forall b s', do_initcall_level i buf s = (Val b, s') -> length b = length buf.
Proof.
  intros Ht Hp Hi Hs Hb. destruct (level_bounds i Ht Hi) as (a & b & Ea & Eb & Hab).
  pose proof (runs_range a b Hab) as Hr. unfold do_initcall_level, start_of. rewrite Ea, Eb. simpl default. set (fns := take _ _) in *. split.
  - apply (runs_at_bind _ _ [] fns [i] []).
    + destruct (parse_level i buf (rest_of_kernel (m_args s))) as [buf' w] eqn:E. eexists buf', _, [ParseLevel i (cstr buf)]. rewrite E. 
      split; [done|]. split_and!; try done. simpl. by rewrite Hb.
    + intros b1 s1 _ F. rewrite <- (app_nil_r fns). apply (runs_at_bind _ _ fns [] [] []).
      * apply Hr. by eapply lines_ok_frame.
      * intros _ s2 _ F2. apply runs_ret. eapply lines_ok_frame; [|done]. by etrans.
  - intros b1 s' E. unfold sbind in E. pose proof (Hp i buf (rest_of_kernel (m_args s))) as Hl.
    destruct (parse_level i buf (rest_of_kernel (m_args s))) as [buf' w]. simpl in Hl. destruct (do_range a b _) as [[]?]; [|done].
    by injection E as <- _.
Qed.
Lemma runs_levels n i buf s :
  tables_ok -> parses_in_place -> (i + n < length initcall_levels)%nat -> lines_ok s ->
  length buf = (saved_command_line_len s + 1)%nat -> runs_at (levels_loop (seq i n) buf) (span i n) (seq i n) s.
Proof.
  intros Ht Hp. revert i buf s. induction n as [|n IH]; intros i buf s Hi Hs Hb.
  - unfold span. rewrite Nat.add_0_r, Nat.sub_diag. simpl. by apply runs_ret.
  - rewrite span_S by done. simpl levels_loop. apply (runs_at_bind _ _ [] _ [] (i :: seq (S i) n)); [by apply runs_gets|].
    intros saved s1 E _. injection E as <- <-. destruct (saved_no_nul s Hs) as [Hz Hl].
    destruct (cstr_copied buf (saved_command_line s)) as (b' & -> & Hc & Hlb); [done|lia|].
    destruct (runs_level i b' s Ht Hp) as [Hr Hlen]; [lia|done|done|].
    apply (runs_at_bind _ _ _ _ [i] (seq (S i) n)); [done|]. intros b2 s2 E2 F2. apply IH; [lia|by eapply lines_ok_frame|].
    rewrite (Hlen _ _ E2), (f_len _ _ F2). lia.
Qed.
Lemma runs_initcalls s :
  tables_ok -> parses_in_place -> kzalloc (Z.of_nat (saved_command_line_len s) + 1) = true -> lines_ok s ->
  runs_at do_initcalls (drop (start_of 0) initcalls) (seq 0 (length initcall_levels - 1)) s.
Proof.
  intros Ht Hp Hk Hs. unfold do_initcalls. apply (runs_at_bind _ _ [] (drop (start_of 0) initcalls) [] (seq 0 _)); [by apply runs_gets|].
  intros n s1 E _. injection E as <- <-. rewrite Hk. simpl negb.
  replace (drop (start_of 0) initcalls) with (span 0 (length initcall_levels - 1)).
  - apply runs_levels; [done|done|destruct Ht; lia|done|]. rewrite length_replicate. lia.
  - destruct Ht as (Hl & He & _). unfold span. simpl. rewrite last_lookup in He.
    unfold start_of at 1. rewrite <- Nat.sub_1_r in He. rewrite He. simpl. apply take_ge. rewrite length_drop. lia.
Qed.

Lemma runs_console : runs console_on_rootfs [] [].
Proof.
  unfold console_on_rootfs. apply runs_bind_quiet; [apply runs_gets|]. intros ok. destruct ok; simpl; [|apply runs_ret].
  repeat (apply runs_bind_quiet; [by apply runs_modify|intros _]). by apply runs_modify.
Qed.
Lemma runs_pre_smp : tables_ok -> runs do_pre_smp_initcalls (take (start_of 0) initcalls) [].
Proof.
  intros Ht. unfold do_pre_smp_initcalls. destruct (level_bounds 0 Ht) as (a & b & Ea & _ & Hab); [destruct Ht; lia|].
  pose proof (runs_range 0 (start_of 0)) as Hr. unfold start_of in *. rewrite Ea in *. simpl in *.
  rewrite Nat.sub_0_r in Hr. apply Hr. lia.
Qed.
Definition memory_enough (s : st) : Prop := kzalloc (Z.of_nat (saved_command_line_len s) + 1) = true.

Lemma gets_bind {A B} (f : st -> A) (k : A -> sys st B) s : sbind (sgets f) k s = k (f s) s.
Proof. done. Qed.
(** Binding an action that runs nothing of the table. *)
Lemma runs_at_quiet {A B} (m : sys st A) (k : A -> sys st B) f l s :
  runs m [] [] -> lines_ok s -> (forall a s1, m s = (Val a, s1) -> frame s s1 -> lines_ok s1 -> runs_at (k a) f l s1) ->
  runs_at (sbind m k) f l s.
Proof.
  intros Hm Hs Hk. apply (runs_at_bind m k [] f [] l); [by apply Hm|]. intros a s1 E F. apply Hk; [done|done|by eapply lines_ok_frame].
Qed.
Lemma runs_freeable s :
  tables_ok -> parses_in_place -> memory_enough s -> lines_ok s ->
  runs_at kernel_init_freeable initcalls (seq 0 (length initcall_levels - 1)) s.
Proof.
  intros Ht Hp Hm Hs. unfold kernel_init_freeable. apply runs_at_quiet; [apply runs_calls|done|]. intros [] s1 _ F1 Hs1.
  rewrite <- (take_drop (start_of 0) initcalls).
  apply (runs_at_bind _ _ (take (start_of 0) initcalls) (drop (start_of 0) initcalls) [] (seq 0 _)); [by apply runs_pre_smp|].
  intros [] s2 _ F2. apply (lines_ok_frame _ _ F2) in Hs1.
  apply runs_at_quiet; [apply runs_calls|done|]. intros [] s3 _ F3 Hs3.
  rewrite <- (app_nil_r (drop _ _)), <- (app_nil_r (seq _ _)).
  apply runs_at_bind.
  - unfold do_basic_setup. apply runs_at_quiet; [apply runs_calls|done|]. intros [] s4 _ F4 Hs4.
    apply runs_initcalls; [done|done| |done]. unfold memory_enough in Hm.
    by rewrite (f_len _ _ F4), (f_len _ _ F3), (f_len _ _ F2), (f_len _ _ F1).
  - intros [] s5 _ F5. apply (lines_ok_frame _ _ F5) in Hs3.
    apply runs_at_quiet; [apply runs_calls|done|]. intros [] s6 _ F6 Hs6.
    apply runs_at_quiet; [apply runs_console|done|]. intros [] s7 _ F7 Hs7.
    apply runs_at_quiet; [apply runs_gets|done|]. intros no s8 _ F8 Hs8.
    apply runs_at_quiet; [|done|intros [] s9 _ F9 Hs9; by apply runs_call].
    destruct no; [|apply runs_ret]. apply runs_bind_quiet; [by apply runs_modify|]. intros _. apply runs_call.
Qed.

(** Without memory for the copy of the command line the levels are not reached. *)
Lemma freeable_no_memory s :
  tables_ok -> lines_ok s -> kzalloc (Z.of_nat (saved_command_line_len s) + 1) = false ->
  exists s' l, kernel_init_freeable s = (Exit (-1), s') /\ m_log s' = m_log s ++ l /\ execs l = [] /\
    m_panic s' = Some "Failed to allocate".
Proof.
  intros Ht Hs Hk. unfold kernel_init_freeable.
  assert (forall f s, lines_ok s -> exists s' l, calls f s = (Val tt, s') /\ frame s s' /\ m_log s' = m_log s ++ l /\ execs l = []) as Hc.
  { intros f s0 H0. destruct (runs_calls f s0 H0) as ([] & s' & l & ? & ? & ? & _ & _ & ?). by exists s', l. }
  destruct (Hc ["gfp_allowed_mask = __GFP_BITS_MASK"; "set_mems_allowed"; "cad_pid = get_pid"; "smp_prepare_cpus"; "workqueue_init";
             "init_mm_internals"; "rcu_init_tasks_generic"] s Hs) as (s1 & l1 & E1 & F1 & L1 & X1).
  unfold sbind at 1. rewrite E1. clear E1. pose proof (lines_ok_frame _ _ F1 Hs) as Hs1.
  destruct (runs_pre_smp Ht s1 Hs1) as ([] & s2 & l2 & E2 & F2 & L2 & _ & _ & X2).
  unfold sbind at 1. rewrite E2. clear E2. pose proof (lines_ok_frame _ _ F2 Hs1) as Hs2.
  destruct (Hc ["lockup_detector_init"; "smp_init"; "sched_init_smp"; "workqueue_init_topology"; "padata_init"; "page_alloc_init_late"] s2 Hs2)
    as (s3 & l3 & E3 & F3 & L3 & X3).
  unfold sbind at 1. rewrite E3. clear E3. pose proof (lines_ok_frame _ _ F3 Hs2) as Hs3.
  unfold sbind at 1, do_basic_setup.
  destruct (Hc ["cpuset_init_smp"; "driver_init"; "init_irq_proc"; "do_ctors"] s3 Hs3) as (s4 & l4 & E4 & F4 & L4 & X4).
  unfold sbind at 1. rewrite E4. unfold do_initcalls. rewrite gets_bind.
  rewrite (f_len _ _ F4), (f_len _ _ F3), (f_len _ _ F2), (f_len _ _ F1), Hk. simpl.
  eexists _, (l1 ++ l2 ++ l3 ++ l4). split_and!; [done| | |done].
  - simpl. by rewrite L4, L3, L2, L1, <- !app_assoc.
  - unfold execs in *. by rewrite !filter_app, X1, X2, X3, X4.
Qed.

(** C22: Given memory for a copy of the command line, tables the linker laid out
    in order and a parser that works in place, the thread of init gets through
    the initialisation of the kernel, and on the way every function the linker collected runs exactly
    once and in the order of the table, the early ones before the other
    processors are started and then level by level, except the blacklisted
    ones; and at every level the parameters are parsed from the same, complete
    command line, whatever the parser did to its copy before. *)
Theorem initcalls_run_in_order s :
  tables_ok -> parses_in_place -> memory_enough s -> lines_ok s ->
  exists s' l, kernel_init_freeable s = (Val tt, s') /\ m_log s' = m_log s ++ l /\
    ran l = filter (fun fn => initcall_blacklisted fn (m_args s) = false) initcalls /\
    parses l = (fun i => (i, cstr (saved_command_line s))) <$> seq 0 (length initcall_levels - 1) /\ execs l = [].
Proof.
  intros Ht Hp Hm Hs. destruct (runs_freeable s Ht Hp Hm Hs) as ([] & s' & l & E & _ & H). eauto.
Qed.

(** *** The init program *)
Definition argument_tail (s : st) : list (list Z) := tail (visible (argv_init (m_args s))).
Definition environment (s : st) : list (list Z) := visible (envp_init (m_args s)).
Definition candidates (s : st) : list (list Z) :=
  option_list (ramdisk_execute_command (m_args s)) ++
  match execute_command (m_args s) with
  | Some c => [c]
  | None => (if bool_decide (CONFIG_DEFAULT_INIT <> []) then [CONFIG_DEFAULT_INIT] else []) ++
            [bytes_of "/sbin/init"; bytes_of "/etc/init"; bytes_of "/bin/init"; bytes_of "/bin/sh"]
  end.
Fixpoint try_all (cs : list (list Z)) (msg : string) : sys st Z :=
  match cs with
  | [] => panic msg
  | c :: cs => let* ret := run_init_process c in if ret =? 0 then sret 0 else try_all cs msg
  end.
Definition named (s : st) : Prop := exists a0 r, argv_init (m_args s) = Some a0 :: r.

Lemma bind_val {A B} (m : sys st A) (k : A -> sys st B) s a s1 : m s = (Val a, s1) -> sbind m k s = k a s1.
Proof. intros E. unfold sbind. by rewrite E. Qed.
Lemma run_init_process_spec c s : named s ->
  exists ret s', run_init_process c s = (Val ret, s') /\ named s' /\
    m_log s' = m_log s ++ [Exec c (c :: argument_tail s) (environment s) ret] /\
    argument_tail s' = argument_tail s /\ environment s' = environment s /\
    execute_command (m_args s') = execute_command (m_args s) /\ ramdisk_execute_command (m_args s') = ramdisk_execute_command (m_args s).
Proof.
  intros (a0 & r & E). unfold run_init_process, argument_tail, environment. simpl. rewrite E. simpl.
  destruct (kernel_execve _ _ _ _) as [ret w] eqn:Ek. do 2 eexists. split; [done|].
  split; [exists c, r; simpl; by rewrite E|]. simpl. rewrite E. done.
Qed.
(** The candidates that were tried, each with the arguments and the
    environment collected and its own name in front. *)
Definition tries (s : st) (cs : list (list Z)) (rets : list Z) : list event :=
  zip_with (fun c ret => Exec c (c :: argument_tail s) (environment s) ret) cs rets.
Lemma try_all_spec cs msg s : named s ->
  exists s', (exists before c after rets, cs = before ++ c :: after /\ try_all cs msg s = (Val 0, s') /\
      length rets = length before /\ Forall (fun r => r <> 0) rets /\
      m_log s' = m_log s ++ tries s (before ++ [c]) (rets ++ [0])) \/
    (exists rets e, try_all cs msg s = (Exit e, s') /\ length rets = length cs /\ Forall (fun r => r <> 0) rets /\
      m_log s' = m_log s ++ tries s cs rets /\ m_panic s' = Some msg).
Proof.
  revert s. induction cs as [|c cs IH]; intros s Hn; simpl.
  - eexists. right. exists [], (-1). rewrite app_nil_r. split_and!; done.
  - destruct (run_init_process_spec c s Hn) as (ret & s1 & E & Hn1 & L1 & A1 & V1 & _). unfold sbind. rewrite E.
    destruct (Z.eqb_spec ret 0) as [->|Hr].
    + exists s1. left. exists [], c, cs, []. by split_and!.
    + assert (tries s1 = tries s) as Ht by (unfold tries; by rewrite A1, V1). specialize (IH s1 Hn1). rewrite Ht in IH.
      destruct IH as (s' & [(b & c' & a & rets & -> & E' & Hl & Hf & L)|(rets & e & E' & Hl & Hf & L & P)]); exists s'.
      * left. exists (c :: b), c', a, (ret :: rets). split_and!; [done|done|simpl; lia|by constructor|].
        by rewrite L, L1, <- app_assoc.
      * right. exists (ret :: rets), e. split_and!; [done|simpl; lia|by constructor| |done].
        by rewrite L, L1, <- app_assoc.
Qed.
Definition last_words (s : st) : string :=
  match execute_command (m_args s) with Some _ => "Requested init failed" | None => "No working init found" end.
Lemma kernel_init_tail_candidates s : named s -> kernel_init_tail s = try_all (candidates s) (last_words s) s.
Proof.
  intros Hn.
  unfold kernel_init_tail, candidates, last_words. rewrite gets_bind.
  destruct (ramdisk_execute_command (m_args s)) as [c|]; simpl option_list; cbn [app].
  - cbn [try_all]. destruct (run_init_process_spec c s Hn) as (ret & s1 & E & Hn1 & _ & _ & _ & Ee & _).
    rewrite !(bind_val _ _ _ _ _ E). destruct (ret =? 0); [done|]. rewrite gets_bind, Ee.
    destruct (execute_command (m_args s)); [done|]. by destruct (bool_decide _).
  - rewrite gets_bind. destruct (execute_command (m_args s)); [done|]. by destruct (bool_decide _).
Qed.

(** Init is the first candidate that executes, in the order of the RAM
    disk's, the one the command line asks for, and otherwise the configured
    and the four standard ones; every candidate is executed with its own name
    in front of the collected arguments and with the collected environment.
    When none works the kernel panics, after all of them were tried; with
    [init=] nothing else is tried. *)
Theorem first_working_init s : named s ->
  exists s', (exists before c after rets, candidates s = before ++ c :: after /\ kernel_init_tail s = (Val 0, s') /\
      length rets = length before /\ Forall (fun r => r <> 0) rets /\
      m_log s' = m_log s ++ tries s (before ++ [c]) (rets ++ [0])) \/
    (exists rets e, kernel_init_tail s = (Exit e, s') /\ length rets = length (candidates s) /\ Forall (fun r => r <> 0) rets /\
      m_log s' = m_log s ++ tries s (candidates s) rets /\ m_panic s' = Some (last_words s)).
Proof. intros Hn. rewrite kernel_init_tail_candidates by done. by apply try_all_spec. Qed.

(** *** From the initialisation to user space *)
Lemma calls_log fs s : exists s', calls fs s = (Val tt, s') /\ frame s s' /\ m_log s' = m_log s ++ (Call <$> fs) /\
  ramdisk_execute_command (m_args s') = ramdisk_execute_command (m_args s) /\ system_state s' = system_state s.
Proof.
  unfold calls. revert s. induction fs as [|f fs IH]; intros s; csimpl; [exists s; by rewrite app_nil_r|].
  unfold sbind, call. simpl. destruct (IH (add_event (Call f) (set_cpu (subsystem f (the_cpu s)) s))) as (s' & E & F & L & R & Y).
  exists s'. split_and!; [done| |by rewrite L; simpl; rewrite <- app_assoc|done|done]. etrans; [|done]. by split.
Qed.
Definition protection (ro : bool) : list string := if ro then ["rcu_barrier"; "mark_rodata_ro"; "rodata_test"] else [].
Lemma mark_readonly_log s : exists s', mark_readonly s = (Val tt, s') /\ frame s s' /\
  m_log s' = m_log s ++ (Call <$> protection (rodata_enabled (m_args s))) /\
  ramdisk_execute_command (m_args s') = ramdisk_execute_command (m_args s) /\ system_state s' = system_state s.
Proof.
  unfold mark_readonly. rewrite gets_bind. unfold protection. destruct (rodata_enabled _); [apply calls_log|].
  exists s. simpl. by rewrite app_nil_r.
Qed.
(** What happens between the initialisation and init. *)
Definition teardown (ro : bool) : list string :=
  ["async_synchronize_full"; "kprobe_free_init_mem"; "ftrace_free_init_mem"; "kgdb_free_init_mem"; "exit_boot_config"; "free_initmem"] ++
  protection ro ++ ["pti_finalize"; "numa_default_policy"; "rcu_end_inkernel_boot"; "do_sysctl_args"].
Lemma kernel_init_split s s1 : kernel_init_freeable s = (Val tt, s1) ->
  exists s2, kernel_init s = kernel_init_tail s2 /\ frame s1 s2 /\ system_state s2 = SYSTEM_RUNNING /\
    ramdisk_execute_command (m_args s2) = ramdisk_execute_command (m_args s1) /\
    m_log s2 = m_log s1 ++ (Call <$> teardown (rodata_enabled (m_args s1))).
Proof.
  intros E. unfold kernel_init. rewrite (bind_val _ _ _ _ _ E).
  destruct (calls_log ["async_synchronize_full"] s1) as (a & Ea & Fa & La & Ra & _).
  assert (call "async_synchronize_full" s1 = (Val tt, a)) as Ea' by (simpl in Ea; unfold sbind in Ea; by simpl in *).
  rewrite (bind_val _ _ _ _ _ Ea'). rewrite (bind_val _ _ _ tt (set_state SYSTEM_FREEING_INITMEM a)) by done.
  set (b := set_state _ a). assert (frame a b) as Fb by done.
  destruct (calls_log ["kprobe_free_init_mem"; "ftrace_free_init_mem"; "kgdb_free_init_mem"; "exit_boot_config"; "free_initmem"] b)
    as (c & Ec & Fc & Lc & Rc & _). rewrite (bind_val _ _ _ _ _ Ec).
  destruct (mark_readonly_log c) as (d & Ed & Fd & Ld & Rd & _). rewrite (bind_val _ _ _ _ _ Ed).
  destruct (calls_log ["pti_finalize"] d) as (e & Ee & Fe & Le & Re & _).
  assert (call "pti_finalize" d = (Val tt, e)) as Ee' by (simpl in Ee; unfold sbind in Ee; by simpl in *).
  rewrite (bind_val _ _ _ _ _ Ee'). rewrite (bind_val _ _ _ tt (set_state SYSTEM_RUNNING e)) by done.
  set (f := set_state _ e). assert (frame e f) as Ff by done.
  destruct (calls_log ["numa_default_policy"; "rcu_end_inkernel_boot"; "do_sysctl_args"] f) as (g & Eg & Fg & Lg & Rg & Yg).
  rewrite (bind_val _ _ _ _ _ Eg). exists g.
  assert (frame s1 c) as Fsc by (do 2 (etrans; [done|]); done).
  split_and!; [done| |done|by rewrite Rg; simpl; rewrite Re, Rd, Rc|].
  - etrans; [exact Fsc|]. do 3 (etrans; [done|]). done.
  - rewrite Lg. change (m_log f) with (m_log e). rewrite Le, Ld, (f_rodata _ _ Fsc), Lc. change (m_log b) with (m_log a). rewrite La.
    unfold teardown. rewrite !fmap_app, <- !app_assoc. done.
Qed.

Definition executes (s : st) (e : event) : Prop := exists c ret, e = Exec c (c :: argument_tail s) (environment s) ret.
(** How the search for init ends: with the first candidate that executes, or
    with a panic after the last one failed. *)
Definition init_outcome (o : outcome Z) (s' : st) (rets : list Z) : Prop :=
  (o = Val 0 /\ exists fails, rets = fails ++ [0] /\ Forall (fun r => r <> 0) fails) \/
  (o <> Val 0 /\ Forall (fun r => r <> 0) rets /\
   (m_panic s' = Some "Requested init failed" \/ m_panic s' = Some "No working init found")).
Lemma kernel_init_log s :
  tables_ok -> parses_in_place -> memory_enough s -> lines_ok s -> named s ->
  exists o s' l1 cs rets, kernel_init s = (o, s') /\
    m_log s' = m_log s ++ l1 ++ (Call <$> teardown (rodata_enabled (m_args s))) ++ tries s cs rets /\
    ran l1 = filter (fun fn => initcall_blacklisted fn (m_args s) = false) initcalls /\ execs l1 = [] /\
    length rets = length cs /\ cs <> [] /\ init_outcome o s' rets.
Proof.
  intros Ht Hp Hm Hs Hn. destruct (runs_freeable s Ht Hp Hm Hs) as ([] & s1 & l1 & E & F & L & R & _ & X).
  destruct (kernel_init_split s s1 E) as (s2 & E2 & F2 & _ & _ & L2).
  assert (named s2) as Hn2 by (destruct Hn as (a & r & Ea); exists a, r; by rewrite (f_argv _ _ F2), (f_argv _ _ F)).
  assert (tries s2 = tries s) as Htr.
  { unfold tries, argument_tail, environment. by rewrite (f_argv _ _ F2), (f_argv _ _ F), (f_envp _ _ F2), (f_envp _ _ F). }
  pose proof (try_all_spec (candidates s2) (last_words s2) s2 Hn2) as (s' & H). rewrite <- kernel_init_tail_candidates in H by done.
  rewrite E2. rewrite Htr in H. destruct H as [(b & c & a & rets & _ & -> & Hl & Hf & L3)|(rets & e & -> & Hl & Hf & L3 & P)].
  - exists (Val 0), s', l1, (b ++ [c]), (rets ++ [0]).
    rewrite L3, L2, L, (f_rodata _ _ F), <- !app_assoc. split_and!; try done.
    + rewrite !length_app. simpl. lia.
    + by destruct b.
    + left. split; [done|]. by exists rets.
  - exists (Exit e), s', l1, (candidates s2), rets.
    rewrite L3, L2, L, (f_rodata _ _ F), <- !app_assoc. split_and!; try done.
    + unfold candidates. destruct (ramdisk_execute_command _); [done|]. destruct (execute_command _); [done|].
      by case_bool_decide.
    + right. split_and!; [done..|]. rewrite P. unfold last_words. destruct (execute_command _); auto.
Qed.

(** User space starts only when the kernel is done with itself: in the
    log of [kernel_init] everything the linker collected has run, all
    asynchronous initialisation is waited for before the memory of the
    initialisation code is freed, and then, unless rodata=off, the kernel's
    text and constants are made read-only, all before the first candidate for
    init is executed; nothing but candidates follows. *)
Theorem init_starts_last s :
  tables_ok -> parses_in_place -> memory_enough s -> lines_ok s -> named s ->
  exists o s' l1 l2, kernel_init s = (o, s') /\
    m_log s' = m_log s ++ l1 ++ (Call <$> teardown (rodata_enabled (m_args s))) ++ l2 /\
    ran l1 = filter (fun fn => initcall_blacklisted fn (m_args s) = false) initcalls /\ execs l1 = [] /\
    Forall (executes s) l2 /\ l2 <> [].
Proof.
  intros Ht Hp Hm Hs Hn. destruct (kernel_init_log s Ht Hp Hm Hs Hn) as (o & s' & l1 & cs & rets & E & L & R & X & Hl & Hne & _).
  exists o, s', l1, (tries s cs rets). split_and!; [done..| |].
  - clear. revert rets. induction cs as [|c cs IH]; intros [|r rets]; constructor; [by exists c, r|apply IH].
  - by destruct cs, rets.
Qed.
End initcall_properties.

(** *** The blacklist *)
Fixpoint join_comma (names : list (list Z)) : list Z :=
  match names with [] => [] | [n] => n | n :: names => n ++ COMMA :: join_comma names end.
Lemma cut_comma_last n : COMMA ∉ n -> cut_comma n = (n, None).
Proof.
  induction n as [|c n IH]; intros Hn; [done|]. simpl. destruct (Z.eqb_spec c COMMA); [set_solver|]. rewrite IH by set_solver. done.
Qed.
Lemma cut_comma_app n l : COMMA ∉ n -> cut_comma (n ++ COMMA :: l) = (n, Some l).
Proof.
  induction n as [|c n IH]; intros Hn; [done|]. simpl. destruct (Z.eqb_spec c COMMA); [set_solver|]. rewrite IH by set_solver. done.
Qed.
Lemma length_join_comma names : (length names <= length (join_comma names) + 1)%nat.
Proof.
  induction names as [|n [|n' names] IH]; simpl in *; [lia|lia|]. rewrite length_app. simpl. lia.
Qed.
Section blacklist.
Context `{be : BootEnv} {W : Type} {ie : InitEnv W}.
Lemma blacklist_loop_join names fuel entries :
  (forall n, memblock_alloc n = true) -> names <> [] -> Forall (fun n => COMMA ∉ n) names -> (length names < fuel)%nat ->
  blacklist_loop fuel (Some (join_comma names)) entries = Some (rev names ++ entries).
Proof.
  intros Ha. revert fuel entries. induction names as [|n names IH]; intros [|fuel] entries Hne Hc Hf; simpl in Hf; try done; try lia.
  apply Forall_cons in Hc as [Hn Hc]. simpl. destruct names as [|n' names].
  - rewrite cut_comma_last, !Ha by done. destruct fuel; [simpl in Hf; lia|]. done.
  - rewrite cut_comma_app, !Ha by done. simpl negb. cbv iota. rewrite IH by (done || lia). by rewrite <- app_assoc.
Qed.
Lemma base_name name suffix :
  SPACE ∉ name -> 0 ∉ name -> suffix = [] \/ (exists r, suffix = SPACE :: r) ->
  cstr (strreplace (name ++ suffix ++ [0]) SPACE 0) = name.
Proof.
  intros Hs Hz Hx. unfold strreplace. rewrite fmap_app. replace ((fun c => if c =? SPACE then 0 else c) <$> name) with name.
  - destruct Hx as [->|[r ->]]; csimpl; (apply cstr_text; apply Forall_forall; intros x Hxin ->; done).
  - symmetry. clear Hx Hz. induction name as [|c name IH]; csimpl; [done|]. destruct (Z.eqb_spec c SPACE); [set_solver|].
    f_equal. apply IH. set_solver.
Qed.

Lemma blacklisted_name fn name suffix (s : bargs W) :
  sprint_symbol_no_offset fn = name ++ suffix ++ [0] ->
  SPACE ∉ name -> 0 ∉ name -> suffix = [] \/ (exists r, suffix = SPACE :: r) ->
  initcall_blacklisted fn s = bool_decide (name ∈ blacklisted_initcalls s).
Proof.
  intros E Hs Hz Hx. unfold initcall_blacklisted. rewrite E, base_name by done.
  transitivity (existsb (fun e => bool_decide (name = e)) (blacklisted_initcalls s)); [by destruct (blacklisted_initcalls s)|].
  apply eq_true_iff_eq. rewrite existsb_exists, bool_decide_eq_true.
  setoid_rewrite bool_decide_eq_true. setoid_rewrite <- list_elem_of_In. naive_solver.
Qed.

(** A list of names given to [initcall_blacklist=] blacklists exactly the
    functions of these names, in the kernel and in modules, besides those of
    earlier lists. *)
Theorem blacklist_exact names (s : bargs W) :
  (forall n, memblock_alloc n = true) -> names <> [] -> Forall (fun n => COMMA ∉ n) names ->
  exists s', initcall_blacklist (join_comma names) s = Some (1, s') /\
    forall fn name suffix, sprint_symbol_no_offset fn = name ++ suffix ++ [0] ->
      SPACE ∉ name -> 0 ∉ name -> suffix = [] \/ (exists r, suffix = SPACE :: r) ->
      initcall_blacklisted fn s' = bool_decide (name ∈ names) || initcall_blacklisted fn s.
Proof.
  intros Ha Hne Hc. unfold initcall_blacklist. pose proof (length_join_comma names).
  rewrite blacklist_loop_join by (done || lia). eexists. split; [done|]. intros fn name suffix E Hs Hz Hx.
  rewrite !(blacklisted_name fn name suffix) by done. simpl. rewrite <- bool_decide_or. apply bool_decide_ext.
  rewrite elem_of_app, !list_elem_of_In, <- in_rev. done.
Qed.
End blacklist.

(** ** Examples *)
Module Demo.
(** One early function and one at each of two of the levels; 101 leaves with
    interrupts off and preemption disabled once more, 102 is in a module. *)
#[local] Instance env0 : InitEnv unit := {|
  initcalls := [100; 101; 102]; initcall_levels := [1; 1; 2; 2; 2; 2; 2; 2; 3]%nat;
  sprint_symbol_no_offset fn := if fn =? 102 then bytes_of "late_one [mod]" ++ [0] else bytes_of "some" ++ [0];
  subsystem _ c := c; initcall_fn fn c := if fn =? 101 then (0, Cpu true (preempt_count c + 1) ()) else (0, c);
  parse_level _ b w := (replicate (length b) 0, w); kzalloc _ := true;
  kernel_execve f _ _ w := if bool_decide (f = bytes_of "/etc/init") then (0, w) else (- ENOENT, w);
  init_eaccess _ _ := - ENOENT; filp_open_console _ := true; CONFIG_DEFAULT_INIT := [] |}.
#[local] Instance benv0 : BootEnv := {|
  xbc_calc_checksum _ := 0; xbc_get_embedded_bootconfig := None; xbc_init _ := 0; xbc_find_node _ _ := None;
  memblock_alloc _ := true; parse_args _ := Parsed [] ParsedAll; CONFIG_BOOT_CONFIG_FORCE := false |}.
Definition args0 : bargs unit :=
  BArgs (Some (bytes_of "init") :: Some (bytes_of "single") :: replicate 31 None) (Some (bytes_of "HOME=/") :: replicate 32 None)
    None None None (Some (bytes_of "/init")) 7 0 true false true [] ().
Definition s0 : mach unit := Mach args0 false 0 false SYSTEM_SCHEDULING (bytes_of "quiet" ++ [0]) 5 [] 0 0 None [].
Lemma tables0 : tables_ok.
Proof.
  split_and!; [simpl; lia|done|]. intros i a b. do 9 (destruct i as [|i]; [by intros [= <-] [= <-]; simpl; lia|]). done.
Qed.
Lemma in_place0 : parses_in_place.
Proof. intros i b w. apply length_replicate. Qed.
Lemma lines0 : lines_ok s0.
Proof. done. Qed.
Lemma named0 : named s0.
Proof. by do 2 eexists. Qed.
Lemma initcalls_run_in_order_witness :
  exists s' l, kernel_init_freeable s0 = (Val tt, s') /\ m_log s' = m_log s0 ++ l /\ ran l = [100; 101; 102] /\
    parses l = (fun i => (i, bytes_of "quiet")) <$> seq 0 8 /\ execs l = [].
Proof. exact (initcalls_run_in_order s0 tables0 in_place0 eq_refl lines0). Defined.
Lemma init_starts_last_witness :
  exists o s' l1 l2, kernel_init s0 = (o, s') /\
    m_log s' = m_log s0 ++ l1 ++ (Call <$> teardown true) ++ l2 /\ ran l1 = [100; 101; 102] /\ execs l1 = [] /\
    Forall (executes s0) l2 /\ l2 <> [].
Proof. exact (init_starts_last s0 tables0 in_place0 eq_refl lines0 named0). Defined.
Lemma first_working_init_witness :
  exists s', (exists before c after rets, candidates s0 = before ++ c :: after /\ kernel_init_tail s0 = (Val 0, s') /\
      length rets = length before /\ Forall (fun r => r <> 0) rets /\
      m_log s' = m_log s0 ++ tries s0 (before ++ [c]) (rets ++ [0])) \/
    (exists rets e, kernel_init_tail s0 = (Exit e, s') /\ length rets = length (candidates s0) /\ Forall (fun r => r <> 0) rets /\
      m_log s' = m_log s0 ++ tries s0 (candidates s0) rets /\ m_panic s' = Some (last_words s0)).
Proof. exact (first_working_init s0 named0). Defined.
(** The third candidate is the one that works; the RAM disk's was dropped. *)
Lemma second_standard_init :
  exists s', kernel_init s0 = (Val 0, s') /\
    execs (m_log s') = [Exec (bytes_of "/sbin/init") [bytes_of "/sbin/init"; bytes_of "single"] [bytes_of "HOME=/"] (- ENOENT);
                        Exec (bytes_of "/etc/init") [bytes_of "/etc/init"; bytes_of "single"] [bytes_of "HOME=/"] 0] /\
    m_irqs_off s' = false /\ m_preempt s' = 0 /\ console_fds s' = 3%nat.
Proof. eexists. vm_compute. done. Qed.
Lemma blacklist_exact_witness :
  exists s', initcall_blacklist (join_comma [bytes_of "foo"; bytes_of "late_one"]) args0 = Some (1, s') /\
    forall fn name suffix, sprint_symbol_no_offset fn = name ++ suffix ++ [0] ->
      SPACE ∉ name -> 0 ∉ name -> suffix = [] \/ (exists r, suffix = SPACE :: r) ->
      initcall_blacklisted fn s' = bool_decide (name ∈ [bytes_of "foo"; bytes_of "late_one"]) || initcall_blacklisted fn args0.
Proof.
  apply (blacklist_exact [bytes_of "foo"; bytes_of "late_one"] args0); [done|done|].
  repeat constructor; vm_compute; set_solver.
Defined.
End Demo.
