(* ===== verification/Boot.v ===== *)
(** * Starting the kernel

    init/main.c 674-731 and 874-1082: [start_kernel] brings the boot
    configuration, the command lines and the options together and initialises
    the subsystems one by one; [rest_init] starts the threads that become init
    and kthreadd, which run at the same time as the boot thread.  The
    architecture's command line, the parameters of the core kernel and the
    subsystems are interfaces. *)
From S2P Require Import Prelude UMem BootConf BootArgs Initcall.
Open Scope Z_scope.

Class StartEnv (W : Type) := {
  setup_arch_lines : W -> list Z * list Z;          (** [boot_command_line] and [*cmdline_p] *)
  arch_parses_early : bool;                         (** whether [setup_arch] calls [parse_early_param] *)
  initrd_area : umem * Z * Z;                       (** its memory, [initrd_start] and [initrd_end] *)
  kernel_param : list Z * option (list Z) -> option (W -> W);   (** [__start___param], levels -1 *)
  initrd_overwritten : Z -> bool;
  late_time_init : bool; efi_runtime_services : bool; initcall_debug : bool;
}.

Section start.
Context {W : Type} {be : BootEnv} {pe : ParamEnv W} {ie : InitEnv W} {se : StartEnv W}.
#[local] Abbreviation st := (mach W).

(** One option of "Booting kernel". *)
Definition parse_booting (opt : list Z * option (list Z)) (a : bargs W) : option (bargs W) :=
  match kernel_param opt with
  | Some f => Some (set_world (f (rest_of_kernel a)) a)
  | None => unknown_bootoption opt.1 opt.2 a
  end.
Definition parse_all (f : list Z * option (list Z) -> bargs W -> option (bargs W)) (line : list Z) (a : bargs W) : option (bargs W) :=
  foldl (fun a o => a ≫= f o) (Some a) (p_opts (parse_args line)).
(** Leaving the arrays is not an outcome the code knows. *)
Definition try_args (f : bargs W -> option (bargs W)) : sys st unit := fun s =>
  match f (m_args s) with
  | Some a => (Val tt, on_args (fun _ => a) s)
  | None => (Exit (-1), set_panic "outside of an array" s)
  end.
(** [print_unknown_bootoptions], for its writes. *)
Definition print_unknown : sys st unit := fun s =>
  match print_unknown_bootoptions (m_args s) with
  | Some _ => (Val tt, s)
  | None => (Exit (-1), set_panic "outside of an array" s)
  end.
Definition early_params (boot_command_line : list Z) : sys st unit := smodify (on_args (parse_early_param boot_command_line)).

Definition command_line_setup (c : bconf) (boot_command_line command_line : list Z) : sys st unit :=
  match setup_command_line c boot_command_line command_line with
  | CmdPanic => panic "Failed to allocate"
  | CmdOverrun => panic "outside of an array"
  | CmdLines saved static len => smodify (set_lines saved static len)
  end.
(** "Booting kernel", "Setting init args" and "Setting extra init args". *)
Definition parse_options (c : bconf) : sys st unit :=
  let* line := sgets (fun s => cstr (static_command_line s)) in
  do* try_args (parse_all parse_booting line) in
  do* print_unknown in
  do* (match p_stop (parse_args line) with
       | AfterDashes o => try_args (parse_all (fun o => set_init_arg o.1 o.2) (drop (Z.to_nat o) line))
       | _ => sret tt
       end) in
  match extra_init_args c with
  | Some x => try_args (parse_all (fun o => set_init_arg o.1 o.2) (cstr x))
  | None => sret tt
  end.
(** [if (WARN(!irqs_disabled(), ...)) local_irq_disable();] *)
Definition irqs_still_off : sys st unit :=
  let* off := sgets m_irqs_off in if off : bool then sret tt else smodify local_irq_disable.

(** The parts before and after interrupts are enabled. *)
Definition start_kernel_irqs_off (c : bconf) (boot_command_line command_line : list Z) : sys st unit :=
  do* command_line_setup c boot_command_line command_line in
  do* calls ["setup_nr_cpu_ids"; "setup_per_cpu_areas"; "smp_prepare_boot_cpu"; "boot_cpu_hotplug_init"; "jump_label_init"] in
  do* early_params boot_command_line in
  do* parse_options c in
  do* calls ["random_init_early"; "setup_log_buf"; "vfs_caches_init_early"; "sort_main_extable"; "trap_init"; "mm_core_init";
             "poking_init"; "ftrace_init"; "early_trace_init"; "sched_init"] in
  do* irqs_still_off in
  do* calls ["radix_tree_init"; "maple_tree_init"; "housekeeping_init"; "workqueue_init_early"; "rcu_init"; "trace_init"] in
  do* (if initcall_debug then call "initcall_debug_enable" else sret tt) in
  calls ["context_tracking_init"; "early_irq_init"; "init_IRQ"; "tick_init"; "rcu_init_nohz"; "init_timers"; "srcu_init"; "hrtimers_init";
         "softirq_init"; "timekeeping_init"; "time_init"; "random_init"; "kfence_init"; "boot_init_stack_canary"; "perf_event_init";
         "profile_init"; "call_function_init"].
Definition start_kernel_irqs_on : sys st unit :=
  do* smodify (set_early_irqs false) in
  do* smodify local_irq_enable in
  do* calls ["kmem_cache_init_late"; "console_init"] in
  let* later := sgets (fun s => panic_later (m_args s)) in
  do* (match later with Some _ => panic "Too many boot vars" | None => sret tt end) in
  do* calls ["lockdep_init"; "locking_selftest"] in
  do* smodify (fun s => if negb (initrd_start s =? 0) && initrd_overwritten (initrd_start s) then set_initrd 0 s else s) in
  do* calls ["setup_per_cpu_pageset"; "numa_policy_init"; "acpi_early_init"] in
  do* (if late_time_init then call "late_time_init" else sret tt) in
  do* calls ["sched_clock_init"; "calibrate_delay"; "arch_cpu_finalize_init"; "pid_idr_init"; "anon_vma_init"] in
  do* (if efi_runtime_services then call "efi_enter_virtual_mode" else sret tt) in
  calls ["thread_stack_cache_init"; "cred_init"; "fork_init"; "proc_caches_init"; "uts_ns_init"; "key_init"; "security_init";
         "dbg_late_init"; "net_ns_init"; "vfs_caches_init"; "pagecache_init"; "signals_init"; "seq_file_init"; "proc_root_init";
         "nsfs_init"; "cpuset_init"; "cgroup_init"; "taskstats_init_early"; "delayacct_init"; "acpi_subsystem_init";
         "arch_post_acpi_subsys_init"; "kcsan_init"].
(** Up to [arch_call_rest_init]. *)
Definition start_kernel : sys st unit :=
  do* calls ["set_task_stack_end_magic"; "smp_setup_processor_id"; "debug_objects_early_init"; "init_vmlinux_build_id";
             "cgroup_init_early"] in
  do* smodify local_irq_disable in
  do* smodify (set_early_irqs true) in
  do* calls ["boot_cpu_init"; "page_address_init"; "early_security_init"; "setup_arch"] in
  let* lines := sgets (fun s => setup_arch_lines (rest_of_kernel (m_args s))) in
  let '(boot_command_line, command_line) := lines in
  do* (if arch_parses_early then early_params boot_command_line else sret tt) in
  let '(m, start, end_) := initrd_area in
  let c := setup_boot_config m start end_ boot_command_line in
  do* smodify (set_initrd start) in
  do* start_kernel_irqs_off c boot_command_line command_line in
  start_kernel_irqs_on.
End start.

(** ** Properties *)
Section start_properties.
Context {W : Type} {be : BootEnv} {pe : ParamEnv W} {ie : InitEnv W} {se : StartEnv W}.
#[local] Abbreviation st := (mach W).

(** What the code relies on. *)
Record start_laws : Prop := {
  law_handlers : Forall keeps_args setup_table;
  law_arch : forall w, text_ok (setup_arch_lines w).1 /\ text_ok (setup_arch_lines w).2 /\
             (length (setup_arch_lines w).2 <= length (setup_arch_lines w).1)%nat;
  law_dashes : forall l o, p_stop (parse_args l) = AfterDashes o -> 0 <= o <= Z.of_nat (length l);
  law_keys : forall conf key root t, xbc_find_node conf key = Some root -> keys_text root = Some t -> text_ok t;
}.
Context (laws : start_laws).

(** The two ways the boot thread may end early. *)
Definition died (s : st) : Prop :=
  m_panic s = Some "Failed to allocate" \/ (m_panic s = Some "Too many boot vars" /\ is_Some (panic_later (m_args s))).
Definition ends {A} (P : st -> Prop) (m : sys st A) (Q : A -> st -> Prop) : Prop := forall s, P s ->
  match m s with (Val a, s') => Q a s' | (Exit _, s') => died s' end.
Lemma ends_bind {A B} P (m : sys st A) Q (k : A -> sys st B) R :
  ends P m Q -> (forall a, ends (Q a) (k a) R) -> ends P (sbind m k) R.
Proof. intros Hm Hk s Hs. unfold sbind. specialize (Hm s Hs). destruct (m s) as [[a|e] s']; [by apply Hk|done]. Qed.
Lemma ends_seq {A B} P (m : sys st A) (Q : st -> Prop) (k : sys st B) R :
  ends P m (fun _ => Q) -> ends Q k R -> ends P (sbind m (fun _ => k)) R.
Proof. intros Hm Hk. by eapply ends_bind; [exact Hm|]. Qed.
Lemma ends_ret {A} (P : st -> Prop) (a : A) : ends P (sret a) (fun _ => P).
Proof. by intros s Hs. Qed.
Lemma ends_gets {A} (P : st -> Prop) (f : st -> A) : ends P (sgets f) (fun a s => P s /\ a = f s).
Proof. by intros s Hs. Qed.
Lemma ends_modify (P Q : st -> Prop) f : (forall s, P s -> Q (f s)) -> ends P (smodify f) (fun _ => Q).
Proof. intros H s Hs. by apply H. Qed.
Lemma ends_pre {A} (P P' : st -> Prop) (m : sys st A) Q : (forall s, P s -> P' s) -> ends P' m Q -> ends P m Q.
Proof. intros H Hm s Hs. by apply Hm, H. Qed.

(** The arrays, whatever the rest of the kernel is. *)
Lemma args_ok_world a w : args_ok a -> args_ok (set_world w a).
Proof. intros []. by split. Qed.
Definition args_inv (s : st) : Prop := args_ok (m_args s).
Definition lines_inv (s : st) : Prop := args_ok (m_args s) /\ lines_ok s.
(** A property of the collected arguments and the kept command line only. *)
Definition about_args (P : st -> Prop) : Prop := forall s s',
  (exists w, m_args s' = set_world w (m_args s)) -> saved_command_line s' = saved_command_line s ->
  saved_command_line_len s' = saved_command_line_len s -> P s -> P s'.
Lemma about_args_inv : about_args args_inv.
Proof. intros s s' [w E] _ _ H. unfold args_inv. rewrite E. by apply args_ok_world. Qed.
Lemma about_lines_inv : about_args lines_inv.
Proof.
  intros s s' [w E] E1 E2 [H1 H2]. unfold lines_inv, lines_ok. rewrite E, E1, E2. split; [by apply args_ok_world|done].
Qed.
Lemma ends_call P f : about_args P -> ends P (call f) (fun _ => P).
Proof. intros HP s Hs. simpl. apply (HP s); [by eexists|done|done|done]. Qed.
Lemma ends_calls P fs : about_args P -> ends P (calls fs) (fun _ => P).
Proof.
  intros HP. unfold calls. induction fs as [|f fs IH]; simpl; [apply ends_ret|].
  eapply ends_seq; [by apply ends_call|]. apply IH.
Qed.
Lemma ends_keep P f : about_args P ->
  (forall s : st, (exists w, m_args (f s) = set_world w (m_args s)) /\ saved_command_line (f s) = saved_command_line s /\
             saved_command_line_len (f s) = saved_command_line_len s) -> ends P (smodify f) (fun _ => P).
Proof. intros HP Hf s Hs. destruct (Hf s) as (H1 & H2 & H3). simpl. by apply (HP s). Qed.
Lemma set_world_same (a : bargs W) : exists w, a = set_world w a.
Proof. exists (rest_of_kernel a). by destruct a. Qed.

(** *** The options *)
Lemma parse_all_ok f line a : (forall o a, args_ok a -> exists a', f o a = Some a' /\ args_ok a') ->
  args_ok a -> exists a', parse_all f line a = Some a' /\ args_ok a'.
Proof.
  intros Hf. unfold parse_all. generalize (p_opts (parse_args line)). intros l. revert a.
  induction l as [|o l IH]; intros a Ha; simpl; [eauto|]. destruct (Hf o a Ha) as (a' & -> & Ha'). auto.
Qed.
Lemma parse_booting_ok o a : args_ok a -> exists a', parse_booting o a = Some a' /\ args_ok a'.
Proof.
  intros Ha. unfold parse_booting. destruct (kernel_param o); [eexists; split; [done|by apply args_ok_world]|].
  exact (take_option_ok (Option_ o.1 o.2) a (law_handlers laws) Ha).
Qed.
Lemma early_params_ok l a : args_ok a -> args_ok (parse_early_param l a).
Proof.
  intros Ha. unfold parse_early_param. destruct (early_done a); [done|].
  cut (args_ok (parse_early_options (take (Z.to_nat (2048 - 1)) l) a)); [intros []; by split|].
  unfold parse_early_options. generalize (p_opts (parse_args (take (Z.to_nat (2048 - 1)) l))). intros os. revert a Ha.
  induction os as [|[param val] os IH]; intros a Ha; simpl; [done|]. apply IH. unfold do_early_param.
  pose proof (law_handlers laws) as Hk. revert a Ha. induction Hk as [|p ps Hp _ IHp]; intros a Ha; simpl; [done|].
  apply IHp. case_match; [|done]. destruct (op_setup p) as [f|] eqn:Ef; [|done]. by apply (handler_keeps_ok p).
Qed.
Lemma ends_try f P : (forall a, args_ok a -> exists a', f a = Some a' /\ args_ok a') ->
  (forall s a, P s -> args_ok a -> P (on_args (fun _ => a) s)) -> (forall s, P s -> args_ok (m_args s)) ->
  ends P (try_args f) (fun _ => P).
Proof. intros Hf HP Ha s Hs. unfold try_args. destruct (Hf (m_args s) (Ha s Hs)) as (a & -> & Hok). by apply HP. Qed.
Lemma lines_inv_args s a : lines_inv s -> args_ok a -> lines_inv (on_args (fun _ => a) s).
Proof. by intros [_ H] Ha. Qed.
Lemma ends_print P : ends P print_unknown (fun _ => P).
Proof.
  intros s Hs. unfold print_unknown. rewrite print_unknown_bootoptions_spec. cbv zeta. by destruct (_ || _).
Qed.
Lemma ends_options c : ends lines_inv (parse_options c) (fun _ => lines_inv).
Proof.
  assert (forall line, ends lines_inv (try_args (parse_all (fun o => set_init_arg o.1 o.2) line)) (fun _ => lines_inv)) as Hinit.
  { intros line. apply ends_try; [|apply lines_inv_args|by intros s []]. intros a Ha. apply parse_all_ok; [|done].
    intros o b Hb. by apply set_init_arg_ok. }
  unfold parse_options. eapply ends_bind; [apply ends_gets|]. intros line.
  apply (ends_pre _ lines_inv); [by intros s []|]. eapply ends_seq.
  - apply ends_try; [|apply lines_inv_args|by intros s []]. intros a Ha. apply parse_all_ok; [apply parse_booting_ok|done].
  - eapply ends_seq; [apply ends_print|]. eapply ends_seq.
    + destruct (p_stop _); [apply ends_ret|apply Hinit|apply ends_ret].
    + destruct (extra_init_args c); [apply Hinit|apply ends_ret].
Qed.

(** *** The command lines *)
Definition nul_text (o : option (list Z)) : Prop := forall x, o = Some x -> exists t, x = t ++ [0] /\ text_ok t.
Lemma xbc_make_cmdline_text conf key : nul_text (xbc_make_cmdline conf key).
Proof.
  intros x. rewrite xbc_make_cmdline_spec. destruct (xbc_find_node conf key) as [root|] eqn:Er; [|done].
  destruct (keys_text root) as [t|] eqn:Et; [|done]. pose proof (law_keys laws _ _ _ _ Er Et) as Ht.
  destruct t as [|c t]; [done|]. destruct (memblock_alloc _); [|done]. intros [= <-]. by exists (c :: t).
Qed.
Lemma setup_boot_config_ok m start e boot : let c := setup_boot_config m start e boot in
  0 <= initargs_offs c <= Z.of_nat (length boot) /\ nul_text (extra_command_line c) /\ nul_text (extra_init_args c).
Proof.
  cbv zeta. unfold setup_boot_config. destruct (get_boot_config_from_initrd m start e) as [got end_].
  set (line := take (Z.to_nat (2048 - 1)) boot).
  assert (forall o, p_stop (parse_args line) = AfterDashes o -> 0 <= o <= Z.of_nat (length boot)) as Hd.
  { intros o Eo. apply (law_dashes laws) in Eo. assert (length line <= length boot)%nat by (subst line; rewrite length_take; lia). lia. }
  destruct (p_stop (parse_args line)) as [|o|er]; [|specialize (Hd o eq_refl)|];
    repeat case_match; (split; [simpl; lia|]); (split; [|]); simpl; first [by intros ? ? | apply xbc_make_cmdline_text].
Qed.
Lemma ends_lines c boot cmd :
  text_ok boot -> text_ok cmd -> (length cmd <= length boot)%nat -> 0 <= initargs_offs c <= Z.of_nat (length boot) ->
  nul_text (extra_command_line c) -> nul_text (extra_init_args c) ->
  ends args_inv (command_line_setup c boot cmd) (fun _ => lines_inv).
Proof.
  intros Hb Hc Hl Ho Hx Hi s Hs. unfold command_line_setup.
  assert (setup_command_line c boot cmd = CmdPanic \/ setup_command_line c boot cmd <> CmdPanic) as [->|Hp];
    [destruct (setup_command_line c boot cmd); auto|by left|].
  destruct (setup_command_line_fits c boot cmd Hb Hc Hl Ho Hx Hi Hp) as (saved & static & -> & _). split; [done|].
  unfold lines_ok. simpl. unfold cstr. rewrite length_take. pose proof (strlen_le saved). lia.
Qed.

Ltac step_calls := eapply ends_seq; [apply ends_calls; first [apply about_args_inv | apply about_lines_inv]|].
Lemma ends_irqs_off c boot cmd :
  text_ok boot -> text_ok cmd -> (length cmd <= length boot)%nat -> 0 <= initargs_offs c <= Z.of_nat (length boot) ->
  nul_text (extra_command_line c) -> nul_text (extra_init_args c) ->
  ends args_inv (start_kernel_irqs_off c boot cmd) (fun _ => lines_inv).
Proof.
  intros. unfold start_kernel_irqs_off. eapply ends_seq; [by apply ends_lines|]. step_calls.
  eapply ends_seq; [apply (ends_modify _ lines_inv); intros s [Ha ?]; split; [by apply early_params_ok|done]|].
  eapply ends_seq; [apply ends_options|]. step_calls. eapply ends_seq.
  { unfold irqs_still_off. eapply ends_bind; [apply ends_gets|]. intros off. apply (ends_pre _ lines_inv); [by intros s []|].
    destruct off; [apply ends_ret|]. apply ends_keep; [apply about_lines_inv|]. intros s. split_and!; [by eexists|done|done]. }
  step_calls. eapply ends_seq; [|apply ends_calls, about_lines_inv].
  destruct initcall_debug; [apply ends_call, about_lines_inv|apply ends_ret].
Qed.
(** Nothing was dropped. *)
Definition ready (s : st) : Prop := lines_inv s /\ panic_later (m_args s) = None.
Lemma about_ready : about_args ready.
Proof.
  intros s s' E E1 E2 [H1 H2]. split; [by eapply about_lines_inv|]. destruct E as [w ->]. done.
Qed.
Lemma ends_optional P (b : bool) f : about_args P -> ends P (if b then call f else sret tt) (fun _ => P).
Proof. intros HP. destruct b; [by apply ends_call|apply ends_ret]. Qed.
Lemma ends_irqs_on : ends lines_inv start_kernel_irqs_on (fun _ => ready).
Proof.
  unfold start_kernel_irqs_on.
  eapply ends_seq; [apply ends_keep; [apply about_lines_inv|]; intros s; split_and!; [apply set_world_same|done|done]|].
  eapply ends_seq; [apply ends_keep; [apply about_lines_inv|]; intros s; split_and!; [by eexists|done|done]|].
  step_calls. eapply ends_bind; [apply ends_gets|]. intros later. eapply ends_seq.
  { intros s [Hs ->]. instantiate (1 := ready). destruct (panic_later (m_args s)) eqn:Ep; [|by split].
    right. split; [done|]. simpl. rewrite Ep. by eexists. }
  eapply ends_seq; [apply ends_calls, about_ready|].
  eapply ends_seq; [apply ends_keep; [apply about_ready|]; intros s; case_match; split_and!; try done; apply set_world_same|].
  eapply ends_seq; [apply ends_calls, about_ready|]. eapply ends_seq; [apply ends_optional, about_ready|].
  eapply ends_seq; [apply ends_calls, about_ready|]. eapply ends_seq; [apply ends_optional, about_ready|].
  apply ends_calls, about_ready.
Qed.
Lemma ends_start : ends args_inv start_kernel (fun _ => ready).
Proof.
  unfold start_kernel. step_calls.
  eapply ends_seq; [apply ends_keep; [apply about_args_inv|]; intros s; split_and!; [by eexists|done|done]|].
  eapply ends_seq; [apply ends_keep; [apply about_args_inv|]; intros s; split_and!; [apply set_world_same|done|done]|].
  step_calls. eapply ends_bind; [apply ends_gets|]. intros [boot cmd] s [Hs El].
  pose proof (law_arch laws (rest_of_kernel (m_args s))) as (Hb & Hc & Hl). rewrite <- El in Hb, Hc, Hl. simpl in Hb, Hc, Hl.
  clear El. revert s Hs. change (ends args_inv (do* (if arch_parses_early then early_params boot else sret tt) in
    let '(m, start, end_) := initrd_area in let c := setup_boot_config m start end_ boot in
    do* smodify (set_initrd start) in do* start_kernel_irqs_off c boot cmd in start_kernel_irqs_on) (fun _ => ready)).
  eapply ends_seq.
  { instantiate (1 := args_inv). destruct arch_parses_early; [|apply ends_ret]. apply ends_modify. intros s Hs. by apply early_params_ok. }
  destruct initrd_area as [[m start] end_]. cbv zeta. pose proof (setup_boot_config_ok m start end_ boot) as (Ho & Hx & Hi).
  eapply ends_seq; [apply ends_keep; [apply about_args_inv|]; intros s; split_and!; [apply set_world_same|done|done]|].
  eapply ends_seq; [by apply ends_irqs_off|apply ends_irqs_on].
Qed.

(** C24: [start_kernel] on any command line and boot configuration: it panics
    only for want of memory or because there are too many options for init,
    never reads or writes outside of its buffers and arrays, and when it
    reaches [rest_init] no option was dropped, the arrays are NULL-terminated
    and the recorded length of the command line is right. *)
Theorem start_kernel_sound s o s' :
  args_ok (m_args s) -> start_kernel s = (o, s') ->
  match o with
  | Val _ => args_ok (m_args s') /\ panic_later (m_args s') = None /\ lines_ok s'
  | Exit _ => m_panic s' = Some "Failed to allocate" \/ (m_panic s' = Some "Too many boot vars" /\ is_Some (panic_later (m_args s')))
  end.
Proof.
  intros Hs E. pose proof (ends_start s Hs) as He. rewrite E in He. destruct o as [[]|e]; [|exact He].
  destruct He as [[H1 H2] H3]. done.
Qed.

End start_properties.

(** ** The first threads

    [rest_init] runs on the boot thread; from the moment it is created the
    thread of init runs at the same time.  One step is one statement of either
    thread.  Creating a thread may fail, which [rest_init] does not check; a
    NULL pointer that is followed ends the run. *)
Module Threads.
(** What the code relies on from outside of this file: in an empty name space
    the first pid is 1, a new pid is positive and not in use; what a kernel
    thread created through kthreadd does to the pids in use is open. *)
Class FirstThreads := {
  alloc_pid : list Z -> Z;
  alloc_first : alloc_pid [] = 1;
  alloc_fresh ts : alloc_pid ts ∉ ts /\ 0 < alloc_pid ts;
  kthread_created : list Z -> list Z;
}.
Inductive boot_pc :=
  | StartInit                       (** [pid = user_mode_thread(kernel_init, ...)] *)
  | PinInit (pid : Z)               (** [tsk->flags |= PF_NO_SETAFFINITY; set_cpus_allowed_ptr(...)] *)
  | StartKthreadd                   (** [pid = kernel_thread(kthreadd, ...)] *)
  | FindKthreadd (pid : Z)          (** [kthreadd_task = find_task_by_pid_ns(pid, ...)] *)
  | Scheduling                      (** [system_state = SYSTEM_SCHEDULING] *)
  | Complete                        (** [complete(&kthreadd_done)] *)
  | Schedule                        (** [schedule_preempt_disabled()] *)
  | Idle.                           (** [cpu_startup_entry(CPUHP_ONLINE)] *)
Inductive init_pc :=
  | Absent
  | Waits                           (** [wait_for_completion(&kthreadd_done)] *)
  | Runs                            (** [kernel_init_freeable] and what it calls *)
  | Frees                           (** after [system_state = SYSTEM_FREEING_INITMEM] *)
  | Starts.                         (** after [system_state = SYSTEM_RUNNING] *)
#[global] Instance init_pc_eq_dec : EqDecision init_pc.
Proof. solve_decision. Defined.
Record threads := T {
  boot : boot_pc; init : init_pc;
  tasks : list Z;                                       (** pids in use *)
  pinned : list Z; kthreadd_task : option Z; sys_state : Z; kthreadd_done : nat;
  failed : bool;                                        (** a thread could not be created *)
  oops : bool;                                          (** a NULL pointer was followed *)
}.

Section threads.
Context {ft : FirstThreads}.
Definition find_task (pid : Z) (s : threads) : option Z := if bool_decide (pid ∈ tasks s) then Some pid else None.
Definition start : threads := T StartInit Absent [] [] None SYSTEM_BOOTING 0 false false.

(** [err]: the error of creating a thread, if the step creates one and fails. *)
Definition boot_step (err : option Z) (s : threads) : threads :=
  match boot s with
  | StartInit =>
      match err with
      | Some e => T (PinInit e) (init s) (tasks s) (pinned s) (kthreadd_task s) (sys_state s) (kthreadd_done s) true (oops s)
      | None =>
          let pid := alloc_pid (tasks s) in
          T (PinInit pid) Waits (pid :: tasks s) (pinned s) (kthreadd_task s) (sys_state s) (kthreadd_done s) (failed s) (oops s)
      end
  | PinInit pid =>
      match find_task pid s with
      | Some tsk => T StartKthreadd (init s) (tasks s) (tsk :: pinned s) (kthreadd_task s) (sys_state s) (kthreadd_done s) (failed s) (oops s)
      | None => T StartKthreadd (init s) (tasks s) (pinned s) (kthreadd_task s) (sys_state s) (kthreadd_done s) (failed s) true
      end
  | StartKthreadd =>
      match err with
      | Some e => T (FindKthreadd e) (init s) (tasks s) (pinned s) (kthreadd_task s) (sys_state s) (kthreadd_done s) true (oops s)
      | None =>
          let pid := alloc_pid (tasks s) in
          T (FindKthreadd pid) (init s) (pid :: tasks s) (pinned s) (kthreadd_task s) (sys_state s) (kthreadd_done s) (failed s) (oops s)
      end
  | FindKthreadd pid => T Scheduling (init s) (tasks s) (pinned s) (find_task pid s) (sys_state s) (kthreadd_done s) (failed s) (oops s)
  | Scheduling => T Complete (init s) (tasks s) (pinned s) (kthreadd_task s) SYSTEM_SCHEDULING (kthreadd_done s) (failed s) (oops s)
  | Complete => T Schedule (init s) (tasks s) (pinned s) (kthreadd_task s) (sys_state s) (S (kthreadd_done s)) (failed s) (oops s)
  | Schedule | Idle => T Idle (init s) (tasks s) (pinned s) (kthreadd_task s) (sys_state s) (kthreadd_done s) (failed s) (oops s)
  end.
(** Init "will end up wanting to create kthreads": that goes through
    [kthreadd_task], and "will OOPS" when it is not set. *)
Definition want_kthread (s : threads) : threads :=
  match kthreadd_task s with
  | Some _ => T (boot s) (init s) (kthread_created (tasks s)) (pinned s) (kthreadd_task s) (sys_state s) (kthreadd_done s) (failed s) (oops s)
  | None => T (boot s) (init s) (tasks s) (pinned s) (kthreadd_task s) (sys_state s) (kthreadd_done s) (failed s) true
  end.
Definition set_init (i : init_pc) (state : Z) (done : nat) (s : threads) : threads :=
  T (boot s) i (tasks s) (pinned s) (kthreadd_task s) state done (failed s) (oops s).
Inductive step (s : threads) : threads -> Prop :=
  | SBoot err : oops s = false -> (forall e, err = Some e -> e < 0) -> step s (boot_step err s)
  | SWait n : oops s = false -> init s = Waits -> kthreadd_done s = S n -> step s (set_init Runs (sys_state s) n s)
  | SKthread : oops s = false -> init s = Runs -> step s (want_kthread s)
  | SFree : oops s = false -> init s = Runs -> step s (set_init Frees SYSTEM_FREEING_INITMEM (kthreadd_done s) s)
  | SRun : oops s = false -> init s = Frees -> step s (set_init Starts SYSTEM_RUNNING (kthreadd_done s) s).

(** Init is there, with pid 1, and waits in the state BOOTING. *)
Definition early (s : threads) : Prop := init s = Waits /\ kthreadd_done s = O /\ sys_state s = SYSTEM_BOOTING.
(** kthreadd is another task, or could not be created. *)
Definition kthreadd_ok (s : threads) : Prop :=
  match kthreadd_task s with Some k => k <> 1 | None => failed s = true end.
(** What holds at every statement of the boot thread. *)
Definition at_boot (s : threads) : Prop :=
  match boot s with
  | StartInit => tasks s = [] /\ pinned s = [] /\ init s = Absent /\ kthreadd_done s = O /\ sys_state s = SYSTEM_BOOTING
  | PinInit pid => pinned s = [] /\ kthreadd_done s = O /\ sys_state s = SYSTEM_BOOTING /\
      ((pid = 1 /\ tasks s = [1] /\ init s = Waits) \/ (pid < 0 /\ tasks s = [] /\ init s = Absent /\ failed s = true))
  | StartKthreadd => tasks s = [1] /\ pinned s = [1] /\ early s
  | FindKthreadd pid => pinned s = [1] /\ early s /\
      ((pid <> 1 /\ pid ∈ tasks s) \/ (pid < 0 /\ tasks s = [1] /\ failed s = true))
  | Scheduling => kthreadd_ok s /\ pinned s = [1] /\ early s
  | Complete => kthreadd_ok s /\ pinned s = [1] /\ init s = Waits /\ kthreadd_done s = O /\ sys_state s = SYSTEM_SCHEDULING
  | Schedule | Idle =>
      kthreadd_ok s /\ pinned s = [1] /\
      match init s with
      | Absent => False
      | Waits => kthreadd_done s = 1%nat /\ sys_state s = SYSTEM_SCHEDULING
      | Runs => sys_state s = SYSTEM_SCHEDULING
      | Frees => sys_state s = SYSTEM_FREEING_INITMEM
      | Starts => sys_state s = SYSTEM_RUNNING
      end
  end.
(** Once a NULL pointer was followed nothing more is claimed but its cause. *)
Definition tinv (s : threads) : Prop := if oops s then failed s = true /\ init s ∈ [Absent; Runs] else at_boot s.
Lemma boot_step_inv err s : oops s = false -> (forall e, err = Some e -> e < 0) -> at_boot s -> tinv (boot_step err s).
Proof.
  destruct s as [b i ts ps kt ss kd fl oo]. simpl. intros -> He Hb.
  unfold tinv, at_boot, early, kthreadd_ok, boot_step, find_task in *. destruct b as [|pid| |pid| | | |]; simpl in *.
  - destruct_and!; subst. destruct err as [e|]; simpl; split_and!; try done; [right; by eauto|left; by rewrite alloc_first].
  - destruct Hb as (-> & -> & -> & [(-> & -> & ->)|(Hp & -> & -> & ->)]); simpl.
    + rewrite ?bool_decide_true by set_solver. done.
    + rewrite ?bool_decide_false by set_solver. simpl. split; [done|set_solver].
  - destruct_and!; subst. destruct err as [e|]; simpl; split_and!; try done; [right; by eauto|].
    left. destruct (alloc_fresh [1]). split; set_solver.
  - destruct Hb as (-> & (-> & -> & ->) & Hpid). case_bool_decide as Hin; simpl; split_and!; try done.
    + destruct Hpid as [[? _]|(Hn & -> & _)]; [done|lia].
    + by destruct Hpid as [[_ ?]|(_ & _ & ?)].
  - destruct_and!; subst. by split_and!.
  - destruct_and!; subst. by split_and!.
  - done.
  - done.
Qed.
Lemma step_inv s s' : step s s' -> tinv s -> tinv s'.
Proof.
  intros Hst Hi. destruct Hst as [err Ho He|n Ho Hw Hd|Ho Hr|Ho Hr|Ho Hr]; unfold tinv in Hi; rewrite Ho in Hi; [by apply boot_step_inv|..].
  all: destruct s as [b i ts ps kt ss kd fl oo]; unfold tinv, at_boot, early, kthreadd_ok, set_init, want_kthread in *; simpl in *; subst.
  - destruct b; simpl in *; destruct_and?; simplify_eq; done.
  - destruct kt as [k|]; simpl; destruct b; simpl in *; destruct_and?; simplify_eq; try done; try (split; [done|set_solver]).
    all: naive_solver.
  - destruct b; simpl in *; destruct_and?; simplify_eq; try done.
    all: naive_solver.
  - destruct b; simpl in *; destruct_and?; simplify_eq; try done.
    all: naive_solver.
Qed.
Definition reachable (s : threads) : Prop := rtc step start s.
Lemma threads_inv s : reachable s -> tinv s.
Proof.
  intros Hr. assert (tinv start) as H0 by done. revert H0. unfold reachable in Hr.
  induction Hr as [s|s s1 s2 Hs _ IH]; [done|]. intros H. apply IH. by eapply step_inv.
Qed.


(** Statements until init starts user space. *)
Definition todo (s : threads) : nat :=
  match boot s with
  | StartInit => 13 | PinInit _ => 12 | StartKthreadd => 11 | FindKthreadd _ => 10 | Scheduling => 9 | Complete => 8
  | Schedule | Idle => 0
  end + match init s with Absent | Waits => 3 | Runs => 2 | Frees => 1 | Starts => 0 end.
Definition good (s : threads) : Prop := failed s = false /\ oops s = false /\ at_boot s.
Lemma progress s : good s -> init s <> Starts -> exists s', step s s' /\ good s' /\ (todo s' < todo s)%nat.
Proof.
  intros (Hf & Ho & Hb) Hi.
  assert (forall s', step s s' -> failed s' = false -> (todo s' < todo s)%nat -> exists s', step s s' /\ good s' /\ (todo s' < todo s)%nat) as Hgo.
  { intros s' Hst Hf' Ht. exists s'. split_and!; try done. pose proof (step_inv _ _ Hst) as H. unfold tinv in H. rewrite Ho in H.
    specialize (H Hb). unfold good. destruct (oops s'); [destruct H; congruence|done]. }
  assert (forall err, err = None -> (todo (boot_step err s) < todo s)%nat -> failed (boot_step err s) = false ->
    exists s', step s s' /\ good s' /\ (todo s' < todo s)%nat) as Hboot.
  { intros err -> Ht Hf'. eapply (Hgo (boot_step None s)); [by apply SBoot|done|done]. }
  destruct s as [b i ts ps kt ss kd fl oo]. unfold at_boot, early in Hb. simpl in *. subst.
  destruct b; destruct_and?; subst;
    try (apply (Hboot None); [done|..]; unfold todo, boot_step; simpl; repeat case_match; simpl; done || lia).
  all: try (match goal with H : _ \/ _ |- _ => destruct H as [(_ & _ & ->)|(_ & _ & _ & ?)] end; [|done];
            apply (Hboot None); [done|..]; unfold todo, boot_step; simpl; repeat case_match; simpl; done || lia).
  all: destruct i; destruct_and?; subst; try done.
  all: try (eapply Hgo; [by eapply SWait|done|unfold todo; simpl; lia]).
  all: try (eapply Hgo; [by eapply SFree|done|unfold todo; simpl; lia]).
  all: eapply Hgo; [by eapply SRun|done|unfold todo; simpl; lia].
Qed.

(** The hand-over cannot get stuck: as long as no thread could not be created,
    init gets to user space from every state the two threads can reach, in at
    most sixteen further statements besides the kernel threads it creates. *)
Theorem init_released s : reachable s -> failed s = false -> exists s' n, (n <= 16)%nat /\ nsteps step n s s' /\ init s' = Starts.
Proof.
  intros Hr Hf. assert (good s) as Hg.
  { apply threads_inv in Hr. unfold tinv in Hr. unfold good. destruct (oops s); [destruct Hr; congruence|done]. }
  clear Hr Hf. cut (exists s' n, (n <= todo s)%nat /\ nsteps step n s s' /\ init s' = Starts).
  { intros (s' & n & Hn & H). exists s', n. split; [|done]. assert (todo s <= 16)%nat by (unfold todo; repeat case_match; lia). lia. }
  remember (todo s) as k eqn:Ek. assert (todo s <= k)%nat as Hk by lia. clear Ek. revert s Hg Hk.
  induction k as [|k IH]; intros s Hs Hk; (destruct (decide (init s = Starts)) as [E|E]; [exists s, O; split_and!; [lia|constructor|done]|]);
    destruct (progress s Hs E) as (s1 & Hst & Hs1 & Ht); [lia|].
  destruct (IH s1) as (s' & n & Hn & H & Hi); [done|lia|]. exists s', (S n). split_and!; [lia|by econstructor|done].
Qed.

(** The results of creating the two threads are not checked: without init the
    next statement follows NULL, without kthreadd the first kernel thread does. *)
Theorem init_fork_failure e : e < 0 -> exists s, reachable s /\ oops s = true.
Proof.
  intros He. exists (boot_step None (boot_step (Some e) start)). split; [|done].
  eapply rtc_l; [apply (SBoot _ (Some e)); [done|by intros ? [= <-]]|]. by apply rtc_once, SBoot.
Qed.
End threads.

#[local] Instance threads0 : FirstThreads.
Proof.
  refine {| alloc_pid ts := 1 + foldr Z.max 0 ts; kthread_created ts := (1 + foldr Z.max 0 ts) :: ts |}; [done|].
  intros ts. assert (0 <= foldr Z.max 0 ts) by (induction ts; simpl in *; lia).
  assert (forall t, t ∈ ts -> t <= foldr Z.max 0 ts) as Hle.
  { clear. induction ts as [|x ts IH]; intros t; [set_solver|]. simpl. rewrite elem_of_cons. intros [->|?%IH]; lia. }
  split; [|lia]. intros ?%Hle. lia.
Defined.
(** Init waits on, has been woken and asks for a kernel thread. *)
Definition woken : threads :=
  want_kthread (set_init Runs SYSTEM_SCHEDULING 0 (Nat.iter 6 (boot_step None) start)).
Lemma woken_reachable : reachable woken.
Proof.
  do 6 (eapply rtc_l; [by apply (SBoot _ None)|]). eapply rtc_l; [by apply (SWait _ 0)|]. by apply rtc_once, SKthread.
Qed.
Lemma init_released_witness : exists s' n, (n <= 16)%nat /\ nsteps step n start s' /\ init s' = Starts.
Proof. apply (init_released start); [constructor|reflexivity]. Defined.
Lemma init_fork_failure_witness : exists s, reachable s /\ oops s = true.
Proof. apply (init_fork_failure (- ENOMEM)). lia. Defined.
End Threads.

(** ** Examples *)
Module Demo.
Definition line0 : list Z := bytes_of "quiet FOO=1 single -- late".
#[local] Instance benv0 : BootEnv := {|
  xbc_calc_checksum _ := 0; xbc_get_embedded_bootconfig := None; xbc_init _ := 0; xbc_find_node _ _ := None;
  memblock_alloc _ := true; CONFIG_BOOT_CONFIG_FORCE := false;
  parse_args l :=
    if bool_decide (l = line0) then
      Parsed [(bytes_of "quiet", None); (bytes_of "FOO", Some (bytes_of "1")); (bytes_of "single", None)] (AfterDashes 22)
    else if bool_decide (l = bytes_of "late") then Parsed [(bytes_of "late", None)] ParsedAll
    else Parsed [] ParsedAll |}.
#[local] Instance penv0 : ParamEnv unit := {|
  MAX_INIT_ARGS := 32; MAX_INIT_ENVS := 32;
  parameqn a b n := bool_decide (take n a = take n b); parameq a b := bool_decide (a = b);
  sysctl_is_alias _ := false; setup_table := [ObsParam (bytes_of "quiet") true (Some quiet_kernel)];
  get_option _ := None; kstrtobool _ := inl (- EINVAL); arch_parse_debug_rodata _ := false |}.
#[local] Instance ienv0 : InitEnv unit := {|
  initcalls := [100; 101; 102]; initcall_levels := [1; 1; 2; 2; 2; 2; 2; 2; 3]%nat;
  sprint_symbol_no_offset fn := bytes_of "some" ++ [0];
  subsystem _ c := c; initcall_fn fn c := (0, c);
  parse_level _ b w := (b, w); kzalloc _ := true;
  kernel_execve f _ _ w := if bool_decide (f = bytes_of "/sbin/init") then (0, w) else (- ENOENT, w);
  init_eaccess _ _ := - ENOENT; filp_open_console _ := true; CONFIG_DEFAULT_INIT := [] |}.
#[local] Instance senv0 : StartEnv unit := {|
  setup_arch_lines _ := (line0, line0); arch_parses_early := true; initrd_area := (∅, 0, 0);
  kernel_param _ := None; initrd_overwritten _ := false; late_time_init := true; efi_runtime_services := false; initcall_debug := false |}.
Lemma laws0 : start_laws.
Proof.
  split.
  - repeat constructor; simpl in *; simplify_eq; auto.
  - intros []. split_and!; [apply (bool_decide_unpack _); vm_compute; done..|done].
  - intros l o. simpl. case_bool_decide; [|by case_bool_decide]. intros [= <-]. subst. vm_compute. split; discriminate.
  - done.
Qed.
Definition args0 : bargs unit := BArgs argv_start envp_start None None None (Some (bytes_of "/init")) 7 0 true false false [] ().
Definition s0 : mach unit := Mach args0 false 0 false SYSTEM_BOOTING [] 0 [] 0 0 None [].
Lemma args0_ok : args_ok (m_args s0).
Proof. split; try (by vm_compute). exists (bytes_of "init"). by vm_compute. Qed.
Definition s1 : mach unit := (start_kernel s0).2.
Lemma started : start_kernel s0 = (Val tt, s1).
Proof. vm_compute. reflexivity. Qed.
Lemma start_kernel_sound_witness : args_ok (m_args s1) /\ panic_later (m_args s1) = None /\ lines_ok s1.
Proof. exact (start_kernel_sound laws0 s0 (Val tt) s1 args0_ok started). Defined.
Lemma boot_tables0 : tables_ok.
Proof.
  split_and!; [simpl; lia|done|]. intros i a b. do 9 (destruct i as [|i]; [by intros [= <-] [= <-]; simpl; lia|]). done.
Qed.
(** The command line becomes the arguments of /sbin/init. *)
Lemma boot0 : exists s', kernel_init s1 = (Val 0, s') /\
  execs (m_log s') = [Exec (bytes_of "/sbin/init") [bytes_of "/sbin/init"; bytes_of "single"; bytes_of "late"]
                        [bytes_of "HOME=/"; bytes_of "TERM=linux"; bytes_of "FOO=1"] 0] /\
  console_loglevel (m_args s') = CONSOLE_LOGLEVEL_QUIET.
Proof. eexists. vm_compute. done. Qed.
End Demo.
