(* ===== verification/Areas.v ===== *)
(** * The objects behind memory areas

    fork.c 433-533: allocation, duplication and release of [vm_area_struct]
    objects with what hangs on them (the lock of CONFIG_PER_VMA_LOCK, the shared
    name of an anonymous area, the state of NUMA balancing).  With per-area
    locks a page fault looks an area up inside an RCU read section and without
    the lock of the address space, so [vm_area_free] leaves the release to an
    RCU callback; page faults and callbacks are interleaved steps here. *)
From S2P Require Import Prelude.
From stdpp Require Import gmap sets.
#[local] Open Scope Z_scope.

Record area := Area { vm_lock : option Z; numab_state : option Z; anon_name : option Z }.

Record vstate := VState {
  live : gmap Z area;                    (** objects of [vm_area_cachep] in use *)
  locks : gset Z;                        (** objects of [vma_lock_cachep] in use *)
  numabs : gset Z;                       (** objects of NUMA state in use *)
  name_refs : Z -> Z;                    (** references to each shared name *)
  queued : gmap Z (gset Z);              (** areas given to [call_rcu], with the readers to wait for *)
  readers : gmap Z (option Z);           (** RCU read sections, with the area each one uses *)
  broken : bool;                         (** an object was freed that was not in use *)
}.
Definition set_live m s := VState m (locks s) (numabs s) (name_refs s) (queued s) (readers s) (broken s).
Definition set_locks l s := VState (live s) l (numabs s) (name_refs s) (queued s) (readers s) (broken s).
Definition set_numabs x s := VState (live s) (locks s) x (name_refs s) (queued s) (readers s) (broken s).
Definition set_names n s := VState (live s) (locks s) (numabs s) n (queued s) (readers s) (broken s).
Definition set_queued q s := VState (live s) (locks s) (numabs s) (name_refs s) q (readers s) (broken s).
Definition set_readers r s := VState (live s) (locks s) (numabs s) (name_refs s) (queued s) r (broken s).
Definition break_if (b : bool) s := VState (live s) (locks s) (numabs s) (name_refs s) (queued s) (readers s) (broken s || b).

(** [kmem_cache_alloc] of the two caches, and [kzalloc] of the state of NUMA
    balancing. *)
Class Slab := { slab_area : vstate -> option Z; slab_lock : vstate -> option Z; kzalloc_numab : vstate -> option Z }.
Class SlabLaws `{Slab} := {
  slab_area_fresh s v : slab_area s = Some v -> live s !! v = None;
  slab_lock_fresh s l : slab_lock s = Some l -> l ∉ locks s;
  kzalloc_numab_fresh s x : kzalloc_numab s = Some x -> x ∉ numabs s;
}.

Section areas.
Context {slab : Slab} (per_vma_lock : bool).
Implicit Types s : vstate.

Definition add_ref (n : option Z) (d : Z) (refs : Z -> Z) : Z -> Z :=
  fun m => if bool_decide (n = Some m) then refs m + d else refs m.

(** [vma->vm_lock = kmem_cache_alloc(..)]; the field exists with per-area locks only. *)
Definition vma_lock_alloc (vma : Z) s : bool * vstate :=
  if per_vma_lock then
    match slab_lock s with
    | None => (false, set_live (alter (fun a => Area None (numab_state a) (anon_name a)) vma (live s)) s)
    | Some l => (true, set_locks ({[l]} ∪ locks s)
                         (set_live (alter (fun a => Area (Some l) (numab_state a) (anon_name a)) vma (live s)) s))
    end
  else (true, s).
Definition vma_lock_free (a : area) s : vstate :=
  if per_vma_lock then
    match vm_lock a with
    | Some l => break_if (negb (bool_decide (l ∈ locks s))) (set_locks (locks s ∖ {[l]}) s)
    | None => break_if true s
    end
  else s.
(** [vma_numab_state_init]: [vma->numab_state = NULL] *)
Definition vma_numab_state_init (vma : Z) s : vstate :=
  set_live (alter (fun a => Area (vm_lock a) None (anon_name a)) vma (live s)) s.
(** [vma_numab_state_free]: [kfree(vma->numab_state)], nothing for NULL *)
Definition vma_numab_state_free (a : area) s : vstate :=
  match numab_state a with
  | Some x => break_if (negb (bool_decide (x ∈ numabs s))) (set_numabs (numabs s ∖ {[x]}) s)
  | None => s
  end.
(** [kmem_cache_free(vm_area_cachep, vma)] *)
Definition area_object_free (vma : Z) s : vstate :=
  break_if (bool_decide (live s !! vma = None)) (set_live (delete vma (live s)) s).

Definition vm_area_alloc s : option Z * vstate :=
  match slab_area s with
  | None => (None, s)
  | Some vma =>
      let '(ok, s) := vma_lock_alloc vma (set_live (<[vma := Area None None None]> (live s)) s) in
      if negb ok then (None, area_object_free vma s) else (Some vma, s)
  end.

(** [memcpy(new, orig, ..)], then a lock of its own, no NUMA state, one more
    reference to the name. *)
Definition vm_area_dup (orig : area) s : option Z * vstate :=
  match slab_area s with
  | None => (None, s)
  | Some new =>
      let '(ok, s) := vma_lock_alloc new (set_live (<[new := orig]> (live s)) s) in
      if negb ok then (None, area_object_free new s)
      else
        let s := vma_numab_state_init new s in
        (Some new, set_names (add_ref (anon_name orig) 1 (name_refs s)) s)
  end.

Definition __vm_area_free (vma : Z) s : vstate :=
  match live s !! vma with
  | None => break_if true s
  | Some a =>
      let s := vma_numab_state_free a s in
      let s := set_names (add_ref (anon_name a) (-1) (name_refs s)) s in
      area_object_free vma (vma_lock_free a s)
  end.

(** [call_rcu(&vma->vm_rcu, vm_area_free_rcu_cb)]: the callback waits for the read
    sections that have begun. *)
Definition vm_area_free (vma : Z) s : vstate :=
  if per_vma_lock then set_queued (<[vma := dom (readers s)]> (queued s)) s
  else __vm_area_free vma s.
Definition vm_area_free_rcu_cb (vma : Z) s : vstate := __vm_area_free vma (set_queued (delete vma (queued s)) s).

(** ** Steps *)

(** An area that is part of an address space: nothing was done to free it. *)
Definition linked (vma : Z) s : Prop := is_Some (live s !! vma) /\ queued s !! vma = None.

Inductive step : vstate -> vstate -> Prop :=
| step_alloc s : step s (vm_area_alloc s).2
| step_dup vma a s : live s !! vma = Some a -> queued s !! vma = None -> step s (vm_area_dup a s).2
| step_free vma s : linked vma s -> step s (vm_area_free vma s)
| step_name vma a n s : live s !! vma = Some a -> queued s !! vma = None ->      (* prctl(PR_SET_VMA_ANON_NAME) *)
    step s (set_names (add_ref n 1 (add_ref (anon_name a) (-1) (name_refs s)))
             (set_live (<[vma := Area (vm_lock a) (numab_state a) n]> (live s)) s))
| step_numab vma a x s : live s !! vma = Some a -> queued s !! vma = None ->     (* the scan of NUMA balancing *)
    numab_state a = None -> kzalloc_numab s = Some x ->
    step s (set_numabs ({[x]} ∪ numabs s) (set_live (<[vma := Area (vm_lock a) (Some x) (anon_name a)]> (live s)) s))
| step_enter r s : readers s !! r = None -> step s (set_readers (<[r := None]> (readers s)) s)
| step_look r o vma s : per_vma_lock = true -> readers s !! r = Some o -> linked vma s ->
    step s (set_readers (<[r := Some vma]> (readers s)) s)
| step_leave r s : step s (set_readers (delete r (readers s)) (set_queued ((fun w => w ∖ {[r]}) <$> queued s) s))
| step_callback vma s : queued s !! vma = Some ∅ -> step s (vm_area_free_rcu_cb vma s).

Inductive reachable : vstate -> Prop :=
| reach_start : reachable (VState ∅ ∅ ∅ (fun _ => 0) ∅ ∅ false)
| reach_step s s' : reachable s -> step s s' -> reachable s'.
End areas.

(** ** Properties *)
Section properties.
Context {slab : Slab} {sl : SlabLaws} (per_vma_lock : bool).
Implicit Types s : vstate.

(** How many areas share a name *)
Definition sharers (n : Z) (m : gmap Z area) : Z := Z.of_nat (size (filter (fun kv => anon_name kv.2 = Some n) m)).

Record ok s : Prop := {
  ok_lock v a : live s !! v = Some a ->
    if per_vma_lock then exists l, vm_lock a = Some l /\ l ∈ locks s else vm_lock a = None;
  ok_own v v' a a' l : live s !! v = Some a -> live s !! v' = Some a' -> vm_lock a = Some l -> vm_lock a' = Some l -> v = v';
  ok_used l : l ∈ locks s -> exists v a, live s !! v = Some a /\ vm_lock a = Some l;
  ok_numab v a x : live s !! v = Some a -> numab_state a = Some x -> x ∈ numabs s;
  ok_numab_own v v' a a' x : live s !! v = Some a -> live s !! v' = Some a' -> numab_state a = Some x ->
    numab_state a' = Some x -> v = v';
  ok_numab_used x : x ∈ numabs s -> exists v a, live s !! v = Some a /\ numab_state a = Some x;
  ok_names n : name_refs s n = sharers n (live s);
  ok_queued v w : queued s !! v = Some w -> per_vma_lock = true /\ is_Some (live s !! v) /\ w ⊆ dom (readers s);
  ok_reader r v : readers s !! r = Some (Some v) ->
    per_vma_lock = true /\ is_Some (live s !! v) /\ forall w, queued s !! v = Some w -> r ∈ w;
  ok_sane : broken s = false;
}.

Lemma sharers_insert n m v a : m !! v = None ->
  sharers n (<[v := a]> m) = sharers n m + (if bool_decide (anon_name a = Some n) then 1 else 0).
Proof.
  intros Hv. unfold sharers. rewrite map_filter_insert. simpl. case_decide as Hd.
  - rewrite bool_decide_true by done. rewrite map_size_insert_None; [lia|]. apply map_lookup_filter_None. by left.
  - rewrite bool_decide_false by done. rewrite delete_id by done. lia.
Qed.
Lemma sharers_delete n m v a : m !! v = Some a ->
  sharers n (delete v m) = sharers n m - (if bool_decide (anon_name a = Some n) then 1 else 0).
Proof.
  intros Hv. rewrite <- (insert_delete_id m v a) at 2 by done. rewrite sharers_insert by apply lookup_delete_eq. lia.
Qed.

(** *** One more area *)
Lemma ok_add s v a lk :
  ok s -> live s !! v = None -> numab_state a = None ->
  (if per_vma_lock then exists l, vm_lock a = Some l /\ l ∉ locks s /\ lk = {[l]} ∪ locks s else vm_lock a = None /\ lk = locks s) ->
  ok (VState (<[v := a]> (live s)) lk (numabs s) (add_ref (anon_name a) 1 (name_refs s)) (queued s) (readers s) (broken s)).
Proof.
  intros [Hl Ho Hu Hx Hxo Hxu Hn Hq Hr Hb] Hv Hnx Hlk.
  assert (Hsub : locks s ⊆ lk) by (destruct per_vma_lock; [destruct Hlk as (l & _ & _ & ->)|destruct Hlk as [_ ->]]; set_solver).
  assert (Hnew : forall l, vm_lock a = Some l -> l ∉ locks s /\ lk = {[l]} ∪ locks s).
  { intros l El. destruct per_vma_lock; [destruct Hlk as (l' & El' & ?); naive_solver|naive_solver]. }
  split; simpl.
  - intros v' a' [[<- <-]|[_ Ha]]%lookup_insert_Some.
    + destruct per_vma_lock; [destruct Hlk as (l & ? & _ & ->); exists l; set_solver|naive_solver].
    + specialize (Hl _ _ Ha). destruct per_vma_lock; [destruct Hl as (l & ? & ?); exists l; set_solver|done].
  - assert (Hold : forall v' a' l, live s !! v' = Some a' -> vm_lock a' = Some l -> l ∈ locks s).
    { intros v' a' l Ha El. specialize (Hl _ _ Ha). destruct per_vma_lock; [naive_solver|congruence]. }
    intros v1 v2 a1 a2 l [[<- <-]|[? H1]]%lookup_insert_Some [[<- <-]|[? H2]]%lookup_insert_Some E1 E2; [done| | |by eapply Ho].
    + destruct (Hnew l E1) as [Hfr _]. by destruct Hfr; eapply Hold.
    + destruct (Hnew l E2) as [Hfr _]. by destruct Hfr; eapply Hold.
  - intros l Hin. assert (vm_lock a = Some l \/ l ∈ locks s) as [El|Hin'].
    { destruct per_vma_lock; [destruct Hlk as (l' & ? & _ & ->); set_solver|destruct Hlk as [_ ->]; set_solver]. }
    + exists v, a. by rewrite lookup_insert_eq.
    + destruct (Hu l Hin') as (v' & a' & ? & ?). exists v', a'. rewrite lookup_insert_ne by congruence. done.
  - intros v' a' x [[<- <-]|[_ Ha]]%lookup_insert_Some; [congruence|eauto].
  - intros v1 v2 a1 a2 x [[<- <-]|[? H1]]%lookup_insert_Some [[<- <-]|[? H2]]%lookup_insert_Some; [done|congruence..|eauto].
  - intros x (v' & a' & ? & ?)%Hxu. exists v', a'. rewrite lookup_insert_ne by congruence. done.
  - intros n. rewrite sharers_insert by done. unfold add_ref. rewrite Hn. repeat case_bool_decide; congruence || lia.
  - intros v' w Hw. destruct (Hq _ _ Hw) as (? & [a' Ha'] & ?). split_and!; [done| |done].
    rewrite lookup_insert_ne by congruence. eauto.
  - intros r v' Hrv. destruct (Hr _ _ Hrv) as (? & [a' Ha'] & ?). split_and!; [done| |done].
    rewrite lookup_insert_ne by congruence. eauto.
  - done.
Qed.

(** *** One area less *)
Lemma ok_remove s v a :
  ok s -> live s !! v = Some a -> queued s !! v = None -> (forall r, readers s !! r <> Some (Some v)) ->
  ok (__vm_area_free per_vma_lock v s).
Proof.
  intros [Hl Ho Hu Hx Hxo Hxu Hn Hq Hr Hb] Hv Hqv Hrv. unfold __vm_area_free. rewrite Hv.
  assert (exists xs, vma_numab_state_free a s = set_numabs xs s /\ forall x, x ∈ xs <-> x ∈ numabs s /\ numab_state a <> Some x)
    as (xs & -> & Hxs).
  { unfold vma_numab_state_free. destruct (numab_state a) as [x|] eqn:Ex.
    - exists (numabs s ∖ {[x]}). split; [|set_solver]. unfold break_if, set_numabs. simpl.
      by rewrite bool_decide_true, orb_false_r by eauto.
    - exists (numabs s). split; [by destruct s|]. naive_solver. }
  unfold area_object_free, vma_lock_free. pose proof (Hl v a Hv) as Hlv.
  set (s1 := set_names _ (set_numabs xs s)).
  assert (exists lk, (if per_vma_lock then match vm_lock a with
                     | Some l => break_if (negb (bool_decide (l ∈ locks s1))) (set_locks (locks s1 ∖ {[l]}) s1)
                     | None => break_if true s1 end else s1) = set_locks lk s1 /\
            forall l, l ∈ lk <-> l ∈ locks s /\ vm_lock a <> Some l) as (lk & -> & Hlk).
  { destruct per_vma_lock.
    - destruct Hlv as (l & -> & Hin). exists (locks s ∖ {[l]}). split.
      + unfold break_if, set_locks, s1. simpl. by rewrite bool_decide_true, orb_false_r by done.
      + intros l'. rewrite elem_of_difference, elem_of_singleton. naive_solver.
    - exists (locks s). split; [done|]. intros l. rewrite Hlv. naive_solver. }
  unfold break_if, set_live, set_locks, s1. simpl. rewrite bool_decide_false by (by rewrite Hv). rewrite orb_false_r.
  split; simpl.
  - intros v' a' [Hne Ha]%lookup_delete_Some. specialize (Hl _ _ Ha). destruct per_vma_lock; [|done].
    destruct Hl as (l & El & Hin). exists l. split; [done|]. apply Hlk. split; [done|]. intros El'. apply Hne. by eapply Ho.
  - intros v1 v2 a1 a2 l [_ H1]%lookup_delete_Some [_ H2]%lookup_delete_Some. by eapply Ho.
  - intros l [Hin Hne]%Hlk. destruct (Hu l Hin) as (v' & a' & Ha & El). exists v', a'.
    rewrite lookup_delete_ne by congruence. done.
  - intros v' a' x [Hne Ha]%lookup_delete_Some Ex. apply Hxs. split; [by eauto|]. intros Ex'. apply Hne. eauto.
  - intros v1 v2 a1 a2 x [_ H1]%lookup_delete_Some [_ H2]%lookup_delete_Some. eauto.
  - intros x [Hin Hne]%Hxs. destruct (Hxu x Hin) as (v' & a' & Ha & Ex). exists v', a'.
    rewrite lookup_delete_ne by congruence. done.
  - intros n. rewrite (sharers_delete n _ v a) by done. unfold add_ref. rewrite Hn. repeat case_bool_decide; congruence || lia.
  - intros v' w Hw. destruct (Hq _ _ Hw) as (? & ? & ?). split_and!; [done| |done]. rewrite lookup_delete_ne by congruence. done.
  - intros r v' Hr'. destruct (Hr _ _ Hr') as (? & ? & ?). split_and!; [done| |done].
    rewrite lookup_delete_ne; [done|]. intros ->. by eapply Hrv.
  - done.
Qed.

(** *** Allocation *)
Lemma vstate_eta s : VState (live s) (locks s) (numabs s) (name_refs s) (queued s) (readers s) (broken s) = s.
Proof. by destruct s. Qed.

(** What both ways to a new area start with: the object and its lock, or the state
    as it was. *)
Lemma new_area_cases v base s : slab_area s = Some v ->
  match vma_lock_alloc per_vma_lock v (set_live (<[v := base]> (live s)) s) with
  | (false, s1) => area_object_free v s1 = s
  | (true, s1) => exists a lk, s1 = VState (<[v := a]> (live s)) lk (numabs s) (name_refs s) (queued s) (readers s) (broken s) /\
      numab_state a = numab_state base /\ anon_name a = anon_name base /\
      if per_vma_lock then exists l, vm_lock a = Some l /\ l ∉ locks s /\ lk = {[l]} ∪ locks s
      else vm_lock a = vm_lock base /\ lk = locks s
  end.
Proof.
  intros Hv%slab_area_fresh. unfold vma_lock_alloc. destruct per_vma_lock.
  - set (s0 := set_live _ s). pose proof (slab_lock_fresh s0) as Hf. destruct (slab_lock s0) as [l|]; simpl.
    + specialize (Hf l eq_refl). eexists _, _. split; [by rewrite alter_insert_eq|]. simpl. split_and!; [done..|]. by eexists.
    + unfold area_object_free, break_if, set_live. simpl. rewrite alter_insert_eq, lookup_insert_eq, bool_decide_false by done.
      rewrite orb_false_r, delete_insert_id by done. apply vstate_eta.
  - by do 2 eexists.
Qed.

Lemma ok_alloc s : ok s -> ok (vm_area_alloc per_vma_lock s).2.
Proof.
  intros Hok. unfold vm_area_alloc. destruct (slab_area s) as [v|] eqn:Ev; [|done].
  pose proof (new_area_cases v (Area None None None) s Ev) as Hc.
  destruct (vma_lock_alloc _ _ _) as [[] s1]; simpl; [|by rewrite Hc].
  destruct Hc as (a & lk & -> & Hx & Hn & Hlk). simpl in Hn. apply slab_area_fresh in Ev.
  pose proof (ok_add s v a lk Hok Ev Hx) as H. rewrite Hn in H. apply H. by destruct per_vma_lock.
Qed.

Lemma ok_dup s v0 a0 : ok s -> live s !! v0 = Some a0 -> ok (vm_area_dup per_vma_lock a0 s).2.
Proof.
  intros Hok H0. unfold vm_area_dup. destruct (slab_area s) as [v|] eqn:Ev; [|done].
  pose proof (new_area_cases v a0 s Ev) as Hc.
  destruct (vma_lock_alloc _ _ _) as [[] s1]; simpl; [|by rewrite Hc].
  destruct Hc as (a & lk & -> & _ & Hn & Hlk). apply slab_area_fresh in Ev.
  unfold vma_numab_state_init, set_live, set_names. simpl. rewrite alter_insert_eq, <- Hn.
  apply (ok_add s v (Area (vm_lock a) None (anon_name a)) lk Hok Ev eq_refl). simpl.
  pose proof (ok_lock _ Hok _ _ H0). destruct per_vma_lock; [done|]. destruct Hlk as [-> ->]. done.
Qed.

(** *** NUMA state of an area *)
Lemma ok_numab_step s v a x : ok s -> live s !! v = Some a -> numab_state a = None -> kzalloc_numab s = Some x ->
  ok (set_numabs ({[x]} ∪ numabs s) (set_live (<[v := Area (vm_lock a) (Some x) (anon_name a)]> (live s)) s)).
Proof.
  intros [Hl Ho Hu Hx Hxo Hxu Hn Hq Hr Hb] Ha Hnx Hk%kzalloc_numab_fresh.
  assert (forall v' a', <[v := Area (vm_lock a) (Some x) (anon_name a)]> (live s) !! v' = Some a' ->
    exists b, live s !! v' = Some b /\ vm_lock b = vm_lock a' /\ (v' = v /\ numab_state a' = Some x \/ v' <> v /\ a' = b)) as Hsame.
  { intros v' a' [[<- <-]|[? ?]]%lookup_insert_Some; eauto 10. }
  split; simpl.
  - intros v' a' (b & Hb' & <- & _)%Hsame. by apply (Hl v').
  - intros v1 v2 a1 a2 l (b1 & ? & <- & _)%Hsame (b2 & ? & <- & _)%Hsame. eauto.
  - intros l Hin. destruct (Hu l Hin) as (v' & a' & Ha' & El). destruct (decide (v' = v)) as [->|].
    + eexists v, _. rewrite lookup_insert_eq. split; [done|]. simpl. congruence.
    + exists v', a'. by rewrite lookup_insert_ne.
  - intros v' a' y (b & Hb' & _ & [[_ E]|[_ ->]])%Hsame Ey; [set_solver|]. apply elem_of_union_r. eauto.
  - intros v1 v2 a1 a2 y (b1 & H1 & _ & [[-> E1]|[N1 ->]])%Hsame (b2 & H2 & _ & [[-> E2]|[N2 ->]])%Hsame Y1 Y2; [done| | |by eauto].
    + destruct Hk. assert (x = y) as -> by congruence. eauto.
    + destruct Hk. assert (x = y) as -> by congruence. eauto.
  - intros y [->%elem_of_singleton|Hin]%elem_of_union; [eexists v, _; by rewrite lookup_insert_eq|].
    destruct (Hxu y Hin) as (v' & a' & ? & ?). exists v', a'. rewrite lookup_insert_ne by congruence. done.
  - intros m. rewrite <- insert_delete_eq, sharers_insert by apply lookup_delete_eq. rewrite (sharers_delete m _ v a) by done.
    simpl. rewrite Hn. repeat case_bool_decide; lia || congruence.
  - intros v' w Hw. destruct (Hq _ _ Hw) as (? & ? & ?). split_and!; [done| |done]. by apply lookup_insert_is_Some'; right.
  - intros r v' Hrv. destruct (Hr _ _ Hrv) as (? & ? & ?). split_and!; [done| |done]. by apply lookup_insert_is_Some'; right.
  - done.
Qed.

(** *** Every step *)
Lemma ok_step s s' : ok s -> step per_vma_lock s s' -> ok s'.
Proof.
  intros Hok Hs. destruct Hs as [s|v a s Ha Hqv|v s [[a Ha] Hqv]|v a n s Ha Hqv|v a x s Ha Hqv Hnx Hk|r s Hr|r o v s Hp Hr [[a Ha] Hqv]|r s|v s Hw].
  - by apply ok_alloc.
  - by eapply ok_dup.
  - unfold vm_area_free. destruct per_vma_lock eqn:Hp at 1.
    + destruct Hok as [Hl Ho Hu Hx Hxo Hxu Hn Hq Hr Hb]. split; simpl; [done..| | |done].
      * intros v' w [[<- <-]|[_ Hw]]%lookup_insert_Some; [by eauto|eauto].
      * intros r v' Hrv. destruct (Hr _ _ Hrv) as (_ & ? & Hin). split_and!; [done..|].
        intros w [[<- <-]|[_ Hw]]%lookup_insert_Some; [by apply elem_of_dom_2 in Hrv|eauto].
    + eapply ok_remove; [done|done|done|]. intros r Hr. destruct (ok_reader _ Hok _ _ Hr). congruence.
  - destruct Hok as [Hl Ho Hu Hx Hxo Hxu Hn Hq Hr Hb].
    assert (forall v' a', <[v := Area (vm_lock a) (numab_state a) n]> (live s) !! v' = Some a' ->
      exists b, live s !! v' = Some b /\ vm_lock b = vm_lock a' /\ numab_state b = numab_state a') as Hsame.
    { intros v' a' [[<- <-]|[_ ?]]%lookup_insert_Some; eauto. }
    split; simpl.
    + intros v' a' (b & Hb' & <- & _)%Hsame. by apply (Hl v').
    + intros v1 v2 a1 a2 l (b1 & ? & <- & _)%Hsame (b2 & ? & <- & _)%Hsame. eauto.
    + intros l Hin. destruct (Hu l Hin) as (v' & a' & Ha' & El). destruct (decide (v' = v)) as [->|].
      * eexists v, _. rewrite lookup_insert_eq. split; [done|]. simpl. congruence.
      * exists v', a'. by rewrite lookup_insert_ne.
    + intros v' a' x (b & Hb' & _ & <-)%Hsame. eauto.
    + intros v1 v2 a1 a2 x (b1 & ? & _ & <-)%Hsame (b2 & ? & _ & <-)%Hsame. eauto.
    + intros x (v' & a' & Ha' & Ex)%Hxu. destruct (decide (v' = v)) as [->|].
      * eexists v, _. rewrite lookup_insert_eq. split; [done|]. simpl. congruence.
      * exists v', a'. by rewrite lookup_insert_ne.
    + intros m. rewrite <- insert_delete_eq, sharers_insert by apply lookup_delete_eq. rewrite (sharers_delete m _ v a) by done.
      simpl. unfold add_ref. rewrite Hn. repeat case_bool_decide; lia || congruence.
    + intros v' w Hw. destruct (Hq _ _ Hw) as (? & ? & ?). split_and!; [done| |done]. by apply lookup_insert_is_Some'; right.
    + intros r v' Hrv. destruct (Hr _ _ Hrv) as (? & ? & ?). split_and!; [done| |done]. by apply lookup_insert_is_Some'; right.
    + done.
  - by eapply ok_numab_step.
  - destruct Hok as [Hl Ho Hu Hx Hxo Hxu Hn Hq Hrd Hb]. split; simpl; [done..| | |done].
    + intros v w Hw. destruct (Hq _ _ Hw) as (? & ? & ?). split_and!; [done..|]. rewrite dom_insert. set_solver.
    + intros r' v [[<- [=]]|[_ ?]]%lookup_insert_Some. eauto.
  - destruct Hok as [Hl Ho Hu Hx Hxo Hxu Hn Hq Hrd Hb]. split; simpl; [done..| | |done].
    + intros v' w Hw. destruct (Hq _ _ Hw) as (? & ? & ?). split_and!; [done..|]. rewrite dom_insert. set_solver.
    + intros r' v' [[<- [= <-]]|[_ ?]]%lookup_insert_Some; [|eauto]. split_and!; [done|by eauto|]. intros w ?. congruence.
  - destruct Hok as [Hl Ho Hu Hx Hxo Hxu Hn Hq Hrd Hb]. split; simpl; [done..| | |done].
    + intros v w. rewrite lookup_fmap_Some. intros (w0 & <- & Hw). destruct (Hq _ _ Hw) as (? & ? & ?).
      split_and!; [done..|]. rewrite dom_delete. set_solver.
    + intros r' v [Hne Hrv]%lookup_delete_Some. destruct (Hrd _ _ Hrv) as (? & ? & Hin). split_and!; [done..|].
      intros w. rewrite lookup_fmap_Some. intros (w0 & <- & Hw). specialize (Hin _ Hw). set_solver.
  - destruct (ok_queued _ Hok _ _ Hw) as (Hp & [a Ha] & _).
    assert (forall r, readers s !! r <> Some (Some v)) as Hnr.
    { intros r Hr. destruct (ok_reader _ Hok _ _ Hr) as (_ & _ & Hin). specialize (Hin _ Hw). set_solver. }
    unfold vm_area_free_rcu_cb. apply (ok_remove _ v a); simpl; [|done|apply lookup_delete_eq|done].
    destruct Hok as [Hl Ho Hu Hx Hxo Hxu Hn Hq Hrd Hb]. split; simpl; [done..| | |done].
    + intros v' w [_ ?]%lookup_delete_Some. eauto.
    + intros r v' Hrv. destruct (Hrd _ _ Hrv) as (? & ? & Hin). split_and!; [done..|]. intros w [_ ?]%lookup_delete_Some. eauto.
Qed.

Lemma ok_reachable s : reachable per_vma_lock s -> ok s.
Proof.
  induction 1 as [|s s' _ IH Hs]; [|by eapply ok_step].
  split; simpl; try set_solver; intros *; rewrite ?lookup_empty; try done.
Qed.

(** C33: however allocations, forks, unmappings, renamings, NUMA balancing, page
    faults and RCU callbacks interleave, no object of an area (the area, its
    lock, its NUMA state) is freed twice; an area that a page fault is using is
    in use together with its lock; the locks in use are exactly those of the
    areas in use, and so are the NUMA states, each of one area only; and a
    shared name has as many references as areas that carry it, so that nothing
    is left when the last area is gone. *)
Theorem areas_released_exactly s : reachable per_vma_lock s ->
  broken s = false /\
  (forall r v, readers s !! r = Some (Some v) -> exists a l, live s !! v = Some a /\ vm_lock a = Some l /\ l ∈ locks s) /\
  (forall l, l ∈ locks s <-> exists v a, live s !! v = Some a /\ vm_lock a = Some l) /\
  (forall x, x ∈ numabs s <-> exists v a, live s !! v = Some a /\ numab_state a = Some x) /\
  (forall v v' a a', live s !! v = Some a -> live s !! v' = Some a' ->
     (is_Some (vm_lock a) /\ vm_lock a = vm_lock a') \/ (is_Some (numab_state a) /\ numab_state a = numab_state a') -> v = v') /\
  (forall n, name_refs s n = sharers n (live s)) /\
  (live s = ∅ -> locks s = ∅ /\ numabs s = ∅ /\ queued s = ∅ /\ forall n, name_refs s n = 0).
Proof.
  intros Hs%ok_reachable. pose proof Hs as [Hl Ho Hu Hx Hxo Hxu Hn Hq Hr Hb]. split_and!; [done| | | | |done|].
  - intros r v Hrv. destruct (Hr _ _ Hrv) as (Hp & [a Ha] & _). specialize (Hl _ _ Ha). rewrite Hp in Hl. naive_solver.
  - intros l. split; [apply Hu|]. intros (v & a & Ha & El). specialize (Hl _ _ Ha). destruct per_vma_lock; [naive_solver|congruence].
  - intros x. split; [apply Hxu|]. intros (v & a & Ha & Ex). eauto.
  - intros v v' a a' Ha Ha' [[[l El] E]|[[x Ex] E]]; [by eapply Ho; [..|rewrite <- E]|by eapply Hxo; [..|rewrite <- E]].
  - intros He. split_and!.
    + apply set_eq. intros l. split; [|set_solver]. intros (v & a & Ha & _)%Hu. by rewrite He, lookup_empty in Ha.
    + apply set_eq. intros x. split; [|set_solver]. intros (v & a & Ha & _)%Hxu. by rewrite He, lookup_empty in Ha.
    + apply map_eq. intros v. rewrite lookup_empty. apply eq_None_not_Some. intros [w Hw].
      destruct (Hq _ _ Hw) as (_ & [a Ha] & _). by rewrite He, lookup_empty in Ha.
    + intros n. rewrite Hn, He. reflexivity.
Qed.
End properties.

(** ** Witness *)
Module Demo.
#[local] Instance slab0 : Slab := {|
  slab_area s := Some (fresh (dom (live s))); slab_lock s := Some (fresh (locks s)); kzalloc_numab s := Some (fresh (numabs s)) |}.
#[local] Instance slab0_laws : SlabLaws.
Proof.
  split; simpl.
  - intros s v [= <-]. apply not_elem_of_dom, is_fresh.
  - intros s l [= <-]. apply is_fresh.
  - intros s x [= <-]. apply is_fresh.
Qed.
Definition start : vstate := VState ∅ ∅ ∅ (fun _ => 0) ∅ ∅ false.
(** Area 0 gets a NUMA state and is copied to area 1; then it is found by a page
    fault and unmapped meanwhile: its callback waits. *)
Definition mapped : vstate := (vm_area_alloc true start).2.
Definition scanned : vstate :=
  set_numabs ({[0]} ∪ numabs mapped) (set_live (<[0 := Area (Some 0) (Some 0) None]> (live mapped)) mapped).
Definition forked : vstate := (vm_area_dup true (Area (Some 0) (Some 0) None) scanned).2.
Definition entered : vstate := set_readers (<[7 := None]> (readers forked)) forked.
Definition faulting : vstate := set_readers (<[7 := Some 0]> (readers entered)) entered.
Definition unmapped : vstate := vm_area_free true 0 faulting.
Lemma unmapped_reachable : reachable true unmapped.
Proof.
  eapply reach_step; [|apply (step_free true 0 faulting); split; [vm_compute; eauto|reflexivity]].
  eapply reach_step; [|apply (step_look true 7 None 0 entered); [reflexivity..|split; [vm_compute; eauto|reflexivity]]].
  eapply reach_step; [|apply (step_enter true 7 forked); reflexivity].
  eapply reach_step; [|apply (step_dup true 0 (Area (Some 0) (Some 0) None) scanned); reflexivity].
  eapply reach_step; [|apply (step_numab true 0 (Area (Some 0) None None) 0 mapped); reflexivity].
  eapply reach_step; [apply reach_start|apply (step_alloc true start)].
Qed.
Lemma areas_released_exactly_witness : queued unmapped !! 0 = Some {[7]} /\
  numab_state <$> live unmapped !! 1 = Some None /\
  (exists a l, live unmapped !! 0 = Some a /\ vm_lock a = Some l /\ l ∈ locks unmapped) /\
  (exists v a, live unmapped !! v = Some a /\ numab_state a = Some 0).
Proof.
  split; [vm_compute; reflexivity|]. split; [vm_compute; reflexivity|].
  destruct (areas_released_exactly true unmapped unmapped_reachable) as (_ & H & _ & H' & _).
  split; [apply (H 7 0); reflexivity|]. apply H'. vm_compute. reflexivity.
Defined.
End Demo.
