(* ===== verification/ForkInit.v ===== *)
(** * What fork.c sets up, and its smaller parts

    fork.c 1019-1099 and 3242-3303: the slab caches and the limits made at boot
    ([fork_init], [mm_cache_init], [proc_caches_init]); 344-411, kernel stacks
    without CONFIG_VMAP_STACK; 158-167, 818-840, 1209-1220, 1650-1660,
    1961-1978 and 2796-2804, the functions behind other files of this
    development that count, check and initialise.  Sizes and offsets of
    structures are parameters. *)
From S2P Require Import Prelude Task Rlimit Vfork Unshare.
#[local] Open Scope Z_scope.

(** ** Caches *)
Inductive slab_flag := SLAB_HWCACHE_ALIGN | SLAB_PANIC | SLAB_ACCOUNT | SLAB_TYPESAFE_BY_RCU.
#[export] Instance slab_flag_eq : EqDecision slab_flag.
Proof. solve_decision. Defined.

(** The arguments of [kmem_cache_create_usercopy]; [kmem_cache_create] has an
    empty window of bytes that may be copied to user space. *)
Record cache := Cache {
  c_name : string; c_size : Z; c_align : Z; c_flags : list slab_flag; c_useroffset : Z; c_usersize : Z; c_ctor : bool;
}.
Definition kmem_cache_create name size align flags ctor : cache := Cache name size align flags 0 0 ctor.

Class Layout := {
  sizeof_mm_struct : Z; cpumask_size : Z; mm_cid_size : Z; offset_saved_auxv : Z; sizeof_saved_auxv : Z;
  sizeof_sighand : Z; sizeof_signal : Z; sizeof_files : Z; sizeof_fs : Z; sizeof_vma : Z; sizeof_vma_lock : Z;
  align_vma : Z; align_vma_lock : Z;                             (** [KMEM_CACHE] uses [__alignof__] *)
  ARCH_MIN_MMSTRUCT_ALIGN : Z; ARCH_MIN_TASKALIGN : Z; L1_CACHE_BYTES : Z;
  arch_task_struct_size : Z; offset_thread : Z; arch_thread_struct_whitelist : Z * Z;   (** offset, size *)
  totalram_pages : Z;
}.

Section caches.
Context {lay : Layout}.

Definition task_struct_whitelist : Z * Z :=
  let '(offset, size) := arch_thread_struct_whitelist in
  if size =? 0 then (0, size) else (offset + offset_thread, size).

Definition mm_cache_init : cache :=
  let mm_size := sizeof_mm_struct + cpumask_size + mm_cid_size in
  Cache "mm_struct" mm_size ARCH_MIN_MMSTRUCT_ALIGN [SLAB_HWCACHE_ALIGN; SLAB_PANIC; SLAB_ACCOUNT]
    offset_saved_auxv sizeof_saved_auxv false.

Definition proc_caches_init (per_vma_lock : bool) : list cache :=
  [kmem_cache_create "sighand_cache" sizeof_sighand 0 [SLAB_HWCACHE_ALIGN; SLAB_PANIC; SLAB_TYPESAFE_BY_RCU; SLAB_ACCOUNT] true;
   kmem_cache_create "signal_cache" sizeof_signal 0 [SLAB_HWCACHE_ALIGN; SLAB_PANIC; SLAB_ACCOUNT] false;
   kmem_cache_create "files_cache" sizeof_files 0 [SLAB_HWCACHE_ALIGN; SLAB_PANIC; SLAB_ACCOUNT] false;
   kmem_cache_create "fs_cache" sizeof_fs 0 [SLAB_HWCACHE_ALIGN; SLAB_PANIC; SLAB_ACCOUNT] false;
   kmem_cache_create "vm_area_struct" sizeof_vma align_vma [SLAB_PANIC; SLAB_ACCOUNT] false] ++
  (if per_vma_lock then [kmem_cache_create "vma_lock" sizeof_vma_lock align_vma_lock [SLAB_PANIC; SLAB_ACCOUNT] false] else []).

Definition task_struct_cache : cache :=
  let align := Z.max L1_CACHE_BYTES ARCH_MIN_TASKALIGN in
  let '(useroffset, usersize) := task_struct_whitelist in
  Cache "task_struct" arch_task_struct_size align [SLAB_PANIC; SLAB_ACCOUNT] useroffset usersize false.

(** ** [fork_init] *)
Inductive ucount_rlimit := UCOUNT_RLIMIT_NPROC | UCOUNT_RLIMIT_MSGQUEUE | UCOUNT_RLIMIT_SIGPENDING | UCOUNT_RLIMIT_MEMLOCK.
Record finit := FInit {
  f_caches : list cache;
  f_max_threads : Z;
  init_rlim : list rlimit;                         (** [init_task.signal->rlim] *)
  ucount_max : list Z;                             (** of [init_user_ns] *)
  userns_rlimit_max : list (ucount_rlimit * Z);
  stack_cache_hotplug : bool;                      (** [free_vm_stack_cache] is called when a CPU goes *)
}.
Abbreviation RLIMIT_NPROC := 6%nat (only parsing).
Abbreviation RLIMIT_SIGPENDING := 11%nat (only parsing).
Abbreviation RLIM_INFINITY := 18446744073709551615 (only parsing).

Definition fork_init (vmap_stack : bool) (f : finit) : finit :=
  let max_threads := set_max_threads totalram_pages MAX_THREADS in
  let half := Rlimit (max_threads / 2) (max_threads / 2) in
  FInit (f_caches f ++ [task_struct_cache]) max_threads
    (<[RLIMIT_SIGPENDING := half]> (<[RLIMIT_NPROC := half]> (init_rlim f)))
    ((fun _ => max_threads / 2) <$> ucount_max f)
    (userns_rlimit_max f ++ [(UCOUNT_RLIMIT_NPROC, RLIM_INFINITY); (UCOUNT_RLIMIT_MSGQUEUE, RLIM_INFINITY);
                             (UCOUNT_RLIMIT_SIGPENDING, RLIM_INFINITY); (UCOUNT_RLIMIT_MEMLOCK, RLIM_INFINITY)])
    (stack_cache_hotplug f || vmap_stack).

(** *** What is made at boot *)

(** The architecture names a part of its thread structure, and structures contain
    their fields. *)
Class LayoutLaws := {
  auxv_inside : 0 <= offset_saved_auxv /\ 0 < sizeof_saved_auxv /\ offset_saved_auxv + sizeof_saved_auxv <= sizeof_mm_struct;
  cpus_nonneg : 0 <= cpumask_size /\ 0 <= mm_cid_size;
  thread_inside : 0 <= arch_thread_struct_whitelist.1 /\ 0 <= arch_thread_struct_whitelist.2 /\ 0 <= offset_thread /\
    0 <= arch_task_struct_size /\
    offset_thread + arch_thread_struct_whitelist.1 + arch_thread_struct_whitelist.2 <= arch_task_struct_size;
  sizes_pos : Forall (fun n => 0 < n) [sizeof_sighand; sizeof_signal; sizeof_files; sizeof_fs; sizeof_vma; sizeof_vma_lock];
  ram_u64 : is_u64 totalram_pages;
}.
(** What [kmem_cache_create_usercopy] asks of its window, and that failing is a panic
    and objects are charged to their user. *)
Definition cache_ok (c : cache) : Prop :=
  0 <= c_useroffset c /\ 0 <= c_usersize c /\ c_useroffset c + c_usersize c <= c_size c /\
  (c_usersize c = 0 -> c_useroffset c = 0) /\
  SLAB_PANIC ∈ c_flags c /\ SLAB_ACCOUNT ∈ c_flags c.
Definition rlim_ok (r : rlimit) : Prop := 0 <= rlim_cur r <= rlim_max r.

(** Every cache fork.c makes at boot panics when it cannot be made and is
    accounted, and the bytes of its objects that may be copied to user space
    lie inside the object; the first task may have half as many processes, and
    pending signals, as there may be threads, between ten and half the largest
    pid, all other limits stay as they were, and every count of the first user
    name space is bounded by the same number. *)
Theorem boot_caches_and_limits `{!LayoutLaws} per_vma_lock vmap f :
  length (init_rlim f) = 16%nat -> Forall cache_ok (f_caches f) ->
  let g := fork_init vmap f in
  Forall cache_ok (f_caches g ++ mm_cache_init :: proc_caches_init per_vma_lock) /\
  (exists half, 10 <= half <= 536870911 /\ half = f_max_threads g / 2 /\
    init_rlim g !! RLIMIT_NPROC = Some (Rlimit half half) /\ init_rlim g !! RLIMIT_SIGPENDING = Some (Rlimit half half) /\
    Forall (eq half) (ucount_max g)) /\
  (forall i, i <> RLIMIT_NPROC -> i <> RLIMIT_SIGPENDING -> init_rlim g !! i = init_rlim f !! i).
Proof.
  intros Hlen Hc g. destruct auxv_inside as (? & ? & ?), cpus_nonneg, thread_inside as (? & ? & ? & ? & ?).
  pose proof sizes_pos as Hs. rewrite !Forall_cons in Hs. destruct Hs as (? & ? & ? & ? & ? & ? & _).
  split_and!.
  - apply Forall_app. split; [apply Forall_app; split; [done|apply Forall_singleton]|constructor].
    + unfold task_struct_cache, task_struct_whitelist, cache_ok.
      destruct arch_thread_struct_whitelist as [o n]. simpl in *. destruct (Z.eqb_spec n 0); simpl; split_and!; lia || set_solver.
    + unfold mm_cache_init, cache_ok. simpl. split_and!; lia || set_solver.
    + unfold proc_caches_init. apply Forall_app. split; [|destruct per_vma_lock; [|constructor]];
        repeat constructor; unfold cache_ok, kmem_cache_create; simpl; lia || set_solver.
  - exists (f_max_threads g / 2). subst g. simpl. split_and!.
    + apply (Z.div_le_mono 20 _ 2); [lia|]. unfold set_max_threads. lia.
    + change 536870911 with (1073741823 / 2). apply Z.div_le_mono; [lia|]. unfold set_max_threads. lia.
    + done.
    + rewrite list_lookup_insert_ne by done. by apply list_lookup_insert_eq; lia.
    + apply list_lookup_insert_eq. rewrite length_insert. lia.
    + apply Forall_fmap, Forall_true. done.
  - intros i Hn Hp. subst g. simpl. rewrite !list_lookup_insert_ne by done. done.
Qed.
End caches.

(** ** Kernel stacks that are not vmalloc'ed

    Either whole pages or objects of [thread_stack_cache]; the two variants differ
    in where the memory comes from only ([stack_alloc]).  A stack is given back
    by an RCU callback whose head lies in the stack itself. *)
Module PlainStacks.
Record pstate := PState {
  tsk_stack : gmap Z Z;                     (** task to stack *)
  in_use : gset Z;                          (** stacks not given back *)
  rcu_heads : gset Z;                       (** callbacks that have not run *)
  double_free : bool;
}.
Class StackAlloc := { stack_alloc : pstate -> option Z }.
Class StackAllocLaws `{StackAlloc} := { stack_fresh s p : stack_alloc s = Some p -> p ∉ in_use s }.

Section stacks.
Context {sa : StackAlloc}.
Definition alloc_thread_stack_node (tsk : Z) (s : pstate) : Z * pstate :=
  match stack_alloc s with
  | Some page => (0, PState (<[tsk := page]> (tsk_stack s)) ({[page]} ∪ in_use s) (rcu_heads s) (double_free s))
  | None => (- ENOMEM, s)
  end.
Definition thread_stack_free_rcu (rh : Z) (s : pstate) : pstate :=
  PState (tsk_stack s) (in_use s ∖ {[rh]}) (rcu_heads s ∖ {[rh]}) (double_free s || negb (bool_decide (rh ∈ in_use s))).
Definition thread_stack_delayed_free (tsk : Z) (s : pstate) : pstate :=
  match tsk_stack s !! tsk with
  | Some rh => PState (tsk_stack s) (in_use s) ({[rh]} ∪ rcu_heads s) (double_free s || bool_decide (rh ∈ rcu_heads s))
  | None => s
  end.
Definition free_thread_stack (tsk : Z) (s : pstate) : pstate :=
  let s := thread_stack_delayed_free tsk s in
  PState (delete tsk (tsk_stack s)) (in_use s) (rcu_heads s) (double_free s).

Inductive step : pstate -> pstate -> Prop :=
| step_alloc tsk s : tsk_stack s !! tsk = None -> step s (alloc_thread_stack_node tsk s).2
| step_free tsk s : is_Some (tsk_stack s !! tsk) -> step s (free_thread_stack tsk s)
| step_rcu rh s : rh ∈ rcu_heads s -> step s (thread_stack_free_rcu rh s).
Inductive reachable : pstate -> Prop :=
| reach_start : reachable (PState ∅ ∅ ∅ false)
| reach_step s s' : reachable s -> step s s' -> reachable s'.
End stacks.

Record stacks_ok (s : pstate) : Prop := {
  so_own t p : tsk_stack s !! t = Some p -> p ∈ in_use s /\ p ∉ rcu_heads s;
  so_inj t t' p : tsk_stack s !! t = Some p -> tsk_stack s !! t' = Some p -> t = t';
  so_use p : p ∈ in_use s -> p ∈ rcu_heads s \/ exists t, tsk_stack s !! t = Some p;
  so_rcu p : p ∈ rcu_heads s -> p ∈ in_use s;
  so_once : double_free s = false;
}.

(** However allocation, release and callbacks interleave, no stack is given back
    twice or while a task has it, no two tasks share one, and every stack in use
    belongs to a task or to a callback that will give it back. *)
Theorem plain_stacks_sound `{StackAllocLaws} s : reachable s -> stacks_ok s.
Proof.
  induction 1 as [|s s' _ [Ho Hi Hu Hr Hd] Hs].
  { split; simpl; set_solver. }
  destruct Hs as [t s Ht|t s [p Hp]|rh s Hrh].
  - unfold alloc_thread_stack_node. destruct (stack_alloc s) as [p|] eqn:Ep; simpl; [|done].
    apply stack_fresh in Ep. split; simpl.
    + intros t' p' [[<- <-]|[_ H']]%lookup_insert_Some; [set_solver|]. destruct (Ho _ _ H'). set_solver.
    + intros t1 t2 q [[<- <-]|[_ H1]]%lookup_insert_Some [[<- E]|[_ H2]]%lookup_insert_Some; subst; [done| | |eauto].
      * by destruct (Ho _ _ H2).
      * by destruct (Ho _ _ H1).
    + intros q Hq. assert (q = p \/ q ∈ in_use s) as [->|Hq'] by set_solver.
      * right. exists t. by rewrite lookup_insert_eq.
      * destruct (Hu q Hq') as [|[t' Ht']]; [by left|right]. exists t'. rewrite lookup_insert_ne by congruence. done.
    + set_solver.
    + done.
  - destruct (Ho _ _ Hp) as [Hp1 Hp2]. unfold free_thread_stack, thread_stack_delayed_free. rewrite Hp. split; simpl.
    + intros t' q [Hne Hq]%lookup_delete_Some. destruct (Ho _ _ Hq). split; [done|].
      assert (q <> p) by (intros ->; by eapply Hne, Hi). set_solver.
    + intros t1 t2 q [_ ?]%lookup_delete_Some [_ ?]%lookup_delete_Some. eauto.
    + intros q Hq. destruct (decide (q = p)) as [->|]; [left; set_solver|].
      destruct (Hu q Hq) as [|[t' Ht']]; [left; set_solver|right]. exists t'. rewrite lookup_delete_ne by congruence. done.
    + set_solver.
    + by rewrite Hd, bool_decide_false.
  - split; simpl.
    + intros t p Hp. destruct (Ho _ _ Hp). set_solver.
    + eauto.
    + intros q Hq. destruct (Hu q) as [|?]; [set_solver| |by right]. left. set_solver.
    + set_solver.
    + rewrite Hd, bool_decide_true by auto. done.
Qed.
End PlainStacks.

(** ** Counting, checking, initialising *)

(** [process_counts] of each possible CPU; [total] is an [int]. *)
Definition nr_processes (process_counts : list Z) : Z := foldl (fun total n => s32 (total + n)) 0 process_counts.

Inductive alert := BadRss (type : string) (x : Z) | BadPgtables (x : Z).
Definition resident_page_types : list string := ["MM_FILEPAGES"; "MM_ANONPAGES"; "MM_SWAPENTS"; "MM_SHMEMPAGES"].
(** The messages about counters that should be 0 when an address space goes *)
Definition check_mm (rss_stat : list Z) (pgtables_bytes : Z) : list alert :=
  (zip resident_page_types rss_stat ≫= fun '(t, x) => if negb (x =? 0) then [BadRss t x] else []) ++
  (if negb (pgtables_bytes =? 0) then [BadPgtables pgtables_bytes] else []).

Abbreviation MMF_DUMP_FILTER_SHIFT := 2 (only parsing).
Abbreviation MMF_DUMP_FILTER_MASK := 2044 (only parsing).             (** nine bits above the shift *)
Definition coredump_filter_setup (simple_strtoul : list Z -> Z) (s : list Z) : Z :=
  Z.land (shl64 (simple_strtoul s) MMF_DUMP_FILTER_SHIFT) MMF_DUMP_FILTER_MASK.

Inductive pid_type := PIDTYPE_PID | PIDTYPE_TGID | PIDTYPE_PGID | PIDTYPE_SID.
#[export] Instance pid_type_eq : EqDecision pid_type.
Proof. solve_decision. Defined.
Definition pid_types : list pid_type := [PIDTYPE_PID; PIDTYPE_TGID; PIDTYPE_PGID; PIDTYPE_SID].
(** [thread_pid], and the other three in the signal structure *)
Record tpids := TPids { thread_pid : Z; signal_pids : pid_type -> Z }.
Definition init_task_pid (task : tpids) (type : pid_type) (pid : Z) : tpids :=
  match type with
  | PIDTYPE_PID => TPids pid (signal_pids task)
  | _ => TPids (thread_pid task) (fun t => if decide (t = type) then pid else signal_pids task t)
  end.
Definition task_pid_of (task : tpids) (type : pid_type) : Z :=
  match type with PIDTYPE_PID => thread_pid task | _ => signal_pids task type end.
Definition init_idle_pids (init_struct_pid : Z) (idle : tpids) : tpids :=
  foldl (fun t ty => init_task_pid t ty init_struct_pid) idle pid_types.

Section release.
Context {ua : UAccess} {co : Completion}.
(** [futex_exit_release] and [futex_exec_release] are kernel/futex's. *)
Definition exit_mm_release (futex_exit_release : vstate -> vstate) (mm_users : Z) (s : vstate) : vstate :=
  mm_release mm_users (futex_exit_release s).
Definition exec_mm_release (futex_exec_release : vstate -> vstate) (mm_users : Z) (s : vstate) : vstate :=
  mm_release mm_users (futex_exec_release s).
End release.

Lemma check_mm_silent rss pg : length rss = 4%nat -> check_mm rss pg = [] <-> Forall (eq 0) rss /\ pg = 0.
Proof.
  intros Hl. destruct rss as [|a [|b [|c [|d []]]]]; try discriminate. unfold check_mm. simpl.
  rewrite !Forall_cons, Forall_nil.
  destruct (Z.eqb_spec a 0), (Z.eqb_spec b 0), (Z.eqb_spec c 0), (Z.eqb_spec d 0), (Z.eqb_spec pg 0); simpl; split; naive_solver.
Qed.
Lemma nr_processes_sum l : is_s32 (nr_processes l) /\ nr_processes l = s32 (foldr Z.add 0 l).
Proof.
  assert (Hadd : forall x y, s32 (s32 x + y) = s32 (x + y)).
  { intros x y. unfold s32. f_equal. rewrite <- (Zplus_mod_idemp_l (x + y)).
    replace ((x + 2147483648) mod u32_mod - 2147483648 + y + 2147483648) with ((x + 2147483648) mod u32_mod + y) by lia.
    rewrite Zplus_mod_idemp_l, Zplus_mod_idemp_l. f_equal. lia. }
  assert (H : forall a, foldl (fun total n => s32 (total + n)) (s32 a) l = s32 (a + foldr Z.add 0 l)).
  { induction l as [|x l IH]; intros a; simpl; [f_equal; lia|]. rewrite Hadd, IH. f_equal. lia. }
  assert (nr_processes l = s32 (foldr Z.add 0 l)) as -> by exact (H 0). split; [|done].
  unfold is_s32, s32. pose proof (Z.mod_pos_bound (foldr Z.add 0 l + 2147483648) u32_mod). lia.
Qed.

(** The process count is the sum over the CPUs as an [int]; an address space goes
    silently exactly when all its counters are 0; a dump filter from the command
    line keeps to its nine bits; and an idle task has the pid of the swapper in
    every role. *)
Theorem small_parts_sound l rss pg conv str pid0 idle : length rss = 4%nat ->
  nr_processes l = s32 (foldr Z.add 0 l) /\
  (check_mm rss pg = [] <-> Forall (eq 0) rss /\ pg = 0) /\
  outside (coredump_filter_setup conv str) MMF_DUMP_FILTER_MASK = false /\
  (forall ty, task_pid_of (init_idle_pids pid0 idle) ty = pid0).
Proof.
  intros Hl. split_and!; [apply nr_processes_sum|by apply check_mm_silent|by apply outside_land|by intros []].
Qed.

(** ** Witnesses *)
Module Demo.
#[local] Instance lay0 : Layout := {|
  sizeof_mm_struct := 1000; cpumask_size := 8; mm_cid_size := 8; offset_saved_auxv := 300; sizeof_saved_auxv := 352;
  sizeof_sighand := 2088; sizeof_signal := 1100; sizeof_files := 704; sizeof_fs := 56; sizeof_vma := 160; sizeof_vma_lock := 40;
  align_vma := 8; align_vma_lock := 8; ARCH_MIN_MMSTRUCT_ALIGN := 0; ARCH_MIN_TASKALIGN := 64; L1_CACHE_BYTES := 64;
  arch_task_struct_size := 9000; offset_thread := 4000; arch_thread_struct_whitelist := (64, 4096); totalram_pages := 2000000 |}.
#[local] Instance lay0_laws : LayoutLaws.
Proof. split; simpl; try lia; [repeat constructor; lia|unfold is_u64; simpl; lia]. Qed.
Definition f0 : finit := FInit [] 0 (replicate 16 (Rlimit 0 0)) [0; 0] [] false.
Lemma boot_caches_and_limits_witness :
  init_rlim (fork_init true f0) !! 6%nat = Some (Rlimit 31250 31250) /\ Forall cache_ok (f_caches (fork_init true f0)).
Proof.
  destruct (boot_caches_and_limits true true f0) as (H1 & (half & _ & E & H2 & _) & _); [reflexivity|constructor|].
  split; [rewrite H2, E; vm_compute; reflexivity|]. apply Forall_app in H1 as [H1 _]. exact H1.
Defined.
Lemma small_parts_sound_witness : check_mm [0; 3; 0; 0] 0 <> [] /\ nr_processes [4; 5] = 9.
Proof.
  destruct (small_parts_sound [4; 5] [0; 3; 0; 0] 0 (fun _ => 0) [] 1 (TPids 0 (fun _ => 0)) eq_refl) as (H1 & H2 & _).
  split; [|rewrite H1; reflexivity]. intros H. apply H2 in H as [H _]. rewrite !Forall_cons in H. destruct H as (_ & H & _). discriminate.
Defined.
End Demo.
