(* ===== verification/Wide.v ===== *)
(** * 64-bit arguments, and the calls by their internal names

    open.c 218-246 and 359-373, read_write.c 686-699 and 720-733: the calls whose
    offsets have 64 bits, as 64-bit programs make them and as 32-bit programs
    do, with each such argument in two registers; and the inline functions of
    Kernel/Include/syscalls.h (1241-1276) the rest of the kernel uses instead of
    the system calls.  How the two halves are put together is a macro of the
    architecture ([compat_arg_u64_glue]); its law says that it does. *)
From S2P Require Import Prelude Task Ledger Seek ReadWrite Open OpenFile FileAttr.
#[local] Open Scope Z_scope.

Class CompatArgs := { compat_arg_u64_glue : Z -> Z -> Z }.        (** low half, high half *)
Class CompatArgsLaws `{CompatArgs} := {
  glue_halves lo hi : is_u32 lo -> is_u32 hi -> compat_arg_u64_glue lo hi = lo + hi * 2 ^ 32;
}.

Section attr.
Context {W : Type} {aenv : AttrEnv W} {caps : Caps} {uns : UserNs} {ca : CompatArgs}.
#[local] Abbreviation st := (astate W).

(** ** syscalls.h *)
Definition ksys_chown (filename user group : Z) : sys st Z := do_fchownat AT_FDCWD filename user group 0.
Definition ksys_lchown (filename user group : Z) : sys st Z := do_fchownat AT_FDCWD filename user group AT_SYMLINK_NOFOLLOW.
Definition ksys_ftruncate (fd length : Z) : sys st Z := do_sys_ftruncate fd length true.
Definition ksys_truncate (pathname length : Z) : sys st Z := do_sys_truncate pathname length.
(** The old personality, and the one from now on *)
Definition ksys_personality (personality current : Z) : Z * Z :=
  (current, if negb (personality =? 4294967295) then personality else current).

(** ** open.c *)
Definition sys_truncate64 (path length : Z) : sys st Z := do_sys_truncate path length.
Definition sys_ftruncate64 (fd length : Z) : sys st Z := do_sys_ftruncate fd length false.
(** The glued value has type [u64] and is passed as [loff_t]. *)
Definition compat_sys_truncate64 (pathname lo hi : Z) : sys st Z := ksys_truncate pathname (s64 (compat_arg_u64_glue lo hi)).
Definition compat_sys_ftruncate64 (fd lo hi : Z) : sys st Z := ksys_ftruncate fd (s64 (compat_arg_u64_glue lo hi)).
Definition sys_fallocate (fd mode offset len : Z) : sys st Z := ksys_fallocate fd mode offset len.
Definition compat_sys_fallocate (fd mode offset_lo offset_hi len_lo len_hi : Z) : sys st Z :=
  ksys_fallocate fd mode (s64 (compat_arg_u64_glue offset_lo offset_hi)) (s64 (compat_arg_u64_glue len_lo len_hi)).
End attr.

(** ** read_write.c *)
Section rw.
Context {W : Type} {ua : UAccess} {rwenv : RwEnv} {drv : Driver W} {ca : CompatArgs}.
Definition sys_pread64 (fd buf count pos : Z) : rstate W -> Z * rstate W := ksys_pread64 fd buf count pos.
Definition compat_sys_pread64 (fd buf count lo hi : Z) : rstate W -> Z * rstate W :=
  ksys_pread64 fd buf count (s64 (compat_arg_u64_glue lo hi)).
Definition sys_pwrite64 (fd buf count pos : Z) : rstate W -> Z * rstate W := ksys_pwrite64 fd buf count pos.
Definition compat_sys_pwrite64 (fd buf count lo hi : Z) : rstate W -> Z * rstate W :=
  ksys_pwrite64 fd buf count (s64 (compat_arg_u64_glue lo hi)).
End rw.

(** ** Properties *)
Definition low_half (v : Z) : Z := u32 v.
Definition high_half (v : Z) : Z := u32 (v / 2 ^ 32).

Lemma s64_u64 v : s64 (u64 v) = s64 v.
Proof. unfold s64, u64. by rewrite Zplus_mod_idemp_l. Qed.

Lemma glue_exact `{CompatArgsLaws} v : is_s64 v -> s64 (compat_arg_u64_glue (low_half v) (high_half v)) = v.
Proof.
  intros Hv. rewrite glue_halves by apply u32_range. rewrite <- (s64_small v Hv) at 3. rewrite <- (s64_u64 v). f_equal.
  unfold low_half, high_half, u32, u64. change u64_mod with (u32_mod * u32_mod).
  rewrite (Z.rem_mul_r v) by lia. change (2 ^ 32) with u32_mod. lia.
Qed.

Section properties.
Context {W : Type} {aenv : AttrEnv W} {caps : Caps} {uns : UserNs} {ca : CompatArgs} {cal : CompatArgsLaws}.
Context {V : Type} {ua : UAccess} {rwenv : RwEnv} {drv : Driver V}.

(** A 32-bit program that passes a 64-bit offset or length in two halves gets
    exactly the call a 64-bit program makes, for every value, negative ones
    included: truncate64, fallocate, pread64 and pwrite64. *)
Theorem halves_agree path fd mode buf count offset len :
  is_s64 offset -> is_s64 len ->
  compat_sys_truncate64 path (low_half len) (high_half len) = sys_truncate64 (W := W) path len /\
  compat_sys_fallocate fd mode (low_half offset) (high_half offset) (low_half len) (high_half len) =
    sys_fallocate (W := W) fd mode offset len /\
  compat_sys_pread64 fd buf count (low_half offset) (high_half offset) = sys_pread64 (W := V) fd buf count offset /\
  compat_sys_pwrite64 fd buf count (low_half offset) (high_half offset) = sys_pwrite64 (W := V) fd buf count offset.
Proof.
  intros Ho Hl. unfold compat_sys_truncate64, compat_sys_fallocate, compat_sys_pread64, compat_sys_pwrite64.
  by rewrite !glue_exact.
Qed.

(** A file that ftruncate may change *)
Record resizable (fd : Z) (f : afile) (s : astate W) : Prop := {
  rs_file : afdget fd (aworld s) = Some f;
  rs_reg : S_ISREG (i_mode (ainodes (d_inode (af_path f).2) (aworld s))) = true;
  rs_write : has (af_mode f) FMODE_WRITE = true;
  rs_append : i_append (ainodes (d_inode (af_path f).2) (aworld s)) = false;
  rs_security : security_file_truncate f (aworld s) = 0;
  rs_privs : 0 <= dentry_needs_remove_privs (af_path f).1 (af_path f).2 (aworld s);
}.
(** The file system was asked for size [n]. *)
Definition asked_size (n : Z) (s s' : astate W) : Prop :=
  exists x a, attr_log s' = (x, a) :: attr_log s /\ ia_size a = n.

Lemma ftruncate_asks fd f s length small : resizable fd f s -> 0 <= length ->
  (small = true -> has (af_flags f) O_LARGEFILE = false -> length <= MAX_NON_LFS) ->
  asked_size length s (run (do_sys_ftruncate fd length small) s).2.
Proof.
  intros [Hf Hr Hw Ha Hs Hp] Hl Hsm. unfold do_sys_ftruncate, do_truncate.
  sys_unfold. rewrite (proj2 (Z.ltb_ge _ _)), Hf by done. unfold holding, set_held. sys_unfold. simpl.
  rewrite Hr, Hw. simpl.
  assert ((if has (af_flags f) O_LARGEFILE then false else small) && (MAX_NON_LFS <? length) = false) as ->.
  { destruct (has (af_flags f) O_LARGEFILE), small; simpl; [done..| |done]. apply Z.ltb_ge. auto. }
  simpl. rewrite Ha. simpl. rewrite Hs. simpl. rewrite (proj2 (Z.ltb_ge _ 0) Hp). unfold do_notify_change. simpl.
  destruct (notify_change _ _ _) as [[e d] w]. simpl. by do 2 eexists.
Qed.

(** A 32-bit program that calls ftruncate64 with a length of two gigabytes or
    more on a file it did not open with O_LARGEFILE gets -EINVAL, while the same
    system call of a 32-bit kernel asks the file system for that length: the
    entry for 32-bit programs goes through ksys_ftruncate, which sets [small]. *)
Theorem compat_ftruncate64_refuses fd f s v : resizable fd f s -> has (af_flags f) O_LARGEFILE = false ->
  is_s64 v -> MAX_NON_LFS < v ->
  (run (compat_sys_ftruncate64 fd (low_half v) (high_half v)) s).1 = - EINVAL /\
  asked_size v s (run (sys_ftruncate64 fd v) s).2.
Proof.
  intros Hrs Hlf Hv Hm. split; [|by apply (ftruncate_asks fd f); [done|lia|]].
  destruct Hrs as [Hf Hr Hw _ _ _]. unfold compat_sys_ftruncate64, ksys_ftruncate. rewrite glue_exact by done.
  unfold do_sys_ftruncate. sys_unfold. rewrite (proj2 (Z.ltb_ge v 0)), Hf by lia. unfold holding, set_held. sys_unfold. simpl.
  by rewrite Hr, Hw, Hlf, (proj2 (Z.ltb_lt _ v)) by done.
Qed.

(** A negative length from a 32-bit program is refused by truncate, but ftruncate
    takes it without its sign: on a file opened with O_LARGEFILE it asks the
    file system for a size between two and four gigabytes. *)
Theorem compat_ftruncate_loses_sign fd f s path v : resizable fd f s -> has (af_flags f) O_LARGEFILE = true ->
  -2147483648 <= v < 0 ->
  (run (compat_sys_truncate path v) s).1 = - EINVAL /\
  asked_size (v + 2 ^ 32) s (run (compat_sys_ftruncate fd v) s).2.
Proof.
  intros Hrs Hlf Hv. split.
  - unfold compat_sys_truncate, do_sys_truncate. sys_unfold. rewrite s32_small by (unfold is_s32; lia).
    by rewrite (proj2 (Z.ltb_lt v 0)) by lia.
  - unfold compat_sys_ftruncate. replace (u32 v) with (v + 2 ^ 32).
    + apply (ftruncate_asks fd f); [done|lia|]. by rewrite Hlf.
    + unfold u32. replace v with (v + 2 ^ 32 + (-1) * u32_mod) at 2 by lia. rewrite Z_mod_plus_full, Z.mod_small; lia.
Qed.
End properties.

(** ** Witnesses *)
Module Demo.
#[local] Existing Instances FileAttr.Demo.envD user_caps init_userns uaccess_ok Seek.Demo.env0 ReadWrite.Demo.drv0.
#[local] Instance glue0 : CompatArgs := {| compat_arg_u64_glue lo hi := Z.lor lo (Z.shiftl hi 32) |}.
#[local] Instance glue0_laws : CompatArgsLaws.
Proof.
  split. intros lo hi Hlo Hhi. unfold compat_arg_u64_glue, glue0. rewrite Z.lor_comm, <- Z.add_nocarry_lor.
  - rewrite Z.shiftl_mul_pow2 by lia. lia.
  - apply Z.bits_inj'. intros i Hi. rewrite Z.land_spec, Z.bits_0. destruct (Z.ltb_spec i 32).
    + by rewrite Z.shiftl_spec_low.
    + rewrite <- (u32_small lo Hlo). unfold u32. change u32_mod with (2 ^ 32).
      rewrite Z.mod_pow2_bits_high by lia. apply andb_false_r.
Qed.

Lemma halves_agree_witness :
  compat_sys_truncate64 5 (2 ^ 32 - 1) (2 ^ 32 - 1) = sys_truncate64 (W := nat) 5 (-1) /\
  compat_sys_pread64 (W := unit) 3 4096 10 2 1 =
    sys_pread64 3 4096 10 (2 ^ 32 + 2).
Proof.
  destruct (halves_agree (W := nat) (V := unit)
    5 3 0 4096 10 (2 ^ 32 + 2) (-1)) as (H1 & _ & H2 & _); [unfold is_s64; lia..|]. split; [exact H1|exact H2].
Defined.

(** Descriptor 4 is the same file, opened without O_LARGEFILE. *)
Definition env_small : AttrEnv nat :=
  let e := FileAttr.Demo.envD in {|
  user_path_at := user_path_at; afdget fd _ := if fd =? 4 then Some (AFile 0 3 (1, 5)) else None;
  afdget_raw := afdget_raw; d_inode := d_inode; ainodes := ainodes; inode_permission := inode_permission;
  mnt_want_write := mnt_want_write; mnt_want_write_file := mnt_want_write_file; get_write_access := get_write_access;
  break_lease := break_lease; mnt_is_readonly := mnt_is_readonly; path_noexec := path_noexec; d_can_lookup := d_can_lookup;
  security_path_truncate := security_path_truncate; security_path_chroot := security_path_chroot;
  security_path_chmod := security_path_chmod; security_path_chown := security_path_chown;
  security_file_truncate := security_file_truncate; security_file_permission := security_file_permission;
  fsnotify_area := fsnotify_area; dentry_needs_remove_privs := dentry_needs_remove_privs;
  should_drop_sgid := should_drop_sgid; notify_change := notify_change; break_deleg_wait := break_deleg_wait;
  delegations := delegations; op_fallocate := op_fallocate; prepare_creds_ok := prepare_creds_ok |}.
Lemma compat_ftruncate64_refuses_witness :
  (run (compat_sys_ftruncate64 (aenv := env_small) 4 0 1) (FileAttr.Demo.s0 0)).1 = - EINVAL /\
  asked_size (2 ^ 32) (FileAttr.Demo.s0 0) (run (sys_ftruncate64 (aenv := env_small) 4 (2 ^ 32)) (FileAttr.Demo.s0 0)).2.
Proof.
  apply (compat_ftruncate64_refuses (aenv := env_small) 4 (AFile 0 3 (1, 5)) (FileAttr.Demo.s0 0) (2 ^ 32));
    [split; vm_compute; (reflexivity || discriminate)|reflexivity|unfold is_s64; lia|lia].
Defined.
Lemma compat_ftruncate_loses_sign_witness :
  asked_size (2 ^ 32 - 1) (FileAttr.Demo.s0 0) (run (compat_sys_ftruncate 3 (-1)) (FileAttr.Demo.s0 0)).2.
Proof.
  destruct (compat_ftruncate_loses_sign (aenv := FileAttr.Demo.envD) 3 (AFile O_LARGEFILE 3 (1, 5)) (FileAttr.Demo.s0 0) 5 (-1))
    as [_ H]; [split; vm_compute; (reflexivity || discriminate)|reflexivity|lia|exact H].
Defined.
End Demo.
