(* ===== verification/Entry.v ===== *)
(** * From a register to an argument

    Kernel/Include/syscalls.h 106-270: the macros every system call is defined
    with.  [SYSCALL_DEFINEx] makes three functions of one definition: the body
    [__do_sys_name] with the declared types, the stub [__se_sys_name] whose
    parameters are all [long] (or [long long]) and which casts them, and
    [sys_name], an alias of the stub under the declared types.  What the caller
    left in the bits a type does not use never reaches the body.

    The width of [long] and what a [typedef] or an [enum] stands for are
    parameters: linux/types.h and the architecture's headers fix them. *)
From S2P Require Import Prelude.
From stdpp Require Import strings.
#[local] Open Scope Z_scope.

(** ** Types of arguments *)
Inductive ibase := Char | SChar | UChar | Short | UShort | Int | UInt | Long | ULong | LLong | ULLong.
Inductive ctype :=
| TInt (b : ibase)
| TVoid
| TName (s : string)                      (** a [typedef] *)
| TStruct (s : string)
| TUnion (s : string)
| TEnum (s : string)
| TConst (t : ctype)
| TPtr (user : bool) (t : ctype).         (** [t *], [t __user *] *)

#[export] Instance ibase_eq : EqDecision ibase.
Proof. solve_decision. Defined.
#[export] Instance ctype_eq : EqDecision ctype.
Proof. solve_decision. Defined.

Abbreviation char := (TInt Char) (only parsing).
Abbreviation uchar := (TInt UChar) (only parsing).
Abbreviation int := (TInt Int) (only parsing).
Abbreviation unsigned := (TInt UInt) (only parsing).
Abbreviation long := (TInt Long) (only parsing).
Abbreviation ulong := (TInt ULong) (only parsing).
(** [t const], [t *] and [t __user *] *)
Abbreviation const := TConst (only parsing).
Abbreviation ptr := (TPtr false) (only parsing).
Abbreviation user := (TPtr true) (only parsing).

(** A type as the compiler sees it: an integer type or an address. *)
Inductive scalar := SInt (b : ibase) | SAddr.

#[export] Instance scalar_eq : EqDecision scalar.
Proof. solve_decision. Defined.

Class CEnv := {
  bits_per_long : Z;
  typedef_is : string -> scalar;
  enum_is : string -> ibase;
  bits_per_long_ok : bits_per_long = 32 \/ bits_per_long = 64;
}.

Section types.
Context {ce : CEnv}.

Fixpoint scalar_of (t : ctype) : option scalar :=
  match t with
  | TInt b => Some (SInt b)
  | TName s => Some (typedef_is s)
  | TEnum s => Some (SInt (enum_is s))
  | TConst t => scalar_of t
  | TPtr _ _ => Some SAddr
  | TVoid | TStruct _ | TUnion _ => None
  end.

Definition bits_of (b : ibase) : Z :=
  match b with
  | Char | SChar | UChar => 8
  | Short | UShort => 16
  | Int | UInt => 32
  | Long | ULong => bits_per_long
  | LLong | ULLong => 64
  end.
Definition signed_of (b : ibase) : bool :=
  match b with
  | Char | SChar | Short | Int | Long | LLong => true
  | UChar | UShort | UInt | ULong | ULLong => false
  end.
Definition scalar_bits (s : scalar) : Z := match s with SInt b => bits_of b | SAddr => bits_per_long end.
Definition scalar_signed (s : scalar) : bool := match s with SInt b => signed_of b | SAddr => false end.

(** The values of a type, and conversion to it: the low bits, the highest of
    them a sign where the type has one. *)
Definition in_type (sg : bool) (w v : Z) : Prop :=
  if sg then - 2 ^ (w - 1) <= v < 2 ^ (w - 1) else 0 <= v < 2 ^ w.
Definition cast (sg : bool) (w v : Z) : Z :=
  if sg then (v + 2 ^ (w - 1)) mod 2 ^ w - 2 ^ (w - 1) else v mod 2 ^ w.
Definition in_scalar (s : scalar) (v : Z) : Prop := in_type (scalar_signed s) (scalar_bits s) v.

(** ** The macros *)
Definition __TYPE_IS_LL (t : ctype) : bool :=
  bool_decide (scalar_of t = Some (SInt LLong) \/ scalar_of t = Some (SInt ULLong)).
Definition __SC_LONG (t : ctype) : scalar := SInt (if __TYPE_IS_LL t then LLong else Long).
Definition convert (s : scalar) (v : Z) : Z := cast (scalar_signed s) (scalar_bits s) v.
Definition __SC_CAST (t : ctype) (a : Z) : option Z := s ← scalar_of t; Some (convert s a).
(** [BUILD_BUG_ON_ZERO(!__TYPE_IS_LL(t) && sizeof(t) > sizeof(long))]: the build fails. *)
Definition __SC_TEST (t : ctype) : bool :=
  match scalar_of t with
  | Some s => negb (negb (__TYPE_IS_LL t) && (bits_per_long <? scalar_bits s))
  | None => false
  end.

End types.

(** [__MAP(n, m, t1, a1, .., tn, an)]: [m] of the first [n] pairs; with fewer the
    preprocessor gives up, further ones disappear in the dots. *)
Fixpoint __MAP {A B : Type} (n : nat) (m : A -> B) (l : list A) : option (list B) :=
  match n, l with
  | O, _ => Some []
  | S n', x :: l' => r ← __MAP n' m l'; Some (m x :: r)
  | S _, [] => None
  end.

Abbreviation SYSCALL_DEFINE_MAXARGS := 6%nat (only parsing).

(** What stands between the parentheses of [SYSCALL_DEFINE<n>(name, ..)]. *)
Record sysdef := SysDef { d_name : string; d_n : nat; d_pairs : list (ctype * string) }.
Definition SYSCALL_DEFINE (n : nat) (name : string) (l : list (ctype * string)) : sysdef := SysDef name n l.

(** *** Tracing *)

(** Classes of trace events: those of entries, of exits, others *)
Inductive event_class := event_class_syscall_enter | event_class_syscall_exit | event_class_other (id : Z).
#[export] Instance event_class_eq : EqDecision event_class.
Proof. solve_decision. Defined.
(** [data] is the metadata of the call, by the name it is declared for. *)
Record trace_event_call := TraceEvent { te_class : event_class; te_name : string; te_data : string; te_cap_any : bool }.
Definition SYSCALL_TRACE_ENTER_EVENT (sname : string) : trace_event_call :=
  TraceEvent event_class_syscall_enter ("sys_enter" +:+ sname) sname true.
Definition SYSCALL_TRACE_EXIT_EVENT (sname : string) : trace_event_call :=
  TraceEvent event_class_syscall_exit ("sys_exit" +:+ sname) sname true.

Record syscall_metadata := Meta {
  m_name : string; m_syscall_nr : Z; m_nb_args : nat; m_types : option (list ctype); m_args : option (list string);
  enter_event : trace_event_call; exit_event : trace_event_call;
}.
Definition SYSCALL_METADATA (d : sysdef) : option syscall_metadata :=
  let sname := "_" +:+ d_name d in
  types ← __MAP (d_n d) fst (d_pairs d);
  args ← __MAP (d_n d) snd (d_pairs d);
  Some (Meta ("sys" +:+ sname) (-1) (d_n d)
             (if (d_n d =? 0)%nat then None else Some types) (if (d_n d =? 0)%nat then None else Some args)
             (SYSCALL_TRACE_ENTER_EVENT sname) (SYSCALL_TRACE_EXIT_EVENT sname)).

(** [ftrace_syscalls]: CONFIG_FTRACE_SYSCALLS *)
Definition is_syscall_trace_event (ftrace_syscalls : bool) (tp_event : trace_event_call) : bool :=
  if ftrace_syscalls
  then bool_decide (te_class tp_event = event_class_syscall_enter) || bool_decide (te_class tp_event = event_class_syscall_exit)
  else false.

Section stub.
Context {ce : CEnv} {S : Type}.

(** [__se_sys_name]: it takes [regs] as [long] or [long long], whatever the caller
    thinks it passed; [body] is [__do_sys_name]. *)
Definition __se_sys (d : sysdef) (body : list Z -> sys S Z) (regs : list Z) : option (sys S Z) :=
  types ← __MAP (d_n d) fst (d_pairs d);
  args ← mapM (fun p => __SC_CAST (fst p) (convert (__SC_LONG (fst p)) (snd p))) (zip types regs);
  Some (body args).

(** The definition passes the preprocessor and the compiler. *)
Definition builds (d : sysdef) : bool :=
  (d_n d <=? SYSCALL_DEFINE_MAXARGS)%nat && (length (d_pairs d) =? d_n d)%nat && forallb (fun p => __SC_TEST (fst p)) (d_pairs d).

End stub.

(** [SC_ARG64] and [SC_VAL64]: a 64-bit argument as two 32-bit ones *)
Definition SC_ARG64 (little : bool) (name : string) : list (ctype * string) :=
  if little then [(TName "u32", name +:+ "_lo"); (TName "u32", name +:+ "_hi")]
  else [(TName "u32", name +:+ "_hi"); (TName "u32", name +:+ "_lo")].
Definition SC_VAL64 (sg : bool) (hi lo : Z) : Z := cast sg 64 (Z.lor (Z.shiftl (cast sg 64 hi) 32) lo).

(** ** Properties *)
Lemma pow2_half w : 1 <= w -> 2 ^ w = 2 * 2 ^ (w - 1).
Proof. intros. rewrite <- Z.pow_succ_r by lia. f_equal. lia. Qed.

Lemma cast_in_type sg w v : 1 <= w -> in_type sg w (cast sg w v).
Proof.
  intros Hw. pose proof (pow2_half w Hw). pose proof (Z.pow_pos_nonneg 2 (w - 1)).
  unfold in_type, cast. destruct sg; pose proof (Z.mod_pos_bound (v + 2 ^ (w - 1)) (2 ^ w));
    pose proof (Z.mod_pos_bound v (2 ^ w)); lia.
Qed.

Lemma cast_id sg w v : 1 <= w -> in_type sg w v -> cast sg w v = v.
Proof.
  intros Hw Hv. pose proof (pow2_half w Hw). unfold cast, in_type in *.
  destruct sg; rewrite Z.mod_small; lia.
Qed.

(** Only the low bits matter. *)
Lemma cast_low sg w a b : a mod 2 ^ w = b mod 2 ^ w -> cast sg w a = cast sg w b.
Proof.
  intros H. unfold cast. destruct sg; [|done].
  by rewrite <- (Zplus_mod_idemp_l a), <- (Zplus_mod_idemp_l b), H.
Qed.

Lemma cast_exact sg w v r : 1 <= w -> in_type sg w v -> r mod 2 ^ w = v mod 2 ^ w -> cast sg w r = v.
Proof. intros. rewrite (cast_low _ _ _ _ H1). by apply cast_id. Qed.

Lemma mod_mod_pow w1 w2 a : 0 <= w1 <= w2 -> (a mod 2 ^ w2) mod 2 ^ w1 = a mod 2 ^ w1.
Proof.
  intros. symmetry. apply Znumtheory.Zmod_div_mod; try (apply Z.pow_pos_nonneg; lia).
  exists (2 ^ (w2 - w1)). rewrite <- Z.pow_add_r by lia. f_equal. lia.
Qed.

(** A wider type keeps the low bits. *)
Lemma cast_keeps_low sg w1 w2 a : 1 <= w1 <= w2 -> cast sg w2 a mod 2 ^ w1 = a mod 2 ^ w1.
Proof.
  intros. unfold cast. destruct sg; [|by apply mod_mod_pow; lia].
  rewrite <- (mod_mod_pow w1 w2 (_ - _)) by lia. rewrite Zminus_mod_idemp_l.
  rewrite mod_mod_pow by lia. f_equal. lia.
Qed.

Section stub_properties.
Context {ce : CEnv} {S : Type}.
Implicit Types (t : ctype) (s : scalar).

Lemma scalar_bits_pos s : 8 <= scalar_bits s <= 64.
Proof. destruct bits_per_long_ok; destruct s as [[]|]; simpl; lia. Qed.

(** Whatever the width of [long], no scalar type is wider than what the stub
    takes for it. *)
Lemma sc_long_wide t s : scalar_of t = Some s -> scalar_bits s <= scalar_bits (__SC_LONG t).
Proof.
  intros Ht. unfold __SC_LONG, __TYPE_IS_LL. rewrite Ht.
  destruct bits_per_long_ok; destruct s as [[]|]; simpl; lia.
Qed.

Lemma sc_test_scalar t : __SC_TEST t = true <-> is_Some (scalar_of t).
Proof.
  unfold __SC_TEST, __TYPE_IS_LL. destruct (scalar_of t) as [s|]; [|by split; [|intros []]].
  split; [by eauto|intros _]. destruct bits_per_long_ok as [E|E]; destruct s as [[]|]; simpl; rewrite ?E; done.
Qed.

(** [r] holds [v] of type [t] in its low bits; the rest of it is arbitrary. *)
Definition carries t (v r : Z) : Prop := exists s,
  scalar_of t = Some s /\ in_scalar s v /\ r mod 2 ^ scalar_bits s = v mod 2 ^ scalar_bits s.
Definition has_type t (v : Z) : Prop := exists s, scalar_of t = Some s /\ in_scalar s v.

Definition received t (r : Z) : option Z := __SC_CAST t (convert (__SC_LONG t) r).

Lemma received_typed t r : __SC_TEST t = true -> exists v, received t r = Some v /\ has_type t v.
Proof.
  rewrite sc_test_scalar. intros [s Hs]. pose proof (scalar_bits_pos s).
  unfold received, __SC_CAST. rewrite Hs. eexists. split; [done|]. exists s. split; [done|].
  apply cast_in_type. lia.
Qed.

Lemma received_carried t v r : carries t v r -> received t r = Some v.
Proof.
  intros (s & Hs & Hv & Hr). pose proof (scalar_bits_pos s). pose proof (sc_long_wide _ _ Hs).
  unfold received, __SC_CAST. rewrite Hs. simpl. f_equal. unfold convert at 1.
  apply cast_exact; [lia|done|]. unfold convert. rewrite cast_keeps_low by lia. done.
Qed.

Lemma MAP_all {A B} (m : A -> B) l : __MAP (length l) m l = Some (map m l).
Proof. induction l as [|x l IH]; simpl; [done|by rewrite IH]. Qed.

Lemma received_list (l : list (ctype * string)) regs :
  forallb (fun p => __SC_TEST (fst p)) l = true -> length regs = length l ->
  exists args, mapM (fun p => received (fst p) (snd p)) (zip (map fst l) regs) = Some args /\
    Forall2 has_type (map fst l) args /\
    forall vs, Forall2 (fun p r => carries (fst p) (snd p) r) (zip (map fst l) vs) regs -> length vs = length l -> args = vs.
Proof.
  revert regs. induction l as [|[t a] l IH]; intros [|r regs]; simpl; intros Hb Hlen; try lia.
  { exists []. split_and!; [done|constructor|]. by intros [|]; simpl; intros; [|lia]. }
  apply andb_true_iff in Hb as [Ht Hb].
  destruct (IH regs Hb) as (args & Em & Hty & Hun); [lia|].
  destruct (received_typed t r Ht) as (v & Ev & Hv). exists (v :: args). rewrite Ev. simpl. rewrite Em.
  split_and!; [done|by constructor|]. intros [|v' vs] Hc Hl; simpl in *; [lia|].
  inversion Hc as [|?? ?? Hc1 Hc2]; subst. simpl in Hc1. apply received_carried in Hc1.
  rewrite Ev in Hc1. injection Hc1 as ->. f_equal. apply Hun; [done|lia].
Qed.

Lemma stub_args (d : sysdef) (body : list Z -> sys S Z) (regs : list Z) :
  builds d = true -> length regs = d_n d ->
  exists args, __se_sys d body regs = Some (body args) /\ Forall2 has_type (map fst (d_pairs d)) args /\
    forall vs, length vs = d_n d ->
      Forall2 (fun p r => carries (fst p) (snd p) r) (zip (map fst (d_pairs d)) vs) regs -> args = vs.
Proof.
  unfold builds. rewrite !andb_true_iff, Nat.eqb_eq. intros [[_ Hn] Ht] Hlen.
  destruct (received_list (d_pairs d) regs Ht) as (args & Em & Hty & Hun); [lia|].
  exists args. split_and!; [|done|intros; apply Hun; [done|lia]].
  unfold __se_sys. rewrite <- Hn, MAP_all. simpl. unfold received in Em. by rewrite Em.
Qed.

Lemma stub_passes (d : sysdef) (body : list Z -> sys S Z) (regs vs : list Z) :
  builds d = true -> length regs = d_n d -> length vs = d_n d ->
  Forall2 (fun p r => carries (fst p) (snd p) r) (zip (map fst (d_pairs d)) vs) regs ->
  __se_sys d body regs = Some (body vs).
Proof. intros Hb Hr Hv Hc. destruct (stub_args d body regs Hb Hr) as (args & -> & _ & H). by rewrite (H vs). Qed.

(** C4: a system call that builds hands its body as many arguments as it declares,
    each a value of its declared type whatever the registers hold; and when each
    register has a value of the declared type in its low bits, with anything
    above them, the body receives exactly these values.  This holds whether
    [long] has 32 or 64 bits. *)
Theorem stub_sanitizes_arguments (d : sysdef) (body : list Z -> sys S Z) (regs : list Z) :
  builds d = true -> length regs = d_n d ->
  exists args, __se_sys d body regs = Some (body args) /\ Forall2 has_type (map fst (d_pairs d)) args /\
    forall vs, length vs = d_n d ->
      Forall2 (fun p r => carries (fst p) (snd p) r) (zip (map fst (d_pairs d)) vs) regs -> args = vs.
Proof. apply stub_args. Qed.

(** The metadata describe the call: as many types and names as it has arguments,
    in order, and two events that the tracer recognises as its own. *)
Theorem metadata_describes (d : sysdef) : builds d = true -> exists m,
  SYSCALL_METADATA d = Some m /\ m_nb_args m = length (d_pairs d) /\
  default [] (m_types m) = map fst (d_pairs d) /\ default [] (m_args m) = map snd (d_pairs d) /\
  is_syscall_trace_event true (enter_event m) = true /\ is_syscall_trace_event true (exit_event m) = true.
Proof.
  unfold builds. rewrite !andb_true_iff, Nat.eqb_eq. intros [[_ Hn] _]. unfold SYSCALL_METADATA.
  rewrite <- Hn, !MAP_all. simpl. eexists. split; [done|]. simpl.
  destruct (d_pairs d); simpl; split_and!; done.
Qed.

End stub_properties.

Lemma lor_shiftl_low a b w : 0 <= w -> 0 <= b < 2 ^ w -> Z.lor (Z.shiftl a w) b = a * 2 ^ w + b.
Proof.
  intros Hw Hb. rewrite <- (Z.shiftl_mul_pow2 a w) by done. symmetry. apply Z.add_nocarry_lor.
  apply Z.bits_inj'. intros i Hi. rewrite Z.land_spec, Z.bits_0. destruct (Z.ltb_spec i w).
  - by rewrite Z.shiftl_spec_low.
  - rewrite <- (Z.mod_small b (2 ^ w)), Z.mod_pow2_bits_high by lia. apply andb_false_r.
Qed.

(** A 64-bit argument split into two 32-bit ones is put together again. *)
Theorem sc_val64_roundtrip (sg : bool) (v : Z) : in_type sg 64 v ->
  SC_VAL64 sg (v / 2 ^ 32 mod 2 ^ 32) (v mod 2 ^ 32) = v.
Proof.
  intros Hv. unfold SC_VAL64. pose proof (Z.mod_pos_bound (v / 2 ^ 32) (2 ^ 32)).
  pose proof (Z.mod_pos_bound v (2 ^ 32)). apply cast_exact; [lia|done|].
  rewrite (cast_id sg 64) by (try destruct sg; unfold in_type; lia).
  rewrite lor_shiftl_low by lia. change (2 ^ 64) with (2 ^ 32 * 2 ^ 32).
  rewrite (Z.rem_mul_r v) by lia.
  rewrite Z.mod_small; [lia|].
  split; [lia|]. nia.
Qed.

(** ** Witnesses *)
Module Demo.
(** x86-64: the typedefs as include/linux/types.h has them *)
Definition lp64 : CEnv := {|
  bits_per_long := 64;
  typedef_is s :=
    if bool_decide (s ∈ ["pid_t"; "key_t"; "clockid_t"; "timer_t"; "mqd_t"; "__s32"; "rwf_t"; "key_serial_t"]) then SInt Int
    else if bool_decide (s ∈ ["uid_t"; "gid_t"; "qid_t"; "u32"; "__u32"; "uint32_t"]) then SInt UInt
    else if bool_decide (s ∈ ["umode_t"; "old_uid_t"; "old_gid_t"]) then SInt UShort
    else if bool_decide (s = "off_t") then SInt Long
    else if bool_decide (s = "loff_t") then SInt LLong
    else if bool_decide (s = "u64") then SInt ULLong
    else if bool_decide (s ∈ ["size_t"; "aio_context_t"; "old_sigset_t"]) then SInt ULong
    else SAddr;
  enum_is _ := UInt;
  bits_per_long_ok := or_intror eq_refl |}.
(** a 32-bit architecture with the same typedefs *)
Definition ilp32 : CEnv := {|
  bits_per_long := 32; typedef_is := @typedef_is lp64; enum_is := @enum_is lp64; bits_per_long_ok := or_introl eq_refl |}.

Definition fallocate : sysdef :=
  SYSCALL_DEFINE 4 "fallocate" [(int, "fd"); (int, "mode"); (TName "loff_t", "offset"); (TName "loff_t", "len")].

(** The high half of the first register is noise; the offsets need 64 bits, also
    where [long] has 32. *)
Lemma stub_sanitizes_arguments_witness :
  __se_sys (ce := ilp32) (S := unit) fallocate (fun args => sret (Z.of_nat (length args)))
    [2 ^ 40 + 3; 0; 2 ^ 33; 2 ^ 62] = Some (sret 4) /\
  exists args, args = [3; 0; 2 ^ 33; 2 ^ 62].
Proof.
  destruct (stub_sanitizes_arguments (ce := ilp32) (S := unit) fallocate (fun args => sret (Z.of_nat (length args)))
    [2 ^ 40 + 3; 0; 2 ^ 33; 2 ^ 62]) as (args & E & _ & Hv); [vm_compute; reflexivity|reflexivity|].
  rewrite (Hv [3; 0; 2 ^ 33; 2 ^ 62]) in E; [|reflexivity|].
  - split; [exact E|]. exists args. apply Hv; [reflexivity|].
    repeat constructor; eexists; (split; [reflexivity|]); unfold in_scalar, in_type; simpl; split; (lia || reflexivity).
  - repeat constructor; eexists; (split; [reflexivity|]); unfold in_scalar, in_type; simpl; split; (lia || reflexivity).
Defined.

Lemma sc_val64_roundtrip_witness : SC_VAL64 true (2 ^ 32 - 1) (2 ^ 32 - 5) = - 5.
Proof. exact (sc_val64_roundtrip true (- 5) ltac:(unfold in_type; lia)). Defined.
End Demo.
