(* ===== verification/Protos.v ===== *)
(** * The system calls and their numbers

    The prototypes of Kernel/Include/syscalls.h (lines 303-1192), the argument
    lists of every [SYSCALL_DEFINE] of sys.c, fork.c, syscall3.c, open.c and
    read_write.c, and Kernel/arch/x86/entry/syscalls/syscall_64.tbl, row by row.
    Text between [#if] and [#endif] stays conditional: a guard is a conjunction
    of disjunctions of symbols that are defined or not.  The 32-bit entries
    ([COMPAT_SYSCALL_DEFINE]) are not here: their prototypes are in
    linux/compat.h. *)
From stdpp Require Import strings.
From S2P Require Import Prelude Entry.
#[local] Open Scope Z_scope.

#[local] Abbreviation T := TName (only parsing).
#[local] Abbreviation struct := TStruct (only parsing).
#[local] Abbreviation union := TUnion (only parsing).
#[local] Abbreviation enum := TEnum (only parsing).

(** [#if]: which symbols are defined (and whether [BITS_PER_LONG == 32]) *)
Definition guard := list (list (bool * string)).
Definition holds (c : string -> bool) (g : guard) : bool :=
  forallb (existsb (fun '(b, s) => eqb (c s) b)) g.

(** [linkage long sys_name(params);] *)
Record proto := Proto { p_linkage : string; p_name : string; p_params : list ctype }.
Abbreviation P := (Proto "asmlinkage") (only parsing).
(** All prototypes are inside [#ifndef CONFIG_ARCH_HAS_SYSCALL_WRAPPER], line 303. *)
Definition under (g : guard) (l : list proto) : list (guard * proto) :=
  map (pair ([(false, "CONFIG_ARCH_HAS_SYSCALL_WRAPPER")] :: g)) l.
Abbreviation always := (under []) (only parsing).
(** What the preprocessor leaves *)
Definition visible {A} (c : string -> bool) (l : list (guard * A)) : list A :=
  omap (fun x => if holds c (fst x) then Some (snd x) else None) l.

(** ** Prototypes *)

Definition protos_1 : list (guard * proto) :=
  always [
    P "io_setup" [unsigned; user (T "aio_context_t")]; P "io_destroy" [T "aio_context_t"];
    P "io_submit" [T "aio_context_t"; long; user (user (struct "iocb"))];
    P "io_cancel" [T "aio_context_t"; user (struct "iocb"); user (struct "io_event")];
    P "io_getevents" [T "aio_context_t"; long; long; user (struct "io_event"); user (struct "__kernel_timespec")];
    P "io_getevents_time32" [T "__u32"; T "__s32"; T "__s32"; user (struct "io_event"); user (struct "old_timespec32")];
    P "io_pgetevents" [T "aio_context_t"; long; long; user (struct "io_event"); user (struct "__kernel_timespec"); ptr (const (struct "__aio_sigset"))];
    P "io_pgetevents_time32" [T "aio_context_t"; long; long; user (struct "io_event"); user (struct "old_timespec32"); ptr (const (struct "__aio_sigset"))];
    P "io_uring_setup" [T "u32"; user (struct "io_uring_params")];
    P "io_uring_enter" [unsigned; T "u32"; T "u32"; T "u32"; user (const TVoid); T "size_t"];
    P "io_uring_register" [unsigned; unsigned; user TVoid; unsigned];
    P "setxattr" [user (const char); user (const char); user (const TVoid); T "size_t"; int];
    P "lsetxattr" [user (const char); user (const char); user (const TVoid); T "size_t"; int];
    P "fsetxattr" [int; user (const char); user (const TVoid); T "size_t"; int];
    P "getxattr" [user (const char); user (const char); user TVoid; T "size_t"];
    P "lgetxattr" [user (const char); user (const char); user TVoid; T "size_t"];
    P "fgetxattr" [int; user (const char); user TVoid; T "size_t"];
    P "listxattr" [user (const char); user char; T "size_t"];
    P "llistxattr" [user (const char); user char; T "size_t"]; P "flistxattr" [int; user char; T "size_t"];
    P "removexattr" [user (const char); user (const char)]; P "lremovexattr" [user (const char); user (const char)];
    P "fremovexattr" [int; user (const char)]; P "getcwd" [user char; ulong]; P "eventfd2" [unsigned; int];
    P "epoll_create1" [int]; P "epoll_ctl" [int; int; int; user (struct "epoll_event")];
    P "epoll_pwait" [int; user (struct "epoll_event"); int; int; user (const (T "sigset_t")); T "size_t"];
    P "epoll_pwait2" [int; user (struct "epoll_event"); int; user (const (struct "__kernel_timespec")); user (const (T "sigset_t")); T "size_t"];
    P "dup" [unsigned]; P "dup3" [unsigned; unsigned; int]; P "fcntl" [unsigned; unsigned; ulong]] ++
  under [[(true, "BITS_PER_LONG == 32")]] [
    P "fcntl64" [unsigned; unsigned; ulong]] ++
  always [
    P "inotify_init1" [int]; P "inotify_add_watch" [int; user (const char); T "u32"];
    P "inotify_rm_watch" [int; T "__s32"]; P "ioctl" [unsigned; unsigned; ulong]; P "ioprio_set" [int; int; int];
    P "ioprio_get" [int; int]; P "flock" [unsigned; unsigned];
    P "mknodat" [int; user (const char); T "umode_t"; unsigned]; P "mkdirat" [int; user (const char); T "umode_t"];
    P "unlinkat" [int; user (const char); int]; P "symlinkat" [user (const char); int; user (const char)];
    P "linkat" [int; user (const char); int; user (const char); int];
    P "renameat" [int; user (const char); int; user (const char)]; P "umount" [user char; int];
    P "mount" [user char; user char; user char; ulong; user TVoid];
    P "pivot_root" [user (const char); user (const char)]; P "statfs" [user (const char); user (struct "statfs")];
    P "statfs64" [user (const char); T "size_t"; user (struct "statfs64")];
    P "fstatfs" [unsigned; user (struct "statfs")]; P "fstatfs64" [unsigned; T "size_t"; user (struct "statfs64")];
    P "statmount" [user (const (struct "mnt_id_req")); user (struct "statmount"); T "size_t"; unsigned];
    P "listmount" [user (const (struct "mnt_id_req")); user (T "u64"); T "size_t"; unsigned];
    P "truncate" [user (const char); long]; P "ftruncate" [unsigned; ulong]] ++
  under [[(true, "BITS_PER_LONG == 32")]] [
    P "truncate64" [user (const char); T "loff_t"]; P "ftruncate64" [unsigned; T "loff_t"]] ++
  always [
    P "fallocate" [int; int; T "loff_t"; T "loff_t"]; P "faccessat" [int; user (const char); int];
    P "faccessat2" [int; user (const char); int; int]].

Definition protos_2 : list (guard * proto) :=
  always [
    P "chdir" [user (const char)]; P "fchdir" [unsigned]; P "chroot" [user (const char)];
    P "fchmod" [unsigned; T "umode_t"]; P "fchmodat" [int; user (const char); T "umode_t"];
    P "fchmodat2" [int; user (const char); T "umode_t"; unsigned];
    P "fchownat" [int; user (const char); T "uid_t"; T "gid_t"; int]; P "fchown" [unsigned; T "uid_t"; T "gid_t"];
    P "openat" [int; user (const char); int; T "umode_t"];
    P "openat2" [int; user (const char); ptr (struct "open_how"); T "size_t"]; P "close" [unsigned];
    P "close_range" [unsigned; unsigned; unsigned]; P "vhangup" []; P "pipe2" [user int; int];
    P "quotactl" [unsigned; user (const char); T "qid_t"; user TVoid];
    P "quotactl_fd" [unsigned; unsigned; T "qid_t"; user TVoid];
    P "getdents64" [unsigned; user (struct "linux_dirent64"); unsigned];
    P "llseek" [unsigned; ulong; ulong; user (T "loff_t"); unsigned]; P "lseek" [unsigned; T "off_t"; unsigned];
    P "read" [unsigned; user char; T "size_t"]; P "write" [unsigned; user (const char); T "size_t"];
    P "readv" [ulong; user (const (struct "iovec")); ulong];
    P "writev" [ulong; user (const (struct "iovec")); ulong];
    P "pread64" [unsigned; user char; T "size_t"; T "loff_t"];
    P "pwrite64" [unsigned; user (const char); T "size_t"; T "loff_t"];
    P "preadv" [ulong; user (const (struct "iovec")); ulong; ulong; ulong];
    P "pwritev" [ulong; user (const (struct "iovec")); ulong; ulong; ulong];
    P "sendfile64" [int; int; user (T "loff_t"); T "size_t"];
    P "pselect6" [int; user (T "fd_set"); user (T "fd_set"); user (T "fd_set"); user (struct "__kernel_timespec"); user TVoid];
    P "pselect6_time32" [int; user (T "fd_set"); user (T "fd_set"); user (T "fd_set"); user (struct "old_timespec32"); user TVoid];
    P "ppoll" [user (struct "pollfd"); unsigned; user (struct "__kernel_timespec"); user (const (T "sigset_t")); T "size_t"];
    P "ppoll_time32" [user (struct "pollfd"); unsigned; user (struct "old_timespec32"); user (const (T "sigset_t")); T "size_t"];
    P "signalfd4" [int; user (T "sigset_t"); T "size_t"; int];
    P "vmsplice" [int; user (const (struct "iovec")); ulong; unsigned];
    P "splice" [int; user (T "loff_t"); int; user (T "loff_t"); T "size_t"; unsigned];
    P "tee" [int; int; T "size_t"; unsigned]; P "readlinkat" [int; user (const char); user char; int];
    P "newfstatat" [int; user (const char); user (struct "stat"); int]; P "newfstat" [unsigned; user (struct "stat")]] ++
  under [[(true, "__ARCH_WANT_STAT64"); (true, "__ARCH_WANT_COMPAT_STAT64")]] [
    P "fstat64" [ulong; user (struct "stat64")]; P "fstatat64" [int; user (const char); user (struct "stat64"); int]] ++
  always [
    P "sync" []; P "fsync" [unsigned]; P "fdatasync" [unsigned];
    P "sync_file_range2" [int; unsigned; T "loff_t"; T "loff_t"];
    P "sync_file_range" [int; T "loff_t"; T "loff_t"; unsigned]; P "timerfd_create" [int; int];
    P "timerfd_settime" [int; int; user (const (struct "__kernel_itimerspec")); user (struct "__kernel_itimerspec")];
    P "timerfd_gettime" [int; user (struct "__kernel_itimerspec")];
    P "timerfd_gettime32" [int; user (struct "old_itimerspec32")];
    P "timerfd_settime32" [int; int; user (const (struct "old_itimerspec32")); user (struct "old_itimerspec32")];
    P "utimensat" [int; user (const char); user (struct "__kernel_timespec"); int];
    P "utimensat_time32" [unsigned; user (const char); user (struct "old_timespec32"); int];
    P "acct" [user (const char)]; P "capget" [T "cap_user_header_t"; T "cap_user_data_t"];
    P "capset" [T "cap_user_header_t"; const (T "cap_user_data_t")]; P "personality" [unsigned]; P "exit" [int];
    P "exit_group" [int]; P "waitid" [int; T "pid_t"; user (struct "siginfo"); int; user (struct "rusage")];
    P "set_tid_address" [user int]; P "unshare" [ulong];
    P "futex" [user (T "u32"); int; T "u32"; user (const (struct "__kernel_timespec")); user (T "u32"); T "u32"];
    P "futex_time32" [user (T "u32"); int; T "u32"; user (const (struct "old_timespec32")); user (T "u32"); T "u32"];
    P "get_robust_list" [int; user (user (struct "robust_list_head")); user (T "size_t")];
    P "set_robust_list" [user (struct "robust_list_head"); T "size_t"];
    P "futex_waitv" [ptr (struct "futex_waitv"); unsigned; unsigned; user (struct "__kernel_timespec"); T "clockid_t"]].

Definition protos_3 : list (guard * proto) :=
  always [
    P "futex_wake" [user TVoid; ulong; int; unsigned];
    P "futex_wait" [user TVoid; ulong; ulong; unsigned; user (struct "__kernel_timespec"); T "clockid_t"];
    P "futex_requeue" [user (struct "futex_waitv"); unsigned; int; int];
    P "nanosleep" [user (struct "__kernel_timespec"); user (struct "__kernel_timespec")];
    P "nanosleep_time32" [user (struct "old_timespec32"); user (struct "old_timespec32")];
    P "getitimer" [int; user (struct "__kernel_old_itimerval")];
    P "setitimer" [int; user (struct "__kernel_old_itimerval"); user (struct "__kernel_old_itimerval")];
    P "kexec_load" [ulong; ulong; user (struct "kexec_segment"); ulong];
    P "init_module" [user TVoid; ulong; user (const char)]; P "delete_module" [user (const char); unsigned];
    P "timer_create" [T "clockid_t"; user (struct "sigevent"); user (T "timer_t")];
    P "timer_gettime" [T "timer_t"; user (struct "__kernel_itimerspec")]; P "timer_getoverrun" [T "timer_t"];
    P "timer_settime" [T "timer_t"; int; user (const (struct "__kernel_itimerspec")); user (struct "__kernel_itimerspec")];
    P "timer_delete" [T "timer_t"]; P "clock_settime" [T "clockid_t"; user (const (struct "__kernel_timespec"))];
    P "clock_gettime" [T "clockid_t"; user (struct "__kernel_timespec")];
    P "clock_getres" [T "clockid_t"; user (struct "__kernel_timespec")];
    P "clock_nanosleep" [T "clockid_t"; int; user (const (struct "__kernel_timespec")); user (struct "__kernel_timespec")];
    P "timer_gettime32" [T "timer_t"; user (struct "old_itimerspec32")];
    P "timer_settime32" [T "timer_t"; int; user (struct "old_itimerspec32"); user (struct "old_itimerspec32")];
    P "clock_settime32" [T "clockid_t"; user (struct "old_timespec32")];
    P "clock_gettime32" [T "clockid_t"; user (struct "old_timespec32")];
    P "clock_getres_time32" [T "clockid_t"; user (struct "old_timespec32")];
    P "clock_nanosleep_time32" [T "clockid_t"; int; user (struct "old_timespec32"); user (struct "old_timespec32")];
    P "syslog" [int; user char; int]; P "ptrace" [long; long; ulong; ulong];
    P "sched_setparam" [T "pid_t"; user (struct "sched_param")];
    P "sched_setscheduler" [T "pid_t"; int; user (struct "sched_param")]; P "sched_getscheduler" [T "pid_t"];
    P "sched_getparam" [T "pid_t"; user (struct "sched_param")];
    P "sched_setaffinity" [T "pid_t"; unsigned; user ulong]; P "sched_getaffinity" [T "pid_t"; unsigned; user ulong];
    P "sched_yield" []; P "sched_get_priority_max" [int]; P "sched_get_priority_min" [int];
    P "sched_rr_get_interval" [T "pid_t"; user (struct "__kernel_timespec")];
    P "sched_rr_get_interval_time32" [T "pid_t"; user (struct "old_timespec32")]; P "restart_syscall" [];
    P "kill" [T "pid_t"; int]; P "tkill" [T "pid_t"; int]; P "tgkill" [T "pid_t"; T "pid_t"; int];
    P "sigaltstack" [user (const (struct "sigaltstack")); user (struct "sigaltstack")];
    P "rt_sigsuspend" [user (T "sigset_t"); T "size_t"]] ++
  under [[(false, "CONFIG_ODD_RT_SIGACTION")]] [
    P "rt_sigaction" [int; user (const (struct "sigaction")); user (struct "sigaction"); T "size_t"]] ++
  always [
    P "rt_sigprocmask" [int; user (T "sigset_t"); user (T "sigset_t"); T "size_t"];
    P "rt_sigpending" [user (T "sigset_t"); T "size_t"];
    P "rt_sigtimedwait" [user (const (T "sigset_t")); user (T "siginfo_t"); user (const (struct "__kernel_timespec")); T "size_t"];
    P "rt_sigtimedwait_time32" [user (const (T "sigset_t")); user (T "siginfo_t"); user (const (struct "old_timespec32")); T "size_t"];
    P "rt_sigqueueinfo" [T "pid_t"; int; user (T "siginfo_t")]; P "setpriority" [int; int; int];
    P "getpriority" [int; int]; P "reboot" [int; int; unsigned; user TVoid]; P "setregid" [T "gid_t"; T "gid_t"];
    P "setgid" [T "gid_t"]; P "setreuid" [T "uid_t"; T "uid_t"]; P "setuid" [T "uid_t"];
    P "setresuid" [T "uid_t"; T "uid_t"; T "uid_t"];
    P "getresuid" [user (T "uid_t"); user (T "uid_t"); user (T "uid_t")];
    P "setresgid" [T "gid_t"; T "gid_t"; T "gid_t"];
    P "getresgid" [user (T "gid_t"); user (T "gid_t"); user (T "gid_t")]; P "setfsuid" [T "uid_t"];
    P "setfsgid" [T "gid_t"]; P "times" [user (struct "tms")]; P "setpgid" [T "pid_t"; T "pid_t"];
    P "getpgid" [T "pid_t"]; P "getsid" [T "pid_t"]; P "setsid" []; P "getgroups" [int; user (T "gid_t")];
    P "setgroups" [int; user (T "gid_t")]; P "newuname" [user (struct "new_utsname")];
    P "sethostname" [user char; int]; P "setdomainname" [user char; int];
    P "getrlimit" [unsigned; user (struct "rlimit")]; P "setrlimit" [unsigned; user (struct "rlimit")];
    P "getrusage" [int; user (struct "rusage")]].

Definition protos_4 : list (guard * proto) :=
  always [
    P "umask" [int]; P "prctl" [int; ulong; ulong; ulong; ulong];
    P "getcpu" [user unsigned; user unsigned; user (struct "getcpu_cache")];
    P "gettimeofday" [user (struct "__kernel_old_timeval"); user (struct "timezone")];
    P "settimeofday" [user (struct "__kernel_old_timeval"); user (struct "timezone")];
    P "adjtimex" [user (struct "__kernel_timex")]; P "adjtimex_time32" [user (struct "old_timex32")]; P "getpid" [];
    P "getppid" []; P "getuid" []; P "geteuid" []; P "getgid" []; P "getegid" []; P "gettid" [];
    P "sysinfo" [user (struct "sysinfo")];
    P "mq_open" [user (const char); int; T "umode_t"; user (struct "mq_attr")]; P "mq_unlink" [user (const char)];
    P "mq_timedsend" [T "mqd_t"; user (const char); T "size_t"; unsigned; user (const (struct "__kernel_timespec"))];
    P "mq_timedreceive" [T "mqd_t"; user char; T "size_t"; user unsigned; user (const (struct "__kernel_timespec"))];
    P "mq_notify" [T "mqd_t"; user (const (struct "sigevent"))];
    P "mq_getsetattr" [T "mqd_t"; user (const (struct "mq_attr")); user (struct "mq_attr")];
    P "mq_timedreceive_time32" [T "mqd_t"; user char; unsigned; user unsigned; user (const (struct "old_timespec32"))];
    P "mq_timedsend_time32" [T "mqd_t"; user (const char); unsigned; unsigned; user (const (struct "old_timespec32"))];
    P "msgget" [T "key_t"; int]; P "old_msgctl" [int; int; user (struct "msqid_ds")];
    P "msgctl" [int; int; user (struct "msqid_ds")]; P "msgrcv" [int; user (struct "msgbuf"); T "size_t"; long; int];
    P "msgsnd" [int; user (struct "msgbuf"); T "size_t"; int]; P "semget" [T "key_t"; int; int];
    P "semctl" [int; int; int; ulong]; P "old_semctl" [int; int; int; ulong];
    P "semtimedop" [int; user (struct "sembuf"); unsigned; user (const (struct "__kernel_timespec"))];
    P "semtimedop_time32" [int; user (struct "sembuf"); unsigned; user (const (struct "old_timespec32"))];
    P "semop" [int; user (struct "sembuf"); unsigned]; P "shmget" [T "key_t"; T "size_t"; int];
    P "old_shmctl" [int; int; user (struct "shmid_ds")]; P "shmctl" [int; int; user (struct "shmid_ds")];
    P "shmat" [int; user char; int]; P "shmdt" [user char]; P "socket" [int; int; int];
    P "socketpair" [int; int; int; user int]; P "bind" [int; user (struct "sockaddr"); int]; P "listen" [int; int];
    P "accept" [int; user (struct "sockaddr"); user int]; P "connect" [int; user (struct "sockaddr"); int];
    P "getsockname" [int; user (struct "sockaddr"); user int];
    P "getpeername" [int; user (struct "sockaddr"); user int];
    P "sendto" [int; user TVoid; T "size_t"; unsigned; user (struct "sockaddr"); int];
    P "recvfrom" [int; user TVoid; T "size_t"; unsigned; user (struct "sockaddr"); user int];
    P "setsockopt" [int; int; int; user char; int]; P "getsockopt" [int; int; int; user char; user int];
    P "shutdown" [int; int]; P "sendmsg" [int; user (struct "user_msghdr"); unsigned];
    P "recvmsg" [int; user (struct "user_msghdr"); unsigned]; P "readahead" [int; T "loff_t"; T "size_t"];
    P "brk" [ulong]; P "munmap" [ulong; T "size_t"]; P "mremap" [ulong; ulong; ulong; ulong; ulong];
    P "add_key" [user (const char); user (const char); user (const TVoid); T "size_t"; T "key_serial_t"];
    P "request_key" [user (const char); user (const char); user (const char); T "key_serial_t"];
    P "keyctl" [int; ulong; ulong; ulong; ulong]] ++
  under [[(true, "CONFIG_CLONE_BACKWARDS")]] [
    P "clone" [ulong; ulong; user int; ulong; user int]] ++
  under [[(true, "CONFIG_CLONE_BACKWARDS3")]; [(false, "CONFIG_CLONE_BACKWARDS")]] [
    P "clone" [ulong; ulong; int; user int; user int; ulong]] ++
  under [[(false, "CONFIG_CLONE_BACKWARDS3")]; [(false, "CONFIG_CLONE_BACKWARDS")]] [
    P "clone" [ulong; ulong; user int; user int; ulong]] ++
  always [
    P "clone3" [user (struct "clone_args"); T "size_t"];
    P "execve" [user (const char); user (const (user (const char))); user (const (user (const char)))];
    P "fadvise64_64" [int; T "loff_t"; T "loff_t"; int]; P "swapon" [user (const char); int];
    P "swapoff" [user (const char)]; P "mprotect" [ulong; T "size_t"; ulong]; P "msync" [ulong; T "size_t"; int];
    P "mlock" [ulong; T "size_t"]; P "munlock" [ulong; T "size_t"]; P "mlockall" [int]; P "munlockall" [];
    P "mincore" [ulong; T "size_t"; user uchar]; P "madvise" [ulong; T "size_t"; int];
    P "process_madvise" [int; user (const (struct "iovec")); T "size_t"; int; unsigned];
    P "process_mrelease" [int; unsigned]; P "remap_file_pages" [ulong; ulong; ulong; ulong; ulong];
    P "mbind" [ulong; ulong; ulong; user (const ulong); ulong; unsigned]].

Definition protos_5 : list (guard * proto) :=
  always [
    P "get_mempolicy" [user int; user ulong; ulong; ulong; ulong];
    P "set_mempolicy" [int; user (const ulong); ulong];
    P "migrate_pages" [T "pid_t"; ulong; user (const ulong); user (const ulong)];
    P "move_pages" [T "pid_t"; ulong; user (user (const TVoid)); user (const int); user int; int];
    P "rt_tgsigqueueinfo" [T "pid_t"; T "pid_t"; int; user (T "siginfo_t")];
    P "perf_event_open" [user (struct "perf_event_attr"); T "pid_t"; int; int; ulong];
    P "accept4" [int; user (struct "sockaddr"); user int; int];
    P "recvmmsg" [int; user (struct "mmsghdr"); unsigned; unsigned; user (struct "__kernel_timespec")];
    P "recvmmsg_time32" [int; user (struct "mmsghdr"); unsigned; unsigned; user (struct "old_timespec32")];
    P "wait4" [T "pid_t"; user int; int; user (struct "rusage")];
    P "prlimit64" [T "pid_t"; unsigned; user (const (struct "rlimit64")); user (struct "rlimit64")];
    P "fanotify_init" [unsigned; unsigned]; P "fanotify_mark" [int; unsigned; T "u64"; int; user (const char)];
    P "name_to_handle_at" [int; user (const char); user (struct "file_handle"); user int; int];
    P "open_by_handle_at" [int; user (struct "file_handle"); int];
    P "clock_adjtime" [T "clockid_t"; user (struct "__kernel_timex")];
    P "clock_adjtime32" [T "clockid_t"; user (struct "old_timex32")]; P "syncfs" [int]; P "setns" [int; int];
    P "pidfd_open" [T "pid_t"; unsigned]; P "sendmmsg" [int; user (struct "mmsghdr"); unsigned; unsigned];
    P "process_vm_readv" [T "pid_t"; user (const (struct "iovec")); ulong; user (const (struct "iovec")); ulong; ulong];
    P "process_vm_writev" [T "pid_t"; user (const (struct "iovec")); ulong; user (const (struct "iovec")); ulong; ulong];
    P "kcmp" [T "pid_t"; T "pid_t"; int; ulong; ulong]; P "finit_module" [int; user (const char); int];
    P "sched_setattr" [T "pid_t"; user (struct "sched_attr"); unsigned];
    P "sched_getattr" [T "pid_t"; user (struct "sched_attr"); unsigned; unsigned];
    P "renameat2" [int; user (const char); int; user (const char); unsigned];
    P "seccomp" [unsigned; unsigned; user TVoid]; P "getrandom" [user char; T "size_t"; unsigned];
    P "memfd_create" [user (const char); unsigned]; P "bpf" [int; ptr (union "bpf_attr"); unsigned];
    P "execveat" [int; user (const char); user (const (user (const char))); user (const (user (const char))); int];
    P "userfaultfd" [int]; P "membarrier" [int; unsigned; int]; P "mlock2" [ulong; T "size_t"; int];
    P "copy_file_range" [int; user (T "loff_t"); int; user (T "loff_t"); T "size_t"; unsigned];
    P "preadv2" [ulong; user (const (struct "iovec")); ulong; ulong; ulong; T "rwf_t"];
    P "pwritev2" [ulong; user (const (struct "iovec")); ulong; ulong; ulong; T "rwf_t"];
    P "pkey_mprotect" [ulong; T "size_t"; ulong; int]; P "pkey_alloc" [ulong; ulong]; P "pkey_free" [int];
    P "statx" [int; user (const char); unsigned; unsigned; user (struct "statx")];
    P "rseq" [user (struct "rseq"); T "uint32_t"; int; T "uint32_t"];
    P "open_tree" [int; user (const char); unsigned];
    P "move_mount" [int; user (const char); int; user (const char); unsigned];
    P "mount_setattr" [int; user (const char); unsigned; user (struct "mount_attr"); T "size_t"];
    P "fsopen" [user (const char); unsigned];
    P "fsconfig" [int; unsigned; user (const char); user (const TVoid); int]; P "fsmount" [int; unsigned; unsigned];
    P "fspick" [int; user (const char); unsigned]; P "pidfd_send_signal" [int; int; user (T "siginfo_t"); unsigned];
    P "pidfd_getfd" [int; int; unsigned];
    P "landlock_create_ruleset" [user (const (struct "landlock_ruleset_attr")); T "size_t"; T "__u32"];
    P "landlock_add_rule" [int; enum "landlock_rule_type"; user (const TVoid); T "__u32"];
    P "landlock_restrict_self" [int; T "__u32"]; P "memfd_secret" [unsigned];
    P "set_mempolicy_home_node" [ulong; ulong; ulong; ulong];
    P "cachestat" [unsigned; user (struct "cachestat_range"); user (struct "cachestat"); unsigned];
    P "map_shadow_stack" [ulong; ulong; unsigned];
    P "lsm_get_self_attr" [unsigned; ptr (struct "lsm_ctx"); ptr (T "size_t"); T "__u32"];
    P "lsm_set_self_attr" [unsigned; ptr (struct "lsm_ctx"); T "size_t"; T "__u32"];
    P "lsm_list_modules" [ptr (T "u64"); ptr (T "size_t"); T "u32"]].

Definition protos_luis : list (guard * proto) :=
  always [
    P "luis_capture_memory_snapshot" [user (struct "memory_snapshot")];
    Proto "asmkinkage" "luis_track_syscall_usage" [user (struct "track_counters")];
    P "luis_get_io_throttle" [user (struct "all_io_stats")]; P "luis_tamalloc" [T "size_t"; user ulong];
    P "luis_add_memory_limit" [T "pid_t"; T "size_t"];
    P "luis_get_memory_limits" [ptr (struct "memory_limitation"); T "size_t"; ptr int];
    P "luis_update_memory_limit" [T "pid_t"; T "size_t"]; P "luis_remove_memory_limit" [T "pid_t"]].

Definition protos_7 : list (guard * proto) :=
  always [
    P "ioperm" [ulong; ulong; int]; P "pciconfig_read" [ulong; ulong; ulong; ulong; user TVoid];
    P "pciconfig_write" [ulong; ulong; ulong; ulong; user TVoid]; P "pciconfig_iobase" [long; ulong; ulong];
    P "spu_run" [int; user (T "__u32"); user (T "__u32")];
    P "spu_create" [user (const char); unsigned; T "umode_t"; int]; P "open" [user (const char); int; T "umode_t"];
    P "link" [user (const char); user (const char)]; P "unlink" [user (const char)];
    P "mknod" [user (const char); T "umode_t"; unsigned]; P "chmod" [user (const char); T "umode_t"];
    P "chown" [user (const char); T "uid_t"; T "gid_t"]; P "mkdir" [user (const char); T "umode_t"];
    P "rmdir" [user (const char)]; P "lchown" [user (const char); T "uid_t"; T "gid_t"];
    P "access" [user (const char); int]; P "rename" [user (const char); user (const char)];
    P "symlink" [user (const char); user (const char)]] ++
  under [[(true, "__ARCH_WANT_STAT64"); (true, "__ARCH_WANT_COMPAT_STAT64")]] [
    P "stat64" [user (const char); user (struct "stat64")]; P "lstat64" [user (const char); user (struct "stat64")]] ++
  always [
    P "pipe" [user int]; P "dup2" [unsigned; unsigned]; P "epoll_create" [int]; P "inotify_init" [];
    P "eventfd" [unsigned]; P "signalfd" [int; user (T "sigset_t"); T "size_t"];
    P "sendfile" [int; int; user (T "off_t"); T "size_t"]; P "newstat" [user (const char); user (struct "stat")];
    P "newlstat" [user (const char); user (struct "stat")]; P "fadvise64" [int; T "loff_t"; T "size_t"; int];
    P "alarm" [unsigned]; P "getpgrp" []; P "pause" []; P "time" [user (T "__kernel_old_time_t")];
    P "time32" [user (T "old_time32_t")]] ++
  under [[(true, "__ARCH_WANT_SYS_UTIME")]] [
    P "utime" [user char; user (struct "utimbuf")]; P "utimes" [user char; user (struct "__kernel_old_timeval")];
    P "futimesat" [int; user (const char); user (struct "__kernel_old_timeval")]] ++
  always [
    P "futimesat_time32" [unsigned; user (const char); user (struct "old_timeval32")];
    P "utime32" [user (const char); user (struct "old_utimbuf32")];
    P "utimes_time32" [user (const char); user (struct "old_timeval32")]; P "creat" [user (const char); T "umode_t"];
    P "getdents" [unsigned; user (struct "linux_dirent"); unsigned];
    P "select" [int; user (T "fd_set"); user (T "fd_set"); user (T "fd_set"); user (struct "__kernel_old_timeval")];
    P "poll" [user (struct "pollfd"); unsigned; int]; P "epoll_wait" [int; user (struct "epoll_event"); int; int];
    P "ustat" [unsigned; user (struct "ustat")]; P "vfork" []; P "recv" [int; user TVoid; T "size_t"; unsigned];
    P "send" [int; user TVoid; T "size_t"; unsigned]; P "oldumount" [user char]; P "uselib" [user (const char)];
    P "sysfs" [int; ulong; ulong]].

Definition protos_8 : list (guard * proto) :=
  always [
    P "fork" []; P "stime" [user (T "__kernel_old_time_t")]; P "stime32" [user (T "old_time32_t")];
    P "sigpending" [user (T "old_sigset_t")]; P "sigprocmask" [int; user (T "old_sigset_t"); user (T "old_sigset_t")]] ++
  under [[(true, "CONFIG_OLD_SIGSUSPEND")]] [
    P "sigsuspend" [T "old_sigset_t"]] ++
  under [[(true, "CONFIG_OLD_SIGSUSPEND3")]] [
    P "sigsuspend" [int; int; T "old_sigset_t"]] ++
  under [[(true, "CONFIG_OLD_SIGACTION")]] [
    P "sigaction" [int; user (const (struct "old_sigaction")); user (struct "old_sigaction")]] ++
  always [
    P "sgetmask" []; P "ssetmask" [int]; P "signal" [int; T "__sighandler_t"]; P "nice" [int];
    P "kexec_file_load" [int; int; ulong; user (const char); ulong]; P "waitpid" [T "pid_t"; user int; int]] ++
  under [[(true, "CONFIG_HAVE_UID16")]] [
    P "chown16" [user (const char); T "old_uid_t"; T "old_gid_t"];
    P "lchown16" [user (const char); T "old_uid_t"; T "old_gid_t"];
    P "fchown16" [unsigned; T "old_uid_t"; T "old_gid_t"]; P "setregid16" [T "old_gid_t"; T "old_gid_t"];
    P "setgid16" [T "old_gid_t"]; P "setreuid16" [T "old_uid_t"; T "old_uid_t"]; P "setuid16" [T "old_uid_t"];
    P "setresuid16" [T "old_uid_t"; T "old_uid_t"; T "old_uid_t"];
    P "getresuid16" [user (T "old_uid_t"); user (T "old_uid_t"); user (T "old_uid_t")];
    P "setresgid16" [T "old_gid_t"; T "old_gid_t"; T "old_gid_t"];
    P "getresgid16" [user (T "old_gid_t"); user (T "old_gid_t"); user (T "old_gid_t")];
    P "setfsuid16" [T "old_uid_t"]; P "setfsgid16" [T "old_gid_t"]; P "getgroups16" [int; user (T "old_gid_t")];
    P "setgroups16" [int; user (T "old_gid_t")]; P "getuid16" []; P "geteuid16" []; P "getgid16" []; P "getegid16" []] ++
  always [
    P "socketcall" [int; user ulong]; P "stat" [user (const char); user (struct "__old_kernel_stat")];
    P "lstat" [user (const char); user (struct "__old_kernel_stat")];
    P "fstat" [unsigned; user (struct "__old_kernel_stat")]; P "readlink" [user (const char); user char; int];
    P "old_select" [user (struct "sel_arg_struct")];
    P "old_readdir" [unsigned; user (struct "old_linux_dirent"); unsigned]; P "gethostname" [user char; int];
    P "uname" [user (struct "old_utsname")]; P "olduname" [user (struct "oldold_utsname")]] ++
  under [[(true, "__ARCH_WANT_SYS_OLD_GETRLIMIT")]] [
    P "old_getrlimit" [unsigned; user (struct "rlimit")]] ++
  always [
    P "ipc" [unsigned; int; ulong; ulong; user TVoid; long];
    P "mmap_pgoff" [ulong; ulong; ulong; ulong; ulong; ulong]; P "old_mmap" [user (struct "mmap_arg_struct")];
    P "ni_syscall" []].

Definition protos : list (guard * proto) :=
  protos_1 ++ protos_2 ++ protos_3 ++ protos_4 ++ protos_5 ++ protos_luis ++ protos_7 ++ protos_8.

Abbreviation prototypes c := (visible c protos).

(** ** Definitions *)
Definition define_setpriority : sysdef :=
  SYSCALL_DEFINE 3 "setpriority" [(int, "which"); (int, "who"); (int, "niceval")].
Definition define_getpriority : sysdef := SYSCALL_DEFINE 2 "getpriority" [(int, "which"); (int, "who")].
Definition define_setregid : sysdef := SYSCALL_DEFINE 2 "setregid" [(T "gid_t", "rgid"); (T "gid_t", "egid")].
Definition define_setgid : sysdef := SYSCALL_DEFINE 1 "setgid" [(T "gid_t", "gid")].
Definition define_setreuid : sysdef := SYSCALL_DEFINE 2 "setreuid" [(T "uid_t", "ruid"); (T "uid_t", "euid")].
Definition define_setuid : sysdef := SYSCALL_DEFINE 1 "setuid" [(T "uid_t", "uid")].
Definition define_setresuid : sysdef :=
  SYSCALL_DEFINE 3 "setresuid" [(T "uid_t", "ruid"); (T "uid_t", "euid"); (T "uid_t", "suid")].
Definition define_getresuid : sysdef :=
  SYSCALL_DEFINE 3 "getresuid" [(user (T "uid_t"), "ruidp"); (user (T "uid_t"), "euidp");
    (user (T "uid_t"), "suidp")].
Definition define_setresgid : sysdef :=
  SYSCALL_DEFINE 3 "setresgid" [(T "gid_t", "rgid"); (T "gid_t", "egid"); (T "gid_t", "sgid")].
Definition define_getresgid : sysdef :=
  SYSCALL_DEFINE 3 "getresgid" [(user (T "gid_t"), "rgidp"); (user (T "gid_t"), "egidp");
    (user (T "gid_t"), "sgidp")].
Definition define_setfsuid : sysdef := SYSCALL_DEFINE 1 "setfsuid" [(T "uid_t", "uid")].
Definition define_setfsgid : sysdef := SYSCALL_DEFINE 1 "setfsgid" [(T "gid_t", "gid")].
Definition define_getpid : sysdef := SYSCALL_DEFINE 0 "getpid" [].
Definition define_gettid : sysdef := SYSCALL_DEFINE 0 "gettid" [].
Definition define_getppid : sysdef := SYSCALL_DEFINE 0 "getppid" [].
Definition define_getuid : sysdef := SYSCALL_DEFINE 0 "getuid" [].
Definition define_geteuid : sysdef := SYSCALL_DEFINE 0 "geteuid" [].
Definition define_getgid : sysdef := SYSCALL_DEFINE 0 "getgid" [].
Definition define_getegid : sysdef := SYSCALL_DEFINE 0 "getegid" [].
Definition define_times : sysdef := SYSCALL_DEFINE 1 "times" [(user (struct "tms"), "tbuf")].
Definition define_setpgid : sysdef := SYSCALL_DEFINE 2 "setpgid" [(T "pid_t", "pid"); (T "pid_t", "pgid")].
Definition define_getpgid : sysdef := SYSCALL_DEFINE 1 "getpgid" [(T "pid_t", "pid")].
Definition define_getpgrp : sysdef := SYSCALL_DEFINE 0 "getpgrp" [].
Definition define_getsid : sysdef := SYSCALL_DEFINE 1 "getsid" [(T "pid_t", "pid")].
Definition define_setsid : sysdef := SYSCALL_DEFINE 0 "setsid" [].
Definition define_newuname : sysdef := SYSCALL_DEFINE 1 "newuname" [(user (struct "new_utsname"), "name")].
Definition define_uname : sysdef := SYSCALL_DEFINE 1 "uname" [(user (struct "old_utsname"), "name")].
Definition define_olduname : sysdef := SYSCALL_DEFINE 1 "olduname" [(user (struct "oldold_utsname"), "name")].
Definition define_sethostname : sysdef := SYSCALL_DEFINE 2 "sethostname" [(user char, "name"); (int, "len")].
Definition define_gethostname : sysdef := SYSCALL_DEFINE 2 "gethostname" [(user char, "name"); (int, "len")].
Definition define_setdomainname : sysdef := SYSCALL_DEFINE 2 "setdomainname" [(user char, "name"); (int, "len")].
Definition define_getrlimit : sysdef :=
  SYSCALL_DEFINE 2 "getrlimit" [(unsigned, "resource"); (user (struct "rlimit"), "rlim")].
Definition define_old_getrlimit : sysdef :=
  SYSCALL_DEFINE 2 "old_getrlimit" [(unsigned, "resource"); (user (struct "rlimit"), "rlim")].
Definition define_prlimit64 : sysdef :=
  SYSCALL_DEFINE 4 "prlimit64" [(T "pid_t", "pid"); (unsigned, "resource");
    (user (const (struct "rlimit64")), "new_rlim"); (user (struct "rlimit64"), "old_rlim")].
Definition define_setrlimit : sysdef :=
  SYSCALL_DEFINE 2 "setrlimit" [(unsigned, "resource"); (user (struct "rlimit"), "rlim")].
Definition define_getrusage : sysdef := SYSCALL_DEFINE 2 "getrusage" [(int, "who"); (user (struct "rusage"), "ru")].
Definition define_umask : sysdef := SYSCALL_DEFINE 1 "umask" [(int, "mask")].
Definition define_prctl : sysdef :=
  SYSCALL_DEFINE 5 "prctl" [(int, "option"); (ulong, "arg2"); (ulong, "arg3"); (ulong, "arg4"); (ulong, "arg5")].
Definition define_getcpu : sysdef :=
  SYSCALL_DEFINE 3 "getcpu" [(user unsigned, "cpup"); (user unsigned, "nodep");
    (user (struct "getcpu_cache"), "unused")].
Definition define_sysinfo : sysdef := SYSCALL_DEFINE 1 "sysinfo" [(user (struct "sysinfo"), "info")].
Definition define_luis_capture_memory_snapshot : sysdef :=
  SYSCALL_DEFINE 1 "luis_capture_memory_snapshot" [(user (struct "memory_snapshot"), "user_snapshot")].
Definition define_luis_track_syscall_usage : sysdef :=
  SYSCALL_DEFINE 1 "luis_track_syscall_usage" [(user (struct "track_counters"), "trackers")].
Definition define_luis_get_io_throttle : sysdef :=
  SYSCALL_DEFINE 1 "luis_get_io_throttle" [(user (struct "all_io_stats"), "user_stats")].
Definition define_luis_tamalloc : sysdef :=
  SYSCALL_DEFINE 2 "luis_tamalloc" [(T "size_t", "size"); (user ulong, "addr")].
Definition define_set_tid_address : sysdef := SYSCALL_DEFINE 1 "set_tid_address" [(user int, "tidptr")].
Definition define_fork : sysdef := SYSCALL_DEFINE 0 "fork" [].
Definition define_vfork : sysdef := SYSCALL_DEFINE 0 "vfork" [].
Definition define_clone_backwards : sysdef :=
  SYSCALL_DEFINE 5 "clone" [(ulong, "clone_flags"); (ulong, "newsp"); (user int, "parent_tidptr"); (ulong, "tls");
    (user int, "child_tidptr")].
Definition define_clone_backwards2 : sysdef :=
  SYSCALL_DEFINE 5 "clone" [(ulong, "newsp"); (ulong, "clone_flags"); (user int, "parent_tidptr");
    (user int, "child_tidptr"); (ulong, "tls")].
Definition define_clone_backwards3 : sysdef :=
  SYSCALL_DEFINE 6 "clone" [(ulong, "clone_flags"); (ulong, "newsp"); (int, "stack_size");
    (user int, "parent_tidptr"); (user int, "child_tidptr"); (ulong, "tls")].
Definition define_clone : sysdef :=
  SYSCALL_DEFINE 5 "clone" [(ulong, "clone_flags"); (ulong, "newsp"); (user int, "parent_tidptr");
    (user int, "child_tidptr"); (ulong, "tls")].
Definition define_clone3 : sysdef :=
  SYSCALL_DEFINE 2 "clone3" [(user (struct "clone_args"), "uargs"); (T "size_t", "size")].
Definition define_unshare : sysdef := SYSCALL_DEFINE 1 "unshare" [(ulong, "unshare_flags")].
Definition define_luis_add_memory_limit : sysdef :=
  SYSCALL_DEFINE 2 "luis_add_memory_limit" [(T "pid_t", "process_pid"); (T "size_t", "memory_limit")].
Definition define_luis_get_memory_limits : sysdef :=
  SYSCALL_DEFINE 3 "luis_get_memory_limits" [(ptr (struct "memory_limitation"), "u_processes_buffer");
    (T "size_t", "max_entries"); (ptr int, "processes_buffer_size")].
Definition define_luis_update_memory_limit : sysdef :=
  SYSCALL_DEFINE 2 "luis_update_memory_limit" [(T "pid_t", "process_pid"); (T "size_t", "memory_limit")].
Definition define_luis_remove_memory_limit : sysdef :=
  SYSCALL_DEFINE 1 "luis_remove_memory_limit" [(T "pid_t", "process_pid")].
Definition define_truncate : sysdef := SYSCALL_DEFINE 2 "truncate" [(user (const char), "path"); (long, "length")].
Definition define_ftruncate : sysdef := SYSCALL_DEFINE 2 "ftruncate" [(unsigned, "fd"); (ulong, "length")].
Definition define_truncate64 : sysdef :=
  SYSCALL_DEFINE 2 "truncate64" [(user (const char), "path"); (T "loff_t", "length")].
Definition define_ftruncate64 : sysdef := SYSCALL_DEFINE 2 "ftruncate64" [(unsigned, "fd"); (T "loff_t", "length")].
Definition define_fallocate : sysdef :=
  SYSCALL_DEFINE 4 "fallocate" [(int, "fd"); (int, "mode"); (T "loff_t", "offset"); (T "loff_t", "len")].
Definition define_faccessat : sysdef :=
  SYSCALL_DEFINE 3 "faccessat" [(int, "dfd"); (user (const char), "filename"); (int, "mode")].
Definition define_faccessat2 : sysdef :=
  SYSCALL_DEFINE 4 "faccessat2" [(int, "dfd"); (user (const char), "filename"); (int, "mode"); (int, "flags")].
Definition define_access : sysdef := SYSCALL_DEFINE 2 "access" [(user (const char), "filename"); (int, "mode")].
Definition define_chdir : sysdef := SYSCALL_DEFINE 1 "chdir" [(user (const char), "filename")].
Definition define_fchdir : sysdef := SYSCALL_DEFINE 1 "fchdir" [(unsigned, "fd")].
Definition define_chroot : sysdef := SYSCALL_DEFINE 1 "chroot" [(user (const char), "filename")].
Definition define_fchmod : sysdef := SYSCALL_DEFINE 2 "fchmod" [(unsigned, "fd"); (T "umode_t", "mode")].
Definition define_fchmodat2 : sysdef :=
  SYSCALL_DEFINE 4 "fchmodat2" [(int, "dfd"); (user (const char), "filename"); (T "umode_t", "mode");
    (unsigned, "flags")].
Definition define_fchmodat : sysdef :=
  SYSCALL_DEFINE 3 "fchmodat" [(int, "dfd"); (user (const char), "filename"); (T "umode_t", "mode")].
Definition define_chmod : sysdef := SYSCALL_DEFINE 2 "chmod" [(user (const char), "filename"); (T "umode_t", "mode")].
Definition define_fchownat : sysdef :=
  SYSCALL_DEFINE 5 "fchownat" [(int, "dfd"); (user (const char), "filename"); (T "uid_t", "user");
    (T "gid_t", "group"); (int, "flag")].
Definition define_chown : sysdef :=
  SYSCALL_DEFINE 3 "chown" [(user (const char), "filename"); (T "uid_t", "user"); (T "gid_t", "group")].
Definition define_lchown : sysdef :=
  SYSCALL_DEFINE 3 "lchown" [(user (const char), "filename"); (T "uid_t", "user"); (T "gid_t", "group")].
Definition define_fchown : sysdef :=
  SYSCALL_DEFINE 3 "fchown" [(unsigned, "fd"); (T "uid_t", "user"); (T "gid_t", "group")].
Definition define_open : sysdef :=
  SYSCALL_DEFINE 3 "open" [(user (const char), "filename"); (int, "flags"); (T "umode_t", "mode")].
Definition define_openat : sysdef :=
  SYSCALL_DEFINE 4 "openat" [(int, "dfd"); (user (const char), "filename"); (int, "flags"); (T "umode_t", "mode")].
Definition define_openat2 : sysdef :=
  SYSCALL_DEFINE 4 "openat2" [(int, "dfd"); (user (const char), "filename"); (user (struct "open_how"), "how");
    (T "size_t", "usize")].
Definition define_creat : sysdef := SYSCALL_DEFINE 2 "creat" [(user (const char), "pathname"); (T "umode_t", "mode")].
Definition define_close : sysdef := SYSCALL_DEFINE 1 "close" [(unsigned, "fd")].
Definition define_close_range : sysdef :=
  SYSCALL_DEFINE 3 "close_range" [(unsigned, "fd"); (unsigned, "max_fd"); (unsigned, "flags")].
Definition define_vhangup : sysdef := SYSCALL_DEFINE 0 "vhangup" [].
Definition define_lseek : sysdef :=
  SYSCALL_DEFINE 3 "lseek" [(unsigned, "fd"); (T "off_t", "offset"); (unsigned, "whence")].
Definition define_llseek : sysdef :=
  SYSCALL_DEFINE 5 "llseek" [(unsigned, "fd"); (ulong, "offset_high"); (ulong, "offset_low");
    (user (T "loff_t"), "result"); (unsigned, "whence")].
Definition define_read : sysdef :=
  SYSCALL_DEFINE 3 "read" [(unsigned, "fd"); (user char, "buf"); (T "size_t", "count")].
Definition define_write : sysdef :=
  SYSCALL_DEFINE 3 "write" [(unsigned, "fd"); (user (const char), "buf"); (T "size_t", "count")].
Definition define_pread64 : sysdef :=
  SYSCALL_DEFINE 4 "pread64" [(unsigned, "fd"); (user char, "buf"); (T "size_t", "count"); (T "loff_t", "pos")].
Definition define_pwrite64 : sysdef :=
  SYSCALL_DEFINE 4 "pwrite64" [(unsigned, "fd"); (user (const char), "buf"); (T "size_t", "count");
    (T "loff_t", "pos")].
Definition define_readv : sysdef :=
  SYSCALL_DEFINE 3 "readv" [(ulong, "fd"); (user (const (struct "iovec")), "vec"); (ulong, "vlen")].
Definition define_writev : sysdef :=
  SYSCALL_DEFINE 3 "writev" [(ulong, "fd"); (user (const (struct "iovec")), "vec"); (ulong, "vlen")].
Definition define_preadv : sysdef :=
  SYSCALL_DEFINE 5 "preadv" [(ulong, "fd"); (user (const (struct "iovec")), "vec"); (ulong, "vlen");
    (ulong, "pos_l"); (ulong, "pos_h")].
Definition define_preadv2 : sysdef :=
  SYSCALL_DEFINE 6 "preadv2" [(ulong, "fd"); (user (const (struct "iovec")), "vec"); (ulong, "vlen");
    (ulong, "pos_l"); (ulong, "pos_h"); (T "rwf_t", "flags")].
Definition define_pwritev : sysdef :=
  SYSCALL_DEFINE 5 "pwritev" [(ulong, "fd"); (user (const (struct "iovec")), "vec"); (ulong, "vlen");
    (ulong, "pos_l"); (ulong, "pos_h")].
Definition define_pwritev2 : sysdef :=
  SYSCALL_DEFINE 6 "pwritev2" [(ulong, "fd"); (user (const (struct "iovec")), "vec"); (ulong, "vlen");
    (ulong, "pos_l"); (ulong, "pos_h"); (T "rwf_t", "flags")].
Definition define_sendfile : sysdef :=
  SYSCALL_DEFINE 4 "sendfile" [(int, "out_fd"); (int, "in_fd"); (user (T "off_t"), "offset"); (T "size_t", "count")].
Definition define_sendfile64 : sysdef :=
  SYSCALL_DEFINE 4 "sendfile64" [(int, "out_fd"); (int, "in_fd"); (user (T "loff_t"), "offset");
    (T "size_t", "count")].
Definition define_copy_file_range : sysdef :=
  SYSCALL_DEFINE 6 "copy_file_range" [(int, "fd_in"); (user (T "loff_t"), "off_in"); (int, "fd_out");
    (user (T "loff_t"), "off_out"); (T "size_t", "len"); (unsigned, "flags")].

Definition sys_c : list (guard * sysdef) := [
  ([], define_setpriority); ([], define_getpriority); ([[(true, "CONFIG_MULTIUSER")]], define_setregid);
  ([[(true, "CONFIG_MULTIUSER")]], define_setgid); ([[(true, "CONFIG_MULTIUSER")]], define_setreuid);
  ([[(true, "CONFIG_MULTIUSER")]], define_setuid); ([[(true, "CONFIG_MULTIUSER")]], define_setresuid);
  ([[(true, "CONFIG_MULTIUSER")]], define_getresuid); ([[(true, "CONFIG_MULTIUSER")]], define_setresgid);
  ([[(true, "CONFIG_MULTIUSER")]], define_getresgid); ([[(true, "CONFIG_MULTIUSER")]], define_setfsuid);
  ([[(true, "CONFIG_MULTIUSER")]], define_setfsgid); ([], define_getpid); ([], define_gettid); ([], define_getppid);
  ([], define_getuid); ([], define_geteuid); ([], define_getgid); ([], define_getegid); ([], define_times);
  ([], define_setpgid); ([], define_getpgid); ([[(true, "__ARCH_WANT_SYS_GETPGRP")]], define_getpgrp);
  ([], define_getsid); ([], define_setsid); ([], define_newuname);
  ([[(true, "__ARCH_WANT_SYS_OLD_UNAME")]], define_uname);
  ([[(true, "__ARCH_WANT_SYS_OLD_UNAME")]], define_olduname); ([], define_sethostname);
  ([[(true, "__ARCH_WANT_SYS_GETHOSTNAME")]], define_gethostname); ([], define_setdomainname);
  ([], define_getrlimit); ([[(true, "__ARCH_WANT_SYS_OLD_GETRLIMIT")]], define_old_getrlimit);
  ([], define_prlimit64); ([], define_setrlimit); ([], define_getrusage); ([], define_umask); ([], define_prctl);
  ([], define_getcpu); ([], define_sysinfo); ([], define_luis_capture_memory_snapshot);
  ([], define_luis_track_syscall_usage); ([], define_luis_get_io_throttle); ([], define_luis_tamalloc)].
Definition fork_c : list (guard * sysdef) := [
  ([], define_set_tid_address); ([[(true, "__ARCH_WANT_SYS_FORK")]], define_fork);
  ([[(true, "__ARCH_WANT_SYS_VFORK")]], define_vfork);
  ([[(true, "__ARCH_WANT_SYS_CLONE")]; [(true, "CONFIG_CLONE_BACKWARDS")]], define_clone_backwards);
  ([[(true, "__ARCH_WANT_SYS_CLONE")]; [(false, "CONFIG_CLONE_BACKWARDS")]; [(true, "CONFIG_CLONE_BACKWARDS2")]], define_clone_backwards2);
  ([[(true, "__ARCH_WANT_SYS_CLONE")]; [(false, "CONFIG_CLONE_BACKWARDS")]; [(false, "CONFIG_CLONE_BACKWARDS2")]; [(true, "CONFIG_CLONE_BACKWARDS3")]], define_clone_backwards3);
  ([[(true, "__ARCH_WANT_SYS_CLONE")]; [(false, "CONFIG_CLONE_BACKWARDS")]; [(false, "CONFIG_CLONE_BACKWARDS2")]; [(false, "CONFIG_CLONE_BACKWARDS3")]], define_clone);
  ([[(true, "__ARCH_WANT_SYS_CLONE3")]], define_clone3); ([], define_unshare)].
Definition syscall3_c : list (guard * sysdef) := [
  ([], define_luis_add_memory_limit); ([], define_luis_get_memory_limits); ([], define_luis_update_memory_limit);
  ([], define_luis_remove_memory_limit)].
Definition open_c : list (guard * sysdef) := [
  ([], define_truncate); ([], define_ftruncate); ([[(true, "BITS_PER_LONG == 32")]], define_truncate64);
  ([[(true, "BITS_PER_LONG == 32")]], define_ftruncate64); ([], define_fallocate); ([], define_faccessat);
  ([], define_faccessat2); ([], define_access); ([], define_chdir); ([], define_fchdir); ([], define_chroot);
  ([], define_fchmod); ([], define_fchmodat2); ([], define_fchmodat); ([], define_chmod); ([], define_fchownat);
  ([], define_chown); ([], define_lchown); ([], define_fchown); ([], define_open); ([], define_openat);
  ([], define_openat2); ([[(false, "__alpha__")]], define_creat); ([], define_close); ([], define_close_range);
  ([], define_vhangup)].
Definition read_write_c : list (guard * sysdef) := [
  ([], define_lseek);
  ([[(false, "CONFIG_64BIT"); (true, "CONFIG_COMPAT"); (true, "__ARCH_WANT_SYS_LLSEEK")]], define_llseek);
  ([], define_read); ([], define_write); ([], define_pread64); ([], define_pwrite64); ([], define_readv);
  ([], define_writev); ([], define_preadv); ([], define_preadv2); ([], define_pwritev); ([], define_pwritev2);
  ([], define_sendfile); ([], define_sendfile64); ([], define_copy_file_range)].
Definition all_defines : list (guard * sysdef) := sys_c ++ fork_c ++ syscall3_c ++ open_c ++ read_write_c.
Abbreviation definitions c := (visible c all_defines).

(** ** Numbers *)
Inductive abi := common | abi64 | x32.
#[export] Instance abi_eq : EqDecision abi.
Proof. solve_decision. Defined.

(** [<number> <abi> <name> <entry point>], the entry point missing for retired calls *)
Record row := Row { number : Z; row_abi : abi; row_name : string; entry : option string }.
#[local] Abbreviation R n a s e := (Row n a s (Some e)) (only parsing).

Definition table_1 : list row := [
  R 0 common "read" "sys_read"; R 1 common "write" "sys_write"; R 2 common "open" "sys_open";
  R 3 common "close" "sys_close"; R 4 common "stat" "sys_newstat"; R 5 common "fstat" "sys_newfstat";
  R 6 common "lstat" "sys_newlstat"; R 7 common "poll" "sys_poll"; R 8 common "lseek" "sys_lseek";
  R 9 common "mmap" "sys_mmap"; R 10 common "mprotect" "sys_mprotect"; R 11 common "munmap" "sys_munmap";
  R 12 common "brk" "sys_brk"; R 13 abi64 "rt_sigaction" "sys_rt_sigaction";
  R 14 common "rt_sigprocmask" "sys_rt_sigprocmask"; R 15 abi64 "rt_sigreturn" "sys_rt_sigreturn";
  R 16 abi64 "ioctl" "sys_ioctl"; R 17 common "pread64" "sys_pread64"; R 18 common "pwrite64" "sys_pwrite64";
  R 19 abi64 "readv" "sys_readv"; R 20 abi64 "writev" "sys_writev"; R 21 common "access" "sys_access";
  R 22 common "pipe" "sys_pipe"; R 23 common "select" "sys_select"; R 24 common "sched_yield" "sys_sched_yield";
  R 25 common "mremap" "sys_mremap"; R 26 common "msync" "sys_msync"; R 27 common "mincore" "sys_mincore";
  R 28 common "madvise" "sys_madvise"; R 29 common "shmget" "sys_shmget"; R 30 common "shmat" "sys_shmat";
  R 31 common "shmctl" "sys_shmctl"; R 32 common "dup" "sys_dup"; R 33 common "dup2" "sys_dup2";
  R 34 common "pause" "sys_pause"; R 35 common "nanosleep" "sys_nanosleep"; R 36 common "getitimer" "sys_getitimer";
  R 37 common "alarm" "sys_alarm"; R 38 common "setitimer" "sys_setitimer"; R 39 common "getpid" "sys_getpid";
  R 40 common "sendfile" "sys_sendfile64"; R 41 common "socket" "sys_socket"; R 42 common "connect" "sys_connect";
  R 43 common "accept" "sys_accept"; R 44 common "sendto" "sys_sendto"; R 45 abi64 "recvfrom" "sys_recvfrom";
  R 46 abi64 "sendmsg" "sys_sendmsg"; R 47 abi64 "recvmsg" "sys_recvmsg"; R 48 common "shutdown" "sys_shutdown";
  R 49 common "bind" "sys_bind"; R 50 common "listen" "sys_listen"; R 51 common "getsockname" "sys_getsockname";
  R 52 common "getpeername" "sys_getpeername"; R 53 common "socketpair" "sys_socketpair";
  R 54 abi64 "setsockopt" "sys_setsockopt"; R 55 abi64 "getsockopt" "sys_getsockopt";
  R 56 common "clone" "sys_clone"; R 57 common "fork" "sys_fork"; R 58 common "vfork" "sys_vfork";
  R 59 abi64 "execve" "sys_execve"; R 60 common "exit" "sys_exit"; R 61 common "wait4" "sys_wait4";
  R 62 common "kill" "sys_kill"; R 63 common "uname" "sys_newuname"; R 64 common "semget" "sys_semget";
  R 65 common "semop" "sys_semop"; R 66 common "semctl" "sys_semctl"; R 67 common "shmdt" "sys_shmdt";
  R 68 common "msgget" "sys_msgget"; R 69 common "msgsnd" "sys_msgsnd"; R 70 common "msgrcv" "sys_msgrcv";
  R 71 common "msgctl" "sys_msgctl"; R 72 common "fcntl" "sys_fcntl"; R 73 common "flock" "sys_flock";
  R 74 common "fsync" "sys_fsync"; R 75 common "fdatasync" "sys_fdatasync"; R 76 common "truncate" "sys_truncate";
  R 77 common "ftruncate" "sys_ftruncate"; R 78 common "getdents" "sys_getdents"; R 79 common "getcwd" "sys_getcwd";
  R 80 common "chdir" "sys_chdir"; R 81 common "fchdir" "sys_fchdir"; R 82 common "rename" "sys_rename";
  R 83 common "mkdir" "sys_mkdir"; R 84 common "rmdir" "sys_rmdir"; R 85 common "creat" "sys_creat";
  R 86 common "link" "sys_link"; R 87 common "unlink" "sys_unlink"; R 88 common "symlink" "sys_symlink";
  R 89 common "readlink" "sys_readlink"; R 90 common "chmod" "sys_chmod"; R 91 common "fchmod" "sys_fchmod";
  R 92 common "chown" "sys_chown"; R 93 common "fchown" "sys_fchown"; R 94 common "lchown" "sys_lchown";
  R 95 common "umask" "sys_umask"; R 96 common "gettimeofday" "sys_gettimeofday";
  R 97 common "getrlimit" "sys_getrlimit"; R 98 common "getrusage" "sys_getrusage";
  R 99 common "sysinfo" "sys_sysinfo"; R 100 common "times" "sys_times"; R 101 abi64 "ptrace" "sys_ptrace";
  R 102 common "getuid" "sys_getuid"; R 103 common "syslog" "sys_syslog"; R 104 common "getgid" "sys_getgid";
  R 105 common "setuid" "sys_setuid"; R 106 common "setgid" "sys_setgid"; R 107 common "geteuid" "sys_geteuid";
  R 108 common "getegid" "sys_getegid"; R 109 common "setpgid" "sys_setpgid"; R 110 common "getppid" "sys_getppid";
  R 111 common "getpgrp" "sys_getpgrp"; R 112 common "setsid" "sys_setsid"; R 113 common "setreuid" "sys_setreuid";
  R 114 common "setregid" "sys_setregid"; R 115 common "getgroups" "sys_getgroups";
  R 116 common "setgroups" "sys_setgroups"; R 117 common "setresuid" "sys_setresuid";
  R 118 common "getresuid" "sys_getresuid"; R 119 common "setresgid" "sys_setresgid";
  R 120 common "getresgid" "sys_getresgid"; R 121 common "getpgid" "sys_getpgid";
  R 122 common "setfsuid" "sys_setfsuid"; R 123 common "setfsgid" "sys_setfsgid"; R 124 common "getsid" "sys_getsid";
  R 125 common "capget" "sys_capget"; R 126 common "capset" "sys_capset";
  R 127 abi64 "rt_sigpending" "sys_rt_sigpending"; R 128 abi64 "rt_sigtimedwait" "sys_rt_sigtimedwait";
  R 129 abi64 "rt_sigqueueinfo" "sys_rt_sigqueueinfo"; R 130 common "rt_sigsuspend" "sys_rt_sigsuspend";
  R 131 abi64 "sigaltstack" "sys_sigaltstack"; R 132 common "utime" "sys_utime"; R 133 common "mknod" "sys_mknod";
  Row 134 abi64 "uselib" None; R 135 common "personality" "sys_personality"; R 136 common "ustat" "sys_ustat";
  R 137 common "statfs" "sys_statfs"; R 138 common "fstatfs" "sys_fstatfs"; R 139 common "sysfs" "sys_sysfs"].
Definition table_2 : list row := [
  R 140 common "getpriority" "sys_getpriority"; R 141 common "setpriority" "sys_setpriority";
  R 142 common "sched_setparam" "sys_sched_setparam"; R 143 common "sched_getparam" "sys_sched_getparam";
  R 144 common "sched_setscheduler" "sys_sched_setscheduler";
  R 145 common "sched_getscheduler" "sys_sched_getscheduler";
  R 146 common "sched_get_priority_max" "sys_sched_get_priority_max";
  R 147 common "sched_get_priority_min" "sys_sched_get_priority_min";
  R 148 common "sched_rr_get_interval" "sys_sched_rr_get_interval"; R 149 common "mlock" "sys_mlock";
  R 150 common "munlock" "sys_munlock"; R 151 common "mlockall" "sys_mlockall";
  R 152 common "munlockall" "sys_munlockall"; R 153 common "vhangup" "sys_vhangup";
  R 154 common "modify_ldt" "sys_modify_ldt"; R 155 common "pivot_root" "sys_pivot_root";
  R 156 abi64 "_sysctl" "sys_ni_syscall"; R 157 common "prctl" "sys_prctl";
  R 158 common "arch_prctl" "sys_arch_prctl"; R 159 common "adjtimex" "sys_adjtimex";
  R 160 common "setrlimit" "sys_setrlimit"; R 161 common "chroot" "sys_chroot"; R 162 common "sync" "sys_sync";
  R 163 common "acct" "sys_acct"; R 164 common "settimeofday" "sys_settimeofday"; R 165 common "mount" "sys_mount";
  R 166 common "umount2" "sys_umount"; R 167 common "swapon" "sys_swapon"; R 168 common "swapoff" "sys_swapoff";
  R 169 common "reboot" "sys_reboot"; R 170 common "sethostname" "sys_sethostname";
  R 171 common "setdomainname" "sys_setdomainname"; R 172 common "iopl" "sys_iopl";
  R 173 common "ioperm" "sys_ioperm"; Row 174 abi64 "create_module" None;
  R 175 common "init_module" "sys_init_module"; R 176 common "delete_module" "sys_delete_module";
  Row 177 abi64 "get_kernel_syms" None; Row 178 abi64 "query_module" None; R 179 common "quotactl" "sys_quotactl";
  Row 180 abi64 "nfsservctl" None; Row 181 common "getpmsg" None; Row 182 common "putpmsg" None;
  Row 183 common "afs_syscall" None; Row 184 common "tuxcall" None; Row 185 common "security" None;
  R 186 common "gettid" "sys_gettid"; R 187 common "readahead" "sys_readahead";
  R 188 common "setxattr" "sys_setxattr"; R 189 common "lsetxattr" "sys_lsetxattr";
  R 190 common "fsetxattr" "sys_fsetxattr"; R 191 common "getxattr" "sys_getxattr";
  R 192 common "lgetxattr" "sys_lgetxattr"; R 193 common "fgetxattr" "sys_fgetxattr";
  R 194 common "listxattr" "sys_listxattr"; R 195 common "llistxattr" "sys_llistxattr";
  R 196 common "flistxattr" "sys_flistxattr"; R 197 common "removexattr" "sys_removexattr";
  R 198 common "lremovexattr" "sys_lremovexattr"; R 199 common "fremovexattr" "sys_fremovexattr";
  R 200 common "tkill" "sys_tkill"; R 201 common "time" "sys_time"; R 202 common "futex" "sys_futex";
  R 203 common "sched_setaffinity" "sys_sched_setaffinity"; R 204 common "sched_getaffinity" "sys_sched_getaffinity";
  Row 205 abi64 "set_thread_area" None; R 206 abi64 "io_setup" "sys_io_setup";
  R 207 common "io_destroy" "sys_io_destroy"; R 208 common "io_getevents" "sys_io_getevents";
  R 209 abi64 "io_submit" "sys_io_submit"; R 210 common "io_cancel" "sys_io_cancel";
  Row 211 abi64 "get_thread_area" None; Row 212 common "lookup_dcookie" None;
  R 213 common "epoll_create" "sys_epoll_create"; Row 214 abi64 "epoll_ctl_old" None;
  Row 215 abi64 "epoll_wait_old" None; R 216 common "remap_file_pages" "sys_remap_file_pages";
  R 217 common "getdents64" "sys_getdents64"; R 218 common "set_tid_address" "sys_set_tid_address";
  R 219 common "restart_syscall" "sys_restart_syscall"; R 220 common "semtimedop" "sys_semtimedop";
  R 221 common "fadvise64" "sys_fadvise64"; R 222 abi64 "timer_create" "sys_timer_create";
  R 223 common "timer_settime" "sys_timer_settime"; R 224 common "timer_gettime" "sys_timer_gettime";
  R 225 common "timer_getoverrun" "sys_timer_getoverrun"; R 226 common "timer_delete" "sys_timer_delete";
  R 227 common "clock_settime" "sys_clock_settime"; R 228 common "clock_gettime" "sys_clock_gettime";
  R 229 common "clock_getres" "sys_clock_getres"; R 230 common "clock_nanosleep" "sys_clock_nanosleep";
  R 231 common "exit_group" "sys_exit_group"; R 232 common "epoll_wait" "sys_epoll_wait";
  R 233 common "epoll_ctl" "sys_epoll_ctl"; R 234 common "tgkill" "sys_tgkill"; R 235 common "utimes" "sys_utimes";
  Row 236 abi64 "vserver" None; R 237 common "mbind" "sys_mbind"; R 238 common "set_mempolicy" "sys_set_mempolicy";
  R 239 common "get_mempolicy" "sys_get_mempolicy"; R 240 common "mq_open" "sys_mq_open";
  R 241 common "mq_unlink" "sys_mq_unlink"; R 242 common "mq_timedsend" "sys_mq_timedsend";
  R 243 common "mq_timedreceive" "sys_mq_timedreceive"; R 244 abi64 "mq_notify" "sys_mq_notify";
  R 245 common "mq_getsetattr" "sys_mq_getsetattr"; R 246 abi64 "kexec_load" "sys_kexec_load";
  R 247 abi64 "waitid" "sys_waitid"; R 248 common "add_key" "sys_add_key";
  R 249 common "request_key" "sys_request_key"; R 250 common "keyctl" "sys_keyctl";
  R 251 common "ioprio_set" "sys_ioprio_set"; R 252 common "ioprio_get" "sys_ioprio_get";
  R 253 common "inotify_init" "sys_inotify_init"; R 254 common "inotify_add_watch" "sys_inotify_add_watch";
  R 255 common "inotify_rm_watch" "sys_inotify_rm_watch"; R 256 common "migrate_pages" "sys_migrate_pages";
  R 257 common "openat" "sys_openat"; R 258 common "mkdirat" "sys_mkdirat"; R 259 common "mknodat" "sys_mknodat";
  R 260 common "fchownat" "sys_fchownat"; R 261 common "futimesat" "sys_futimesat";
  R 262 common "newfstatat" "sys_newfstatat"; R 263 common "unlinkat" "sys_unlinkat";
  R 264 common "renameat" "sys_renameat"; R 265 common "linkat" "sys_linkat";
  R 266 common "symlinkat" "sys_symlinkat"; R 267 common "readlinkat" "sys_readlinkat";
  R 268 common "fchmodat" "sys_fchmodat"; R 269 common "faccessat" "sys_faccessat";
  R 270 common "pselect6" "sys_pselect6"; R 271 common "ppoll" "sys_ppoll"; R 272 common "unshare" "sys_unshare";
  R 273 abi64 "set_robust_list" "sys_set_robust_list"; R 274 abi64 "get_robust_list" "sys_get_robust_list";
  R 275 common "splice" "sys_splice"; R 276 common "tee" "sys_tee";
  R 277 common "sync_file_range" "sys_sync_file_range"; R 278 abi64 "vmsplice" "sys_vmsplice";
  R 279 abi64 "move_pages" "sys_move_pages"; R 280 common "utimensat" "sys_utimensat";
  R 281 common "epoll_pwait" "sys_epoll_pwait"; R 282 common "signalfd" "sys_signalfd";
  R 283 common "timerfd_create" "sys_timerfd_create"; R 284 common "eventfd" "sys_eventfd";
  R 285 common "fallocate" "sys_fallocate"; R 286 common "timerfd_settime" "sys_timerfd_settime";
  R 287 common "timerfd_gettime" "sys_timerfd_gettime"; R 288 common "accept4" "sys_accept4";
  R 289 common "signalfd4" "sys_signalfd4"].
Definition table_3 : list row := [
  R 290 common "eventfd2" "sys_eventfd2"; R 291 common "epoll_create1" "sys_epoll_create1";
  R 292 common "dup3" "sys_dup3"; R 293 common "pipe2" "sys_pipe2"; R 294 common "inotify_init1" "sys_inotify_init1";
  R 295 abi64 "preadv" "sys_preadv"; R 296 abi64 "pwritev" "sys_pwritev";
  R 297 abi64 "rt_tgsigqueueinfo" "sys_rt_tgsigqueueinfo"; R 298 common "perf_event_open" "sys_perf_event_open";
  R 299 abi64 "recvmmsg" "sys_recvmmsg"; R 300 common "fanotify_init" "sys_fanotify_init";
  R 301 common "fanotify_mark" "sys_fanotify_mark"; R 302 common "prlimit64" "sys_prlimit64";
  R 303 common "name_to_handle_at" "sys_name_to_handle_at"; R 304 common "open_by_handle_at" "sys_open_by_handle_at";
  R 305 common "clock_adjtime" "sys_clock_adjtime"; R 306 common "syncfs" "sys_syncfs";
  R 307 abi64 "sendmmsg" "sys_sendmmsg"; R 308 common "setns" "sys_setns"; R 309 common "getcpu" "sys_getcpu";
  R 310 abi64 "process_vm_readv" "sys_process_vm_readv"; R 311 abi64 "process_vm_writev" "sys_process_vm_writev";
  R 312 common "kcmp" "sys_kcmp"; R 313 common "finit_module" "sys_finit_module";
  R 314 common "sched_setattr" "sys_sched_setattr"; R 315 common "sched_getattr" "sys_sched_getattr";
  R 316 common "renameat2" "sys_renameat2"; R 317 common "seccomp" "sys_seccomp";
  R 318 common "getrandom" "sys_getrandom"; R 319 common "memfd_create" "sys_memfd_create";
  R 320 common "kexec_file_load" "sys_kexec_file_load"; R 321 common "bpf" "sys_bpf";
  R 322 abi64 "execveat" "sys_execveat"; R 323 common "userfaultfd" "sys_userfaultfd";
  R 324 common "membarrier" "sys_membarrier"; R 325 common "mlock2" "sys_mlock2";
  R 326 common "copy_file_range" "sys_copy_file_range"; R 327 abi64 "preadv2" "sys_preadv2";
  R 328 abi64 "pwritev2" "sys_pwritev2"; R 329 common "pkey_mprotect" "sys_pkey_mprotect";
  R 330 common "pkey_alloc" "sys_pkey_alloc"; R 331 common "pkey_free" "sys_pkey_free";
  R 332 common "statx" "sys_statx"; R 333 common "io_pgetevents" "sys_io_pgetevents"; R 334 common "rseq" "sys_rseq";
  R 424 common "pidfd_send_signal" "sys_pidfd_send_signal"; R 425 common "io_uring_setup" "sys_io_uring_setup";
  R 426 common "io_uring_enter" "sys_io_uring_enter"; R 427 common "io_uring_register" "sys_io_uring_register";
  R 428 common "open_tree" "sys_open_tree"; R 429 common "move_mount" "sys_move_mount";
  R 430 common "fsopen" "sys_fsopen"; R 431 common "fsconfig" "sys_fsconfig"; R 432 common "fsmount" "sys_fsmount";
  R 433 common "fspick" "sys_fspick"; R 434 common "pidfd_open" "sys_pidfd_open"; R 435 common "clone3" "sys_clone3";
  R 436 common "close_range" "sys_close_range"; R 437 common "openat2" "sys_openat2";
  R 438 common "pidfd_getfd" "sys_pidfd_getfd"; R 439 common "faccessat2" "sys_faccessat2";
  R 440 common "process_madvise" "sys_process_madvise"; R 441 common "epoll_pwait2" "sys_epoll_pwait2";
  R 442 common "mount_setattr" "sys_mount_setattr"; R 443 common "quotactl_fd" "sys_quotactl_fd";
  R 444 common "landlock_create_ruleset" "sys_landlock_create_ruleset";
  R 445 common "landlock_add_rule" "sys_landlock_add_rule";
  R 446 common "landlock_restrict_self" "sys_landlock_restrict_self"; R 447 common "memfd_secret" "sys_memfd_secret";
  R 448 common "process_mrelease" "sys_process_mrelease"; R 449 common "futex_waitv" "sys_futex_waitv";
  R 450 common "set_mempolicy_home_node" "sys_set_mempolicy_home_node"; R 451 common "cachestat" "sys_cachestat";
  R 452 common "fchmodat2" "sys_fchmodat2"; R 453 abi64 "map_shadow_stack" "sys_map_shadow_stack";
  R 454 common "futex_wake" "sys_futex_wake"; R 455 common "futex_wait" "sys_futex_wait";
  R 456 common "futex_requeue" "sys_futex_requeue"; R 457 common "statmount" "sys_statmount";
  R 458 common "listmount" "sys_listmount"; R 459 common "lsm_get_self_attr" "sys_lsm_get_self_attr";
  R 460 common "lsm_set_self_attr" "sys_lsm_set_self_attr"; R 461 common "lsm_list_modules" "sys_lsm_list_modules";
  R 512 x32 "rt_sigaction" "compat_sys_rt_sigaction"; R 513 x32 "rt_sigreturn" "compat_sys_x32_rt_sigreturn";
  R 514 x32 "ioctl" "compat_sys_ioctl"; R 515 x32 "readv" "sys_readv"; R 516 x32 "writev" "sys_writev";
  R 517 x32 "recvfrom" "compat_sys_recvfrom"; R 518 x32 "sendmsg" "compat_sys_sendmsg";
  R 519 x32 "recvmsg" "compat_sys_recvmsg"; R 520 x32 "execve" "compat_sys_execve";
  R 521 x32 "ptrace" "compat_sys_ptrace"; R 522 x32 "rt_sigpending" "compat_sys_rt_sigpending";
  R 523 x32 "rt_sigtimedwait" "compat_sys_rt_sigtimedwait_time64";
  R 524 x32 "rt_sigqueueinfo" "compat_sys_rt_sigqueueinfo"; R 525 x32 "sigaltstack" "compat_sys_sigaltstack";
  R 526 x32 "timer_create" "compat_sys_timer_create"; R 527 x32 "mq_notify" "compat_sys_mq_notify";
  R 528 x32 "kexec_load" "compat_sys_kexec_load"; R 529 x32 "waitid" "compat_sys_waitid";
  R 530 x32 "set_robust_list" "compat_sys_set_robust_list"; R 531 x32 "get_robust_list" "compat_sys_get_robust_list";
  R 532 x32 "vmsplice" "sys_vmsplice"; R 533 x32 "move_pages" "sys_move_pages";
  R 534 x32 "preadv" "compat_sys_preadv64"; R 535 x32 "pwritev" "compat_sys_pwritev64";
  R 536 x32 "rt_tgsigqueueinfo" "compat_sys_rt_tgsigqueueinfo"; R 537 x32 "recvmmsg" "compat_sys_recvmmsg_time64";
  R 538 x32 "sendmmsg" "compat_sys_sendmmsg"; R 539 x32 "process_vm_readv" "sys_process_vm_readv";
  R 540 x32 "process_vm_writev" "sys_process_vm_writev"; R 541 x32 "setsockopt" "sys_setsockopt";
  R 542 x32 "getsockopt" "sys_getsockopt"; R 543 x32 "io_setup" "compat_sys_io_setup";
  R 544 x32 "io_submit" "compat_sys_io_submit"; R 545 x32 "execveat" "compat_sys_execveat";
  R 546 x32 "preadv2" "compat_sys_preadv64v2"; R 547 x32 "pwritev2" "compat_sys_pwritev64v2";
  R 548 common "luis_capture_memory_snapshot" "sys_luis_capture_memory_snapshot";
  R 549 common "luis_track_syscall_usage" "sys_luis_track_syscall_usage";
  R 550 common "luis_get_io_throttle" "sys_luis_get_io_throttle"; R 551 common "luis_tamalloc" "sys_luis_tamalloc";
  R 557 common "luis_add_memory_limit" "sys_luis_add_memory_limit";
  R 558 common "luis_get_memory_limits" "sys_luis_get_memory_limits";
  R 559 common "luis_update_memory_limit" "sys_luis_update_memory_limit";
  R 560 common "luis_remove_memory_limit" "sys_luis_remove_memory_limit"].
Definition syscall_64_tbl : list row := table_1 ++ table_2 ++ table_3.
(** The entry point of a number for a 64-bit program: the rows of the 64-bit
    table are those whose abi is [common] or [64]. *)
Definition is64 (r : row) : bool := match row_abi r with common | abi64 => true | x32 => false end.
Definition entry_point (nr : Z) : option string :=
  r ← list_find (fun r => is64 r && (number r =? nr) = true) syscall_64_tbl; entry (snd r).

(** Compatible declarations: [__user] says nothing to the compiler, nor does
    [const] on the parameter itself. *)
Fixpoint erase (t : ctype) : ctype :=
  match t with
  | TPtr _ t => TPtr false (erase t)
  | TConst t => TConst (erase t)
  | _ => t
  end.
Definition param_type (t : ctype) : ctype := match t with TConst t => erase t | _ => erase t end.
Definition compatible (ps qs : list ctype) : bool := bool_decide (map param_type ps = map param_type qs).

(** ** Definitions agree with prototypes *)
Definition named (l : list (guard * proto)) (s : string) : list (guard * proto) :=
  List.filter (fun x => bool_decide (p_name (snd x) = s)) l.
(** What the compiler takes for a prototype: a line that starts with [asmlinkage]. *)
Definition is_declaration (p : proto) : bool := bool_decide (p_linkage p = "asmlinkage").
(** The call whose prototype is misspelt. *)
Abbreviation MISSPELT := "luis_track_syscall_usage" (only parsing).
Definition agrees (l : list (guard * proto)) (c : string -> bool) (x : guard * sysdef) : bool :=
  if holds c (fst x) then
    let ps := List.filter (fun y => holds c (fst y) && is_declaration (snd y)) (named l (d_name (snd x))) in
    eqb (bool_decide (ps = [])) (bool_decide (d_name (snd x) = MISSPELT)) && forallb (fun y => compatible (p_params (snd y)) (map fst (d_pairs (snd x)))) ps
  else true.

(** An argument the stub can cast, whatever the typedefs stand for *)
Fixpoint is_scalar (t : ctype) : bool :=
  match t with
  | TInt _ | TName _ | TEnum _ | TPtr _ _ => true
  | TConst t => is_scalar t
  | TVoid | TStruct _ | TUnion _ => false
  end.
Lemma is_scalar_test {ce : CEnv} t : is_scalar t = true -> __SC_TEST t = true.
Proof. rewrite sc_test_scalar. induction t; simpl; intros; eauto; done. Qed.

Definition shaped (d : sysdef) : bool :=
  (d_n d <=? SYSCALL_DEFINE_MAXARGS)%nat && (length (d_pairs d) =? d_n d)%nat && forallb (fun p => is_scalar (fst p)) (d_pairs d).
Lemma shaped_builds {ce : CEnv} d : shaped d = true -> builds d = true.
Proof.
  unfold shaped, builds. rewrite !andb_true_iff. intros [? H]. split; [done|].
  apply forallb_forall. intros x Hx. apply is_scalar_test. by apply (proj1 (forallb_forall _ _) H).
Qed.

Lemma visible_elem {A} c (l : list (guard * A)) y :
  y ∈ visible c l <-> exists g, (g, y) ∈ l /\ holds c g = true.
Proof.
  unfold visible. rewrite list_elem_of_omap. split.
  - intros ([g z] & Hin & Hy). simpl in Hy. case_match; naive_solver.
  - intros (g & Hin & Hg). exists (g, y). simpl. by rewrite Hg.
Qed.

(** The prototypes in force in a configuration. *)
Definition declarations (c : string -> bool) (l : list (guard * proto)) : list proto := List.filter is_declaration (visible c l).
Abbreviation declared c := (declarations c protos).

Lemma declared_named l c s p :
  p ∈ declarations c l /\ p_name p = s <->
  exists g, In (g, p) (List.filter (fun y => holds c (fst y) && is_declaration (snd y)) (named l s)).
Proof.
  unfold declarations. rewrite list_elem_of_In, filter_In, <- list_elem_of_In, visible_elem. split.
  - intros [[(g & Hin & Hg) Hd] Hn]. exists g. rewrite filter_In. simpl. rewrite Hg, Hd. split; [|done].
    apply filter_In. split; [by apply list_elem_of_In|]. by apply bool_decide_eq_true.
  - intros (g & [Hin [Hg Hd]%andb_true_iff]%filter_In). apply filter_In in Hin as [Hin Hn%bool_decide_eq_true].
    split; [split; [|done]|done]. exists g. split; [by apply list_elem_of_In|done].
Qed.

Lemma agrees_spec l c g d : agrees l c (g, d) = true -> holds c g = true ->
  ((exists p, p ∈ declarations c l /\ p_name p = d_name d) <-> d_name d <> MISSPELT) /\
  (forall p, p ∈ declarations c l -> p_name p = d_name d -> compatible (p_params p) (map fst (d_pairs d)) = true).
Proof.
  unfold agrees. simpl. intros Ha Hg. rewrite Hg in Ha. apply andb_true_iff in Ha as [Hne%eqb_prop Hall]. split.
  - assert (bool_decide (List.filter (fun y => holds c (fst y) && is_declaration (snd y)) (named l (d_name d)) = []) = true
      <-> bool_decide (d_name d = MISSPELT) = true) as Hx by by rewrite Hne.
    rewrite !bool_decide_eq_true in Hx. rewrite <- Hx. split.
    + intros (p & (g' & Hp)%declared_named). by destruct (List.filter _ (named _ _)).
    + intros Hf. destruct (List.filter _ (named _ _)) as [|[g' p] ps] eqn:E; [done|].
      exists p. apply declared_named. exists g'. rewrite E. by left.
  - intros p Hp Hn. destruct (proj1 (declared_named l c (d_name d) p) (conj Hp Hn)) as (g' & Hin).
    by apply (proj1 (forallb_forall _ _) Hall (g', p)).
Qed.

(** What holds of every definition holds of the visible ones. *)
Lemma visible_forall {A} (f : guard * A -> bool) c (l : list (guard * A)) y :
  forallb f l = true -> y ∈ visible c l -> exists g, f (g, y) = true /\ holds c g = true.
Proof.
  intros Hf (g & Hin & Hg)%visible_elem. exists g. split; [|done].
  apply (proj1 (forallb_forall f l) Hf). by apply list_elem_of_In.
Qed.

Lemma all_agree c :
  c "CONFIG_ARCH_HAS_SYSCALL_WRAPPER" = false ->
  c "CONFIG_CLONE_BACKWARDS2" && c "CONFIG_CLONE_BACKWARDS3" = false ->
  forallb (agrees protos c) all_defines = true.
Proof.
  intros Hw Hc. cut (Forall (fun x => agrees protos c x = true) all_defines).
  { generalize all_defines. induction 1 as [|x l Hx _ IH]; [done|]. cbn [forallb]. by rewrite Hx. }
  unfold all_defines, sys_c, fork_c, syscall3_c, open_c, read_write_c. cbn [app].
  repeat (apply Forall_cons; split); try exact (Forall_nil_2 _); vm_compute; rewrite ?Hw; try exact eq_refl;
    repeat match goal with |- context [c ?s] => destruct (c s); try exact eq_refl end; discriminate.
Qed.

Lemma all_shaped : forallb (fun x => shaped (snd x)) all_defines = true.
Proof. vm_compute. reflexivity. Qed.

Lemma all_wrapped : forallb (fun x => bool_decide ([(false, "CONFIG_ARCH_HAS_SYSCALL_WRAPPER")] ∈ fst x)) protos = true.
Proof. vm_compute. reflexivity. Qed.
Lemma wrapped_hidden c : c "CONFIG_ARCH_HAS_SYSCALL_WRAPPER" = true -> prototypes c = [].
Proof.
  intros Hw. destruct (prototypes c) as [|p ps] eqn:E; [done|].
  assert (p ∈ prototypes c) as Hp by (rewrite E; by left).
  destruct (visible_forall _ c protos p all_wrapped Hp) as (g & Hg%bool_decide_eq_true & Hh).
  apply list_elem_of_In, (proj1 (forallb_forall _ _) Hh) in Hg. cbn in Hg. by rewrite Hw in Hg.
Qed.


(** One prototype is not a declaration: its linkage is misspelt, line 968. *)
Lemma misspelt_prototype :
  List.filter (fun x => bool_decide (p_linkage (snd x) <> "asmlinkage")) protos =
  [([[(false, "CONFIG_ARCH_HAS_SYSCALL_WRAPPER")]], Proto "asmkinkage" "luis_track_syscall_usage" [user (struct "track_counters")])].
Proof. vm_compute. reflexivity. Qed.

(** ** The table *)
Definition numbers_of (e : string) : list Z :=
  map number (List.filter (fun r => is64 r && bool_decide (entry r = Some e)) syscall_64_tbl).

(** Definitions a 64-bit kernel does not offer under a number of its own: the
    old forms other architectures still have. *)
Definition old_forms : list string :=
  ["uname"; "olduname"; "gethostname"; "old_getrlimit"; "truncate64"; "ftruncate64"; "llseek"; "sendfile"].

Definition one_number (d : sysdef) : bool :=
  match numbers_of ("sys_" +:+ d_name d) with
  | [] => bool_decide (d_name d ∈ old_forms)
  | [nr] => bool_decide (entry_point nr = Some ("sys_" +:+ d_name d))
  | _ => false
  end.

Lemma all_one_number : forallb (fun x => one_number (snd x)) all_defines = true.
Proof. vm_compute. reflexivity. Qed.

Lemma x32_rows : Forall (fun r => row_abi r = x32 <-> 512 <= number r <= 547) syscall_64_tbl.
Proof.
  assert (E : forallb (fun r => eqb (bool_decide (row_abi r = x32)) ((512 <=? number r) && (number r <=? 547))) syscall_64_tbl = true)
    by (vm_compute; exact eq_refl).
  apply Forall_forall. intros r Hr%list_elem_of_In. apply (proj1 (forallb_forall _ _) E), eqb_prop in Hr.
  rewrite <- (bool_decide_eq_true (row_abi r = x32)), Hr, andb_true_iff. lia.
Qed.

Lemma numbers_unique : NoDup (map number (List.filter is64 syscall_64_tbl)).
Proof. apply (bool_decide_eq_true_1 _). vm_compute. exact eq_refl. Qed.

Lemma one_number_spec d : one_number d = true -> d_name d ∉ old_forms ->
  exists nr, numbers_of ("sys_" +:+ d_name d) = [nr] /\ entry_point nr = Some ("sys_" +:+ d_name d).
Proof.
  unfold one_number. destruct (numbers_of _) as [|nr [|]]; intros H Hold; [by apply bool_decide_eq_true in H| |done].
  exists nr. split; [done|by apply bool_decide_eq_true in H].
Qed.

(** In the table of 64-bit programs no number occurs twice; every call the five
    files define, the old forms apart, has exactly one number, and that number
    leads to it; the numbers kept for x32 are used for x32 only. *)
Theorem table_reaches_definitions (c : string -> bool) :
  NoDup (map number (List.filter is64 syscall_64_tbl)) /\
  (forall d, d ∈ definitions c -> d_name d ∉ old_forms ->
     exists nr, numbers_of ("sys_" +:+ d_name d) = [nr] /\ entry_point nr = Some ("sys_" +:+ d_name d)) /\
  (forall r, r ∈ syscall_64_tbl -> row_abi r = x32 <-> 512 <= number r <= 547).
Proof.
  split_and!; [apply numbers_unique| |apply (Forall_forall _ _), x32_rows].
  intros d Hd Hold. destruct (visible_forall _ _ _ _ all_one_number Hd) as (g & H & _).
  by apply one_number_spec.
Qed.

(** ** Dispatch *)

(** The name of the call behind an entry point, and its definition. *)
Definition definition_of (c : string -> bool) (e : string) : option sysdef :=
  x ← List.find (fun x => bool_decide ("sys_" +:+ d_name (snd x) = e) && holds c (fst x)) all_defines; Some (snd x).

Section dispatch.
Context {ce : CEnv} {S : Type} (c : string -> bool) (bodies : string -> option (list Z -> sys S Z)).
(** The kernel's side of system call [nr]: the entry point of the table, the stub
    behind it, the body behind the stub.  A number without entry point, or one
    whose body is elsewhere in the kernel, is not served. *)
Definition serve (nr : Z) (regs : list Z) : option (sys S Z) :=
  e ← entry_point nr; d ← definition_of c e; body ← bodies (d_name d);
  __se_sys d body (take (d_n d) regs).
End dispatch.

(** ** Witnesses *)
Module Demo.
(** x86-64, as far as the conditions above ask; [plain] without the wrappers *)
Definition plain (s : string) : bool :=
  bool_decide (s ∈ ["CONFIG_64BIT"; "CONFIG_MULTIUSER"; "CONFIG_COMPAT"; "__ARCH_WANT_SYS_FORK"; "__ARCH_WANT_SYS_VFORK";
                    "__ARCH_WANT_SYS_CLONE"; "__ARCH_WANT_SYS_CLONE3"; "__ARCH_WANT_SYS_GETPGRP"]).
Definition config (s : string) : bool := plain s || bool_decide (s = "CONFIG_ARCH_HAS_SYSCALL_WRAPPER").
Example clone_number : numbers_of "sys_clone" = [56] /\ entry_point 551 = Some "sys_luis_tamalloc" /\ entry_point 134 = None.
Proof. vm_compute. auto. Qed.
End Demo.
