(* ===== verification/Client.v ===== *)
(** * The administration program

    Pruebas/SyscallsP3/ejemplo_test.c: a menu that asks for a number, asks for
    what the chosen action needs, makes one of the four system calls of the
    memory limiter and reports the result.  The calls take the real way: a
    number and registers ([syscall(557, pid, limit)]), the table of
    syscall_64.tbl, the stub that casts the registers, the body in [MemLimit].

    Of the C library, [scanf] with [%d] and [%zu] is written out on bytes;
    [malloc], the text of an error and what a conversion out of range stores
    are parameters.  Locals that are read before anything was stored are
    arguments of the start state. *)
From stdpp Require Import strings pretty.
From S2P Require Import Prelude Task UMem Rlimit MemLimit Entry Protos.
#[local] Open Scope Z_scope.

Abbreviation SYS_LUIS_ADD_MEMORY_LIMIT := 557 (only parsing).
Abbreviation SYS_LUIS_GET_MEMORY_LIMITS := 558 (only parsing).
Abbreviation SYS_LUIS_UPDATE_MEMORY_LIMIT := 559 (only parsing).
Abbreviation SYS_LUIS_REMOVE_MEMORY_LIMIT := 560 (only parsing).

Class Libc := {
  int_reg : Z -> Z;                 (** an [int] among the variable arguments, as a register *)
  malloc : Z -> option Z;
  strerror : Z -> string;
  out_of_range : Z -> Z;            (** stored by a conversion whose value does not fit *)
}.
(** Passing an [int] defines the low half of the register only. *)
Class LibcLaws `{Libc} := {
  int_reg_low v : int_reg v mod 2 ^ 32 = v mod 2 ^ 32;
  malloc_addr n b : malloc n = Some b -> is_u64 b;
}.

(** An array whose size in bytes overflows is not allocated by the kernel. *)
Class KmallocArray `{Kmalloc} := { kmalloc_array_overflow n : u64_mod <= n * 16 -> kmalloc_array n 16 = false }.

(** What the program sees of the ABI it was compiled for *)
Class LP64 `{CEnv} := {
  lp64_long : bits_per_long = 64;
  lp64_pid_t : typedef_is "pid_t" = SInt Int;
  lp64_size_t : typedef_is "size_t" = SInt ULong;
}.

(** ** [scanf] *)
Definition is_space (b : Z) : bool := (b =? 32) || ((9 <=? b) && (b <=? 13)).
Definition is_digit (b : Z) : bool := (48 <=? b) && (b <=? 57).

Fixpoint skip_space (s : list Z) : list Z :=
  match s with
  | b :: r => if is_space b then skip_space r else s
  | [] => []
  end.
Fixpoint digits (acc : Z) (s : list Z) : Z * list Z :=
  match s with
  | b :: r => if is_digit b then digits (acc * 10 + (b - 48)) r else (acc, s)
  | [] => (acc, [])
  end.
Definition sign (s : list Z) : bool * list Z :=
  match s with
  | b :: r => if b =? 45 then (true, r) else if b =? 43 then (false, r) else (false, s)
  | [] => (false, [])
  end.
(** A decimal number after white space, and the input behind it; on a matching
    failure what could not be converted stays. *)
Definition scan_number (s : list Z) : option Z * list Z :=
  let '(neg, s2) := sign (skip_space s) in
  match s2 with
  | b :: _ => if is_digit b then let '(v, rest) := digits 0 s2 in (Some (if neg then - v else v), rest) else (None, s2)
  | [] => (None, [])
  end.

(** What a [printf] writes, and a [perror] *)
Inductive text := Out (s : string) | Err (s : string).
Definition nl : string := String (Ascii.ascii_of_nat 10) "".
Definition outln (s : string) : text := Out (s +:+ nl).

Section program.
Context {L : Type} {lh : ListHead L} {km : Kmalloc} {caps : Caps} {renv : RlimitEnv} {ua : UAccess}.
Context {ce : CEnv} {libc : Libc} (config : string -> bool) (addr_processes_returned : Z).

(** [scanf("%d", &x)] and [scanf("%zu", &x)]: the new value of [x] *)
Definition scanf_d (old : Z) (s : list Z) : Z * list Z :=
  match scan_number s with
  | (Some v, r) => (if (-2147483648 <=? v) && (v <=? S32_MAX) then v else s32 (out_of_range v), r)
  | (None, r) => (old, r)
  end.
Definition scanf_zu (old : Z) (s : list Z) : Z * list Z :=
  match scan_number s with
  | (Some v, r) => (if (- U64_MAX <=? v) && (v <=? U64_MAX) then u64 v else u64 (out_of_range v), r)
  | (None, r) => (old, r)
  end.

(** ** The system calls *)

(** The bodies behind the four definitions of syscall3.c.  A stub passes as many
    arguments as its definition has, so the last case does not occur. *)
Definition mem_bodies (name : string) : option (list Z -> sys (mstate L) Z) :=
  if bool_decide (name = "luis_add_memory_limit") then
    Some (fun args => match args with [p; l] => sys_luis_add_memory_limit p l | _ => sexit (- ENOSYS) end)
  else if bool_decide (name = "luis_get_memory_limits") then
    Some (fun args => match args with [b; m; n] => sys_luis_get_memory_limits b m n | _ => sexit (- ENOSYS) end)
  else if bool_decide (name = "luis_update_memory_limit") then
    Some (fun args => match args with [p; l] => sys_luis_update_memory_limit p l | _ => sexit (- ENOSYS) end)
  else if bool_decide (name = "luis_remove_memory_limit") then
    Some (fun args => match args with [p] => sys_luis_remove_memory_limit p | _ => sexit (- ENOSYS) end)
  else None.

(** [syscall(nr, ..)]: the result, or -1 and [errno] *)
Definition libc_result (r : Z) : Z * Z := if (-4095 <=? r) && (r <=? -1) then (-1, - r) else (r, 0).
Definition syscall (nr : Z) (regs : list Z) (k : mstate L) : Z * Z * mstate L :=
  let '(r, k') := match serve config mem_bodies nr regs with
                  | Some m => run m k
                  | None => (- ENOSYS, k)
                  end in
  (libc_result r, k').

Record world := World {
  w_stdin : list Z;
  w_out : list text;
  kern : mstate L;
  choice : Z; w_pid : Z; w_memory_limit : Z; max_entries : Z;      (** the locals of [main] *)
}.
Definition print (l : list text) (w : world) : world :=
  World (w_stdin w) (w_out w ++ l) (kern w) (choice w) (w_pid w) (w_memory_limit w) (max_entries w).
Definition with_kern (k : mstate L) (w : world) : world :=
  World (w_stdin w) (w_out w) k (choice w) (w_pid w) (w_memory_limit w) (max_entries w).
Definition perror (s : string) (errno : Z) : text := Err (s +:+ ": " +:+ strerror errno +:+ nl).

(** ** The four actions *)
Definition add_memory_limit (p limit : Z) (w : world) : world :=
  let '(r, errno, k) := syscall SYS_LUIS_ADD_MEMORY_LIMIT [int_reg p; limit] (kern w) in
  let w := with_kern k w in
  if negb (r =? 0) then print [perror "SYS_LUIS_ADD_MEMORY_LIMIT" errno] w
  else print [outln ("Memory limit added for PID " +:+ pretty p +:+ " " +:+ pretty limit +:+ " bytes ")] w.

Definition show_entry (m : memory_limitation) : text :=
  outln ("PID: " +:+ pretty (pid m) +:+ ", Memory Limit: " +:+ pretty (memory_limit m) +:+ " bytes").

(** [buffer[i]] for [i] from 0 below [processes_returned]; [None] when one of
    these was not written by the kernel or is behind the [bytes] allocated. *)
Definition read_buffer (k : mstate L) (buffer bytes n : Z) : option (list memory_limitation) :=
  let l := default [] (ubuf k !! buffer) in
  if (n <=? Z.of_nat (length l)) && (n * 16 <=? bytes) then Some (take (Z.to_nat n) l) else None.

Definition get_memory_limits (max : Z) (w : world) : option world :=
  match malloc (u64 (max * 16)) with
  | None => Some (print [perror "Allocation for memory_limitation buffer failed" ENOMEM] w)
  | Some buffer =>
      let '(r, errno, k) := syscall SYS_LUIS_GET_MEMORY_LIMITS [buffer; max; addr_processes_returned] (kern w) in
      let w := with_kern k w in
      if negb (r =? 0) then Some (print [perror "SYS_LUIS_GET_MEMORY_LIMITS" errno] w)
      else
        let processes_returned := default 0 (uint k !! addr_processes_returned) in
        entries ← read_buffer k buffer (u64 (max * 16)) processes_returned;
        Some (print (outln "Restricted proccesses memory succesfully:" :: map show_entry entries) w)
  end.

Definition update_memory_limit (p limit : Z) (w : world) : world :=
  let '(r, errno, k) := syscall SYS_LUIS_UPDATE_MEMORY_LIMIT [int_reg p; limit] (kern w) in
  let w := with_kern k w in
  if negb (r =? 0) then print [perror "SYS_LUIS_UPDATE_MEMORY_LIMIT" errno] w
  else print [outln ("Memory limit for PID " +:+ pretty p +:+ " updated to " +:+ pretty limit +:+ " ")] w.

Definition remove_memory_limit (p : Z) (w : world) : world :=
  let '(r, errno, k) := syscall SYS_LUIS_REMOVE_MEMORY_LIMIT [int_reg p] (kern w) in
  let w := with_kern k w in
  if negb (r =? 0) then print [perror "SYS_LUIS_REMOVE_MEMORY_LIMIT" errno] w
  else print [outln ("Memory limit for PID " +:+ pretty p +:+ " removed")] w.

(** ** [main] *)
Definition rule : text := outln "-----------------------------------------------------------------".
Definition menu : list text :=
  [rule; outln (nl +:+ "Memory Limitation for Project 3 SO2 VD2024"); outln "1. Add Memory Limit"; outln "2. Get Memory Limit";
   outln "3. Update Memory Limit"; outln "4. Remove Memory Limit"; outln "5. Exit"; outln "Enter a number option to proceed"].

Definition scan_choice (w : world) : world :=
  let '(v, r) := scanf_d (choice w) (w_stdin w) in
  World r (w_out w) (kern w) v (w_pid w) (w_memory_limit w) (max_entries w).
Definition ask_pid (q : string) (w : world) : world :=
  let '(v, r) := scanf_d (w_pid w) (w_stdin w) in
  World r (w_out w ++ [Out q]) (kern w) (choice w) v (w_memory_limit w) (max_entries w).
(** [scanf("%zu", &memory_limit); memory_limit *= 1024;] *)
Definition ask_limit (w : world) : world :=
  let '(v, r) := scanf_zu (w_memory_limit w) (w_stdin w) in
  World r (w_out w ++ [Out "Enter Memory limit in KB:"]) (kern w) (choice w) (w_pid w) (u64 (v * 1024)) (max_entries w).
Definition ask_max (w : world) : world :=
  let '(v, r) := scanf_zu (max_entries w) (w_stdin w) in
  World r (w_out w ++ [Out "Enter Max entries to receive:"]) (kern w) (choice w) (w_pid w) (w_memory_limit w) v.

(** One turn of the loop: the world, and whether [main] returns. *)
Definition turn (w : world) : option (world * bool) :=
  let w := print [rule] (scan_choice (print menu w)) in
  if choice w =? 1 then
    let w := ask_limit (ask_pid "Enter PID:" w) in Some (add_memory_limit (w_pid w) (w_memory_limit w) w, false)
  else if choice w =? 2 then
    let w := ask_max w in w ← get_memory_limits (max_entries w) w; Some (w, false)
  else if choice w =? 3 then
    let w := ask_limit (ask_pid "Enter PID:" w) in Some (update_memory_limit (w_pid w) (w_memory_limit w) w, false)
  else if choice w =? 4 then
    let w := ask_pid "Enter PID to remove limit:" w in Some (remove_memory_limit (w_pid w) w, false)
  else if choice w =? 5 then Some (print [outln "Exiting..."] w, true)
  else Some (print [Out "Invalid option. Try again!"] w, false).

Inductive run_result := Returned (w : world) | Running (w : world) | BadRead.
(** [main] for at most [fuel] turns *)
Fixpoint main (fuel : nat) (w : world) : run_result :=
  match fuel with
  | O => Running w
  | S n => match turn w with
           | None => BadRead
           | Some (w', true) => Returned w'
           | Some (w', false) => main n w'
           end
  end.

End program.

(** ** Properties *)
Definition spelled_value (ds : list Z) : Z := fold_left (fun a b => a * 10 + (b - 48)) ds 0.
(** [s] starts with a spelling of [v]: white space, a sign, digits; [rest] follows. *)
Definition spells (v : Z) (s rest : list Z) : Prop := exists ws neg sg ds,
  s = ws ++ sg ++ ds ++ rest /\ Forall (fun b => is_space b = true) ws /\
  (sg = [] /\ neg = false \/ sg = [43] /\ neg = false \/ sg = [45] /\ neg = true) /\
  ds <> [] /\ Forall (fun b => is_digit b = true) ds /\ (forall b r, rest = b :: r -> is_digit b = false) /\
  v = if neg : bool then - spelled_value ds else spelled_value ds.

Lemma digits_spelled ds rest a :
  Forall (fun b => is_digit b = true) ds -> (forall b r, rest = b :: r -> is_digit b = false) ->
  digits a (ds ++ rest) = (fold_left (fun a b => a * 10 + (b - 48)) ds a, rest).
Proof.
  intros Hd Hr. revert a. induction Hd as [|b ds Hb _ IH]; intros a; simpl.
  - destruct rest as [|b r]; simpl; [done|]. by rewrite (Hr b r).
  - by rewrite Hb.
Qed.

Lemma skip_spaces ws s : Forall (fun b => is_space b = true) ws -> skip_space (ws ++ s) = skip_space s.
Proof. induction 1 as [|b ws Hb _ IH]; simpl; [done|by rewrite Hb]. Qed.

Lemma digit_plain b : is_digit b = true -> is_space b = false /\ b <> 45 /\ b <> 43.
Proof. unfold is_digit, is_space. lia. Qed.

Lemma scan_spelled v s rest : spells v s rest -> scan_number s = (Some v, rest).
Proof.
  intros (ws & neg & sg & ds & -> & Hws & Hsg & Hne & Hd & Hr & ->).
  destruct ds as [|b ds]; [done|]. pose proof (Forall_inv Hd) as Hb.
  destruct (digit_plain b Hb) as (Hs & H1 & H2).
  unfold scan_number. rewrite skip_spaces by done.
  assert (sign (skip_space (sg ++ (b :: ds) ++ rest)) = (neg, (b :: ds) ++ rest)) as ->.
  { destruct Hsg as [[-> ->]|[[-> ->]|[-> ->]]]; simpl; [rewrite Hs|done|done]. simpl.
    by rewrite (proj2 (Z.eqb_neq b 45)), (proj2 (Z.eqb_neq b 43)). }
  cbn [app]. rewrite Hb. change (b :: ds ++ rest) with ((b :: ds) ++ rest).
  by rewrite digits_spelled.
Qed.


Section properties.
Context {L : Type} {lh : ListHead L} {km : Kmalloc} {caps : Caps} {renv : RlimitEnv} {ua : UAccess}.
Context {lhl : ListHeadLaws L} {kml : KmallocLaws} {kma : KmallocArray}.
Context {ce : CEnv} {lp : LP64} {libc : Libc} {ll : LibcLaws}.
Context (config : string -> bool) (apr : Z) (apr_ok : is_u64 apr).
Implicit Types (k : mstate L) (w : world (L := L)).

Abbreviation serve' := (serve config (mem_bodies (L := L))).

(** *** Registers *)
Lemma carries_pid p : is_s32 p -> carries (TName "pid_t") p (int_reg p).
Proof.
  intros Hp. exists (SInt Int). split_and!; [by simpl; rewrite lp64_pid_t|exact Hp|apply int_reg_low].
Qed.
Lemma carries_size l : is_u64 l -> carries (TName "size_t") l l.
Proof.
  intros Hl. exists (SInt ULong). split_and!; [by simpl; rewrite lp64_size_t| |done].
  unfold in_scalar. simpl. rewrite lp64_long. exact Hl.
Qed.
Lemma carries_addr u t a : is_u64 a -> carries (TPtr u t) a a.
Proof.
  intros Ha. exists SAddr. split_and!; [done| |done]. unfold in_scalar. simpl. rewrite lp64_long. exact Ha.
Qed.

(** *** Each number leads to its body *)
Lemma serve_by nr d body regs vs :
  mem_bodies (d_name d) = Some body -> entry_point nr = Some ("sys_" +:+ d_name d) ->
  definition_of config ("sys_" +:+ d_name d) = Some d -> shaped d = true -> length regs = d_n d -> length vs = d_n d ->
  Forall2 (fun p r => carries (fst p) (snd p) r) (zip (map fst (d_pairs d)) vs) regs ->
  serve' nr regs = Some (body vs).
Proof.
  intros Hb He Hd Hs Hr Hv Hc. unfold serve. rewrite He. simpl. rewrite Hd. simpl. rewrite Hb. simpl.
  rewrite take_ge by lia. apply stub_passes; [by apply shaped_builds|done..].
Qed.

Ltac serve_with d vs :=
  etrans; [eapply (serve_by _ d _ _ vs);
    [reflexivity|vm_compute; reflexivity|vm_compute; reflexivity|reflexivity|reflexivity|reflexivity|]
  |reflexivity]; repeat constructor; cbn [fst snd]; auto using carries_pid, carries_size, carries_addr.

Lemma serve_add p l : is_s32 p -> is_u64 l ->
  serve' SYS_LUIS_ADD_MEMORY_LIMIT [int_reg p; l] = Some (sys_luis_add_memory_limit p l).
Proof. intros. serve_with define_luis_add_memory_limit [p; l]. Qed.
Lemma serve_update p l : is_s32 p -> is_u64 l ->
  serve' SYS_LUIS_UPDATE_MEMORY_LIMIT [int_reg p; l] = Some (sys_luis_update_memory_limit p l).
Proof. intros. serve_with define_luis_update_memory_limit [p; l]. Qed.
Lemma serve_remove p : is_s32 p ->
  serve' SYS_LUIS_REMOVE_MEMORY_LIMIT [int_reg p] = Some (sys_luis_remove_memory_limit p).
Proof. intros. serve_with define_luis_remove_memory_limit [p]. Qed.
Lemma serve_get b m n : is_u64 b -> is_u64 m -> is_u64 n ->
  serve' SYS_LUIS_GET_MEMORY_LIMITS [b; m; n] = Some (sys_luis_get_memory_limits b m n).
Proof. intros. serve_with define_luis_get_memory_limits [b; m; n]. Qed.

Lemma libc_result_0 r : fst (libc_result r) = 0 <-> r = 0.
Proof. unfold libc_result. destruct (Z.leb_spec (-4095) r), (Z.leb_spec r (-1)); simpl; lia. Qed.

(** *** Each action is its system call *)
Lemma add_action p l w : is_s32 p -> is_u64 l -> exists out,
  add_memory_limit config p l w = print out (with_kern (run (sys_luis_add_memory_limit p l) (kern w)).2 w).
Proof.
  intros. unfold add_memory_limit, syscall. rewrite serve_add by done.
  destruct (run _ _) as [r k]. destruct (libc_result r) as [r' e]. case_match; eauto.
Qed.
Lemma update_action p l w : is_s32 p -> is_u64 l -> exists out,
  update_memory_limit config p l w = print out (with_kern (run (sys_luis_update_memory_limit p l) (kern w)).2 w).
Proof.
  intros. unfold update_memory_limit, syscall. rewrite serve_update by done.
  destruct (run _ _) as [r k]. destruct (libc_result r) as [r' e]. case_match; eauto.
Qed.
Lemma remove_action p w : is_s32 p -> exists out,
  remove_memory_limit config p w = print out (with_kern (run (sys_luis_remove_memory_limit p) (kern w)).2 w).
Proof.
  intros. unfold remove_memory_limit, syscall. rewrite serve_remove by done.
  destruct (run _ _) as [r k]. destruct (libc_result r) as [r' e]. case_match; eauto.
Qed.

(** What a successful get leaves in user space: as many entries as it says, and
    no more than were asked for. *)
Lemma fill_buffer_length h nodes m c : (Z.of_nat (length (fill_buffer h nodes m c)) <= Z.max 0 (m - c)).
Proof. revert c. induction nodes as [|e nodes IH]; intros c; simpl; [lia|]. case_match; simpl; [lia|]. specialize (IH (c + 1)). lia. Qed.

Lemma get_writes b m n k k' : run (sys_luis_get_memory_limits b m n) k = (0, k') -> exists l,
  ubuf k' !! b = Some l /\ uint k' !! n = Some (Z.of_nat (length l)) /\ Z.of_nat (length l) <= m /\ kmalloc_array m 16 = true.
Proof.
  unfold sys_luis_get_memory_limits, copy_to_user, put_user, copy_to_user. sys_unfold.
  pose proof (fill_buffer_length (heap k) (list_nodes (head k)) m 0) as Hlen.
  destruct (Z.leb_spec m 0); [done|]. repeat (case_match; simplify_eq/=; try done). intros [= <-]. simpl.
  eexists. rewrite !lookup_insert_eq. split_and!; [done|done|lia|]. by apply negb_false_iff.
Qed.

(** The call a get makes: none when there is no memory for the buffer. *)
Definition get_calls (m : Z) : list mem_call :=
  match malloc (u64 (m * 16)) with Some b => [Get b m apr] | None => [] end.

Lemma get_action m w : is_u64 m -> exists out,
  get_memory_limits config apr m w = Some (print out (with_kern (exec_all (get_calls m) (kern w)).2 w)).
Proof.
  intros Hm. unfold get_memory_limits, get_calls. destruct (malloc _) as [b|] eqn:Hb; [|by destruct w; eauto].
  unfold syscall. rewrite serve_get by eauto using malloc_addr. simpl.
  destruct (run _ _) as [r k] eqn:E. destruct (libc_result r) as [r' e] eqn:Er.
  destruct (Z.eqb_spec r' 0) as [H0|]; simpl; [|eauto].
  pose proof (proj1 (libc_result_0 r)) as H. rewrite Er in H. specialize (H H0). subst r.
  destruct (get_writes _ _ _ _ _ E) as (l & Hl & Hn & Hm' & Hka). unfold read_buffer. rewrite Hl, Hn. simpl.
  destruct (Z.le_gt_cases u64_mod (m * 16)) as [Hov|]; [by rewrite kmalloc_array_overflow in Hka|].
  rewrite u64_small by (unfold is_u64 in *; lia).
  rewrite !(proj2 (Z.leb_le _ _)) by lia. simpl. eauto.
Qed.

(** *** A session *)
Inductive cmd := CAdd (p kb : Z) | CGet (n : Z) | CUpdate (p kb : Z) | CRemove (p : Z) | COther (z : Z).
Definition calls (c : cmd) : list mem_call :=
  match c with
  | CAdd p kb => [Add p (u64 (kb * 1024))]
  | CGet n => get_calls n
  | CUpdate p kb => [Update p (u64 (kb * 1024))]
  | CRemove p => [Remove p]
  | COther _ => []
  end.
(** The user types the choice and what it asks for, in any spelling. *)
Definition typed_in (c : cmd) (s rest : list Z) : Prop :=
  match c with
  | CAdd p kb => is_s32 p /\ is_u64 kb /\ exists s1 s2, spells 1 s s1 /\ spells p s1 s2 /\ spells kb s2 rest
  | CGet n => is_u64 n /\ exists s1, spells 2 s s1 /\ spells n s1 rest
  | CUpdate p kb => is_s32 p /\ is_u64 kb /\ exists s1 s2, spells 3 s s1 /\ spells p s1 s2 /\ spells kb s2 rest
  | CRemove p => is_s32 p /\ exists s1, spells 4 s s1 /\ spells p s1 rest
  | COther z => is_s32 z /\ ~ 1 <= z <= 5 /\ spells z s rest
  end.
Inductive script : list cmd -> list Z -> Prop :=
| script_exit s rest : spells 5 s rest -> script [] s
| script_cons c cs s rest : typed_in c s rest -> script cs rest -> script (c :: cs) s.

Lemma scanf_d_spelled v old s rest : is_s32 v -> spells v s rest -> scanf_d old s = (v, rest).
Proof.
  unfold is_s32. intros Hv Hs. unfold scanf_d. rewrite (scan_spelled _ _ _ Hs).
  by rewrite (proj2 (Z.leb_le _ _)), (proj2 (Z.leb_le _ _)) by lia.
Qed.
Lemma scanf_zu_spelled v old s rest : is_u64 v -> spells v s rest -> scanf_zu old s = (v, rest).
Proof.
  intros Hv Hs. pose proof (u64_small v Hv) as Hu. unfold is_u64 in Hv. unfold scanf_zu. rewrite (scan_spelled _ _ _ Hs).
  by rewrite (proj2 (Z.leb_le _ _)), (proj2 (Z.leb_le _ _)), Hu by lia.
Qed.

(** The world after a choice was read *)
Definition chosen z s1 w : world :=
  World s1 (w_out w ++ menu ++ [rule]) (kern w) z (w_pid w) (w_memory_limit w) (max_entries w).
Lemma choice_read z s1 w : is_s32 z -> spells z (w_stdin w) s1 ->
  print [rule] (scan_choice (print menu w)) = chosen z s1 w.
Proof.
  intros Hz Hs. unfold scan_choice. simpl. rewrite (scanf_d_spelled z _ _ s1) by done.
  unfold print, chosen. simpl. by rewrite <- app_assoc.
Qed.

Lemma ask_pid_spelled q p w rest : is_s32 p -> spells p (w_stdin w) rest ->
  ask_pid q w = World rest (w_out w ++ [Out q]) (kern w) (choice w) p (w_memory_limit w) (max_entries w).
Proof. intros. unfold ask_pid. by rewrite (scanf_d_spelled p _ _ rest). Qed.
Lemma ask_limit_spelled v w rest : is_u64 v -> spells v (w_stdin w) rest ->
  ask_limit w = World rest (w_out w ++ [Out "Enter Memory limit in KB:"]) (kern w) (choice w) (w_pid w) (u64 (v * 1024)) (max_entries w).
Proof. intros. unfold ask_limit. by rewrite (scanf_zu_spelled v _ _ rest). Qed.
Lemma ask_max_spelled v w rest : is_u64 v -> spells v (w_stdin w) rest ->
  ask_max w = World rest (w_out w ++ [Out "Enter Max entries to receive:"]) (kern w) (choice w) (w_pid w) (w_memory_limit w) v.
Proof. intros. unfold ask_max. by rewrite (scanf_zu_spelled v _ _ rest). Qed.

Lemma turn_command c rest w : typed_in c (w_stdin w) rest -> exists w',
  turn config apr w = Some (w', false) /\ w_stdin w' = rest /\ kern w' = (exec_all (calls c) (kern w)).2.
Proof.
  assert (small : forall z, 1 <= z <= 5 -> is_s32 z) by (unfold is_s32; lia). unfold turn.
  destruct c as [p kb|n|p kb|p|z]; cbn [typed_in].
  - intros (Hp & Hk & s1 & s2 & H1 & H2 & H3). rewrite (choice_read 1 s1) by auto with lia. simpl.
    erewrite ask_pid_spelled, ask_limit_spelled by done. cbn [w_pid w_memory_limit].
    match goal with |- context [add_memory_limit _ _ _ ?w] => destruct (add_action p (u64 (kb * 1024)) w) as [o ->] end; [done|apply u64_range|].
    eexists. split_and!; [done|done|]. simpl. by destruct (run _ _).
  - intros (Hn & s1 & H1 & H2). rewrite (choice_read 2 s1) by auto with lia. simpl.
    erewrite ask_max_spelled by done. cbn [max_entries].
    match goal with |- context [get_memory_limits _ _ _ ?w] => destruct (get_action n w) as [o ->] end; [done|].
    eexists. by split_and!.
  - intros (Hp & Hk & s1 & s2 & H1 & H2 & H3). rewrite (choice_read 3 s1) by auto with lia. simpl.
    erewrite ask_pid_spelled, ask_limit_spelled by done. cbn [w_pid w_memory_limit].
    match goal with |- context [update_memory_limit _ _ _ ?w] => destruct (update_action p (u64 (kb * 1024)) w) as [o ->] end; [done|apply u64_range|].
    eexists. split_and!; [done|done|]. simpl. by destruct (run _ _).
  - intros (Hp & s1 & H1 & H2). rewrite (choice_read 4 s1) by auto with lia. simpl.
    erewrite ask_pid_spelled by done. cbn [w_pid].
    match goal with |- context [remove_memory_limit _ _ ?w] => destruct (remove_action p w) as [o ->] end; [done|].
    eexists. split_and!; [done|done|]. simpl. by destruct (run _ _).
  - intros (Hz & Hno & H1). rewrite (choice_read z rest) by done. simpl.
    rewrite !(proj2 (Z.eqb_neq z _)) by lia. eexists. by split_and!.
Qed.

Lemma turn_exit rest w : spells 5 (w_stdin w) rest -> exists w', turn config apr w = Some (w', true) /\ kern w' = kern w.
Proof. intros H. unfold turn. rewrite (choice_read 5 rest) by (done || unfold is_s32; lia). simpl. by eexists. Qed.

Lemma exec_all_app cs1 cs2 k :
  exec_all (cs1 ++ cs2) k = let '(r1, k1) := exec_all cs1 k in let '(r2, k2) := exec_all cs2 k1 in (r1 ++ r2, k2).
Proof.
  revert k. induction cs1 as [|c cs1 IH]; intros k; cbn [app exec_all]; [by destruct (exec_all cs2 k)|].
  destruct (run (exec c) k) as [r k1]. rewrite IH. destruct (exec_all cs1 k1) as [r1 k2].
  by destruct (exec_all cs2 k2).
Qed.

Lemma main_script cs s w : script cs s -> w_stdin w = s -> exists w',
  main config apr (S (length cs)) w = Returned w' /\ kern w' = (exec_all (flat_map calls cs) (kern w)).2.
Proof.
  intros Hs. revert w. induction Hs as [s rest H5|c cs s rest Hc _ IH]; intros w <-.
  - destruct (turn_exit rest w H5) as (w' & Ht & Hk). exists w'. cbn [length main]. by rewrite Ht.
  - destruct (turn_command c rest w Hc) as (w1 & Ht & Hi & Hk). destruct (IH w1 Hi) as (w' & Hm & Hk').
    exists w'. split; [cbn [length main]; by rewrite Ht|].
    cbn [flat_map]. rewrite exec_all_app, Hk'. rewrite Hk. destruct (exec_all (calls c) _) as [r1 k1]. simpl.
    by destruct (exec_all _ k1).
Qed.

(** C3: the administration program, given any sequence of menu choices and numbers
    that ends with 5, however the numbers are spelled, returns after one turn
    per choice; through the system call numbers, the table and the stubs it has
    then made exactly the calls the choices stand for, with limits in bytes, and
    the kernel's list is what these calls make of a finite map from pid to limit. *)
Theorem session_refines_map cs s w m :
  script cs s -> w_stdin w = s -> wf_list (kern w) -> represents (kern w) m ->
  exists w' rs m', main config apr (S (length cs)) w = Returned w' /\
    exec_all (flat_map calls cs) (kern w) = (rs, kern w') /\
    spec_run (flat_map calls cs) m rs m' /\ wf_list (kern w') /\ represents (kern w') m'.
Proof.
  intros Hs Hw Hwf Hr. destruct (main_script cs s w Hs Hw) as (w' & Hm & Hk).
  destruct (exec_all (flat_map calls cs) (kern w)) as [rs k'] eqn:E. simpl in Hk. subst k'.
  destruct (trace_refines _ _ _ _ _ Hwf Hr E) as (m' & ? & ? & ?). exists w', rs, m'. done.
Qed.

(** *** Input that is not a number *)

(** After white space comes the end of the input or something that does not start a number. *)
Definition unreadable (s : list Z) : Prop :=
  match skip_space s with
  | [] => True
  | b :: _ => is_digit b = false /\ b <> 45 /\ b <> 43
  end.
Lemma skip_space_head s : match skip_space s with b :: _ => is_space b = false | [] => True end.
Proof. induction s as [|b s IH]; simpl; [done|]. destruct (is_space b) eqn:E; [done|]. done. Qed.
Lemma skip_space_idem s : skip_space (skip_space s) = skip_space s.
Proof. pose proof (skip_space_head s). destruct (skip_space s) as [|b r]; [done|]. simpl. by rewrite H. Qed.
Lemma unreadable_scan s : unreadable s -> scan_number s = (None, skip_space s) /\ unreadable (skip_space s).
Proof.
  unfold unreadable. rewrite skip_space_idem. intros H. split; [|done]. unfold scan_number.
  destruct (skip_space s) as [|b r]; [done|]. destruct H as (Hd & H1 & H2). simpl.
  by rewrite (proj2 (Z.eqb_neq b 45)), (proj2 (Z.eqb_neq b 43)), Hd.
Qed.

(** The world when [choice] could not be read: what is left of the input, the old choice *)
Lemma choice_unreadable w : unreadable (w_stdin w) ->
  print [rule] (scan_choice (print menu w)) = chosen (choice w) (skip_space (w_stdin w)) w.
Proof.
  intros H. unfold scan_choice, scanf_d. simpl. rewrite (proj1 (unreadable_scan _ H)).
  unfold print, chosen. simpl. by rewrite <- app_assoc.
Qed.

Lemma scanf_zu_range old s : is_u64 old -> is_u64 (scanf_zu old s).1.
Proof. intros. unfold scanf_zu. destruct (scan_number s) as [[v|] r]; [|done]. simpl. case_match; apply u64_range. Qed.

Lemma turn_safe w : is_u64 (max_entries w) -> exists w' b, turn config apr w = Some (w', b) /\ is_u64 (max_entries w').
Proof.
  intros Hm. unfold turn. set (w1 := print [rule] _).
  assert (is_u64 (max_entries w1)) as H1.
  { subst w1. unfold scan_choice. by destruct (scanf_d _ _). }
  assert (Hlim : forall q w, is_u64 (max_entries w) -> is_u64 (max_entries (ask_limit (ask_pid q w)))).
  { intros q w0 H0. unfold ask_limit, ask_pid. destruct (scanf_d _ _). simpl. by destruct (scanf_zu _ _). }
  repeat case_match; try (do 2 eexists; by split_and!).
  - do 2 eexists. split; [done|]. unfold add_memory_limit. destruct (syscall _ _ _ _) as [[r e] k].
    case_match; simpl; by apply Hlim.
  - set (w2 := ask_max w1). assert (is_u64 (max_entries w2)) as H3.
    { subst w2. unfold ask_max. pose proof (scanf_zu_range (max_entries w1) (w_stdin w1) H1). by destruct (scanf_zu _ _). }
    destruct (get_action (max_entries w2) w2 H3) as [o ->]. do 2 eexists. by split.
  - do 2 eexists. split; [done|]. unfold update_memory_limit. destruct (syscall _ _ _ _) as [[r e] k].
    case_match; simpl; by apply Hlim.
  - do 2 eexists. split; [done|]. unfold remove_memory_limit, ask_pid. destruct (scanf_d _ _).
    destruct (syscall _ _ _ _) as [[r e] k]. by case_match.
Qed.

(** C13: whatever is typed, the program reads from the buffer only entries that the
    kernel wrote during the last call and that lie within the memory it
    allocated, also for sizes that overflow. *)
Theorem client_reads_in_bounds fuel w : is_u64 (max_entries w) -> main config apr fuel w <> BadRead.
Proof.
  revert w. induction fuel as [|n IH]; intros w Hm; cbn [main]; [done|].
  destruct (turn_safe w Hm) as (w' & b & -> & Hm'). destruct b; [done|by apply IH].
Qed.

Lemma turn_unreadable_update w : unreadable (w_stdin w) -> choice w = 3 -> is_s32 (w_pid w) -> exists w',
  turn config apr w = Some (w', false) /\ unreadable (w_stdin w') /\ choice w' = 3 /\ w_pid w' = w_pid w /\
  w_memory_limit w' = u64 (w_memory_limit w * 1024) /\
  kern w' = (run (exec (Update (w_pid w) (u64 (w_memory_limit w * 1024)))) (kern w)).2.
Proof.
  intros Hu Hc Hp. destruct (unreadable_scan _ Hu) as [_ Hu1]. destruct (unreadable_scan _ Hu1) as [E1 Hu2].
  rewrite skip_space_idem in E1. unfold turn. rewrite choice_unreadable, Hc by done. simpl.
  unfold ask_limit, ask_pid, scanf_d, scanf_zu. simpl. rewrite E1. simpl. rewrite E1. simpl.
  match goal with |- context [update_memory_limit _ _ _ ?w0] =>
    destruct (update_action (w_pid w) (u64 (w_memory_limit w * 1024)) w0) as [o ->] end; [done|apply u64_range|].
  eexists. by split_and!.
Qed.

Lemma u64_mul_l a b : u64 (u64 a * b) = u64 (a * b).
Proof. unfold u64. by rewrite Zmult_mod_idemp_l. Qed.

(** When the input ends, or cannot be read as a number, after an update, the
    program does not stop: it makes the same update again and again, each time
    with a limit 1024 times the last one. *)
Theorem end_of_input_repeats_update n w : unreadable (w_stdin w) -> choice w = 3 -> is_s32 (w_pid w) -> exists w',
  main config apr n w = Running w' /\
  kern w' = (exec_all (map (fun i => Update (w_pid w) (u64 (w_memory_limit w * 1024 ^ Z.of_nat i))) (seq 1 n)) (kern w)).2.
Proof.
  revert w. induction n as [|n IH]; intros w Hu Hc Hp; [by exists w|].
  destruct (turn_unreadable_update w Hu Hc Hp) as (w1 & Ht & Hu1 & Hc1 & Hp1 & Hl1 & Hk1).
  destruct (IH w1 Hu1 Hc1) as (w' & Hm & Hk); [by rewrite Hp1|].
  exists w'. split; [cbn [main]; by rewrite Ht|]. rewrite Hk, Hk1, Hp1, Hl1. cbn [seq map exec_all].
  rewrite Z.pow_1_r. destruct (run _ _) as [r k1]. simpl.
  rewrite <- (seq_shift n 1), map_map.
  rewrite (map_ext _ (fun i => Update (w_pid w) (u64 (w_memory_limit w * 1024 ^ Z.of_nat (S i))))).
  - by destruct (exec_all _ k1).
  - intros i. do 1 f_equal. rewrite u64_mul_l. f_equal. rewrite Nat2Z.inj_succ, Z.pow_succ_r by lia. lia.
Qed.

End properties.

(** ** Witnesses *)
Module Demo.
Import MemLimit.Demo.
#[local] Instance kmalloc_real : Kmalloc := {|
  kmalloc_node h := Some (next_free h); kmalloc_array n size := n * size <? u64_mod |}.
#[local] Instance kmalloc_real_laws : KmallocLaws.
Proof. split. intros h p [= <-]. apply eq_None_not_Some. intros ?%next_free_above. lia. Qed.
#[local] Instance kmalloc_real_array : KmallocArray.
Proof. split. intros n H. apply Z.ltb_ge. done. Qed.
#[local] Existing Instances list_head_list MemLimit.Demo.list_head_laws root_caps MemLimit.Demo.env uaccess_ok Entry.Demo.lp64.
#[local] Instance libc0 : Libc := {|
  int_reg v := v + 7 * 2 ^ 32; malloc n := if n <? 2 ^ 32 then Some 4096 else None;
  strerror _ := "error"; out_of_range v := -1 |}.
#[local] Instance libc0_laws : LibcLaws.
Proof.
  split; [intros v; simpl; by rewrite Z_mod_plus_full|].
  intros n b. simpl. case_match; [|done]. intros [= <-]. unfold is_u64. lia.
Qed.
#[local] Instance lp64_ok : LP64.
Proof. by split. Qed.

Definition world0 (s : list Z) : world := World s [] st0 0 0 0 0.
(** Add pid 7 with 3000 KB, list up to ten, an option that does not exist, exit. *)
Definition input : list Z := bytes_of "1 7 3000" ++ [10] ++ bytes_of "+2 10 9 5".
Definition input_cmds : list cmd := [CAdd 7 3000; CGet 10; COther 9].

Ltac spelled := split; [reflexivity|split; [repeat constructor|split; [vm_compute; auto|split; [done|split;
  [repeat constructor|split; [intros ?? H; by inversion H|reflexivity]]]]]].
Ltac spell w sg d := exists (bytes_of w), false, (bytes_of sg), (bytes_of d); spelled.

Lemma input_script : script input_cmds input.
Proof.
  apply script_cons with ([10] ++ bytes_of "+2 10 9 5").
  { split; [done|]. split; [done|]. exists (bytes_of " 7 3000" ++ [10] ++ bytes_of "+2 10 9 5"), (bytes_of " 3000" ++ [10] ++ bytes_of "+2 10 9 5").
    split_and!; [spell "" "" "1"|spell " " "" "7"|spell " " "" "3000"]. }
  apply script_cons with (bytes_of " 9 5").
  { split; [done|]. exists (bytes_of " 10 9 5"). split; [|spell " " "" "10"].
    exists [10], false, (bytes_of "+"), (bytes_of "2"). spelled. }
  apply script_cons with (bytes_of " 5").
  { split_and!; [done|lia|spell " " "" "9"]. }
  apply script_exit with []. spell " " "" "5".
Qed.

Example output : match main Protos.Demo.config 512 4 (world0 input) with
  | Returned w => drop (length menu) (w_out w) !! 3%nat = Some (outln "Memory limit added for PID 7 3072000 bytes ") /\
                  outln "PID: 7, Memory Limit: 3072000 bytes" ∈ w_out w
  | _ => False
  end.
Proof. vm_compute. split; [reflexivity|]. repeat (left || right). Qed.

Lemma addr_ok : is_u64 512.
Proof. unfold is_u64. lia. Qed.
Lemma world0_represents s : represents (kern (world0 s)) (init_spec k0).
Proof. apply represents_init. Qed.

Lemma session_refines_map_witness : exists w' rs m',
  main Protos.Demo.config 512 4 (world0 input) = Returned w' /\
  spec_run (flat_map (calls 512) input_cmds) (init_spec k0) rs m' /\ represents (kern w') m'.
Proof.
  destruct (session_refines_map Protos.Demo.config 512 addr_ok input_cmds input (world0 input) (init_spec k0))
    as (w' & rs & m' & H1 & _ & H2 & _ & H3); [apply input_script|reflexivity|apply wf_list_init|apply world0_represents|].
  exists w', rs, m'. split; [exact H1|]. split; [exact H2|exact H3].
Defined.

(** 2^60 entries: 16 times that is 0 in 64 bits, and the kernel has to refuse. *)
Lemma client_reads_in_bounds_witness :
  main Protos.Demo.config 512 3 (world0 (bytes_of "2 1152921504606846976")) <> BadRead.
Proof. apply (client_reads_in_bounds Protos.Demo.config 512 addr_ok). unfold is_u64. simpl. lia. Defined.

(** "x" after an update of pid 7 to 3000 KB *)
Definition after_update : world := World (bytes_of "x") [] (exec_all [Add 7 3072000] st0).2 3 7 3072000 0.
Lemma end_of_input_repeats_update_witness : exists w',
  main Protos.Demo.config 512 2 after_update = Running w' /\
  entries (kern w') = [MemLim 7 (3072000 * 1024 * 1024)].
Proof.
  destruct (end_of_input_repeats_update Protos.Demo.config 512 2 after_update) as (w' & H1 & H2);
    [by vm_compute|reflexivity|done|].
  exists w'. split; [exact H1|]. rewrite H2. vm_compute. reflexivity.
Defined.
End Demo.
