(* ===== verification/Programs.v ===== *)
(** * The test programs of phases 1 and 2

    Pruebas/SyscallsP1/syscall1.c, syscall2.c, syscall3.c, SyscallsP2/
    test_tamalloc.c and SyscallsP3/ejemplo_malloc.c.  The kernel copies a
    structure as bytes; each program declares the structure once more and reads
    the bytes through its own declaration.  Layout is that of x86-64 (alignment
    by size, 8-byte [long], little endian). *)
From stdpp Require Import strings pretty.
From S2P Require Import Prelude UMem Sysinfo Luis Entry.
#[local] Open Scope Z_scope.

(** ** Layout of structures *)
Inductive cfield := FInt (b : ibase) | FArr (n : nat) (f : cfield) | FRec (l : cfields)
with cfields := FNil | FCons (name : string) (f : cfield) (l : cfields).
Notation "s ':>' f ;; l" := (FCons s f l) (at level 60, f at next level, right associativity).

Definition sizeof_int (b : ibase) : Z :=
  match b with
  | Char | SChar | UChar => 1
  | Short | UShort => 2
  | Int | UInt => 4
  | Long | ULong | LLong | ULLong => 8
  end.
Definition round_up (n a : Z) : Z := (n + a - 1) / a * a.

Fixpoint alignof (f : cfield) : Z :=
  match f with FInt b => sizeof_int b | FArr _ f => alignof f | FRec l => aligns l end
with aligns (l : cfields) : Z :=
  match l with FNil => 1 | FCons _ f l => Z.max (alignof f) (aligns l) end.
(** [fields l off]: name, offset and size of each field from [off] on; [fields_end]
    is where the last one ends. *)
Fixpoint sizeof (f : cfield) : Z :=
  match f with
  | FInt b => sizeof_int b
  | FArr n f => Z.of_nat n * sizeof f
  | FRec l => round_up (fields_end l 0) (aligns l)
  end
with fields_end (l : cfields) (off : Z) : Z :=
  match l with FNil => off | FCons _ f l => fields_end l (round_up off (alignof f) + sizeof f) end.
Fixpoint fields (l : cfields) (off : Z) : list (string * Z * Z) :=
  match l with
  | FNil => []
  | FCons s f l => let o := round_up off (alignof f) in (s, o, sizeof f) :: fields l (o + sizeof f)
  end.

Abbreviation ul := (FInt ULong) (only parsing).
Abbreviation ull := (FInt ULLong) (only parsing).

(** In the kernel: sys.c and syscall3.c *)
Module Kernel.
Definition memory_snapshot : cfields :=
  "total_mem_kb" :> ul ;; "free_mem_kb" :> ul ;; "cached_mem_kb" :> ul ;; "dirty_page_count" :> ul ;;
  "slab_mem_kb" :> ul ;; "reclaimable_slab_mem_kb" :> ul ;; "active_page_count" :> ul ;; "inactive_page_count" :> ul ;;
  "total_swap_kb" :> ul ;; "snapshot_date" :> FArr 36 (FInt Char) ;; FNil.
Definition track_counters : cfields :=
  "counter_open" :> FInt Long ;; "counter_read" :> FInt Long ;; "counter_write" :> FInt Long ;; "counter_fork" :> FInt Long ;; FNil.
Definition io_stats : cfields :=
  "pid" :> FInt Int ;; "comm" :> FArr 18 (FInt Char) ;; "bytes_read" :> ull ;; "bytes_written" :> ull ;;
  "cancelled_write_bytes" :> ull ;; "io_wait_time" :> ull ;; FNil.
Definition all_io_stats : cfields := "stats" :> FArr 20 (FRec io_stats) ;; "num_procs" :> FInt Int ;; FNil.
Definition memory_limitation : cfields := "pid" :> FInt Int ;; "memory_limit" :> ul ;; FNil.
End Kernel.

(** In the programs *)
Module User.
Definition memory_snapshot : cfields :=
  "total_mem_kb" :> ul ;; "free_mem_kb" :> ul ;; "active_page_count" :> ul ;; "inactive_page_count" :> ul ;;
  "total_swap_kb" :> ul ;; "slab_mem_kb" :> ul ;; "reclaimable_slab_mem_kb" :> ul ;;
  "snapshot_date" :> FArr 36 (FInt Char) ;; FNil.
Definition track_counters : cfields :=
  "counter_open" :> FInt Long ;; "counter_read" :> FInt Long ;; "counter_write" :> FInt Long ;; "counter_fork" :> FInt Long ;; FNil.
Definition io_stats : cfields :=
  "pid" :> FInt Int ;; "comm" :> FArr 18 (FInt Char) ;; "bytes_read" :> ull ;; "bytes_written" :> ull ;;
  "cancelled_write_bytes" :> ull ;; "io_wait_time" :> ull ;; FNil.
Definition all_io_stats : cfields := "stats" :> FArr 20 (FRec io_stats) ;; "num_procs" :> FInt Int ;; FNil.
Definition memory_limitation : cfields := "pid" :> FInt Int ;; "memory_limit" :> ul ;; FNil.
End User.

(** ** Values as bytes *)
Fixpoint le_bytes (n : nat) (v : Z) : list Z :=
  match n with O => [] | S n => v mod 256 :: le_bytes n (v / 256) end.
Fixpoint le_value (l : list Z) : Z := match l with [] => 0 | b :: l => b + 256 * le_value l end.

(** A field of an object, by the layout of the reader *)
Definition at_field (l : cfields) (s : string) (mem : list Z) : list Z :=
  match List.find (fun x => bool_decide (fst (fst x) = s)) (fields l 0) with
  | Some (_, o, n) => take (Z.to_nat n) (drop (Z.to_nat o) mem)
  | None => []
  end.
Definition ulong_at (l : cfields) (s : string) (mem : list Z) : Z := le_value (at_field l s mem).
Definition long_at (l : cfields) (s : string) (mem : list Z) : Z := s64 (le_value (at_field l s mem)).
Definition int_at (l : cfields) (s : string) (mem : list Z) : Z := s32 (le_value (at_field l s mem)).
(** [%s]: the bytes up to the first NUL *)
Definition chars_at (l : cfields) (s : string) (mem : list Z) : list Z := cstr (at_field l s mem).

(** What the kernel copies out; [pad] are the bytes between and behind the fields. *)
Definition snapshot_bytes (pad : list Z) (v : memory_snapshot) : list Z :=
  le_bytes 8 (total_mem_kb v) ++ le_bytes 8 (free_mem_kb v) ++ le_bytes 8 (cached_mem_kb v) ++
  le_bytes 8 (dirty_page_count v) ++ le_bytes 8 (slab_mem_kb v) ++ le_bytes 8 (reclaimable_slab_mem_kb v) ++
  le_bytes 8 (active_page_count v) ++ le_bytes 8 (inactive_page_count v) ++ le_bytes 8 (total_swap_kb v) ++
  snapshot_date v ++ pad.
Definition counters_bytes (c : track_counters) : list Z :=
  le_bytes 8 (counter_open c) ++ le_bytes 8 (counter_read c) ++ le_bytes 8 (counter_write c) ++ le_bytes 8 (counter_fork c).
Definition io_bytes (pad : list Z) (e : io_stats) : list Z :=
  le_bytes 4 (pid e) ++ comm e ++ pad ++ le_bytes 8 (bytes_read e) ++ le_bytes 8 (bytes_written e) ++
  le_bytes 8 (cancelled_write_bytes e) ++ le_bytes 8 (io_wait_time e).
Definition all_io_bytes (pad pad' : list Z) (v : all_io_stats) : list Z :=
  (stats v ≫= io_bytes pad) ++ le_bytes 4 (num_procs v) ++ pad'.

(** ** The programs

    Each [main] as what it prints and returns, given the result of its system
    call and the object the call filled.  [Label s v] is the line that shows
    the number [v] under [s]; units, indentation and prompts are left out. *)
Inductive shown := Label (s : string) (v : Z) | Chars (s : string) (l : list Z) | Perror (s : string).

Definition syscall1_main (result : Z) (snapshot : list Z) : list shown * Z :=
  let u := User.memory_snapshot in
  (if result =? 0 then
     [Chars "Fecha del Snapshot" (chars_at u "snapshot_date" snapshot);
      Label "Memoria Total" (ulong_at u "total_mem_kb" snapshot);
      Label "Memoria Libre" (ulong_at u "free_mem_kb" snapshot);
      Label "Páginas Activas" (ulong_at u "active_page_count" snapshot);
      Label "Páginas Inactivas" (ulong_at u "inactive_page_count" snapshot);
      Label "Swap Total" (ulong_at u "total_swap_kb" snapshot);
      Label "Memoria Slab (No Reclamable)" (ulong_at u "slab_mem_kb" snapshot);
      Label "Memoria Slab Reclamable" (ulong_at u "reclaimable_slab_mem_kb" snapshot)]
   else [Perror "Error al llamar a luis_capture_memory_snapshot"], 0).

Definition syscall2_main (result : Z) (trackers : list Z) : list shown * Z :=
  let u := User.track_counters in
  (if result =? 0 then
     [Label "Lllamadas a open" (long_at u "counter_open" trackers); Label "Llamadas a read" (long_at u "counter_read" trackers);
      Label "Lllamadas a write" (long_at u "counter_write" trackers); Label "Llamadas a fork" (long_at u "counter_fork" trackers)]
   else [Perror "luis_track_syscall_usage failed"], 0).

(** [user_stats.stats[i]] *)
Definition stats_at (i : nat) (mem : list Z) : list Z :=
  let n := Z.to_nat (sizeof (FRec User.io_stats)) in take n (drop (i * n) (at_field User.all_io_stats "stats" mem)).
Definition show_stats (i : nat) (e : list Z) : list shown :=
  let u := User.io_stats in
  [Label "Proceso" (Z.of_nat i + 1); Label "PID" (int_at u "pid" e); Chars "Nombre" (chars_at u "comm" e);
   Label "Bytes leídos" (ulong_at u "bytes_read" e); Label "Bytes escritos" (ulong_at u "bytes_written" e);
   Label "Bytes cancelados" (ulong_at u "cancelled_write_bytes" e); Label "Tiempo de espera de I/O" (ulong_at u "io_wait_time" e)].
Definition syscall3_main (result : Z) (user_stats : list Z) : list shown * Z :=
  if result =? -1 then ([Perror "syscall"], -1)
  else
    let n := int_at User.all_io_stats "num_procs" user_stats in
    (Label "Número de procesos" n :: (seq 0 (Z.to_nat n) ≫= fun i => show_stats i (stats_at i user_stats)), 0).

(** test_tamalloc.c: read each byte, which must be 0, and write a letter; [rand i]
    is the [i]-th result of [rand()].  The memory afterwards, and the byte that
    was not 0 if there was one. *)
Fixpoint check_and_fill (rand : nat -> Z) (addr : Z) (i n : nat) (mem : gmap Z Z) : gmap Z Z * option nat :=
  match n with
  | O => (mem, None)
  | S n' => if default 0 (mem !! (addr + Z.of_nat i)) =? 0
            then check_and_fill rand addr (S i) n' (<[addr + Z.of_nat i := 65 + rand i mod 26]> mem)
            else (mem, Some i)
  end.
(** [main] returns 1 when the call failed, 10 when a byte was not 0. *)
Definition test_tamalloc_main (total_size : nat) (rand : nat -> Z) (result addr : Z) (mem : gmap Z Z) : Z * gmap Z Z :=
  if negb (result =? 0) then (1, mem)
  else match check_and_fill rand addr 0 total_size mem with
       | (mem', None) => (0, mem')
       | (mem', Some _) => (10, mem')
       end.

(** ejemplo_malloc.c: [buffer[i] = 'A' + (i % 26)] *)
Fixpoint fill_letters (addr : Z) (i n : nat) (mem : gmap Z Z) : gmap Z Z :=
  match n with
  | O => mem
  | S n' => fill_letters addr (S i) n' (<[addr + Z.of_nat i := 65 + Z.of_nat i mod 26]> mem)
  end.
Definition ejemplo_malloc_main (alloc_size : nat) (buffer : option Z) (mem : gmap Z Z) : Z * gmap Z Z :=
  match buffer with
  | None => (1, mem)
  | Some a => (0, fill_letters a 0 alloc_size mem)
  end.

(** ** Properties *)
Lemma le_value_bytes n v : le_value (le_bytes n v) = v mod 256 ^ Z.of_nat n.
Proof.
  revert v. induction n as [|n IH]; intros v; cbn [le_bytes le_value]; [by rewrite Z.mod_1_r|].
  rewrite IH, Nat2Z.inj_succ, Z.pow_succ_r by lia. rewrite Z.rem_mul_r by (try apply Z.pow_nonzero; lia). lia.
Qed.
Lemma ulong_bytes v : is_u64 v -> le_value (le_bytes 8 v) = v.
Proof. intros. rewrite le_value_bytes. by apply Z.mod_small. Qed.
Lemma long_bytes v : is_s64 v -> s64 (le_value (le_bytes 8 v)) = v.
Proof.
  intros Hv. rewrite le_value_bytes. rewrite <- (s64_small v Hv) at 2. unfold s64.
  change (256 ^ Z.of_nat 8) with u64_mod. by rewrite Zplus_mod_idemp_l.
Qed.
Lemma int_bytes v : is_s32 v -> s32 (le_value (le_bytes 4 v)) = v.
Proof.
  intros Hv. rewrite le_value_bytes. rewrite <- (s32_small v Hv) at 2. unfold s32.
  change (256 ^ Z.of_nat 4) with u32_mod. by rewrite Zplus_mod_idemp_l.
Qed.
Lemma length_le_bytes n v : length (le_bytes n v) = n.
Proof. revert v. induction n; intros; simpl; auto. Qed.

Lemma sizes : sizeof (FRec Kernel.memory_snapshot) = 112 /\ sizeof (FRec Kernel.track_counters) = 32 /\
  sizeof (FRec Kernel.io_stats) = 56 /\ sizeof (FRec Kernel.all_io_stats) = 1128 /\ sizeof (FRec Kernel.memory_limitation) = 16.
Proof. vm_compute. auto. Qed.

(** The other declarations of the programs have the layout of the kernel's. *)
Lemma layouts_agree : fields User.track_counters 0 = fields Kernel.track_counters 0 /\
  fields User.io_stats 0 = fields Kernel.io_stats 0 /\ fields User.all_io_stats 0 = fields Kernel.all_io_stats 0 /\
  fields User.memory_limitation 0 = fields Kernel.memory_limitation 0.
Proof. vm_compute. auto. Qed.

(** The field is just what was written there. *)
Ltac ulong_here := etrans; [|apply ulong_bytes; eassumption]; reflexivity.

(** *** syscall1.c *)
Record snapshot_ok (v : memory_snapshot) : Prop := {
  ok_total : is_u64 (total_mem_kb v); ok_free : is_u64 (free_mem_kb v); ok_cached : is_u64 (cached_mem_kb v);
  ok_dirty : is_u64 (dirty_page_count v); ok_slab : is_u64 (slab_mem_kb v);
  ok_reclaimable : is_u64 (reclaimable_slab_mem_kb v); ok_active : is_u64 (active_page_count v);
}.

(** The snapshot the kernel copies is 16 bytes longer than the object syscall1.c
    gives it, and of what the program prints only the first two numbers are what
    they are labelled: the cache is shown as active pages, dirty pages as
    inactive ones, slab memory as swap, reclaimable slab memory as not
    reclaimable, active pages as reclaimable slab memory, and the date starts
    with the bytes of the number of inactive pages. *)
Theorem syscall1_misreads pad v : snapshot_ok v ->
  length (snapshot_date v) = 36%nat -> length pad = 4%nat ->
  Z.of_nat (length (snapshot_bytes pad v)) = sizeof (FRec User.memory_snapshot) + 16 /\
  fst (syscall1_main 0 (snapshot_bytes pad v)) =
    [Chars "Fecha del Snapshot" (cstr (le_bytes 8 (inactive_page_count v) ++ le_bytes 8 (total_swap_kb v) ++ take 20 (snapshot_date v)));
     Label "Memoria Total" (total_mem_kb v); Label "Memoria Libre" (free_mem_kb v);
     Label "Páginas Activas" (cached_mem_kb v); Label "Páginas Inactivas" (dirty_page_count v);
     Label "Swap Total" (slab_mem_kb v); Label "Memoria Slab (No Reclamable)" (reclaimable_slab_mem_kb v);
     Label "Memoria Slab Reclamable" (active_page_count v)].
Proof.
  intros [] Hd Hp. split.
  - unfold snapshot_bytes. rewrite !length_app, !length_le_bytes, Hd, Hp. reflexivity.
  - unfold syscall1_main. cbn [fst Z.eqb]. repeat f_equal; [|ulong_here..].
    unfold chars_at. f_equal. rewrite <- (take_app_le (snapshot_date v) pad) by lia. reflexivity.
Qed.

(** *** syscall2.c *)
Record counters_ok (c : track_counters) : Prop := {
  ok_open : is_s64 (counter_open c); ok_read : is_s64 (counter_read c); ok_write : is_s64 (counter_write c); ok_fork : is_s64 (counter_fork c);
}.

Section calls.
Context {ua : UAccess} {senv : SysinfoEnv} {lenv : LuisEnv}.

(** Syscall2.c prints the four counters of the kernel, each under its name. *)
Theorem syscall2_shows_counters a s s' : counters_ok (call_counters s) ->
  run (sys_luis_track_syscall_usage a) s = (0, s') -> exists c, tracks s' !! a = Some c /\
  fst (syscall2_main 0 (counters_bytes c)) =
    [Label "Lllamadas a open" (counter_open (call_counters s)); Label "Llamadas a read" (counter_read (call_counters s));
     Label "Lllamadas a write" (counter_write (call_counters s)); Label "Llamadas a fork" (counter_fork (call_counters s))].
Proof.
  intros [] E. apply run_inv in E. unfold sys_luis_track_syscall_usage, copy_to_user in E. destruct E as [E|E]; sys_inv E.
  simplify_eq/=. replace (uncopied a 32 =? 0) with true by lia. rewrite lookup_insert_eq. eexists. split; [done|].
  unfold syscall2_main. cbn [fst Z.eqb]. unfold counters_bytes. cbn [counter_open counter_read counter_write counter_fork].
  repeat f_equal; by apply long_bytes.
Qed.

(** *** syscall3.c *)
Record entry_ok (e : io_stats) : Prop := {
  ok_pid : is_s32 (pid e); ok_comm : length (comm e) = 18%nat; ok_bread : is_u64 (bytes_read e); ok_bwritten : is_u64 (bytes_written e);
  ok_cancelled : is_u64 (cancelled_write_bytes e); ok_wait : is_u64 (io_wait_time e);
}.
(** What the program shows of entry [i] *)
Definition entry_shown (i : nat) (e : io_stats) : list shown :=
  [Label "Proceso" (Z.of_nat i + 1); Label "PID" (pid e); Chars "Nombre" (cstr (comm e));
   Label "Bytes leídos" (bytes_read e); Label "Bytes escritos" (bytes_written e);
   Label "Bytes cancelados" (cancelled_write_bytes e); Label "Tiempo de espera de I/O" (io_wait_time e)].

Lemma show_entry_bytes pad i e : entry_ok e -> length pad = 2%nat -> show_stats i (io_bytes pad e) = entry_shown i e.
Proof.
  intros [] Hp. destruct e as [p c r w k t]. cbn [pid comm bytes_read bytes_written cancelled_write_bytes io_wait_time] in *.
  do 18 (destruct c as [|? c]; [discriminate|]). destruct c; [|discriminate].
  do 2 (destruct pad as [|? pad]; [discriminate|]). destruct pad; [|discriminate].
  unfold show_stats, entry_shown. repeat f_equal; [by apply int_bytes|ulong_here..].
Qed.

(** Entry [i] of an array is its [i]-th block of bytes. *)
Lemma bind_block {A} (f : A -> list Z) n (l : list A) i x rest :
  (forall y, y ∈ l -> length (f y) = n) -> l !! i = Some x -> take n (drop (i * n) ((l ≫= f) ++ rest)) = f x.
Proof.
  revert i. induction l as [|y l IH]; intros i Hn Hi; [done|].
  assert (length (f y) = n) as Hy by (apply Hn; set_solver). cbn [mbind list_bind]. rewrite <- app_assoc. destruct i as [|i]; simpl in Hi.
  - injection Hi as ->. by apply take_app_length'.
  - rewrite drop_app_ge by lia. replace (S i * n - length (f y))%nat with (i * n)%nat by lia. apply IH; [|done]. intros. apply Hn. set_solver.
Qed.
Lemma bind_ext_in {A B} (f g : A -> list B) l : (forall x, x ∈ l -> f x = g x) -> l ≫= f = l ≫= g.
Proof. induction l as [|x l IH]; intros H; [done|]. cbn [mbind list_bind]. rewrite H, IH by set_solver. done. Qed.
Lemma bind_seq_shift {A B} (f : nat -> A -> list B) (l : list A) k :
  (seq k (length l) ≫= fun i => default [] (f i <$> l !! (i - k)%nat)) = concat (imap (fun i => f (k + i)%nat) l).
Proof.
  revert k. induction l as [|x l IH]; intros k; [done|]. cbn [length seq mbind list_bind imap concat].
  rewrite Nat.sub_diag. simpl. rewrite Nat.add_0_r. f_equal.
  transitivity (seq (S k) (length l) ≫= fun i => default [] (f i <$> l !! (i - S k)%nat)).
  - apply bind_ext_in. intros i Hi%elem_of_seq. by replace (i - k)%nat with (S (i - S k)) by lia.
  - rewrite IH. f_equal. apply imap_ext. intros i y _. simpl. by rewrite Nat.add_succ_r.
Qed.
Lemma bind_seq_imap {A B} (f : nat -> A -> list B) (l : list A) :
  (seq 0 (length l) ≫= fun i => default [] (f i <$> l !! i)) = concat (imap f l).
Proof.
  pose proof (bind_seq_shift f l 0) as H. etrans; [|exact H]. apply bind_ext_in. intros i _. by rewrite Nat.sub_0_r.
Qed.
Lemma length_bind {A} (f : A -> list Z) n (l : list A) :
  (forall y, y ∈ l -> length (f y) = n) -> length (l ≫= f) = (length l * n)%nat.
Proof.
  induction l as [|y l IH]; intros Hn; [done|]. cbn [mbind list_bind length]. rewrite length_app, Hn, IH by set_solver. lia.
Qed.
Lemma length_io_bytes pad e : entry_ok e -> length pad = 2%nat -> length (io_bytes pad e) = 56%nat.
Proof. intros [] Hp. unfold io_bytes. rewrite !length_app, !length_le_bytes, ok_comm0, Hp. reflexivity. Qed.

Lemma syscall3_reads pad pad' v : length (stats v) = 20%nat -> (forall e, e ∈ stats v -> entry_ok e) ->
  0 <= num_procs v <= 20 -> length pad = 2%nat ->
  fst (syscall3_main 0 (all_io_bytes pad pad' v)) =
    Label "Número de procesos" (num_procs v) :: 
    (seq 0 (Z.to_nat (num_procs v)) ≫= fun i => default [] (entry_shown i <$> stats v !! i)).
Proof.
  intros Hl Hok Hn Hp.
  assert (Hb : forall e, e ∈ stats v -> length (io_bytes pad e) = 56%nat) by eauto using length_io_bytes.
  assert (length (stats v ≫= io_bytes pad) = 1120%nat) as Hlen by (by rewrite (length_bind _ 56), Hl).
  unfold syscall3_main. cbn [Z.eqb fst].
  assert (int_at User.all_io_stats "num_procs" (all_io_bytes pad pad' v) = num_procs v) as ->.
  { etrans; [|apply int_bytes; unfold is_s32; lia]. unfold int_at, all_io_bytes. do 2 f_equal.
    transitivity (take 4 (drop 1120 ((stats v ≫= io_bytes pad) ++ le_bytes 4 (num_procs v) ++ pad'))); [reflexivity|].
    rewrite drop_app_length' by done. by apply take_app_length'. }
  f_equal. apply bind_ext_in. intros i Hi%elem_of_seq.
  destruct (lookup_lt_is_Some_2 (stats v) i) as [e He]; [lia|]. rewrite He. simpl.
  rewrite <- (show_entry_bytes pad i e) by eauto using list_elem_of_lookup_2. f_equal.
  unfold stats_at. transitivity (take 56 (drop (i * 56) (take 1120 (all_io_bytes pad pad' v)))); [reflexivity|].
  unfold all_io_bytes. rewrite take_app_length' by done. rewrite <- (app_nil_r (stats v ≫= _)). by apply bind_block.
Qed.

Record proc_ok (p : proc) : Prop := {
  ok_ppid : is_s32 (p_pid p); ok_pread : is_u64 (p_read p); ok_pwrite : is_u64 (p_write p); ok_pcancelled : is_u64 (p_cancelled p);
}.
Lemma length_comm18 c : length (comm18 c) = 18%nat.
Proof. unfold comm18. rewrite length_app, length_replicate, length_take. lia. Qed.
Lemma io_entry_ok p : proc_ok p -> entry_ok (io_entry p).
Proof. intros []. split; simpl; [done|apply length_comm18|done..|apply u64_range]. Qed.

Lemma cstr_no_nul c : Forall (fun b => b <> 0) (cstr c).
Proof.
  unfold cstr. induction c as [|b c IH]; simpl; [constructor|]. destruct (Z.eqb_spec b 0); simpl; [constructor|by constructor].
Qed.
Lemma cstr_comm18 c : cstr (comm18 c) = take 17 (cstr c).
Proof.
  unfold comm18. set (t := take 17 (cstr c)). assert (length t <= 17)%nat by (unfold t; rewrite length_take; lia).
  replace (18 - length t)%nat with (S (17 - length t)) by lia. cbn [replicate]. unfold cstr at 1.
  rewrite strlen_app_nul by (apply Forall_take, cstr_no_nul). apply take_app_length.
Qed.

(** A process that did I/O, and the lines a reader should see for it. *)
Definition did_io (p : proc) : Prop := p_read p <> 0 \/ p_write p <> 0.
#[local] Instance did_io_dec p : Decision (did_io p).
Proof. unfold did_io. apply _. Defined.
Definition process_shown (i : nat) (p : proc) : list shown :=
  [Label "Proceso" (Z.of_nat i + 1); Label "PID" (p_pid p); Chars "Nombre" (take 17 (cstr (p_comm p)));
   Label "Bytes leídos" (p_read p); Label "Bytes escritos" (p_write p); Label "Bytes cancelados" (p_cancelled p);
   Label "Tiempo de espera de I/O" ((p_runtime p - p_vruntime p) mod 2 ^ 64)].
Lemma entry_process i p : entry_shown i (io_entry p) = process_shown i p.
Proof. unfold entry_shown, process_shown. simpl. by rewrite cstr_comm18. Qed.
Lemma active_filter (ps : list proc) : filter (fun p => idle p = false) ps = filter did_io ps.
Proof.
  apply list_filter_iff. intros p. unfold idle, did_io. rewrite andb_false_iff, !Z.eqb_neq. done.
Qed.

(** C40: syscall3.c prints how many processes luis_get_io_throttle reported and, for
    each of the first twenty processes that read or wrote anything, in the
    kernel's order: its number, its pid, its name cut to 17 bytes, the bytes it
    read, wrote and cancelled as the task counts them, and as waiting time its
    run time minus its virtual run time in 64 bits; nothing else of what the
    kernel copied is shown. *)
Theorem syscall3_shows_active stack_stats a s s' pad pad' :
  length stack_stats = 20%nat -> Forall entry_ok stack_stats -> Forall proc_ok (procs_list s) -> length pad = 2%nat ->
  run (sys_luis_get_io_throttle stack_stats a) s = (0, s') ->
  let active := take 20 (filter did_io (procs_list s)) in
  exists v, ios s' !! a = Some v /\
  fst (syscall3_main 0 (all_io_bytes pad pad' v)) =
    Label "Número de procesos" (Z.of_nat (length active)) :: concat (imap process_shown active).
Proof.
  intros Hst Hso Hpo Hp E active. pose proof (io_throttle_reports_active _ _ _ _ Hst E) as Hv. cbv zeta in Hv.
  rewrite active_filter in Hv. set (ps := filter did_io (procs_list s)) in *. set (n := Nat.min _ (length ps)) in Hv.
  assert (length active = n) as Hna by (unfold active; by rewrite length_take). eexists. split; [exact Hv|].
  assert (Hact : Forall entry_ok (io_entry <$> ps)).
  { apply Forall_fmap, Forall_forall. intros p [_ Hin]%list_elem_of_filter. apply io_entry_ok. by apply (proj1 (Forall_forall _ _) Hpo). }
  assert (Hn : length (take n (io_entry <$> ps)) = n) by (rewrite length_take, length_fmap; lia).
  rewrite syscall3_reads; cbn [stats num_procs]; [|rewrite length_app, length_drop, Hn; lia| |lia|done].
  - rewrite Nat2Z.id, Hna. f_equal. rewrite <- bind_seq_imap, Hna. apply bind_ext_in. intros i Hi%elem_of_seq.
    unfold active. rewrite lookup_app_l, !lookup_take_lt, list_lookup_fmap by lia.
    destruct (ps !! i) as [p|]; [|done]. simpl. apply entry_process.
  - apply Forall_forall, Forall_app. split; [by apply Forall_take|by apply Forall_drop].
Qed.

End calls.

(** *** test_tamalloc.c and ejemplo_malloc.c *)
Definition zero_from (mem : gmap Z Z) (addr : Z) (i n : nat) : Prop :=
  forall j, (i <= j < i + n)%nat -> default 0 (mem !! (addr + Z.of_nat j)) = 0.
(** Bytes [i] to [i + n] of the block hold [f], the rest of the memory is as before. *)
Definition written (f : nat -> Z) (addr : Z) (i n : nat) (mem mem' : gmap Z Z) : Prop :=
  (forall j, (i <= j < i + n)%nat -> mem' !! (addr + Z.of_nat j) = Some (f j)) /\
  (forall x, ~ addr + Z.of_nat i <= x < addr + Z.of_nat (i + n) -> mem' !! x = mem !! x).

Lemma written_none f addr i mem : written f addr i 0 mem mem.
Proof. split; [lia|done]. Qed.
Lemma written_step f addr i n mem mem' :
  written f addr (S i) n (<[addr + Z.of_nat i := f i]> mem) mem' -> written f addr i (S n) mem mem'.
Proof.
  intros [Hin Hout]. split.
  - intros j Hj. destruct (decide (j = i)) as [->|]; [|apply Hin; lia].
    rewrite Hout by lia. by rewrite lookup_insert_eq.
  - intros x Hx. rewrite Hout by lia. rewrite lookup_insert_ne by lia. done.
Qed.
Lemma zero_insert mem addr i n v : zero_from mem addr i (S n) <->
  default 0 (mem !! (addr + Z.of_nat i)) = 0 /\ zero_from (<[addr + Z.of_nat i := v]> mem) addr (S i) n.
Proof.
  unfold zero_from. split.
  - intros H. split; [apply H; lia|]. intros j Hj. rewrite lookup_insert_ne by lia. apply H. lia.
  - intros [H0 H] j Hj. destruct (decide (j = i)) as [->|]; [done|].
    specialize (H j ltac:(lia)). by rewrite lookup_insert_ne in H by lia.
Qed.

Lemma check_and_fill_spec rand addr n i mem :
  match check_and_fill rand addr i n mem with
  | (mem', None) => zero_from mem addr i n /\ written (fun j => 65 + rand j mod 26) addr i n mem mem'
  | (_, Some j) => ~ zero_from mem addr i n
  end.
Proof.
  revert i mem. induction n as [|n IH]; intros i mem; cbn [check_and_fill].
  { split; [unfold zero_from; lia|apply written_none]. }
  destruct (Z.eqb_spec (default 0 (mem !! (addr + Z.of_nat i))) 0) as [H0|H0].
  2: { pose proof (zero_insert mem addr i n 0). tauto. }
  specialize (IH (S i) (<[addr + Z.of_nat i := 65 + rand i mod 26]> mem)).
  pose proof (zero_insert mem addr i n (65 + rand i mod 26)).
  destruct (check_and_fill _ _ _ _ _) as [mem' [j|]]; [tauto|]. destruct IH as [? Hw]. split; [tauto|]. apply written_step, Hw.
Qed.

(** Test_tamalloc.c returns 0 exactly when every byte of the block reads as 0;
    it has then filled the block with capital letters and changed nothing else. *)
Theorem tamalloc_test_exact n rand addr mem code mem' :
  test_tamalloc_main n rand 0 addr mem = (code, mem') ->
  (code = 0 <-> zero_from mem addr 0 n) /\
  (code = 0 -> written (fun j => 65 + rand j mod 26) addr 0 n mem mem' /\ forall j, 65 <= 65 + rand j mod 26 <= 90).
Proof.
  unfold test_tamalloc_main. cbn [Z.eqb negb]. pose proof (check_and_fill_spec rand addr n 0 mem) as H.
  destruct (check_and_fill _ _ _ _ _) as [m [j|]]; intros [= <- <-].
  - split; [split; [lia|tauto]|lia].
  - destruct H. split; [done|]. intros _. split; [done|]. intros j. pose proof (Z.mod_pos_bound (rand j) 26). lia.
Qed.

Lemma fill_letters_spec addr n i mem : written (fun j => 65 + Z.of_nat j mod 26) addr i n mem (fill_letters addr i n mem).
Proof.
  revert i mem. induction n as [|n IH]; intros i mem; cbn [fill_letters]; [apply written_none|].
  apply written_step, IH.
Qed.

(** ** Witnesses *)
Module Demo.
#[local] Existing Instances uaccess_ok Sysinfo.Demo.env0 Luis.Demo.env0.
Definition snap0 : memory_snapshot := Snapshot 8000 5000 1000 30 200 100 70 60 0 (replicate 36 65).
Lemma syscall1_misreads_witness :
  nth_error (fst (syscall1_main 0 (snapshot_bytes [0; 0; 0; 0] snap0))) 3 = Some (Label "Páginas Activas" 1000).
Proof.
  destruct (syscall1_misreads [0; 0; 0; 0] snap0) as [_ H]; [split; unfold is_u64; simpl; lia|reflexivity..|].
  rewrite H. reflexivity.
Defined.

Lemma syscall2_shows_counters_witness : exists c,
  tracks (run (sys_luis_track_syscall_usage 800) Luis.Demo.s0).2 !! 800 = Some c /\
  nth_error (fst (syscall2_main 0 (counters_bytes c))) 1 = Some (Label "Llamadas a read" 2).
Proof.
  destruct (syscall2_shows_counters 800 Luis.Demo.s0 (run (sys_luis_track_syscall_usage 800) Luis.Demo.s0).2)
    as (c & H1 & H2); [split; unfold is_s64; simpl; lia|vm_compute; reflexivity|].
  exists c. split; [exact H1|]. rewrite H2. reflexivity.
Defined.

Definition stack0 : list io_stats := replicate 20 (IoStats 77 (replicate 18 0) 1 2 3 4).
(** Three processes, the second one idle; the third one's name has 20 bytes. *)
Definition procs0 : list proc :=
  [Proc 2 (bytes_of "sh" ++ [0; 0]) 5 6 7 10 20; Proc 3 (bytes_of "idle" ++ [0]) 0 0 9 1 1;
   Proc 4 (bytes_of "abcdefghijklmnopqrst" ++ [0]) 0 8 0 50 30].
Definition l0 : lstate := LState (Track 1 2 3 4) procs0 ∅ ∅ ∅ ∅ ∅.
Lemma syscall3_shows_active_witness : exists v,
  ios (run (sys_luis_get_io_throttle stack0 800) l0).2 !! 800 = Some v /\
  fst (syscall3_main 0 (all_io_bytes [0; 0] [0; 0; 0; 0] v)) =
    [Label "Número de procesos" 2;
     Label "Proceso" 1; Label "PID" 2; Chars "Nombre" (bytes_of "sh"); Label "Bytes leídos" 5; Label "Bytes escritos" 6;
     Label "Bytes cancelados" 7; Label "Tiempo de espera de I/O" 18446744073709551606;
     Label "Proceso" 2; Label "PID" 4; Chars "Nombre" (bytes_of "abcdefghijklmnopq"); Label "Bytes leídos" 0; Label "Bytes escritos" 8;
     Label "Bytes cancelados" 0; Label "Tiempo de espera de I/O" 20].
Proof.
  destruct (syscall3_shows_active stack0 800 l0 (run (sys_luis_get_io_throttle stack0 800) l0).2 [0; 0] [0; 0; 0; 0])
    as (v & H1 & H2); [reflexivity| | |reflexivity|vm_compute; reflexivity|].
  - unfold stack0. apply Forall_replicate. split; unfold is_s32, is_u64; simpl; (lia || reflexivity).
  - repeat constructor; unfold is_s32, is_u64; simpl; lia.
  - exists v. split; [exact H1|]. rewrite H2. vm_compute. reflexivity.
Defined.

Lemma tamalloc_test_exact_witness : zero_from (<[9 := 1]> ∅) 4 0 5 /\
  (test_tamalloc_main 5 (fun _ => 30) 0 4 (<[9 := 1]> ∅)).1 = 0.
Proof.
  assert ((test_tamalloc_main 5 (fun _ => 30) 0 4 (<[9 := 1]> ∅)).1 = 0) as E by (vm_compute; reflexivity).
  destruct (tamalloc_test_exact 5 (fun _ => 30) 4 (<[9 := 1]> ∅) _ _ (surjective_pairing _)) as [H _].
  split; [apply H; exact E|exact E].
Defined.
End Demo.
